(* ===== verification/_CoqProject ===== *)
-Q . S2P
Prelude.v
Mem.v
Mmu.v
Console.v
Kernel.v
Printfmt.v
Str.v
Spinlock.v
Pmap.v
PageAlloc.v
PageTable.v
AddrSpace.v
UserMem.v
Env.v
EnvFree.v
MemInit.v
EnvAlloc.v
Sched.v
E1000.v
Syscall.v
SyscallFacts.v
Kipc.v
Trap.v
TrapFacts.v
Kdebug.v
Monitor.v
Mpconfig.v
Umonad.v
Pci.v
Boot.v
Intr.v
Usys.v
Ipc.v
Nstimer.v
Uvm.v
Uaccess.v
UvmSim.v
Fork.v
Fd.v
Pipe.v
Sock.v
ConsDev.v
Malloc.v
Bc.v
Fs.v
FsLogic.v
FsAlloc.v
FsFiles.v
FsRw.v
Fsformat.v
Serv.v
File.v
Spawn.v
Args.v
Shell.v
