(* ===== verification/Prelude.v ===== *)
(** * JOS: a verification library

    JOS is a small multiprocessor Unix-like system: an exokernel-style kernel
    (src/lab/kern) that multiplexes CPUs, physical pages and address spaces, a
    C library shared by kernel and programs (src/lab/lib, src/lab/inc), a file
    server that runs as an ordinary environment (src/lab/fs), and user programs
    that build processes, file descriptors, pipes and a heap out of the kernel's
    page-table system calls.  This library models those parts as executable Rocq
    functions translated from the C, and proves the theorems that make them
    correct.  The older copies of the sources under src/lab/finished and the
    vendored network stack under src/lab/net/lwip are not modelled.

    ** How the parts fit together

    A trap enters [trap] (kern/trap.c), which dispatches to the page-fault
    handler, the clock or [syscall] (kern/syscall.c); these act on environments
    (kern/env.c), address spaces (kern/pmap.c) and devices, and leave the kernel
    through [env_run] or the scheduler (kern/sched.c).  User code sees only the
    system calls.  [Uvm] is the machine they promise to it, [UvmSim] proves the
    kernel keeps the promise, and the user-level library ([Fork], [Fd], [Pipe],
    [Malloc], [File], [Spawn]) is modelled and proved against the promise alone.  The file server sees the
    disk as memory through a page-fault handler; [Bc] proves this block cache
    transparent, and the file system above it is proved on the flat memory.

    ** Files

    Shared layers
    - [Prelude]: machine integers with their wrap-around, rounding macros, flag
      tests, linked lists, the tactics [zdm], [ilia], [bcase], [fsimpl].
    - [Mem], [Mmu], [Kernel]: byte memory; inc/mmu.h and inc/memlayout.h; the
      kernel state [kstate] (one record for what the C keeps in globals), its
      records ([Env], [PageInfo], [CpuInfo], ...) and the monad [K] whose outcomes
      are return, panic, entry to user mode, halt, the monitor, and behaviour C
      leaves undefined.
    - [Umonad]: the same for user-level code, over any state, with [wp].

    Kernel
    - [Console] (kern/console.c), [Printfmt] (lib/printfmt.c, kern/printf.c,
      lib/printf.c, lib/fprintf.c), [Str] (lib/string.c), [Spinlock]
      (kern/spinlock.c, as interleaved steps).
    - [Pmap] (kern/pmap.c, kern/kclock.c) with [PageAlloc] (the free list),
      [PageTable] and [AddrSpace] (the invariant of all address spaces together,
      page_insert, page_remove), [UserMem] (user_mem_check) and [MemInit]
      (mem_init, the kernel's own address space).
    - [Env] (kern/env.c) with [EnvFree] and [EnvAlloc]; [Sched] (kern/sched.c,
      kern/time.c); [E1000] (kern/e1000.c); [Syscall] (kern/syscall.c) with
      [SyscallFacts] and [Kipc]; [Trap] (kern/trap.c) with [TrapFacts]; [Kdebug]
      (kern/kdebug.c, inc/stab.h); [Monitor] (kern/monitor.c, lib/readline.c);
      [Mpconfig] (kern/mpconfig.c); [Pci] (kern/pci.c, kern/pcireg.h); [Boot]
      (boot/main.c); [Intr] (kern/picirq.c, kern/lapic.c and boot_aps of
      kern/init.c, with the controllers and the other processors as devices).

    User-level library
    - [Uvm]: environments, page tables and the page-table system calls as
      programs see them; [UvmSim]: the kernel implements it; [Uaccess]: blocks
      and strings in a program's memory.
    - [Fork] (lib/fork.c, lib/pgfault.c), [Fd] (lib/fd.c), [Pipe] (lib/pipe.c,
      with reader and writer as interleaved steps), [Malloc] (lib/malloc.c),
      [File] (lib/file.c, with the class [FileReads] that states what an open
      file promises its readers, and the pages a program shares with the server
      of [Serv] while it waits) and [Spawn] (lib/spawn.c, proved against that
      class); [Sock] (lib/nsipc.c, lib/sockets.c);
      [ConsDev] (lib/console.c); [Usys] (lib/syscall.c, lib/libmain.c, one
      environment among others on the kernel itself) and [Ipc] (lib/ipc.c,
      lib/wait.c), with [Nstimer] (net/timer.c) on top; [Args] (lib/args.c) and [Shell] (user/sh.c, with its calls to the
      rest of the system as a log).
    File server
    - [Bc] (fs/bc.c, fs/ide.c, inc/fs.h, fs/fs.h), [Fs] (fs/fs.c), [FsLogic] (a
      program logic over the flat view of the disk), [FsAlloc], [FsFiles],
      [FsRw], [Fsformat] (fs/fsformat.c, the builder of the first disk), [Serv]
      (fs/serv.c, the table of open files and the requests).
    ** Theorems

    - Address spaces: an invariant relates page tables, reference counts and the
      free list ([space_ok]); page_insert, page_remove, env_alloc, env_free and
      the system calls keep it, with their effect on every entry of every
      address space and every error case; mem_init builds exactly the documented
      layout, less its last page; user_mem_check is exact below the last
      page and, by a second theorem, wrong for ranges that wrap.
    - Control: scheduling is round robin, and on a CPU that still has what it
      switched to before, a runnable environment waits for a bounded number of
      turns; a system call returns its result to its caller; a page fault reaches the user's handler
      with the documented frame; IPC hands over what was sent, from the library
      call of one environment to that of another, which the scheduler enters
      again, with every error; the lock
      excludes; the descriptor table admits only the intended vectors.
    - Devices and library: the console ring and the transmit ring are queues,
      with their overflow behaviour; formatted output is a stream independent of
      its sink and bounded by its buffer; memmove, strtol and the symbol search
      meet reference definitions, and the search terminates on every table; the
      monitor edits the line typed, however long it is, runs the command it names and resumes the
      program as told; the processors of the configuration table are numbered in
      order and each is started once with its own stack; the boot loader puts
      every segment in place; the scan of the PCI busses ends and finds exactly
      the functions behind its bridges, and probing leaves the registers as they
      were.
    - User level: the kernel refines [Uvm]; fork gives the child the parent's
      memory and copy-on-write keeps the two apart under every interleaving of
      their stores; pipes are queues
      under every interleaving, with an execution that reports end of file too
      early; malloc and free keep the blocks in use apart and intact, except
      that malloc leaves the heap at its end; files are read through the library
      and the rounds of the server byte for byte, given that messages arrive, and a program that is spawned finds its segments,
      its arguments and the shared pages; command lines are split into flags,
      values and tokens as lists of strings are, and the shell makes the calls a
      line asks for.
    - File server: the image builder establishes the invariants of the file
      system, if it is given a file at all; the cache refines flat memory; allocation takes the lowest
      free block; what is written to a file is read back, whatever blocks it
      lies in, also through the requests of clients; identifiers of open files
      are never confused; a request for a full page reads past its buffer.
    A theorem named in the manifest as an error case states a behaviour of the
    code that its comments or callers do not expect.

    ** Bounds and fuel

    Integers are [Z] with conversions written where the C converts.  Loops
    whose count is known use it; other loops have fuel and end in [Undef] or
    [Undefined] when it runs out, so that a theorem that a function returns also
    shows that the fuel is enough: 64 levels in printnum (a 64-bit number has at
    most 64 digits), [2 * entries + 1] iterations in stab_binsearch, one
    iteration per page in user_mem_check, 4 nested faults in the block cache (a
    fault on a data block may fault on its bitmap block, and that one on block
    2).  Loops that wait for a device or another
    environment ([Ipc], [Nstimer], [Boot], [Intr]) take the fuel as an argument,
    and their theorems say how much is enough; the characters that arrive while
    the monitor polls the console are a list of batches, one for each poll
    ([Monitor.feed]), and the scheduler's turns a sequence of states
    ([Sched.rounds]).  [NENV] is 1024 and user space has 977920 pages, as in the source.

    ** Not modelled

    Assembly (boot/boot.S, kern/entry.S, kern/trapentry.S,
    kern/mpentry.S, lib/pfentry.S), start-up order (kern/init.c) and the
    self tests of mem_init.
    The lwIP stack is vendored and the rest of the network server is glue
    around it.  The
    other user programs are examples of the interfaces above.  Timing, caches and the TLB
    are not modelled, except that page_remove names the entry it flushes. *)

From stdpp Require Import base numbers list functions strings sets.
From Stdlib Require Import ZArith Lia.

Open Scope Z_scope.

Declare Scope jos_scope.
Delimit Scope jos_scope with jos.

(** ** Machine integers

    A [w]-bit C integer is a [Z]; conversion to the type is written out.  The
    widths are literals so that [lia] sees them. *)

Definition u8 (x : Z) : Z := x mod 256.

Definition u16 (x : Z) : Z := x mod 65536.

Definition u32 (x : Z) : Z := x mod 4294967296.

Definition u64 (x : Z) : Z := x mod 18446744073709551616.

Definition i32 (x : Z) : Z := (x + 2147483648) mod 4294967296 - 2147483648.

Definition i64 (x : Z) : Z :=
  (x + 9223372036854775808) mod 18446744073709551616 - 9223372036854775808.

(** [ROUNDDOWN] and [ROUNDUP] compute in [uint32_t]. *)
Definition ROUNDDOWN (a n : Z) : Z := u32 a - u32 a mod n.

Definition ROUNDUP (a n : Z) : Z := ROUNDDOWN (u32 (u32 a + u32 n - 1)) (u32 n).

Definition MIN (a b : Z) : Z := if a <=? b then a else b.

(** C truth of [x & f]. *)
Definition flag (x f : Z) : bool := negb (Z.land x f =? 0).

(** ** Automation *)

Create HintDb jos discriminated.
Create Rewrite HintDb jos_rw.

Ltac unfold_ints := unfold ROUNDUP, ROUNDDOWN, MIN, u8, u16, u32, u64, i32, i64 in *.

(** Linear arithmetic with division and remainder by constants. *)
Ltac zdm := Z.div_mod_to_equations; lia.
Ltac ilia := unfold_ints; zdm.

(** Case analysis on the boolean comparison under scrutiny. *)
Ltac bcase :=
  match goal with
  | |- context [?a =? ?b] => destruct (Z.eqb_spec a b)
  | |- context [?a <? ?b] => destruct (Z.ltb_spec a b)
  | |- context [?a <=? ?b] => destruct (Z.leb_spec a b)
  | |- context [?a >=? ?b] => rewrite (Z.geb_leb a b); destruct (Z.leb_spec b a)
  | |- context [?a >? ?b] => rewrite (Z.gtb_ltb a b); destruct (Z.ltb_spec b a)
  end; simpl; try lia.

(** Reads of point-updated functions. *)
Ltac fsimpl :=
  repeat first
    [ rewrite fn_lookup_insert
    | rewrite fn_lookup_insert_ne by (solve [ lia | congruence | done ]) ].

(** ** Bounds *)

Lemma u8_range x : 0 <= u8 x < 256.
Proof. unfold u8. zdm. Qed.

Lemma u16_range x : 0 <= u16 x < 65536.
Proof. unfold u16. zdm. Qed.

Lemma u32_range x : 0 <= u32 x < 4294967296.
Proof. unfold u32. zdm. Qed.

Lemma i32_range x : -2147483648 <= i32 x < 2147483648.
Proof. unfold i32. zdm. Qed.

Lemma u8_id x : 0 <= x < 256 -> u8 x = x.
Proof. unfold u8. apply Z.mod_small. Qed.

Lemma u16_id x : 0 <= x < 65536 -> u16 x = x.
Proof. unfold u16. apply Z.mod_small. Qed.

Lemma u32_id x : 0 <= x < 4294967296 -> u32 x = x.
Proof. unfold u32. apply Z.mod_small. Qed.

Lemma i32_id x : -2147483648 <= x < 2147483648 -> i32 x = x.
Proof. unfold i32. intros. rewrite Z.mod_small; lia. Qed.

Lemma u32_u32 x : u32 (u32 x) = u32 x.
Proof. apply u32_id, u32_range. Qed.

#[export] Hint Resolve u8_range u16_range u32_range i32_range : jos.
#[export] Hint Rewrite u32_u32 : jos_rw.

Lemma ROUNDDOWN_page a : 0 <= a < 4294967296 -> ROUNDDOWN a 4096 = 4096 * (a / 4096).
Proof. intros. unfold ROUNDDOWN. rewrite u32_id by done. zdm. Qed.

Lemma ROUNDUP_page a :
  0 <= a <= 4294963200 -> ROUNDUP a 4096 = 4096 * ((a + 4095) / 4096).
Proof.
  intros. unfold ROUNDUP, ROUNDDOWN.
  rewrite (u32_id a), (u32_id 4096), (u32_id (a + 4096 - 1)) by lia.
  rewrite (u32_id (a + 4096 - 1)) by lia. replace (a + 4096 - 1) with (a + 4095) by lia. zdm.
Qed.

(** Above the last page boundary [ROUNDUP] wraps around to 0. *)
Lemma ROUNDUP_page_wrap a : 4294963200 < a < 4294967296 -> ROUNDUP a 4096 = 0.
Proof. intros. ilia. Qed.

(** ** Flag bits

    Facts about a page-aligned address with flag bits or-ed in. *)

Lemma land_page_low p f : 0 <= f < 4096 -> Z.land (p * 4096) f = 0.
Proof.
  intros Hf. apply Z.bits_inj'. intros n Hn. rewrite Z.land_spec, Z.bits_0.
  destruct (Z.lt_ge_cases n 12) as [H|H].
  - change 4096 with (2 ^ 12). by rewrite Z.mul_pow2_bits_low.
  - assert (Z.testbit f n = false) as ->; [|apply andb_false_r].
    destruct (Z.eq_dec f 0) as [->|]; [apply Z.bits_0|].
    apply Z.bits_above_log2; [lia|].
    assert (Z.log2 f < 12) by (apply Z.log2_lt_pow2; lia). lia.
Qed.

Lemma lor_page_low p f : 0 <= f < 4096 -> Z.lor (p * 4096) f = p * 4096 + f.
Proof.
  intros Hf. rewrite <- Z.lxor_lor by (by apply land_page_low).
  symmetry. apply Z.add_nocarry_lxor. by apply land_page_low.
Qed.

Lemma lor_low_range a b : 0 <= a < 4096 -> 0 <= b < 4096 -> 0 <= Z.lor a b < 4096.
Proof.
  intros Ha Hb. split; [apply Z.lor_nonneg; lia|].
  destruct (Z.eq_dec (Z.lor a b) 0) as [->|]; [lia|].
  change 4096 with (2 ^ 12). apply Z.log2_lt_pow2; [pose proof (Z.lor_nonneg a b); lia|].
  rewrite Z.log2_lor by lia.
  assert (forall x, 0 <= x < 4096 -> Z.log2 x < 12) as H.
  { intros x Hx. destruct (Z.eq_dec x 0) as [->|]; [done|]. apply Z.log2_lt_pow2; lia. }
  pose proof (H a Ha). pose proof (H b Hb). lia.
Qed.

Lemma land_lnot_low x : Z.land x (Z.lnot 4095) = 4096 * (x / 4096).
Proof.
  rewrite <- Z.ldiff_land. change 4095 with (Z.ones 12).
  rewrite Z.ldiff_ones_r, Z.shiftl_mul_pow2, Z.shiftr_div_pow2 by lia.
  change (2 ^ 12) with 4096. lia.
Qed.

Lemma land_le_r x f : 0 <= f -> 0 <= Z.land x f <= f.
Proof.
  intros Hf. assert (0 <= Z.land x f) by (apply Z.land_nonneg; lia). split; [done|].
  assert (Z.land (Z.land x f) (Z.lnot f) = 0) as H0.
  { apply Z.bits_inj'. intros n Hn. rewrite !Z.land_spec, Z.lnot_spec, Z.bits_0 by done.
    by destruct (Z.testbit x n), (Z.testbit f n). }
  assert (Z.lor (Z.land x f) f = f) as Hl.
  { apply Z.bits_inj'. intros n Hn. rewrite Z.lor_spec, Z.land_spec.
    by destruct (Z.testbit x n), (Z.testbit f n). }
  rewrite <- Hl at 2.
  replace (Z.lor (Z.land x f) f) with (Z.land x f + Z.ldiff f (Z.land x f)); [
    assert (0 <= Z.ldiff f (Z.land x f)) by (apply Z.ldiff_nonneg; lia); lia |].
  rewrite Z.add_nocarry_lxor.
  - apply Z.bits_inj'. intros n Hn.
    rewrite Z.lxor_spec, Z.ldiff_spec, Z.lor_spec, Z.land_spec.
    by destruct (Z.testbit x n), (Z.testbit f n).
  - apply Z.bits_inj'. intros n Hn.
    rewrite Z.land_spec, Z.ldiff_spec, Z.land_spec, Z.bits_0.
    by destruct (Z.testbit x n), (Z.testbit f n).
Qed.

Lemma flag_lor x y f : flag (Z.lor x y) f = flag x f || flag y f.
Proof.
  unfold flag. rewrite Z.land_lor_distr_l, <- negb_andb. f_equal.
  destruct (Z.eqb_spec (Z.lor (Z.land x f) (Z.land y f)) 0) as [H|H].
  - apply Z.lor_eq_0_iff in H as [-> ->]. done.
  - destruct (Z.eqb_spec (Z.land x f) 0) as [E|]; [|done]. rewrite E in H.
    rewrite Z.lor_0_l in H. by destruct (Z.eqb_spec (Z.land y f) 0).
Qed.

Lemma flag_page_low p f : 0 <= f < 4096 -> flag (p * 4096) f = false.
Proof. intros. unfold flag. by rewrite land_page_low. Qed.

Lemma flag_0_l f : flag 0 f = false.
Proof. done. Qed.

(** ** Linked lists in an array

    The free lists of the kernel are threaded through arrays: following [link]
    from [hd] visits the indices [l] and ends in NULL. *)

Fixpoint linked (link : Z -> option Z) (hd : option Z) (l : list Z) : Prop :=
  match l with
  | [] => hd = None
  | p :: l => hd = Some p /\ linked link (link p) l
  end.

Lemma linked_ext link link' hd l :
  (forall p, p ∈ l -> link p = link' p) -> linked link hd l -> linked link' hd l.
Proof.
  revert hd. induction l as [|p l IH]; intros hd H; cbn; [done|].
  intros [-> Hc]. split; [done|]. rewrite <- H by set_solver. apply IH; set_solver.
Qed.

Lemma linked_det link hd l l' : linked link hd l -> linked link hd l' -> l = l'.
Proof.
  revert hd l'. induction l as [|p l IH]; intros hd [|q l']; cbn.
  - done.
  - intros ->. by intros [? _].
  - intros [-> _]. done.
  - intros [-> H1] [[= ->] H2]. f_equal. eauto.
Qed.

(** The rest of a list after any of its elements is determined by that element. *)
Lemma linked_suffix link hd l1 p l2 : linked link hd (l1 ++ p :: l2) -> linked link (link p) l2.
Proof.
  revert hd. induction l1 as [|q l1 IH]; intros hd; cbn; [tauto|]. intros [_ H]. eauto.
Qed.

(** A list that ends in NULL has no cycle. *)
Lemma linked_NoDup link hd l : linked link hd l -> NoDup l.
Proof.
  revert hd. induction l as [|p l IH]; intros hd; [constructor|].
  cbn. intros [-> H]. constructor; [|eauto].
  intros (l1 & l2 & ->)%list_elem_of_split.
  pose proof (linked_suffix _ _ _ _ _ H) as H2.
  pose proof (linked_det _ _ _ _ H H2) as E. apply (f_equal length) in E.
  rewrite length_app in E. cbn in E. lia.
Qed.
