(* ===== verification/Mem.v ===== *)
(** * Byte-addressed memory

    Physical memory and kernel objects that are laid out in bytes.  Reads
    truncate to the width, so a read is in range whatever the map holds. *)

From stdpp Require Import base numbers list functions.
From Stdlib Require Import ZArith Lia.
From S2P Require Import Prelude.

Open Scope Z_scope.

Abbreviation mem := (Z -> Z) (only parsing).

Definition rd8 (m : mem) (a : Z) : Z := u8 (m a).

Definition rd16 (m : mem) (a : Z) : Z := rd8 m a + 256 * rd8 m (a + 1).

(** Little-endian 32-bit load. *)
Definition rd32 (m : mem) (a : Z) : Z :=
  rd8 m a + 256 * rd8 m (a + 1) + 65536 * rd8 m (a + 2) + 16777216 * rd8 m (a + 3).

Definition wr8 (m : mem) (a v : Z) : mem := <[a := u8 v]> m.

(** Little-endian 32-bit store. *)
Definition wr32 (m : mem) (a v : Z) : mem :=
  <[a := u8 v]> (<[a + 1 := u8 (v / 256)]>
    (<[a + 2 := u8 (v / 65536)]> (<[a + 3 := u8 (v / 16777216)]> m))).

(** [memset(a, c, n)]. *)
Definition mset (m : mem) (a c n : Z) : mem :=
  fun x => if (a <=? x) && (x <? a + n) then u8 c else m x.

(** [memmove(d, s, n)]: the bytes at [s] are those before the call. *)
Definition mcpy (m : mem) (d s n : Z) : mem :=
  fun x => if (d <=? x) && (x <? d + n) then m (s + (x - d)) else m x.

(** [n] bytes at [a]. *)
Definition rdbytes (m : mem) (a : Z) (n : nat) : list Z :=
  map (fun i => rd8 m (a + Z.of_nat i)) (seq 0 n).

Fixpoint wrbytes (m : mem) (a : Z) (l : list Z) : mem :=
  match l with
  | [] => m
  | b :: l => wrbytes (wr8 m a b) (a + 1) l
  end.

Lemma rd8_range m a : 0 <= rd8 m a < 256.
Proof. apply u8_range. Qed.

Lemma rd32_range m a : 0 <= rd32 m a < 4294967296.
Proof.
  unfold rd32. pose proof (rd8_range m a). pose proof (rd8_range m (a + 1)).
  pose proof (rd8_range m (a + 2)). pose proof (rd8_range m (a + 3)). lia.
Qed.

#[export] Hint Resolve rd8_range rd32_range : jos.

Lemma rd32_ext m m' a :
  (forall x, a <= x < a + 4 -> m x = m' x) -> rd32 m a = rd32 m' a.
Proof. intros H. unfold rd32, rd8. by rewrite !H by lia. Qed.

Lemma u32_bytes v :
  u8 v + 256 * u8 (v / 256) + 65536 * u8 (v / 65536) + 16777216 * u8 (v / 16777216) = u32 v.
Proof.
  unfold u8, u32.
  replace (v / 65536) with (v / 256 / 256) by (rewrite Z.div_div by lia; reflexivity).
  replace (v / 16777216) with (v / 256 / 256 / 256) by (rewrite !Z.div_div by lia; reflexivity).
  zdm.
Qed.

Lemma u8_u8 x : u8 (u8 x) = u8 x.
Proof. apply u8_id, u8_range. Qed.

Lemma rd32_wr32_eq m a v : rd32 (wr32 m a v) a = u32 v.
Proof. unfold rd32, wr32, rd8. fsimpl. rewrite !u8_u8. apply u32_bytes. Qed.

Lemma wr32_out m a v x : x < a \/ a + 4 <= x -> wr32 m a v x = m x.
Proof. intros. unfold wr32. fsimpl. done. Qed.

Lemma rd32_wr32_ne m a v b : b + 4 <= a \/ a + 4 <= b -> rd32 (wr32 m a v) b = rd32 m b.
Proof. intros. apply rd32_ext. intros. apply wr32_out. lia. Qed.

Lemma mset_in m a c n x : a <= x < a + n -> mset m a c n x = u8 c.
Proof. intros. unfold mset. repeat bcase. Qed.

Lemma mset_out m a c n x : x < a \/ a + n <= x -> mset m a c n x = m x.
Proof. intros. unfold mset. repeat bcase. Qed.

Lemma rd32_mset_out m a c n b : b + 4 <= a \/ a + n <= b -> rd32 (mset m a c n) b = rd32 m b.
Proof. intros. apply rd32_ext. intros. apply mset_out. lia. Qed.

Lemma rd32_mset_0 m a n b : a <= b -> b + 4 <= a + n -> rd32 (mset m a 0 n) b = 0.
Proof. intros. unfold rd32, rd8. by rewrite !mset_in by lia. Qed.

Lemma mcpy_in m d s n x : d <= x < d + n -> mcpy m d s n x = m (s + (x - d)).
Proof. intros. unfold mcpy. repeat bcase. Qed.

Lemma mcpy_out m d s n x : x < d \/ d + n <= x -> mcpy m d s n x = m x.
Proof. intros. unfold mcpy. repeat bcase. Qed.

Lemma rd32_mcpy_in m d s n b :
  d <= b -> b + 4 <= d + n -> rd32 (mcpy m d s n) b = rd32 m (s + (b - d)).
Proof.
  intros. unfold rd32, rd8. rewrite !mcpy_in by lia.
  repeat (f_equal; try lia).
Qed.

Lemma rd32_mcpy_out m d s n b : b + 4 <= d \/ d + n <= b -> rd32 (mcpy m d s n) b = rd32 m b.
Proof. intros. apply rd32_ext. intros. apply mcpy_out. lia. Qed.

Lemma wrbytes_out m a l x : x < a \/ a + Z.of_nat (length l) <= x -> wrbytes m a l x = m x.
Proof.
  revert m a. induction l as [|b l IH]; intros m a H; simpl in *; [done|].
  rewrite IH by lia. unfold wr8. fsimpl. done.
Qed.

Lemma wrbytes_in m a l i b :
  l !! i = Some b -> wrbytes m a l (a + Z.of_nat i) = u8 b.
Proof.
  revert m a i. induction l as [|c l IH]; intros m a i H; [done|].
  destruct i as [|i]; simpl in *.
  - injection H as ->. rewrite wrbytes_out by lia. unfold wr8.
    replace (a + Z.of_nat 0) with a by lia. fsimpl. done.
  - rewrite <- (IH (wr8 m a c) (a + 1) i H). f_equal. lia.
Qed.
