(* ===== verification/Mmu.v ===== *)
(** * Address arithmetic and layout constants

    The macros of inc/mmu.h and the layout of inc/memlayout.h: how a linear
    address splits into directory index, table index and offset, the bits of a
    page table entry, and where the regions of the address space lie. *)

From stdpp Require Import base numbers list.
From Stdlib Require Import ZArith Lia.
From S2P Require Import Prelude.

Open Scope Z_scope.

(** ** inc/mmu.h *)

Definition PGSIZE : Z := 4096.

Definition PGSHIFT : Z := 12.

Definition PTXSHIFT : Z := 12.

Definition PDXSHIFT : Z := 22.

Definition NPDENTRIES : Z := 1024.

Definition NPTENTRIES : Z := 1024.

Definition PTSIZE : Z := PGSIZE * NPTENTRIES.

Definition PGNUM (la : Z) : Z := Z.shiftr (u32 la) PTXSHIFT.

Definition PDX (la : Z) : Z := Z.land (Z.shiftr (u32 la) PDXSHIFT) 1023.

Definition PTX (la : Z) : Z := Z.land (Z.shiftr (u32 la) PTXSHIFT) 1023.

Definition PGOFF (la : Z) : Z := Z.land (u32 la) 4095.

Definition PGADDR (d t o : Z) : Z :=
  u32 (Z.lor (Z.lor (u32 (Z.shiftl d PDXSHIFT)) (u32 (Z.shiftl t PTXSHIFT))) o).

Definition PTE_P : Z := 1.

Definition PTE_W : Z := 2.

Definition PTE_U : Z := 4.

Definition PTE_PWT : Z := 8.

Definition PTE_PCD : Z := 16.

Definition PTE_AVAIL : Z := 3584.

Definition PTE_SYSCALL : Z := Z.lor (Z.lor (Z.lor PTE_AVAIL PTE_P) PTE_W) PTE_U.

Definition PTE_ADDR (pte : Z) : Z := Z.land (u32 pte) (Z.lnot 4095).

Definition FL_TF : Z := 256.

Definition FL_IF : Z := 512.

Definition FL_IOPL_3 : Z := 12288.

(** ** inc/memlayout.h *)

Definition GD_KT : Z := 8.

Definition GD_KD : Z := 16.

Definition GD_UT : Z := 24.

Definition GD_UD : Z := 32.

Definition GD_TSS0 : Z := 40.

Definition KERNBASE : Z := 4026531840.

Definition IOPHYSMEM : Z := 655360.

Definition EXTPHYSMEM : Z := 1048576.

Definition KSTACKTOP : Z := KERNBASE.

Definition KSTKSIZE : Z := 8 * PGSIZE.

Definition KSTKGAP : Z := 8 * PGSIZE.

Definition MMIOLIM : Z := KSTACKTOP - PTSIZE.

Definition MMIOBASE : Z := MMIOLIM - PTSIZE.

Definition ULIM : Z := MMIOBASE.

Definition UVPT : Z := ULIM - PTSIZE.

Definition UPAGES : Z := UVPT - PTSIZE.

Definition UENVS : Z := UPAGES - PTSIZE.

Definition UTOP : Z := UENVS.

Definition UXSTACKTOP : Z := UTOP.

Definition USTACKTOP : Z := UTOP - 2 * PGSIZE.

Definition UTEXT : Z := 2 * PTSIZE.

Definition UTEMP : Z := PTSIZE.

Definition PFTEMP : Z := UTEMP + PTSIZE - PGSIZE.

Definition USTABDATA : Z := PTSIZE / 2.

Definition MPENTRY_PADDR : Z := 28672.

(** ** The macros as division and remainder *)

Lemma PGNUM_eq la : 0 <= la < 4294967296 -> PGNUM la = la / 4096.
Proof. intros. unfold PGNUM, PTXSHIFT. by rewrite u32_id, Z.shiftr_div_pow2. Qed.

Lemma PTX_eq la : 0 <= la < 4294967296 -> PTX la = la / 4096 mod 1024.
Proof.
  intros. unfold PTX, PTXSHIFT. rewrite u32_id, Z.shiftr_div_pow2 by done.
  change 1023 with (Z.ones 10). by rewrite Z.land_ones.
Qed.

Lemma PDX_eq la : 0 <= la < 4294967296 -> PDX la = la / 4194304.
Proof.
  intros. unfold PDX, PDXSHIFT. rewrite u32_id, Z.shiftr_div_pow2 by done.
  change 1023 with (Z.ones 10). rewrite Z.land_ones by done.
  change (2 ^ 22) with 4194304. change (2 ^ 10) with 1024. apply Z.mod_small. zdm.
Qed.

Lemma PGOFF_eq la : 0 <= la < 4294967296 -> PGOFF la = la mod 4096.
Proof.
  intros. unfold PGOFF. rewrite u32_id by done. change 4095 with (Z.ones 12).
  by rewrite Z.land_ones.
Qed.

Lemma PTE_ADDR_eq pte : 0 <= pte < 4294967296 -> PTE_ADDR pte = 4096 * (pte / 4096).
Proof. intros. unfold PTE_ADDR. by rewrite u32_id, land_lnot_low. Qed.

Lemma PDX_range la : 0 <= PDX la < 1024.
Proof. unfold PDX. pose proof (land_le_r (Z.shiftr (u32 la) PDXSHIFT) 1023). lia. Qed.

Lemma PTX_range la : 0 <= PTX la < 1024.
Proof. unfold PTX. pose proof (land_le_r (Z.shiftr (u32 la) PTXSHIFT) 1023). lia. Qed.

#[export] Hint Resolve PDX_range PTX_range : jos.

Lemma lor_disjoint_add a k b : 0 <= k -> 0 <= b < 2 ^ k -> Z.lor (a * 2 ^ k) b = a * 2 ^ k + b.
Proof.
  intros Hk Hb.
  assert (Z.land (a * 2 ^ k) b = 0) as H0.
  { apply Z.bits_inj'. intros n Hn. rewrite Z.land_spec, Z.bits_0.
    destruct (Z.lt_ge_cases n k).
    - by rewrite Z.mul_pow2_bits_low.
    - rewrite <- (Z.mod_small b (2 ^ k)) by done.
      rewrite Z.mod_pow2_bits_high by lia. apply andb_false_r. }
  rewrite <- Z.lxor_lor by done. symmetry. by apply Z.add_nocarry_lxor.
Qed.

Lemma PGADDR_eq d t o :
  0 <= d < 1024 -> 0 <= t < 1024 -> 0 <= o < 4096 ->
  PGADDR d t o = d * 4194304 + t * 4096 + o.
Proof.
  intros. unfold PGADDR, PDXSHIFT, PTXSHIFT. rewrite !Z.shiftl_mul_pow2 by lia.
  rewrite (u32_id (d * 2 ^ 22)), (u32_id (t * 2 ^ 12)) by lia.
  rewrite lor_disjoint_add by lia.
  replace (d * 2 ^ 22 + t * 2 ^ 12) with ((d * 1024 + t) * 2 ^ 12) by lia.
  rewrite lor_disjoint_add by lia. rewrite u32_id by lia. lia.
Qed.

(** A page table entry built from a page number and flags gives both back. *)
Lemma PTE_ADDR_lor p f :
  0 <= p < 1048576 -> 0 <= f < 4096 -> PTE_ADDR (Z.lor (p * 4096) f) = p * 4096.
Proof.
  intros. rewrite lor_page_low by done. rewrite PTE_ADDR_eq by lia. zdm.
Qed.

(** the three fields of a linear address rebuild it, and the fields of a
    rebuilt address are the ones it was built from. *)
Theorem PGADDR_fields la d t o :
  0 <= la < 4294967296 -> 0 <= d < 1024 -> 0 <= t < 1024 -> 0 <= o < 4096 ->
  PGADDR (PDX la) (PTX la) (PGOFF la) = la
  /\ PDX (PGADDR d t o) = d /\ PTX (PGADDR d t o) = t /\ PGOFF (PGADDR d t o) = o.
Proof.
  intros Hla Hd Ht Ho. split.
  - rewrite PDX_eq, PTX_eq, PGOFF_eq by done. rewrite PGADDR_eq; zdm.
  - rewrite PGADDR_eq by done. rewrite PDX_eq, PTX_eq, PGOFF_eq by lia. split_and!; zdm.
Qed.

Lemma PGADDR_fields_witness :
  PGADDR (PDX 4027589017) (PTX 4027589017) (PGOFF 4027589017) = 4027589017
  /\ PDX (PGADDR 960 258 409) = 960 /\ PTX (PGADDR 960 258 409) = 258
  /\ PGOFF (PGADDR 960 258 409) = 409.
Proof. apply (PGADDR_fields 4027589017 960 258 409); lia. Defined.
