(* ===== verification/Console.v ===== *)
(** * The console (kern/console.c)

    State of the console driver: the CGA frame buffer and cursor, the keyboard
    modifier state, and the circular input buffer.  The devices are their
    queues: bytes waiting in the UART and in the keyboard controller, bytes
    sent to the UART and to the parallel port.  An [inb] of a status port is
    "is the queue non-empty"; the polling loops before an [outb] send the byte
    whatever the status is, and so does the model. *)

From stdpp Require Import base numbers list functions strings.
From Stdlib Require Import ZArith Lia.
From S2P Require Import Prelude Mem.

Open Scope Z_scope.

Module Console.

Definition CRT_ROWS : Z := 25.

Definition CRT_COLS : Z := 80.

Definition CRT_SIZE : Z := CRT_ROWS * CRT_COLS.

Definition CONSBUFSIZE : Z := 512.

(** Modifier bits. *)
Definition SHIFT : Z := 1.

Definition CTL : Z := 2.

Definition ALT : Z := 4.

Definition CAPSLOCK : Z := 8.

Definition NUMLOCK : Z := 16.

Definition SCROLLLOCK : Z := 32.

Definition E0ESC : Z := 64.

Definition KEY_HOME : Z := 224.

Definition KEY_END : Z := 225.

Definition KEY_UP : Z := 226.

Definition KEY_DN : Z := 227.

Definition KEY_LF : Z := 228.

Definition KEY_RT : Z := 229.

Definition KEY_PGUP : Z := 230.

Definition KEY_PGDN : Z := 231.

Definition KEY_INS : Z := 232.

Definition KEY_DEL : Z := 233.

Record console := mkConsole {
  serial_exists : bool;
  ser_rx : list Z;           (* bytes waiting in the UART *)
  kbd_rx : list Z;           (* bytes waiting in the keyboard controller *)
  ser_tx : list Z;           (* bytes written to COM_TX, latest first *)
  lpt_tx : list Z;           (* bytes written to the parallel port, latest first *)
  rebooted : bool;           (* outb(0x92, 0x3) *)
  crt_buf : Z -> Z;
  crt_pos : Z;
  shift : Z;
  cbuf : Z -> Z;             (* cons.buf *)
  rpos : Z;                  (* cons.rpos *)
  wpos : Z                   (* cons.wpos *)
}.

Definition set_ser_rx (l : list Z) (c : console) : console :=
  mkConsole (serial_exists c) l (kbd_rx c) (ser_tx c) (lpt_tx c) (rebooted c)
    (crt_buf c) (crt_pos c) (shift c) (cbuf c) (rpos c) (wpos c).

Definition set_kbd (l : list Z) (sh : Z) (rb : bool) (c : console) : console :=
  mkConsole (serial_exists c) (ser_rx c) l (ser_tx c) (lpt_tx c) rb
    (crt_buf c) (crt_pos c) sh (cbuf c) (rpos c) (wpos c).

Definition set_crt (b : Z -> Z) (p : Z) (c : console) : console :=
  mkConsole (serial_exists c) (ser_rx c) (kbd_rx c) (ser_tx c) (lpt_tx c) (rebooted c)
    b p (shift c) (cbuf c) (rpos c) (wpos c).

Definition set_tx (s l : list Z) (c : console) : console :=
  mkConsole (serial_exists c) (ser_rx c) (kbd_rx c) s l (rebooted c)
    (crt_buf c) (crt_pos c) (shift c) (cbuf c) (rpos c) (wpos c).

Definition set_ring (b : Z -> Z) (r w : Z) (c : console) : console :=
  mkConsole (serial_exists c) (ser_rx c) (kbd_rx c) (ser_tx c) (lpt_tx c) (rebooted c)
    (crt_buf c) (crt_pos c) (shift c) b r w.

(** ** Output *)

Definition serial_putc (ch : Z) (c : console) : console :=
  set_tx (u8 ch :: ser_tx c) (lpt_tx c) c.

Definition lpt_putc (ch : Z) (c : console) : console :=
  set_tx (ser_tx c) (u8 ch :: lpt_tx c) c.

(** The scroll at the end of [cga_putc]: move the screen up one row and blank
    the last row. *)
Definition cga_scroll (c : console) : console :=
  if crt_pos c >=? CRT_SIZE then
    let moved := fun i => if (0 <=? i) && (i <? CRT_SIZE - CRT_COLS)
                          then crt_buf c (i + CRT_COLS) else crt_buf c i in
    let blanked := fun i => if (CRT_SIZE - CRT_COLS <=? i) && (i <? CRT_SIZE)
                            then Z.lor 1792 32 else moved i in
    set_crt blanked (u16 (crt_pos c - CRT_COLS)) c
  else c.

(** [cga_putc], over the [cons_putc] it calls for a tab. *)
Definition cga_putc_with (putc : Z -> console -> console) (ch0 : Z) (c : console) : console :=
  let ch := if Z.land ch0 (Z.lnot 255) =? 0 then Z.lor ch0 1792 else ch0 in
  let k := Z.land ch 255 in
  let c1 :=
    if k =? 8 then                                     (* '\b' *)
      if crt_pos c >? 0 then
        let p := u16 (crt_pos c - 1) in
        set_crt (<[p := u16 (Z.lor (Z.land ch (Z.lnot 255)) 32)]> (crt_buf c)) p c
      else c
    else if k =? 10 then                               (* '\n' falls through to '\r' *)
      let p := u16 (crt_pos c + CRT_COLS) in
      set_crt (crt_buf c) (u16 (p - p mod CRT_COLS)) c
    else if k =? 13 then
      set_crt (crt_buf c) (u16 (crt_pos c - crt_pos c mod CRT_COLS)) c
    else if k =? 9 then                                (* '\t' *)
      putc 32 (putc 32 (putc 32 (putc 32 (putc 32 c))))
    else
      set_crt (<[crt_pos c := u16 ch]> (crt_buf c)) (u16 (crt_pos c + 1)) c
  in cga_scroll c1.

Definition cons_putc_with (cga : Z -> console -> console) (ch : Z) (c : console) : console :=
  cga ch (lpt_putc ch (serial_putc ch c)).

(** [cons_putc] and [cga_putc] call each other, but only a tab recurses and it
    recurses on spaces: two levels are the whole recursion
    (see [cga_putc_unfold]). *)
Definition cons_putc_plain : Z -> console -> console :=
  cons_putc_with (cga_putc_with (fun _ c => c)).

Definition cga_putc : Z -> console -> console := cga_putc_with cons_putc_plain.

Definition cons_putc : Z -> console -> console := cons_putc_with cga_putc.

Lemma cga_putc_with_no_tab f g ch c :
  Z.land ch 255 <> 9 -> cga_putc_with f ch c = cga_putc_with g ch c.
Proof.
  intros H. unfold cga_putc_with.
  assert (Z.land (if Z.land ch (Z.lnot 255) =? 0 then Z.lor ch 1792 else ch) 255
          = Z.land ch 255) as ->.
  { bcase. rewrite Z.land_lor_distr_l. change (Z.land 1792 255) with 0. apply Z.lor_0_r. }
  cbv zeta. destruct (Z.eqb_spec (Z.land ch 255) 9); [done|].
  by destruct (Z.land ch 255 =? 8), (Z.land ch 255 =? 10), (Z.land ch 255 =? 13).
Qed.

(** The two-level unfolding is the recursive function of the source. *)
Lemma cga_putc_unfold ch c : cga_putc ch c = cga_putc_with cons_putc ch c.
Proof.
  assert (forall d, cons_putc_plain 32 d = cons_putc 32 d) as H.
  { intros d. unfold cons_putc_plain, cons_putc, cons_putc_with, cga_putc.
    apply cga_putc_with_no_tab. done. }
  unfold cga_putc at 1, cga_putc_with. by rewrite !H.
Qed.

(** ** Input *)

Definition shiftcode (i : Z) : Z :=
  if i =? 29 then CTL else if i =? 42 then SHIFT else if i =? 54 then SHIFT
  else if i =? 56 then ALT else if i =? 157 then CTL else if i =? 184 then ALT else 0.

Definition togglecode (i : Z) : Z :=
  if i =? 58 then CAPSLOCK else if i =? 69 then NUMLOCK else if i =? 70 then SCROLLLOCK else 0.

(** The designated initialisers that [normalmap], [shiftmap] and [ctlmap] have
    in common. *)
Definition keypad (i : Z) : option Z :=
  if i =? 200 then Some KEY_UP else if i =? 201 then Some KEY_PGUP
  else if i =? 203 then Some KEY_LF else if i =? 205 then Some KEY_RT
  else if i =? 207 then Some KEY_END else if i =? 208 then Some KEY_DN
  else if i =? 209 then Some KEY_PGDN else if i =? 210 then Some KEY_INS
  else if i =? 211 then Some KEY_DEL else None.

Definition table (l : list Z) (i : Z) : Z := nth (Z.to_nat i) l 0.

Definition normalmap (i : Z) : Z :=
  if i =? 199 then KEY_HOME else if i =? 156 then 10 else if i =? 181 then 47
  else match keypad i with Some k => k | None => table
  [ 0;  27; 49; 50; 51; 52; 53; 54;  55; 56; 57; 48; 45; 61; 8;  9;
   113; 119; 101; 114; 116; 121; 117; 105;  111; 112; 91; 93; 10; 0; 97; 115;
   100; 102; 103; 104; 106; 107; 108; 59;  39; 96; 0; 92; 122; 120; 99; 118;
   98; 110; 109; 44; 46; 47; 0; 42;  0; 32; 0; 0; 0; 0; 0; 0;
   0; 0; 0; 0; 0; 0; 0; 55;  56; 57; 45; 52; 53; 54; 43; 49;
   50; 51; 48; 46; 0; 0; 0; 0 ] i end.

Definition shiftmap (i : Z) : Z :=
  if i =? 199 then KEY_HOME else if i =? 156 then 10 else if i =? 181 then 47
  else match keypad i with Some k => k | None => table
  [ 0; 27; 33; 64; 35; 36; 37; 94;  38; 42; 40; 41; 95; 43; 8; 9;
   81; 87; 69; 82; 84; 89; 85; 73;  79; 80; 123; 125; 10; 0; 65; 83;
   68; 70; 71; 72; 74; 75; 76; 58;  34; 126; 0; 124; 90; 88; 67; 86;
   66; 78; 77; 60; 62; 63; 0; 42;  0; 32; 0; 0; 0; 0; 0; 0;
   0; 0; 0; 0; 0; 0; 0; 55;  56; 57; 45; 52; 53; 54; 43; 49;
   50; 51; 48; 46; 0; 0; 0; 0 ] i end.

(** [C(x)] is [x - '@'], stored in a [uint8_t] ([C('/')] is 239). *)
Definition ctlmap (i : Z) : Z :=
  if i =? 151 then KEY_HOME else if i =? 181 then 239
  else match keypad i with Some k => k | None => table
  [ 0; 0; 0; 0; 0; 0; 0; 0;  0; 0; 0; 0; 0; 0; 0; 0;
   17; 23; 5; 18; 20; 25; 21; 9;  15; 16; 0; 0; 13; 0; 1; 19;
   4; 6; 7; 8; 10; 11; 12; 0;  0; 0; 0; 28; 26; 24; 3; 22;
   2; 14; 13; 0; 0; 239; 0; 0 ] i end.

(** [charcode]: [shift & (CTL | SHIFT)] is between 0 and 3. *)
Definition charcode (sel i : Z) : Z :=
  if sel =? 0 then normalmap i else if sel =? 1 then shiftmap i else ctlmap i.

(** Returns -1 when no byte is waiting, 0 when no character is finished. *)
Definition kbd_proc_data (c : console) : Z * console :=
  match kbd_rx c with
  | [] => (-1, c)
  | data :: rest =>
    let sh := shift c in
    if data =? 224 then (0, set_kbd rest (Z.lor sh E0ESC) (rebooted c) c)
    else if flag data 128 then
      let data' := if flag sh E0ESC then data else Z.land data 127 in
      (0, set_kbd rest (Z.land sh (Z.lnot (Z.lor (shiftcode data') E0ESC))) (rebooted c) c)
    else
      let '(data', sh1) := if flag sh E0ESC then (Z.lor data 128, Z.land sh (Z.lnot E0ESC))
                           else (data, sh) in
      let sh2 := Z.lxor (Z.lor sh1 (shiftcode data')) (togglecode data') in
      let k := charcode (Z.land sh2 (Z.lor CTL SHIFT)) data' in
      let k' := if flag sh2 CAPSLOCK then
                  if (97 <=? k) && (k <=? 122) then k - 32
                  else if (65 <=? k) && (k <=? 90) then k + 32 else k
                else k in
      let reboot := (Z.land (Z.lnot sh2) (Z.lor CTL ALT) =? 0) && (k' =? KEY_DEL) in
      (k', set_kbd rest sh2 (rebooted c || reboot) c)
  end.

Definition serial_proc_data (c : console) : Z * console :=
  match ser_rx c with
  | [] => (-1, c)
  | b :: rest => (b, set_ser_rx rest c)
  end.

(** One iteration of the loop of [cons_intr] stores a character. *)
Definition cons_store (ch : Z) (c : console) : console :=
  let w := u32 (wpos c + 1) in
  set_ring (<[wpos c := u8 ch]> (cbuf c)) (rpos c) (if w =? CONSBUFSIZE then 0 else w) c.

(** The loop [while ((c = proc()) != -1)].  [proc] takes one byte of a device queue
    per call, so the length of the queue bounds the iterations
    ([None]: out of fuel; see [serial_intr_drains] and [kbd_intr_drains]). *)
Fixpoint cons_intr (fuel : nat) (proc : console -> Z * console) (c : console) : option console :=
  match fuel with
  | O => None
  | S fuel =>
    let '(ch, c1) := proc c in
    if ch =? -1 then Some c1
    else if ch =? 0 then cons_intr fuel proc c1
    else cons_intr fuel proc (cons_store ch c1)
  end.

Definition serial_intr (c : console) : console :=
  if serial_exists c then
    default c (cons_intr (S (length (ser_rx c))) serial_proc_data c)
  else c.

Definition kbd_intr (c : console) : console :=
  default c (cons_intr (S (length (kbd_rx c))) kbd_proc_data c).

(** Next input character, 0 if none is waiting. *)
Definition cons_getc (c : console) : Z * console :=
  let c1 := kbd_intr (serial_intr c) in
  if negb (rpos c1 =? wpos c1) then
    let ch := u8 (cbuf c1 (rpos c1)) in
    let r := u32 (rpos c1 + 1) in
    (ch, set_ring (cbuf c1) (if r =? CONSBUFSIZE then 0 else r) (wpos c1) c1)
  else (0, c1).

(** ** The screen *)

(** The cursor is on the screen. *)
Definition screen_ok (c : console) : Prop := 0 <= crt_pos c < CRT_SIZE.

(** Nothing outside the frame buffer differs. *)
Definition same_outside (b b' : Z -> Z) : Prop :=
  forall i, i < 0 \/ CRT_SIZE <= i -> b' i = b i.

Lemma cga_scroll_ok c :
  0 <= crt_pos c < CRT_SIZE + CRT_COLS ->
  screen_ok (cga_scroll c) /\ same_outside (crt_buf c) (crt_buf (cga_scroll c)).
Proof.
  unfold screen_ok, same_outside, cga_scroll, CRT_SIZE, CRT_COLS, CRT_ROWS in *. intros H.
  bcase; cbn [crt_pos crt_buf set_crt].
  - rewrite u16_id by lia. split; [lia|]. intros i Hi. repeat bcase; done.
  - split; [lia|done].
Qed.

Lemma cga_putc_plain_ok ch c :
  Z.land ch 255 <> 9 -> screen_ok c ->
  screen_ok (cga_putc ch c) /\ same_outside (crt_buf c) (crt_buf (cga_putc ch c)).
Proof.
  intros Ht H. unfold screen_ok in H. unfold CRT_SIZE, CRT_ROWS, CRT_COLS in H.
  unfold cga_putc, cga_putc_with.
  assert (Z.land (if Z.land ch (Z.lnot 255) =? 0 then Z.lor ch 1792 else ch) 255
          = Z.land ch 255) as ->.
  { bcase. rewrite Z.land_lor_distr_l. change (Z.land 1792 255) with 0. apply Z.lor_0_r. }
  cbv zeta.
  set (ch' := if Z.land ch (Z.lnot 255) =? 0 then Z.lor ch 1792 else ch).
  set (c1 := if Z.land ch 255 =? 8 then _ else _).
  assert (0 <= crt_pos c1 < CRT_SIZE + CRT_COLS /\ same_outside (crt_buf c) (crt_buf c1))
    as [Hp Hb].
  { subst c1. unfold same_outside, CRT_SIZE, CRT_ROWS, CRT_COLS.
    destruct (Z.land ch 255 =? 8); [bcase|destruct (Z.land ch 255 =? 10);
      [|destruct (Z.land ch 255 =? 13); [|destruct (Z.eqb_spec (Z.land ch 255) 9); [done|]]]];
      cbn [crt_pos crt_buf set_crt]; (split; [unfold u16; zdm|]); intros i Hi;
      try done; rewrite fn_lookup_insert_ne; try done; unfold u16; zdm. }
  destruct (cga_scroll_ok c1 Hp) as [H1 H2]. split; [done|].
  intros i Hi. rewrite H2, Hb; done.
Qed.

Lemma cons_putc_space_ok c :
  screen_ok c -> screen_ok (cons_putc 32 c) /\ same_outside (crt_buf c) (crt_buf (cons_putc 32 c)).
Proof. intros H. apply (cga_putc_plain_ok 32 (lpt_putc 32 (serial_putc 32 c))); done. Qed.

Lemma same_outside_trans b1 b2 b3 :
  same_outside b1 b2 -> same_outside b2 b3 -> same_outside b1 b3.
Proof. intros H1 H2 i Hi. rewrite H2, H1; done. Qed.

(** Printing any character keeps the cursor on the 25 x 80 screen and
    writes no cell outside the frame buffer, scrolls and tabs included. *)
Theorem cga_putc_in_bounds (ch : Z) (c : console) :
  screen_ok c ->
  screen_ok (cga_putc ch c) /\ same_outside (crt_buf c) (crt_buf (cga_putc ch c)).
Proof.
  intros H. destruct (Z.eq_dec (Z.land ch 255) 9) as [Ht|Ht];
    [|by apply cga_putc_plain_ok].
  rewrite cga_putc_unfold. unfold cga_putc_with.
  assert (Z.land (if Z.land ch (Z.lnot 255) =? 0 then Z.lor ch 1792 else ch) 255 = 9) as ->.
  { bcase. rewrite Z.land_lor_distr_l. change (Z.land 1792 255) with 0. by rewrite Z.lor_0_r. }
  change (9 =? 8) with false; change (9 =? 10) with false; change (9 =? 13) with false;
    change (9 =? 9) with true. cbv iota zeta.
  destruct (cons_putc_space_ok c H) as [H1 B1].
  destruct (cons_putc_space_ok _ H1) as [H2 B2].
  destruct (cons_putc_space_ok _ H2) as [H3 B3].
  destruct (cons_putc_space_ok _ H3) as [H4 B4].
  destruct (cons_putc_space_ok _ H4) as [H5 B5].
  destruct (cga_scroll_ok (cons_putc 32 (cons_putc 32 (cons_putc 32 (cons_putc 32 (cons_putc 32 c))))))
    as [Hs Bs]; [unfold screen_ok in H5; unfold CRT_COLS; lia|].
  split; [done|]. eauto 10 using same_outside_trans.
Qed.

Definition blank : console :=
  mkConsole true [] [] [] [] false (fun _ => 0) 1999 0 (fun _ => 0) 0 0.

Lemma cga_putc_in_bounds_witness :
  screen_ok blank /\ screen_ok (cga_putc 9 blank)
  /\ same_outside (crt_buf blank) (crt_buf (cga_putc 9 blank)).
Proof.
  assert (screen_ok blank) as H by (unfold screen_ok; simpl; unfold CRT_SIZE, CRT_ROWS, CRT_COLS; lia).
  split; [exact H|]. exact (cga_putc_in_bounds 9 blank H).
Defined.

(** ** The input ring *)

Definition ring_ok (c : console) : Prop :=
  0 <= rpos c < CONSBUFSIZE /\ 0 <= wpos c < CONSBUFSIZE.

(** Characters stored and not yet read, oldest first. *)
Definition pending (c : console) : list Z :=
  map (fun k => u8 (cbuf c ((rpos c + Z.of_nat k) mod CONSBUFSIZE)))
      (seq 0 (Z.to_nat ((wpos c - rpos c) mod CONSBUFSIZE))).

(** What the serial line will deliver: the driver drops NUL bytes. *)
Definition arriving (c : console) : list Z := filter (fun b => b <> 0) (ser_rx c).

Lemma length_pending c : Z.of_nat (length (pending c)) = (wpos c - rpos c) mod CONSBUFSIZE.
Proof.
  unfold pending. rewrite length_map, length_seq, Z2Nat.id; [done|].
  unfold CONSBUFSIZE. zdm.
Qed.

Lemma cons_store_ring ch c :
  ring_ok c ->
  ring_ok (cons_store ch c) /\ wpos (cons_store ch c) = (wpos c + 1) mod CONSBUFSIZE.
Proof.
  unfold ring_ok, cons_store, CONSBUFSIZE. cbn [rpos wpos set_ring]. intros [Hr Hw].
  rewrite u32_id by lia. bcase; split; try lia; zdm.
Qed.

Lemma cons_store_pending ch c :
  ring_ok c -> Z.of_nat (length (pending c)) < CONSBUFSIZE - 1 ->
  pending (cons_store ch c) = pending c ++ [u8 ch].
Proof.
  intros Hok Hl. rewrite length_pending in Hl.
  destruct (cons_store_ring ch c Hok) as [_ Hw].
  unfold pending. rewrite Hw. cbn [rpos cbuf cons_store set_ring].
  unfold ring_ok, CONSBUFSIZE in *.
  assert (((wpos c + 1) mod 512 - rpos c) mod 512 = (wpos c - rpos c) mod 512 + 1) as -> by zdm.
  rewrite Z2Nat.inj_add by zdm. rewrite seq_app, map_app. f_equal.
  - apply map_ext_in. intros k Hk%in_seq. rewrite fn_lookup_insert_ne; [done|].
    assert (Z.of_nat k < (wpos c - rpos c) mod 512) by lia. zdm.
  - simpl. f_equal.
    replace ((rpos c + Z.of_nat (Z.to_nat ((wpos c - rpos c) mod 512))) mod 512) with (wpos c)
      by (rewrite Z2Nat.id; zdm).
    rewrite fn_lookup_insert. unfold u8. by rewrite Z.mod_mod.
Qed.

(** The serial interrupt takes every waiting byte, and the ring advances by
    the number of characters stored. *)
Lemma serial_loop c :
  ring_ok c -> Forall (fun b => 0 <= b < 256) (ser_rx c) ->
  exists c', cons_intr (S (length (ser_rx c))) serial_proc_data c = Some c'
    /\ ring_ok c' /\ ser_rx c' = [] /\ kbd_rx c' = kbd_rx c /\ rpos c' = rpos c
    /\ serial_exists c' = serial_exists c
    /\ wpos c' = (wpos c + Z.of_nat (length (arriving c))) mod CONSBUFSIZE
    /\ (Z.of_nat (length (pending c)) + Z.of_nat (length (arriving c)) < CONSBUFSIZE ->
        pending c' = pending c ++ arriving c).
Proof.
  unfold arriving. remember (ser_rx c) as l eqn:El. revert c El.
  induction l as [|b l IH]; intros c El Hok Hb.
  - exists c. cbn. unfold serial_proc_data. rewrite <- El. split_and!; try done.
    + destruct Hok. rewrite Z.add_0_r. symmetry. by apply Z.mod_small.
    + intros _. by rewrite app_nil_r.
  - apply Forall_cons_1 in Hb as [Hb0 Hb].
    change (length (b :: l)) with (S (length l)).
    assert (cons_intr (S (S (length l))) serial_proc_data c =
            cons_intr (S (length l)) serial_proc_data
              (if b =? 0 then set_ser_rx l c else cons_store b (set_ser_rx l c))) as ->.
    { cbn [cons_intr]. unfold serial_proc_data at 1. rewrite <- El.
      destruct (Z.eqb_spec b (-1)); [lia|]. by destruct (b =? 0). }
    destruct (Z.eqb_spec b 0) as [->|Hne].
    + destruct (IH (set_ser_rx l c)) as (c' & E & P); [done|done|done|].
      exists c'. split; [done|]. rewrite filter_cons_False by (intros H; done). exact P.
    + assert (ring_ok (set_ser_rx l c)) as Hok1 by done.
      destruct (cons_store_ring b _ Hok1) as [Hok2 Hw].
      destruct (IH (cons_store b (set_ser_rx l c))) as (c' & E & Hr & Hq & Hk & Hrp & He & Hwp & Hp);
        [done|done|done|].
      exists c'. rewrite filter_cons_True by done. cbn [length].
      split_and!; try done.
      * rewrite Hwp, Hw. cbn [wpos set_ser_rx]. unfold CONSBUFSIZE. zdm.
      * intros Hlen. unfold CONSBUFSIZE in *. assert (pending (set_ser_rx l c) = pending c) as Hpc by done.
        rewrite cons_store_pending in Hp by (rewrite ?Hpc; unfold CONSBUFSIZE; done || lia).
        rewrite Hpc, length_app in Hp. cbn [length] in Hp.
        rewrite Hp by lia. rewrite u8_id by done. by rewrite <- app_assoc.
Qed.

Lemma kbd_intr_empty c : kbd_rx c = [] -> kbd_intr c = c.
Proof. intros H. unfold kbd_intr. rewrite H. cbn. unfold kbd_proc_data. by rewrite H. Qed.

(** Input that is waiting: stored characters, then the serial line. *)
Definition input_queue (c : console) : list Z := pending c ++ arriving c.

Definition console_ok (c : console) : Prop :=
  ring_ok c /\ serial_exists c = true /\ kbd_rx c = [] /\
  Forall (fun b => 0 <= b < 256) (ser_rx c).

Lemma pending_cons c :
  ring_ok c -> rpos c <> wpos c ->
  pending c = u8 (cbuf c (rpos c)) ::
    pending (set_ring (cbuf c) ((rpos c + 1) mod CONSBUFSIZE) (wpos c) c).
Proof.
  unfold ring_ok, pending. cbn [rpos wpos cbuf set_ring]. intros [Hr Hw] Hne.
  unfold CONSBUFSIZE in *.
  replace (Z.to_nat ((wpos c - rpos c) mod 512))
    with (S (Z.to_nat ((wpos c - (rpos c + 1) mod 512) mod 512))) by zdm.
  cbn [seq map]. f_equal; [f_equal; f_equal; zdm|].
  rewrite <- seq_shift, map_map. apply map_ext. intros k. f_equal. f_equal. zdm.
Qed.

(** While fewer than 512 characters are waiting the console input is a
    queue: [cons_getc] returns the oldest one and leaves the rest, or returns 0
    when there is none. *)
Theorem cons_getc_fifo (c : console) :
  console_ok c -> Z.of_nat (length (input_queue c)) < CONSBUFSIZE ->
  console_ok (snd (cons_getc c)) /\ fst (cons_getc c) = hd 0 (input_queue c)
  /\ input_queue (snd (cons_getc c)) = tl (input_queue c).
Proof.
  intros (Hok & He & Hk & Hb) Hlen. unfold input_queue in *. rewrite length_app in Hlen.
  destruct (serial_loop c Hok Hb) as (c' & E & Hr & Hq & Hk' & Hrp & He' & _ & Hp).
  assert (serial_intr c = c') as Es by (unfold serial_intr; by rewrite He, E).
  specialize (Hp ltac:(lia)). rewrite <- Hp.
  unfold cons_getc. rewrite Es, kbd_intr_empty by congruence.
  assert (arriving c' = []) as Ha by (unfold arriving; by rewrite Hq).
  destruct (Z.eqb_spec (rpos c') (wpos c')) as [Heq|Hne]; cbn [negb fst snd].
  - assert (pending c' = []) as -> by (unfold pending; by rewrite Heq, Z.sub_diag).
    rewrite Ha. unfold console_ok. rewrite Hq. split_and!; try done; congruence.
  - rewrite pending_cons by done. cbn [hd tl].
    set (r := if _ =? _ then 0 else _).
    assert (r = (rpos c' + 1) mod CONSBUFSIZE) as ->.
    { subst r. unfold ring_ok, CONSBUFSIZE in *. rewrite u32_id by lia. bcase; zdm. }
    split_and!; [|done|unfold arriving; cbn; rewrite Hq; by rewrite app_nil_r].
    unfold console_ok, ring_ok. cbn [rpos wpos ser_rx kbd_rx serial_exists set_ring].
    rewrite Hq. split_and!; try done; try congruence; unfold CONSBUFSIZE; try apply Hr; zdm.
Qed.

Definition typed : console :=
  mkConsole true [104; 0; 105] [] [] [] false (fun _ => 0) 0 0 (<[511 := 33]> (fun _ => 0)) 511 0.

Lemma cons_getc_fifo_witness :
  input_queue typed = [33; 104; 105] /\ fst (cons_getc typed) = 33
  /\ input_queue (snd (cons_getc typed)) = [104; 105].
Proof.
  assert (input_queue typed = [33; 104; 105]) as E by reflexivity.
  split; [exact E|].
  destruct (cons_getc_fifo typed) as (_ & H1 & H2).
  - unfold console_ok, ring_ok, CONSBUFSIZE. cbn. split_and!; try lia; try reflexivity.
    repeat (apply Forall_cons_2; [lia|]). apply Forall_nil_2.
  - rewrite E. unfold CONSBUFSIZE. cbn. lia.
  - rewrite H1, H2, E. split; reflexivity.
Defined.

(** The ring has no overflow check.  If exactly 512 characters arrive
    while it is empty the write position comes back to the read position, the
    ring looks empty and every one of them is lost. *)
Theorem cons_overflow_loses_all (c : console) :
  console_ok c -> rpos c = wpos c -> Z.of_nat (length (arriving c)) = CONSBUFSIZE ->
  fst (cons_getc c) = 0 /\ input_queue (snd (cons_getc c)) = [].
Proof.
  intros (Hok & He & Hk & Hb) Heq Hlen.
  destruct (serial_loop c Hok Hb) as (c' & E & Hr & Hq & Hk' & Hrp & He' & Hw & _).
  assert (serial_intr c = c') as Es by (unfold serial_intr; by rewrite He, E).
  unfold cons_getc. rewrite Es, kbd_intr_empty by congruence.
  assert (rpos c' = wpos c') as Hrw.
  { rewrite Hw, Hrp, Hlen, Heq. destruct Hok. unfold CONSBUFSIZE in *. zdm. }
  rewrite Hrw, Z.eqb_refl. cbn [negb fst snd]. split; [done|].
  unfold input_queue, pending, arriving. rewrite Hq, Hrw, Z.sub_diag. done.
Qed.

Definition flooded : console :=
  mkConsole true (replicate 512 65) [] [] [] false (fun _ => 0) 0 0 (fun _ => 0) 7 7.

Lemma cons_overflow_loses_all_witness :
  length (arriving flooded) = 512%nat /\ fst (cons_getc flooded) = 0
  /\ input_queue (snd (cons_getc flooded)) = [].
Proof.
  assert (length (arriving flooded) = 512%nat) as E by (vm_compute; reflexivity).
  split; [exact E|]. apply cons_overflow_loses_all.
  - unfold console_ok, ring_ok, CONSBUFSIZE. cbn [rpos wpos serial_exists kbd_rx ser_rx flooded].
    split_and!; try lia; try reflexivity. apply Forall_replicate. lia.
  - reflexivity.
  - rewrite E. reflexivity.
Defined.

End Console.
