(* ===== verification/Kernel.v ===== *)
(** * Kernel state and effects

    The data the kernel keeps (the structs of inc/memlayout.h, inc/trap.h,
    inc/env.h, kern/cpu.h and kern/e1000.h and the globals of kern/*.c) as one
    record, and the monad its functions run in.

    C arrays ([pages], [envs], [cpus], the rings) are total functions on the
    index with point updates; a [struct PageInfo *] or [struct Env *] is the
    index, NULL is [None].  Pointers into memory ([pde_t *], [pte_t *], [void *])
    are 32-bit addresses.  Padding and descriptor fields that no code reads are
    left out. *)

From stdpp Require Import base numbers list functions strings.
From Stdlib Require Import ZArith Lia.
From S2P Require Import Prelude Mem Mmu Console.

Open Scope Z_scope.

Import Console.

(** ** inc/error.h, inc/env.h, inc/trap.h, kern/cpu.h *)

Definition E_UNSPECIFIED : Z := 1.

Definition E_BAD_ENV : Z := 2.

Definition E_INVAL : Z := 3.

Definition E_NO_MEM : Z := 4.

Definition E_NO_FREE_ENV : Z := 5.

Definition E_FAULT : Z := 6.

Definition E_IPC_NOT_RECV : Z := 7.

Definition E_EOF : Z := 8.

Definition E_NO_DISK : Z := 9.

Definition E_MAX_OPEN : Z := 10.

Definition E_NOT_FOUND : Z := 11.

Definition E_BAD_PATH : Z := 12.

Definition E_FILE_EXISTS : Z := 13.

Definition E_NOT_EXEC : Z := 14.

Definition E_NOT_SUPP : Z := 15.

Definition E_E1000_TXBUF_FULL : Z := 16.

Definition E_E1000_RXBUF_EMPTY : Z := 17.

Definition MAXERROR : Z := 18.

Definition LOG2NENV : Z := 10.

Definition NENV : Z := 1024.

Definition ENV_FREE : Z := 0.

Definition ENV_DYING : Z := 1.

Definition ENV_RUNNABLE : Z := 2.

Definition ENV_RUNNING : Z := 3.

Definition ENV_NOT_RUNNABLE : Z := 4.

Definition ENV_TYPE_USER : Z := 0.

Definition ENV_TYPE_FS : Z := 1.

Definition ENV_TYPE_NS : Z := 2.

Definition NCPU : Z := 8.

Definition CPU_UNUSED : Z := 0.

Definition CPU_STARTED : Z := 1.

Definition CPU_HALTED : Z := 2.

Definition ENVX (envid : Z) : Z := Z.land envid (NENV - 1).

(** ** Structs *)

Record PushRegs := mkPushRegs {
  reg_edi : Z;
  reg_esi : Z;
  reg_ebp : Z;
  reg_oesp : Z;
  reg_ebx : Z;
  reg_edx : Z;
  reg_ecx : Z;
  reg_eax : Z
}.

Record Trapframe := mkTrapframe {
  tf_regs : PushRegs;
  tf_es : Z;
  tf_ds : Z;
  tf_trapno : Z;
  tf_err : Z;
  tf_eip : Z;
  tf_cs : Z;
  tf_eflags : Z;
  tf_esp : Z;
  tf_ss : Z
}.

Record Env := mkEnv {
  env_tf : Trapframe;
  env_link : option Z;
  env_id : Z;
  env_parent_id : Z;
  env_type : Z;
  env_status : Z;
  env_runs : Z;
  env_cpunum : Z;
  env_pgdir : Z;
  env_pgfault_upcall : Z;
  env_ipc_recving : bool;
  env_ipc_dstva : Z;
  env_ipc_value : Z;
  env_ipc_from : Z;
  env_ipc_perm : Z;
  env_e1000_waiting_rx : bool
}.

Record PageInfo := mkPageInfo {
  pp_link : option Z;
  pp_ref : Z
}.

Record CpuInfo := mkCpuInfo {
  cpu_id : Z;
  cpu_status : Z;
  cpu_env : option Z;
  ts_esp0 : Z;
  ts_ss0 : Z
}.

Record e1000_tx_desc := mkTxDesc {
  tx_buffer_addr : Z;
  tx_length : Z;
  tx_cmd : Z;
  tx_status : Z
}.

Record e1000_rx_desc := mkRxDesc {
  rx_buffer_addr : Z;
  rx_length : Z;
  rx_status : Z
}.

Record e1000 := mkE1000 {
  e1000_regs : Z -> Z;
  txq : Z -> e1000_tx_desc;
  tx_paks : Z -> Z -> Z;
  rxq : Z -> e1000_rx_desc;
  rx_paks : Z -> Z -> Z
}.

(** The globals.  [kend] is the linker symbol [end]; [nextfree] and
    [mmio_base] are the statics of [boot_alloc] and [mmio_map_region];
    [tlb_flushed] lists the arguments of [invlpg], latest first; [cr3] is the
    physical address last loaded with [lcr3]; [cpunum] is the CPU that executes
    and [cpus !! cpunum] is [thiscpu]. *)
Record kstate := mkKstate {
  npages : Z;
  npages_basemem : Z;
  kend : Z;
  nextfree : Z;
  pages : Z -> PageInfo;
  page_free_list : option Z;
  phys : Z -> Z;
  kern_pgdir : Z;
  mmio_base : Z;
  user_mem_check_addr : Z;
  tlb_flushed : list Z;
  cr3 : Z;
  envs : Z -> Env;
  env_free_list : option Z;
  cpus : Z -> CpuInfo;
  cpunum : Z;
  kernel_locked : bool;
  ticks : Z;
  cons : console;
  nic : e1000
}.

(** ** Field updates *)

Definition set_reg_eax (x : Z) (r : PushRegs) : PushRegs :=
  mkPushRegs (reg_edi r) (reg_esi r) (reg_ebp r) (reg_oesp r) (reg_ebx r) (reg_edx r) (reg_ecx r) x.

Definition set_tf_regs (x : PushRegs) (r : Trapframe) : Trapframe :=
  mkTrapframe x (tf_es r) (tf_ds r) (tf_trapno r) (tf_err r) (tf_eip r) (tf_cs r) (tf_eflags r) (tf_esp r) (tf_ss r).

Definition set_tf_eip (x : Z) (r : Trapframe) : Trapframe :=
  mkTrapframe (tf_regs r) (tf_es r) (tf_ds r) (tf_trapno r) (tf_err r) x (tf_cs r) (tf_eflags r) (tf_esp r) (tf_ss r).

Definition set_tf_cs (x : Z) (r : Trapframe) : Trapframe :=
  mkTrapframe (tf_regs r) (tf_es r) (tf_ds r) (tf_trapno r) (tf_err r) (tf_eip r) x (tf_eflags r) (tf_esp r) (tf_ss r).

Definition set_tf_eflags (x : Z) (r : Trapframe) : Trapframe :=
  mkTrapframe (tf_regs r) (tf_es r) (tf_ds r) (tf_trapno r) (tf_err r) (tf_eip r) (tf_cs r) x (tf_esp r) (tf_ss r).

Definition set_tf_esp (x : Z) (r : Trapframe) : Trapframe :=
  mkTrapframe (tf_regs r) (tf_es r) (tf_ds r) (tf_trapno r) (tf_err r) (tf_eip r) (tf_cs r) (tf_eflags r) x (tf_ss r).

Definition set_env_tf (x : Trapframe) (r : Env) : Env :=
  mkEnv x (env_link r) (env_id r) (env_parent_id r) (env_type r) (env_status r) (env_runs r) (env_cpunum r) (env_pgdir r) (env_pgfault_upcall r) (env_ipc_recving r) (env_ipc_dstva r) (env_ipc_value r) (env_ipc_from r) (env_ipc_perm r) (env_e1000_waiting_rx r).

Definition set_env_link (x : option Z) (r : Env) : Env :=
  mkEnv (env_tf r) x (env_id r) (env_parent_id r) (env_type r) (env_status r) (env_runs r) (env_cpunum r) (env_pgdir r) (env_pgfault_upcall r) (env_ipc_recving r) (env_ipc_dstva r) (env_ipc_value r) (env_ipc_from r) (env_ipc_perm r) (env_e1000_waiting_rx r).

Definition set_env_id (x : Z) (r : Env) : Env :=
  mkEnv (env_tf r) (env_link r) x (env_parent_id r) (env_type r) (env_status r) (env_runs r) (env_cpunum r) (env_pgdir r) (env_pgfault_upcall r) (env_ipc_recving r) (env_ipc_dstva r) (env_ipc_value r) (env_ipc_from r) (env_ipc_perm r) (env_e1000_waiting_rx r).

Definition set_env_parent_id (x : Z) (r : Env) : Env :=
  mkEnv (env_tf r) (env_link r) (env_id r) x (env_type r) (env_status r) (env_runs r) (env_cpunum r) (env_pgdir r) (env_pgfault_upcall r) (env_ipc_recving r) (env_ipc_dstva r) (env_ipc_value r) (env_ipc_from r) (env_ipc_perm r) (env_e1000_waiting_rx r).

Definition set_env_type (x : Z) (r : Env) : Env :=
  mkEnv (env_tf r) (env_link r) (env_id r) (env_parent_id r) x (env_status r) (env_runs r) (env_cpunum r) (env_pgdir r) (env_pgfault_upcall r) (env_ipc_recving r) (env_ipc_dstva r) (env_ipc_value r) (env_ipc_from r) (env_ipc_perm r) (env_e1000_waiting_rx r).

Definition set_env_status (x : Z) (r : Env) : Env :=
  mkEnv (env_tf r) (env_link r) (env_id r) (env_parent_id r) (env_type r) x (env_runs r) (env_cpunum r) (env_pgdir r) (env_pgfault_upcall r) (env_ipc_recving r) (env_ipc_dstva r) (env_ipc_value r) (env_ipc_from r) (env_ipc_perm r) (env_e1000_waiting_rx r).

Definition set_env_runs (x : Z) (r : Env) : Env :=
  mkEnv (env_tf r) (env_link r) (env_id r) (env_parent_id r) (env_type r) (env_status r) x (env_cpunum r) (env_pgdir r) (env_pgfault_upcall r) (env_ipc_recving r) (env_ipc_dstva r) (env_ipc_value r) (env_ipc_from r) (env_ipc_perm r) (env_e1000_waiting_rx r).

Definition set_env_cpunum (x : Z) (r : Env) : Env :=
  mkEnv (env_tf r) (env_link r) (env_id r) (env_parent_id r) (env_type r) (env_status r) (env_runs r) x (env_pgdir r) (env_pgfault_upcall r) (env_ipc_recving r) (env_ipc_dstva r) (env_ipc_value r) (env_ipc_from r) (env_ipc_perm r) (env_e1000_waiting_rx r).

Definition set_env_pgdir (x : Z) (r : Env) : Env :=
  mkEnv (env_tf r) (env_link r) (env_id r) (env_parent_id r) (env_type r) (env_status r) (env_runs r) (env_cpunum r) x (env_pgfault_upcall r) (env_ipc_recving r) (env_ipc_dstva r) (env_ipc_value r) (env_ipc_from r) (env_ipc_perm r) (env_e1000_waiting_rx r).

Definition set_env_pgfault_upcall (x : Z) (r : Env) : Env :=
  mkEnv (env_tf r) (env_link r) (env_id r) (env_parent_id r) (env_type r) (env_status r) (env_runs r) (env_cpunum r) (env_pgdir r) x (env_ipc_recving r) (env_ipc_dstva r) (env_ipc_value r) (env_ipc_from r) (env_ipc_perm r) (env_e1000_waiting_rx r).

Definition set_env_ipc_recving (x : bool) (r : Env) : Env :=
  mkEnv (env_tf r) (env_link r) (env_id r) (env_parent_id r) (env_type r) (env_status r) (env_runs r) (env_cpunum r) (env_pgdir r) (env_pgfault_upcall r) x (env_ipc_dstva r) (env_ipc_value r) (env_ipc_from r) (env_ipc_perm r) (env_e1000_waiting_rx r).

Definition set_env_ipc_dstva (x : Z) (r : Env) : Env :=
  mkEnv (env_tf r) (env_link r) (env_id r) (env_parent_id r) (env_type r) (env_status r) (env_runs r) (env_cpunum r) (env_pgdir r) (env_pgfault_upcall r) (env_ipc_recving r) x (env_ipc_value r) (env_ipc_from r) (env_ipc_perm r) (env_e1000_waiting_rx r).

Definition set_env_ipc_value (x : Z) (r : Env) : Env :=
  mkEnv (env_tf r) (env_link r) (env_id r) (env_parent_id r) (env_type r) (env_status r) (env_runs r) (env_cpunum r) (env_pgdir r) (env_pgfault_upcall r) (env_ipc_recving r) (env_ipc_dstva r) x (env_ipc_from r) (env_ipc_perm r) (env_e1000_waiting_rx r).

Definition set_env_ipc_from (x : Z) (r : Env) : Env :=
  mkEnv (env_tf r) (env_link r) (env_id r) (env_parent_id r) (env_type r) (env_status r) (env_runs r) (env_cpunum r) (env_pgdir r) (env_pgfault_upcall r) (env_ipc_recving r) (env_ipc_dstva r) (env_ipc_value r) x (env_ipc_perm r) (env_e1000_waiting_rx r).

Definition set_env_ipc_perm (x : Z) (r : Env) : Env :=
  mkEnv (env_tf r) (env_link r) (env_id r) (env_parent_id r) (env_type r) (env_status r) (env_runs r) (env_cpunum r) (env_pgdir r) (env_pgfault_upcall r) (env_ipc_recving r) (env_ipc_dstva r) (env_ipc_value r) (env_ipc_from r) x (env_e1000_waiting_rx r).

Definition set_env_e1000_waiting_rx (x : bool) (r : Env) : Env :=
  mkEnv (env_tf r) (env_link r) (env_id r) (env_parent_id r) (env_type r) (env_status r) (env_runs r) (env_cpunum r) (env_pgdir r) (env_pgfault_upcall r) (env_ipc_recving r) (env_ipc_dstva r) (env_ipc_value r) (env_ipc_from r) (env_ipc_perm r) x.

Definition set_pp_link (x : option Z) (r : PageInfo) : PageInfo :=
  mkPageInfo x (pp_ref r).

Definition set_pp_ref (x : Z) (r : PageInfo) : PageInfo :=
  mkPageInfo (pp_link r) x.

Definition set_cpu_status (x : Z) (r : CpuInfo) : CpuInfo :=
  mkCpuInfo (cpu_id r) x (cpu_env r) (ts_esp0 r) (ts_ss0 r).

Definition set_cpu_env (x : option Z) (r : CpuInfo) : CpuInfo :=
  mkCpuInfo (cpu_id r) (cpu_status r) x (ts_esp0 r) (ts_ss0 r).

Definition set_e1000_regs (x : Z -> Z) (r : e1000) : e1000 :=
  mkE1000 x (txq r) (tx_paks r) (rxq r) (rx_paks r).

Definition set_txq (x : Z -> e1000_tx_desc) (r : e1000) : e1000 :=
  mkE1000 (e1000_regs r) x (tx_paks r) (rxq r) (rx_paks r).

Definition set_tx_paks (x : Z -> Z -> Z) (r : e1000) : e1000 :=
  mkE1000 (e1000_regs r) (txq r) x (rxq r) (rx_paks r).

Definition set_rxq (x : Z -> e1000_rx_desc) (r : e1000) : e1000 :=
  mkE1000 (e1000_regs r) (txq r) (tx_paks r) x (rx_paks r).

Definition set_rx_paks (x : Z -> Z -> Z) (r : e1000) : e1000 :=
  mkE1000 (e1000_regs r) (txq r) (tx_paks r) (rxq r) x.

Definition set_npages (x : Z) (r : kstate) : kstate :=
  mkKstate x (npages_basemem r) (kend r) (nextfree r) (pages r) (page_free_list r) (phys r) (kern_pgdir r) (mmio_base r) (user_mem_check_addr r) (tlb_flushed r) (cr3 r) (envs r) (env_free_list r) (cpus r) (cpunum r) (kernel_locked r) (ticks r) (cons r) (nic r).

Definition set_npages_basemem (x : Z) (r : kstate) : kstate :=
  mkKstate (npages r) x (kend r) (nextfree r) (pages r) (page_free_list r) (phys r) (kern_pgdir r) (mmio_base r) (user_mem_check_addr r) (tlb_flushed r) (cr3 r) (envs r) (env_free_list r) (cpus r) (cpunum r) (kernel_locked r) (ticks r) (cons r) (nic r).

Definition set_kend (x : Z) (r : kstate) : kstate :=
  mkKstate (npages r) (npages_basemem r) x (nextfree r) (pages r) (page_free_list r) (phys r) (kern_pgdir r) (mmio_base r) (user_mem_check_addr r) (tlb_flushed r) (cr3 r) (envs r) (env_free_list r) (cpus r) (cpunum r) (kernel_locked r) (ticks r) (cons r) (nic r).

Definition set_nextfree (x : Z) (r : kstate) : kstate :=
  mkKstate (npages r) (npages_basemem r) (kend r) x (pages r) (page_free_list r) (phys r) (kern_pgdir r) (mmio_base r) (user_mem_check_addr r) (tlb_flushed r) (cr3 r) (envs r) (env_free_list r) (cpus r) (cpunum r) (kernel_locked r) (ticks r) (cons r) (nic r).

Definition set_pages (x : Z -> PageInfo) (r : kstate) : kstate :=
  mkKstate (npages r) (npages_basemem r) (kend r) (nextfree r) x (page_free_list r) (phys r) (kern_pgdir r) (mmio_base r) (user_mem_check_addr r) (tlb_flushed r) (cr3 r) (envs r) (env_free_list r) (cpus r) (cpunum r) (kernel_locked r) (ticks r) (cons r) (nic r).

Definition set_page_free_list (x : option Z) (r : kstate) : kstate :=
  mkKstate (npages r) (npages_basemem r) (kend r) (nextfree r) (pages r) x (phys r) (kern_pgdir r) (mmio_base r) (user_mem_check_addr r) (tlb_flushed r) (cr3 r) (envs r) (env_free_list r) (cpus r) (cpunum r) (kernel_locked r) (ticks r) (cons r) (nic r).

Definition set_phys (x : Z -> Z) (r : kstate) : kstate :=
  mkKstate (npages r) (npages_basemem r) (kend r) (nextfree r) (pages r) (page_free_list r) x (kern_pgdir r) (mmio_base r) (user_mem_check_addr r) (tlb_flushed r) (cr3 r) (envs r) (env_free_list r) (cpus r) (cpunum r) (kernel_locked r) (ticks r) (cons r) (nic r).

Definition set_kern_pgdir (x : Z) (r : kstate) : kstate :=
  mkKstate (npages r) (npages_basemem r) (kend r) (nextfree r) (pages r) (page_free_list r) (phys r) x (mmio_base r) (user_mem_check_addr r) (tlb_flushed r) (cr3 r) (envs r) (env_free_list r) (cpus r) (cpunum r) (kernel_locked r) (ticks r) (cons r) (nic r).

Definition set_mmio_base (x : Z) (r : kstate) : kstate :=
  mkKstate (npages r) (npages_basemem r) (kend r) (nextfree r) (pages r) (page_free_list r) (phys r) (kern_pgdir r) x (user_mem_check_addr r) (tlb_flushed r) (cr3 r) (envs r) (env_free_list r) (cpus r) (cpunum r) (kernel_locked r) (ticks r) (cons r) (nic r).

Definition set_user_mem_check_addr (x : Z) (r : kstate) : kstate :=
  mkKstate (npages r) (npages_basemem r) (kend r) (nextfree r) (pages r) (page_free_list r) (phys r) (kern_pgdir r) (mmio_base r) x (tlb_flushed r) (cr3 r) (envs r) (env_free_list r) (cpus r) (cpunum r) (kernel_locked r) (ticks r) (cons r) (nic r).

Definition set_tlb_flushed (x : list Z) (r : kstate) : kstate :=
  mkKstate (npages r) (npages_basemem r) (kend r) (nextfree r) (pages r) (page_free_list r) (phys r) (kern_pgdir r) (mmio_base r) (user_mem_check_addr r) x (cr3 r) (envs r) (env_free_list r) (cpus r) (cpunum r) (kernel_locked r) (ticks r) (cons r) (nic r).

Definition set_cr3 (x : Z) (r : kstate) : kstate :=
  mkKstate (npages r) (npages_basemem r) (kend r) (nextfree r) (pages r) (page_free_list r) (phys r) (kern_pgdir r) (mmio_base r) (user_mem_check_addr r) (tlb_flushed r) x (envs r) (env_free_list r) (cpus r) (cpunum r) (kernel_locked r) (ticks r) (cons r) (nic r).

Definition set_envs (x : Z -> Env) (r : kstate) : kstate :=
  mkKstate (npages r) (npages_basemem r) (kend r) (nextfree r) (pages r) (page_free_list r) (phys r) (kern_pgdir r) (mmio_base r) (user_mem_check_addr r) (tlb_flushed r) (cr3 r) x (env_free_list r) (cpus r) (cpunum r) (kernel_locked r) (ticks r) (cons r) (nic r).

Definition set_env_free_list (x : option Z) (r : kstate) : kstate :=
  mkKstate (npages r) (npages_basemem r) (kend r) (nextfree r) (pages r) (page_free_list r) (phys r) (kern_pgdir r) (mmio_base r) (user_mem_check_addr r) (tlb_flushed r) (cr3 r) (envs r) x (cpus r) (cpunum r) (kernel_locked r) (ticks r) (cons r) (nic r).

Definition set_cpus (x : Z -> CpuInfo) (r : kstate) : kstate :=
  mkKstate (npages r) (npages_basemem r) (kend r) (nextfree r) (pages r) (page_free_list r) (phys r) (kern_pgdir r) (mmio_base r) (user_mem_check_addr r) (tlb_flushed r) (cr3 r) (envs r) (env_free_list r) x (cpunum r) (kernel_locked r) (ticks r) (cons r) (nic r).

Definition set_cpunum (x : Z) (r : kstate) : kstate :=
  mkKstate (npages r) (npages_basemem r) (kend r) (nextfree r) (pages r) (page_free_list r) (phys r) (kern_pgdir r) (mmio_base r) (user_mem_check_addr r) (tlb_flushed r) (cr3 r) (envs r) (env_free_list r) (cpus r) x (kernel_locked r) (ticks r) (cons r) (nic r).

Definition set_kernel_locked (x : bool) (r : kstate) : kstate :=
  mkKstate (npages r) (npages_basemem r) (kend r) (nextfree r) (pages r) (page_free_list r) (phys r) (kern_pgdir r) (mmio_base r) (user_mem_check_addr r) (tlb_flushed r) (cr3 r) (envs r) (env_free_list r) (cpus r) (cpunum r) x (ticks r) (cons r) (nic r).

Definition set_ticks (x : Z) (r : kstate) : kstate :=
  mkKstate (npages r) (npages_basemem r) (kend r) (nextfree r) (pages r) (page_free_list r) (phys r) (kern_pgdir r) (mmio_base r) (user_mem_check_addr r) (tlb_flushed r) (cr3 r) (envs r) (env_free_list r) (cpus r) (cpunum r) (kernel_locked r) x (cons r) (nic r).

Definition set_cons (x : console) (r : kstate) : kstate :=
  mkKstate (npages r) (npages_basemem r) (kend r) (nextfree r) (pages r) (page_free_list r) (phys r) (kern_pgdir r) (mmio_base r) (user_mem_check_addr r) (tlb_flushed r) (cr3 r) (envs r) (env_free_list r) (cpus r) (cpunum r) (kernel_locked r) (ticks r) x (nic r).

Definition set_nic (x : e1000) (r : kstate) : kstate :=
  mkKstate (npages r) (npages_basemem r) (kend r) (nextfree r) (pages r) (page_free_list r) (phys r) (kern_pgdir r) (mmio_base r) (user_mem_check_addr r) (tlb_flushed r) (cr3 r) (envs r) (env_free_list r) (cpus r) (cpunum r) (kernel_locked r) (ticks r) (cons r) x.

(** ** Effects

    A kernel function returns, panics, or gives the CPU away: [ToUser] is
    [env_pop_tf] (user code of [curenv] runs), [Halt] the [hlt] loop of
    [sched_halt], [Monitor] its [while (1) monitor(NULL)].  [Undef] marks a read
    of an indeterminate value or an access through a pointer the C language
    gives no meaning to. *)
Inductive outcome (A : Type) : Type :=
| Ret (a : A) (s : kstate)
| Panic (why : string) (s : kstate)
| ToUser (s : kstate)
| Halt (s : kstate)
| Monitor (s : kstate)
| Undef (why : string) (s : kstate).

Arguments Ret {A} _ _.
Arguments Panic {A} _ _.
Arguments ToUser {A} _.
Arguments Halt {A} _.
Arguments Monitor {A} _.
Arguments Undef {A} _ _.

Definition K (A : Type) : Type := kstate -> outcome A.

Definition ret {A} (a : A) : K A := fun s => Ret a s.

Definition bind {A B} (m : K A) (k : A -> K B) : K B := fun s =>
  match m s with
  | Ret a s' => k a s'
  | Panic w s' => Panic w s'
  | ToUser s' => ToUser s'
  | Halt s' => Halt s'
  | Monitor s' => Monitor s'
  | Undef w s' => Undef w s'
  end.

Definition panic {A} (why : string) : K A := fun s => Panic why s.

Definition undef {A} (why : string) : K A := fun s => Undef why s.

Definition gets {A} (f : kstate -> A) : K A := fun s => Ret (f s) s.

Definition modify (f : kstate -> kstate) : K unit := fun s => Ret tt (f s).

Notation "'let!' x ':=' m 'in' k" := (bind m (fun x => k))
  (at level 10, x binder, m at level 100, k at level 200) : jos_scope.
Notation "'do!' m 'in' k" := (bind m (fun _ => k))
  (at level 10, m at level 100, k at level 200) : jos_scope.

Open Scope jos_scope.

(** [for (i = a; i < a + n; i++) body(i)], [n] given as a [nat]. *)
Fixpoint for_loop (n : nat) (a : Z) (body : Z -> K unit) : K unit :=
  match n with
  | O => ret tt
  | S n => do! body a in for_loop n (a + 1) body
  end.

Lemma bind_ret {A B} (m : K A) (k : A -> K B) s a s' :
  m s = Ret a s' -> bind m k s = k a s'.
Proof. intros H. unfold bind. by rewrite H. Qed.

Lemma bind_assoc {A B C} (m : K A) (k : A -> K B) (g : B -> K C) s :
  bind (bind m k) g s = bind m (fun a => bind (k a) g) s.
Proof. unfold bind. by destruct (m s). Qed.

(** Unfold the monad where the next action is known. *)
Ltac kunfold := unfold bind, ret, gets, modify, panic, undef in *.

(** ** Accessors *)

(** [thiscpu->cpu_env] *)
Definition curenv (s : kstate) : option Z := cpu_env (cpus s (cpunum s)).

Definition set_curenv (e : option Z) (s : kstate) : kstate :=
  set_cpus (<[cpunum s := set_cpu_env e (cpus s (cpunum s))]> (cpus s)) s.

Definition upd_page (pp : Z) (f : PageInfo -> PageInfo) (s : kstate) : kstate :=
  set_pages (<[pp := f (pages s pp)]> (pages s)) s.

Definition upd_env (e : Z) (f : Env -> Env) (s : kstate) : kstate :=
  set_envs (<[e := f (envs s e)]> (envs s)) s.

Definition upd_tf (f : Trapframe -> Trapframe) (e : Env) : Env := set_env_tf (f (env_tf e)) e.

Definition set_eax (x : Z) (t : Trapframe) : Trapframe :=
  set_tf_regs (set_reg_eax x (tf_regs t)) t.

(** Loads and stores through the window that maps physical memory at
    [KERNBASE]. *)
Definition kload32 (kva : Z) : K Z := gets (fun s => rd32 (phys s) (kva - KERNBASE)).

Definition kstore32 (kva v : Z) : K unit :=
  modify (fun s => set_phys (wr32 (phys s) (kva - KERNBASE) v) s).

Definition kmemset (kva c n : Z) : K unit :=
  modify (fun s => set_phys (mset (phys s) (kva - KERNBASE) c n) s).

Definition kmemcpy (dst src n : Z) : K unit :=
  modify (fun s => set_phys (mcpy (phys s) (dst - KERNBASE) (src - KERNBASE) n) s).
