(* ===== verification/Printfmt.v ===== *)
(** * Formatted output (lib/printfmt.c, lib/printf.c, kern/printf.c)

    [vprintfmt] with its callback: the function is a section parameter [putch]
    with the state [putdat] points to.  A format is the list of its bytes up to
    the terminating NUL, a string argument the list of its [char]s.  The
    argument list is typed; a conversion that takes an argument of another type
    has no meaning in C and the result is [None].

    The theorems: whatever the callback, [vprintfmt] feeds it one stream of
    characters that does not depend on it; [vsnprintf] stores a prefix of that
    stream and never writes past its buffer; user [cprintf] passes the stream
    on in pieces. *)

From stdpp Require Import base numbers list functions strings.
From Stdlib Require Import ZArith Lia Ascii.
From S2P Require Import Prelude Mem Console Kernel.

Open Scope Z_scope.

Module Printfmt.

(** The characters of a literal. *)
Definition chars (m : string) : list Z :=
  map (fun c => Z.of_N (N_of_ascii c)) (String.list_ascii_of_string m).

Definition char_of (c : ascii) : Z := Z.of_N (N_of_ascii c).

(** One argument of the variable argument list. *)
Inductive arg :=
| AInt (z : Z)
| ALong (z : Z)
| AStr (p : option (list Z)).

Definition error_string (err : Z) : option (list Z) :=
  if err =? E_UNSPECIFIED then Some (chars "unspecified error")
  else if err =? E_BAD_ENV then Some (chars "bad environment")
  else if err =? E_INVAL then Some (chars "invalid parameter")
  else if err =? E_NO_MEM then Some (chars "out of memory")
  else if err =? E_NO_FREE_ENV then Some (chars "out of environments")
  else if err =? E_FAULT then Some (chars "segmentation fault")
  else if err =? E_IPC_NOT_RECV then Some (chars "env is not recving")
  else if err =? E_EOF then Some (chars "unexpected end of file")
  else if err =? E_NO_DISK then Some (chars "no free space on disk")
  else if err =? E_MAX_OPEN then Some (chars "too many files are open")
  else if err =? E_NOT_FOUND then Some (chars "file or block not found")
  else if err =? E_BAD_PATH then Some (chars "invalid path")
  else if err =? E_FILE_EXISTS then Some (chars "file already exists")
  else if err =? E_NOT_EXEC then Some (chars "file is not a valid executable")
  else if err =? E_NOT_SUPP then Some (chars "operation not supported")
  else None.

Definition digit (x : Z) : Z := nth (Z.to_nat x) (chars "0123456789abcdef") 0.

Definition getuint (ap : list arg) (lflag : Z) : option (Z * list arg) :=
  if lflag >=? 2 then
    match ap with ALong z :: ap => Some (u64 z, ap) | _ => None end
  else match ap with AInt z :: ap => Some (u32 z, ap) | _ => None end.

Definition getint (ap : list arg) (lflag : Z) : option (Z * list arg) :=
  if lflag >=? 2 then
    match ap with ALong z :: ap => Some (i64 z, ap) | _ => None end
  else match ap with AInt z :: ap => Some (i32 z, ap) | _ => None end.

(** [strnlen(p, precision)]; a negative precision is a huge [size_t]. *)
Definition strnlen_prec (p : list Z) (precision : Z) : Z :=
  if precision <? 0 then Z.of_nat (length p) else MIN (Z.of_nat (length p)) precision.

(** The characters of [p] the [%s] loop prints. *)
Definition str_chars (p : list Z) (precision : Z) : list Z :=
  if precision <? 0 then p else firstn (Z.to_nat precision) p.

Section vprintfmt.

Context {S : Type} (putch : Z -> S -> S).

Definition puts (l : list Z) (d : S) : S := fold_left (fun d ch => putch ch d) l d.

(** [n] times the same character. *)
Definition pad (n ch : Z) (d : S) : S := puts (replicate (Z.to_nat n) ch) d.

(** [num] has at most 64 digits in any base. *)
Fixpoint printnum (fuel : nat) (num base width padc : Z) (d : S) : S :=
  match fuel with
  | O => d
  | Datatypes.S fuel =>
    let d := if num >=? base then printnum fuel (num / base) base (width - 1) padc d
             else pad (width - 1) padc d in
    putch (digit (num mod base)) d
  end.

Definition print_string (p : list Z) (width precision padc : Z) (alt : bool) (d : S) : S :=
  let front := (width >? 0) && negb (padc =? char_of "-") in
  let width := if front then width - strnlen_prec p precision else width in
  let d := if front then pad width padc d else d in
  let width := if front && (width >? 0) then 0 else width in
  let out := str_chars p precision in
  let d := puts (map (fun ch => if alt && ((ch <? 32) || (ch >? 126)) then char_of "?" else ch) out) d in
  pad (width - Z.of_nat (length out)) (char_of " ") d.

(** What follows a ['%']: [rest] is the rest of the format, [start] the format
    right after the ['%'], to which an unrecognised escape goes back.  The
    result is the new [putdat] state, the format and the arguments left. *)
Fixpoint escape (start rest : list Z) (padc width precision lflag : Z) (alt : bool)
    (ap : list arg) (d : S) : option (S * list Z * list arg) :=
  match rest with
  | [] => Some (putch (char_of "%") d, start, ap)
  | ch :: rest =>
    if ch =? char_of "-" then escape start rest (char_of "-") width precision lflag alt ap d
    else if ch =? char_of "0" then escape start rest (char_of "0") width precision lflag alt ap d
    else if (char_of "1" <=? ch) && (ch <=? char_of "9") then
      (fix number (rest : list Z) (prec : Z) : option (S * list Z * list arg) :=
         match rest with
         | c :: rest' =>
           if (char_of "0" <=? c) && (c <=? char_of "9") then number rest' (i32 (prec * 10 + c - char_of "0"))
           else if width <? 0 then escape start rest padc prec (-1) lflag alt ap d
                else escape start rest padc width prec lflag alt ap d
         | [] => Some (putch (char_of "%") d, start, ap)
         end) rest (ch - char_of "0")
    else if ch =? char_of "*" then
      match ap with
      | AInt z :: ap =>
        if width <? 0 then escape start rest padc (i32 z) (-1) lflag alt ap d
        else escape start rest padc width (i32 z) lflag alt ap d
      | _ => None
      end
    else if ch =? char_of "." then
      escape start rest padc (if width <? 0 then 0 else width) precision lflag alt ap d
    else if ch =? char_of "#" then escape start rest padc width precision lflag true ap d
    else if ch =? char_of "l" then escape start rest padc width precision (lflag + 1) alt ap d
    else if ch =? char_of "c" then
      match ap with AInt z :: ap => Some (putch (i32 z) d, rest, ap) | _ => None end
    else if ch =? char_of "e" then
      match ap with
      | AInt z :: ap =>
        let err := Z.abs (i32 z) in
        if err =? 2147483648 then None else
        match (if err >=? MAXERROR then None else error_string err) with
        | Some p => Some (print_string p (-1) (-1) (char_of " ") false d, rest, ap)
        | None => Some (printnum 64 err 10 (-1) (char_of " ") (puts (chars "error ") d), rest, ap)
        end
      | _ => None
      end
    else if ch =? char_of "s" then
      match ap with
      | AStr p :: ap =>
        let p := match p with Some p => p | None => chars "(null)" end in
        Some (print_string p width precision padc alt d, rest, ap)
      | _ => None
      end
    else if ch =? char_of "d" then
      match getint ap lflag with
      | Some (num, ap) =>
        if num <? 0 then Some (printnum 64 (u64 (- num)) 10 width padc (putch (char_of "-") d), rest, ap)
        else Some (printnum 64 num 10 width padc d, rest, ap)
      | None => None
      end
    else if ch =? char_of "u" then
      match getuint ap lflag with
      | Some (num, ap) => Some (printnum 64 num 10 width padc d, rest, ap)
      | None => None
      end
    else if ch =? char_of "o" then
      match getuint ap lflag with
      | Some (num, ap) => Some (printnum 64 num 8 width padc d, rest, ap)
      | None => None
      end
    else if ch =? char_of "p" then
      match ap with
      | AInt z :: ap =>
        Some (printnum 64 (u32 z) 16 width padc (putch (char_of "x") (putch (char_of "0") d)), rest, ap)
      | _ => None
      end
    else if ch =? char_of "x" then
      match getuint ap lflag with
      | Some (num, ap) => Some (printnum 64 num 16 width padc d, rest, ap)
      | None => None
      end
    else if ch =? char_of "%" then Some (putch ch d, rest, ap)
    else Some (putch (char_of "%") d, start, ap)
  end.

(** The main loop; every round consumes a character of the format. *)
Fixpoint vprintfmt_loop (fuel : nat) (fmt : list Z) (ap : list arg) (d : S) : option S :=
  match fuel with
  | O => None
  | Datatypes.S fuel =>
    match fmt with
    | [] => Some d
    | ch :: fmt =>
      if negb (ch =? char_of "%") then vprintfmt_loop fuel fmt ap (putch ch d)
      else match escape fmt fmt (char_of " ") (-1) (-1) 0 false ap d with
           | Some (d, fmt, ap) => vprintfmt_loop fuel fmt ap d
           | None => None
           end
    end
  end.

Definition vprintfmt (fmt : list Z) (ap : list arg) (d : S) : option S :=
  vprintfmt_loop (Datatypes.S (length fmt)) fmt ap d.

End vprintfmt.

(** ** The callback sees one stream

    Two callbacks that keep their states related see related final states. *)

Section relational.

Context {S1 S2 : Type} (put1 : Z -> S1 -> S1) (put2 : Z -> S2 -> S2) (R : S1 -> S2 -> Prop).
Context (Hput : forall ch d1 d2, R d1 d2 -> R (put1 ch d1) (put2 ch d2)).

Definition rel_escape (r1 : option (S1 * list Z * list arg)) (r2 : option (S2 * list Z * list arg)) : Prop :=
  match r1, r2 with
  | Some (d1, f1, a1), Some (d2, f2, a2) => R d1 d2 /\ f1 = f2 /\ a1 = a2
  | None, None => True
  | _, _ => False
  end.

Lemma puts_rel l d1 d2 : R d1 d2 -> R (puts put1 l d1) (puts put2 l d2).
Proof.
  revert d1 d2. induction l as [|c l IH]; intros d1 d2 H; [done|].
  apply (IH (put1 c d1) (put2 c d2)). auto.
Qed.

Lemma printnum_rel fuel : forall num base width padc d1 d2,
  R d1 d2 -> R (printnum put1 fuel num base width padc d1) (printnum put2 fuel num base width padc d2).
Proof.
  induction fuel as [|fuel IH]; intros; cbn; [done|]. apply Hput.
  destruct (num >=? base); [auto|by apply puts_rel].
Qed.

Lemma print_string_rel p w pr pc alt d1 d2 :
  R d1 d2 -> R (print_string put1 p w pr pc alt d1) (print_string put2 p w pr pc alt d2).
Proof.
  intros. unfold print_string, pad. apply puts_rel, puts_rel.
  destruct ((w >? 0) && negb (pc =? char_of "-")); [by apply puts_rel|done].
Qed.

#[local] Hint Resolve puts_rel printnum_rel print_string_rel Hput : core.

Lemma escape_rel n : forall start rest padc width precision lflag alt ap d1 d2,
  (length rest <= n)%nat -> R d1 d2 ->
  rel_escape (escape put1 start rest padc width precision lflag alt ap d1)
             (escape put2 start rest padc width precision lflag alt ap d2).
Proof.
  induction n as [|n IH]; intros start [|ch rest] padc width precision lflag alt ap d1 d2 Hn HR;
    cbn in Hn; [by split; auto|lia|by split; auto|].
  cbn [escape]. assert (length rest <= n)%nat as Hr by lia.
  repeat match goal with
  | |- rel_escape (if ?b then _ else _) (if ?b then _ else _) => destruct b eqn:?; [try (by auto)|]
  end.
  1: { revert Hr. generalize (ch - char_of "0") as prec. clear Hn.
    induction rest as [|c rest IHr]; intros prec Hr; cbv beta iota fix; [by split; auto|].
    destruct ((char_of "0" <=? c) && (c <=? char_of "9")).
    - apply IHr. cbn in Hr. lia.
    - destruct (width <? 0); by apply IH. }
  all: repeat match goal with
  | |- rel_escape (match ?x with _ => _ end) (match ?x with _ => _ end) => destruct x
  | |- rel_escape (let _ := _ in _) _ => cbv zeta
  end; try done; try (by auto); try (by split; auto).
Qed.

Lemma vprintfmt_loop_rel fuel : forall fmt ap d1 d2,
  R d1 d2 ->
  match vprintfmt_loop put1 fuel fmt ap d1, vprintfmt_loop put2 fuel fmt ap d2 with
  | Some d1, Some d2 => R d1 d2
  | None, None => True
  | _, _ => False
  end.
Proof.
  induction fuel as [|fuel IH]; intros fmt ap d1 d2 HR; cbn [vprintfmt_loop]; [done|].
  destruct fmt as [|ch fmt]; [done|]. destruct (negb (ch =? char_of "%")); [apply IH; auto|].
  pose proof (escape_rel (length fmt) fmt fmt (char_of " ") (-1) (-1) 0 false ap d1 d2 ltac:(lia) HR) as H.
  unfold rel_escape in H.
  destruct (escape put1 _ _ _ _ _ _ _ _ _) as [[[d1' f1] a1]|],
    (escape put2 _ _ _ _ _ _ _ _ _) as [[[d2' f2] a2]|]; try done.
  destruct H as (H & -> & ->). by apply IH.
Qed.

End relational.

(** The stream of characters a call prints. *)
Definition output (fmt : list Z) (ap : list arg) : option (list Z) :=
  vprintfmt (fun ch out => out ++ [ch]) fmt ap [].

Lemma puts_app {S} (put : Z -> S -> S) l1 l2 d : puts put (l1 ++ l2) d = puts put l2 (puts put l1 d).
Proof. apply fold_left_app. Qed.

Lemma vprintfmt_output {S} (put : Z -> S -> S) fmt ap d :
  vprintfmt put fmt ap d = option_map (fun out => puts put out d) (output fmt ap).
Proof.
  unfold vprintfmt, output.
  pose proof (vprintfmt_loop_rel put (fun ch out => out ++ [ch]) (fun d' out => d' = puts put out d)
    ltac:(intros ch d1 d2 ->; by rewrite puts_app) (Datatypes.S (length fmt)) fmt ap d [] eq_refl) as H.
  unfold vprintfmt.
  destruct (vprintfmt_loop put _ _ _ _), (vprintfmt_loop _ _ _ _ []); cbn; try done. by subst.
Qed.

(** Whatever the callback does, [vprintfmt] calls it on the same
    characters in the same order, those [output] lists. *)
Theorem vprintfmt_stream {S : Type} (putch : Z -> S -> S) (fmt : list Z) (ap : list arg) (d : S) :
  vprintfmt putch fmt ap d = option_map (fun out => fold_left (fun d ch => putch ch d) out d) (output fmt ap).
Proof. apply vprintfmt_output. Qed.

(** ** Formats and the types of arguments

    Whether a call has a meaning, and how much of the format and of the arguments
    a conversion takes, depends on the types of the arguments only; the error
    number that has no absolute value apart. *)

Definition same_type (a b : arg) : Prop :=
  match a, b with
  | AInt x, AInt y => Z.abs (i32 x) <> 2147483648 /\ Z.abs (i32 y) <> 2147483648
  | ALong _, ALong _ | AStr _, AStr _ => True
  | _, _ => False
  end.

Section shape.

Context {S : Type} (put : Z -> S -> S).

Definition same_shape (r1 r2 : option (S * list Z * list arg)) : Prop :=
  match r1, r2 with
  | Some (_, f1, a1), Some (_, f2, a2) => f1 = f2 /\ Forall2 same_type a1 a2
  | None, None => True
  | _, _ => False
  end.

Lemma getuint_shape ap1 ap2 lflag : Forall2 same_type ap1 ap2 ->
  match getuint ap1 lflag, getuint ap2 lflag with
  | Some (_, a1), Some (_, a2) => Forall2 same_type a1 a2
  | None, None => True
  | _, _ => False
  end.
Proof. unfold getuint. intros [|[] [] ? ? H Hl]; destruct (lflag >=? 2); try done. Qed.

Lemma getint_shape ap1 ap2 lflag : Forall2 same_type ap1 ap2 ->
  match getint ap1 lflag, getint ap2 lflag with
  | Some (_, a1), Some (_, a2) => Forall2 same_type a1 a2
  | None, None => True
  | _, _ => False
  end.
Proof. unfold getint. intros [|[] [] ? ? H Hl]; destruct (lflag >=? 2); try done. Qed.

Lemma escape_shape n : forall start rest pad1 pad2 w1 w2 p1 p2 lflag alt1 alt2 ap1 ap2 d1 d2,
  (length rest <= n)%nat -> Forall2 same_type ap1 ap2 ->
  same_shape (escape put start rest pad1 w1 p1 lflag alt1 ap1 d1) (escape put start rest pad2 w2 p2 lflag alt2 ap2 d2).
Proof.
  induction n as [|n IH]; intros start [|ch rest] pad1 pad2 w1 w2 p1 p2 lflag alt1 alt2 ap1 ap2 d1 d2 Hn Hap;
    cbn in Hn; [done|lia|done|].
  cbn [escape]. assert (length rest <= n)%nat as Hr by lia.
  repeat match goal with
  | |- same_shape (if ch =? ?c then _ else _) _ => destruct (ch =? c); [try (by apply IH)|]
  | |- same_shape (if (char_of "1" <=? ch) && _ then _ else _) _ => destruct ((char_of "1" <=? ch) && _)
  end; try done.
  1: { generalize (ch - char_of "0") as prec. revert Hr. clear Hn.
    induction rest as [|c rest IHr]; intros Hr prec; cbv beta iota fix; [done|].
    destruct ((char_of "0" <=? c) && (c <=? char_of "9")); [apply IHr; cbn in Hr; lia|].
    destruct (w1 <? 0), (w2 <? 0); by apply IH. }
  all: try match goal with
  | Hap : Forall2 same_type ?a1 ?a2 |- context [getuint _ ?l] =>
    pose proof (getuint_shape a1 a2 l Hap) as H;
    destruct (getuint a1 l) as [[? ?]|], (getuint a2 l) as [[? ?]|]; done
  | Hap : Forall2 same_type ?a1 ?a2 |- context [getint _ ?l] =>
    pose proof (getint_shape a1 a2 l Hap) as H;
    destruct (getint a1 l) as [[x ?]|], (getint a2 l) as [[y ?]|]; try done;
    destruct (x <? 0), (y <? 0); done
  end.
  all: destruct Hap as [|a1 a2 ap1 ap2 Ha Hap]; try done; destruct a1, a2; try done.
  - destruct (w1 <? 0), (w2 <? 0); by apply IH.
  - destruct Ha as [H1 H2]. rewrite (proj2 (Z.eqb_neq _ _) H1), (proj2 (Z.eqb_neq _ _) H2).
    by repeat match goal with |- context [match ?x with Some _ => _ | None => _ end] => destruct x end.
Qed.

Lemma vprintfmt_loop_shape fuel : forall fmt ap1 ap2 d1 d2, Forall2 same_type ap1 ap2 ->
  is_Some (vprintfmt_loop put fuel fmt ap1 d1) -> is_Some (vprintfmt_loop put fuel fmt ap2 d2).
Proof.
  induction fuel as [|fuel IH]; intros [|ch fmt] ap1 ap2 d1 d2 Hap; cbn [vprintfmt_loop]; [by intros []..|done|].
  destruct (negb (ch =? char_of "%")); [by apply IH|].
  pose proof (escape_shape (length fmt) fmt fmt (char_of " ") (char_of " ") (-1) (-1) (-1) (-1) 0 false false ap1 ap2
    d1 d2 ltac:(lia) Hap) as H.
  destruct (escape put fmt fmt (char_of " ") (-1) (-1) 0 false ap1 d1) as [[[? f1] a1]|]; [|by intros []].
  destruct (escape put fmt fmt (char_of " ") (-1) (-1) 0 false ap2 d2) as [[[? f2] a2]|]; [|done].
  destruct H as [-> H]. by apply IH.
Qed.

End shape.

(** A call with other numbers and strings has a meaning as well. *)
Lemma output_shape fmt ap1 ap2 : Forall2 same_type ap1 ap2 -> is_Some (output fmt ap1) -> is_Some (output fmt ap2).
Proof. apply vprintfmt_loop_shape. Qed.

(** ** vsnprintf *)

(** [struct sprintbuf]; the buffer is in memory [mem]. *)
Record sprintbuf := mkSprintbuf { sb_buf : Z; sb_ebuf : Z; sb_cnt : Z; sb_mem : Z -> Z }.

Definition sprintputch (ch : Z) (b : sprintbuf) : sprintbuf :=
  if sb_buf b <? sb_ebuf b then
    mkSprintbuf (u32 (sb_buf b + 1)) (sb_ebuf b) (i32 (sb_cnt b + 1)) (wr8 (sb_mem b) (sb_buf b) ch)
  else mkSprintbuf (sb_buf b) (sb_ebuf b) (i32 (sb_cnt b + 1)) (sb_mem b).

(** The result and the memory after the call. *)
Definition vsnprintf (m : Z -> Z) (buf n : Z) (fmt : list Z) (ap : list arg) : option (Z * (Z -> Z)) :=
  if (buf =? 0) || (n <? 1) then Some (- E_INVAL, m) else
  match vprintfmt sprintputch fmt ap (mkSprintbuf buf (u32 (buf + n - 1)) 0 m) with
  | Some b => Some (sb_cnt b, wr8 (sb_mem b) (sb_buf b) 0)
  | None => None
  end.

Lemma sprint_puts out : forall b,
  0 <= sb_buf b <= sb_ebuf b -> sb_ebuf b < 4294967296 ->
  0 <= sb_cnt b -> sb_cnt b + Z.of_nat (length out) < 2147483648 ->
  puts sprintputch out b =
    let k := MIN (Z.of_nat (length out)) (sb_ebuf b - sb_buf b) in
    mkSprintbuf (sb_buf b + k) (sb_ebuf b) (sb_cnt b + Z.of_nat (length out))
      (wrbytes (sb_mem b) (sb_buf b) (firstn (Z.to_nat k) out)).
Proof.
  induction out as [|ch out IH]; intros b Hb He Hc Hlen.
  - unfold MIN. change (Z.of_nat (length [])) with 0.
    destruct (Z.leb_spec 0 (sb_ebuf b - sb_buf b)); [|lia].
    change (Z.to_nat 0) with 0%nat. cbv zeta. rewrite !Z.add_0_r. by destruct b.
  - change (puts sprintputch (ch :: out) b) with (puts sprintputch out (sprintputch ch b)).
    cbn [length] in Hlen. unfold sprintputch at 2. rewrite i32_id by lia. destruct (Z.ltb_spec (sb_buf b) (sb_ebuf b)).
    + rewrite u32_id by lia. rewrite IH by (cbn [sb_buf sb_ebuf sb_cnt]; lia). cbn [sb_buf sb_ebuf sb_cnt sb_mem length]. unfold MIN.
      destruct (Z.leb_spec (Z.of_nat (length out)) (sb_ebuf b - (sb_buf b + 1))),
        (Z.leb_spec (Z.of_nat (Datatypes.S (length out))) (sb_ebuf b - sb_buf b)); try lia; cbv zeta.
      * rewrite !firstn_all2 by (cbn; lia). cbn [wrbytes]. f_equal; lia.
      * replace (Z.to_nat (sb_ebuf b - sb_buf b))
          with (Datatypes.S (Z.to_nat (sb_ebuf b - (sb_buf b + 1)))) by lia.
        cbn [firstn wrbytes]. f_equal; lia.
    + rewrite IH by (cbn [sb_buf sb_ebuf sb_cnt]; lia). cbn [sb_buf sb_ebuf sb_cnt sb_mem length]. unfold MIN.
      destruct (Z.leb_spec (Z.of_nat (length out)) (sb_ebuf b - sb_buf b)),
        (Z.leb_spec (Z.of_nat (Datatypes.S (length out))) (sb_ebuf b - sb_buf b)); try lia; cbv zeta.
      all: replace (Z.to_nat (sb_ebuf b - sb_buf b)) with 0%nat by lia.
      all: try replace (Z.to_nat (Z.of_nat (length out))) with 0%nat by lia.
      all: cbn [firstn]; f_equal; lia.
Qed.

(** C36: [vsnprintf] refuses the buffer NULL and a size below 1 with
    [-E_INVAL] and writes nothing.  Otherwise, for a buffer inside the address
    space and an output of less than 2^31 characters (the count is an [int]), it
    returns the length of the whole output, stores its first [n - 1] characters,
    or all of them if they are fewer, and a NUL after them, and writes no byte
    outside [buf .. buf + n - 1]. *)
Theorem vsnprintf_bounded (m : Z -> Z) (buf n : Z) (fmt : list Z) (ap : list arg) (out : list Z) :
  0 <= buf -> buf + n <= 4294967296 -> output fmt ap = Some out -> Z.of_nat (length out) < 2147483648 ->
  if (buf =? 0) || (n <? 1) then vsnprintf m buf n fmt ap = Some (- E_INVAL, m)
  else exists m', vsnprintf m buf n fmt ap = Some (Z.of_nat (length out), m')
    /\ let k := MIN (Z.of_nat (length out)) (n - 1) in
       (forall i c, 0 <= i < k -> out !! Z.to_nat i = Some c -> m' (buf + i) = u8 c)
       /\ m' (buf + k) = 0
       /\ forall a, a < buf \/ buf + n <= a -> m' a = m a.
Proof.
  intros Hb0 Hbn Ho Hlen. unfold vsnprintf.
  destruct (Z.eqb_spec buf 0), (Z.ltb_spec n 1); cbn [orb]; try done.
  rewrite vprintfmt_output, Ho, (u32_id (buf + n - 1)) by lia. cbn [option_map].
  rewrite sprint_puts by (cbn [sb_buf sb_ebuf sb_cnt]; lia). cbn [sb_buf sb_ebuf sb_cnt sb_mem].
  replace (buf + n - 1 - buf) with (n - 1) by lia.
  set (k := MIN (Z.of_nat (length out)) (n - 1)).
  assert (0 <= k <= n - 1 /\ k <= Z.of_nat (length out)) as Hk by (unfold k, MIN; repeat bcase).
  assert (length (firstn (Z.to_nat k) out) = Z.to_nat k) as Hl by (rewrite length_firstn; lia).
  eexists. split; [done|]. cbv zeta. split; [|split].
  - intros i c Hi Hc. unfold wr8 at 1. rewrite fn_lookup_insert_ne by lia.
    replace (buf + i) with (buf + Z.of_nat (Z.to_nat i)) by lia.
    apply wrbytes_in. rewrite lookup_take_lt by lia. done.
  - unfold wr8 at 1. rewrite fn_lookup_insert. done.
  - intros a Ha. unfold wr8 at 1. rewrite fn_lookup_insert_ne by lia. apply wrbytes_out. lia.
Qed.

(** ** Numbers *)

(** The value of a list of digits, most significant first. *)
Definition value (base : Z) (ds : list Z) : Z := fold_left (fun acc x => acc * base + x) ds 0.

Lemma value_snoc base ds x : value base (ds ++ [x]) = value base ds * base + x.
Proof. unfold value. by rewrite fold_left_app. Qed.

(** [ds] is the representation of [num]: no digit is out of range and there is
    no leading zero. *)
Record repr (base num : Z) (ds : list Z) : Prop := {
  re_value : value base ds = num;
  re_digits : forall x, x ∈ ds -> 0 <= x < base;
  re_lead : ds = [num] \/ exists x ds', ds = x :: ds' /\ 0 < x
}.

Lemma printnum_repr {S} (put : Z -> S -> S) base fuel : forall num width padc d,
  2 <= base -> 0 <= num < base ^ Z.of_nat (Datatypes.S fuel) ->
  exists ds, repr base num ds
    /\ printnum put (Datatypes.S fuel) num base width padc d =
       puts put (replicate (Z.to_nat (width - Z.of_nat (length ds))) padc ++ map digit ds) d.
Proof.
  induction fuel as [|fuel IH]; intros num width padc d Hb Hn;
    change (printnum put (Datatypes.S ?n) num base width padc d) with
      (put (digit (num mod base))
         (if num >=? base then printnum put n (num / base) base (width - 1) padc d
          else pad put (width - 1) padc d));
    rewrite Z.geb_leb; destruct (Z.leb_spec base num) as [Hge|Hlt].
  1: { rewrite Z.pow_1_r in Hn. lia. }
  2: { destruct (IH (num / base) (width - 1) padc d) as (ds & Hr & E); [done| |].
    { rewrite (Nat2Z.inj_succ (Datatypes.S fuel)), Z.pow_succ_r in Hn by lia.
      split; [apply Z.div_pos; lia|]. apply Z.div_lt_upper_bound; lia. }
    exists (ds ++ [num mod base]). destruct Hr as [Hv Hd Hl].
    pose proof (Z.mod_pos_bound num base ltac:(lia)).
    split; [split|].
    + rewrite value_snoc, Hv. pose proof (Z.div_mod num base ltac:(lia)). lia.
    + intros x [Hx| ->%list_elem_of_singleton]%elem_of_app; [auto|lia].
    + right. destruct Hl as [->|(x & ds' & -> & Hx)]; [|eexists _, _; split; [done|lia]].
      eexists _, _. split; [done|]. apply Z.div_str_pos. lia.
    + rewrite E, map_app, app_assoc, (puts_app put _ (map digit [_])), length_app. cbn [length map].
      do 4 f_equal. lia. }
  all: exists [num]; split; [split|].
  all: try (rewrite puts_app; cbn [length map]; unfold pad; by rewrite Z.mod_small by lia).
  all: try (cbn; lia).
  all: try (by left).
  all: intros x ->%list_elem_of_singleton; lia.
Qed.

(** [printnum] prints the representation of [num] in the base, most
    significant digit first and without leading zeros, padded on the left to
    [width]; 64 levels of recursion are enough for any 64-bit number. *)
Theorem printnum_prints {S : Type} (putch : Z -> S -> S) (num base width padc : Z) (d : S) :
  2 <= base <= 16 -> 0 <= num < 18446744073709551616 ->
  exists ds, repr base num ds
    /\ printnum putch 64 num base width padc d =
       puts putch (replicate (Z.to_nat (width - Z.of_nat (length ds))) padc ++ map digit ds) d.
Proof.
  intros Hb Hn. apply printnum_repr; [lia|]. split; [lia|].
  apply Z.lt_le_trans with (2 ^ 64); [lia|]. apply Z.pow_le_mono_l. lia.
Qed.

(** ** cprintf of the kernel

    [putch] of kern/printf.c increments its copy of the pointer to the count,
    not the count, so that the result is always 0. *)

Definition kputch (ch : Z) (c : Console.console) : Console.console :=
  Console.cons_putc ch c.

Definition kvcprintf (fmt : list Z) (ap : list arg) (c : Console.console)
  : option (Z * Console.console) :=
  match vprintfmt kputch fmt ap c with Some c => Some (0, c) | None => None end.

Definition kcprintf (fmt : string) (ap : list arg) : K Z := fun s =>
  match kvcprintf (chars fmt) ap (cons s) with
  | Some (cnt, c) => Ret cnt (set_cons c s)
  | None => Undef "cprintf: argument of another type" s
  end.

(** ** cprintf of user programs (lib/printf.c)

    [struct printbuf] with the first [idx] characters of [buf], and the
    [sys_cputs] calls made so far, oldest first. *)

Record printbuf := mkPrintbuf { pb_buf : list Z; pb_cnt : Z; pb_calls : list (list Z) }.

Definition putch (ch : Z) (b : printbuf) : printbuf :=
  let buf := pb_buf b ++ [u8 ch] in
  if Z.of_nat (length buf) =? 256 - 1 then mkPrintbuf [] (i32 (pb_cnt b + 1)) (pb_calls b ++ [buf])
  else mkPrintbuf buf (i32 (pb_cnt b + 1)) (pb_calls b).

Definition vcprintf (fmt : list Z) (ap : list arg) : option (Z * list (list Z)) :=
  match vprintfmt putch fmt ap (mkPrintbuf [] 0 []) with
  | Some b => Some (pb_cnt b, pb_calls b ++ [pb_buf b])
  | None => None
  end.

Lemma i32_succ x : i32 (i32 x + 1) = i32 (x + 1).
Proof. unfold i32, u32. destruct (Z.ltb_spec (x mod 4294967296) 2147483648), (Z.ltb_spec ((x + 1) mod 4294967296) 2147483648); zdm. Qed.

Record printbuf_ok (b : printbuf) (out : list Z) : Prop := {
  po_text : concat (pb_calls b) ++ pb_buf b = map u8 out;
  po_cnt : pb_cnt b = i32 (Z.of_nat (length out));
  po_buf : (length (pb_buf b) < 255)%nat;
  po_calls : Forall (fun c => length c = 255%nat) (pb_calls b)
}.

Lemma putch_ok b out ch : printbuf_ok b out -> printbuf_ok (putch ch b) (out ++ [ch]).
Proof.
  intros [H1 H2 H3 H4]. unfold putch. rewrite length_app. cbn [length].
  destruct (Z.eqb_spec (Z.of_nat (length (pb_buf b) + 1)) (256 - 1)).
  - split; cbn.
    + rewrite map_app, <- H1, concat_app. cbn. by rewrite !app_nil_r, app_assoc.
    + rewrite H2, i32_succ, length_app. cbn [length]. f_equal. lia.
    + lia.
    + apply Forall_app. split; [done|]. constructor; [|done]. rewrite length_app. cbn. lia.
  - split; cbn.
    + by rewrite map_app, <- H1, app_assoc.
    + rewrite H2, i32_succ, length_app. cbn [length]. f_equal. lia.
    + rewrite length_app. cbn. lia.
    + done.
Qed.

(** User [cprintf] prints exactly the formatted output, in order, in
    system calls of 255 bytes followed by one shorter one, never overrunning
    its 256-byte buffer, and returns its length, as an [int]. *)
Theorem vcprintf_chunks (fmt : list Z) (ap : list arg) (out : list Z) :
  output fmt ap = Some out ->
  exists calls last, vcprintf fmt ap = Some (i32 (Z.of_nat (length out)), calls ++ [last])
    /\ concat (calls ++ [last]) = map u8 out
    /\ Forall (fun c => length c = 255%nat) calls /\ (length last < 255)%nat.
Proof.
  intros Ho. unfold vcprintf. rewrite vprintfmt_output, Ho. cbn [option_map].
  assert (forall b pre, printbuf_ok b pre -> printbuf_ok (puts putch out b) (pre ++ out)) as H.
  { clear Ho. induction out as [|c out IH]; intros b pre Hb; [by rewrite app_nil_r|].
    change (puts putch (c :: out) b) with (puts putch out (putch c b)).
    rewrite cons_middle, app_assoc. by apply IH, putch_ok. }
  destruct (H (mkPrintbuf [] 0 []) []) as [H1 H2 H3 H4]; [by split; cbn; auto with lia|].
  cbn [app] in *. rewrite H2. eexists _, _. split; [done|].
  split; [|done]. rewrite concat_app. cbn. by rewrite app_nil_r.
Qed.

(** ** fprintf (lib/fprintf.c)

    [write] is the file descriptor's write, with the state [W] it acts on. *)

Section fprintf.

Context {W : Type} (write : list Z -> W -> Z * W).

Record fprintbuf := mkFprintbuf { fp_buf : list Z; fp_result : Z; fp_error : Z; fp_w : W }.

Definition writebuf (b : fprintbuf) : fprintbuf :=
  if fp_error b >? 0 then
    let '(result, w) := write (fp_buf b) (fp_w b) in
    mkFprintbuf (fp_buf b) (if result >? 0 then i32 (fp_result b + result) else fp_result b)
      (if negb (result =? Z.of_nat (length (fp_buf b))) then (if result <? 0 then result else 0)
       else fp_error b) w
  else b.

Definition fputch (ch : Z) (b : fprintbuf) : fprintbuf :=
  let b := mkFprintbuf (fp_buf b ++ [u8 ch]) (fp_result b) (fp_error b) (fp_w b) in
  if Z.of_nat (length (fp_buf b)) =? 256 then
    let b := writebuf b in mkFprintbuf [] (fp_result b) (fp_error b) (fp_w b)
  else b.

Definition vfprintf (fmt : list Z) (ap : list arg) (w : W) : option (Z * W) :=
  match vprintfmt fputch fmt ap (mkFprintbuf [] 0 1 w) with
  | Some b =>
    let b := if Z.of_nat (length (fp_buf b)) >? 0 then writebuf b else b in
    Some (if negb (fp_result b =? 0) then fp_result b else fp_error b, fp_w b)
  | None => None
  end.

End fprintf.

(** ** Concrete calls *)

(** [cprintf("%5d|%-4s|%x%%", -42, "ab", 255)] *)
Definition sample_fmt : list Z := chars "%5d|%-4s|%x%%".

Definition sample_args : list arg := [AInt (-42); AStr (Some (chars "ab")); AInt 255].

Lemma sample_output : output sample_fmt sample_args = Some (chars "-   42|ab  |ff%").
Proof. vm_compute. reflexivity. Qed.

Lemma vsnprintf_bounded_witness :
  vsnprintf (fun _ => 7) 0 8 sample_fmt sample_args = Some (-3, fun _ => 7)
  /\ exists m', vsnprintf (fun _ => 7) 100 8 sample_fmt sample_args = Some (15, m')
    /\ m' 107 = 0 /\ m' 108 = 7.
Proof.
  split.
  { exact (vsnprintf_bounded (fun _ => 7) 0 8 sample_fmt sample_args (chars "-   42|ab  |ff%")
             ltac:(lia) ltac:(lia) sample_output ltac:(reflexivity)). }
  destruct (vsnprintf_bounded (fun _ => 7) 100 8 sample_fmt sample_args (chars "-   42|ab  |ff%")
              ltac:(lia) ltac:(lia) sample_output ltac:(reflexivity)) as (m' & E & _ & H0 & Ho).
  exists m'. split; [exact E|]. split; [exact H0|]. apply Ho. lia.
Defined.

Lemma printnum_prints_witness :
  exists ds, repr 16 255 ds
    /\ printnum (fun ch out => out ++ [ch]) 64 255 16 8 48 [] =
       puts (fun ch out => out ++ [ch])
         (replicate (Z.to_nat (8 - Z.of_nat (length ds))) 48 ++ map digit ds) [].
Proof. apply (printnum_prints (fun ch out => out ++ [ch]) 255 16 8 48 []); lia. Defined.

Lemma vcprintf_chunks_witness :
  exists calls last, vcprintf sample_fmt sample_args = Some (15, calls ++ [last])
    /\ concat (calls ++ [last]) = map u8 (chars "-   42|ab  |ff%").
Proof.
  destruct (vcprintf_chunks sample_fmt sample_args (chars "-   42|ab  |ff%") sample_output)
    as (calls & last & E & H & _).
  exists calls, last. split; [exact E|exact H].
Defined.

End Printfmt.
