(* ===== verification/Str.v ===== *)
(** * The string library (lib/string.c)

    Strings and buffers are bytes of a memory.  A loop that runs to the
    terminating NUL takes fuel, and [None] is running out of it: on memory
    without a NUL the C loop runs away.  The string instructions that
    [memset] and [memmove] are made of ([rep stos], [rep movs]) are loops over
    the destination and source registers, with the direction flag.

    The theorems: [memset] and [memmove] compute [mset] and [mcpy], the
    definitions the rest of the library uses for them, whichever of their
    instruction sequences they choose and however the buffers overlap; the
    string routines agree with list functions; [strtol] reads back what
    [printnum] prints. *)

From stdpp Require Import base numbers list functions strings sets.
From Stdlib Require Import ZArith Lia Ascii.
From S2P Require Import Prelude Mem Kernel Printfmt.

Open Scope Z_scope.

Module Str.

Import Printfmt.

(** ** Strings *)

Fixpoint strlen_loop (fuel : nat) (m : mem) (s n : Z) : option Z :=
  match fuel with
  | O => None
  | S fuel => if rd8 m s =? 0 then Some n else strlen_loop fuel m (s + 1) (n + 1)
  end.

Definition strlen (fuel : nat) (m : mem) (s : Z) : option Z := strlen_loop fuel m s 0.

(** [size] is the bound. *)
Fixpoint strnlen (size : nat) (m : mem) (s n : Z) : Z :=
  match size with
  | O => n
  | S size => if rd8 m s =? 0 then n else strnlen size m (s + 1) (n + 1)
  end.

Fixpoint strcpy (fuel : nat) (m : mem) (dst src : Z) : option mem :=
  match fuel with
  | O => None
  | S fuel =>
    let c := rd8 m src in
    let m := wr8 m dst c in
    if c =? 0 then Some m else strcpy fuel m (dst + 1) (src + 1)
  end.

Definition strcat (fuel : nat) (m : mem) (dst src : Z) : option mem :=
  match strlen fuel m dst with
  | Some len => strcpy fuel m (dst + len) src
  | None => None
  end.

Fixpoint strncpy (size : nat) (m : mem) (dst src : Z) : mem :=
  match size with
  | O => m
  | S size =>
    let m := wr8 m dst (rd8 m src) in
    strncpy size m (dst + 1) (if rd8 m src =? 0 then src else src + 1)
  end.

(** The [while] loop, [size] already decremented; the new memory and [dst]. *)
Fixpoint strlcpy_loop (size : nat) (m : mem) (dst src : Z) : mem * Z :=
  match size with
  | O => (m, dst)
  | S size =>
    if rd8 m src =? 0 then (m, dst)
    else strlcpy_loop size (wr8 m dst (rd8 m src)) (dst + 1) (src + 1)
  end.

Definition strlcpy (m : mem) (dst src size : Z) : mem * Z :=
  if size >? 0 then
    let '(m, d) := strlcpy_loop (Z.to_nat (size - 1)) m dst src in (wr8 m d 0, d - dst)
  else (m, 0).

Fixpoint strcmp (fuel : nat) (m : mem) (p q : Z) : option Z :=
  match fuel with
  | O => None
  | S fuel =>
    if negb (rd8 m p =? 0) && (rd8 m p =? rd8 m q) then strcmp fuel m (p + 1) (q + 1)
    else Some (rd8 m p - rd8 m q)
  end.

Fixpoint strncmp (n : nat) (m : mem) (p q : Z) : Z :=
  match n with
  | O => 0
  | S n =>
    if negb (rd8 m p =? 0) && (rd8 m p =? rd8 m q) then strncmp n m (p + 1) (q + 1)
    else rd8 m p - rd8 m q
  end.

(** The inner [None] is the null pointer. *)
Fixpoint strchr (fuel : nat) (m : mem) (s c : Z) : option (option Z) :=
  match fuel with
  | O => None
  | S fuel =>
    if rd8 m s =? 0 then Some None
    else if rd8 m s =? u8 c then Some (Some s) else strchr fuel m (s + 1) c
  end.

Fixpoint strfind (fuel : nat) (m : mem) (s c : Z) : option Z :=
  match fuel with
  | O => None
  | S fuel =>
    if rd8 m s =? 0 then Some s
    else if rd8 m s =? u8 c then Some s else strfind fuel m (s + 1) c
  end.

(** ** Buffers *)

Fixpoint rep_stosb (n : nat) (m : mem) (di c : Z) : mem :=
  match n with O => m | S n => rep_stosb n (wr8 m di c) (di + 1) c end.

Fixpoint rep_stosl (n : nat) (m : mem) (di c : Z) : mem :=
  match n with O => m | S n => rep_stosl n (wr32 m di c) (di + 4) c end.

(** [df] is 1 after [cld] and -1 after [std]. *)
Fixpoint rep_movsb (df : Z) (n : nat) (m : mem) (di si : Z) : mem :=
  match n with
  | O => m
  | S n => rep_movsb df n (wr8 m di (rd8 m si)) (di + df) (si + df)
  end.

Fixpoint rep_movsl (df : Z) (n : nat) (m : mem) (di si : Z) : mem :=
  match n with
  | O => m
  | S n => rep_movsl df n (wr32 m di (rd32 m si)) (di + 4 * df) (si + 4 * df)
  end.

Definition memset (m : mem) (v c n : Z) : mem :=
  if n =? 0 then m
  else if (Z.rem (i32 v) 4 =? 0) && (n mod 4 =? 0) then
    let c := Z.land c 255 in
    let c := Z.lor (Z.lor (Z.lor (Z.shiftl c 24) (Z.shiftl c 16)) (Z.shiftl c 8)) c in
    rep_stosl (Z.to_nat (n / 4)) m v c
  else rep_stosb (Z.to_nat n) m v c.

Definition memmove (m : mem) (dst src n : Z) : mem :=
  let s := src in
  let d := dst in
  if (s <? d) && (u32 (s + n) >? d) then
    let s := u32 (s + n) in
    let d := u32 (d + n) in
    if (Z.rem (i32 s) 4 =? 0) && (Z.rem (i32 d) 4 =? 0) && (n mod 4 =? 0)
    then rep_movsl (-1) (Z.to_nat (n / 4)) m (u32 (d - 4)) (u32 (s - 4))
    else rep_movsb (-1) (Z.to_nat n) m (u32 (d - 1)) (u32 (s - 1))
  else
    if (Z.rem (i32 s) 4 =? 0) && (Z.rem (i32 d) 4 =? 0) && (n mod 4 =? 0)
    then rep_movsl 1 (Z.to_nat (n / 4)) m d s
    else rep_movsb 1 (Z.to_nat n) m d s.

Definition memcpy (m : mem) (dst src n : Z) : mem := memmove m dst src n.

Fixpoint memcmp (n : nat) (m : mem) (s1 s2 : Z) : Z :=
  match n with
  | O => 0
  | S n =>
    if negb (rd8 m s1 =? rd8 m s2) then rd8 m s1 - rd8 m s2
    else memcmp n m (s1 + 1) (s2 + 1)
  end.

Fixpoint memfind (n : nat) (m : mem) (s c : Z) : Z :=
  match n with
  | O => s
  | S n => if rd8 m s =? u8 c then s else memfind n m (s + 1) c
  end.

(** ** strtol *)

Fixpoint gobble (fuel : nat) (m : mem) (s : Z) : option Z :=
  match fuel with
  | O => None
  | S fuel =>
    if (rd8 m s =? char_of " ") || (rd8 m s =? 9) then gobble fuel m (s + 1) else Some s
  end.

(** The value of a digit character; [None] leaves the loop. *)
Definition dig_of (c : Z) : option Z :=
  if (c >=? char_of "0") && (c <=? char_of "9") then Some (c - char_of "0")
  else if (c >=? char_of "a") && (c <=? char_of "z") then Some (c - char_of "a" + 10)
  else if (c >=? char_of "A") && (c <=? char_of "Z") then Some (c - char_of "A" + 10)
  else None.

Fixpoint digits_loop (fuel : nat) (m : mem) (s base val : Z) : option (Z * Z) :=
  match fuel with
  | O => None
  | S fuel =>
    match dig_of (rd8 m s) with
    | None => Some (s, val)
    | Some dig =>
      if dig >=? base then Some (s, val)
      else digits_loop fuel m (s + 1) base (i32 (i32 (val * base) + dig))
    end
  end.

(** The result and [*endptr]. *)
Definition strtol (fuel : nat) (m : mem) (s base : Z) : option (Z * Z) :=
  match gobble fuel m s with
  | None => None
  | Some s =>
    let '(s, neg) :=
      if rd8 m s =? char_of "+" then (s + 1, false)
      else if rd8 m s =? char_of "-" then (s + 1, true) else (s, false) in
    let '(s, base) :=
      if ((base =? 0) || (base =? 16))
         && ((rd8 m s =? char_of "0") && (rd8 m (s + 1) =? char_of "x")) then (s + 2, 16)
      else if (base =? 0) && (rd8 m s =? char_of "0") then (s + 1, 8)
      else if base =? 0 then (s, 10) else (s, base) in
    match digits_loop fuel m s base 0 with
    | None => None
    | Some (s, val) => Some (if neg : bool then i32 (- val) else val, s)
    end
  end.

(** ** memset and memmove *)

Lemma rem4 x : Z.rem (i32 x) 4 = 0 -> x mod 4 = 0.
Proof.
  intros H. apply Z.rem_divide in H as [k H]; [|lia].
  unfold i32 in H. zdm.
Qed.

Lemma rep_stosb_spec n : forall m di c x,
  rep_stosb n m di c x = if (di <=? x) && (x <? di + Z.of_nat n) then u8 c else m x.
Proof.
  induction n as [|n IH]; intros m di c x; cbn [rep_stosb].
  - by repeat bcase.
  - rewrite IH. unfold wr8. destruct (Z.eq_dec x di) as [->|].
    + repeat bcase; by rewrite ?fn_lookup_insert.
    + repeat bcase; by rewrite ?fn_lookup_insert_ne.
Qed.

(** [c] is one byte four times. *)
Lemma wr32_same m a c b x :
  u8 c = b -> u8 (c / 256) = b -> u8 (c / 65536) = b -> u8 (c / 16777216) = b ->
  wr32 m a c x = if (a <=? x) && (x <? a + 4) then b else m x.
Proof.
  intros H0 H1 H2 H3. unfold wr32. rewrite H0, H1, H2, H3.
  destruct (Z.eq_dec x a) as [->|]; [by repeat bcase; fsimpl|].
  destruct (Z.eq_dec x (a + 1)) as [->|]; [by repeat bcase; fsimpl|].
  destruct (Z.eq_dec x (a + 2)) as [->|]; [by repeat bcase; fsimpl|].
  destruct (Z.eq_dec x (a + 3)) as [->|]; by repeat bcase; fsimpl.
Qed.

Lemma rep_stosl_spec c b n : forall m di x,
  u8 c = b -> u8 (c / 256) = b -> u8 (c / 65536) = b -> u8 (c / 16777216) = b ->
  rep_stosl n m di c x = if (di <=? x) && (x <? di + 4 * Z.of_nat n) then b else m x.
Proof.
  induction n as [|n IH]; intros m di x H0 H1 H2 H3; cbn [rep_stosl].
  - by repeat bcase.
  - rewrite IH, (wr32_same _ _ _ b) by done. by repeat bcase.
Qed.

Lemma land_shiftl_low a b k : 0 <= k -> 0 <= b < 2 ^ k -> Z.land (Z.shiftl a k) b = 0.
Proof.
  intros Hk Hb. apply Z.bits_inj'. intros i Hi. rewrite Z.land_spec, Z.bits_0.
  destruct (Z.lt_ge_cases i k); [by rewrite Z.shiftl_spec_low|].
  destruct (Z.eq_dec b 0) as [->|]; [by rewrite Z.bits_0, andb_false_r|].
  rewrite (Z.bits_above_log2 b), andb_false_r; [done|lia|].
  apply Z.lt_le_trans with k; [|lia]. apply Z.log2_lt_pow2; lia.
Qed.

Lemma lor_shiftl_low a b k :
  0 <= k -> 0 <= b < 2 ^ k -> Z.lor (Z.shiftl a k) b = a * 2 ^ k + b.
Proof.
  intros Hk Hb. rewrite <- Z.lxor_lor, <- Z.add_nocarry_lxor by (by apply land_shiftl_low).
  by rewrite Z.shiftl_mul_pow2.
Qed.

Lemma byte_four c (w := Z.land c 255) :
  let r := Z.lor (Z.lor (Z.lor (Z.shiftl w 24) (Z.shiftl w 16)) (Z.shiftl w 8)) w in
  u8 r = u8 c /\ u8 (r / 256) = u8 c /\ u8 (r / 65536) = u8 c /\ u8 (r / 16777216) = u8 c.
Proof.
  assert (w = u8 c) as Ew by (unfold w; change 255 with (Z.ones 8); by rewrite Z.land_ones).
  pose proof (u8_range c) as Hr. rewrite <- Ew in *. clearbody w. clear Ew.
  cbv zeta.
  rewrite <- !Z.lor_assoc. rewrite (lor_shiftl_low w w 8), (lor_shiftl_low w _ 16), (lor_shiftl_low w _ 24) by lia.
  change (2 ^ 24) with 16777216. change (2 ^ 16) with 65536. change (2 ^ 8) with 256.
  unfold u8. repeat split; zdm.
Qed.

Lemma memset_spec m v c n x : 0 <= n -> memset m v c n x = mset m v c n x.
Proof.
  intros Hn. unfold memset, mset. destruct (Z.eqb_spec n 0) as [->|]; [by repeat bcase|].
  destruct ((Z.rem (i32 v) 4 =? 0) && (n mod 4 =? 0)) eqn:E.
  - apply andb_true_iff in E as [_ E%Z.eqb_eq]. destruct (byte_four c) as (H0 & H1 & H2 & H3).
    rewrite (rep_stosl_spec _ (u8 c)) by done.
    replace (4 * Z.of_nat (Z.to_nat (n / 4))) with n; [done|]. rewrite Z2Nat.id by zdm. zdm.
  - rewrite rep_stosb_spec. by rewrite Z2Nat.id.
Qed.

(** The byte at [x] after [len] bytes were copied from [s] to [d]. *)
Definition copied (m : mem) (d s len x : Z) : Z :=
  if (d <=? x) && (x <? d + len) then rd8 m (s + (x - d)) else rd8 m x.

Lemma rd8_wr8 m a v x : rd8 (wr8 m a v) x = if x =? a then u8 v else rd8 m x.
Proof.
  unfold rd8, wr8. destruct (Z.eqb_spec x a) as [->|].
  - by rewrite fn_lookup_insert, u8_u8.
  - by rewrite fn_lookup_insert_ne.
Qed.

Lemma rd8_wr32 m d s x : rd8 (wr32 m d (rd32 m s)) x = copied m d s 4 x.
Proof.
  unfold copied.
  pose proof (rd8_range m s). pose proof (rd8_range m (s + 1)).
  pose proof (rd8_range m (s + 2)). pose proof (rd8_range m (s + 3)).
  destruct ((d <=? x) && (x <? d + 4)) eqn:E.
  - apply andb_true_iff in E as [E1%Z.leb_le E2%Z.ltb_lt].
    assert (x = d \/ x = d + 1 \/ x = d + 2 \/ x = d + 3) as [-> | [-> | [-> | ->]]] by lia;
      unfold rd8 at 1, wr32; fsimpl; rewrite u8_u8; unfold rd32.
    + replace (s + (d - d)) with s by lia. unfold u8. zdm.
    + replace (s + (d + 1 - d)) with (s + 1) by lia. unfold u8. zdm.
    + replace (s + (d + 2 - d)) with (s + 2) by lia. unfold u8. zdm.
    + replace (s + (d + 3 - d)) with (s + 3) by lia. unfold u8. zdm.
  - unfold rd8. rewrite wr32_out; [done|]. revert E. repeat bcase; done.
Qed.

(** One step of a copy loop followed by the rest of it, upward and downward. *)
Lemma copied_up m m' d s k len x :
  0 <= k -> 0 <= len -> (forall y, rd8 m' y = copied m d s k y) ->
  d + k <= s + k \/ s + (k + len) <= d ->
  copied m' (d + k) (s + k) len x = copied m d s (k + len) x.
Proof.
  intros Hk Hl Hm Ho. unfold copied at 1. rewrite !Hm. unfold copied.
  repeat bcase; try done; f_equal; lia.
Qed.

Lemma copied_down m m' d s k len x :
  0 <= k -> 0 <= len -> (forall y, rd8 m' y = copied m (d + len) (s + len) k y) -> s <= d ->
  copied m' d s len x = copied m d s (len + k) x.
Proof.
  intros Hk Hl Hm Ho. unfold copied at 1. rewrite !Hm. unfold copied.
  repeat bcase; try done; f_equal; lia.
Qed.

Lemma movsb_up n : forall m d s x,
  d <= s \/ s + Z.of_nat n <= d -> rd8 (rep_movsb 1 n m d s) x = copied m d s (Z.of_nat n) x.
Proof.
  induction n as [|n IH]; intros m d s x Ho; cbn [rep_movsb].
  - unfold copied. by repeat bcase.
  - rewrite IH by lia. rewrite Nat2Z.inj_succ, <- Z.add_1_l. apply copied_up; [lia|lia| |lia].
    intros y. rewrite rd8_wr8. unfold copied.
    destruct (Z.eqb_spec y d) as [->|]; [|by repeat bcase].
    rewrite u8_id by apply rd8_range. repeat bcase. f_equal. lia.
Qed.

Lemma movsl_up n : forall m d s x,
  d <= s \/ s + 4 * Z.of_nat n <= d ->
  rd8 (rep_movsl 1 n m d s) x = copied m d s (4 * Z.of_nat n) x.
Proof.
  induction n as [|n IH]; intros m d s x Ho; cbn [rep_movsl].
  - unfold copied. by repeat bcase.
  - change (4 * 1) with 4. rewrite IH by lia.
    replace (4 * Z.of_nat (S n)) with (4 + 4 * Z.of_nat n) by lia.
    apply copied_up; [lia|lia| |lia]. intros y. apply rd8_wr32.
Qed.

Lemma movsb_down n : forall m d s x, s <= d ->
  rd8 (rep_movsb (-1) n m (d + Z.of_nat n - 1) (s + Z.of_nat n - 1)) x = copied m d s (Z.of_nat n) x.
Proof.
  induction n as [|n IH]; intros m d s x Ho; cbn [rep_movsb].
  - unfold copied. by repeat bcase.
  - replace (d + Z.of_nat (S n) - 1 + -1) with (d + Z.of_nat n - 1) by lia.
    replace (s + Z.of_nat (S n) - 1 + -1) with (s + Z.of_nat n - 1) by lia.
    replace (d + Z.of_nat (S n) - 1) with (d + Z.of_nat n) by lia.
    replace (s + Z.of_nat (S n) - 1) with (s + Z.of_nat n) by lia.
    rewrite IH, Nat2Z.inj_succ, <- Z.add_1_r by done. apply copied_down; [lia|lia| |done].
    intros y. rewrite rd8_wr8. unfold copied.
    destruct (Z.eqb_spec y (d + Z.of_nat n)) as [->|]; [|by repeat bcase].
    rewrite u8_id by apply rd8_range. repeat bcase. f_equal. lia.
Qed.

Lemma movsl_down n : forall m d s x, s <= d ->
  rd8 (rep_movsl (-1) n m (d + 4 * Z.of_nat n - 4) (s + 4 * Z.of_nat n - 4)) x
  = copied m d s (4 * Z.of_nat n) x.
Proof.
  induction n as [|n IH]; intros m d s x Ho; cbn [rep_movsl].
  - unfold copied. by repeat bcase.
  - replace (d + 4 * Z.of_nat (S n) - 4 + 4 * -1) with (d + 4 * Z.of_nat n - 4) by lia.
    replace (s + 4 * Z.of_nat (S n) - 4 + 4 * -1) with (s + 4 * Z.of_nat n - 4) by lia.
    replace (d + 4 * Z.of_nat (S n) - 4) with (d + 4 * Z.of_nat n) by lia.
    replace (s + 4 * Z.of_nat (S n) - 4) with (s + 4 * Z.of_nat n) by lia.
    rewrite IH by done. replace (4 * Z.of_nat (S n)) with (4 * Z.of_nat n + 4) by lia.
    apply copied_down; [lia|lia| |done]. intros y. apply rd8_wr32.
Qed.

(** C40: [memmove] moves.  For buffers inside the address space, however they
    overlap and whichever of the four instruction sequences is chosen, the
    destination holds the bytes the source held before and no other byte
    changes; [memset] likewise fills exactly its buffer. *)
Theorem memmove_overlap (m : mem) (dst src n c : Z) :
  0 <= dst -> 0 <= src -> 0 <= n -> dst + n < 4294967296 -> src + n < 4294967296 ->
  (forall x, rd8 (memmove m dst src n) x = rd8 (mcpy m dst src n) x)
  /\ (forall x, memset m dst c n x = mset m dst c n x).
Proof.
  intros Hd Hs Hn Hdn Hsn. split; [|intros; by apply memset_spec]. intros x.
  assert (rd8 (mcpy m dst src n) x = copied m dst src n x) as ->.
  { unfold copied, mcpy, rd8. by repeat bcase. }
  unfold memmove. rewrite !(u32_id (src + n)), (u32_id (dst + n)) by lia.
  assert (n mod 4 = 0 -> 4 * Z.of_nat (Z.to_nat (n / 4)) = n) as H4
    by (rewrite Z2Nat.id by zdm; zdm).
  destruct ((src <? dst) && (src + n >? dst)) eqn:E.
  - apply andb_true_iff in E as [E1%Z.ltb_lt E2]. rewrite Z.gtb_ltb in E2. apply Z.ltb_lt in E2.
    match goal with |- context [if ?b then _ else _] => destruct b eqn:A end.
    + apply andb_true_iff in A as [[A1%Z.eqb_eq%rem4 A2%Z.eqb_eq%rem4]%andb_true_iff A3%Z.eqb_eq].
      rewrite !u32_id by zdm. rewrite <- (H4 A3) at 2 3 4. apply movsl_down. lia.
    + rewrite !u32_id by lia. rewrite <- (Z2Nat.id n) at 2 3 4 by done. apply movsb_down. lia.
  - assert (dst <= src \/ src + n <= dst) as Ho by (revert E; repeat bcase; done).
    match goal with |- context [if ?b then _ else _] => destruct b eqn:A end.
    + apply andb_true_iff in A as [_ A3%Z.eqb_eq].
      rewrite <- (H4 A3) at 2. apply movsl_up. rewrite (H4 A3). lia.
    + rewrite <- (Z2Nat.id n) at 2 by done. apply movsb_up. lia.
Qed.

Lemma memmove_overlap_witness :
  rd8 (memmove (fun x => x) 104 100 8) 109 = rd8 (mcpy (fun x => x) 104 100 8) 109.
Proof. refine (proj1 (memmove_overlap (fun x => x) 104 100 8 0 _ _ _ _ _) 109); done. Defined.

(** ** Strings as lists *)

(** The string at [a] is [l]. *)
Fixpoint cstr (m : mem) (a : Z) (l : list Z) : Prop :=
  match l with
  | [] => rd8 m a = 0
  | b :: l => rd8 m a = b /\ b <> 0 /\ cstr m (a + 1) l
  end.

(** The same string in another memory, or at another address. *)
Lemma cstr_move m m' l : forall a a',
  (forall k, 0 <= k <= Z.of_nat (length l) -> rd8 m' (a' + k) = rd8 m (a + k)) -> cstr m a l -> cstr m' a' l.
Proof.
  induction l as [|b l IH]; intros a a' H; cbn [cstr length] in *.
  - intros <-. pose proof (H 0 ltac:(lia)) as E. by rewrite !Z.add_0_r in E.
  - intros (<- & Hb & Hc). split; [pose proof (H 0 ltac:(lia)) as E; by rewrite !Z.add_0_r in E|]. split; [done|].
    apply (IH (a + 1)); [|done]. intros k Hk. rewrite <- !Z.add_assoc. apply H. lia.
Qed.

Lemma cstr_ext m m' l p : (forall x, p <= x <= p + Z.of_nat (length l) -> m' x = m x) -> cstr m p l -> cstr m' p l.
Proof. intros H. apply cstr_move. intros k Hk. unfold rd8. by rewrite H by lia. Qed.

(** A string that has just been stored. *)
Lemma cstr_wrbytes m a l : Forall (fun b => 0 < b < 256) l -> cstr (wrbytes m a (l ++ [0])) a l.
Proof.
  revert m a. induction l as [|b l IH]; intros m a Hl; cbn [cstr app wrbytes].
  - rewrite rd8_wr8. by rewrite Z.eqb_refl.
  - apply Forall_cons_1 in Hl as [Hb Hl]. split; [|split; [lia|by apply IH]].
    unfold rd8. rewrite wrbytes_out by lia. unfold wr8. rewrite fn_lookup_insert, u8_u8. by apply u8_id; lia.
Qed.

Lemma strlen_loop_cstr m l : forall fuel s n,
  (length l < fuel)%nat -> cstr m s l -> strlen_loop fuel m s n = Some (n + Z.of_nat (length l)).
Proof.
  induction l as [|b l IH]; intros [|fuel] s n Hf; cbn [length] in *; try lia; cbn; intros Hc.
  - rewrite Hc. f_equal. lia.
  - destruct Hc as (-> & Hb & Hc). destruct (Z.eqb_spec b 0); [done|].
    rewrite IH by (done || lia). f_equal. lia.
Qed.

Lemma strlen_cstr m l fuel s :
  (length l < fuel)%nat -> cstr m s l -> strlen fuel m s = Some (Z.of_nat (length l)).
Proof. apply strlen_loop_cstr. Qed.

(** Order of strings by unsigned characters, the end being smallest. *)
Fixpoint lex_cmp (l k : list Z) : Z :=
  match l, k with
  | [], [] => 0
  | [], y :: _ => - y
  | x :: _, [] => x
  | x :: l, y :: k => if x =? y then lex_cmp l k else x - y
  end.

Lemma strcmp_cstr m l : forall k fuel p q,
  (length l < fuel)%nat -> cstr m p l -> cstr m q k -> strcmp fuel m p q = Some (lex_cmp l k).
Proof.
  induction l as [|x l IH]; intros k [|fuel] p q Hf; cbn [length] in *; try lia.
  - cbn [cstr strcmp]. intros -> Hk. destruct k as [|y k]; cbn in *; [by rewrite Hk|].
    destruct Hk as (-> & _ & _). done.
  - cbn [cstr strcmp]. intros (-> & Hx & Hl) Hk. destruct (Z.eqb_spec x 0); [done|].
    destruct k as [|y k]; cbn in *.
    + rewrite Hk. destruct (Z.eqb_spec x 0); [done|]. cbn. f_equal. lia.
    + destruct Hk as (-> & Hy & Hk). destruct (Z.eqb_spec x y); [|done]. apply IH; [lia|done..].
Qed.

Lemma lex_cmp_0 l : forall k,
  (forall x, x ∈ l -> x <> 0) -> (forall x, x ∈ k -> x <> 0) -> lex_cmp l k = 0 <-> l = k.
Proof.
  induction l as [|x l IH]; intros [|y k] Hl Hk; cbn; [done| | |].
  - pose proof (Hk y ltac:(by left)). split; [lia|done].
  - pose proof (Hl x ltac:(by left)). split; [lia|done].
  - destruct (Z.eqb_spec x y) as [->|].
    + rewrite IH; [split; [by intros ->|by intros [=]]| |]; intros; [apply Hl|apply Hk]; by right.
    + split; [lia|congruence].
Qed.

Lemma cstr_nonzero m l : forall a x, cstr m a l -> x ∈ l -> x <> 0.
Proof.
  induction l as [|b l IH]; intros a x; cbn; [by intros _ ?%not_elem_of_nil|].
  intros (_ & Hb & Hc) [->|Hx]%elem_of_cons; [done|eauto].
Qed.

(** ** strtol *)

(** The sixteen digits are told apart from spaces, signs and the [x]. *)
Definition digit_check (x : Z) : bool :=
  bool_decide (dig_of (digit x) = Some x)
  && forallb (fun c => negb (digit x =? c)) [32; 9; 43; 45; 120].

Lemma digit_facts x :
  0 <= x < 16 ->
  dig_of (digit x) = Some x /\ digit x <> 32 /\ digit x <> 9 /\ digit x <> 43 /\ digit x <> 45
  /\ digit x <> 120.
Proof.
  intros H.
  assert (forallb digit_check (map Z.of_nat (seq 0 16)) = true) as Hall by (vm_compute; done).
  rewrite forallb_forall in Hall. specialize (Hall x).
  assert (digit_check x = true) as Hx.
  { apply Hall, in_map_iff. exists (Z.to_nat x). split; [lia|]. apply in_seq. lia. }
  unfold digit_check in Hx. apply andb_true_iff in Hx as [H1%bool_decide_eq_true H2].
  cbn [forallb] in H2. rewrite !andb_true_iff, !negb_true_iff, !Z.eqb_neq in H2. tauto.
Qed.

Lemma value_acc_ge base ds : forall acc,
  1 <= base -> 0 <= acc -> (forall x, x ∈ ds -> 0 <= x) ->
  acc <= fold_left (fun acc x => acc * base + x) ds acc.
Proof.
  induction ds as [|x ds IH]; intros acc Hb Ha Hd; cbn [fold_left]; [lia|].
  pose proof (Hd x ltac:(by left)). assert (acc <= acc * base + x) by nia.
  etransitivity; [eassumption|]. apply IH; [done|lia|]. intros y Hy. apply Hd. by right.
Qed.

Lemma digits_loop_value m base ds : forall fuel s acc,
  2 <= base <= 16 -> 0 <= acc -> (forall x, x ∈ ds -> 0 <= x < base) ->
  fold_left (fun acc x => acc * base + x) ds acc < 2147483648 ->
  (length ds < fuel)%nat -> cstr m s (map digit ds) ->
  digits_loop fuel m s base acc
  = Some (s + Z.of_nat (length ds), fold_left (fun acc x => acc * base + x) ds acc).
Proof.
  induction ds as [|x ds IH]; intros [|fuel] s acc Hb Ha Hd Hv Hf; cbn [length] in Hf; try lia;
    cbn [map cstr digits_loop fold_left].
  - intros ->. cbn. do 2 f_equal. lia.
  - intros (-> & _ & Hc). pose proof (Hd x ltac:(by left)) as Hx.
    destruct (digit_facts x ltac:(lia)) as (-> & _).
    destruct (Z.geb_spec x base); [lia|].
    assert (forall y, y ∈ ds -> 0 <= y < base) as Hd' by (intros y Hy; apply Hd; by right).
    pose proof (value_acc_ge base ds (acc * base + x) ltac:(lia) ltac:(nia)
      ltac:(intros y Hy; specialize (Hd' y Hy); lia)) as Hge.
    cbn [fold_left] in Hv.
    rewrite (i32_id (acc * base)) by nia. rewrite i32_id by nia.
    rewrite IH by (done || nia || lia). do 2 f_equal. cbn [length]. lia.
Qed.

Lemma gobble_spaces m k l : forall fuel s,
  (k < fuel)%nat -> cstr m s (replicate k 32 ++ l) ->
  match l with [] => True | c :: _ => c <> 32 /\ c <> 9 end ->
  gobble fuel m s = Some (s + Z.of_nat k) /\ cstr m (s + Z.of_nat k) l.
Proof.
  induction k as [|k IH]; intros [|fuel] s Hf; cbn [length] in *; try lia; cbn [replicate app].
  - intros Hc Hl. replace (s + Z.of_nat 0) with s by lia. split; [|done]. cbn [gobble].
    destruct l as [|c l]; cbn in Hc; [by rewrite Hc|]. destruct Hc as (-> & _ & _).
    destruct Hl. change (char_of " ") with 32. by repeat bcase.
  - intros (E & _ & Hc) Hl. cbn [gobble]. rewrite E. change (32 =? char_of " ") with true. cbn [orb].
    destruct (IH fuel (s + 1) ltac:(lia) Hc Hl) as [-> H].
    replace (s + 1 + Z.of_nat k) with (s + Z.of_nat (S k)) in * by lia. done.
Qed.

(** What [strtol] does after the white space, when there is no base prefix. *)
Lemma strtol_after fuel m s base ds :
  2 <= base <= 16 -> ds <> [] -> (forall x, x ∈ ds -> 0 <= x < base) ->
  value base ds < 2147483648 -> (length ds < fuel)%nat -> cstr m s (map digit ds) ->
  rd8 m s <> 43 /\ rd8 m s <> 45
  /\ (rd8 m s =? char_of "0") && (rd8 m (s + 1) =? char_of "x") = false
  /\ digits_loop fuel m s base 0 = Some (s + Z.of_nat (length ds), value base ds).
Proof.
  intros Hb Hne Hd Hv Hf Hc.
  pose proof (digits_loop_value m base ds fuel s 0 Hb ltac:(lia) Hd Hv Hf Hc) as E.
  destruct ds as [|x ds]; [done|]. cbn [map cstr] in Hc. destruct Hc as (Hx & _ & Hc).
  destruct (digit_facts x) as (_ & H1 & H2 & H3 & H4 & _).
  { pose proof (Hd x ltac:(by left)). lia. }
  rewrite Hx. split; [done|]. split; [done|]. split; [|done].
  apply andb_false_iff. right. destruct ds as [|y ds]; cbn [map cstr] in Hc.
  - by rewrite Hc.
  - destruct Hc as (-> & _). destruct (digit_facts y) as (_ & _ & _ & _ & _ & H5).
    { pose proof (Hd y ltac:(by right; left)). lia. }
    by apply Z.eqb_neq.
Qed.

(** [strtol] reads back what [printnum] prints.  On a string of spaces, a
    sign if any, and the digits [ds] of [num] in the base, it returns the
    number and leaves [endptr] at the terminating NUL; the string is long
    enough for the loops not to run away. *)
Theorem strtol_roundtrip (m : mem) (s base num : Z) (ds : list Z) (pad : nat) (neg : bool)
    (fuel : nat) :
  2 <= base <= 16 -> 0 <= num < 2147483648 -> repr base num ds ->
  cstr m s (replicate pad 32 ++ (if neg then [45] else []) ++ map digit ds) ->
  (pad + length ds < fuel)%nat ->
  strtol fuel m s base
  = Some (if neg then - num else num,
          s + Z.of_nat (pad + (if neg then 1 else 0) + length ds)).
Proof.
  intros Hb Hn [Hv Hd Hl] Hc Hf.
  assert (ds <> []) as Hne by (destruct Hl as [->|(x & ds' & -> & _)]; done).
  destruct (gobble_spaces m pad ((if neg then [45] else []) ++ map digit ds) fuel s)
    as [E Hc']; [lia|done| |].
  { destruct neg; [done|]. destruct ds as [|x ds]; [done|]. cbn.
    pose proof (digit_facts x ltac:(pose proof (Hd x ltac:(by left)); lia)). tauto. }
  unfold strtol. rewrite E.
  assert ((base =? 0) = false) as B0 by (apply Z.eqb_neq; lia). rewrite B0.
  change (char_of "+") with 43. change (char_of "-") with 45.
  destruct neg; cbn [app cstr] in Hc'.
  - destruct Hc' as (-> & _ & Hc'). cbn [Z.eqb Pos.eqb].
    destruct (strtol_after fuel m _ base ds Hb Hne Hd ltac:(lia) ltac:(lia) Hc')
      as (_ & _ & -> & Hloop).
    rewrite andb_false_r. cbn [andb]. rewrite Hloop, Hv, i32_id by lia. do 2 f_equal. lia.
  - destruct (strtol_after fuel m _ base ds Hb Hne Hd ltac:(lia) ltac:(lia) Hc')
      as (N1%Z.eqb_neq & N2%Z.eqb_neq & Hp & Hloop).
    rewrite N1, N2, Hp, andb_false_r. cbn [andb]. rewrite Hloop, Hv. do 2 f_equal. lia.
Qed.

Lemma strtol_roundtrip_witness :
  strtol 10 (wrbytes (fun _ => 0) 100 [32; 45; 49; 98]) 100 16 = Some (-27, 104).
Proof.
  refine (strtol_roundtrip _ 100 16 27 [1; 11] 1 true 10 _ _ _ _ _).
  - done.
  - done.
  - split; [done| |right; by exists 1, [11]].
    intros x [->|[->|[]%not_elem_of_nil]%elem_of_cons]%elem_of_cons; lia.
  - vm_compute. repeat split; discriminate.
  - cbn. lia.
Defined.

End Str.
