(* ===== verification/Spinlock.v ===== *)
(** * The kernel lock (kern/spinlock.c)

    CPUs run [spin_lock] and [spin_unlock] on one lock, interleaved at the
    level of their accesses to it: the two reads of [holding], the atomic
    [xchg], and each store are steps of their own.  A schedule is the sequence
    of CPUs that step; a CPU that is not scheduled stays where it is, outside
    the lock or in its critical section, for as long as it likes.

    The theorem: whatever the schedule, at most one CPU is between its
    successful [xchg] and the one that releases the lock, the checks against
    acquiring a lock twice and releasing one that is not held never fire, and
    every CPU can still get the lock. *)

From stdpp Require Import base numbers list functions strings.
From Stdlib Require Import ZArith Lia.
From S2P Require Import Prelude Mem Mmu.

Open Scope Z_scope.

Module Spinlock.

Record spinlock := mkSpinlock {
  locked : Z;
  lk_name : string;
  lk_cpu : option Z;
  lk_pcs : list Z
}.

(** The first loop; [i] counts the entries left. *)
Fixpoint follow_ebp (i : nat) (m : mem) (ebp : Z) : list Z :=
  match i with
  | O => []
  | S i =>
    if (ebp =? 0) || (ebp <? ULIM) then []
    else rd32 m (ebp + 4) :: follow_ebp i m (rd32 m ebp)
  end.

Definition get_caller_pcs (m : mem) (ebp : Z) : list Z :=
  let pcs := follow_ebp 10 m ebp in pcs ++ replicate (10 - length pcs) 0.

Definition holding (lk : spinlock) (this : Z) : bool :=
  negb (locked lk =? 0) && bool_decide (lk_cpu lk = Some this).

Definition spin_initlock (lk : spinlock) (name : string) : spinlock :=
  mkSpinlock 0 name None (lk_pcs lk).

(** [xchg(&lk->locked, v)]: the old value and the new lock. *)
Definition xchg_locked (v : Z) (lk : spinlock) : Z * spinlock :=
  (locked lk, mkSpinlock v (lk_name lk) (lk_cpu lk) (lk_pcs lk)).

Definition set_lk_cpu (c : option Z) (lk : spinlock) : spinlock :=
  mkSpinlock (locked lk) (lk_name lk) c (lk_pcs lk).

Definition set_lk_pcs (pcs : list Z) (lk : spinlock) : spinlock :=
  mkSpinlock (locked lk) (lk_name lk) (lk_cpu lk) pcs.

(** Where a CPU is. *)
Inductive pc :=
| Outside
| LockHolding1 | LockHolding2 | LockXchg | LockSetCpu | LockPcs
| Critical
| UnlockHolding1 | UnlockHolding2 | UnlockPcs0 | UnlockCpu0 | UnlockXchg
| Panicked.

#[export] Instance pc_eq_dec : EqDecision pc.
Proof. solve_decision. Defined.

Section steps.

(** The stack each CPU runs on when it takes the lock. *)
Context (m : mem) (ebp : Z -> Z).

(** One step of [spin_lock] on CPU [c]. *)
Definition spin_lock_step (c : Z) (p : pc) (lk : spinlock) : pc * spinlock :=
  match p with
  | Outside => (LockHolding1, lk)
  | LockHolding1 => (if negb (locked lk =? 0) then LockHolding2 else LockXchg, lk)
  | LockHolding2 => (if bool_decide (lk_cpu lk = Some c) then Panicked else LockXchg, lk)
  | LockXchg =>
    let '(old, lk) := xchg_locked 1 lk in
    (if negb (old =? 0) then LockXchg else LockSetCpu, lk)
  | LockSetCpu => (LockPcs, set_lk_cpu (Some c) lk)
  | LockPcs => (Critical, set_lk_pcs (get_caller_pcs m (ebp c)) lk)
  | p => (p, lk)
  end.

(** One step of [spin_unlock] on CPU [c]. *)
Definition spin_unlock_step (c : Z) (p : pc) (lk : spinlock) : pc * spinlock :=
  match p with
  | Critical => (UnlockHolding1, lk)
  | UnlockHolding1 => (if negb (locked lk =? 0) then UnlockHolding2 else Panicked, lk)
  | UnlockHolding2 => (if bool_decide (lk_cpu lk = Some c) then UnlockPcs0 else Panicked, lk)
  | UnlockPcs0 => (UnlockCpu0, set_lk_pcs (<[0%nat := 0]> (lk_pcs lk)) lk)
  | UnlockCpu0 => (UnlockXchg, set_lk_cpu None lk)
  | UnlockXchg => let '(_, lk) := xchg_locked 0 lk in (Outside, lk)
  | p => (p, lk)
  end.

Definition in_unlock (p : pc) : bool :=
  match p with
  | Critical | UnlockHolding1 | UnlockHolding2 | UnlockPcs0 | UnlockCpu0 | UnlockXchg => true
  | _ => false
  end.

Record system := mkSystem { the_lock : spinlock; at_pc : Z -> pc }.

Definition cpu_step (c : Z) (s : system) : system :=
  let p := at_pc s c in
  let '(p', lk') :=
    if in_unlock p then spin_unlock_step c p (the_lock s) else spin_lock_step c p (the_lock s) in
  mkSystem lk' (<[c := p']> (at_pc s)).

Definition run (sched : list Z) (s : system) : system := fold_left (fun s c => cpu_step c s) sched s.

Definition initial (lk : spinlock) : system :=
  mkSystem (spin_initlock lk "kernel_lock") (fun _ => Outside).

(** ** The invariant *)

(** Between the [xchg] that took the lock and the one that gives it back. *)
Definition inside (p : pc) : bool :=
  match p with LockSetCpu | LockPcs => true | p => in_unlock p end.

(** [lk->cpu] is this CPU. *)
Definition recorded (p : pc) : bool :=
  match p with
  | LockPcs | Critical | UnlockHolding1 | UnlockHolding2 | UnlockPcs0 | UnlockCpu0 => true
  | _ => false
  end.

Record lock_inv (s : system) : Prop := {
  li_value : locked (the_lock s) = 0 \/ locked (the_lock s) = 1;
  li_held : forall c, inside (at_pc s c) = true -> locked (the_lock s) = 1;
  li_holder : locked (the_lock s) = 1 -> exists c, inside (at_pc s c) = true;
  li_one : forall c d, inside (at_pc s c) = true -> inside (at_pc s d) = true -> c = d;
  li_cpu : forall c, lk_cpu (the_lock s) = Some c <-> recorded (at_pc s c) = true;
  li_alive : forall c, at_pc s c <> Panicked
}.

Lemma recorded_inside p : recorded p = true -> inside p = true.
Proof. by destruct p. Qed.

(** A step that neither takes nor gives back the lock. *)
Lemma inv_keep s c p' lk' :
  lock_inv s -> inside p' = inside (at_pc s c) -> locked lk' = locked (the_lock s) ->
  (forall d, lk_cpu lk' = Some d <-> recorded ((<[c := p']> (at_pc s)) d) = true) ->
  p' <> Panicked -> lock_inv (mkSystem lk' (<[c := p']> (at_pc s))).
Proof.
  intros [Hv Hh Hr H1 Hc Ha] Hi Hl Hcpu Hp.
  assert (forall d, inside ((<[c := p']> (at_pc s)) d) = inside (at_pc s d)) as Hin.
  { intros d. destruct (decide (d = c)) as [->|]; by fsimpl. }
  split; cbn [the_lock at_pc]; rewrite ?Hl.
  - done.
  - intros d. rewrite Hin. apply Hh.
  - intros E. destruct (Hr E) as [d Hd]. exists d. by rewrite Hin.
  - intros d e. rewrite !Hin. apply H1.
  - done.
  - intros d. destruct (decide (d = c)) as [->|]; fsimpl; [done|apply Ha].
Qed.

Lemma recorded_upd_same s c p' lk' :
  lock_inv s -> recorded p' = recorded (at_pc s c) -> lk_cpu lk' = lk_cpu (the_lock s) ->
  forall d, lk_cpu lk' = Some d <-> recorded ((<[c := p']> (at_pc s)) d) = true.
Proof.
  intros Hs Hr -> d. rewrite (li_cpu s Hs d). destruct (decide (d = c)) as [->|]; fsimpl; [|done].
  by rewrite Hr.
Qed.

(** Nobody else is recorded while [c] is inside. *)
Lemma recorded_other s c d :
  lock_inv s -> inside (at_pc s c) = true -> d <> c -> recorded (at_pc s d) = false.
Proof.
  intros Hs Hc Hne. destruct (recorded (at_pc s d)) eqn:E; [|done].
  destruct Hne. apply (li_one s Hs); [by apply recorded_inside|done].
Qed.

Lemma inv_acquire s c :
  lock_inv s -> at_pc s c = LockXchg -> locked (the_lock s) = 0 ->
  lock_inv (mkSystem (xchg_locked 1 (the_lock s)).2 (<[c := LockSetCpu]> (at_pc s))).
Proof.
  intros Hs Ep El.
  assert (forall d, inside (at_pc s d) = false) as Hno.
  { intros d. destruct (inside (at_pc s d)) eqn:E; [|done]. apply (li_held s Hs) in E. lia. }
  pose proof (recorded_upd_same s c LockSetCpu (xchg_locked 1 (the_lock s)).2 Hs
    ltac:(by rewrite Ep) eq_refl) as Hcpu.
  split; cbn [the_lock at_pc xchg_locked snd locked lk_cpu] in *.
  - by right.
  - done.
  - intros _. exists c. by fsimpl.
  - intros d e. destruct (decide (d = c)) as [->|], (decide (e = c)) as [->|]; fsimpl;
      rewrite ?Hno; done.
  - done.
  - intros d. destruct (decide (d = c)) as [->|]; fsimpl; [done|apply (li_alive s Hs)].
Qed.

Lemma inv_release s c :
  lock_inv s -> at_pc s c = UnlockXchg ->
  lock_inv (mkSystem (xchg_locked 0 (the_lock s)).2 (<[c := Outside]> (at_pc s))).
Proof.
  intros Hs Ep.
  assert (forall d, inside ((<[c := Outside]> (at_pc s)) d) = false) as Hno.
  { intros d. destruct (decide (d = c)) as [->|Hne]; fsimpl; [done|].
    destruct (inside (at_pc s d)) eqn:E; [|done]. destruct Hne.
    apply (li_one s Hs); [done|by rewrite Ep]. }
  pose proof (recorded_upd_same s c Outside (xchg_locked 0 (the_lock s)).2 Hs
    ltac:(by rewrite Ep) eq_refl) as Hcpu.
  split; cbn [the_lock at_pc xchg_locked snd locked lk_cpu] in *.
  - by left.
  - intros d. by rewrite Hno.
  - done.
  - intros d e. by rewrite Hno.
  - done.
  - intros d. destruct (decide (d = c)) as [->|]; fsimpl; [done|apply (li_alive s Hs)].
Qed.

Lemma cpu_step_inv c s : lock_inv s -> lock_inv (cpu_step c s).
Proof.
  intros Hs. pose proof (li_cpu s Hs c) as Hc. unfold cpu_step.
  destruct (at_pc s c) eqn:Ep; cbn [in_unlock spin_lock_step spin_unlock_step];
    try (apply inv_keep; [done|by rewrite Ep|done|apply recorded_upd_same; by rewrite ?Ep|done]).
  - destruct (locked (the_lock s) =? 0); cbn [negb];
      (apply inv_keep; [done|by rewrite Ep|done|apply recorded_upd_same; by rewrite ?Ep|done]).
  - rewrite bool_decide_false by (by intros E%Hc).
    apply inv_keep; [done|by rewrite Ep|done|apply recorded_upd_same; by rewrite ?Ep|done].
  - unfold xchg_locked at 1. destruct (Z.eqb_spec (locked (the_lock s)) 0) as [E0|E1]; cbn [negb].
    + by apply inv_acquire.
    + destruct (li_value s Hs) as [|E]; [done|].
      apply inv_keep; [done|by rewrite Ep|by cbn|apply recorded_upd_same; by rewrite ?Ep|done].
  - apply inv_keep; [done|by rewrite Ep|done| |done]. intros d. cbn [set_lk_cpu lk_cpu].
    destruct (decide (d = c)) as [->|Hne]; fsimpl; [done|].
    rewrite (recorded_other s c) by (by rewrite ?Ep). split; [congruence|done].
  - rewrite (li_held s Hs c) by (by rewrite Ep). cbn.
    apply inv_keep; [done|by rewrite Ep|done|apply recorded_upd_same; by rewrite ?Ep|done].
  - rewrite bool_decide_true by (by apply Hc).
    apply inv_keep; [done|by rewrite Ep|done|apply recorded_upd_same; by rewrite ?Ep|done].
  - apply inv_keep; [done|by rewrite Ep|done| |done]. intros d. cbn [set_lk_cpu lk_cpu].
    destruct (decide (d = c)) as [->|Hne]; fsimpl; [done|].
    by rewrite (recorded_other s c) by (by rewrite ?Ep).
  - by apply inv_release.
  - by destruct (li_alive s Hs c).
Qed.

Lemma run_inv sched : forall s, lock_inv s -> lock_inv (run sched s).
Proof. induction sched as [|c sched IH]; intros s Hs; cbn; [done|]. by apply IH, cpu_step_inv. Qed.

Lemma initial_inv lk : lock_inv (initial lk).
Proof. split; cbn; try done; by left. Qed.

(** ** Progress *)

Definition distance_out (p : pc) : nat :=
  match p with
  | LockSetCpu => 8 | LockPcs => 7 | Critical => 6 | UnlockHolding1 => 5 | UnlockHolding2 => 4
  | UnlockPcs0 => 3 | UnlockCpu0 => 2 | UnlockXchg => 1 | _ => 0
  end.

Lemma cpu_step_at c s :
  at_pc (cpu_step c s) c =
  (if in_unlock (at_pc s c) then spin_unlock_step c (at_pc s c) (the_lock s)
   else spin_lock_step c (at_pc s c) (the_lock s)).1.
Proof.
  unfold cpu_step. destruct (if in_unlock _ then _ else _) as [p lk] eqn:E. cbn. by fsimpl.
Qed.

Lemma cpu_step_lock c s :
  the_lock (cpu_step c s) =
  (if in_unlock (at_pc s c) then spin_unlock_step c (at_pc s c) (the_lock s)
   else spin_lock_step c (at_pc s c) (the_lock s)).2.
Proof. unfold cpu_step. by destruct (if in_unlock _ then _ else _) as [p lk] eqn:E. Qed.

(** The holder leaves, if it is scheduled. *)
Lemma holder_leaves n : forall s d,
  lock_inv s -> inside (at_pc s d) = true -> (distance_out (at_pc s d) <= n)%nat ->
  exists sched, locked (the_lock (run sched s)) = 0.
Proof.
  induction n as [|n IH]; intros s d Hs Hi Hn; [destruct (at_pc s d); cbn in *; (done || lia)|].
  pose proof (cpu_step_inv d s Hs) as Hs'.
  pose proof (li_cpu s Hs d) as Hc. pose proof (li_held s Hs d Hi) as Hl.
  pose proof (cpu_step_at d s) as Ea. pose proof (cpu_step_lock d s) as El.
  destruct (at_pc s d) eqn:Ep; try done; cbn in Ea, El, Hn;
    rewrite ?Hl in Ea; try rewrite (bool_decide_true _ (proj2 Hc eq_refl)) in Ea; cbn in Ea;
    try (destruct (IH (cpu_step d s) d) as [sched E];
      [done|by rewrite Ea|rewrite Ea; cbn; lia|]; by exists (d :: sched)).
  exists [d]. cbn [run fold_left]. by rewrite El.
Qed.

Lemma xchg_enters s c :
  lock_inv s -> locked (the_lock s) = 0 -> at_pc s c = LockXchg ->
  at_pc (run [c; c; c] s) c = Critical.
Proof.
  intros Hs Hl Ep. cbn [run fold_left].
  pose proof (cpu_step_at c s) as E1. rewrite Ep in E1. cbn in E1. rewrite Hl in E1. cbn in E1.
  pose proof (cpu_step_at c (cpu_step c s)) as E2. rewrite E1 in E2. cbn in E2.
  rewrite cpu_step_at, E2. done.
Qed.

(** A free lock can be taken by any CPU. *)
Lemma free_lock_enters s c :
  lock_inv s -> locked (the_lock s) = 0 -> exists sched, at_pc (run sched s) c = Critical.
Proof.
  intros Hs Hl.
  assert (forall sched, lock_inv (run sched s)) as Hr by (intros; by apply run_inv).
  assert (exists sched, at_pc (run sched s) c = LockXchg /\ locked (the_lock (run sched s)) = 0)
    as (sched & Ep & El).
  { pose proof (cpu_step_at c s) as Ea. pose proof (cpu_step_lock c s) as El.
    pose proof (li_held s Hs c) as Hh. pose proof (li_alive s Hs c) as Ha.
    pose proof (li_cpu s Hs c) as Hc.
    destruct (at_pc s c) eqn:Ep; cbn in Ea, El, Hh; try (specialize (Hh eq_refl); lia); try done.
    - exists [c; c]. cbn [run fold_left].
      rewrite cpu_step_at, (cpu_step_lock c (cpu_step c s)), Ea. cbn. by rewrite El, Hl.
    - rewrite Hl in Ea. exists [c]. cbn [run fold_left]. rewrite Ea, El. done.
    - rewrite bool_decide_false in Ea by (by intros E%Hc).
      exists [c]. cbn [run fold_left]. rewrite Ea, El. done.
    - by exists []. }
  exists (sched ++ [c; c; c]). unfold run. rewrite fold_left_app. by apply xchg_enters.
Qed.

End steps.

(** C39: mutual exclusion.  Whatever the order in which the CPUs step, no two
    CPUs are inside the section the lock protects, no CPU panics in
    [spin_lock] or [spin_unlock] although the holder check reads the lock
    without atomicity, and no deadlock arises: every CPU has a continuation in
    which it enters its critical section. *)
Theorem spinlock_mutex (m : mem) (ebp : Z -> Z) (lk : spinlock) (sched : list Z) :
  let s := run m ebp sched (initial lk) in
  (forall c d, inside (at_pc s c) = true -> inside (at_pc s d) = true -> c = d)
  /\ (forall c, at_pc s c <> Panicked)
  /\ forall c, exists more, at_pc (run m ebp more s) c = Critical.
Proof.
  intros s. assert (lock_inv s) as Hs by apply run_inv, initial_inv.
  split; [apply (li_one s Hs)|]. split; [apply (li_alive s Hs)|]. intros c.
  destruct (li_value s Hs) as [E|E]; [by apply free_lock_enters|].
  destruct (li_holder s Hs E) as [d Hd].
  destruct (holder_leaves m ebp _ s d Hs Hd (le_n _)) as [sched1 E1].
  destruct (free_lock_enters m ebp (run m ebp sched1 s) c) as [sched2 E2];
    [by apply run_inv|done|].
  exists (sched1 ++ sched2). unfold run in *. by rewrite fold_left_app.
Qed.

End Spinlock.
