(* ===== verification/Pmap.v ===== *)
(** * Physical pages and page tables (kern/pmap.c, kern/pmap.h)

    The boot allocator, the free list of physical pages threaded through
    [pages], and the two-level page tables in physical memory.  One definition
    per C function, in the order of the source; the facts about them are in
    PageAlloc.v and PageTable.v. *)

From stdpp Require Import base numbers list functions strings.
From Stdlib Require Import ZArith Lia.
From S2P Require Import Prelude Mem Mmu Kernel.

Open Scope Z_scope.
Open Scope jos_scope.

Module Pmap.

Definition ALLOC_ZERO : Z := 1.

Definition PADDR (kva : Z) : K Z :=
  if u32 kva <? KERNBASE then panic "PADDR called with invalid kva"
  else ret (u32 (kva - KERNBASE)).

Definition KADDR (pa : Z) : K Z :=
  let! n := gets npages in
  if PGNUM pa >=? n then panic "KADDR called with invalid pa"
  else ret (u32 (pa + KERNBASE)).

Definition page2pa (pp : Z) : Z := u32 (Z.shiftl pp PGSHIFT).

Definition pa2page (pa : Z) : K Z :=
  let! n := gets npages in
  if PGNUM pa >=? n then panic "pa2page called with invalid pa"
  else ret (PGNUM pa).

Definition page2kva (pp : Z) : K Z := KADDR (page2pa pp).

(** ** Detecting memory

    [cmos] is the content of the clock chip's NVRAM; [inb] reads one byte. *)

Definition NVRAM_BASELO : Z := 21.

Definition NVRAM_EXTLO : Z := 23.

Definition mc146818_read (cmos : Z -> Z) (reg : Z) : Z := u8 (cmos reg).

Definition nvram_read (cmos : Z -> Z) (r : Z) : Z :=
  Z.lor (mc146818_read cmos r) (Z.shiftl (mc146818_read cmos (r + 1)) 8).

Definition i386_detect_memory (cmos : Z -> Z) : K unit :=
  let npages_base := (nvram_read cmos NVRAM_BASELO * 1024) / PGSIZE in
  let npages_extmem := (nvram_read cmos NVRAM_EXTLO * 1024) / PGSIZE in
  do! modify (set_npages_basemem npages_base) in
  modify (set_npages (if negb (npages_extmem =? 0) then EXTPHYSMEM / PGSIZE + npages_extmem
                      else npages_base)).

(** ** Boot-time allocation *)

Definition boot_alloc (n : Z) : K Z :=
  do! (let! nf := gets nextfree in
       if nf =? 0 then modify (fun s => set_nextfree (ROUNDUP (kend s) PGSIZE) s) else ret tt) in
  let! nf := gets nextfree in
  if n >? 0 then
    let nf' := ROUNDUP (u32 (nf + n)) PGSIZE in
    do! modify (set_nextfree nf') in
    let! np := gets npages in
    if u32 (nf' - KERNBASE) >? u32 (np * PGSIZE) then
      panic "Cannot alloc more physical memory."
    else ret nf
  else ret nf.

(** The condition under which [page_init] marks page [i] in use. *)
Definition page_init_in_use (basemem num_io_pages num_alloc i : Z) : bool :=
  (i =? 0)
  || ((i >=? basemem) && (i <? u32 (basemem + num_io_pages)))
  || ((i >=? u32 (basemem + num_io_pages)) && (i <? u32 (basemem + num_io_pages + num_alloc)))
  || (i =? MPENTRY_PADDR / PGSIZE).

Definition page_init_step (basemem num_io_pages num_alloc i : Z) : K unit :=
  if page_init_in_use basemem num_io_pages num_alloc i then
    modify (upd_page i (set_pp_ref 1))
  else
    modify (fun s => set_page_free_list (Some i)
              (upd_page i (fun p => set_pp_link (page_free_list s) (set_pp_ref 0 p)) s)).

Definition page_init : K unit :=
  let! top := boot_alloc 0 in
  let num_alloc := u32 (top - KERNBASE) / PGSIZE in
  let num_io_pages := (EXTPHYSMEM - IOPHYSMEM) / PGSIZE in
  do! modify (set_page_free_list None) in
  let! np := gets npages in
  let! base := gets npages_basemem in
  for_loop (Z.to_nat np) 0 (page_init_step base num_io_pages num_alloc).

(** ** The page allocator *)

Definition page_alloc (alloc_flags : Z) : K (option Z) :=
  let! fl := gets page_free_list in
  match fl with
  | None => ret None
  | Some temp_page =>
    let! pi := gets (fun s => pages s temp_page) in
    if negb (pp_ref pi =? 0) then panic "assertion failed: temp_page->pp_ref == 0" else
    do! modify (set_page_free_list (pp_link pi)) in
    do! modify (upd_page temp_page (set_pp_link None)) in
    do! (if flag alloc_flags ALLOC_ZERO then
           let! kva := page2kva temp_page in kmemset kva 0 PGSIZE
         else ret tt) in
    ret (Some temp_page)
  end.

Definition page_free (pp : Z) : K unit :=
  let! pi := gets (fun s => pages s pp) in
  if negb (pp_ref pi =? 0) then panic "Still using page"
  else match pp_link pi with
  | Some _ => panic "free page still have a link"
  | None =>
    modify (fun s => set_page_free_list (Some pp)
              (upd_page pp (set_pp_link (page_free_list s)) s))
  end.

Definition page_decref (pp : Z) : K unit :=
  do! modify (upd_page pp (fun p => set_pp_ref (u16 (pp_ref p - 1)) p)) in
  let! pi := gets (fun s => pages s pp) in
  if pp_ref pi =? 0 then page_free pp else ret tt.

(** ** Page tables *)

(** The address of the page table entry for [va], [None] for NULL. *)
Definition pgdir_walk (pgdir va create : Z) : K (option Z) :=
  let pgdir_entry := pgdir + 4 * PDX va in
  let! pde := kload32 pgdir_entry in
  let! ok :=
    (if negb (flag pde PTE_P) then
       if negb (create =? 0) then
         let! pg := page_alloc 1 in
         match pg with
         | None => ret false
         | Some pg =>
           let! kva := page2kva pg in
           do! kmemset kva 0 PGSIZE in
           do! modify (upd_page pg (fun p => set_pp_ref (u16 (pp_ref p + 1)) p)) in
           do! kstore32 pgdir_entry (Z.lor (Z.lor (Z.lor (page2pa pg) PTE_P) PTE_U) PTE_W) in
           ret true
         end
       else ret false
     else ret true) in
  if ok : bool then
    let! pde' := kload32 pgdir_entry in
    let! pgtb := KADDR (PTE_ADDR pde') in
    ret (Some (pgtb + 4 * PTX va))
  else ret None.

Definition boot_map_step (pgdir va pa perm i : Z) : K unit :=
  let! tb_entry := pgdir_walk pgdir (u32 (va + i * PGSIZE)) 1 in
  match tb_entry with
  | None => undef "boot_map_region: store through the NULL pgdir_walk returned"
  | Some tb_entry => kstore32 tb_entry (Z.lor (Z.lor (u32 (pa + i * PGSIZE)) perm) PTE_P)
  end.

Definition boot_map_region (pgdir va size pa perm : Z) : K unit :=
  for_loop (Z.to_nat (size / PGSIZE)) 0 (boot_map_step pgdir va pa perm).

Definition tlb_invalidate (pgdir va : Z) : K unit :=
  let! hit := gets (fun s => match curenv s with
                             | None => true
                             | Some e => env_pgdir (envs s e) =? pgdir
                             end) in
  if hit : bool then modify (fun s => set_tlb_flushed (va :: tlb_flushed s) s) else ret tt.

(** The page mapped at [va] and the address stored in [*pte_store]. *)
Definition page_lookup (pgdir va : Z) : K (option (Z * Z)) :=
  let! pt_entry := pgdir_walk pgdir va 0 in
  match pt_entry with
  | None => ret None
  | Some pt_entry =>
    let! pte := kload32 pt_entry in
    if flag pte PTE_P then
      let! pp := pa2page (PTE_ADDR pte) in ret (Some (pp, pt_entry))
    else ret None
  end.

Definition page_remove (pgdir va : Z) : K unit :=
  let! pg := page_lookup pgdir va in
  match pg with
  | None => ret tt
  | Some (pg, pte_store) =>
    do! page_decref pg in
    do! tlb_invalidate pgdir va in
    kstore32 pte_store 0
  end.

Definition page_insert (pgdir pp va perm : Z) : K Z :=
  let! pg_entry := pgdir_walk pgdir va 1 in
  match pg_entry with
  | None => ret (- E_NO_MEM)
  | Some pg_entry =>
    do! modify (upd_page pp (fun p => set_pp_ref (u16 (pp_ref p + 1)) p)) in
    let! old := kload32 pg_entry in
    do! (if flag old PTE_P then
           do! tlb_invalidate pgdir va in page_remove pgdir va
         else ret tt) in
    do! kstore32 pg_entry (Z.lor (Z.lor (page2pa pp) perm) PTE_P) in
    let! pde := kload32 (pgdir + 4 * PDX va) in
    do! kstore32 (pgdir + 4 * PDX va) (Z.lor pde (Z.lor perm PTE_P)) in
    ret 0
  end.

Definition mmio_map_region (pa size : Z) : K Z :=
  let! base := gets mmio_base in
  let round_size := ROUNDUP size PGSIZE in
  if u32 (base + round_size) >=? MMIOLIM then panic "mmio_map_region: map overflow" else
  let! kpd := gets kern_pgdir in
  do! boot_map_region kpd base round_size pa (Z.lor (Z.lor PTE_PCD PTE_PWT) PTE_W) in
  do! modify (set_mmio_base (u32 (base + round_size))) in
  ret base.

(** ** Checks *)

(** One evaluation of the condition in the loop of [user_mem_check]: may the
    page that holds [addr] not be accessed? *)
Definition user_page_bad (pgdir perm addr : Z) : K bool :=
  let! pte := pgdir_walk pgdir (ROUNDDOWN addr PGSIZE) 0 in
  match pte with
  | None => ret true
  | Some pte =>
    let! v := kload32 pte in
    ret (negb (Z.lor (Z.lor v (u32 perm)) PTE_P =? v) || (addr >=? ULIM))
  end.

(** The loop variable is the global [user_mem_check_addr]. *)
Fixpoint user_mem_loop (fuel : nat) (pgdir start stop perm : Z) : K Z :=
  let! addr := gets user_mem_check_addr in
  if addr <? stop then
    match fuel with
    | O => undef "user_mem_check: loop bound"
    | S fuel =>
      let! bad := user_page_bad pgdir perm addr in
      if bad : bool then
        do! (if negb (addr =? start) then modify (set_user_mem_check_addr (ROUNDDOWN addr PGSIZE))
             else ret tt) in
        ret (- E_FAULT)
      else
        do! modify (set_user_mem_check_addr (u32 (addr + PGSIZE))) in
        user_mem_loop fuel pgdir start stop perm
    end
  else ret 0.

Definition user_mem_check (env va len perm : Z) : K Z :=
  let start := u32 va in
  let stop := ROUNDUP (u32 (start + len)) PGSIZE in
  do! modify (set_user_mem_check_addr start) in
  let! pgdir := gets (fun s => env_pgdir (envs s env)) in
  user_mem_loop (Z.to_nat ((stop - start + PGSIZE - 1) / PGSIZE)) pgdir start stop perm.

(** The translation the hardware makes: the physical page of [va], or [~0]. *)
Definition check_va2pa (pgdir va : Z) : K Z :=
  let! pde := kload32 (pgdir + 4 * PDX va) in
  if negb (flag pde PTE_P) then ret 4294967295 else
  let! p := KADDR (PTE_ADDR pde) in
  let! pte := kload32 (p + 4 * PTX va) in
  if negb (flag pte PTE_P) then ret 4294967295 else ret (PTE_ADDR pte).

End Pmap.
