(* ===== verification/PageAlloc.v ===== *)
(** * The physical page allocator

    [alloc_inv s l] relates the kernel state to its abstraction: [l] is the list
    of free pages, in the order the links thread them.  The allocator's
    functions are then list operations: [page_alloc] takes the head,
    [page_free] pushes, [page_init] builds the list of every page that nothing
    else uses. *)

From stdpp Require Import base numbers list functions strings sets.
From Stdlib Require Import ZArith Lia.
From S2P Require Import Prelude Mem Mmu Kernel Pmap.

Open Scope Z_scope.
Open Scope jos_scope.

Module PageAlloc.

Import Pmap.

(** The links of the page descriptors starting at [hd] spell [l]. *)
Abbreviation chain pg hd l := (linked (fun p => pp_link (pg p)) hd l).

Record alloc_inv (s : kstate) (l : list Z) : Prop := {
  ai_chain : chain (pages s) (page_free_list s) l;
  ai_range : forall p, p ∈ l -> 0 <= p < npages s;
  ai_ref : forall p, p ∈ l -> pp_ref (pages s p) = 0;
  ai_link : forall p, p ∉ l -> pp_link (pages s p) = None;
  ai_npages : 0 <= npages s <= 65536
}.

Lemma alloc_inv_det s l l' : alloc_inv s l -> alloc_inv s l' -> l = l'.
Proof. intros [H _ _ _ _] [H' _ _ _ _]. by eapply linked_det. Qed.

(** The invariant reads only the page descriptors, the list head and [npages]. *)
Lemma alloc_inv_frame s s' l :
  (forall p, pages s' p = pages s p) -> page_free_list s' = page_free_list s ->
  npages s' = npages s -> alloc_inv s l -> alloc_inv s' l.
Proof.
  intros Hp Hf Hn [Hc Hr Href Hl Hb]. split; intros; rewrite ?Hp, ?Hf, ?Hn; eauto.
  eapply linked_ext; [|exact Hc]. intros. by rewrite Hp.
Qed.

(** Changing the reference count of a page that is not free keeps it. *)
Lemma alloc_inv_upd_ref s l p f :
  alloc_inv s l -> p ∉ l -> (forall q, pp_link (f q) = pp_link q) ->
  alloc_inv (upd_page p f s) l.
Proof.
  intros [Hc Hr Href Hl Hb] Hp Hf. split; cbn.
  - eapply linked_ext; [|exact Hc]. intros q Hq.
    rewrite fn_lookup_insert_ne by (intros ->; done). done.
  - done.
  - intros q Hq. rewrite fn_lookup_insert_ne by (intros ->; done). by apply Href.
  - intros q Hq. destruct (decide (p = q)) as [->|Hne].
    + rewrite fn_lookup_insert, Hf. by apply Hl.
    + rewrite fn_lookup_insert_ne by done. by apply Hl.
  - done.
Qed.

#[export] Hint Resolve alloc_inv_upd_ref : jos.

(** ** Addresses of pages *)

Lemma page2pa_eq p : 0 <= p < 1048576 -> page2pa p = p * 4096.
Proof.
  intros. unfold page2pa, PGSHIFT. rewrite Z.shiftl_mul_pow2 by lia.
  change (2 ^ 12) with 4096. apply u32_id. lia.
Qed.

Lemma KADDR_page s p :
  0 <= p < npages s -> npages s <= 65536 ->
  KADDR (p * 4096) s = Ret (p * 4096 + KERNBASE) s.
Proof.
  intros. unfold KADDR, KERNBASE. kunfold.
  rewrite PGNUM_eq by lia. replace (p * 4096 / 4096) with p by zdm.
  rewrite Z.geb_leb. destruct (Z.leb_spec (npages s) p); [lia|].
  rewrite u32_id by lia. done.
Qed.

Lemma page2kva_eq s p :
  0 <= p < npages s -> npages s <= 65536 ->
  page2kva p s = Ret (p * 4096 + KERNBASE) s.
Proof. intros. unfold page2kva. rewrite page2pa_eq by lia. by apply KADDR_page. Qed.

Lemma pa2page_eq s p :
  0 <= p < npages s -> npages s <= 65536 -> pa2page (p * 4096) s = Ret p s.
Proof.
  intros. unfold pa2page. kunfold.
  rewrite PGNUM_eq by lia. replace (p * 4096 / 4096) with p by zdm.
  rewrite Z.geb_leb. destruct (Z.leb_spec (npages s) p); [lia|done].
Qed.

(** ** page_alloc and page_free *)

(** The state after [page_alloc] took [p]. *)
Definition allocated (flags p : Z) (s : kstate) : kstate :=
  let s1 := upd_page p (set_pp_link None) (set_page_free_list (pp_link (pages s p)) s) in
  if flag flags ALLOC_ZERO then set_phys (mset (phys s1) (p * 4096) 0 4096) s1 else s1.

Lemma allocated_other flags p s q : q <> p -> pages (allocated flags p s) q = pages s q.
Proof. intros. unfold allocated. destruct (flag _ _); cbn; fsimpl; done. Qed.

Lemma allocated_self flags p s :
  pages (allocated flags p s) p = mkPageInfo None (pp_ref (pages s p)).
Proof. unfold allocated. destruct (flag _ _); cbn; fsimpl; done. Qed.

Lemma allocated_npages flags p s : npages (allocated flags p s) = npages s.
Proof. unfold allocated. by destruct (flag _ _). Qed.

Lemma alloc_inv_pop flags s p l :
  alloc_inv s (p :: l) -> alloc_inv (allocated flags p s) l.
Proof.
  intros [Hc Hr Href Hl Hb]. pose proof (linked_NoDup _ _ _ Hc) as Hnd.
  apply NoDup_cons in Hnd as [Hp Hnd]. destruct Hc as [Hhd Hc].
  assert (forall q, q ∈ l -> q <> p) as Hne by (intros q Hq ->; done).
  split.
  - assert (page_free_list (allocated flags p s) = pp_link (pages s p)) as ->
      by (unfold allocated; by destruct (flag _ _)).
    eapply linked_ext; [|exact Hc]. intros q Hq. by rewrite allocated_other by auto.
  - intros q Hq. rewrite allocated_npages. apply Hr. set_solver.
  - intros q Hq. rewrite allocated_other by auto. apply Href. set_solver.
  - intros q Hq. destruct (decide (q = p)) as [->|].
    + by rewrite allocated_self.
    + rewrite allocated_other by done. apply Hl. set_solver.
  - by rewrite allocated_npages.
Qed.

Lemma page_alloc_cons flags s p l :
  alloc_inv s (p :: l) -> page_alloc flags s = Ret (Some p) (allocated flags p s).
Proof.
  intros Hi. destruct Hi as [[Hhd _] Hr Href _ Hb].
  assert (0 <= p < npages s) as Hp by (apply Hr; set_solver).
  unfold page_alloc, allocated. cbn. rewrite Hhd. cbn.
  rewrite Href by set_solver. cbn. unfold modify, bind.
  destruct (flag flags ALLOC_ZERO); [|done].
  rewrite page2kva_eq by (cbn; lia). cbn.
  replace (p * 4096 + KERNBASE - KERNBASE) with (p * 4096) by lia. done.
Qed.

Lemma page_alloc_nil flags s : alloc_inv s [] -> page_alloc flags s = Ret None s.
Proof. intros [Hc _ _ _ _]. unfold page_alloc. cbn in *. by rewrite Hc. Qed.

(** The state after [page_free(pp)]. *)
Definition freed (p : Z) (s : kstate) : kstate :=
  set_page_free_list (Some p) (upd_page p (set_pp_link (page_free_list s)) s).

Lemma page_free_push s l p :
  alloc_inv s l -> p ∉ l -> 0 <= p < npages s -> pp_ref (pages s p) = 0 ->
  page_free p s = Ret tt (freed p s) /\ alloc_inv (freed p s) (p :: l).
Proof.
  intros [Hc Hr Href Hl Hb] Hp Hpr Hp0. split.
  - unfold page_free. cbn. rewrite Hp0, Hl by done. done.
  - split; cbn.
    + split; [done|]. rewrite fn_lookup_insert. cbn.
      eapply linked_ext; [|exact Hc]. intros q Hq. by rewrite fn_lookup_insert_ne by set_solver.
    + intros q Hq. apply list_elem_of_In in Hq as [->|Hq%list_elem_of_In]; eauto.
    + intros q Hq. destruct (decide (p = q)) as [->|].
      * rewrite fn_lookup_insert. done.
      * rewrite fn_lookup_insert_ne by done. apply Href. set_solver.
    + intros q Hq. rewrite fn_lookup_insert_ne by set_solver. apply Hl. set_solver.
    + done.
Qed.

(** [page_alloc] takes the first page of the free list, or returns NULL
    and changes nothing when the list is empty.  The page it returns has no
    link and reference count 0, its contents are zero if [ALLOC_ZERO] is set,
    and no other page descriptor and no other byte of memory changes. *)
Theorem page_alloc_takes_head (s : kstate) (l : list Z) (flags : Z) :
  alloc_inv s l ->
  match l with
  | [] => page_alloc flags s = Ret None s
  | p :: l' => exists s', page_alloc flags s = Ret (Some p) s' /\ alloc_inv s' l'
      /\ pages s' p = mkPageInfo None 0
      /\ (forall q, q <> p -> pages s' q = pages s q)
      /\ (flag flags ALLOC_ZERO = true ->
          forall a, p * PGSIZE <= a < p * PGSIZE + PGSIZE -> phys s' a = 0)
      /\ (forall a, a < p * PGSIZE \/ p * PGSIZE + PGSIZE <= a -> phys s' a = phys s a)
  end.
Proof.
  intros Hi. destruct l as [|p l]; [by apply page_alloc_nil|].
  exists (allocated flags p s). split; [by eapply page_alloc_cons|].
  split; [by apply alloc_inv_pop|].
  assert (pp_ref (pages s p) = 0) as H0 by (eapply ai_ref; [done|set_solver]).
  split; [rewrite allocated_self; by rewrite H0|].
  split; [intros; by apply allocated_other|]. unfold PGSIZE, allocated.
  destruct (flag flags ALLOC_ZERO); cbn; split; intros; try done.
  - by rewrite mset_in by lia.
  - by rewrite mset_out by lia.
Qed.

(** freeing the page that [page_alloc] returned gives back the free list
    it was taken from. *)
Theorem page_alloc_free_roundtrip (s : kstate) (p : Z) (l : list Z) (flags : Z) :
  alloc_inv s (p :: l) ->
  exists s1 s2, page_alloc flags s = Ret (Some p) s1 /\ page_free p s1 = Ret tt s2
    /\ alloc_inv s2 (p :: l) /\ forall q, pages s2 q = pages s q.
Proof.
  intros Hi. pose proof (alloc_inv_pop flags _ _ _ Hi) as Hi1.
  assert (0 <= p < npages s /\ pp_ref (pages s p) = 0) as [Hr H0]
    by (split; [eapply ai_range|eapply ai_ref]; try done; set_solver).
  pose proof (linked_NoDup _ _ _ (ai_chain _ _ Hi)) as Hnd.
  apply NoDup_cons in Hnd as [Hp _].
  destruct (page_free_push (allocated flags p s) l p) as [E Hi2]; try done.
  { by rewrite allocated_npages. }
  { by rewrite allocated_self. }
  exists (allocated flags p s), (freed p (allocated flags p s)).
  split; [by eapply page_alloc_cons|]. split; [done|]. split; [done|].
  intros q. cbn. destruct (decide (p = q)) as [->|]; fsimpl.
  - rewrite allocated_self. cbn.
    assert (page_free_list (allocated flags q s) = pp_link (pages s q)) as ->
      by (unfold allocated; by destruct (flag _ _)).
    by destruct (pages s q).
  - by apply allocated_other.
Qed.

(** A list that follows the same links through [l] reaches [p] too. *)
Lemma chain_through pg pg' hd l p l2 :
  chain pg hd (l ++ [p]) -> (forall q, q ∈ l -> pp_link (pg' q) = pp_link (pg q)) ->
  chain pg' hd l2 -> exists l3, l2 = l ++ p :: l3.
Proof.
  revert hd l2. induction l as [|q l IH]; intros hd l2; cbn.
  - intros [-> _] _. destruct l2 as [|r l2]; cbn; [done|]. intros [[= ->] _]. eauto.
  - intros [-> Hc] He. destruct l2 as [|r l2]; cbn; [done|]. intros [[= <-] Hc2].
    rewrite He in Hc2 by set_solver.
    destruct (IH _ l2 Hc) as [l3 ->]; [set_solver|done|]. eauto.
Qed.

(** The double-free check of [page_free] looks at the link, and the last
    page of the free list has none.  Freeing a free page panics unless it is
    the last one; freeing the last one succeeds and closes the list into a
    cycle, so that no finite list of pages describes it any more. *)
Theorem page_free_double_free (s : kstate) (l : list Z) (p : Z) :
  alloc_inv s l -> p ∈ l ->
  (last l <> Some p -> page_free p s = Panic "free page still have a link" s)
  /\ (last l = Some p -> exists s', page_free p s = Ret tt s'
        /\ forall l', ~ chain (pages s') (page_free_list s') l').
Proof.
  intros Hi Hp. pose proof (ai_chain _ _ Hi) as Hc.
  assert (pp_ref (pages s p) = 0) as H0 by (by eapply ai_ref). split.
  - intros Hlast. apply list_elem_of_split in Hp as (l1 & l2 & ->).
    pose proof (linked_suffix _ _ _ _ _ Hc) as Hs.
    destruct l2 as [|q l2]; [by rewrite last_snoc in Hlast|].
    destruct Hs as [Hs _]. unfold page_free. cbn. by rewrite H0, Hs.
  - intros Hlast. apply last_Some in Hlast as [l0 ->].
    pose proof (linked_suffix _ _ _ _ _ Hc) as Hs. cbn in Hs.
    eexists. split; [unfold page_free; cbn; by rewrite H0, Hs|].
    intros l' Hl'. pose proof (linked_NoDup _ _ _ Hl') as Hnd. cbn in Hl'.
    destruct l' as [|r l']; [done|]. cbn in Hl'. destruct Hl' as [[= <-] Hl'].
    rewrite fn_lookup_insert in Hl'. cbn in Hl'.
    pose proof (linked_NoDup _ _ _ Hc) as Hnd0. apply NoDup_app in Hnd0 as (_ & Hno & _).
    destruct (fun He => chain_through (pages s) _ _ l0 p l' Hc He Hl') as [l3 ->].
    + intros q Hq. rewrite fn_lookup_insert_ne; [done|]. intros <-. apply (Hno p Hq). set_solver.
    + apply NoDup_cons in Hnd as [Hn _]. apply Hn. set_solver.
Qed.

(** The state after [page_decref(p)]. *)
Definition decref (p : Z) (s : kstate) : kstate :=
  let s0 := upd_page p (fun q => set_pp_ref (u16 (pp_ref q - 1)) q) s in
  if u16 (pp_ref (pages s p) - 1) =? 0 then freed p s0 else s0.

Lemma page_decref_eq s l p :
  alloc_inv s l -> p ∉ l -> page_decref p s = Ret tt (decref p s).
Proof.
  intros Hi Hp. unfold page_decref, decref, modify, gets, bind. cbv beta iota zeta.
  set (s0 := upd_page p _ s).
  assert (pages s0 p = set_pp_ref (u16 (pp_ref (pages s p) - 1)) (pages s p)) as E
    by (subst s0; cbn; by rewrite fn_lookup_insert).
  rewrite E. cbn [pp_ref set_pp_ref]. destruct (Z.eqb_spec (u16 (pp_ref (pages s p) - 1)) 0); [|done].
  unfold page_free, gets, bind. rewrite E. cbn [pp_ref pp_link set_pp_ref].
  destruct (Z.eqb_spec (u16 (pp_ref (pages s p) - 1)) 0); [|done]. cbn [negb].
  by rewrite (ai_link _ _ Hi) by done.
Qed.

Lemma decref_other p s q : q <> p -> pages (decref p s) q = pages s q.
Proof. intros. unfold decref. destruct (_ =? 0); cbn; by fsimpl. Qed.

Lemma decref_ref p s : pp_ref (pages (decref p s) p) = u16 (pp_ref (pages s p) - 1).
Proof. unfold decref. destruct (_ =? 0); cbn; by rewrite ?fn_lookup_insert. Qed.

Lemma decref_phys p s : phys (decref p s) = phys s.
Proof. unfold decref. by destruct (_ =? 0). Qed.

Lemma decref_npages p s : npages (decref p s) = npages s.
Proof. unfold decref. by destruct (_ =? 0). Qed.

(** The free list after [page_decref(p)]. *)
Definition decref_list (p : Z) (s : kstate) (l : list Z) : list Z :=
  if u16 (pp_ref (pages s p) - 1) =? 0 then p :: l else l.

Lemma alloc_inv_decref s l p :
  alloc_inv s l -> p ∉ l -> 0 <= p < npages s -> alloc_inv (decref p s) (decref_list p s l).
Proof.
  intros Hi Hp Hr. unfold decref, decref_list.
  assert (alloc_inv (upd_page p (fun q => set_pp_ref (u16 (pp_ref q - 1)) q) s) l) as Hi0
    by (by apply alloc_inv_upd_ref).
  destruct (Z.eqb_spec (u16 (pp_ref (pages s p) - 1)) 0) as [E|]; [|done].
  apply page_free_push; try done. cbn. by rewrite fn_lookup_insert.
Qed.

(** [page_decref] lowers the count by one, and returns the page to the
    free list exactly when the count reaches 0. *)
Theorem page_decref_frees_last (s : kstate) (l : list Z) (p : Z) :
  alloc_inv s l -> p ∉ l -> 0 <= p < npages s -> 1 <= pp_ref (pages s p) < 65536 ->
  exists s', page_decref p s = Ret tt s' /\ pp_ref (pages s' p) = pp_ref (pages s p) - 1
    /\ alloc_inv s' (if pp_ref (pages s p) =? 1 then p :: l else l)
    /\ (forall q, q <> p -> pages s' q = pages s q) /\ phys s' = phys s.
Proof.
  intros Hi Hp Hr Href. exists (decref p s). split; [by eapply page_decref_eq|].
  split; [rewrite decref_ref; apply u16_id; lia|].
  split; [|split; [intros; by apply decref_other|apply decref_phys]].
  replace (if _ =? 1 then _ else _) with (decref_list p s l); [by apply alloc_inv_decref|].
  unfold decref_list. rewrite u16_id by lia. repeat bcase; done.
Qed.

(** whatever the clock chip reports, the kernel believes in fewer than
    16640 pages, so that all of them fit in the 256 MB window at [KERNBASE]. *)
Theorem i386_detect_memory_bound (cmos : Z -> Z) (s : kstate) :
  exists s', i386_detect_memory cmos s = Ret tt s'
    /\ 0 <= npages s' < 16640 /\ 0 <= npages_basemem s' < 16384
    /\ KERNBASE + npages s' * PGSIZE < 4294967296.
Proof.
  eexists. split; [done|]. cbn.
  assert (forall r, 0 <= nvram_read cmos r < 65536) as Hr.
  { intros r. unfold nvram_read, mc146818_read. rewrite Z.lor_comm, Z.shiftl_mul_pow2 by lia.
    pose proof (u8_range (cmos r)). pose proof (u8_range (cmos (r + 1))).
    rewrite lor_disjoint_add by lia. lia. }
  pose proof (Hr NVRAM_BASELO) as H1. pose proof (Hr NVRAM_EXTLO) as H2.
  unfold PGSIZE, KERNBASE. change (EXTPHYSMEM / 4096) with 256.
  bcase; zdm.
Qed.

(** ** page_init *)

(** [page_init] puts page [i] on the free list. *)
Definition usable (basemem nio nalloc i : Z) : Prop :=
  page_init_in_use basemem nio nalloc i = false.

#[export] Instance usable_dec b n m i : Decision (usable b n m i) := decide (_ = false).

Section page_init.

Context (basemem nio nalloc : Z).

#[local] Abbreviation usable := (usable basemem nio nalloc).

(** One iteration pushes the page or marks it in use. *)
Lemma page_init_step_spec s l i :
  alloc_inv s l -> i ∉ l -> 0 <= i < npages s ->
  exists s', page_init_step basemem nio nalloc i s = Ret tt s'
    /\ alloc_inv s' (if decide (usable i) then i :: l else l)
    /\ npages s' = npages s
    /\ pp_ref (pages s' i) = (if decide (usable i) then 0 else 1)
    /\ forall p, p <> i -> pages s' p = pages s p.
Proof.
  intros Hi Hn Hr. unfold page_init_step. destruct (decide (usable i)) as [Hd|Hd].
  2: { apply not_false_is_true in Hd. rewrite Hd.
    eexists; split; [done|]. split; [by apply alloc_inv_upd_ref|]. cbn. split; [done|].
    split; [by rewrite fn_lookup_insert|]. intros p Hp. by fsimpl. }
  - unfold PageAlloc.usable in Hd. rewrite Hd. set (s0 := upd_page i (set_pp_ref 0) s).
    destruct (page_free_push s0 l i) as [_ Hinv].
    + by apply alloc_inv_upd_ref.
    + done.
    + done.
    + cbn. by rewrite fn_lookup_insert.
    + eexists; split; [done|]. split.
      * eapply alloc_inv_frame; [| | |exact Hinv]; try done.
        intros p. cbn. destruct (decide (i = p)) as [->|]; fsimpl; done.
      * cbn. split; [done|]. split; [by rewrite fn_lookup_insert|]. intros p Hp. by fsimpl.
Qed.

Lemma page_init_loop n : forall a s l,
  alloc_inv s l -> (forall p, p ∈ l -> p < a) -> 0 <= a -> a + Z.of_nat n <= npages s ->
  exists s', for_loop n a (page_init_step basemem nio nalloc) s = Ret tt s'
    /\ alloc_inv s' (reverse (filter usable (seqZ a (Z.of_nat n))) ++ l)
    /\ npages s' = npages s
    /\ (forall p, a <= p < a + Z.of_nat n ->
          pp_ref (pages s' p) = if decide (usable p) then 0 else 1)
    /\ (forall p, p < a \/ a + Z.of_nat n <= p -> pages s' p = pages s p).
Proof.
  induction n as [|n IH]; intros a s l Hi Hl Ha Hn.
  - exists s. cbn. split_and!; try done. lia.
  - destruct (page_init_step_spec s l a) as (s1 & E1 & Hi1 & Hn1 & Hr1 & Ho1);
      [done|intros H%Hl; lia|lia|].
    destruct (IH (a + 1) s1 (if decide (usable a) then a :: l else l))
      as (s' & E & Hi' & Hn' & Hr' & Ho'); [done| |lia|lia|].
    { intros p Hp. destruct (decide _); [apply list_elem_of_In in Hp as [->|Hp%list_elem_of_In]|];
        try lia; specialize (Hl p Hp); lia. }
    exists s'. split; [cbn; unfold bind; by rewrite E1|]. split_and!.
    + rewrite seqZ_cons by lia. replace (Z.pred (Z.of_nat (S n))) with (Z.of_nat n) by lia.
      replace (Z.succ a) with (a + 1) by lia.
      rewrite filter_cons. destruct (decide (usable a)); [|done].
      rewrite reverse_cons, <- app_assoc. done.
    + congruence.
    + intros p Hp. destruct (decide (p = a)) as [->|].
      * rewrite Ho' by lia. done.
      * apply Hr'. lia.
    + intros p Hp. rewrite Ho' by lia. apply Ho1. lia.
Qed.

End page_init.

(** Number of pages up to the end of boot-time allocations. *)
Definition boot_pages (s : kstate) : Z := u32 (nextfree s - KERNBASE) / PGSIZE.

Definition io_pages : Z := (EXTPHYSMEM - IOPHYSMEM) / PGSIZE.

(** The free list after [page_init], as a function of the state before. *)
Definition initial_free_list (s : kstate) : list Z :=
  reverse (filter (usable (npages_basemem s) io_pages (boot_pages s)) (seqZ 0 (npages s))).

(** What [mem_init] has set up when it calls [page_init]. *)
Record boot_ready (s : kstate) : Prop := {
  br_npages : 0 <= npages s <= 65536;
  br_zeroed : forall p, pages s p = mkPageInfo None 0;
  br_nextfree : KERNBASE + EXTPHYSMEM <= nextfree s < 4294967296;
  br_basemem : 0 <= npages_basemem s <= IOPHYSMEM / PGSIZE
}.

Lemma boot_alloc_0 s : nextfree s <> 0 -> boot_alloc 0 s = Ret (nextfree s) s.
Proof.
  intros H. unfold boot_alloc. kunfold. by destruct (Z.eqb_spec (nextfree s) 0).
Qed.

Lemma page_init_spec (s : kstate) :
  boot_ready s ->
  exists s', page_init s = Ret tt s' /\ alloc_inv s' (initial_free_list s)
    /\ forall p, 0 <= p < npages s ->
         pp_ref (pages s' p) =
         (if decide (usable (npages_basemem s) io_pages (boot_pages s) p) then 0 else 1).
Proof.
  intros [Hn Hz Hnf Hb]. unfold page_init.
  rewrite (bind_ret _ _ s (nextfree s) s)
    by (apply boot_alloc_0; unfold KERNBASE, EXTPHYSMEM in *; lia).
  set (s0 := set_page_free_list None s).
  destruct (page_init_loop (npages_basemem s) io_pages (boot_pages s) (Z.to_nat (npages s)) 0 s0 [])
    as (s' & E & Hi & _ & Hr & _).
  - split; cbn; try done; intros p; rewrite ?Hz; set_solver.
  - intros p Hp. set_solver.
  - lia.
  - cbn. lia.
  - exists s'. rewrite Z2Nat.id, app_nil_r in * by lia. split; [exact E|]. split; [exact Hi|].
    intros p Hp. apply Hr. lia.
Qed.

(** [page_init] returns, and builds the free list of exactly the pages for
    which its in-use test fails, each with reference count 0; every other page
    has reference count 1. *)
Theorem page_init_builds_free_list (s : kstate) :
  boot_ready s ->
  exists s', page_init s = Ret tt s' /\ alloc_inv s' (initial_free_list s)
    /\ forall p, 0 <= p < npages s ->
         pp_ref (pages s' p) =
         (if decide (usable (npages_basemem s) io_pages (boot_pages s) p) then 0 else 1).
Proof. apply page_init_spec. Qed.

(** no page that is on the free list after [page_init] holds anything: not
    page 0, not the AP start-up code at [MPENTRY_PADDR], not the I/O hole, and
    not the kernel image or the tables [boot_alloc] handed out. *)
Theorem page_init_protects (s : kstate) (p : Z) :
  boot_ready s -> p ∈ initial_free_list s ->
  p * PGSIZE <> 0 /\ p * PGSIZE <> MPENTRY_PADDR
  /\ ~ (IOPHYSMEM <= p * PGSIZE < EXTPHYSMEM)
  /\ ~ (EXTPHYSMEM <= p * PGSIZE /\ KERNBASE + p * PGSIZE + PGSIZE <= nextfree s).
Proof.
  intros [Hn Hz Hnf Hb]. unfold initial_free_list, usable, page_init_in_use.
  rewrite elem_of_reverse, list_elem_of_filter, elem_of_seqZ. intros [Hu Hp].
  unfold boot_pages, io_pages, PGSIZE, IOPHYSMEM, EXTPHYSMEM, KERNBASE, MPENTRY_PADDR in *.
  change (655360 / 4096) with 160 in Hb. change ((1048576 - 655360) / 4096) with 96 in Hu.
  change (28672 / 4096) with 7 in Hu.
  set (na := u32 (nextfree s - 4026531840) / 4096) in *.
  assert (na = (nextfree s - 4026531840) / 4096) as Ena by (subst na; rewrite u32_id by lia; done).
  rewrite (u32_id (npages_basemem s + 96)), (u32_id (npages_basemem s + 96 + na)) in Hu by zdm.
  rewrite !Z.geb_leb in Hu.
  apply orb_false_iff in Hu as [[[H0 H1]%orb_false_iff H2]%orb_false_iff H3].
  apply Z.eqb_neq in H0, H3. apply andb_false_iff in H1, H2.
  rewrite Z.leb_gt, Z.ltb_ge in H1. rewrite Z.leb_gt, Z.ltb_ge in H2.
  split_and!; zdm.
Qed.

Definition bare_env : Env :=
  mkEnv (mkTrapframe (mkPushRegs 0 0 0 0 0 0 0 0) 0 0 0 0 0 0 0 0 0)
    None 0 0 0 0 0 0 0 0 false 0 0 0 0 false.

(** A machine with 4 MB of memory and a kernel that ends at 0xf0118000. *)
Definition boot_state : kstate :=
  mkKstate 1024 160 4027678720 4027678720 (fun _ => mkPageInfo None 0) None (fun _ => 0)
    4027654144 MMIOBASE 0 [] 1122304 (fun _ => bare_env) None
    (fun i => mkCpuInfo i 1 None 0 0) 0 true 0 Console.Console.blank
    (mkE1000 (fun _ => 0) (fun _ => mkTxDesc 0 0 0 0) (fun _ _ => 0)
       (fun _ => mkRxDesc 0 0 0) (fun _ _ => 0)).

Lemma boot_state_ready : boot_ready boot_state.
Proof.
  split; unfold KERNBASE, EXTPHYSMEM, IOPHYSMEM, PGSIZE; cbn; try lia; try done.
Qed.

Lemma page_init_builds_free_list_witness :
  boot_ready boot_state /\ exists s', page_init boot_state = Ret tt s'
    /\ alloc_inv s' (initial_free_list boot_state)
    /\ forall p, 0 <= p < npages boot_state ->
         pp_ref (pages s' p) =
         (if decide (usable (npages_basemem boot_state) io_pages (boot_pages boot_state) p)
          then 0 else 1).
Proof.
  split; [exact boot_state_ready|]. exact (page_init_builds_free_list boot_state boot_state_ready).
Defined.

Lemma page_init_protects_witness :
  1023 ∈ initial_free_list boot_state /\ 1023 * PGSIZE <> 0
  /\ ~ (IOPHYSMEM <= 1023 * PGSIZE < EXTPHYSMEM).
Proof.
  assert (1023 ∈ initial_free_list boot_state) as H.
  { unfold initial_free_list. rewrite elem_of_reverse, list_elem_of_filter, elem_of_seqZ.
    split; [vm_compute; reflexivity|cbn; lia]. }
  split; [exact H|].
  destruct (page_init_protects boot_state 1023 boot_state_ready H) as (H1 & _ & H2 & _).
  split; [exact H1|exact H2].
Defined.

(** 16 pages: 3, 5 and 9 are free, 2 and 4 are in use, 7 is allocated but not
    yet referenced. *)
Definition small_state : kstate :=
  set_npages 16 (set_page_free_list (Some 3) (set_pages
    (<[3 := mkPageInfo (Some 5) 0]> (<[5 := mkPageInfo (Some 9) 0]>
       (<[2 := mkPageInfo None 1]> (<[4 := mkPageInfo None 1]> (fun _ => mkPageInfo None 0)))))
    boot_state)).

Lemma small_state_inv : alloc_inv small_state [3; 5; 9].
Proof.
  split; cbn; [done| | | |lia].
  - intros p. rewrite !elem_of_cons. set_solver by lia.
  - intros p. rewrite !elem_of_cons. intros [->|[->|[->|H]]]; [done..|set_solver].
  - intros p. rewrite !not_elem_of_cons. intros (H3 & H5 & _). unfold insert, fn_insert.
    repeat (destruct (decide _); [by simplify_eq|]). done.
Qed.

Lemma page_alloc_takes_head_witness :
  alloc_inv small_state [3; 5; 9]
  /\ exists s', page_alloc 1 small_state = Ret (Some 3) s' /\ alloc_inv s' [5; 9]
     /\ pages s' 3 = mkPageInfo None 0.
Proof.
  split; [exact small_state_inv|].
  destruct (page_alloc_takes_head small_state [3; 5; 9] 1 small_state_inv)
    as (s' & H1 & H2 & H3 & _). exists s'. split; [exact H1|]. split; [exact H2|exact H3].
Defined.

Lemma page_alloc_free_roundtrip_witness :
  exists s1 s2, page_alloc 0 small_state = Ret (Some 3) s1 /\ page_free 3 s1 = Ret tt s2
    /\ alloc_inv s2 [3; 5; 9] /\ forall q, pages s2 q = pages small_state q.
Proof. exact (page_alloc_free_roundtrip small_state 3 [5; 9] 0 small_state_inv). Defined.

Lemma page_free_double_free_witness :
  page_free 5 small_state = Panic "free page still have a link" small_state
  /\ exists s', page_free 9 small_state = Ret tt s'
       /\ forall l', ~ chain (pages s') (page_free_list s') l'.
Proof.
  split.
  - apply (page_free_double_free small_state [3; 5; 9] 5 small_state_inv); [set_solver|done].
  - apply (page_free_double_free small_state [3; 5; 9] 9 small_state_inv); [set_solver|done].
Defined.

Lemma page_decref_frees_last_witness :
  exists s', page_decref 2 small_state = Ret tt s' /\ pp_ref (pages s' 2) = 0
    /\ alloc_inv s' [2; 3; 5; 9].
Proof.
  destruct (page_decref_frees_last small_state [3; 5; 9] 2 small_state_inv)
    as (s' & H1 & H2 & H3 & _); [set_solver by lia|cbn; lia|vm_compute; split; congruence|].
  exists s'. split; [exact H1|]. split; [exact H2|exact H3].
Defined.

End PageAlloc.
