(* ===== verification/PageTable.v ===== *)
(** * Two-level page tables

    The abstraction of a page directory: [table_of s dp i] is the page table
    its entry [i] points to and [pte_of s dp va] the page table entry that maps
    [va] (0 when there is no table), where [dp] is the page the directory lives
    in.  [dir_ok] is what keeps the entries of one address space apart from
    each other and from the free list; [page_insert] and [page_remove] are then
    point updates of [pte_of]. *)

From stdpp Require Import base numbers list functions strings sets.
From Stdlib Require Import ZArith Lia.
From S2P Require Import Prelude Mem Mmu Kernel Pmap PageAlloc.

Open Scope Z_scope.
Open Scope jos_scope.

Module PageTable.

Import Pmap PageAlloc.

(** Kernel virtual address of page [p]. *)
Definition kva (p : Z) : Z := p * 4096 + KERNBASE.

(** Word [i] of page [p]. *)
Definition word (s : kstate) (p i : Z) : Z := rd32 (phys s) (p * 4096 + 4 * i).

Definition table_of (s : kstate) (dp i : Z) : option Z :=
  if flag (word s dp i) PTE_P then Some (PTE_ADDR (word s dp i) / 4096) else None.

(** The entry for virtual page [v], 0 when there is no table for it. *)
Definition pte_of (s : kstate) (dp v : Z) : Z :=
  match table_of s dp (v / 1024) with
  | Some tp => word s tp (v mod 1024)
  | None => 0
  end.

(** The physical page mapped at virtual page [v]. *)
Definition mapped (s : kstate) (dp v : Z) : option Z :=
  if flag (pte_of s dp v) PTE_P then Some (PTE_ADDR (pte_of s dp v) / 4096) else None.

(** Only the page descriptors, the free list, memory and the TLB differ. *)
Definition mem_only (s s' : kstate) : Prop :=
  s' = set_pages (pages s') (set_page_free_list (page_free_list s')
         (set_phys (phys s') (set_tlb_flushed (tlb_flushed s') s))).

Lemma mem_only_refl s : mem_only s s.
Proof. by destruct s. Qed.

Lemma mem_only_trans s1 s2 s3 : mem_only s1 s2 -> mem_only s2 s3 -> mem_only s1 s3.
Proof.
  unfold mem_only. destruct s1, s2, s3. cbn. intros E1 E2. inversion E1. inversion E2. by subst.
Qed.

Lemma mem_only_upd_page s p f : mem_only s (upd_page p f s).
Proof. by destruct s. Qed.

Lemma mem_only_set_phys s m : mem_only s (set_phys m s).
Proof. by destruct s. Qed.

Lemma mem_only_allocated fl p s : mem_only s (allocated fl p s).
Proof. unfold allocated. destruct (flag _ _); by destruct s. Qed.

Lemma mem_only_decref p s : mem_only s (decref p s).
Proof. unfold decref. destruct (_ =? 0); by destruct s. Qed.

Lemma mem_only_npages s s' : mem_only s s' -> npages s' = npages s.
Proof. intros ->. done. Qed.

Lemma mem_only_envs s s' :
  mem_only s s' -> envs s' = envs s /\ env_free_list s' = env_free_list s.
Proof. intros ->. done. Qed.

Create HintDb memonly discriminated.
#[export] Hint Resolve mem_only_refl mem_only_upd_page mem_only_set_phys mem_only_allocated
  mem_only_decref : memonly.

(** ** Words *)

Lemma word_range s p i : 0 <= word s p i < 4294967296.
Proof. apply rd32_range. Qed.

(** The tables are a function of memory. *)
Lemma word_phys s s' p i : phys s' = phys s -> word s' p i = word s p i.
Proof. intros E. unfold word. by rewrite E. Qed.

Lemma pte_of_phys s s' dp v : phys s' = phys s -> pte_of s' dp v = pte_of s dp v.
Proof. intros E. unfold pte_of, table_of, word. by rewrite E. Qed.

Lemma mapped_phys s s' dp v : phys s' = phys s -> mapped s' dp v = mapped s dp v.
Proof. intros E. unfold mapped. by rewrite (pte_of_phys s s'). Qed.

Lemma word_set_eq s p i v :
  word (set_phys (wr32 (phys s) (p * 4096 + 4 * i) v) s) p i = u32 v.
Proof. unfold word. cbn. apply rd32_wr32_eq. Qed.

Lemma word_set_ne s p i v q j :
  0 <= i < 1024 -> 0 <= j < 1024 -> (q, j) <> (p, i) ->
  word (set_phys (wr32 (phys s) (p * 4096 + 4 * i) v) s) q j = word s q j.
Proof.
  intros Hi Hj Hne. unfold word. cbn. apply rd32_wr32_ne.
  destruct (decide (q = p)) as [->|]; [|lia].
  assert (j <> i) by congruence. lia.
Qed.

Lemma table_of_range s dp i tp : table_of s dp i = Some tp -> 0 <= tp < 1048576.
Proof.
  unfold table_of. destruct (flag _ _); [|done]. intros [= <-].
  pose proof (word_range s dp i). rewrite PTE_ADDR_eq by done. zdm.
Qed.

Lemma table_of_addr s dp i tp :
  table_of s dp i = Some tp -> PTE_ADDR (word s dp i) = tp * 4096.
Proof.
  unfold table_of. destruct (flag _ _); [|done]. intros [= <-].
  pose proof (word_range s dp i). rewrite PTE_ADDR_eq by done. zdm.
Qed.

Lemma flag_table s dp i tp : table_of s dp i = Some tp -> flag (word s dp i) PTE_P = true.
Proof. unfold table_of. by destruct (flag _ _). Qed.

Lemma flag_no_table s dp i : table_of s dp i = None -> flag (word s dp i) PTE_P = false.
Proof. unfold table_of. by destruct (flag _ _). Qed.

Lemma PDX_vpn va : 0 <= va < 4294967296 -> PDX va = va / 4096 / 1024.
Proof. intros. rewrite PDX_eq by done. by rewrite Z.div_div. Qed.

Lemma PTX_vpn va : 0 <= va < 4294967296 -> PTX va = va / 4096 mod 1024.
Proof. intros. by apply PTX_eq. Qed.

(** ** pgdir_walk *)

Lemma kload_word s p i : kload32 (kva p + 4 * i) s = Ret (word s p i) s.
Proof.
  unfold kload32, word, kva, gets. f_equal. f_equal. lia.
Qed.

Lemma kstore_word s p i v :
  kstore32 (kva p + 4 * i) v s = Ret tt (set_phys (wr32 (phys s) (p * 4096 + 4 * i) v) s).
Proof. unfold kstore32, kva, modify. do 3 f_equal. lia. Qed.

Lemma walk_present s dp va c tp :
  table_of s dp (PDX va) = Some tp -> tp < npages s -> npages s <= 65536 ->
  pgdir_walk (kva dp) va c s = Ret (Some (kva tp + 4 * PTX va)) s.
Proof.
  intros Ht Hn Hb. pose proof (table_of_range _ _ _ _ Ht).
  unfold pgdir_walk, bind. rewrite kload_word, (flag_table _ _ _ _ Ht). cbn [negb ret].
  rewrite kload_word, (table_of_addr _ _ _ _ Ht), KADDR_page by lia. done.
Qed.

Lemma walk_absent s dp va :
  table_of s dp (PDX va) = None -> pgdir_walk (kva dp) va 0 s = Ret None s.
Proof. intros Ht. unfold pgdir_walk, bind. by rewrite kload_word, (flag_no_table _ _ _ Ht). Qed.

Lemma walk_nomem s dp va :
  table_of s dp (PDX va) = None -> alloc_inv s [] -> pgdir_walk (kva dp) va 1 s = Ret None s.
Proof.
  intros Ht Hi. unfold pgdir_walk, bind. rewrite kload_word, (flag_no_table _ _ _ Ht).
  cbn [negb Z.eqb]. by rewrite page_alloc_nil.
Qed.

(** The flags [pgdir_walk] puts in a directory entry. *)
Definition pde_flags : Z := Z.lor (Z.lor PTE_P PTE_U) PTE_W.

(** The state after [pgdir_walk] added page table [tp] for [va]. *)
Definition walked (dp va tp : Z) (s : kstate) : kstate :=
  let s1 := allocated 1 tp s in
  let s2 := set_phys (mset (phys s1) (tp * 4096) 0 4096) s1 in
  let s3 := upd_page tp (fun p => set_pp_ref (u16 (pp_ref p + 1)) p) s2 in
  set_phys (wr32 (phys s3) (dp * 4096 + 4 * PDX va)
              (Z.lor (Z.lor (Z.lor (page2pa tp) PTE_P) PTE_U) PTE_W)) s3.

Lemma walked_pde_value tp :
  0 <= tp < 65536 ->
  Z.lor (Z.lor (Z.lor (page2pa tp) PTE_P) PTE_U) PTE_W = Z.lor (tp * 4096) pde_flags.
Proof. intros. rewrite page2pa_eq by lia. unfold pde_flags. by rewrite !Z.lor_assoc. Qed.

Lemma pde_entry s p i f tp :
  word s p i = u32 (Z.lor (tp * 4096) f) -> 0 <= tp < 65536 -> 0 <= f < 4096 ->
  flag f PTE_P = true -> table_of s p i = Some tp.
Proof.
  intros E Htp Hf Hp.
  assert (0 <= Z.lor (tp * 4096) f < 4294967296) by (rewrite lor_page_low; lia).
  rewrite u32_id in E by done. unfold table_of. rewrite E, flag_lor, Hp, orb_true_r.
  rewrite PTE_ADDR_lor by lia. f_equal. zdm.
Qed.

Lemma mem_only_walked dp va tp s : mem_only s (walked dp va tp s).
Proof. unfold walked, allocated. cbn. by destruct s. Qed.
#[export] Hint Resolve mem_only_walked : memonly.

Lemma walk_create s dp va tp l :
  table_of s dp (PDX va) = None -> alloc_inv s (tp :: l) -> dp <> tp ->
  pgdir_walk (kva dp) va 1 s = Ret (Some (kva tp + 4 * PTX va)) (walked dp va tp s).
Proof.
  intros Ht Hi Hne. pose proof (ai_npages _ _ Hi).
  assert (0 <= tp < npages s) as Htp by (eapply ai_range; [done|set_solver]).
  unfold pgdir_walk, bind. rewrite kload_word, (flag_no_table _ _ _ Ht).
  cbn [negb Z.eqb]. rewrite (page_alloc_cons 1 _ _ _ Hi).
  rewrite page2kva_eq by (rewrite ?allocated_npages; lia).
  unfold kmemset, modify. cbv beta iota. rewrite kstore_word. cbn [ret].
  replace (tp * 4096 + KERNBASE - KERNBASE) with (tp * 4096) by lia.
  match goal with |- context [kload32 _ ?x] => change x with (walked dp va tp s) end.
  rewrite kload_word.
  assert (word (walked dp va tp s) dp (PDX va) = u32 (Z.lor (tp * 4096) pde_flags)) as Ew.
  { unfold walked. rewrite word_set_eq. by rewrite walked_pde_value by lia. }
  assert (table_of (walked dp va tp s) dp (PDX va) = Some tp) as Et
    by (eapply pde_entry; [exact Ew|lia|change pde_flags with 7; lia|done]).
  rewrite (table_of_addr _ _ _ _ Et), KADDR_page; [done| |];
    unfold walked; cbn; rewrite allocated_npages; lia.
Qed.

End PageTable.
