(* ===== verification/AddrSpace.v ===== *)
(** * Address spaces

    The invariant that keeps the page tables of all environments apart from
    each other and from the free list.  [space_ok s l D]: [l] is the free list
    and [D] the pages that hold page directories; a page table belongs to one
    entry of one directory, and no page has fewer references than mappings
    below [UTOP].  Under it [page_insert] and [page_remove] are point updates of
    the map from (directory, virtual page) to entry, and a page is never free
    while some environment still maps it. *)

From stdpp Require Import base numbers list functions strings sets.
From Stdlib Require Import ZArith Lia.
From S2P Require Import Prelude Mem Mmu Kernel Pmap PageAlloc PageTable.

Open Scope Z_scope.
Open Scope jos_scope.

Module AddrSpace.

Import Pmap PageAlloc PageTable.

(** ** Counting *)

Section count.

Context {A : Type}.

Implicit Types (f g : A -> option Z) (L : list A).

Fixpoint cnt (f : A -> option Z) (L : list A) (p : Z) : Z :=
  match L with
  | [] => 0
  | x :: L => (if decide (f x = Some p) then 1 else 0) + cnt f L p
  end.

Lemma cnt_nonneg f L p : 0 <= cnt f L p.
Proof. induction L; cbn; [lia|]. destruct (decide _); lia. Qed.

Lemma cnt_ext f g L p : (forall x, x ∈ L -> f x = g x) -> cnt f L p = cnt g L p.
Proof.
  induction L as [|x L IH]; intros H; cbn; [done|].
  rewrite H by set_solver. by rewrite IH by set_solver.
Qed.

Lemma cnt_app f L1 L2 p : cnt f (L1 ++ L2) p = cnt f L1 p + cnt f L2 p.
Proof. induction L1; cbn; lia. Qed.

Lemma cnt_pos f L p x : x ∈ L -> f x = Some p -> 1 <= cnt f L p.
Proof.
  intros (L1 & L2 & ->)%list_elem_of_split Hx. rewrite cnt_app. cbn.
  rewrite decide_True by done. pose proof (cnt_nonneg f L1 p). pose proof (cnt_nonneg f L2 p). lia.
Qed.

Lemma cnt_zero f L p : (forall x, x ∈ L -> f x <> Some p) -> cnt f L p = 0.
Proof.
  induction L as [|x L IH]; intros H; cbn; [done|].
  rewrite decide_False by (apply H; set_solver). apply IH. intros y Hy. apply H. set_solver.
Qed.

(** Changing [f] at one element of the list. *)
Lemma cnt_update f g L p x :
  NoDup L -> x ∈ L -> (forall y, y ∈ L -> y <> x -> g y = f y) ->
  cnt g L p = cnt f L p - (if decide (f x = Some p) then 1 else 0)
                        + (if decide (g x = Some p) then 1 else 0).
Proof.
  intros Hnd (L1 & L2 & ->)%list_elem_of_split H.
  apply NoDup_app in Hnd as (_ & H12 & [Hx _]%NoDup_cons).
  rewrite !cnt_app. cbn.
  rewrite (cnt_ext g f L1 p), (cnt_ext g f L2 p); [lia| |].
  - intros y Hy. apply H; [set_solver|congruence].
  - intros y Hy. apply H; [set_solver|]. intros ->. apply (H12 x); set_solver.
Qed.

End count.

(** ** The invariant *)

(** Directory entries and virtual pages below [UTOP]. *)
Definition user_pdes : Z := UTOP / PTSIZE.

Definition user_vpns : Z := UTOP / PGSIZE.

Lemma user_vpns_eq : user_vpns = 977920.
Proof. done. Qed.

Lemma user_pdes_eq : user_pdes = 955.
Proof. done. Qed.

Definition slots (D : list Z) : list (Z * Z) := list_prod D (seqZ 0 user_vpns).

Lemma elem_of_slots D dp v : (dp, v) ∈ slots D <-> dp ∈ D /\ 0 <= v < user_vpns.
Proof.
  unfold slots. rewrite list_elem_of_In, in_prod_iff, <- !list_elem_of_In, elem_of_seqZ.
  rewrite Z.add_0_l. done.
Qed.

Lemma NoDup_slots D : NoDup D -> NoDup (slots D).
Proof.
  unfold slots. pose proof (NoDup_seqZ 0 user_vpns) as Hs. revert Hs.
  generalize (seqZ 0 user_vpns) as vs. intros vs Hs.
  induction 1 as [|dp D Hdp HD IH]; cbn; [constructor|].
  apply NoDup_app. split; [by apply (NoDup_fmap_2 (pair dp))|]. split; [|done].
  intros [d v] H1 H2. apply list_elem_of_In, in_map_iff in H1 as (? & [= <- _] & _).
  apply list_elem_of_In, in_prod_iff in H2 as [H2 _]. by apply Hdp, list_elem_of_In.
Qed.

(** The number of mappings of page [p] below [UTOP] in the directories [D]. *)
Definition refs (s : kstate) (D : list Z) (p : Z) : Z :=
  cnt (fun x => mapped s x.1 x.2) (slots D) p.

#[global] Opaque slots.

Record space_ok (s : kstate) (l D : list Z) : Prop := {
  so_alloc : alloc_inv s l;
  so_nodup : NoDup D;
  so_dir : forall dp, dp ∈ D -> 0 <= dp < npages s /\ pp_ref (pages s dp) = 1;
  so_tab : forall dp i tp, dp ∈ D -> 0 <= i < user_pdes -> table_of s dp i = Some tp ->
    0 <= tp < npages s /\ pp_ref (pages s tp) = 1 /\ tp ∉ D;
  so_inj : forall dp i dp' i' tp, dp ∈ D -> dp' ∈ D -> 0 <= i < user_pdes -> 0 <= i' < user_pdes ->
    table_of s dp i = Some tp -> table_of s dp' i' = Some tp -> dp = dp' /\ i = i';
  so_page : forall dp v p, dp ∈ D -> 0 <= v < user_vpns -> mapped s dp v = Some p ->
    0 <= p < npages s /\ (p ∉ D)
    /\ forall dp' i, dp' ∈ D -> 0 <= i < user_pdes -> table_of s dp' i <> Some p;
  so_refs : forall p, refs s D p <= pp_ref (pages s p) < 65536
}.

(** Page [p] holds user data: neither a directory nor a page table. *)
Definition data_page (s : kstate) (D : list Z) (p : Z) : Prop :=
  0 <= p < npages s /\ (p ∉ D)
  /\ forall dp i, dp ∈ D -> 0 <= i < user_pdes -> table_of s dp i <> Some p.

Section space.

Context (s : kstate) (l D : list Z) (Hok : space_ok s l D).

Lemma so_used p : 1 <= pp_ref (pages s p) -> p ∉ l.
Proof. intros H Hp. rewrite (ai_ref _ _ (so_alloc _ _ _ Hok) p Hp) in H. lia. Qed.

Lemma so_dir_used dp : dp ∈ D -> dp ∉ l.
Proof. intros H. apply so_used. rewrite (proj2 (so_dir _ _ _ Hok dp H)). done. Qed.

Lemma so_tab_used dp i tp :
  dp ∈ D -> 0 <= i < user_pdes -> table_of s dp i = Some tp -> tp ∉ l.
Proof.
  intros Hd Hi Ht. apply so_used.
  destruct (so_tab _ _ _ Hok dp i tp Hd Hi Ht) as (_ & -> & _). done.
Qed.

Lemma so_mapped_ref dp v p :
  dp ∈ D -> 0 <= v < user_vpns -> mapped s dp v = Some p -> 1 <= pp_ref (pages s p).
Proof.
  intros Hd Hv Hm. pose proof (so_refs _ _ _ Hok p).
  assert (1 <= refs s D p); [|lia].
  eapply (cnt_pos _ _ _ (dp, v)); [by apply elem_of_slots|done].
Qed.

(** A page that is mapped somewhere is not on the free list. *)
Lemma so_mapped_used dp v p :
  dp ∈ D -> 0 <= v < user_vpns -> mapped s dp v = Some p -> p ∉ l.
Proof. intros. eapply so_used, so_mapped_ref; done. Qed.

Lemma so_npages : 0 <= npages s <= 65536.
Proof. apply (ai_npages _ _ (so_alloc _ _ _ Hok)). Qed.

End space.

(** ** Preservation *)

(** Two states with the same tables and entries for the directories [D]. *)
Record same_view (D : list Z) (s s' : kstate) : Prop := {
  sv_tab : forall dp i, dp ∈ D -> 0 <= i < user_pdes -> table_of s' dp i = table_of s dp i;
  sv_pte : forall dp v, dp ∈ D -> 0 <= v < user_vpns -> pte_of s' dp v = pte_of s dp v
}.

Lemma mapped_pte s s' dp v : pte_of s' dp v = pte_of s dp v -> mapped s' dp v = mapped s dp v.
Proof. unfold mapped. by intros ->. Qed.

Lemma refs_view D s s' p : same_view D s s' -> refs s' D p = refs s D p.
Proof.
  intros H. apply cnt_ext. intros [dp v] [Hd Hv]%elem_of_slots. cbn.
  apply mapped_pte. by apply (sv_pte _ _ _ H).
Qed.

Lemma same_view_phys D s s' : phys s' = phys s -> same_view D s s'.
Proof.
  intros E. assert (forall p i, word s' p i = word s p i) as Hw by (intros; unfold word; by rewrite E).
  assert (forall dp i, table_of s' dp i = table_of s dp i) as Ht
    by (intros; unfold table_of; by rewrite Hw).
  split; intros; [done|]. unfold pte_of. rewrite Ht. by destruct (table_of _ _ _).
Qed.

(** The invariant carries over to a state with the same view whose counts are
    still large enough. *)
Lemma space_ok_view s s' l l' D :
  space_ok s l D -> same_view D s s' -> npages s' = npages s -> alloc_inv s' l' ->
  (forall p, refs s D p <= pp_ref (pages s' p) < 65536) ->
  (forall dp, dp ∈ D -> pp_ref (pages s' dp) = 1) ->
  (forall dp i tp, dp ∈ D -> 0 <= i < user_pdes -> table_of s dp i = Some tp ->
     pp_ref (pages s' tp) = 1) ->
  space_ok s' l' D.
Proof.
  intros Hok Hv Hn Ha Hr Hd Ht. split; rewrite ?Hn.
  - done.
  - apply (so_nodup _ _ _ Hok).
  - intros dp Hdp. split; [by apply (so_dir _ _ _ Hok)|auto].
  - intros dp i tp Hdp Hi. rewrite (sv_tab _ _ _ Hv) by done. intros E.
    destruct (so_tab _ _ _ Hok dp i tp Hdp Hi E) as (? & ? & ?). eauto.
  - intros dp i dp' i' tp ? ? ? ?. rewrite !(sv_tab _ _ _ Hv) by done. by apply (so_inj _ _ _ Hok).
  - intros dp v p ? ?. rewrite (mapped_pte s) by (by apply (sv_pte _ _ _ Hv)). intros Hm.
    destruct (so_page _ _ _ Hok dp v p) as (? & ? & Hx); [done..|]. split; [done|]. split; [done|].
    intros dp' i ? ?. rewrite (sv_tab _ _ _ Hv) by done. auto.
  - intros p. rewrite (refs_view D s s') by done. apply Hr.
Qed.

(** Changing the count of a data page. *)
Lemma space_ok_upd_ref s l D p f :
  space_ok s l D -> data_page s D p -> p ∉ l -> (forall q, pp_link (f q) = pp_link q) ->
  refs s D p <= pp_ref (f (pages s p)) < 65536 ->
  space_ok (upd_page p f s) l D.
Proof.
  intros Hok (Hp & HpD & Hpt) Hl Hf Hr.
  assert (forall q, q <> p -> pages (upd_page p f s) q = pages s q) as Ho by (intros; cbn; by fsimpl).
  eapply space_ok_view; [exact Hok|by apply same_view_phys|done| | | |].
  - apply alloc_inv_upd_ref; [apply (so_alloc _ _ _ Hok)|done|done].
  - intros q. destruct (decide (q = p)) as [->|]; [cbn; by rewrite fn_lookup_insert|].
    rewrite Ho by done. apply (so_refs _ _ _ Hok).
  - intros dp Hdp. rewrite Ho by (intros ->; done). by apply (so_dir _ _ _ Hok).
  - intros dp i tp Hdp Hi E. rewrite Ho by (intros ->; by eapply Hpt).
    by apply (so_tab _ _ _ Hok dp i tp).
Qed.

(** ** Storing an entry *)

(** A store of [x] to the entry of virtual page [v] in table [tp]. *)
Definition stored (tp v x : Z) (s : kstate) : kstate :=
  set_phys (wr32 (phys s) (tp * 4096 + 4 * (v mod 1024)) x) s.

Lemma vpn_split v : 0 <= v mod 1024 < 1024.
Proof. zdm. Qed.

Lemma vpn_pde v : 0 <= v < user_vpns -> 0 <= v / 1024 < user_pdes.
Proof. rewrite user_vpns_eq, user_pdes_eq. intros. zdm. Qed.

Section store.

Context (s : kstate) (l D : list Z) (Hok : space_ok s l D).
Context (dp v tp : Z) (Hdp : dp ∈ D) (Hv : 0 <= v < user_vpns).
Context (Ht : table_of s dp (v / 1024) = Some tp).

Lemma stored_table x dp' i :
  dp' ∈ D -> 0 <= i < user_pdes -> table_of (stored tp v x s) dp' i = table_of s dp' i.
Proof.
  intros Hd Hi. unfold table_of, stored.
  destruct (so_tab _ _ _ Hok dp (v / 1024) tp Hdp (vpn_pde v Hv) Ht) as (_ & _ & Hn).
  rewrite !word_set_ne; [done|apply vpn_split| |]; rewrite ?user_pdes_eq in *; [lia|congruence].
Qed.

Lemma stored_pte_eq x : pte_of (stored tp v x s) dp v = u32 x.
Proof.
  unfold pte_of. rewrite stored_table by (auto using vpn_pde). rewrite Ht. apply word_set_eq.
Qed.

Lemma stored_pte_ne x dp' v' :
  dp' ∈ D -> 0 <= v' < user_vpns -> (dp', v') <> (dp, v) ->
  pte_of (stored tp v x s) dp' v' = pte_of s dp' v'.
Proof.
  intros Hd Hv' Hne. unfold pte_of. rewrite stored_table by (auto using vpn_pde).
  destruct (table_of s dp' (v' / 1024)) as [tp'|] eqn:Ht'; [|done].
  apply word_set_ne; [apply vpn_split..|]. intros [= -> Em].
  destruct (so_inj _ _ _ Hok dp' (v' / 1024) dp (v / 1024) tp) as [-> Ed]; auto using vpn_pde.
  apply Hne. f_equal. zdm.
Qed.

Lemma stored_refs x p :
  refs (stored tp v x s) D p =
    refs s D p - (if decide (mapped s dp v = Some p) then 1 else 0)
               + (if decide (mapped (stored tp v x s) dp v = Some p) then 1 else 0).
Proof.
  unfold refs. rewrite (cnt_update (fun y => mapped s y.1 y.2) _ _ _ (dp, v)); [done| | |].
  - apply NoDup_slots, (so_nodup _ _ _ Hok).
  - by apply elem_of_slots.
  - intros [dp' v'] [? ?]%elem_of_slots Hne. cbn. apply mapped_pte. by apply stored_pte_ne.
Qed.

(** Storing an entry keeps the invariant when the page it maps is a data page
    with a spare reference. *)
Lemma stored_ok x :
  (forall p, mapped (stored tp v x s) dp v = Some p -> data_page s D p) ->
  (forall p, refs (stored tp v x s) D p <= pp_ref (pages s p)) ->
  space_ok (stored tp v x s) l D.
Proof.
  intros Hx Hr. split.
  - eapply alloc_inv_frame; [| | |apply (so_alloc _ _ _ Hok)]; done.
  - apply (so_nodup _ _ _ Hok).
  - apply (so_dir _ _ _ Hok).
  - intros dp' i tp' ? ?. rewrite stored_table by done. by apply (so_tab _ _ _ Hok).
  - intros dp' i dp'' i' tp' ? ? ? ?. rewrite !stored_table by done. by apply (so_inj _ _ _ Hok).
  - intros dp' v' p ? ? Hm.
    assert (data_page s D p) as (? & ? & Hp).
    { destruct (decide ((dp', v') = (dp, v))) as [[= -> ->]|Hne]; [by apply Hx|].
      rewrite (mapped_pte s) in Hm by (by apply stored_pte_ne).
      by apply (so_page _ _ _ Hok dp' v' p). }
    split; [done|]. split; [done|]. intros dp'' i ? ?. rewrite stored_table by done. auto.
  - intros p. split; [apply Hr|]. apply (so_refs _ _ _ Hok).
Qed.

End store.

(** ** page_lookup and page_remove *)

(** The state after [tlb_invalidate]. *)
Definition tlb_dropped (pgdir va : Z) (s : kstate) : kstate :=
  if match curenv s with None => true | Some e => env_pgdir (envs s e) =? pgdir end
  then set_tlb_flushed (va :: tlb_flushed s) s else s.

Lemma tlb_invalidate_eq pgdir va s : tlb_invalidate pgdir va s = Ret tt (tlb_dropped pgdir va s).
Proof.
  unfold tlb_invalidate, tlb_dropped, curenv. kunfold.
  destruct (cpu_env _); [by destruct (_ =? _)|done].
Qed.

Lemma tlb_dropped_frame pgdir va s :
  pages (tlb_dropped pgdir va s) = pages s /\ phys (tlb_dropped pgdir va s) = phys s
  /\ page_free_list (tlb_dropped pgdir va s) = page_free_list s
  /\ npages (tlb_dropped pgdir va s) = npages s.
Proof. unfold tlb_dropped. destruct (match curenv s with None => _ | _ => _ end); done. Qed.

Lemma mem_only_tlb_dropped pgdir va s : mem_only s (tlb_dropped pgdir va s).
Proof. unfold tlb_dropped. destruct (match curenv s with None => _ | _ => _ end); by destruct s. Qed.

Lemma mem_only_stored tp v x s : mem_only s (stored tp v x s).
Proof. by destruct s. Qed.

#[local] Hint Resolve mem_only_tlb_dropped mem_only_stored : memonly.

(** Addresses below [UTOP] and their page numbers. *)
Lemma user_va va : 0 <= va < UTOP -> 0 <= va < 4294967296 /\ 0 <= va / 4096 < user_vpns.
Proof. rewrite user_vpns_eq. change UTOP with 4005560320. intros. zdm. Qed.

Section remove.

Context (s : kstate) (l D : list Z) (Hok : space_ok s l D).
Context (dp va : Z) (Hdp : dp ∈ D) (Hva : 0 <= va < UTOP).

Abbreviation v := (va / 4096).

Lemma mapped_table p :
  mapped s dp v = Some p -> exists tp, table_of s dp (v / 1024) = Some tp
    /\ pte_of s dp v = word s tp (v mod 1024).
Proof.
  unfold mapped, pte_of. destruct (table_of s dp (v / 1024)); [eauto|done].
Qed.

Lemma page_lookup_eq :
  page_lookup (kva dp) va s =
    Ret (match mapped s dp v, table_of s dp (v / 1024) with
         | Some p, Some tp => Some (p, kva tp + 4 * (v mod 1024))
         | _, _ => None
         end) s.
Proof.
  destruct (user_va va Hva) as [Hva' Hv]. pose proof (so_npages _ _ _ Hok).
  unfold page_lookup, bind.
  destruct (table_of s dp (v / 1024)) as [tp|] eqn:Ht.
  - destruct (so_tab _ _ _ Hok dp (v / 1024) tp Hdp (vpn_pde v Hv) Ht) as (Htp & _ & _).
    rewrite (walk_present _ _ _ _ tp) by (rewrite ?PDX_vpn by done; done || lia).
    rewrite PTX_vpn by done. rewrite kload_word.
    destruct (mapped s dp v) as [p|] eqn:Hm.
    + destruct (so_page _ _ _ Hok dp v p Hdp Hv Hm) as (Hp & _ & _).
      unfold mapped, pte_of in Hm. rewrite Ht in Hm.
      destruct (flag _ _); [|done]. injection Hm as Hm.
      pose proof (word_range s tp (v mod 1024)) as Hw. rewrite PTE_ADDR_eq in * by done.
      replace (4096 * (word s tp (v mod 1024) / 4096)) with (p * 4096) by zdm.
      by rewrite pa2page_eq by lia.
    + unfold mapped, pte_of in Hm. rewrite Ht in Hm. by destruct (flag _ _).
  - rewrite walk_absent by (by rewrite PDX_vpn). by destruct (mapped _ _ _).
Qed.

(** The state after [page_remove]. *)
Definition removed : kstate :=
  match mapped s dp v, table_of s dp (v / 1024) with
  | Some p, Some tp => stored tp v 0 (tlb_dropped (kva dp) va (decref p s))
  | _, _ => s
  end.

Lemma page_remove_eq : page_remove (kva dp) va s = Ret tt removed.
Proof.
  unfold page_remove, removed. rewrite (bind_ret _ _ _ _ _ page_lookup_eq).
  destruct (user_va va Hva) as [_ Hv].
  destruct (mapped s dp v) as [p|] eqn:Hm; [|done].
  destruct (table_of _ _ _) as [tp|] eqn:Ht; [|done].
  unfold bind. rewrite (page_decref_eq s l p).
  - by rewrite tlb_invalidate_eq, kstore_word.
  - apply (so_alloc _ _ _ Hok).
  - eapply so_mapped_used; eauto.
Qed.

(** Storing 0 without touching the count. *)
Lemma cleared_ok tp : table_of s dp (v / 1024) = Some tp -> space_ok (stored tp v 0 s) l D.
Proof.
  intros Ht. destruct (user_va va Hva) as [_ Hv].
  assert (mapped (stored tp v 0 s) dp v = None) as E
    by (unfold mapped; by rewrite (stored_pte_eq s l D) by done).
  apply (stored_ok s l D Hok dp v); try done; rewrite ?E; [done|]. intros p.
  rewrite (stored_refs s l D Hok dp v), E by done. pose proof (so_refs _ _ _ Hok p).
  rewrite (decide_False (P := None = Some p)) by done.
  destruct (decide (mapped _ _ _ = _)); lia.
Qed.

(** The free list after [page_remove]. *)
Definition removed_list : list Z :=
  match mapped s dp v with Some p => decref_list p s l | None => l end.

Lemma removed_pages q :
  pp_ref (pages removed q) =
    pp_ref (pages s q) - (if decide (mapped s dp v = Some q) then 1 else 0).
Proof.
  destruct (user_va va Hva) as [_ Hv]. unfold removed.
  destruct (mapped s dp v) as [p|] eqn:Hm; [|rewrite decide_False by done; lia].
  destruct (mapped_table p Hm) as (tp & -> & _). unfold stored. cbn [pages set_phys].
  destruct (tlb_dropped_frame (kva dp) va (decref p s)) as (-> & _).
  destruct (decide (Some p = Some q)) as [[= <-]|Hne].
  - rewrite decref_ref. pose proof (so_mapped_ref _ _ _ Hok dp v p Hdp Hv Hm).
    pose proof (so_refs _ _ _ Hok p). apply u16_id. lia.
  - rewrite decref_other by congruence. lia.
Qed.

Lemma removed_phys p tp :
  mapped s dp v = Some p -> table_of s dp (v / 1024) = Some tp ->
  phys removed = phys (stored tp v 0 s).
Proof.
  intros Hm Ht. unfold removed. rewrite Hm, Ht. unfold stored. cbn.
  destruct (tlb_dropped_frame (kva dp) va (decref p s)) as (_ & -> & _). by rewrite decref_phys.
Qed.

Lemma removed_npages : npages removed = npages s.
Proof.
  unfold removed. destruct (mapped _ _ _) as [p|]; [|done].
  destruct (table_of _ _ _) as [tp|]; [|done]. unfold stored. cbn.
  destruct (tlb_dropped_frame (kva dp) va (decref p s)) as (_ & _ & _ & ->). apply decref_npages.
Qed.

Lemma mem_only_removed : mem_only s removed.
Proof.
  unfold removed. destruct (mapped s dp v); [|apply mem_only_refl].
  destruct (table_of s dp (v / 1024)); [|apply mem_only_refl].
  eapply mem_only_trans; [apply mem_only_decref|].
  eapply mem_only_trans; [apply mem_only_tlb_dropped|apply mem_only_stored].
Qed.

Lemma removed_ok : space_ok removed removed_list D.
Proof.
  destruct (user_va va Hva) as [_ Hv]. unfold removed_list.
  destruct (mapped s dp v) as [p|] eqn:Hm; [|unfold removed; by rewrite Hm].
  destruct (mapped_table p Hm) as (tp & Ht & _).
  pose proof (cleared_ok tp Ht) as Hc.
  destruct (so_page _ _ _ Hok dp v p Hdp Hv Hm) as (Hp & HpD & HpT).
  assert (forall q, q <> p -> pp_ref (pages removed q) = pp_ref (pages s q)) as Ho.
  { intros q Hq. rewrite removed_pages, decide_False by congruence. lia. }
  assert (p ∉ l) as Hpl by (apply (so_mapped_used s l D Hok dp v); done).
  eapply space_ok_view; [exact Hc| | | | | |].
  - apply same_view_phys. by eapply removed_phys.
  - apply removed_npages.
  - unfold removed. rewrite Hm, Ht.
    destruct (tlb_dropped_frame (kva dp) va (decref p s)) as (E1 & E2 & E3 & E4).
    eapply alloc_inv_frame; [| | |eapply (alloc_inv_decref s l p); [apply (so_alloc _ _ _ Hok)|done..]];
      unfold stored; cbn; intros; congruence.
  - intros q. rewrite (stored_refs s l D Hok dp v) by done. rewrite removed_pages.
    assert (mapped (stored tp v 0 s) dp v = None) as ->
      by (unfold mapped; by rewrite (stored_pte_eq s l D) by done).
    pose proof (so_refs _ _ _ Hok q). pose proof (so_refs _ _ _ Hc q).
    rewrite (decide_False (P := None = Some q)) by done.
    assert (mapped s dp v = Some q -> 1 <= pp_ref (pages s q)) by (by eapply so_mapped_ref).
    destruct (decide _); [|lia]. specialize (H1 e). lia.
  - intros dp' Hd. rewrite Ho by (intros ->; done). by apply (so_dir _ _ _ Hok).
  - intros dp' i tp' Hd Hi. rewrite (stored_table s l D Hok dp v) by done. intros E.
    rewrite Ho by (intros ->; by eapply HpT). by apply (so_tab _ _ _ Hok dp' i tp').
Qed.

Lemma removed_pte dp' v' :
  dp' ∈ D -> 0 <= v' < user_vpns ->
  pte_of removed dp' v' =
    if decide ((dp', v') = (dp, v) /\ is_Some (mapped s dp v)) then 0 else pte_of s dp' v'.
Proof.
  intros Hd Hv'. destruct (user_va va Hva) as [_ Hv].
  destruct (mapped s dp v) as [p|] eqn:Hm.
  2: { unfold removed. rewrite Hm, decide_False; [done|]. intros [_ [? ?]]. done. }
  destruct (mapped_table p Hm) as (tp & Ht & _).
  rewrite (sv_pte _ _ _ (same_view_phys D _ _ (removed_phys p tp Hm Ht))) by done.
  destruct (decide (_ /\ _)) as [[[= -> ->] _]|Hne].
  - by rewrite (stored_pte_eq s l D).
  - apply (stored_pte_ne s l D Hok dp v); try done. intros E. apply Hne. eauto.
Qed.

Lemma removed_table dp' i :
  dp' ∈ D -> 0 <= i < user_pdes -> table_of removed dp' i = table_of s dp' i.
Proof.
  intros Hd Hi. destruct (user_va va Hva) as [_ Hv].
  destruct (mapped s dp v) as [p|] eqn:Hm; [|unfold removed; by rewrite Hm].
  destruct (mapped_table p Hm) as (tp & Ht & _).
  rewrite (sv_tab _ _ _ (same_view_phys D _ _ (removed_phys p tp Hm Ht))) by done.
  by apply (stored_table s l D Hok dp v).
Qed.

End remove.

(** ** Adding a page table *)

Section walked.

Context (s : kstate) (l D : list Z) (tp : Z) (Hok : space_ok s (tp :: l) D).
Context (dp va : Z) (Hdp : dp ∈ D) (Hva : 0 <= va < UTOP).
Context (Hnone : table_of s dp (va / 4096 / 1024) = None).

Abbreviation v := (va / 4096).
Abbreviation s' := (walked dp va tp s).

Lemma walked_tp_fresh q : q ∉ tp :: l -> q <> tp.
Proof. set_solver. Qed.

Lemma walked_range : 0 <= tp < npages s /\ npages s <= 65536.
Proof.
  split; [|apply (so_npages _ _ _ Hok)].
  eapply (ai_range _ _ (so_alloc _ _ _ Hok)). set_solver.
Qed.

Lemma walked_word q j :
  0 <= j < 1024 -> q <> tp -> (q, j) <> (dp, PDX va) -> word s' q j = word s q j.
Proof.
  intros Hj Hq Hne. unfold walked. rewrite word_set_ne; [|apply PDX_range|done..].
  unfold word, allocated. change (flag 1 ALLOC_ZERO) with true. cbn.
  by rewrite !rd32_mset_out by lia.
Qed.

Lemma walked_word_tp j : 0 <= j < 1024 -> word s' tp j = 0.
Proof.
  intros Hj. pose proof (so_dir_used _ _ _ Hok dp Hdp).
  unfold walked. rewrite word_set_ne; [|apply PDX_range|done|set_solver].
  unfold word. cbn. rewrite rd32_mset_0; [done|lia..].
Qed.

Lemma walked_table_eq : table_of s' dp (v / 1024) = Some tp.
Proof.
  destruct (user_va va Hva) as [Hva' _]. pose proof walked_range.
  rewrite <- PDX_vpn by done. eapply (pde_entry _ _ _ pde_flags); [|lia| |done].
  - unfold walked. rewrite word_set_eq. by rewrite walked_pde_value by lia.
  - change pde_flags with 7. lia.
Qed.

Lemma walked_table_ne dp' i :
  dp' ∈ D -> 0 <= i < user_pdes -> (dp', i) <> (dp, v / 1024) ->
  table_of s' dp' i = table_of s dp' i.
Proof.
  intros Hd Hi Hne. rewrite user_pdes_eq in Hi. unfold table_of.
  rewrite walked_word; [done|lia| |].
  - apply walked_tp_fresh. by apply (so_dir_used _ _ _ Hok).
  - rewrite PDX_vpn by (apply user_va, Hva). done.
Qed.

Lemma walked_pte dp' v' : dp' ∈ D -> 0 <= v' < user_vpns -> pte_of s' dp' v' = pte_of s dp' v'.
Proof.
  intros Hd Hv'. unfold pte_of. pose proof (vpn_pde _ Hv') as Hi.
  destruct (decide ((dp', v' / 1024) = (dp, v / 1024))) as [[= -> E]|Hne].
  - rewrite E, walked_table_eq, Hnone. by rewrite walked_word_tp by apply vpn_split.
  - rewrite walked_table_ne by done.
    destruct (table_of s dp' (v' / 1024)) as [tp'|] eqn:Et; [|done].
    destruct (so_tab _ _ _ Hok dp' _ tp' Hd Hi Et) as (_ & _ & HtD).
    apply walked_word; [apply vpn_split| |].
    + apply walked_tp_fresh. by eapply so_tab_used.
    + intros [= -> _]. done.
Qed.

Lemma walked_pages_other q : q <> tp -> pages s' q = pages s q.
Proof.
  intros. unfold walked. cbn [pages set_phys upd_page set_pages]. fsimpl.
  by apply allocated_other.
Qed.

Lemma walked_pages_tp : pages s' tp = mkPageInfo None 1.
Proof.
  unfold walked. cbn [pages set_phys upd_page set_pages].
  rewrite fn_lookup_insert, allocated_self. cbn.
  rewrite (ai_ref _ _ (so_alloc _ _ _ Hok)) by set_solver. done.
Qed.

Lemma walked_alloc : alloc_inv s' l.
Proof.
  pose proof (so_alloc _ _ _ Hok) as Ha. pose proof (linked_NoDup _ _ _ (ai_chain _ _ Ha)) as Hnd.
  apply NoDup_cons in Hnd as [Hn _].
  eapply (alloc_inv_frame (upd_page tp (fun p => set_pp_ref (u16 (pp_ref p + 1)) p) (allocated 1 tp s)));
    [done..|]. apply alloc_inv_upd_ref; [by apply alloc_inv_pop|done|done].
Qed.

Lemma walked_not_table q i dp' :
  dp' ∈ D -> 0 <= i < user_pdes -> q <> tp -> table_of s dp' i <> Some q -> table_of s' dp' i <> Some q.
Proof.
  intros Hd Hi Hq Hn. destruct (decide ((dp', i) = (dp, v / 1024))) as [[= -> ->]|Hne].
  - rewrite walked_table_eq. congruence.
  - by rewrite walked_table_ne.
Qed.

Lemma walked_refs p : refs s' D p = refs s D p.
Proof.
  apply cnt_ext. intros [dp' v'] [? ?]%elem_of_slots. cbn. apply mapped_pte. by apply walked_pte.
Qed.

Lemma walked_old_table dp' i q :
  dp' ∈ D -> 0 <= i < user_pdes -> table_of s' dp' i = Some q ->
  (dp', i, q) = (dp, v / 1024, tp) \/ (q <> tp /\ table_of s dp' i = Some q).
Proof.
  intros Hd Hi E. destruct (decide ((dp', i) = (dp, v / 1024))) as [[= -> ->]|Hne].
  - rewrite walked_table_eq in E. injection E as <-. by left.
  - rewrite walked_table_ne in E by done. right. split; [|done].
    apply walked_tp_fresh. by eapply so_tab_used.
Qed.

Lemma walked_ok : space_ok s' l D.
Proof.
  assert (npages s' = npages s) as Hn by done.
  assert (tp ∉ D) as HtD by (intros H%(so_dir_used _ _ _ Hok); set_solver).
  pose proof walked_range as Hr.
  split; rewrite ?Hn.
  - apply walked_alloc.
  - apply (so_nodup _ _ _ Hok).
  - intros d Hd. rewrite walked_pages_other by set_solver. by apply (so_dir _ _ _ Hok).
  - intros d i q Hd Hi Et. destruct (walked_old_table d i q Hd Hi Et) as [[= -> -> ->]|[Hq E]].
    + rewrite walked_pages_tp. cbn. split_and!; (done || lia).
    + rewrite walked_pages_other by done. by apply (so_tab _ _ _ Hok d i q).
  - intros d i d' i' q Hd Hd' Hi Hi' Et Et'.
    destruct (walked_old_table d i q Hd Hi Et) as [[= -> -> ->]|[Hq E]],
      (walked_old_table d' i' _ Hd' Hi' Et') as [[= E1 E2]|[Hq' E']]; try done.
    by apply (so_inj _ _ _ Hok d i d' i' q).
  - intros d v' p Hd Hv' Hm. rewrite (mapped_pte s) in Hm by (by apply walked_pte).
    destruct (so_page _ _ _ Hok d v' p Hd Hv' Hm) as (Hp & HpD & HpT).
    split; [done|]. split; [done|]. intros d' i Hd' Hi. apply walked_not_table; auto.
    apply walked_tp_fresh. by apply (so_mapped_used _ _ _ Hok d v').
  - intros p. rewrite walked_refs. pose proof (so_refs _ _ _ Hok p) as Hp.
    destruct (decide (p = tp)) as [->|]; [|by rewrite walked_pages_other].
    rewrite walked_pages_tp. cbn.
    rewrite (ai_ref _ _ (so_alloc _ _ _ Hok) tp) in Hp by set_solver. lia.
Qed.

End walked.

(** ** page_insert *)

Lemma space_ok_frame s s' l D :
  space_ok s l D -> phys s' = phys s -> pages s' = pages s ->
  page_free_list s' = page_free_list s -> npages s' = npages s -> space_ok s' l D.
Proof.
  intros Hok Em Ep Ef En. eapply space_ok_view; [exact Hok|by apply same_view_phys|done|..]; rewrite ?Ep.
  - eapply alloc_inv_frame; [by rewrite Ep|done|done|apply (so_alloc _ _ _ Hok)].
  - apply (so_refs _ _ _ Hok).
  - intros. by apply (so_dir _ _ _ Hok).
  - intros dp i tp ? ? E. by apply (so_tab _ _ _ Hok dp i tp).
Qed.

(** The permission bits or-ed into a directory entry. *)
Definition pde_or (dp va f : Z) (s : kstate) : kstate :=
  set_phys (wr32 (phys s) (dp * 4096 + 4 * PDX va) (Z.lor (word s dp (PDX va)) f)) s.

Lemma mem_only_pde_or dp va f s : mem_only s (pde_or dp va f s).
Proof. by destruct s. Qed.

#[local] Hint Resolve mem_only_pde_or : memonly.

Lemma lor_low_entry w f :
  0 <= w < 4294967296 -> 0 <= f < 4096 ->
  u32 (Z.lor w f) = Z.lor (w / 4096 * 4096) (Z.lor (w mod 4096) f) /\ 0 <= Z.lor (w mod 4096) f < 4096.
Proof.
  intros Hw Hf. assert (0 <= w mod 4096 < 4096) as Hm by zdm.
  pose proof (lor_low_range _ _ Hm Hf) as Hl. split; [|done].
  rewrite Z.lor_assoc, (lor_page_low (w / 4096)) by done.
  replace (w / 4096 * 4096 + w mod 4096) with w by zdm. apply u32_id.
  replace w with (Z.lor (w / 4096 * 4096) (w mod 4096)) by (rewrite lor_page_low; zdm).
  rewrite <- Z.lor_assoc, lor_page_low by done. zdm.
Qed.

Lemma flag_low w f : 0 <= f < 4096 -> flag (w mod 4096) f = flag w f.
Proof.
  intros Hf. replace w with (Z.lor (w / 4096 * 4096) (w mod 4096)) at 2
    by (rewrite lor_page_low; zdm).
  by rewrite flag_lor, flag_page_low.
Qed.

Section pde_or.

Context (s : kstate) (l D : list Z) (Hok : space_ok s l D).
Context (dp va tp f : Z) (Hdp : dp ∈ D) (Hva : 0 <= va < UTOP) (Hf : 0 <= f < 4096).
Context (Ht : table_of s dp (va / 4096 / 1024) = Some tp).

Lemma pde_or_view : same_view D s (pde_or dp va f s).
Proof.
  destruct (user_va va Hva) as [Hva' Hv].
  assert (forall d i, d ∈ D -> 0 <= i < user_pdes -> table_of (pde_or dp va f s) d i = table_of s d i) as Htab.
  { intros d i Hd Hi. rewrite user_pdes_eq in Hi.
    destruct (decide ((d, i) = (dp, PDX va))) as [[= -> ->]|Hne].
    2: { unfold table_of, pde_or. rewrite word_set_ne; [done|apply PDX_range|lia|done]. }
    rewrite <- PDX_vpn in Ht by done. pose proof (table_of_addr _ _ _ _ Ht) as Ea.
    pose proof (flag_table _ _ _ _ Ht) as Hfl. pose proof (word_range s dp (PDX va)) as Hw.
    rewrite PTE_ADDR_eq in Ea by done. destruct (lor_low_entry _ f Hw Hf) as [E1 E2].
    rewrite Ht. unfold table_of, pde_or. rewrite word_set_eq, E1.
    rewrite flag_lor, flag_lor, flag_low, Hfl by done. rewrite PTE_ADDR_lor by zdm.
    replace (_ || _)%bool with true by (by destruct (flag (_ * _) _)). f_equal. zdm. }
  split; [done|]. intros d v' Hd Hv'. unfold pte_of. rewrite Htab by (auto using vpn_pde).
  destruct (table_of s d (v' / 1024)) as [tp'|] eqn:Et; [|done].
  apply word_set_ne; [apply PDX_range|apply vpn_split|]. intros [= -> _].
  by destruct (so_tab _ _ _ Hok d (v' / 1024) dp Hd (vpn_pde _ Hv') Et) as (_ & _ & ?).
Qed.

Lemma pde_or_ok : space_ok (pde_or dp va f s) l D.
Proof.
  eapply space_ok_view; [exact Hok|apply pde_or_view|done|..]; cbn.
  - eapply alloc_inv_frame; [| | |apply (so_alloc _ _ _ Hok)]; done.
  - apply (so_refs _ _ _ Hok).
  - intros. by apply (so_dir _ _ _ Hok).
  - intros d i t ? ? E. by apply (so_tab _ _ _ Hok d i t).
Qed.

End pde_or.

(** One more reference to [pp]. *)
Definition bumped (pp : Z) (s : kstate) : kstate :=
  upd_page pp (fun p => set_pp_ref (u16 (pp_ref p + 1)) p) s.

Section insert.

Context (s : kstate) (l D : list Z) (Hok : space_ok s l D).
Context (dp va tp pp perm : Z) (Hdp : dp ∈ D) (Hva : 0 <= va < UTOP) (Hperm : 0 <= perm < 4096).
Context (Ht : table_of s dp (va / 4096 / 1024) = Some tp).
Context (Hpp : data_page s D pp) (Hppl : pp ∉ l) (Href : pp_ref (pages s pp) < 65535).

Abbreviation v := (va / 4096).

(** The new entry. *)
Definition new_pte : Z := Z.lor (Z.lor (page2pa pp) perm) PTE_P.

(** After the reference is counted, and after the old mapping is gone. *)
Definition ins1 : kstate :=
  if flag (pte_of s dp v) PTE_P then tlb_dropped (kva dp) va (bumped pp s) else bumped pp s.

Definition ins2 : kstate :=
  if flag (pte_of s dp v) PTE_P then removed ins1 dp va else ins1.

Definition ins2_list : list Z :=
  if flag (pte_of s dp v) PTE_P then removed_list ins1 l dp va else l.

Definition ins3 : kstate := stored tp v new_pte ins2.

Definition inserted : kstate := pde_or dp va (Z.lor perm PTE_P) ins3.

Lemma bumped_ok : space_ok (bumped pp s) l D.
Proof.
  apply space_ok_upd_ref; try done. cbn. pose proof (so_refs _ _ _ Hok pp).
  rewrite u16_id; [lia|]. pose proof (cnt_nonneg (fun x => mapped s x.1 x.2) (slots D) pp).
  unfold refs in *. lia.
Qed.

Lemma ins1_frame :
  phys ins1 = phys s /\ pages ins1 = pages (bumped pp s) /\ npages ins1 = npages s
  /\ page_free_list ins1 = page_free_list s.
Proof.
  unfold ins1. destruct (flag _ _); [|done].
  destruct (tlb_dropped_frame (kva dp) va (bumped pp s)) as (-> & -> & -> & ->). done.
Qed.

Lemma ins1_view : same_view D s ins1.
Proof. apply same_view_phys. apply ins1_frame. Qed.

Lemma ins1_ok : space_ok ins1 l D.
Proof.
  destruct ins1_frame as (E1 & E2 & E3 & E4). eapply space_ok_frame; [exact bumped_ok|..]; done.
Qed.

Lemma ins1_ref q :
  pp_ref (pages ins1 q) = pp_ref (pages s q) + (if decide (q = pp) then 1 else 0).
Proof.
  destruct ins1_frame as (_ & -> & _). cbn. pose proof (so_refs _ _ _ Hok pp).
  pose proof (cnt_nonneg (fun x => mapped s x.1 x.2) (slots D) pp). unfold refs in *.
  destruct (decide (q = pp)) as [->|]; fsimpl; cbn; [apply u16_id; lia|lia].
Qed.

Lemma ins1_mapped : mapped ins1 dp v = mapped s dp v.
Proof. apply mapped_pte, (sv_pte _ _ _ ins1_view); [done|]. by apply user_va. Qed.

Lemma not_present_mapped : flag (pte_of s dp v) PTE_P = false -> mapped s dp v = None.
Proof. unfold mapped. by intros ->. Qed.

Lemma ins2_ok : space_ok ins2 ins2_list D.
Proof.
  unfold ins2, ins2_list. destruct (flag _ _); [|apply ins1_ok].
  apply removed_ok; auto using ins1_ok.
Qed.

Lemma ins2_ref q :
  pp_ref (pages ins2 q) = pp_ref (pages s q) + (if decide (q = pp) then 1 else 0)
                          - (if decide (mapped s dp v = Some q) then 1 else 0).
Proof.
  unfold ins2. destruct (flag _ _) eqn:Hfl.
  - rewrite (removed_pages _ l D) by auto using ins1_ok. by rewrite ins1_mapped, ins1_ref.
  - rewrite (not_present_mapped Hfl), (decide_False (P := None = _)), ins1_ref by done. lia.
Qed.

Lemma ins2_table d i : d ∈ D -> 0 <= i < user_pdes -> table_of ins2 d i = table_of s d i.
Proof.
  intros. rewrite <- (sv_tab _ _ _ ins1_view) by done. unfold ins2. destruct (flag _ _); [|done].
  apply (removed_table _ l D); auto using ins1_ok.
Qed.

Lemma ins2_pte d v' :
  d ∈ D -> 0 <= v' < user_vpns -> (d, v') <> (dp, v) -> pte_of ins2 d v' = pte_of s d v'.
Proof.
  intros ? ? Hne. rewrite <- (sv_pte _ _ _ ins1_view) by done. unfold ins2. destruct (flag _ _); [|done].
  rewrite (removed_pte _ l D) by auto using ins1_ok. rewrite decide_False; [done|tauto].
Qed.

Lemma ins2_mapped : mapped ins2 dp v = None.
Proof.
  destruct (user_va va Hva) as [_ Hv]. unfold ins2. destruct (flag (pte_of s dp v) PTE_P) eqn:Hfl.
  - assert (is_Some (mapped ins1 dp v)) as Hs
      by (rewrite ins1_mapped; unfold mapped; rewrite Hfl; eauto).
    unfold mapped at 1. rewrite (removed_pte _ l D) by auto using ins1_ok.
    by rewrite decide_True.
  - by rewrite ins1_mapped, not_present_mapped.
Qed.

Lemma ins2_refs q :
  refs ins2 D q = refs s D q - (if decide (mapped s dp v = Some q) then 1 else 0).
Proof.
  destruct (user_va va Hva) as [_ Hv].
  unfold refs. rewrite (cnt_update (fun y => mapped s y.1 y.2) _ _ _ (dp, v)).
  - cbn. rewrite ins2_mapped, (decide_False (P := None = Some q)) by done. lia.
  - apply NoDup_slots, (so_nodup _ _ _ Hok).
  - by apply elem_of_slots.
  - intros [d v'] [? ?]%elem_of_slots Hne. cbn. apply mapped_pte. by apply ins2_pte.
Qed.

Lemma new_pte_eq : new_pte = Z.lor (pp * 4096) (Z.lor perm PTE_P) /\ 0 <= Z.lor perm PTE_P < 4096.
Proof.
  pose proof (so_npages _ _ _ Hok). destruct Hpp as (Hr & _ & _).
  unfold new_pte. rewrite page2pa_eq by lia. rewrite Z.lor_assoc. split; [done|].
  apply lor_low_range; [done|]. unfold PTE_P. lia.
Qed.

Lemma new_pte_u32 : u32 new_pte = new_pte.
Proof.
  destruct new_pte_eq as [-> Hl]. pose proof (so_npages _ _ _ Hok). destruct Hpp as (Hr & _ & _).
  apply u32_id. rewrite lor_page_low by done. lia.
Qed.

Lemma ins2_tp : table_of ins2 dp (v / 1024) = Some tp.
Proof. rewrite ins2_table; [done|done|]. apply vpn_pde. by apply user_va. Qed.

Lemma ins3_pte : pte_of ins3 dp v = new_pte.
Proof.
  destruct (user_va va Hva) as [_ Hv]. unfold ins3.
  rewrite (stored_pte_eq _ _ D ins2_ok); [apply new_pte_u32|done|done|apply ins2_tp].
Qed.

Lemma ins3_mapped : mapped ins3 dp v = Some pp.
Proof.
  unfold mapped. rewrite ins3_pte. destruct new_pte_eq as [-> Hl].
  pose proof (so_npages _ _ _ Hok). destruct Hpp as (Hr & _ & _).
  rewrite PTE_ADDR_lor by lia. rewrite flag_lor, flag_lor, !orb_true_r. f_equal. zdm.
Qed.

Lemma ins3_ok : space_ok ins3 ins2_list D.
Proof.
  destruct (user_va va Hva) as [_ Hv].
  apply (stored_ok _ _ _ ins2_ok dp v); try done; [apply ins2_tp|..]; fold ins3; rewrite ?ins3_mapped.
  - intros p [= <-]. destruct Hpp as (H1 & H2 & H3).
    assert (npages ins2 = npages s) as En.
    { unfold ins2. destruct (flag _ _); rewrite ?removed_npages; apply ins1_frame. }
    split; [by rewrite En|]. split; [done|]. intros. rewrite ins2_table by done. auto.
  - intros p. unfold ins3.
    rewrite (stored_refs _ _ _ ins2_ok dp v) by auto using ins2_tp. fold ins3.
    rewrite ins3_mapped, ins2_mapped, (decide_False (P := None = Some p)) by done.
    rewrite ins2_refs, ins2_ref. pose proof (so_refs _ _ _ Hok p).
    destruct (decide (Some pp = Some p)) as [[= <-]|]; [rewrite (decide_True (P := pp = pp)) by done; lia|].
    rewrite (decide_False (P := p = pp)) by congruence. lia.
Qed.

Lemma inserted_view : same_view D ins3 inserted.
Proof.
  destruct (user_va va Hva) as [_ Hv].
  apply (pde_or_view _ _ _ ins3_ok _ _ tp); try done; [apply new_pte_eq|].
  unfold ins3. rewrite (stored_table _ _ _ ins2_ok dp v); auto using ins2_tp, vpn_pde.
Qed.

Lemma inserted_ok : space_ok inserted ins2_list D.
Proof.
  destruct (user_va va Hva) as [_ Hv].
  apply (pde_or_ok _ _ _ ins3_ok _ _ tp); try done; [apply new_pte_eq|].
  unfold ins3. rewrite (stored_table _ _ _ ins2_ok dp v); auto using ins2_tp, vpn_pde.
Qed.

Lemma inserted_ref q :
  pp_ref (pages inserted q) = pp_ref (pages s q) + (if decide (q = pp) then 1 else 0)
                              - (if decide (mapped s dp v = Some q) then 1 else 0).
Proof. apply ins2_ref. Qed.

Lemma inserted_pte d v' :
  d ∈ D -> 0 <= v' < user_vpns ->
  pte_of inserted d v' = if decide ((d, v') = (dp, v)) then new_pte else pte_of s d v'.
Proof.
  intros Hd Hv'. rewrite (sv_pte _ _ _ inserted_view) by done.
  destruct (decide _) as [[= -> ->]|Hne]; [apply ins3_pte|].
  destruct (user_va va Hva) as [_ Hv]. unfold ins3.
  rewrite (stored_pte_ne _ _ _ ins2_ok dp v); [by apply ins2_pte|..]; auto using ins2_tp.
Qed.

(** Nothing but the entry, its directory entry, the counts and the free list
    changes. *)
Lemma inserted_phys a :
  a / 4096 <> dp -> a / 4096 <> tp -> phys inserted a = phys s a.
Proof.
  intros Hd Htp. pose proof (PDX_range va). pose proof (vpn_split v).
  unfold inserted, pde_or, ins3, stored. cbn. rewrite !wr32_out by zdm.
  unfold ins2. destruct ins1_frame as (E & _).
  destruct (flag _ _) eqn:Hfl; [|by rewrite E]. rewrite <- E.
  assert (table_of ins1 dp (v / 1024) = Some tp) as Ht1.
  { rewrite (sv_tab _ _ _ ins1_view); [done|done|]. apply vpn_pde. by apply user_va. }
  unfold removed. rewrite Ht1. destruct (mapped ins1 dp v) as [p|] eqn:Hm; [|done].
  unfold stored. cbn. rewrite wr32_out by zdm.
  destruct (tlb_dropped_frame (kva dp) va (decref p ins1)) as (_ & -> & _). by rewrite decref_phys.
Qed.

Lemma insert_rest s0 :
  pgdir_walk (kva dp) va 1 s0 = Ret (Some (kva tp + 4 * PTX va)) s ->
  page_insert (kva dp) pp va perm s0 = Ret 0 inserted.
Proof.
  intros Hw. destruct (user_va va Hva) as [Hva' Hv].
  unfold page_insert. rewrite (bind_ret _ _ _ _ _ Hw).
  unfold bind at 1, modify at 1. cbv beta iota. fold (bumped pp s).
  rewrite PTX_vpn by done. rewrite (bind_ret _ _ _ _ _ (kload_word _ _ _)).
  assert (word (bumped pp s) tp (v mod 1024) = pte_of s dp v) as -> by (unfold pte_of; by rewrite Ht).
  assert ((if flag (pte_of s dp v) PTE_P
           then bind (tlb_invalidate (kva dp) va) (fun _ => page_remove (kva dp) va) else ret tt)
            (bumped pp s) = Ret tt ins2) as E.
  { pose proof ins1_ok as H1. unfold ins2, ins1 in *. destruct (flag _ _); [|done].
    rewrite (bind_ret _ _ _ _ _ (tlb_invalidate_eq _ _ _)). by eapply page_remove_eq. }
  rewrite (bind_ret _ _ _ _ _ E), (bind_ret _ _ _ _ _ (kstore_word _ _ _ _)).
  fold new_pte. change (set_phys _ ins2) with ins3.
  rewrite (bind_ret _ _ _ _ _ (kload_word _ _ _)), (bind_ret _ _ _ _ _ (kstore_word _ _ _ _)). done.
Qed.

Lemma mem_only_inserted : mem_only s inserted.
Proof.
  unfold inserted, ins3. eapply mem_only_trans; [|apply mem_only_pde_or].
  eapply mem_only_trans; [|apply mem_only_stored].
  assert (mem_only s ins1) as H1.
  { unfold ins1, bumped. destruct (flag _ _); [|apply mem_only_upd_page].
    eapply mem_only_trans; [apply mem_only_upd_page|apply mem_only_tlb_dropped]. }
  unfold ins2. destruct (flag _ _); [|done].
  eapply mem_only_trans; [exact H1|apply mem_only_removed].
Qed.

Lemma inserted_table d i : d ∈ D -> 0 <= i < user_pdes -> table_of inserted d i = table_of s d i.
Proof.
  intros. destruct (user_va va Hva) as [_ Hv].
  rewrite (sv_tab _ _ _ inserted_view) by done. unfold ins3.
  rewrite (stored_table _ _ _ ins2_ok dp v); auto using ins2_tp, ins2_table.
Qed.

End insert.

Lemma walked_phys dp va tp s a :
  a / 4096 <> dp -> a / 4096 <> tp -> phys (walked dp va tp s) a = phys s a.
Proof.
  intros. pose proof (PDX_range va). unfold walked, allocated.
  change (flag 1 ALLOC_ZERO) with true. cbn. rewrite wr32_out by zdm. rewrite !mset_out by zdm. done.
Qed.

(** What [page_insert] promises when it succeeds. *)
Definition insert_post (s s' : kstate) (l l' D : list Z) (dp pp va perm : Z) : Prop :=
  space_ok s' l' D
  /\ (forall d v, d ∈ D -> 0 <= v < user_vpns ->
        pte_of s' d v = if decide ((d, v) = (dp, va / 4096))
                        then Z.lor (pp * 4096) (Z.lor perm PTE_P) else pte_of s d v)
  /\ (forall q, q ∉ l ->
        pp_ref (pages s' q) = pp_ref (pages s q) + (if decide (q = pp) then 1 else 0)
                              - (if decide (mapped s dp (va / 4096) = Some q) then 1 else 0))
  /\ (forall a, data_page s' D (a / 4096) -> phys s' a = phys s a)
  /\ mem_only s s'
  /\ (forall d i, d ∈ D -> 0 <= i < user_pdes ->
        is_Some (table_of s' d i) <-> is_Some (table_of s d i) \/ (d, i) = (dp, va / 4096 / 1024)).

Lemma page_insert_spec (s : kstate) (l D : list Z) (dp pp va perm : Z) :
  space_ok s l D -> dp ∈ D -> 0 <= va < UTOP -> 0 <= perm < 4096 ->
  data_page s D pp -> pp ∉ l -> pp_ref (pages s pp) < 65535 ->
  match table_of s dp (va / 4096 / 1024), l with
  | None, [] => page_insert (kva dp) pp va perm s = Ret (- E_NO_MEM) s
  | _, _ => exists s' l', page_insert (kva dp) pp va perm s = Ret 0 s'
              /\ insert_post s s' l l' D dp pp va perm
  end.
Proof.
  intros Hok Hdp Hva Hperm Hpp Hppl Href. destruct (user_va va Hva) as [Hva' Hv].
  pose proof (so_npages _ _ _ Hok) as Hn. pose proof (vpn_pde _ Hv) as Hpde.
  destruct (table_of s dp (va / 4096 / 1024)) as [tp|] eqn:Ht; [|destruct l as [|tp l]].
  - destruct (so_tab _ _ _ Hok dp _ tp Hdp Hpde Ht) as (Htp & _ & _).
    eexists _, _. split; [|split; [by eapply inserted_ok|]]; [|split_and!].
    + eapply insert_rest; eauto. apply walk_present; [by rewrite PDX_vpn|lia|lia].
    + intros d v Hd Hv0. rewrite (inserted_pte _ l D) by eauto.
      by rewrite (proj1 (new_pte_eq s l D Hok pp perm Hperm Hpp)).
    + intros q _. by eapply inserted_ref.
    + intros a (_ & Ha & Hat). assert (a / 4096 <> dp) by (intros E; by rewrite E in Ha).
      assert (a / 4096 <> tp).
      { intros E. eapply (Hat dp _ Hdp Hpde). rewrite (inserted_table s l D) by eauto. by rewrite Ht, E. }
      by rewrite (inserted_phys s D) by eauto.
    + apply mem_only_inserted.
    + intros d i Hd Hi. rewrite (inserted_table s l D) by eauto.
      split; [by left|]. intros [?|[= -> ->]]; [done|]. by rewrite Ht.
  - unfold page_insert. rewrite (bind_ret _ _ s None s); [done|].
    apply walk_nomem; [by rewrite PDX_vpn|apply (so_alloc _ _ _ Hok)].
  - set (s1 := walked dp va tp s).
    assert (pp <> tp) as Hne by set_solver.
    pose proof (walked_ok s l D tp Hok dp va Hdp Hva Ht) as Hok1. fold s1 in Hok1.
    assert (table_of s1 dp (va / 4096 / 1024) = Some tp) as Ht1 by (eapply walked_table_eq; eauto).
    assert (data_page s1 D pp) as Hpp1.
    { destruct Hpp as (? & ? & ?). split; [done|]. split; [done|]. intros.
      eapply walked_not_table; eauto. }
    assert (pages s1 pp = pages s pp) as Ep by (by apply walked_pages_other).
    assert (pp ∉ l) as Hppl1 by set_solver.
    assert (pp_ref (pages s1 pp) < 65535) as Href1 by (by rewrite Ep).
    assert (mapped s1 dp (va / 4096) = mapped s dp (va / 4096)) as Em
      by (apply mapped_pte; by apply (walked_pte s l D)).
    eexists _, _. split; [|split; [by eapply (inserted_ok s1)|]]; [|split_and!].
    + eapply (insert_rest s1); eauto. apply (walk_create s dp va tp l).
      * by rewrite PDX_vpn.
      * apply (so_alloc _ _ _ Hok).
      * intros ->. by eapply (so_dir_used _ _ _ Hok tp Hdp); set_solver.
    + intros d v Hd Hv0. rewrite (inserted_pte s1 l D) by eauto.
      rewrite (proj1 (new_pte_eq s1 l D Hok1 pp perm Hperm Hpp1)).
      destruct (decide _); [done|]. by apply (walked_pte s l D).
    + intros q Hq. rewrite (inserted_ref s1 l D) by eauto. rewrite Em.
      unfold s1. rewrite walked_pages_other by set_solver. done.
    + intros a (_ & Ha & Hat). assert (a / 4096 <> dp) by (intros E; by rewrite E in Ha).
      assert (a / 4096 <> tp).
      { intros E. eapply (Hat dp _ Hdp Hpde). rewrite (inserted_table s1 l D) by eauto. by rewrite Ht1, E. }
      rewrite (inserted_phys s1 D) by eauto. by apply walked_phys.
    + eapply mem_only_trans; [apply mem_only_walked|apply mem_only_inserted].
    + intros d i Hd Hi. rewrite (inserted_table s1 l D) by eauto.
      destruct (decide ((d, i) = (dp, va / 4096 / 1024))) as [[= -> ->]|Hdi].
      * rewrite Ht1. split; [by right|done].
      * unfold s1. rewrite (walked_table_ne s l D) by eauto. split; [by left|]. by intros [?|?].
Qed.

(** C15: [page_insert] on a user address either fails with [-E_NO_MEM] and
    changes nothing, exactly when it needs a page table and no page is free, or
    succeeds: the entry of that page in that directory is the new one, every
    other entry of every address space is as before, the new page gains a
    reference and the page mapped before loses one, no byte of a data page
    changes, no page table but the one needed appears, and the invariant of the address spaces still holds. *)
Theorem page_insert_maps (s : kstate) (l D : list Z) (dp pp va perm : Z) :
  space_ok s l D -> dp ∈ D -> 0 <= va < UTOP -> 0 <= perm < 4096 ->
  data_page s D pp -> pp ∉ l -> pp_ref (pages s pp) < 65535 ->
  match table_of s dp (va / 4096 / 1024), l with
  | None, [] => page_insert (kva dp) pp va perm s = Ret (- E_NO_MEM) s
  | _, _ => exists s' l', page_insert (kva dp) pp va perm s = Ret 0 s'
              /\ insert_post s s' l l' D dp pp va perm
  end.
Proof. apply page_insert_spec. Qed.

(** The TLB entry of [va] is dropped when the directory is the one in use. *)
Lemma tlb_dropped_in pgdir va s :
  match curenv s with None => True | Some e => env_pgdir (envs s e) = pgdir end ->
  va ∈ tlb_flushed (tlb_dropped pgdir va s).
Proof.
  unfold tlb_dropped. destruct (curenv s); [intros ->; rewrite Z.eqb_refl|intros _]; cbn; set_solver.
Qed.

(** C16: [page_remove] always returns.  Nothing changes when nothing is mapped;
    otherwise the page is no longer mapped there, every other page of every
    address space is mapped to the same frame or not mapped as before, the page
    loses one reference and returns to the free list
    exactly when that was the last one, and the stale TLB entry is dropped when
    the directory is in use. *)
Theorem page_remove_unmaps (s : kstate) (l D : list Z) (dp va : Z) :
  space_ok s l D -> dp ∈ D -> 0 <= va < UTOP ->
  exists s' l', page_remove (kva dp) va s = Ret tt s' /\ space_ok s' l' D
    /\ (forall d v, d ∈ D -> 0 <= v < user_vpns ->
          mapped s' d v = if decide ((d, v) = (dp, va / 4096)) then None else mapped s d v)
    /\ (forall q, pp_ref (pages s' q) =
          pp_ref (pages s q) - (if decide (mapped s dp (va / 4096) = Some q) then 1 else 0))
    /\ match mapped s dp (va / 4096) with
       | None => s' = s
       | Some p => l' = (if pp_ref (pages s p) =? 1 then p :: l else l)
           /\ (match curenv s with None => True | Some e => env_pgdir (envs s e) = kva dp end ->
               va ∈ tlb_flushed s')
       end.
Proof.
  intros Hok Hdp Hva. destruct (user_va va Hva) as [_ Hv].
  exists (removed s dp va), (removed_list s l dp va).
  split; [by eapply page_remove_eq|]. split; [by apply removed_ok|]. split; [|split].
  - intros d v Hd Hv0. unfold mapped at 1. rewrite (removed_pte s l D) by done.
    destruct (decide ((d, v) = (dp, va / 4096))) as [[= -> ->]|Hne].
    + destruct (mapped s dp (va / 4096)) as [p|] eqn:Hm.
      * rewrite decide_True by eauto. done.
      * rewrite decide_False by (intros [_ [? ?]]; done). unfold mapped in Hm.
        by destruct (flag _ _).
    + rewrite decide_False by tauto. done.
  - intros q. by apply (removed_pages s l D).
  - unfold removed, removed_list, decref_list. destruct (mapped s dp (va / 4096)) as [p|] eqn:Hm; [|done].
    destruct (mapped_table s dp va p Hm) as (tp & -> & _).
    pose proof (so_mapped_ref s l D Hok dp _ p Hdp Hv Hm). pose proof (so_refs _ _ _ Hok p).
    split; [rewrite u16_id by lia; by repeat bcase|]. intros Hc. unfold stored. cbn.
    apply tlb_dropped_in. unfold decref. by destruct (_ =? 0).
Qed.

(** what [page_insert] maps, [page_lookup] finds: the same page, and the
    entry it points at holds the permissions asked for. *)
Theorem page_insert_lookup (s : kstate) (l D : list Z) (dp pp va perm : Z) (s' : kstate) :
  space_ok s l D -> dp ∈ D -> 0 <= va < UTOP -> 0 <= perm < 4096 ->
  data_page s D pp -> pp ∉ l -> pp_ref (pages s pp) < 65535 ->
  page_insert (kva dp) pp va perm s = Ret 0 s' ->
  exists a, page_lookup (kva dp) va s' = Ret (Some (pp, a)) s'
    /\ kload32 a s' = Ret (Z.lor (pp * 4096) (Z.lor perm PTE_P)) s'.
Proof.
  intros Hok Hdp Hva Hperm Hpp Hppl Href E. destruct (user_va va Hva) as [_ Hv].
  pose proof (page_insert_spec s l D dp pp va perm Hok Hdp Hva Hperm Hpp Hppl Href) as Hs.
  assert (exists l', insert_post s s' l l' D dp pp va perm) as (l' & Hok' & Hpte & _).
  { destruct (table_of _ _ _), l; [..|by rewrite E in Hs|]; destruct Hs as (s1 & l1 & E1 & Hp1);
      rewrite E in E1; injection E1 as <-; eauto. }
  specialize (Hpte dp (va / 4096) Hdp Hv). rewrite decide_True in Hpte by done.
  pose proof (so_npages _ _ _ Hok). destruct Hpp as (Hr & _ & _).
  assert (0 <= Z.lor perm PTE_P < 4096) as Hl by (apply lor_low_range; [done|unfold PTE_P; lia]).
  assert (mapped s' dp (va / 4096) = Some pp) as Hm.
  { unfold mapped. rewrite Hpte, PTE_ADDR_lor by lia.
    rewrite flag_lor, flag_lor, !orb_true_r. f_equal. zdm. }
  rewrite (page_lookup_eq s' l' D) by done. rewrite Hm.
  destruct (mapped_table s' dp va pp Hm) as (tp & -> & Ew).
  eexists. split; [done|]. rewrite kload_word. by rewrite <- Ew, Hpte.
Qed.

(** *** Two empty address spaces *)

(** Memory is all zero: no directory has a table. *)
Lemma zero_table s dp i : (forall a, phys s a = 0) -> table_of s dp i = None.
Proof. intros H. unfold table_of, word, rd32, rd8. by rewrite !H. Qed.

Lemma zero_mapped s dp v : (forall a, phys s a = 0) -> mapped s dp v = None.
Proof. intros H. unfold mapped, pte_of. by rewrite zero_table. Qed.

Lemma small_space_ok : space_ok small_state [3; 5; 9] [2; 4].
Proof.
  split.
  - exact small_state_inv.
  - repeat constructor; set_solver by lia.
  - intros dp. rewrite !elem_of_cons. intros [->|[->|?]]; [cbn; split; [lia|done]..|set_solver].
  - intros dp i tp _ _. by rewrite zero_table.
  - intros dp i dp' i' tp _ _ _ _. by rewrite zero_table.
  - intros dp v p _ _. by rewrite zero_mapped.
  - intros p. assert (refs small_state [2; 4] p = 0) as ->.
    { unfold refs. induction (slots [2; 4]) as [|x L IH]; [done|]. cbn [cnt].
      rewrite zero_mapped by done. by rewrite decide_False by done. }
    cbn. unfold insert, fn_insert. repeat (destruct (decide _); [cbn; lia|]). cbn. lia.
Qed.

Lemma small_data_page : data_page small_state [2; 4] 7.
Proof.
  split; [cbn; lia|]. split; [set_solver by lia|]. intros. by rewrite zero_table.
Qed.

Lemma small_dir : 2 ∈ [2; 4].
Proof. set_solver. Qed.

Lemma small_not_free : 7 ∉ [3; 5; 9].
Proof. apply (bool_decide_unpack _). by vm_compute. Qed.

Lemma page_insert_maps_witness :
  exists s' l', page_insert (kva 2) 7 8388608 7 small_state = Ret 0 s'
    /\ insert_post small_state s' [3; 5; 9] l' [2; 4] 2 7 8388608 7.
Proof.
  refine (page_insert_maps small_state [3; 5; 9] [2; 4] 2 7 8388608 7 small_space_ok _ _ _
            small_data_page small_not_free _);
    [exact small_dir|vm_compute; split; congruence|lia|vm_compute; congruence].
Defined.

(** The state after that call. *)
Lemma small_inserted :
  exists s' l', page_insert (kva 2) 7 8388608 7 small_state = Ret 0 s'
    /\ insert_post small_state s' [3; 5; 9] l' [2; 4] 2 7 8388608 7.
Proof.
  refine (page_insert_spec small_state [3; 5; 9] [2; 4] 2 7 8388608 7 small_space_ok _ _ _
            small_data_page small_not_free _);
    [exact small_dir|vm_compute; split; congruence|lia|vm_compute; congruence].
Qed.

Lemma page_remove_unmaps_witness :
  exists s s' l', page_insert (kva 2) 7 8388608 7 small_state = Ret 0 s
    /\ page_remove (kva 2) 8388608 s = Ret tt s' /\ space_ok s' l' [2; 4].
Proof.
  destruct small_inserted as (s & l & E & Hok & _).
  destruct (page_remove_unmaps s l [2; 4] 2 8388608 Hok) as (s' & l' & E' & Hok' & _);
    [exact small_dir|vm_compute; split; congruence|].
  exists s, s', l'. split; [exact E|]. split; [exact E'|exact Hok'].
Defined.

Lemma page_insert_lookup_witness :
  exists s' a, page_insert (kva 2) 7 8388608 7 small_state = Ret 0 s'
    /\ page_lookup (kva 2) 8388608 s' = Ret (Some (7, a)) s'.
Proof.
  destruct small_inserted as (s' & l & E & _). exists s'.
  destruct (page_insert_lookup small_state [3; 5; 9] [2; 4] 2 7 8388608 7 s' small_space_ok)
    as (a & H & _); [exact small_dir|vm_compute; split; congruence|lia|exact small_data_page|exact small_not_free| |exact E|].
  - vm_compute. congruence.
  - exists a. split; [exact E|exact H].
Defined.

End AddrSpace.
