(* ===== verification/UserMem.v ===== *)
(** * Checking user pointers

    What [user_mem_check] of kern/pmap.c decides about a range of addresses. *)

From stdpp Require Import base numbers list functions strings.
From Stdlib Require Import ZArith Lia.
From S2P Require Import Prelude Mem Mmu Kernel Pmap PageAlloc PageTable.

Open Scope Z_scope.
Open Scope jos_scope.

Module UserMem.

Import Pmap PageAlloc PageTable.

(** An environment may access [a] with permission [perm]: the page is mapped
    with these bits and lies below [ULIM]. *)
Definition accessible (s : kstate) (dp perm a : Z) : bool :=
  (Z.lor (Z.lor (pte_of s dp (a / 4096)) perm) PTE_P =? pte_of s dp (a / 4096)) && (a <? ULIM).

(** Every table of the directory is a page of the machine. *)
Definition tables_in_range (s : kstate) (dp : Z) : Prop :=
  forall i tp, 0 <= i < 1024 -> table_of s dp i = Some tp -> tp < npages s.

(** The check reads memory only. *)
Lemma accessible_frame s s' dp perm a : phys s' = phys s -> accessible s' dp perm a = accessible s dp perm a.
Proof.
  intros E. unfold accessible, pte_of, table_of, word. by rewrite E.
Qed.

(** Accessibility is a property of the page. *)
Lemma accessible_page s dp perm a b :
  a / 4096 = b / 4096 -> accessible s dp perm a = accessible s dp perm b.
Proof.
  intros E. unfold accessible. rewrite E. f_equal. unfold ULIM, MMIOBASE, MMIOLIM, KSTACKTOP, KERNBASE, PTSIZE, PGSIZE, NPTENTRIES.
  repeat bcase; zdm.
Qed.

Section check.

Context (s : kstate) (dp perm : Z).
Context (Ht : tables_in_range s dp) (Hn : 0 <= npages s <= 65536) (Hp : 0 <= perm < 4294967296).

Lemma lor_P_nonzero x : Z.lor x PTE_P <> 0.
Proof. intros [_ H]%Z.lor_eq_0_iff. discriminate. Qed.

Lemma user_page_bad_eq s' a :
  phys s' = phys s -> npages s' = npages s -> 0 <= a < 4294967296 ->
  user_page_bad (kva dp) perm a s' = Ret (negb (accessible s dp perm a)) s'.
Proof.
  intros Em En Ha. rewrite <- (accessible_frame s s') by done. unfold user_page_bad, bind.
  assert (0 <= 4096 * (a / 4096) < 4294967296) as Ha' by zdm.
  rewrite ROUNDDOWN_page by done.
  assert (PDX (4096 * (a / 4096)) = a / 4096 / 1024) as Ed
    by (rewrite PDX_vpn by done; f_equal; zdm).
  assert (PTX (4096 * (a / 4096)) = a / 4096 mod 1024) as Et
    by (rewrite PTX_vpn by done; f_equal; zdm).
  unfold accessible, pte_of.
  destruct (table_of s' dp (a / 4096 / 1024)) as [tp|] eqn:E.
  - assert (tp < npages s) as Htp.
    { apply (Ht (a / 4096 / 1024)); [zdm|]. unfold table_of, word in *. by rewrite <- Em. }
    rewrite (walk_present _ _ _ _ tp) by (rewrite ?Ed, ?En; done || lia).
    rewrite Et, kload_word. unfold ret. do 2 f_equal. rewrite u32_id by done.
    by rewrite negb_andb, Z.geb_leb, Z.leb_antisym.
  - rewrite walk_absent by (by rewrite Ed). unfold ret. do 2 f_equal.
    destruct (Z.eqb_spec (Z.lor (Z.lor 0 perm) PTE_P) 0) as [H|]; [|done].
    by apply lor_P_nonzero in H.
Qed.

(** The loop from [addr] on: it stops at the first page that may not be
    accessed.  [addr] keeps the offset of [start] within its page. *)
Lemma user_mem_loop_spec (start stop : Z) :
  0 <= start -> stop mod 4096 = 0 -> stop < 4294967296 ->
  forall fuel s',
  phys s' = phys s -> npages s' = npages s -> start <= user_mem_check_addr s' ->
  user_mem_check_addr s' mod 4096 = start mod 4096 ->
  stop <= user_mem_check_addr s' + 4096 * Z.of_nat fuel ->
  user_mem_check_addr s' < stop + 4096 ->
  (forall b, start <= b < 4096 * (user_mem_check_addr s' / 4096) -> accessible s dp perm b = true) ->
  exists r s1, user_mem_loop fuel (kva dp) start stop perm s' = Ret r s1
    /\ s1 = set_user_mem_check_addr (user_mem_check_addr s1) s'
    /\ ((r = 0 /\ forall b, start <= b < stop -> accessible s dp perm b = true)
        \/ (r = - E_FAULT
            /\ start <= user_mem_check_addr s1 < stop
            /\ accessible s dp perm (user_mem_check_addr s1) = false
            /\ forall b, start <= b < user_mem_check_addr s1 -> accessible s dp perm b = true)).
Proof.
  intros Hs Hstop Hlim. induction fuel as [|fuel IH]; intros s' Em En Hge Hmod Hfuel Hub Hok.
  - exists 0, s'. cbn. kunfold. destruct (Z.ltb_spec (user_mem_check_addr s') stop); [lia|].
    split; [done|]. split; [by destruct s'|]. left. split; [done|]. intros b Hb. apply Hok. zdm.
  - cbn [user_mem_loop]. unfold bind at 1, gets at 1. cbv beta iota.
    set (addr := user_mem_check_addr s') in *.
    destruct (Z.ltb_spec addr stop) as [Hlt|Hnlt].
    2: { exists 0, s'. split; [done|]. split; [by destruct s'|]. left. split; [done|].
         intros b Hb. apply Hok. zdm. }
    unfold bind at 1. rewrite user_page_bad_eq by (done || lia).
    destruct (accessible s dp perm addr) eqn:Ha; cbn [negb].
    + unfold bind at 1, modify at 1. cbv beta iota.
      assert (addr < ULIM) as Hul
        by (unfold accessible in Ha; apply andb_true_iff in Ha as [_ Ha]; by apply Z.ltb_lt in Ha).
      change ULIM with 4018143232 in Hul.
      destruct (IH (set_user_mem_check_addr (u32 (addr + PGSIZE)) s')) as (r & s1 & E & Hs1 & Hr);
        unfold PGSIZE; rewrite ?u32_id by lia; cbn; try done; try lia; [zdm| |].
      { intros b Hb. destruct (decide (b < 4096 * (addr / 4096))); [apply Hok; lia|].
        rewrite (accessible_page _ _ _ b addr) by zdm. done. }
      exists r, s1. split; [|split; [|exact Hr]].
      * change 4096 with PGSIZE in E. by rewrite <- E, u32_id by (unfold PGSIZE; lia).
      * rewrite Hs1 at 1. by destruct s'.
    + unfold bind. destruct (Z.eqb_spec addr start) as [E|Hne]; cbn [negb ret].
      * exists (- E_FAULT), s'. split; [done|]. split; [by destruct s'|]. right.
        fold addr. rewrite E in *. split; [done|]. split; [lia|]. split; [done|]. intros b Hb. lia.
      * eexists _, _. split; [done|]. cbn [user_mem_check_addr set_user_mem_check_addr].
        split; [by destruct s'|]. right. split; [done|].
        rewrite ROUNDDOWN_page by lia. split; [zdm|]. split; [|apply Hok].
        by rewrite (accessible_page _ _ _ _ addr) by zdm.
Qed.

End check.

Lemma user_mem_check_spec (s : kstate) (e dp va len perm : Z) :
  env_pgdir (envs s e) = kva dp -> tables_in_range s dp -> 0 <= npages s <= 65536 ->
  0 <= perm < 4294967296 -> 0 <= va -> 0 <= len -> va + len <= 4294963200 ->
  exists r s', user_mem_check e va len perm s = Ret r s'
    /\ s' = set_user_mem_check_addr (user_mem_check_addr s') s
    /\ ((r = 0 /\ forall b, va <= b < ROUNDUP (va + len) PGSIZE -> accessible s dp perm b = true)
        \/ (r = - E_FAULT
            /\ va <= user_mem_check_addr s' < ROUNDUP (va + len) PGSIZE
            /\ accessible s dp perm (user_mem_check_addr s') = false
            /\ forall b, va <= b < user_mem_check_addr s' -> accessible s dp perm b = true)).
Proof.
  intros Hpg Ht Hn Hp Hva Hlen Hsum. unfold user_mem_check.
  rewrite (u32_id va), (u32_id (va + len)) by lia. unfold bind, modify, gets. cbv beta iota.
  cbn [envs set_user_mem_check_addr]. rewrite Hpg.
  set (stop := ROUNDUP (va + len) PGSIZE).
  assert (stop = 4096 * ((va + len + 4095) / 4096)) as Es by (apply ROUNDUP_page; lia).
  destruct (user_mem_loop_spec s dp perm Ht Hn Hp va stop) with
    (fuel := Z.to_nat ((stop - va + PGSIZE - 1) / PGSIZE)) (s' := set_user_mem_check_addr va s)
    as (r & s1 & E & Hs1 & Hr); cbn [user_mem_check_addr set_user_mem_check_addr]; try done; try zdm.
  - unfold PGSIZE. rewrite Z2Nat.id; zdm.
  - exists r, s1. split; [exact E|]. split; [|exact Hr]. rewrite Hs1 at 1. by destruct s.
Qed.

(** C22: when [va + len] does not reach the last page of the address space,
    [user_mem_check] returns, and returns 0 exactly when the environment may
    access every byte of every page the range touches; otherwise it returns
    [-E_FAULT] and [user_mem_check_addr] is the first byte of the range that
    may not be accessed. *)
Theorem user_mem_check_correct (s : kstate) (e dp va len perm : Z) :
  env_pgdir (envs s e) = kva dp -> tables_in_range s dp -> 0 <= npages s <= 65536 ->
  0 <= perm < 4294967296 -> 0 <= va -> 0 <= len -> va + len <= 4294963200 ->
  exists r s', user_mem_check e va len perm s = Ret r s'
    /\ s' = set_user_mem_check_addr (user_mem_check_addr s') s
    /\ ((r = 0 /\ forall b, va <= b < ROUNDUP (va + len) PGSIZE -> accessible s dp perm b = true)
        \/ (r = - E_FAULT
            /\ va <= user_mem_check_addr s' < ROUNDUP (va + len) PGSIZE
            /\ accessible s dp perm (user_mem_check_addr s') = false
            /\ forall b, va <= b < user_mem_check_addr s' -> accessible s dp perm b = true)).
Proof. apply user_mem_check_spec. Qed.

(** A range that wraps around the end of the address space passes the
    check without any page being looked at. *)
Theorem user_mem_check_wraps (s : kstate) (e va len perm : Z) :
  0 <= va < 4294967296 -> 0 <= len < 4294967296 -> 4294963200 < va + len <= 4294967296 + va / 4096 * 4096 ->
  user_mem_check e va len perm s = Ret 0 (set_user_mem_check_addr va s).
Proof.
  intros Hva Hlen Hsum. unfold user_mem_check.
  assert (ROUNDUP (u32 (u32 va + len)) PGSIZE <= va) as Hstop.
  { rewrite (u32_id va) by done. unfold PGSIZE.
    destruct (decide (va + len < 4294967296)).
    - rewrite u32_id by lia. rewrite ROUNDUP_page_wrap; lia.
    - assert (u32 (va + len) = va + len - 4294967296) as -> by (unfold u32; zdm).
      rewrite ROUNDUP_page; zdm. }
  rewrite (u32_id va) in * by done. unfold bind, modify, gets. cbv beta iota.
  set (stop := ROUNDUP _ _) in *.
  destruct (Z.to_nat _); cbn; kunfold; cbn; by destruct (Z.ltb_spec va stop); [lia|].
Qed.

(** Directory in page 2, a table in page 3 for the addresses from 0x800000, and
    page 7 mapped there for the user. *)
Definition mapped_state : kstate :=
  upd_env 1 (set_env_pgdir (kva 2))
    (set_phys (wr32 (wr32 (fun _ => 0) (2 * 4096 + 4 * 2) (3 * 4096 + 7)) (3 * 4096) (7 * 4096 + 7))
       small_state).

Lemma mapped_state_tables : tables_in_range mapped_state 2.
Proof.
  intros i tp Hi. unfold table_of.
  destruct (decide (i = 2)) as [->|Hne].
  { intros E. vm_compute in E. injection E as <-. done. }
  assert (word mapped_state 2 i = 0) as ->; [|done].
  unfold word, mapped_state. cbn [phys upd_env set_envs set_phys].
  rewrite !rd32_wr32_ne by lia. done.
Qed.

Lemma user_mem_check_correct_witness :
  exists r s', user_mem_check 1 8388708 100 (Z.lor PTE_U PTE_W) mapped_state = Ret r s' /\ r = 0.
Proof.
  destruct (user_mem_check_correct mapped_state 1 2 8388708 100 (Z.lor PTE_U PTE_W))
    as (r & s' & E & _ & Hr);
    [vm_compute; reflexivity|exact mapped_state_tables|vm_compute; split; congruence
    |vm_compute; split; congruence|lia|lia|lia|].
  - exists r, s'. split; [exact E|]. destruct Hr as [[-> _]|(_ & Hb & Ha & _)]; [reflexivity|].
    exfalso. change (ROUNDUP (8388708 + 100) PGSIZE) with 8392704 in Hb.
    rewrite (accessible_page _ _ _ _ 8388608) in Ha by zdm.
    vm_compute in Ha. discriminate Ha.
Defined.

(** The whole of the kernel's memory as a user buffer. *)
Lemma user_mem_check_wraps_witness :
  user_mem_check 1 KERNBASE 268435456 (Z.lor PTE_U PTE_W) mapped_state
    = Ret 0 (set_user_mem_check_addr KERNBASE mapped_state).
Proof.
  apply (user_mem_check_wraps mapped_state 1 KERNBASE 268435456);
    [vm_compute; split; congruence|lia|vm_compute; split; congruence].
Defined.

End UserMem.
