(* ===== verification/Env.v ===== *)
(** * Environments (kern/env.c)

    One definition per function of kern/env.c, except [env_destroy], which
    calls the scheduler and is in Sched.v.  The kernel reaches user addresses
    through the page tables that [cr3] names; [vload8] and [vstore8] do the
    hardware's translation, and a fault in the kernel is the panic of
    [page_fault_handler]. *)

From stdpp Require Import base numbers list functions strings.
From Stdlib Require Import ZArith Lia.
From S2P Require Import Prelude Mem Mmu Kernel Pmap.

Open Scope Z_scope.
Open Scope jos_scope.

(** ** Virtual memory as the CPU sees it in kernel mode *)

Module Vm.

(** The physical address of [a]; a write needs [PTE_W] in both entries. *)
Definition translate (s : kstate) (write : bool) (a : Z) : option Z :=
  let pde := rd32 (phys s) (cr3 s + 4 * PDX a) in
  if negb (flag pde PTE_P) then None else
  let pte := rd32 (phys s) (PTE_ADDR pde + 4 * PTX a) in
  if negb (flag pte PTE_P) then None else
  if write && negb (flag pde PTE_W && flag pte PTE_W) then None else
  Some (PTE_ADDR pte + PGOFF a).

Definition kernel_fault {A} : K A := panic "page_fault_handler:page fault".

Definition vload8 (a : Z) : K Z := fun s =>
  match translate s false a with
  | Some pa => Ret (rd8 (phys s) pa) s
  | None => kernel_fault s
  end.

Definition vstore8 (a v : Z) : K unit := fun s =>
  match translate s true a with
  | Some pa => Ret tt (set_phys (wr8 (phys s) pa v) s)
  | None => kernel_fault s
  end.

(** Little-endian words, byte by byte. *)
Definition vload32 (a : Z) : K Z :=
  let! b0 := vload8 (u32 a) in
  let! b1 := vload8 (u32 (a + 1)) in
  let! b2 := vload8 (u32 (a + 2)) in
  let! b3 := vload8 (u32 (a + 3)) in
  ret (b0 + 256 * b1 + 65536 * b2 + 16777216 * b3).

Definition vstore32 (a v : Z) : K unit :=
  do! vstore8 (u32 a) (u8 v) in
  do! vstore8 (u32 (a + 1)) (u8 (v / 256)) in
  do! vstore8 (u32 (a + 2)) (u8 (v / 65536)) in
  vstore8 (u32 (a + 3)) (u8 (v / 16777216)).

(** [memset] and [memmove] to a user address, from the window at [KERNBASE]. *)
Definition vmemset (va c n : Z) : K unit :=
  for_loop (Z.to_nat n) 0 (fun i => vstore8 (u32 (va + i)) c).

Definition kload8 (kva : Z) : K Z := gets (fun s => rd8 (phys s) (kva - KERNBASE)).

Definition vmemmove_in (va kva n : Z) : K unit :=
  for_loop (Z.to_nat n) 0 (fun i => let! b := kload8 (kva + i) in vstore8 (u32 (va + i)) b).

Definition lcr3 (pa : Z) : K unit := modify (set_cr3 pa).

End Vm.

Module Env.

Import Pmap Vm.

Definition ENVGENSHIFT : Z := 12.

(** The result and what is stored in [*env_store]. *)
Definition envid2env (envid : Z) (checkperm : bool) : K (Z * option Z) :=
  let! cur := gets curenv in
  if envid =? 0 then ret (0, cur) else
  let! e := gets (fun s => envs s (ENVX envid)) in
  if (env_status e =? ENV_FREE) || negb (env_id e =? envid) then ret (- E_BAD_ENV, None) else
  if checkperm && negb (bool_decide (Some (ENVX envid) = cur)) then
    match cur with
    | None => undef "envid2env: curenv is NULL"
    | Some c =>
      let! ce := gets (fun s => envs s c) in
      if negb (env_parent_id e =? env_id ce) then ret (- E_BAD_ENV, None)
      else ret (0, Some (ENVX envid))
    end
  else ret (0, Some (ENVX envid)).

Definition env_init_step (i : Z) : K unit :=
  modify (fun s => set_env_free_list (Some i)
    (upd_env i (fun e => set_env_link (env_free_list s) (set_env_id 0 (set_env_status ENV_FREE e))) s)).

(** [i] counts down from [NENV - 1]. *)
Definition env_init : K unit :=
  do! modify (set_env_free_list None) in
  for_loop (Z.to_nat NENV) 0 (fun k => env_init_step (NENV - 1 - k)).

Definition env_setup_vm (e : Z) : K Z :=
  let! p := page_alloc ALLOC_ZERO in
  match p with
  | None => ret (- E_NO_MEM)
  | Some p =>
    let! pgdir := page2kva p in
    do! modify (upd_env e (set_env_pgdir pgdir)) in
    let! kpd := gets kern_pgdir in
    do! kmemcpy pgdir kpd PGSIZE in
    do! modify (upd_page p (fun q => set_pp_ref (u16 (pp_ref q + 1)) q)) in
    let! pa := PADDR pgdir in
    do! kstore32 (pgdir + 4 * PDX UVPT) (Z.lor (Z.lor pa PTE_P) PTE_U) in
    ret 0
  end.

Definition zero_tf : Trapframe :=
  mkTrapframe (mkPushRegs 0 0 0 0 0 0 0 0) 0 0 0 0 0 0 0 0 0.

(** The trap frame of a new environment. *)
Definition initial_tf : Trapframe :=
  let t := zero_tf in
  mkTrapframe (tf_regs t) (Z.lor GD_UD 3) (Z.lor GD_UD 3) (tf_trapno t) (tf_err t) (tf_eip t)
    (Z.lor GD_UT 3) (Z.lor (tf_eflags t) FL_IF) USTACKTOP (Z.lor GD_UD 3).

(** The identifier the next environment in slot [e] gets. *)
Definition next_env_id (old e : Z) : Z :=
  let generation := Z.land (i32 (old + Z.shiftl 1 ENVGENSHIFT)) (Z.lnot (NENV - 1)) in
  let generation := if generation <=? 0 then Z.shiftl 1 ENVGENSHIFT else generation in
  Z.lor generation e.

(** The result and [*newenv_store]. *)
Definition env_alloc (parent_id : Z) : K (Z * option Z) :=
  let! fl := gets env_free_list in
  match fl with
  | None => ret (- E_NO_FREE_ENV, None)
  | Some e =>
    let! r := env_setup_vm e in
    if r <? 0 then ret (r, None) else
    do! modify (upd_env e (fun x =>
          set_env_ipc_recving false (set_env_pgfault_upcall 0 (set_env_tf initial_tf
            (set_env_runs 0 (set_env_status ENV_RUNNABLE (set_env_type ENV_TYPE_USER
              (set_env_parent_id parent_id (set_env_id (next_env_id (env_id x) e) x))))))))) in
    do! modify (fun s => set_env_free_list (env_link (envs s e)) s) in
    do! modify (upd_env e (set_env_e1000_waiting_rx false)) in
    ret (0, Some e)
  end.

(** One page of [region_alloc]; [i] counts pages from [min]. *)
Definition region_alloc_step (e min i : Z) : K unit :=
  let! pp := page_alloc 0 in
  match pp with
  | None => panic "region_alloc:page alloc failed"
  | Some pp =>
    let! pgdir := gets (fun s => env_pgdir (envs s e)) in
    let! r := page_insert pgdir pp (min + i * PGSIZE) (Z.lor PTE_W PTE_U) in
    if negb (r =? 0) then panic "region_alloc: page insert failed" else ret tt
  end.

Definition region_alloc (e va len : Z) : K unit :=
  let max := ROUNDUP (u32 (va + len)) PGSIZE in
  let min := ROUNDDOWN va PGSIZE in
  if max >? UTOP then panic "region_alloc: alloc above UTOP" else
  for_loop (Z.to_nat ((max - min) / PGSIZE)) 0 (region_alloc_step e min).

Definition ELF_MAGIC : Z := 1179403647.

Definition ELF_PROG_LOAD : Z := 1.

(** Offsets in [struct Elf] and [struct Proghdr]. *)
Definition off_e_entry : Z := 24.

Definition off_e_phoff : Z := 28.

Definition off_e_phnum : Z := 44.

Definition off_p_offset : Z := 4.

Definition off_p_va : Z := 8.

Definition off_p_filesz : Z := 16.

Definition off_p_memsz : Z := 20.

Definition sizeof_Proghdr : Z := 32.

(** One program header. *)
Definition load_segment (e binary ph : Z) : K unit :=
  let! p_type := kload32 ph in
  if negb (p_type =? ELF_PROG_LOAD) then ret tt else
  let! p_filesz := kload32 (ph + off_p_filesz) in
  let! p_memsz := kload32 (ph + off_p_memsz) in
  let! p_va := kload32 (ph + off_p_va) in
  let! p_offset := kload32 (ph + off_p_offset) in
  if p_filesz >? p_memsz then panic "load_icode:file size is larger than mem size" else
  do! region_alloc e p_va p_memsz in
  do! vmemmove_in p_va (binary + p_offset) p_filesz in
  vmemset (p_va + p_filesz) 0 (p_memsz - p_filesz).

Definition load_icode (e binary : Z) : K unit :=
  let! magic := kload32 binary in
  if negb (magic =? ELF_MAGIC) then panic "load_icode: illegal elf header" else
  let! phoff := kload32 (binary + off_e_phoff) in
  let! phnum := gets (fun s => rd16 (phys s) (binary + off_e_phnum - KERNBASE)) in
  let! pgdir := gets (fun s => env_pgdir (envs s e)) in
  let! pa := PADDR pgdir in
  do! lcr3 pa in
  do! for_loop (Z.to_nat phnum) 0
        (fun i => load_segment e binary (binary + phoff + i * sizeof_Proghdr)) in
  let! entry := kload32 (binary + off_e_entry) in
  do! modify (upd_env e (upd_tf (set_tf_eip entry))) in
  region_alloc e (USTACKTOP - PGSIZE) PGSIZE.

Definition env_create (binary type : Z) : K unit :=
  let! r := env_alloc 0 in
  let '(r, e) := r in
  if r =? - E_NO_FREE_ENV then panic "env_create:failed no free env" else
  if r =? - E_NO_MEM then panic "env_create:failed no free mem" else
  match e with
  | None => undef "env_create: e is not set"
  | Some e =>
    do! modify (upd_env e (set_env_type type)) in
    do! (if type =? ENV_TYPE_FS then
           modify (upd_env e (upd_tf (fun t => set_tf_eflags (Z.lor (tf_eflags t) FL_IOPL_3) t)))
         else ret tt) in
    load_icode e binary
  end.

(** One entry of the inner loop of [env_free]. *)
Definition env_free_pte (e pt pdeno pteno : Z) : K unit :=
  let! pte := kload32 (pt + 4 * pteno) in
  if flag pte PTE_P then
    let! pgdir := gets (fun s => env_pgdir (envs s e)) in
    page_remove pgdir (PGADDR pdeno pteno 0)
  else ret tt.

(** One iteration of the outer loop. *)
Definition env_free_pde (e pdeno : Z) : K unit :=
  let! pgdir := gets (fun s => env_pgdir (envs s e)) in
  let! pde := kload32 (pgdir + 4 * pdeno) in
  if negb (flag pde PTE_P) then ret tt else
  let pa := PTE_ADDR pde in
  let! pt := KADDR pa in
  do! for_loop (Z.to_nat (PTX 4294967295 + 1)) 0 (env_free_pte e pt pdeno) in
  do! kstore32 (pgdir + 4 * pdeno) 0 in
  let! p := pa2page pa in
  page_decref p.

Definition env_free (e : Z) : K unit :=
  let! cur := gets curenv in
  do! (if bool_decide (Some e = cur) then
         let! kpd := gets kern_pgdir in
         let! pa := PADDR kpd in lcr3 pa
       else ret tt) in
  do! for_loop (Z.to_nat (PDX UTOP)) 0 (env_free_pde e) in
  let! pgdir := gets (fun s => env_pgdir (envs s e)) in
  let! pa := PADDR pgdir in
  do! modify (upd_env e (set_env_pgdir 0)) in
  let! p := pa2page pa in
  do! page_decref p in
  do! modify (upd_env e (set_env_status ENV_FREE)) in
  modify (fun s => set_env_free_list (Some e) (upd_env e (set_env_link (env_free_list s)) s)).

(** The big kernel lock, from the side of the CPU that runs: Spinlock.v has
    the lock itself. *)
Definition lock_kernel : K unit :=
  let! held := gets kernel_locked in
  if held : bool then panic "cannot acquire kernel_lock: already holding"
  else modify (set_kernel_locked true).

Definition unlock_kernel : K unit :=
  let! held := gets kernel_locked in
  if held : bool then modify (set_kernel_locked false) else panic "spin_unlock".

Definition env_pop_tf : K unit := fun s =>
  match curenv s with
  | None => Undef "env_pop_tf: curenv is NULL" s
  | Some c => ToUser (upd_env c (set_env_cpunum (cpunum s)) s)
  end.

Definition env_run (e : Z) : K unit :=
  let! cur := gets curenv in
  do! (match cur with
       | Some c =>
         modify (fun s => if env_status (envs s c) =? ENV_RUNNING
                          then upd_env c (set_env_status ENV_RUNNABLE) s else s)
       | None => ret tt
       end) in
  do! modify (set_curenv (Some e)) in
  do! modify (upd_env e (set_env_status ENV_RUNNING)) in
  do! modify (upd_env e (fun x => set_env_runs (u32 (env_runs x + 1)) x)) in
  let! pgdir := gets (fun s => env_pgdir (envs s e)) in
  let! pa := PADDR pgdir in
  do! lcr3 pa in
  do! unlock_kernel in
  env_pop_tf.

End Env.
