(* ===== verification/EnvFree.v ===== *)
(** * Tearing an address space down

    [env_free] of kern/env.c removes every user mapping, frees the page tables
    and then the directory.  [shrink] says what any part of that work may do to
    the address spaces; it composes, so that the loops are inductions over it. *)

From stdpp Require Import base numbers list functions strings sets.
From Stdlib Require Import ZArith Lia.
From S2P Require Import Prelude Mem Mmu Kernel Pmap PageAlloc PageTable AddrSpace Env.

Open Scope Z_scope.
Open Scope jos_scope.

Module EnvFree.

Import Pmap PageAlloc PageTable AddrSpace Env.

(** The step from [s] to [s'] only takes things away from directory [dp]. *)
Record shrink (D : list Z) (dp : Z) (s : kstate) (l : list Z) (s' : kstate) (l' : list Z) : Prop := {
  sh_ok : space_ok s' l' D;
  sh_frame : mem_only s s';
  sh_other : forall d v, d ∈ D -> d <> dp -> 0 <= v < user_vpns -> pte_of s' d v = pte_of s d v;
  sh_map : forall v, 0 <= v < user_vpns -> mapped s' dp v = None \/ mapped s' dp v = mapped s dp v;
  sh_tab : forall i, 0 <= i < user_pdes -> table_of s' dp i = None \/ table_of s' dp i = table_of s dp i;
  sh_le : forall q, 0 <= pp_ref (pages s' q) <= pp_ref (pages s q);
  sh_bal : forall q, (forall i, 0 <= i < user_pdes -> table_of s dp i <> Some q) ->
    pp_ref (pages s' q) - refs s' [dp] q = pp_ref (pages s q) - refs s [dp] q;
  sh_drop : forall i tp, 0 <= i < user_pdes -> table_of s dp i = Some tp -> table_of s' dp i = None ->
    pp_ref (pages s' tp) = 0;
  sh_free : forall q, q ∈ l' <-> q ∈ l \/ (pp_ref (pages s q) <> 0 /\ pp_ref (pages s' q) = 0)
}.

Lemma ref_nonneg s l D q : space_ok s l D -> 0 <= pp_ref (pages s q).
Proof.
  intros H. pose proof (so_refs _ _ _ H q).
  pose proof (cnt_nonneg (fun x => mapped s x.1 x.2) (slots D) q). unfold refs in *. lia.
Qed.

Lemma shrink_refl D dp s l : space_ok s l D -> shrink D dp s l s l.
Proof.
  intros H. split; auto with memonly; try done; [|congruence|tauto].
  intros q. pose proof (ref_nonneg s l D q H). lia.
Qed.

Lemma shrink_trans D dp s l s1 l1 s2 l2 :
  shrink D dp s l s1 l1 -> shrink D dp s1 l1 s2 l2 -> shrink D dp s l s2 l2.
Proof.
  intros H1 H2. split.
  - apply (sh_ok _ _ _ _ _ _ H2).
  - eapply mem_only_trans; [apply (sh_frame _ _ _ _ _ _ H1)|apply (sh_frame _ _ _ _ _ _ H2)].
  - intros. rewrite (sh_other _ _ _ _ _ _ H2) by done. by apply (sh_other _ _ _ _ _ _ H1).
  - intros v Hv. destruct (sh_map _ _ _ _ _ _ H2 v Hv) as [|E]; [by left|]. rewrite E.
    by apply (sh_map _ _ _ _ _ _ H1).
  - intros i Hi. destruct (sh_tab _ _ _ _ _ _ H2 i Hi) as [|E]; [by left|]. rewrite E.
    by apply (sh_tab _ _ _ _ _ _ H1).
  - intros q. pose proof (sh_le _ _ _ _ _ _ H1 q). pose proof (sh_le _ _ _ _ _ _ H2 q). lia.
  - intros q Hq. rewrite (sh_bal _ _ _ _ _ _ H2); [by apply (sh_bal _ _ _ _ _ _ H1)|].
    intros i Hi. destruct (sh_tab _ _ _ _ _ _ H1 i Hi) as [->| ->]; [done|auto].
  - intros i tp Hi E E2. destruct (sh_tab _ _ _ _ _ _ H1 i Hi) as [E1|E1].
    + pose proof (sh_drop _ _ _ _ _ _ H1 i tp Hi E E1). pose proof (sh_le _ _ _ _ _ _ H2 tp). lia.
    + rewrite E in E1. by apply (sh_drop _ _ _ _ _ _ H2 i tp).
  - intros q. rewrite (sh_free _ _ _ _ _ _ H2), (sh_free _ _ _ _ _ _ H1).
    pose proof (sh_le _ _ _ _ _ _ H1 q). pose proof (sh_le _ _ _ _ _ _ H2 q).
    destruct (decide (pp_ref (pages s1 q) = 0)); split; intros; intuition lia.
Qed.

(** Counting in one directory. *)
Lemma refs_one_update s s' dp v q :
  0 <= v < user_vpns ->
  (forall v', 0 <= v' < user_vpns -> v' <> v -> mapped s' dp v' = mapped s dp v') ->
  refs s' [dp] q = refs s [dp] q - (if decide (mapped s dp v = Some q) then 1 else 0)
                                + (if decide (mapped s' dp v = Some q) then 1 else 0).
Proof.
  intros Hv H. unfold refs. rewrite (cnt_update (fun y => mapped s y.1 y.2) _ _ _ (dp, v)); [done| | |].
  - apply NoDup_slots. repeat constructor. set_solver.
  - apply elem_of_slots. set_solver.
  - intros [d v'] [Hd Hv']%elem_of_slots Hne. assert (d = dp) as -> by set_solver. cbn.
    apply H; [done|congruence].
Qed.

Section free.

Context (D : list Z) (dp e : Z) (Hdp : dp ∈ D).

(** *** One page *)

Lemma removed_shrink s l va :
  space_ok s l D -> 0 <= va < UTOP ->
  shrink D dp s l (removed s dp va) (removed_list s l dp va)
  /\ mapped (removed s dp va) dp (va / 4096) = None
  /\ (forall i, 0 <= i < user_pdes -> table_of (removed s dp va) dp i = table_of s dp i).
Proof.
  intros Hok Hva. destruct (user_va va Hva) as [_ Hv].
  assert (mapped (removed s dp va) dp (va / 4096) = None) as Hnone.
  { unfold mapped. rewrite (removed_pte s l D) by done. destruct (decide _) as [|Hn]; [done|].
    destruct (mapped s dp (va / 4096)) eqn:Hm; [exfalso; eauto|]. unfold mapped in Hm.
    by destruct (flag _ _). }
  assert (forall v, 0 <= v < user_vpns -> v <> va / 4096 ->
            mapped (removed s dp va) dp v = mapped s dp v) as Hne.
  { intros v Hv0 Hnv. apply mapped_pte. rewrite (removed_pte s l D) by done.
    rewrite decide_False; [done|]. intros [[= ?] _]. done. }
  split; [|split; [done|]]; [|intros; by apply (removed_table s l D)].
  pose proof (fun q => removed_pages s l D Hok dp va Hdp Hva q) as Href.
  split.
  - by apply removed_ok.
  - apply mem_only_removed.
  - intros d v Hd Hdd Hv0. rewrite (removed_pte s l D) by done.
    rewrite decide_False; [done|]. intros [[= ? _] _]. done.
  - intros v Hv0. destruct (decide (v = va / 4096)) as [->|]; [by left|right; auto].
  - intros i Hi. right. by apply (removed_table s l D).
  - intros q. rewrite Href. pose proof (ref_nonneg s l D q Hok).
    destruct (decide _) as [Hm|]; [|lia]. pose proof (so_mapped_ref s l D Hok dp _ q Hdp Hv Hm). lia.
  - intros q _. rewrite Href, (refs_one_update s _ dp (va / 4096)) by done.
    rewrite Hnone, (decide_False (P := None = Some q)) by done. lia.
  - intros i tp Hi E. rewrite (removed_table s l D) by done. congruence.
  - intros q. rewrite Href. unfold removed_list, decref_list.
    destruct (mapped s dp (va / 4096)) as [p|] eqn:Hm.
    2: { rewrite decide_False by done. split; [by left|]. intros [?|[? ?]]; [done|lia]. }
    pose proof (so_mapped_ref s l D Hok dp _ p Hdp Hv Hm) as Hp.
    pose proof (so_refs _ _ _ Hok p). rewrite u16_id by lia.
    destruct (decide (Some p = Some q)) as [[= <-]|Hpq].
    + destruct (Z.eqb_spec (pp_ref (pages s p) - 1) 0).
      * split; [right; lia|set_solver].
      * split; [by left|]. intros [?|[? ?]]; [done|lia].
    + destruct (Z.eqb_spec (pp_ref (pages s p) - 1) 0); rewrite ?elem_of_cons; split; intros.
      * destruct H0 as [->|]; [done|by left].
      * destruct H0 as [?|[? ?]]; [by right|lia].
      * by left.
      * destruct H0 as [?|[? ?]]; [done|lia].
Qed.

(** *** The entries of one table *)

Lemma pgdir_frame s s' : mem_only s s' -> env_pgdir (envs s' e) = env_pgdir (envs s e).
Proof. intros ->. done. Qed.

Lemma slot_va i j :
  0 <= i < user_pdes -> 0 <= j < 1024 ->
  0 <= PGADDR i j 0 < UTOP /\ PGADDR i j 0 / 4096 = i * 1024 + j.
Proof.
  rewrite user_pdes_eq. change UTOP with 4005560320. intros.
  rewrite PGADDR_eq by lia. split; zdm.
Qed.

Lemma env_free_pte_spec s l tp i j :
  space_ok s l D -> env_pgdir (envs s e) = kva dp -> 0 <= i < user_pdes -> 0 <= j < 1024 ->
  table_of s dp i = Some tp ->
  exists s' l', env_free_pte e (kva tp) i j s = Ret tt s' /\ shrink D dp s l s' l'
    /\ mapped s' dp (i * 1024 + j) = None
    /\ (forall k, 0 <= k < user_pdes -> table_of s' dp k = table_of s dp k).
Proof.
  intros Hok Hpg Hi Hj Ht. destruct (slot_va i j Hi Hj) as [Hva Hvpn].
  unfold env_free_pte. rewrite (bind_ret _ _ _ _ _ (kload_word s tp j)).
  assert (word s tp j = pte_of s dp (i * 1024 + j)) as ->.
  { unfold pte_of. replace ((i * 1024 + j) / 1024) with i by zdm. rewrite Ht. f_equal. zdm. }
  destruct (flag _ _) eqn:Hf.
  - rewrite (bind_ret _ _ s (kva dp) s) by (unfold gets; by rewrite Hpg).
    destruct (removed_shrink s l (PGADDR i j 0) Hok Hva) as (H1 & H2 & H3). rewrite Hvpn in H2.
    eexists _, _. split; [by eapply page_remove_eq|]. split; [exact H1|]. split; [exact H2|exact H3].
  - exists s, l. split; [done|]. split; [by apply shrink_refl|]. split; [|done].
    unfold mapped. by rewrite Hf.
Qed.

Lemma sh_none s l s' l' v :
  shrink D dp s l s' l' -> 0 <= v < user_vpns -> mapped s dp v = None -> mapped s' dp v = None.
Proof. intros H Hv E. destruct (sh_map _ _ _ _ _ _ H v Hv) as [->| ->]; done. Qed.

Lemma user_vpn_slot i j : 0 <= i < user_pdes -> 0 <= j < 1024 -> 0 <= i * 1024 + j < user_vpns.
Proof. rewrite user_pdes_eq, user_vpns_eq. lia. Qed.

Lemma env_free_table_loop tp i n : forall s l j,
  space_ok s l D -> env_pgdir (envs s e) = kva dp -> 0 <= i < user_pdes ->
  0 <= j -> j + Z.of_nat n <= 1024 -> table_of s dp i = Some tp ->
  exists s' l', for_loop n j (env_free_pte e (kva tp) i) s = Ret tt s' /\ shrink D dp s l s' l'
    /\ (forall k, j <= k < j + Z.of_nat n -> mapped s' dp (i * 1024 + k) = None)
    /\ (forall k, 0 <= k < user_pdes -> table_of s' dp k = table_of s dp k).
Proof.
  induction n as [|n IH]; intros s l j Hok Hpg Hi Hj Hn Ht.
  - exists s, l. split; [done|]. split; [by apply shrink_refl|]. split; [lia|done].
  - destruct (env_free_pte_spec s l tp i j) as (s1 & l1 & E1 & H1 & N1 & T1); [done..|lia|done|].
    destruct (IH s1 l1 (j + 1)) as (s2 & l2 & E2 & H2 & N2 & T2); try lia.
    + apply (sh_ok _ _ _ _ _ _ H1).
    + rewrite (pgdir_frame _ _ (sh_frame _ _ _ _ _ _ H1)). done.
    + by rewrite T1.
    + exists s2, l2. split; [cbn; by rewrite (bind_ret _ _ _ _ _ E1)|].
      split; [by eapply shrink_trans|]. split.
      * intros k Hk. destruct (decide (k = j)) as [->|]; [|apply N2; lia].
        eapply sh_none; [exact H2|apply user_vpn_slot; lia|done].
      * intros k Hk. by rewrite T2, T1.
Qed.

(** *** One page table *)

(** The directory entry is cleared and the table freed. *)
Definition table_dropped (i tp : Z) (s : kstate) : kstate :=
  decref tp (set_phys (wr32 (phys s) (dp * 4096 + 4 * i) 0) s).

Section drop_table.

Context (s : kstate) (l : list Z) (i tp : Z) (Hok : space_ok s l D) (Hi : 0 <= i < user_pdes).
Context (Ht : table_of s dp i = Some tp).
Context (Hempty : forall j, 0 <= j < 1024 -> mapped s dp (i * 1024 + j) = None).

Abbreviation s' := (table_dropped i tp s).

Lemma dropped_phys : phys s' = wr32 (phys s) (dp * 4096 + 4 * i) 0.
Proof. apply decref_phys. Qed.

Lemma dropped_word q j : 0 <= j < 1024 -> (q, j) <> (dp, i) -> word s' q j = word s q j.
Proof.
  intros Hj Hne. rewrite user_pdes_eq in Hi. unfold word. rewrite dropped_phys.
  apply (word_set_ne s dp i 0 q j); [lia|done..].
Qed.

Lemma dropped_table_eq : table_of s' dp i = None.
Proof. unfold table_of, word. rewrite dropped_phys, rd32_wr32_eq. done. Qed.

Lemma dropped_table_ne d k :
  d ∈ D -> 0 <= k < user_pdes -> (d, k) <> (dp, i) -> table_of s' d k = table_of s d k.
Proof.
  intros Hd Hk Hne. rewrite user_pdes_eq in Hk. unfold table_of. by rewrite dropped_word by (done || lia).
Qed.

Lemma dropped_pte d v :
  d ∈ D -> 0 <= v < user_vpns -> (d, v / 1024) <> (dp, i) -> pte_of s' d v = pte_of s d v.
Proof.
  intros Hd Hv Hne. pose proof (vpn_pde v Hv) as Hk. unfold pte_of. rewrite dropped_table_ne by done.
  destruct (table_of s d (v / 1024)) as [t|] eqn:Et; [|done].
  apply dropped_word; [apply vpn_split|]. intros [= -> _].
  by destruct (so_tab _ _ _ Hok d _ dp Hd Hk Et) as (_ & _ & ?).
Qed.

Lemma dropped_mapped d v : d ∈ D -> 0 <= v < user_vpns -> mapped s' d v = mapped s d v.
Proof.
  intros Hd Hv. destruct (decide ((d, v / 1024) = (dp, i))) as [[= -> Ei]|Hne].
  - unfold mapped at 1, pte_of. rewrite Ei, dropped_table_eq. cbn.
    rewrite <- (Hempty (v mod 1024)) by apply vpn_split. f_equal. zdm.
  - by apply mapped_pte, dropped_pte.
Qed.

Lemma dropped_refs q : refs s' D q = refs s D q.
Proof. apply cnt_ext. intros [d v] [? ?]%elem_of_slots. cbn. by apply dropped_mapped. Qed.

Lemma dropped_ref q : pp_ref (pages s' q) = if decide (q = tp) then 0 else pp_ref (pages s q).
Proof.
  destruct (so_tab _ _ _ Hok dp i tp Hdp Hi Ht) as (_ & H1 & _). unfold table_dropped.
  destruct (decide (q = tp)) as [->|].
  - rewrite decref_ref. cbn. by rewrite H1.
  - by rewrite decref_other.
Qed.

Lemma dropped_old_table d k t :
  d ∈ D -> 0 <= k < user_pdes -> table_of s' d k = Some t -> t <> tp /\ table_of s d k = Some t.
Proof.
  intros Hd Hk E. destruct (decide ((d, k) = (dp, i))) as [[= -> ->]|Hne].
  - by rewrite dropped_table_eq in E.
  - rewrite dropped_table_ne in E by done. split; [|done]. intros ->.
    destruct (so_inj _ _ _ Hok d k dp i tp) as [-> ->]; done.
Qed.

Lemma dropped_ok : space_ok s' (tp :: l) D.
Proof.
  destruct (so_tab _ _ _ Hok dp i tp Hdp Hi Ht) as (Htp & H1 & HtD).
  assert (tp ∉ l) as Htl by (by eapply so_tab_used).
  assert (npages s' = npages s) as En by (unfold table_dropped; by rewrite decref_npages).
  split; rewrite ?En.
  - pose proof (alloc_inv_decref (set_phys (wr32 (phys s) (dp * 4096 + 4 * i) 0) s) l tp) as Hd.
    unfold decref_list in Hd. cbn in Hd. rewrite H1 in Hd. apply Hd; [|done|done].
    eapply alloc_inv_frame; [| | |apply (so_alloc _ _ _ Hok)]; done.
  - apply (so_nodup _ _ _ Hok).
  - intros d Hd. rewrite dropped_ref, decide_False by (intros ->; done). by apply (so_dir _ _ _ Hok).
  - intros d k t Hd Hk E. destruct (dropped_old_table d k t Hd Hk E) as [Hne E'].
    rewrite dropped_ref, decide_False by done. by apply (so_tab _ _ _ Hok d k t).
  - intros d k d' k' t Hd Hd' Hk Hk' E E'.
    apply (so_inj _ _ _ Hok d k d' k' t); try done; by apply dropped_old_table.
  - intros d v p Hd Hv. rewrite dropped_mapped by done. intros Hm.
    destruct (so_page _ _ _ Hok d v p Hd Hv Hm) as (? & ? & Hp). split; [done|]. split; [done|].
    intros d' k ? ? E. destruct (dropped_old_table d' k p) as [_ E']; [done..|]. by eapply Hp.
  - intros p. rewrite dropped_refs, dropped_ref. pose proof (so_refs _ _ _ Hok p) as Hp.
    destruct (decide (p = tp)) as [->|]; [|done]. split; [|lia].
    unfold refs. rewrite cnt_zero; [done|]. intros [d v] [Hd Hv]%elem_of_slots Hm. cbn in Hm.
    destruct (so_page _ _ _ Hok d v tp Hd Hv Hm) as (_ & _ & Hn). by eapply (Hn dp i).
Qed.

Lemma dropped_shrink : shrink D dp s l s' (tp :: l).
Proof.
  destruct (so_tab _ _ _ Hok dp i tp Hdp Hi Ht) as (_ & H1 & _).
  split.
  - apply dropped_ok.
  - unfold table_dropped. eapply mem_only_trans; [|apply mem_only_decref]. apply mem_only_set_phys.
  - intros d v Hd Hne Hv. apply dropped_pte; [done..|congruence].
  - intros v Hv. right. by apply dropped_mapped.
  - intros k Hk. destruct (decide (k = i)) as [->|]; [left; apply dropped_table_eq|].
    right. apply dropped_table_ne; [done..|congruence].
  - intros q. rewrite dropped_ref. pose proof (ref_nonneg s l D q Hok).
    destruct (decide (q = tp)); lia.
  - intros q Hq. rewrite dropped_ref, decide_False by (intros ->; by eapply Hq).
    f_equal. apply cnt_ext. intros [d v] [Hd Hv]%elem_of_slots.
    assert (d = dp) as -> by set_solver. cbn. by apply dropped_mapped.
  - intros k t Hk E E'. destruct (decide (k = i)) as [->|Hne].
    + rewrite Ht in E. injection E as <-. by rewrite dropped_ref, decide_True.
    + rewrite dropped_table_ne in E' by (done || congruence). congruence.
  - intros q. rewrite dropped_ref, elem_of_cons. destruct (decide (q = tp)) as [->|].
    + split; [right; lia|by left].
    + split; [intros [?|?]; [done|by left]|]. intros [?|[? ?]]; [by right|lia].
Qed.

End drop_table.

Lemma env_free_pde_spec s l i :
  space_ok s l D -> env_pgdir (envs s e) = kva dp -> 0 <= i < user_pdes ->
  exists s' l', env_free_pde e i s = Ret tt s' /\ shrink D dp s l s' l' /\ table_of s' dp i = None.
Proof.
  intros Hok Hpg Hi. unfold env_free_pde.
  rewrite (bind_ret _ _ s (kva dp) s) by (unfold gets; by rewrite Hpg).
  rewrite (bind_ret _ _ _ _ _ (kload_word s dp i)).
  destruct (table_of s dp i) as [tp|] eqn:Ht.
  2: { rewrite (flag_no_table _ _ _ Ht). exists s, l. split; [done|]. split; [by apply shrink_refl|done]. }
  destruct (so_tab _ _ _ Hok dp i tp Hdp Hi Ht) as (Htp & H1 & _). pose proof (so_npages _ _ _ Hok).
  rewrite (flag_table _ _ _ _ Ht), (table_of_addr _ _ _ _ Ht). cbn [negb].
  rewrite (bind_ret _ _ _ _ _ (KADDR_page s tp Htp ltac:(lia))). fold (kva tp).
  change (Z.to_nat (PTX 4294967295 + 1)) with 1024%nat.
  destruct (env_free_table_loop tp i 1024 s l 0) as (s1 & l1 & E1 & S1 & N1 & T1); [done..|].
  rewrite (bind_ret _ _ _ _ _ E1), (bind_ret _ _ _ _ _ (kstore_word s1 dp i 0)).
  pose proof (sh_ok _ _ _ _ _ _ S1) as Hok1.
  assert (npages s1 = npages s) as En by (apply mem_only_npages, (sh_frame _ _ _ _ _ _ S1)).
  rewrite (bind_ret _ _ _ _ _ (pa2page_eq (set_phys _ s1) tp ltac:(cbn; lia) ltac:(cbn; lia))).
  assert (table_of s1 dp i = Some tp) as Ht1 by (by rewrite T1).
  exists (table_dropped i tp s1), (tp :: l1). split; [|split].
  - eapply (page_decref_eq _ l1).
    + eapply alloc_inv_frame; [| | |apply (so_alloc _ _ _ Hok1)]; done.
    + by eapply so_tab_used.
  - eapply shrink_trans; [exact S1|]. apply dropped_shrink; [done..|]. intros j Hj. apply N1. lia.
  - apply dropped_table_eq.
Qed.

Lemma env_free_loop n : forall s l i,
  space_ok s l D -> env_pgdir (envs s e) = kva dp -> 0 <= i -> i + Z.of_nat n <= user_pdes ->
  exists s' l', for_loop n i (env_free_pde e) s = Ret tt s' /\ shrink D dp s l s' l'
    /\ forall k, i <= k < i + Z.of_nat n -> table_of s' dp k = None.
Proof.
  induction n as [|n IH]; intros s l i Hok Hpg Hi Hn.
  - exists s, l. split; [done|]. split; [by apply shrink_refl|lia].
  - destruct (env_free_pde_spec s l i) as (s1 & l1 & E1 & S1 & T1); [done..|lia|].
    destruct (IH s1 l1 (i + 1)) as (s2 & l2 & E2 & S2 & T2); try lia.
    + apply (sh_ok _ _ _ _ _ _ S1).
    + rewrite (pgdir_frame _ _ (sh_frame _ _ _ _ _ _ S1)). done.
    + exists s2, l2. split; [cbn; by rewrite (bind_ret _ _ _ _ _ E1)|].
      split; [by eapply shrink_trans|]. intros k Hk. destruct (decide (k = i)) as [->|]; [|apply T2; lia].
      destruct (sh_tab _ _ _ _ _ _ S2 i) as [->| ->]; [lia|done|done].
Qed.

End free.

(** *** The directory itself *)

Lemma refs_app s D1 D2 q : refs s (D1 ++ D2) q = refs s D1 q + refs s D2 q.
Proof.
  unfold refs. rewrite <- cnt_app. f_equal. Transparent slots. unfold slots.
  induction D1 as [|d D1 IH]; cbn; [done|]. by rewrite IH, app_assoc.
Qed.

#[global] Opaque slots.

Lemma remove_split (D : list Z) dp :
  NoDup D -> dp ∈ D -> exists D1 D2, D = D1 ++ dp :: D2 /\ NoDup (D1 ++ D2) /\ (dp ∉ D1 ++ D2)
    /\ forall d, d ∈ D1 ++ D2 -> d ∈ D1 ++ dp :: D2 /\ d <> dp.
Proof.
  intros Hnd (D1 & D2 & ->)%list_elem_of_split. exists D1, D2. split; [done|].
  apply NoDup_app in Hnd as (H1 & H2 & [H3 H4]%NoDup_cons). split.
  - apply NoDup_app. split; [done|]. split; [|done]. intros x Hx Hx2. apply (H2 x Hx). set_solver.
  - assert (dp ∉ D1 ++ D2) as Hn.
    { rewrite elem_of_app. intros [?|?]; [|done]. apply (H2 dp); set_solver. }
    split; [done|]. intros d Hd. split; [set_solver|]. by intros ->.
Qed.

(** A directory without tables can be freed. *)
Lemma dir_dropped_ok s l D1 dp D2 :
  space_ok s l (D1 ++ dp :: D2) -> NoDup (D1 ++ D2) -> dp ∉ D1 ++ D2 ->
  (forall i, 0 <= i < user_pdes -> table_of s dp i = None) ->
  space_ok (decref dp s) (dp :: l) (D1 ++ D2).
Proof.
  intros Hok Hnd Hdp Hnone.
  assert (forall d, d ∈ D1 ++ D2 -> d ∈ D1 ++ dp :: D2) as Hsub by (intros d; set_solver).
  assert (dp ∈ D1 ++ dp :: D2) as Hin by set_solver.
  destruct (so_dir _ _ _ Hok dp Hin) as [Hr H1].
  assert (forall q, pp_ref (pages (decref dp s) q) = if decide (q = dp) then 0 else pp_ref (pages s q)) as Href.
  { intros q. destruct (decide (q = dp)) as [->|]; [rewrite decref_ref; by rewrite H1|by rewrite decref_other]. }
  assert (same_view (D1 ++ dp :: D2) s (decref dp s)) as Hview by (apply same_view_phys, decref_phys).
  assert (forall q, refs (decref dp s) (D1 ++ D2) q <= refs s (D1 ++ dp :: D2) q) as Hrefs.
  { intros q. rewrite <- (refs_view _ _ _ q Hview).
    change (dp :: D2) with ([dp] ++ D2). rewrite !refs_app.
    pose proof (cnt_nonneg (fun x => mapped (decref dp s) x.1 x.2) (slots [dp]) q). unfold refs in *. lia. }
  split; rewrite ?decref_npages.
  - pose proof (alloc_inv_decref s l dp (so_alloc _ _ _ Hok)) as Hd. unfold decref_list in Hd.
    rewrite H1 in Hd. apply Hd; [|done]. by eapply so_dir_used.
  - done.
  - intros d Hd. rewrite Href, decide_False by (intros ->; done). apply (so_dir _ _ _ Hok d). auto.
  - intros d i tp Hd Hi. rewrite (sv_tab _ _ _ Hview) by auto. intros E.
    destruct (so_tab _ _ _ Hok d i tp (Hsub d Hd) Hi E) as (? & ? & Hn).
    rewrite Href, decide_False by (intros ->; done). split_and!; [lia..|done|]. set_solver.
  - intros d i d' i' tp Hd Hd' Hi Hi'. rewrite !(sv_tab _ _ _ Hview) by auto.
    apply (so_inj _ _ _ Hok); auto.
  - intros d v p Hd Hv. rewrite (mapped_pte s) by (apply (sv_pte _ _ _ Hview); auto). intros Hm.
    destruct (so_page _ _ _ Hok d v p (Hsub d Hd) Hv Hm) as (? & ? & Hp).
    split; [done|]. split; [set_solver|]. intros d' i Hd' Hi. rewrite (sv_tab _ _ _ Hview) by auto. auto.
  - intros q. rewrite Href. pose proof (so_refs _ _ _ Hok q) as Hq. pose proof (Hrefs q).
    destruct (decide (q = dp)) as [->|]; [|lia]. split; [|lia].
    unfold refs. rewrite cnt_zero; [done|]. intros [d v] [Hd Hv]%elem_of_slots Hm. cbn in Hm.
    rewrite (mapped_pte s) in Hm by (apply (sv_pte _ _ _ Hview); auto).
    by destruct (so_page _ _ _ Hok d v dp (Hsub d Hd) Hv Hm) as (_ & ? & _).
Qed.

Lemma PADDR_kva p s : 0 <= p < 65536 -> PADDR (kva p) s = Ret (p * 4096) s.
Proof.
  intros Hp. unfold PADDR, kva, KERNBASE. rewrite u32_id by lia.
  destruct (Z.ltb_spec (p * 4096 + 4026531840) 4026531840); [lia|]. unfold ret. f_equal.
  rewrite u32_id by lia. lia.
Qed.

(** The free environments, in the order of the list. *)
Definition env_list (s : kstate) (fl : list Z) : Prop :=
  linked (fun i => env_link (envs s i)) (env_free_list s) fl.

Lemma no_tables_refs s dp q :
  (forall i, 0 <= i < user_pdes -> table_of s dp i = None) -> refs s [dp] q = 0.
Proof.
  intros H. apply cnt_zero. intros [d v] [Hd Hv]%elem_of_slots. assert (d = dp) as -> by set_solver.
  cbn. unfold mapped, pte_of. by rewrite H by (by apply vpn_pde).
Qed.

(** The state after the last steps of [env_free]. *)
Definition env_released (e dp : Z) (s : kstate) : kstate :=
  let s1 := decref dp (upd_env e (set_env_pgdir 0) s) in
  let s2 := upd_env e (set_env_status ENV_FREE) s1 in
  set_env_free_list (Some e) (upd_env e (set_env_link (env_free_list s2)) s2).

Lemma decref_envs p s :
  envs (decref p s) = envs s /\ env_free_list (decref p s) = env_free_list s.
Proof. unfold decref. by destruct (_ =? 0). Qed.

Lemma env_free_eq (s s1 : kstate) (l l1 D : list Z) (dp e : Z) :
  KERNBASE <= kern_pgdir s < 4294967296 -> env_pgdir (envs s e) = kva dp ->
  let s0 := if bool_decide (Some e = curenv s) then set_cr3 (kern_pgdir s - KERNBASE) s else s in
  for_loop (Z.to_nat (PDX UTOP)) 0 (env_free_pde e) s0 = Ret tt s1 ->
  shrink D dp s0 l s1 l1 -> dp ∈ D ->
  env_free e s = Ret tt (env_released e dp s1).
Proof.
  intros Hk Hpg s0 E HS Hdp. unfold env_free. rewrite (bind_ret _ _ s (curenv s) s) by done.
  assert ((if bool_decide (Some e = curenv s)
           then bind (gets kern_pgdir) (fun kpd => bind (PADDR kpd) Vm.lcr3) else ret tt) s = Ret tt s0) as E0.
  { subst s0. destruct (bool_decide _); [|done]. unfold bind, gets, PADDR.
    rewrite (u32_id (kern_pgdir s)) by (unfold KERNBASE in *; lia).
    destruct (Z.ltb_spec (kern_pgdir s) KERNBASE); [lia|].
    unfold ret, Vm.lcr3, modify. rewrite u32_id by (unfold KERNBASE in *; lia). done. }
  rewrite (bind_ret _ _ _ _ _ E0), (bind_ret _ _ _ _ _ E).
  assert (env_pgdir (envs s1 e) = kva dp) as Hpg1.
  { rewrite (pgdir_frame e _ _ (sh_frame _ _ _ _ _ _ HS)). subst s0. by destruct (bool_decide _). }
  rewrite (bind_ret _ _ s1 (kva dp) s1) by (unfold gets; by rewrite Hpg1).
  pose proof (sh_ok _ _ _ _ _ _ HS) as Hok. destruct (so_dir _ _ _ Hok dp Hdp) as [Hr _].
  pose proof (so_npages _ _ _ Hok).
  rewrite (bind_ret _ _ _ _ _ (PADDR_kva dp s1 ltac:(lia))).
  unfold bind at 1, modify at 1. cbv beta iota.
  rewrite (bind_ret _ _ _ _ _ (pa2page_eq (upd_env e _ s1) dp ltac:(cbn; lia) ltac:(cbn; lia))).
  erewrite bind_ret; [|eapply (page_decref_eq _ l1); [|by eapply so_dir_used]].
  - unfold bind, modify. done.
  - eapply alloc_inv_frame; [| | |apply (so_alloc _ _ _ Hok)]; done.
Qed.

(** C18: [env_free] returns.  The directory is gone from the set of address
    spaces and every other address space keeps its entries; each data page
    loses as many references as the environment mapped it; the pages of the
    directory and of its page tables are free, and a page joins the free list
    exactly when its last reference goes; the environment is [ENV_FREE] at the
    head of the list of free environments. *)
Theorem env_free_releases (s : kstate) (l D fl : list Z) (dp e : Z) :
  space_ok s l D -> dp ∈ D -> env_pgdir (envs s e) = kva dp ->
  KERNBASE <= kern_pgdir s < 4294967296 -> env_list s fl -> e ∉ fl ->
  exists s' l' D', env_free e s = Ret tt s' /\ D ≡ₚ dp :: D' /\ space_ok s' l' D'
    /\ (forall d v, d ∈ D' -> 0 <= v < user_vpns -> pte_of s' d v = pte_of s d v)
    /\ (forall q, data_page s D q -> pp_ref (pages s' q) = pp_ref (pages s q) - refs s [dp] q)
    /\ (forall q, q ∈ l' <-> q ∈ l \/ (pp_ref (pages s q) <> 0 /\ pp_ref (pages s' q) = 0))
    /\ dp ∈ l' /\ (forall i tp, 0 <= i < user_pdes -> table_of s dp i = Some tp -> tp ∈ l')
    /\ env_list s' (e :: fl) /\ env_status (envs s' e) = ENV_FREE.
Proof.
  intros Hok Hdp Hpg Hk Hfl He.
  set (s0 := if bool_decide (Some e = curenv s) then set_cr3 (kern_pgdir s - KERNBASE) s else s).
  assert (phys s0 = phys s /\ pages s0 = pages s /\ page_free_list s0 = page_free_list s
          /\ npages s0 = npages s /\ envs s0 = envs s /\ env_free_list s0 = env_free_list s)
    as (E1 & E2 & E3 & E4 & E5 & E6) by (subst s0; by destruct (bool_decide _)).
  assert (space_ok s0 l D) as Hok0 by (by eapply space_ok_frame).
  destruct (env_free_loop D dp e Hdp (Z.to_nat (PDX UTOP)) s0 l 0) as (s1 & l1 & Eloop & HS & HT);
    [done|by rewrite E5|done|vm_compute; congruence|].
  assert (forall i, 0 <= i < user_pdes -> table_of s1 dp i = None) as Hnone
    by (intros i Hi; apply HT; exact Hi).
  destruct (remove_split D dp (so_nodup _ _ _ Hok) Hdp) as (D1 & D2 & -> & Hnd & Hn & Hsub).
  pose proof (sh_ok _ _ _ _ _ _ HS) as Hok1.
  pose proof (dir_dropped_ok s1 l1 D1 dp D2 Hok1 Hnd Hn Hnone) as Hok2.
  destruct (so_dir _ _ _ Hok1 dp Hdp) as [Hr1 Hd1].
  set (s' := env_released e dp s1).
  assert (phys s' = phys s1) as Em
    by (subst s'; unfold env_released; cbn; by rewrite decref_phys).
  assert (forall q, pp_ref (pages s' q) = if decide (q = dp) then 0 else pp_ref (pages s1 q)) as Href.
  { intros q. subst s'. unfold env_released. cbn. destruct (decide (q = dp)) as [->|].
    - rewrite decref_ref. cbn. by rewrite Hd1.
    - by rewrite decref_other. }
  assert (same_view (D1 ++ dp :: D2) s s0) as Hv0 by (by apply same_view_phys).
  assert (same_view (D1 ++ dp :: D2) s1 s') as Hv1 by (by apply same_view_phys).
  assert (forall q, q ∈ dp :: l1 <-> q ∈ l \/ (pp_ref (pages s q) <> 0 /\ pp_ref (pages s' q) = 0)) as Hfree.
  { intros q. rewrite elem_of_cons, (sh_free _ _ _ _ _ _ HS), Href, E2.
    pose proof (so_dir_used _ _ _ Hok dp Hdp). pose proof (proj2 (so_dir _ _ _ Hok dp Hdp)).
    destruct (decide (q = dp)) as [->|]; [|tauto]. split; [right; lia|by left]. }
  exists s', (dp :: l1), (D1 ++ D2).
  split; [by eapply env_free_eq|]. split; [apply Permutation_sym, Permutation_middle|].
  split; [|split; [|split; [|split; [|split; [|split; [|split]]]]]].
  - eapply space_ok_frame; [exact Hok2|..]; try done; cbn; unfold decref; by destruct (_ =? 0).
  - intros d v [Hd Hne]%Hsub Hv.
    by rewrite (sv_pte _ _ _ Hv1), (sh_other _ _ _ _ _ _ HS), (sv_pte _ _ _ Hv0).
  - intros q (Hq & HqD & HqT). rewrite Href, decide_False by (intros ->; done).
    pose proof (sh_bal _ _ _ _ _ _ HS q) as Hb. rewrite (no_tables_refs s1), E2 in Hb by done.
    rewrite (refs_view [dp] s s0) in Hb by (by apply same_view_phys).
    rewrite <- Hb; [lia|]. intros i Hi. rewrite (sv_tab _ _ _ Hv0) by done. auto.
  - exact Hfree.
  - apply list_elem_of_here.
  - intros i tp Hi Ht. apply Hfree. right.
    destruct (so_tab _ _ _ Hok dp i tp Hdp Hi Ht) as (_ & Htr & HtD). split; [lia|].
    rewrite Href, decide_False by (intros ->; done).
    apply (sh_drop _ _ _ _ _ _ HS i tp Hi); [|by apply Hnone]. by rewrite (sv_tab _ _ _ Hv0).
  - unfold env_list. cbn. split; [done|]. rewrite fn_lookup_insert. cbn.
    destruct (decref_envs dp (upd_env e (set_env_pgdir 0) s1)) as [-> ->]. cbn.
    destruct (mem_only_envs _ _ (sh_frame _ _ _ _ _ _ HS)) as [-> ->].
    rewrite E5, E6, !fn_lookup_insert. cbn.
    eapply linked_ext; [|exact Hfl]. intros q Hq. cbn. by rewrite !fn_lookup_insert_ne by (intros ->; done).
  - cbn. rewrite !fn_lookup_insert. done.
Qed.

(** An environment with one page mapped is freed. *)
Lemma env_free_releases_witness :
  exists s s' l', mapped s 2 2048 = Some 7 /\ env_free 1 s = Ret tt s' /\ 2 ∈ l'
    /\ space_ok s' l' [4].
Proof.
  destruct small_inserted as (s1 & l1 & _ & Hok & Hpte & _).
  set (s := set_kern_pgdir (kva 1) (set_env_free_list None (upd_env 1 (set_env_pgdir (kva 2)) s1))).
  assert (space_ok s l1 [2; 4]) as Hs by (eapply space_ok_frame; [exact Hok|reflexivity..]).
  destruct (env_free_releases s l1 [2; 4] [] 2 1 Hs small_dir) as (s' & l' & D' & E & Hp & Hok' & H);
    [reflexivity|vm_compute; split; congruence|reflexivity|apply not_elem_of_nil|].
  destruct H as (_ & _ & _ & Hin & _).
  exists s, s', l'. split; [|split; [exact E|split; [exact Hin|]]].
  - rewrite (mapped_pte s1) by reflexivity. unfold mapped. rewrite Hpte.
    + reflexivity.
    + exact small_dir.
    + rewrite user_vpns_eq. lia.
  - apply (Permutation_app_inv_l [2]) in Hp. cbn in Hp.
    apply Permutation_length_1_inv in Hp. rewrite <- Hp. exact Hok'.
Defined.

End EnvFree.
