(* ===== verification/MemInit.v ===== *)
(** * The kernel's address space (kern/pmap.c: mem_init, mem_init_mp)

    What [mem_init] sets up before the first environment runs: the arrays of
    page descriptors and environments, the free list, and the part of the page
    directory above [UTOP], which every environment shares.  The self-tests that
    [mem_init] calls in between ([check_page], ...) are left out: they put back
    what they change, up to the order of the free list.

    The theorem gives the entry of every virtual page after [mem_init], as a
    reference layout, and what the layout means for user programs. *)

From stdpp Require Import base numbers list functions strings sets.
From Stdlib Require Import ZArith Lia.
From S2P Require Import Prelude Mem Mmu Kernel Pmap PageAlloc PageTable AddrSpace EnvFree.

Open Scope Z_scope.
Open Scope jos_scope.

Module MemInit.

Import Pmap PageAlloc PageTable AddrSpace EnvFree.

Definition sizeof_PageInfo : Z := 8.

Definition sizeof_Env : Z := 128.

(** [percpu_kstacks i] is the kernel address of the stack of CPU [i]. *)
Definition mem_init_mp (percpu_kstacks : Z -> Z) : K unit :=
  let! pgdir := gets kern_pgdir in
  for_loop (Z.to_nat NCPU) 0 (fun i =>
    let! pa := PADDR (percpu_kstacks i) in
    boot_map_region pgdir (u32 (KSTACKTOP - i * (KSTKSIZE + KSTKGAP) - KSTKSIZE)) KSTKSIZE pa PTE_W).

(** The second half of [mem_init], where virtual memory is set up. *)
Definition mem_init_map (pages_va envs_va : Z) (percpu_kstacks : Z -> Z) : K unit :=
  let! pgdir := gets kern_pgdir in
  let! np := gets npages in
  let! pa := PADDR pages_va in
  do! boot_map_region pgdir UPAGES (ROUNDUP (u32 (np * sizeof_PageInfo)) PGSIZE) pa (Z.lor PTE_U PTE_P) in
  let! pa := PADDR envs_va in
  do! boot_map_region pgdir UENVS (ROUNDUP (NENV * sizeof_Env) PGSIZE) pa PTE_U in
  do! boot_map_region pgdir KERNBASE (u32 (4294967295 - KERNBASE)) 0 PTE_W in
  mem_init_mp percpu_kstacks.

(** The result of [boot_alloc] for the page directory: a page of zeros that maps
    itself at [UVPT]. *)
Definition make_kern_pgdir : K unit :=
  let! kpd := boot_alloc PGSIZE in
  do! modify (set_kern_pgdir kpd) in
  do! kmemset kpd 0 PGSIZE in
  let! pa := PADDR kpd in
  kstore32 (kpd + 4 * PDX UVPT) (Z.lor (Z.lor pa PTE_U) PTE_P).

Definition mem_init (cmos : Z -> Z) (percpu_kstacks : Z -> Z) : K unit :=
  do! i386_detect_memory cmos in
  do! make_kern_pgdir in
  let! np := gets npages in
  let! pages_va := boot_alloc (u32 (np * sizeof_PageInfo)) in
  do! modify (set_pages (fun _ => mkPageInfo None 0)) in
  let! envs_va := boot_alloc (NENV * sizeof_Env) in
  do! modify (set_envs (fun _ => bare_env)) in
  do! page_init in
  do! mem_init_map pages_va envs_va percpu_kstacks in
  let! kpd := gets kern_pgdir in
  let! pa := PADDR kpd in
  modify (set_cr3 pa).

(** ** Building a page directory *)

(** The directory entry that maps the directory itself. *)
Definition uvpt_idx : Z := 957.

(** Page [dp] holds the directory, [l] is the free list; the tables are pages of
    their own, except that the entry for [UVPT] is the directory. *)
Record kdir (s : kstate) (dp : Z) (l : list Z) : Prop := {
  kd_alloc : alloc_inv s l;
  kd_dp : (0 <= dp < npages s) /\ (dp ∉ l);
  kd_tab : forall i tp, 0 <= i < 1024 -> i <> uvpt_idx -> table_of s dp i = Some tp ->
    (0 <= tp < npages s) /\ (tp ∉ l) /\ tp <> dp;
  kd_inj : forall i j tp, 0 <= i < 1024 -> 0 <= j < 1024 -> i <> uvpt_idx -> j <> uvpt_idx ->
    table_of s dp i = Some tp -> table_of s dp j = Some tp -> i = j
}.

(** What storing entry [x] for virtual page [v] does to the directory. *)
Record mapped_to (s s' : kstate) (dp v x : Z) (l l' : list Z) : Prop := {
  mt_dir : kdir s' dp l';
  mt_pte : pte_of s' dp v = x;
  mt_other : forall w, 0 <= w < 1048576 -> w / 1024 <> uvpt_idx -> w <> v -> pte_of s' dp w = pte_of s dp w;
  mt_tab : table_of s' dp (v / 1024) <> None;
  mt_old : forall i, 0 <= i < 1024 -> table_of s dp i <> None -> table_of s' dp i <> None;
  mt_free : (length l <= length l' + (if table_of s dp (v / 1024) is Some _ then 0 else 1))%nat;
  mt_uvpt : word s' dp uvpt_idx = word s dp uvpt_idx;
  mt_frame : mem_only s s'
}.

Section store.

Context (s : kstate) (dp : Z) (l : list Z) (v tp x : Z).
Context (Hk : kdir s dp l) (Hv : 0 <= v < 1048576) (Huv : v / 1024 <> uvpt_idx).
Context (Ht : table_of s dp (v / 1024) = Some tp) (Hx : 0 <= x < 4294967296).

Let s' := set_phys (wr32 (phys s) (tp * 4096 + 4 * (v mod 1024)) x) s.

Lemma store_table i : 0 <= i < 1024 -> table_of s' dp i = table_of s dp i.
Proof using Hk Hv Huv Ht Hx.
  intros Hi. destruct (kd_tab _ _ _ Hk (v / 1024) tp ltac:(zdm) Huv Ht) as (_ & _ & Hne).
  unfold table_of, s'. rewrite word_set_ne; [done|zdm|done|congruence].
Qed.

Lemma store_mapped : mapped_to s s' dp v x l l.
Proof using Hk Hv Huv Ht Hx.
  pose proof (kd_alloc _ _ _ Hk) as Ha. split.
  - split.
    + eapply alloc_inv_frame; [..|exact Ha]; done.
    + apply Hk.
    + intros i tp'. intros Hi. rewrite store_table by done. by apply (kd_tab _ _ _ Hk).
    + intros i j tp' Hi Hj. rewrite !store_table by done. by apply (kd_inj _ _ _ Hk).
  - unfold pte_of. rewrite store_table, Ht by zdm. unfold s'. rewrite word_set_eq. by apply u32_id.
  - intros w Hw Hwu Hne. unfold pte_of. rewrite store_table by zdm.
    destruct (table_of s dp (w / 1024)) as [tw|] eqn:Ew; [|done]. unfold s'. apply word_set_ne; [zdm|zdm|].
    intros [= -> E]. pose proof (kd_inj _ _ _ Hk (w / 1024) (v / 1024) tp ltac:(zdm) ltac:(zdm) Hwu Huv Ew Ht). zdm.
  - rewrite store_table by zdm. by rewrite Ht.
  - intros i Hi. by rewrite store_table.
  - lia.
  - destruct (kd_tab _ _ _ Hk (v / 1024) tp ltac:(zdm) Huv Ht) as (_ & _ & Hne).
    unfold s'. apply word_set_ne; [zdm|done|congruence].
  - apply mem_only_set_phys.
Qed.

End store.

Section walk.

Context (s : kstate) (dp : Z) (l : list Z) (v tp : Z).
Context (Hk : kdir s dp (tp :: l)) (Hv : 0 <= v < 1048576) (Huv : v / 1024 <> uvpt_idx).
Context (Ht : table_of s dp (v / 1024) = None).

Let s' := walked dp (v * 4096) tp s.

Lemma walk_PDX : PDX (v * 4096) = v / 1024 /\ PTX (v * 4096) = v mod 1024.
Proof using Hv. rewrite PDX_vpn, PTX_vpn by lia. by rewrite Z_div_mult by lia. Qed.

Lemma walk_fresh : tp <> dp /\ 0 <= tp < npages s /\ tp ∉ l.
Proof using v Hk.
  pose proof (kd_alloc _ _ _ Hk) as Ha. pose proof (linked_NoDup _ _ _ (ai_chain _ _ Ha)) as Hnd.
  apply NoDup_cons in Hnd as [Hn _]. destruct (kd_dp _ _ _ Hk) as [_ Hd]. split; [intros ->; apply Hd; left|].
  split; [apply (ai_range _ _ Ha); left|done].
Qed.

Lemma walk_table_eq : table_of s' dp (v / 1024) = Some tp.
Proof using Hk Hv.
  destruct walk_fresh as (_ & Hr & _). pose proof (ai_npages _ _ (kd_alloc _ _ _ Hk)).
  rewrite <- (proj1 walk_PDX). eapply (pde_entry _ _ _ pde_flags); [|lia| |done].
  - unfold s', walked. rewrite word_set_eq. by rewrite walked_pde_value by lia.
  - change pde_flags with 7. lia.
Qed.

Lemma walk_table_ne i : 0 <= i < 1024 -> i <> v / 1024 -> table_of s' dp i = table_of s dp i.
Proof using Hk Hv.
  intros Hi Hne. destruct walk_fresh as (Hd & _). unfold table_of, s'.
  rewrite walked_word; [done|done|congruence|]. rewrite (proj1 walk_PDX). congruence.
Qed.

Lemma walk_kdir : kdir s' dp l.
Proof using Hk Hv Huv Ht.
  pose proof (kd_alloc _ _ _ Hk) as Ha. destruct walk_fresh as (Hd & Hr & Hl). split.
  - eapply (alloc_inv_frame (upd_page tp (fun p => set_pp_ref (u16 (pp_ref p + 1)) p) (allocated 1 tp s)));
      [done..|]. apply alloc_inv_upd_ref; [by apply alloc_inv_pop|done|done].
  - destruct (kd_dp _ _ _ Hk) as [? Hn]. split; [done|]. set_solver.
  - intros i q Hi Hiu. destruct (decide (i = v / 1024)) as [->|Hne].
    + rewrite walk_table_eq. intros [= <-]. split; [done|]. split; [done|congruence].
    + rewrite walk_table_ne by done. intros E. destruct (kd_tab _ _ _ Hk i q Hi Hiu E) as (? & Hq & ?).
      split; [done|]. split; [set_solver|done].
  - intros i j q Hi Hj Hiu Hju.
    assert (forall i, 0 <= i < 1024 -> i <> uvpt_idx -> table_of s dp i <> Some tp) as Hno.
    { intros k Hk1 Hk2 E. destruct (kd_tab _ _ _ Hk k tp Hk1 Hk2 E) as (_ & Hq & _). set_solver. }
    destruct (decide (i = v / 1024)) as [->|Hne], (decide (j = v / 1024)) as [->|Hne2]; try done;
      rewrite ?walk_table_eq, ?walk_table_ne by done.
    + intros [= <-] E. by destruct (Hno j Hj Hju).
    + intros E [= <-]. by destruct (Hno i Hi Hiu).
    + by apply (kd_inj _ _ _ Hk).
Qed.

Lemma walk_pte w : 0 <= w < 1048576 -> w / 1024 <> uvpt_idx -> pte_of s' dp w = pte_of s dp w.
Proof using Hk Hv Huv Ht.
  intros Hw Hwu. unfold pte_of. destruct (decide (w / 1024 = v / 1024)) as [E|Hne].
  - rewrite E, walk_table_eq, Ht. destruct walk_fresh as (Hd & _). unfold s', walked.
    rewrite word_set_ne; [|apply PDX_range|zdm|congruence]. unfold word. cbn.
    rewrite rd32_mset_0; [done|zdm|zdm].
  - rewrite walk_table_ne by (done || zdm). destruct (table_of s dp (w / 1024)) as [q|] eqn:Eq; [|done].
    destruct (kd_tab _ _ _ Hk (w / 1024) q ltac:(zdm) Hwu Eq) as (_ & Hq & Hqd).
    apply walked_word; [zdm|set_solver|congruence].
Qed.

End walk.

(** [pgdir_walk] with [create], and the store through its result. *)
Lemma map_one s dp l v x :
  kdir s dp l -> 0 <= v < 1048576 -> v / 1024 <> uvpt_idx -> 0 <= x < 4294967296 ->
  (table_of s dp (v / 1024) = None -> l <> []) ->
  exists s' l', (let! e := pgdir_walk (kva dp) (v * 4096) 1 in
                 match e with
                 | None => undef "boot_map_region: store through the NULL pgdir_walk returned"
                 | Some e => kstore32 e x
                 end) s = Ret tt s' /\ mapped_to s s' dp v x l l'.
Proof.
  intros Hk Hv Huv Hx Hl. pose proof (ai_npages _ _ (kd_alloc _ _ _ Hk)) as Hn.
  destruct (walk_PDX v Hv) as [Ed Et]. destruct (table_of s dp (v / 1024)) as [tp|] eqn:Etp.
  - destruct (kd_tab _ _ _ Hk (v / 1024) tp ltac:(zdm) Huv Etp) as (Hr & _ & _).
    rewrite (bind_ret _ _ s (Some (kva tp + 4 * PTX (v * 4096))) s) by (apply walk_present; [by rewrite Ed|lia|lia]).
    rewrite kstore_word, Et. eexists _, l. split; [done|]. by apply store_mapped.
  - destruct l as [|tp l]; [by destruct Hl|].
    destruct (walk_fresh s dp l v tp Hk) as (Hd & Hr & _).
    rewrite (bind_ret _ _ s (Some (kva tp + 4 * PTX (v * 4096))) (walked dp (v * 4096) tp s))
      by (apply (walk_create s dp _ tp l); [by rewrite Ed|apply Hk|congruence]).
    rewrite kstore_word, Et.
    pose proof (walk_kdir s dp l v tp Hk Hv Huv Etp) as Hk1. pose proof (walk_table_eq s dp l v tp Hk Hv) as Et1.
    destruct (store_mapped _ dp l v tp x Hk1 Hv Huv Et1 Hx) as [M1 M2 M3 M4 M5 M6 M8 M7].
    eexists _, l. split; [done|]. split; [exact M1|exact M2| |exact M4| | | |].
    + intros w Hw Hwu Hne. rewrite M3 by done. by apply (walk_pte s dp l v tp).
    + intros i Hi Hi'. apply M5; [done|]. destruct (decide (i = v / 1024)) as [->|]; [by rewrite Et1|].
      by rewrite (walk_table_ne s dp l v tp).
    + rewrite Etp. cbn. lia.
    + rewrite M8. apply walked_word; [done|congruence|]. rewrite Ed. congruence.
    + eapply mem_only_trans; [apply mem_only_walked|exact M7].
Qed.

(** ** boot_map_region *)

(** The entry for physical page [p]. *)
Definition pte (p perm : Z) : Z := Z.lor (Z.lor (p * 4096) perm) PTE_P.

Lemma pte_range p perm : 0 <= p < 1048576 -> 0 <= perm < 4096 -> 0 <= pte p perm < 4294967296.
Proof.
  intros Hp Hperm. unfold pte. rewrite <- Z.lor_assoc. pose proof (lor_low_range perm PTE_P Hperm ltac:(done)).
  rewrite lor_page_low by done. lia.
Qed.

(** The tables still to be made for the pages from [v] to [e]. *)
Definition need (s : kstate) (dp v e : Z) : Z :=
  e / 1024 - v / 1024 + (if table_of s dp (v / 1024) is Some _ then 0 else 1).

(** Pages [v .. v + n - 1] are mapped to [p .. p + n - 1]. *)
Record region (s s' : kstate) (dp v n p perm : Z) (l l' : list Z) : Prop := {
  rg_dir : kdir s' dp l';
  rg_in : forall k, 0 <= k < n -> pte_of s' dp (v + k) = pte (p + k) perm;
  rg_out : forall w, 0 <= w < 1048576 -> w / 1024 <> uvpt_idx -> w < v \/ v + n <= w ->
    pte_of s' dp w = pte_of s dp w;
  rg_uvpt : word s' dp uvpt_idx = word s dp uvpt_idx;
  rg_frame : mem_only s s'
}.

Lemma boot_map_loop dp v0 p0 perm n : forall a s l,
  kdir s dp l -> 0 <= v0 -> 0 <= a -> v0 + a + Z.of_nat n <= 1048576 -> 0 <= p0 ->
  p0 + a + Z.of_nat n <= 1048576 -> 0 <= perm < 4096 ->
  (forall k, 0 <= k < Z.of_nat n -> (v0 + a + k) / 1024 <> uvpt_idx) ->
  (n <> 0%nat -> need s dp (v0 + a) (v0 + a + Z.of_nat n - 1) <= Z.of_nat (length l)) ->
  exists s' l', for_loop n a (boot_map_step (kva dp) (v0 * 4096) (p0 * 4096) perm) s = Ret tt s'
    /\ region s s' dp (v0 + a) (Z.of_nat n) (p0 + a) perm l l'
    /\ (n <> 0%nat -> Z.of_nat (length l) - need s dp (v0 + a) (v0 + a + Z.of_nat n - 1)
                     <= Z.of_nat (length l')).
Proof.
  induction n as [|n IH]; intros a s l Hk Hv0 Ha Hve Hp0 Hpe Hperm Huv Hneed.
  { exists s, l. split; [done|]. split; [|done]. split; [done|intros; lia|done|done|apply mem_only_refl]. }
  specialize (Hneed ltac:(done)). cbn [for_loop]. unfold boot_map_step at 1.
  rewrite u32_id by (unfold PGSIZE; lia). rewrite (u32_id (p0 * 4096 + a * PGSIZE)) by (unfold PGSIZE; lia).
  replace (v0 * 4096 + a * PGSIZE) with ((v0 + a) * 4096) by (unfold PGSIZE; lia).
  replace (p0 * 4096 + a * PGSIZE) with ((p0 + a) * 4096) by (unfold PGSIZE; lia). fold (pte (p0 + a) perm).
  assert ((v0 + a) / 1024 <> uvpt_idx) as Huv0 by (replace (v0 + a) with (v0 + a + 0) by lia; apply Huv; lia).
  destruct (map_one s dp l (v0 + a) (pte (p0 + a) perm)) as (s1 & l1 & E & [M1 M2 M3 M4 M5 M6 M8 M7]);
    [done|lia|done|apply pte_range; [lia|done]| |].
  { intros Hno ->. unfold need in Hneed. rewrite Hno in Hneed. cbn [length] in Hneed. zdm. }
  rewrite (bind_ret _ _ _ _ _ E).
  assert (Z.of_nat (length l) <= Z.of_nat (length l1)
    + (if table_of s dp ((v0 + a) / 1024) is Some _ then 0 else 1)) as M6'
    by (revert M6; destruct (table_of s dp ((v0 + a) / 1024)); lia).
  assert (n <> 0%nat -> need s1 dp (v0 + a + 1) (v0 + a + 1 + Z.of_nat n - 1)
    <= need s dp (v0 + a) (v0 + a + Z.of_nat (S n) - 1)
       - (if table_of s dp ((v0 + a) / 1024) is Some _ then 0 else 1)) as Hstep.
  { intros Hn. unfold need. replace (v0 + a + 1 + Z.of_nat n - 1) with (v0 + a + Z.of_nat (S n) - 1) by lia.
    generalize ((v0 + a + Z.of_nat (S n) - 1) / 1024) as D. intros D.
    destruct (decide ((v0 + a + 1) / 1024 = (v0 + a) / 1024)) as [Eq|Ne].
    - rewrite Eq. destruct (table_of s1 dp ((v0 + a) / 1024)); [|done]. destruct (table_of s dp _); lia.
    - assert ((v0 + a + 1) / 1024 = (v0 + a) / 1024 + 1) as -> by zdm.
      generalize ((v0 + a) / 1024) as j. intros j. destruct (table_of s1 dp (j + 1)), (table_of s dp j); lia. }
  destruct (IH (a + 1) s1 l1) as (s2 & l2 & E2 & [R1 R2 R3 R5 R4] & Hf); try done; try lia.
  { intros k Hkk. replace (v0 + (a + 1) + k) with (v0 + a + (k + 1)) by lia. apply Huv. lia. }
  { intros Hn. replace (v0 + (a + 1)) with (v0 + a + 1) by lia. specialize (Hstep Hn). lia. }
  exists s2, l2. split; [exact E2|]. split.
  - split; [exact R1| | |congruence|by eapply mem_only_trans].
    + intros k Hkk. destruct (decide (k = 0)) as [->|].
      * rewrite !Z.add_0_r. rewrite R3 by (done || lia). exact M2.
      * replace (v0 + a + k) with (v0 + (a + 1) + (k - 1)) by lia.
        replace (p0 + a + k) with (p0 + (a + 1) + (k - 1)) by lia. apply R2. lia.
    + intros w Hw Hwu Hout. rewrite R3 by (done || lia). apply M3; [done|done|lia].
  - intros _. destruct n as [|n'].
    + cbn [for_loop] in E2. injection E2 as <-. destruct R1 as [A1 _ _ _]. destruct M1 as [A2 _ _ _].
      rewrite (alloc_inv_det _ _ _ A1 A2). unfold need.
      replace (v0 + a + Z.of_nat 1 - 1) with (v0 + a) by lia. lia.
    + specialize (Hf ltac:(done)). specialize (Hstep ltac:(done)).
      replace (v0 + (a + 1)) with (v0 + a + 1) in Hf by lia. lia.
Qed.

(** [boot_map_region] of [n] pages, with enough free pages for its tables. *)
Lemma boot_map_region_ok s dp l v n p perm size :
  kdir s dp l -> 0 <= v -> 0 <= n -> v + n <= 1048576 -> 0 <= p -> p + n <= 1048576 -> 0 <= perm < 4096 ->
  size / 4096 = n -> (forall k, 0 <= k < n -> (v + k) / 1024 <> uvpt_idx) ->
  (v + n - 1) / 1024 - v / 1024 + 1 <= Z.of_nat (length l) ->
  exists s' l', boot_map_region (kva dp) (v * 4096) size (p * 4096) perm s = Ret tt s'
    /\ region s s' dp v n p perm l l'
    /\ Z.of_nat (length l) - ((v + n - 1) / 1024 - v / 1024 + 1) <= Z.of_nat (length l').
Proof.
  intros Hk Hv Hn Hve Hp Hpe Hperm Es Huv Hl. unfold boot_map_region, PGSIZE. rewrite Es.
  assert (need s dp v (v + n - 1) <= (v + n - 1) / 1024 - v / 1024 + 1) as Hle
    by (unfold need; destruct (table_of _ _ _); lia).
  destruct (boot_map_loop dp v p perm (Z.to_nat n) 0 s l) as (s' & l' & E & R & Hf);
    rewrite ?Z2Nat.id, ?Z.add_0_r in *; try done; try lia.
  exists s', l'. split; [done|]. split; [done|]. destruct (decide (n = 0)) as [->|]; [|lia].
  cbn in E. injection E as <-. destruct R as [[A1 _ _ _] _ _ _ _]. rewrite (alloc_inv_det _ _ _ A1 (kd_alloc _ _ _ Hk)). zdm.
Qed.

(** ** The layout *)

(** Number of the virtual page at [a]. *)
Definition vpn (a : Z) : Z := a / PGSIZE.

(** The entry of virtual page [v]: [np] physical pages, [pp] and [ep] the first
    pages of the arrays [pages] and [envs], [kp i] the first page of the stack of
    CPU [i].  Stacks are 8 pages with a gap of 8 pages below each. *)
Definition layout (np pp ep : Z) (kp : Z -> Z) (v : Z) : Z :=
  if (vpn UPAGES <=? v) && (v <? vpn UPAGES + (np * 8 + 4095) / 4096)
  then pte (pp + (v - vpn UPAGES)) (Z.lor PTE_U PTE_P)
  else if (vpn UENVS <=? v) && (v <? vpn UENVS + 32) then pte (ep + (v - vpn UENVS)) PTE_U
  else if (vpn KERNBASE <=? v) && (v <? vpn KERNBASE + 65535) then pte (v - vpn KERNBASE) PTE_W
  else let d := vpn KSTACKTOP - 1 - v in
    if (0 <=? d) && (d <? 128) && (d mod 16 <? 8) then pte (kp (d / 16) + (7 - d mod 16)) PTE_W
    else 0.

(** The stacks of the CPUs below [j]. *)
Lemma mem_init_mp_loop s0 dp kp n : forall j s l,
  kdir s dp l -> 0 <= j -> j + Z.of_nat n = 8 -> (forall i, 0 <= i < 8 -> 0 <= kp i /\ kp i + 8 <= 65536) ->
  Z.of_nat n <= Z.of_nat (length l) -> mem_only s0 s ->
  exists s' l', for_loop n j (fun i =>
      let! pa := PADDR (kva (kp i)) in
      boot_map_region (kva dp) (u32 (KSTACKTOP - i * (KSTKSIZE + KSTKGAP) - KSTKSIZE)) KSTKSIZE pa PTE_W) s = Ret tt s'
    /\ kdir s' dp l' /\ mem_only s0 s' /\ word s' dp uvpt_idx = word s dp uvpt_idx
    /\ forall w, 0 <= w < 1048576 -> w / 1024 <> uvpt_idx ->
         pte_of s' dp w = let d := 983039 - w in
           if (16 * j <=? d) && (d <? 128) && (d mod 16 <? 8) then pte (kp (d / 16) + (7 - d mod 16)) PTE_W
           else pte_of s dp w.
Proof.
  induction n as [|n IH]; intros j s l Hk Hj Hn Hkp Hl Hf.
  - exists s, l. split; [done|]. split; [done|]. split; [done|]. split; [done|]. intros w Hw Hwu. cbv zeta.
    by destruct (Z.leb_spec (16 * j) (983039 - w)), (Z.ltb_spec (983039 - w) 128); try lia.
  - cbn [for_loop]. destruct (Hkp j ltac:(lia)) as [Hk0 Hk8].
    rewrite bind_assoc, (bind_ret _ _ _ _ _ (PADDR_kva (kp j) s ltac:(lia))).
    assert (u32 (KSTACKTOP - j * (KSTKSIZE + KSTKGAP) - KSTKSIZE) = (983032 - 16 * j) * 4096) as ->.
    { change KSTACKTOP with 4026531840. change KSTKSIZE with 32768. change KSTKGAP with 32768. rewrite u32_id; lia. }
    destruct (boot_map_region_ok s dp l (983032 - 16 * j) 8 (kp j) PTE_W KSTKSIZE)
      as (s1 & l1 & E & [R1 R2 R3 R5 R4] & Hl1); try done; try lia.
    { intros k Hkk. unfold uvpt_idx. zdm. }
    { zdm. }
    rewrite (bind_ret _ _ _ _ _ E).
    destruct (IH (j + 1) s1 l1) as (s2 & l2 & E2 & K2 & F2 & W2 & P2); try done; try lia.
    { assert ((983032 - 16 * j + 8 - 1) / 1024 - (983032 - 16 * j) / 1024 = 0) by zdm. lia. }
    { by eapply mem_only_trans. }
    exists s2, l2. split; [done|]. split; [done|]. split; [done|]. split; [congruence|].
    intros w Hw Hwu. rewrite P2 by done. cbv zeta.
    destruct (decide (983032 - 16 * j <= w < 983032 - 16 * j + 8)) as [Hin|Hout].
    + pose proof (R2 (w - (983032 - 16 * j)) ltac:(lia)) as Hr.
      replace (983032 - 16 * j + (w - (983032 - 16 * j))) with w in Hr by lia.
      assert ((983039 - w) / 16 = j) as Ej by zdm. assert ((983039 - w) mod 16 = 983039 - w - 16 * j) as Em by zdm.
      rewrite Ej, Em. destruct (Z.leb_spec (16 * (j + 1)) (983039 - w)); [lia|]. cbn [andb].
      destruct (Z.leb_spec (16 * j) (983039 - w)), (Z.ltb_spec (983039 - w) 128), (Z.ltb_spec (983039 - w - 16 * j) 8); try lia.
      cbn [andb]. rewrite Hr. f_equal. lia.
    + rewrite R3 by (done || lia).
      destruct (Z.leb_spec (16 * (j + 1)) (983039 - w)), (Z.leb_spec (16 * j) (983039 - w)); try lia; cbn [andb]; try done.
      assert ((983039 - w) mod 16 = 983039 - w - 16 * j) as -> by zdm.
      destruct (Z.ltb_spec (983039 - w - 16 * j) 8); [lia|]. by rewrite andb_false_r.
Qed.

(** The regions that [mem_init] maps one after the other make up the layout. *)
Lemma regions_layout s s1 s2 s3 s4 dp np pp ep kp w l l1 l2 l3 :
  let m := (np * 8 + 4095) / 4096 in
  0 <= m <= 128 -> 0 <= w < 1048576 -> w / 1024 <> uvpt_idx -> pte_of s dp w = 0 ->
  region s s1 dp (vpn UPAGES) m pp (Z.lor PTE_U PTE_P) l l1 -> region s1 s2 dp (vpn UENVS) 32 ep PTE_U l1 l2 ->
  region s2 s3 dp (vpn KERNBASE) 65535 0 PTE_W l2 l3 ->
  (pte_of s4 dp w = let d := 983039 - w in
     if (16 * 0 <=? d) && (d <? 128) && (d mod 16 <? 8) then pte (kp (d / 16) + (7 - d mod 16)) PTE_W
     else pte_of s3 dp w) ->
  pte_of s4 dp w = layout np pp ep kp w.
Proof.
  intros m Hm Hw Hwu Hz [_ A2 A3 _ _] [_ B2 B3 _ _] [_ C2 C3 _ _] P4. rewrite P4. change (vpn UPAGES) with 978944 in *.
  change (vpn UENVS) with 977920 in *. change (vpn KERNBASE) with 983040 in *.
  unfold layout. fold m. change (vpn UPAGES) with 978944. change (vpn UENVS) with 977920.
  change (vpn KERNBASE) with 983040. change (vpn KSTACKTOP - 1) with 983039. cbv zeta. change (16 * 0) with 0.
  set (stack := pte _ PTE_W). clearbody stack.
  destruct (Z.leb_spec 983040 w) as [Hge|Hlt].
  { destruct (Z.leb_spec 0 (983039 - w)); [lia|]. cbn [andb].
    destruct (Z.ltb_spec w (978944 + m)); [lia|]. rewrite andb_false_r.
    destruct (Z.ltb_spec w (977920 + 32)); [lia|]. rewrite andb_false_r.
    destruct (Z.ltb_spec w (983040 + 65535)) as [Hin|Hout].
    - pose proof (C2 (w - 983040) ltac:(lia)) as Hr. replace (983040 + (w - 983040)) with w in Hr by lia.
      rewrite Hr. by rewrite Z.add_0_l.
    - rewrite C3, B3, A3 by (done || lia). done. }
  assert (pte_of s3 dp w = pte_of s2 dp w) as -> by (apply C3; (done || lia)). cbn [andb].
  destruct (Z.ltb_spec (983039 - w) 128) as [Hst1|Hst1].
  { assert (pte_of s2 dp w = 0) as -> by (rewrite B3, A3 by (done || lia); done).
    destruct (Z.ltb_spec w (978944 + m)); [lia|]. rewrite andb_false_r.
    destruct (Z.ltb_spec w (977920 + 32)); [lia|]. rewrite andb_false_r. done. }
  rewrite andb_false_r. cbn [andb].
  destruct (Z.leb_spec 978944 w) as [Hu|Hu]; cbn [andb].
  - destruct (Z.ltb_spec w (977920 + 32)); [lia|]. rewrite andb_false_r. rewrite B3 by (done || lia).
    destruct (Z.ltb_spec w (978944 + m)).
    + pose proof (A2 (w - 978944) ltac:(lia)) as Hr. by replace (978944 + (w - 978944)) with w in Hr by lia.
    + rewrite A3 by (done || lia). done.
  - destruct (Z.leb_spec 977920 w); cbn [andb]; [destruct (Z.ltb_spec w (977920 + 32))|].
    + pose proof (B2 (w - 977920) ltac:(lia)) as Hr. by replace (977920 + (w - 977920)) with w in Hr by lia.
    + rewrite B3, A3 by (done || lia). done.
    + rewrite B3, A3 by (done || lia). done.
Qed.

(** The mapping half of [mem_init] on a directory without entries. *)
Lemma mem_init_map_ok s dp l pp ep kp :
  kdir s dp l -> kern_pgdir s = kva dp -> 0 <= pp -> 0 <= ep -> pp + 128 <= 65536 -> ep + 32 <= 65536 ->
  (forall i, 0 <= i < 8 -> 0 <= kp i /\ kp i + 8 <= 65536) -> 74 <= Z.of_nat (length l) ->
  (forall w, 0 <= w < 1048576 -> w / 1024 <> uvpt_idx -> pte_of s dp w = 0) ->
  exists s' l', mem_init_map (kva pp) (kva ep) (fun i => kva (kp i)) s = Ret tt s'
    /\ kdir s' dp l' /\ mem_only s s' /\ word s' dp uvpt_idx = word s dp uvpt_idx
    /\ forall w, 0 <= w < 1048576 -> w / 1024 <> uvpt_idx ->
         pte_of s' dp w = layout (npages s) pp ep kp w.
Proof.
  intros Hk Hkp Hp He Hpb Heb Hst Hl Hz. pose proof (ai_npages _ _ (kd_alloc _ _ _ Hk)) as Hn.
  unfold mem_init_map. rewrite (bind_ret _ _ s (kva dp) s) by (by rewrite <- Hkp).
  rewrite (bind_ret _ _ s (npages s) s) by done.
  rewrite (bind_ret _ _ _ _ _ (PADDR_kva pp s ltac:(lia))).
  set (m := (npages s * 8 + 4095) / 4096). assert (0 <= m <= 128) as Hm by (unfold m; zdm).
  destruct (boot_map_region_ok s dp l (vpn UPAGES) m pp (Z.lor PTE_U PTE_P)
    (ROUNDUP (u32 (npages s * sizeof_PageInfo)) PGSIZE)) as (s1 & l1 & E1 & R1 & Hl1);
    change (vpn UPAGES) with 978944 in *; try done; try lia.
  { unfold sizeof_PageInfo, PGSIZE, m. rewrite u32_id, ROUNDUP_page by lia. zdm. }
  { intros k Hkk. unfold uvpt_idx. zdm. }
  { zdm. }
  change (978944 * 4096) with UPAGES in E1. rewrite (bind_ret _ _ _ _ _ E1).
  assert (Z.of_nat (length l) - 1 <= Z.of_nat (length l1)) as Hl1'.
  { assert ((978944 + m - 1) / 1024 - 978944 / 1024 <= 0) by zdm. lia. }
  rewrite (bind_ret _ _ _ _ _ (PADDR_kva ep s1 ltac:(lia))).
  destruct (boot_map_region_ok s1 dp l1 (vpn UENVS) 32 ep PTE_U (ROUNDUP (NENV * sizeof_Env) PGSIZE))
    as (s2 & l2 & E2 & R2 & Hl2); change (vpn UENVS) with 977920 in *; try done; try lia.
  { apply R1. }
  { intros k Hkk. unfold uvpt_idx. zdm. }
  { change ((977920 + 32 - 1) / 1024 - 977920 / 1024 + 1) with 1. lia. }
  change (977920 * 4096) with UENVS in E2. rewrite (bind_ret _ _ _ _ _ E2).
  change ((977920 + 32 - 1) / 1024 - 977920 / 1024 + 1) with 1 in Hl2.
  destruct (boot_map_region_ok s2 dp l2 (vpn KERNBASE) 65535 0 PTE_W (u32 (4294967295 - KERNBASE)))
    as (s3 & l3 & E3 & R3 & Hl3); change (vpn KERNBASE) with 983040 in *; try done; try lia.
  { apply R2. }
  { intros k Hkk. unfold uvpt_idx. zdm. }
  { change ((983040 + 65535 - 1) / 1024 - 983040 / 1024 + 1) with 64. lia. }
  change (983040 * 4096) with KERNBASE in E3. change (0 * 4096) with 0 in E3. rewrite (bind_ret _ _ _ _ _ E3).
  change ((983040 + 65535 - 1) / 1024 - 983040 / 1024 + 1) with 64 in Hl3.
  pose proof (rg_frame _ _ _ _ _ _ _ _ _ R1) as A4. pose proof (rg_frame _ _ _ _ _ _ _ _ _ R2) as B4.
  pose proof (rg_frame _ _ _ _ _ _ _ _ _ R3) as C4.
  assert (mem_only s s3) as F3 by (eapply mem_only_trans; [exact A4|]; by eapply mem_only_trans).
  unfold mem_init_mp. rewrite (bind_ret _ _ s3 (kva dp) s3) by (unfold gets; rewrite F3; cbn; by rewrite Hkp).
  destruct (mem_init_mp_loop s dp kp 8 0 s3 l3) as (s4 & l4 & E4 & K4 & F4 & W4 & P4); try done; try lia.
  { apply R3. }
  exists s4, l4. split; [exact E4|]. split; [done|]. split; [done|].
  split; [by rewrite W4, (rg_uvpt _ _ _ _ _ _ _ _ _ R3), (rg_uvpt _ _ _ _ _ _ _ _ _ R2), (rg_uvpt _ _ _ _ _ _ _ _ _ R1)|].
  intros w Hw Hwu. apply (regions_layout s s1 s2 s3 s4 dp (npages s) pp ep kp w l l1 l2 l3); auto.
Qed.

(** ** Boot-time allocation *)

(** The page that [boot_alloc] hands out next. *)
Definition next_page (s : kstate) : Z :=
  (if nextfree s =? 0 then kend s - KERNBASE + 4095 else nextfree s - KERNBASE) / 4096.

Lemma boot_alloc_ok s n :
  0 < n -> npages s < 65536 -> KERNBASE <= kend s -> nextfree s = 0 \/ nextfree s = kva (next_page s) ->
  0 <= next_page s -> next_page s + (n + 4095) / 4096 <= npages s ->
  boot_alloc n s = Ret (kva (next_page s)) (set_nextfree (kva (next_page s + (n + 4095) / 4096)) s).
Proof.
  intros Hn Hb Hke Hnf Hq Hfit. unfold boot_alloc. set (q := next_page s) in *.
  assert (exists s1, (let! nf := gets nextfree in
       if nf =? 0 then modify (fun s => set_nextfree (ROUNDUP (kend s) PGSIZE) s) else ret tt) s = Ret tt s1
    /\ nextfree s1 = kva q /\ npages s1 = npages s /\ forall x, set_nextfree x s1 = set_nextfree x s)
    as (s1 & E1 & Enf & Enp & Eset).
  { unfold bind, gets. destruct (Z.eqb_spec (nextfree s) 0) as [H0|H0].
    - exists (set_nextfree (ROUNDUP (kend s) PGSIZE) s). split; [done|]. split; [|done]. cbn.
      assert (q = (kend s - KERNBASE + 4095) / 4096) as Eq
        by (unfold q, next_page; destruct (Z.eqb_spec (nextfree s) 0); done).
      unfold PGSIZE, KERNBASE in *. rewrite ROUNDUP_page by zdm. unfold kva, KERNBASE. zdm.
    - exists s. split; [done|]. destruct Hnf as [|Hnf]; [done|]. by split. }
  rewrite (bind_ret _ _ _ _ _ E1). rewrite (bind_ret _ _ s1 (kva q) s1) by (unfold gets; by rewrite Enf).
  destruct (Z.gtb_spec n 0); [|lia]. unfold kva, KERNBASE, PGSIZE in *.
  rewrite (u32_id (q * 4096 + 4026531840 + n)), ROUNDUP_page by zdm.
  replace (4096 * ((q * 4096 + 4026531840 + n + 4095) / 4096)) with ((q + (n + 4095) / 4096) * 4096 + 4026531840) by zdm.
  unfold bind, modify, gets. rewrite Eset. change (npages (set_nextfree _ s)) with (npages s).
  assert (0 <= (n + 4095) / 4096) by zdm. rewrite !u32_id by lia. destruct (Z.gtb_spec ((q + (n + 4095) / 4096) * 4096 + 4026531840 - 4026531840) (npages s * 4096)); [lia|].
  done.
Qed.

(** [page_init] changes only the page descriptors and the free list. *)
Lemma page_init_frame s s' : page_init s = Ret tt s' -> nextfree s <> 0 -> mem_only s s' /\ phys s' = phys s.
Proof.
  intros E Hnf. unfold page_init in E. rewrite (bind_ret _ _ _ _ _ (boot_alloc_0 s Hnf)) in E.
  unfold bind, modify, gets in E. revert E. generalize (Z.to_nat (npages (set_page_free_list None s))) as n.
  generalize 0 as a. set (step := page_init_step _ _ _). intros a n E.
  assert (forall n a s1 s2, for_loop n a step s1 = Ret tt s2 -> mem_only s1 s2 /\ phys s2 = phys s1) as H.
  { clear. induction n as [|n IH]; intros a s1 s2; cbn [for_loop].
    - intros [= <-]. split; [apply mem_only_refl|done].
    - unfold bind. destruct (step a s1) as [[] s3| | | | |] eqn:E3; try done. intros E2.
      destruct (IH _ _ _ E2) as [F P]. revert E3. unfold step, page_init_step, modify.
      destruct (page_init_in_use _ _ _ a); intros [= <-]; (split; [|exact P]);
        (eapply mem_only_trans; [|exact F]); by destruct s1. }
  destruct (H _ _ _ _ E) as [F P]. split; [|done]. eapply mem_only_trans; [|exact F]. by destruct s.
Qed.

(** The state when [page_init] is called: the directory is at page [q], then come
    the two arrays. *)
Definition before_page_init (q m : Z) (s : kstate) : kstate :=
  set_envs (fun _ => bare_env) (set_pages (fun _ => mkPageInfo None 0)
    (set_nextfree (kva (q + 1 + m + 32))
      (set_phys (wr32 (mset (phys s) (q * 4096) 0 4096) (q * 4096 + 4 * uvpt_idx) (pte q PTE_U))
        (set_kern_pgdir (kva q) s)))).

(** The rest of [mem_init] after [page_init]. *)
Definition after_page_init (pages_va envs_va : Z) (percpu_kstacks : Z -> Z) : K unit :=
  do! mem_init_map pages_va envs_va percpu_kstacks in
  let! kpd := gets kern_pgdir in
  let! pa := PADDR kpd in
  modify (set_cr3 pa).

Lemma mem_init_front cmos kst s s1 :
  let q := next_page s1 in let m := (npages s1 * 8 + 4095) / 4096 in
  i386_detect_memory cmos s = Ret tt s1 -> nextfree s = 0 -> KERNBASE + EXTPHYSMEM <= kend s ->
  0 < npages s1 < 65536 -> q + 1 + m + 32 <= npages s1 ->
  mem_init cmos kst s
  = (do! page_init in after_page_init (kva (q + 1)) (kva (q + 1 + m)) kst) (before_page_init q m s1).
Proof.
  intros q m E Hnf Hke Hnp Hfit. assert (nextfree s1 = 0 /\ kend s1 = kend s) as [Hnf1 Hke1]
    by (revert E; unfold i386_detect_memory, bind, modify; intros [= <-]; done).
  unfold EXTPHYSMEM, KERNBASE in *.
  assert (q = (kend s - 4026531840 + 4095) / 4096) as Eq
    by (unfold q, next_page, KERNBASE; rewrite Hnf1, Hke1; done).
  assert (256 <= q) as Hq by zdm. assert (1 <= m) as Hm by (unfold m; zdm).
  unfold mem_init. rewrite (bind_ret _ _ _ _ _ E). unfold make_kern_pgdir. rewrite !bind_assoc.
  rewrite (bind_ret _ _ s1 (kva q) (set_nextfree (kva (q + 1)) s1)).
  2: { unfold PGSIZE. rewrite (boot_alloc_ok s1 4096); fold q; change ((4096 + 4095) / 4096) with 1;
         [done|lia|lia|unfold KERNBASE; lia|by left|lia|lia]. }
  assert (forall B (k : unit -> K B) f s, bind (modify f) k s = k tt (f s)) as Hmod by done.
  rewrite !bind_assoc. rewrite Hmod. rewrite !bind_assoc. unfold kmemset. rewrite Hmod. rewrite !bind_assoc.
  set (s2 := set_phys _ _). rewrite (bind_ret _ _ _ _ _ (PADDR_kva q s2 ltac:(lia))).
  change (PDX UVPT) with uvpt_idx. rewrite (bind_ret _ _ _ _ _ (kstore_word s2 q uvpt_idx _)).
  set (s3 := set_phys _ s2). assert (npages s3 = npages s1) as En3 by done.
  assert (nextfree s3 = kva (q + 1)) as Ef3 by done.
  assert (forall x, kva x <> 0 /\ (kva x - 4026531840) / 4096 = x \/ x < 0) as Hkva
    by (intros x; unfold kva, KERNBASE; zdm).
  assert (next_page s3 = q + 1) as Eq3.
  { unfold next_page, KERNBASE. rewrite Ef3. destruct (Hkva (q + 1)) as [[H0 H1]|]; [|lia].
    destruct (Z.eqb_spec (kva (q + 1)) 0); [done|exact H1]. }
  rewrite (bind_ret _ _ s3 (npages s1) s3) by done. unfold sizeof_PageInfo. rewrite u32_id by lia.
  rewrite (bind_ret _ _ s3 (kva (q + 1)) (set_nextfree (kva (q + 1 + m)) s3)).
  2: { rewrite (boot_alloc_ok s3 (npages s1 * 8)); rewrite ?Eq3, ?En3, ?Ef3; fold m;
         [done|lia|lia|unfold KERNBASE; cbn; lia|by right|lia|lia]. }
  rewrite Hmod. set (s4 := set_pages _ _). assert (nextfree s4 = kva (q + 1 + m)) as Ef4 by done.
  assert (next_page s4 = q + 1 + m) as Eq4.
  { unfold next_page, KERNBASE. rewrite Ef4. destruct (Hkva (q + 1 + m)) as [[H0 H1]|]; [|lia].
    destruct (Z.eqb_spec (kva (q + 1 + m)) 0); [done|exact H1]. }
  rewrite (bind_ret _ _ s4 (kva (q + 1 + m)) (set_nextfree (kva (q + 1 + m + 32)) s4)).
  2: { change (NENV * sizeof_Env) with 131072. rewrite (boot_alloc_ok s4 131072); rewrite ?Eq4, ?Ef4;
         change (npages s4) with (npages s1); change ((131072 + 4095) / 4096) with 32;
         [done|lia|lia|unfold KERNBASE; cbn; lia|by right|lia|lia]. }
  rewrite Hmod. unfold after_page_init. f_equal. unfold before_page_init, s4, s3, s2. cbn.
  replace (kva q - KERNBASE) with (q * 4096) by (unfold kva; lia). done.
Qed.

(** What user programs may do above [UTOP], and below it before any environment
    exists. *)
Lemma layout_user np pp ep kp v :
  0 <= np <= 65536 -> 0 <= pp -> 0 <= ep -> pp + 128 <= 65536 -> ep + 32 <= 65536 ->
  (forall i, 0 <= i < 8 -> 0 <= kp i /\ kp i + 8 <= 65536) -> 0 <= v < 1048576 ->
  (v < vpn UTOP -> layout np pp ep kp v = 0)
  /\ (flag (layout np pp ep kp v) PTE_U = true ->
      flag (layout np pp ep kp v) PTE_W = false
      /\ (vpn UPAGES <= v < vpn UPAGES + (np * 8 + 4095) / 4096 \/ vpn UENVS <= v < vpn UENVS + 32)).
Proof.
  intros Hnp Hp He Hpb Heb Hkp Hv. unfold layout. change (vpn UPAGES) with 978944. change (vpn UENVS) with 977920.
  change (vpn KERNBASE) with 983040. change (vpn KSTACKTOP - 1) with 983039. change (vpn UTOP) with 977920.
  assert (forall p perm f, 0 <= f < 4096 -> flag (pte p perm) f = flag perm f || flag PTE_P f) as Hflag
    by (intros p perm f Hf; unfold pte; by rewrite !flag_lor, flag_page_low).
  destruct ((978944 <=? v) && _) eqn:E1.
  { apply andb_true_iff in E1 as [H1%Z.leb_le H2%Z.ltb_lt]. split; [lia|]. rewrite !Hflag by done.
    intros _. split; [done|]. left. lia. }
  destruct ((977920 <=? v) && _) eqn:E2.
  { apply andb_true_iff in E2 as [H1%Z.leb_le H2%Z.ltb_lt]. split; [lia|]. rewrite !Hflag by done.
    intros _. split; [done|]. right. lia. }
  destruct ((983040 <=? v) && _) eqn:E3.
  { apply andb_true_iff in E3 as [H1%Z.leb_le H2%Z.ltb_lt]. split; [lia|]. by rewrite Hflag. }
  cbv zeta. destruct ((0 <=? 983039 - v) && (983039 - v <? 128) && _) eqn:E4; [|done].
  apply andb_true_iff in E4 as [[H1%Z.leb_le H2%Z.ltb_lt]%andb_true_iff _]. split; [lia|]. by rewrite Hflag.
Qed.

(** C17: [mem_init] sets up the kernel's address space.  On a machine with room
    for the boot-time arrays and the page tables it returns with the new
    directory installed, and the entry of every virtual page is that of the
    layout: the page descriptors at [UPAGES], the environments at [UENVS],
    physical memory at [KERNBASE] up to the page before the last, which is not
    mapped, and a stack for each CPU with an unmapped gap below it; nothing else
    is mapped, except that the directory maps itself at [UVPT].  No page there is
    writable to user programs, and only the two arrays are readable. *)
Theorem mem_init_layout (cmos kp : Z -> Z) (s s1 : kstate) :
  let q := next_page s1 in let m := (npages s1 * 8 + 4095) / 4096 in
  let lay := layout (npages s1) (q + 1) (q + 1 + m) kp in
  i386_detect_memory cmos s = Ret tt s1 -> nextfree s = 0 -> KERNBASE + EXTPHYSMEM <= kend s ->
  0 < npages s1 < 65536 -> q + 1 + m + 32 <= npages s1 -> q + 129 <= 65536 -> npages_basemem s1 <= 160 ->
  (forall i, 0 <= i < 8 -> 0 <= kp i /\ kp i + 8 <= 65536) ->
  74 <= Z.of_nat (length (initial_free_list (before_page_init q m s1))) ->
  exists s', mem_init cmos (fun i => kva (kp i)) s = Ret tt s'
    /\ kern_pgdir s' = kva q /\ cr3 s' = q * 4096
    /\ (forall v, 0 <= v < 1048576 -> v / 1024 <> uvpt_idx -> pte_of s' q v = lay v)
    /\ word s' q uvpt_idx = pte q PTE_U
    /\ (forall v, 0 <= v < 1048576 ->
          (v < vpn UTOP -> lay v = 0)
          /\ (flag (lay v) PTE_U = true -> flag (lay v) PTE_W = false
             /\ (vpn UPAGES <= v < vpn UPAGES + m \/ vpn UENVS <= v < vpn UENVS + 32)))
    /\ lay 1048575 = 0.
Proof.
  intros q m lay E Hnf Hke Hnp Hfit Hq Hbase Hkp Hfree.
  rewrite (mem_init_front cmos _ s s1) by done. fold q m.
  assert (256 <= q /\ 1 <= m <= 128 /\ 0 <= npages_basemem s1) as (Hq1 & Hm & Hb0).
  { revert E. unfold i386_detect_memory, bind, modify. intros [= <-]. unfold q, next_page, m in *. cbn in *.
    rewrite Hnf in *. unfold EXTPHYSMEM, KERNBASE in *. cbn [Z.eqb] in *. split; [zdm|]. split; [zdm|].
    apply Z.div_pos; [|done]. apply Z.mul_nonneg_nonneg; [|done].
    unfold nvram_read, mc146818_read. apply Z.lor_nonneg. split; [apply u8_range|].
    apply Z.shiftl_nonneg, u8_range. }
  set (s5 := before_page_init q m s1) in *.
  assert (boot_ready s5) as Hr5.
  { split; cbn; [lia|done| |split; [done|exact Hbase]]. unfold kva, KERNBASE, EXTPHYSMEM. lia. }
  destruct (page_init_spec s5 Hr5) as (s6 & E6 & A6 & _).
  assert (nextfree s5 <> 0) as Hnf5 by (cbn; unfold kva, KERNBASE; lia).
  destruct (page_init_frame s5 s6 E6 Hnf5) as [F6 P6]. rewrite (bind_ret _ _ _ _ _ E6).
  assert (forall i, 0 <= i < 1024 -> word s6 q i = if decide (i = uvpt_idx) then pte q PTE_U else 0) as Hword.
  { intros i Hi. rewrite (word_phys s5 s6) by done. unfold word, s5, before_page_init. cbn [phys set_phys set_envs set_pages set_nextfree].
    destruct (decide (i = uvpt_idx)) as [->|Hne].
    - rewrite rd32_wr32_eq. apply u32_id, pte_range; [lia|done].
    - rewrite rd32_wr32_ne by (unfold uvpt_idx in *; lia). apply rd32_mset_0; lia. }
  assert (forall i, 0 <= i < 1024 -> i <> uvpt_idx -> table_of s6 q i = None) as Hnone
    by (intros i Hi Hne; unfold table_of; by rewrite Hword, decide_False by done).
  assert (kdir s6 q (initial_free_list s5)) as K6.
  { split; [done| |..].
    - rewrite (mem_only_npages _ _ F6). split; [cbn; lia|]. intros Hin.
      destruct (page_init_protects s5 q Hr5 Hin) as (_ & _ & _ & Hno). apply Hno. cbn.
      unfold EXTPHYSMEM, PGSIZE, kva. lia.
    - intros i tp Hi Hne Et. by rewrite Hnone in Et.
    - intros i j tp Hi _ Hne _ Et. by rewrite Hnone in Et. }
  unfold after_page_init.
  destruct (mem_init_map_ok s6 q (initial_free_list s5) (q + 1) (q + 1 + m) kp) as (s7 & l7 & E7 & K7 & F7 & W7 & P7);
    [done|by rewrite F6|lia|lia|lia|lia|done|done| |].
  { intros w Hw Hwu. unfold pte_of. by rewrite Hnone by (done || zdm). }
  rewrite (bind_ret _ _ _ _ _ E7). assert (kern_pgdir s7 = kva q) as Ek by (by rewrite F7, F6).
  rewrite (bind_ret _ _ s7 (kva q) s7) by (unfold gets; by rewrite Ek).
  rewrite (bind_ret _ _ _ _ _ (PADDR_kva q s7 ltac:(lia))).
  eexists. split; [reflexivity|]. split; [exact Ek|]. split; [done|].
  rewrite (mem_only_npages _ _ F6) in P7. change (npages s5) with (npages s1) in P7.
  split; [exact P7|]. split; [|split].
  - change (word s7 q uvpt_idx = pte q PTE_U). rewrite W7, Hword by done. by rewrite decide_True.
  - intros v Hv. apply layout_user; try done; lia.
  - unfold lay, layout. change (vpn UPAGES) with 978944. fold m.
    rewrite (proj2 (Z.ltb_ge 1048575 (978944 + m))) by lia. by rewrite andb_false_r.
Qed.

(** The machine QEMU emulates with 4 MB of memory: the CMOS gives 640 KB of base
    memory and 3 MB above 1 MB. *)
Definition cmos_4mb (reg : Z) : Z :=
  if reg =? 21 then 128 else if reg =? 22 then 2 else if reg =? 24 then 12 else 0.

(** The kernel's image ends before page 330. *)
Definition power_on : kstate := set_kend (kva 330) (set_nextfree 0 boot_state).

Definition detected : kstate := set_npages 1024 (set_npages_basemem 160 power_on).

Lemma detected_ok : i386_detect_memory cmos_4mb power_on = Ret tt detected.
Proof. reflexivity. Qed.

Lemma detected_free :
  74 <= Z.of_nat (length (initial_free_list (before_page_init (next_page detected) 2 detected))).
Proof.
  unfold initial_free_list. rewrite length_reverse. apply Z.leb_le. vm_compute. reflexivity.
Qed.

(** The stacks in pages 260 to 323 of the image. *)
Lemma mem_init_layout_witness :
  exists s', mem_init cmos_4mb (fun i => kva (260 + 8 * i)) power_on = Ret tt s'
    /\ kern_pgdir s' = kva 330
    /\ pte_of s' 330 (vpn UENVS) = pte 333 PTE_U
    /\ pte_of s' 330 (vpn KSTACKTOP - 1) = pte 267 PTE_W
    /\ pte_of s' 330 (vpn KSTACKTOP - 9) = 0
    /\ pte_of s' 330 1048575 = 0.
Proof.
  destruct (mem_init_layout cmos_4mb (fun i => 260 + 8 * i) power_on detected detected_ok)
    as (s' & E & Ek & _ & Hl & _).
  - reflexivity.
  - vm_compute. discriminate.
  - vm_compute. done.
  - vm_compute. discriminate.
  - vm_compute. discriminate.
  - vm_compute. discriminate.
  - intros i Hi. lia.
  - exact detected_free.
  - exists s'. split; [exact E|]. split; [exact Ek|]. change (next_page detected) with 330 in Hl.
    split; [|split; [|split]]; (etransitivity; [apply Hl; vm_compute; [split; [discriminate|reflexivity]|discriminate]|reflexivity]).
Defined.

End MemInit.
