(* ===== verification/EnvAlloc.v ===== *)
(** * Creating and naming environments

    The identifiers [env_alloc] hands out, the list [env_init] builds, and the
    address space [env_setup_vm] makes. *)

From stdpp Require Import base numbers list functions strings sets.
From Stdlib Require Import ZArith Lia.
From S2P Require Import Prelude Mem Mmu Kernel Pmap PageAlloc PageTable AddrSpace Env EnvFree.

Open Scope Z_scope.
Open Scope jos_scope.

Module EnvAlloc.

Import Pmap PageAlloc PageTable AddrSpace Env EnvFree.

(** ** Identifiers *)

Lemma ENVX_eq id : 0 <= id -> ENVX id = id mod 1024.
Proof. intros. unfold ENVX, NENV. change (1024 - 1) with (Z.ones 10). by rewrite Z.land_ones. Qed.

Lemma land_lnot_1023 x : Z.land x (Z.lnot (NENV - 1)) = 1024 * (x / 1024).
Proof.
  unfold NENV. rewrite <- Z.ldiff_land. change (1024 - 1) with (Z.ones 10).
  rewrite Z.ldiff_ones_r, Z.shiftl_mul_pow2, Z.shiftr_div_pow2 by lia.
  change (2 ^ 10) with 1024. lia.
Qed.

Lemma next_env_id_eq old e :
  0 <= old < 2147483648 -> 0 <= e < 1024 ->
  next_env_id old e =
    (if old + 4096 <? 2147483648 then 1024 * ((old + 4096) / 1024) else 4096) + e.
Proof.
  intros Ho He. unfold next_env_id, ENVGENSHIFT. change (Z.shiftl 1 12) with 4096.
  rewrite land_lnot_1023.
  assert (forall g, Z.lor (1024 * g) e = 1024 * g + e) as Hl.
  { intros g. rewrite Z.mul_comm. apply (lor_disjoint_add g 10 e); lia. }
  destruct (Z.ltb_spec (old + 4096) 2147483648).
  - rewrite i32_id by lia. destruct (Z.leb_spec (1024 * ((old + 4096) / 1024)) 0); [zdm|]. apply Hl.
  - assert (i32 (old + 4096) = old + 4096 - 4294967296) as -> by (unfold i32; zdm).
    destruct (Z.leb_spec (1024 * ((old + 4096 - 4294967296) / 1024)) 0); [|zdm].
    apply (Hl 4).
Qed.

(** The next identifier of a slot is positive, names the slot, and differs from
    the last one. *)
Lemma next_env_id_fresh old e :
  0 <= old < 2147483648 -> 0 <= e < 1024 ->
  0 < next_env_id old e < 2147483648 /\ ENVX (next_env_id old e) = e /\ next_env_id old e <> old.
Proof.
  intros Ho He. pose proof (next_env_id_eq old e Ho He) as E.
  assert (0 < next_env_id old e < 2147483648) as Hr by (rewrite E; bcase; zdm).
  split; [done|]. split; [rewrite ENVX_eq by lia|]; rewrite E; bcase; zdm.
Qed.

(** ** env_init *)

Lemma env_init_loop n : forall k s fl,
  env_list s fl -> 0 <= k -> k + Z.of_nat n <= 1024 ->
  (forall i, i ∈ fl -> 1024 - k <= i) ->
  exists s', for_loop n k (fun k => env_init_step (NENV - 1 - k)) s = Ret tt s'
    /\ env_list s' (seqZ (1024 - k - Z.of_nat n) (Z.of_nat n) ++ fl)
    /\ (forall i, 1024 - k - Z.of_nat n <= i < 1024 - k ->
          env_status (envs s' i) = ENV_FREE /\ env_id (envs s' i) = 0)
    /\ (forall i, i < 1024 - k - Z.of_nat n \/ 1024 - k <= i -> envs s' i = envs s i).
Proof.
  induction n as [|n IH]; intros k s fl Hl Hk Hn Hfl.
  - exists s. split; [done|]. split; [done|]. split; [lia|done].
  - cbn [for_loop]. unfold bind, env_init_step at 1, modify. unfold NENV.
    set (i := 1024 - 1 - k) in *. set (s1 := set_env_free_list _ _).
    destruct (IH (k + 1) s1 (i :: fl)) as (s' & E & Hl' & Hf & Ho); try lia.
    + split; [done|]. cbn. rewrite fn_lookup_insert. cbn.
      eapply linked_ext; [|exact Hl]. intros j Hj. specialize (Hfl j Hj). cbn. by fsimpl.
    + intros j [->|Hj]%elem_of_cons; [lia|]. specialize (Hfl j Hj). lia.
    + exists s'. split; [exact E|]. split_and!.
      * replace (seqZ (1024 - k - Z.of_nat (S n)) (Z.of_nat (S n)))
          with (seqZ (1024 - (k + 1) - Z.of_nat n) (Z.of_nat n) ++ [i]); [by rewrite <- app_assoc|].
        replace (Z.of_nat (S n)) with (Z.of_nat n + 1) by lia.
        rewrite (seqZ_app _ (Z.of_nat n) 1) by lia. f_equal; [f_equal; lia|].
        rewrite seqZ_cons by lia. cbn. f_equal. lia.
      * intros j Hj. destruct (decide (j = i)) as [->|]; [|apply Hf; lia].
        rewrite Ho by lia. cbn. by rewrite fn_lookup_insert.
      * intros j Hj. rewrite Ho by lia. cbn. by fsimpl.
Qed.

(** after [env_init] every environment is free with identifier 0, and the
    list of free environments is [envs] in order, so that the first
    [env_alloc] takes [envs[0]]. *)
Theorem env_init_in_order (s : kstate) :
  exists s', env_init s = Ret tt s' /\ env_list s' (seqZ 0 NENV)
    /\ forall i, 0 <= i < NENV -> env_status (envs s' i) = ENV_FREE /\ env_id (envs s' i) = 0.
Proof.
  unfold env_init, bind, modify.
  destruct (env_init_loop 1024 0 (set_env_free_list None s) []) as (s' & E & Hl & Hf & _);
    [done|lia|lia|set_solver|].
  exists s'. split; [exact E|]. rewrite app_nil_r in Hl. split; [exact Hl|]. intros. apply Hf.
  unfold NENV in *. lia.
Qed.

(** ** The address space of a new environment *)

Section setup.

Context (s : kstate) (l D : list Z) (p : Z) (Hok : space_ok s (p :: l) D).
Context (kp e : Z) (Hkp : 0 <= kp < npages s) (Hkl : kp ∉ p :: l) (Hkern : kern_pgdir s = kva kp).
Context (Huser : forall i, 0 <= i < user_pdes -> table_of s kp i = None).

(** The state after [env_setup_vm(e)]. *)
Definition vm_made : kstate :=
  let s1 := upd_env e (set_env_pgdir (kva p)) (allocated ALLOC_ZERO p s) in
  let s2 := bumped p (set_phys (mcpy (phys s1) (p * 4096) (kp * 4096) 4096) s1) in
  set_phys (wr32 (phys s2) (p * 4096 + 4 * PDX UVPT) (Z.lor (Z.lor (p * 4096) PTE_P) PTE_U)) s2.

Lemma setup_range : 0 <= p < npages s /\ npages s <= 65536.
Proof.
  split; [|apply (so_npages _ _ _ Hok)].
  eapply (ai_range _ _ (so_alloc _ _ _ Hok)). set_solver.
Qed.

Lemma env_setup_vm_eq : env_setup_vm e s = Ret 0 vm_made.
Proof.
  pose proof setup_range as [Hp Hn]. unfold env_setup_vm.
  rewrite (bind_ret _ _ _ _ _ (page_alloc_cons ALLOC_ZERO _ _ _ (so_alloc _ _ _ Hok))).
  rewrite (bind_ret _ _ _ _ _ (page2kva_eq (allocated ALLOC_ZERO p s) p Hp Hn)). fold (kva p).
  unfold bind, modify, gets, kmemcpy. cbv beta iota.
  change (kern_pgdir (upd_env _ _ _)) with (kern_pgdir s). rewrite Hkern.
  unfold modify. cbv beta iota. rewrite PADDR_kva by lia. rewrite kstore_word. unfold ret.
  unfold vm_made, bumped, kva. do 3 f_equal.
  all: replace (p * 4096 + KERNBASE - KERNBASE) with (p * 4096) by lia.
  all: replace (kp * 4096 + KERNBASE - KERNBASE) with (kp * 4096) by lia.
  all: done.
Qed.

Lemma setup_kp_ne : kp <> p.
Proof. set_solver. Qed.

Lemma vm_word_other q j : q <> p -> 0 <= j < 1024 -> word vm_made q j = word s q j.
Proof.
  intros Hq Hj. unfold vm_made. rewrite word_set_ne; [|apply PDX_range|done|congruence].
  unfold word, allocated. change (flag ALLOC_ZERO ALLOC_ZERO) with true. cbn.
  rewrite rd32_mcpy_out by lia. by rewrite rd32_mset_out by lia.
Qed.

Lemma vm_word_dir j : 0 <= j < 1024 -> j <> PDX UVPT -> word vm_made p j = word s kp j.
Proof.
  intros Hj Hne. pose proof setup_kp_ne. unfold vm_made. rewrite word_set_ne; [|apply PDX_range|done|congruence].
  unfold word, allocated. change (flag ALLOC_ZERO ALLOC_ZERO) with true. cbn.
  rewrite rd32_mcpy_in by lia. rewrite rd32_mset_out by lia. f_equal. lia.
Qed.

Lemma vm_word_uvpt : word vm_made p (PDX UVPT) = Z.lor (p * 4096) (Z.lor PTE_P PTE_U).
Proof.
  pose proof setup_range. unfold vm_made. rewrite word_set_eq, <- Z.lor_assoc.
  change (Z.lor PTE_P PTE_U) with 5. apply u32_id. rewrite lor_page_low; lia.
Qed.

Lemma vm_table_new i : 0 <= i < user_pdes -> table_of vm_made p i = None.
Proof.
  intros Hi. rewrite <- (Huser i Hi). unfold table_of. rewrite user_pdes_eq in Hi.
  rewrite vm_word_dir; [done|lia|]. change (PDX UVPT) with 957. lia.
Qed.

Lemma vm_view : same_view D s vm_made.
Proof.
  assert (forall d, d ∈ D -> d <> p) as Hd by (intros d H%(so_dir_used _ _ _ Hok); set_solver).
  assert (forall d i, d ∈ D -> 0 <= i < user_pdes -> table_of vm_made d i = table_of s d i) as Ht.
  { intros d i ? Hi. rewrite user_pdes_eq in Hi. unfold table_of. by rewrite vm_word_other by (auto || lia). }
  split; [done|]. intros d v Hd' Hv. unfold pte_of. rewrite Ht by (auto using vpn_pde).
  destruct (table_of s d (v / 1024)) as [t|] eqn:E; [|done].
  apply vm_word_other; [|apply vpn_split].
  assert (t ∉ p :: l) by (eapply so_tab_used; eauto using vpn_pde). set_solver.
Qed.

Lemma vm_ref q : pp_ref (pages vm_made q) = if decide (q = p) then 1 else pp_ref (pages s q).
Proof.
  unfold vm_made, bumped. cbn [pages set_phys upd_page set_pages upd_env set_envs].
  destruct (decide (q = p)) as [->|]; fsimpl; [|by rewrite allocated_other].
  rewrite allocated_self. cbn. by rewrite (ai_ref _ _ (so_alloc _ _ _ Hok)) by set_solver.
Qed.

Lemma vm_mapped_new v : 0 <= v < user_vpns -> mapped vm_made p v = None.
Proof. intros Hv. unfold mapped, pte_of. by rewrite vm_table_new by (by apply vpn_pde). Qed.

Lemma vm_refs q : refs vm_made (p :: D) q = refs s D q.
Proof.
  change (p :: D) with ([p] ++ D). rewrite refs_app, no_tables_refs by apply vm_table_new.
  rewrite Z.add_0_l. apply refs_view, vm_view.
Qed.

Lemma vm_ok : space_ok vm_made l (p :: D).
Proof.
  pose proof setup_range as [Hp Hn].
  assert (p ∉ D) as HpD by (intros H%(so_dir_used _ _ _ Hok); set_solver).
  assert (npages vm_made = npages s) as En by apply allocated_npages.
  assert (forall d i t, d ∈ p :: D -> 0 <= i < user_pdes -> table_of vm_made d i = Some t ->
            d ∈ D /\ t <> p /\ table_of s d i = Some t) as Hold.
  { intros d i t [->|Hd]%elem_of_cons Hi; [by rewrite vm_table_new|].
    rewrite (sv_tab _ _ _ vm_view) by done. intros E. split; [done|]. split; [|done].
    assert (t ∉ p :: l) by (by eapply so_tab_used). set_solver. }
  split; rewrite ?En.
  - pose proof (alloc_inv_pop ALLOC_ZERO _ _ _ (so_alloc _ _ _ Hok)) as Ha.
    pose proof (linked_NoDup _ _ _ (ai_chain _ _ (so_alloc _ _ _ Hok))) as [Hpl _]%NoDup_cons.
    eapply (alloc_inv_frame (bumped p (allocated ALLOC_ZERO p s))); [done..|].
    apply alloc_inv_upd_ref; done.
  - constructor; [done|apply (so_nodup _ _ _ Hok)].
  - intros d Hd. rewrite vm_ref. destruct (decide (d = p)) as [->|]; [done|].
    apply (so_dir _ _ _ Hok). set_solver.
  - intros d i t Hd Hi (Hd' & Ht & E)%Hold; [|done..].
    destruct (so_tab _ _ _ Hok d i t Hd' Hi E) as (? & ? & ?).
    rewrite vm_ref, decide_False by done. split_and!; [lia..|done|set_solver].
  - intros d i d' i' t Hd Hd' Hi Hi' (Hd1 & _ & E)%Hold (Hd2 & _ & E')%Hold; [|done..].
    by apply (so_inj _ _ _ Hok d i d' i' t).
  - intros d v q Hd Hv Hm. apply elem_of_cons in Hd as [->|Hd]; [by rewrite vm_mapped_new in Hm|].
    rewrite (mapped_pte s) in Hm by (by apply (sv_pte _ _ _ vm_view)).
    destruct (so_page _ _ _ Hok d v q Hd Hv Hm) as (? & ? & Hq).
    assert (q ∉ p :: l) by (by eapply so_mapped_used).
    split; [done|]. split; [set_solver|]. intros d' i Hd' Hi (? & _ & ?)%Hold; [|done..]. by eapply Hq.
  - intros q. rewrite vm_refs, vm_ref. pose proof (so_refs _ _ _ Hok q).
    destruct (decide (q = p)) as [->|]; [|done].
    rewrite (ai_ref _ _ (so_alloc _ _ _ Hok) p) in H by set_solver. lia.
Qed.

End setup.

(** ** env_alloc *)

(** The kernel's page directory: in page [kp], empty below [UTOP]. *)
Record kern_dir (s : kstate) (l : list Z) (kp : Z) : Prop := {
  kd_range : 0 <= kp < npages s;
  kd_used : kp ∉ l;
  kd_at : kern_pgdir s = kva kp;
  kd_user : forall i, 0 <= i < user_pdes -> table_of s kp i = None
}.

(** The fields [env_alloc] sets after the address space is there. *)
Definition env_made (parent e : Z) (s : kstate) : kstate :=
  let s1 := upd_env e (fun x =>
          set_env_ipc_recving false (set_env_pgfault_upcall 0 (set_env_tf initial_tf
            (set_env_runs 0 (set_env_status ENV_RUNNABLE (set_env_type ENV_TYPE_USER
              (set_env_parent_id parent (set_env_id (next_env_id (env_id x) e) x)))))))) s in
  upd_env e (set_env_e1000_waiting_rx false) (set_env_free_list (env_link (envs s1 e)) s1).

Lemma env_alloc_eq s l D p kp e fl parent :
  space_ok s (p :: l) D -> kern_dir s (p :: l) kp -> env_list s (e :: fl) ->
  env_alloc parent s = Ret (0, Some e) (env_made parent e (vm_made s p kp e)).
Proof.
  intros Hok [H1 H2 H3 H4] [Hfl _]. unfold env_alloc.
  rewrite (bind_ret _ _ s (Some e) s) by (unfold gets; by rewrite Hfl).
  rewrite (bind_ret _ _ s 0 (vm_made s p kp e)) by (by eapply env_setup_vm_eq). done.
Qed.

Lemma env_made_self parent e s :
  envs (env_made parent e s) e =
    set_env_e1000_waiting_rx false (set_env_ipc_recving false (set_env_pgfault_upcall 0
      (set_env_tf initial_tf (set_env_runs 0 (set_env_status ENV_RUNNABLE
        (set_env_type ENV_TYPE_USER (set_env_parent_id parent
          (set_env_id (next_env_id (env_id (envs s e)) e) (envs s e))))))))).
Proof. unfold env_made. cbn. rewrite !fn_lookup_insert. done. Qed.

Lemma env_made_phys parent e s : phys (env_made parent e s) = phys s.
Proof. done. Qed.

Lemma env_made_other parent e s i : i <> e -> envs (env_made parent e s) i = envs s i.
Proof. intros. unfold env_made. cbn. by rewrite !fn_lookup_insert_ne by done. Qed.

Lemma vm_made_envs s p kp e :
  envs (vm_made s p kp e) = <[e := set_env_pgdir (kva p) (envs s e)]> (envs s)
  /\ env_free_list (vm_made s p kp e) = env_free_list s.
Proof. done. Qed.

Lemma env_made_list parent e fl s p kp :
  env_list s (e :: fl) -> env_list (env_made parent e (vm_made s p kp e)) fl.
Proof.
  intros Hl. pose proof (linked_NoDup _ _ _ Hl) as [He _]%NoDup_cons. destruct Hl as [_ Hl].
  unfold env_list.
  assert (env_free_list (env_made parent e (vm_made s p kp e)) = env_link (envs s e)) as ->.
  { unfold env_made. cbn. rewrite fn_lookup_insert. cbn. by rewrite fn_lookup_insert. }
  eapply linked_ext; [|exact Hl]. intros i Hi. cbv beta.
  assert (i <> e) by (intros ->; done). rewrite env_made_other by done.
  destruct (vm_made_envs s p kp e) as [-> _]. by rewrite fn_lookup_insert_ne by done.
Qed.

(** The identifiers in [envs] are those the slots were given. *)
Definition ids_ok (s : kstate) : Prop :=
  forall i, 0 <= i < NENV -> 0 <= env_id (envs s i) < 2147483648.

(** C19: [env_alloc] fails with [-E_NO_FREE_ENV] or [-E_NO_MEM] and changes
    nothing when no slot or no page is free.  Otherwise the new environment has
    a directory of its own with nothing mapped below [UTOP], the kernel's
    entries above it and itself at [UVPT]; no other address space changes; its
    slot has left the free list.  It is a runnable user environment that has not
    run, waits for nothing and has no page fault handler; its registers are zero
    but for the code selector 27, that is [GD_UT] with privilege level 3, the data
    and stack selectors 35, that is [GD_UD] with level 3, [%eflags] 512, the
    interrupt flag alone, and [%esp] 0xeebfe000, the top of the user stack. *)
Theorem env_alloc_creates (s : kstate) (l D fl : list Z) (kp parent : Z) :
  space_ok s l D -> kern_dir s l kp -> env_list s fl ->
  match fl, l with
  | [], _ => env_alloc parent s = Ret (- E_NO_FREE_ENV, None) s
  | _, [] => env_alloc parent s = Ret (- E_NO_MEM, None) s
  | e :: fl', p :: l' => exists s', env_alloc parent s = Ret (0, Some e) s'
      /\ space_ok s' l' (p :: D) /\ env_list s' fl'
      /\ env_pgdir (envs s' e) = kva p
      /\ (forall v, 0 <= v < user_vpns -> mapped s' p v = None)
      /\ (forall i, 0 <= i < 1024 ->
            word s' p i = if i =? PDX UVPT then Z.lor (p * 4096) (Z.lor PTE_P PTE_U) else word s kp i)
      /\ (forall d v, d ∈ D -> 0 <= v < user_vpns -> pte_of s' d v = pte_of s d v)
      /\ env_status (envs s' e) = ENV_RUNNABLE /\ env_parent_id (envs s' e) = parent
      /\ env_type (envs s' e) = ENV_TYPE_USER /\ env_runs (envs s' e) = 0
      /\ env_pgfault_upcall (envs s' e) = 0 /\ env_ipc_recving (envs s' e) = false
      /\ env_e1000_waiting_rx (envs s' e) = false
      /\ env_tf (envs s' e) =
           mkTrapframe (mkPushRegs 0 0 0 0 0 0 0 0) 35 35 0 0 0 27 512 4005552128 35
      /\ (forall i, i <> e -> envs s' i = envs s i)
  end.
Proof.
  intros Hok Hkd Hfl. destruct fl as [|e fl]; [|destruct l as [|p l]].
  - unfold env_alloc. unfold env_list in Hfl. cbn in Hfl. unfold bind, gets. by rewrite Hfl.
  - destruct Hfl as [Hfl _]. unfold env_alloc, env_setup_vm.
    rewrite (bind_ret _ _ s (Some e) s) by (unfold gets; by rewrite Hfl).
    rewrite bind_assoc, (bind_ret _ _ _ _ _ (page_alloc_nil ALLOC_ZERO s (so_alloc _ _ _ Hok))). done.
  - exists (env_made parent e (vm_made s p kp e)).
    pose proof (env_alloc_eq s l D p kp e fl parent Hok Hkd Hfl) as E.
    destruct Hkd as [H1 H2 H3 H4]. split; [exact E|].
    split; [eapply space_ok_frame; [eapply (vm_ok s l D p Hok kp e); done|done..]|].
    split; [by apply env_made_list|]. rewrite env_made_self.
    destruct (vm_made_envs s p kp e) as [Ee _].
    split; [rewrite Ee; cbn; by rewrite fn_lookup_insert|].
    split; [intros v Hv; rewrite (mapped_phys (vm_made s p kp e)) by apply env_made_phys;
      by eapply vm_mapped_new|]. split_and!; try done.
    + intros i Hi. destruct (Z.eqb_spec i (PDX UVPT)) as [->|].
      * rewrite (word_phys (vm_made s p kp e)) by apply env_made_phys. by eapply vm_word_uvpt.
      * rewrite (word_phys (vm_made s p kp e)) by apply env_made_phys. by eapply vm_word_dir.
    + intros d v Hd Hv. rewrite (pte_of_phys (vm_made s p kp e)) by apply env_made_phys.
      by apply (sv_pte _ _ _ (vm_view s l D p Hok kp e H1 H2 H3 H4)).
    + intros i Hi. rewrite env_made_other by done. rewrite Ee. by fsimpl.
Qed.

(** C20: identifiers of dead environments never come back to life: when
    [env_alloc] reuses a slot, [envid2env] on the identifier the slot had
    before fails, and on the new one, which is positive, it finds the slot. *)
Theorem env_alloc_stale_id (s s' : kstate) (l D fl : list Z) (kp parent e : Z) :
  space_ok s l D -> kern_dir s l kp -> env_list s fl ->
  0 <= e < NENV -> 0 <= env_id (envs s e) < 2147483648 -> ENVX (env_id (envs s e)) = e ->
  env_alloc parent s = Ret (0, Some e) s' ->
  let old := env_id (envs s e) in let new := env_id (envs s' e) in
  0 < new < 2147483648 /\ ENVX new = e /\ new <> old
  /\ (old <> 0 -> forall cp, envid2env old cp s' = Ret (- E_BAD_ENV, None) s')
  /\ envid2env new false s' = Ret (0, Some e) s'.
Proof.
  intros Hok Hkd Hfl He Hid Hx E old new.
  destruct fl as [|e0 fl]; [unfold env_alloc, env_list in *; cbn in Hfl, E; unfold bind, gets in E;
    rewrite Hfl in E; discriminate|].
  destruct l as [|p l].
  { destruct Hfl as [Hfl _]. unfold env_alloc, env_setup_vm in E.
    rewrite (bind_ret _ _ s (Some e0) s) in E by (unfold gets; by rewrite Hfl).
    rewrite bind_assoc, (bind_ret _ _ _ _ _ (page_alloc_nil ALLOC_ZERO s (so_alloc _ _ _ Hok))) in E.
    discriminate. }
  rewrite (env_alloc_eq s l D p kp e0 fl parent Hok Hkd Hfl) in E. injection E as -> Es'.
  assert (new = next_env_id old e /\ env_status (envs s' e) = ENV_RUNNABLE) as [En Est].
  { subst new. rewrite <- Es', env_made_self. destruct (vm_made_envs s p kp e) as [-> _].
    cbn. rewrite fn_lookup_insert. done. }
  destruct (next_env_id_fresh old e Hid He) as (Hn1 & Hn2 & Hn3). rewrite <- En in *.
  split; [done|]. split; [done|]. split; [done|]. split.
  - intros Hz cp. unfold envid2env, bind, gets, ret.
    destruct (Z.eqb_spec old 0); [done|]. fold old in Hx. rewrite Hx. fold new.
    destruct (Z.eqb_spec new old); [done|]. by rewrite orb_true_r.
  - unfold envid2env, bind, gets, ret. destruct (Z.eqb_spec new 0); [lia|].
    rewrite Hn2. fold new. rewrite Est, Z.eqb_refl. done.
Qed.

(** Slot 6 is free and was last used under identifier 0x1006. *)
Definition env_state : kstate :=
  set_kern_pgdir (kva 1) (set_env_free_list (Some 6) (upd_env 6 (set_env_id 4102) small_state)).

Lemma env_state_ok : space_ok env_state [3; 5; 9] [2; 4].
Proof. eapply space_ok_frame; [exact small_space_ok|reflexivity..]. Qed.

Lemma env_state_kern : kern_dir env_state [3; 5; 9] 1.
Proof.
  split; [cbn; lia| |done|].
  - apply (bool_decide_unpack _). by vm_compute.
  - intros i _. by apply zero_table.
Qed.

Lemma env_state_list : env_list env_state [6].
Proof. done. Qed.

Lemma env_alloc_creates_witness :
  exists s', env_alloc 0 env_state = Ret (0, Some 6) s' /\ space_ok s' [5; 9] [3; 2; 4]
    /\ env_pgdir (envs s' 6) = kva 3 /\ Z.land (tf_cs (env_tf (envs s' 6))) 3 = 3
    /\ Z.testbit (tf_eflags (env_tf (envs s' 6))) 9 = true.
Proof.
  destruct (env_alloc_creates env_state [3; 5; 9] [2; 4] [6] 1 0 env_state_ok env_state_kern
              env_state_list) as (s' & E & Hok & _ & Hpg & _ & _ & _ & _ & _ & _ & _ & _ & _ & _ & Htf & _).
  exists s'. split; [exact E|]. split; [exact Hok|]. split; [exact Hpg|]. rewrite Htf. split; reflexivity.
Defined.

Lemma env_alloc_stale_id_witness :
  exists s', env_alloc 0 env_state = Ret (0, Some 6) s'
    /\ envid2env 4102 false s' = Ret (- E_BAD_ENV, None) s'
    /\ envid2env (env_id (envs s' 6)) false s' = Ret (0, Some 6) s'.
Proof.
  pose proof (env_alloc_eq env_state [5; 9] [2; 4] 3 1 6 [] 0 env_state_ok env_state_kern
                env_state_list) as E.
  eexists. split; [exact E|].
  destruct (env_alloc_stale_id env_state _ [3; 5; 9] [2; 4] [6] 1 0 6 env_state_ok env_state_kern
              env_state_list ltac:(unfold NENV; lia) ltac:(vm_compute; split; congruence)
              ltac:(reflexivity) E) as (_ & _ & _ & H1 & H2).
  split; [apply H1; discriminate|exact H2].
Defined.

End EnvAlloc.
