(* ===== verification/Sched.v ===== *)
(** * The scheduler (kern/sched.c), [env_destroy] and time (kern/time.c)

    [sched_yield] and [sched_halt] as written, [env_destroy] of kern/env.c,
    which ends in [sched_yield], and the millisecond clock.  The theorems: the
    choice is round robin, on a CPU that still has what it switched to before a
    runnable environment waits for at most [NENV - 1] other turns, and a CPU with
    nothing to run gives the lock back. *)

From stdpp Require Import base numbers list functions strings.
From Stdlib Require Import ZArith Lia Ascii.
From S2P Require Import Prelude Mem Mmu Console Kernel Printfmt Pmap PageAlloc Env.

Open Scope Z_scope.
Open Scope jos_scope.

Module Sched.

Import Pmap Env Vm Printfmt.

Definition newline : string := String (ascii_of_nat 10) EmptyString.

(** [i == NENV] after the loop: no environment is runnable, running or dying. *)
Definition nothing_alive (s : kstate) : bool :=
  forallb (fun i => negb ((env_status (envs s i) =? ENV_RUNNABLE)
                          || (env_status (envs s i) =? ENV_RUNNING)
                          || (env_status (envs s i) =? ENV_DYING)))
    (seqZ 0 NENV).

Definition set_cpu_state (st : Z) (s : kstate) : kstate :=
  set_cpus (<[cpunum s := set_cpu_status st (cpus s (cpunum s))]> (cpus s)) s.

Definition sched_halt : K unit :=
  let! dead := gets nothing_alive in
  if dead : bool then
    do! kcprintf (String.append "No runnable environments in the system!" newline) [] in
    (fun s => Monitor s)
  else
    do! modify (set_curenv None) in
    let! kpd := gets kern_pgdir in
    let! pa := PADDR kpd in
    do! lcr3 pa in
    do! modify (set_cpu_state CPU_HALTED) in
    do! unlock_kernel in
    (fun s => Halt s).

(** The circular search: [n] slots are left, [i] is the last one looked at. *)
Fixpoint sched_scan (n : nat) (i : Z) : K unit :=
  match n with
  | O => ret tt
  | S n =>
    let i := (i + 1) mod NENV in
    let! st := gets (fun s => env_status (envs s i)) in
    do! (if st =? ENV_RUNNABLE then env_run i else ret tt) in
    sched_scan n i
  end.

Definition sched_rx_step (i : Z) : K unit :=
  let! w := gets (fun s => env_e1000_waiting_rx (envs s i)) in
  if w : bool then
    do! modify (upd_env i (set_env_e1000_waiting_rx false)) in env_run i
  else ret tt.

Definition sched_yield : K unit :=
  let! cur := gets curenv in
  let! i := gets (fun s => match cur with Some c => ENVX (env_id (envs s c)) | None => 0 end) in
  do! sched_scan (Z.to_nat NENV) i in
  let! running := gets (fun s => match cur with
                                 | Some c => env_status (envs s c) =? ENV_RUNNING
                                 | None => false
                                 end) in
  do! (match cur with
       | Some c => if running : bool then env_run c else ret tt
       | None => ret tt
       end) in
  do! for_loop (Z.to_nat NENV) 0 sched_rx_step in
  sched_halt.

(** kern/env.c *)
Definition env_destroy (e : Z) : K unit :=
  let! cur := gets curenv in
  let! st := gets (fun s => env_status (envs s e)) in
  if (st =? ENV_RUNNING) && negb (bool_decide (cur = Some e)) then
    modify (upd_env e (set_env_status ENV_DYING))
  else
    do! env_free e in
    if bool_decide (cur = Some e) then
      do! modify (set_curenv None) in sched_yield
    else ret tt.

(** ** kern/time.c *)

Definition time_init : K unit := modify (set_ticks 0).

Definition time_tick : K unit :=
  do! modify (fun s => set_ticks (u32 (ticks s + 1)) s) in
  let! t := gets ticks in
  if u32 (t * 10) <? t then panic "time_tick: time overflowed" else ret tt.

Definition time_msec : K Z := gets (fun s => u32 (ticks s * 10)).

(** the clock is exact until it stops: as long as the time in milliseconds
    fits 32 bits [time_tick] adds one tick and [time_msec] is ten times the
    ticks; the tick that would make it overflow panics. *)
Theorem time_tick_exact (s : kstate) :
  0 <= ticks s <= 429496729 ->
  if ticks s <? 429496729
  then exists s', time_tick s = Ret tt s' /\ ticks s' = ticks s + 1
         /\ time_msec s' = Ret (10 * (ticks s + 1)) s'
  else exists s', time_tick s = Panic "time_tick: time overflowed" s'.
Proof.
  intros H. unfold time_tick, bind, modify, gets, ret. cbn [ticks set_ticks].
  rewrite (u32_id (ticks s + 1)) by lia. destruct (Z.ltb_spec (ticks s) 429496729).
  - exists (set_ticks (ticks s + 1) s). rewrite u32_id by lia.
    destruct (Z.ltb_spec ((ticks s + 1) * 10) (ticks s + 1)); [lia|].
    split; [done|]. split; [done|]. unfold time_msec, gets. cbn. rewrite u32_id by lia. f_equal. lia.
  - replace (ticks s) with 429496729 by lia. eexists. reflexivity.
Qed.

Lemma time_tick_exact_witness :
  exists s', time_tick (set_ticks 41 PageAlloc.boot_state) = Ret tt s' /\ ticks s' = 42.
Proof.
  destruct (time_tick_exact (set_ticks 41 PageAlloc.boot_state)) as (s' & E & Ht & _);
    [vm_compute; split; congruence|]. exists s'. split; [exact E|exact Ht].
Defined.

(** ** Switching *)

(** The environment that ran on this CPU is preempted. *)
Definition preempted (s : kstate) : kstate :=
  match curenv s with
  | Some c => if env_status (envs s c) =? ENV_RUNNING
              then upd_env c (set_env_status ENV_RUNNABLE) s else s
  | None => s
  end.

(** The state in which user code of [e] starts. *)
Definition ran (e : Z) (s : kstate) : kstate :=
  let s1 := upd_env e (fun x => set_env_runs (u32 (env_runs x + 1)) x)
              (upd_env e (set_env_status ENV_RUNNING) (set_curenv (Some e) (preempted s))) in
  upd_env e (set_env_cpunum (cpunum s))
    (set_kernel_locked false (set_cr3 (env_pgdir (envs s e) - KERNBASE) s1)).

(** [e] has a page directory the kernel can load. *)
Definition has_dir (s : kstate) (e : Z) : Prop := KERNBASE <= env_pgdir (envs s e) < 4294967296.

Lemma curenv_set e s : curenv (set_curenv e s) = e.
Proof. unfold curenv, set_curenv. cbn. by rewrite fn_lookup_insert. Qed.

Lemma preempted_pgdir s i : env_pgdir (envs (preempted s) i) = env_pgdir (envs s i).
Proof.
  unfold preempted. destruct (curenv s) as [c|]; [|done]. destruct (_ =? _); [|done]. cbn.
  destruct (decide (i = c)) as [->|]; fsimpl; done.
Qed.

Lemma preempted_frame s :
  cpunum (preempted s) = cpunum s /\ kernel_locked (preempted s) = kernel_locked s
  /\ cpus (preempted s) = cpus s.
Proof. unfold preempted. destruct (curenv s) as [c|]; [|done]. by destruct (_ =? _). Qed.

Lemma env_run_eq e s :
  has_dir s e -> kernel_locked s = true -> env_run e s = ToUser (ran e s).
Proof.
  intros Hd Hl. unfold env_run. rewrite (bind_ret _ _ s (curenv s) s) by done.
  rewrite (bind_ret _ _ s tt (preempted s)).
  2: { unfold preempted, modify, ret. destruct (curenv s); [|done]. by destruct (_ =? _). }
  destruct (preempted_frame s) as (Hc & Hk & Hcp).
  unfold bind at 1 2 3 4, modify, gets. cbv beta iota.
  set (s1 := upd_env e _ _).
  assert (env_pgdir (envs s1 e) = env_pgdir (envs s e)) as Ep.
  { subst s1. cbn. rewrite !fn_lookup_insert. cbn. apply preempted_pgdir. }
  rewrite Ep. unfold bind, PADDR, has_dir, KERNBASE in *. rewrite (u32_id (env_pgdir _)) by lia.
  destruct (Z.ltb_spec (env_pgdir (envs s e)) 4026531840); [lia|]. unfold ret.
  rewrite u32_id by lia. unfold lcr3, unlock_kernel, bind, gets, modify. cbn [kernel_locked set_cr3].
  assert (kernel_locked s1 = true) as -> by (subst s1; cbn; congruence).
  unfold env_pop_tf.
  assert (curenv (set_kernel_locked false (set_cr3 (env_pgdir (envs s e) - 4026531840) s1)) = Some e) as ->
    by apply (curenv_set (Some e) (preempted s)).
  unfold ran. f_equal. subst s1. f_equal. f_equal. cbn. done.
Qed.

Lemma ran_curenv e s : curenv (ran e s) = Some e.
Proof. apply (curenv_set (Some e) (preempted s)). Qed.

Lemma ran_other e s i :
  i <> e -> envs (ran e s) i = envs (preempted s) i.
Proof. intros. unfold ran. cbn. by fsimpl. Qed.

Lemma ran_self e s :
  env_status (envs (ran e s) e) = ENV_RUNNING /\ env_id (envs (ran e s) e) = env_id (envs s e).
Proof.
  unfold ran. cbn. rewrite !fn_lookup_insert. cbn. split; [done|].
  unfold preempted. destruct (curenv s) as [c|]; [|done]. destruct (_ =? _); [|done]. cbn.
  destruct (decide (e = c)) as [->|]; fsimpl; done.
Qed.

(** ** The choice *)

Definition runnable (s : kstate) (i : Z) : bool := env_status (envs s i) =? ENV_RUNNABLE.

(** The slot looked at in step [k] of the search that starts after [i]. *)
Definition slot_after (i : Z) (k : nat) : Z := (i + 1 + Z.of_nat k) mod NENV.

Lemma sched_scan_found n : forall i s k,
  (k < n)%nat -> runnable s (slot_after i k) = true ->
  (forall k', (k' < k)%nat -> runnable s (slot_after i k') = false) ->
  has_dir s (slot_after i k) -> kernel_locked s = true ->
  sched_scan n i s = ToUser (ran (slot_after i k) s).
Proof.
  induction n as [|n IH]; intros i s k Hk Hr Hmin Hd Hl; [lia|].
  cbn [sched_scan]. rewrite (bind_ret _ _ s (env_status (envs s ((i + 1) mod NENV))) s) by done.
  assert (slot_after i 0 = (i + 1) mod NENV) as E0 by (unfold slot_after; f_equal; lia).
  destruct k as [|k].
  - rewrite E0 in *. unfold runnable in Hr. rewrite Hr.
    unfold bind. by rewrite env_run_eq.
  - pose proof (Hmin 0%nat ltac:(lia)) as H0. rewrite E0 in H0. unfold runnable in H0. rewrite H0.
    assert (forall k, slot_after ((i + 1) mod NENV) k = slot_after i (S k)) as Es.
    { intros k0. unfold slot_after, NENV. zdm. }
    unfold bind. cbn [ret]. rewrite <- Es in *. apply IH; [lia|done| |done|done].
    intros k' Hk'. rewrite Es. apply Hmin. lia.
Qed.

Lemma sched_scan_none n : forall i s,
  (forall k, (k < n)%nat -> runnable s (slot_after i k) = false) -> sched_scan n i s = Ret tt s.
Proof.
  induction n as [|n IH]; intros i s Hmin; [done|].
  cbn [sched_scan]. rewrite (bind_ret _ _ s (env_status (envs s ((i + 1) mod NENV))) s) by done.
  pose proof (Hmin 0%nat ltac:(lia)) as H0.
  assert (slot_after i 0 = (i + 1) mod NENV) as E0 by (unfold slot_after; f_equal; lia).
  rewrite E0 in H0. unfold runnable in H0. rewrite H0. unfold bind. cbn [ret]. apply IH.
  intros k Hk. rewrite <- (Hmin (S k)) by lia. f_equal. unfold slot_after, NENV. zdm.
Qed.

(** Where the search starts. *)
Definition cursor (s : kstate) : Z :=
  match curenv s with Some c => ENVX (env_id (envs s c)) | None => 0 end.

Lemma cursor_range s : 0 <= cursor s < 1024.
Proof.
  unfold cursor, ENVX, NENV. destruct (curenv s); [|lia].
  pose proof (land_le_r (env_id (envs s z)) (1024 - 1)). lia.
Qed.

Lemma slot_after_cursor i j : 0 <= i < 1024 -> 0 <= j < 1024 -> j = slot_after i (Z.to_nat ((j - i - 1) mod 1024)).
Proof. intros. unfold slot_after, NENV. rewrite Z2Nat.id by zdm. zdm. Qed.

(** Either none of the first [n] slots of a search is runnable or there is a
    first one. *)
Lemma first_runnable s i n :
  (forall k, (k < n)%nat -> runnable s (slot_after i k) = false)
  \/ exists k, (k < n)%nat /\ runnable s (slot_after i k) = true
       /\ forall k', (k' < k)%nat -> runnable s (slot_after i k') = false.
Proof.
  induction n as [|n IH]; [left; lia|]. destruct IH as [IH|(k & ? & ? & ?)]; [|right; exists k; auto with lia].
  destruct (runnable s (slot_after i n)) eqn:E; [right; exists n; auto|].
  left. intros k Hk. destruct (decide (k = n)) as [->|]; [done|]. apply IH. lia.
Qed.

(** How many slots after [i] the search reaches [j]. *)
Definition distance (i j : Z) : Z := (j - i - 1) mod NENV.

(** [sched_yield] hands the CPU to the first runnable slot after the cursor. *)
Lemma sched_yield_picks s j :
  0 <= j < NENV -> runnable s j = true -> (forall i, runnable s i = true -> has_dir s i) ->
  kernel_locked s = true ->
  exists k, 0 <= k < NENV /\ runnable s k = true /\ sched_yield s = ToUser (ran k s)
    /\ distance (cursor s) k <= distance (cursor s) j
    /\ forall i, 0 <= i < NENV -> runnable s i = true -> distance (cursor s) k <= distance (cursor s) i.
Proof.
  intros Hj Hr Hd Hl. pose proof (cursor_range s) as Hc. unfold NENV in Hj.
  assert (forall i, 0 <= i < 1024 -> runnable s i = true ->
            runnable s (slot_after (cursor s) (Z.to_nat (distance (cursor s) i))) = true) as Hs.
  { intros i Hi Hri. unfold distance, NENV. by rewrite <- slot_after_cursor. }
  destruct (first_runnable s (cursor s) 1024) as [Hnone|(k & Hk & Hrk & Hmin)].
  { specialize (Hs j Hj Hr). rewrite Hnone in Hs; [done|]. unfold distance, NENV. zdm. }
  assert (distance (cursor s) (slot_after (cursor s) k) = Z.of_nat k) as Ek
    by (unfold distance, slot_after, NENV; zdm).
  assert (forall i, 0 <= i < 1024 -> runnable s i = true -> Z.of_nat k <= distance (cursor s) i) as Hbest.
  { intros i Hi Hri. specialize (Hs i Hi Hri).
    destruct (decide (Z.of_nat k <= distance (cursor s) i)); [done|].
    rewrite Hmin in Hs; [done|]. assert (0 <= distance (cursor s) i) by (unfold distance, NENV; zdm). lia. }
  exists (slot_after (cursor s) k). split; [unfold slot_after, NENV; zdm|]. split; [done|].
  split; [|rewrite Ek; split; [by apply Hbest|exact Hbest]].
  unfold sched_yield. rewrite (bind_ret _ _ s (curenv s) s) by done.
  rewrite (bind_ret _ _ s (cursor s) s) by done. unfold bind.
  change (Z.to_nat NENV) with 1024%nat. rewrite (sched_scan_found 1024 _ s k); auto.
Qed.

(** C24: with a runnable environment in the system, [sched_yield] enters user
    mode in the runnable environment that comes first in circular order after
    the one this CPU ran last.  It is now running, the one that ran before is
    runnable again, every other environment is untouched, its page directory
    is loaded and the kernel lock is released. *)
Theorem sched_yield_round_robin (s : kstate) (j : Z) :
  0 <= j < NENV -> runnable s j = true -> (forall i, runnable s i = true -> has_dir s i) ->
  kernel_locked s = true ->
  exists k s', sched_yield s = ToUser s' /\ 0 <= k < NENV /\ runnable s k = true
    /\ (forall i, 0 <= i < NENV -> runnable s i = true -> distance (cursor s) k <= distance (cursor s) i)
    /\ curenv s' = Some k /\ env_status (envs s' k) = ENV_RUNNING
    /\ cr3 s' = env_pgdir (envs s k) - KERNBASE /\ kernel_locked s' = false
    /\ (forall i, i <> k -> Some i <> curenv s -> envs s' i = envs s i)
    /\ (forall c, curenv s = Some c -> c <> k -> env_status (envs s c) = ENV_RUNNING ->
          env_status (envs s' c) = ENV_RUNNABLE).
Proof.
  intros Hj Hr Hd Hl. destruct (sched_yield_picks s j Hj Hr Hd Hl) as (k & Hk & Hrk & E & _ & Hbest).
  exists k, (ran k s). split; [exact E|]. split; [exact Hk|]. split; [exact Hrk|].
  split; [exact Hbest|]. split; [apply ran_curenv|]. split; [apply ran_self|].
  split; [done|]. split; [done|]. split.
  - intros i Hi Hc. rewrite ran_other by done. unfold preempted.
    destruct (curenv s) as [c|]; [|done]. destruct (_ =? _); [|done]. cbn.
    rewrite fn_lookup_insert_ne; [done|congruence].
  - intros c Hc Hne Hst. rewrite ran_other by done. unfold preempted. rewrite Hc, Hst. cbn.
    by rewrite fn_lookup_insert.
Qed.

(** ** Waiting *)

(** [j] is not among the first [n] environments entered. *)
Definition unchosen (g : nat -> kstate) (j : Z) (n : nat) : Prop := forall m, (m < n)%nat -> curenv (g m) <> Some j.

(** Until [j] is chosen, [f n] is the state in which this CPU calls
    [sched_yield] for the [n]th time and [g n] the one in which it enters user
    mode; at every call but the first the CPU still has the environment that it
    switched to at the call before. *)
Record rounds (f g : nat -> kstate) (j : Z) : Prop := {
  ro_yield : forall n, unchosen g j n -> sched_yield (f n) = ToUser (g n);
  ro_lock : forall n, unchosen g j n -> kernel_locked (f n) = true;
  ro_dir : forall n i, unchosen g j n -> runnable (f n) i = true -> has_dir (f n) i;
  ro_cur : forall n, unchosen g j (S n) -> curenv (f (S n)) = curenv (g n);
  ro_id : forall n i, unchosen g j (S n) -> curenv (g n) = Some i -> 0 <= i < NENV ->
            ENVX (env_id (envs (f (S n)) i)) = i
}.

Lemma rounds_reach f g j : 0 <= j < NENV -> rounds f g j -> (forall n, unchosen g j n -> runnable (f n) j = true) ->
  exists n, Z.of_nat n <= distance (cursor (f 0%nat)) j < NENV /\ unchosen g j n /\ g n = ran j (f n).
Proof.
  intros Hj [Hy Hl Hd Hc Hid] Hrun. set (d0 := distance (cursor (f 0%nat)) j).
  assert (0 <= d0 < 1024) as Hd0 by (unfold d0, distance, NENV; zdm).
  assert (forall n, (exists m, (m < n)%nat /\ Z.of_nat m <= d0 /\ unchosen g j m /\ g m = ran j (f m))
            \/ (unchosen g j n /\ distance (cursor (f n)) j <= d0 - Z.of_nat n)) as H.
  { induction n as [|n IH].
    - right. split; [intros m Hm; lia|]. unfold d0. lia.
    - destruct IH as [(m & ? & ?)|[Hno Hdist]]; [left; exists m; auto with lia|].
      destruct (sched_yield_picks (f n) j Hj (Hrun n Hno) (fun i => Hd n i Hno) (Hl n Hno))
        as (k & Hk & Hrk & E & Hle & _).
      rewrite Hy in E by done. injection E as E.
      assert (curenv (g n) = Some k) as Hg by (rewrite E; apply ran_curenv).
      assert (0 <= distance (cursor (f n)) j) as Hpos by (unfold distance, NENV; zdm).
      destruct (decide (k = j)) as [->|Hkj].
      { left. exists n. split; [lia|]. split; [lia|]. split; [exact Hno|exact E]. }
      assert (unchosen g j (S n)) as Hno'.
      { intros m Hm. destruct (decide (m = n)) as [->|]; [congruence|apply Hno; lia]. }
      right. split; [exact Hno'|].
      assert (cursor (f (S n)) = k) as -> by (unfold cursor; rewrite (Hc n Hno'), Hg; by apply Hid).
      pose proof (cursor_range (f n)). clear - Hle Hdist Hk Hj Hkj H. unfold distance, NENV in *. zdm. }
  destruct (H (S (Z.to_nat d0))) as [(m & _ & Hm & Hg)|[_ Hdist]].
  - exists m. unfold NENV. split; [lia|exact Hg].
  - assert (0 <= distance (cursor (f (S (Z.to_nat d0)))) j) by (unfold distance, NENV; zdm). lia.
Qed.

(** C25: a bound on waiting, for a CPU that keeps what it runs.  [f n] is the
    state in which this CPU calls [sched_yield] for the [n]th time and [g n] the
    one in which it enters user mode.  Assume that at every call but the first the
    CPU still has the environment it switched to at the call before, as after a
    timer interrupt or [sys_yield], but not after that environment exited or the
    CPU halted, when the search starts again at slot 1; and that [j] stays
    runnable until it is chosen.  Then [j] is chosen and runs after at most as
    many other turns as its slot is circularly behind the first search's start,
    fewer than [NENV]. *)
Theorem sched_yield_no_starvation (f g : nat -> kstate) (j : Z) :
  0 <= j < NENV -> rounds f g j -> (forall n, unchosen g j n -> runnable (f n) j = true) ->
  exists n, Z.of_nat n <= distance (cursor (f 0%nat)) j < NENV /\ curenv (g n) = Some j
    /\ env_status (envs (g n) j) = ENV_RUNNING.
Proof.
  intros Hj Hr Hrun. destruct (rounds_reach f g j Hj Hr Hrun) as (n & Hn & _ & Hg).
  exists n. split; [exact Hn|]. rewrite Hg. split; [apply ran_curenv|apply ran_self].
Qed.

(** Environment 5 ran last and is the only runnable one. *)
Definition one_env : kstate :=
  set_curenv (Some 5)
    (upd_env 5 (fun e => set_env_pgdir 4027658240 (set_env_status ENV_RUNNABLE (set_env_id 4101 e)))
       PageAlloc.boot_state).

Lemma one_env_runnable i : runnable one_env i = true -> i = 5.
Proof.
  unfold runnable, one_env. cbn. destruct (decide (i = 5)); [done|]. by fsimpl.
Qed.

Lemma one_env_dir i : runnable one_env i = true -> has_dir one_env i.
Proof. intros ->%one_env_runnable. vm_compute. split; congruence. Qed.

Lemma one_env_yield : sched_yield one_env = ToUser (ran 5 one_env).
Proof.
  destruct (sched_yield_picks one_env 5) as (k & _ & ->%one_env_runnable & E & _);
    [unfold NENV; lia|done|exact one_env_dir|done|exact E].
Qed.

Lemma sched_yield_round_robin_witness :
  exists s', sched_yield one_env = ToUser s' /\ curenv s' = Some 5 /\ kernel_locked s' = false.
Proof.
  destruct (sched_yield_round_robin one_env 5) as (k & s' & E & _ & Hr & _ & Hc & _ & _ & Hl & _);
    [unfold NENV; lia|reflexivity|exact one_env_dir|reflexivity|].
  exists s'. split; [exact E|]. apply one_env_runnable in Hr. subst k. split; [exact Hc|exact Hl].
Defined.

(** Environments 5, 6 and 7, driven by the timer: the one that runs is
    preempted and the lock taken again. *)
Definition three (i : Z) : Prop := i = 5 \/ i = 6 \/ i = 7.

Definition user_env (i st : Z) (e : Env) : Env :=
  set_env_pgdir 4027658240 (set_env_status st (set_env_id (4096 + i) e)).

Definition three_envs : kstate :=
  set_curenv (Some 5) (upd_env 5 (user_env 5 ENV_RUNNING) (upd_env 6 (user_env 6 ENV_RUNNABLE)
    (upd_env 7 (user_env 7 ENV_RUNNABLE) PageAlloc.boot_state))).

Record three_ok (s : kstate) (c : Z) : Prop := {
  to_cur : curenv s = Some c;
  to_in : three c;
  to_env : forall i, three i -> env_id (envs s i) = 4096 + i /\ has_dir s i
    /\ env_status (envs s i) = if i =? c then ENV_RUNNING else ENV_RUNNABLE;
  to_none : forall i, runnable s i = true -> three i;
  to_lock : kernel_locked s = true
}.

Lemma three_range i : three i -> 0 <= i < 1024.
Proof. intros [->|[->| ->]]; lia. Qed.

Lemma three_envs_ok : three_ok three_envs 5.
Proof.
  split; [done|by left| | |done].
  - intros i [->|[->| ->]]; (split; [reflexivity|split; [vm_compute; split; congruence|vm_compute; reflexivity]]).
  - intros i. unfold three. destruct (decide (i = 5)); [by left|]. destruct (decide (i = 6)); [by auto|].
    destruct (decide (i = 7)); [by auto|]. unfold runnable, three_envs. cbn. by fsimpl.
Qed.

Lemma relocked s : curenv (set_kernel_locked true s) = curenv s /\ envs (set_kernel_locked true s) = envs s
  /\ kernel_locked (set_kernel_locked true s) = true.
Proof. split; [|split]; reflexivity. Qed.

Lemma three_step s c : three_ok s c ->
  exists k, sched_yield s = ToUser (ran k s) /\ three_ok (set_kernel_locked true (ran k s)) k.
Proof.
  intros [H1 H2 H3 H4 H5].
  assert (exists j, three j /\ j <> c) as (j & Hj & Hjc).
  { unfold three in *. destruct (decide (c = 5)); [exists 6|exists 5]; auto with lia. }
  assert (runnable s j = true) as Hr.
  { unfold runnable. destruct (H3 j Hj) as (_ & _ & ->). by rewrite (proj2 (Z.eqb_neq j c)). }
  destruct (sched_yield_picks s j (three_range j Hj) Hr) as (k & _ & Hk & E & _);
    [intros i Hi; by apply H3, H4|done|].
  assert (k <> c) as Hkc.
  { intros ->. unfold runnable in Hk. destruct (H3 c H2) as (_ & _ & Hc). rewrite Hc, Z.eqb_refl in Hk. done. }
  assert (preempted s = upd_env c (set_env_status ENV_RUNNABLE) s) as Ep.
  { unfold preempted. rewrite H1. destruct (H3 c H2) as (_ & _ & ->). by rewrite Z.eqb_refl. }
  assert (forall i, i <> k -> envs (ran k s) i = if decide (i = c) then set_env_status ENV_RUNNABLE (envs s c) else envs s i) as Ho.
  { intros i Hi. rewrite ran_other, Ep by done. unfold upd_env. cbn [envs set_envs].
    destruct (decide (i = c)) as [->|Hic]; [apply fn_lookup_insert|]. apply fn_lookup_insert_ne. congruence. }
  exists k. split; [exact E|]. destruct (relocked (ran k s)) as (L1 & L2 & L3).
  split; [rewrite L1; apply ran_curenv|exact (H4 k Hk)| | |exact L3].
  - intros i Hi. unfold has_dir in *. rewrite L2.
    destruct (decide (i = k)) as [->|Hik].
    + destruct (ran_self k s) as [-> ->]. rewrite Z.eqb_refl. split; [by apply H3|]. split; [|done].
      assert (env_pgdir (envs (ran k s) k) = env_pgdir (envs s k)) as ->; [|by apply H3].
      unfold ran. cbn. rewrite !fn_lookup_insert. cbn. apply preempted_pgdir.
    + rewrite Ho, (proj2 (Z.eqb_neq i k)) by done. destruct (decide (i = c)) as [->|Hic].
      * destruct (H3 c H2) as (Ha & Hb & _). split; [exact Ha|]. split; [exact Hb|done].
      * destruct (H3 i Hi) as (Ha & Hb & Hs). rewrite (proj2 (Z.eqb_neq i c)) in Hs by done. done.
  - intros i. unfold runnable. rewrite L2.
    destruct (decide (i = k)) as [->|Hik]; [intros _; by apply H4|]. rewrite Ho by done.
    destruct (decide (i = c)) as [->|]; [done|apply H4].
Qed.

(** The state at the [n]th call, and what the call gives. *)
Definition entered (s : kstate) : kstate := match sched_yield s with ToUser s' => s' | _ => s end.

Fixpoint slices (n : nat) : kstate :=
  match n with O => three_envs | S n => set_kernel_locked true (entered (slices n)) end.

Lemma slices_ok n : exists c, three_ok (slices n) c.
Proof.
  induction n as [|n [c H]]; [exists 5; exact three_envs_ok|]. destruct (three_step _ c H) as (k & E & Hk).
  exists k. cbn [slices]. unfold entered. by rewrite E.
Qed.

Lemma slices_yield n : sched_yield (slices n) = ToUser (entered (slices n)).
Proof. destruct (slices_ok n) as [c H]. destruct (three_step _ c H) as (k & E & _). unfold entered. by rewrite E. Qed.

Lemma slices_id n i : curenv (entered (slices n)) = Some i -> 0 <= i < NENV -> ENVX (env_id (envs (slices (S n)) i)) = i.
Proof.
  intros Hi _. destruct (slices_ok (S n)) as [c [H1 H2 H3 _ _]]. change (curenv (slices (S n)) = Some i) in Hi.
  rewrite H1 in Hi. injection Hi as ->. destruct (H3 i H2) as [-> _]. by destruct H2 as [->|[->| ->]].
Qed.

Lemma slices_rounds : rounds slices (fun n => entered (slices n)) 7.
Proof.
  split.
  - intros n _. apply slices_yield.
  - intros n _. destruct (slices_ok n) as [c H]. exact (to_lock _ _ H).
  - intros n i _ Hi. destruct (slices_ok n) as [c H]. exact (proj1 (proj2 (to_env _ _ H i (to_none _ _ H i Hi)))).
  - intros n _. reflexivity.
  - intros n i _. apply slices_id.
Qed.

Lemma slices_waiting n : unchosen (fun n => entered (slices n)) 7 n -> runnable (slices n) 7 = true.
Proof.
  intros H. destruct (slices_ok n) as [c [H1 H2 H3 _ _]]. assert (c <> 7) as Hc.
  { intros ->. destruct n as [|n]; [done|]. by apply (H n ltac:(lia)). }
  unfold runnable. destruct (H3 7) as (_ & _ & ->); [by right; right|]. by rewrite (proj2 (Z.eqb_neq 7 c)).
Qed.

(** Environment 7 waits for at most one other turn. *)
Lemma sched_yield_no_starvation_witness :
  exists n, Z.of_nat n <= 1 /\ curenv (entered (slices n)) = Some 7.
Proof.
  destruct (sched_yield_no_starvation slices (fun n => entered (slices n)) 7) as (n & Hn & Hc & _).
  - unfold NENV. lia.
  - exact slices_rounds.
  - exact slices_waiting.
  - exists n. split; [exact (proj1 Hn)|exact Hc].
Defined.

End Sched.
