(* ===== verification/E1000.v ===== *)
(** * The network card driver (kern/e1000.c)

    The device registers are words of [e1000_regs]; the descriptor rings and
    the packet buffers are the driver's arrays.  The link-time addresses of
    these arrays, the base of the mapped registers and the answer of the EEPROM
    to a read request come from outside the sources and are parameters of
    [e1000_init].  Packets are copied to and from the address space of the
    environment that made the system call. *)

From stdpp Require Import base numbers list functions strings.
From Stdlib Require Import ZArith Lia.
From S2P Require Import Prelude Mem Mmu Kernel Printfmt Pmap PageAlloc PageTable UserMem Env.

Open Scope Z_scope.
Open Scope jos_scope.

Module E1000.

Import Pmap Vm Printfmt.

Definition PKT_SIZE : Z := 2048.

Definition NTXQ : Z := 32.

Definition NRXQ : Z := 128.

Definition NMTA : Z := 128.

(** Register numbers: byte offset divided by 4. *)
Definition E1000_EERD : Z := 5.

Definition E1000_ICR : Z := 48.

Definition E1000_IMS : Z := 52.

Definition E1000_RCTL : Z := 64.

Definition E1000_TCTL : Z := 256.

Definition E1000_TIPG : Z := 260.

Definition E1000_RDBAL : Z := 2560.

Definition E1000_RDBAH : Z := 2561.

Definition E1000_RDLEN : Z := 2562.

Definition E1000_RDH : Z := 2564.

Definition E1000_RDT : Z := 2566.

Definition E1000_TDBAL : Z := 3584.

Definition E1000_TDBAH : Z := 3585.

Definition E1000_TDLEN : Z := 3586.

Definition E1000_TDH : Z := 3588.

Definition E1000_TDT : Z := 3590.

Definition E1000_MTA : Z := 5248.

Definition E1000_RAL : Z := 5376.

Definition E1000_RAH : Z := 5377.

Definition E1000_RAH_AV : Z := 2147483648.

Definition E1000_TCTL_EN : Z := 2.

Definition E1000_TCTL_PSP : Z := 8.

Definition E1000_TCTL_CT : Z := 256.

Definition E1000_TCTL_COLD : Z := 262144.

Definition E1000_RCTL_EN : Z := 2.

Definition E1000_RCTL_LPE : Z := 32.

Definition E1000_RCTL_LBM_NO : Z := 4294967103.

Definition E1000_RCTL_SECRC : Z := 67108864.

Definition E1000_RCTL_SZ_2048 : Z := 4294770687.

Definition E1000_TXD_CMD_EOP : Z := 1.

Definition E1000_TXD_CMD_RS : Z := 8.

Definition E1000_TXD_CMD_DEXT : Z := 32.

Definition E1000_TXD_STAT_DD : Z := 1.

Definition E1000_RXD_STAT_DD : Z := 1.

Definition E1000_RXD_STAT_EOP : Z := 2.

Definition E1000_ICR_RXT0 : Z := 128.

Definition E1000_RXT0 : Z := 128.

Definition E1000_EERD_ADDR : Z := 8.

Definition E1000_EERD_DATA : Z := 16.

Definition E1000_EERD_READ : Z := 1.

Definition E1000_NUM_MAC_WORDS : Z := 3.

(** ** Registers *)

Definition reg (r : Z) : K Z := gets (fun s => e1000_regs (nic s) r).

Definition set_reg (r v : Z) : K unit :=
  modify (fun s => set_nic (set_e1000_regs (<[r := u32 v]> (e1000_regs (nic s))) (nic s)) s).

(** [e1000_regs[r] |= v] and [e1000_regs[r] &= v] *)
Definition or_reg (r v : Z) : K unit := let! x := reg r in set_reg r (Z.lor x v).

Definition and_reg (r v : Z) : K unit := let! x := reg r in set_reg r (Z.land x v).

Definition upd_txq (i : Z) (f : e1000_tx_desc -> e1000_tx_desc) : K unit :=
  modify (fun s => set_nic (set_txq (<[i := f (txq (nic s) i)]> (txq (nic s))) (nic s)) s).

Definition upd_rxq (i : Z) (f : e1000_rx_desc -> e1000_rx_desc) : K unit :=
  modify (fun s => set_nic (set_rxq (<[i := f (rxq (nic s) i)]> (rxq (nic s))) (nic s)) s).

(** ** Initialisation *)

Section init.

(** Link-time addresses of the arrays and what the EEPROM answers. *)
Context (txq_addr rxq_addr tx_paks_addr rx_paks_addr : Z).
Context (eeprom : Z -> Z).

(** One word of the MAC address: the spin loop ends with the value the
    controller leaves in the register. *)
Definition read_mac_word (word_num : Z) : K Z :=
  do! or_reg E1000_EERD (Z.shiftl word_num E1000_EERD_ADDR) in
  do! or_reg E1000_EERD E1000_EERD_READ in
  let! req := reg E1000_EERD in
  do! set_reg E1000_EERD (eeprom req) in
  let! v := reg E1000_EERD in
  do! set_reg E1000_EERD 0 in
  ret (u16 (Z.shiftr v E1000_EERD_DATA)).

Definition read_mac_from_eeprom : K (Z * Z * Z) :=
  let! m0 := read_mac_word 0 in
  let! m1 := read_mac_word 1 in
  let! m2 := read_mac_word 2 in
  ret (m0, m1, m2).

Definition tx_init_step (i : Z) : K unit :=
  let! pa := PADDR (tx_paks_addr + i * PKT_SIZE) in
  upd_txq i (fun d =>
    mkTxDesc pa (tx_length d) (Z.land (Z.lor (tx_cmd d) E1000_TXD_CMD_RS) (Z.lnot E1000_TXD_CMD_DEXT))
      (Z.lor (tx_status d) E1000_TXD_STAT_DD)).

Definition rx_init_step (i : Z) : K unit :=
  let! pa := PADDR (rx_paks_addr + i * PKT_SIZE) in
  upd_rxq i (fun d => mkRxDesc pa (rx_length d) (rx_status d)).

Definition e1000_init (reg_base reg_size : Z) : K Z :=
  do! mmio_map_region reg_base reg_size in
  let! pa := PADDR txq_addr in
  do! set_reg E1000_TDBAL pa in
  do! set_reg E1000_TDBAH 0 in
  do! set_reg E1000_TDLEN (NTXQ * 16) in
  do! set_reg E1000_TDH 0 in
  do! set_reg E1000_TDT 0 in
  do! or_reg E1000_TCTL E1000_TCTL_EN in
  do! or_reg E1000_TCTL E1000_TCTL_PSP in
  do! or_reg E1000_TCTL E1000_TCTL_CT in
  do! or_reg E1000_TCTL E1000_TCTL_COLD in
  do! set_reg E1000_TIPG (Z.shiftl 10 0) in
  do! set_reg E1000_TIPG (Z.shiftl 8 10) in
  do! set_reg E1000_TIPG (Z.shiftl 12 20) in
  do! modify (fun s => set_nic (set_txq (fun _ => mkTxDesc 0 0 0 0) (nic s)) s) in
  do! for_loop (Z.to_nat NTXQ) 0 tx_init_step in
  let! m := read_mac_from_eeprom in
  let '(m0, m1, m2) := m in
  do! set_reg E1000_RAL 0 in
  do! set_reg E1000_RAL m0 in
  do! or_reg E1000_RAL (Z.shiftl m1 E1000_EERD_DATA) in
  do! set_reg E1000_RAH 0 in
  do! or_reg E1000_RAH m2 in
  do! or_reg E1000_RAH E1000_RAH_AV in
  do! for_loop (Z.to_nat NMTA) 0 (fun i => set_reg (E1000_MTA + i) 0) in
  do! or_reg E1000_IMS E1000_ICR_RXT0 in
  let! pa := PADDR rxq_addr in
  do! set_reg E1000_RDBAL pa in
  do! set_reg E1000_RDBAH 0 in
  do! set_reg E1000_RDLEN (NRXQ * 16) in
  do! set_reg E1000_RDH 0 in
  do! set_reg E1000_RDT (NRXQ - 1) in
  do! modify (fun s => set_nic (set_rxq (fun _ => mkRxDesc 0 0 0) (nic s)) s) in
  do! for_loop (Z.to_nat NRXQ) 0 rx_init_step in
  do! or_reg E1000_RCTL E1000_RCTL_EN in
  do! and_reg E1000_RCTL (Z.lnot E1000_RCTL_LPE) in
  do! and_reg E1000_RCTL E1000_RCTL_LBM_NO in
  do! or_reg E1000_RCTL E1000_RCTL_SECRC in
  do! and_reg E1000_RCTL E1000_RCTL_SZ_2048 in
  ret 1.

End init.

(** ** Sending and receiving *)

(** [memmove(&tx_paks[idx], pck, length)] *)
Definition copy_in (idx pck length : Z) : K unit :=
  for_loop (Z.to_nat length) 0 (fun i =>
    let! b := vload8 (u32 (pck + i)) in
    modify (fun s => set_nic (set_tx_paks
      (<[idx := <[i := b]> (tx_paks (nic s) idx)]> (tx_paks (nic s))) (nic s)) s)).

(** [memmove(pck, &rx_paks[index], length)] *)
Definition copy_out (index pck length : Z) : K unit :=
  for_loop (Z.to_nat length) 0 (fun i =>
    let! b := gets (fun s => u8 (rx_paks (nic s) index i)) in
    vstore8 (u32 (pck + i)) b).

Definition e1000_transmit (pck length : Z) : K Z :=
  if length >? PKT_SIZE then
    do! kcprintf "e1000_transmit: invalid packet length" [] in ret (-1)
  else
    let! idx := reg E1000_TDT in
    let! d := gets (fun s => txq (nic s) idx) in
    if negb (flag (tx_status d) E1000_TXD_STAT_DD) then ret (-1) else
    do! copy_in idx pck length in
    do! upd_txq idx (fun d =>
          mkTxDesc (tx_buffer_addr d) (u16 length) (Z.lor (tx_cmd d) E1000_TXD_CMD_EOP)
            (Z.land (tx_status d) (Z.lnot E1000_TXD_STAT_DD))) in
    do! set_reg E1000_TDT (u32 (idx + 1) mod NTXQ) in
    ret 0.

Definition e1000_receive (pck lenp : Z) : K Z :=
  let! rdt := reg E1000_RDT in
  let index := u32 (rdt + 1) mod NRXQ in
  let! d := gets (fun s => rxq (nic s) index) in
  if negb (flag (rx_status d) E1000_RXD_STAT_DD) then ret (- E_E1000_RXBUF_EMPTY) else
  if negb (flag (rx_status d) E1000_RXD_STAT_EOP) then panic "e1000_receive: EOP not set" else
  do! vstore32 lenp (u16 (rx_length d)) in
  let! len := vload32 lenp in
  do! copy_out index pck len in
  do! upd_rxq index (fun d => mkRxDesc (rx_buffer_addr d) (rx_length d)
        (Z.land (Z.land (rx_status d) (Z.lnot E1000_RXD_STAT_DD)) (Z.lnot E1000_RXD_STAT_EOP))) in
  do! set_reg E1000_RDT index in
  ret 0.

(** The two end-of-interrupt calls touch the interrupt controllers only. *)
Definition clear_e1000_interrupt : K unit := or_reg E1000_ICR E1000_RXT0.

Definition e1000_trap_handler : K unit :=
  let! receiver := gets (fun s =>
    fold_left (fun r i => if env_e1000_waiting_rx (envs s i) then Some i else r) (seqZ 0 NENV) None) in
  match receiver with
  | None => clear_e1000_interrupt
  | Some e =>
    do! modify (upd_env e (set_env_status ENV_RUNNABLE)) in
    do! modify (upd_env e (set_env_e1000_waiting_rx false)) in
    clear_e1000_interrupt
  end.

Definition vstore16 (a v : Z) : K unit :=
  do! vstore8 (u32 a) (u8 v) in vstore8 (u32 (a + 1)) (u8 (v / 256)).

Definition e1000_get_mac (mac_addr : Z) : K unit :=
  let! ral := reg E1000_RAL in
  do! vstore32 mac_addr ral in
  let! rah := reg E1000_RAH in
  vstore16 (mac_addr + 4) (u16 rah).

(** ** The transmit ring as a queue

    What the card does with the ring: while head and tail differ it sends the
    packet at the head, sets [DD] in its descriptor and moves the head. *)

Definition hw_transmit (s : kstate) : option kstate :=
  let h := e1000_regs (nic s) E1000_TDH in
  if h =? e1000_regs (nic s) E1000_TDT then None else
  let d := txq (nic s) h in
  Some (set_nic (set_e1000_regs (<[E1000_TDH := (h + 1) mod NTXQ]> (e1000_regs (nic s)))
         (set_txq (<[h := mkTxDesc (tx_buffer_addr d) (tx_length d) (tx_cmd d)
                            (Z.lor (tx_status d) E1000_TXD_STAT_DD)]> (txq (nic s))) (nic s))) s).

(** The descriptor [k] places behind the head [h]. *)
Definition ring_slot (h k : Z) : Z := (h + k) mod NTXQ.

(** Descriptor [i] holds packet [p], waiting to be sent. *)
Definition holds_packet (s : kstate) (i : Z) (p : list Z) : Prop :=
  flag (tx_status (txq (nic s) i)) E1000_TXD_STAT_DD = false
  /\ tx_length (txq (nic s) i) = Z.of_nat (length p)
  /\ forall j b, p !! j = Some b -> tx_paks (nic s) i (Z.of_nat j) = b.

(** The packets handed to the card and not sent yet are [q], oldest first. *)
Record tx_ring (s : kstate) (h : Z) (q : list (list Z)) : Prop := {
  tr_head : e1000_regs (nic s) E1000_TDH = h /\ 0 <= h < NTXQ;
  tr_tail : e1000_regs (nic s) E1000_TDT = ring_slot h (Z.of_nat (length q));
  tr_len : Z.of_nat (length q) <= NTXQ;
  tr_full : forall k p, q !! k = Some p -> holds_packet s (ring_slot h (Z.of_nat k)) p;
  tr_free : forall k, Z.of_nat (length q) <= k < NTXQ ->
    flag (tx_status (txq (nic s) (ring_slot h k))) E1000_TXD_STAT_DD = true
}.

(** The bytes of the user's buffer. *)
Definition user_bytes (s : kstate) (a : Z) (p : list Z) : Prop :=
  forall j b, p !! j = Some b ->
    exists pa, translate s false (u32 (a + Z.of_nat j)) = Some pa /\ rd8 (phys s) pa = b.

Definition same_but_paks (s s' : kstate) : Prop :=
  s' = set_nic (set_tx_paks (tx_paks (nic s')) (nic s)) s.

Lemma same_but_paks_refl s : same_but_paks s s.
Proof. unfold same_but_paks. destruct s. cbn. by destruct nic. Qed.

Lemma copy_in_loop idx a p n : forall k s,
  user_bytes s a p -> (k + n)%nat = length p ->
  exists s', for_loop n (Z.of_nat k) (fun i =>
      let! b := vload8 (u32 (a + i)) in
      modify (fun s => set_nic (set_tx_paks
        (<[idx := <[i := b]> (tx_paks (nic s) idx)]> (tx_paks (nic s))) (nic s)) s)) s = Ret tt s'
    /\ same_but_paks s s'
    /\ (forall i j, i <> idx \/ j < Z.of_nat k \/ Z.of_nat (length p) <= j ->
          tx_paks (nic s') i j = tx_paks (nic s) i j)
    /\ (forall j b, p !! j = Some b -> (k <= j)%nat -> tx_paks (nic s') idx (Z.of_nat j) = b).
Proof.
  induction n as [|n IH]; intros k s Hu Hk.
  - exists s. split; [done|]. split; [apply same_but_paks_refl|]. split; [done|].
    intros j b Hj Hkj. apply lookup_lt_Some in Hj. lia.
  - destruct (lookup_lt_is_Some_2 p k ltac:(lia)) as [b Hb].
    destruct (Hu k b Hb) as (pa & Ht & Hr).
    cbn [for_loop]. rewrite bind_assoc. unfold bind at 1, vload8. rewrite Ht, Hr.
    unfold bind at 1, modify at 1. set (s1 := set_nic _ s).
    destruct (IH (S k) s1) as (s' & E & Hs & Ho & Hp); [exact Hu|lia|].
    exists s'. split; [by replace (Z.of_nat k + 1) with (Z.of_nat (S k)) by lia|].
    split; [rewrite Hs; by destruct s|]. split.
    + intros i j Hij. rewrite Ho by lia. subst s1. cbn.
      destruct (decide (i = idx)) as [->|]; fsimpl; [|done].
      destruct (decide (j = Z.of_nat k)) as [->|]; [lia|by fsimpl].
    + intros j c Hj Hkj. destruct (decide (j = k)) as [->|]; [|apply Hp; [done|lia]].
      rewrite Ho by lia. subst s1. cbn. fsimpl. congruence.
Qed.

Lemma ring_slot_inj h k k' :
  0 <= k < NTXQ -> 0 <= k' < NTXQ -> ring_slot h k = ring_slot h k' -> k = k'.
Proof. unfold ring_slot, NTXQ. intros. zdm. Qed.

Lemma ring_slot_range h k : 0 <= ring_slot h k < NTXQ.
Proof. unfold ring_slot, NTXQ. zdm. Qed.

Lemma land_lnot_1_flag x : flag (Z.land x (Z.lnot 1)) 1 = false.
Proof. unfold flag. by rewrite <- Z.land_assoc, (Z.land_comm (Z.lnot 1)), Z.land_lnot_diag, Z.land_0_r. Qed.

Section ring.

Context (s : kstate) (h : Z) (q : list (list Z)) (Hring : tx_ring s h q).

Lemma tx_enqueue pck p :
  user_bytes s pck p -> Z.of_nat (length p) <= PKT_SIZE -> Z.of_nat (length q) < NTXQ ->
  exists s', e1000_transmit pck (Z.of_nat (length p)) s = Ret 0 s' /\ tx_ring s' h (q ++ [p]).
Proof.
  destruct Hring as [[Hh Hhr] Htl Hlen Hfull Hfree]. intros Hu Hp.
  intros Hlt. unfold e1000_transmit. rewrite Z.gtb_ltb.
  destruct (Z.ltb_spec PKT_SIZE (Z.of_nat (length p))); [lia|].
  rewrite (bind_ret _ _ s (ring_slot h (Z.of_nat (length q))) s)
    by (unfold reg, gets; by rewrite Htl).
  set (t := ring_slot h (Z.of_nat (length q))) in *.
  rewrite (bind_ret _ _ s (txq (nic s) t) s) by done.
  assert (flag (tx_status (txq (nic s) t)) E1000_TXD_STAT_DD = true) as -> by (apply Hfree; lia).
  cbn [negb].
  destruct (copy_in_loop t pck p (length p) 0 s Hu eq_refl) as (s1 & E & Hs1 & Ho & Hc).
  unfold copy_in. rewrite Nat2Z.id. rewrite (bind_ret _ _ _ _ _ E).
  eexists. split; [reflexivity|]. unfold same_but_paks in Hs1.
  assert (nic s1 = set_tx_paks (tx_paks (nic s1)) (nic s)) as En
    by (rewrite Hs1 at 1; reflexivity).
  assert (txq (nic s1) = txq (nic s) /\ e1000_regs (nic s1) = e1000_regs (nic s)) as [Eq Er]
    by (rewrite En; done).
  assert (forall k, 0 <= k < NTXQ -> k <> Z.of_nat (length q) -> ring_slot h k <> t) as Hne.
  { intros k Hk Hkn Ek. apply Hkn. eapply ring_slot_inj; [done|lia|exact Ek]. }
  split; cbn [nic set_nic set_e1000_regs e1000_regs txq tx_paks set_txq]; rewrite ?Eq, ?Er.
  + rewrite fn_lookup_insert_ne by done. done.
  + rewrite fn_lookup_insert, length_app. cbn [length]. unfold t, ring_slot, NTXQ in *.
    unfold u32. zdm.
  + rewrite length_app. cbn. lia.
  + intros k p' Hk. unfold holds_packet. cbn [nic set_nic set_e1000_regs e1000_regs txq tx_paks set_txq].
    rewrite ?Eq. apply lookup_app_Some in Hk as [Hk|[Hk1 Hk]].
    * pose proof (lookup_lt_Some _ _ _ Hk). rewrite fn_lookup_insert_ne by (symmetry; apply Hne; lia).
      destruct (Hfull k p' Hk) as (H1 & H2 & H3). split; [done|]. split; [done|].
      intros j b Hj. rewrite Ho by (left; apply Hne; lia). by apply H3.
    * apply list_lookup_singleton_Some in Hk as [Hk0 <-].
      replace k with (length q) by lia. fold t. rewrite fn_lookup_insert. cbn.
      split; [apply land_lnot_1_flag|]. split; [apply u16_id; unfold PKT_SIZE in *; lia|].
      intros j b Hj. apply Hc; [done|lia].
  + intros k Hk. rewrite length_app in Hk. cbn in Hk.
    rewrite fn_lookup_insert_ne by (symmetry; apply Hne; lia). apply Hfree. lia.
Qed.

Lemma tx_stuck pck n :
  n <= PKT_SIZE -> Z.of_nat (length q) = NTXQ ->
  e1000_transmit pck n s = Ret (-1) s /\ hw_transmit s = None.
Proof.
  destruct Hring as [[Hh Hhr] Htl Hlen Hfull Hfree]. intros Hp.
  intros Heq.
  assert (ring_slot h (Z.of_nat (length q)) = h) as Eh
    by (rewrite Heq; unfold ring_slot, NTXQ in *; zdm).
  split.
  + unfold e1000_transmit. rewrite Z.gtb_ltb.
    destruct (Z.ltb_spec PKT_SIZE (n)); [lia|].
    rewrite (bind_ret _ _ s h s) by (unfold reg, gets; by rewrite Htl, Eh).
    rewrite (bind_ret _ _ s (txq (nic s) h) s) by done.
    destruct (lookup_lt_is_Some_2 q 0) as [p0 Hp0]; [unfold NTXQ in *; lia|].
    destruct (Hfull 0%nat p0 Hp0) as (H1 & _).
    replace (ring_slot h (Z.of_nat 0)) with h in H1 by (unfold ring_slot, NTXQ in *; zdm).
    by rewrite H1.
  + unfold hw_transmit. rewrite Hh, Htl, Eh, Z.eqb_refl. done.
Qed.

End ring.

Lemma tx_sent s h q :
  tx_ring s h q -> 0 < Z.of_nat (length q) < NTXQ ->
  exists s', hw_transmit s = Some s' /\ tx_ring s' (ring_slot h 1) (tail q).
Proof.
  intros [[Hh Hhr] Htl Hlen Hfull Hfree].
  intros [Hpos Hlt]. unfold hw_transmit. rewrite Hh, Htl.
  destruct (Z.eqb_spec h (ring_slot h (Z.of_nat (length q)))) as [E|_].
  { exfalso. unfold ring_slot, NTXQ in *. zdm. }
  eexists. split; [reflexivity|]. destruct q as [|p0 q]; [cbn in Hpos; lia|]. cbn [tail length] in *.
  assert (forall k, ring_slot (ring_slot h 1) k = ring_slot h (k + 1)) as Hs
    by (intros k; unfold ring_slot, NTXQ; zdm).
  assert (forall k, 1 <= k < NTXQ -> h <> ring_slot h k) as Hne
    by (intros k Hk; unfold ring_slot, NTXQ in *; zdm).
  split; cbn [nic set_nic set_e1000_regs e1000_regs txq tx_paks set_txq].
  + rewrite fn_lookup_insert. split; [done|apply ring_slot_range].
  + rewrite fn_lookup_insert_ne by done. rewrite Htl, Hs. f_equal. lia.
  + lia.
  + intros k p' Hk. pose proof (lookup_lt_Some _ _ _ Hk). rewrite Hs.
    destruct (Hfull (S k) p' Hk) as (H1 & H2 & H3).
    replace (Z.of_nat (S k)) with (Z.of_nat k + 1) in * by lia.
    unfold holds_packet. cbn. rewrite fn_lookup_insert_ne by (apply Hne; lia). done.
  + intros k Hk. rewrite Hs. destruct (decide (k + 1 = NTXQ)) as [Ek|].
    * replace (ring_slot h (k + 1)) with h by (rewrite Ek; unfold ring_slot, NTXQ in *; zdm).
      rewrite fn_lookup_insert. cbn. rewrite flag_lor. by rewrite orb_true_r.
    * rewrite fn_lookup_insert_ne by (apply Hne; lia). apply Hfree. lia.
Qed.

(** C37: the transmit ring is a first-in first-out queue of at most 32
    packets.  [e1000_transmit] appends the bytes of the user's buffer as the
    last packet, or fails and changes nothing when 32 packets wait; the card
    takes the first packet.  But 32 waiting packets bring the tail back to the
    head, where the card believes the ring empty: from then on neither side
    makes progress. *)
Theorem e1000_tx_fifo (s : kstate) (h : Z) (q : list (list Z)) (pck : Z) (p : list Z) :
  tx_ring s h q -> user_bytes s pck p -> Z.of_nat (length p) <= PKT_SIZE ->
  (Z.of_nat (length q) < NTXQ ->
     exists s', e1000_transmit pck (Z.of_nat (length p)) s = Ret 0 s' /\ tx_ring s' h (q ++ [p]))
  /\ (Z.of_nat (length q) = NTXQ ->
       e1000_transmit pck (Z.of_nat (length p)) s = Ret (-1) s /\ hw_transmit s = None)
  /\ (0 < Z.of_nat (length q) < NTXQ ->
       exists s', hw_transmit s = Some s' /\ tx_ring s' (ring_slot h 1) (tail q)).
Proof.
  intros Hr Hu Hp. split; [by apply tx_enqueue|]. split; [by apply (tx_stuck s h q)|by apply tx_sent].
Qed.

(** An idle ring, and a user page at 0x800000. *)
Definition idle_nic : kstate :=
  set_cr3 8192 (set_nic (mkE1000 (fun _ => 0) (fun _ => mkTxDesc 0 0 8 1) (fun _ _ => 0)
    (fun _ => mkRxDesc 0 0 0) (fun _ _ => 0)) UserMem.mapped_state).

Lemma idle_ring : tx_ring idle_nic 0 [].
Proof. split; [done..|vm_compute; congruence| |]; done. Qed.

Lemma e1000_tx_fifo_witness :
  exists s', e1000_transmit 8388608 3 idle_nic = Ret 0 s' /\ tx_ring s' 0 [[0; 0; 0]].
Proof.
  apply (e1000_tx_fifo idle_nic 0 [] 8388608 [0; 0; 0] idle_ring); [|vm_compute; congruence|reflexivity].
  intros [|[|[|j]]] b Hb; [| | |discriminate Hb]; injection Hb as <-;
    (eexists; split; vm_compute; reflexivity).
Defined.

End E1000.
