(* ===== verification/Syscall.v ===== *)
(** * System calls (kern/syscall.c)

    One definition per system call, with the checks in the order of the source,
    and the dispatcher.  A pointer argument is a 32-bit address; the kernel
    reads and writes user memory through the page tables of the caller. *)

From stdpp Require Import base numbers list functions strings.
From Stdlib Require Import ZArith Lia.
From S2P Require Import Prelude Mem Mmu Console Kernel Printfmt Pmap Env Sched E1000.

Open Scope Z_scope.
Open Scope jos_scope.

Module Syscall.

Import Pmap Env Vm Sched E1000 Printfmt.

(** [curenv], dereferenced. *)
Definition cur : K Z := fun s =>
  match curenv s with Some e => Ret e s | None => Undef "curenv is NULL" s end.

Definition env_field {A} (e : Z) (f : Env -> A) : K A := gets (fun s => f (envs s e)).

(** kern/pmap.c *)
Definition user_mem_assert (env va len perm : Z) : K unit :=
  let! r := user_mem_check env va len (Z.lor perm PTE_U) in
  if r <? 0 then
    let! id := env_field env env_id in
    let! addr := gets user_mem_check_addr in
    do! kcprintf (String.append "[%08x] user_mem_check assertion failure for va %08x" newline)
          [AInt id; AInt addr] in
    env_destroy env
  else ret tt.

(** A [char] read from memory, promoted to [int]. *)
Definition i8 (b : Z) : Z := if b <? 128 then b else b - 256.

Definition kputchar (ch : Z) : K unit := modify (fun s => set_cons (kputch ch (cons s)) s).

(** The loop of [%.*s] over user memory: the byte is read before the precision
    is looked at. *)
Fixpoint print_user (fuel : nat) (p precision : Z) : K unit :=
  match fuel with
  | O => undef "vprintfmt: loop bound"
  | S fuel =>
    let! b := vload8 (u32 p) in
    if b =? 0 then ret tt else
    if precision <? 0 then
      do! kputchar (i8 b) in print_user fuel (p + 1) precision
    else if precision - 1 >=? 0 then
      do! kputchar (i8 b) in print_user fuel (p + 1) (precision - 1)
    else ret tt
  end.

(** [cprintf("%.*s", len, s)] *)
Definition cprintf_user (s len : Z) : K unit :=
  let precision := i32 len in
  if s =? 0 then
    modify (fun st => set_cons (puts kputch (str_chars (chars "(null)") precision) (cons st)) st)
  else
    print_user (if precision <? 0 then Z.to_nat 4294967296 else Z.to_nat (precision + 1)) s precision.

Definition sys_cputs (s len : Z) : K unit :=
  let! e := cur in
  do! user_mem_assert e s len 0 in
  cprintf_user s len.

Definition sys_cgetc : K Z := fun s =>
  let '(c, cons') := Console.cons_getc (cons s) in Ret c (set_cons cons' s).

Definition sys_getenvid : K Z := let! e := cur in env_field e env_id.

(** The environment [envid2env] stored. *)
Definition stored_env (e : option Z) : K Z := fun s =>
  match e with Some e => Ret e s | None => Undef "environment pointer is NULL" s end.

Definition sys_env_destroy (envid : Z) : K Z :=
  let! r := envid2env envid true in
  let '(r, e) := r in
  if r <? 0 then ret r else
  let! e := stored_env e in
  do! env_destroy e in
  ret 0.

Definition sys_yield : K unit := sched_yield.

Definition sys_exofork : K Z :=
  let! id := sys_getenvid in
  let! r := env_alloc id in
  let '(r, e) := r in
  if r <? 0 then
    do! kcprintf "sys_exofork: env_alloc failed" [] in ret r
  else
    let! e := stored_env e in
    do! modify (upd_env e (set_env_status ENV_NOT_RUNNABLE)) in
    let! c := cur in
    let! tf := env_field c env_tf in
    do! modify (upd_env e (set_env_tf tf)) in
    do! modify (upd_env e (upd_tf (set_eax 0))) in
    env_field e env_id.

Definition sys_env_set_status (envid status : Z) : K Z :=
  if negb (status =? ENV_RUNNABLE) && negb (status =? ENV_NOT_RUNNABLE) then
    do! kcprintf "sys_env_set_status: wrong status input" [] in ret (- E_INVAL)
  else
    let! r := envid2env envid true in
    let '(r, e) := r in
    if r <? 0 then
      do! kcprintf "sys_env_set_status: envid2env fail" [] in ret r
    else
      let! e := stored_env e in
      do! modify (upd_env e (set_env_status status)) in
      ret 0.

Definition vload16 (a : Z) : K Z :=
  let! b0 := vload8 (u32 a) in let! b1 := vload8 (u32 (a + 1)) in ret (b0 + 256 * b1).

(** [*tf], field by field at its offset in [struct Trapframe]. *)
Definition load_trapframe (tf : Z) : K Trapframe :=
  let! edi := vload32 tf in
  let! esi := vload32 (tf + 4) in
  let! ebp := vload32 (tf + 8) in
  let! oesp := vload32 (tf + 12) in
  let! ebx := vload32 (tf + 16) in
  let! edx := vload32 (tf + 20) in
  let! ecx := vload32 (tf + 24) in
  let! eax := vload32 (tf + 28) in
  let! es := vload16 (tf + 32) in
  let! ds := vload16 (tf + 36) in
  let! trapno := vload32 (tf + 40) in
  let! err := vload32 (tf + 44) in
  let! eip := vload32 (tf + 48) in
  let! cs := vload16 (tf + 52) in
  let! eflags := vload32 (tf + 56) in
  let! esp := vload32 (tf + 60) in
  let! ss := vload16 (tf + 64) in
  ret (mkTrapframe (mkPushRegs edi esi ebp oesp ebx edx ecx eax) es ds trapno err eip cs eflags esp ss).

Definition sys_env_set_trapframe (envid tf : Z) : K Z :=
  let! r := envid2env envid true in
  let '(r, e) := r in
  if r <? 0 then
    do! kcprintf "sys_env_set_trapframe: envid2env, %e" [AInt r] in ret r
  else
    let! e := stored_env e in
    let! fl := vload32 (tf + 56) in
    do! vstore32 (tf + 56) (Z.lor fl FL_IF) in
    let! t := load_trapframe tf in
    do! modify (upd_env e (set_env_tf t)) in
    ret 0.

Definition sys_env_set_pgfault_upcall (envid func : Z) : K Z :=
  let! r := envid2env envid true in
  let '(r, e) := r in
  if r <? 0 then ret (- E_BAD_ENV) else
  let! e := stored_env e in
  do! modify (upd_env e (set_env_pgfault_upcall func)) in
  ret 0.

Definition bad_va (va : Z) : bool := (u32 va >=? UTOP) || negb (ROUNDUP va PGSIZE =? va).

Definition bad_perm (perm : Z) : bool := negb (Z.land perm (Z.lnot PTE_SYSCALL) =? 0).

Definition sys_page_alloc (envid va perm : Z) : K Z :=
  if bad_va va then
    do! kcprintf "sys_page_alloc: wrong va input" [] in ret (- E_INVAL)
  else if bad_perm perm then
    do! kcprintf "sys_page_alloc: wrong perm input" [] in ret (- E_INVAL)
  else
    let! r := envid2env envid true in
    let '(r, e) := r in
    if r <? 0 then
      do! kcprintf "sys_page_alloc: envid2env wrong" [] in ret (- E_BAD_ENV)
    else
      let! pp := page_alloc 1 in
      match pp with
      | None => do! kcprintf "sys_page_alloc: page_alloc failed" [] in ret (- E_NO_MEM)
      | Some pp =>
        let! e := stored_env e in
        let! pgdir := env_field e env_pgdir in
        let! r2 := page_insert pgdir pp va perm in
        if r2 <? 0 then
          do! page_free pp in
          do! kcprintf "sys_page_alloc: page_insert failed" [] in ret (- E_NO_MEM)
        else ret 0
      end.

Definition sys_page_map (srcenvid srcva dstenvid dstva perm : Z) : K Z :=
  if bad_va srcva || bad_va dstva then panic "sys_page_map: invalid srcva | dstva" else
  if bad_perm perm then panic "sys_page_map: invalid permission" else
  let! r1 := envid2env srcenvid true in
  let '(r1, srcenv) := r1 in
  if r1 <? 0 then ret (- E_BAD_ENV) else
  let! r2 := envid2env dstenvid true in
  let '(r2, dstenv) := r2 in
  if r2 <? 0 then ret (- E_BAD_ENV) else
  let! srcenv := stored_env srcenv in
  let! srcdir := env_field srcenv env_pgdir in
  let! pp := page_lookup srcdir srcva in
  match pp with
  | None => panic "sys_page_map: page_lookup failed"
  | Some (pp, srcpte) =>
    let! v := kload32 srcpte in
    if flag perm PTE_W && negb (flag v PTE_W) then panic "sys_page_map: page_lookup failed" else
    let! dstenv := stored_env dstenv in
    let! dstdir := env_field dstenv env_pgdir in
    let! r := page_insert dstdir pp dstva perm in
    if r <? 0 then panic "sys_page_map: page_insert failed" else ret 0
  end.

Definition sys_page_unmap (envid va : Z) : K Z :=
  if bad_va va then ret (- E_INVAL) else
  let! r := envid2env envid true in
  let '(r, e) := r in
  if r <? 0 then ret (- E_BAD_ENV) else
  let! e := stored_env e in
  let! pgdir := env_field e env_pgdir in
  do! page_remove pgdir va in
  ret 0.

(** The part of [sys_ipc_try_send] that moves the page. *)
Definition ipc_send_page (e srcva perm : Z) : K unit :=
  let! c := cur in
  let! srcdir := env_field c env_pgdir in
  let! pp := page_lookup srcdir srcva in
  match pp with
  | None => undef "sys_ipc_try_send: pte is not initialised"
  | Some (pp, pte) =>
    if negb (ROUNDDOWN srcva PGSIZE =? srcva) || bad_perm perm then
      panic "sys_ipc_try_send: srcva failed)"
    else
      let! v := kload32 pte in
      if flag perm PTE_W && negb (flag v PTE_W) then panic "sys_ipc_try_send: permission failed" else
      let! dstva := env_field e env_ipc_dstva in
      if u32 dstva <? UTOP then
        let! dstdir := env_field e env_pgdir in
        let! r := page_insert dstdir pp dstva perm in
        if r <? 0 then panic "sys_ipc_try_send: page_insert failed"
        else modify (upd_env e (set_env_ipc_perm perm))
      else ret tt
  end.

Definition sys_ipc_try_send (envid value srcva perm : Z) : K Z :=
  let! r := envid2env envid false in
  let '(r, e) := r in
  if r <? 0 then panic "sys_ipc_try_send: envid2env failed" else
  let! e := stored_env e in
  let! recving := env_field e env_ipc_recving in
  if negb recving then ret (- E_IPC_NOT_RECV) else
  do! modify (upd_env e (set_env_ipc_perm 0)) in
  do! (if u32 srcva <? UTOP then ipc_send_page e srcva perm else ret tt) in
  do! modify (upd_env e (set_env_ipc_recving false)) in
  let! c := cur in
  let! id := env_field c env_id in
  do! modify (upd_env e (set_env_ipc_from id)) in
  do! modify (upd_env e (set_env_ipc_value value)) in
  do! modify (upd_env e (set_env_status ENV_RUNNABLE)) in
  do! modify (upd_env e (upd_tf (set_eax 0))) in
  ret 0.

Definition sys_ipc_recv (dstva : Z) : K Z :=
  if (u32 dstva <? UTOP) && negb (ROUNDDOWN dstva PGSIZE =? dstva) then ret (- E_INVAL) else
  let! c := cur in
  do! modify (upd_env c (set_env_ipc_recving true)) in
  do! modify (upd_env c (set_env_status ENV_NOT_RUNNABLE)) in
  do! modify (upd_env c (set_env_ipc_dstva dstva)) in
  do! sys_yield in
  ret 0.

Definition sys_time_msec : K Z := time_msec.

(** The retry loop; the result is the last one and the tries left. *)
Fixpoint transmit_retry (num_try : nat) (pck length : Z) : K nat :=
  let! r := e1000_transmit pck length in
  if r <? 0 then
    match num_try with
    | O => ret O
    | S n => do! sys_yield in transmit_retry n pck length
    end
  else ret num_try.

Definition sys_e1000_transmit (pck length : Z) : K Z :=
  let! e := cur in
  let! r := user_mem_check e pck length PTE_P in
  if r <? 0 then
    do! kcprintf "sys_e1000_transmit: user_mem_check failed, %e" [AInt r] in ret r
  else
    let! tries := transmit_retry 20 pck length in
    if Nat.eqb tries 0 then ret (- E_E1000_TXBUF_FULL) else ret 0.

Definition sys_e1000_receive (pck lenp : Z) : K Z :=
  let! e := cur in
  do! user_mem_assert e pck PKT_SIZE PTE_W in
  let! r := e1000_receive pck lenp in
  if r =? 0 then ret 0 else
  let! c := cur in
  do! modify (upd_env c (set_env_status ENV_NOT_RUNNABLE)) in
  do! modify (upd_env c (set_env_e1000_waiting_rx true)) in
  do! modify (upd_env c (upd_tf (set_eax (u32 (- E_E1000_RXBUF_EMPTY))))) in
  do! sys_yield in
  ret 0.

Definition sys_e1000_get_mac (mac_addr : Z) : K Z :=
  let! e := cur in
  do! user_mem_assert e mac_addr 12 PTE_W in
  do! e1000_get_mac mac_addr in
  ret 0.

(** ** The dispatcher *)

Definition SYS_cputs : Z := 0.

Definition SYS_cgetc : Z := 1.

Definition SYS_getenvid : Z := 2.

Definition SYS_env_destroy : Z := 3.

Definition SYS_page_alloc : Z := 4.

Definition SYS_page_map : Z := 5.

Definition SYS_page_unmap : Z := 6.

Definition SYS_exofork : Z := 7.

Definition SYS_env_set_status : Z := 8.

Definition SYS_env_set_trapframe : Z := 9.

Definition SYS_env_set_pgfault_upcall : Z := 10.

Definition SYS_yield : Z := 11.

Definition SYS_ipc_try_send : Z := 12.

Definition SYS_ipc_recv : Z := 13.

Definition SYS_time_msec : Z := 14.

Definition SYS_e1000_receive : Z := 15.

Definition SYS_e1000_transmit : Z := 16.

Definition SYS_e1000_get_mac : Z := 17.

Definition syscall (syscallno a1 a2 a3 a4 a5 : Z) : K Z :=
  if syscallno =? SYS_cputs then do! sys_cputs a1 a2 in ret 0
  else if syscallno =? SYS_cgetc then sys_cgetc
  else if syscallno =? SYS_getenvid then sys_getenvid
  else if syscallno =? SYS_env_destroy then sys_env_destroy (i32 a1)
  else if syscallno =? SYS_yield then do! sys_yield in ret 0
  else if syscallno =? SYS_exofork then sys_exofork
  else if syscallno =? SYS_env_set_status then sys_env_set_status (i32 a1) (i32 a2)
  else if syscallno =? SYS_page_alloc then sys_page_alloc (i32 a1) a2 (i32 a3)
  else if syscallno =? SYS_page_map then sys_page_map (i32 a1) a2 (i32 a3) a4 (i32 a5)
  else if syscallno =? SYS_page_unmap then sys_page_unmap (i32 a1) a2
  else if syscallno =? SYS_env_set_pgfault_upcall then sys_env_set_pgfault_upcall (i32 a1) a2
  else if syscallno =? SYS_ipc_try_send then sys_ipc_try_send (i32 a1) a2 a3 a4
  else if syscallno =? SYS_ipc_recv then sys_ipc_recv a1
  else if syscallno =? SYS_env_set_trapframe then sys_env_set_trapframe (i32 a1) a2
  else if syscallno =? SYS_time_msec then sys_time_msec
  else if syscallno =? SYS_e1000_transmit then sys_e1000_transmit a1 a2
  else if syscallno =? SYS_e1000_receive then sys_e1000_receive a1 a2
  else if syscallno =? SYS_e1000_get_mac then sys_e1000_get_mac a1
  else ret (- E_INVAL).

End Syscall.
