(* ===== verification/SyscallFacts.v ===== *)
(** * What the system calls promise

    Permission checks, page allocation and mapping, and two ways in which a system
    call brings the kernel down. *)

From stdpp Require Import base numbers list functions strings sets.
From Stdlib Require Import ZArith Lia.
From S2P Require Import Prelude Mem Mmu Console Kernel Printfmt Pmap PageAlloc PageTable AddrSpace UserMem Env EnvFree Sched E1000 Syscall.

Open Scope Z_scope.
Open Scope jos_scope.

Module SyscallFacts.

Import Pmap PageAlloc PageTable AddrSpace Env Vm EnvFree Sched Syscall Printfmt.

(** Only the console differs. *)
Definition only_cons (s s' : kstate) : Prop := s' = set_cons (cons s') s.

Lemma only_cons_set c s : only_cons s (set_cons c s).
Proof. reflexivity. Qed.

Lemma kcprintf_lit m ap out s :
  output (chars m) ap = Some out ->
  kcprintf m ap s = Ret 0 (set_cons (puts kputch out (cons s)) s).
Proof. intros H. unfold kcprintf, kvcprintf. by rewrite vprintfmt_output, H. Qed.

Lemma kcprintf_ret {A} m (k : K A) out s :
  output (chars m) [] = Some out ->
  bind (kcprintf m []) (fun _ => k) s = k (set_cons (puts kputch out (cons s)) s).
Proof. intros H. by rewrite (bind_ret _ _ _ _ _ (kcprintf_lit m [] out s H)). Qed.

(** ** Permissions *)

(** The caller may act on environment [e]: it is the caller or its child. *)
Definition may_act (s : kstate) (e : Z) : Prop :=
  curenv s = Some e
  \/ exists c, curenv s = Some c /\ env_parent_id (envs s e) = env_id (envs s c).

Lemma envid2env_authorized_lemma (s s' : kstate) (envid : Z) (e : option Z) :
  envid2env envid true s = Ret (0, e) s' ->
  s' = s /\ (envid = 0 -> e = curenv s)
  /\ (envid <> 0 -> exists i, e = Some i /\ env_id (envs s i) = envid
        /\ env_status (envs s i) <> ENV_FREE /\ may_act s i).
Proof.
  unfold envid2env, bind, gets, ret. destruct (Z.eqb_spec envid 0) as [->|Hz].
  { intros [= <- <-]. split; [done|]. split; done. }
  set (i := ENVX envid). destruct (Z.eqb_spec (env_status (envs s i)) ENV_FREE) as [|Hst]; [done|].
  destruct (Z.eqb_spec (env_id (envs s i)) envid) as [Hid|]; [|done]. cbn [negb orb andb].
  case_bool_decide as Hc; cbn [negb].
  - intros [= <- <-]. split; [done|]. split; [done|]. intros _. exists i. split_and!; try done. by left.
  - destruct (curenv s) as [c|] eqn:Hcur; [|done].
    destruct (Z.eqb_spec (env_parent_id (envs s i)) (env_id (envs s c))) as [Hp|]; [|done].
    cbn [negb]. intros [= <- <-]. split; [done|]. split; [done|]. intros _. exists i.
    split_and!; try done. right. exists c. done.
Qed.

(** C29: when [envid2env] with the permission check succeeds on a nonzero
    identifier, the environment found is alive, has exactly that identifier,
    and is the caller or a child of the caller; the check changes nothing. *)
Theorem envid2env_authorized (s s' : kstate) (envid : Z) (e : option Z) :
  envid2env envid true s = Ret (0, e) s' ->
  s' = s /\ (envid = 0 -> e = curenv s)
  /\ (envid <> 0 -> exists i, e = Some i /\ env_id (envs s i) = envid
        /\ env_status (envs s i) <> ENV_FREE /\ may_act s i).
Proof. apply envid2env_authorized_lemma. Qed.

(** ** sys_page_alloc *)

(** Taking a page off the free list keeps the address spaces. *)
Lemma allocated_view s p l D : space_ok s (p :: l) D -> same_view D s (allocated 1 p s).
Proof.
  intros Hok. assert (forall d, d ∉ p :: l -> d <> p) as Hne by set_solver.
  assert (forall q j, q <> p -> 0 <= j < 1024 -> word (allocated 1 p s) q j = word s q j) as Hw.
  { intros q j Hq Hj. unfold word, allocated. change (flag 1 ALLOC_ZERO) with true. cbn.
    by rewrite rd32_mset_out by lia. }
  assert (forall d i, d ∈ D -> 0 <= i < user_pdes ->
            table_of (allocated 1 p s) d i = table_of s d i) as Ht.
  { intros d i Hd Hi. rewrite user_pdes_eq in Hi. unfold table_of.
    by rewrite Hw by (lia || (apply Hne; by eapply so_dir_used)). }
  split; [done|]. intros d v Hd Hv. unfold pte_of. rewrite Ht by (auto using vpn_pde).
  destruct (table_of s d (v / 1024)) as [t|] eqn:E; [|done].
  apply Hw; [|apply vpn_split]. apply Hne. eapply so_tab_used; eauto using vpn_pde.
Qed.

Lemma allocated_refs s p l D q :
  space_ok s (p :: l) D -> pp_ref (pages (allocated 1 p s) q) = pp_ref (pages s q).
Proof.
  intros Hok. destruct (decide (q = p)) as [->|]; [by rewrite allocated_self|by rewrite allocated_other].
Qed.

Lemma allocated_ok s p l D : space_ok s (p :: l) D -> space_ok (allocated 1 p s) l D.
Proof.
  intros Hok. eapply space_ok_view; [exact Hok|by eapply allocated_view|apply allocated_npages|..].
  - apply alloc_inv_pop, (so_alloc _ _ _ Hok).
  - intros q. rewrite (allocated_refs s p l D) by done. apply (so_refs _ _ _ Hok).
  - intros d Hd. rewrite (allocated_refs s p l D) by done. by apply (so_dir _ _ _ Hok).
  - intros d i t Hd Hi E. rewrite (allocated_refs s p l D) by done. by apply (so_tab _ _ _ Hok d i t).
Qed.

Lemma free_data_page s p l D : space_ok s (p :: l) D -> data_page (allocated 1 p s) D p.
Proof.
  intros Hok. pose proof (allocated_view s p l D Hok) as Hv.
  assert (p ∈ p :: l) as Hin by set_solver.
  split; [rewrite allocated_npages; by apply (ai_range _ _ (so_alloc _ _ _ Hok))|].
  split; [intros Hp; by apply (so_dir_used _ _ _ Hok p Hp)|].
  intros d i Hd Hi. rewrite (sv_tab _ _ _ Hv) by done. intros E.
  by apply (so_tab_used _ _ _ Hok d i p Hd Hi E).
Qed.

(** Putting it back. *)
Lemma freed_ok s p l D :
  space_ok s l D -> p ∉ l -> data_page s D p -> pp_ref (pages s p) = 0 -> space_ok (freed p s) (p :: l) D.
Proof.
  intros Hok Hl (Hp & HpD & HpT) H0.
  assert (forall q, pp_ref (pages (freed p s) q) = pp_ref (pages s q)) as Hr
    by (intros q; cbn; destruct (decide (q = p)) as [->|]; by fsimpl).
  eapply space_ok_view; [exact Hok|by apply same_view_phys|done|..].
  - apply page_free_push; [apply (so_alloc _ _ _ Hok)|done..].
  - intros q. rewrite Hr. apply (so_refs _ _ _ Hok).
  - intros d Hd. rewrite Hr. by apply (so_dir _ _ _ Hok).
  - intros d i t Hd Hi E. rewrite Hr. by apply (so_tab _ _ _ Hok d i t).
Qed.

Lemma bad_perm_range perm : bad_perm perm = false -> 0 <= perm < 4096.
Proof.
  unfold bad_perm. destruct (Z.eqb_spec (Z.land perm (Z.lnot PTE_SYSCALL)) 0) as [E|]; [|done]. intros _.
  assert (Z.land perm PTE_SYSCALL = perm) as <-.
  { rewrite <- (Z.lor_0_r (Z.land perm PTE_SYSCALL)), <- E, <- Z.land_lor_distr_r.
    by rewrite Z.lor_lnot_diag, Z.land_m1_r. }
  pose proof (land_le_r perm PTE_SYSCALL). change PTE_SYSCALL with 3591 in *. lia.
Qed.

Lemma bad_va_range va : 0 <= va < 4294967296 -> bad_va va = false -> 0 <= va < UTOP /\ va mod 4096 = 0.
Proof.
  intros Hva. unfold bad_va. rewrite u32_id, Z.geb_leb by done.
  destruct (Z.leb_spec UTOP va); [done|]. change UTOP with 4005560320 in *.
  rewrite ROUNDUP_page by lia.
  destruct (Z.eqb_spec (4096 * ((va + 4095) / 4096)) va); [|done]. intros _. zdm.
Qed.

(** The environment a system call acts on, and its page directory. *)
Record target (s : kstate) (envid e dp : Z) (D : list Z) : Prop := {
  ta_env : envid2env envid true s = Ret (0, Some e) s;
  ta_dir : env_pgdir (envs s e) = kva dp;
  ta_in : dp ∈ D
}.

Lemma allocated_envs fl p s : envs (allocated fl p s) = envs s.
Proof. unfold allocated. by destruct (flag _ _). Qed.

Lemma page_insert_frees s p l' D dp va perm :
  space_ok s (p :: l') D -> dp ∈ D -> 0 <= va < UTOP -> 0 <= perm < 4096 ->
  match table_of s dp (va / 4096 / 1024), l' with
  | None, [] => page_insert (kva dp) p va perm (allocated 1 p s) = Ret (- E_NO_MEM) (allocated 1 p s)
  | _, _ => exists s' l'', page_insert (kva dp) p va perm (allocated 1 p s) = Ret 0 s'
              /\ insert_post (allocated 1 p s) s' l' l'' D dp p va perm
  end.
Proof.
  intros Hok Hdp Hva Hperm. pose proof (allocated_view s p l' D Hok) as Hv.
  pose proof (linked_NoDup _ _ _ (ai_chain _ _ (so_alloc _ _ _ Hok))) as [Hpl _]%NoDup_cons.
  assert (pp_ref (pages (allocated 1 p s) p) = 0) as H0.
  { rewrite (allocated_refs s p l' D) by done. apply (ai_ref _ _ (so_alloc _ _ _ Hok)). set_solver. }
  destruct (user_va va Hva) as [_ Hvp]. rewrite <- (sv_tab _ _ _ Hv dp _ Hdp (vpn_pde _ Hvp)).
  apply page_insert_spec; [by apply allocated_ok|exact Hdp|exact Hva|exact Hperm|
    by eapply free_data_page|exact Hpl|rewrite H0; lia].
Qed.

Section page_alloc.

Context (s : kstate) (D : list Z) (envid e dp va perm : Z).
Context (Ht : target s envid e dp D) (Hva : 0 <= va < 4294967296).
Context (Hbv : bad_va va = false) (Hbp : bad_perm perm = false).

Lemma sys_page_alloc_nomem :
  space_ok s [] D -> exists s', sys_page_alloc envid va perm s = Ret (- E_NO_MEM) s' /\ only_cons s s'.
Proof.
  intros Hok. unfold sys_page_alloc. rewrite Hbv, Hbp.
  rewrite (bind_ret _ _ _ _ _ (ta_env _ _ _ _ _ Ht)). cbn [Z.ltb Z.compare].
  rewrite (bind_ret _ _ _ _ _ (page_alloc_nil 1 s (so_alloc _ _ _ Hok))).
  erewrite kcprintf_ret by (vm_compute; reflexivity). eexists. split; [reflexivity|apply only_cons_set].
Qed.

Lemma sys_page_alloc_unfold p l :
  space_ok s (p :: l) D ->
  sys_page_alloc envid va perm s =
    bind (page_insert (kva dp) p va perm) (fun r2 =>
      if r2 <? 0 then
        bind (page_free p) (fun _ =>
          bind (kcprintf "sys_page_alloc: page_insert failed" []) (fun _ => ret (- E_NO_MEM)))
      else ret 0) (allocated 1 p s).
Proof.
  intros Hok. unfold sys_page_alloc. rewrite Hbv, Hbp.
  rewrite (bind_ret _ _ _ _ _ (ta_env _ _ _ _ _ Ht)). cbn [Z.ltb Z.compare].
  rewrite (bind_ret _ _ _ _ _ (page_alloc_cons 1 s p l (so_alloc _ _ _ Hok))).
  rewrite (bind_ret _ _ _ e (allocated 1 p s)) by done.
  rewrite (bind_ret _ _ _ (kva dp) (allocated 1 p s)); [done|].
  unfold env_field, gets. rewrite allocated_envs. by rewrite (ta_dir _ _ _ _ _ Ht).
Qed.

Lemma sys_page_alloc_no_table p :
  space_ok s [p] D -> table_of s dp (va / 4096 / 1024) = None ->
  exists s', sys_page_alloc envid va perm s = Ret (- E_NO_MEM) s' /\ space_ok s' [p] D
    /\ forall d v, d ∈ D -> 0 <= v < user_vpns -> pte_of s' d v = pte_of s d v.
Proof.
  intros Hok Hnone. destruct (bad_va_range va Hva Hbv) as [Hut _].
  pose proof (page_insert_frees s p [] D dp va perm Hok (ta_in _ _ _ _ _ Ht) Hut (bad_perm_range _ Hbp)) as E.
  rewrite Hnone in E. rewrite (sys_page_alloc_unfold p []) by done. rewrite (bind_ret _ _ _ _ _ E).
  change (- E_NO_MEM <? 0) with true. cbv iota.
  pose proof (allocated_ok s p [] D Hok) as Hok1. pose proof (free_data_page s p [] D Hok) as Hdp.
  assert (pp_ref (pages (allocated 1 p s) p) = 0) as H0.
  { rewrite (allocated_refs s p [] D) by done. apply (ai_ref _ _ (so_alloc _ _ _ Hok)). set_solver. }
  destruct (page_free_push (allocated 1 p s) [] p (so_alloc _ _ _ Hok1)) as [Ef _];
    [set_solver|apply Hdp|done|].
  rewrite (bind_ret _ _ _ _ _ Ef). erewrite kcprintf_ret by (vm_compute; reflexivity).
  eexists. split; [reflexivity|]. split.
  - eapply space_ok_frame; [eapply (freed_ok _ p); [exact Hok1|set_solver|exact Hdp|exact H0]|reflexivity..].
  - intros d v Hd Hv. rewrite (pte_of_phys (allocated 1 p s)) by reflexivity.
    by apply (sv_pte _ _ _ (allocated_view s p [] D Hok)).
Qed.

Lemma sys_page_alloc_mapped p l :
  space_ok s (p :: l) D -> (table_of s dp (va / 4096 / 1024) = None -> l <> []) ->
  exists s' l', sys_page_alloc envid va perm s = Ret 0 s' /\ space_ok s' l' D
    /\ (forall d v, d ∈ D -> 0 <= v < user_vpns ->
          pte_of s' d v = if decide ((d, v) = (dp, va / 4096))
                          then Z.lor (p * 4096) (Z.lor perm PTE_P) else pte_of s d v)
    /\ (forall a, p * 4096 <= a < p * 4096 + 4096 -> phys s' a = 0).
Proof.
  intros Hok Hroom. destruct (bad_va_range va Hva Hbv) as [Hut _].
  destruct (user_va va Hut) as [_ Hv].
  pose proof (page_insert_frees s p l D dp va perm Hok (ta_in _ _ _ _ _ Ht) Hut (bad_perm_range _ Hbp)) as E.
  assert (exists s' l', page_insert (kva dp) p va perm (allocated 1 p s) = Ret 0 s'
            /\ insert_post (allocated 1 p s) s' l l' D dp p va perm) as (s' & l' & E' & Hok' & Hpte & _ & Hph & _).
  { destruct (table_of s dp (va / 4096 / 1024)); [by destruct l|]. destruct l; [by destruct Hroom|done]. }
  exists s', l'. split; [|split; [done|split]].
  - rewrite (sys_page_alloc_unfold p l) by done. by rewrite (bind_ret _ _ _ _ _ E').
  - intros d v Hd Hv0. rewrite Hpte by done. destruct (decide _); [done|].
    by apply (sv_pte _ _ _ (allocated_view s p l D Hok)).
  - intros a Ha. assert (a / 4096 = p) as Ea by zdm. rewrite Hph.
    + unfold allocated. change (flag 1 ALLOC_ZERO) with true. cbn. by rewrite mset_in by lia.
    + rewrite Ea. destruct (free_data_page s p l D Hok) as (Hr & _).
      rewrite allocated_npages in Hr. pose proof (so_npages _ _ _ Hok).
      apply (so_page _ _ _ Hok' dp (va / 4096) p); [apply (ta_in _ _ _ _ _ Ht)|done|].
      unfold mapped. rewrite Hpte, decide_True by (done || apply (ta_in _ _ _ _ _ Ht)).
      pose proof (lor_low_range perm PTE_P (bad_perm_range _ Hbp) ltac:(unfold PTE_P; lia)).
      rewrite PTE_ADDR_lor by lia. rewrite flag_lor, flag_lor, !orb_true_r. f_equal. zdm.
Qed.

End page_alloc.

(** A [sys_page_alloc] whose arguments are in order returns 0 or
    [-E_NO_MEM].  It fails exactly when there is no page for the data, or one
    but none left for a page table that is needed, and then no address space
    changes and no page is lost; when it succeeds the page at [va] is a page
    that was free, all zero, with the permissions asked for, and no other
    entry of any address space changes. *)
Theorem sys_page_alloc_spec (s : kstate) (l D : list Z) (envid e dp va perm : Z) :
  space_ok s l D -> target s envid e dp D -> 0 <= va < 4294967296 ->
  bad_va va = false -> bad_perm perm = false ->
  match l with
  | [] => exists s', sys_page_alloc envid va perm s = Ret (- E_NO_MEM) s' /\ only_cons s s'
  | p :: l' =>
    (table_of s dp (va / 4096 / 1024) = None /\ l' = [] ->
       exists s', sys_page_alloc envid va perm s = Ret (- E_NO_MEM) s' /\ space_ok s' l D
         /\ forall d v, d ∈ D -> 0 <= v < user_vpns -> pte_of s' d v = pte_of s d v)
    /\ ((table_of s dp (va / 4096 / 1024) = None -> l' <> []) ->
       exists s' l'', sys_page_alloc envid va perm s = Ret 0 s' /\ space_ok s' l'' D
         /\ (forall d v, d ∈ D -> 0 <= v < user_vpns ->
               pte_of s' d v = if decide ((d, v) = (dp, va / 4096))
                               then Z.lor (p * 4096) (Z.lor perm PTE_P) else pte_of s d v)
         /\ (forall a, p * 4096 <= a < p * 4096 + 4096 -> phys s' a = 0))
  end.
Proof.
  intros Hok Ht Hva Hbv Hbp. destruct l as [|p l].
  - by eapply sys_page_alloc_nomem.
  - split; [intros [Hn ->]; by eapply sys_page_alloc_no_table|by eapply sys_page_alloc_mapped].
Qed.

(** ** sys_page_map *)

Lemma mapped_data_page s l D dp v p :
  space_ok s l D -> dp ∈ D -> 0 <= v < user_vpns -> mapped s dp v = Some p ->
  data_page s D p /\ p ∉ l.
Proof.
  intros Hok Hd Hv Hm. split; [by apply (so_page _ _ _ Hok dp v p)|by eapply so_mapped_used].
Qed.

(** What [sys_page_map] decides once the addresses and [perm] are valid. *)
Definition map_refused (s : kstate) (l : list Z) (sd sv dd dv perm : Z) : bool :=
  match mapped s sd (sv / 4096) with
  | None => true
  | Some _ =>
    (flag perm PTE_W && negb (flag (pte_of s sd (sv / 4096)) PTE_W))
    || (match table_of s dd (dv / 4096 / 1024) with None => true | Some _ => false end
        && match l with [] => true | _ => false end)
  end.

Lemma sys_page_map_decides (s : kstate) (l D : list Z) (sid se sd dstid de dd sv dv perm : Z) :
  space_ok s l D -> target s sid se sd D -> target s dstid de dd D ->
  0 <= sv < 4294967296 -> 0 <= dv < 4294967296 ->
  bad_va sv = false -> bad_va dv = false -> bad_perm perm = false ->
  (forall p, mapped s sd (sv / 4096) = Some p -> pp_ref (pages s p) < 65535) ->
  if map_refused s l sd sv dd dv perm
  then exists w s', sys_page_map sid sv dstid dv perm s = Panic w s'
  else exists p s' l', mapped s sd (sv / 4096) = Some p
    /\ sys_page_map sid sv dstid dv perm s = Ret 0 s' /\ space_ok s' l' D
    /\ (flag perm PTE_W = true -> flag (pte_of s sd (sv / 4096)) PTE_W = true)
    /\ (forall d v, d ∈ D -> 0 <= v < user_vpns ->
          pte_of s' d v = if decide ((d, v) = (dd, dv / 4096))
                          then Z.lor (p * 4096) (Z.lor perm PTE_P) else pte_of s d v).
Proof.
  intros Hok [Ts1 Ts2 Ts3] [Td1 Td2 Td3] Hsv Hdv Hbs Hbd Hbp Href.
  destruct (bad_va_range sv Hsv Hbs) as [Hsu _]. destruct (bad_va_range dv Hdv Hbd) as [Hdu _].
  destruct (user_va sv Hsu) as [_ Hsn]. pose proof (bad_perm_range _ Hbp) as Hp.
  unfold sys_page_map. rewrite Hbs, Hbd, Hbp. cbn [orb].
  rewrite (bind_ret _ _ _ _ _ Ts1). cbn [Z.ltb Z.compare].
  rewrite (bind_ret _ _ _ _ _ Td1). cbn [Z.ltb Z.compare].
  rewrite (bind_ret _ _ s se s) by done.
  rewrite (bind_ret _ _ s (kva sd) s) by (unfold env_field, gets; by rewrite Ts2).
  rewrite (bind_ret _ _ _ _ _ (page_lookup_eq s l D Hok sd sv Ts3 Hsu)).
  unfold map_refused. destruct (mapped s sd (sv / 4096)) as [p|] eqn:Hm; [|by eexists _, _].
  destruct (mapped_table s sd sv p Hm) as (tp & -> & Ew).
  rewrite (bind_ret _ _ _ _ _ (kload_word s tp _)), <- Ew.
  destruct (flag perm PTE_W && negb (flag (pte_of s sd (sv / 4096)) PTE_W)) eqn:Hw; [by eexists _, _|].
  cbn [orb]. rewrite (bind_ret _ _ s de s) by done.
  rewrite (bind_ret _ _ s (kva dd) s) by (unfold env_field, gets; by rewrite Td2).
  destruct (mapped_data_page s l D sd _ p Hok Ts3 Hsn Hm) as [Hdp Hpl].
  pose proof (page_insert_spec s l D dd p dv perm Hok Td3 Hdu Hp Hdp Hpl (Href p eq_refl)) as Hi.
  assert (forall s1 l1, page_insert (kva dd) p dv perm s = Ret 0 s1 -> insert_post s s1 l l1 D dd p dv perm ->
    exists p0 s' l', Some p = Some p0
      /\ bind (page_insert (kva dd) p dv perm)
           (fun r => if r <? 0 then panic "sys_page_map: page_insert failed" else ret 0) s = Ret 0 s'
      /\ space_ok s' l' D
      /\ (flag perm PTE_W = true -> flag (pte_of s sd (sv / 4096)) PTE_W = true)
      /\ (forall d v, d ∈ D -> 0 <= v < user_vpns ->
            pte_of s' d v = if decide ((d, v) = (dd, dv / 4096))
                            then Z.lor (p0 * 4096) (Z.lor perm PTE_P) else pte_of s d v)) as Hdone.
  { intros s1 l1 E (Hok1 & Hpte & _). exists p, s1, l1. split; [done|].
    split; [by rewrite (bind_ret _ _ _ _ _ E)|]. split; [done|]. split; [|done].
    intros Hf. rewrite Hf in Hw. by destruct (flag (pte_of s sd _) PTE_W). }
  destruct (table_of s dd (dv / 4096 / 1024)) as [t|].
  - destruct Hi as (s1 & l1 & E & Hpost). cbn [andb]. by eapply Hdone.
  - destruct l as [|q l]; cbn [andb].
    + rewrite (bind_ret _ _ _ _ _ Hi). by eexists _, _.
    + destruct Hi as (s1 & l1 & E & Hpost). by eapply Hdone.
Qed.

(** [envid] names the caller [c] or a live child of it. *)
Definition names (s : kstate) (c envid : Z) : bool :=
  let e := envs s (ENVX envid) in
  (envid =? 0) || (negb (env_status e =? ENV_FREE) && (env_id e =? envid)
                   && ((ENVX envid =? c) || (env_parent_id e =? env_id (envs s c)))).

Lemma envid2env_names s c envid : curenv s = Some c ->
  envid2env envid true s =
    if names s c envid then Ret (0, Some (if envid =? 0 then c else ENVX envid)) s else Ret (- E_BAD_ENV, None) s.
Proof.
  intros Hc. unfold envid2env, names, bind, gets, ret. rewrite Hc. destruct (envid =? 0); [done|]. cbn [orb].
  destruct (env_status (envs s (ENVX envid)) =? ENV_FREE); [done|]. cbn [orb negb andb].
  destruct (env_id (envs s (ENVX envid)) =? envid); [|done]. cbn [negb andb].
  destruct (Z.eqb_spec (ENVX envid) c) as [->|Hne]; [by rewrite bool_decide_true|].
  rewrite bool_decide_false by congruence. cbn [orb negb]. by destruct (_ =? _).
Qed.

(** C21: [sys_page_map] never hands out more than the caller has.  An address
    that is not page aligned or not below [UTOP], or bad permissions, panic the
    kernel, where the interface documents [-E_INVAL].  Otherwise, an identifier
    that names neither the caller nor a live child of it is answered with
    [-E_BAD_ENV] and nothing changes.  Otherwise, when the source maps no page
    there, when write permission is asked for a page the source has read-only,
    or when the destination needs a page table and no page is free, the kernel
    panics, where [-E_INVAL] or [-E_NO_MEM] are documented; in all other cases
    the call succeeds, the destination maps the very page the source maps with
    the permissions asked for, writable only if the source is, and no other entry
    of any address space changes. *)
Theorem sys_page_map_rights (s : kstate) (l D : list Z) (c sid dstid sv dv perm : Z) :
  space_ok s l D -> curenv s = Some c -> 0 <= sv < 4294967296 -> 0 <= dv < 4294967296 ->
  if bad_va sv || bad_va dv || bad_perm perm
  then exists w, sys_page_map sid sv dstid dv perm s = Panic w s
  else if negb (names s c sid && names s c dstid)
  then sys_page_map sid sv dstid dv perm s = Ret (- E_BAD_ENV) s
  else forall se sd de dd, target s sid se sd D -> target s dstid de dd D ->
    (forall p, mapped s sd (sv / 4096) = Some p -> pp_ref (pages s p) < 65535) ->
    (mapped s sd (sv / 4096) = None
     \/ (flag perm PTE_W = true /\ flag (pte_of s sd (sv / 4096)) PTE_W = false)
     \/ (table_of s dd (dv / 4096 / 1024) = None /\ l = [])
     -> exists w s', sys_page_map sid sv dstid dv perm s = Panic w s')
    /\ (forall p, mapped s sd (sv / 4096) = Some p ->
         (flag perm PTE_W = true -> flag (pte_of s sd (sv / 4096)) PTE_W = true) ->
         (table_of s dd (dv / 4096 / 1024) = None -> l <> []) ->
         exists s' l', sys_page_map sid sv dstid dv perm s = Ret 0 s' /\ space_ok s' l' D
         /\ (forall d v, d ∈ D -> 0 <= v < user_vpns ->
               pte_of s' d v = if decide ((d, v) = (dd, dv / 4096))
                               then Z.lor (p * 4096) (Z.lor perm PTE_P) else pte_of s d v)).
Proof.
  intros Hok Hc Hsv Hdv. destruct (bad_va sv) eqn:Hbs; [by eexists; unfold sys_page_map; rewrite Hbs|].
  destruct (bad_va dv) eqn:Hbd; [by eexists; unfold sys_page_map; rewrite Hbs, Hbd|].
  destruct (bad_perm perm) eqn:Hbp; [by eexists; unfold sys_page_map; rewrite Hbs, Hbd, Hbp|]. cbn [orb].
  destruct (names s c sid && names s c dstid) eqn:Hn; cbn [negb].
  2: { unfold sys_page_map. rewrite Hbs, Hbd, Hbp. cbn [orb]. unfold bind at 1. rewrite (envid2env_names _ c) by done.
    destruct (names s c sid); [|done]. cbn [Z.ltb Z.compare]. unfold bind at 1. rewrite (envid2env_names _ c) by done.
    cbn [andb] in Hn. by rewrite Hn. }
  intros se sd de dd Hs Hd Href.
  pose proof (sys_page_map_decides s l D sid se sd dstid de dd sv dv perm Hok Hs Hd Hsv Hdv Hbs Hbd Hbp Href) as H.
  unfold map_refused in H. split.
  - intros Hr. destruct (mapped s sd (sv / 4096)) as [p|]; [|done].
    destruct Hr as [Hr|[[Hw1 Hw2]|[Ht ->]]]; [done|by rewrite Hw1, Hw2 in H|]. by rewrite Ht, orb_true_r in H.
  - intros p Hp Hw Ht. rewrite Hp in H.
    assert (flag perm PTE_W && negb (flag (pte_of s sd (sv / 4096)) PTE_W) = false) as Ew.
    { destruct (flag perm PTE_W); [|done]. by rewrite Hw. }
    rewrite Ew in H. assert (exists p0 s' l', Some p = Some p0
      /\ sys_page_map sid sv dstid dv perm s = Ret 0 s' /\ space_ok s' l' D
      /\ (flag perm PTE_W = true -> flag (pte_of s sd (sv / 4096)) PTE_W = true)
      /\ (forall d v, d ∈ D -> 0 <= v < user_vpns ->
            pte_of s' d v = if decide ((d, v) = (dd, dv / 4096))
                            then Z.lor (p0 * 4096) (Z.lor perm PTE_P) else pte_of s d v)) as H'.
    { destruct (table_of s dd (dv / 4096 / 1024)); [exact H|]. destruct l; [by destruct (Ht eq_refl)|exact H]. }
    destruct H' as (p0 & s' & l' & [= <-] & E & Hok' & _ & Hpte). by exists s', l'.
Qed.

(** ** sys_cputs *)

Lemma translate_frame s s' w a : phys s' = phys s -> cr3 s' = cr3 s -> translate s' w a = translate s w a.
Proof. intros E1 E2. unfold translate. by rewrite E1, E2. Qed.

(** The loop has printed [k] bytes of [p] and goes on to the byte behind it. *)
Lemma print_user_overread a p n : forall k s,
  E1000.user_bytes s a p -> (forall b, b ∈ p -> b <> 0) -> (k + n)%nat = length p ->
  translate s false (u32 (a + Z.of_nat (length p))) = None ->
  exists s', print_user (S n) (a + Z.of_nat k) (Z.of_nat n) s = Panic "page_fault_handler:page fault" s'.
Proof.
  induction n as [|n IH]; intros k s Hu Hnz Hk Hend.
  - cbn [print_user]. replace k with (length p) by lia. unfold bind, vload8. rewrite Hend. by eexists.
  - destruct (lookup_lt_is_Some_2 p k ltac:(lia)) as [b Hb].
    destruct (Hu k b Hb) as (pa & Ht & Hr).
    change (print_user (S (S n)) ?x ?y) with
      (bind (vload8 (u32 x)) (fun b =>
         if b =? 0 then ret tt else
         if y <? 0 then bind (kputchar (i8 b)) (fun _ => print_user (S n) (x + 1) y)
         else if y - 1 >=? 0 then bind (kputchar (i8 b)) (fun _ => print_user (S n) (x + 1) (y - 1))
         else ret tt)).
    rewrite (bind_ret _ _ s b s) by (unfold vload8; by rewrite Ht, Hr).
    destruct (Z.eqb_spec b 0) as [->|_].
    { exfalso. apply (Hnz 0); [|done]. by apply list_elem_of_lookup_2 with k. }
    destruct (Z.ltb_spec (Z.of_nat (S n)) 0); [lia|]. rewrite Z.geb_leb.
    destruct (Z.leb_spec 0 (Z.of_nat (S n) - 1)); [|lia].
    unfold bind, kputchar, modify.
    replace (a + Z.of_nat k + 1) with (a + Z.of_nat (S k)) by lia.
    replace (Z.of_nat (S n) - 1) with (Z.of_nat n) by lia.
    apply IH; [exact Hu|done|lia|exact Hend].
Qed.

(** A string that ends exactly where the caller's memory ends brings the
    kernel down: [sys_cputs] checks the [len] bytes it was given, but the loop
    of [%.*s] reads the byte behind them before it looks at the precision, and
    the kernel faults. *)
Theorem sys_cputs_overread (s : kstate) (c va : Z) (p : list Z) (s1 : kstate) :
  curenv s = Some c -> va <> 0 -> Z.of_nat (length p) < 2147483648 ->
  user_mem_check c va (Z.of_nat (length p)) PTE_U s = Ret 0 s1 ->
  E1000.user_bytes s1 va p -> (forall b, b ∈ p -> b <> 0) ->
  translate s1 false (u32 (va + Z.of_nat (length p))) = None ->
  exists s', sys_cputs va (Z.of_nat (length p)) s = Panic "page_fault_handler:page fault" s'.
Proof.
  intros Hc Hz Hlen Hchk Hu Hnz Hend. unfold sys_cputs.
  rewrite (bind_ret _ _ s c s) by (unfold cur; by rewrite Hc).
  rewrite (bind_ret _ _ s tt s1).
  2: { unfold user_mem_assert. by rewrite (bind_ret _ _ _ _ _ Hchk). }
  unfold cprintf_user. destruct (Z.eqb_spec va 0); [done|]. rewrite i32_id by lia.
  destruct (Z.ltb_spec (Z.of_nat (length p)) 0); [lia|].
  replace (Z.to_nat (Z.of_nat (length p) + 1)) with (S (length p)) by lia.
  pose proof (print_user_overread va p (length p) 0 s1 Hu Hnz eq_refl Hend) as H0.
  rewrite Z.add_0_r in H0. exact H0.
Qed.

(** *** Concrete states *)

(** Environment 1 runs; its child 6, whose directory is page 4, waits for a
    message. *)
Definition two_envs : kstate :=
  set_curenv (Some 1)
    (upd_env 6 (fun e => set_env_pgdir (kva 4) (set_env_parent_id 4097 (set_env_ipc_recving true
                  (set_env_status ENV_NOT_RUNNABLE (set_env_id 4102 e)))))
       (upd_env 1 (fun e => set_env_pgdir (kva 2) (set_env_status ENV_RUNNING (set_env_id 4097 e)))
          small_state)).

Lemma two_envs_ok : space_ok two_envs [3; 5; 9] [2; 4].
Proof. eapply space_ok_frame; [exact small_space_ok|reflexivity..]. Qed.

Lemma two_envs_target : target two_envs 4102 6 4 [2; 4].
Proof. split; [reflexivity|reflexivity|set_solver]. Qed.

Lemma envid2env_authorized_witness :
  envid2env 4102 true two_envs = Ret (0, Some 6) two_envs /\ may_act two_envs 6.
Proof.
  assert (envid2env 4102 true two_envs = Ret (0, Some 6) two_envs) as E by reflexivity.
  split; [exact E|].
  destruct (envid2env_authorized two_envs two_envs 4102 (Some 6) E) as (_ & _ & H).
  destruct H as (i & Hi & _ & _ & Hm); [discriminate|]. injection Hi as <-. exact Hm.
Defined.

Lemma sys_page_alloc_spec_witness :
  exists s' l', sys_page_alloc 4102 8388608 7 two_envs = Ret 0 s' /\ space_ok s' l' [2; 4]
    /\ pte_of s' 4 2048 = 12295.
Proof.
  destruct (sys_page_alloc_spec two_envs [3; 5; 9] [2; 4] 4102 6 4 8388608 7 two_envs_ok two_envs_target)
    as [_ H]; [lia|reflexivity|reflexivity|].
  destruct H as (s' & l' & E & Hok & Hpte & _); [discriminate|].
  exists s', l'. split; [exact E|]. split; [exact Hok|].
  rewrite Hpte; [reflexivity|exact (ta_in _ _ _ _ _ two_envs_target)|rewrite user_vpns_eq; lia].
Defined.

Lemma two_envs_self : target two_envs 0 1 2 [2; 4].
Proof. split; [reflexivity|reflexivity|exact small_dir]. Qed.

(** Environment 6 has a page at 0x800000; it is the child of environment 1. *)
Definition child_page : kstate :=
  match sys_page_alloc 4102 8388608 5 two_envs with Ret _ s => s | _ => two_envs end.

Lemma child_page_ok : exists l, space_ok child_page l [2; 4] /\ pte_of child_page 4 2048 = 12293.
Proof.
  destruct (sys_page_alloc_spec two_envs [3; 5; 9] [2; 4] 4102 6 4 8388608 5 two_envs_ok two_envs_target)
    as [_ H]; [lia|reflexivity|reflexivity|].
  destruct H as (s' & l' & E & Hok & Hpte & _); [discriminate|]. exists l'. unfold child_page. rewrite E.
  split; [exact Hok|]. rewrite Hpte; [reflexivity|exact (ta_in _ _ _ _ _ two_envs_target)|rewrite user_vpns_eq; lia].
Qed.

Lemma child_page_target : target child_page 4102 6 4 [2; 4] /\ curenv child_page = Some 1.
Proof. split; [split; [vm_compute; reflexivity|vm_compute; reflexivity|set_solver]|vm_compute; reflexivity]. Qed.

Lemma child_page_names : names child_page 1 4102 = true /\ names child_page 1 4103 = false.
Proof. split; vm_compute; reflexivity. Qed.

Lemma child_page_table : table_of child_page 4 (8392704 / 4096 / 1024) = Some 5.
Proof. vm_compute. reflexivity. Qed.

(** The page goes to 0x801000 as well, read-only; asked for writable, or by an
    identifier of nobody, it does not. *)
Lemma sys_page_map_rights_witness :
  (exists s' l', sys_page_map 4102 8388608 4102 8392704 5 child_page = Ret 0 s' /\ space_ok s' l' [2; 4]
     /\ pte_of s' 4 2049 = 12293)
  /\ (exists w s', sys_page_map 4102 8388608 4102 8392704 7 child_page = Panic w s')
  /\ sys_page_map 4103 8388608 4102 8392704 5 child_page = Ret (-2) child_page.
Proof.
  destruct child_page_ok as (l & Hok & Hpte). destruct child_page_target as [Ht Hc].
  assert (mapped child_page 4 2048 = Some 3) as Hm by (unfold mapped; rewrite Hpte; reflexivity).
  assert (forall p, mapped child_page 4 (8388608 / 4096) = Some p -> pp_ref (pages child_page p) < 65535) as Href.
  { intros p Hp. change (8388608 / 4096) with 2048 in Hp. rewrite Hm in Hp. injection Hp as <-. vm_compute. reflexivity. }
  destruct child_page_names as [Hn Hx]. split; [|split].
  - pose proof (sys_page_map_rights child_page l [2; 4] 1 4102 4102 8388608 8392704 5 Hok Hc ltac:(lia) ltac:(lia)) as H.
    rewrite Hn in H. cbv beta iota delta [bad_va bad_perm negb andb] in H.
    destruct (H 6 4 6 4 Ht Ht Href) as [_ H']. clear H.
    destruct (H' 3 Hm) as (s' & l' & E & Hok' & Hp).
    + intros Hf. discriminate Hf.
    + rewrite child_page_table. intros Hf. discriminate Hf.
    + exists s', l'. split; [exact E|]. split; [exact Hok'|].
      rewrite Hp; [reflexivity|exact (ta_in _ _ _ _ _ Ht)|rewrite user_vpns_eq; lia].
  - pose proof (sys_page_map_rights child_page l [2; 4] 1 4102 4102 8388608 8392704 7 Hok Hc ltac:(lia) ltac:(lia)) as H.
    rewrite Hn in H. destruct (H 6 4 6 4 Ht Ht Href) as [H' _]. clear H.
    apply H'. right. left. split; [reflexivity|]. change (8388608 / 4096) with 2048. rewrite Hpte. reflexivity.
  - pose proof (sys_page_map_rights child_page l [2; 4] 1 4103 4102 8388608 8392704 5 Hok Hc ltac:(lia) ltac:(lia)) as H.
    rewrite Hx in H. exact H.
Defined.

(** The user page at 0x800000 ends in the letters [a b] and the next page is not
    mapped. *)
Definition edge_state : kstate :=
  set_cr3 8192 (set_curenv (Some 1)
    (set_phys (wr8 (wr8 (phys UserMem.mapped_state) 32766 97) 32767 98) UserMem.mapped_state)).

Lemma sys_cputs_overread_witness :
  exists s', sys_cputs 8392702 2 edge_state = Panic "page_fault_handler:page fault" s'.
Proof.
  destruct (user_mem_check 1 8392702 2 PTE_U edge_state) as [r s1| | | | |] eqn:E;
    try (vm_compute in E; discriminate E).
  assert (r = 0 /\ phys s1 = phys edge_state /\ cr3 s1 = cr3 edge_state) as (-> & Hp & H3)
    by (vm_compute in E; injection E as <- <-; split; [|split]; reflexivity).
  apply (sys_cputs_overread edge_state 1 8392702 [97; 98] s1); [reflexivity|lia|vm_compute; reflexivity|exact E| | |].
  - intros [|[|j]] b Hb; [| |discriminate Hb]; injection Hb as <-;
      rewrite (translate_frame edge_state) by (exact Hp || exact H3); rewrite Hp;
      eexists; split; vm_compute; reflexivity.
  - intros b Hb. apply list_elem_of_In in Hb as [<-|[<-|[]]]; lia.
  - rewrite (translate_frame edge_state) by (exact Hp || exact H3). vm_compute. reflexivity.
Defined.

End SyscallFacts.
