(* ===== verification/Kipc.v ===== *)
(** * What the kernel's part of IPC promises (kern/syscall.c)

    [sys_ipc_try_send] on every branch: the receiver does not wait, no page is
    sent, none is wanted, a page is handed over, or the arguments are wrong. *)

From stdpp Require Import base numbers list functions strings sets.
From Stdlib Require Import ZArith Lia.
From S2P Require Import Prelude Mem Mmu Console Kernel Printfmt Pmap PageAlloc PageTable AddrSpace UserMem Env EnvFree Sched E1000 Syscall SyscallFacts.

Open Scope Z_scope.
Open Scope jos_scope.

Module Kipc.

Import Pmap PageAlloc PageTable AddrSpace Env Vm EnvFree Sched Syscall SyscallFacts.

(** The receiver's fields after a message. *)
Definition delivered (value from perm : Z) (e : Env) : Env :=
  upd_tf (set_eax 0) (set_env_status ENV_RUNNABLE (set_env_ipc_value value
    (set_env_ipc_from from (set_env_ipc_recving false (set_env_ipc_perm perm e))))).

(** What becomes of a message to an environment that waits: the call has no
    meaning, it panics, the value goes alone, or it goes with page [p]. *)
Inductive verdict := Wild | Refused | Plain | WithPage (p : Z).

(** [sd] and [dd] are the page directories of sender and receiver, [dstva] is
    where the receiver wants a page and [l] the free list. *)
Definition ipc_verdict (s : kstate) (l : list Z) (sd dd srcva perm dstva : Z) : verdict :=
  if UTOP <=? srcva then Plain else
  match mapped s sd (srcva / 4096) with
  | None => Wild
  | Some p =>
    if negb (ROUNDDOWN srcva PGSIZE =? srcva) || bad_perm perm
       || (flag perm PTE_W && negb (flag (pte_of s sd (srcva / 4096)) PTE_W)) then Refused
    else if UTOP <=? dstva then Plain
    else match table_of s dd (dstva / 4096 / 1024), l with
         | None, [] => Refused
         | _, _ => WithPage p
         end
  end.

Lemma verdict_page s l sd dd srcva perm dstva p :
  ipc_verdict s l sd dd srcva perm dstva = WithPage p ->
  mapped s sd (srcva / 4096) = Some p
  /\ (flag perm PTE_W = true -> flag (pte_of s sd (srcva / 4096)) PTE_W = true).
Proof.
  unfold ipc_verdict. destruct (UTOP <=? srcva); [done|].
  destruct (mapped s sd (srcva / 4096)) as [q|]; [|done].
  destruct (_ || bad_perm perm); [done|]. cbn [orb].
  destruct (flag perm PTE_W), (flag (pte_of s sd _) PTE_W); cbn [andb negb]; try done;
    (destruct (UTOP <=? dstva); [done|]);
    (destruct (table_of s dd _); [by intros [= ->]|]); (destruct l; [done|by intros [= ->]]).
Qed.

Lemma mem_only_cpu s s' : mem_only s s' -> envs s' = envs s /\ curenv s' = curenv s /\ kernel_locked s' = kernel_locked s.
Proof. intros ->. done. Qed.

Section ipc.

Context (s : kstate) (l D : list Z) (envid r c sd dd value srcva perm : Z).
Context (Hok : space_ok s l D) (Hr : envid2env envid false s = Ret (0, Some r) s) (Hc : curenv s = Some c).
Context (Hcr : c <> r).
Context (Hsd : env_pgdir (envs s c) = kva sd) (HsD : sd ∈ D).
Context (Hdd : env_pgdir (envs s r) = kva dd) (HdD : dd ∈ D).
Context (Hva : 0 <= srcva < 4294967296) (Hdva : 0 <= env_ipc_dstva (envs s r) < 4294967296).
Context (Href : forall p, mapped s sd (srcva / 4096) = Some p -> pp_ref (pages s p) < 65535).

Local Abbreviation dstva := (env_ipc_dstva (envs s r)).

(** The message is delivered in [s'], with the receiver's address space as
    [s1] leaves it. *)
Definition sent (p : Z) (s1 s' : kstate) : Prop :=
  envs s' r = delivered value (env_id (envs s c)) p (envs s r)
  /\ (forall i, i <> r -> envs s' i = envs s i)
  /\ s' = set_envs (envs s') s1.

Local Abbreviation s0 := (upd_env r (set_env_ipc_perm 0) s).

Lemma ipc_not_recv :
  env_ipc_recving (envs s r) = false ->
  sys_ipc_try_send envid value srcva perm s = Ret (- E_IPC_NOT_RECV) s.
Proof using Hr.
  intros Hrecv. unfold sys_ipc_try_send. rewrite (bind_ret _ _ _ _ _ Hr). cbn [Z.ltb Z.compare].
  rewrite (bind_ret _ _ s r s) by done.
  by rewrite (bind_ret _ _ s false s) by (unfold env_field, gets; by rewrite Hrecv).
Qed.

Context (Hrecv : env_ipc_recving (envs s r) = true).

(** [sys_ipc_try_send] up to the page. *)
Lemma ipc_start :
  sys_ipc_try_send envid value srcva perm s =
    (do! (if srcva <? UTOP then ipc_send_page r srcva perm else ret tt) in
     do! modify (upd_env r (set_env_ipc_recving false)) in
     let! c := cur in
     let! id := env_field c env_id in
     do! modify (upd_env r (set_env_ipc_from id)) in
     do! modify (upd_env r (set_env_ipc_value value)) in
     do! modify (upd_env r (set_env_status ENV_RUNNABLE)) in
     do! modify (upd_env r (upd_tf (set_eax 0))) in
     ret 0) s0.
Proof using Hr Hrecv Hva.
  unfold sys_ipc_try_send. rewrite (bind_ret _ _ _ _ _ Hr). cbn [Z.ltb Z.compare].
  rewrite (bind_ret _ _ s r s) by done.
  rewrite (bind_ret _ _ s true s) by (unfold env_field, gets; by rewrite Hrecv). cbn [negb].
  rewrite (bind_ret _ _ s tt s0) by done. by rewrite (u32_id srcva) by done.
Qed.

(** The last assignments of [sys_ipc_try_send]. *)
Lemma ipc_finish s1 p :
  curenv s1 = Some c -> envs s1 r = set_env_ipc_perm p (envs s r) ->
  (forall i, i <> r -> envs s1 i = envs s i) ->
  (if srcva <? UTOP then ipc_send_page r srcva perm else ret tt) s0 = Ret tt s1 ->
  exists s', sys_ipc_try_send envid value srcva perm s = Ret 0 s' /\ sent p s1 s'.
Proof using Hr Hrecv Hva Hcr.
  intros Hc1 He1 Ho1 Hsend. rewrite ipc_start, (bind_ret _ _ _ _ _ Hsend).
  rewrite (bind_ret _ _ s1 tt (upd_env r (set_env_ipc_recving false) s1)) by done.
  rewrite (bind_ret _ _ _ c (upd_env r (set_env_ipc_recving false) s1))
    by (unfold cur; change (curenv (upd_env r (set_env_ipc_recving false) s1)) with (curenv s1); by rewrite Hc1).
  unfold bind, env_field, gets, modify, ret. eexists. split; [reflexivity|].
  split; [|split; [|by destruct s1]]; cbn [envs upd_env set_envs].
  - rewrite !fn_lookup_insert, He1, !fn_lookup_insert_ne, Ho1 by done. done.
  - intros i Hi. by rewrite !fn_lookup_insert_ne, Ho1 by done.
Qed.

Lemma ipc_page_eq :
  srcva < UTOP ->
  ipc_send_page r srcva perm s0 =
    match mapped s sd (srcva / 4096) with
    | None => Undef "sys_ipc_try_send: pte is not initialised" s0
    | Some p =>
      if negb (ROUNDDOWN srcva PGSIZE =? srcva) || bad_perm perm then
        Panic "sys_ipc_try_send: srcva failed)" s0
      else if flag perm PTE_W && negb (flag (pte_of s sd (srcva / 4096)) PTE_W) then
        Panic "sys_ipc_try_send: permission failed" s0
      else if dstva <? UTOP then
        (let! x := page_insert (kva dd) p dstva perm in
         if x <? 0 then panic "sys_ipc_try_send: page_insert failed"
         else modify (upd_env r (set_env_ipc_perm perm))) s0
      else Ret tt s0
    end.
Proof using Hok Hc Hcr Hsd HsD Hdd Hva Hdva.
  clear Href. intros Hlt. unfold ipc_send_page.
  assert (envs s0 r = set_env_ipc_perm 0 (envs s r)) as E0 by (cbn; by fsimpl).
  rewrite (bind_ret _ _ s0 c s0) by (unfold cur; change (curenv s0) with (curenv s); by rewrite Hc).
  rewrite (bind_ret _ _ s0 (kva sd) s0) by (unfold env_field, gets; cbn; fsimpl; by rewrite Hsd).
  assert (space_ok s0 l D) as Hok0 by (eapply space_ok_frame; [exact Hok|reflexivity..]).
  rewrite (bind_ret _ _ _ _ _ (page_lookup_eq s0 l D Hok0 sd srcva HsD ltac:(lia))).
  change (mapped s0 sd (srcva / 4096)) with (mapped s sd (srcva / 4096)).
  destruct (mapped s sd (srcva / 4096)) as [p|] eqn:Hm; [|done].
  destruct (mapped_table s0 sd srcva p Hm) as (tp & -> & Ew).
  destruct (_ || bad_perm perm); [done|].
  rewrite (bind_ret _ _ _ _ _ (kload_word s0 tp _)), <- Ew.
  change (pte_of s0 sd (srcva / 4096)) with (pte_of s sd (srcva / 4096)).
  destruct (flag perm PTE_W && _); [done|].
  rewrite (bind_ret _ _ s0 dstva s0) by (unfold env_field, gets; by rewrite E0).
  rewrite u32_id by done. destruct (dstva <? UTOP); [|done].
  by rewrite (bind_ret _ _ s0 (kva dd) s0) by (unfold env_field, gets; rewrite E0; cbn; by rewrite Hdd).
Qed.

(** A page goes with the message. *)
Lemma ipc_with_page p :
  ipc_verdict s l sd dd srcva perm dstva = WithPage p ->
  exists s' s1 l', sys_ipc_try_send envid value srcva perm s = Ret 0 s' /\ sent perm s1 s'
    /\ insert_post s0 s1 l l' D dd p dstva perm.
Proof using All.
  unfold ipc_verdict. destruct (Z.leb_spec UTOP srcva) as [|Hlt]; [done|].
  destruct (mapped s sd (srcva / 4096)) as [q|] eqn:Hm; [|done].
  destruct (negb (ROUNDDOWN srcva PGSIZE =? srcva) || bad_perm perm) eqn:Hbad; [done|]. cbn [orb].
  destruct (flag perm PTE_W && _) eqn:Hw; [done|].
  destruct (Z.leb_spec UTOP dstva) as [|Hd]; [done|].
  assert (0 <= perm < 4096) as Hp by (apply bad_perm_range; by destruct (bad_perm perm); [rewrite orb_true_r in Hbad|]).
  destruct (user_va srcva ltac:(lia)) as [_ Hsn].
  destruct (mapped_data_page s l D sd _ q Hok HsD Hsn Hm) as [Hdp Hql].
  assert (space_ok s0 l D) as Hok0 by (eapply space_ok_frame; [exact Hok|reflexivity..]).
  pose proof (page_insert_spec s0 l D dd q dstva perm Hok0 HdD ltac:(lia) Hp Hdp Hql (Href q eq_refl)) as Hi.
  change (table_of s0 dd (dstva / 4096 / 1024)) with (table_of s dd (dstva / 4096 / 1024)) in Hi.
  intros Hv.
  assert (q = p /\ exists s1 l', page_insert (kva dd) q dstva perm s0 = Ret 0 s1
            /\ insert_post s0 s1 l l' D dd q dstva perm) as [-> (s1 & l' & E & Hpost)].
  { destruct (table_of s dd (dstva / 4096 / 1024)); [by injection Hv as ->|].
    destruct l; [done|by injection Hv as ->]. }
  pose proof (mem_only_cpu _ _ (proj1 (proj2 (proj2 (proj2 (proj2 Hpost)))))) as (He1 & Hc1 & _).
  set (s2 := upd_env r (set_env_ipc_perm perm) s1).
  destruct (ipc_finish s2 perm) as (s' & Es & Hsent).
  - change (curenv s2) with (curenv s1). by rewrite Hc1.
  - subst s2. cbn. rewrite fn_lookup_insert, He1. cbn. by rewrite fn_lookup_insert.
  - intros i Hne. subst s2. cbn. rewrite fn_lookup_insert_ne, He1 by done. cbn. by fsimpl.
  - destruct (Z.ltb_spec srcva UTOP); [|lia].
    rewrite ipc_page_eq, Hm, Hbad, Hw by lia. destruct (Z.ltb_spec dstva UTOP); [|lia].
    by rewrite (bind_ret _ _ _ _ _ E).
  - exists s', s1, l'. split; [done|]. split; [|done]. destruct Hsent as (? & ? & Hfr).
    split_and!; [done|done|]. rewrite Hfr. by destruct s1.
Qed.

(** The value goes alone. *)
Lemma ipc_plain :
  ipc_verdict s l sd dd srcva perm dstva = Plain ->
  exists s', sys_ipc_try_send envid value srcva perm s = Ret 0 s' /\ sent 0 s s'.
Proof using All.
  intros Hv. destruct (ipc_finish s0 0) as (s' & E & ? & ? & Hfr).
  - exact Hc.
  - cbn. by fsimpl.
  - intros i Hi. cbn. by fsimpl.
  - unfold ipc_verdict in Hv. destruct (Z.leb_spec UTOP srcva), (Z.ltb_spec srcva UTOP); try lia; [done|].
    rewrite ipc_page_eq by lia. destruct (mapped s sd (srcva / 4096)) as [q|]; [|done].
    destruct (_ || bad_perm perm); [done|]. destruct (flag perm PTE_W && _); [done|]. cbn [orb] in Hv.
    destruct (Z.leb_spec UTOP dstva), (Z.ltb_spec dstva UTOP); try lia; [done|].
    destruct (table_of s dd (dstva / 4096 / 1024)); [done|]. by destruct l.
  - exists s'. split; [done|]. split_and!; [done|done|]. rewrite Hfr. by destruct s.
Qed.

(** A refusal stops the kernel. *)
Lemma ipc_refused :
  ipc_verdict s l sd dd srcva perm dstva = Refused ->
  exists w s', sys_ipc_try_send envid value srcva perm s = Panic w s'.
Proof using All.
  intros Hv. rewrite ipc_start. unfold ipc_verdict in Hv.
  destruct (Z.leb_spec UTOP srcva), (Z.ltb_spec srcva UTOP); try lia; [done|].
  unfold bind at 1. rewrite ipc_page_eq by lia. destruct (mapped s sd (srcva / 4096)) as [q|] eqn:Hm; [|done].
  destruct (_ || bad_perm perm) eqn:Hbad; [by eexists _, _|].
  destruct (flag perm PTE_W && _); [by eexists _, _|]. cbn [orb] in Hv.
  destruct (Z.leb_spec UTOP dstva), (Z.ltb_spec dstva UTOP); try lia; [done|].
  assert (0 <= perm < 4096) as Hp by (apply bad_perm_range; by destruct (bad_perm perm); [rewrite orb_true_r in Hbad|]).
  destruct (user_va srcva ltac:(lia)) as [_ Hsn].
  destruct (mapped_data_page s l D sd _ q Hok HsD Hsn Hm) as [Hdp Hql].
  assert (space_ok s0 l D) as Hok0 by (eapply space_ok_frame; [exact Hok|reflexivity..]).
  pose proof (page_insert_spec s0 l D dd q dstva perm Hok0 HdD ltac:(lia) Hp Hdp Hql (Href q eq_refl)) as Hi.
  change (table_of s0 dd (dstva / 4096 / 1024)) with (table_of s dd (dstva / 4096 / 1024)) in Hi.
  destruct (table_of s dd (dstva / 4096 / 1024)); [done|]. destruct l; [|done].
  rewrite (bind_ret _ _ _ _ _ Hi). by eexists _, _.
Qed.

Lemma ipc_wild :
  ipc_verdict s l sd dd srcva perm dstva = Wild ->
  exists w s', sys_ipc_try_send envid value srcva perm s = Undef w s'.
Proof using All.
  intros Hv. rewrite ipc_start. unfold ipc_verdict in Hv.
  destruct (Z.leb_spec UTOP srcva), (Z.ltb_spec srcva UTOP); try lia; [done|].
  unfold bind at 1. rewrite ipc_page_eq by lia. destruct (mapped s sd (srcva / 4096)) as [q|]; [|by eexists _, _].
  destruct (_ || bad_perm perm); [done|]. destruct (flag perm PTE_W && _); [done|]. cbn [orb] in Hv.
  destruct (UTOP <=? dstva); [done|]. destruct (table_of s dd _); [done|]. by destruct l.
Qed.

End ipc.

(** The kernel's part of IPC, on every branch.  A receiver that does not
    wait is left alone and the sender told so.  One that waits gets the value,
    the sender's identifier and result 0 from its own call, and is runnable;
    when both sides ask for a page, its address space maps the very page the
    sender maps, writable only if the sender's is, and no other entry of any
    address space changes; otherwise no memory changes.  No other environment
    changes.  Wrong arguments, for which the interface documents errors, panic
    the kernel, or read a variable that is not set. *)
Theorem ipc_delivers (s : kstate) (l D : list Z) (envid r c sd dd value srcva perm : Z) :
  space_ok s l D -> envid2env envid false s = Ret (0, Some r) s -> curenv s = Some c -> c <> r ->
  env_pgdir (envs s c) = kva sd -> sd ∈ D -> env_pgdir (envs s r) = kva dd -> dd ∈ D ->
  0 <= srcva < 4294967296 -> 0 <= env_ipc_dstva (envs s r) < 4294967296 ->
  (forall p, mapped s sd (srcva / 4096) = Some p -> pp_ref (pages s p) < 65535) ->
  let dstva := env_ipc_dstva (envs s r) in
  let got perm' s' := envs s' r = delivered value (env_id (envs s c)) perm' (envs s r)
                      /\ forall i, i <> r -> envs s' i = envs s i in
  if env_ipc_recving (envs s r) then
    match ipc_verdict s l sd dd srcva perm dstva with
    | Plain => exists s', sys_ipc_try_send envid value srcva perm s = Ret 0 s' /\ got 0 s' /\ phys s' = phys s
    | WithPage p => exists s' l', sys_ipc_try_send envid value srcva perm s = Ret 0 s' /\ got perm s'
        /\ mapped s sd (srcva / 4096) = Some p
        /\ (flag perm PTE_W = true -> flag (pte_of s sd (srcva / 4096)) PTE_W = true)
        /\ space_ok s' l' D
        /\ (forall d v, d ∈ D -> 0 <= v < user_vpns ->
              pte_of s' d v = if decide ((d, v) = (dd, dstva / 4096))
                              then Z.lor (p * 4096) (Z.lor perm PTE_P) else pte_of s d v)
    | Refused => exists w s', sys_ipc_try_send envid value srcva perm s = Panic w s'
    | Wild => exists w s', sys_ipc_try_send envid value srcva perm s = Undef w s'
    end
  else sys_ipc_try_send envid value srcva perm s = Ret (- E_IPC_NOT_RECV) s.
Proof.
  intros Hok Hr Hc Hcr Hsd HsD Hdd HdD Hva Hdva Href dstva got.
  destruct (env_ipc_recving (envs s r)) eqn:Hrecv; [|by eapply ipc_not_recv].
  destruct (ipc_verdict _ _ _ _ _ _ _) as [| | |p] eqn:Hv.
  - by eapply ipc_wild.
  - by eapply ipc_refused.
  - destruct (ipc_plain s l D envid r c sd dd value srcva perm) as (s' & E & H1 & H2 & H3); [done..|]. exists s'. split_and!; [done..|]. by rewrite H3.
  - destruct (ipc_with_page s l D envid r c sd dd value srcva perm Hok Hr Hc Hcr Hsd HsD Hdd HdD Hva Hdva Href Hrecv p Hv) as (s' & s1 & l' & E & (H1 & H2 & H3) & Hok1 & Hpte & _).
    destruct (verdict_page _ _ _ _ _ _ _ _ Hv) as [Hm Hw].
    exists s', l'. split_and!; try done.
    + rewrite H3. eapply space_ok_frame; [exact Hok1|reflexivity..].
    + intros d v Hd Hv0. rewrite H3. exact (Hpte d v Hd Hv0).
Qed.

Lemma ipc_delivers_witness :
  exists s', sys_ipc_try_send 4102 42 UTOP 0 two_envs = Ret 0 s'
    /\ env_ipc_value (envs s' 6) = 42 /\ env_ipc_from (envs s' 6) = 4097.
Proof.
  pose proof (ipc_delivers two_envs [3; 5; 9] [2; 4] 4102 6 1 2 4 42 UTOP 0 two_envs_ok) as H.
  destruct H as (s' & E & (He & _) & _);
    [reflexivity|reflexivity|discriminate|reflexivity|exact small_dir|reflexivity
    |exact (ta_in _ _ _ _ _ two_envs_target)|vm_compute; split; congruence|vm_compute; split; congruence| |].
  { intros p Hp. assert (mapped two_envs 2 (UTOP / 4096) = None) as Hn by (apply zero_mapped; reflexivity).
    rewrite Hn in Hp. discriminate. }
  exists s'. split; [exact E|]. rewrite He. split; reflexivity.
Defined.

End Kipc.
