(* ===== verification/Trap.v ===== *)
(** * Traps and interrupts (kern/trap.c)

    The interrupt descriptor table [trap_init] builds, and the path of a trap:
    [trap], [trap_dispatch] and the handlers.  The saved registers are the
    trapframe the entry code pushed; for a trap from user mode the code works
    on the copy in [curenv->env_tf], which [home] names.

    [fault_va] stands for [rcr2()].  The halt on [panicstr] is left out, since a
    panic ends the run of the model, and so is the assertion on the IF flag,
    which the interrupt gates establish in hardware.  Entering the kernel
    monitor ends a run as [Monitor]. *)

From stdpp Require Import base numbers list functions strings.
From Stdlib Require Import ZArith Lia.
From S2P Require Import Prelude Mem Mmu Console Kernel Printfmt Pmap PageAlloc PageTable UserMem Env Sched E1000 Syscall.

Open Scope Z_scope.
Open Scope jos_scope.

Module Trap.

Import Pmap Env Vm Sched E1000 Syscall Printfmt.

(** ** inc/trap.h *)

Definition T_DIVIDE : Z := 0.

Definition T_DEBUG : Z := 1.

Definition T_NMI : Z := 2.

Definition T_BRKPT : Z := 3.

Definition T_OFLOW : Z := 4.

Definition T_BOUND : Z := 5.

Definition T_ILLOP : Z := 6.

Definition T_DEVICE : Z := 7.

Definition T_DBLFLT : Z := 8.

Definition T_TSS : Z := 10.

Definition T_SEGNP : Z := 11.

Definition T_STACK : Z := 12.

Definition T_GPFLT : Z := 13.

Definition T_PGFLT : Z := 14.

Definition T_FPERR : Z := 16.

Definition T_ALIGN : Z := 17.

Definition T_MCHK : Z := 18.

Definition T_SIMDERR : Z := 19.

Definition T_SYSCALL : Z := 48.

Definition IRQ_OFFSET : Z := 32.

Definition IRQ_TIMER : Z := 0.

Definition IRQ_KBD : Z := 1.

Definition IRQ_SERIAL : Z := 4.

Definition IRQ_SPURIOUS : Z := 7.

Definition IRQ_E1000 : Z := 11.

Definition IRQ_IDE : Z := 14.

Definition IRQ_ERROR : Z := 19.

(** ** The interrupt descriptor table *)

Record Gatedesc := mkGate {
  gd_off_15_0 : Z;
  gd_sel : Z;
  gd_args : Z;
  gd_rsv1 : Z;
  gd_type : Z;
  gd_s : Z;
  gd_dpl : Z;
  gd_p : Z;
  gd_off_31_16 : Z
}.

Definition STS_IG32 : Z := 14.

Definition STS_TG32 : Z := 15.

Definition SETGATE (istrap : bool) (sel off dpl : Z) : Gatedesc :=
  mkGate (Z.land (u32 off) 65535) sel 0 0 (if istrap then STS_TG32 else STS_IG32) 0 dpl 1
    (Z.shiftr (u32 off) 16).

Definition no_gate : Gatedesc := mkGate 0 0 0 0 0 0 0 0 0.

(** The vectors [trap_init] fills, with the privilege level and the entry point
    of trapentry.S, whose address [entry] gives. *)
Definition gates : list (Z * string * Z) :=
  [(T_DIVIDE, "t_divide", 0); (T_DEBUG, "t_debug", 0); (T_NMI, "t_nmi", 0); (T_BRKPT, "t_brkpt", 3);
   (T_OFLOW, "t_oflow", 0); (T_BOUND, "t_bound", 0); (T_ILLOP, "t_illop", 0); (T_DEVICE, "t_device", 0);
   (T_DBLFLT, "t_dblflt", 0); (T_TSS, "t_tss", 0); (T_SEGNP, "t_segnp", 0); (T_STACK, "t_stack", 0);
   (T_GPFLT, "t_gpflt", 0); (T_PGFLT, "t_pgflt", 0); (T_FPERR, "t_fperr", 0); (T_ALIGN, "t_align", 0);
   (T_MCHK, "t_mchk", 0); (T_SIMDERR, "t_simderr", 0); (T_SYSCALL, "t_syscall", 3);
   (IRQ_OFFSET + IRQ_TIMER, "irq_timer", 0); (IRQ_OFFSET + IRQ_KBD, "irq_kbd", 0);
   (IRQ_OFFSET + IRQ_SERIAL, "irq_serial", 0); (IRQ_OFFSET + IRQ_SPURIOUS, "irq_spurious", 0);
   (IRQ_OFFSET + IRQ_IDE, "irq_ide", 0); (IRQ_OFFSET + IRQ_ERROR, "irq_error", 0);
   (IRQ_OFFSET + IRQ_E1000, "irq_e1000", 0)].

Definition set_gate (entry : string -> Z) (idt : Z -> Gatedesc) (g : Z * string * Z) : Z -> Gatedesc :=
  <[g.1.1 := SETGATE false GD_KT (entry g.1.2) g.2]> idt.

Definition trap_init_idt (entry : string -> Z) : Z -> Gatedesc :=
  fold_left (set_gate entry) gates (fun _ => no_gate).

(** The part of [trap_init_percpu] that changes kernel data; [ltr] and [lidt]
    load registers of the CPU. *)
Definition trap_init_percpu : K unit :=
  modify (fun s =>
    let n := cpunum s in
    let c := cpus s n in
    set_cpus (<[n := mkCpuInfo (cpu_id c) (cpu_status c) (cpu_env c)
                       (KSTACKTOP - n * (KSTKSIZE + KSTKGAP)) GD_KD]> (cpus s)) s).

(** ** Printing *)

Definition trapname (trapno : Z) : string :=
  let excnames := ["Divide error"; "Debug"; "Non-Maskable Interrupt"; "Breakpoint"; "Overflow";
    "BOUND Range Exceeded"; "Invalid Opcode"; "Device Not Available"; "Double Fault";
    "Coprocessor Segment Overrun"; "Invalid TSS"; "Segment Not Present"; "Stack Fault";
    "General Protection"; "Page Fault"; "(unknown trap)"; "x87 FPU Floating-Point Error";
    "Alignment Check"; "Machine-Check"; "SIMD Floating-Point Exception"]%string in
  if u32 trapno <? 20 then nth (Z.to_nat trapno) excnames EmptyString
  else if trapno =? T_SYSCALL then "System call"
  else if (trapno >=? IRQ_OFFSET) && (trapno <? IRQ_OFFSET + 16) then "Hardware Interrupt"
  else "(unknown trap)".

Definition kprintln (fmt : string) (ap : list arg) : K unit :=
  do! kcprintf (String.append fmt newline) ap in ret tt.

Definition print_regs (r : PushRegs) : K unit :=
  do! kprintln "  edi  0x%08x" [AInt (reg_edi r)] in
  do! kprintln "  esi  0x%08x" [AInt (reg_esi r)] in
  do! kprintln "  ebp  0x%08x" [AInt (reg_ebp r)] in
  do! kprintln "  oesp 0x%08x" [AInt (reg_oesp r)] in
  do! kprintln "  ebx  0x%08x" [AInt (reg_ebx r)] in
  do! kprintln "  edx  0x%08x" [AInt (reg_edx r)] in
  do! kprintln "  ecx  0x%08x" [AInt (reg_ecx r)] in
  kprintln "  eax  0x%08x" [AInt (reg_eax r)].

Definition str (m : string) : arg := AStr (Some (chars m)).

(** [addr] is the address of the frame, [last] whether it is [last_tf]. *)
Definition print_trapframe (addr : Z) (last : bool) (fault_va : Z) (tf : Trapframe) : K unit :=
  let! n := gets cpunum in
  do! kprintln "TRAP frame at %p from CPU %d" [AInt addr; AInt n] in
  do! print_regs (tf_regs tf) in
  do! kprintln "  es   0x----%04x" [AInt (tf_es tf)] in
  do! kprintln "  ds   0x----%04x" [AInt (tf_ds tf)] in
  do! kprintln "  trap 0x%08x %s" [AInt (tf_trapno tf); str (trapname (tf_trapno tf))] in
  do! (if last && (tf_trapno tf =? T_PGFLT) then kprintln "  cr2  0x%08x" [AInt fault_va] else ret tt) in
  do! kcprintf "  err  0x%08x" [AInt (tf_err tf)] in
  do! (if tf_trapno tf =? T_PGFLT then
         kprintln " [%s, %s, %s]"
           [str (if flag (tf_err tf) 4 then "user" else "kernel");
            str (if flag (tf_err tf) 2 then "write" else "read");
            str (if flag (tf_err tf) 1 then "protection" else "not-present")]
       else kprintln EmptyString []) in
  do! kprintln "  eip  0x%08x" [AInt (tf_eip tf)] in
  do! kprintln "  cs   0x----%04x" [AInt (tf_cs tf)] in
  do! kprintln "  flag 0x%08x" [AInt (tf_eflags tf)] in
  if negb (Z.land (tf_cs tf) 3 =? 0) then
    do! kprintln "  esp  0x%08x" [AInt (tf_esp tf)] in
    kprintln "  ss   0x----%04x" [AInt (tf_ss tf)]
  else ret tt.

(** ** Handlers *)

Definition sizeof_UTrapframe : Z := 52.

(** [*utf = ...], in the order of the source; the offsets are those of the
    packed [struct UTrapframe]. *)
Definition push_utrapframe (utf fault_va : Z) (tf : Trapframe) : K unit :=
  let r := tf_regs tf in
  do! vstore32 utf fault_va in
  do! vstore32 (utf + 8) (reg_edi r) in
  do! vstore32 (utf + 12) (reg_esi r) in
  do! vstore32 (utf + 16) (reg_ebp r) in
  do! vstore32 (utf + 20) (reg_oesp r) in
  do! vstore32 (utf + 24) (reg_ebx r) in
  do! vstore32 (utf + 28) (reg_edx r) in
  do! vstore32 (utf + 32) (reg_ecx r) in
  do! vstore32 (utf + 36) (reg_eax r) in
  do! vstore32 (utf + 40) (tf_eip tf) in
  do! vstore32 (utf + 44) (tf_eflags tf) in
  do! vstore32 (utf + 48) (tf_esp tf) in
  vstore32 (utf + 4) (tf_trapno tf).

(** Where the fault record goes. *)
Definition utf_address (esp : Z) : Z :=
  if (UXSTACKTOP - PGSIZE <=? esp) && (esp <=? UXSTACKTOP - 1)
  then esp - sizeof_UTrapframe - 4 else UXSTACKTOP - sizeof_UTrapframe.

Definition page_fault_handler (addr fault_va : Z) (tf : Trapframe) : K unit :=
  if Z.land (tf_cs tf) 1 =? 0 then panic "page_fault_handler:page fault" else
  let! c := cur in
  let! upcall := env_field c env_pgfault_upcall in
  if negb (upcall =? 0) then
    let utf := utf_address (tf_esp tf) in
    do! user_mem_assert c utf sizeof_UTrapframe (Z.lor PTE_U PTE_W) in
    do! push_utrapframe utf fault_va tf in
    do! modify (upd_env c (upd_tf (set_tf_eip upcall))) in
    do! modify (upd_env c (upd_tf (set_tf_esp utf))) in
    env_run c
  else
    let! id := env_field c env_id in
    do! kprintln "[%08x] user fault va %08x ip %08x" [AInt id; AInt fault_va; AInt (tf_eip tf)] in
    do! print_trapframe addr true fault_va tf in
    env_destroy c.

Definition breakpoint_handler : K unit := fun s => Monitor s.

Definition system_call_handler (tf : Trapframe) : K Z :=
  let r := tf_regs tf in
  syscall (reg_eax r) (reg_edx r) (reg_ecx r) (reg_ebx r) (reg_edi r) (reg_esi r).

Definition trap_dispatch (addr fault_va : Z) (tf : Trapframe) (home : option Z) : K unit :=
  let no := tf_trapno tf in
  if no =? T_PGFLT then page_fault_handler addr fault_va tf
  else if no =? T_BRKPT then breakpoint_handler
  else if no =? T_DEBUG then breakpoint_handler
  else if no =? T_SYSCALL then
    let! r := system_call_handler tf in
    match home with
    | Some c => modify (upd_env c (upd_tf (set_eax (u32 r))))
    | None => ret tt
    end
  else if no =? IRQ_OFFSET + IRQ_TIMER then
    do! time_tick in sched_yield
  else if no =? IRQ_OFFSET + IRQ_KBD then modify (fun s => set_cons (Console.kbd_intr (cons s)) s)
  else if no =? IRQ_OFFSET + IRQ_SERIAL then modify (fun s => set_cons (Console.serial_intr (cons s)) s)
  else if no =? IRQ_OFFSET + IRQ_E1000 then e1000_trap_handler
  else if no =? IRQ_OFFSET + IRQ_SPURIOUS then
    do! kprintln "Spurious interrupt on irq 7" [] in
    print_trapframe addr true fault_va tf
  else
    do! print_trapframe addr true fault_va tf in
    if tf_cs tf =? GD_KT then panic "unhandled trap in kernel"
    else let! c := cur in env_destroy c.

(** The trap from user mode: take the lock, reap a zombie, save the frame. *)
Definition trap_from_user (tf : Trapframe) : K (option Z) :=
  let! c := gets curenv in
  match c with
  | None => panic "assertion failed: curenv"
  | Some c =>
    do! lock_kernel in
    let! st := env_field c env_status in
    do! (if st =? ENV_DYING then
           do! env_free c in
           do! modify (set_curenv None) in
           sched_yield
         else ret tt) in
    do! modify (upd_env c (set_env_tf tf)) in
    ret (Some c)
  end.

Definition trap (addr fault_va : Z) (tf : Trapframe) : K unit :=
  let! st := gets (fun s => cpu_status (cpus s (cpunum s))) in
  do! modify (set_cpu_state CPU_STARTED) in
  do! (if st =? CPU_HALTED then lock_kernel else ret tt) in
  let! home := (if Z.land (tf_cs tf) 3 =? 3 then trap_from_user tf else ret None) in
  do! trap_dispatch addr fault_va tf home in
  let! c := gets curenv in
  match c with
  | None => sched_yield
  | Some c =>
    let! st := env_field c env_status in
    if st =? ENV_RUNNING then env_run c else sched_yield
  end.

End Trap.
