(* ===== verification/TrapFacts.v ===== *)
(** * What the trap path promises

    Which vectors user code may raise, how a system call returns, and how a
    page fault reaches the environment's handler. *)

From stdpp Require Import base numbers list functions strings sets.
From Stdlib Require Import ZArith Lia.
From S2P Require Import Prelude Mem Mmu Console Kernel Printfmt Pmap PageAlloc PageTable AddrSpace UserMem Env Sched E1000 Syscall Trap.

Open Scope Z_scope.
Open Scope jos_scope.

Module TrapFacts.

Import Pmap PageAlloc PageTable AddrSpace UserMem Env Vm Sched Syscall Trap.

(** ** The interrupt descriptor table *)

(** The handler address in a gate. *)
Definition gate_offset (g : Gatedesc) : Z := gd_off_31_16 g * 65536 + gd_off_15_0 g.

Lemma SETGATE_offset b sel off dpl : 0 <= off < 4294967296 -> gate_offset (SETGATE b sel off dpl) = off.
Proof.
  intros H. unfold gate_offset, SETGATE. cbn. rewrite u32_id by done.
  change 65535 with (Z.ones 16). rewrite Z.land_ones, Z.shiftr_div_pow2 by lia.
  change (2 ^ 16) with 65536. zdm.
Qed.

(** The gate of a vector is the last one listed for it. *)
Lemma idt_fold entry l : forall idt v,
  (forall g, g ∈ l -> g.1.1 <> v) ->
  fold_left (set_gate entry) l idt v = idt v.
Proof.
  induction l as [|g l IH]; intros idt v H; cbn; [done|].
  rewrite IH by (intros g' Hg; apply H; set_solver).
  unfold set_gate. rewrite fn_lookup_insert_ne; [done|]. apply H. set_solver.
Qed.

Lemma idt_gate entry g :
  g ∈ gates -> trap_init_idt entry g.1.1 = SETGATE false GD_KT (entry g.1.2) g.2.
Proof.
  intros (l1 & l2 & E)%list_elem_of_split. unfold trap_init_idt. rewrite E, fold_left_app. cbn.
  rewrite idt_fold; [unfold set_gate; by rewrite fn_lookup_insert|].
  assert (NoDup (map (fun g => g.1.1) gates)) as Hnd by (apply (bool_decide_unpack _); by vm_compute).
  rewrite E, map_app in Hnd. cbn in Hnd. apply NoDup_app in Hnd as (_ & _ & [Hn _]%NoDup_cons).
  intros g' Hg Eg. apply Hn. rewrite <- Eg. apply list_elem_of_In, in_map_iff.
  exists g'. split; [done|]. by apply list_elem_of_In.
Qed.

(** Every vector [trap_init] fills is an interrupt gate into the kernel's
    code segment at the address of its entry point, every other vector is
    absent, and user code can raise only the breakpoint and the system call
    with an [int] instruction. *)
Theorem idt_user_vectors (entry : string -> Z) (v : Z) :
  (forall n, 0 <= entry n < 4294967296) ->
  let g := trap_init_idt entry v in
  (g = no_gate \/ exists n dpl, (v, n, dpl) ∈ gates /\ gd_p g = 1 /\ gd_type g = STS_IG32
     /\ gd_sel g = GD_KT /\ gate_offset g = entry n /\ gd_dpl g = dpl)
  /\ (gd_p g = 1 -> gd_dpl g = 3 -> v = T_BRKPT \/ v = T_SYSCALL).
Proof.
  intros He g.
  assert (g = no_gate \/ exists n dpl, (v, n, dpl) ∈ gates /\ g = SETGATE false GD_KT (entry n) dpl) as H.
  { destruct (decide (Exists (fun g => g.1.1 = v) gates)) as [Hx|Hx].
    - apply Exists_exists in Hx as ([[v' n] dpl] & Hin & Hv). cbn in Hv. subst v'. right.
      exists n, dpl. split; [done|]. exact (idt_gate entry (v, n, dpl) Hin).
    - left. apply (idt_fold entry gates (fun _ => no_gate) v). intros g' Hg Hv. apply Hx, Exists_exists. eauto. }
  destruct H as [E|(n & dpl & Hin & E)].
  - split; [by left|]. rewrite E. done.
  - split.
    + right. exists n, dpl. rewrite E. split; [done|]. cbn. rewrite SETGATE_offset by done. done.
    + rewrite E. cbn. intros _ ->.
      assert (forall x, x ∈ gates -> x.2 = 3 -> x.1.1 = T_BRKPT \/ x.1.1 = T_SYSCALL) as Hall.
      { apply (Forall_forall (fun x : Z * string * Z => x.2 = 3 -> x.1.1 = T_BRKPT \/ x.1.1 = T_SYSCALL)).
        apply (bool_decide_unpack _). by vm_compute. }
      exact (Hall (v, n, 3) Hin eq_refl).
Qed.

Lemma idt_user_vectors_witness :
  gd_dpl (trap_init_idt (fun _ => 4027584512) T_SYSCALL) = 3
  /\ (gd_dpl (trap_init_idt (fun _ => 4027584512) T_SYSCALL) = 3 ->
      T_SYSCALL = T_BRKPT \/ T_SYSCALL = T_SYSCALL).
Proof.
  split; [vm_compute; reflexivity|].
  apply (idt_user_vectors (fun _ => 4027584512) T_SYSCALL); [intros; lia|vm_compute; reflexivity].
Defined.

(** ** System calls *)

(** The state in which [trap_dispatch] handles a trap from user mode. *)
Definition trapped (c : Z) (tf : Trapframe) (s : kstate) : kstate :=
  upd_env c (set_env_tf tf) (set_kernel_locked true (set_cpu_state CPU_STARTED s)).

Lemma curenv_cpu_state st s : curenv (set_cpu_state st s) = curenv s.
Proof. unfold curenv, set_cpu_state. cbn. by rewrite fn_lookup_insert. Qed.

Lemma trap_enters s c tf :
  curenv s = Some c -> env_status (envs s c) = ENV_RUNNING -> kernel_locked s = false ->
  trap_from_user tf (set_cpu_state CPU_STARTED s) = Ret (Some c) (trapped c tf s).
Proof.
  intros Hc Hst Hl. unfold trap_from_user.
  rewrite (bind_ret _ _ _ (Some c) (set_cpu_state CPU_STARTED s))
    by (unfold gets; by rewrite curenv_cpu_state, Hc).
  set (s1 := set_kernel_locked true (set_cpu_state CPU_STARTED s)).
  rewrite (bind_ret _ _ _ tt s1).
  2: { unfold lock_kernel, bind, gets, modify.
       change (kernel_locked (set_cpu_state CPU_STARTED s)) with (kernel_locked s). by rewrite Hl. }
  rewrite (bind_ret _ _ s1 ENV_RUNNING s1) by (unfold env_field, gets; by rewrite <- Hst).
  by rewrite (bind_ret _ _ s1 tt s1).
Qed.

(** The end of [trap]: back to the environment that was running. *)
Definition trap_exit : K unit :=
  let! c := gets curenv in
  match c with
  | None => sched_yield
  | Some c =>
    let! st := env_field c env_status in
    if st =? ENV_RUNNING then env_run c else sched_yield
  end.

(** The path of a system call through [trap]. *)
Lemma trap_syscall s c addr fault_va tf :
  curenv s = Some c -> env_status (envs s c) = ENV_RUNNING -> kernel_locked s = false ->
  cpu_status (cpus s (cpunum s)) <> CPU_HALTED ->
  tf_trapno tf = T_SYSCALL -> Z.land (tf_cs tf) 3 = 3 ->
  trap addr fault_va tf s
  = (let! r := system_call_handler tf in
     do! modify (upd_env c (upd_tf (set_eax (u32 r)))) in trap_exit) (trapped c tf s).
Proof.
  intros Hc Hst Hl Hcpu Hno Hcs. unfold trap.
  rewrite (bind_ret _ _ s (cpu_status (cpus s (cpunum s))) s) by done.
  rewrite (bind_ret _ _ s tt (set_cpu_state CPU_STARTED s)) by done.
  destruct (Z.eqb_spec (cpu_status (cpus s (cpunum s))) CPU_HALTED); [done|].
  rewrite (bind_ret _ _ _ tt (set_cpu_state CPU_STARTED s)) by done.
  rewrite Hcs, Z.eqb_refl. rewrite (bind_ret _ _ _ _ _ (trap_enters s c tf Hc Hst Hl)).
  unfold trap_dispatch. rewrite Hno. cbn [Z.eqb Pos.eqb T_SYSCALL T_PGFLT T_BRKPT T_DEBUG].
  by rewrite bind_assoc.
Qed.

(** A call that leaves its caller running. *)
Lemma trap_syscall_ran s s2 c addr fault_va r tf :
  curenv s = Some c -> env_status (envs s c) = ENV_RUNNING -> kernel_locked s = false ->
  cpu_status (cpus s (cpunum s)) <> CPU_HALTED ->
  tf_trapno tf = T_SYSCALL -> Z.land (tf_cs tf) 3 = 3 ->
  system_call_handler tf (trapped c tf s) = Ret r s2 ->
  curenv s2 = Some c -> env_status (envs s2 c) = ENV_RUNNING -> kernel_locked s2 = true ->
  has_dir s2 c ->
  trap addr fault_va tf s = ToUser (ran c (upd_env c (upd_tf (set_eax (u32 r))) s2)).
Proof.
  intros Hc Hst Hl Hcpu Hno Hcs Hsys Hc2 Hst2 Hl2 Hd2. rewrite (trap_syscall s c) by done.
  rewrite (bind_ret _ _ _ _ _ Hsys). set (s3 := upd_env c (upd_tf (set_eax (u32 r))) s2).
  rewrite (bind_ret _ _ _ tt s3) by done. unfold trap_exit.
  rewrite (bind_ret _ _ s3 (Some c) s3) by (unfold gets; by rewrite <- Hc2).
  assert (envs s3 c = upd_tf (set_eax (u32 r)) (envs s2 c)) as E3 by (subst s3; cbn; by fsimpl).
  rewrite (bind_ret _ _ s3 ENV_RUNNING s3) by (unfold env_field, gets; rewrite E3; cbn; by rewrite Hst2).
  rewrite Z.eqb_refl. apply env_run_eq; [|done]. unfold has_dir. rewrite E3. exact Hd2.
Qed.

(** A system call returns to its caller.  When the handler returns [r] and
    the caller is still the running environment of this CPU, [trap] re-enters
    user mode in the caller with [r] in [%eax] and every other saved register as
    the handler left it, without touching any other environment, and releases
    the kernel lock. *)
Theorem syscall_returns (s s2 : kstate) (c addr fault_va r : Z) (tf : Trapframe) :
  curenv s = Some c -> env_status (envs s c) = ENV_RUNNING -> kernel_locked s = false ->
  cpu_status (cpus s (cpunum s)) <> CPU_HALTED ->
  tf_trapno tf = T_SYSCALL -> Z.land (tf_cs tf) 3 = 3 ->
  system_call_handler tf (trapped c tf s) = Ret r s2 ->
  curenv s2 = Some c -> env_status (envs s2 c) = ENV_RUNNING -> kernel_locked s2 = true ->
  has_dir s2 c ->
  exists s', trap addr fault_va tf s = ToUser s' /\ curenv s' = Some c
    /\ env_tf (envs s' c) = set_eax (u32 r) (env_tf (envs s2 c))
    /\ kernel_locked s' = false
    /\ forall i, i <> c -> envs s' i = envs s2 i.
Proof.
  intros Hc Hst Hl Hcpu Hno Hcs Hsys Hc2 Hst2 Hl2 Hd2.
  eexists. split; [by eapply trap_syscall_ran|]. set (s3 := upd_env c _ s2).
  assert (envs s3 c = upd_tf (set_eax (u32 r)) (envs s2 c)) as E3 by (subst s3; cbn; by fsimpl).
  split; [apply ran_curenv|]. split; [|split; [done|]].
  - unfold ran, preempted. change (curenv s3) with (curenv s2). rewrite Hc2, E3. cbn [env_status upd_tf set_env_tf].
    rewrite Hst2, Z.eqb_refl. cbn. rewrite !fn_lookup_insert. done.
  - intros i Hi. rewrite ran_other by done. unfold preempted. change (curenv s3) with (curenv s2).
    rewrite Hc2. destruct (_ =? _); subst s3; cbn; by fsimpl.
Qed.

(** ** Page faults *)

(** Only bytes of page [xp] differ. *)
Record page_write (xp : Z) (s s' : kstate) : Prop := {
  pw_frame : s' = set_phys (phys s') s;
  pw_out : forall a, a / 4096 <> xp -> phys s' a = phys s a
}.

Lemma page_write_refl xp s : page_write xp s s.
Proof. split; [by destruct s|done]. Qed.

Lemma page_write_trans xp s1 s2 s3 : page_write xp s1 s2 -> page_write xp s2 s3 -> page_write xp s1 s3.
Proof.
  intros [F1 O1] [F2 O2]. split; [|intros; by rewrite O2, O1]. rewrite F2 at 1. by rewrite F1.
Qed.

Section fault.

(** The exception stack page: mapped at virtual page [v], writable, in the
    directory [dp] that is loaded; it holds neither a directory nor a table. *)
Context (dp v tp xp : Z) (Hxd : xp <> dp) (Hxt : xp <> tp) (Hv : 0 <= v < 1048576).

Record stack_page (s : kstate) : Prop := {
  sp_cr3 : cr3 s = dp * 4096;
  sp_tab : table_of s dp (v / 1024) = Some tp;
  sp_pdw : flag (word s dp (v / 1024)) PTE_W = true;
  sp_pte : mapped s dp v = Some xp;
  sp_ptw : flag (pte_of s dp v) PTE_W = true
}.

Lemma pw_word s s' q i : page_write xp s s' -> q <> xp -> 0 <= i < 1024 -> word s' q i = word s q i.
Proof.
  intros [_ Ho] Hq Hi. unfold word. apply rd32_ext. intros a Ha. apply Ho. zdm.
Qed.

Lemma stack_page_write s s' : stack_page s -> page_write xp s s' -> stack_page s'.
Proof.
  intros [H1 H2 H3 H4 H5] Hw.
  assert (word s' dp (v / 1024) = word s dp (v / 1024)) as Ed by (apply pw_word; [done|done|zdm]).
  assert (table_of s' dp (v / 1024) = Some tp) as Et by (unfold table_of in *; by rewrite Ed).
  assert (pte_of s' dp v = pte_of s dp v) as Ep.
  { unfold pte_of. rewrite Et, H2. apply pw_word; [done|done|apply AddrSpace.vpn_split]. }
  split; [rewrite (pw_frame _ _ _ Hw); done|done|by rewrite Ed| |by rewrite Ep].
  unfold mapped in *. by rewrite Ep.
Qed.

Lemma stack_translate s w a :
  stack_page s -> 0 <= a < 4294967296 -> a / 4096 = v -> translate s w a = Some (xp * 4096 + a mod 4096).
Proof.
  intros [H1 H2 H3 H4 H5] Ha Hav. unfold translate.
  rewrite H1, PDX_vpn, PTX_vpn, PGOFF_eq, Hav by done.
  change (rd32 (phys s) (dp * 4096 + 4 * (v / 1024))) with (word s dp (v / 1024)).
  rewrite (flag_table _ _ _ _ H2), (table_of_addr _ _ _ _ H2), H3. cbn [negb].
  change (rd32 (phys s) (tp * 4096 + 4 * (v mod 1024))) with (word s tp (v mod 1024)).
  unfold mapped, pte_of in *. rewrite H2 in *.
  destruct (flag (word s tp (v mod 1024)) PTE_P); [|done]. injection H4 as H4. rewrite H5. cbn [negb andb].
  rewrite andb_false_r. f_equal. pose proof (word_range s tp (v mod 1024)).
  rewrite PTE_ADDR_eq in * by done. zdm.
Qed.

Lemma vstore8_stack s a b :
  stack_page s -> 0 <= a < 4294967296 -> a / 4096 = v ->
  exists s', vstore8 a b s = Ret tt s' /\ page_write xp s s'
    /\ phys s' = wr8 (phys s) (xp * 4096 + a mod 4096) b.
Proof.
  intros Hs Ha Hav. unfold vstore8. rewrite (stack_translate s true a) by done.
  eexists. split; [done|]. split; [|done]. split; [by destruct s|].
  intros x Hx. cbn. unfold wr8. rewrite fn_lookup_insert_ne; [done|]. intros <-. apply Hx. zdm.
Qed.

Lemma vstore32_stack s a x :
  stack_page s -> 0 <= a -> a + 3 < 4294967296 -> a / 4096 = v -> a mod 4096 <= 4092 ->
  exists s', vstore32 a x s = Ret tt s' /\ page_write xp s s'
    /\ rd32 (phys s') (xp * 4096 + a mod 4096) = u32 x
    /\ forall p, p < xp * 4096 + a mod 4096 \/ xp * 4096 + a mod 4096 + 4 <= p -> phys s' p = phys s p.
Proof.
  intros Hs Ha0 Ha Hav Hoff. unfold vstore32. rewrite !u32_id by lia.
  destruct (vstore8_stack s a (u8 x)) as (s1 & E1 & W1 & P1); [done|lia|done|].
  pose proof (stack_page_write s s1 Hs W1) as Hs1.
  destruct (vstore8_stack s1 (a + 1) (u8 (x / 256))) as (s2 & E2 & W2 & P2); [done|lia|zdm|].
  pose proof (stack_page_write s1 s2 Hs1 W2) as Hs2.
  destruct (vstore8_stack s2 (a + 2) (u8 (x / 65536))) as (s3 & E3 & W3 & P3); [done|lia|zdm|].
  pose proof (stack_page_write s2 s3 Hs2 W3) as Hs3.
  destruct (vstore8_stack s3 (a + 3) (u8 (x / 16777216))) as (s4 & E4 & W4 & P4); [done|lia|zdm|].
  exists s4. rewrite (bind_ret _ _ _ _ _ E1), (bind_ret _ _ _ _ _ E2), (bind_ret _ _ _ _ _ E3).
  split; [exact E4|].
  split; [eauto using page_write_trans|].
  replace ((a + 1) mod 4096) with (a mod 4096 + 1) in P2 by zdm.
  replace ((a + 2) mod 4096) with (a mod 4096 + 2) in P3 by zdm.
  replace ((a + 3) mod 4096) with (a mod 4096 + 3) in P4 by zdm.
  set (o := xp * 4096 + a mod 4096) in *.
  replace (xp * 4096 + (a mod 4096 + 1)) with (o + 1) in P2 by lia.
  replace (xp * 4096 + (a mod 4096 + 2)) with (o + 2) in P3 by lia.
  replace (xp * 4096 + (a mod 4096 + 3)) with (o + 3) in P4 by lia.
  rewrite P4, P3, P2, P1. unfold wr8. split.
  - unfold rd32, rd8. fsimpl. rewrite !u8_u8. apply u32_bytes.
  - intros p Hp. by fsimpl.
Qed.

(** A sequence of stores of words at offsets from [utf]. *)
Fixpoint vstores (utf : Z) (l : list (Z * Z)) : K unit :=
  match l with
  | [] => ret tt
  | (o, x) :: l => bind (vstore32 (utf + o) x) (fun _ => vstores utf l)
  end.

Lemma vstores_stack utf l : forall s,
  stack_page s -> 0 <= utf < 4294963200 -> utf / 4096 = v ->
  (forall o x, (o, x) ∈ l -> 0 <= o /\ o mod 4 = 0 /\ utf mod 4096 + o <= 4092) ->
  NoDup (map fst l) ->
  exists s', vstores utf l s = Ret tt s' /\ page_write xp s s'
    /\ (forall o x, (o, x) ∈ l -> rd32 (phys s') (xp * 4096 + utf mod 4096 + o) = u32 x)
    /\ (forall p, (forall o x, (o, x) ∈ l -> p < xp * 4096 + utf mod 4096 + o
                                     \/ xp * 4096 + utf mod 4096 + o + 4 <= p) -> phys s' p = phys s p).
Proof.
  induction l as [|[o x] l IH]; intros s Hs Hu Huv Hl Hnd.
  - exists s. split; [done|]. split; [apply page_write_refl|]. split; [set_solver|done].
  - destruct (Hl o x) as (Ho & Hom & Hob); [set_solver|].
    destruct (vstore32_stack s (utf + o) x) as (s1 & E1 & W1 & R1 & O1); [done|lia|zdm|zdm|zdm|].
    replace ((utf + o) mod 4096) with (utf mod 4096 + o) in * by zdm.
    apply NoDup_cons in Hnd as [Hn Hnd].
    destruct (IH s1) as (s2 & E2 & W2 & R2 & O2);
      [by eapply stack_page_write|done|done|intros; apply (Hl o0 x0); set_solver|done|].
    exists s2. split; [cbn; by rewrite (bind_ret _ _ _ _ _ E1)|].
    split; [by eapply page_write_trans|]. split.
    + intros o' x' [[= -> ->]|Hin]%elem_of_cons; [|by apply R2].
      rewrite <- R1. replace (xp * 4096 + (utf mod 4096 + o)) with (xp * 4096 + utf mod 4096 + o) by lia.
      apply rd32_ext. intros p Hp. apply O2. intros o2 x2 Hin.
      destruct (Hl o2 x2) as (? & ? & _); [set_solver|].
      assert (o2 <> o) by (intros ->; apply Hn, list_elem_of_In, in_map_iff; exists (o, x2);
        split; [done|by apply list_elem_of_In]).
      clear - H H0 H1 Hp Hom. zdm.
    + intros p Hp. rewrite O2 by (intros; apply (Hp o0 x0); set_solver). apply O1.
      destruct (Hp o x); [set_solver|lia|lia].
Qed.

End fault.

(** The words of the fault record, in the order they are stored. *)
Definition utf_words (fault_va : Z) (tf : Trapframe) : list (Z * Z) :=
  let r := tf_regs tf in
  [(0, fault_va); (8, reg_edi r); (12, reg_esi r); (16, reg_ebp r); (20, reg_oesp r); (24, reg_ebx r);
   (28, reg_edx r); (32, reg_ecx r); (36, reg_eax r); (40, tf_eip tf); (44, tf_eflags tf);
   (48, tf_esp tf); (4, tf_trapno tf)].

Lemma push_utrapframe_eq utf fault_va tf s :
  push_utrapframe utf fault_va tf s = vstores utf (utf_words fault_va tf) s.
Proof.
  unfold push_utrapframe. cbn [vstores utf_words]. rewrite Z.add_0_r.
  unfold bind. repeat (destruct (vstore32 _ _ _) as [[] ?| | | | |]; [|done..]). done.
Qed.

(** The page of the exception stack. *)
Definition uxstack_vpn : Z := UXSTACKTOP / PGSIZE - 1.

Definition perm_utf : Z := Z.lor (Z.lor PTE_U PTE_W) PTE_U.

(** The check of the fault record's page passes. *)
Lemma utf_check_passes s c dp utf :
  env_pgdir (envs s c) = kva dp -> tables_in_range s dp -> 0 <= npages s <= 65536 ->
  UXSTACKTOP - PGSIZE <= utf <= UXSTACKTOP - sizeof_UTrapframe ->
  accessible s dp perm_utf utf = true ->
  exists a, user_mem_assert c utf sizeof_UTrapframe (Z.lor PTE_U PTE_W) s
            = Ret tt (set_user_mem_check_addr a s).
Proof.
  change UXSTACKTOP with 4005560320. unfold sizeof_UTrapframe, PGSIZE. intros Hpg Ht Hn Hu Hacc.
  destruct (user_mem_check_spec s c dp utf 52 perm_utf Hpg Ht Hn) as (r & s' & E & Hs' & Hr);
    [vm_compute; split; congruence|lia|lia|lia|].
  unfold user_mem_assert. fold perm_utf. rewrite (bind_ret _ _ _ _ _ E).
  destruct Hr as [[-> _]|(_ & Hb & Hbad & _)].
  - exists (user_mem_check_addr s'). rewrite <- Hs'. reflexivity.
  - exfalso. unfold PGSIZE in Hb. rewrite ROUNDUP_page in Hb by lia.
    rewrite (accessible_page _ _ _ _ utf) in Hbad by zdm. congruence.
Qed.

Lemma utf_words_ok fault_va tf utf :
  utf mod 4096 <= 4044 ->
  (forall o x, (o, x) ∈ utf_words fault_va tf -> 0 <= o /\ o mod 4 = 0 /\ utf mod 4096 + o <= 4092)
  /\ NoDup (map fst (utf_words fault_va tf)).
Proof.
  intros Hu. split; [|apply (bool_decide_unpack _); by vm_compute].
  intros o x Hin. assert (o ∈ map fst (utf_words fault_va tf)) as Ho.
  { apply list_elem_of_In, in_map_iff. exists (o, x). split; [done|by apply list_elem_of_In]. }
  cbn in Ho. assert (o mod 4 = 0 /\ 0 <= o <= 48) as [? ?]; [|lia].
  clear Hin. revert o Ho. apply Forall_forall. repeat constructor; lia.
Qed.

(** C23: a page fault in user mode with a handler installed and a writable
    exception stack continues in the handler: [%eip] is the upcall, [%esp] the
    fault record, and the record holds the fault address, the registers at the
    time of the fault and, as error code, the trap number.  The record, 52 bytes,
    ends at the top of the exception stack; for a fault on the exception stack
    itself it ends four bytes below the interrupted [%esp], so that one scratch
    word is left for the handler's return. *)
Theorem page_fault_upcall (s : kstate) (c dp tp xp addr fault_va : Z) (tf : Trapframe) :
  let utf := if (4005556224 <=? tf_esp tf) && (tf_esp tf <? 4005560320) then tf_esp tf - 4 - 52 else 4005560320 - 52 in
  curenv s = Some c -> env_pgdir (envs s c) = kva dp -> 0 <= dp < npages s -> npages s <= 65536 ->
  tables_in_range s dp -> env_pgfault_upcall (envs s c) <> 0 -> kernel_locked s = true ->
  Z.land (tf_cs tf) 1 <> 0 -> UXSTACKTOP - PGSIZE <= utf ->
  stack_page dp uxstack_vpn tp xp s -> xp <> dp -> xp <> tp -> accessible s dp perm_utf utf = true ->
  exists s', page_fault_handler addr fault_va tf s = ToUser s' /\ curenv s' = Some c
    /\ tf_eip (env_tf (envs s' c)) = env_pgfault_upcall (envs s c)
    /\ tf_esp (env_tf (envs s' c)) = utf
    /\ forall o x, (o, x) ∈ utf_words fault_va tf ->
         rd32 (phys s') (xp * 4096 + utf mod 4096 + o) = u32 x.
Proof.
  intros utf Hc Hpg Hdp Hn Ht Hup Hl Hcs Hlo Hsp Hxd Hxt Hacc.
  assert (utf_address (tf_esp tf) = utf) as Eutf.
  { unfold utf, utf_address. change UXSTACKTOP with 4005560320. unfold PGSIZE, sizeof_UTrapframe.
    destruct (Z.leb_spec (4005560320 - 4096) (tf_esp tf)), (Z.leb_spec 4005556224 (tf_esp tf)),
      (Z.leb_spec (tf_esp tf) (4005560320 - 1)), (Z.ltb_spec (tf_esp tf) 4005560320); cbn [andb]; lia. }
  assert (utf <= UXSTACKTOP - sizeof_UTrapframe) as Hhi.
  { unfold utf. change UXSTACKTOP with 4005560320. unfold sizeof_UTrapframe.
    destruct (Z.leb_spec 4005556224 (tf_esp tf)), (Z.ltb_spec (tf_esp tf) 4005560320); cbn [andb]; lia. }
  unfold page_fault_handler. destruct (Z.eqb_spec (Z.land (tf_cs tf) 1) 0); [done|].
  rewrite (bind_ret _ _ s c s) by (unfold cur; by rewrite Hc).
  rewrite (bind_ret _ _ s (env_pgfault_upcall (envs s c)) s) by done.
  set (upcall := env_pgfault_upcall (envs s c)) in *.
  destruct (Z.eqb_spec upcall 0); [done|]. cbn [negb]. rewrite Eutf.
  destruct (utf_check_passes s c dp utf Hpg Ht ltac:(lia) (conj Hlo Hhi) Hacc) as (a & Ea).
  rewrite (bind_ret _ _ _ _ _ Ea). set (s1 := set_user_mem_check_addr a s) in *.
  change UXSTACKTOP with 4005560320 in Hlo, Hhi. unfold PGSIZE, sizeof_UTrapframe in Hlo, Hhi.
  destruct (utf_words_ok fault_va tf utf ltac:(zdm)) as [Hw Hnd].
  assert (stack_page dp uxstack_vpn tp xp s1) as Hsp1 by (destruct Hsp; by split).
  destruct (vstores_stack dp uxstack_vpn tp xp Hxd Hxt ltac:(vm_compute; split; congruence) utf
              (utf_words fault_va tf) s1 Hsp1 ltac:(lia)
              ltac:(change uxstack_vpn with 977919; zdm) Hw Hnd) as (s2 & E2 & W2 & R2 & _).
  rewrite (bind_ret _ _ s1 tt s2) by (by rewrite push_utrapframe_eq).
  assert (s2 = set_phys (phys s2) s1) as Es2 by apply (pw_frame _ _ _ W2).
  rewrite (bind_ret _ _ s2 tt (upd_env c (upd_tf (set_tf_eip upcall)) s2)) by done.
  set (s3 := upd_env c (upd_tf (set_tf_esp utf)) (upd_env c (upd_tf (set_tf_eip upcall)) s2)).
  rewrite (bind_ret _ _ _ tt s3) by done.
  assert (envs s3 c = upd_tf (set_tf_esp utf) (upd_tf (set_tf_eip upcall) (envs s c))) as E3.
  { subst s3. cbn. rewrite !fn_lookup_insert. by rewrite Es2. }
  assert (curenv s3 = Some c) as Hc3 by (rewrite <- Hc; subst s3; rewrite Es2; done).
  exists (ran c s3). split; [apply env_run_eq|].
  - unfold has_dir. rewrite E3. cbn. rewrite Hpg. unfold kva, KERNBASE. lia.
  - subst s3. rewrite Es2. done.
  - split; [apply ran_curenv|].
    assert (env_tf (envs (ran c s3) c) = env_tf (envs s3 c)) as Etf.
    { unfold ran, preempted. rewrite Hc3. destruct (_ =? _); cbn; by rewrite !fn_lookup_insert. }
    rewrite Etf, E3. split; [done|]. split; [done|]. intros o x Hin. rewrite <- (R2 o x Hin).
    f_equal. unfold ran, preempted. rewrite Hc3. by destruct (_ =? _).
Qed.

(** *** Concrete traps *)

(** A trap frame of user code with [eax], [esp] and trap number given. *)
Definition user_tf (no eax esp : Z) : Trapframe :=
  mkTrapframe (mkPushRegs 0 0 0 0 0 0 0 eax) 35 35 no 0 8388640 27 514 esp 35.

(** Environment 5 runs in user mode. *)
Definition running : kstate :=
  set_kernel_locked false (upd_env 5 (set_env_status ENV_RUNNING) one_env).

(** [sys_getenvid()] *)
Lemma syscall_returns_witness :
  exists s', trap 0 0 (user_tf T_SYSCALL SYS_getenvid 4005556000) running = ToUser s'
    /\ reg_eax (tf_regs (env_tf (envs s' 5))) = 4101.
Proof.
  set (tf := user_tf T_SYSCALL SYS_getenvid 4005556000).
  destruct (syscall_returns running (trapped 5 tf running) 5 0 0 4101 tf) as (s' & E & _ & Htf & _);
    [reflexivity|reflexivity|reflexivity|vm_compute; congruence|reflexivity|reflexivity|reflexivity
    |reflexivity|reflexivity|reflexivity|vm_compute; split; congruence|].
  exists s'. split; [exact E|]. rewrite Htf. reflexivity.
Defined.

(** The exception stack of environment 1 is page 7, through the table in
    page 3. *)
Definition faulting : kstate :=
  set_cr3 8192 (set_curenv (Some 1)
    (upd_env 1 (fun e => set_env_pgfault_upcall 8388640 (set_env_pgdir (kva 2) e))
       (set_phys (wr32 (wr32 (fun _ => 0) (2 * 4096 + 4 * 954) (3 * 4096 + 7))
                    (3 * 4096 + 4 * 1023) (7 * 4096 + 7)) small_state))).

Lemma faulting_tables : tables_in_range faulting 2.
Proof.
  intros i tp Hi. unfold table_of. destruct (decide (i = 954)) as [->|Hne].
  { intros E. vm_compute in E. injection E as <-. done. }
  assert (word faulting 2 i = 0) as ->; [|done].
  rewrite (word_phys (set_phys (wr32 (wr32 (fun _ => 0) (2 * 4096 + 4 * 954) (3 * 4096 + 7))
                    (3 * 4096 + 4 * 1023) (7 * 4096 + 7)) small_state)) by reflexivity.
  unfold word. cbn [phys set_phys]. rewrite !rd32_wr32_ne by lia. done.
Qed.

(** A fault on the user stack, and one on the exception stack at 0xeebffe00. *)
Lemma page_fault_upcall_witness :
  (exists s', page_fault_handler 0 1234 (user_tf T_PGFLT 0 4005552000) faulting = ToUser s'
    /\ tf_eip (env_tf (envs s' 1)) = 8388640 /\ tf_esp (env_tf (envs s' 1)) = 4005560268
    /\ rd32 (phys s') (7 * 4096 + 4044) = 1234)
  /\ (exists s', page_fault_handler 0 1234 (user_tf T_PGFLT 0 4005559808) faulting = ToUser s'
    /\ tf_eip (env_tf (envs s' 1)) = 8388640 /\ tf_esp (env_tf (envs s' 1)) = 4005559752
    /\ rd32 (phys s') (7 * 4096 + 3528) = 1234).
Proof.
  split.
  - destruct (page_fault_upcall faulting 1 2 3 7 0 1234 (user_tf T_PGFLT 0 4005552000))
      as (s' & E & _ & He & Hs & Hw);
      [reflexivity|reflexivity|vm_compute; split; congruence|vm_compute; congruence|exact faulting_tables
      |vm_compute; congruence|reflexivity|vm_compute; congruence|vm_compute; congruence
      |split; vm_compute; reflexivity|lia|lia|vm_compute; reflexivity|].
    exists s'. split; [exact E|]. split; [exact He|]. split; [exact Hs|].
    exact (Hw 0 1234 (list_elem_of_here _ _)).
  - destruct (page_fault_upcall faulting 1 2 3 7 0 1234 (user_tf T_PGFLT 0 4005559808))
      as (s' & E & _ & He & Hs & Hw);
      [reflexivity|reflexivity|vm_compute; split; congruence|vm_compute; congruence|exact faulting_tables
      |vm_compute; congruence|reflexivity|vm_compute; congruence|vm_compute; congruence
      |split; vm_compute; reflexivity|lia|lia|vm_compute; reflexivity|].
    exists s'. split; [exact E|]. split; [exact He|]. split; [exact Hs|].
    exact (Hw 0 1234 (list_elem_of_here _ _)).
Defined.

End TrapFacts.
