(* ===== verification/Kdebug.v ===== *)
(** * Debug information (kern/kdebug.c, inc/stab.h)

    [stab_binsearch] looks an instruction address up in a table of symbols of
    which only the entries of one type are ordered, and [debuginfo_eip] names
    the file, line and function of an address.  The table is the kernel's own or
    one that the user program supplies; either way the kernel reads it through
    the page tables, so a table that is not mapped is a fault in the kernel.

    The theorems: the search returns for every table, reads no entry outside
    its range, and on an ordered table brackets the address. *)

From stdpp Require Import base numbers list functions strings.
From Stdlib Require Import ZArith Lia.
From S2P Require Import Prelude Mem Mmu Kernel Pmap UserMem Env Syscall.

Open Scope Z_scope.
Open Scope jos_scope.

Module Kdebug.

Import Pmap Vm Syscall.

Definition N_FUN : Z := 36.

Definition N_SLINE : Z := 68.

Definition N_SO : Z := 100.

Definition N_SOL : Z := 132.

Definition N_PSYM : Z := 160.

(** [sizeof(struct Stab)] *)
Definition sizeof_Stab : Z := 12.

(** The fields of [stabs[i]]. *)
Definition n_strx (stabs i : Z) : K Z := vload32 (stabs + sizeof_Stab * i).

Definition n_type (stabs i : Z) : K Z := vload8 (u32 (stabs + sizeof_Stab * i + 4)).

Definition n_desc (stabs i : Z) : K Z := vload16 (stabs + sizeof_Stab * i + 6).

Definition n_value (stabs i : Z) : K Z := vload32 (stabs + sizeof_Stab * i + 8).

(** [while (m >= lo && stabs[m].n_type != type) m--]; [n] is the number of
    entries from [lo] to [m]. *)
Fixpoint scan_back (n : nat) (stabs m lo type : Z) : K Z :=
  match n with
  | O => ret m
  | S n =>
    if m >=? lo then
      let! t := n_type stabs m in
      if negb (t =? type) then scan_back n stabs (m - 1) lo type else ret m
    else ret m
  end.

(** The variables of [stab_binsearch]. *)
Record search := mkSearch {
  s_l : Z;
  s_r : Z;
  any_matches : bool;
  region_left : Z;
  region_right : Z;
  s_addr : Z
}.

(** One iteration of the search, [l <= r].  A table has fewer than [2^32 / 12]
    entries, so [l + r] does not overflow. *)
Definition search_step (stabs type : Z) (v : search) : K search :=
  let '(mkSearch l r any lft rgt addr) := v in
  let true_m := Z.quot (l + r) 2 in
  let! m := scan_back (Z.to_nat (true_m - l + 1)) stabs true_m l type in
  if m <? l then ret (mkSearch (true_m + 1) r any lft rgt addr) else
  let! x := n_value stabs m in
  if x <? addr then ret (mkSearch (true_m + 1) r true m rgt addr)
  else if x >? addr then ret (mkSearch l (m - 1) true lft (m - 1) addr)
  else ret (mkSearch m r true m rgt (u32 (addr + 1))).

Fixpoint search_loop (fuel : nat) (stabs type : Z) (v : search) : K search :=
  if s_l v <=? s_r v then
    match fuel with
    | O => undef "stab_binsearch: loop bound"
    | S fuel => let! v' := search_step stabs type v in search_loop fuel stabs type v'
    end
  else ret v.

(** [for (l = right; l > left && stabs[l].n_type != type; l--)] is
    [scan_back] from [right] to [left + 1]. *)
Definition stab_binsearch (stabs lft rgt type addr : Z) : K (Z * Z) :=
  let! v := search_loop (Z.to_nat (2 * (rgt - lft + 1) + 1)) stabs type
              (mkSearch lft rgt false lft rgt addr) in
  if negb (any_matches v) then ret (region_left v, region_left v - 1)
  else
    let! l := scan_back (Z.to_nat (region_right v - region_left v)) stabs
                (region_right v) (region_left v + 1) type in
    ret (l, region_right v).

(** A string the kernel holds a pointer to: the constant ["<unknown>"] or a
    place in the string table. *)
Inductive str_ref := Unknown | At (a : Z).

Record Eipdebuginfo := mkInfo {
  eip_file : str_ref;
  eip_line : Z;
  eip_fn_name : str_ref;
  eip_fn_namelen : Z;
  eip_fn_addr : Z;
  eip_fn_narg : Z
}.

(** [strfind(s, ':') - s]; [fuel] is the room up to the end of the string
    table, whose last byte is 0. *)
Fixpoint colon_pos (fuel : nat) (a i : Z) : K Z :=
  match fuel with
  | O => undef "strfind: past the string table"
  | S fuel =>
    let! c := vload8 (u32 (a + i)) in
    if (c =? 0) || (c =? 58) then ret i else colon_pos fuel a (i + 1)
  end.

(** [while (lline >= lfile && type != N_SOL && (type != N_SO || !value)) lline--] *)
Fixpoint file_back (n : nat) (stabs lline lfile : Z) : K Z :=
  match n with
  | O => ret lline
  | S n =>
    if lline >=? lfile then
      let! t := n_type stabs lline in
      if t =? N_SOL then ret lline
      else if negb (t =? N_SO) then file_back n stabs (lline - 1) lfile
      else
        let! x := n_value stabs lline in
        if x =? 0 then file_back n stabs (lline - 1) lfile else ret lline
    else ret lline
  end.

(** [for (lline = lfun + 1; lline < rfun && type == N_PSYM; lline++) narg++] *)
Fixpoint count_args (n : nat) (stabs lline narg : Z) : K Z :=
  match n with
  | O => ret narg
  | S n =>
    let! t := n_type stabs lline in
    if t =? N_PSYM then count_args n stabs (lline + 1) (narg + 1) else ret narg
  end.

(** [stab_end - stabs]: the difference of two pointers into one array. *)
Definition stab_count (stab_end stabs : Z) : K Z :=
  let d := i32 (stab_end - stabs) in
  if d mod sizeof_Stab =? 0 then ret (d / sizeof_Stab) else undef "stab_end - stabs".

Section kernel_table.

(** The symbols the linker script defines. *)
Context (STAB_BEGIN STAB_END STABSTR_BEGIN STABSTR_END : Z).

(** The table that covers [addr], or [None] when the user's is refused. *)
Definition find_tables (addr : Z) : K (option (Z * Z * Z * Z)) :=
  if addr >=? ULIM then ret (Some (STAB_BEGIN, STAB_END, STABSTR_BEGIN, STABSTR_END)) else
  let! e := cur in
  let! r := user_mem_check e USTABDATA 16 PTE_U in
  if r <? 0 then ret None else
  let! stabs := vload32 USTABDATA in
  let! stab_end := vload32 (USTABDATA + 4) in
  let! stabstr := vload32 (USTABDATA + 8) in
  let! stabstr_end := vload32 (USTABDATA + 12) in
  let! r := user_mem_check e stabs 4 PTE_U in
  if r <? 0 then ret None else
  let! r := user_mem_check e stabstr 4 PTE_U in
  if r <? 0 then ret None else
  ret (Some (stabs, stab_end, stabstr, stabstr_end)).

Definition debuginfo_eip (addr : Z) : K (Z * Eipdebuginfo) :=
  let info := mkInfo Unknown 0 Unknown 9 addr 0 in
  let! t := find_tables addr in
  match t with
  | None => ret (-1, info)
  | Some (stabs, stab_end, stabstr, stabstr_end) =>
    let size := u32 (stabstr_end - stabstr) in
    let! bad := (if stabstr_end <=? stabstr then ret true
                 else let! c := vload8 (u32 (stabstr_end - 1)) in ret (negb (c =? 0))) in
    if bad : bool then ret (-1, info) else
    let! n := stab_count stab_end stabs in
    let! file := stab_binsearch stabs 0 (n - 1) N_SO addr in
    let '(lfile, rfile) := file in
    if lfile =? 0 then ret (-1, info) else
    let! fn := stab_binsearch stabs lfile rfile N_FUN addr in
    let '(lfun, rfun) := fn in
    let! where_ :=
      (if lfun <=? rfun then
         let! strx := n_strx stabs lfun in
         let! x := n_value stabs lfun in
         let name := if strx <? size then At (u32 (stabstr + strx)) else Unknown in
         ret (name, x, u32 (addr - x), lfun, rfun)
       else ret (Unknown, addr, addr, lfile, rfile)) in
    let '(name, fn_addr, addr, lline, rline) := where_ in
    let! namelen := (match name with
                     | Unknown => ret 9
                     | At a => colon_pos (Z.to_nat (stabstr_end - a)) a 0
                     end) in
    let info := mkInfo Unknown 0 name namelen fn_addr 0 in
    let! line := stab_binsearch stabs lline rline N_SLINE addr in
    let '(lline, rline) := line in
    if lline >? rline then ret (-1, info) else
    let! desc := n_desc stabs rline in
    let! lf := file_back (Z.to_nat (lline - lfile + 1)) stabs lline lfile in
    let! fname :=
      (if lf >=? lfile then
         let! strx := n_strx stabs lf in
         ret (if strx <? size then At (u32 (stabstr + strx)) else Unknown)
       else ret Unknown) in
    let! narg := (if lfun <? rfun then count_args (Z.to_nat (rfun - lfun - 1)) stabs (lfun + 1) 0
                  else ret 0) in
    ret (0, mkInfo fname desc name namelen fn_addr narg)
  end.

End kernel_table.

(** ** The search on a table that can be read *)

Section table.

Context (s : kstate) (stabs type L R : Z) (ty va : Z -> Z).
Context (HL : 0 <= L).
Context (Hty : forall i, L <= i <= R -> n_type stabs i s = Ret (ty i) s).
Context (Hva : forall i, L <= i <= R -> n_value stabs i s = Ret (va i) s).

(** The last of the [n] entries up to [m] that has the type, or [m - n]. *)
Fixpoint prev (n : nat) (m : Z) : Z :=
  match n with
  | O => m
  | S n => if ty m =? type then m else prev n (m - 1)
  end.

Lemma prev_spec n : forall m,
  m - Z.of_nat n <= prev n m <= m
  /\ (m - Z.of_nat n < prev n m -> ty (prev n m) = type)
  /\ (forall i, prev n m < i <= m -> ty i <> type).
Proof.
  induction n as [|n IH]; intros m; cbn [prev].
  - repeat split; [lia|lia|lia|intros i Hi; lia].
  - destruct (Z.eqb_spec (ty m) type) as [E|E].
    + repeat split; [lia|lia|done|intros i Hi; lia].
    + destruct (IH (m - 1)) as (Hr & Ht & Hn). repeat split; [lia|lia| |].
      * intros Hlt. apply Ht. lia.
      * intros i Hi. destruct (decide (i = m)) as [->|]; [done|]. apply Hn. lia.
Qed.

Lemma scan_back_prev n : forall m lo,
  L <= lo -> m <= R -> n = Z.to_nat (m - lo + 1) ->
  scan_back n stabs m lo type s = Ret (prev n m) s.
Proof.
  induction n as [|n IH]; intros m lo Hlo Hm Hn; cbn [scan_back prev]; [done|].
  destruct (Z.geb_spec m lo); [|lia].
  rewrite (bind_ret _ _ _ _ _ (Hty m ltac:(lia))).
  destruct (Z.eqb_spec (ty m) type); cbn [negb]; [done|].
  apply IH; lia.
Qed.

(** The step without the reads. *)
Definition next (v : search) : search :=
  let '(mkSearch l r any lft rgt addr) := v in
  let tm := (l + r) / 2 in
  let m := prev (Z.to_nat (tm - l + 1)) tm in
  if m <? l then mkSearch (tm + 1) r any lft rgt addr
  else if va m <? addr then mkSearch (tm + 1) r true m rgt addr
  else if va m >? addr then mkSearch l (m - 1) true lft (m - 1) addr
  else mkSearch m r true m rgt (u32 (addr + 1)).

(** The search stays in the region, and [*region_right] is [r]. *)
Definition bounds (v : search) : Prop :=
  L <= s_l v <= R + 1 /\ s_l v - 1 <= s_r v <= R /\ region_right v = s_r v
  /\ L <= region_left v /\ (any_matches v = false -> region_left v = L /\ s_r v = R).

Definition width (v : search) : Z := s_r v - s_l v + 1.

Lemma search_step_next v :
  bounds v -> s_l v <= s_r v -> search_step stabs type v s = Ret (next v) s.
Proof.
  intros (Hl & Hr & _) Hle. destruct v as [l r any lft rgt addr]. cbn in *.
  rewrite Z.quot_div_nonneg by lia. set (tm := (l + r) / 2).
  assert (l <= tm <= r) as Htm by (unfold tm; zdm).
  rewrite (bind_ret _ _ _ _ _ (scan_back_prev _ tm l ltac:(lia) ltac:(lia) eq_refl)).
  pose proof (prev_spec (Z.to_nat (tm - l + 1)) tm) as (Hp & _).
  set (m := prev _ _) in *. destruct (Z.ltb_spec m l); [done|].
  rewrite (bind_ret _ _ _ _ _ (Hva m ltac:(lia))).
  destruct (va m <? addr); [done|]. by destruct (va m >? addr).
Qed.

(** What one iteration knows: the entry it looked at and where the search
    goes on. *)
Lemma next_cases v (P : search -> Prop) :
  bounds v -> s_l v <= s_r v ->
  (forall tm, s_l v <= tm <= s_r v -> (forall i, s_l v <= i <= tm -> ty i <> type) ->
     P (mkSearch (tm + 1) (s_r v) (any_matches v) (region_left v) (region_right v) (s_addr v))) ->
  (forall tm m, s_l v <= m <= tm -> tm <= s_r v -> ty m = type ->
     (forall i, m < i <= tm -> ty i <> type) -> va m < s_addr v ->
     P (mkSearch (tm + 1) (s_r v) true m (region_right v) (s_addr v))) ->
  (forall m, s_l v <= m <= s_r v -> ty m = type -> s_addr v < va m ->
     P (mkSearch (s_l v) (m - 1) true (region_left v) (m - 1) (s_addr v))) ->
  (forall m, s_l v <= m <= s_r v -> ty m = type -> va m = s_addr v ->
     P (mkSearch m (s_r v) true m (region_right v) (u32 (s_addr v + 1)))) ->
  P (next v).
Proof.
  intros _ Hle Hnone Hlt Hgt Heq. destruct v as [l r any lft rgt addr]. cbn in *.
  set (tm := (l + r) / 2). assert (l <= tm <= r) as Htm by (unfold tm; zdm).
  pose proof (prev_spec (Z.to_nat (tm - l + 1)) tm) as (Hp & Ht & Hn).
  set (m := prev _ _) in *. destruct (Z.ltb_spec m l).
  { apply Hnone; [lia|]. intros i Hi. apply Hn. lia. }
  assert (ty m = type) by (apply Ht; lia).
  destruct (Z.ltb_spec (va m) addr); [apply Hlt; done || lia|].
  destruct (Z.gtb_spec (va m) addr); [apply Hgt; [lia|done|lia]|].
  apply Heq; [lia|done|lia].
Qed.

Lemma next_bounds v : bounds v -> s_l v <= s_r v -> bounds (next v).
Proof.
  intros Hb Hle. apply next_cases; [done|done|..]; destruct Hb as (Hl & Hr & Hrr & Hll & Ha);
    unfold bounds; cbn; intros; repeat split; try done; try lia; intros; by apply Ha.
Qed.

(** An iteration that does not shrink the region is followed by one that
    does: it moved [addr] past the entry it found. *)
Lemma next_progress v :
  bounds v -> s_l v <= s_r v -> 0 <= s_addr v < 4294967296 ->
  width (next v) < width v \/ (width (next v) = width v /\ width (next (next v)) < width v).
Proof.
  intros Hb Hle Hr. destruct v as [l r any lft rgt addr]. unfold width. cbn [s_l s_r] in *.
  cbn [next]. set (tm := (l + r) / 2). assert (l <= tm <= r) as Htm by (unfold tm; zdm).
  pose proof (prev_spec (Z.to_nat (tm - l + 1)) tm) as (Hp & Ht & Hn).
  remember (prev (Z.to_nat (tm - l + 1)) tm) as m eqn:Em.
  destruct (Z.ltb_spec m l); [cbn; lia|].
  destruct (Z.ltb_spec (va m) addr); [cbn; lia|].
  destruct (Z.gtb_spec (va m) addr); [cbn; lia|]. cbn [s_l s_r].
  destruct (decide (m = l)) as [E|]; [|lia]. right. split; [lia|].
  cbn [next]. replace (m + r) with (l + r) by lia. fold tm.
  replace (tm - m + 1) with (tm - l + 1) by lia. rewrite <- Em.
  cbn in Hr. assert (va m <> u32 (addr + 1)) by ilia.
  destruct (Z.ltb_spec m m); [lia|].
  destruct (Z.ltb_spec (va m) (u32 (addr + 1))); [cbn; lia|].
  destruct (Z.gtb_spec (va m) (u32 (addr + 1))); [cbn; lia|lia].
Qed.

Lemma search_loop_next n v :
  s_l v <= s_r v -> bounds v ->
  search_loop (S n) stabs type v s = search_loop n stabs type (next v) s.
Proof.
  intros Hle Hb. cbn [search_loop]. destruct (Z.leb_spec (s_l v) (s_r v)); [|lia].
  by rewrite (bind_ret _ _ _ _ _ (search_step_next v Hb Hle)).
Qed.

(** The loop ends within its bound, and keeps what its steps keep. *)
Lemma search_loop_ends (I : search -> Prop) :
  (forall v, I v -> bounds v -> s_l v <= s_r v -> I (next v)) ->
  (forall v, I v -> 0 <= s_addr v < 4294967296) ->
  forall n v, I v -> bounds v -> 2 * width v + 1 <= Z.of_nat n ->
  exists v', search_loop n stabs type v s = Ret v' s /\ I v' /\ bounds v' /\ s_r v' < s_l v'.
Proof.
  intros Hstep Haddr n. induction n as [n IH] using (well_founded_induction lt_wf).
  intros v HI Hb Hn. destruct (decide (s_l v <= s_r v)) as [Hle|Hgt].
  2:{ exists v. split; [|split; [done|split; [done|lia]]].
      destruct n; cbn [search_loop]; by destruct (Z.leb_spec (s_l v) (s_r v)); [lia|]. }
  destruct n as [|n]; [unfold width in Hn; lia|]. rewrite search_loop_next by done.
  destruct (next_progress v Hb Hle (Haddr _ HI)) as [Hd|[E Hd]].
  - apply IH; [lia|by apply Hstep|by apply next_bounds|lia].
  - destruct n as [|n]; [unfold width in Hn; lia|].
    assert (s_l (next v) <= s_r (next v)) by (unfold width in *; lia).
    rewrite search_loop_next by (done || by apply next_bounds).
    apply IH; [lia| | |lia].
    + apply Hstep; [by apply Hstep|by apply next_bounds|done].
    + apply next_bounds; [by apply next_bounds|done].
Qed.

(** The last loop of the function. *)
Lemma scan_last v :
  bounds v ->
  scan_back (Z.to_nat (region_right v - region_left v)) stabs (region_right v)
    (region_left v + 1) type s
  = Ret (prev (Z.to_nat (region_right v - region_left v)) (region_right v)) s.
Proof.
  intros (Hl & Hr & Hrr & Hll & _). apply scan_back_prev; [lia|lia|].
  f_equal. lia.
Qed.

(** The symbol search terminates on every table, ordered or not: within
    two iterations per entry of its region and one more it returns the two
    bounds it computed, having read no entry outside the region, and the bounds
    lie in the region or just before it. *)
Theorem stab_binsearch_returns a :
  L <= R + 1 -> 0 <= a < 4294967296 ->
  exists lft rgt, stab_binsearch stabs L R type a s = Ret (lft, rgt) s
    /\ L - 1 <= lft <= R + 1 /\ L - 1 <= rgt <= R.
Proof.
  intros Hne Ha. unfold stab_binsearch.
  destruct (search_loop_ends (fun v => 0 <= s_addr v < 4294967296 /\ region_left v <= R + 1))
    with (n := Z.to_nat (2 * (R - L + 1) + 1)) (v := mkSearch L R false L R a)
    as (v & E & (_ & HI) & Hb & Hend).
  - intros v [Hv1 Hv2] Hb Hle. apply next_cases; [done|done|..]; destruct Hb as (Hl & Hr & _);
      cbn; intros; split; try lia; apply u32_range.
  - by intros v [? _].
  - cbn. lia.
  - unfold bounds. cbn. repeat split; lia.
  - unfold width. cbn. lia.
  - rewrite (bind_ret _ _ _ _ _ E). destruct (any_matches v) eqn:Ea; cbn [negb].
    + rewrite (bind_ret _ _ _ _ _ (scan_last v Hb)).
      pose proof (prev_spec (Z.to_nat (region_right v - region_left v)) (region_right v)) as (Hp & _).
      destruct Hb as (Hl & Hr & Hrr & Hll & _). eexists _, _. split; [done|]. lia.
    + destruct Hb as (Hl & Hr & Hrr & Hll & Hf). destruct (Hf Ea) as [-> _].
      eexists _, _. split; [done|]. lia.
Qed.

(** The step when the entry in the middle has the type. *)
Lemma next_typed l r any lft rgt a m :
  l <= m -> m = (l + r) / 2 -> ty m = type ->
  next (mkSearch l r any lft rgt a)
  = if va m <? a then mkSearch (m + 1) r true m rgt a
    else if va m >? a then mkSearch l (m - 1) true lft (m - 1) a
    else mkSearch m r true m rgt (u32 (a + 1)).
Proof.
  intros Hm -> Ht. cbn [next]. set (tm := (l + r) / 2) in *.
  replace (Z.to_nat (tm - l + 1)) with (S (Z.to_nat (tm - l))) by lia. cbn [prev].
  rewrite (proj2 (Z.eqb_eq _ _) Ht). by destruct (Z.ltb_spec tm l); [lia|].
Qed.

(** An exact match moves the address sought one byte on, so that an entry
    that begins just there is taken for a match too: of two adjacent entries of
    the type, at [a] and at [a + 1], the search for [a] returns the second. *)
Theorem stab_binsearch_adjacent a :
  R = L + 1 -> ty L = type -> ty (L + 1) = type -> va L = a -> va (L + 1) = a + 1 ->
  0 <= a -> a + 2 < 4294967296 ->
  stab_binsearch stabs L R type a s = Ret (L + 1, L + 1) s.
Proof.
  intros HR Ht0 Ht1 Hv0 Hv1 Ha Ha2. unfold stab_binsearch.
  assert (forall l x lft b, L <= l <= R -> l - 1 <= x -> x <= R -> L <= lft -> (b = false -> lft = L /\ x = R) ->
    forall c, bounds (mkSearch l x b lft x c)) as Hb.
  { intros. unfold bounds. cbn. repeat split; try lia; tauto. }
  rewrite (bind_ret _ _ _ (mkSearch (L + 2) (L + 1) true (L + 1) (L + 1) (a + 2)) s).
  - cbn. by replace (L + 1 - (L + 1)) with 0 by lia.
  - replace (Z.to_nat (2 * (R - L + 1) + 1)) with 5%nat by lia. rewrite HR.
    rewrite search_loop_next by (cbn; lia || apply Hb; try lia; done).
    rewrite (next_typed _ _ _ _ _ _ L) by (done || lia || zdm). rewrite Hv0, Z.ltb_irrefl.
    destruct (Z.gtb_spec a a); [lia|]. rewrite (u32_id (a + 1)) by lia.
    rewrite search_loop_next by (cbn; lia || apply Hb; try lia; done).
    rewrite (next_typed _ _ _ _ _ _ L) by (done || lia || zdm). rewrite Hv0.
    destruct (Z.ltb_spec a (a + 1)); [|lia].
    rewrite search_loop_next by (cbn; lia || apply Hb; try lia; done).
    rewrite (next_typed _ _ _ _ _ _ (L + 1)) by (done || lia || zdm). rewrite Hv1, Z.ltb_irrefl.
    destruct (Z.gtb_spec (a + 1) (a + 1)); [lia|]. rewrite (u32_id (a + 1 + 1)) by lia.
    rewrite search_loop_next by (cbn; lia || apply Hb; try lia; done).
    rewrite (next_typed _ _ _ _ _ _ (L + 1)) by (done || lia || zdm). rewrite Hv1.
    destruct (Z.ltb_spec (a + 1) (a + 1 + 1)); [|lia].
    cbn. destruct (Z.leb_spec (L + 1 + 1) (L + 1)); [lia|].
    by replace (L + 1 + 1) with (L + 2) by lia; replace (a + 1 + 1) with (a + 2) by lia.
Qed.

(** ** Ordered tables *)

Section ordered.

Context (a : Z) (Ha : 0 <= a) (Ha1 : a + 1 < 4294967296).
Context (Hsort : forall i j, L <= i -> i <= j -> j <= R -> ty i = type -> ty j = type -> va i <= va j).
Context (Hgap : forall i, L <= i <= R -> ty i = type -> va i <> a + 1).

Record around (v : search) : Prop := mkAround {
  ar_addr : s_addr v = a \/ s_addr v = a + 1;
  ar_low : forall i, L <= i < s_l v -> ty i = type -> va i <= a;
  ar_high : forall i, s_r v < i <= R -> ty i = type -> a < va i;
  ar_left : region_left v = L \/ (L <= region_left v <= R /\ ty (region_left v) = type /\ va (region_left v) <= a);
  ar_none : any_matches v = false -> forall i, L <= i < s_l v -> ty i <> type;
  ar_some : any_matches v = true -> exists i, L <= i <= R /\ ty i = type;
  ar_next : s_r v < R -> ty (s_r v + 1) = type
}.

Lemma next_around v : around v -> bounds v -> s_l v <= s_r v -> around (next v).
Proof.
  intros [Had Hlo Hhi Hlf Hno Hso Hnx] Hb Hle.
  apply next_cases; [done|done|..]; destruct Hb as (Hl & Hr & Hrr & Hll & Hf).
  - intros tm Htm Hnt. split; cbn; try done.
    + intros i Hi Hi'. destruct (decide (i < s_l v)); [by apply Hlo; [lia|]|].
      exfalso. apply (Hnt i); [lia|done].
    + intros Ea i Hi. destruct (decide (i < s_l v)); [by apply Hno; [|lia]|]. apply Hnt. lia.
  - intros tm m Hm Htm Htym Hnt Hlt. assert (va m <= a) as Hma.
    { destruct Had as [E|E]; lia. }
    split; cbn; try done.
    + intros i Hi Hi'. destruct (decide (i <= m)).
      * pose proof (Hsort i m ltac:(lia) ltac:(lia) ltac:(lia) Hi' Htym). lia.
      * exfalso. apply (Hnt i); [lia|done].
    + right. split; [lia|done].
    + intros _. exists m. split; [lia|done].
  - intros m Hm Htym Hgt. assert (a < va m) as Hma by (destruct Had as [E|E]; lia).
    split; cbn; try done.
    + intros i Hi Hi'. pose proof (Hsort m i ltac:(lia) ltac:(lia) ltac:(lia) Htym Hi'). lia.
    + intros _. exists m. split; [lia|done].
    + intros _. by replace (m - 1 + 1) with m by lia.
  - intros m Hm Htym Heq. destruct Had as [E|E].
    2:{ exfalso. apply (Hgap m); [lia|done|lia]. }
    split; cbn; try done.
    + right. rewrite u32_id; lia.
    + intros i Hi Hi'. pose proof (Hsort i m ltac:(lia) ltac:(lia) ltac:(lia) Hi' Htym). lia.
    + right. split; [lia|]. split; [done|lia].
    + intros _. exists m. split; [lia|done].
Qed.

(** [k] is the entry of the type that covers [a]. *)
Definition covers (k : Z) : Prop :=
  L <= k <= R /\ ty k = type /\ va k <= a /\ forall i, k < i <= R -> ty i = type -> a < va i.

(** The bounds of the region that holds [a]: the left one is the last entry of
    the type at or before [a], the right one precedes the next entry of the
    type. *)
Definition bracket (lft rgt : Z) : Prop :=
  (forall i, lft < i <= rgt -> ty i <> type)
  /\ (forall k, covers k -> lft = k /\ k <= rgt)
  /\ ((exists i, L <= i <= R /\ ty i = type) -> rgt < R -> ty (rgt + 1) = type /\ a < va (rgt + 1))
  /\ ((exists i, L <= i <= R /\ ty i = type) -> ~ (exists k, covers k) -> lft = Z.min L rgt)
  /\ ((forall i, L <= i <= R -> ty i <> type) -> lft = L /\ rgt = L - 1).

(** When the search is over, the last entry of the type up to [r] is the answer. *)
Lemma found_brackets v :
  around v -> bounds v -> s_r v < s_l v -> any_matches v = true ->
  bracket (prev (Z.to_nat (region_right v - region_left v)) (region_right v)) (region_right v).
Proof.
  intros [_ Hlo Hhi Hlf Hno Hso Hnx] (Hl & Hr & Hrr & Hll & _) Hend Ea.
  pose proof (prev_spec (Z.to_nat (region_right v - region_left v)) (region_right v)) as (Hp & Ht & Hn).
  rewrite Hrr in *. set (x := prev _ _) in *.
  assert (forall i, L <= i <= s_r v -> ty i = type -> va i <= a) as Hlo'
    by (intros; apply Hlo; [lia|done]).
  assert (region_left v <> L -> region_left v <= s_r v) as Hlr.
  { intros Hx. destruct Hlf as [?|(Hi & Hi' & Hv)]; [done|].
    destruct (decide (region_left v <= s_r v)); [done|].
    pose proof (Hhi (region_left v) ltac:(lia) Hi'). lia. }
  assert (L <= x -> ty x = type -> covers x) as Hcov.
  { intros Hx Hx'. split; [lia|]. split; [done|]. split; [apply Hlo'; [lia|done]|].
    intros i Hi Hi'. destruct (decide (i <= s_r v)); [|apply Hhi; [lia|done]].
    by destruct (Hn i); [lia|]. }
  split; [done|]. split; [|split; [|split]].
  - intros k (Hk & Hk' & Hva' & Hlast).
    assert (k <= s_r v). { destruct (decide (k <= s_r v)); [done|]. pose proof (Hhi k ltac:(lia) Hk'). lia. }
    assert (k <= x). { destruct (decide (k <= x)); [done|]. by destruct (Hn k); [lia|]. }
    split; [|done]. destruct (decide (x = k)); [done|].
    assert (ty x = type) as Hx'.
    { destruct (decide (region_left v < x)); [apply Ht; lia|].
      destruct Hlf as [Hlf|(_ & Hlf & _)]; [lia|]. by replace x with (region_left v) by lia. }
    pose proof (Hlast x ltac:(lia) Hx'). pose proof (Hlo' x ltac:(lia) Hx'). lia.
  - intros _ Hlt. split; [by apply Hnx|]. apply Hhi; [lia|by apply Hnx].
  - intros _ Hnc. destruct (decide (region_left v < x)) as [Hx|Hx].
    { destruct Hnc. exists x. apply Hcov; [lia|]. apply Ht. lia. }
    destruct Hlf as [Hlf|(Hlf & Hlf' & _)]; [lia|].
    destruct (decide (region_left v = L)); [lia|].
    destruct Hnc. exists x. apply Hcov; [lia|]. by replace x with (region_left v) by lia.
  - intros Hno'. destruct (Hso Ea) as (i & Hi & Hi'). by destruct (Hno' i Hi).
Qed.

Lemma none_brackets v :
  around v -> bounds v -> s_r v < s_l v -> any_matches v = false ->
  bracket (region_left v) (region_left v - 1).
Proof.
  intros [_ Hlo Hhi Hlf Hno Hso Hnx] (Hl & Hr & Hrr & Hll & Hf) Hend Ea. destruct (Hf Ea) as [-> Hr'].
  assert (forall i, L <= i <= R -> ty i <> type) as Hn by (intros; apply Hno; [done|lia]).
  split; [intros i Hi; lia|]. split; [|split; [|split]].
  - intros k (Hk & Hk' & _). by destruct (Hn k Hk).
  - intros (i & Hi & Hi'). by destruct (Hn i Hi).
  - intros (i & Hi & Hi'). by destruct (Hn i Hi).
  - done.
Qed.

(** On a table ordered by address, with no entry of the type at exactly the
    address after [a], the search brackets [a]: the left bound is the last entry
    of the type at or before [a] and the right bound the entry before the next
    one of the type, or the end of the region.  Without an entry of the type the
    bounds are an empty region; when all of them lie after [a] the region that
    remains is what precedes the first. *)
Theorem stab_binsearch_brackets :
  L <= R + 1 ->
  exists lft rgt, stab_binsearch stabs L R type a s = Ret (lft, rgt) s /\ bracket lft rgt.
Proof.
  intros Hne. unfold stab_binsearch.
  destruct (search_loop_ends around next_around)
    with (n := Z.to_nat (2 * (R - L + 1) + 1)) (v := mkSearch L R false L R a)
    as (v & E & HI & Hb & Hend).
  - intros v [[-> | ->] _ _ _ _ _ _]; lia.
  - split; cbn; try (by left); intros; done || lia.
  - unfold bounds. cbn. repeat split; lia.
  - unfold width. cbn. lia.
  - rewrite (bind_ret _ _ _ _ _ E). destruct (any_matches v) eqn:Ea; cbn [negb].
    + rewrite (bind_ret _ _ _ _ _ (scan_last v Hb)). eexists _, _. split; [done|].
      by apply found_brackets.
    + eexists _, _. split; [done|]. by apply none_brackets.
Qed.

End ordered.

End table.

(** ** Concrete tables *)

Lemma vload8_at s a pa : translate s false a = Some pa -> vload8 a s = Ret (rd8 (phys s) pa) s.
Proof. unfold vload8. by intros ->. Qed.

Lemma vload32_at s a pa :
  (forall i, 0 <= i < 4 -> translate s false (u32 (a + i)) = Some (pa + i)) ->
  vload32 a s = Ret (rd32 (phys s) pa) s.
Proof.
  intros H. pose proof (H 0 ltac:(lia)) as H0. rewrite !Z.add_0_r in H0. unfold vload32.
  rewrite (bind_ret _ _ _ _ _ (vload8_at _ _ _ H0)).
  rewrite (bind_ret _ _ _ _ _ (vload8_at _ _ _ (H 1 ltac:(lia)))).
  rewrite (bind_ret _ _ _ _ _ (vload8_at _ _ _ (H 2 ltac:(lia)))).
  by rewrite (bind_ret _ _ _ _ _ (vload8_at _ _ _ (H 3 ltac:(lia)))).
Qed.

(** A table of types and values in the page at 0x800000. *)
Fixpoint put_stabs (m : mem) (a : Z) (l : list (Z * Z)) : mem :=
  match l with
  | [] => m
  | (t, v) :: l => put_stabs (wr32 (wr8 m (a + 4) t) (a + 8) v) (a + sizeof_Stab) l
  end.

Definition stab_state (l : list (Z * Z)) : kstate :=
  set_cr3 (2 * 4096)
    (set_phys (put_stabs (phys UserMem.mapped_state) (7 * 4096) l) UserMem.mapped_state).

Definition tab_type (l : list (Z * Z)) (i : Z) : Z := rd8 (phys (stab_state l)) (7 * 4096 + 12 * i + 4).

Definition tab_value (l : list (Z * Z)) (i : Z) : Z := rd32 (phys (stab_state l)) (7 * 4096 + 12 * i + 8).

(** A function at 100 with line entries at offsets 0 and 6, and one with entries
    at 0 and 1. *)
Definition lines : list (Z * Z) := [(N_FUN, 100); (N_SLINE, 0); (N_SLINE, 6)].

Definition adjacent_lines : list (Z * Z) := [(N_FUN, 100); (N_SLINE, 0); (N_SLINE, 1)].

Ltac entry i :=
  assert (i = 0 \/ i = 1 \/ i = 2) as [-> | [-> | ->]] by lia.

Lemma tab_type_read l i :
  l = lines \/ l = adjacent_lines -> 0 <= i <= 2 ->
  n_type 8388608 i (stab_state l) = Ret (tab_type l i) (stab_state l).
Proof. intros [-> | ->] Hi; apply vload8_at; entry i; vm_compute; reflexivity. Qed.

Lemma tab_value_read l i :
  l = lines \/ l = adjacent_lines -> 0 <= i <= 2 ->
  n_value 8388608 i (stab_state l) = Ret (tab_value l i) (stab_state l).
Proof.
  intros Hl Hi. apply vload32_at. intros k Hk.
  assert (k = 0 \/ k = 1 \/ k = 2 \/ k = 3) as Hk' by lia. clear Hk.
  destruct Hl as [-> | ->]; entry i; destruct Hk' as [->|[->|[->| ->]]]; vm_compute; reflexivity.
Qed.

Lemma stab_binsearch_returns_witness :
  exists lft rgt, stab_binsearch 8388608 0 2 N_SLINE 3 (stab_state lines) = Ret (lft, rgt) (stab_state lines)
    /\ 0 - 1 <= lft <= 2 + 1 /\ 0 - 1 <= rgt <= 2.
Proof.
  apply (stab_binsearch_returns (stab_state lines) 8388608 N_SLINE 0 2 (tab_type lines) (tab_value lines));
    [lia|intros; apply tab_type_read; [by left|lia]|intros; apply tab_value_read; [by left|lia]|lia|lia].
Defined.

(** Offset 3 belongs to the line entry 1. *)
Lemma stab_binsearch_brackets_witness :
  exists rgt, stab_binsearch 8388608 0 2 N_SLINE 3 (stab_state lines) = Ret (1, rgt) (stab_state lines) /\ 1 <= rgt.
Proof.
  destruct (stab_binsearch_brackets (stab_state lines) 8388608 N_SLINE 0 2 (tab_type lines) (tab_value lines))
    with (a := 3) as (lft & rgt & E & _ & Hk & _);
    [lia|intros; apply tab_type_read; [by left|lia]|intros; apply tab_value_read; [by left|lia]|lia|lia| | |lia|].
  - intros i j Hi Hij Hj. entry i; entry j; vm_compute; intros; congruence || lia.
  - intros i Hi. entry i; vm_compute; congruence.
  - exists rgt. destruct (Hk 1) as [-> Hr]; [|split; [exact E|exact Hr]].
    split; [lia|]. split; [vm_compute; reflexivity|]. split; [vm_compute; congruence|].
    intros i Hi. assert (i = 2) as -> by lia. vm_compute. congruence.
Defined.

Lemma stab_binsearch_adjacent_witness :
  stab_binsearch 8388608 1 2 N_SLINE 0 (stab_state adjacent_lines) = Ret (2, 2) (stab_state adjacent_lines).
Proof.
  apply (stab_binsearch_adjacent (stab_state adjacent_lines) 8388608 N_SLINE 1 2
           (tab_type adjacent_lines) (tab_value adjacent_lines));
    [lia|intros; apply tab_type_read; [by right|lia]|intros; apply tab_value_read; [by right|lia]
    |reflexivity|vm_compute; reflexivity|vm_compute; reflexivity|vm_compute; reflexivity
    |vm_compute; reflexivity|lia|lia].
Defined.

(** The bounds of a table that a program supplies are not checked beyond the
    first word: a table that claims 1000 entries in one page makes the kernel
    fault. *)
Definition long_table_state : kstate :=
  let s := stab_state lines in
  let m := wr32 (phys s) (2 * 4096) (4 * 4096 + 7) in      (* page table of USTABDATA *)
  let m := wr32 m (4 * 4096 + 4 * 512) (5 * 4096 + 7) in
  let m := wr32 (wr32 m (5 * 4096) 8388608) (5 * 4096 + 4) (8388608 + 12 * 1000) in
  let m := wr32 (wr32 m (5 * 4096 + 8) 8388608) (5 * 4096 + 12) (8388608 + 4) in
  set_curenv (Some 1) (set_phys m s).

Lemma debuginfo_eip_faults :
  match debuginfo_eip 0 0 0 0 8388708 long_table_state with
  | Panic why _ => why = "page_fault_handler:page fault"%string
  | _ => False
  end.
Proof. vm_compute. reflexivity. Qed.

End Kdebug.
