(* ===== verification/Monitor.v ===== *)
(** * The kernel monitor (kern/monitor.c, lib/readline.c, kern/console.c)

    The monitor reads a line from the console, splits it into words and runs the
    command the first word names.  It is the kernel's own code and acts on the
    kernel state: the line is edited in a static buffer in kernel memory, the
    characters come from the console driver, and [continue] and [singlestep]
    change the saved frame of the interrupted program.

    Characters arrive on the serial line while the kernel polls the devices: a
    [feed] lists what arrives before each poll.  When nothing more arrives the
    kernel polls for ever; a run of the model ends there, with the outcome
    [Monitor].

    The theorems: whatever is typed on the serial line, the buffer ends up with
    the line as a list editor would have it, and a serial terminal shows it; the command line is
    split at white space, in place; the command with that name runs. *)

From stdpp Require Import base numbers list functions strings.
From Stdlib Require Import ZArith Lia Ascii.
From S2P Require Import Prelude Mem Mmu Console Kernel Printfmt Str Pmap PageAlloc Env Sched Syscall Trap Kdebug.

Open Scope Z_scope.
Open Scope jos_scope.

Module Monitor.

Import Console Printfmt Str Pmap Vm Sched Syscall Trap Kdebug.

(** ** Characters *)

Definition cputchar (c : Z) : K unit := modify (fun s => set_cons (cons_putc c (cons s)) s).

(** What arrives on the serial line before each poll. *)
Definition feed : Type := list (list Z).

Definition arrive (b : list Z) (c : console) : console := set_ser_rx (ser_rx c ++ b) c.

(** [while ((c = cons_getc()) == 0)]: the character and what is yet to arrive. *)
Fixpoint getchar (f : feed) : K (Z * feed) := fun s =>
  match f with
  | [] => Kernel.Monitor s
  | b :: f =>
    let '(c, con) := cons_getc (arrive b (cons s)) in
    if c =? 0 then getchar f (set_cons con s) else Ret (c, f) (set_cons con s)
  end.

Definition iscons (fdnum : Z) : bool := true.

Definition kstore8 (kva v : Z) : K unit :=
  modify (fun s => set_phys (wr8 (phys s) (kva - KERNBASE) v) s).

(** ** Lines *)

Definition BUFLEN : Z := 1024.

Section monitor.

(** The address of [buf] of readline.c, in kernel memory. *)
Context (buf : Z).

Definition echo (echoing : bool) (c : Z) : K unit := if echoing then cputchar c else ret tt.

(** One character of the loop: [inl] the next value of [i], [inr] the result. *)
Definition readline_char (echoing : bool) (i c : Z) : K (Z + option Z) :=
  if c <? 0 then
    do! (if negb (c =? - E_EOF) then kprintln "read error: %e" [AInt c] else ret tt) in
    ret (inr None)
  else if ((c =? 8) || (c =? 127)) && (i >? 0) then
    do! echo echoing 8 in ret (inl (i - 1))
  else if (c >=? 32) && (i <? BUFLEN - 1) then
    do! echo echoing c in
    do! kstore8 (buf + i) c in
    ret (inl (i + 1))
  else if (c =? 10) || (c =? 13) then
    do! echo echoing 10 in
    do! kstore8 (buf + i) 0 in
    ret (inr (Some buf))
  else ret (inl i).

(** Every character takes a poll at least, which bounds the [fuel]. *)
Fixpoint readline_loop (fuel : nat) (echoing : bool) (i : Z) (f : feed) : K (option Z * feed) :=
  match fuel with
  | O => undef "readline: loop bound"
  | S fuel =>
    let! cf := getchar f in
    let '(c, f) := cf in
    let! r := readline_char echoing i c in
    match r with
    | inl i => readline_loop fuel echoing i f
    | inr r => ret (r, f)
    end
  end.

Definition readline (prompt : option string) (f : feed) : K (option Z * feed) :=
  do! (match prompt with
       | Some p => let! _ := kcprintf "%s" [str p] in ret tt
       | None => ret tt
       end) in
  let echoing := iscons 0 in
  readline_loop (S (length f)) echoing 0 f.

(** ** Commands *)

Definition WHITESPACE : list Z := [9; 13; 10; 32].

(** [strchr(WHITESPACE, c)] *)
Definition is_white (c : Z) : bool := existsb (Z.eqb c) WHITESPACE.

Definition MAXARGS : Z := 16.

(** [while ( *p && strchr(WHITESPACE, *p)) *p++ = 0] *)
Fixpoint gobble_white (fuel : nat) (p : Z) : K Z :=
  match fuel with
  | O => undef "runcmd: unterminated line"
  | S fuel =>
    let! c := kload8 p in
    if negb (c =? 0) && is_white c then do! kstore8 p 0 in gobble_white fuel (p + 1) else ret p
  end.

(** [while ( *p && !strchr(WHITESPACE, *p)) p++] *)
Fixpoint skip_word (fuel : nat) (p : Z) : K Z :=
  match fuel with
  | O => undef "runcmd: unterminated line"
  | S fuel =>
    let! c := kload8 p in
    if negb (c =? 0) && negb (is_white c) then skip_word fuel (p + 1) else ret p
  end.

(** The words found, [None] when there are too many; [argv] has those so far. *)
Fixpoint parse_args (fuel : nat) (argv : list Z) (p : Z) : K (option (list Z)) :=
  match fuel with
  | O => undef "runcmd: unterminated line"
  | S n =>
    let! p := gobble_white fuel p in
    let! c := kload8 p in
    if c =? 0 then ret (Some argv) else
    if Z.of_nat (length argv) =? MAXARGS - 1 then
      do! kprintln "Too many arguments (max %d)" [AInt MAXARGS] in ret None
    else
      let! q := skip_word fuel p in
      parse_args n (argv ++ [p]) q
  end.

(** [strcmp] with a literal. *)
Fixpoint strcmp_lit (l : list Z) (p : Z) : K Z :=
  let! c := kload8 p in
  match l with
  | [] => ret c
  | x :: l => if (c =? x) && negb (c =? 0) then strcmp_lit l (p + 1) else ret (c - x)
  end.

(** What a command does with [argc], [argv] and the frame [tf]. *)
Definition command := list Z -> option Trapframe -> K (Z * option Trapframe).

Definition with_tf (tf : option Trapframe) (f : Trapframe -> Trapframe) : K (Z * option Trapframe) :=
  match tf with
  | Some t => ret (-1, Some (f t))
  | None => undef "NULL trap frame"
  end.

Definition continue_exec : command := fun argv tf =>
  with_tf tf (fun t => set_tf_eflags (Z.land (tf_eflags t) (Z.lnot FL_TF)) t).

Definition single_step : command := fun argv tf =>
  with_tf tf (fun t => set_tf_eflags (Z.lor (tf_eflags t) FL_TF) t).

(** Names and descriptions, in the order of the table. *)
Definition command_names : list (string * string) :=
  [("help", "Display this list of commands"); ("kerninfo", "Display information about the kernel");
   ("backtrace", "Display backtrace"); ("singlestep", "Break at the next instruction");
   ("continue", "Continue execution at the regular rate")]%string.

Fixpoint print_help (l : list (string * string)) : K unit :=
  match l with
  | [] => ret tt
  | (name, desc) :: l => do! kprintln "%s - %s" [str name; str desc] in print_help l
  end.

Definition mon_help : command := fun argv tf =>
  do! print_help command_names in ret (0, tf).

(** The linker's symbols. *)
Context (start entry etext edata end_ : Z).

Definition print_symbol (name : string) (a : Z) : K unit :=
  kprintln (String.append name "%08x (virt)  %08x (phys)") [AInt a; AInt (u32 (a - KERNBASE))].

Definition mon_kerninfo : command := fun argv tf =>
  do! kprintln "Special kernel symbols:" [] in
  do! kprintln "  _start                  %08x (phys)" [AInt start] in
  do! print_symbol "  entry  " entry in
  do! print_symbol "  etext  " etext in
  do! print_symbol "  edata  " edata in
  do! print_symbol "  end    " end_ in
  do! kprintln "Kernel executable memory footprint: %dKB"
        [AInt (ROUNDUP (u32 (end_ - entry)) 1024 / 1024)] in
  ret (0, tf).

(** ** Backtraces *)

Context (STAB_BEGIN STAB_END STABSTR_BEGIN STABSTR_END : Z).

(** The characters of a string, [n] at most. *)
Fixpoint load_chars (n : nat) (a : Z) : K (list Z) :=
  match n with
  | O => ret []
  | S n =>
    let! c := vload8 (u32 a) in
    if c =? 0 then ret [] else let! l := load_chars n (a + 1) in ret (i8 c :: l)
  end.

(** [n] bounds what is read of a string in the string table. *)
Definition load_ref (n : nat) (r : str_ref) : K arg :=
  match r with
  | Unknown => ret (str "<unknown>")
  | At a => let! l := load_chars n a in ret (AStr (Some l))
  end.

(** The line for the frame at [ebp]. *)
Definition print_frame (ebp : Z) : K unit :=
  let! eip := vload32 (ebp + 4) in
  let! d := debuginfo_eip STAB_BEGIN STAB_END STABSTR_BEGIN STABSTR_END eip in
  let info := d.2 in
  let! a0 := vload32 (ebp + 8) in
  let! a1 := vload32 (ebp + 12) in
  let! a2 := vload32 (ebp + 16) in
  let! a3 := vload32 (ebp + 20) in
  let! a4 := vload32 (ebp + 24) in
  let! file := load_ref (Z.to_nat (STABSTR_END - STABSTR_BEGIN)) (eip_file info) in
  let! name := load_ref (Z.to_nat (eip_fn_namelen info)) (eip_fn_name info) in
  do! kprintln (String.append (String.append "  ebp %08x  eip %08x  args %08x %08x %08x %08x %08x" newline)
                 (String (ascii_of_nat 9) " %s:%d: %.*s+%d"))
        [AInt ebp; AInt eip; AInt a0; AInt a1; AInt a2; AInt a3; AInt a4; file; AInt (eip_line info);
         AInt (eip_fn_namelen info); name; AInt (u32 (eip - eip_fn_addr info))] in
  ret tt.

(** [fuel] bounds the frames. *)
Fixpoint backtrace_loop (fuel : nat) (pre_ebp bt_cnt : Z) : K Z :=
  if pre_ebp =? 0 then ret bt_cnt else
  match fuel with
  | O => undef "mon_backtrace: loop bound"
  | S fuel =>
    do! print_frame pre_ebp in
    let! next := vload32 pre_ebp in
    backtrace_loop fuel next (bt_cnt + 1)
  end.

(** [read_ebp] is the frame pointer of the call; a stack has room for at most
    [KSTKSIZE / 8] frames. *)
Context (read_ebp : Z).

Definition mon_backtrace : command := fun argv tf =>
  do! kprintln "Stack backtrace:" [] in
  let! n := backtrace_loop (Z.to_nat (KSTKSIZE / 8)) read_ebp 0 in
  ret (n, tf).

(** ** The interpreter *)

Definition commands : list (string * command) :=
  [("help", mon_help); ("kerninfo", mon_kerninfo); ("backtrace", mon_backtrace);
   ("singlestep", single_step); ("continue", continue_exec)]%string.

Fixpoint line_chars (n : nat) (p : Z) : K (list Z) :=
  match n with
  | O => ret []
  | S n =>
    let! c := kload8 p in
    if c =? 0 then ret [] else let! l := line_chars n (p + 1) in ret (i8 c :: l)
  end.

(** [cprintf("Unknown command '%s'\n", argv[0])]; the word is in a line. *)
Definition unknown_command (p : Z) : K unit :=
  let! l := line_chars (Z.to_nat BUFLEN) p in
  kprintln "Unknown command '%s'" [AStr (Some l)].

Fixpoint dispatch (l : list (string * command)) (argv : list Z) (tf : option Trapframe)
  : K (Z * option Trapframe) :=
  match l with
  | [] => do! unknown_command (hd 0 argv) in ret (0, tf)
  | (name, func) :: l =>
    let! r := strcmp_lit (chars name) (hd 0 argv) in
    if r =? 0 then func argv tf else dispatch l argv tf
  end.

Definition runcmd (p : Z) (tf : option Trapframe) : K (Z * option Trapframe) :=
  let! argv := parse_args (Z.to_nat BUFLEN) [] p in
  match argv with
  | None => ret (0, tf)
  | Some [] => ret (0, tf)
  | Some argv => dispatch commands argv tf
  end.

(** Every line takes a poll at least. *)
Fixpoint monitor_loop (fuel : nat) (tf : option Trapframe) (f : feed) : K (option Trapframe) :=
  match fuel with
  | O => undef "monitor: loop bound"
  | S fuel =>
    let! bf := readline (Some "K> "%string) f in
    let '(b, f) := bf in
    match b with
    | None => monitor_loop fuel tf f
    | Some b =>
      let! r := runcmd b tf in
      let '(r, tf) := r in
      if r <? 0 then ret tf else monitor_loop fuel tf f
    end
  end.

(** [addr], [last] and [fault_va] are what [print_trapframe] shows of the
    circumstances.  The result is the frame as the monitor leaves it. *)
Definition monitor (addr : Z) (last : bool) (fault_va : Z) (f : feed) (tf : option Trapframe) : K (option Trapframe) :=
  do! kprintln "Welcome to the JOS kernel monitor!" [] in
  do! kprintln "Type 'help' for a list of commands." [] in
  do! (match tf with Some t => print_trapframe addr last fault_va t | None => ret tt end) in
  monitor_loop (S (length f)) tf f.

End monitor.

(** ** Lines as they are typed *)

(** The line so far, latest character first, after the next one.  An erase
    character at the beginning of the line is taken for a letter when it is
    DEL. *)
Definition type1 (st : list Z) (c : Z) : list Z :=
  if (c =? 8) || (c =? 127) then
    match st with [] => if c =? 127 then [127] else [] | _ :: st => st end
  else if (c >=? 32) && (Z.of_nat (length st) <? 1023) then c :: st else st.

Definition edited (l : list Z) : list Z := reverse (foldl type1 [] l).

(** What a terminal shows of a line after one more character. *)
Definition draw (sc : list Z) (c : Z) : list Z := if c =? 8 then tail sc else c :: sc.

(** Only the output side of the console changed. *)
Definition out_only (c c' : console) : Prop :=
  exists b p s l, c' = set_crt b p (set_tx s l c).

Lemma out_only_refl c : out_only c c.
Proof. exists (crt_buf c), (crt_pos c), (ser_tx c), (lpt_tx c). by destruct c. Qed.

Lemma out_only_trans c1 c2 c3 : out_only c1 c2 -> out_only c2 c3 -> out_only c1 c3.
Proof. intros (b & p & s & l & ->) (b' & p' & s' & l' & ->). by exists b', p', s', l'. Qed.

Lemma out_only_crt c b p : out_only c (set_crt b p c).
Proof. exists b, p, (ser_tx c), (lpt_tx c). by destruct c. Qed.

Lemma out_only_scroll c : out_only c (cga_scroll c).
Proof. unfold cga_scroll. bcase; [apply out_only_crt|apply out_only_refl]. Qed.

Lemma out_only_cga f ch c : (forall d, out_only d (f 32 d)) -> out_only c (cga_putc_with f ch c).
Proof.
  intros Hf. unfold cga_putc_with. eapply out_only_trans; [|apply out_only_scroll].
  repeat match goal with |- out_only _ (if ?b then _ else _) => destruct b end;
    eauto using out_only_crt, out_only_refl, out_only_trans.
Qed.

Lemma out_only_tx ch c : out_only c (lpt_putc ch (serial_putc ch c)).
Proof. exists (crt_buf c), (crt_pos c), (u8 ch :: ser_tx c), (u8 ch :: lpt_tx c). by destruct c. Qed.

Lemma cons_putc_out ch c : out_only c (cons_putc ch c).
Proof.
  assert (forall d, out_only d (cons_putc_plain 32 d)) as Hp.
  { intros d. eapply out_only_trans; [apply out_only_tx|]. apply out_only_cga. intros. apply out_only_refl. }
  eapply out_only_trans; [apply out_only_tx|]. by apply out_only_cga.
Qed.

Lemma out_only_input c c' : out_only c c' -> console_ok c ->
  console_ok c' /\ input_queue c' = input_queue c.
Proof. by intros (b & p & s & l & ->) H. Qed.

Lemma scroll_ser_tx c : ser_tx (cga_scroll c) = ser_tx c.
Proof. unfold cga_scroll. by destruct (_ >=? _). Qed.

(** Every character but a tab is one character on the serial line. *)
Lemma cons_putc_tx ch c : Z.land ch 255 <> 9 -> ser_tx (cons_putc ch c) = u8 ch :: ser_tx c.
Proof.
  intros Ht. unfold cons_putc, cons_putc_with, cga_putc.
  rewrite (cga_putc_with_no_tab _ (fun _ c => c)) by done. unfold cga_putc_with. rewrite scroll_ser_tx.
  by repeat match goal with |- context [if ?b then _ else _] => destruct b end.
Qed.

Lemma puts_out l : forall c, out_only c (puts kputch l c).
Proof.
  induction l as [|ch l IH]; intros c; cbn; [apply out_only_refl|].
  eapply out_only_trans; [apply cons_putc_out|apply IH].
Qed.

Lemma puts_tx l : forall c, Forall (fun ch => Z.land ch 255 <> 9 /\ u8 ch = ch) l ->
  ser_tx (puts kputch l c) = reverse l ++ ser_tx c.
Proof.
  induction l as [|ch l IH]; intros c; cbn; [done|]. intros [[H1 H2] H]%Forall_cons_1.
  change (ser_tx (puts kputch l (cons_putc ch c)) = reverse (ch :: l) ++ ser_tx c).
  rewrite IH, cons_putc_tx, H2, reverse_cons, <- app_assoc by done. done.
Qed.

(** ** Reading a line *)

Lemma input_queue_range c x : console_ok c -> x ∈ input_queue c -> 0 <= x < 256.
Proof.
  intros (_ & _ & _ & Hb) [(k & -> & _)%list_elem_of_fmap|[_ H]%list_elem_of_filter]%elem_of_app.
  - apply u8_range.
  - rewrite Forall_forall in Hb. by apply Hb.
Qed.

Lemma cons_intr_tx proc : (forall c, ser_tx (snd (proc c)) = ser_tx c) ->
  forall fuel c c', cons_intr fuel proc c = Some c' -> ser_tx c' = ser_tx c.
Proof.
  intros Hp. induction fuel as [|fuel IH]; intros c c'; cbn; [done|].
  specialize (Hp c). destruct (proc c) as [ch c1]. cbn in Hp.
  destruct (ch =? -1); [by intros [= <-]|]. destruct (ch =? 0); intros H%IH; by rewrite H.
Qed.

Lemma cons_getc_tx c : ser_tx (snd (cons_getc c)) = ser_tx c.
Proof.
  assert (ser_tx (kbd_intr (serial_intr c)) = ser_tx c) as <-.
  { trans (ser_tx (serial_intr c)).
    - unfold kbd_intr. destruct (cons_intr _ kbd_proc_data _) as [c'|] eqn:E; [|done].
      apply (cons_intr_tx _) in E; [done|]. intros d. unfold kbd_proc_data.
      destruct (kbd_rx d); [done|]. destruct (_ =? 224); [done|]. destruct (flag _ 128); [done|].
      by destruct (flag _ E0ESC).
    - unfold serial_intr. destruct (serial_exists c); [|done].
      destruct (cons_intr _ serial_proc_data _) as [c'|] eqn:E; [|done].
      apply (cons_intr_tx _) in E; [done|]. intros d. unfold serial_proc_data. by destruct (ser_rx d). }
  unfold cons_getc. by destruct (negb _).
Qed.

(** The driver drops NUL bytes. *)
Definition kept (b : list Z) : list Z := filter (fun x => x <> 0) b.

(** All that is still to be read: what the console holds and what will arrive. *)
Definition incoming (c : console) (f : feed) : list Z := input_queue c ++ concat (map kept f).

(** With [n] characters waiting: the ring of 512 never fills up, and by the last
    poll everything has been read. *)
Fixpoint paced (n : nat) (f : feed) : Prop :=
  match f with
  | [] => n = 0%nat
  | b :: f => (n + length (kept b) < 512)%nat /\ paced (pred (n + length (kept b))) f
  end.

(** The console and the line behave: bytes arrive, and not too many at once. *)
Record line_in (c : console) (f : feed) : Prop := {
  li_ok : console_ok c;
  li_bytes : Forall (Forall (fun x => 0 <= x < 256)) f;
  li_paced : paced (length (input_queue c)) f
}.

Lemma arrive_ok b c : console_ok c -> Forall (fun x => 0 <= x < 256) b ->
  console_ok (arrive b c) /\ input_queue (arrive b c) = input_queue c ++ kept b /\ ser_tx (arrive b c) = ser_tx c.
Proof.
  intros (H1 & H2 & H3 & H4) Hb. split; [|split; [|done]].
  - split; [done|]. split; [done|]. split; [done|]. cbn. by apply Forall_app.
  - unfold input_queue, arriving, kept. cbn. rewrite filter_app. by rewrite app_assoc.
Qed.

Lemma getchar_next f : forall s c l,
  line_in (cons s) f -> incoming (cons s) f = c :: l -> c <> 0 ->
  exists con f', getchar f s = Ret (c, f') (set_cons con s) /\ line_in con f' /\ incoming con f' = l
    /\ ser_tx con = ser_tx (cons s) /\ (length f' < length f)%nat.
Proof.
  induction f as [|b f IH]; intros s c l [Hok Hb Hp] Hq Hc.
  - cbn in Hp. unfold incoming in Hq. apply nil_length_inv in Hp. rewrite Hp in Hq. done.
  - apply Forall_cons_1 in Hb as [Hb Hf]. destruct Hp as [Hlen Hp].
    destruct (arrive_ok b (cons s) Hok Hb) as (Hok1 & Hq1 & Ht1). set (c1 := arrive b (cons s)) in *.
    pose proof (cons_getc_tx c1) as Htx. rewrite <- length_app, <- Hq1 in Hlen, Hp.
    destruct (cons_getc_fifo c1 Hok1) as (Hok2 & H1 & H2); [unfold CONSBUFSIZE; lia|].
    cbn [getchar]. fold c1. destruct (cons_getc c1) as [ch con] eqn:E. cbn [fst snd] in *.
    assert (incoming (cons s) (b :: f) = input_queue c1 ++ concat (map kept f)) as Einc
      by (unfold incoming; rewrite Hq1; cbn; by rewrite app_assoc).
    rewrite Einc in Hq. destruct (input_queue c1) as [|x q]; cbn [hd tl app length pred] in *.
    + rewrite H1, Z.eqb_refl. destruct (IH (set_cons con s) c l) as (con' & f' & E' & L' & Q' & T' & N').
      * split; [done|done|]. change (paced (length (input_queue con)) f). by rewrite H2.
      * unfold incoming. change (cons (set_cons con s)) with con. by rewrite H2.
      * done.
      * exists con', f'. split; [exact E'|]. split; [done|]. split; [done|].
        split; [|cbn; lia]. rewrite T'. change (ser_tx con = ser_tx (cons s)). congruence.
    + injection Hq as -> Hq. rewrite H1. destruct (Z.eqb_spec c 0); [done|]. exists con, f. split; [done|].
      split; [split; [done|done|by rewrite H2]|]. split; [unfold incoming; by rewrite H2|]. split; [congruence|cbn; lia].
Qed.

(** Characters are bytes. *)
Lemma incoming_range c f x : line_in c f -> x ∈ incoming c f -> 0 <= x < 256.
Proof.
  intros [Hok Hb _] [H|H]%elem_of_app; [by eapply input_queue_range|].
  apply list_elem_of_In, in_concat in H as (l & Hl & H). apply in_map_iff in Hl as (b & <- & Hin).
  apply list_elem_of_In in H, Hin. apply list_elem_of_filter in H as [_ H].
  rewrite Forall_forall in Hb. specialize (Hb b Hin). rewrite Forall_forall in Hb. by apply Hb.
Qed.

Lemma line_in_out c c' f : out_only c c' -> line_in c f -> line_in c' f /\ incoming c' f = incoming c f.
Proof.
  intros Ho [Hok Hb Hp]. destruct (out_only_input c c' Ho Hok) as [Hok' Hq]. unfold incoming. rewrite Hq.
  split; [|done]. split; [done|done|by rewrite Hq].
Qed.

(** The kernel state with another console and other memory. *)
Definition with_io (con : console) (m : mem) (s : kstate) : kstate := set_cons con (set_phys m s).

(** The bytes of [st] at [a], the latest first. *)
Definition holds (m : mem) (a : Z) (st : list Z) : Prop :=
  forall k c, reverse st !! k = Some c -> rd8 m (a + Z.of_nat k) = c.

Lemma holds_push m a st c : 0 <= c < 256 -> holds m a st -> holds (wr8 m (a + Z.of_nat (length st)) c) a (c :: st).
Proof.
  intros Hc H k x. rewrite reverse_cons, rd8_wr8. rewrite <- (length_reverse st).
  intros [Hl|[Hk Hx]]%lookup_app_Some.
  - pose proof (lookup_lt_Some _ _ _ Hl). destruct (Z.eqb_spec (a + Z.of_nat k) (a + Z.of_nat (length (reverse st)))); [lia|]. by apply H.
  - apply list_lookup_singleton_Some in Hx as [Hk' <-]. rewrite (proj2 (Z.eqb_eq _ _)) by lia. by apply u8_id.
Qed.

Lemma holds_pop m a c st : holds m a (c :: st) -> holds m a st.
Proof. intros H k x Hx. apply H. rewrite reverse_cons. by apply lookup_app_l_Some. Qed.

Lemma holds_cstr st m a : holds m a st -> Forall (fun c => c <> 0) st ->
  rd8 m (a + Z.of_nat (length st)) = 0 -> cstr m a (reverse st).
Proof.
  intros H Hz Hend. rewrite <- (length_reverse st) in Hend. apply Forall_reverse in Hz. revert H Hz Hend. unfold holds.
  generalize (reverse st). clear st. intros l. revert a.
  induction l as [|c l IH]; intros a H Hz Hend; cbn [cstr length] in *.
  - by rewrite Z.add_0_r in Hend.
  - apply Forall_cons_1 in Hz as [Hc Hz]. split; [|split; [done|]].
    + specialize (H 0%nat c eq_refl). by rewrite Z.add_0_r in H.
    + apply IH; [|done|by replace (a + 1 + Z.of_nat (length l)) with (a + Z.of_nat (S (length l))) by lia].
      intros k x Hk. specialize (H (S k) x Hk). by replace (a + 1 + Z.of_nat k) with (a + Z.of_nat (S k)) by lia.
Qed.

Lemma with_io_cons con s : set_cons con s = with_io con (phys s) s.
Proof. by destruct s. Qed.

(** The line so far: characters that print, and room for the terminator. *)
Definition line_ok (st : list Z) : Prop := Forall (fun c => 32 <= c < 256) st /\ Z.of_nat (length st) <= 1023.

Lemma type1_ok st c : line_ok st -> 0 <= c < 256 -> line_ok (type1 st c).
Proof.
  intros [Hf Hl] Hc. unfold type1. destruct ((c =? 8) || (c =? 127)).
  - destruct st as [|x st]; [destruct (Z.eqb_spec c 127); split; cbn; try lia; eauto using Forall_nil_2|].
    + apply Forall_cons_2; [lia|apply Forall_nil_2].
    + apply Forall_cons_1 in Hf as [_ Hf]. split; [done|cbn in *; lia].
  - destruct (Z.geb_spec c 32); [|done]. destruct (Z.ltb_spec (Z.of_nat (length st)) 1023); [|done].
    split; [apply Forall_cons_2; [lia|done]|cbn; lia].
Qed.

(** A character that is no newline does to the buffer and to the screen what
    [type1] does to the line. *)
Lemma readline_char_types buf st c s :
  line_ok st -> 0 < c < 256 -> c <> 10 -> c <> 13 -> holds (phys s) (buf - KERNBASE) st ->
  exists con m o, readline_char buf true (Z.of_nat (length st)) c s
      = Ret (inl (Z.of_nat (length (type1 st c)))) (with_io con m s)
    /\ holds m (buf - KERNBASE) (type1 st c)
    /\ (forall a, ~ (buf - KERNBASE <= a < buf - KERNBASE + 1024) -> m a = phys s a)
    /\ out_only (cons s) con /\ ser_tx con = reverse o ++ ser_tx (cons s)
    /\ foldl draw st o = type1 st c.
Proof.
  intros [Hf Hl] Hc H10 H13 Hh. unfold readline_char, BUFLEN.
  destruct (Z.ltb_spec c 0); [lia|]. rewrite (proj2 (Z.eqb_neq c 10)), (proj2 (Z.eqb_neq c 13)) by done.
  destruct (decide (((c =? 8) || (c =? 127)) && (Z.of_nat (length st) >? 0) = true)) as [E|E].
  - rewrite E. apply andb_true_iff in E as [E1 E2]. destruct st as [|x st]; [done|].
    exists (cons_putc 8 (cons s)), (phys s), [8]. unfold type1. rewrite E1. rewrite <- with_io_cons.
    split; [|split; [by eapply holds_pop|split; [done|split; [apply cons_putc_out|split; [by apply cons_putc_tx|done]]]]].
    unfold bind, echo, cputchar, modify, ret. do 2 f_equal. cbn [length]. lia.
  - apply not_true_is_false in E. rewrite E.
    assert (type1 st c = if (c >=? 32) && (Z.of_nat (length st) <? 1023) then c :: st else st) as Et.
    { unfold type1. destruct ((c =? 8) || (c =? 127)) eqn:E1; [|done]. destruct st as [|x st]; [|done].
      apply orb_true_iff in E1 as [->%Z.eqb_eq| ->%Z.eqb_eq]; done. }
    rewrite Et. destruct ((c >=? 32) && (Z.of_nat (length st) <? 1024 - 1)) eqn:E2.
    + change (1024 - 1) with 1023 in E2. rewrite E2. apply andb_true_iff in E2 as [E3 E4%Z.ltb_lt].
      exists (cons_putc c (cons s)), (wr8 (phys s) (buf - KERNBASE + Z.of_nat (length st)) c), [c].
      assert (Z.land c 255 = c) as Hland by (change 255 with (Z.ones 8); rewrite Z.land_ones by lia; zdm).
      rewrite Z.geb_leb in E3. apply Z.leb_le in E3.
      split; [|split; [apply holds_push; [lia|done]|split; [|split; [apply cons_putc_out|split]]]].
      * unfold bind, echo, cputchar, kstore8, modify, ret. cbn [length].
        replace (Z.of_nat (length st) + 1) with (Z.of_nat (S (length st))) by lia.
        by replace (buf + Z.of_nat (length st) - KERNBASE) with (buf - KERNBASE + Z.of_nat (length st)) by lia.
      * intros a Ha. unfold wr8. apply fn_lookup_insert_ne. lia.
      * rewrite cons_putc_tx by lia. by rewrite u8_id by lia.
      * cbn. unfold draw. destruct (Z.eqb_spec c 8); [lia|done].
    + change (1024 - 1) with 1023 in E2. rewrite E2.
      exists (cons s), (phys s), []. rewrite <- with_io_cons. cbn [orb].
      split; [by destruct s|]. split; [done|]. split; [done|]. split; [apply out_only_refl|done].
Qed.

Lemma readline_loop_spec buf nl rest : nl = 10 \/ nl = 13 -> forall l fuel st f s,
  line_in (cons s) f -> incoming (cons s) f = l ++ nl :: rest ->
  Forall (fun c => c <> 0 /\ c <> 10 /\ c <> 13) l ->
  (length f < fuel)%nat -> holds (phys s) (buf - KERNBASE) st -> line_ok st ->
  exists con m o f', readline_loop buf fuel true (Z.of_nat (length st)) f s = Ret (Some buf, f') (with_io con m s)
    /\ cstr m (buf - KERNBASE) (reverse (foldl type1 st l))
    /\ Z.of_nat (length (foldl type1 st l)) <= 1023
    /\ (forall a, ~ (buf - KERNBASE <= a < buf - KERNBASE + 1024) -> m a = phys s a)
    /\ line_in con f' /\ incoming con f' = rest
    /\ ser_tx con = reverse (o ++ [10]) ++ ser_tx (cons s) /\ foldl draw st o = foldl type1 st l.
Proof.
  intros Hnl. induction l as [|c l IH]; intros [|fuel] st f s Hin Hq Hl Hf Hh Hst; try lia.
  - cbn [app] in *. destruct (getchar_next f s nl rest) as (con & f' & E & Hin1 & Hq1 & Ht1 & Hf'); [done|done|lia|].
    cbn [readline_loop]. rewrite (bind_ret _ _ _ _ _ E). destruct Hst as [Hfa Hl1].
    exists (cons_putc 10 con), (wr8 (phys s) (buf - KERNBASE + Z.of_nat (length st)) 0), [], f'.
    destruct (line_in_out con (cons_putc 10 con) f' (cons_putc_out _ _) Hin1) as [Hin2 Hq2].
    split; [|split; [|split; [done|split; [|split; [done|split; [congruence|split; [|done]]]]]]].
    + unfold readline_char, BUFLEN. destruct (Z.ltb_spec nl 0); [lia|].
      rewrite (proj2 (Z.eqb_neq nl 8)), (proj2 (Z.eqb_neq nl 127)) by lia. cbn [orb andb].
      destruct (Z.geb_spec nl 32); [lia|]. cbn [andb].
      assert ((nl =? 10) || (nl =? 13) = true) as -> by (apply orb_true_iff; rewrite !Z.eqb_eq; lia).
      unfold bind, echo, cputchar, kstore8, modify, ret, with_io. cbn [phys set_cons].
      by replace (buf + Z.of_nat (length st) - KERNBASE) with (buf - KERNBASE + Z.of_nat (length st)) by lia.
    + cbn [foldl]. apply holds_cstr.
      * intros k x Hk. rewrite rd8_wr8. pose proof (lookup_lt_Some _ _ _ Hk) as Hlt. rewrite length_reverse in Hlt.
        rewrite (proj2 (Z.eqb_neq _ _)) by lia. by apply Hh.
      * eapply Forall_impl; [exact Hfa|]. cbn. lia.
      * rewrite rd8_wr8. by rewrite Z.eqb_refl.
    + intros a Ha. unfold wr8. apply fn_lookup_insert_ne. lia.
    + rewrite cons_putc_tx by done. by rewrite Ht1.
  - apply Forall_cons_1 in Hl as [(H0 & H10 & H13) Hl]. cbn [app] in *.
    assert (0 <= c < 256) as Hc by (apply (incoming_range (cons s) f); [done|]; rewrite Hq; by left).
    destruct (getchar_next f s c (l ++ nl :: rest)) as (con & f1 & E & Hin1 & Hq1 & Ht1 & Hf1); [done|done|done|].
    cbn [readline_loop]. rewrite (bind_ret _ _ _ _ _ E).
    destruct (readline_char_types buf st c (set_cons con s)) as (con2 & m2 & o & E2 & Hh2 & Ho2 & Hoo & Ht2 & Hd2);
      [done|lia|done|done|done|].
    rewrite (bind_ret _ _ _ _ _ E2). destruct (line_in_out con con2 f1 Hoo Hin1) as [Hin2 Hq2].
    destruct (IH fuel (type1 st c) f1 (with_io con2 m2 (set_cons con s))) as
      (con3 & m3 & o3 & f3 & E3 & Hs3 & Hl3 & Hm3 & Hin3 & Hq3 & Ht3 & Hd3);
      [done|by etrans; [exact Hq2|exact Hq1]|done|lia|done|by apply type1_ok|].
    exists con3, m3, (o ++ o3), f3. split; [exact E3|]. split; [exact Hs3|]. split; [exact Hl3|].
    split; [intros a Ha; rewrite Hm3 by done; by apply Ho2|]. split; [done|]. split; [done|].
    change (cons (with_io con2 m2 (set_cons con s))) with con2 in Ht3. change (cons (set_cons con s)) with con in Ht2.
    split; [|by rewrite foldl_app, Hd2].
    rewrite Ht3, Ht2, Ht1. by rewrite <- (app_assoc o o3), (reverse_app o), <- app_assoc.
Qed.

Lemma readline_spec (buf nl : Z) (l rest : list Z) (f : feed) (s : kstate) :
  line_in (cons s) f -> incoming (cons s) f = l ++ nl :: rest -> nl = 10 \/ nl = 13 ->
  Forall (fun c => c <> 0 /\ c <> 10 /\ c <> 13) l ->
  exists con m o f', readline buf (Some "K> "%string) f s = Ret (Some buf, f') (with_io con m s)
    /\ cstr m (buf - KERNBASE) (edited l) /\ Z.of_nat (length (edited l)) <= 1023
    /\ (forall a, ~ (buf - KERNBASE <= a < buf - KERNBASE + 1024) -> m a = phys s a)
    /\ line_in con f' /\ incoming con f' = rest
    /\ ser_tx con = reverse (chars "K> " ++ o ++ [10]) ++ ser_tx (cons s)
    /\ foldl draw [] o = reverse (edited l).
Proof.
  intros Hin Hq Hnl Hl. unfold readline.
  set (c1 := puts kputch (chars "K> ") (cons s)).
  rewrite (bind_ret _ _ s tt (set_cons c1 s)).
  2: { unfold bind, kcprintf, kvcprintf. by rewrite vprintfmt_output. }
  destruct (line_in_out (cons s) c1 f (puts_out _ _) Hin) as [Hin1 Hq1]. unfold iscons. cbv zeta.
  destruct (readline_loop_spec buf nl rest Hnl l (S (length f)) [] f (set_cons c1 s))
    as (con & m & o & f' & E & Hs & Hll & Hm & Hin2 & Hq2 & Ht & Hd);
    [done|by rewrite <- Hq, <- Hq1|done|lia|done|split; [apply Forall_nil_2|done]|].
  exists con, m, o, f'. split; [exact E|]. unfold edited. rewrite length_reverse, reverse_involutive.
  split; [done|]. split; [done|]. split; [done|]. split; [done|]. split; [done|]. split; [|done].
  rewrite Ht. change (cons (set_cons c1 s)) with c1. unfold c1.
  rewrite puts_tx by (apply (bool_decide_unpack _); vm_compute; exact I).
  by rewrite (reverse_app (chars "K> ")), <- app_assoc.
Qed.

(** C30: [readline] returns with the line in its buffer, however long the line is.
    The input comes over the serial line, with no key pressed on the keyboard,
    and no faster than the kernel polls: fewer than 512 characters wait at any
    time, and all of them are read in the end.  When it is [l], a newline and
    [rest], the buffer ends up with the characters of [l] as a list editor has
    them: characters that print are added as long as the line has fewer than
    1023, later ones are dropped, backspace and DEL take back the latest one.  A
    serial terminal shows the prompt and the same line, the rest of the input
    waits for the next call, and no byte outside the 1024 of the buffer is
    written. *)
Theorem readline_edits (buf nl : Z) (l rest : list Z) (f : feed) (s : kstate) :
  line_in (cons s) f -> incoming (cons s) f = l ++ nl :: rest -> nl = 10 \/ nl = 13 ->
  Forall (fun c => c <> 0 /\ c <> 10 /\ c <> 13) l ->
  exists con m o f', readline buf (Some "K> "%string) f s = Ret (Some buf, f') (with_io con m s)
    /\ cstr m (buf - KERNBASE) (edited l) /\ Z.of_nat (length (edited l)) <= 1023
    /\ (forall a, ~ (buf - KERNBASE <= a < buf - KERNBASE + 1024) -> m a = phys s a)
    /\ line_in con f' /\ incoming con f' = rest
    /\ ser_tx con = reverse (chars "K> " ++ o ++ [10]) ++ ser_tx (cons s)
    /\ foldl draw [] o = reverse (edited l).
Proof. apply readline_spec. Qed.

(** ** Splitting a line *)

(** Kernel memory by virtual address. *)
Definition kmem (s : kstate) : mem := fun a => phys s (a - KERNBASE).

(** The words of a line that starts at [p], with their addresses; [w] is the
    word in progress. *)
Fixpoint lex (p : Z) (w l : list Z) : list (Z * list Z) :=
  let word := match w with [] => [] | _ => [(p - Z.of_nat (length w), w)] end in
  match l with
  | [] => word
  | c :: l => if is_white c then word ++ lex (p + 1) [] l else lex (p + 1) (w ++ [c]) l
  end.

Definition words (l : list Z) : list (list Z) := map snd (lex 0 [] l).

(** White space among the [n] bytes at [p] becomes the end of a string. *)
Definition zap (m : mem) (p n : Z) : mem :=
  fun x => if (p <=? x) && (x <? p + n) && is_white (rd8 m x) then 0 else m x.

Lemma cstr_drop m l : forall k p, (k <= length l)%nat -> cstr m p l -> cstr m (p + Z.of_nat k) (drop k l).
Proof.
  induction l as [|c l IH]; intros [|k] p Hk Hc; cbn [length] in *; try lia; rewrite ?Z.add_0_r; [done|done|].
  cbn [drop]. replace (p + Z.of_nat (S k)) with (p + 1 + Z.of_nat k) by lia. apply IH; [lia|apply Hc].
Qed.

Lemma lex_shift d l : forall p w, lex (p + d) w l = map (fun x => (x.1 + d, x.2)) (lex p w l).
Proof.
  induction l as [|c l IH]; intros p w; cbn [lex].
  - destruct w; cbn; [done|]. do 2 f_equal. lia.
  - replace (p + d + 1) with (p + 1 + d) by lia. rewrite !IH. destruct (is_white c); [|done].
    rewrite map_app. f_equal. destruct w; cbn; [done|]. do 2 f_equal. lia.
Qed.

Lemma words_lex p l : words l = map snd (lex p [] l).
Proof. unfold words. change p with (0 + p). rewrite lex_shift, map_map. done. Qed.

Lemma zap_0 m p x : zap m p 0 x = m x.
Proof. unfold zap. destruct (Z.leb_spec p x), (Z.ltb_spec x (p + 0)); try done; lia. Qed.

Lemma zap_cons m m' p n x : is_white (rd8 m p) = true -> 0 <= n ->
  (forall y, m' y = if y =? p then 0 else m y) -> zap m' (p + 1) n x = zap m p (n + 1) x.
Proof.
  intros Hw Hn Hm. unfold zap, rd8. rewrite !Hm. destruct (Z.eqb_spec x p) as [->|Hne].
  - fold (rd8 m p). rewrite Hw. destruct (Z.leb_spec (p + 1) p); [lia|]. cbn [andb].
    destruct (Z.leb_spec p p), (Z.ltb_spec p (p + (n + 1))); try lia. done.
  - destruct (Z.leb_spec (p + 1) x), (Z.leb_spec p x), (Z.ltb_spec x (p + 1 + n)), (Z.ltb_spec x (p + (n + 1)));
      try lia; done.
Qed.

Lemma zap_app m m1 m2 p n1 n2 x : 0 <= n1 -> 0 <= n2 ->
  (forall y, m1 y = zap m p n1 y) -> (forall y, m2 y = zap m1 (p + n1) n2 y) -> m2 x = zap m p (n1 + n2) x.
Proof.
  intros H1 H2 Hm1 Hm2. rewrite Hm2. unfold zap, rd8. rewrite !Hm1. unfold zap, rd8.
  destruct (Z.leb_spec (p + n1) x), (Z.ltb_spec x (p + n1 + n2)), (Z.leb_spec p x), (Z.ltb_spec x (p + n1)),
    (Z.ltb_spec x (p + (n1 + n2))); try lia; cbn [andb]; done.
Qed.

Lemma zap_skip m p k n x : 0 <= k -> 0 <= n ->
  (forall y, p <= y < p + k -> is_white (rd8 m y) = false) -> zap m (p + k) n x = zap m p (k + n) x.
Proof.
  intros Hk Hn Hw. unfold zap. specialize (Hw x).
  destruct (Z.leb_spec (p + k) x), (Z.ltb_spec x (p + k + n)), (Z.leb_spec p x), (Z.ltb_spec x (p + (k + n)));
    try lia; cbn [andb]; try done; by rewrite Hw by lia.
Qed.

(** The line starts with [k] white characters. *)
Lemma gobble_white_spec : forall l fuel p s, cstr (kmem s) p l -> (length l < fuel)%nat ->
  exists k m, (k <= length l)%nat /\ gobble_white fuel p s = Ret (p + Z.of_nat k) (set_phys m s)
    /\ (forall x, m (x - KERNBASE) = zap (kmem s) p (Z.of_nat k) x)
    /\ lex p [] l = lex (p + Z.of_nat k) [] (drop k l)
    /\ (forall c r, drop k l = c :: r -> is_white c = false).
Proof.
  assert (forall s x, set_phys (phys s) s = s /\ rd8 (phys s) (x - KERNBASE) = rd8 (kmem s) x) as Hid
    by (intros s; by destruct s).
  induction l as [|c l IH]; intros [|fuel] p s Hc Hf; cbn [length] in Hf; try lia; cbn [gobble_white];
    unfold bind, kload8, gets; rewrite (proj2 (Hid s p)).
  - exists 0%nat, (phys s). cbn in Hc. rewrite Z.add_0_r, (proj1 (Hid s 0)), Hc.
    split; [done|]. split; [done|]. split; [|done]. intros x. by rewrite zap_0.
  - destruct Hc as (E & Hnz & Hc). rewrite E, (proj2 (Z.eqb_neq c 0)) by done. cbn [negb andb].
    destruct (is_white c) eqn:Ew.
    + set (s1 := set_phys (wr8 (phys s) (p - KERNBASE) 0) s).
      assert (forall y, kmem s1 y = if y =? p then 0 else kmem s y) as Hs1.
      { intros y. unfold kmem, s1, wr8. cbn [phys set_phys]. destruct (Z.eqb_spec y p) as [->|];
          [by rewrite fn_lookup_insert|]. by rewrite fn_lookup_insert_ne by lia. }
      destruct (IH fuel (p + 1) s1) as (k & m & Hk & Eg & Hm & Hlex & Hn); [|lia|].
      { eapply cstr_ext; [|exact Hc]. intros x Hx. rewrite Hs1. by rewrite (proj2 (Z.eqb_neq x p)) by lia. }
      exists (S k), m. split; [cbn; lia|]. unfold kstore8, modify. fold s1. rewrite Eg.
      replace (p + 1 + Z.of_nat k) with (p + Z.of_nat (S k)) in * by lia.
      split; [done|]. split; [|split; [|done]].
      * intros x. rewrite Hm. replace (Z.of_nat (S k)) with (Z.of_nat k + 1) by lia.
        apply zap_cons; [by rewrite E|lia|done].
      * cbn [lex drop]. by rewrite Ew.
    + exists 0%nat, (phys s). rewrite Z.add_0_r, (proj1 (Hid s 0)). split; [lia|]. split; [done|].
      split; [intros x; by rewrite zap_0|]. split; [done|]. by intros c' r [= <- _].
Qed.

(** The line starts with a word of [k] characters. *)
Lemma skip_word_spec : forall l fuel p w s, cstr (kmem s) p l -> (length l < fuel)%nat ->
  exists k, (k <= length l)%nat /\ skip_word fuel p s = Ret (p + Z.of_nat k) s
    /\ lex p w l = match w ++ take k l with
                   | [] => []
                   | v => [(p - Z.of_nat (length w), v)]
                   end ++ lex (p + Z.of_nat k) [] (drop k l)
    /\ (forall c r, l = c :: r -> is_white c = false -> (0 < k)%nat)
    /\ (forall x, p <= x < p + Z.of_nat k -> is_white (rd8 (kmem s) x) = false).
Proof.
  induction l as [|c l IH]; intros [|fuel] p w s Hc Hf; cbn [length] in Hf; try lia; cbn [skip_word];
    unfold bind, kload8, gets; change (rd8 (phys s) (p - KERNBASE)) with (rd8 (kmem s) p).
  - exists 0%nat. cbn in Hc. rewrite Z.add_0_r, Hc. split; [done|]. split; [done|]. split; [|split; [done|lia]].
    cbn [take drop lex]. rewrite !app_nil_r. by destruct w.
  - destruct Hc as (E & Hnz & Hc). rewrite E, (proj2 (Z.eqb_neq c 0)) by done. cbn [negb andb].
    destruct (is_white c) eqn:Ew; cbn [negb].
    + exists 0%nat. rewrite Z.add_0_r. split; [lia|]. split; [done|]. cbn [take drop]. rewrite app_nil_r.
      split; [|split; [intros c' r [= -> ->]; congruence|lia]]. cbn [lex]. rewrite Ew. by destruct w.
    + destruct (IH fuel (p + 1) (w ++ [c]) s) as (k & Hk & Es & Hlex & _ & Hw); [done|lia|].
      exists (S k). split; [cbn; lia|]. replace (p + Z.of_nat (S k)) with (p + 1 + Z.of_nat k) by lia.
      split; [done|]. split; [|split; [lia|]].
      2: { intros x Hx. destruct (decide (x = p)) as [->|]; [by rewrite E|]. apply Hw. lia. }
      cbn [lex take drop]. rewrite Ew, Hlex, <- app_assoc, length_app.
      cbn [app length]. by replace (p + 1 - Z.of_nat (length w + 1)) with (p - Z.of_nat (length w)) by lia.
Qed.

Lemma too_many_prints s : exists con, kprintln "Too many arguments (max %d)" [AInt MAXARGS] s = Ret tt (set_cons con s).
Proof. eexists. unfold kprintln, bind, kcprintf, kvcprintf. by rewrite vprintfmt_output. Qed.

Lemma parse_args_spec : forall fuel l argv p s, cstr (kmem s) p l -> (length l < fuel)%nat ->
  (length argv <= 15)%nat ->
  let ws := lex p [] l in
  ((length argv + length ws <= 15)%nat ->
     exists m, parse_args fuel argv p s = Ret (Some (argv ++ map fst ws)) (set_phys m s)
       /\ forall x, m (x - KERNBASE) = zap (kmem s) p (Z.of_nat (length l)) x)
  /\ ((15 < length argv + length ws)%nat ->
     exists con m, parse_args fuel argv p s = Ret None (with_io con m s)).
Proof.
  induction fuel as [|fuel IH]; intros l argv p s Hc Hf Ha; [lia|]. cbv zeta. cbn [parse_args].
  destruct (gobble_white_spec l (S fuel) p s Hc Hf) as (k & m & Hk & Eg & Hm & Hlex & Hn).
  rewrite (bind_ret _ _ _ _ _ Eg). set (s1 := set_phys m s). set (p1 := p + Z.of_nat k).
  assert (cstr (kmem s1) p1 (drop k l)) as Hc1.
  { eapply cstr_ext; [|by apply cstr_drop]. intros x Hx. unfold kmem at 1, s1. cbn [phys set_phys]. rewrite Hm.
    unfold zap. destruct (Z.ltb_spec x (p + Z.of_nat k)); [lia|]. by rewrite andb_false_r. }
  rewrite Hlex. fold p1. rewrite (bind_ret _ _ s1 (rd8 (kmem s1) p1) s1) by done.
  destruct (drop k l) as [|c r] eqn:Ed.
  - cbn in Hc1. rewrite Hc1. cbn [Z.eqb lex map length]. split; [|lia].
    intros _. exists m. rewrite app_nil_r. split; [done|].
    apply (f_equal length) in Ed. rewrite length_drop in Ed. cbn in Ed.
    by replace (length l) with k by lia.
  - assert (length (drop k l) = S (length r)) as Hlen by (by rewrite Ed). rewrite length_drop in Hlen.
    pose proof Hc1 as (E & Hnz & _). rewrite E, (proj2 (Z.eqb_neq c 0)) by done.
    destruct (skip_word_spec (c :: r) (S fuel) p1 [] s1 Hc1) as (k2 & Hk2 & Es & Hlex2 & Hpos & Hw2); [cbn; lia|].
    specialize (Hpos c r eq_refl (Hn c r eq_refl)). cbn [length] in Hk2.
    assert (exists v, take k2 (c :: r) = c :: v) as [v Ev] by (destruct k2; [lia|by eexists]).
    rewrite Hlex2. cbn [app length]. rewrite Ev, Z.sub_0_r. cbn [app length map].
    unfold MAXARGS. destruct (Z.eqb_spec (Z.of_nat (length argv)) (16 - 1)).
    + split; [lia|]. intros _. destruct (too_many_prints s1) as [con Ep]. rewrite (bind_ret _ _ _ _ _ Ep).
      by exists con, m.
    + rewrite (bind_ret _ _ _ _ _ Es). set (p2 := p1 + Z.of_nat k2).
      destruct (IH (drop k2 (c :: r)) (argv ++ [p1]) p2 s1) as [Hok Hbad];
        [by apply cstr_drop|rewrite length_drop; cbn [length]; lia|rewrite length_app; cbn; lia|].
      rewrite length_app in Hok, Hbad. cbn [length] in Hok, Hbad. split.
      * intros Hle. destruct Hok as (m2 & Ep & Hm2); [lia|]. exists m2. rewrite Ep, <- app_assoc. split; [done|].
        rewrite length_drop in Hm2. cbn [length] in Hm2. intros x.
        replace (Z.of_nat (length l)) with (Z.of_nat k + (Z.of_nat k2 + Z.of_nat (S (length r) - k2))) by lia.
        apply (zap_app (kmem s) (kmem s1) (kmem (set_phys m2 s)) p (Z.of_nat k)); [lia|lia|exact Hm|].
        intros y. fold p1. unfold kmem at 1. cbn [phys set_phys]. rewrite Hm2.
        apply zap_skip; [lia|lia|exact Hw2].
      * intros Hlt. destruct Hbad as (con & m2 & Ep); [lia|]. rewrite Ep. by exists con, m2.
Qed.

(** After the split every word is a string. *)
Lemma lex_cstr m lo n : forall l p w q v, lo <= p - Z.of_nat (length w) -> lo + n = p + Z.of_nat (length l) ->
  cstr m p l ->
  (forall i c, w !! i = Some c -> rd8 m (p - Z.of_nat (length w) + Z.of_nat i) = c /\ c <> 0 /\ is_white c = false) ->
  (q, v) ∈ lex p w l -> cstr (zap m lo n) q v.
Proof.
  assert (forall p w, lo <= p - Z.of_nat (length w) -> p <= lo + n ->
    (forall i c, w !! i = Some c -> rd8 m (p - Z.of_nat (length w) + Z.of_nat i) = c /\ c <> 0 /\ is_white c = false) ->
    rd8 (zap m lo n) p = 0 -> cstr (zap m lo n) (p - Z.of_nat (length w)) w) as Hword.
  { intros p w. revert p. induction w as [|c w IHw]; intros p Hlo Hhi Hw Hend; cbn [cstr length] in *.
    - by rewrite Z.sub_0_r.
    - destruct (Hw 0%nat c eq_refl) as (H1 & H2 & H3). rewrite Z.add_0_r in H1. split; [|split; [done|]].
      + unfold rd8, zap. rewrite H1, H3, andb_false_r. done.
      + replace (p - Z.of_nat (S (length w)) + 1) with (p - Z.of_nat (length w)) by lia.
        apply IHw; [lia|lia| |done]. intros i x Hi. destruct (Hw (S i) x Hi) as (H & ? & ?). split; [|done].
        rewrite <- H. f_equal. lia. }
  induction l as [|c l IH]; intros p w q v Hlo Hn Hc Hw Hin; cbn [lex length cstr] in *.
  - destruct w as [|x w]; [by apply not_elem_of_nil in Hin|].
    apply list_elem_of_singleton in Hin as [= -> ->]. apply (Hword p (x :: w)); [done|lia|done|].
    unfold rd8, zap in *. by destruct (_ && _).
  - destruct Hc as (E & Hnz & Hc). destruct (is_white c) eqn:Ew.
    + apply elem_of_app in Hin as [Hin|Hin].
      * destruct w as [|x w]; [by apply not_elem_of_nil in Hin|].
        apply list_elem_of_singleton in Hin as [= -> ->]. apply (Hword p (x :: w)); [done|lia|done|].
        unfold rd8 at 1, zap. rewrite E, Ew. cbn [length] in Hlo.
        rewrite (proj2 (Z.leb_le lo p)), (proj2 (Z.ltb_lt p (lo + n))) by lia. done.
      * apply (IH (p + 1) [] q v); [cbn in *; lia|lia|done|done|done].
    + apply (IH (p + 1) (w ++ [c]) q v); [rewrite length_app; cbn; lia|lia|done| |done].
      rewrite length_app. cbn [length]. intros i x [Hi|[Hi Hx]]%lookup_app_Some.
      * destruct (Hw i x Hi) as (H & ? & ?). split; [|done]. rewrite <- H. f_equal. lia.
      * apply list_lookup_singleton_Some in Hx as [Hi' <-]. split; [|done]. rewrite <- E. f_equal. lia.
Qed.

(** ** Running a command *)

Lemma strcmp_lit_spec l : Forall (fun x => x <> 0) l -> forall w p s, cstr (kmem s) p w ->
  exists r, strcmp_lit l p s = Ret r s /\ (r = 0 <-> w = l).
Proof.
  induction l as [|x l IH]; intros Hl w p s Hc; cbn [strcmp_lit];
    rewrite (bind_ret _ _ s (rd8 (kmem s) p) s) by done.
  - destruct w as [|c w]; cbn in Hc; [by exists 0; rewrite Hc|]. destruct Hc as (-> & Hnz & _). by exists c.
  - apply Forall_cons_1 in Hl as [Hx Hl]. destruct w as [|c w]; cbn [cstr] in Hc.
    + rewrite Hc. rewrite andb_false_r. exists (0 - x). split; [done|]. split; [lia|done].
    + destruct Hc as (-> & Hnz & Hc). destruct (Z.eqb_spec c x) as [->|Hne].
      * rewrite (proj2 (Z.eqb_neq x 0)) by done. cbn [negb andb]. destruct (IH Hl w (p + 1) s Hc) as (r & E & Hr).
        exists r. split; [done|]. rewrite Hr. split; [by intros ->|by intros [= ->]].
      * cbn [andb]. exists (c - x). split; [done|]. split; [lia|by intros [= -> _]].
Qed.

(** The command with that name. *)
Fixpoint find_command (l : list (string * command)) (w : list Z) : option command :=
  match l with
  | [] => None
  | (name, func) :: l => if decide (w = chars name) then Some func else find_command l w
  end.

(** What the monitor does with a word that names no command. *)
Definition not_found : command := fun argv tf => do! unknown_command (hd 0 argv) in ret (0, tf).

Lemma dispatch_finds l argv tf w s :
  Forall (fun nc : string * command => Forall (fun x => x <> 0) (chars nc.1)) l ->
  cstr (kmem s) (hd 0 argv) w ->
  dispatch l argv tf s = default not_found (find_command l w) argv tf s.
Proof.
  intros Hl Hc. induction l as [|[name func] l IH]; [done|]. apply Forall_cons_1 in Hl as [Hn Hl].
  cbn [dispatch find_command]. destruct (strcmp_lit_spec (chars name) Hn w (hd 0 argv) s Hc) as (r & E & Hr).
  rewrite (bind_ret _ _ _ _ _ E). destruct (Z.eqb_spec r 0) as [E0|Hne]; destruct (decide (w = chars name)) as [Hw|Hw].
  - done.
  - by apply Hr in E0.
  - by apply Hr in Hw.
  - by apply IH.
Qed.

(** ** Output that only prints *)

Definition prints {A} (m : K A) : Prop :=
  forall s, exists a con, m s = Ret a (set_cons con s) /\ out_only (cons s) con.

Lemma prints_ret {A} (a : A) : prints (ret a).
Proof. intros s. exists a, (cons s). split; [by destruct s|apply out_only_refl]. Qed.

Lemma prints_bind {A B} (m : K A) (k : A -> K B) : prints m -> (forall a, prints (k a)) -> prints (bind m k).
Proof.
  intros Hm Hk s. destruct (Hm s) as (a & con & E & H). destruct (Hk a (set_cons con s)) as (b & con2 & E2 & H2).
  exists b, con2. rewrite (bind_ret _ _ _ _ _ E). split; [exact E2|]. eapply out_only_trans; [exact H|exact H2].
Qed.

Lemma prints_kcprintf fmt ap out : output (chars fmt) ap = Some out -> prints (kcprintf fmt ap).
Proof.
  intros E s. exists 0, (puts kputch out (cons s)). split; [|apply puts_out].
  unfold kcprintf, kvcprintf. by rewrite vprintfmt_output, E.
Qed.

Lemma prints_kprintln fmt ap out :
  output (chars (String.append fmt newline)) ap = Some out -> prints (kprintln fmt ap).
Proof. intros E. apply prints_bind; [by eapply prints_kcprintf|]. intros. apply prints_ret. Qed.

Ltac printing := repeat match goal with
  | |- prints (ret _) => apply prints_ret
  | |- prints (kprintln _ _) => eapply prints_kprintln; reflexivity
  | |- prints (kcprintf _ _) => eapply prints_kcprintf; reflexivity
  | |- prints (bind _ _) => apply prints_bind; [|intros ?]
  | |- prints (if ?b then _ else _) => destruct b
  end.

Lemma prints_trapframe addr last va tf s : 0 <= cpunum s < NCPU ->
  exists con, print_trapframe addr last va tf s = Ret tt (set_cons con s) /\ out_only (cons s) con.
Proof.
  intros Hn. unfold print_trapframe. rewrite (bind_ret _ _ s (cpunum s) s) by done.
  match goal with |- exists con, ?m s = _ /\ _ =>
    assert (prints m) as H; [|by destruct (H s) as ([] & con & E & Ho); exists con] end.
  apply prints_bind; [|intros _; unfold print_regs; printing].
  unfold NCPU in Hn. assert (cpunum s ∈ seqZ 0 8) as Hin by (apply elem_of_seqZ; lia). revert Hin.
  generalize (cpunum s). apply Forall_forall. repeat apply Forall_cons_2; [..|apply Forall_nil_2];
    eapply prints_kprintln; reflexivity.
Qed.

Section run.

Context (start entry etext edata end_ STAB_BEGIN STAB_END STABSTR_BEGIN STABSTR_END read_ebp : Z).

Let cmds := commands start entry etext edata end_ STAB_BEGIN STAB_END STABSTR_BEGIN STABSTR_END read_ebp.
Let run := runcmd start entry etext edata end_ STAB_BEGIN STAB_END STABSTR_BEGIN STABSTR_END read_ebp.

(** The commands of the table have proper names. *)
Lemma commands_named : Forall (fun nc : string * command => Forall (fun x => x <> 0) (chars nc.1)) cmds.
Proof using.
  unfold cmds, commands. repeat apply Forall_cons_2; [..|apply Forall_nil_2];
    cbn [fst]; apply (bool_decide_unpack _); vm_compute; exact I.
Qed.

Lemma runcmd_spec p l tf s :
  cstr (kmem s) p l -> Z.of_nat (length l) < 1024 ->
  ((length (words l) <= 15)%nat -> exists argv m,
     (forall x, m (x - KERNBASE) = zap (kmem s) p (Z.of_nat (length l)) x)
     /\ Forall2 (cstr (kmem (set_phys m s))) argv (words l)
     /\ run p tf s = match words l with
                     | [] => Ret (0, tf) (set_phys m s)
                     | w :: _ => default not_found (find_command cmds w) argv tf (set_phys m s)
                     end)
  /\ ((15 < length (words l))%nat -> exists con m, run p tf s = Ret (0, tf) (with_io con m s)).
Proof using.
  intros Hc Hl. destruct (parse_args_spec (Z.to_nat BUFLEN) l [] p s Hc) as [Hok Hbad];
    [unfold BUFLEN; lia|cbn; lia|]. cbn [length app Nat.add] in Hok, Hbad.
  rewrite (words_lex p l), length_map in *. split.
  - intros Hle. destruct (Hok Hle) as (m & E & Hm). exists (map fst (lex p [] l)), m. split; [exact Hm|].
    assert (Forall2 (cstr (kmem (set_phys m s))) (map fst (lex p [] l)) (map snd (lex p [] l))) as H2.
    { rewrite Forall2_fmap_l, Forall2_fmap_r. apply Forall_Forall2_diag, Forall_forall. intros [q v] Hin.
      assert (cstr (zap (kmem s) p (Z.of_nat (length l))) q v) as Hz
        by (eapply lex_cstr; [..|exact Hin]; [cbn; lia|lia|done|done]).
      eapply cstr_ext; [|exact Hz]. intros x _. apply Hm. }
    split; [exact H2|]. unfold run, runcmd. rewrite (bind_ret _ _ _ _ _ E).
    destruct (lex p [] l) as [|[q w] ws]; [done|]. cbn [map fst snd] in *. apply Forall2_cons in H2 as [Hw _].
    by apply dispatch_finds; [apply commands_named|].
  - intros Hlt. destruct (Hbad Hlt) as (con & m & E). exists con, m. unfold run, runcmd.
    by rewrite (bind_ret _ _ _ _ _ E).
Qed.

(** [runcmd] runs the command the line names.  It splits the line at white
    space in place and turns nothing but white space into string ends; then, if
    there are at most 15 words, the first command of the table with the name of
    the first word runs with the words as its arguments, and an unknown name is
    reported.  An empty line and one with more words do nothing and return 0. *)
Theorem runcmd_dispatches (p : Z) (l : list Z) (tf : option Trapframe) (s : kstate) :
  cstr (kmem s) p l -> Z.of_nat (length l) < 1024 ->
  ((length (words l) <= 15)%nat -> exists argv m,
     (forall x, m (x - KERNBASE) = zap (kmem s) p (Z.of_nat (length l)) x)
     /\ Forall2 (cstr (kmem (set_phys m s))) argv (words l)
     /\ run p tf s = match words l with
                     | [] => Ret (0, tf) (set_phys m s)
                     | w :: _ => default not_found (find_command cmds w) argv tf (set_phys m s)
                     end)
  /\ ((15 < length (words l))%nat -> exists con m, run p tf s = Ret (0, tf) (with_io con m s)).
Proof using. apply runcmd_spec. Qed.

Section session.

Context (buf addr : Z) (last : bool) (fault_va : Z).

Let mon := monitor buf start entry etext edata end_ STAB_BEGIN STAB_END STABSTR_BEGIN STABSTR_END read_ebp
  addr last fault_va.
Let loop := monitor_loop buf start entry etext edata end_ STAB_BEGIN STAB_END STABSTR_BEGIN STABSTR_END read_ebp.

(** The line typed is [l], and its first word names [func]. *)
Context (nl : Z) (l rest w : list Z) (args : list (list Z)) (func : command).
Context (Hnl : nl = 10 \/ nl = 13) (Hl : Forall (fun c => c <> 0 /\ c <> 10 /\ c <> 13) l).
Context (Hw : words (edited l) = w :: args) (Hargs : (length args <= 14)%nat).
Context (Hf : find_command cmds w = Some func).

(** A line is read and its command runs, in a state that differs in the console
    and the line buffer only. *)
Lemma monitor_loop_runs fuel tf f s :
  line_in (cons s) f -> incoming (cons s) f = l ++ nl :: rest ->
  exists argv con m f',
    (forall a, ~ (buf - KERNBASE <= a < buf - KERNBASE + 1024) -> m a = phys s a)
    /\ line_in con f' /\ incoming con f' = rest
    /\ loop (S fuel) tf f s
       = bind (func argv tf) (fun r => if r.1 <? 0 then ret r.2 else loop fuel r.2 f') (with_io con m s).
Proof using Hnl Hl Hw Hargs Hf.
  intros Hin Hq.
  destruct (readline_spec buf nl l rest f s) as (con & m & o & f' & E & Hs & Hlb & Hm & Hin2 & Hq2 & _); [done..|].
  destruct (runcmd_spec buf (edited l) tf (with_io con m s)) as [H _]; [|lia|].
  { apply (cstr_move m _ _ (buf - KERNBASE)); [|exact Hs]. intros k _. unfold rd8, kmem. cbn.
    f_equal. f_equal. lia. }
  rewrite Hw in H. destruct H as (argv & m2 & Hm2 & _ & Er); [cbn; lia|]. rewrite Hf in Er. change (default not_found (Some func)) with func in Er.
  exists argv, con, m2, f'. split; [|split; [done|split; [done|]]].
  - intros a Ha. specialize (Hm2 (a + KERNBASE)). replace (a + KERNBASE - KERNBASE) with a in Hm2 by lia.
    rewrite Hm2, <- (Hm a Ha). unfold zap, kmem. cbn [phys with_io set_cons set_phys].
    replace (a + KERNBASE - KERNBASE) with a by lia.
    destruct (Z.leb_spec buf (a + KERNBASE)), (Z.ltb_spec (a + KERNBASE) (buf + Z.of_nat (length (edited l))));
      try done. lia.
  - unfold loop. cbn [monitor_loop]. rewrite (bind_ret _ _ _ _ _ E). fold run. unfold bind at 1. rewrite Er.
    change (set_phys m2 (with_io con m s)) with (with_io con m2 s). unfold bind.
    destruct (func argv tf (with_io con m2 s)) as [[r tf'] s'| | | | |]; done.
Qed.

Lemma prints_welcome : prints (kprintln "Welcome to the JOS kernel monitor!" [])
  /\ prints (kprintln "Type 'help' for a list of commands." []).
Proof using. split; eapply prints_kprintln; reflexivity. Qed.

(** The monitor greets, shows the frame if there is one, and runs the line. *)
Lemma monitor_runs tf f s :
  line_in (cons s) f -> incoming (cons s) f = l ++ nl :: rest -> 0 <= cpunum s < NCPU ->
  exists argv con m fuel f',
    (forall a, ~ (buf - KERNBASE <= a < buf - KERNBASE + 1024) -> m a = phys s a)
    /\ line_in con f' /\ incoming con f' = rest
    /\ mon f tf s = bind (func argv tf) (fun r => if r.1 <? 0 then ret r.2 else loop fuel r.2 f') (with_io con m s).
Proof using Hnl Hl Hw Hargs Hf.
  intros Hok Hq Hcpu. unfold mon, monitor. destruct prints_welcome as [W1 W2].
  destruct (W1 s) as ([] & c1 & E1 & O1). rewrite (bind_ret _ _ _ _ _ E1).
  destruct (W2 (set_cons c1 s)) as ([] & c2 & E2 & O2). rewrite (bind_ret _ _ _ _ _ E2).
  change (set_cons c2 (set_cons c1 s)) with (set_cons c2 s). cbn [cons set_cons] in O2.
  assert (exists c3, (match tf with Some t => print_trapframe addr last fault_va t | None => ret tt end) (set_cons c2 s)
      = Ret tt (set_cons c3 s) /\ out_only c2 c3) as (c3 & E3 & O3).
  { destruct tf as [t|]; [|exists c2; split; [done|apply out_only_refl]].
    destruct (prints_trapframe addr last fault_va t (set_cons c2 s)) as (c3 & E3 & O3); [done|by exists c3]. }
  rewrite (bind_ret _ _ _ _ _ E3).
  destruct (line_in_out (cons s) c3 f) as [Hin3 Hq3]; [by eapply out_only_trans; [exact O1|];
    eapply out_only_trans; [exact O2|exact O3]|done|].
  destruct (monitor_loop_runs (length f) tf f (set_cons c3 s)) as (argv & con & m & f' & Hm & Hin4 & Hq4 & E);
    [done|by etrans; [exact Hq3|]|].
  exists argv, con, m, (length f), f'. split; [exact Hm|]. split; [exact Hin4|]. split; [exact Hq4|]. exact E.
Qed.

End session.

(** The monitor resumes the interrupted program as it is told.  When the
    line typed at the console, as it stands after editing, begins with the word
    [continue] (or [singlestep]), [monitor] returns, the trap flag of the saved
    frame is cleared (or set) and nothing else of the frame changes, and of the
    memory only the line buffer does.  Entered without a frame, as from the
    scheduler and from [panic], the same commands follow a NULL pointer. *)
Theorem monitor_resumes (buf addr fault_va nl : Z) (last : bool) (l rest : list Z) (args : list (list Z))
    (step : bool) (f : feed) (tf : option Trapframe) (s : kstate) :
  line_in (cons s) f -> incoming (cons s) f = l ++ nl :: rest -> 0 <= cpunum s < NCPU -> nl = 10 \/ nl = 13 ->
  Forall (fun c => c <> 0 /\ c <> 10 /\ c <> 13) l ->
  words (edited l) = chars (if step then "singlestep" else "continue") :: args -> (length args <= 14)%nat ->
  exists con m f',
    monitor buf start entry etext edata end_ STAB_BEGIN STAB_END STABSTR_BEGIN STABSTR_END read_ebp
      addr last fault_va f tf s
    = match tf with
      | Some t => Ret (Some (set_tf_eflags (if step then Z.lor (tf_eflags t) FL_TF
                                            else Z.land (tf_eflags t) (Z.lnot FL_TF)) t)) (with_io con m s)
      | None => Undef "NULL trap frame" (with_io con m s)
      end
    /\ incoming con f' = rest
    /\ forall a, ~ (buf - KERNBASE <= a < buf - KERNBASE + 1024) -> m a = phys s a.
Proof using.
  intros Hin Hq Hcpu Hnl Hl Hw Hargs.
  destruct (monitor_runs buf addr last fault_va nl l rest _ args (if step then single_step else continue_exec)
    Hnl Hl Hw Hargs ltac:(by destruct step) tf f s Hin Hq Hcpu) as (argv & con & m & fuel & f' & Hm & _ & Hq2 & E).
  exists con, m, f'. split; [|done]. rewrite E. by destruct step, tf.
Qed.

End run.

(** A console on which [l] has been typed over the serial line. *)
Definition typed_console (l : list Z) : console :=
  mkConsole true l [] [] [] false (fun _ => 32) 0 0 (fun _ => 0) 0 0.

Definition typed_state (l : list Z) : kstate := set_cons (typed_console l) PageAlloc.PageAlloc.boot_state.

(** [contix], backspace, [nue], Enter. *)
Definition typed_line : list Z := chars "contix" ++ [8] ++ chars "nue".

(** [cont] waits and the rest comes in while the kernel polls. *)
Definition typed_feed : feed := [[]; chars "ix" ++ [0]; [8]; []; chars "nue" ++ [10]] ++ repeat [] 8.

Lemma typed_in : line_in (typed_console (chars "cont")) typed_feed.
Proof.
  split.
  - split; [unfold ring_ok, CONSBUFSIZE; cbn; lia|]. split; [done|]. split; [done|].
    apply (bool_decide_unpack _). vm_compute. exact I.
  - apply (bool_decide_unpack _). vm_compute. exact I.
  - vm_compute. repeat split; lia.
Qed.

Lemma typed_plain : Forall (fun c => c <> 0 /\ c <> 10 /\ c <> 13) typed_line.
Proof. apply (bool_decide_unpack _). vm_compute. exact I. Qed.

(** 1100 letters, one per poll, and Enter: the last 77 do not fit. *)
Definition long_line : list Z := repeat 120 1100.

Definition long_feed : feed := map (fun c => [c]) (long_line ++ [10]).

Lemma long_in : line_in (typed_console []) long_feed.
Proof.
  split.
  - split; [unfold ring_ok, CONSBUFSIZE; cbn; lia|]. split; [done|]. split; [done|constructor].
  - apply (bool_decide_unpack _). vm_compute. exact I.
  - assert (forall l, Forall (fun c => c <> 0) l -> paced 0 (map (fun c => [c]) l)) as H.
    { induction l as [|c l IH]; intros Hl; [done|]. apply Forall_cons_1 in Hl as [Hc Hl].
      assert (kept [c] = [c]) as Ek by (unfold kept; by rewrite filter_cons_True). cbn [map paced]. rewrite Ek.
      split; [cbn; lia|by apply IH]. }
    apply H. apply (bool_decide_unpack _). vm_compute. exact I.
Qed.

Lemma long_plain : Forall (fun c => c <> 0 /\ c <> 10 /\ c <> 13) long_line.
Proof. apply (bool_decide_unpack _). vm_compute. exact I. Qed.

Lemma readline_edits_witness :
  (exists con m f', readline 4026597376 (Some "K> "%string) typed_feed (typed_state (chars "cont"))
     = Ret (Some 4026597376, f') (with_io con m (typed_state (chars "cont")))
   /\ cstr m 65536 (chars "continue") /\ incoming con f' = [])
  /\ (exists con m f', readline 4026597376 (Some "K> "%string) long_feed (typed_state [])
     = Ret (Some 4026597376, f') (with_io con m (typed_state []))
   /\ cstr m 65536 (repeat 120 1023) /\ m 66560 = 0).
Proof.
  split.
  - destruct (readline_edits 4026597376 10 typed_line [] typed_feed (typed_state (chars "cont")))
      as (con & m & o & f' & E & Hc & _ & _ & _ & Hq & _).
    + exact typed_in.
    + vm_compute. reflexivity.
    + left. reflexivity.
    + exact typed_plain.
    + exists con, m, f'. split; [exact E|]. split; [exact Hc|exact Hq].
  - destruct (readline_edits 4026597376 10 long_line [] long_feed (typed_state []))
      as (con & m & o & f' & E & Hc & _ & Hm & _).
    + exact long_in.
    + vm_compute. reflexivity.
    + left. reflexivity.
    + exact long_plain.
    + exists con, m, f'. split; [exact E|]. split; [|rewrite Hm; [reflexivity|unfold KERNBASE; lia]].
      assert (edited long_line = repeat 120 1023) as Ed by (vm_compute; reflexivity). rewrite Ed in Hc. exact Hc.
Defined.

Lemma monitor_resumes_witness :
  exists con m, monitor 4026597376 0 0 0 0 0 0 0 0 0 0 0 true 0 typed_feed
      (Some (env_tf PageAlloc.PageAlloc.bare_env)) (typed_state (chars "cont"))
    = Ret (Some (env_tf PageAlloc.PageAlloc.bare_env)) (with_io con m (typed_state (chars "cont")))
  /\ m 100 = 0.
Proof.
  destruct (monitor_resumes 0 0 0 0 0 0 0 0 0 0 4026597376 0 0 10 true typed_line [] [] false typed_feed
    (Some (env_tf PageAlloc.PageAlloc.bare_env)) (typed_state (chars "cont"))) as (con & m & f' & E & _ & Hm).
  - exact typed_in.
  - vm_compute. reflexivity.
  - vm_compute. split; [discriminate|reflexivity].
  - left. reflexivity.
  - exact typed_plain.
  - vm_compute. reflexivity.
  - apply Nat.le_0_l.
  - exists con, m. split; [exact E|]. rewrite Hm; [reflexivity|]. unfold KERNBASE. lia.
Defined.

End Monitor.
