(* ===== verification/Mpconfig.v ===== *)
(** * Multiprocessor configuration (kern/mpconfig.c)

    At start-up the kernel searches the BIOS memory for the floating pointer
    structure, checks the configuration table it points to, and fills [cpus]
    from the table's entries.  The memory is the kernel's window on physical
    memory; the variables [ismp], [ncpu], [bootcpu] (an index) and [lapicaddr]
    are a record of their own, with the interrupt mode register that ports 0x22
    and 0x23 reach; [mp_init] takes the register's value at start-up.

    The theorems: the search returns the first structure with signature and
    checksum in its range; a table of well-formed entries gives the processors
    in order, at most [NCPU] of them; and a table whose boot processor is none
    of the first eight makes [mp_init] write past the array. *)

From stdpp Require Import base numbers list functions strings.
From Stdlib Require Import ZArith Lia.
From S2P Require Import Prelude Mem Mmu Console Kernel Printfmt Pmap PageAlloc Env Sched Syscall Trap Kdebug Monitor.

Open Scope Z_scope.
Open Scope jos_scope.

Module Mpconfig.

Import Printfmt Pmap Vm Trap Monitor.

Record mpg := mkMpg {
  ismp : bool;
  ncpu : Z;
  bootcpu : Z;
  lapicaddr : Z;
  imcr : Z
}.

Definition set_ismp (x : bool) (g : mpg) : mpg := mkMpg x (ncpu g) (bootcpu g) (lapicaddr g) (imcr g).

Definition set_ncpu (x : Z) (g : mpg) : mpg := mkMpg (ismp g) x (bootcpu g) (lapicaddr g) (imcr g).

Definition set_bootcpu (x : Z) (g : mpg) : mpg := mkMpg (ismp g) (ncpu g) x (lapicaddr g) (imcr g).

Definition set_lapicaddr (x : Z) (g : mpg) : mpg := mkMpg (ismp g) (ncpu g) (bootcpu g) x (imcr g).

(** [outb(0x22, 0x70); outb(0x23, inb(0x23) | 1)] *)
Definition mask_imcr (g : mpg) : mpg := mkMpg (ismp g) (ncpu g) (bootcpu g) (lapicaddr g) (Z.lor (imcr g) 1).

(** Offsets in [struct mp], 16 bytes, and in [struct mpconf]. *)
Definition sizeof_mp : Z := 16.

Definition mp_physaddr : Z := 4.

Definition mp_type : Z := 11.

Definition mp_imcrp : Z := 12.

Definition conf_length : Z := 4.

Definition conf_version : Z := 6.

Definition conf_entry : Z := 34.

Definition conf_lapicaddr : Z := 36.

Definition conf_xlength : Z := 40.

Definition conf_xchecksum : Z := 42.

Definition conf_entries : Z := 44.

(** Offsets in [struct mpproc], 20 bytes, and entry types. *)
Definition sizeof_mpproc : Z := 20.

Definition proc_apicid : Z := 1.

Definition proc_flags : Z := 3.

Definition MPPROC_BOOT : Z := 2.

Definition MPPROC : Z := 0.

Definition MPBUS : Z := 1.

Definition MPIOAPIC : Z := 2.

Definition MPIOINTR : Z := 3.

Definition MPLINTR : Z := 4.

Definition kload16 (a : Z) : K Z := gets (fun s => rd16 (phys s) (a - KERNBASE)).

Fixpoint sum_loop (n : nat) (a acc : Z) : K Z :=
  match n with
  | O => ret (u8 acc)
  | S n => let! b := kload8 a in sum_loop n (a + 1) (acc + b)
  end.

(** [int] is wide enough for the sum of 65535 bytes. *)
Definition sum (a len : Z) : K Z := sum_loop (Z.to_nat len) a 0.

(** [memcmp(a, l, 4) == 0] *)
Fixpoint bytes_are (l : list Z) (a : Z) : K bool :=
  match l with
  | [] => ret true
  | x :: l => let! b := kload8 a in if b =? x then bytes_are l (a + 1) else ret false
  end.

(** [for (; mp < end; mp++)] *)
Fixpoint mpsearch_loop (n : nat) (mp : Z) : K (option Z) :=
  match n with
  | O => ret None
  | S n =>
    let! sig := bytes_are (chars "_MP_") mp in
    let! ok := (if sig : bool then let! c := sum mp sizeof_mp in ret (c =? 0) else ret false) in
    if ok : bool then ret (Some mp) else mpsearch_loop n (mp + sizeof_mp)
  end.

Definition mpsearch1 (a len : Z) : K (option Z) :=
  let! mp := KADDR a in
  let! end_ := KADDR (u32 (a + len)) in
  mpsearch_loop (Z.to_nat ((end_ - mp + sizeof_mp - 1) / sizeof_mp)) mp.

Definition mpsearch : K (option Z) :=
  let! bda := KADDR (Z.shiftl 64 4) in
  let! p := kload16 (bda + 14) in
  let! mp :=
    (if negb (p =? 0) then mpsearch1 (Z.shiftl p 4) 1024
     else let! kb := kload16 (bda + 19) in mpsearch1 (u32 (kb * 1024 - 1024)) 1024) in
  match mp with
  | Some mp => ret (Some mp)
  | None => mpsearch1 983040 65536
  end.

(** [*pmp] and the table. *)
Definition mpconfig : K (option (Z * Z)) :=
  let! mp := mpsearch in
  match mp with
  | None => ret None
  | Some mp =>
    let! pa := kload32 (mp + mp_physaddr) in
    let! t := kload8 (mp + mp_type) in
    if (pa =? 0) || negb (t =? 0) then
      do! kprintln "SMP: Default configurations not implemented" [] in ret None
    else
      let! conf := KADDR pa in
      let! sig := bytes_are (chars "PCMP") conf in
      if negb sig then
        do! kprintln "SMP: Incorrect MP configuration table signature" [] in ret None
      else
        let! len := kload16 (conf + conf_length) in
        let! c := sum conf len in
        if negb (c =? 0) then do! kprintln "SMP: Bad MP configuration checksum" [] in ret None else
        let! version := kload8 (conf + conf_version) in
        if negb (version =? 1) && negb (version =? 4) then
          do! kprintln "SMP: Unsupported MP version %d" [AInt version] in ret None
        else
          let! xlen := kload16 (conf + conf_xlength) in
          let! c := sum (conf + len) xlen in
          let! x := kload8 (conf + conf_xchecksum) in
          if negb (Z.land (c + x) 255 =? 0) then
            do! kprintln "SMP: Bad MP configuration extended checksum" [] in ret None
          else ret (Some (mp, conf))
  end.

(** [cpus[i].f = ...] *)
Definition upd_cpu (i : Z) (f : CpuInfo -> CpuInfo) : K unit :=
  if (0 <=? i) && (i <? NCPU) then modify (fun s => set_cpus (<[i := f (cpus s i)]> (cpus s)) s)
  else undef "cpus: index out of bounds".

Definition set_cpu_id (x : Z) (c : CpuInfo) : CpuInfo :=
  mkCpuInfo x (cpu_status c) (cpu_env c) (ts_esp0 c) (ts_ss0 c).

Definition set_cpu_status (x : Z) (c : CpuInfo) : CpuInfo :=
  mkCpuInfo (cpu_id c) x (cpu_env c) (ts_esp0 c) (ts_ss0 c).

(** The loop over the entries; [n] are left. *)
Fixpoint mp_entries (n : nat) (p : Z) (g : mpg) : K mpg :=
  match n with
  | O => ret g
  | S n =>
    let! t := kload8 p in
    if t =? MPPROC then
      let! flags := kload8 (p + proc_flags) in
      let g := if flag flags MPPROC_BOOT then set_bootcpu (ncpu g) g else g in
      if ncpu g <? NCPU then
        do! upd_cpu (ncpu g) (set_cpu_id (ncpu g)) in
        mp_entries n (p + sizeof_mpproc) (set_ncpu (ncpu g + 1) g)
      else
        let! apicid := kload8 (p + proc_apicid) in
        do! kprintln "SMP: too many CPUs, CPU %d disabled" [AInt apicid] in
        mp_entries n (p + sizeof_mpproc) g
    else if (t =? MPBUS) || (t =? MPIOAPIC) || (t =? MPIOINTR) || (t =? MPLINTR) then
      mp_entries n (p + 8) g
    else
      do! kprintln "mpinit: unknown config type %x" [AInt t] in
      ret (set_ismp false g)
  end.

(** The variables start as zeros. *)
Definition mp_init (imcr0 : Z) : K mpg :=
  let g := mkMpg false 0 0 0 imcr0 in
  let! c := mpconfig in
  match c with
  | None => ret g
  | Some (mp, conf) =>
    let! la := kload32 (conf + conf_lapicaddr) in
    let! n := kload16 (conf + conf_entry) in
    let! g := mp_entries (Z.to_nat n) (conf + conf_entries) (set_lapicaddr la (set_ismp true g)) in
    do! upd_cpu (bootcpu g) (set_cpu_status CPU_STARTED) in
    if negb (ismp g) then
      do! kprintln "SMP: configuration not found, SMP disabled" [] in
      ret (set_lapicaddr 0 (set_ncpu 1 g))
    else
      let! id := gets (fun s => cpu_id (cpus s (bootcpu g))) in
      do! kprintln "SMP: CPU %d found %d CPU(s)" [AInt id; AInt (ncpu g)] in
      let! imcrp := kload8 (mp + mp_imcrp) in
      if negb (imcrp =? 0) then
        do! kprintln "SMP: Setting IMCR to switch from PIC mode to symmetric I/O mode" [] in
        ret (mask_imcr g)
      else ret g
  end.

(** ** The search *)

(** The sum of [n] bytes, and whether the bytes at [a] are [l]. *)
Fixpoint byte_sum (m : mem) (a : Z) (n : nat) : Z :=
  match n with O => 0 | S n => rd8 m a + byte_sum m (a + 1) n end.

Fixpoint has_bytes (m : mem) (a : Z) (l : list Z) : bool :=
  match l with [] => true | x :: l => (rd8 m a =? x) && has_bytes m (a + 1) l end.

(** A floating pointer structure: signature, and bytes that add up to 0. *)
Definition is_mp (m : mem) (a : Z) : bool :=
  has_bytes m a (chars "_MP_") && (byte_sum m a 16 mod 256 =? 0).

Lemma sum_loop_eq n s : forall a acc, sum_loop n a acc s = Ret (u8 (acc + byte_sum (kmem s) a n)) s.
Proof.
  induction n as [|n IH]; intros a acc; cbn [sum_loop byte_sum]; [by rewrite Z.add_0_r|].
  rewrite (bind_ret _ _ s (rd8 (kmem s) a) s) by done. by rewrite IH, Z.add_assoc.
Qed.

Lemma bytes_are_eq l s : forall a, bytes_are l a s = Ret (has_bytes (kmem s) a l) s.
Proof.
  induction l as [|x l IH]; intros a; cbn [bytes_are has_bytes]; [done|].
  rewrite (bind_ret _ _ s (rd8 (kmem s) a) s) by done. destruct (_ =? x); [apply IH|done].
Qed.

Lemma mpsearch_loop_first n s : forall mp,
  (exists k, 0 <= k < Z.of_nat n /\ is_mp (kmem s) (mp + 16 * k) = true
     /\ (forall j, 0 <= j < k -> is_mp (kmem s) (mp + 16 * j) = false)
     /\ mpsearch_loop n mp s = Ret (Some (mp + 16 * k)) s)
  \/ ((forall j, 0 <= j < Z.of_nat n -> is_mp (kmem s) (mp + 16 * j) = false) /\ mpsearch_loop n mp s = Ret None s).
Proof.
  induction n as [|n IH]; intros mp; [right; split; [lia|done]|]. cbn [mpsearch_loop].
  rewrite (bind_ret _ _ _ _ _ (bytes_are_eq _ s mp)).
  assert ((if has_bytes (kmem s) mp (chars "_MP_") then let! c := sum mp sizeof_mp in ret (c =? 0) else ret false) s
    = Ret (is_mp (kmem s) mp) s) as E.
  { unfold is_mp. destruct (has_bytes _ _ _); [|done]. unfold sum. rewrite (bind_ret _ _ _ _ _ (sum_loop_eq _ s mp 0)).
    by rewrite Z.add_0_l. }
  rewrite (bind_ret _ _ _ _ _ E). destruct (is_mp (kmem s) mp) eqn:Em.
  - left. exists 0. rewrite Z.mul_0_r, Z.add_0_r. split; [lia|]. split; [done|]. split; [lia|done].
  - destruct (IH (mp + sizeof_mp)) as [(k & Hk & Hm & Hf & E2)|[Hf E2]]; unfold sizeof_mp in *.
    + left. exists (k + 1). replace (mp + 16 * (k + 1)) with (mp + 16 + 16 * k) by lia.
      split; [lia|]. split; [done|]. split; [|done]. intros j Hj.
      destruct (decide (j = 0)) as [->|]; [by rewrite Z.mul_0_r, Z.add_0_r|].
      replace (mp + 16 * j) with (mp + 16 + 16 * (j - 1)) by lia. apply Hf. lia.
    + right. split; [|done]. intros j Hj. destruct (decide (j = 0)) as [->|]; [by rewrite Z.mul_0_r, Z.add_0_r|].
      replace (mp + 16 * j) with (mp + 16 + 16 * (j - 1)) by lia. apply Hf. lia.
Qed.

(** [mpsearch1] returns the first structure in its range, or NULL when there is
    none, and changes nothing. *)
Theorem mpsearch1_first a len s :
  0 <= a -> 0 <= len -> a + len < npages s * 4096 -> npages s <= 65536 ->
  let mp := a + KERNBASE in let n := (len + 15) / 16 in
  (exists k, 0 <= k < n /\ is_mp (kmem s) (mp + 16 * k) = true
     /\ (forall j, 0 <= j < k -> is_mp (kmem s) (mp + 16 * j) = false)
     /\ mpsearch1 a len s = Ret (Some (mp + 16 * k)) s)
  \/ ((forall j, 0 <= j < n -> is_mp (kmem s) (mp + 16 * j) = false) /\ mpsearch1 a len s = Ret None s).
Proof.
  intros Ha Hl Hfit Hnp mp n. unfold KERNBASE in *.
  assert (forall x, 0 <= x < npages s * 4096 -> KADDR x s = Ret (x + 4026531840) s) as HK.
  { intros x Hx. unfold KADDR, bind, gets, KERNBASE, PGNUM, ret. rewrite Z.geb_leb, (u32_id x) by lia.
    rewrite Z.shiftr_div_pow2 by done. change (2 ^ PTXSHIFT) with 4096.
    destruct (Z.leb_spec (npages s) (x / 4096)); [zdm|]. by rewrite u32_id by lia. }
  unfold mpsearch1. rewrite (bind_ret _ _ _ _ _ (HK a ltac:(lia))). rewrite (u32_id (a + len)) by lia.
  rewrite (bind_ret _ _ _ _ _ (HK (a + len) ltac:(lia))). unfold sizeof_mp. fold mp.
  replace (a + len + 4026531840 - mp + 16 - 1) with (len + 15) by (unfold mp; lia). fold n.
  pose proof (mpsearch_loop_first (Z.to_nat n) s mp) as H. rewrite Z2Nat.id in H by (unfold n; zdm). exact H.
Qed.

(** ** The table *)

(** An entry: a processor, with its flags, or something else of 8 bytes. *)
Inductive mpentry :=
| Processor (apicid flags : Z)
| Device (t : Z).

Fixpoint entries_at (m : mem) (p : Z) (es : list mpentry) : Prop :=
  match es with
  | [] => True
  | Processor a fl :: es => rd8 m p = 0 /\ rd8 m (p + 1) = a /\ rd8 m (p + 3) = fl /\ entries_at m (p + 20) es
  | Device t :: es => rd8 m p = t /\ 1 <= t <= 4 /\ entries_at m (p + 8) es
  end.

(** The processors in order, each with whether it started the machine. *)
Fixpoint processors (es : list mpentry) : list bool :=
  match es with
  | [] => []
  | Processor _ fl :: es => flag fl MPPROC_BOOT :: processors es
  | Device _ :: es => processors es
  end.

(** The number of the last processor that is marked, counted from [k]; [b] when
    none is. *)
Fixpoint last_boot (l : list bool) (k b : Z) : Z :=
  match l with
  | [] => b
  | x :: l => last_boot l (k + 1) (if x then k else b)
  end.

(** The processors from [lo] to [hi] have their numbers. *)
Definition numbered (lo hi : Z) (c c' : Z -> CpuInfo) : Prop :=
  forall i, c' i = if (lo <=? i) && (i <? hi) then set_cpu_id i (c i) else c i.

Lemma prints_disabled a : 0 <= a < 256 -> prints (kprintln "SMP: too many CPUs, CPU %d disabled" [AInt a]).
Proof.
  intros Ha. destruct (output_shape (chars (String.append "SMP: too many CPUs, CPU %d disabled" Sched.newline))
    [AInt 0] [AInt a]) as [out E]; [|by vm_compute; eauto|by eapply prints_kprintln].
  apply Forall2_cons. split; [|done]. split; [vm_compute; discriminate|]. rewrite i32_id by lia. lia.
Qed.

Ltac zcases := repeat match goal with
  | |- context [if ?a <? ?b then _ else 8] => destruct (Z.ltb_spec a b)
  end; repeat match goal with
  | |- context [?a <=? ?b] => destruct (Z.leb_spec a b)
  | |- context [?a <? ?b] => destruct (Z.ltb_spec a b)
  end; cbn [andb]; done || lia.

Lemma MIN_8 k : 0 <= k -> MIN k NCPU = if k <? 8 then k else 8.
Proof. unfold MIN, NCPU. intros. bcase; bcase; lia. Qed.

Lemma mp_entries_spec : forall es p k b g s, entries_at (kmem s) p es -> 0 <= k ->
  ncpu g = MIN k NCPU -> bootcpu g = MIN b NCPU ->
  let l := processors es in let k' := k + Z.of_nat (length l) in
  exists con cp, mp_entries (length es) p g s
      = Ret (mkMpg (ismp g) (MIN k' NCPU) (MIN (last_boot l k b) NCPU) (lapicaddr g) (imcr g)) (set_cpus cp (set_cons con s))
    /\ numbered (MIN k NCPU) (MIN k' NCPU) (cpus s) cp.
Proof.
  induction es as [|[a fl|t] es IH]; intros p k b g s He Hk Hn Hb; cbn [length mp_entries processors last_boot].
  - exists (cons s), (cpus s). rewrite Z.add_0_r, <- Hn, <- Hb. split; [by destruct g, s|].
    intros i. destruct (Z.leb_spec (ncpu g) i), (Z.ltb_spec i (ncpu g)); try done; lia.
  - destruct He as (H0 & H1 & H3 & He).
    rewrite (bind_ret _ _ s 0 s) by (unfold kload8, gets; change (rd8 (phys s) (p - KERNBASE)) with (rd8 (kmem s) p); by rewrite H0).
    cbn [Z.eqb MPPROC]. unfold proc_flags, proc_apicid, sizeof_mpproc.
    rewrite (bind_ret _ _ s fl s) by (unfold kload8, gets; change (rd8 (phys s) (p + 3 - KERNBASE)) with (rd8 (kmem s) (p + 3)); by rewrite H3).
    set (b' := if flag fl MPPROC_BOOT then k else b).
    set (g' := if flag fl MPPROC_BOOT then set_bootcpu (ncpu g) g else g).
    assert (ncpu g' = MIN k NCPU /\ bootcpu g' = MIN b' NCPU /\ ismp g' = ismp g /\ lapicaddr g' = lapicaddr g /\ imcr g' = imcr g)
      as (Hn' & Hb' & Hi & Hla & Him) by (unfold g', b'; destruct (flag fl MPPROC_BOOT); by rewrite ?Hn).
    rewrite Hn'. rewrite (MIN_8 k) in * by lia. rewrite Nat2Z.inj_succ.
    replace (k + Z.succ (Z.of_nat (length (processors es)))) with (k + 1 + Z.of_nat (length (processors es))) by lia.
    unfold NCPU at 1. destruct (Z.ltb_spec k 8) as [Hlt|Hge].
    + rewrite (proj2 (Z.ltb_lt k 8)) by done. set (s1 := set_cpus (<[k := set_cpu_id k (cpus s k)]> (cpus s)) s).
      rewrite (bind_ret _ _ s tt s1).
      2: { unfold upd_cpu, NCPU. rewrite (proj2 (Z.leb_le 0 k)), (proj2 (Z.ltb_lt k 8)) by lia. done. }
      destruct (IH (p + 20) (k + 1) b' (set_ncpu (k + 1) g') s1) as (con & cp & E & Hcp);
        [done|lia|cbn; rewrite MIN_8 by lia; bcase; lia|done|].
      exists con, cp. rewrite E. cbn [ismp set_ncpu lapicaddr imcr]. rewrite Hi, Hla, Him. split; [done|].
      intros i. rewrite Hcp. cbn [cpus set_cpus s1]. rewrite !MIN_8 by lia.
      destruct (decide (i = k)) as [->|Hne].
      * rewrite fn_lookup_insert.
        zcases.
      * rewrite fn_lookup_insert_ne by done. zcases.
    + change (8 <? 8) with false. cbv iota. rewrite (bind_ret _ _ s a s) by (unfold kload8, gets; change (rd8 (phys s) (p + 1 - KERNBASE)) with (rd8 (kmem s) (p + 1)); by rewrite H1).
      destruct (prints_disabled a ltac:(rewrite <- H1; apply rd8_range) s) as ([] & con1 & E1 & _).
      rewrite (bind_ret _ _ _ _ _ E1).
      destruct (IH (p + 20) (k + 1) b' g' (set_cons con1 s)) as (con & cp & E & Hcp);
        [done|lia|rewrite Hn', MIN_8 by lia; bcase; lia|done|].
      exists con, cp. rewrite E, Hi, Hla, Him. split; [done|]. intros i. rewrite Hcp. cbn [cpus set_cons].
      rewrite !MIN_8 by lia. zcases.
  - destruct He as (H0 & Ht & He).
    rewrite (bind_ret _ _ s t s) by (unfold kload8, gets; change (rd8 (phys s) (p - KERNBASE)) with (rd8 (kmem s) p); by rewrite H0).
    unfold MPPROC, MPBUS, MPIOAPIC, MPIOINTR, MPLINTR. rewrite (proj2 (Z.eqb_neq t 0)) by lia.
    assert ((t =? 1) || (t =? 2) || (t =? 3) || (t =? 4) = true) as -> by (rewrite !orb_true_iff, !Z.eqb_eq; lia).
    by apply IH.
Qed.

Lemma last_boot_range l : forall k b, last_boot l k b = b \/ k <= last_boot l k b < k + Z.of_nat (length l).
Proof.
  induction l as [|x l IH]; intros k b; cbn [last_boot length]; [by left|].
  destruct (IH (k + 1) (if x then k else b)) as [->|H]; [destruct x; [right; lia|by left]|right; lia].
Qed.

Lemma prints_found a b : 0 <= a < 8 -> 0 <= b <= 8 -> prints (kprintln "SMP: CPU %d found %d CPU(s)" [AInt a; AInt b]).
Proof.
  intros Ha Hb. destruct (output_shape (chars (String.append "SMP: CPU %d found %d CPU(s)" Sched.newline))
    [AInt 0; AInt 0] [AInt a; AInt b]) as [out E]; [|by vm_compute; eauto|by eapply prints_kprintln].
  repeat (apply Forall2_cons; split; [split; [vm_compute; discriminate|rewrite i32_id by lia; lia]|]). done.
Qed.

Lemma prints_imcr : prints (kprintln "SMP: Setting IMCR to switch from PIC mode to symmetric I/O mode" []).
Proof. eapply prints_kprintln. by vm_compute. Qed.

(** The end of [mp_init]: the marked processor is started. *)
Lemma mp_finish n b im mp la s : 0 <= n <= 8 -> 0 <= b < 8 -> cpu_id (cpus s b) = b ->
  exists con, (do! upd_cpu b (set_cpu_status CPU_STARTED) in
    let! id := gets (fun s => cpu_id (cpus s b)) in
    do! kprintln "SMP: CPU %d found %d CPU(s)" [AInt id; AInt n] in
    let! imcrp := kload8 (mp + mp_imcrp) in
    if negb (imcrp =? 0) then
      do! kprintln "SMP: Setting IMCR to switch from PIC mode to symmetric I/O mode" [] in
      ret (mask_imcr (mkMpg true n b la im))
    else ret (mkMpg true n b la im)) s
  = Ret (mkMpg true n b la (if rd8 (kmem s) (mp + mp_imcrp) =? 0 then im else Z.lor im 1))
      (set_cpus (<[b := set_cpu_status CPU_STARTED (cpus s b)]> (cpus s)) (set_cons con s)).
Proof.
  intros Hn Hb Hid. set (s3 := set_cpus (<[b := set_cpu_status CPU_STARTED (cpus s b)]> (cpus s)) s).
  rewrite (bind_ret _ _ s tt s3).
  2: { unfold upd_cpu, NCPU. rewrite (proj2 (Z.leb_le 0 b)), (proj2 (Z.ltb_lt b 8)) by lia. done. }
  rewrite (bind_ret _ _ s3 b s3) by (unfold gets; cbn [cpus set_cpus s3]; rewrite fn_lookup_insert; cbn; by rewrite Hid).
  destruct (prints_found b n Hb Hn s3) as ([] & con3 & E3 & _). rewrite (bind_ret _ _ _ _ _ E3).
  set (x := rd8 (kmem s) (mp + mp_imcrp)). rewrite (bind_ret _ _ (set_cons con3 s3) x (set_cons con3 s3)) by done.
  destruct (x =? 0); cbn [negb]; [by exists con3|].
  destruct (prints_imcr (set_cons con3 s3)) as ([] & con4 & E4 & _). rewrite (bind_ret _ _ _ _ _ E4). by exists con4.
Qed.

(** C31: [mp_init] fills the table of processors.  When the search has found a
    configuration table whose entries are processors and devices, the
    processors get the numbers 0, 1, ... in the order of the table, eight of
    them at most, [ncpu] is their number, and the one marked as the boot
    processor is started, the first one if none is marked; interrupts are
    switched to the local controllers when the structure says so.  When the
    mark is on a processor after the eighth the code writes to [cpus[8]], past
    the end of the array. *)
Theorem mp_init_detects (s s1 : kstate) (mp conf im : Z) (es : list mpentry) :
  mpconfig s = Ret (Some (mp, conf)) s1 ->
  rd16 (phys s1) (conf + conf_entry - KERNBASE) = Z.of_nat (length es) ->
  entries_at (kmem s1) (conf + conf_entries) es -> cpu_id (cpus s1 0) = 0 ->
  let l := processors es in
  let n := MIN (Z.of_nat (length l)) NCPU in
  let b := last_boot l 0 0 in
  (b < NCPU -> exists s2,
     mp_init im s = Ret (mkMpg true n b (rd32 (phys s1) (conf + conf_lapicaddr - KERNBASE))
       (if rd8 (kmem s1) (mp + mp_imcrp) =? 0 then im else Z.lor im 1)) s2
     /\ (forall i, 0 <= i < n -> cpu_id (cpus s2 i) = i) /\ cpu_status (cpus s2 b) = CPU_STARTED
     /\ phys s2 = phys s1)
  /\ (NCPU <= b -> exists s2, mp_init im s = Undef "cpus: index out of bounds" s2).
Proof.
  intros Ec En He Hz l n b. set (la := rd32 (phys s1) (conf + conf_lapicaddr - KERNBASE)).
  destruct (mp_entries_spec es (conf + conf_entries) 0 0 (mkMpg true 0 0 la im) s1 He ltac:(lia) eq_refl eq_refl)
    as (con & cp & E & Hcp). cbv zeta in E, Hcp. rewrite Z.add_0_l in E, Hcp. fold l n b in E, Hcp.
  change (MIN 0 NCPU) with 0 in Hcp. set (s2 := set_cpus cp (set_cons con s1)) in *.
  assert (0 <= b) as Hb0 by (destruct (last_boot_range l 0 0) as [H|H]; unfold b; lia).
  assert (0 <= n <= 8) as Hn by (unfold n; rewrite MIN_8 by lia; zcases).
  rewrite (MIN_8 b) in E by done. unfold mp_init. rewrite (bind_ret _ _ _ _ _ Ec), (bind_ret _ _ s1 la s1) by done.
  rewrite (bind_ret _ _ s1 (Z.of_nat (length es)) s1) by (unfold kload16, gets; by rewrite <- En).
  rewrite Nat2Z.id. unfold set_ismp, set_lapicaddr. cbn [ncpu bootcpu lapicaddr ismp imcr]. rewrite (bind_ret _ _ _ _ _ E).
  cbn [ncpu bootcpu lapicaddr ismp imcr negb]. unfold NCPU. split; intros Hb.
  - rewrite (proj2 (Z.ltb_lt b 8)) by done.
    assert (forall i, 0 <= i < n -> cpu_id (cpus s2 i) = i) as Hids.
    { intros i Hi. cbn [cpus set_cpus s2]. rewrite (Hcp i), (proj2 (Z.leb_le 0 i)), (proj2 (Z.ltb_lt i n)) by lia. done. }
    assert (cpu_id (cpus s2 b) = b) as Hid.
    { destruct (decide (b < n)) as [H|H]; [by apply Hids|]. cbn [cpus set_cpus s2]. rewrite (Hcp b).
      destruct (last_boot_range l 0 0) as [H0|H0]; fold b in H0.
      - rewrite H0, (proj2 (Z.ltb_ge 0 n)) by lia. by rewrite andb_false_r.
      - exfalso. apply H. unfold n. rewrite MIN_8 by lia. zcases. }
    destruct (mp_finish n b im mp la s2 Hn ltac:(lia) Hid) as [con3 ->]. eexists. split; [reflexivity|].
    cbn [cpus set_cpus set_cons]. split; [|by rewrite fn_lookup_insert].
    intros i Hi. destruct (decide (i = b)) as [->|]; [by rewrite fn_lookup_insert|rewrite fn_lookup_insert_ne by done; auto].
  - rewrite (proj2 (Z.ltb_ge b 8)) by done. eexists. reflexivity.
Qed.

(** A machine with two processors and a bus, started by the second processor:
    the structure in the extended BIOS data area at 0x9fc00, the table after it. *)
Definition bios_mp : list Z := chars "_MP_" ++ [64; 252; 9; 0; 1; 4; 219; 0; 128; 0; 0; 0].

Definition bios_conf : list Z :=
  chars "PCMP" ++ [92; 0; 4; 97] ++ replicate 26 0 ++ [3; 0; 0; 0; 224; 254; 0; 0; 0; 0]
  ++ [0; 0; 20; 1] ++ replicate 16 0 ++ [0; 1; 20; 3] ++ replicate 16 0 ++ [1] ++ replicate 7 0.

Definition bios_state : kstate :=
  set_phys (wrbytes (wrbytes (wrbytes (fun _ => 0) 1038 [192; 159]) 654336 bios_mp) 654400 bios_conf)
    PageAlloc.PageAlloc.boot_state.

Definition bios_entries : list mpentry := [Processor 0 1; Processor 1 3; Device 1].

Lemma bios_found : mpconfig bios_state = Ret (Some (654336 + KERNBASE, 654400 + KERNBASE)) bios_state.
Proof. unfold bios_state at 2. vm_compute. reflexivity. Qed.

Lemma mp_init_detects_witness : exists s,
  mp_init 0 bios_state = Ret (mkMpg true 2 1 4276092928 1) s
  /\ cpu_id (cpus s 1) = 1 /\ cpu_status (cpus s 1) = CPU_STARTED.
Proof.
  destruct (mp_init_detects bios_state bios_state (654336 + KERNBASE) (654400 + KERNBASE) 0 bios_entries) as [H _].
  - exact bios_found.
  - vm_compute. reflexivity.
  - vm_compute. repeat split; discriminate.
  - vm_compute. reflexivity.
  - destruct H as (s & E & Hid & Hst & _); [vm_compute; reflexivity|].
    exists s. split; [exact E|]. split; [apply Hid; vm_compute; split; [discriminate|reflexivity]|exact Hst].
Defined.

End Mpconfig.
