(* ===== verification/Umonad.v ===== *)
(** * Effects of user-level code

    The file server and the library run in user mode: a function returns,
    panics, or does something the C language gives no meaning to.  [M S A] is
    state passing over a state [S] of the component with these outcomes, and
    [wp] the weakest precondition that the proofs step through programs
    with. *)

From stdpp Require Import base numbers list strings.
From Stdlib Require Import ZArith Lia.
From S2P Require Import Prelude.

Open Scope Z_scope.

Inductive res (S A : Type) : Type :=
| Ok (a : A) (s : S)
| Panics (why : string) (s : S)
| Undefined (why : string) (s : S).

Arguments Ok {S A} _ _.
Arguments Panics {S A} _ _.
Arguments Undefined {S A} _ _.

Section monad.

Context {S : Type}.

Definition mret {A} (a : A) (s : S) : res S A := Ok a s.

Definition mbind {A B} (m : S -> res S A) (k : A -> S -> res S B) (s : S) : res S B :=
  match m s with
  | Ok a s' => k a s'
  | Panics w s' => Panics w s'
  | Undefined w s' => Undefined w s'
  end.

Definition mpanic {A} (why : string) (s : S) : res S A := Panics why s.

Definition mundef {A} (why : string) (s : S) : res S A := Undefined why s.

Definition mgets {A} (f : S -> A) (s : S) : res S A := Ok (f s) s.

Definition mmodify (f : S -> S) (s : S) : res S unit := Ok tt (f s).

(** [for (i = a; i < a + n; i++)] until the body returns a result. *)
Fixpoint mfor {R} (n : nat) (i : Z) (body : Z -> S -> res S (option R)) (s : S) : res S (option R) :=
  match n with
  | O => Ok None s
  | Datatypes.S n =>
    match body i s with
    | Ok None s' => mfor n (i + 1) body s'
    | r => r
    end
  end.

(** [m] returns from [s], and its result and final state satisfy [Q]. *)
Definition wp {A} (m : S -> res S A) (Q : A -> S -> Prop) (s : S) : Prop :=
  match m s with Ok a s' => Q a s' | _ => False end.

Lemma wp_ret {A} (a : A) Q s : Q a s -> wp (mret a) Q s.
Proof. done. Qed.

Lemma wp_bind {A B} (m : S -> res S A) (k : A -> S -> res S B) Q s :
  wp m (fun a s' => wp (k a) Q s') s -> wp (mbind m k) Q s.
Proof. unfold wp, mbind. by destruct (m s). Qed.

Lemma wp_gets {A} (f : S -> A) Q s : Q (f s) s -> wp (mgets f) Q s.
Proof. done. Qed.

Lemma wp_modify f (Q : unit -> S -> Prop) s : Q tt (f s) -> wp (mmodify f) Q s.
Proof. done. Qed.

Lemma wp_mono {A} (m : S -> res S A) (P Q : A -> S -> Prop) s :
  wp m P s -> (forall a s', P a s' -> Q a s') -> wp m Q s.
Proof. unfold wp. destruct (m s); auto. Qed.

Lemma wp_run {A} (m : S -> res S A) Q s :
  wp m Q s -> exists a s', m s = Ok a s' /\ Q a s'.
Proof. unfold wp. destruct (m s) as [a s'| |]; [by exists a, s'|done|done]. Qed.

Lemma wp_of {A} (m : S -> res S A) (Q : A -> S -> Prop) s a s' :
  m s = Ok a s' -> Q a s' -> wp m Q s.
Proof. unfold wp. by intros ->. Qed.

(** A loop without early exit keeps an invariant. *)
Lemma wp_mfor {R} n (body : Z -> S -> res S (option R)) (I : Z -> S -> Prop) Q : forall i s,
  I i s ->
  (forall j s, i <= j < i + Z.of_nat n -> I j s ->
     wp (body j) (fun r s' => match r with None => I (j + 1) s' | Some _ => Q r s' end) s) ->
  (forall s, I (i + Z.of_nat n) s -> Q None s) ->
  wp (mfor n i body) Q s.
Proof.
  induction n as [|n IH]; intros i s Hi Hb Hq.
  - unfold wp. cbn. apply Hq. by replace (i + Z.of_nat 0) with i by lia.
  - unfold wp. cbn [mfor]. specialize (Hb i s ltac:(lia) Hi) as H1. unfold wp in H1.
    destruct (body i s) as [[r|] s'| |]; [done| |done|done].
    apply (IH (i + 1) s'); [done| |].
    + intros j s2 Hj. apply Hb. lia.
    + intros s2. replace (i + 1 + Z.of_nat n) with (i + Z.of_nat (Datatypes.S n)) by lia. apply Hq.
Qed.

End monad.

Abbreviation M S A := (S -> res S A) (only parsing).

Declare Scope usr_scope.
Delimit Scope usr_scope with usr.

Notation "'let!' x ':=' m 'in' k" := (mbind m (fun x => k))
  (at level 10, x binder, m at level 100, k at level 200) : usr_scope.
Notation "'do!' m 'in' k" := (mbind m (fun _ => k))
  (at level 10, m at level 100, k at level 200) : usr_scope.

(** Step to the first action of the program. *)
Ltac wstep := first [apply wp_bind | apply wp_ret | apply wp_gets | apply wp_modify].
