(* ===== verification/Pci.v ===== *)
(** * The PCI bus (kern/pci.c, kern/pcireg.h)

    Configuration space is a function from the word written to the address port
    to a register.  Of each register the hardware lets some bits be written; the
    mask of these bits is a parameter.  Messages and the call of the network
    driver (E1000.v, whose initialisation always returns 1) are recorded in
    order.  A bridge is scanned by a call of [pci_scan_bus] inside another, so
    the fuel of [pci_scan_bus] is the depth of the tree of busses.

    The theorems: the address port names each register once; the probe of a
    function's address registers finds their bases and sizes and leaves them as
    they were; and [pci_init] finds what a walk over the tree of busses finds,
    if every bridge leads to a bus with a higher number. *)

From stdpp Require Import base numbers list functions strings.
From Stdlib Require Import ZArith Lia.
From S2P Require Import Prelude Mem Mmu Kernel Umonad.

Open Scope Z_scope.
Open Scope usr_scope.

Module Pci.

(** ** Registers *)

Definition PCI_ID_REG : Z := 0.

Definition PCI_VENDOR (id : Z) : Z := Z.land (Z.shiftr id 0) 65535.

Definition PCI_PRODUCT (id : Z) : Z := Z.land (Z.shiftr id 16) 65535.

Definition PCI_COMMAND_STATUS_REG : Z := 4.

Definition PCI_COMMAND_ENABLE : Z := Z.lor (Z.lor 1 2) 4.

Definition PCI_CLASS_REG : Z := 8.

Definition PCI_CLASS (cr : Z) : Z := Z.land (Z.shiftr cr 24) 255.

Definition PCI_SUBCLASS (cr : Z) : Z := Z.land (Z.shiftr cr 16) 255.

Definition PCI_CLASS_BRIDGE : Z := 6.

Definition PCI_SUBCLASS_BRIDGE_PCI : Z := 4.

Definition PCI_BHLC_REG : Z := 12.

Definition PCI_HDRTYPE (bhlcr : Z) : Z := Z.land (Z.shiftr bhlcr 16) 255.

Definition PCI_HDRTYPE_TYPE (bhlcr : Z) : Z := Z.land (PCI_HDRTYPE bhlcr) 127.

Definition PCI_HDRTYPE_MULTIFN (bhlcr : Z) : bool := negb (Z.land (PCI_HDRTYPE bhlcr) 128 =? 0).

Definition PCI_INTERRUPT_REG : Z := 60.

Definition PCI_INTERRUPT_LINE (icr : Z) : Z := Z.land (Z.shiftr icr 0) 255.

Definition PCI_BRIDGE_BUS_REG : Z := 24.

Definition PCI_BRIDGE_STATIO_REG : Z := 28.

Definition PCI_BRIDGE_IO_32BITS (reg : Z) : bool := Z.land reg 15 =? 1.

Definition PCI_MAPREG_START : Z := 16.

Definition PCI_MAPREG_NUM (offset : Z) : Z := (offset - PCI_MAPREG_START) / 4.

Definition PCI_MAPREG_TYPE (mr : Z) : Z := Z.land mr 1.

Definition PCI_MAPREG_MEM_TYPE (mr : Z) : Z := Z.land mr 6.

Definition PCI_MAPREG_MEM_ADDR (mr : Z) : Z := Z.land mr 4294967280.

(** [x & -x] on 32 bits. *)
Definition PCI_MAPREG_MEM_SIZE (mr : Z) : Z := Z.land (PCI_MAPREG_MEM_ADDR mr) (u32 (- PCI_MAPREG_MEM_ADDR mr)).

Definition PCI_MAPREG_IO_ADDR (mr : Z) : Z := Z.land mr 4294967292.

Definition PCI_MAPREG_IO_SIZE (mr : Z) : Z := Z.land (PCI_MAPREG_IO_ADDR mr) (u32 (- PCI_MAPREG_IO_ADDR mr)).

(** ** State *)

Record pci_func := mkPciFunc {
  bus : Z;
  dev : Z;
  func : Z;
  dev_id : Z;
  dev_class : Z;
  reg_base : Z -> Z;
  reg_size : Z -> Z;
  irq_line : Z
}.

Definition set_reg (n base size : Z) (f : pci_func) : pci_func :=
  mkPciFunc (bus f) (dev f) (func f) (dev_id f) (dev_class f) (<[n := base]> (reg_base f)) (<[n := size]> (reg_size f)) (irq_line f).

Inductive event :=
| Cprintf (fmt : string) (args : list Z)
| E1000_init (base size : Z).

Record pci := mkPci {
  conf : Z -> Z;
  port : Z;
  log : list event
}.

Definition say (e : event) : M pci unit := mmodify (fun s => mkPci (conf s) (port s) (log s ++ [e])).

Lemma mod4_add a w : a mod 4 = 0 -> w = 8 \/ w = 4 -> (a + w) mod 4 = 0.
Proof. intros H [-> | ->]; zdm. Qed.

Section pci.

(** The bits of a register that can be written. *)
Context (wmask : Z -> Z).

(** ** Access *)

Definition conf_addr (b d f off : Z) : Z :=
  Z.lor (Z.lor (Z.lor (Z.lor (Z.shiftl 1 31) (Z.shiftl b 16)) (Z.shiftl d 11)) (Z.shiftl f 8)) off.

Definition pci_conf1_set_addr (b d f off : Z) : M pci unit :=
  if negb (b <? 256) then mpanic "assertion failed: bus < 256"
  else if negb (d <? 32) then mpanic "assertion failed: dev < 32"
  else if negb (f <? 8) then mpanic "assertion failed: func < 8"
  else if negb (off <? 256) then mpanic "assertion failed: offset < 256"
  else if negb (Z.land off 3 =? 0) then mpanic "assertion failed: (offset & 0x3) == 0"
  else mmodify (fun s => mkPci (conf s) (u32 (conf_addr b d f off)) (log s)).

Definition pci_conf_read (f : pci_func) (off : Z) : M pci Z :=
  do! pci_conf1_set_addr (bus f) (dev f) (func f) off in
  mgets (fun s => conf s (port s)).

(** The hardware's side of a write. *)
Definition merge (mask old v : Z) : Z := Z.lor (Z.land v mask) (Z.land old (Z.lnot mask)).

Definition pci_conf_write (f : pci_func) (off v : Z) : M pci unit :=
  do! pci_conf1_set_addr (bus f) (dev f) (func f) off in
  mmodify (fun s => mkPci (<[port s := merge (wmask (port s)) (conf s (port s)) v]> (conf s)) (port s) (log s)).

(** ** Functions *)

(** The loop over the registers, [bar] being the next one. *)
Fixpoint enable_loop (n : nat) (bar : Z) (f : pci_func) : M pci pci_func :=
  match n with
  | O => mret f
  | S n =>
    if negb (bar <? 40) then mret f
    else
      let! oldv := pci_conf_read f bar in
      do! pci_conf_write f bar 4294967295 in
      let! rv := pci_conf_read f bar in
      if rv =? 0 then enable_loop n (bar + 4) f
      else
        let regnum := PCI_MAPREG_NUM bar in
        let mem := PCI_MAPREG_TYPE rv =? 0 in
        let bar_width := if mem && (PCI_MAPREG_MEM_TYPE rv =? 4) then 8 else 4 in
        let size := if mem then PCI_MAPREG_MEM_SIZE rv else PCI_MAPREG_IO_SIZE rv in
        let base := if mem then PCI_MAPREG_MEM_ADDR oldv else PCI_MAPREG_IO_ADDR oldv in
        do! pci_conf_write f bar oldv in
        let f := set_reg regnum base size f in
        do! (if negb (size =? 0) && (base =? 0) then
               say (Cprintf "PCI device %02x:%02x.%d (%04x:%04x) may be misconfigured: region %d: base 0x%x, size %d"
                 [bus f; dev f; func f; PCI_VENDOR (dev_id f); PCI_PRODUCT (dev_id f); regnum; base; size])
             else mret tt) in
        enable_loop n (bar + bar_width) f
  end.

Definition pci_func_enable (f : pci_func) : M pci pci_func :=
  do! pci_conf_write f PCI_COMMAND_STATUS_REG PCI_COMMAND_ENABLE in
  let! f := enable_loop 6 PCI_MAPREG_START f in
  do! say (Cprintf "PCI function %02x:%02x.%d (%04x:%04x) enabled"
        [bus f; dev f; func f; PCI_VENDOR (dev_id f); PCI_PRODUCT (dev_id f)]) in
  mret f.

Definition pci_network_attach (f : pci_func) : M pci Z :=
  let! f := pci_func_enable f in
  do! say (E1000_init (reg_base f 0) (reg_size f 0)) in
  mret 1.

(** ** Drivers *)

Inductive attachfn :=
| bridge_attach
| network_attach.

Record pci_driver := mkPciDriver { key1 : Z; key2 : Z; fn : attachfn }.

Definition pci_attach_class : list pci_driver := [mkPciDriver PCI_CLASS_BRIDGE PCI_SUBCLASS_BRIDGE_PCI bridge_attach].

Definition pci_attach_vendor : list pci_driver := [mkPciDriver 32902 4110 network_attach].

Section scan.

(** [pci_scan_bus], for the busses behind bridges. *)
Context (scan : Z -> M pci Z).

Definition pci_bridge_attach (f : pci_func) : M pci Z :=
  let! ioreg := pci_conf_read f PCI_BRIDGE_STATIO_REG in
  let! busreg := pci_conf_read f PCI_BRIDGE_BUS_REG in
  if PCI_BRIDGE_IO_32BITS ioreg then
    do! say (Cprintf "PCI: %02x:%02x.%d: 32-bit bridge IO not supported." [bus f; dev f; func f]) in
    mret 0
  else
    let nbus := Z.land (Z.shiftr busreg 8) 255 in
    do! say (Cprintf "PCI: %02x:%02x.%d: bridge to PCI bus %d--%d"
          [bus f; dev f; func f; nbus; Z.land (Z.shiftr busreg 16) 255]) in
    let! _ := scan nbus in
    mret 1.

Definition attach (a : attachfn) (f : pci_func) : M pci Z :=
  match a with bridge_attach => pci_bridge_attach f | network_attach => pci_network_attach f end.

Fixpoint pci_attach_match (k1 k2 : Z) (l : list pci_driver) (f : pci_func) : M pci Z :=
  match l with
  | [] => mret 0
  | d :: l =>
    if (key1 d =? k1) && (key2 d =? k2) then
      let! r := attach (fn d) f in
      if r >? 0 then mret r
      else
        do! (if r <? 0 then say (Cprintf "pci_attach_match: attaching %x.%x (%p): e" [k1; k2; r]) else mret tt) in
        pci_attach_match k1 k2 l f
    else pci_attach_match k1 k2 l f
  end.

Definition pci_attach (f : pci_func) : M pci bool :=
  let! r := pci_attach_match (PCI_CLASS (dev_class f)) (PCI_SUBCLASS (dev_class f)) pci_attach_class f in
  if negb (r =? 0) then mret true
  else
    let! r := pci_attach_match (PCI_VENDOR (dev_id f)) (PCI_PRODUCT (dev_id f)) pci_attach_vendor f in
    mret (negb (r =? 0)).

(** The string of the class is given by its index in [pci_class]. *)
Definition pci_print_func (f : pci_func) : M pci unit :=
  let c := PCI_CLASS (dev_class f) in
  say (Cprintf "PCI: %02x:%02x.%d: %04x:%04x: class: %x.%x (%s) irq: %d"
    [bus f; dev f; func f; PCI_VENDOR (dev_id f); PCI_PRODUCT (dev_id f); c; PCI_SUBCLASS (dev_class f);
     (if c <? 7 then c else 0); irq_line f]).

(** The functions of a device, from [fu] on. *)
Fixpoint scan_funcs (n : nat) (b d fu : Z) : M pci unit :=
  match n with
  | O => mret tt
  | S n =>
    let f := mkPciFunc b d fu 0 0 (fun _ => 0) (fun _ => 0) 0 in
    let! id := pci_conf_read f PCI_ID_REG in
    do! (if PCI_VENDOR id =? 65535 then mret tt
         else
           let! intr := pci_conf_read f PCI_INTERRUPT_REG in
           let! class := pci_conf_read f PCI_CLASS_REG in
           let af := mkPciFunc b d fu id class (fun _ => 0) (fun _ => 0) (PCI_INTERRUPT_LINE intr) in
           do! pci_print_func af in
           let! _ := pci_attach af in
           mret tt) in
    scan_funcs n b d (fu + 1)
  end.

(** The devices of a bus, from [d] on; the number found. *)
Fixpoint scan_devs (n : nat) (b d total : Z) : M pci Z :=
  match n with
  | O => mret total
  | S n =>
    let! bhlc := pci_conf_read (mkPciFunc b d 0 0 0 (fun _ => 0) (fun _ => 0) 0) PCI_BHLC_REG in
    if PCI_HDRTYPE_TYPE bhlc >? 1 then scan_devs n b (d + 1) total
    else
      do! scan_funcs (if PCI_HDRTYPE_MULTIFN bhlc then 8 else 1) b d 0 in
      scan_devs n b (d + 1) (total + 1)
  end.

End scan.

Fixpoint pci_scan_bus (fuel : nat) (b : Z) : M pci Z :=
  match fuel with
  | O => mundef "pci_scan_bus: recursion"
  | S fuel => scan_devs (pci_scan_bus fuel) 32 b 0 0
  end.

Definition pci_init (fuel : nat) : M pci Z := pci_scan_bus fuel 0.

(** ** The address port *)

Definition valid (b d f off : Z) : Prop :=
  0 <= b < 256 /\ 0 <= d < 32 /\ 0 <= f < 8 /\ 0 <= off < 256 /\ Z.land off 3 = 0.

Lemma conf_addr_eq b d f off : valid b d f off ->
  u32 (conf_addr b d f off) = 2147483648 + 65536 * b + 2048 * d + 256 * f + off.
Proof.
  intros (Hb & Hd & Hf & Ho & _). unfold conf_addr. rewrite !Z.shiftl_mul_pow2 by done.
  rewrite (lor_disjoint_add 1 31 (b * 2 ^ 16)) by lia.
  replace (1 * 2 ^ 31 + b * 2 ^ 16) with ((32768 + b) * 2 ^ 16) by lia. rewrite (lor_disjoint_add _ 16 (d * 2 ^ 11)) by lia.
  replace ((32768 + b) * 2 ^ 16 + d * 2 ^ 11) with ((1048576 + 32 * b + d) * 2 ^ 11) by lia.
  rewrite (lor_disjoint_add _ 11 (f * 2 ^ 8)) by lia.
  replace ((1048576 + 32 * b + d) * 2 ^ 11 + f * 2 ^ 8) with ((8388608 + 256 * b + 8 * d + f) * 2 ^ 8) by lia.
  rewrite (lor_disjoint_add _ 8 off) by lia. rewrite u32_id by lia. lia.
Qed.

(** Each register has an address of its own. *)
Lemma conf_addr_inj b d f off b' d' f' off' : valid b d f off -> valid b' d' f' off' ->
  u32 (conf_addr b d f off) = u32 (conf_addr b' d' f' off') -> b = b' /\ d = d' /\ f = f' /\ off = off'.
Proof. intros H H'. rewrite !conf_addr_eq by done. destruct H as (? & ? & ? & ? & _), H' as (? & ? & ? & ? & _). lia. Qed.

(** The address of a register of [f]. *)
Definition at_ (f : pci_func) (off : Z) : Z := u32 (conf_addr (bus f) (dev f) (func f) off).

Definition fvalid (f : pci_func) : Prop := 0 <= bus f < 256 /\ 0 <= dev f < 32 /\ 0 <= func f < 8.

Definition reg_ok (off : Z) : Prop := 0 <= off < 256 /\ Z.land off 3 = 0.

Lemma set_addr_ok f off s : fvalid f -> reg_ok off ->
  pci_conf1_set_addr (bus f) (dev f) (func f) off s = Ok tt (mkPci (conf s) (at_ f off) (log s)).
Proof.
  intros (Hb & Hd & Hf) (Ho & Ha). unfold pci_conf1_set_addr.
  rewrite (proj2 (Z.ltb_lt _ 256)), (proj2 (Z.ltb_lt _ 32)), (proj2 (Z.ltb_lt _ 8)), (proj2 (Z.ltb_lt _ 256)), Ha by lia. done.
Qed.

Lemma conf_read_ok f off s : fvalid f -> reg_ok off ->
  pci_conf_read f off s = Ok (conf s (at_ f off)) (mkPci (conf s) (at_ f off) (log s)).
Proof. intros Hf Ho. unfold pci_conf_read, mbind. by rewrite set_addr_ok. Qed.

Lemma conf_write_ok f off v s : fvalid f -> reg_ok off ->
  pci_conf_write f off v s = Ok tt (mkPci (<[at_ f off := merge (wmask (at_ f off)) (conf s (at_ f off)) v]> (conf s)) (at_ f off) (log s)).
Proof. intros Hf Ho. unfold pci_conf_write, mbind. by rewrite set_addr_ok. Qed.

(** ** The probe of an address register *)

Lemma merge_twice mask old v : merge mask (merge mask old v) old = old.
Proof.
  unfold merge. apply Z.bits_inj'. intros n Hn. rewrite !Z.lor_spec, !Z.land_spec, !Z.lor_spec, !Z.land_spec, Z.lnot_spec by done.
  by destruct (Z.testbit old n), (Z.testbit mask n), (Z.testbit v n).
Qed.

(** A register that reads as 0 after ones have been written is not there. *)
Lemma merge_ones_0 mask old : 0 <= mask < 4294967296 -> merge mask old 4294967295 = 0 -> old = 0.
Proof.
  unfold merge. intros Hm H. apply Z.lor_eq_0_iff in H as [H1 H2].
  change 4294967295 with (Z.ones 32) in H1. rewrite Z.land_comm, Z.land_ones, Z.mod_small in H1 by lia. subst mask.
  change (Z.lnot 0) with (-1) in H2. by rewrite Z.land_m1_r in H2.
Qed.

Definition readback (mask old : Z) : Z := merge mask old 4294967295.

Definition is_mem (rv : Z) : bool := PCI_MAPREG_TYPE rv =? 0.

(** The size and the base that are found, and the next register. *)
Definition bar_size (mask old : Z) : Z :=
  let rv := readback mask old in if is_mem rv then PCI_MAPREG_MEM_SIZE rv else PCI_MAPREG_IO_SIZE rv.

Definition bar_base (mask old : Z) : Z :=
  if is_mem (readback mask old) then PCI_MAPREG_MEM_ADDR old else PCI_MAPREG_IO_ADDR old.

Definition bar_width (mask old : Z) : Z :=
  let rv := readback mask old in if negb (rv =? 0) && is_mem rv && (PCI_MAPREG_MEM_TYPE rv =? 4) then 8 else 4.

(** What the probe finds, over the registers [c] with masks [k] of the function. *)
Fixpoint probe (n : nat) (bar : Z) (c k : Z -> Z) (f : pci_func) : pci_func :=
  match n with
  | O => f
  | S n =>
    if negb (bar <? 40) then f
    else probe n (bar + bar_width (k bar) (c bar)) c k
      (if readback (k bar) (c bar) =? 0 then f
       else set_reg (PCI_MAPREG_NUM bar) (bar_base (k bar) (c bar)) (bar_size (k bar) (c bar)) f)
  end.

Lemma probe_same c c' k : (forall o, 16 <= o < 40 -> o mod 4 = 0 -> c' o = c o) ->
  forall n bar f, 16 <= bar -> bar mod 4 = 0 -> probe n bar c' k f = probe n bar c k f.
Proof using .
  intros H n. induction n as [|n IH]; intros bar f Hb H4; cbn [probe]; [done|].
  destruct (Z.ltb_spec bar 40); cbn [negb]; [|done]. rewrite H by (done || lia).
  assert (bar_width (k bar) (c bar) = 8 \/ bar_width (k bar) (c bar) = 4) as Hw
    by (unfold bar_width; destruct (_ && _); auto).
  apply IH; [lia|]. by apply mod4_add.
Qed.

Lemma probe_ext c c' k : (forall o, c' o = c o) -> forall n bar f, probe n bar c' k f = probe n bar c k f.
Proof. intros H n. induction n as [|n IH]; intros bar f; cbn [probe]; [done|]. rewrite H. destruct (bar <? 40); [|done]. apply IH. Qed.

(** A line about a function that was found, and a call of the driver. *)
Definition found_line : string := "PCI: %02x:%02x.%d: %04x:%04x: class: %x.%x (%s) irq: %d".

Inductive item :=
| Found (b d f : Z)
| Driver (base size : Z).

Definition seen (e : event) : list item :=
  match e with
  | Cprintf fmt (b :: d :: f :: _) => if String.eqb fmt found_line then [Found b d f] else []
  | Cprintf _ _ => []
  | E1000_init base size => [Driver base size]
  end.

(** Other messages. *)
Definition quiet (evs : list event) : Prop := concat (map seen evs) = [].

Lemma quiet_app l k : quiet l -> quiet k -> quiet (l ++ k).
Proof. unfold quiet. rewrite !map_app, !concat_app. by intros -> ->. Qed.

Context (Hmask : forall x, 0 <= wmask x < 4294967296).

Lemma enable_loop_probes n : forall bar f s, fvalid f -> 0 <= bar -> bar mod 4 = 0 ->
  exists s' evs, enable_loop n bar f s
      = Ok (probe n bar (fun o => conf s (at_ f o)) (fun o => wmask (at_ f o)) f) s'
    /\ (forall x, conf s' x = conf s x) /\ log s' = log s ++ evs /\ quiet evs.
Proof using Hmask.
  induction n as [|n IH]; intros bar f s Hf Hb H4; cbn [enable_loop probe]; [by exists s, []; rewrite app_nil_r|].
  destruct (Z.ltb_spec bar 40) as [Hlt|]; cbn [negb]; [|by exists s, []; rewrite app_nil_r].
  assert (reg_ok bar) as Ho.
  { split; [lia|]. change 3 with (Z.ones 2). by rewrite Z.land_ones. }
  set (a := at_ f bar). set (old := conf s a). unfold mbind at 1. rewrite conf_read_ok by done. fold a old.
  unfold mbind at 1. rewrite conf_write_ok by done. fold a. cbn [conf log]. fold old (readback (wmask a) old).
  unfold mbind at 1. rewrite conf_read_ok by done. fold a. cbn [conf log]. rewrite fn_lookup_insert.
  set (rv := readback (wmask a) old). destruct (Z.eqb_spec rv 0) as [E0|Hne].
  - assert (old = 0) as Eold by (apply (merge_ones_0 (wmask a)); [apply Hmask|exact E0]).
    replace (bar_width (wmask a) old) with 4 by (unfold bar_width; fold rv; by rewrite E0).
    destruct (IH (bar + 4) f (mkPci (<[a := rv]> (conf s)) a (log s)) Hf ltac:(lia) ltac:(zdm)) as (s' & evs & E & Hc & Hl & Hq).
    assert (forall x, (<[a := rv]> (conf s)) x = conf s x) as Hcs.
    { intros x. destruct (decide (x = a)) as [->|]; [rewrite fn_lookup_insert; fold old; congruence|by rewrite fn_lookup_insert_ne]. }
    exists s', evs. rewrite E. cbn [conf log] in *. rewrite (probe_ext (fun o => conf s (at_ f o))) by (intros o; apply Hcs).
    split; [done|]. split; [intros x; by rewrite Hc|done].
  - cbv zeta. fold (is_mem rv). set (size := if is_mem rv then PCI_MAPREG_MEM_SIZE rv else PCI_MAPREG_IO_SIZE rv).
    set (base := if is_mem rv then PCI_MAPREG_MEM_ADDR old else PCI_MAPREG_IO_ADDR old).
    unfold mbind at 1. rewrite conf_write_ok by done. fold a. cbn [conf log]. rewrite fn_lookup_insert.
    assert (merge (wmask a) rv old = old) as -> by apply merge_twice.
    set (f' := set_reg (PCI_MAPREG_NUM bar) base size f). set (c := <[a := old]> _).
    assert (forall x, c x = conf s x) as Hcs.
    { intros x. unfold c. destruct (decide (x = a)) as [->|]; [by rewrite fn_lookup_insert|by rewrite !fn_lookup_insert_ne]. }
    assert (exists ev, (if negb (size =? 0) && (base =? 0) then
               say (Cprintf "PCI device %02x:%02x.%d (%04x:%04x) may be misconfigured: region %d: base 0x%x, size %d"
                 [bus f'; dev f'; func f'; PCI_VENDOR (dev_id f'); PCI_PRODUCT (dev_id f'); PCI_MAPREG_NUM bar; base; size])
             else mret tt) (mkPci c a (log s)) = Ok tt (mkPci c a (log s ++ ev)) /\ quiet ev) as (ev & Ev & Hev).
    { destruct (_ && _); [by eexists [_]|exists []; by rewrite app_nil_r]. }
    unfold mbind. rewrite Ev.
    set (w := if is_mem rv && (PCI_MAPREG_MEM_TYPE rv =? 4) then 8 else 4).
    assert (bar_width (wmask a) old = w) as -> by (unfold bar_width; fold rv; rewrite (proj2 (Z.eqb_neq rv 0)) by done; done).
    assert (w = 8 \/ w = 4) as Hw by (unfold w; destruct (is_mem rv && _); auto).
    destruct (IH (bar + w) f' (mkPci c a (log s ++ ev)) Hf ltac:(lia) ltac:(clearbody w; zdm)) as (s' & evs & E & Hc & Hl & Hq).
    exists s', (ev ++ evs). rewrite E. cbn [conf log] in *. rewrite (probe_ext (fun o => conf s (at_ f' o))) by (intros o; apply Hcs).
    split; [done|]. split; [intros x; by rewrite Hc|]. split; [by rewrite Hl, app_assoc|by apply quiet_app].
Qed.

(** ** Sizes *)

(** The mask of a region of [2 ^ j] bytes. *)
Definition region_mask (j : Z) : Z := 4294967296 - 2 ^ j.

Lemma region_mask_bits j n : 0 <= j <= 32 -> 0 <= n -> Z.testbit (region_mask j) n = (j <=? n) && (n <? 32).
Proof using .
  intros Hj Hn. unfold region_mask. replace (4294967296 - 2 ^ j) with (Z.shiftl (Z.ones (32 - j)) j).
  - rewrite Z.shiftl_spec by done. destruct (Z.leb_spec j n); cbn [andb].
    + rewrite Z.testbit_ones_nonneg by lia. destruct (Z.ltb_spec (n - j) (32 - j)), (Z.ltb_spec n 32); try lia; done.
    + apply Z.testbit_neg_r. lia.
  - rewrite Z.shiftl_mul_pow2, Z.ones_equiv by lia. change 4294967296 with (2 ^ 32).
    replace (2 ^ 32) with (2 ^ (32 - j) * 2 ^ j) by (rewrite <- Z.pow_add_r by lia; f_equal; lia). lia.
Qed.

Lemma high_bits x n : 0 <= x < 4294967296 -> 32 <= n -> Z.testbit x n = false.
Proof using .
  intros Hx Hn. destruct (decide (x = 0)) as [->|]; [apply Z.bits_0|]. apply Z.bits_above_log2; [lia|].
  apply Z.log2_lt_pow2; [lia|]. pose proof (Z.pow_le_mono_r 2 32 n). lia.
Qed.

Lemma land_region x j : 0 <= x < 4294967296 -> 0 <= j <= 32 -> Z.land x (region_mask j) = x - x mod 2 ^ j.
Proof using .
  intros Hx Hj. assert (Z.land x (region_mask j) = Z.shiftl (Z.shiftr x j) j) as ->.
  - apply Z.bits_inj'. intros n Hn. rewrite Z.land_spec, region_mask_bits, Z.shiftl_spec by done.
    destruct (Z.leb_spec j n); cbn [andb]; [|rewrite andb_false_r; symmetry; apply Z.testbit_neg_r; lia].
    rewrite Z.shiftr_spec by lia. replace (n - j + j) with n by lia.
    destruct (Z.ltb_spec n 32); [apply andb_true_r|]. rewrite high_bits by done. done.
  - rewrite Z.shiftl_mul_pow2, Z.shiftr_div_pow2 by lia. pose proof (Z.pow_pos_nonneg 2 j). zdm.
Qed.

Lemma land_region_not x j : 0 <= x < 4294967296 -> 0 <= j <= 32 -> Z.land x (Z.lnot (region_mask j)) = x mod 2 ^ j.
Proof using .
  intros Hx Hj. apply Z.bits_inj'. intros n Hn. rewrite Z.land_spec, Z.lnot_spec, region_mask_bits by done.
  destruct (Z.leb_spec j n); cbn [andb].
  - rewrite Z.mod_pow2_bits_high by lia. destruct (Z.ltb_spec n 32); [apply andb_false_r|]. by rewrite high_bits.
  - rewrite Z.mod_pow2_bits_low by lia. apply andb_true_r.
Qed.

(** What a region at [base] with the type bits [t] reads back as. *)
Lemma readback_region base t j : 0 <= base < 4294967296 -> base mod 2 ^ j = 0 -> 2 <= j < 32 -> 0 <= t < 2 ^ j ->
  readback (region_mask j) (base + t) = region_mask j + t.
Proof using .
  intros Hb Hm Hj Ht. assert (0 < 2 ^ j) as Hp by (apply Z.pow_pos_nonneg; lia).
  assert (4294967296 = 2 ^ (32 - j) * 2 ^ j) as E32 by (rewrite <- Z.pow_add_r by lia; by replace (32 - j + j) with 32 by lia).
  assert (base + t < 4294967296) as Hlt.
  { assert (base = base / 2 ^ j * 2 ^ j) as Eb by zdm. assert (base / 2 ^ j < 2 ^ (32 - j)) by (apply Z.div_lt_upper_bound; lia). nia. }
  unfold readback, merge. rewrite land_region_not by lia.
  change 4294967295 with (Z.ones 32). rewrite Z.land_comm, Z.land_ones by lia. change (2 ^ 32) with 4294967296.
  assert (0 <= region_mask j < 4294967296) as Hr by (unfold region_mask; pose proof (Z.pow_le_mono_r 2 j 32); lia).
  rewrite (Z.mod_small (region_mask j)) by done.
  replace ((base + t) mod 2 ^ j) with t
    by (rewrite <- Z.add_mod_idemp_l, Hm, Z.add_0_l, Z.mod_small by lia; done).
  unfold region_mask. rewrite E32 at 1. replace (2 ^ (32 - j) * 2 ^ j - 2 ^ j) with ((2 ^ (32 - j) - 1) * 2 ^ j) by lia.
  rewrite lor_disjoint_add by lia. lia.
Qed.

(** [x & -x] is the size. *)
Lemma low_bit_region j : 2 <= j < 32 -> Z.land (region_mask j) (u32 (- region_mask j)) = 2 ^ j.
Proof using .
  intros Hj. assert (0 < 2 ^ j < 4294967296) as Hp by (split; [apply Z.pow_pos_nonneg; lia|change 4294967296 with (2 ^ 32); apply Z.pow_lt_mono_r; lia]).
  assert (u32 (- region_mask j) = 2 ^ j) as ->.
  { unfold region_mask, u32. replace (- (4294967296 - 2 ^ j)) with (2 ^ j + (-1) * 4294967296) by lia.
    rewrite Z.mod_add by done. apply Z.mod_small. lia. }
  rewrite Z.land_comm, land_region by lia. rewrite Z.mod_same by lia. lia.
Qed.

(** The regions of a function: an address register that is not there, memory
    with type bits [t] or ports, at [base] and of [2 ^ j] bytes. *)
Inductive region :=
| NoBar
| MemBar (t base j : Z)
| IoBar (base j : Z).

Definition region_width (r : region) : Z :=
  match r with MemBar t _ _ => if Z.land t 6 =? 4 then 8 else 4 | _ => 4 end.

Definition region_at (c k : Z) (r : region) : Prop :=
  match r with
  | NoBar => c = 0 /\ k = 0
  | MemBar t base j => t ∈ [0; 4; 8; 12] /\ 4 <= j < 32 /\ 0 <= base < 4294967296 /\ base mod 2 ^ j = 0
      /\ c = base + t /\ k = region_mask j
  | IoBar base j => 2 <= j < 32 /\ 0 <= base < 4294967296 /\ base mod 2 ^ j = 0 /\ c = base + 1 /\ k = region_mask j
  end.

Fixpoint regions_at (c k : Z -> Z) (off : Z) (l : list region) : Prop :=
  match l with
  | [] => 40 <= off
  | r :: l => off < 40 /\ region_at (c off) (k off) r /\ regions_at c k (off + region_width r) l
  end.

(** What the code is to record of them. *)
Definition record (off : Z) (r : region) (f : pci_func) : pci_func :=
  match r with
  | NoBar => f
  | MemBar _ base j | IoBar base j => set_reg (PCI_MAPREG_NUM off) base (2 ^ j) f
  end.

Fixpoint recorded (off : Z) (l : list region) (f : pci_func) : pci_func :=
  match l with [] => f | r :: l => recorded (off + region_width r) l (record off r f) end.

Lemma low_bits x t m : x mod 16 = t -> Z.land 15 m = m -> Z.land x m = Z.land t m.
Proof using .
  intros <- <-. change 16 with (2 ^ 4). rewrite <- Z.land_ones by done. change (Z.ones 4) with 15.
  rewrite <- !Z.land_assoc. f_equal. rewrite Z.land_assoc. done.
Qed.

(** The register of a region of [2 ^ j] bytes, with type bits [t]. *)
Lemma region_reads base t j n : n = 2 \/ n = 4 -> n <= j < 32 -> 0 <= base < 4294967296 -> base mod 2 ^ j = 0 -> 0 <= t < 2 ^ n ->
  let rv := readback (region_mask j) (base + t) in
  rv <> 0 /\ rv mod 2 ^ n = t /\ Z.land rv (region_mask n) = region_mask j /\ Z.land (base + t) (region_mask n) = base.
Proof using .
  intros Hn Hj Hb Hm Ht rv. assert (2 ^ j = 2 ^ (j - n) * 2 ^ n) as Eq by (rewrite <- Z.pow_add_r by lia; f_equal; lia).
  assert (0 < 2 ^ (j - n)) as Hq by (apply Z.pow_pos_nonneg; lia). assert (0 < 2 ^ n <= 16) as Hp by (destruct Hn as [-> | ->]; done).
  assert (2 ^ j < 4294967296) as Hlt by (change 4294967296 with (2 ^ 32); apply Z.pow_lt_mono_r; lia).
  assert (rv = region_mask j + t) as -> by (apply readback_region; try done; try lia; nia).
  assert (4294967296 = 2 ^ (32 - j) * 2 ^ j) as E32 by (rewrite <- Z.pow_add_r by lia; by replace (32 - j + j) with 32 by lia).
  assert (0 < 2 ^ (32 - j)) as H32 by (apply Z.pow_pos_nonneg; lia).
  assert (region_mask j = (2 ^ (32 - j) - 1) * 2 ^ (j - n) * 2 ^ n) as Er by (unfold region_mask; rewrite E32, Eq; ring).
  assert (region_mask j mod 2 ^ n = 0) as Hr0 by (rewrite Er; apply Z.mod_mul; lia).
  assert (base mod 2 ^ n = 0) as Hb0.
  { apply Z.mod_divide in Hm as [z ->]; [|lia]. rewrite Eq, Z.mul_assoc. apply Z.mod_mul. lia. }
  assert (forall x, x mod 2 ^ n = 0 -> (x + t) mod 2 ^ n = t) as Hadd.
  { intros x Hx. rewrite <- Z.add_mod_idemp_l, Hx, Z.add_0_l by lia. apply Z.mod_small. lia. }
  assert (base + t < 4294967296) as Hbt.
  { assert (base = base / 2 ^ j * 2 ^ j) as Eb by zdm. assert (base / 2 ^ j < 2 ^ (32 - j)) by (apply Z.div_lt_upper_bound; lia). nia. }
  assert (region_mask j + t < 4294967296) by (unfold region_mask; nia).
  split; [unfold region_mask; lia|]. split; [by apply Hadd|]. rewrite !land_region by (unfold region_mask in *; lia). rewrite !Hadd by done. lia.
Qed.

(** The probe of one register. *)
Lemma region_probe c k r off f : region_at c k r ->
  bar_width k c = region_width r
  /\ (if readback k c =? 0 then f else set_reg (PCI_MAPREG_NUM off) (bar_base k c) (bar_size k c) f) = record off r f.
Proof using .
  destruct r as [|t base j|base j]; cbn [region_at region_width record].
  - intros [-> ->]. done.
  - intros (Ht & Hj & Hb & Hm & -> & ->).
    assert (t = 0 \/ t = 4 \/ t = 8 \/ t = 12) as Ht' by (rewrite !elem_of_cons, elem_of_nil in Ht; tauto).
    destruct (region_reads base t j 4) as (H0 & Hlow & Hr & Hbase); [tauto|lia|done|done|change (2 ^ 4) with 16; lia|].
    unfold bar_width, bar_base, bar_size, is_mem, PCI_MAPREG_TYPE, PCI_MAPREG_MEM_TYPE, PCI_MAPREG_MEM_SIZE, PCI_MAPREG_MEM_ADDR.
    change 4294967280 with (region_mask 4). change (2 ^ 4) with 16 in Hlow. rewrite (proj2 (Z.eqb_neq _ 0)) by done.
    rewrite !(low_bits _ t 1) by done. rewrite (low_bits _ t 6) by done. rewrite Hr, Hbase, low_bit_region by lia.
    destruct Ht' as [-> | [-> | [-> | ->]]]; done.
  - intros (Hj & Hb & Hm & -> & ->).
    destruct (region_reads base 1 j 2) as (H0 & Hlow & Hr & Hbase); [tauto|lia|done|done|done|].
    unfold bar_width, bar_base, bar_size, is_mem, PCI_MAPREG_TYPE, PCI_MAPREG_IO_SIZE, PCI_MAPREG_IO_ADDR.
    change 4294967292 with (region_mask 2). rewrite (proj2 (Z.eqb_neq _ 0)) by done.
    assert (Z.land (readback (region_mask j) (base + 1)) 1 = 1) as ->.
    { pose proof (Z.land_ones (readback (region_mask j) (base + 1)) 1 ltac:(done)) as E1. change (Z.ones 1) with 1 in E1.
      rewrite E1. change (2 ^ 1) with 2. change (2 ^ 2) with 4 in Hlow. zdm. }
    cbn [Z.eqb]. rewrite Hr, Hbase, low_bit_region by lia. done.
Qed.

Lemma probe_regions c k l : forall n off f, regions_at c k off l -> 40 <= off + 4 * Z.of_nat n ->
  probe n off c k f = recorded off l f.
Proof using .
  induction l as [|r l IH]; intros n off f Hl Hn; cbn [regions_at recorded] in *.
  - destruct n as [|n]; [done|]. cbn [probe]. by rewrite (proj2 (Z.ltb_ge off 40)).
  - destruct Hl as (Hlt & Hr & Hl). destruct n as [|n]; [lia|]. cbn [probe]. rewrite (proj2 (Z.ltb_lt off 40)) by done.
    destruct (region_probe _ _ _ off f Hr) as [-> ->]. apply IH; [done|]. destruct r as [|t ? ?|]; cbn; try lia. destruct (_ =? 4); lia.
Qed.

(** ** Enabling a function *)

Definition enabled (f : pci_func) (s : pci) : Z -> Z :=
  <[at_ f 4 := merge (wmask (at_ f 4)) (conf s (at_ f 4)) 7]> (conf s).

Lemma enable_runs f s : fvalid f ->
  exists s' evs, pci_func_enable f s
      = Ok (probe 6 16 (fun o => enabled f s (at_ f o)) (fun o => wmask (at_ f o)) f) s'
    /\ (forall x, conf s' x = enabled f s x) /\ log s' = log s ++ evs /\ quiet evs.
Proof using Hmask.
  intros Hf. unfold pci_func_enable. unfold mbind at 1. change PCI_COMMAND_STATUS_REG with 4. change PCI_COMMAND_ENABLE with 7.
  rewrite conf_write_ok by done. fold (enabled f s).
  destruct (enable_loop_probes 6 16 f (mkPci (enabled f s) (at_ f 4) (log s)) Hf ltac:(lia) ltac:(done)) as (s' & evs & E & Hc & Hl & Hq).
  cbn [conf log] in *. unfold mbind, say, mmodify, mret. change PCI_MAPREG_START with 16. rewrite E.
  eexists _, (evs ++ [_]). split; [reflexivity|]. cbn [conf log]. split; [done|]. split; [by rewrite Hl, app_assoc|].
  by apply quiet_app.
Qed.

Lemma at_inj f o o' : fvalid f -> reg_ok o -> reg_ok o' -> at_ f o = at_ f o' -> o = o'.
Proof using . intros (? & ? & ?) [] [] E. apply conf_addr_inj in E; [tauto|by split|by split]. Qed.

Lemma regions_ext c c' k l : (forall o, 16 <= o < 40 -> o mod 4 = 0 -> c' o = c o) -> forall off, 16 <= off -> off mod 4 = 0 ->
  regions_at c k off l -> regions_at c' k off l.
Proof using .
  intros H. induction l as [|r l IH]; intros off Ho H4; cbn [regions_at]; [done|]. intros (Hlt & Hr & Hl).
  split; [done|]. rewrite H by (done || lia). split; [done|].
  assert (region_width r = 4 \/ region_width r = 8) as Hw by (destruct r; cbn; try tauto; destruct (_ =? 4); tauto).
  apply IH; [lia|zdm|done].
Qed.

Lemma recorded_same l : forall off f, bus (recorded off l f) = bus f /\ dev (recorded off l f) = dev f /\ func (recorded off l f) = func f.
Proof using .
  induction l as [|r l IH]; intros off f; cbn [recorded]; [done|].
  destruct (IH (off + region_width r) (record off r f)) as (-> & -> & ->). by destruct r.
Qed.

(** The function is enabled and its regions are known. *)
Lemma enable_records f s l : fvalid f -> regions_at (fun o => conf s (at_ f o)) (fun o => wmask (at_ f o)) 16 l ->
  exists s' evs, pci_func_enable f s = Ok (recorded 16 l f) s'
    /\ (forall x, conf s' x = enabled f s x) /\ log s' = log s ++ evs /\ quiet evs.
Proof using Hmask.
  intros Hf Hl. destruct (enable_runs f s Hf) as (s' & evs & E & H). exists s', evs. rewrite E. split; [|exact H].
  do 2 f_equal. apply probe_regions; [|lia]. eapply regions_ext; [|done|done|exact Hl]. intros o Ho H4. cbv beta.
  unfold enabled. rewrite fn_lookup_insert_ne; [done|]. intros Ex. apply at_inj in Ex; [lia|done| |].
  - split; [lia|done].
  - split; [lia|]. change 3 with (Z.ones 2). by rewrite Z.land_ones.
Qed.

End pci.

(** ** The tree of busses *)

(** The functions among what is reported and called. *)
Definition founds (t : list item) : list (Z * Z * Z) :=
  concat (map (fun i => match i with Found b d f => [(b, d, f)] | Driver _ _ => [] end) t).

Lemma founds_in t b d f : (b, d, f) ∈ founds t <-> Found b d f ∈ t.
Proof.
  unfold founds. rewrite !list_elem_of_In, in_concat. setoid_rewrite in_map_iff. split.
  - intros (l & ([b' d' f'|] & <- & Hin) & H); [|done]. by destruct H as [[= -> -> ->]|[]].
  - intros H. exists [(b, d, f)]. split; [by exists (Found b d f)|by left].
Qed.

Lemma founds_concat {A} (g : A -> list item) l : founds (concat (map g l)) = concat (map (fun x => founds (g x)) l).
Proof.
  unfold founds. induction l as [|x l IH]; cbn [map concat]; [done|]. by rewrite map_app, concat_app, IH.
Qed.

Lemma NoDup_concat_map {A B} (g : A -> list B) l : NoDup l -> (forall x, x ∈ l -> NoDup (g x)) ->
  (forall x y z, x ∈ l -> y ∈ l -> z ∈ g x -> z ∈ g y -> x = y) -> NoDup (concat (map g l)).
Proof.
  induction l as [|x l IH]; cbn [map concat]; intros Hl Hg Hd; [constructor|]. apply NoDup_cons in Hl as [Hx Hl].
  apply NoDup_app. split; [apply Hg; by left|]. split.
  - intros z Hz Hz'. apply list_elem_of_In, in_concat in Hz' as (k & Hk & Hz'). apply in_map_iff in Hk as (y & <- & Hy).
    apply list_elem_of_In in Hy, Hz'. assert (x = y) as -> by (eapply (Hd x y z); [by left|by right|done|done]). done.
  - apply IH; [done|intros y Hy; apply Hg; by right|]. intros y y' z Hy Hy'. apply Hd; by right.
Qed.

Section tree.

Context (wmask : Z -> Z) (Hmask : forall x, 0 <= wmask x < 4294967296).

(** The registers as they are at first. *)
Context (c0 : Z -> Z).

Definition reg (b d f off : Z) : Z := c0 (u32 (conf_addr b d f off)).

Definition device_here (b d : Z) : bool := negb (PCI_HDRTYPE_TYPE (reg b d 0 12) >? 1).

Definition present (b d f : Z) : bool := negb (PCI_VENDOR (reg b d f 0) =? 65535).

Definition functions (b d : Z) : list Z :=
  if device_here b d then List.filter (present b d) (seqZ 0 (if PCI_HDRTYPE_MULTIFN (reg b d 0 12) then 8 else 1)) else [].

Definition is_bridge (b d f : Z) : bool :=
  (PCI_CLASS (reg b d f 8) =? 6) && (PCI_SUBCLASS (reg b d f 8) =? 4) && negb (PCI_BRIDGE_IO_32BITS (reg b d f 28)).

Definition secondary (b d f : Z) : Z := Z.land (Z.shiftr (reg b d f 24) 8) 255.

Definition is_net (b d f : Z) : bool :=
  negb (is_bridge b d f) && (PCI_VENDOR (reg b d f 0) =? 32902) && (PCI_PRODUCT (reg b d f 0) =? 4110).

(** The function that [pci_scan_bus] hands to the drivers. *)
Definition the_func (b d f : Z) : pci_func :=
  mkPciFunc b d f (reg b d f 0) (reg b d f 8) (fun _ => 0) (fun _ => 0) (PCI_INTERRUPT_LINE (reg b d f 60)).

(** The call of the driver for a card, with the first region that the probe of
    its registers finds. *)
Definition card (b d f : Z) : item :=
  let g := probe 6 16 (reg b d f) (fun o => wmask (u32 (conf_addr b d f o))) (the_func b d f) in
  Driver (reg_base g 0) (reg_size g 0).

(** The functions of bus [b] and of the busses behind its bridges, in order, each
    network card followed by the call of its driver. *)
Fixpoint walk (fuel : nat) (b : Z) : list item :=
  match fuel with
  | O => []
  | S fuel => concat (map (fun d => concat (map (fun f =>
      Found b d f :: if is_bridge b d f then walk fuel (secondary b d f)
                     else if is_net b d f then [card b d f] else []) (functions b d))) (seqZ 0 32))
  end.

(** All registers but the command registers are as at first. *)
Definition agree (s : pci) : Prop :=
  forall b d f off, valid b d f off -> off <> 4 -> conf s (u32 (conf_addr b d f off)) = reg b d f off.

(** [m] reports and calls what [t] lists and returns a value with [P]. *)
Definition does {A} (m : M pci A) (t : list item) (P : A -> Prop) : Prop :=
  forall s, agree s -> exists a s' evs, m s = Ok a s' /\ P a /\ agree s' /\ log s' = log s ++ evs
    /\ concat (map seen evs) = t.

Lemma does_bind {A B} (m : M pci A) (k : A -> M pci B) t1 t2 t P Q :
  does m t1 P -> t = t1 ++ t2 -> (forall a, P a -> does (k a) t2 Q) -> does (mbind m k) t Q.
Proof using .
  intros Hm -> Hk s Hs. destruct (Hm s Hs) as (a & s1 & e1 & E1 & Pa & Hs1 & Hl1 & <-).
  destruct (Hk a Pa s1 Hs1) as (b & s2 & e2 & E2 & Qb & Hs2 & Hl2 & <-).
  exists b, s2, (e1 ++ e2). unfold mbind. rewrite E1. split; [done|]. split; [done|]. split; [done|].
  split; [by rewrite Hl2, Hl1, app_assoc|]. by rewrite map_app, concat_app.
Qed.

Lemma does_ret {A} (a : A) (P : A -> Prop) : P a -> does (mret a) [] P.
Proof using . intros Ha s Hs. exists a, s, []. by rewrite app_nil_r. Qed.

Lemma does_say e : does (say e) (seen e) (fun _ => True).
Proof using . intros s Hs. eexists tt, _, [e]. split; [reflexivity|]. cbn. by rewrite app_nil_r. Qed.

Lemma does_read f off : fvalid f -> reg_ok off -> off <> 4 ->
  does (pci_conf_read f off) [] (eq (reg (bus f) (dev f) (func f) off)).
Proof using .
  intros Hf Ho H4 s Hs. rewrite conf_read_ok by done. eexists _, _, []. split; [reflexivity|].
  destruct Hf as (? & ? & ?), Ho as [? ?]. split; [symmetry; apply Hs; done|]. cbn [log]. by rewrite app_nil_r.
Qed.

Lemma does_net b d f : fvalid (the_func b d f) -> does (pci_network_attach wmask (the_func b d f)) [card b d f] (eq 1).
Proof using Hmask.
  intros Hf s Hs. set (g := the_func b d f) in *. destruct (enable_runs wmask Hmask g s Hf) as (s1 & evs & E & Hc & Hl & Hq).
  rewrite (probe_same (reg b d f)) in E; [|intros o Ho H4|lia|done].
  2: { unfold enabled. destruct Hf as (? & ? & ?).
    assert (valid b d f o) as Hv.
    { split; [done|]. split; [done|]. split; [done|]. split; [lia|]. change 3 with (Z.ones 2). by rewrite Z.land_ones. }
    rewrite fn_lookup_insert_ne; [apply Hs; [done|lia]|]. intros Ex.
    apply conf_addr_inj in Ex as (_ & _ & _ & Ex); [lia|by split|done]. }
  unfold pci_network_attach, mbind. rewrite E. eexists 1, _, (evs ++ [_]). split; [reflexivity|]. split; [done|].
  split; [|cbn [log]; rewrite Hl, app_assoc; split; [done|]; by rewrite map_app, concat_app, Hq].
  intros b' d' fu off Hv H4. cbn [conf]. rewrite Hc. unfold enabled. rewrite fn_lookup_insert_ne; [by apply Hs|].
  intros Ex. destruct Hf as (? & ? & ?). apply conf_addr_inj in Ex as (_ & _ & _ & Ex); [done|by split|done].
Qed.

Lemma does_mono {A} (m : M pci A) t t' (P Q : A -> Prop) :
  does m t P -> t = t' -> (forall a, P a -> Q a) -> does m t' Q.
Proof using . intros Hm <- H s Hs. destruct (Hm s Hs) as (a & s' & evs & E & Pa & R). exists a, s', evs. auto. Qed.

Section attach.

(** The scan of the busses behind bridges. *)
Context (scan : Z -> M pci Z) (sub : Z -> list item) (b d f : Z).
Context (Hb : 0 <= b < 256) (Hd : 0 <= d < 32) (Hf : 0 <= f < 8).
Context (Hscan : is_bridge b d f = true -> does (scan (secondary b d f)) (sub (secondary b d f)) (fun _ => True)).

Definition behind_bridge : list item := if is_bridge b d f then sub (secondary b d f) else [].

Definition below : list item :=
  if is_bridge b d f then sub (secondary b d f) else if is_net b d f then [card b d f] else [].

Lemma does_bridge : PCI_CLASS (reg b d f 8) = 6 -> PCI_SUBCLASS (reg b d f 8) = 4 ->
  does (pci_bridge_attach scan (the_func b d f)) behind_bridge (eq (if is_bridge b d f then 1 else 0)).
Proof using Hb Hd Hf Hscan.
  intros Hc Hs. unfold pci_bridge_attach. assert (fvalid (the_func b d f)) as Hv by done.
  eapply (does_bind _ _ [] behind_bridge); [by apply does_read|done|]. intros _ <-.
  eapply (does_bind _ _ [] behind_bridge); [by apply does_read|done|]. intros _ <-.
  cbn [bus dev func the_func]. change PCI_BRIDGE_STATIO_REG with 28. change PCI_BRIDGE_BUS_REG with 24.
  assert (is_bridge b d f = negb (PCI_BRIDGE_IO_32BITS (reg b d f 28))) as Eb by (unfold is_bridge; by rewrite Hc, Hs).
  unfold behind_bridge. destruct (PCI_BRIDGE_IO_32BITS (reg b d f 28)); cbn [negb] in Eb; rewrite Eb.
  - eapply does_bind; [apply does_say|done|]. intros _ _. by apply does_ret.
  - fold (secondary b d f). eapply does_bind; [apply does_say|done|]. intros _ _.
    eapply does_bind; [by apply Hscan|by rewrite app_nil_r|]. intros _ _. by apply does_ret.
Qed.

Lemma does_attach : does (pci_attach wmask scan (the_func b d f)) below (fun _ => True).
Proof using Hmask Hb Hd Hf Hscan.
  assert (fvalid (the_func b d f)) as Hv by done. unfold pci_attach. cbn [dev_class dev_id the_func].
  eapply (does_bind _ _ behind_bridge (if is_net b d f then [card b d f] else []) _ (eq (if is_bridge b d f then 1 else 0))).
  - cbn [pci_attach_match pci_attach_class key1 key2 fn attach]. change PCI_CLASS_BRIDGE with 6. change PCI_SUBCLASS_BRIDGE_PCI with 4.
    destruct ((6 =? PCI_CLASS (reg b d f 8)) && (4 =? PCI_SUBCLASS (reg b d f 8))) eqn:Em.
    + apply andb_true_iff in Em as [E1 E2]. apply Z.eqb_eq in E1, E2.
      eapply does_bind; [by apply does_bridge|by rewrite app_nil_r|]. intros r <-.
      destruct (is_bridge b d f); by apply does_ret.
    + assert (is_bridge b d f = false) as Eb.
      { unfold is_bridge. rewrite (Z.eqb_sym _ 6), (Z.eqb_sym _ 4), Em. done. }
      unfold behind_bridge. rewrite Eb. by apply does_ret.
  - unfold below, behind_bridge, is_net. destruct (is_bridge b d f); [by rewrite app_nil_r|done].
  - intros _ <-. unfold is_net. destruct (is_bridge b d f) eqn:Eb; cbn [negb andb Z.eqb]; [by apply does_ret|].
    cbn [pci_attach_match pci_attach_vendor key1 key2 fn attach].
    rewrite (Z.eqb_sym 32902), (Z.eqb_sym 4110). destruct (_ && _).
    + eapply (does_bind _ _ [card b d f] [] _ (eq 1)); [|done|intros _ <-; by apply does_ret].
      eapply does_bind; [by apply does_net|done|]. intros _ <-. by apply does_ret.
    + eapply (does_bind _ _ [] [] _ (eq 0)); [by apply does_ret|done|intros _ <-; by apply does_ret].
Qed.

End attach.

(** A number of functions, and of devices, from the first on. *)
Definition under (sub : Z -> list item) (b d : Z) (fs : list Z) : list item :=
  concat (map (fun f => Found b d f :: below sub b d f) fs).

Definition devices (b : Z) (ds : list Z) : Z := Z.of_nat (length (List.filter (device_here b) ds)).

Section bus.

Context (scan : Z -> M pci Z) (sub : Z -> list item) (b : Z) (Hb : 0 <= b < 256).
Context (Hscan : forall d f, 0 <= d < 32 -> f ∈ functions b d -> is_bridge b d f = true ->
  does (scan (secondary b d f)) (sub (secondary b d f)) (fun _ => True)).

Lemma seqZ_S a n : seqZ a (Z.of_nat (S n)) = a :: seqZ (a + 1) (Z.of_nat n).
Proof using . rewrite seqZ_cons by lia. f_equal. f_equal; lia. Qed.

Lemma does_funcs n d : 0 <= d < 32 -> forall f, 0 <= f -> f + Z.of_nat n <= 8 ->
  (forall g, g ∈ List.filter (present b d) (seqZ f (Z.of_nat n)) -> g ∈ functions b d) ->
  does (scan_funcs wmask scan n b d f) (under sub b d (List.filter (present b d) (seqZ f (Z.of_nat n)))) (fun _ => True).
Proof using Hmask Hb Hscan.
  intros Hd. induction n as [|n IH]; intros f Hf Hn Hin; cbn [scan_funcs]; [by apply does_ret|].
  rewrite seqZ_S in *. cbn [List.filter] in *. set (g := mkPciFunc b d f 0 0 _ _ 0). assert (fvalid g) as Hg by (split; [done|cbn; lia]).
  set (fs := List.filter (present b d) (seqZ (f + 1) (Z.of_nat n))) in *.
  assert (does (scan_funcs wmask scan n b d (f + 1)) (under sub b d fs) (fun _ => True)) as IH'.
  { apply IH; [lia|lia|]. intros g' Hg'. apply Hin. destruct (present b d f); [by right|done]. }
  set (here := if present b d f then Found b d f :: below sub b d f else []).
  assert (under sub b d (if present b d f then f :: fs else fs) = here ++ under sub b d fs) as ->
    by (unfold here; by destruct (present b d f)).
  eapply (does_bind _ _ []); [by apply does_read|done|]. intros _ <-. change PCI_ID_REG with 0. cbn [bus dev func g].
  eapply (does_bind _ _ here (under sub b d fs) _ (fun _ => True)); [|done|by intros].
  unfold here, present in *. destruct (PCI_VENDOR (reg b d f 0) =? 65535) eqn:Ep; cbn [negb] in *; [by apply does_ret|].
  eapply (does_bind _ _ []); [by apply does_read|done|]. intros _ <-.
  eapply (does_bind _ _ []); [by apply does_read|done|]. intros _ <-.
  cbn [bus dev func g]. change PCI_INTERRUPT_REG with 60. change PCI_CLASS_REG with 8. fold (the_func b d f).
  eapply (does_bind _ _ [Found b d f] (below sub b d f)); [apply does_say|done|]. intros _ _.
  eapply (does_bind _ _ _ []); [apply (does_attach scan sub); [done|done|lia|]|by rewrite app_nil_r|].
  - apply Hscan; [done|]. apply Hin. by left.
  - intros _ _. by apply does_ret.
Qed.

Lemma does_devs n : forall d total, 0 <= d -> d + Z.of_nat n <= 32 ->
  does (scan_devs wmask scan n b d total) (concat (map (fun d => under sub b d (functions b d)) (seqZ d (Z.of_nat n))))
    (eq (total + devices b (seqZ d (Z.of_nat n)))).
Proof using Hmask Hb Hscan.
  induction n as [|n IH]; intros d total Hd Hn; cbn [scan_devs].
  { apply does_ret. unfold devices. change (seqZ d (Z.of_nat 0)) with (@nil Z). cbn [List.filter length]. lia. }
  rewrite seqZ_S. cbn [map concat]. unfold devices. cbn [List.filter].
  eapply (does_bind _ _ []); [apply does_read; [split; [done|cbn; lia]|done|done]|done|]. intros _ <-.
  cbn [bus dev func]. change PCI_BHLC_REG with 12.
  pose proof (IH (d + 1)) as IH1. unfold devices in IH1.
  destruct (PCI_HDRTYPE_TYPE (reg b d 0 12) >? 1) eqn:Et.
  - assert (device_here b d = false) as Eh by (unfold device_here; by rewrite Et). unfold functions at 1. rewrite Eh.
    apply IH1; lia.
  - assert (device_here b d = true) as Eh by (unfold device_here; by rewrite Et). rewrite Eh.
    set (k := if PCI_HDRTYPE_MULTIFN (reg b d 0 12) then 8%nat else 1%nat).
    assert (functions b d = List.filter (present b d) (seqZ 0 (Z.of_nat k))) as Ef
      by (unfold functions, k; rewrite Eh; by destruct (PCI_HDRTYPE_MULTIFN _)).
    eapply does_bind; [apply (does_funcs k d ltac:(lia) 0); [lia|unfold k; destruct (PCI_HDRTYPE_MULTIFN _); lia|by rewrite Ef]|by rewrite <- Ef|].
    intros _ _. eapply does_mono; [apply IH1; lia|done|]. intros x <-. cbn [length]. lia.
Qed.

End bus.

(** ** A bridge to its own bus *)

Definition runs_away {A} (m : M pci A) : Prop :=
  forall s, agree s -> exists s', m s = Undefined "pci_scan_bus: recursion" s'.

Lemma away_first {A B} (m : M pci A) (k : A -> M pci B) : runs_away m -> runs_away (mbind m k).
Proof using . intros H s Hs. destruct (H s Hs) as [s' E]. exists s'. unfold mbind. by rewrite E. Qed.

Lemma away_then {A B} (m : M pci A) (k : A -> M pci B) t P : does m t P -> (forall a, P a -> runs_away (k a)) -> runs_away (mbind m k).
Proof using .
  intros Hm Hk s Hs. destruct (Hm s Hs) as (a & s1 & evs & E & Pa & Hs1 & _). destruct (Hk a Pa s1 Hs1) as [s' E'].
  exists s'. unfold mbind. by rewrite E.
Qed.

(** A bridge that leads back to its own bus, as one does whose bus numbers are
    still 0, is followed for ever. *)
Lemma bridge_to_itself : device_here 0 0 = true -> present 0 0 0 = true -> is_bridge 0 0 0 = true -> secondary 0 0 0 = 0 ->
  forall fuel, runs_away (pci_scan_bus wmask fuel 0).
Proof using .
  intros Hd Hp Hb Hs fuel. induction fuel as [|fuel IH]; [intros s _; by exists s|]. cbn [pci_scan_bus].
  generalize 31%nat. intros devs. cbn [scan_devs]. unfold device_here in Hd. apply negb_true_iff in Hd. unfold present in Hp. apply negb_true_iff in Hp.
  unfold is_bridge in Hb. rewrite !andb_true_iff in Hb. destruct Hb as [[Hc Hsc] Hio]. apply negb_true_iff in Hio. apply Z.eqb_eq in Hc, Hsc.
  assert (forall id class irq off, reg_ok off -> off <> 4 ->
    does (pci_conf_read (mkPciFunc 0 0 0 id class (fun _ => 0) (fun _ => 0) irq) off) [] (eq (reg 0 0 0 off))) as Hr
    by (intros; by apply does_read).
  eapply away_then; [by apply Hr|]. intros _ <-. change PCI_BHLC_REG with 12. rewrite Hd. apply away_first.
  assert (exists n, (if PCI_HDRTYPE_MULTIFN (reg 0 0 0 12) then 8 else 1)%nat = S n) as [n ->] by (destruct (PCI_HDRTYPE_MULTIFN _); by eexists).
  cbn [scan_funcs]. eapply away_then; [by apply Hr|]. intros _ <-. change PCI_ID_REG with 0. rewrite Hp. apply away_first.
  eapply away_then; [by apply Hr|]. intros _ <-. eapply away_then; [by apply Hr|]. intros _ <-. change PCI_CLASS_REG with 8.
  eapply away_then; [apply does_say|]. intros _ _. apply away_first. unfold pci_attach. cbn [dev_class]. rewrite Hc, Hsc.
  do 2 apply away_first. eapply away_then; [by apply Hr|]. intros _ <-. eapply away_then; [by apply Hr|]. intros _ <-.
  change PCI_BRIDGE_STATIO_REG with 28. change PCI_BRIDGE_BUS_REG with 24. rewrite Hio. fold (secondary 0 0 0). rewrite Hs.
  eapply away_then; [apply does_say|]. intros _ _. by apply away_first.
Qed.

(** Bridges lead to busses with higher numbers. *)
Context (Htree : forall b d f, 0 <= b < 256 -> 0 <= d < 32 -> f ∈ functions b d -> is_bridge b d f = true -> b < secondary b d f).

Lemma secondary_range b d f : 0 <= secondary b d f < 256.
Proof using .
  unfold secondary. change 255 with (Z.ones 8). rewrite Z.land_ones by done. apply Z.mod_pos_bound. done.
Qed.

Lemma walk_S fuel b : walk (S fuel) b = concat (map (fun d => under (walk fuel) b d (functions b d)) (seqZ 0 (Z.of_nat 32))).
Proof using . reflexivity. Qed.

Lemma does_scan fuel : forall b, 0 <= b < 256 -> 256 - b <= Z.of_nat fuel ->
  does (pci_scan_bus wmask fuel b) (walk fuel b) (eq (devices b (seqZ 0 32))).
Proof using Hmask Htree.
  induction fuel as [|fuel IH]; intros b Hb Hf; [lia|]. rewrite walk_S. cbn [pci_scan_bus].
  assert (forall d f, 0 <= d < 32 -> f ∈ functions b d -> is_bridge b d f = true ->
    does (pci_scan_bus wmask fuel (secondary b d f)) (walk fuel (secondary b d f)) (fun _ => True)) as Hsub.
  { intros d f Hd Hin Hbr. pose proof (Htree b d f Hb Hd Hin Hbr). pose proof (secondary_range b d f).
    eapply does_mono; [apply IH; lia|done|done]. }
  pose proof (does_devs (pci_scan_bus wmask fuel) (walk fuel) b Hb Hsub 32 0 0 ltac:(lia) ltac:(lia)) as H.
  rewrite Z.add_0_l in H. exact H.
Qed.

(** ** What the walk finds *)

(** [(b, d, f)] is a function, and a bridge to the bus [c]. *)
Definition function (b d f : Z) : Prop := 0 <= d < 32 /\ f ∈ functions b d.

Definition bridge (b d f c : Z) : Prop := function b d f /\ is_bridge b d f = true /\ secondary b d f = c.

(** Bus [c] is bus [b] or behind a bridge of it. *)
Inductive behind (b : Z) : Z -> Prop :=
| behind_self : behind b b
| behind_bridges d f c c' : bridge b d f c -> behind c c' -> behind b c'.

Lemma walk_in fuel b d f b' : Found b' d f ∈ walk (S fuel) b <->
  (b' = b /\ function b d f) \/ exists d1 f1 c, bridge b d1 f1 c /\ Found b' d f ∈ walk fuel c.
Proof using .
  rewrite walk_S, list_elem_of_In, in_concat. unfold under, below. setoid_rewrite in_map_iff. split.
  - intros (l & (d1 & <- & Hd1) & Hin). apply in_concat in Hin as (l2 & Hl2 & Hin).
    apply in_map_iff in Hl2 as (f1 & <- & Hf1). apply list_elem_of_In, elem_of_seqZ in Hd1. apply list_elem_of_In in Hf1.
    destruct Hin as [[= <- <- <-]|Hin]; [left; split; [done|]; split; [lia|done]|].
    destruct (is_bridge b d1 f1) eqn:Eb.
    + right. exists d1, f1, (secondary b d1 f1). split; [|by apply list_elem_of_In]. split; [split; [lia|done]|done].
    + destruct (is_net b d1 f1); [|done]. by destruct Hin as [Hin|[]].
  - intros [[-> [Hd Hf]]|(d1 & f1 & c & ([Hd Hf] & Eb & <-) & Hin)].
    + eexists. split; [exists d; split; [reflexivity|apply list_elem_of_In, elem_of_seqZ; lia]|].
      apply in_concat. eexists. split; [apply in_map_iff; exists f; split; [reflexivity|by apply list_elem_of_In]|]. by left.
    + eexists. split; [exists d1; split; [reflexivity|apply list_elem_of_In, elem_of_seqZ; lia]|].
      apply in_concat. eexists. split; [apply in_map_iff; exists f1; split; [reflexivity|by apply list_elem_of_In]|].
      right. rewrite Eb. by apply list_elem_of_In.
Qed.

Lemma bridge_up b d f c : 0 <= b < 256 -> bridge b d f c -> b < c < 256.
Proof using Htree.
  intros Hb ([Hd Hf] & Eb & <-). pose proof (Htree b d f Hb Hd Hf Eb). pose proof (secondary_range b d f). lia.
Qed.

Lemma walk_found fuel : forall b b' d f, 0 <= b < 256 -> 256 - b <= Z.of_nat fuel ->
  Found b' d f ∈ walk fuel b <-> behind b b' /\ function b' d f.
Proof using Htree.
  induction fuel as [|fuel IH]; intros b b' d f Hb Hf; [lia|]. rewrite walk_in. split.
  - intros [[-> H]|(d1 & f1 & c & Hc & Hin)]; [by split; [constructor|]|].
    pose proof (bridge_up _ _ _ _ Hb Hc). apply IH in Hin as [H1 H2]; [|lia|lia]. split; [by econstructor|done].
  - intros [[|d1 f1 c c' Hc H1] H2]; [by left|right]. exists d1, f1, c. split; [done|].
    pose proof (bridge_up _ _ _ _ Hb Hc). apply IH; [lia|lia|done].
Qed.

Lemma behind_ge b b' : behind b b' -> 0 <= b < 256 -> b <= b' < 256.
Proof using Htree. induction 1 as [|b d f c c' Hc _ IH]; intros Hb; [lia|]. pose proof (bridge_up _ _ _ _ Hb Hc). lia. Qed.

(** ** Once

    When no two bridges lead to the same bus. *)

Context (Honce : forall b d f b' d' f' c, 0 <= b < 256 -> 0 <= b' < 256 -> bridge b d f c -> bridge b' d' f' c ->
  b = b' /\ d = d' /\ f = f').

(** Two busses with a bus behind both: the higher one is behind a bridge of the
    lower one or of a bus above it. *)
Lemma behind_both x : forall n b1 b2, (Z.to_nat (x - b1) + Z.to_nat (x - b2) <= n)%nat -> 0 <= b1 -> b1 < b2 < 256 ->
  behind b1 x -> behind b2 x -> exists b d f, b1 <= b < 256 /\ bridge b d f b2.
Proof using Htree Honce.
  induction n as [|n IH]; intros b1 b2 Hn Hb1 Hlt H1 H2; pose proof (behind_ge _ _ H2 ltac:(lia)) as Hx; [lia|].
  destruct H1 as [|d f c x Hc H1]; [lia|]. pose proof (bridge_up b1 d f c ltac:(lia) Hc) as Hbc.
  destruct (Z.lt_trichotomy c b2) as [Hcb|[->|Hcb]].
  - destruct (IH c b2 ltac:(lia) ltac:(lia) ltac:(lia) H1 H2) as (b & d' & f' & Hb & Hbr). exists b, d', f'. split; [lia|done].
  - exists b1, d, f. split; [lia|done].
  - destruct (IH b2 c ltac:(lia) ltac:(lia) ltac:(lia) H2 H1) as (b & d' & f' & Hb & Hbr).
    destruct (Honce b d' f' b1 d f c ltac:(lia) ltac:(lia) Hbr Hc) as (-> & _). lia.
Qed.

Lemma apart b d f c d' f' c' x : 0 <= b < 256 -> bridge b d f c -> bridge b d' f' c' -> behind c x -> behind c' x ->
  d = d' /\ f = f'.
Proof using Htree Honce.
  intros Hb Hc Hc' H H'. pose proof (bridge_up _ _ _ _ Hb Hc). pose proof (bridge_up _ _ _ _ Hb Hc').
  destruct (Z.lt_trichotomy c c') as [Hlt|[->|Hlt]].
  - destruct (behind_both x _ c c' (le_n _)) as (b0 & d0 & f0 & Hb0 & Hbr); [lia|lia|done|done|].
    destruct (Honce b0 d0 f0 b d' f' c' ltac:(lia) Hb Hbr Hc') as (-> & _). lia.
  - by destruct (Honce b d f b d' f' c' Hb Hb Hc Hc') as (_ & -> & ->).
  - destruct (behind_both x _ c' c (le_n _)) as (b0 & d0 & f0 & Hb0 & Hbr); [lia|lia|done|done|].
    destruct (Honce b0 d0 f0 b d f c ltac:(lia) Hb Hbr Hc) as (-> & _). lia.
Qed.

(** One function and what is behind it. *)
Definition chunk (fuel : nat) (b d f : Z) : list (Z * Z * Z) := founds (Found b d f :: below (walk fuel) b d f).

Lemma chunk_in fuel b d f b' d' f' : 0 <= b < 256 -> 256 - b <= Z.of_nat (S fuel) -> function b d f ->
  (b', d', f') ∈ chunk fuel b d f ->
  (b' = b /\ d' = d /\ f' = f) \/ exists c, bridge b d f c /\ behind c b'.
Proof using Htree.
  intros Hb Hfuel Hf. unfold chunk. rewrite founds_in. intros [[= -> -> ->]|Hin']%elem_of_cons; [by left|right].
  unfold below in Hin'. destruct (is_bridge b d f) eqn:Eb.
  - assert (bridge b d f (secondary b d f)) as Hc by done. exists (secondary b d f). split; [done|].
    pose proof (bridge_up _ _ _ _ Hb Hc). apply walk_found in Hin' as [H' _]; [done|lia|lia].
  - destruct (is_net b d f); [|by apply elem_of_nil in Hin']. by apply list_elem_of_singleton in Hin'.
Qed.

Lemma chunk_apart fuel b d f d2 f2 x : 0 <= b < 256 -> 256 - b <= Z.of_nat (S fuel) -> function b d f -> function b d2 f2 ->
  x ∈ chunk fuel b d f -> x ∈ chunk fuel b d2 f2 -> d = d2 /\ f = f2.
Proof using Htree Honce.
  intros Hb Hfuel Hf Hf2 H H2. destruct x as [[b' d'] f'].
  apply chunk_in in H; [|done..]. apply chunk_in in H2; [|done..].
  assert (forall d f c, bridge b d f c -> behind c b -> False) as Habsurd.
  { intros d0 f0 c Hc Hbc. pose proof (bridge_up _ _ _ _ Hb Hc). pose proof (behind_ge _ _ Hbc ltac:(lia)). lia. }
  destruct H as [(-> & -> & ->)|(c & Hc & Hx)], H2 as [(E1 & E2 & E3)|(c2 & Hc2 & Hx2)]; subst; try done.
  - by destruct (Habsurd d2 f2 c2).
  - by destruct (Habsurd d f c).
  - by eapply apart.
Qed.

Lemma functions_NoDup b d : NoDup (functions b d).
Proof using . unfold functions. destruct (device_here b d); [|constructor]. apply NoDup_ListNoDup, List.NoDup_filter, NoDup_ListNoDup, NoDup_seqZ. Qed.

Lemma walk_once fuel : forall b, 0 <= b < 256 -> 256 - b <= Z.of_nat fuel -> NoDup (founds (walk fuel b)).
Proof using Htree Honce.
  induction fuel as [|fuel IH]; intros b Hb Hfuel; [lia|]. rewrite walk_S, founds_concat.
  assert (forall d, founds (under (walk fuel) b d (functions b d)) = concat (map (chunk fuel b d) (functions b d))) as Eu
    by (intros d; unfold under; by rewrite founds_concat).
  assert (forall d f, d ∈ seqZ 0 32 -> f ∈ functions b d -> function b d f) as Hfun
    by (intros d f Hd%elem_of_seqZ Hf; split; [lia|done]).
  assert (forall d x, x ∈ concat (map (chunk fuel b d) (functions b d)) -> exists f, f ∈ functions b d /\ x ∈ chunk fuel b d f) as Hex.
  { intros d x Hx. apply list_elem_of_In, in_concat in Hx as (l & Hl & Hx). apply in_map_iff in Hl as (f & <- & Hf).
    exists f. by rewrite !list_elem_of_In. }
  apply NoDup_concat_map; [apply NoDup_seqZ| |].
  - intros d Hd. rewrite Eu. apply NoDup_concat_map; [apply functions_NoDup| |].
    + intros f Hf. unfold chunk. cbn [founds map concat app]. fold (founds (below (walk fuel) b d f)). apply NoDup_cons. split.
      * rewrite founds_in. unfold below. destruct (is_bridge b d f) eqn:Eb.
        -- assert (bridge b d f (secondary b d f)) as Hc by (split; [by apply Hfun|done]). pose proof (bridge_up _ _ _ _ Hb Hc).
           rewrite walk_found by lia. intros [Hbb _]. pose proof (behind_ge _ _ Hbb ltac:(lia)). lia.
        -- destruct (is_net b d f); [by intros ?%list_elem_of_singleton|by intros ?%elem_of_nil].
      * unfold below. destruct (is_bridge b d f) eqn:Eb.
        -- assert (bridge b d f (secondary b d f)) as Hc by (split; [by apply Hfun|done]). pose proof (bridge_up _ _ _ _ Hb Hc).
           apply IH; lia.
        -- destruct (is_net b d f); cbn; constructor.
    + intros f f' x Hf Hf' Hx Hx'. by eapply (chunk_apart fuel b d f d f'); [..|exact Hx|exact Hx']; try apply Hfun.
  - intros d d' x Hd Hd'. rewrite !Eu. intros (f & Hf & Hx)%Hex (f' & Hf' & Hx')%Hex.
    by eapply (chunk_apart fuel b d f d' f'); [..|exact Hx|exact Hx']; try apply Hfun.
Qed.

End tree.

(** C35: Enabling a PCI function finds its regions and leaves its registers as they
    were.  For a function whose six address registers describe memory regions of
    32 or 64 bits, port regions or nothing, [pci_func_enable] records the base and
    the size of each region under its number, sets the enable bits that can be
    written in the command register and changes no other register, although the
    probe overwrites each address register with ones in between; the network
    driver is then called with the first region. *)
Theorem pci_func_enable_probes (wmask : Z -> Z) (f : pci_func) (l : list region) (s : pci) :
  (forall x, 0 <= wmask x < 4294967296) -> fvalid f ->
  regions_at (fun o => conf s (at_ f o)) (fun o => wmask (at_ f o)) 16 l ->
  let f' := recorded 16 l f in
  exists s1 s2, pci_func_enable wmask f s = Ok f' s1
    /\ conf s1 (at_ f 4) = merge (wmask (at_ f 4)) (conf s (at_ f 4)) 7
    /\ (forall x, x <> at_ f 4 -> conf s1 x = conf s x)
    /\ pci_network_attach wmask f s = Ok 1 s2 /\ log s2 = log s1 ++ [E1000_init (reg_base f' 0) (reg_size f' 0)].
Proof.
  intros Hm Hf Hl f'. destruct (enable_records wmask Hm f s l Hf Hl) as (s1 & evs & E & Hc & _).
  exists s1. eexists. split; [exact E|]. split; [by rewrite Hc; unfold enabled; rewrite fn_lookup_insert|].
  split; [intros x Hx; rewrite Hc; unfold enabled; by rewrite fn_lookup_insert_ne|].
  split; [unfold pci_network_attach, mbind; rewrite E; reflexivity|done].
Qed.

(** C34: The scan of the PCI busses ends and misses nothing.  If every bridge leads
    to a bus with a higher number, [pci_init] returns the number of devices on
    bus 0 and reports exactly the functions on bus 0 and on the busses behind
    bridges, in the order of a walk over the tree, and after the report of an
    82540EM card, and only then, it calls the network driver with the first region
    of that card; enabling cards on the way changes nothing that the scan reads
    later.  If moreover no two bridges lead to the same bus, no function is
    reported twice. *)
Theorem pci_init_finds (wmask : Z -> Z) (s : pci) :
  (forall x, 0 <= wmask x < 4294967296) ->
  (forall b d f, 0 <= b < 256 -> 0 <= d < 32 -> f ∈ functions (conf s) b d -> is_bridge (conf s) b d f = true ->
     b < secondary (conf s) b d f) ->
  exists s' evs, pci_init wmask 256 s = Ok (devices (conf s) 0 (seqZ 0 32)) s' /\ log s' = log s ++ evs
    /\ concat (map seen evs) = walk wmask (conf s) 256 0
    /\ (forall b d f, (b, d, f) ∈ founds (concat (map seen evs)) <->
          behind (conf s) 0 b /\ 0 <= d < 32 /\ f ∈ functions (conf s) b d)
    /\ ((forall b d f b' d' f' c, 0 <= b < 256 -> 0 <= b' < 256 ->
            bridge (conf s) b d f c -> bridge (conf s) b' d' f' c -> b = b' /\ d = d' /\ f = f') ->
        NoDup (founds (concat (map seen evs)))).
Proof.
  intros Hm Ht. destruct (does_scan wmask Hm (conf s) Ht 256 0 ltac:(lia) ltac:(lia) s) as (n & s' & evs & E & <- & _ & Hl & Hr).
  - intros b d f off _ _. reflexivity.
  - exists s', evs. split; [done|]. split; [done|]. split; [done|]. rewrite Hr. split.
    + intros b d f. rewrite founds_in. apply walk_found; [done|lia|lia].
    + intros Ho. by apply walk_once; [| |lia|lia].
Qed.

(** A machine with a host bridge, and a bridge to bus 1 with the network card,
    which has 128 KB of memory and 64 ports. *)
Definition ex_regs : list (Z * Z) :=
  [(0, 306675846); (8, 100663296); (12, 0);
   (2048, 305430662); (2056, 100925440); (2060, 65536); (2072, 65792); (2076, 0);
   (65536, 269385862); (65540, 0); (65544, 33554432); (65548, 0); (65552, 4273995776); (65556, 49153);
   (65560, 0); (65564, 0); (65568, 0); (65572, 0); (65596, 11)].

Definition ex_conf (x : Z) : Z :=
  match List.find (fun p => p.1 =? x - 2147483648) ex_regs with Some p => p.2 | None => 4294967295 end.

Definition ex_mask (x : Z) : Z :=
  match x - 2147483648 with 65540 => 7 | 65552 => region_mask 17 | 65556 => region_mask 6 | _ => 0 end.

Definition ex_pci : pci := mkPci ex_conf 0 [].

Lemma ex_mask_ok x : 0 <= ex_mask x < 4294967296.
Proof. unfold ex_mask. by repeat case_match. Qed.

(** The only bridge is device 1 of bus 0. *)
Lemma ex_bridge b d f : 0 <= b < 256 -> 0 <= d < 32 -> f ∈ functions ex_conf b d -> is_bridge ex_conf b d f = true ->
  b = 0 /\ d = 1 /\ f = 0.
Proof.
  intros Hb Hd Hf Hbr. assert (0 <= f < 8) as Hf8.
  { unfold functions in Hf. destruct (device_here _ _ _); [|by apply elem_of_nil in Hf].
    apply list_elem_of_In, filter_In in Hf as [Hf _]. apply list_elem_of_In, elem_of_seqZ in Hf. destruct (PCI_HDRTYPE_MULTIFN _); lia. }
  unfold is_bridge in Hbr. rewrite !andb_true_iff, !Z.eqb_eq in Hbr. destruct Hbr as [[Hc Hs] _].
  unfold reg in Hc, Hs. rewrite conf_addr_eq in Hc, Hs by (repeat split; try lia; done). set (x := 2147483648 + _ + _ + _ + 8) in *.
  assert (forallb (fun p => negb ((PCI_CLASS p.2 =? 6) && (PCI_SUBCLASS p.2 =? 4)) || (p.1 =? 2056)) ex_regs = true) as H
    by (vm_compute; reflexivity). rewrite forallb_forall in H.
  unfold ex_conf in Hc, Hs. destruct (List.find _ ex_regs) as [p|] eqn:Ef; [|done].
  apply find_some in Ef as [Hin Ep]. specialize (H p Hin). rewrite Hc, Hs in H. cbn in H. apply Z.eqb_eq in Ep, H.
  unfold x in Ep. lia.
Qed.

Lemma ex_bridges b d f : 0 <= b < 256 -> 0 <= d < 32 -> f ∈ functions ex_conf b d -> is_bridge ex_conf b d f = true ->
  b < secondary ex_conf b d f.
Proof. intros Hb Hd Hf Hbr. by destruct (ex_bridge b d f Hb Hd Hf Hbr) as (-> & -> & ->). Qed.

Lemma ex_once b d f b' d' f' c : 0 <= b < 256 -> 0 <= b' < 256 -> bridge ex_conf b d f c -> bridge ex_conf b' d' f' c ->
  b = b' /\ d = d' /\ f = f'.
Proof.
  intros Hb Hb' ([Hd Hf] & Hbr & _) ([Hd' Hf'] & Hbr' & _).
  destruct (ex_bridge b d f Hb Hd Hf Hbr) as (-> & -> & ->). by destruct (ex_bridge b' d' f' Hb' Hd' Hf' Hbr') as (-> & -> & ->).
Qed.

Lemma pci_init_finds_witness : exists s' evs, pci_init ex_mask 256 ex_pci = Ok 2 s' /\ log s' = evs
  /\ concat (map seen evs) = [Found 0 0 0; Found 0 1 0; Found 1 0 0; Driver 4273995776 131072]
  /\ NoDup (founds (concat (map seen evs))).
Proof.
  destruct (pci_init_finds ex_mask ex_pci) as (s' & evs & E & Hl & Hr & _ & Ho).
  - exact ex_mask_ok.
  - exact ex_bridges.
  - exists s', evs. split; [exact E|]. split; [exact Hl|]. split; [exact Hr|exact (Ho ex_once)].
Defined.

Definition ex_regions : list region := [MemBar 0 4273995776 17; IoBar 49152 6; NoBar; NoBar; NoBar; NoBar].

Lemma ex_regions_at : let f := the_func ex_conf 1 0 0 in
  regions_at (fun o => ex_conf (at_ f o)) (fun o => ex_mask (at_ f o)) 16 ex_regions.
Proof. vm_compute. repeat split; try discriminate. repeat (constructor || (right; constructor)). Qed.

Lemma pci_func_enable_probes_witness : exists s1, let f := the_func ex_conf 1 0 0 in
  pci_func_enable ex_mask f ex_pci = Ok (recorded 16 ex_regions f) s1
  /\ reg_base (recorded 16 ex_regions f) 0 = 4273995776 /\ reg_size (recorded 16 ex_regions f) 0 = 131072
  /\ reg_size (recorded 16 ex_regions f) 1 = 64.
Proof.
  destruct (pci_func_enable_probes ex_mask (the_func ex_conf 1 0 0) ex_regions ex_pci) as (s1 & s2 & E & _).
  - exact ex_mask_ok.
  - split; [|split]; (split; [discriminate|reflexivity]).
  - exact ex_regions_at.
  - exists s1. split; [exact E|]. split; [reflexivity|split; reflexivity].
Defined.

End Pci.
