(* ===== verification/Boot.v ===== *)
(** * The boot loader (boot/main.c)

    Before paging, on physical memory: the first eight sectors of the kernel
    image are read to a scratch page, and the segments its program headers name
    to their load addresses, one sector at a time through the registers of the
    IDE drive.  The contents of the disk and the answers of the drive's status
    register are parameters.

    The theorem: with a drive that always gets ready again and an image whose
    segments do not run into each other, every byte of every segment is in
    place when the kernel is entered. *)

From stdpp Require Import base numbers list functions strings.
From Stdlib Require Import ZArith Lia.
From S2P Require Import Prelude Mem Kernel Env Umonad.

Open Scope Z_scope.
Open Scope usr_scope.

Module Boot.

Definition SECTSIZE : Z := 512.

(** [ELFHDR], scratch space *)
Definition ELFHDR : Z := 65536.

(** Physical memory, the drive's task file registers, the transfer in progress
    (the next byte of the disk and the words left), the number of times the
    status register was read, and the words written to other ports. *)
Record boot := mkBoot {
  bmem : mem;
  regs : Z -> Z;
  transfer : Z * nat;
  polls : nat;
  outws : list (Z * Z)
}.

Definition set_bmem (m : mem) (b : boot) : boot := mkBoot m (regs b) (transfer b) (polls b) (outws b).

(** How [bootmain] ends: the kernel's entry point is called, or it spins. *)
Inductive ending := Enter (entry : Z) | Bad.

(** The sector number in the registers, for a drive in LBA mode. *)
Definition lba (r : Z -> Z) : Z :=
  r 499 + 256 * r 500 + 65536 * r 501 + 16777216 * Z.land (r 502) 15.

(** [outb] to a register of the drive; a write of the command READ SECTORS
    starts a transfer. *)
Definition outb (port v : Z) : M boot unit := fun b =>
  let r := <[port := u8 v]> (regs b) in
  if port =? 503 then
    if (u8 v =? 32) && (Z.land (r 502) 240 =? 224)
    then Ok tt (mkBoot (bmem b) r (SECTSIZE * lba r, Z.to_nat (128 * r 498)) (polls b) (outws b))
    else Undefined "a command that is not modelled" b
  else Ok tt (mkBoot (bmem b) r (transfer b) (polls b) (outws b)).

Definition outw (port v : Z) : M boot unit :=
  mmodify (fun b => mkBoot (bmem b) (regs b) (transfer b) (polls b) (outws b ++ [(port, v)])).

(** The device register: LBA mode, drive 0 and four bits of the sector. *)
Lemma device_bits h :
  0 <= h < 16 ->
  Z.lor h 224 = h + 224 /\ Z.land (u8 (h + 224)) 15 = h /\ Z.land (u8 (h + 224)) 240 = 224.
Proof.
  intros Hh. assert (exists n, (n < 16)%nat /\ h = Z.of_nat n) as (n & Hn & ->) by (exists (Z.to_nat h); lia).
  do 16 (destruct n as [|n]; [done|]). lia.
Qed.

Lemma word_bytes b0 b1 b2 b3 :
  0 <= b0 < 256 -> 0 <= b1 < 256 -> 0 <= b2 < 256 -> 0 <= b3 < 256 ->
  let v := b0 + 256 * b1 + 65536 * b2 + 16777216 * b3 in
  u8 v = b0 /\ u8 (v / 256) = b1 /\ u8 (v / 65536) = b2 /\ u8 (v / 16777216) = b3.
Proof. intros H0 H1 H2 H3. cbv zeta. unfold u8. split_and!; zdm. Qed.

(** A word moved from one memory to another. *)
Lemma wr32_word m d m2 s k : 0 <= k < 4 -> wr32 m d (rd32 m2 s) (d + k) = rd8 m2 (s + k).
Proof.
  intros Hk. unfold wr32, rd32.
  destruct (word_bytes (rd8 m2 s) (rd8 m2 (s + 1)) (rd8 m2 (s + 2)) (rd8 m2 (s + 3))) as (E0 & E1 & E2 & E3);
    [apply rd8_range..|].
  assert (k = 0 \/ k = 1 \/ k = 2 \/ k = 3) as [->|[->|[->| ->]]] by lia; rewrite ?Z.add_0_r; fsimpl; done.
Qed.

(** The sectors a segment of [count] bytes at [pa] covers. *)
Definition seg_start (pa : Z) : Z := pa - pa mod 512.

Definition seg_sectors (pa count : Z) : Z := (pa + count - seg_start pa + 511) / 512.

Definition seg_stop (pa count : Z) : Z := seg_start pa + 512 * seg_sectors pa count.

Lemma round_sector pa : Z.land pa (Z.lnot (512 - 1)) = seg_start pa.
Proof.
  rewrite <- Z.ldiff_land. change (512 - 1) with (Z.ones 9). rewrite Z.ldiff_ones_r by lia.
  rewrite Z.shiftl_mul_pow2, Z.shiftr_div_pow2 by lia. unfold seg_start. change (2 ^ 9) with 512. zdm.
Qed.

Lemma seg_bounds pa count offset :
  0 <= pa -> 0 <= count -> 0 <= offset ->
  0 <= seg_start pa <= pa /\ 0 <= seg_sectors pa count
  /\ seg_start pa + 512 * (seg_sectors pa count - 1) < pa + count <= seg_start pa + 512 * seg_sectors pa count
  /\ 0 <= offset / 512 /\ 512 * (offset / 512 + seg_sectors pa count) <= offset + count + 1024.
Proof.
  intros Hp Hc Ho. unfold seg_sectors, seg_start. zdm.
Qed.

Lemma seg_shift pa offset x :
  offset mod 512 = pa mod 512 -> 512 + (offset + (x - pa)) = 512 * (offset / 512 + 1) + (x - seg_start pa).
Proof. intros H. unfold seg_start. zdm. Qed.

Section loader.

(** The bytes of the disk, what each read of the status register returns, and
    how many reads in a row the wait loop is given. *)
Context (disk : mem) (status : nat -> Z) (patience : nat).

(** The kernel image starts at sector 1. *)
Definition image : mem := fun k => disk (512 + k).

(** [inb(0x1F7)] *)
Definition read_status : M boot Z := fun b =>
  Ok (status (polls b)) (mkBoot (bmem b) (regs b) (transfer b) (S (polls b)) (outws b)).

Fixpoint waitdisk_loop (n : nat) : M boot unit :=
  match n with
  | O => mundef "the drive does not get ready"
  | S n =>
    let! v := read_status in
    if negb (Z.land v 192 =? 64) then waitdisk_loop n else mret tt
  end.

Definition waitdisk : M boot unit := waitdisk_loop patience.

Fixpoint insl_loop (n : nat) (dst src : Z) (m : mem) : mem :=
  match n with
  | O => m
  | S n => insl_loop n (u32 (dst + 4)) (src + 4) (wr32 m dst (rd32 disk src))
  end.

(** [insl(0x1F0, dst, cnt)] *)
Definition insl (dst : Z) (cnt : nat) : M boot unit := fun b =>
  let '(src, avail) := transfer b in
  if Nat.leb cnt avail
  then Ok tt (mkBoot (insl_loop cnt dst src (bmem b)) (regs b) (src + 4 * Z.of_nat cnt, (avail - cnt)%nat) (polls b) (outws b))
  else Undefined "no data to read" b.

Definition readsect (dst offset : Z) : M boot unit :=
  do! waitdisk in
  do! outb 498 1 in
  do! outb 499 offset in
  do! outb 500 (Z.shiftr offset 8) in
  do! outb 501 (Z.shiftr offset 16) in
  do! outb 502 (Z.lor (Z.shiftr offset 24) 224) in
  do! outb 503 32 in
  do! waitdisk in
  insl dst 128.

(** The fuel is the number of sectors up to [end_pa] and one. *)
Fixpoint readseg_loop (n : nat) (pa end_pa offset : Z) : M boot unit :=
  match n with
  | O => mundef "readseg wraps around"
  | S n =>
    if pa <? end_pa then
      do! readsect pa offset in
      readseg_loop n (u32 (pa + SECTSIZE)) end_pa (u32 (offset + 1))
    else mret tt
  end.

Definition readseg (pa count offset : Z) : M boot unit :=
  let end_pa := u32 (pa + count) in
  let pa := Z.land pa (Z.lnot (SECTSIZE - 1)) in
  let offset := u32 (offset / SECTSIZE + 1) in
  readseg_loop (S (Z.to_nat ((end_pa - pa + 511) / SECTSIZE))) pa end_pa offset.

Definition load32 (a : Z) : M boot Z := mgets (fun b => rd32 (bmem b) a).

Definition off_p_pa : Z := 12.

(** [readseg(ph->p_pa, ph->p_memsz, ph->p_offset)] *)
Definition load_ph (ph : Z) : M boot (option unit) :=
  let! p_pa := load32 (ph + off_p_pa) in
  let! p_memsz := load32 (ph + Env.off_p_memsz) in
  let! p_offset := load32 (ph + Env.off_p_offset) in
  do! readseg p_pa p_memsz p_offset in
  mret None.

Definition bootmain : M boot ending :=
  do! readseg ELFHDR (SECTSIZE * 8) 0 in
  let! magic := load32 ELFHDR in
  if negb (magic =? Env.ELF_MAGIC) then
    do! outw 35328 35328 in
    do! outw 35328 36352 in
    mret Bad
  else
    let! phoff := load32 (ELFHDR + Env.off_e_phoff) in
    let! phnum := mgets (fun b => rd16 (bmem b) (ELFHDR + Env.off_e_phnum)) in
    do! mfor (Z.to_nat phnum) 0 (fun i => load_ph (u32 (ELFHDR + phoff + i * Env.sizeof_Proghdr))) in
    let! entry := load32 (ELFHDR + Env.off_e_entry) in
    mret (Enter entry).

(** ** Sectors *)

(** The drive gets ready within the patience of the loop. *)
Definition responsive : Prop := forall k, exists j, (j < patience)%nat /\ Z.land (status (k + j)) 192 = 64.

Lemma waitdisk_ok b (Q : unit -> boot -> Prop) :
  responsive -> (forall k, Q tt (mkBoot (bmem b) (regs b) (transfer b) k (outws b))) -> wp waitdisk Q b.
Proof.
  intros Hr HQ. destruct (Hr (polls b)) as (j & Hj & Hs). unfold waitdisk. clear Hr. revert j Hj Hs.
  assert (forall n j k, (j < n)%nat -> Z.land (status (k + j)) 192 = 64 ->
            wp (waitdisk_loop n) Q (mkBoot (bmem b) (regs b) (transfer b) k (outws b))) as H.
  { induction n as [|n IH]; intros j k Hj Hs; [lia|]. cbn [waitdisk_loop]. apply wp_bind.
    unfold wp at 1, read_status. cbn [polls bmem regs transfer outws].
    destruct (Z.eqb_spec (Z.land (status k) 192) 64) as [|Hne]; cbn [negb]; [apply wp_ret, HQ|].
    destruct j as [|j]; [by rewrite Nat.add_0_r in Hs|]. apply (IH j); [lia|]. rewrite <- Hs. do 2 f_equal. lia. }
  intros j Hj Hs. destruct b. by apply (H patience j).
Qed.

(** [n] words from [src] on the disk are at [dst]. *)
Definition copied (dst src n : Z) (m m' : mem) : Prop :=
  forall x, m' x = if (dst <=? x) && (x <? dst + n) then rd8 disk (src + (x - dst)) else m x.

Lemma insl_copied n : forall dst src m,
  0 <= dst -> dst + 4 * Z.of_nat n <= 4294967296 ->
  copied dst src (4 * Z.of_nat n) m (insl_loop n dst src m).
Proof.
  induction n as [|n IH]; intros dst src m Hd Hw x; cbn [insl_loop].
  { repeat bcase. }
  assert (forall k, 0 <= k < 4 -> wr32 m dst (rd32 disk src) (dst + k) = rd8 disk (src + k)) as Hb by (intros; by apply wr32_word).
  destruct n as [|n].
  - cbn [insl_loop]. destruct (decide (dst <= x < dst + 4)).
    + pose proof (Hb (x - dst) ltac:(lia)) as Hx. replace (dst + (x - dst)) with x in Hx by lia. rewrite Hx. repeat bcase.
    + rewrite wr32_out by lia. repeat bcase.
  - rewrite u32_id by lia. rewrite (IH (dst + 4) (src + 4)) by lia. clear IH.
    destruct (decide (dst <= x < dst + 4)).
    + pose proof (Hb (x - dst) ltac:(lia)) as Hx. replace (dst + (x - dst)) with x in Hx by lia. rewrite Hx. repeat bcase.
    + rewrite wr32_out by lia. replace (src + 4 + (x - (dst + 4))) with (src + (x - dst)) by lia. repeat bcase.
Qed.

(** The drive sees the sector number that was meant. *)
Lemma lba_of offset r :
  0 <= offset < 268435456 ->
  r 499 = u8 offset -> r 500 = u8 (Z.shiftr offset 8) -> r 501 = u8 (Z.shiftr offset 16) ->
  r 502 = u8 (Z.lor (Z.shiftr offset 24) 224) ->
  lba r = offset /\ Z.land (r 502) 240 = 224.
Proof.
  intros Ho E3 E4 E5 E6. unfold lba. rewrite E3, E4, E5, E6. rewrite !Z.shiftr_div_pow2 by lia.
  change (2 ^ 8) with 256. change (2 ^ 16) with 65536. change (2 ^ 24) with 16777216.
  assert (0 <= offset / 16777216 < 16) as Hh by zdm.
  destruct (device_bits _ Hh) as (-> & H1 & H2). unfold u8 in *. rewrite H1, H2. split; [zdm|done].
Qed.

Context (Hresp : responsive).

(** A write to one of the registers that only hold a value. *)
Lemma outb_wp port v Q b :
  port <> 503 -> Q tt (mkBoot (bmem b) (<[port := u8 v]> (regs b)) (transfer b) (polls b) (outws b)) ->
  wp (outb port v) Q b.
Proof. intros Hp HQ. unfold wp, outb. by destruct (Z.eqb_spec port 503). Qed.

Lemma readsect_copies dst offset b :
  0 <= dst <= 4294966784 -> 0 <= offset < 268435456 ->
  wp (readsect dst offset)
    (fun _ b' => copied dst (512 * offset) 512 (bmem b) (bmem b') /\ outws b' = outws b) b.
Proof using Hresp.
  intros Hd Ho. unfold readsect.
  apply wp_bind, waitdisk_ok; [done|intros k]. do 5 (apply wp_bind, outb_wp; [lia|]). cbn [bmem regs transfer polls outws].
  apply wp_bind. set (r := <[502 := _]> _).
  destruct (lba_of offset (<[503 := u8 32]> r)) as [El Em]; [done|by (subst r; fsimpl)..|].
  unfold wp at 1, outb. cbn [Z.eqb Pos.eqb regs bmem]. rewrite Em, El. change (u8 32 =? 32) with true. rewrite Z.eqb_refl.
  cbn [andb bmem polls outws]. apply wp_bind, waitdisk_ok; [done|intros k2]. unfold wp, insl. cbn [transfer bmem regs polls outws].
  assert (<[503 := u8 32]> r 498 = 1) as -> by (subst r; by fsimpl). change (Z.to_nat (128 * 1)) with 128%nat.
  cbn [Nat.leb bmem outws]. split; [|done]. apply (insl_copied 128 dst); lia.
Qed.

(** [n] sectors from sector [offset] on are at [pa]. *)
Lemma readseg_loop_copies n : forall pa end_pa offset b,
  0 <= pa -> 0 <= offset -> offset + Z.of_nat n <= 268435456 -> pa + 512 * Z.of_nat n <= 4294966784 ->
  pa + 512 * (Z.of_nat n - 1) < end_pa <= pa + 512 * Z.of_nat n ->
  wp (readseg_loop (S n) pa end_pa offset)
    (fun _ b' => copied pa (512 * offset) (512 * Z.of_nat n) (bmem b) (bmem b') /\ outws b' = outws b) b.
Proof using Hresp.
  induction n as [|n IH]; intros pa end_pa offset b Hp Ho Hof Hpn He.
  - cbn [readseg_loop]. destruct (Z.ltb_spec pa end_pa); [lia|]. apply wp_ret. split; [|done].
    intros x. repeat bcase.
  - remember (S n) as m eqn:Em. cbn [readseg_loop]. rewrite Em in *. destruct (Z.ltb_spec pa end_pa); [|lia].
    apply wp_bind. eapply wp_mono; [apply readsect_copies; lia|]. intros [] b1 [Hc1 Ho1].
    unfold SECTSIZE. rewrite !u32_id by lia. rewrite <- Em. eapply wp_mono; [rewrite Em; apply IH; lia|].
    intros [] b2 [Hc2 Ho2]. split; [|congruence]. intros x. rewrite Hc2, Hc1.
    replace (512 * (offset + 1) + (x - (pa + 512))) with (512 * offset + (x - pa)) by lia.
    repeat bcase.
Qed.

Lemma readseg_copies pa count offset b :
  0 <= pa -> 0 <= count -> pa + count <= 4294966272 -> 0 <= offset < 4294967296 ->
  wp (readseg pa count offset)
    (fun _ b' => copied (seg_start pa) (512 * (offset / 512 + 1)) (512 * seg_sectors pa count) (bmem b) (bmem b')
                 /\ outws b' = outws b) b.
Proof using Hresp.
  intros Hp Hc Hw Ho. unfold readseg, SECTSIZE. destruct (seg_bounds pa count offset Hp Hc ltac:(lia)) as (H1 & H2 & H3 & H4 & H5).
  rewrite round_sector, (u32_id (pa + count)), (u32_id (offset / 512 + 1)) by lia.
  change ((pa + count - seg_start pa + 511) / 512) with (seg_sectors pa count).
  pose proof (readseg_loop_copies (Z.to_nat (seg_sectors pa count)) (seg_start pa) (pa + count) (offset / 512 + 1) b) as H.
  rewrite Z2Nat.id in H by lia. apply H; lia.
Qed.

(** A segment whose place in the file and in memory agree modulo the sector
    size: each byte of the sectors it covers comes from its place in the file. *)
Lemma readseg_places pa count offset b :
  0 <= pa -> 0 <= count -> pa + count <= 4294966272 -> 0 <= offset < 4294967296 -> offset mod 512 = pa mod 512 ->
  wp (readseg pa count offset)
    (fun _ b' => (forall x, bmem b' x = if (seg_start pa <=? x) && (x <? seg_stop pa count)
                                        then rd8 image (offset + (x - pa)) else bmem b x)
                 /\ outws b' = outws b) b.
Proof using Hresp.
  intros Hp Hc Hw Ho Hm. eapply wp_mono; [by apply readseg_copies|]. intros [] b' [Hcp Hout]. split; [|done].
  intros x. rewrite Hcp. fold (seg_stop pa count).
  replace (512 * (offset / 512 + 1) + (x - seg_start pa)) with (512 + (offset + (x - pa))); [done|].
  by apply seg_shift.
Qed.

(** The program headers of the image. *)
Definition phoff : Z := rd32 image Env.off_e_phoff.

Definition phnum : Z := rd16 image Env.off_e_phnum.

Definition ph_field (i o : Z) : Z := rd32 image (phoff + i * Env.sizeof_Proghdr + o).

Definition p_pa (i : Z) : Z := ph_field i off_p_pa.

Definition p_memsz (i : Z) : Z := ph_field i Env.off_p_memsz.

Definition p_offset (i : Z) : Z := ph_field i Env.off_p_offset.

(** The headers are in the first eight sectors; every segment ends a sector
    short of the end of the address space, is placed alike in the file and in
    memory and stays out of the scratch page; and no segment writes to one
    before it, except what is there. *)
Record loadable : Prop := {
  ld_headers : phoff + phnum * Env.sizeof_Proghdr <= 4096;
  ld_fits : forall i, 0 <= i < phnum -> p_pa i + p_memsz i <= 4294966272;
  ld_aligned : forall i, 0 <= i < phnum -> p_offset i mod 512 = p_pa i mod 512;
  ld_scratch : forall i, 0 <= i < phnum ->
    seg_stop (p_pa i) (p_memsz i) <= ELFHDR \/ ELFHDR + 4096 <= seg_start (p_pa i);
  ld_apart : forall i j, 0 <= i < j -> j < phnum ->
    seg_stop (p_pa j) (p_memsz j) <= p_pa i \/ p_pa i + p_memsz i <= seg_start (p_pa j)
    \/ p_offset j - p_pa j = p_offset i - p_pa i
}.

(** The header is in the scratch page. *)
Definition header_read (b : boot) : Prop :=
  forall x, ELFHDR <= x < ELFHDR + 4096 -> bmem b x = rd8 image (x - ELFHDR).

Lemma header_rd32 b a : header_read b -> 0 <= a <= 4092 -> rd32 (bmem b) (ELFHDR + a) = rd32 image a.
Proof.
  intros H Ha. unfold rd32. assert (forall k, 0 <= k < 4 -> rd8 (bmem b) (ELFHDR + a + k) = rd8 image (a + k)) as E.
  { intros k Hk. unfold rd8 at 1. rewrite H by lia. unfold rd8. rewrite u8_u8. do 2 f_equal. lia. }
  rewrite <- (Z.add_0_r (ELFHDR + a)) at 1. rewrite !E by lia. by rewrite Z.add_0_r.
Qed.

Lemma header_rd16 b a : header_read b -> 0 <= a <= 4094 -> rd16 (bmem b) (ELFHDR + a) = rd16 image a.
Proof.
  intros H Ha. unfold rd16. assert (forall k, 0 <= k < 2 -> rd8 (bmem b) (ELFHDR + a + k) = rd8 image (a + k)) as E.
  { intros k Hk. unfold rd8 at 1. rewrite H by lia. unfold rd8. rewrite u8_u8. do 2 f_equal. lia. }
  rewrite <- (Z.add_0_r (ELFHDR + a)) at 1. rewrite !E by lia. by rewrite Z.add_0_r.
Qed.

(** The first [n] segments are in place. *)
Definition placed (n : Z) (b : boot) : Prop :=
  forall i k, 0 <= i < n -> 0 <= k < p_memsz i -> bmem b (p_pa i + k) = rd8 image (p_offset i + k).

(** The first eight sectors arrive in the scratch page. *)
Lemma read_header b :
  wp (readseg ELFHDR (SECTSIZE * 8) 0) (fun _ b' => header_read b' /\ outws b' = outws b) b.
Proof using Hresp.
  eapply wp_mono; [apply readseg_places; unfold ELFHDR, SECTSIZE; done|]. intros [] b' [Hb Hout]. split; [|done].
  intros x Hx. rewrite Hb. change (seg_start ELFHDR) with ELFHDR. change (seg_stop ELFHDR (SECTSIZE * 8)) with (ELFHDR + 4096).
  rewrite Z.add_0_l. repeat bcase.
Qed.

Context (Hld : loadable).

Lemma load_ph_places j b :
  0 <= j < phnum -> header_read b -> placed j b ->
  wp (load_ph (u32 (ELFHDR + phoff + j * Env.sizeof_Proghdr)))
    (fun r b' => r = None /\ header_read b' /\ placed (j + 1) b' /\ outws b' = outws b) b.
Proof using Hresp Hld.
  intros Hj Hh Hpl. pose proof (ld_headers Hld) as Hhd. pose proof (rd32_range image Env.off_e_phoff).
  fold phoff in *. change Env.sizeof_Proghdr with 32 in *.
  assert (forall o, 0 <= o <= 28 -> rd32 (bmem b) (u32 (ELFHDR + phoff + j * 32) + o) = ph_field j o) as Hf.
  { intros o Ho. unfold ph_field. change ELFHDR with 65536 in *. rewrite u32_id by lia.
    replace (65536 + phoff + j * 32 + o) with (ELFHDR + (phoff + j * 32 + o)) by (unfold ELFHDR; lia).
    by rewrite (header_rd32 b _ Hh) by lia. }
  unfold load_ph, load32. do 3 (apply wp_bind, wp_gets). rewrite !Hf by done. fold (p_pa j) (p_memsz j) (p_offset j).
  assert (0 <= p_pa j < 4294967296) as Rp by apply rd32_range.
  assert (0 <= p_memsz j < 4294967296) as Rm by apply rd32_range.
  assert (0 <= p_offset j < 4294967296) as Ro by apply rd32_range.
  pose proof (ld_fits Hld j Hj). destruct (seg_bounds (p_pa j) (p_memsz j) 0) as (B1 & B2 & B3 & _); [lia..|].
  fold (seg_stop (p_pa j) (p_memsz j)) in B3.
  apply wp_bind. eapply wp_mono; [apply readseg_places; [lia|lia|lia|lia|by apply (ld_aligned Hld)]|].
  intros [] b' [Hb Hout]. apply wp_ret. split_and!; [done| | |done].
  - intros x Hx. rewrite Hb. destruct (ld_scratch Hld j Hj); repeat bcase; by apply Hh.
  - intros i k Hi Hk. rewrite Hb. destruct (decide (i = j)) as [->|].
    + replace (p_pa j + k - p_pa j) with k by lia. unfold seg_stop in *. repeat bcase.
    + destruct (ld_apart Hld i j) as [Ha|[Ha|Ha]]; [lia|lia| | |].
      * repeat bcase. by apply Hpl; lia.
      * repeat bcase. by apply Hpl; lia.
      * replace (p_offset j + (p_pa i + k - p_pa j)) with (p_offset i + k) by lia.
        rewrite Hpl by lia. repeat bcase.
Qed.

Lemma load_all b :
  header_read b ->
  wp (mfor (Z.to_nat phnum) 0 (fun i => load_ph (u32 (ELFHDR + phoff + i * Env.sizeof_Proghdr))))
    (fun _ b' => header_read b' /\ placed phnum b' /\ outws b' = outws b) b.
Proof using Hresp Hld.
  intros Hh. assert (0 <= phnum) as Hn.
  { unfold phnum, rd16. pose proof (rd8_range image Env.off_e_phnum). pose proof (rd8_range image (Env.off_e_phnum + 1)). lia. }
  apply (wp_mfor (R := unit) _ _ (fun j b' => header_read b' /\ placed j b' /\ outws b' = outws b)).
  - split_and!; [done| |done]. intros i k Hi. lia.
  - intros j b' Hj (Hh' & Hp' & Ho'). eapply wp_mono; [apply load_ph_places; [lia|done|done]|].
    intros r b2 (-> & ? & ? & ?). split_and!; [done|done|congruence].
  - intros b'. by replace (0 + Z.of_nat (Z.to_nat phnum)) with phnum by lia.
Qed.

End loader.

(** C32: the boot loader loads the kernel.  With a drive that gets ready within
    the patience of the wait loop, an image without the ELF magic number makes
    [bootmain] report so and spin; one with it, whose segments are placed alike
    in the file and in memory and do not overwrite each other or the headers in
    the scratch page, is entered at its entry point with every byte of every
    segment in memory where the program header says. *)
Theorem bootmain_loads (disk : mem) (status : nat -> Z) (patience : nat) (b : boot) :
  responsive status patience -> loadable disk ->
  if rd32 (image disk) 0 =? Env.ELF_MAGIC
  then exists b', bootmain disk status patience b = Ok (Enter (rd32 (image disk) Env.off_e_entry)) b'
    /\ (forall i k, 0 <= i < phnum disk -> 0 <= k < p_memsz disk i ->
          bmem b' (p_pa disk i + k) = rd8 (image disk) (p_offset disk i + k))
    /\ outws b' = outws b
  else exists b', bootmain disk status patience b = Ok Bad b'
    /\ outws b' = outws b ++ [(35328, 35328); (35328, 36352)].
Proof.
  intros Hr Hld.
  destruct (wp_run _ _ _ (read_header disk status patience Hr b)) as ([] & b1 & E1 & Hh & Ho).
  pose proof (header_rd32 disk b1 0 Hh ltac:(lia)) as E0. rewrite Z.add_0_r in E0.
  destruct (rd32 (image disk) 0 =? Env.ELF_MAGIC) eqn:Em; unfold bootmain, mbind at 1; rewrite E1;
    unfold load32 at 1; unfold mbind at 1, mgets at 1; rewrite E0, Em; cbn [negb].
  - unfold load32 at 1. unfold mbind at 1, mgets at 1. rewrite (header_rd32 disk b1 _ Hh) by done. fold (phoff disk).
    unfold mbind at 1, mgets at 1. rewrite (header_rd16 disk b1 _ Hh) by done. fold (phnum disk).
    destruct (wp_run _ _ _ (load_all disk status patience Hr Hld b1 Hh)) as (r & b2 & E2 & Hh2 & Hp & Ho2).
    unfold mbind at 1. rewrite E2. unfold load32, mbind, mgets. rewrite (header_rd32 disk b2 _ Hh2) by done.
    exists b2. split; [done|]. split; [exact Hp|congruence].
  - eexists. split; [done|]. cbn. by rewrite Ho, <- app_assoc.
Qed.

(** An image with one segment of 16 bytes for address 0x100000 in its ninth
    sector, on a drive that is busy every other time it is asked. *)
Definition one_segment : mem := fun x =>
  let k := x - 512 in
  if k =? 0 then 127 else if k =? 1 then 69 else if k =? 2 then 76 else if k =? 3 then 70
  else if k =? 26 then 16
  else if k =? 28 then 52 else if k =? 44 then 1
  else if k =? 57 then 16
  else if k =? 66 then 16
  else if k =? 72 then 16
  else if (4096 <=? k) && (k <? 4112) then k - 4000 else 0.

Definition slow (n : nat) : Z := if Nat.even n then 128 else 64.

Lemma slow_responsive : responsive slow 2.
Proof.
  intros k. destruct (Nat.even k) eqn:E.
  - exists 1%nat. split; [lia|]. unfold slow. rewrite Nat.even_add, E. reflexivity.
  - exists 0%nat. split; [lia|]. unfold slow. by rewrite Nat.add_0_r, E.
Qed.

Lemma one_segment_loadable : loadable one_segment.
Proof.
  assert (phnum one_segment = 1) as En by reflexivity.
  split; rewrite ?En.
  - vm_compute. congruence.
  - intros i Hi. replace i with 0 by lia. vm_compute. congruence.
  - intros i Hi. replace i with 0 by lia. reflexivity.
  - intros i Hi. replace i with 0 by lia. right. vm_compute. congruence.
  - intros i j Hi Hj. lia.
Qed.

Definition power_on : boot := mkBoot (fun _ => 0) (fun _ => 0) (0, 0%nat) 0 [].

Lemma bootmain_loads_witness :
  exists b', bootmain one_segment slow 2 power_on = Ok (Enter 1048576) b'
    /\ bmem b' 1048578 = 98.
Proof.
  destruct (bootmain_loads one_segment slow 2 power_on slow_responsive one_segment_loadable) as (b' & E & Hb & _).
  exists b'. split; [exact E|]. exact (Hb 0 2 ltac:(split; reflexivity || discriminate) ltac:(split; reflexivity || discriminate)).
Defined.

End Boot.
