(* ===== verification/Intr.v ===== *)
(** * Interrupt controllers and the other processors (kern/picirq.c,
    kern/lapic.c, [boot_aps] of kern/init.c)

    The code writes device registers; what that means is the state of the two
    8259A controllers, of the local APIC of the boot processor and of the
    processors that wait for it, which follow the manuals: initialisation
    command words in sequence, an ICW1 that clears the mask, interprocessor
    interrupts to the processor whose identifier is in the upper word of the
    command register.  A processor that is started reads its stack pointer as
    late as it can, when it is about to report.

    The theorems: [pic_init] leaves both controllers ready with the documented
    vectors, whatever state they were in; [boot_aps] starts every other
    processor exactly once, in order, at the entry code and with a stack of its
    own. *)

From stdpp Require Import base numbers list functions strings.
From Stdlib Require Import ZArith Lia.
From S2P Require Import Prelude Mmu Kernel Umonad Trap.

Open Scope Z_scope.
Open Scope usr_scope.

Module Intr.

Import Trap.

(** ** The devices *)

(** Which initialisation command word is expected; 8259A data sheet. *)
Inductive icw := Ready | Icw2 | Icw3 | Icw4.

Record i8259 := mkPic {
  expects : icw;
  wants_icw4 : bool;
  vector : Z;
  cascade : Z;
  auto_eoi : bool;
  special_mask : bool;
  imr : Z;
  eois : Z
}.

(** A write to the even port. *)
Definition pic_command (v : Z) (p : i8259) : i8259 :=
  if flag v 16 then mkPic Icw2 (flag v 1) (vector p) (cascade p) false false 0 (eois p)
  else if flag v 8 then
    mkPic (expects p) (wants_icw4 p) (vector p) (cascade p) (auto_eoi p)
      (if flag v 64 then flag v 32 else special_mask p) (imr p) (eois p)
  else
    mkPic (expects p) (wants_icw4 p) (vector p) (cascade p) (auto_eoi p) (special_mask p) (imr p)
      (if flag v 32 then eois p + 1 else eois p).

(** A write to the odd port. *)
Definition pic_data (v : Z) (p : i8259) : i8259 :=
  match expects p with
  | Ready => mkPic Ready (wants_icw4 p) (vector p) (cascade p) (auto_eoi p) (special_mask p) v (eois p)
  | Icw2 => mkPic Icw3 (wants_icw4 p) (Z.land v 248) (cascade p) (auto_eoi p) (special_mask p) (imr p) (eois p)
  | Icw3 => mkPic (if wants_icw4 p then Icw4 else Ready) (wants_icw4 p) (vector p) v (auto_eoi p) (special_mask p) (imr p) (eois p)
  | Icw4 => mkPic Ready (wants_icw4 p) (vector p) (cascade p) (flag v 2) (special_mask p) (imr p) (eois p)
  end.

(** A processor, by its APIC identifier: it has not been reset, waits for a
    STARTUP message, runs the entry code for [left] more polls of the boot
    processor, or has reported. *)
Inductive ap := Off | Waiting | Booting (left : nat) (entry : Z) | Reported.

Record intr := mkIntr {
  irq_mask_8259A : Z;
  didinit : bool;
  pic1 : i8259;
  pic2 : i8259;
  enabled_shown : list Z;              (* the numbers printed *)
  lapicaddr : Z;
  lapic : bool;                        (* [lapic] is not null *)
  lreg : Z -> Z;
  lpolls : nat;
  rtc : list (Z * Z);
  wrv : Z * Z;
  aps : Z -> ap;
  cpu_status : Z -> Z;                 (* [cpus[i].cpu_status] *)
  mpentry_kstack : Z;
  entry_code : bool;                   (* mpentry.S is at [MPENTRY_PADDR] *)
  started : list (Z * Z * Z)           (* processor, entry point, stack *)
}.

Definition set_mask (m : Z) (s : intr) : intr :=
  mkIntr m (didinit s) (pic1 s) (pic2 s) (enabled_shown s) (lapicaddr s) (lapic s) (lreg s) (lpolls s) (rtc s) (wrv s)
    (aps s) (cpu_status s) (mpentry_kstack s) (entry_code s) (started s).

Definition set_didinit (s : intr) : intr :=
  mkIntr (irq_mask_8259A s) true (pic1 s) (pic2 s) (enabled_shown s) (lapicaddr s) (lapic s) (lreg s) (lpolls s) (rtc s) (wrv s)
    (aps s) (cpu_status s) (mpentry_kstack s) (entry_code s) (started s).

Definition set_pics (p1 p2 : i8259) (s : intr) : intr :=
  mkIntr (irq_mask_8259A s) (didinit s) p1 p2 (enabled_shown s) (lapicaddr s) (lapic s) (lreg s) (lpolls s) (rtc s) (wrv s)
    (aps s) (cpu_status s) (mpentry_kstack s) (entry_code s) (started s).

Definition show_irqs (l : list Z) (s : intr) : intr :=
  mkIntr (irq_mask_8259A s) (didinit s) (pic1 s) (pic2 s) (enabled_shown s ++ l) (lapicaddr s) (lapic s) (lreg s) (lpolls s) (rtc s)
    (wrv s) (aps s) (cpu_status s) (mpentry_kstack s) (entry_code s) (started s).

Definition set_lapic (s : intr) : intr :=
  mkIntr (irq_mask_8259A s) (didinit s) (pic1 s) (pic2 s) (enabled_shown s) (lapicaddr s) true (lreg s) (lpolls s) (rtc s) (wrv s)
    (aps s) (cpu_status s) (mpentry_kstack s) (entry_code s) (started s).

Definition set_lreg (r : Z -> Z) (s : intr) : intr :=
  mkIntr (irq_mask_8259A s) (didinit s) (pic1 s) (pic2 s) (enabled_shown s) (lapicaddr s) (lapic s) r (lpolls s) (rtc s) (wrv s)
    (aps s) (cpu_status s) (mpentry_kstack s) (entry_code s) (started s).

Definition set_lpolls (n : nat) (s : intr) : intr :=
  mkIntr (irq_mask_8259A s) (didinit s) (pic1 s) (pic2 s) (enabled_shown s) (lapicaddr s) (lapic s) (lreg s) n (rtc s) (wrv s)
    (aps s) (cpu_status s) (mpentry_kstack s) (entry_code s) (started s).

Definition set_reset (r : list (Z * Z)) (w : Z * Z) (s : intr) : intr :=
  mkIntr (irq_mask_8259A s) (didinit s) (pic1 s) (pic2 s) (enabled_shown s) (lapicaddr s) (lapic s) (lreg s) (lpolls s) r w
    (aps s) (cpu_status s) (mpentry_kstack s) (entry_code s) (started s).

Definition set_aps (a : Z -> ap) (s : intr) : intr :=
  mkIntr (irq_mask_8259A s) (didinit s) (pic1 s) (pic2 s) (enabled_shown s) (lapicaddr s) (lapic s) (lreg s) (lpolls s) (rtc s) (wrv s)
    a (cpu_status s) (mpentry_kstack s) (entry_code s) (started s).

Definition set_kstack (k : Z) (s : intr) : intr :=
  mkIntr (irq_mask_8259A s) (didinit s) (pic1 s) (pic2 s) (enabled_shown s) (lapicaddr s) (lapic s) (lreg s) (lpolls s) (rtc s) (wrv s)
    (aps s) (cpu_status s) k (entry_code s) (started s).

Definition set_entry_code (s : intr) : intr :=
  mkIntr (irq_mask_8259A s) (didinit s) (pic1 s) (pic2 s) (enabled_shown s) (lapicaddr s) (lapic s) (lreg s) (lpolls s) (rtc s) (wrv s)
    (aps s) (cpu_status s) (mpentry_kstack s) true (started s).

(** Processor [i] reports, with the entry point and the stack it has used. *)
Definition report (i entry : Z) (s : intr) : intr :=
  mkIntr (irq_mask_8259A s) (didinit s) (pic1 s) (pic2 s) (enabled_shown s) (lapicaddr s) (lapic s) (lreg s) (lpolls s) (rtc s) (wrv s)
    (<[i := Reported]> (aps s)) (<[i := CPU_STARTED]> (cpu_status s)) (mpentry_kstack s) (entry_code s)
    (started s ++ [(i, entry, mpentry_kstack s)]).

(** ** kern/picirq.c *)

Definition IRQ_SLAVE : Z := 2.

(** [outb] to IO_PIC1, IO_PIC1+1, IO_PIC2, IO_PIC2+1. *)
Definition out_pic1 (v : Z) : M intr unit := mmodify (fun s => set_pics (pic_command (u8 v) (pic1 s)) (pic2 s) s).

Definition out_pic1_data (v : Z) : M intr unit := mmodify (fun s => set_pics (pic_data (u8 v) (pic1 s)) (pic2 s) s).

Definition out_pic2 (v : Z) : M intr unit := mmodify (fun s => set_pics (pic1 s) (pic_command (u8 v) (pic2 s)) s).

Definition out_pic2_data (v : Z) : M intr unit := mmodify (fun s => set_pics (pic1 s) (pic_data (u8 v) (pic2 s)) s).

(** The numbers the loop prints. *)
Definition enabled (mask : Z) : list Z :=
  filter (fun i => negb (Z.testbit mask i) = true) (seqZ 0 16).

Definition irq_setmask_8259A (mask : Z) : M intr unit :=
  do! mmodify (set_mask (Z.land mask (Z.lnot (Z.shiftl 1 IRQ_E1000)))) in
  let! d := mgets didinit in
  if negb d then mret tt else
  do! out_pic1_data mask in
  do! out_pic2_data (Z.shiftr mask 8) in
  mmodify (show_irqs (enabled mask)).

Definition pic_init : M intr unit :=
  do! mmodify set_didinit in
  do! out_pic1_data 255 in
  do! out_pic2_data 255 in
  do! out_pic1 17 in
  do! out_pic1_data IRQ_OFFSET in
  do! out_pic1_data (Z.shiftl 1 IRQ_SLAVE) in
  do! out_pic1_data 3 in
  do! out_pic2 17 in
  do! out_pic2_data (IRQ_OFFSET + 8) in
  do! out_pic2_data IRQ_SLAVE in
  do! out_pic2_data 1 in
  do! out_pic1 104 in
  do! out_pic1 10 in
  do! out_pic2 104 in
  do! out_pic2 10 in
  let! m := mgets irq_mask_8259A in
  if negb (m =? 65535) then irq_setmask_8259A m else mret tt.

Definition irq_eoi : M intr unit :=
  do! out_pic1 32 in
  out_pic2 32.

(** ** kern/lapic.c *)

Definition ID : Z := 8.

Definition VER : Z := 12.

Definition TPR : Z := 32.

Definition EOI : Z := 44.

Definition SVR : Z := 60.

Definition ESR : Z := 160.

Definition ICRLO : Z := 192.

Definition ICRHI : Z := 196.

Definition TIMER : Z := 200.

Definition PCINT : Z := 208.

Definition LINT0 : Z := 212.

Definition LINT1 : Z := 216.

Definition ERROR : Z := 220.

Definition TICR : Z := 224.

Definition TDCR : Z := 248.

Definition ENABLE : Z := 256.

Definition INIT : Z := 1280.

Definition STARTUP : Z := 1536.

Definition DELIVS : Z := 4096.

Definition ASSERT : Z := 16384.

Definition LEVEL : Z := 32768.

Definition BCAST : Z := 524288.

Definition OTHERS : Z := 786432.

Definition FIXED : Z := 0.

Definition X1 : Z := 11.

Definition PERIODIC : Z := 131072.

Definition MASKED : Z := 65536.

Section machine.

(** Whether the [n]th read of the command register finds a message under way,
    how many reads the wait loops are given, and how many polls a processor
    takes to start. *)
Context (delivs : nat -> bool) (patience lag : nat).

(** A message to processor [i]: an INIT that is asserted resets it, a STARTUP
    gets it going if it waits and the entry code is there. *)
Definition deliver (i v : Z) (s : intr) : res intr unit :=
  if flag v OTHERS || flag v BCAST then Ok tt s
  else if Z.land v 1792 =? INIT then
    if flag v ASSERT then Ok tt (set_aps (<[i := Waiting]> (aps s)) s) else Ok tt s
  else if Z.land v 1792 =? STARTUP then
    match aps s i with
    | Waiting =>
      if entry_code s && (4096 * Z.land v 255 =? MPENTRY_PADDR)
      then Ok tt (set_aps (<[i := Booting lag (4096 * Z.land v 255)]> (aps s)) s)
      else Undefined "a processor runs what is not code" s
    | _ => Ok tt s
    end
  else Ok tt s.

Definition lapicw (index value : Z) : M intr unit := fun s =>
  let s := set_lreg (<[index := u32 value]> (lreg s)) s in
  if index =? ICRLO then deliver (Z.shiftr (lreg s ICRHI) 24) (u32 value) s else Ok tt s.

Fixpoint icr_wait (n : nat) : M intr unit :=
  match n with
  | O => mundef "the message is not delivered"
  | S n => fun s =>
    let s' := set_lpolls (S (lpolls s)) s in
    if delivs (lpolls s) then icr_wait n s' else Ok tt s'
  end.

(** [boot] says whether this is the boot processor; [mmio_map_region], which maps
    the registers, is in Pmap.v. *)
Definition lapic_init (boot : bool) : M intr unit :=
  let! a := mgets lapicaddr in
  if a =? 0 then mret tt else
  do! mmodify set_lapic in
  do! lapicw SVR (Z.lor ENABLE (IRQ_OFFSET + IRQ_SPURIOUS)) in
  do! lapicw TDCR X1 in
  do! lapicw TIMER (Z.lor PERIODIC (IRQ_OFFSET + IRQ_TIMER)) in
  do! lapicw TICR 10000000 in
  do! (if boot then mret tt else lapicw LINT0 MASKED) in
  do! lapicw LINT1 MASKED in
  let! v := mgets (fun s => lreg s VER) in
  do! (if 4 <=? Z.land (Z.shiftr v 16) 255 then lapicw PCINT MASKED else mret tt) in
  do! lapicw ERROR (IRQ_OFFSET + IRQ_ERROR) in
  do! lapicw ESR 0 in
  do! lapicw ESR 0 in
  do! lapicw EOI 0 in
  do! lapicw ICRHI 0 in
  do! lapicw ICRLO (Z.lor (Z.lor BCAST INIT) LEVEL) in
  do! icr_wait patience in
  lapicw TPR 0.

Definition cpunum : M intr Z := mgets (fun s => if lapic s then Z.shiftr (lreg s ID) 24 else 0).

Definition lapic_eoi : M intr unit :=
  let! l := mgets lapic in
  if l : bool then lapicw EOI 0 else mret tt.

(** The body of the loop that sends STARTUP. *)
Definition startup_ipi (apicid addr : Z) : M intr unit :=
  do! lapicw ICRHI (Z.shiftl apicid 24) in
  lapicw ICRLO (Z.lor STARTUP (Z.shiftr addr 12)).

Definition lapic_startap (apicid addr : Z) : M intr unit :=
  do! mmodify (fun s => set_reset (rtc s ++ [(15, 10)]) (0, u16 (Z.shiftr addr 4)) s) in
  do! lapicw ICRHI (Z.shiftl apicid 24) in
  do! lapicw ICRLO (Z.lor (Z.lor INIT LEVEL) ASSERT) in
  do! lapicw ICRLO (Z.lor INIT LEVEL) in
  do! startup_ipi apicid addr in
  startup_ipi apicid addr.

Definition lapic_ipi (vector : Z) : M intr unit :=
  do! lapicw ICRLO (Z.lor (Z.lor OTHERS FIXED) vector) in
  icr_wait patience.

(** ** kern/init.c: boot_aps *)

(** The other processors get on while the boot processor polls. *)
Definition progress (i : Z) (s : intr) : intr :=
  match aps s i with
  | Booting O entry => report i entry s
  | Booting (S n) entry => set_aps (<[i := Booting n entry]> (aps s)) s
  | _ => s
  end.

(** [while (c->cpu_status != CPU_STARTED) ;] *)
Fixpoint wait_started (n : nat) (i : Z) : M intr unit :=
  match n with
  | O => mundef "the processor does not start"
  | S n => fun s => if cpu_status s i =? CPU_STARTED then Ok tt s else wait_started n i (progress i s)
  end.

(** [kstacks] is the address of [percpu_kstacks], [cpu_id] the field of each
    entry of [cpus]. *)
Definition boot_ap (cpu_id : Z -> Z) (kstacks i : Z) : M intr (option unit) :=
  let! me := cpunum in
  if i =? me then mret None else
  do! mmodify (set_kstack (kstacks + i * KSTKSIZE + KSTKSIZE)) in
  do! lapic_startap (u8 (cpu_id i)) MPENTRY_PADDR in
  do! wait_started patience i in
  mret None.

Definition boot_aps (cpu_id : Z -> Z) (kstacks ncpu : Z) : M intr unit :=
  do! mmodify set_entry_code in
  do! mfor (Z.to_nat ncpu) 0 (boot_ap cpu_id kstacks) in
  mret tt.

(** ** Starting one processor *)

(** What starting processor [i] leaves alone. *)
Record kept (i : Z) (s s' : intr) : Prop := {
  kp_code : entry_code s' = entry_code s;
  kp_lapic : lapic s' = lapic s;
  kp_id : lreg s' ID = lreg s ID;
  kp_others : forall j, j <> i -> cpu_status s' j = cpu_status s j
}.

Lemma shift_id i : 0 <= i < 256 -> Z.shiftr (u32 (Z.shiftl i 24)) 24 = i.
Proof.
  intros H. rewrite Z.shiftl_mul_pow2, Z.shiftr_div_pow2 by lia. change (2 ^ 24) with 16777216.
  rewrite u32_id by lia. by rewrite Z.div_mul.
Qed.

(** The destination is in the upper word of the command register. *)
Definition aimed (i : Z) (s : intr) : Prop := lreg s ICRHI = u32 (Z.shiftl i 24).

(** The same but for the registers of the local APIC. *)
Definition only_lreg (s s' : intr) : Prop := s' = set_lreg (lreg s') s /\ lreg s' ID = lreg s ID.

Lemma aim i s : exists s', lapicw ICRHI (Z.shiftl i 24) s = Ok tt s' /\ aimed i s' /\ only_lreg s s'.
Proof.
  eexists. split; [reflexivity|]. unfold aimed, only_lreg. cbn. fsimpl. by destruct s.
Qed.

Lemma send_ipi i v s :
  0 <= i < 256 -> aimed i s ->
  exists s', lapicw ICRLO v s = deliver i (u32 v) s' /\ aimed i s' /\ only_lreg s s'.
Proof.
  intros Hi Ha. unfold lapicw. change (ICRLO =? ICRLO) with true. cbv iota.
  exists (set_lreg (<[ICRLO := u32 v]> (lreg s)) s). unfold aimed, only_lreg in *.
  cbn [lreg set_lreg]. rewrite !fn_lookup_insert_ne, Ha, shift_id by done. by destruct s.
Qed.

Lemma startap_boots i s :
  0 <= i < 256 -> entry_code s = true ->
  exists s', lapic_startap i MPENTRY_PADDR s = Ok tt s' /\ kept i s s'
    /\ aps s' i = Booting lag MPENTRY_PADDR /\ cpu_status s' = cpu_status s
    /\ mpentry_kstack s' = mpentry_kstack s /\ started s' = started s.
Proof.
  intros Hi Hc. unfold lapic_startap, startup_ipi, mbind, mmodify. set (s0 := set_reset _ _ s).
  destruct (aim i s0) as (s1 & -> & A1 & O1 & I1).
  destruct (send_ipi i (Z.lor (Z.lor INIT LEVEL) ASSERT) s1 Hi A1) as (s2 & -> & A2 & O2 & I2).
  change (deliver i (u32 (Z.lor (Z.lor INIT LEVEL) ASSERT)) s2) with (Ok tt (set_aps (<[i := Waiting]> (aps s2)) s2)).
  destruct (send_ipi i (Z.lor INIT LEVEL) (set_aps (<[i := Waiting]> (aps s2)) s2) Hi A2) as (s3 & -> & A3 & O3 & I3).
  change (deliver i (u32 (Z.lor INIT LEVEL)) s3) with (Ok tt s3).
  destruct (aim i s3) as (s4 & -> & A4 & O4 & I4).
  destruct (send_ipi i (Z.lor STARTUP (Z.shiftr MPENTRY_PADDR 12)) s4 Hi A4) as (s5 & -> & A5 & O5 & I5).
  assert (entry_code s5 = true) as Hc5 by (rewrite O5, O4, O3, O2, O1; exact Hc).
  assert (aps s5 i = Waiting) as Ha5 by (rewrite O5, O4, O3; cbn; apply fn_lookup_insert).
  assert (deliver i (u32 (Z.lor STARTUP (Z.shiftr MPENTRY_PADDR 12))) s5
          = Ok tt (set_aps (<[i := Booting lag MPENTRY_PADDR]> (aps s5)) s5)) as ->.
  { unfold deliver. rewrite Ha5, Hc5. reflexivity. }
  set (s6 := set_aps _ s5). destruct (aim i s6) as (s7 & -> & A7 & O7 & I7).
  destruct (send_ipi i (Z.lor STARTUP (Z.shiftr MPENTRY_PADDR 12)) s7 Hi A7) as (s8 & -> & A8 & O8 & I8).
  assert (aps s8 i = Booting lag MPENTRY_PADDR) as Ha8 by (rewrite O8, O7; subst s6; cbn; apply fn_lookup_insert).
  assert (deliver i (u32 (Z.lor STARTUP (Z.shiftr MPENTRY_PADDR 12))) s8 = Ok tt s8) as ->.
  { unfold deliver. rewrite Ha8. reflexivity. }
  exists s8. split; [done|]. split; [|split; [done|]].
  - split; [| | |intros j _]; try (rewrite O8, O7; subst s6; cbn; rewrite O5, O4, O3; cbn; rewrite O2, O1; done).
    rewrite I8, I7. subst s6. cbn. rewrite I5, I4, I3. cbn. by rewrite I2, I1.
  - split_and!; (rewrite O8, O7; subst s6; cbn; rewrite O5, O4, O3; cbn; rewrite O2, O1; done).
Qed.

(** The processor reports after [n] more polls, with the stack it finds then. *)
Lemma wait_reports n : forall m i entry s,
  aps s i = Booting n entry -> cpu_status s i <> CPU_STARTED -> (n + 2 <= m)%nat ->
  exists s', wait_started m i s = Ok tt s' /\ kept i s s' /\ cpu_status s' i = CPU_STARTED
    /\ started s' = started s ++ [(i, entry, mpentry_kstack s)].
Proof.
  induction n as [|n IH]; intros [|m] i entry s Ha Hs Hm; [lia| |lia|]; cbn [wait_started].
  - destruct (Z.eqb_spec (cpu_status s i) CPU_STARTED); [done|]. unfold progress. rewrite Ha.
    destruct m as [|m]; [lia|]. cbn [wait_started cpu_status report]. rewrite fn_lookup_insert, Z.eqb_refl.
    exists (report i entry s). split; [done|]. split; [|split; [cbn; by rewrite fn_lookup_insert|done]].
    split; [done|done|done|]. intros j Hj. cbn. by fsimpl.
  - destruct (Z.eqb_spec (cpu_status s i) CPU_STARTED); [done|]. unfold progress. rewrite Ha.
    destruct (IH m i entry (set_aps (<[i := Booting n entry]> (aps s)) s)) as (s' & E & [] & Hs' & Hst);
      [cbn; by rewrite fn_lookup_insert|done|lia|].
    exists s'. split; [done|]. split; [by constructor|done].
Qed.

(** The processors with numbers below [n] other than [me]. *)
Definition others (me n : Z) : list Z := filter (fun i => i <> me) (seqZ 0 n).

Definition entered (kstacks i : Z) : Z * Z * Z := (i, MPENTRY_PADDR, kstacks + (i + 1) * KSTKSIZE).

Lemma others_S me n : 0 <= n -> others me (n + 1) = others me n ++ if decide (n <> me) then [n] else [].
Proof.
  intros H. unfold others. rewrite seqZ_app by lia. rewrite filter_app. by f_equal.
Qed.

Section start.

Context (cpu_id : Z -> Z) (kstacks ncpu me : Z) (s0 : intr).
Context (Hlag : (lag + 2 <= patience)%nat) (Hn : 0 <= ncpu <= 256).
Context (Hids : forall i, 0 <= i < ncpu -> cpu_id i = i).
Context (Hnew : forall i, 0 <= i < ncpu -> i <> me -> cpu_status s0 i <> CPU_STARTED).
Context (Hlapic : lapic s0 = true) (Hme : Z.shiftr (lreg s0 ID) 24 = me).

(** The processors below [n] have been started. *)
Definition started_below (n : Z) (s : intr) : Prop :=
  entry_code s = true /\ lapic s = true /\ lreg s ID = lreg s0 ID
  /\ (forall i, n <= i -> cpu_status s i = cpu_status s0 i)
  /\ (forall i, i ∈ others me n -> cpu_status s i = CPU_STARTED)
  /\ started s = started s0 ++ map (entered kstacks) (others me n).

Lemma boot_ap_starts i s :
  0 <= i < ncpu -> started_below i s ->
  wp (boot_ap cpu_id kstacks i) (fun r s' => r = None /\ started_below (i + 1) s') s.
Proof using Hlag Hn Hids Hnew Hme.
  intros Hi (Hc & Hl & Hid & Hrest & Hst & Hlog). unfold boot_ap. apply wp_bind, wp_gets. rewrite Hl, Hid, Hme.
  unfold started_below. rewrite others_S by lia. destruct (Z.eqb_spec i me) as [->|Hne].
  - rewrite decide_False by auto. rewrite app_nil_r. apply wp_ret. split_and!; try done. intros j Hj. apply Hrest. lia.
  - rewrite decide_True by done. apply wp_bind, wp_modify. set (s1 := set_kstack _ s).
    rewrite Hids, (u8_id i) by lia.
    destruct (startap_boots i s1) as (s2 & E2 & K2 & Ha2 & Hs2 & Hk2 & Hl2); [lia|done|].
    apply wp_bind. unfold wp at 1. rewrite E2.
    destruct (wait_reports lag patience i MPENTRY_PADDR s2 Ha2) as (s3 & E3 & K3 & Hs3 & Hl3); [|lia|].
    { rewrite Hs2. cbn. rewrite Hrest by lia. by apply Hnew. }
    apply wp_bind. unfold wp at 1. rewrite E3. apply wp_ret. split; [done|]. destruct K2, K3. split_and!.
    + rewrite kp_code1, kp_code0. exact Hc.
    + rewrite kp_lapic1, kp_lapic0. exact Hl.
    + rewrite kp_id1, kp_id0. exact Hid.
    + intros j Hj. rewrite kp_others1, Hs2 by lia. apply Hrest. lia.
    + intros j [Hj|Hj%list_elem_of_singleton]%elem_of_app; [|by subst].
      destruct (decide (j = i)) as [->|]; [done|]. rewrite kp_others1, Hs2 by done. by apply Hst.
    + rewrite Hl3, Hl2, Hk2. change (started s1) with (started s). rewrite Hlog, map_app, app_assoc. cbn.
      do 3 f_equal. unfold entered, s1. cbn. f_equal. lia.
Qed.

End start.

End machine.

(** C33: [boot_aps] starts the other processors.  With processors numbered by
    their APIC identifiers, as the configuration code assumes, and loops that
    wait long enough, it returns when every processor but the one it runs on has
    entered the kernel, each exactly once, one after the other, at the entry code
    and with its own stack, although the stack pointer is passed in one
    variable. *)
Theorem boot_aps_starts (patience lag : nat) (cpu_id : Z -> Z) (kstacks ncpu : Z) (s : intr) :
  let me := Z.shiftr (lreg s ID) 24 in
  (lag + 2 <= patience)%nat -> 0 <= ncpu <= 256 -> lapic s = true ->
  (forall i, 0 <= i < ncpu -> cpu_id i = i) ->
  (forall i, 0 <= i < ncpu -> i <> me -> cpu_status s i <> CPU_STARTED) ->
  exists s', boot_aps patience lag cpu_id kstacks ncpu s = Ok tt s'
    /\ started s' = started s ++ map (entered kstacks) (others me ncpu)
    /\ (forall i, 0 <= i < ncpu -> i <> me -> cpu_status s' i = CPU_STARTED).
Proof.
  intros me Hlag Hn Hl Hids Hnew.
  assert (wp (boot_aps patience lag cpu_id kstacks ncpu)
            (fun _ s' => started s' = started s ++ map (entered kstacks) (others me ncpu)
               /\ forall i, 0 <= i < ncpu -> i <> me -> cpu_status s' i = CPU_STARTED) s) as H;
    [|by destruct (wp_run _ _ _ H) as ([] & s' & E & Hs); exists s'].
  unfold boot_aps. apply wp_bind, wp_modify, wp_bind.
  eapply wp_mono; [apply (wp_mfor _ _ (started_below kstacks me s) (fun _ => started_below kstacks me s ncpu))|].
  - split; [done|]. split; [done|]. split; [done|]. split; [done|].
    change (others me 0) with (@nil Z). split; [intros i Hi; by apply elem_of_nil in Hi|by rewrite app_nil_r].
  - intros j s' Hj Hb. eapply wp_mono; [eapply (boot_ap_starts patience lag cpu_id kstacks ncpu me s); [done..|lia|done]|].
    intros r s2 [-> H2]. exact H2.
  - intros s'. by replace (0 + Z.of_nat (Z.to_nat ncpu)) with ncpu by lia.
  - intros _ s' (_ & _ & _ & _ & Hst & Hlog). apply wp_ret. split; [exact Hlog|].
    intros i Hi Hne. apply Hst. unfold others. apply list_elem_of_filter. split; [done|]. apply elem_of_seqZ. lia.
Qed.

Lemma wp_exists {S} (m : M S unit) (Q : S -> Prop) s : wp m (fun _ => Q) s -> exists s', m s = Ok tt s' /\ Q s'.
Proof. intros H. destruct (wp_run _ _ _ H) as ([] & s' & E & Hq). by exists s'. Qed.

(** ** The 8259A controllers *)

Lemma eois_data v p : eois (pic_data v p) = eois p.
Proof. unfold pic_data. by destruct (expects p). Qed.

(** The words each controller gets in [pic_init]. *)
Lemma master_ready p :
  pic_command (u8 10) (pic_command (u8 104) (pic_data (u8 3) (pic_data (u8 (Z.shiftl 1 IRQ_SLAVE)) (pic_data (u8 IRQ_OFFSET)
    (pic_command (u8 17) p))))) = mkPic Ready true 32 4 true true 0 (eois p).
Proof. reflexivity. Qed.

Lemma slave_ready p :
  pic_command (u8 10) (pic_command (u8 104) (pic_data (u8 1) (pic_data (u8 IRQ_SLAVE) (pic_data (u8 (IRQ_OFFSET + 8))
    (pic_command (u8 17) p))))) = mkPic Ready true 40 2 false true 0 (eois p).
Proof. reflexivity. Qed.

(** [pic_init] leaves both controllers ready, the master at vector 32 with
    automatic end of interrupt, the slave at vector 40 behind line 2, whatever
    state they were in.  Their masks are the two bytes of [irq_mask_8259A]; but
    when that masks everything they are left at the 0 of the initialisation, and
    everything is enabled.  The mask that is recorded enables the network card
    either way. *)
Theorem pic_init_programs s :
  0 <= irq_mask_8259A s < 65536 ->
  exists s', pic_init s = Ok tt s'
    /\ pic1 s' = mkPic Ready true 32 4 true true
                    (if irq_mask_8259A s =? 65535 then 0 else u8 (irq_mask_8259A s)) (eois (pic1 s))
    /\ pic2 s' = mkPic Ready true 40 2 false true
                    (if irq_mask_8259A s =? 65535 then 0 else u8 (Z.shiftr (irq_mask_8259A s) 8)) (eois (pic2 s))
    /\ irq_mask_8259A s' = if irq_mask_8259A s =? 65535 then 65535
                           else Z.land (irq_mask_8259A s) (Z.lnot 2048).
Proof.
  intros Hm. apply wp_exists. destruct s as [mask d p1 p2 sh la l lr lp rt wv ap cs mk ec st]. cbn [irq_mask_8259A pic1 pic2] in *.
  unfold pic_init, out_pic1, out_pic2, out_pic1_data, out_pic2_data.
  do 15 (apply wp_bind, wp_modify; cbv beta iota delta [set_pics set_didinit irq_mask_8259A didinit pic1 pic2 enabled_shown lapicaddr lapic
    lreg lpolls rtc wrv aps cpu_status mpentry_kstack entry_code started]).
  rewrite master_ready, slave_ready, !eois_data. apply wp_bind, wp_gets. cbv beta iota delta [irq_mask_8259A].
  destruct (Z.eqb_spec mask 65535) as [->|E]; cbn [negb]; [by apply wp_ret|].
  unfold irq_setmask_8259A. apply wp_bind, wp_modify, wp_bind, wp_gets. cbn [didinit set_mask negb].
  do 2 (apply wp_bind, wp_modify). apply wp_modify. by split_and!.
Qed.

(** What the controllers are told and what is recorded agree only if the
    network card's line is enabled in the mask. *)
Theorem irq_setmask_records mask s :
  0 <= mask < 65536 -> didinit s = true -> expects (pic1 s) = Ready -> expects (pic2 s) = Ready ->
  exists s', irq_setmask_8259A mask s = Ok tt s'
    /\ imr (pic1 s') + 256 * imr (pic2 s') = mask
    /\ (irq_mask_8259A s' = mask <-> Z.testbit mask 11 = false).
Proof.
  intros Hm Hd H1 H2. unfold irq_setmask_8259A, out_pic1_data, out_pic2_data, mbind, mmodify, mgets, mret.
  cbn [didinit set_mask]. rewrite Hd. cbn [negb]. eexists. split; [reflexivity|].
  unfold pic_data. cbn [pic1 pic2 set_pics show_irqs set_mask]. rewrite H1, H2.
  cbn [imr pic1 pic2 irq_mask_8259A set_pics show_irqs set_mask]. split.
  - rewrite Z.shiftr_div_pow2 by lia. change (2 ^ 8) with 256. unfold u8. zdm.
  - change (Z.shiftl 1 IRQ_E1000) with (2 ^ 11). rewrite <- Z.ldiff_land. split.
    + intros E. assert (Z.testbit (Z.ldiff mask (2 ^ 11)) 11 = false) as H.
      { by rewrite Z.ldiff_spec, Z.pow2_bits_true, andb_false_r by lia. }
      by rewrite E in H.
    + intros E. apply Z.bits_inj'. intros k Hk. rewrite Z.ldiff_spec, Z.pow2_bits_eqb by lia.
      destruct (Z.eqb_spec 11 k) as [<-|]; cbn [negb]; [by rewrite E|by rewrite andb_true_r].
Qed.

(** Four processors; the boot processor is number 0. *)
Definition four_cpus : intr :=
  mkIntr 65531 false (mkPic Ready false 8 0 false false 0 0) (mkPic Ready false 112 0 false false 0 0) []
    4276092928 true (fun _ => 0) 0 [] (0, 0) (fun _ => Off) (fun i => if i =? 0 then CPU_STARTED else CPU_UNUSED) 0 false [].

Lemma boot_aps_starts_witness :
  exists s', boot_aps 5 3 (fun i => i) 4027584512 4 four_cpus = Ok tt s'
    /\ started s' = [(1, 28672, 4027650048); (2, 28672, 4027682816); (3, 28672, 4027715584)].
Proof.
  destruct (boot_aps_starts 5 3 (fun i => i) 4027584512 4 four_cpus) as (s' & E & Hs & _);
    [lia|lia|reflexivity|reflexivity| |].
  { intros i _ Hi. cbn. destruct (Z.eqb_spec i 0) as [->|]; [exfalso; apply Hi; reflexivity|discriminate]. }
  exists s'. split; [exact E|]. rewrite Hs. reflexivity.
Defined.

End Intr.
