(* ===== verification/Usys.v ===== *)
(** * Environments at work (lib/syscall.c, lib/libmain.c)

    The user library from the point of view of one environment [c] that shares
    the machine with others.  A system call is the trap of kern/trap.c, so
    that the whole kernel path is taken: the frame is saved, the call
    dispatched, [%eax] set and an environment run.  What the rest of the system
    does between the kernel's leaving a call of [c] and the next instruction of
    [c] is a function from kernel states to kernel states; a run consumes one
    such turn per system call, and a theorem says what it asks of them.

    The theorems: which state the kernel leaves a call in when it returns at
    once, when the caller yields and when it blocks. *)

From stdpp Require Import base numbers list strings functions gmap.
From Stdlib Require Import ZArith Lia.
From S2P Require Import Prelude Mem Mmu Kernel Pmap AddrSpace Env Sched Syscall SyscallFacts Trap TrapFacts.

Open Scope Z_scope.

Module Usys.

Import Env Sched Trap TrapFacts.

Definition turn : Type := kstate -> kstate.

Record proc := mkProc {
  kern : kstate;
  turns : list turn
}.

(** How a run of user code ends: it returns; it calls [panic]; the kernel stops
    inside a call; the environment never runs again; the fuel of a loop is
    used up. *)
Inductive fate (A : Type) : Type :=
| Fin (a : A) (p : proc)
| Upanic (why : string) (p : proc)
| Kstop (o : outcome unit)
| Parked (s : kstate)
| Spins (p : proc).

Arguments Fin {A} _ _.
Arguments Upanic {A} _ _.
Arguments Kstop {A} _.
Arguments Parked {A} _.
Arguments Spins {A} _.

Definition U (A : Type) : Type := proc -> fate A.

Definition uret {A} (a : A) : U A := fun p => Fin a p.

Definition ubind {A B} (m : U A) (k : A -> U B) : U B := fun p =>
  match m p with
  | Fin a p' => k a p'
  | Upanic w p' => Upanic w p'
  | Kstop o => Kstop o
  | Parked s => Parked s
  | Spins p' => Spins p'
  end.

Definition upanic {A} (why : string) : U A := fun p => Upanic why p.

(** A read of [envs[]], which the kernel maps read-only at [UENVS]. *)
Definition look {A} (f : (Z -> Env) -> A) : U A := fun p => Fin (f (envs (kern p))) p.

Declare Scope proc_scope.
Delimit Scope proc_scope with proc.

Notation "'let!' x ':=' m 'in' k" := (ubind m (fun x => k))
  (at level 10, x binder, m at level 100, k at level 200) : proc_scope.
Notation "'do!' m 'in' k" := (ubind m (fun _ => k))
  (at level 10, m at level 100, k at level 200) : proc_scope.

Lemma ubind_fin {A B} (m : U A) (k : A -> U B) p a p' :
  m p = Fin a p' -> ubind m k p = k a p'.
Proof. intros H. unfold ubind. by rewrite H. Qed.

Local Open Scope proc_scope.

Section calls.

(** The calling environment and the registers the system call interface does
    not use, which the kernel saves and restores. *)
Context (c : Z) (ctx : Trapframe).

(** The frame of [int $T_SYSCALL] with the number in [%eax] and the arguments
    in [%edx], [%ecx], [%ebx], [%edi], [%esi]. *)
Definition int_frame (num a1 a2 a3 a4 a5 : Z) : Trapframe :=
  mkTrapframe
    (mkPushRegs (u32 a4) (u32 a5) (reg_ebp (tf_regs ctx)) (reg_oesp (tf_regs ctx)) (u32 a3) (u32 a1) (u32 a2) (u32 num))
    (tf_es ctx) (tf_ds ctx) T_SYSCALL 0 (tf_eip ctx) (Z.lor GD_UT 3) (tf_eflags ctx) (tf_esp ctx) (tf_ss ctx).

(** [int %1]: the caller goes on when it runs again, with what [%eax] of its
    saved frame then holds. *)
Definition int_syscall (num a1 a2 a3 a4 a5 : Z) : U Z := fun p =>
  match trap 0 0 (int_frame num a1 a2 a3 a4 a5) (kern p) with
  | ToUser s | Halt s =>
    match turns p with
    | [] => Parked s
    | f :: l => Fin (i32 (reg_eax (tf_regs (env_tf (envs (f s) c))))) (mkProc (f s) l)
    end
  | o => Kstop o
  end.

Definition syscall (num : Z) (check : bool) (a1 a2 a3 a4 a5 : Z) : U Z :=
  let! ret := int_syscall num a1 a2 a3 a4 a5 in
  if check && (0 <? ret) then upanic "syscall %d returned %d (> 0)" else uret ret.

Definition sys_cputs (s len : Z) : U unit :=
  do! syscall Syscall.SYS_cputs false s len 0 0 0 in uret tt.

Definition sys_cgetc : U Z := syscall Syscall.SYS_cgetc false 0 0 0 0 0.

Definition sys_env_destroy (envid : Z) : U Z := syscall Syscall.SYS_env_destroy true envid 0 0 0 0.

Definition sys_getenvid : U Z := syscall Syscall.SYS_getenvid false 0 0 0 0 0.

Definition sys_yield : U unit :=
  do! syscall Syscall.SYS_yield false 0 0 0 0 0 in uret tt.

Definition sys_page_alloc (envid va perm : Z) : U Z :=
  syscall Syscall.SYS_page_alloc true envid va perm 0 0.

Definition sys_page_map (srcenv srcva dstenv dstva perm : Z) : U Z :=
  syscall Syscall.SYS_page_map true srcenv srcva dstenv dstva perm.

Definition sys_page_unmap (envid va : Z) : U Z := syscall Syscall.SYS_page_unmap true envid va 0 0 0.

(** Inlined in inc/lib.h, without the check. *)
Definition sys_exofork (a1 a2 a3 a4 a5 : Z) : U Z := int_syscall Syscall.SYS_exofork a1 a2 a3 a4 a5.

Definition sys_env_set_status (envid status : Z) : U Z :=
  syscall Syscall.SYS_env_set_status true envid status 0 0 0.

Definition sys_env_set_trapframe (envid tf : Z) : U Z :=
  syscall Syscall.SYS_env_set_trapframe true envid tf 0 0 0.

Definition sys_env_set_pgfault_upcall (envid upcall : Z) : U Z :=
  syscall Syscall.SYS_env_set_pgfault_upcall true envid upcall 0 0 0.

Definition sys_ipc_try_send (envid value srcva perm : Z) : U Z :=
  syscall Syscall.SYS_ipc_try_send false envid value srcva perm 0.

Definition sys_ipc_recv (dstva : Z) : U Z := syscall Syscall.SYS_ipc_recv true dstva 0 0 0 0.

Definition sys_time_msec : U Z :=
  let! r := syscall Syscall.SYS_time_msec false 0 0 0 0 0 in uret (u32 r).

Definition sys_e1000_transmit (pck length : Z) : U Z :=
  syscall Syscall.SYS_e1000_transmit false pck length 0 0 0.

Definition sys_e1000_receive (pck length : Z) : U Z :=
  syscall Syscall.SYS_e1000_receive false pck length 0 0 0.

Definition sys_e1000_get_mac (mac_addr : Z) : U Z :=
  syscall Syscall.SYS_e1000_get_mac false mac_addr 0 0 0 0.

(** lib/libmain.c: the index in [envs] that [thisenv] points to. *)
Definition thisenv : U Z := let! id := sys_getenvid in uret (ENVX id).

(** lib/exit.c *)
Definition exit : U unit := do! sys_env_destroy 0 in uret tt.

End calls.

(** ** Running environments *)

(** User code of [c] executes on this CPU. *)
Record up (c : Z) (s : kstate) : Prop := {
  up_cur : curenv s = Some c;
  up_running : env_status (envs s c) = ENV_RUNNING;
  up_unlocked : kernel_locked s = false;
  up_cpu : cpu_status (cpus s (cpunum s)) <> CPU_HALTED;
  up_dir : has_dir s c
}.

(** What a system call of the library finds again in its environment: the saved
    registers, the address space and the fields of IPC.  The status is not among
    them, since scheduling changes it. *)
Record same_env (e e' : Env) : Prop := {
  same_tf : env_tf e' = env_tf e;
  same_id : env_id e' = env_id e;
  same_pgdir : env_pgdir e' = env_pgdir e;
  same_recving : env_ipc_recving e' = env_ipc_recving e;
  same_dstva : env_ipc_dstva e' = env_ipc_dstva e;
  same_value : env_ipc_value e' = env_ipc_value e;
  same_from : env_ipc_from e' = env_ipc_from e;
  same_perm : env_ipc_perm e' = env_ipc_perm e
}.

#[global] Instance same_env_equiv : Equivalence same_env.
Proof.
  split.
  - intros e. by constructor.
  - intros e e' []. by constructor.
  - intros e1 e2 e3 [] []. constructor; congruence.
Qed.

(** [c] runs again, as it was left. *)
Definition resumes (c : Z) (s s' : kstate) : Prop := up c s' /\ same_env (envs s c) (envs s' c).

(** ** The kernel's side of a call *)

Lemma trapped_env c tf s : envs (trapped c tf s) = <[c := set_env_tf tf (envs s c)]> (envs s).
Proof. done. Qed.

Lemma same_env_ran k s i : same_env (envs s i) (envs (ran k s) i).
Proof.
  assert (same_env (envs s i) (envs (preempted s) i)) as Hp.
  { unfold preempted. destruct (curenv s) as [c|]; [|done]. destruct (_ =? _); [|done]. cbn.
    destruct (decide (i = c)) as [->|]; fsimpl; by constructor. }
  destruct (decide (i = k)) as [->|]; [|by rewrite ran_other].
  transitivity (envs (preempted s) k); [done|]. unfold ran. cbn. rewrite !fn_lookup_insert. by constructor.
Qed.

(** When the caller itself goes on, nothing else changes. *)
Lemma ran_again c s i : curenv s = Some c -> i <> c -> envs (ran c s) i = envs s i.
Proof.
  intros Hc Hi. rewrite ran_other by done. unfold preempted. rewrite Hc. destruct (_ =? _); [|done]. cbn. by fsimpl.
Qed.

Lemma ran_up c s : cpu_status (cpus s (cpunum s)) <> CPU_HALTED -> has_dir s c -> up c (ran c s).
Proof.
  intros Hc Hd. destruct (preempted_frame s) as (H1 & _ & H2). split.
  - apply ran_curenv.
  - apply ran_self.
  - done.
  - unfold ran. cbn. rewrite H1, H2, fn_lookup_insert. exact Hc.
  - unfold has_dir in *. by rewrite (same_pgdir _ _ (same_env_ran c s c)).
Qed.

Section kernel.

Context (c : Z) (ctx : Trapframe) (s : kstate).
Context (Hup : up c s).

Local Abbreviation frame := (int_frame ctx).

Lemma trapped_cur tf : curenv (trapped c tf s) = Some c.
Proof.
  change (curenv (trapped c tf s)) with (curenv (set_cpu_state CPU_STARTED s)).
  by rewrite curenv_cpu_state, (up_cur _ _ Hup).
Qed.

Lemma trapped_running tf : env_status (envs (trapped c tf s) c) = ENV_RUNNING.
Proof. rewrite trapped_env. fsimpl. exact (up_running _ _ Hup). Qed.

Lemma trapped_dir tf : has_dir (trapped c tf s) c.
Proof. unfold has_dir. rewrite trapped_env. fsimpl. exact (up_dir _ _ Hup). Qed.

(** The trap of the call, in terms of what the kernel's [syscall] does. *)
Lemma trap_int num a1 a2 a3 a4 a5 :
  trap 0 0 (frame num a1 a2 a3 a4 a5) s
  = (let! r := Syscall.syscall (u32 num) (u32 a1) (u32 a2) (u32 a3) (u32 a4) (u32 a5) in
     do! modify (upd_env c (upd_tf (set_eax (u32 r)))) in trap_exit)%jos
      (trapped c (frame num a1 a2 a3 a4 a5) s).
Proof using Hup.
  by rewrite (trap_syscall s c) by (by destruct Hup).
Qed.

(** A call that returns [r] at once. *)
Lemma trap_int_ret num a1 a2 a3 a4 a5 r s2 :
  Syscall.syscall (u32 num) (u32 a1) (u32 a2) (u32 a3) (u32 a4) (u32 a5)
    (trapped c (frame num a1 a2 a3 a4 a5) s) = Ret r s2 ->
  curenv s2 = Some c -> env_status (envs s2 c) = ENV_RUNNING -> kernel_locked s2 = true -> has_dir s2 c ->
  trap 0 0 (frame num a1 a2 a3 a4 a5) s = ToUser (ran c (upd_env c (upd_tf (set_eax (u32 r))) s2)).
Proof using Hup.
  intros Hsys Hc2 Hr2 Hl2 Hd2. apply (trap_syscall_ran s s2 c); by try destruct Hup.
Qed.

End kernel.

(** Physical memory and the page allocator are the same. *)
Definition same_mem (s s' : kstate) : Prop :=
  phys s' = phys s /\ pages s' = pages s /\ page_free_list s' = page_free_list s /\ npages s' = npages s.

Lemma same_mem_ran k s : same_mem s (ran k s).
Proof. unfold same_mem, ran, preempted. destruct (curenv s) as [c|]; [|done]. by destruct (_ =? _). Qed.

Lemma same_mem_ok s s' l D : same_mem s s' -> AddrSpace.space_ok s l D -> AddrSpace.space_ok s' l D.
Proof. intros (? & ? & ? & ?) Hok. by eapply AddrSpace.space_ok_frame. Qed.

(** [sched_yield] from a running environment always finds one to run. *)
Lemma sched_yield_runs s c :
  curenv s = Some c -> env_status (envs s c) = ENV_RUNNING -> has_dir s c ->
  (forall i, runnable s i = true -> has_dir s i) -> kernel_locked s = true ->
  exists k, sched_yield s = ToUser (ran k s).
Proof.
  intros Hc Hst Hd Hds Hl. destruct (first_runnable s (cursor s) 1024) as [Hn|(k & Hk & Hrk & Hmin)].
  - exists c. unfold sched_yield. rewrite (bind_ret _ _ s (curenv s) s) by done.
    rewrite (bind_ret _ _ s (cursor s) s) by done. change (Z.to_nat NENV) with 1024%nat.
    rewrite (bind_ret _ _ s tt s) by by apply sched_scan_none. rewrite Hc.
    rewrite (bind_ret _ _ s true s) by (unfold gets; by rewrite Hst).
    unfold bind at 1. by rewrite env_run_eq.
  - exists (slot_after (cursor s) k). unfold sched_yield. rewrite (bind_ret _ _ s (curenv s) s) by done.
    rewrite (bind_ret _ _ s (cursor s) s) by done. change (Z.to_nat NENV) with 1024%nat.
    unfold bind at 1. rewrite (sched_scan_found 1024 _ s k); auto.
Qed.

(** A yield leaves every environment as it was, up to scheduling. *)
Lemma trap_yield c ctx s :
  up c s -> (forall i, runnable s i = true -> has_dir s i) ->
  exists s', trap 0 0 (int_frame ctx Syscall.SYS_yield 0 0 0 0 0) s = ToUser s'
    /\ same_env (set_env_tf (int_frame ctx Syscall.SYS_yield 0 0 0 0 0) (envs s c)) (envs s' c)
    /\ forall i, i <> c -> same_env (envs s i) (envs s' i).
Proof.
  intros Hup Hds. rewrite (trap_int c ctx s Hup). set (tf := int_frame _ _ _ _ _ _ _).
  destruct (sched_yield_runs (trapped c tf s) c) as (k & E).
  - by apply trapped_cur.
  - by apply trapped_running.
  - by apply trapped_dir.
  - intros i. unfold runnable, has_dir. rewrite trapped_env.
    destruct (decide (i = c)) as [->|]; fsimpl; [intros _; exact (up_dir _ _ Hup)|apply Hds].
  - done.
  - exists (ran k (trapped c tf s)). split.
    + change (Syscall.syscall _ _ _ _ _ _) with (do! Syscall.sys_yield in ret 0)%jos.
      unfold bind, Syscall.sys_yield. by rewrite E.
    + split; [|intros i Hi]; (etransitivity; [|apply same_env_ran]); rewrite trapped_env; by fsimpl.
Qed.

End Usys.
