(* ===== verification/Ipc.v ===== *)
(** * User-level IPC and waiting (lib/ipc.c, lib/wait.c)

    [ipc_send], [ipc_recv], [ipc_find_env] and [wait] over the system calls of
    Usys.v.  The loops that wait for another environment take fuel; the
    theorems say how much is enough for them to return.

    The theorems: [ipc_send] returns at the first attempt that finds the
    receiver waiting, whatever other environments do between the attempts, the
    receiver is entered again by the scheduler, and its [ipc_recv] then returns
    the value, the sender and the permission; the errors
    of both; [wait] returns once the environment is gone. *)

From stdpp Require Import base numbers list strings functions gmap.
From Stdlib Require Import ZArith Lia.
From S2P Require Import Prelude Mem Mmu Kernel Pmap PageAlloc PageTable AddrSpace UserMem Env Sched Syscall SyscallFacts Kipc Trap TrapFacts Usys.

Open Scope Z_scope.

Module Ipc.

Import Env Vm Sched PageAlloc PageTable AddrSpace Kipc Trap TrapFacts Usys.

Local Open Scope proc_scope.

Section ipc.

Context (c : Z) (ctx : Trapframe).

(** [pg ? pg : (void* )UTOP] *)
Definition page_or_none (pg : Z) : Z := if pg =? 0 then UTOP else pg.

(** [*p = v] through a pointer that may be null: what is stored. *)
Definition store_if (p : bool) (v : Z) : option Z := if p then Some v else None.

(** [from_env_store] and [perm_store] say whether the pointers are not null;
    the result comes with what is stored through them. *)
Definition ipc_recv (from_env_store : bool) (pg : Z) (perm_store : bool) : U (Z * option Z * option Z) :=
  let! r := sys_ipc_recv c ctx (page_or_none pg) in
  let! from := look (fun envs => env_ipc_from (envs c)) in
  let! perm := look (fun envs => env_ipc_perm (envs c)) in
  if r <? 0 then uret (r, store_if from_env_store 0, store_if perm_store 0)
  else
    let! v := look (fun envs => env_ipc_value (envs c)) in
    uret (i32 v, store_if from_env_store from, store_if perm_store perm).

Fixpoint ipc_send (fuel : nat) (to_env val pg perm : Z) : U unit :=
  let! r := sys_ipc_try_send c ctx to_env val (page_or_none pg) perm in
  if r <? 0 then
    if negb (r =? - E_IPC_NOT_RECV) then upanic "ipc_send: sys_ipc_try_send failed %e"
    else
      do! sys_yield c ctx in
      match fuel with
      | O => fun p => Spins p
      | S fuel => ipc_send fuel to_env val pg perm
      end
  else uret tt.

Fixpoint find_env (n : nat) (i type : Z) (envs : Z -> Env) : Z :=
  match n with
  | O => 0
  | S n => if env_type (envs i) =? type then env_id (envs i) else find_env n (i + 1) type envs
  end.

Definition ipc_find_env (type : Z) : U Z := look (find_env (Z.to_nat NENV) 0 type).

(** [e->env_id == envid && e->env_status != ENV_FREE] *)
Definition alive (envid : Z) (envs : Z -> Env) : bool :=
  (env_id (envs (ENVX envid)) =? envid) && negb (env_status (envs (ENVX envid)) =? ENV_FREE).

Fixpoint wait_loop (fuel : nat) (envid : Z) : U unit :=
  let! a := look (alive envid) in
  if a : bool then
    do! sys_yield c ctx in
    match fuel with
    | O => fun p => Spins p
    | S fuel => wait_loop fuel envid
    end
  else uret tt.

Definition wait (fuel : nat) (envid : Z) : U unit :=
  if envid =? 0 then upanic "assertion failed: envid != 0" else wait_loop fuel envid.

End ipc.

(** ** One attempt *)

(** Environment [c], whose directory is [sd], runs and may send to [to_env],
    which is environment [r] with directory [dd]. *)
Record link (s : kstate) (l D : list Z) (c sd to_env r dd srcva : Z) : Prop := {
  lk_up : up c s;
  lk_space : space_ok s l D;
  lk_id : 0 < to_env < 2147483648;
  lk_slot : ENVX to_env = r;
  lk_name : env_id (envs s r) = to_env;
  lk_live : env_status (envs s r) <> ENV_FREE;
  lk_other : c <> r;
  lk_src : env_pgdir (envs s c) = kva sd;
  lk_srcin : sd ∈ D;
  lk_dst : env_pgdir (envs s r) = kva dd;
  lk_dstin : dd ∈ D;
  lk_va : 0 <= srcva < 4294967296;
  lk_dstva : 0 <= env_ipc_dstva (envs s r) < 4294967296;
  lk_refs : forall p, mapped s sd (srcva / 4096) = Some p -> pp_ref (pages s p) < 65535
}.

Lemma trapped_space s l D c tf : space_ok s l D -> space_ok (trapped c tf s) l D.
Proof. intros H. eapply space_ok_frame; [exact H|reflexivity..]. Qed.

Section attempt.

Context (ctx : Trapframe) (s : kstate) (l D : list Z) (c sd to_env r dd val srcva perm : Z).
Context (Hl : link s l D c sd to_env r dd srcva).

Local Abbreviation tf := (int_frame ctx Syscall.SYS_ipc_try_send to_env val srcva perm 0).
Local Abbreviation st := (trapped c tf s).

Lemma trapped_other i : i <> c -> envs st i = envs s i.
Proof. intros H. rewrite trapped_env. by fsimpl. Qed.

Lemma trapped_found : envid2env to_env false st = Ret (0, Some r) st.
Proof using Hl.
  destruct Hl. unfold envid2env, bind, gets, ret. destruct (Z.eqb_spec to_env 0); [lia|].
  rewrite trapped_other by congruence. rewrite lk_slot0, lk_name0, Z.eqb_refl.
  by destruct (Z.eqb_spec (env_status (envs s r)) ENV_FREE).
Qed.

(** The call as the kernel's dispatcher makes it. *)
Lemma try_dispatch :
  Syscall.syscall (u32 Syscall.SYS_ipc_try_send) (u32 to_env) (u32 val) (u32 srcva) (u32 perm) (u32 0) st
  = Syscall.sys_ipc_try_send to_env (u32 val) srcva (u32 perm) st.
Proof using Hl.
  destruct Hl. change (Syscall.syscall (u32 Syscall.SYS_ipc_try_send) ?a ?b ?d ?e ?f)
    with (Syscall.sys_ipc_try_send (i32 a) b d e).
  rewrite (u32_id to_env), (u32_id srcva), i32_id by lia. done.
Qed.

(** What the caller finds when it goes on, and what the kernel did to others. *)
Lemma try_returns x s2 :
  Syscall.sys_ipc_try_send to_env (u32 val) srcva (u32 perm) st = Ret x s2 ->
  curenv s2 = Some c -> envs s2 c = envs st c -> kernel_locked s2 = true ->
  exists s', trap 0 0 tf s = ToUser s' /\ same_mem s2 s'
    /\ same_env (set_env_tf (set_eax (u32 x) tf) (envs s c)) (envs s' c)
    /\ forall i, i <> c -> envs s' i = envs s2 i.
Proof using Hl.
  intros E Hc2 He2 Hl2. pose proof (lk_up _ _ _ _ _ _ _ _ _ Hl) as Hup.
  exists (ran c (upd_env c (upd_tf (set_eax (u32 x))) s2)). split_and!.
  - apply (trap_int_ret c ctx s Hup); [by rewrite try_dispatch|done| |done|].
    + rewrite He2. by apply trapped_running.
    + unfold has_dir. rewrite He2. by apply (trapped_dir c s Hup tf).
  - apply (same_mem_ran c (upd_env c (upd_tf (set_eax (u32 x))) s2)).
  - etransitivity; [|apply same_env_ran]. cbn. rewrite fn_lookup_insert, He2, trapped_env, fn_lookup_insert. done.
  - intros i Hi. rewrite ran_again; [cbn; by fsimpl|exact Hc2|done].
Qed.

(** The receiver does not wait. *)
Lemma attempt_refused :
  env_ipc_recving (envs s r) = false ->
  exists s', trap 0 0 tf s = ToUser s' /\ same_mem s s'
    /\ same_env (set_env_tf (set_eax (u32 (- E_IPC_NOT_RECV)) tf) (envs s c)) (envs s' c)
    /\ forall i, i <> c -> envs s' i = envs s i.
Proof using Hl.
  intros Hrecv. destruct (try_returns (- E_IPC_NOT_RECV) st) as (s' & E & Hm & Hc & Ho).
  - eapply ipc_not_recv; [apply trapped_found|].
    rewrite trapped_other; [done|]. pose proof (lk_other _ _ _ _ _ _ _ _ _ Hl). congruence.
  - apply trapped_cur, (lk_up _ _ _ _ _ _ _ _ _ Hl).
  - done.
  - done.
  - exists s'. split_and!; [done|exact Hm|done|]. intros i Hi. rewrite <- (trapped_other i) by done. by apply Ho.
Qed.

Local Abbreviation dstva := (env_ipc_dstva (envs s r)).

(** The kernel's verdict does not depend on the trap. *)
Lemma verdict_trapped :
  ipc_verdict st l sd dd srcva (u32 perm) (env_ipc_dstva (envs st r))
  = ipc_verdict s l sd dd srcva (u32 perm) dstva.
Proof using Hl.
  rewrite trapped_other; [done|]. pose proof (lk_other _ _ _ _ _ _ _ _ _ Hl). congruence.
Qed.

(** What goes with the message: the receiver's [env_ipc_perm]. *)
Definition sent_perm (v : verdict) : Z := match v with WithPage _ => u32 perm | _ => 0 end.

(** The address spaces after the message. *)
Definition sent_mem (v : verdict) (s' : kstate) : Prop :=
  match v with
  | WithPage p => exists l', space_ok s' l' D /\ mapped s sd (srcva / 4096) = Some p
      /\ forall d v, d ∈ D -> 0 <= v < user_vpns ->
           pte_of s' d v = if decide ((d, v) = (dd, dstva / 4096))
                           then Z.lor (p * 4096) (Z.lor (u32 perm) PTE_P) else pte_of s d v
  | _ => same_mem s s'
  end.

Lemma try_sends v :
  env_ipc_recving (envs s r) = true -> ipc_verdict s l sd dd srcva (u32 perm) dstva = v ->
  v <> Wild -> v <> Refused ->
  exists s2, Syscall.sys_ipc_try_send to_env (u32 val) srcva (u32 perm) st = Ret 0 s2
    /\ curenv s2 = Some c /\ kernel_locked s2 = true
    /\ envs s2 r = delivered (u32 val) (env_id (envs s c)) (sent_perm v) (envs s r)
    /\ (forall i, i <> r -> envs s2 i = envs st i) /\ sent_mem v s2.
Proof using Hl.
  intros Hrecv Hv Hw Hf. pose proof Hl as []. pose proof verdict_trapped as Hvt. rewrite Hv in Hvt.
  assert (envs st r = envs s r) as Er by (apply trapped_other; congruence).
  assert (env_id (envs st c) = env_id (envs s c)) as Ei by (rewrite trapped_env; by fsimpl).
  assert (env_pgdir (envs st c) = kva sd) as Es by (rewrite trapped_env; by fsimpl).
  pose proof (trapped_space s l D c tf lk_space0) as Hok. pose proof trapped_found as Hfound.
  pose proof (trapped_cur c s lk_up0 tf) as Hcur.
  destruct v as [| | |p]; [done|done| |].
  - destruct (ipc_plain st l D to_env r c sd dd (u32 val) srcva (u32 perm)) as (s2 & E & H1 & H2 & H3);
      try (rewrite ?Er; done).
    exists s2. rewrite Er, Ei in H1. split_and!; try done; rewrite H3; [exact Hcur|done..].
  - destruct (ipc_with_page st l D to_env r c sd dd (u32 val) srcva (u32 perm)) with p
      as (s2 & s1 & l' & E & (H1 & H2 & H3) & Hok1 & Hpte & _ & _ & Hmem & _);
      try (rewrite ?Er; done).
    exists s2. rewrite Er, Ei in H1. destruct (verdict_page _ _ _ _ _ _ _ _ Hvt) as [Hm _].
    destruct (mem_only_cpu _ _ Hmem) as (_ & Hc1 & Hl1).
    split_and!; try done; [by rewrite H3; etransitivity; [exact Hc1|]|by rewrite H3; etransitivity; [exact Hl1|]|].
    exists l'. split; [|split; [done|]].
    + rewrite H3. eapply space_ok_frame; [exact Hok1|reflexivity..].
    + intros d v Hd Hv0. rewrite Er in Hpte. rewrite H3. exact (Hpte d v Hd Hv0).
Qed.

(** The message goes through. *)
Lemma attempt_sent v :
  env_ipc_recving (envs s r) = true -> ipc_verdict s l sd dd srcva (u32 perm) dstva = v ->
  v <> Wild -> v <> Refused ->
  exists s', trap 0 0 tf s = ToUser s' /\ sent_mem v s'
    /\ same_env (set_env_tf (set_eax 0 tf) (envs s c)) (envs s' c)
    /\ envs s' r = delivered (u32 val) (env_id (envs s c)) (sent_perm v) (envs s r)
    /\ forall i, i <> c -> i <> r -> envs s' i = envs s i.
Proof using Hl.
  intros Hrecv Hv Hw Hf. destruct (try_sends v) as (s2 & E & Hc2 & Hl2 & Hr2 & Ho2 & Hm2); try done.
  pose proof (lk_other _ _ _ _ _ _ _ _ _ Hl) as Hne.
  destruct (try_returns 0 s2 E) as (s' & Et & Hm & Hc & Ho); [done|by apply Ho2|done|].
  exists s'. split; [done|]. split; [|split; [done|split]].
  - destruct v as [| | |p]; [done|done|..].
    + destruct Hm2 as (? & ? & ? & ?), Hm as (? & ? & ? & ?). split_and!; congruence.
    + destruct Hm2 as (l' & Hok & ? & Hpte). exists l'. split; [by eapply same_mem_ok|]. split; [done|].
      intros d v Hd Hv0. rewrite <- Hpte by done. by apply pte_of_phys, Hm.
  - rewrite <- Hr2. apply Ho. congruence.
  - intros i Hi Hir. rewrite <- (trapped_other i), <- Ho2 by done. by apply Ho.
Qed.

(** The kernel stops in the call. *)
Lemma attempt_stops :
  env_ipc_recving (envs s r) = true ->
  match ipc_verdict s l sd dd srcva (u32 perm) dstva with
  | Refused => exists w s', trap 0 0 tf s = Panic w s'
  | Wild => exists w s', trap 0 0 tf s = Undef w s'
  | _ => True
  end.
Proof using Hl.
  intros Hrecv. pose proof Hl as []. pose proof verdict_trapped as Hvt.
  assert (envs st r = envs s r) as Er by (apply trapped_other; congruence).
  assert (env_pgdir (envs st c) = kva sd) as Es by (rewrite trapped_env; by fsimpl).
  pose proof (trapped_space s l D c tf lk_space0) as Hok. pose proof trapped_found as Hfound.
  pose proof (trapped_cur c s lk_up0 tf) as Hcur.
  rewrite (trap_int c ctx s lk_up0). unfold bind at 1 3. rewrite !try_dispatch.
  destruct (ipc_verdict s l sd dd srcva (u32 perm) dstva) eqn:Hv; try done.
  - destruct (ipc_wild st l D to_env r c sd dd (u32 val) srcva (u32 perm)) as (w & s' & ->);
      try (rewrite ?Er; done). by eexists _, _.
  - destruct (ipc_refused st l D to_env r c sd dd (u32 val) srcva (u32 perm)) as (w & s' & ->);
      try (rewrite ?Er; done). by eexists _, _.
Qed.

End attempt.

(** ** Waiting for a message *)

(** The environment as [sys_ipc_recv] leaves it. *)
Definition waiting (dstva : Z) (tf : Trapframe) (e : Env) : Env :=
  set_env_ipc_dstva dstva (set_env_status ENV_NOT_RUNNABLE (set_env_ipc_recving true (set_env_tf tf e))).

(** [dstva] is not an address where no page can go. *)
Definition bad_dstva (dstva : Z) : bool := (dstva <? UTOP) && negb (ROUNDDOWN dstva PGSIZE =? dstva).

Lemma recv_dispatch dstva s :
  0 <= dstva < 4294967296 ->
  Syscall.syscall (u32 Syscall.SYS_ipc_recv) (u32 dstva) (u32 0) (u32 0) (u32 0) (u32 0) s
  = Syscall.sys_ipc_recv dstva s.
Proof.
  intros H. change (Syscall.syscall (u32 Syscall.SYS_ipc_recv) ?a ?b ?d ?e ?f) with (Syscall.sys_ipc_recv a).
  by rewrite u32_id.
Qed.

(** The caller blocks and another environment runs. *)
Lemma recv_blocks r ctx s dstva j :
  up r s -> 0 <= dstva < 4294967296 -> bad_dstva dstva = false ->
  0 <= j < NENV -> j <> r -> runnable s j = true -> (forall i, runnable s i = true -> has_dir s i) ->
  let tf := int_frame ctx Syscall.SYS_ipc_recv dstva 0 0 0 0 in
  exists s1, trap 0 0 tf s = ToUser s1 /\ same_mem s s1
    /\ curenv s1 <> Some r /\ env_status (envs s1 r) = ENV_NOT_RUNNABLE
    /\ same_env (waiting dstva tf (envs s r)) (envs s1 r)
    /\ (forall i, i <> r -> same_env (envs s i) (envs s1 i))
    /\ forall i, i <> r -> curenv s1 <> Some i -> envs s1 i = envs s i.
Proof.
  intros Hup Hva Hbad Hj Hjr Hrun Hds. cbv zeta. rewrite (trap_int r ctx s Hup).
  set (tf := int_frame _ _ _ _ _ _ _).
  set (s2 := upd_env r (set_env_ipc_dstva dstva) (upd_env r (set_env_status ENV_NOT_RUNNABLE)
               (upd_env r (set_env_ipc_recving true) (trapped r tf s)))).
  assert (envs s2 r = waiting dstva tf (envs s r)) as Er by (subst s2; cbn; by rewrite !fn_lookup_insert).
  assert (forall i, i <> r -> envs s2 i = envs s i) as Ho by (intros; subst s2; cbn; by fsimpl).
  assert (forall i, runnable s2 i = true -> i <> r /\ runnable s i = true) as Hrs.
  { intros i. unfold runnable. destruct (decide (i = r)) as [->|]; [by rewrite Er|by rewrite Ho]. }
  destruct (sched_yield_picks s2 j Hj) as (k & _ & Hk & E & _).
  - unfold runnable. by rewrite Ho.
  - intros i [Hi Hr]%Hrs. unfold has_dir. rewrite Ho by done. by apply Hds.
  - done.
  - destruct (Hrs k Hk) as [Hkr _]. exists (ran k s2). split; [|split; [apply (same_mem_ran k s2)|]].
    + unfold bind at 1. rewrite recv_dispatch by done. unfold Syscall.sys_ipc_recv.
      rewrite u32_id by done. unfold bad_dstva in Hbad. rewrite Hbad.
      rewrite (bind_ret _ _ _ r (trapped r tf s)) by (unfold Syscall.cur; by rewrite (trapped_cur r s Hup tf)).
      unfold bind, modify, Syscall.sys_yield. fold s2. by rewrite E.
    + assert (same_env (envs s2 r) (envs (ran k s2) r)) as Hs by apply same_env_ran.
      rewrite Er in Hs. split_and!.
      * rewrite ran_curenv. congruence.
      * rewrite ran_other by congruence. unfold preempted.
        assert (curenv s2 = Some r) as -> by apply (trapped_cur r s Hup tf).
        rewrite Er. change (env_status (waiting dstva tf (envs s r)) =? ENV_RUNNING) with false. cbv iota. by rewrite Er.
      * done.
      * intros i Hi. rewrite <- (Ho i) by done. apply same_env_ran.
      * intros i Hi Hc. rewrite ran_curenv in Hc. rewrite ran_other by congruence. unfold preempted.
        destruct (curenv s2) as [c|] eqn:E2; [|by apply Ho].
        assert (curenv s2 = Some r) as E3 by apply (trapped_cur r s Hup tf). rewrite E2 in E3. injection E3 as ->.
        destruct (_ =? _); [|by apply Ho]. cbn. rewrite fn_lookup_insert_ne by congruence. by apply Ho.
Qed.

(** ** The library *)

(** The state in which the kernel leaves a trap. *)
Definition after (tf : Trapframe) (s : kstate) : kstate :=
  match trap 0 0 tf s with ToUser s' | Halt s' => s' | _ => s end.

(** A call whose trap ends in [s1] and whose caller goes on as it was left. *)
Lemma syscall_goes_on c ctx num a1 a2 a3 a4 a5 s s1 f ts e :
  trap 0 0 (int_frame ctx num a1 a2 a3 a4 a5) s = ToUser s1 ->
  same_env e (envs (f s1) c) ->
  int_syscall c ctx num a1 a2 a3 a4 a5 (mkProc s (f :: ts))
  = Fin (i32 (reg_eax (tf_regs (env_tf e)))) (mkProc (f s1) ts).
Proof. intros E He. unfold int_syscall. cbn [kern turns]. by rewrite E, (same_tf _ _ He). Qed.

Section send.

Context (c : Z) (ctx : Trapframe) (D : list Z) (sd to_env r dd val pg perm : Z).

Local Abbreviation srcva := (page_or_none pg).
Local Abbreviation try_tf := (int_frame ctx Syscall.SYS_ipc_try_send to_env val srcva perm 0).
Local Abbreviation yield_tf := (int_frame ctx Syscall.SYS_yield 0 0 0 0 0).

(** [n] attempts from [s] find that the receiver does not wait, and lead to
    [s']: between the kernel's leaving a call and the next one of [c], other
    environments may do anything that leaves [c] as it was. *)
Inductive spins : nat -> kstate -> list turn -> kstate -> list turn -> Prop :=
| spins_O s ts : spins 0 s ts s ts
| spins_S n s l f g ts s' ts' :
    link s l D c sd to_env r dd srcva -> env_ipc_recving (envs s r) = false ->
    resumes c (after try_tf s) (f (after try_tf s)) ->
    (forall i, runnable (f (after try_tf s)) i = true -> has_dir (f (after try_tf s)) i) ->
    let s1 := f (after try_tf s) in
    resumes c (after yield_tf s1) (g (after yield_tf s1)) ->
    spins n (g (after yield_tf s1)) ts s' ts' ->
    spins (S n) s (f :: g :: ts) s' ts'.

Lemma spins_send fuel n s ts s' ts' :
  spins n s ts s' ts' ->
  ipc_send c ctx (n + fuel) to_env val pg perm (mkProc s ts)
  = ipc_send c ctx fuel to_env val pg perm (mkProc s' ts').
Proof.
  induction 1 as [|n s l f g ts s' ts' Hl Hrecv Hf Hds s1 Hg _ IH]; [done|].
  destruct (attempt_refused ctx s l D c sd to_env r dd val srcva perm Hl Hrecv) as (s2 & E & _ & Hc & _).
  assert (after try_tf s = s2) as Ea by (unfold after; by rewrite E). subst s1.
  rewrite Ea in *. destruct Hf as [Hup Hf].
  destruct (trap_yield c ctx (f s2) Hup Hds) as (s3 & Ey & Hc3 & _).
  assert (after yield_tf (f s2) = s3) as Eb by (unfold after; by rewrite Ey). rewrite Eb in *.
  change (S n + fuel)%nat with (S (n + fuel)). rewrite <- IH. cbn [ipc_send].
  unfold sys_ipc_try_send, syscall. unfold ubind at 1 2.
  erewrite syscall_goes_on; [|exact E|etransitivity; [exact Hc|exact Hf]].
  change (i32 _) with (- E_IPC_NOT_RECV). cbn [andb uret]. cbv beta iota.
  change (- E_IPC_NOT_RECV <? 0) with true. rewrite Z.eqb_refl. cbn [negb].
  unfold sys_yield, syscall, ubind. by erewrite syscall_goes_on; [|exact Ey|etransitivity; [exact Hc3|exact (proj2 Hg)]].
Qed.

Lemma send_first fuel s s2 f ts e :
  trap 0 0 try_tf s = ToUser s2 -> same_env (set_env_tf (set_eax 0 try_tf) e) (envs (f s2) c) ->
  ipc_send c ctx fuel to_env val pg perm (mkProc s (f :: ts)) = Fin tt (mkProc (f s2) ts).
Proof.
  intros E He. destruct fuel; cbn [ipc_send]; unfold sys_ipc_try_send, syscall, ubind;
    by rewrite (syscall_goes_on _ _ _ _ _ _ _ _ _ _ _ _ _ E He).
Qed.

(** A call in which the kernel stops. *)
Lemma send_stops fuel s ts o :
  trap 0 0 try_tf s = o -> match o with Panic _ _ | Undef _ _ => True | _ => False end ->
  ipc_send c ctx fuel to_env val pg perm (mkProc s ts) = Kstop o.
Proof.
  intros E Ho. destruct fuel; cbn [ipc_send]; unfold sys_ipc_try_send, syscall, ubind, int_syscall; cbn [kern turns];
    rewrite E; by destruct o.
Qed.

(** The attempt that goes through. *)
Lemma send_done fuel s l f ts v :
  link s l D c sd to_env r dd srcva -> env_ipc_recving (envs s r) = true ->
  ipc_verdict s l sd dd srcva (u32 perm) (env_ipc_dstva (envs s r)) = v -> v <> Wild -> v <> Refused ->
  resumes c (after try_tf s) (f (after try_tf s)) ->
  ipc_send c ctx fuel to_env val pg perm (mkProc s (f :: ts)) = Fin tt (mkProc (f (after try_tf s)) ts)
  /\ sent_mem s D sd r dd srcva perm v (after try_tf s)
  /\ envs (after try_tf s) r = delivered (u32 val) (env_id (envs s c)) (sent_perm perm v) (envs s r)
  /\ forall i, i <> c -> i <> r -> envs (after try_tf s) i = envs s i.
Proof.
  intros Hl Hrecv Hv Hw Hf.
  destruct (attempt_sent ctx s l D c sd to_env r dd val srcva perm Hl v) as (s2 & E & Hm & Hc & Hr & Ho); try done.
  assert (after try_tf s = s2) as -> by (unfold after; by rewrite E). intros [_ Hs].
  split; [|done]. eapply send_first; [exact E|etransitivity; [exact Hc|exact Hs]].
Qed.

End send.

(** C27: [ipc_send] returns.  Whatever other environments do between its
    system calls, as long as they leave the sender's registers, address space and
    IPC fields as they were, it spins through the attempts that find the receiver
    not waiting and returns from the first one that finds it waiting, having
    delivered the message exactly then: the receiver is runnable again, no longer
    receiving, and holds the value, the sender's identifier and the permission,
    with 0 as the result of its call; the page goes with the message if both sides
    ask for one; and no field of any other environment changes in that call.  Fuel
    for as many rounds as there are refused attempts is enough. *)
Theorem ipc_send_returns (c : Z) (ctx : Trapframe) (l D : list Z) (sd to_env r dd val pg perm : Z)
    (n fuel : nat) (s s' : kstate) (f : turn) (ts ts' : list turn) (v : verdict) :
  spins c ctx D sd to_env r dd val pg perm n s ts s' (f :: ts') -> (n <= fuel)%nat ->
  link s' l D c sd to_env r dd (page_or_none pg) -> env_ipc_recving (envs s' r) = true ->
  ipc_verdict s' l sd dd (page_or_none pg) (u32 perm) (env_ipc_dstva (envs s' r)) = v ->
  v <> Wild -> v <> Refused ->
  let s2 := after (int_frame ctx Syscall.SYS_ipc_try_send to_env val (page_or_none pg) perm 0) s' in
  resumes c s2 (f s2) ->
  ipc_send c ctx fuel to_env val pg perm (mkProc s ts) = Fin tt (mkProc (f s2) ts')
  /\ sent_mem s' D sd r dd (page_or_none pg) perm v s2
  /\ env_status (envs s2 r) = ENV_RUNNABLE /\ env_ipc_recving (envs s2 r) = false
  /\ envs s2 r = delivered (u32 val) (env_id (envs s' c)) (sent_perm perm v) (envs s' r)
  /\ forall i, i <> c -> i <> r -> envs s2 i = envs s' i.
Proof.
  intros Hs Hn Hl Hrecv Hv Hw Hf s2 Hres. replace fuel with (n + (fuel - n))%nat by lia.
  rewrite (spins_send _ _ _ _ _ _ _ _ _ _ _ _ _ _ _ _ Hs).
  destruct (send_done c ctx D sd to_env r dd val pg perm (fuel - n) s' l f ts' v) as (E & Hm & Hr & Ho); try done.
  fold s2 in E, Hm, Hr, Ho. split; [exact E|]. split; [exact Hm|].
  split; [by rewrite Hr|]. split; [by rewrite Hr|]. split; [exact Hr|exact Ho].
Qed.

(** The scheduler's next turns, in which nobody touches the receiver: it is
    entered again. *)
Lemma woken_runs r e f g : 0 <= r < NENV -> env_status e = ENV_RUNNABLE -> rounds f g r ->
  (forall n, unchosen g r n -> envs (f n) r = e) ->
  exists n, Z.of_nat n <= distance (cursor (f 0%nat)) r < NENV /\ curenv (g n) = Some r /\ same_env e (envs (g n) r).
Proof.
  intros Hr He Hf Hsame. destruct (rounds_reach f g r Hr Hf) as (n & Hn & Hno & Hg).
  { intros n Hno. unfold runnable. by rewrite Hsame, He. }
  exists n. split; [exact Hn|]. rewrite Hg. split; [apply ran_curenv|].
  rewrite <- (Hsame n Hno). apply same_env_ran.
Qed.

(** C26: what is sent is what is received.  An environment [r] that calls
    [ipc_recv] blocks, not runnable and without the CPU, in a state [s1].  If from
    there the others reach a state in which an environment [c] calls [ipc_send] to
    it, [ipc_send] returns at the first attempt and [r] is runnable again.  If then
    the scheduler is called again and again by a CPU that keeps what it runs, and
    the others do not touch [r], [r] is entered after fewer than [NENV] turns, and
    its [ipc_recv] returns the value sent and stores the identifier of [c] and the
    permission of the page that came with it, which is mapped at [pg] in the
    receiver, or 0. *)
Theorem ipc_exchange (r c j : Z) (ctxr ctxc : Trapframe) (D : list Z) (sd to_env dd val pgr pgs perm : Z) (s0 : kstate) :
  up r s0 -> 0 <= pgr < 4294967296 -> bad_dstva (page_or_none pgr) = false ->
  0 <= j < NENV -> j <> r -> runnable s0 j = true -> (forall i, runnable s0 i = true -> has_dir s0 i) ->
  exists s1, trap 0 0 (int_frame ctxr Syscall.SYS_ipc_recv (page_or_none pgr) 0 0 0 0) s0 = ToUser s1
    /\ env_status (envs s1 r) = ENV_NOT_RUNNABLE /\ curenv s1 <> Some r
    /\ forall l sc v, same_env (envs s1 r) (envs sc r) -> link sc l D c sd to_env r dd (page_or_none pgs) ->
       ipc_verdict sc l sd dd (page_or_none pgs) (u32 perm) (page_or_none pgr) = v -> v <> Wild -> v <> Refused ->
       let s2 := after (int_frame ctxc Syscall.SYS_ipc_try_send to_env val (page_or_none pgs) perm 0) sc in
       sent_mem sc D sd r dd (page_or_none pgs) perm v s2 /\ runnable s2 r = true
         /\ (forall i, i <> c -> i <> r -> envs s2 i = envs sc i)
         /\ (forall fuel g ts, resumes c s2 (g s2) ->
               ipc_send c ctxc fuel to_env val pgs perm (mkProc sc (g :: ts)) = Fin tt (mkProc (g s2) ts))
         /\ (forall f g, rounds f g r -> (forall n, unchosen g r n -> envs (f n) r = envs s2 r) ->
               exists n, Z.of_nat n < NENV /\ curenv (g n) = Some r
                 /\ forall ts, ipc_recv r ctxr true pgr true (mkProc s0 ((fun _ => g n) :: ts))
                      = Fin (i32 (u32 val), Some (env_id (envs sc c)), Some (sent_perm perm v)) (mkProc (g n) ts)).
Proof.
  intros Hup Hpg Hbad Hj Hjr Hrun Hds.
  assert (0 <= page_or_none pgr < 4294967296) as Hva.
  { unfold page_or_none. change UTOP with 4005560320. destruct (pgr =? 0); lia. }
  destruct (recv_blocks r ctxr s0 (page_or_none pgr) j) as (s1 & E1 & _ & Hcur & Hst & Hw & _); try done.
  exists s1. split; [done|]. split; [done|]. split; [done|]. intros l sc v Hsc Hl Hv Hnw Hnr.
  assert (same_env (waiting (page_or_none pgr) (int_frame ctxr Syscall.SYS_ipc_recv (page_or_none pgr) 0 0 0 0) (envs s0 r))
            (envs sc r)) as Hwait by by etransitivity.
  pose proof (same_recving _ _ Hwait) as Hrecv. pose proof (same_dstva _ _ Hwait) as Hdst. cbn in Hrecv, Hdst.
  rewrite <- Hdst in Hv.
  destruct (attempt_sent ctxc sc l D c sd to_env r dd val (page_or_none pgs) perm Hl v)
    as (s2 & E & Hm & Hc & Hr & Ho); try done.
  assert (after (int_frame ctxc Syscall.SYS_ipc_try_send to_env val (page_or_none pgs) perm 0) sc = s2) as ->
    by (unfold after; by rewrite E). intros s2'. subst s2'.
  split; [done|]. split; [unfold runnable; by rewrite Hr|]. split; [exact Ho|]. split.
  - intros fuel g ts [_ Hg]. eapply send_first; [exact E|etransitivity; [exact Hc|exact Hg]].
  - intros f g Hfg Hsame.
    assert (0 <= r < NENV) as Hrr.
    { rewrite <- (lk_slot _ _ _ _ _ _ _ _ _ Hl). unfold ENVX, NENV. pose proof (land_le_r to_env (1024 - 1)). lia. }
    destruct (woken_runs r (envs s2 r) f g Hrr) as (n & Hn & Hcn & He); [by rewrite Hr|done|done|].
    exists n. split; [lia|]. split; [exact Hcn|]. intros ts. rewrite Hr in He.
    unfold ipc_recv, sys_ipc_recv, syscall, ubind.
    rewrite (syscall_goes_on _ _ _ _ _ _ _ _ _ _ (fun _ => g n) _ _ E1 He).
    change (i32 (reg_eax _)) with 0. cbn [andb Z.ltb Z.compare uret look kern].
    rewrite (same_value _ _ He), (same_from _ _ He), (same_perm _ _ He). done.
Qed.

(** A call to an environment that is gone. *)
Lemma attempt_dead ctx s c to_env val srcva perm :
  up c s -> 0 < to_env < 2147483648 -> alive to_env (envs s) = false ->
  exists s', trap 0 0 (int_frame ctx Syscall.SYS_ipc_try_send to_env val srcva perm 0) s
             = Panic "sys_ipc_try_send: envid2env failed" s'.
Proof.
  intros Hup Hid Hdead. rewrite (trap_int c ctx s Hup). set (tf := int_frame _ _ _ _ _ _ _).
  change (Syscall.syscall (u32 Syscall.SYS_ipc_try_send) ?a ?b ?d ?e ?f) with (Syscall.sys_ipc_try_send (i32 a) b d e).
  rewrite (u32_id to_env), (i32_id to_env) by lia. exists (trapped c tf s). unfold bind at 1, Syscall.sys_ipc_try_send.
  rewrite (bind_ret _ _ _ (- E_BAD_ENV, None) (trapped c tf s)); [done|].
  unfold envid2env, bind, gets, ret. destruct (Z.eqb_spec to_env 0); [lia|].
  assert (env_id (envs (trapped c tf s) (ENVX to_env)) = env_id (envs s (ENVX to_env))
          /\ env_status (envs (trapped c tf s) (ENVX to_env)) = env_status (envs s (ENVX to_env))) as [-> ->].
  { rewrite trapped_env. destruct (decide (ENVX to_env = c)) as [->|]; by fsimpl. }
  unfold alive in Hdead.
  destruct (env_id (envs s (ENVX to_env)) =? to_env), (env_status (envs s (ENVX to_env)) =? ENV_FREE); done.
Qed.

(** A receive at an address that is not the start of a page. *)
Lemma recv_invalid r ctx s dstva :
  up r s -> 0 <= dstva < 4294967296 -> bad_dstva dstva = true ->
  let tf := int_frame ctx Syscall.SYS_ipc_recv dstva 0 0 0 0 in
  exists s1, trap 0 0 tf s = ToUser s1 /\ same_mem s s1 /\ up r s1
    /\ same_env (set_env_tf (set_eax (u32 (- E_INVAL)) tf) (envs s r)) (envs s1 r)
    /\ forall i, i <> r -> envs s1 i = envs s i.
Proof.
  intros Hup Hva Hbad. cbv zeta. set (tf := int_frame _ _ _ _ _ _ _).
  set (s2 := upd_env r (upd_tf (set_eax (u32 (- E_INVAL)))) (trapped r tf s)).
  exists (ran r s2). split_and!.
  - apply (trap_int_ret r ctx s Hup); [|by apply trapped_cur|by apply trapped_running|done|by apply trapped_dir].
    rewrite recv_dispatch by done. unfold Syscall.sys_ipc_recv. rewrite u32_id by done.
    unfold bad_dstva in Hbad. by rewrite Hbad.
  - apply (same_mem_ran r s2).
  - apply ran_up; subst s2; [by cbn; rewrite fn_lookup_insert|]. unfold has_dir. cbn. rewrite !fn_lookup_insert. apply Hup.
  - etransitivity; [|apply same_env_ran]. subst s2. cbn. rewrite !fn_lookup_insert. done.
  - intros i Hi. rewrite ran_again; [subst s2; cbn; by fsimpl| |done]. by apply (trapped_cur r s Hup tf).
Qed.

(** C28: the errors of IPC.  [ipc_recv] at an address that is not the start of
    a page returns [-E_INVAL] at once, stores 0 through the pointers that are
    not null, and changes no other environment and no memory.  A send to an
    environment that is gone panics the kernel, where the interface documents
    [-E_BAD_ENV]; so does a send to a waiting environment of a mapped page from an
    address that is not the start of a page, with bad permissions, without the
    right to write that it passes on, or with no memory for the receiver's page
    table, where [-E_INVAL] or [-E_NO_MEM] are documented.  A send from an address
    where nothing is mapped has no meaning: the code tests a pointer that
    [page_lookup] did not set, and it may return the documented [-E_INVAL] or go
    on. *)
Theorem ipc_errors (c : Z) (ctx : Trapframe) (s : kstate) :
  up c s ->
  (forall pg from_env_store perm_store, 0 <= pg < 4294967296 -> bad_dstva (page_or_none pg) = true ->
     exists s1, same_mem s s1 /\ up c s1 /\ (forall i, i <> c -> envs s1 i = envs s i)
       /\ env_ipc_recving (envs s1 c) = env_ipc_recving (envs s c)
       /\ forall f ts, resumes c s1 (f s1) ->
          ipc_recv c ctx from_env_store pg perm_store (mkProc s (f :: ts))
          = Fin (- E_INVAL, store_if from_env_store 0, store_if perm_store 0) (mkProc (f s1) ts))
  /\ (forall fuel to_env val pg perm ts, 0 < to_env < 2147483648 -> alive to_env (envs s) = false ->
        exists s', ipc_send c ctx fuel to_env val pg perm (mkProc s ts)
                   = Kstop (Panic "sys_ipc_try_send: envid2env failed" s'))
  /\ (forall fuel l D sd to_env r dd val pg perm ts,
        link s l D c sd to_env r dd (page_or_none pg) -> env_ipc_recving (envs s r) = true ->
        match ipc_verdict s l sd dd (page_or_none pg) (u32 perm) (env_ipc_dstva (envs s r)) with
        | Refused => exists w s', ipc_send c ctx fuel to_env val pg perm (mkProc s ts) = Kstop (Panic w s')
        | Wild => exists w s', ipc_send c ctx fuel to_env val pg perm (mkProc s ts) = Kstop (Undef w s')
        | _ => True
        end).
Proof.
  intros Hup. split_and!.
  - intros pg fs ps Hpg Hbad. assert (0 <= page_or_none pg < 4294967296) as Hva.
    { unfold page_or_none. change UTOP with 4005560320. destruct (pg =? 0); lia. }
    destruct (recv_invalid c ctx s (page_or_none pg) Hup Hva Hbad) as (s1 & E & Hm & Hu & Hc & Ho).
    exists s1. split_and!; [done|done|done|by rewrite (same_recving _ _ Hc)|]. intros f ts [_ Hf].
    unfold ipc_recv, sys_ipc_recv, syscall, ubind.
    by erewrite syscall_goes_on; [|exact E|etransitivity; [exact Hc|exact Hf]].
  - intros fuel to_env val pg perm ts Hid Hdead.
    destruct (attempt_dead ctx s c to_env val (page_or_none pg) perm Hup Hid Hdead) as (s' & E).
    exists s'. by apply (send_stops c ctx to_env val pg perm fuel s ts _ E).
  - intros fuel l D sd to_env r dd val pg perm ts Hl Hrecv.
    pose proof (attempt_stops ctx s l D c sd to_env r dd val (page_or_none pg) perm Hl Hrecv) as H.
    destruct (ipc_verdict _ _ _ _ _ _ _); try done;
      destruct H as (w & s' & E); exists w, s'; by apply (send_stops c ctx to_env val pg perm fuel s ts _ E).
Qed.

(** [wait] returns in the first round in which the environment is gone. *)
Inductive waits (c : Z) (ctx : Trapframe) (envid : Z) : nat -> kstate -> list turn -> kstate -> list turn -> Prop :=
| waits_O s ts : alive envid (envs s) = false -> waits c ctx envid 0 s ts s ts
| waits_S n s f ts s' ts' :
    alive envid (envs s) = true -> up c s -> (forall i, runnable s i = true -> has_dir s i) ->
    let s1 := after (int_frame ctx Syscall.SYS_yield 0 0 0 0 0) s in
    resumes c s1 (f s1) -> waits c ctx envid n (f s1) ts s' ts' ->
    waits c ctx envid (S n) s (f :: ts) s' ts'.

Theorem wait_returns c ctx envid n fuel s ts s' ts' :
  envid <> 0 -> waits c ctx envid n s ts s' ts' -> (n <= fuel)%nat ->
  wait c ctx fuel envid (mkProc s ts) = Fin tt (mkProc s' ts').
Proof.
  intros Hz Hw Hn. unfold wait. destruct (Z.eqb_spec envid 0) as [|_]; [done|]. revert fuel Hn.
  induction Hw as [s ts Hd|n s f ts s' ts' Ha Hup Hds s1 Hf _ IH]; intros fuel Hn.
  - by destruct fuel; cbn [wait_loop]; unfold ubind, look; cbn [kern]; rewrite Hd.
  - destruct fuel as [|fuel]; [lia|]. cbn [wait_loop]. unfold ubind at 1, look. cbn [kern]. rewrite Ha.
    destruct (trap_yield c ctx s Hup Hds) as (s2 & E & Hc & _).
    assert (s1 = s2) as -> by (subst s1; unfold after; by rewrite E).
    rewrite <- (IH fuel) by lia. unfold sys_yield, syscall, ubind.
    by erewrite syscall_goes_on; [|exact E|etransitivity; [exact Hc|exact (proj2 Hf)]].
Qed.

(** [ipc_find_env] finds the first environment of the type. *)
Theorem ipc_find_env_first type s ts :
  exists id, ipc_find_env type (mkProc s ts) = Fin id (mkProc s ts)
    /\ ((exists i, 0 <= i < NENV /\ env_type (envs s i) = type /\ id = env_id (envs s i)
           /\ forall k, 0 <= k < i -> env_type (envs s k) <> type)
        \/ (id = 0 /\ forall k, 0 <= k < NENV -> env_type (envs s k) <> type)).
Proof.
  eexists. split; [done|]. cbn [kern].
  assert (forall n a, (exists i, a <= i < a + Z.of_nat n /\ env_type (envs s i) = type
              /\ find_env n a type (envs s) = env_id (envs s i)
              /\ forall k, a <= k < i -> env_type (envs s k) <> type)
            \/ (find_env n a type (envs s) = 0 /\ forall k, a <= k < a + Z.of_nat n -> env_type (envs s k) <> type)) as H.
  { induction n as [|n IH]; intros a; [right; split; [done|lia]|]. cbn [find_env].
    destruct (Z.eqb_spec (env_type (envs s a)) type) as [Ha|Ha].
    - left. exists a. split_and!; done || lia.
    - destruct (IH (a + 1)) as [(i & Hi & Ht & Ef & Hmin)|[Ef Hmin]]; [left; exists i|right];
        (split_and!; [..|intros k Hk; destruct (decide (k = a)) as [->|]; [done|apply Hmin; lia]]); done || lia. }
  destruct (H (Z.to_nat NENV) 0) as [(i & Hi & Ht & Ef & Hmin)|[Ef Hmin]]; [left; exists i|right];
    change (0 + Z.of_nat (Z.to_nat NENV)) with NENV in *; done.
Qed.

(** *** Concrete states *)

(** Environment 1 runs in user mode and its child 6 waits for a message. *)
Definition sender_runs : kstate := set_kernel_locked false SyscallFacts.two_envs.

(** Environment 6 runs in user mode and 1 is runnable. *)
Definition receiver_runs : kstate :=
  set_curenv (Some 6)
    (upd_env 6 (fun e => set_env_status ENV_RUNNING (set_env_ipc_recving false e))
       (upd_env 1 (set_env_status ENV_RUNNABLE) sender_runs)).

Definition some_tf : Trapframe := user_tf T_SYSCALL 0 4005556000.

Lemma sender_up : up 1 sender_runs.
Proof. split; [done|done|done|vm_compute; congruence|vm_compute; split; congruence]. Qed.

Lemma receiver_up : up 6 receiver_runs.
Proof. split; [done|done|done|vm_compute; congruence|vm_compute; split; congruence]. Qed.

Lemma receiver_runnable i : runnable receiver_runs i = true -> i = 1.
Proof.
  unfold runnable, receiver_runs, sender_runs, SyscallFacts.two_envs. cbn.
  destruct (decide (i = 6)) as [->|]; fsimpl; [done|].
  destruct (decide (i = 1)) as [->|]; fsimpl; done.
Qed.

(** A state with the memory of [two_envs] in which 1 runs and may send to 6. *)
Lemma two_envs_link s :
  up 1 s -> same_mem SyscallFacts.two_envs s -> env_id (envs s 6) = 4102 ->
  env_status (envs s 6) <> ENV_FREE -> env_pgdir (envs s 1) = kva 2 -> env_pgdir (envs s 6) = kva 4 ->
  0 <= env_ipc_dstva (envs s 6) < 4294967296 ->
  link s [3; 5; 9] [2; 4] 1 2 4102 6 4 UTOP.
Proof.
  intros Hup Hm Hid Hst Hs Hd Hva.
  split; [exact Hup| |lia|reflexivity|exact Hid|exact Hst|lia|exact Hs|exact small_dir|exact Hd| | |exact Hva|].
  - exact (same_mem_ok _ _ _ _ Hm SyscallFacts.two_envs_ok).
  - exact (SyscallFacts.ta_in _ _ _ _ _ SyscallFacts.two_envs_target).
  - vm_compute; split; congruence.
  - intros p. assert (mapped s 2 (UTOP / 4096) = None) as ->; [|discriminate].
    apply zero_mapped. intros a. by rewrite (proj1 Hm).
Qed.

(** 6 does not wait yet. *)
Definition early : kstate := upd_env 6 (set_env_ipc_recving false) sender_runs.

Definition try_42 : Trapframe := int_frame some_tf Syscall.SYS_ipc_try_send 4102 42 UTOP 0 0.

(** While 1 yields, 6 starts to wait. *)
Definition six_waits : turn := upd_env 6 (set_env_ipc_recving true).

Definition second : kstate :=
  six_waits (after (int_frame some_tf Syscall.SYS_yield 0 0 0 0 0) (after try_42 early)).

Ltac up_tac := split; [vm_compute; reflexivity|vm_compute; reflexivity|vm_compute; reflexivity
  |vm_compute; congruence|vm_compute; split; congruence].

Lemma early_link : link early [3; 5; 9] [2; 4] 1 2 4102 6 4 UTOP.
Proof. apply two_envs_link; [up_tac|done|done|vm_compute; congruence|done|done|vm_compute; split; congruence]. Qed.

Lemma after_try_up : up 1 (after try_42 early).
Proof. up_tac. Qed.

Lemma second_up : up 1 second.
Proof. up_tac. Qed.

Lemma second_mem : same_mem SyscallFacts.two_envs second.
Proof. split_and!; vm_compute; reflexivity. Qed.

Lemma second_link : link second [3; 5; 9] [2; 4] 1 2 4102 6 4 UTOP.
Proof.
  apply two_envs_link; [exact second_up|exact second_mem|vm_compute; reflexivity|vm_compute; congruence
    |vm_compute; reflexivity|vm_compute; reflexivity|vm_compute; split; congruence].
Qed.

Lemma after_try_other k : k <> 1 -> envs (after try_42 early) k = envs early k.
Proof. intros Hk. vm_compute. by destruct k as [|[]|]. Qed.

Lemma no_runnable i : runnable (after try_42 early) i = true -> has_dir (after try_42 early) i.
Proof.
  unfold runnable. destruct (decide (i = 1)) as [->|]; [vm_compute; congruence|]. rewrite after_try_other by done.
  unfold early, sender_runs, SyscallFacts.two_envs. cbn.
  destruct (decide (i = 6)) as [->|]; fsimpl; done.
Qed.

Lemma second_spins ts :
  spins 1 some_tf [2; 4] 2 4102 6 4 42 0 0 1 early ((fun s => s) :: six_waits :: ts) second ts.
Proof.
  econstructor; [exact early_link|reflexivity|split; [exact after_try_up|done]|exact no_runnable| |constructor].
  split; [exact second_up|]. split; vm_compute; reflexivity.
Qed.

(** The first attempt finds 6 not waiting, the second one delivers. *)
Lemma ipc_send_returns_witness :
  exists p, ipc_send 1 some_tf 1 4102 42 0 0 (mkProc early [(fun s => s); six_waits; (fun s => s)]) = Fin tt p
    /\ env_status (envs (kern p) 6) = ENV_RUNNABLE
    /\ env_ipc_value (envs (kern p) 6) = 42 /\ env_ipc_from (envs (kern p) 6) = 4097.
Proof.
  destruct (ipc_send_returns 1 some_tf [3; 5; 9] [2; 4] 2 4102 6 4 42 0 0 1 1 early second (fun s => s) _ [] Plain
              (second_spins _)) as (E & _ & Hst & _ & Hs & _);
    [lia|exact second_link|vm_compute; reflexivity|vm_compute; reflexivity|discriminate|discriminate| |].
  { split; [|reflexivity]. up_tac. }
  eexists. split; [exact E|]. cbn [kern].
  split; [exact Hst|]. rewrite Hs. split; reflexivity.
Defined.

(** Environment 1 has a page it may not write at 0x800000. *)
Definition own_page : kstate :=
  match Syscall.sys_page_alloc 0 8388608 5 SyscallFacts.two_envs with
  | Ret _ s => set_kernel_locked false s | _ => sender_runs
  end.

Lemma own_page_ok : exists l, space_ok own_page l [2; 4] /\ pte_of own_page 2 2048 = 12293.
Proof.
  destruct (SyscallFacts.sys_page_alloc_spec SyscallFacts.two_envs [3; 5; 9] [2; 4] 0 1 2 8388608 5
              SyscallFacts.two_envs_ok SyscallFacts.two_envs_self) as [_ H]; [lia|reflexivity|reflexivity|].
  destruct H as (s' & l' & E & Hok & Hpte & _); [discriminate|]. exists l'. unfold own_page. rewrite E.
  split; [eapply space_ok_frame; [exact Hok|reflexivity..]|].
  change (pte_of s' 2 2048 = 12293). rewrite Hpte; [reflexivity|exact small_dir|rewrite user_vpns_eq; lia].
Qed.

Lemma own_page_up : up 1 own_page.
Proof. up_tac. Qed.

Lemma own_page_recving : env_ipc_recving (envs own_page 6) = true.
Proof. vm_compute. reflexivity. Qed.

(** From 0x800000 a page can be sent, from 0x801000 not. *)
Lemma own_page_link : exists l, link own_page l [2; 4] 1 2 4102 6 4 8388608 /\ link own_page l [2; 4] 1 2 4102 6 4 8392704
  /\ ipc_verdict own_page l 2 4 8388608 7 (env_ipc_dstva (envs own_page 6)) = Refused
  /\ ipc_verdict own_page l 2 4 8392704 7 (env_ipc_dstva (envs own_page 6)) = Wild.
Proof.
  destruct own_page_ok as (l & Hok & Hp). exists l.
  assert (mapped own_page 2 2048 = Some 3) as Hm by (unfold mapped; rewrite Hp; reflexivity).
  assert (mapped own_page 2 2049 = None) as Hn by (vm_compute; reflexivity).
  assert (forall va, 0 <= va < 4294967296 ->
    (forall p, mapped own_page 2 (va / 4096) = Some p -> pp_ref (pages own_page p) < 65535) ->
    link own_page l [2; 4] 1 2 4102 6 4 va) as Hlink.
  { intros va Hva Href. split; [exact own_page_up|exact Hok|lia|reflexivity|vm_compute; reflexivity|vm_compute; congruence|lia
      |vm_compute; reflexivity|exact small_dir|vm_compute; reflexivity| |exact Hva|vm_compute; split; congruence|exact Href].
    exact (SyscallFacts.ta_in _ _ _ _ _ SyscallFacts.two_envs_target). }
  split; [|split; [|split]].
  - apply Hlink; [lia|]. change (8388608 / 4096) with 2048. rewrite Hm. intros p [= <-]. vm_compute. reflexivity.
  - apply Hlink; [lia|]. change (8392704 / 4096) with 2049. rewrite Hn. discriminate.
  - unfold ipc_verdict. change (8388608 / 4096) with 2048. rewrite Hm, Hp. reflexivity.
  - unfold ipc_verdict. change (8392704 / 4096) with 2049. rewrite Hn. reflexivity.
Qed.

(** A receive at address 1, a message to an environment that does not exist, one
    that would give away the right to write, and one with nothing mapped. *)
Lemma ipc_errors_witness :
  (exists s1, ipc_recv 1 some_tf true 1 true (mkProc own_page [fun s => s]) = Fin (-3, Some 0, Some 0) (mkProc s1 []))
  /\ (exists s', ipc_send 1 some_tf 0 4103 42 0 0 (mkProc own_page [])
                 = Kstop (Panic "sys_ipc_try_send: envid2env failed" s'))
  /\ (exists w s', ipc_send 1 some_tf 0 4102 42 8388608 7 (mkProc own_page []) = Kstop (Panic w s'))
  /\ (exists w s', ipc_send 1 some_tf 0 4102 42 8392704 7 (mkProc own_page []) = Kstop (Undef w s')).
Proof.
  destruct (ipc_errors 1 some_tf own_page own_page_up) as (H1 & H2 & H3).
  destruct own_page_link as (l & L1 & L2 & V1 & V2). split; [|split; [|split]].
  - destruct (H1 1 true true) as (s1 & _ & Hu & _ & _ & Hr); [lia|reflexivity|].
    exists s1. exact (Hr (fun s => s) [] (conj Hu (reflexivity _))).
  - apply H2; [lia|vm_compute; reflexivity].
  - pose proof (H3 0%nat l [2; 4] 2 4102 6 4 42 8388608 7 [] L1 own_page_recving) as H.
    change (page_or_none 8388608) with 8388608 in H. change (u32 7) with 7 in H. rewrite V1 in H. exact H.
  - pose proof (H3 0%nat l [2; 4] 2 4102 6 4 42 8392704 7 [] L2 own_page_recving) as H.
    change (page_or_none 8392704) with 8392704 in H. change (u32 7) with 7 in H. rewrite V2 in H. exact H.
Defined.

(** 6 waits in [ipc_recv] and 1 runs. *)
Definition blocked : kstate := after (int_frame some_tf Syscall.SYS_ipc_recv UTOP 0 0 0 0) receiver_runs.

Lemma blocked_link : link blocked [3; 5; 9] [2; 4] 1 2 4102 6 4 UTOP.
Proof.
  apply two_envs_link; [up_tac|split_and!; vm_compute; reflexivity|vm_compute; reflexivity|vm_compute; congruence
    |vm_compute; reflexivity|vm_compute; reflexivity|vm_compute; split; congruence].
Qed.

Lemma receiver_dirs i : runnable receiver_runs i = true -> has_dir receiver_runs i.
Proof. intros ->%receiver_runnable. vm_compute. split; congruence. Qed.

(** 1 has sent 42 to 6 and is interrupted. *)
Definition interrupted : kstate := set_kernel_locked true (after try_42 blocked).

Lemma blocked_cur : curenv blocked = Some 1.
Proof. vm_compute. reflexivity. Qed.

Lemma interrupted_other k : k <> 1 -> k <> 6 -> envs interrupted k = envs receiver_runs k.
Proof.
  intros H1 H6. destruct (attempt_sent some_tf blocked [3; 5; 9] [2; 4] 1 2 4102 6 4 42 UTOP 0 blocked_link Plain)
    as (s2 & E & _ & _ & _ & Ho); [reflexivity|reflexivity|discriminate|discriminate|].
  unfold interrupted. rewrite (proj1 (proj2 (relocked _))). unfold after at 1, try_42. rewrite E, (Ho k H1 H6).
  destruct (recv_blocks 6 some_tf receiver_runs UTOP 1 receiver_up) as (s1 & E1 & _ & _ & _ & _ & _ & Hs1);
    [vm_compute; split; congruence|reflexivity|unfold NENV; lia|lia|reflexivity|exact receiver_dirs|].
  assert (blocked = s1) as Eb by (unfold blocked, after; by rewrite E1). rewrite Eb. apply Hs1; [done|].
  rewrite <- Eb, blocked_cur. congruence.
Qed.

Lemma interrupted_runnable i : runnable interrupted i = true -> i = 6.
Proof.
  unfold runnable. destruct (decide (i = 6)); [done|]. destruct (decide (i = 1)) as [->|]; [vm_compute; discriminate|].
  rewrite interrupted_other by done. intros H. by apply receiver_runnable in H.
Qed.

Lemma interrupted_dirs i : runnable interrupted i = true -> has_dir interrupted i.
Proof. intros ->%interrupted_runnable. vm_compute. split; congruence. Qed.

Lemma interrupted_yield : sched_yield interrupted = ToUser (ran 6 interrupted).
Proof.
  destruct (sched_yield_picks interrupted 6) as (k & _ & Hk & E & _);
    [unfold NENV; lia|vm_compute; reflexivity|exact interrupted_dirs|reflexivity|].
  apply interrupted_runnable in Hk. subst k. exact E.
Qed.

Lemma interrupted_six : envs interrupted 6 = envs (after try_42 blocked) 6.
Proof. unfold interrupted. by rewrite (proj1 (proj2 (relocked _))). Qed.

Lemma blocked_id : env_id (envs blocked 1) = 4097.
Proof. vm_compute. reflexivity. Qed.

Lemma interrupted_rounds : rounds (fun _ => interrupted) (fun _ => ran 6 interrupted) 6.
Proof.
  assert (forall n, ~ unchosen (fun _ => ran 6 interrupted) 6 (S n)) as Hno.
  { intros n H. apply (H 0%nat ltac:(lia)). apply ran_curenv. }
  split.
  - intros n _. exact interrupted_yield.
  - intros n _. reflexivity.
  - intros n i _. apply interrupted_dirs.
  - intros n H. by destruct (Hno n).
  - intros n i H. by destruct (Hno n).
Qed.

(** 6 gets what 1 sends. *)
Lemma ipc_exchange_witness :
  ipc_recv 6 some_tf true 0 true (mkProc receiver_runs [fun _ => ran 6 interrupted])
  = Fin (42, Some 4097, Some 0) (mkProc (ran 6 interrupted) []).
Proof.
  destruct (ipc_exchange 6 1 1 some_tf some_tf [2; 4] 2 4102 4 42 0 0 0 receiver_runs receiver_up)
    as (s1 & E1 & _ & _ & H); [lia|reflexivity|unfold NENV; lia|discriminate|reflexivity|exact receiver_dirs|].
  assert (s1 = blocked) as ->.
  { unfold blocked, after. change (page_or_none 0) with UTOP in E1. rewrite E1. reflexivity. }
  destruct (H [3; 5; 9] blocked Plain) as (_ & _ & _ & _ & Hr);
    [reflexivity|exact blocked_link|reflexivity|discriminate|discriminate|].
  destruct (Hr _ _ interrupted_rounds) as (n & _ & _ & E).
  - intros n _. exact interrupted_six.
  - rewrite blocked_id in E. exact (E []).
Defined.

End Ipc.
