(* ===== verification/Nstimer.v ===== *)
(** * The timer of the network server (net/timer.c)

    An environment of its own that polls the clock, sends the network server a
    message when an interval has passed, and waits to be told the next one; over
    the system calls of Usys.v and the messages of Ipc.v.  The endless loop is one
    definition per round, from one deadline to the next.

    The theorems: a round sends its message at the first poll of the clock that is
    not before the deadline; once the clock has passed [2^31] milliseconds it
    panics instead. *)

From stdpp Require Import base numbers list strings functions gmap.
From Stdlib Require Import ZArith Lia.
From S2P Require Import Prelude Mem Mmu Kernel Env Sched Syscall Trap TrapFacts Usys Ipc.

Open Scope Z_scope.

Module Nstimer.

Import Env Sched Trap TrapFacts Usys Ipc.

Local Open Scope proc_scope.

Definition NSREQ_TIMER : Z := 12.

Lemma u32_i32 x : u32 (i32 x) = u32 x.
Proof. unfold u32, i32. zdm. Qed.

Section timer.

Context (c : Z) (ctx : Trapframe).

(** [while ((r = sys_time_msec()) < stop && r >= 0) sys_yield();]: the first
    comparison is unsigned. *)
Fixpoint wait_time (fuel : nat) (stop : Z) : U Z :=
  let! t := sys_time_msec c ctx in
  let r := i32 t in
  if (u32 r <? stop) && (0 <=? r) then
    do! sys_yield c ctx in
    match fuel with
    | O => fun p => Spins p
    | S fuel => wait_time fuel stop
    end
  else uret r.

(** The inner loop: what the network server answers. *)
Fixpoint next_interval (fuel : nat) (ns_envid : Z) : U Z :=
  let! a := ipc_recv c ctx true 0 false in
  let '(to, whom, _) := a in
  if negb (u32 (default 0 whom) =? u32 ns_envid) then
    match fuel with
    | O => fun p => Spins p
    | S fuel => next_interval fuel ns_envid
    end
  else uret (u32 to).

(** One round: the deadline of the next one. *)
Definition timer_round (fuel : nat) (ns_envid stop : Z) : U Z :=
  let! r := wait_time fuel stop in
  if r <? 0 then upanic "sys_time_msec: %e" else
  do! ipc_send c ctx fuel ns_envid NSREQ_TIMER 0 0 in
  let! to := next_interval fuel ns_envid in
  let! now := sys_time_msec c ctx in
  uret (u32 (now + to)).

(** The first [rounds] rounds of [timer]. *)
Fixpoint timer_rounds (rounds fuel : nat) (ns_envid stop : Z) : U Z :=
  match rounds with
  | O => uret stop
  | S rounds => let! stop := timer_round fuel ns_envid stop in timer_rounds rounds fuel ns_envid stop
  end.

Definition timer (rounds fuel : nat) (ns_envid initial_to : Z) : U Z :=
  let! now := sys_time_msec c ctx in
  timer_rounds rounds fuel ns_envid (u32 (now + initial_to)).

(** ** Reading the clock *)

Definition time_tf : Trapframe := int_frame ctx Syscall.SYS_time_msec 0 0 0 0 0.

(** The clock in milliseconds. *)
Definition clock (s : kstate) : Z := u32 (ticks s * 10).

Lemma trap_time s :
  up c s ->
  exists s1, trap 0 0 time_tf s = ToUser s1
    /\ same_env (set_env_tf (set_eax (u32 (clock s)) time_tf) (envs s c)) (envs s1 c)
    /\ forall i, i <> c -> same_env (envs s i) (envs s1 i).
Proof.
  intros Hup. set (s2 := upd_env c (upd_tf (set_eax (u32 (clock s)))) (trapped c time_tf s)).
  exists (ran c s2). split; [|split].
  - apply (trap_int_ret c ctx s Hup); [reflexivity|by apply trapped_cur|by apply trapped_running|done|by apply trapped_dir].
  - etransitivity; [|apply same_env_ran]. subst s2. cbn. rewrite !fn_lookup_insert. done.
  - intros i Hi. etransitivity; [|apply same_env_ran]. subst s2. cbn. by fsimpl.
Qed.

Lemma time_read s f ts :
  up c s -> resumes c (after time_tf s) (f (after time_tf s)) ->
  sys_time_msec c ctx (mkProc s (f :: ts)) = Fin (clock s) (mkProc (f (after time_tf s)) ts).
Proof.
  intros Hup [_ Hf]. destruct (trap_time s Hup) as (s1 & E & Hc & _).
  assert (after time_tf s = s1) as Ea by (unfold after; by rewrite E). rewrite Ea in *.
  unfold sys_time_msec, syscall, ubind.
  rewrite (syscall_goes_on _ _ _ _ _ _ _ _ _ _ _ _ _ E (transitivity Hc Hf)). cbn [andb uret].
  change (reg_eax _) with (u32 (clock s)). unfold uret. f_equal. unfold clock. rewrite u32_u32.
  rewrite u32_i32. apply u32_u32.
Qed.

Section round.

Context (stop : Z) (Hstop : 0 <= stop).

Local Abbreviation yield_tf := (int_frame ctx Syscall.SYS_yield 0 0 0 0 0).

(** [n] polls from [s] find the clock before the deadline, and the next one reads
    [t]: other environments and the clock go on in between. *)
Inductive polls : nat -> kstate -> list turn -> Z -> kstate -> list turn -> Prop :=
| polls_O s f ts :
    up c s -> resumes c (after time_tf s) (f (after time_tf s)) -> stop <= clock s ->
    polls 0 s (f :: ts) (clock s) (f (after time_tf s)) ts
| polls_S n s f g ts t s' ts' :
    up c s -> clock s < stop -> clock s < 2147483648 ->
    let s1 := f (after time_tf s) in
    resumes c (after time_tf s) s1 -> (forall i, runnable s1 i = true -> has_dir s1 i) ->
    let s2 := g (after yield_tf s1) in
    resumes c (after yield_tf s1) s2 -> polls n s2 ts t s' ts' ->
    polls (S n) s (f :: g :: ts) t s' ts'.

(** The wait ends at the first poll that is not before the deadline. *)
Lemma wait_time_ends fuel n s ts t s' ts' :
  polls n s ts t s' ts' -> (n <= fuel)%nat ->
  wait_time fuel stop (mkProc s ts) = Fin (i32 t) (mkProc s' ts').
Proof using Hstop.
  intros H. revert fuel. induction H as [s f ts Hup Hf Ht|n s f g ts t s' ts' Hup Ht Hlt s1 Hf Hds s2 Hg _ IH]; intros fuel Hn.
  - assert ((u32 (i32 (clock s)) <? stop) = false) as E.
    { rewrite u32_i32. unfold clock in *. rewrite u32_u32. apply Z.ltb_ge. exact Ht. }
    destruct fuel; cbn [wait_time]; unfold ubind at 1; rewrite time_read by done; by rewrite E.
  - destruct fuel as [|fuel]; [lia|]. cbn [wait_time]. unfold ubind at 1. rewrite time_read by done.
    assert ((u32 (i32 (clock s)) <? stop) && (0 <=? i32 (clock s)) = true) as ->.
    { pose proof (u32_range (ticks s * 10)) as Hr. fold (clock s) in Hr. rewrite u32_i32, u32_id, i32_id by lia.
      apply andb_true_intro. split; [by apply Z.ltb_lt|apply Z.leb_le; lia]. }
    rewrite <- (IH fuel) by lia. destruct (trap_yield c ctx s1 (proj1 Hf) Hds) as (s3 & E & Hc & _).
    assert (after yield_tf s1 = s3) as Ea by (unfold after; by rewrite E). subst s2. rewrite Ea in *.
    unfold sys_yield, syscall, ubind. by rewrite (syscall_goes_on _ _ _ _ _ _ _ _ _ _ _ _ _ E (transitivity Hc (proj2 Hg))).
Qed.

(** A round sends its message at the first poll that is not before the deadline,
    and panics if the clock does not fit an [int] by then. *)
Theorem timer_round_fires fuel n ns_envid s ts t s' ts' :
  polls n s ts t s' ts' -> (n <= fuel)%nat -> 0 <= t < 4294967296 ->
  timer_round fuel ns_envid stop (mkProc s ts) =
    if t <? 2147483648
    then (do! ipc_send c ctx fuel ns_envid NSREQ_TIMER 0 0 in
          let! to := next_interval fuel ns_envid in
          let! now := sys_time_msec c ctx in
          uret (u32 (now + to))) (mkProc s' ts')
    else Upanic "sys_time_msec: %e" (mkProc s' ts').
Proof using Hstop.
  intros Hp Hn Ht. unfold timer_round. rewrite (ubind_fin _ _ _ _ _ (wait_time_ends fuel n s ts t s' ts' Hp Hn)).
  destruct (Z.ltb_spec t 2147483648) as [Hlt|Hge].
  - rewrite i32_id by lia. by destruct (Z.ltb_spec t 0); [lia|].
  - assert (i32 t < 0) as Hneg by (unfold i32; zdm). by destruct (Z.ltb_spec (i32 t) 0); [|lia].
Qed.

End round.

End timer.

End Nstimer.
