(* ===== verification/Uvm.v ===== *)
(** * Address spaces as user programs see them

    The library that programs link against (fork, pipes, file descriptors, the
    heap) is written against the page-table system calls.  This file is the
    contract between the two: an abstract machine with one page table per
    environment, physical pages, and the system calls on them.  The programs of
    lib/ are modelled on this machine, and UvmSim.v proves that the kernel's
    system calls implement it.

    What the machine cannot know is which physical page the kernel hands out,
    or that there is none: [offers] is the list of the kernel's answers to the
    coming requests, a page number or a negative number for "no memory".  An
    offer of a page that is in use is no offer.  Theorems about programs hold
    for every list. *)

From stdpp Require Import base numbers list functions strings gmap sets.
From Stdlib Require Import ZArith Lia.
From S2P Require Import Prelude Mem Mmu Kernel Umonad Syscall.

Open Scope Z_scope.

Module Uvm.

Import Syscall.

(** Bits of an entry that are left to programs. *)
Definition PTE_SHARE : Z := 1024.

Definition PTE_COW : Z := 2048.

Record vm := mkVm {
  upt : gmap (Z * Z) Z;       (* environment and virtual page to entry *)
  utab : gset (Z * Z);        (* environment and directory index with a page table *)
  umem : mem;                 (* physical memory *)
  offers : list Z;            (* the kernel's answers to requests for a page *)
  self : Z;                   (* the environment that runs *)
  own : gset Z;               (* the environments it may act on *)
  newenvs : list Z;           (* the kernel's answers to requests for an environment *)
  ustatus : gmap Z Z;
  uupcall : gmap Z Z
}.

Definition set_upt (t : gmap (Z * Z) Z) (u : vm) : vm :=
  mkVm t (utab u) (umem u) (offers u) (self u) (own u) (newenvs u) (ustatus u) (uupcall u).

Definition set_utab (t : gset (Z * Z)) (u : vm) : vm :=
  mkVm (upt u) t (umem u) (offers u) (self u) (own u) (newenvs u) (ustatus u) (uupcall u).

Definition set_umem (m : mem) (u : vm) : vm :=
  mkVm (upt u) (utab u) m (offers u) (self u) (own u) (newenvs u) (ustatus u) (uupcall u).

Definition set_offers (l : list Z) (u : vm) : vm :=
  mkVm (upt u) (utab u) (umem u) l (self u) (own u) (newenvs u) (ustatus u) (uupcall u).

Definition set_self (e : Z) (u : vm) : vm :=
  mkVm (upt u) (utab u) (umem u) (offers u) e (own u) (newenvs u) (ustatus u) (uupcall u).

Definition set_own (l : gset Z) (u : vm) : vm :=
  mkVm (upt u) (utab u) (umem u) (offers u) (self u) l (newenvs u) (ustatus u) (uupcall u).

Definition set_newenvs (l : list Z) (u : vm) : vm :=
  mkVm (upt u) (utab u) (umem u) (offers u) (self u) (own u) l (ustatus u) (uupcall u).

Definition set_ustatus (t : gmap Z Z) (u : vm) : vm :=
  mkVm (upt u) (utab u) (umem u) (offers u) (self u) (own u) (newenvs u) t (uupcall u).

Definition set_uupcall (t : gmap Z Z) (u : vm) : vm :=
  mkVm (upt u) (utab u) (umem u) (offers u) (self u) (own u) (newenvs u) (ustatus u) t.

(** The physical page of an entry. *)
Definition frame (pte : Z) : Z := PTE_ADDR pte / PGSIZE.

(** The number of mappings of a page, [pp_ref] to the kernel. *)
Definition uref (u : vm) (p : Z) : Z :=
  Z.of_nat (size (filter (fun kv : Z * Z * Z => frame kv.2 = p) (upt u))).

(** The environment an identifier means, if the caller may act on it. *)
Definition resolve (u : vm) (envid : Z) : option Z :=
  if envid =? 0 then Some (self u)
  else if decide (envid ∈ own u) then Some envid else None.

(** The entry for physical page [p]. *)
Definition entry (p perm : Z) : Z := Z.lor (p * PGSIZE) (Z.lor perm PTE_P).

Definition map_page (e v pte : Z) (u : vm) : vm :=
  set_utab ({[(e, v / 1024)]} ∪ utab u) (set_upt (<[(e, v) := pte]> (upt u)) u).

Definition sys_page_alloc (envid va perm : Z) : M vm Z := fun u =>
  if bad_va va || bad_perm perm then Ok (- E_INVAL) u else
  match resolve u envid with
  | None => Ok (- E_BAD_ENV) u
  | Some e =>
    match offers u with
    | [] => Ok (- E_NO_MEM) u
    | p :: rest =>
      if (p <? 0) || (1048576 <=? p) || negb (uref u p =? 0) then Ok (- E_NO_MEM) (set_offers rest u)
      else Ok 0 (map_page e (va / PGSIZE) (entry p perm)
                   (set_umem (mset (umem u) (p * PGSIZE) 0 PGSIZE) (set_offers rest u)))
    end
  end.

(** The next answer is that there is no page, not even for a page table. *)
Definition no_memory (u : vm) : bool :=
  match offers u with [] => true | p :: _ => p <? 0 end.

(** A refusal is a panic of the kernel. *)
Definition sys_page_map (srcid srcva dstid dstva perm : Z) : M vm Z := fun u =>
  if bad_va srcva || bad_va dstva || bad_perm perm then Panics "sys_page_map: invalid argument" u else
  match resolve u srcid, resolve u dstid with
  | Some se, Some de =>
    match upt u !! (se, srcva / PGSIZE) with
    | None => Panics "sys_page_map: page_lookup failed" u
    | Some pte =>
      if flag perm PTE_W && negb (flag pte PTE_W) then Panics "sys_page_map: page_lookup failed" u else
      if no_memory u then Panics "sys_page_map: page_insert failed" u
      else Ok 0 (map_page de (dstva / PGSIZE) (entry (frame pte) perm) u)
    end
  | _, _ => Ok (- E_BAD_ENV) u
  end.

Definition sys_page_unmap (envid va : Z) : M vm Z := fun u =>
  if bad_va va then Ok (- E_INVAL) u else
  match resolve u envid with
  | None => Ok (- E_BAD_ENV) u
  | Some e => Ok 0 (set_upt (delete (e, va / PGSIZE) (upt u)) u)
  end.

Definition sys_exofork : M vm Z := fun u =>
  match newenvs u with
  | [] => Ok (- E_NO_FREE_ENV) u
  | c :: rest =>
    Ok c (set_ustatus (<[c := ENV_NOT_RUNNABLE]> (ustatus u))
            (set_own ({[c]} ∪ own u) (set_newenvs rest u)))
  end.

Definition sys_env_set_status (envid status : Z) : M vm Z := fun u =>
  if negb (status =? ENV_RUNNABLE) && negb (status =? ENV_NOT_RUNNABLE) then Ok (- E_INVAL) u else
  match resolve u envid with
  | None => Ok (- E_BAD_ENV) u
  | Some e => Ok 0 (set_ustatus (<[e := status]> (ustatus u)) u)
  end.

Definition sys_env_set_pgfault_upcall (envid func : Z) : M vm Z := fun u =>
  match resolve u envid with
  | None => Ok (- E_BAD_ENV) u
  | Some e => Ok 0 (set_uupcall (<[e := func]> (uupcall u)) u)
  end.

(** ** The program's own accesses *)

(** [(uvpd[PDX(v)] & PTE_P) && (uvpt[PGNUM(v)] & PTE_P)] for virtual page [v]. *)
Definition present (v : Z) (u : vm) : bool :=
  match upt u !! (self u, v) with Some _ => true | None => false end.

(** [uvpt[v]] when there is a page table for [v]; reading it without one is a
    page fault. *)
Definition uvpt (v : Z) : M vm Z := fun u =>
  if decide ((self u, v / 1024) ∈ utab u)
  then Ok (match upt u !! (self u, v) with Some pte => pte | None => 0 end) u
  else Undefined "page fault" u.

(** The physical address behind a user access, if the access is allowed. *)
Definition paddr (u : vm) (e : Z) (write : bool) (a : Z) : option Z :=
  match upt u !! (e, a / PGSIZE) with
  | Some pte =>
    if flag pte PTE_U && (negb write || flag pte PTE_W)
    then Some (frame pte * PGSIZE + a mod PGSIZE) else None
  | None => None
  end.

Definition load8 (a : Z) : M vm Z := fun u =>
  match paddr u (self u) false a with
  | Some pa => Ok (rd8 (umem u) pa) u
  | None => Undefined "page fault" u
  end.

Definition store8 (a v : Z) : M vm unit := fun u =>
  match paddr u (self u) true a with
  | Some pa => Ok tt (set_umem (wr8 (umem u) pa v) u)
  | None => Undefined "page fault" u
  end.

Open Scope usr_scope.

(** Little-endian words, byte by byte. *)
Definition load32 (a : Z) : M vm Z :=
  let! b0 := load8 (u32 a) in
  let! b1 := load8 (u32 (a + 1)) in
  let! b2 := load8 (u32 (a + 2)) in
  let! b3 := load8 (u32 (a + 3)) in
  mret (b0 + 256 * b1 + 65536 * b2 + 16777216 * b3).

Definition store32 (a v : Z) : M vm unit :=
  do! store8 (u32 a) (u8 v) in
  do! store8 (u32 (a + 1)) (u8 (v / 256)) in
  do! store8 (u32 (a + 2)) (u8 (v / 65536)) in
  store8 (u32 (a + 3)) (u8 (v / 16777216)).

(** What environment [e] reads at [a]. *)
Definition sees (u : vm) (e a : Z) : option Z :=
  match paddr u e false a with Some pa => Some (rd8 (umem u) pa) | None => None end.

(** ** Facts the programs' proofs share *)

Lemma uref_mapped u e v pte : upt u !! (e, v) = Some pte -> 1 <= uref u (frame pte).
Proof.
  intros H. unfold uref.
  assert (size (filter (fun kv : Z * Z * Z => frame kv.2 = frame pte) (upt u)) <> 0%nat) as Hs; [|lia].
  intros Hz%map_size_empty_inv. 
  assert (filter (fun kv : Z * Z * Z => frame kv.2 = frame pte) (upt u) !! (e, v) = Some pte) as Hf.
  { apply map_lookup_filter_Some. done. }
  by rewrite Hz, lookup_empty in Hf.
Qed.

Lemma uref_0_fresh u p e v pte : uref u p = 0 -> upt u !! (e, v) = Some pte -> frame pte <> p.
Proof. intros H0 H <-. pose proof (uref_mapped _ _ _ _ H). lia. Qed.

Lemma uref_unmapped u p :
  (forall e v pte, upt u !! (e, v) = Some pte -> frame pte <> p) -> uref u p = 0.
Proof.
  intros H. unfold uref.
  enough (filter (fun kv : Z * Z * Z => frame kv.2 = p) (upt u) = ∅) as -> by done.
  apply map_empty. intros [e v]. apply map_lookup_filter_None. right. intros pte Hl. by eapply H.
Qed.

Lemma entry_frame p perm : 0 <= p < 1048576 -> 0 <= perm < 4096 -> frame (entry p perm) = p.
Proof.
  intros Hp Hperm. unfold frame, entry, PGSIZE, PTE_P.
  pose proof (lor_low_range perm 1 Hperm ltac:(lia)).
  rewrite PTE_ADDR_lor by lia. zdm.
Qed.

Lemma entry_flag p perm f :
  0 <= f < 4096 -> flag (entry p perm) f = flag perm f || flag PTE_P f.
Proof.
  intros Hf. unfold entry. rewrite !flag_lor. unfold PGSIZE. by rewrite flag_page_low.
Qed.

(** Page-aligned user addresses and permissions that the kernel accepts. *)
Lemma bad_va_page v : 0 <= v < 977920 -> bad_va (v * 4096) = false.
Proof.
  intros Hv. unfold bad_va. change UTOP with 4005560320. rewrite u32_id by lia.
  unfold PGSIZE. rewrite ROUNDUP_page by lia.
  destruct (Z.geb_spec (v * 4096) 4005560320); [lia|].
  destruct (Z.eqb_spec (4096 * ((v * 4096 + 4095) / 4096)) (v * 4096)); [done|zdm].
Qed.

Lemma bad_perm_masked x : bad_perm (Z.land x PTE_SYSCALL) = false.
Proof. unfold bad_perm. by rewrite <- Z.land_assoc, Z.land_lnot_diag, Z.land_0_r. Qed.

Lemma masked_range x : 0 <= Z.land x PTE_SYSCALL < 4096.
Proof. pose proof (land_le_r x PTE_SYSCALL ltac:(vm_compute; congruence)). change PTE_SYSCALL with 3591 in *. lia. Qed.

Lemma flag_masked x f : Z.land PTE_SYSCALL f = f -> flag (Z.land x PTE_SYSCALL) f = flag x f.
Proof. intros E. unfold flag. by rewrite <- Z.land_assoc, E. Qed.

Lemma frame_range pte : 0 <= pte < 4294967296 -> 0 <= frame pte < 1048576.
Proof.
  intros H. unfold frame, PTE_ADDR, PGSIZE. rewrite u32_id, land_lnot_low by done. zdm.
Qed.

(** The calls when they succeed. *)
Lemma page_map_ok u srcid sv dstid dv perm se de pte :
  0 <= sv < 977920 -> 0 <= dv < 977920 -> bad_perm perm = false ->
  resolve u srcid = Some se -> resolve u dstid = Some de ->
  upt u !! (se, sv) = Some pte -> (flag perm PTE_W = true -> flag pte PTE_W = true) ->
  no_memory u = false ->
  sys_page_map srcid (sv * 4096) dstid (dv * 4096) perm u
  = Ok 0 (map_page de dv (entry (frame pte) perm) u).
Proof.
  intros Hs Hd Hp Hrs Hrd Hpte Hw Hm. unfold sys_page_map.
  rewrite !bad_va_page, Hp, Hrs, Hrd by done. cbn [orb]. unfold PGSIZE. rewrite !Z_div_mult by lia.
  rewrite Hpte. destruct (flag perm PTE_W); cbn [andb]; [rewrite Hw by done; cbn [negb]|]; by rewrite Hm.
Qed.

Lemma page_alloc_ok u envid e v perm p rest :
  0 <= v < 977920 -> bad_perm perm = false -> resolve u envid = Some e ->
  offers u = p :: rest -> 0 <= p < 1048576 -> uref u p = 0 ->
  sys_page_alloc envid (v * 4096) perm u
  = Ok 0 (map_page e v (entry p perm) (set_umem (mset (umem u) (p * 4096) 0 4096) (set_offers rest u))).
Proof.
  intros Hv Hp Hr Ho Hrange H0. unfold sys_page_alloc. rewrite bad_va_page, Hp, Hr, Ho, H0 by done.
  destruct (Z.ltb_spec p 0); [lia|]. destruct (Z.leb_spec 1048576 p); [lia|]. cbn. unfold PGSIZE.
  by rewrite Z_div_mult by lia.
Qed.

Lemma uvpt_ok u v : (self u, v / 1024) ∈ utab u -> uvpt v u = Ok (default 0 (upt u !! (self u, v))) u.
Proof. intros H. unfold uvpt. rewrite decide_True by done. by destruct (upt u !! _). Qed.

(** ** Memory to give *)

(** The kernel has [n] pages and one more to give. *)
Record supplied (n : nat) (u : vm) : Prop := {
  su_len : (n < length (offers u))%nat;
  su_nodup : NoDup (offers u);
  su_fresh : forall p, p ∈ offers u -> 0 <= p < 1048576 /\ uref u p = 0
}.

Lemma supplied_ext n n' u u' :
  upt u' = upt u -> offers u' = offers u -> (n' <= n)%nat -> supplied n u -> supplied n' u'.
Proof.
  intros E1 E2 Hn [H1 H2 H3]. split; rewrite ?E2; [lia|done|].
  intros p Hp. unfold uref. rewrite E1. by apply H3.
Qed.

(** One page has been taken, and nothing but it is newly mapped. *)
Lemma supplied_next n u u' p rest :
  supplied (S n) u -> offers u = p :: rest -> offers u' = rest ->
  (forall e v q, upt u' !! (e, v) = Some q ->
     frame q = p \/ exists e' v' q', upt u !! (e', v') = Some q' /\ frame q' = frame q) -> supplied n u'.
Proof.
  intros [H1 H2 H3] Eo Eo' Hu. rewrite Eo in *. cbn in H1. apply NoDup_cons in H2 as [Hnin H2].
  split; rewrite Eo'; [lia|done|]. intros q Hq. destruct (H3 q) as [Hr H0]; [by right|]. split; [done|].
  apply uref_unmapped. intros e v x Hx Ex. destruct (Hu e v x Hx) as [Hp|(e' & v' & q' & Hl & Hf)].
  - congruence.
  - by apply (uref_0_fresh u q e' v' q' H0 Hl); congruence.
Qed.

Lemma supplied_head n u : supplied n u -> no_memory u = false.
Proof.
  intros [H1 _ H3]. unfold no_memory. destruct (offers u) as [|p rest]; [cbn in H1; lia|].
  destruct (H3 p) as [Hp _]; [by left|]. apply Z.ltb_ge. lia.
Qed.

End Uvm.
