(* ===== verification/Uaccess.v ===== *)
(** * Memory as a running program uses it

    Accesses of the program on the machine of Uvm.v: words and bytes of a page
    whose entry is known, blocks of bytes, and strings.  [uload] and [ustore] are
    the two halves of [memmove], which copies the bytes the source had before
    whatever the overlap; [ustrlen] and [ustrcpy] are lib/string.c on the memory
    of the program. *)

From stdpp Require Import base numbers list functions strings gmap sets.
From Stdlib Require Import ZArith Lia.
From S2P Require Import Prelude Mem Mmu Kernel Umonad Syscall Uvm.

Open Scope Z_scope.
Open Scope usr_scope.

Module Uaccess.

Import Syscall Uvm.

(** ** Operations *)

Fixpoint uload (n : nat) (a : Z) : M vm (list Z) :=
  match n with
  | O => mret []
  | S n =>
    let! b := load8 (u32 a) in
    let! l := uload n (a + 1) in
    mret (b :: l)
  end.

Fixpoint ustore (a : Z) (l : list Z) : M vm unit :=
  match l with
  | [] => mret tt
  | b :: l => do! store8 (u32 a) b in ustore (a + 1) l
  end.

Definition umemmove (dst src n : Z) : M vm unit :=
  let! l := uload (Z.to_nat n) src in ustore dst l.

Fixpoint ustrlen_loop (fuel : nat) (s n : Z) : M vm Z :=
  match fuel with
  | O => mundef "strlen: unterminated string"
  | S fuel =>
    let! c := load8 (u32 s) in
    if c =? 0 then mret n else ustrlen_loop fuel (s + 1) (n + 1)
  end.

(** A string ends before the address space does. *)
Definition ustrlen (s : Z) : M vm Z := ustrlen_loop (Z.to_nat (4294967296 - s)) s 0.

Fixpoint ustrcpy_loop (fuel : nat) (dst src : Z) : M vm unit :=
  match fuel with
  | O => mundef "strcpy: unterminated string"
  | S fuel =>
    let! c := load8 (u32 src) in
    do! store8 (u32 dst) c in
    if c =? 0 then mret tt else ustrcpy_loop fuel (dst + 1) (src + 1)
  end.

Definition ustrcpy (dst src : Z) : M vm unit := ustrcpy_loop (Z.to_nat (4294967296 - src)) dst src.

(** ** Words of the running program *)

Section word.

Context (u : vm) (v pte : Z) (Hv : 0 <= v < 1048576) (Hpte : upt u !! (self u, v) = Some pte).
Context (HU : flag pte PTE_U = true).

Lemma load8_at o : 0 <= o < 4096 -> load8 (u32 (v * 4096 + o)) u = Ok (rd8 (umem u) (frame pte * 4096 + o)) u.
Proof using Hv Hpte HU.
  intros Ho. unfold load8, paddr, PGSIZE. rewrite u32_id by lia.
  replace ((v * 4096 + o) / 4096) with v by zdm. rewrite Hpte, HU. cbn [andb orb negb].
  by replace ((v * 4096 + o) mod 4096) with o by zdm.
Qed.

Lemma load32_at o :
  0 <= o <= 4092 -> load32 (u32 (v * 4096 + o)) u = Ok (rd32 (umem u) (frame pte * 4096 + o)) u.
Proof using Hv Hpte HU.
  intros Ho. unfold load32, mbind. rewrite (u32_id (v * 4096 + o)) by lia. rewrite <- !Z.add_assoc.
  do 4 (rewrite load8_at by lia; cbn beta iota).
  unfold mret, rd32. by rewrite !Z.add_assoc.
Qed.

Context (HW : flag pte PTE_W = true).

Lemma store8_at u' o x :
  0 <= o < 4096 -> upt u' = upt u -> self u' = self u ->
  store8 (u32 (v * 4096 + o)) x u' = Ok tt (set_umem (wr8 (umem u') (frame pte * 4096 + o) x) u').
Proof using Hv Hpte HU HW.
  intros Ho Eu Es. unfold store8, paddr, PGSIZE. rewrite u32_id by lia.
  replace ((v * 4096 + o) / 4096) with v by zdm. rewrite Eu, Es, Hpte, HU, HW. cbn [andb orb negb].
  by replace ((v * 4096 + o) mod 4096) with o by zdm.
Qed.

Lemma store32_at o x :
  0 <= o <= 4092 ->
  exists m, store32 (u32 (v * 4096 + o)) x u = Ok tt (set_umem m u)
    /\ forall y, m y = wr32 (umem u) (frame pte * 4096 + o) x y.
Proof using Hv Hpte HU HW.
  intros Ho. unfold store32, mbind. rewrite (u32_id (v * 4096 + o)) by lia. rewrite <- !Z.add_assoc.
  do 4 (rewrite store8_at by (done || lia); cbn beta iota). eexists. split; [reflexivity|]. intros y. cbn. unfold wr8, wr32.
  rewrite !u8_u8, !Z.add_assoc. set (a := frame pte * 4096 + o).
  destruct (decide (y = a)) as [->|]; [by fsimpl|]. destruct (decide (y = a + 1)) as [->|]; [by fsimpl|].
  destruct (decide (y = a + 2)) as [->|]; [by fsimpl|]. destruct (decide (y = a + 3)) as [->|]; by fsimpl.
Qed.

End word.

(** ** Blocks *)

Section block.

Context (u : vm) (v pte : Z) (Hv : 0 <= v < 1048576) (Hpte : upt u !! (self u, v) = Some pte).
Context (HU : flag pte PTE_U = true).

Lemma uload_at n : forall o, 0 <= o -> o + Z.of_nat n <= 4096 ->
  uload n (v * 4096 + o) u = Ok (rdbytes (umem u) (frame pte * 4096 + o) n) u.
Proof using Hv Hpte HU.
  induction n as [|n IH]; intros o Ho Hn; [done|]. cbn [uload]. unfold mbind.
  rewrite (load8_at u v pte Hv Hpte HU o) by lia. rewrite <- Z.add_assoc, IH by lia.
  unfold mret, rdbytes. cbn [seq map]. rewrite <- seq_shift, map_map, Z.add_0_r. do 2 f_equal.
  apply map_ext. intros i. f_equal. lia.
Qed.

Context (HW : flag pte PTE_W = true).

Lemma ustore_at l : forall o u', 0 <= o -> o + Z.of_nat (length l) <= 4096 -> upt u' = upt u -> self u' = self u ->
  ustore (v * 4096 + o) l u' = Ok tt (set_umem (wrbytes (umem u') (frame pte * 4096 + o) l) u').
Proof using Hv Hpte HU HW.
  induction l as [|b l IH]; intros o u' Ho Hl Eu Es; cbn [ustore length] in *; [by destruct u'|].
  unfold mbind. rewrite (store8_at u v pte Hv Hpte HU HW) by (done || lia).
  rewrite <- Z.add_assoc, IH by (done || lia). cbn [umem set_umem wrbytes]. by rewrite Z.add_assoc.
Qed.

End block.

(** ** Strings *)

(** The running program reads the bytes [l] at [a], none of them in page [v]. *)
Definition reads_as (u : vm) (v a : Z) (l : list Z) : Prop :=
  0 <= a /\ a + Z.of_nat (length l) <= 4294967296
  /\ forall k b, l !! k = Some b -> sees u (self u) (a + Z.of_nat k) = Some b /\ (a + Z.of_nat k) / 4096 <> v.

(** The little-endian bytes of a word. *)
Definition word_bytes (x : Z) : list Z := [u8 x; u8 (x / 256); u8 (x / 65536); u8 (x / 16777216)].

Lemma reads_as_cons u v a b l : reads_as u v a (b :: l) ->
  load8 (u32 a) u = Ok b u /\ 0 <= a < 4294967296 /\ reads_as u v (a + 1) l.
Proof.
  intros (H0 & H1 & H). cbn [length] in H1. destruct (H 0%nat b eq_refl) as [Hs _]. rewrite Z.add_0_r in Hs.
  split; [|split; [lia|]].
  - rewrite u32_id by lia. unfold load8. unfold sees in Hs. destruct (paddr _ _ _ _); [by injection Hs as ->|done].
  - split; [lia|]. split; [lia|]. intros k c Hk. replace (a + 1 + Z.of_nat k) with (a + Z.of_nat (S k)) by lia. by apply H.
Qed.

Lemma reads_word u v a x : reads_as u v a (word_bytes x) -> 0 <= x < 4294967296 -> load32 a u = Ok x u.
Proof.
  unfold word_bytes. intros (E0 & _ & (E1 & _ & (E2 & _ & (E3 & _)%reads_as_cons)%reads_as_cons)%reads_as_cons)%reads_as_cons Hx.
  unfold load32, mbind. replace (a + 2) with (a + 1 + 1) by lia. replace (a + 3) with (a + 1 + 1 + 1) by lia.
  rewrite E0, E1, E2, E3. unfold mret. rewrite u32_bytes. by rewrite u32_id.
Qed.

(** Changes to page [v], to which no other page of the program maps, do not
    show elsewhere. *)
Lemma reads_as_stable u u' v a l : self u' = self u ->
  (forall w, w <> v -> upt u' !! (self u, w) = upt u !! (self u, w)) ->
  (forall w q x, w <> v -> upt u !! (self u, w) = Some q -> x / 4096 = frame q -> umem u' x = umem u x) ->
  reads_as u v a l -> reads_as u' v a l.
Proof.
  intros He Hu Hm (H0 & H1 & H). split; [done|]. split; [done|]. intros k b Hk. destruct (H k b Hk) as [Hs Hne].
  split; [|done]. rewrite <- Hs, He. unfold sees, paddr, PGSIZE. rewrite Hu by done.
  destruct (upt u !! _) as [q|] eqn:E; [|done]. destruct (_ && _); [|done]. f_equal. unfold rd8.
  rewrite (Hm _ _ _ Hne E) by zdm. done.
Qed.

Lemma ustrlen_loop_reads u v l : Forall (fun c => c <> 0) l -> forall fuel a n,
  reads_as u v a (l ++ [0]) -> (length l < fuel)%nat ->
  ustrlen_loop fuel a n u = Ok (n + Z.of_nat (length l)) u.
Proof.
  induction l as [|c l IH]; intros Hl [|fuel] a n Ha Hf; cbn [length] in Hf; try lia;
    cbn [app] in Ha; apply reads_as_cons in Ha as (E & _ & Ha); cbn [ustrlen_loop]; unfold mbind; rewrite E.
  - cbn. by rewrite Z.add_0_r.
  - apply Forall_cons_1 in Hl as [Hc Hl]. rewrite (proj2 (Z.eqb_neq c 0)) by done.
    rewrite IH by (done || lia). f_equal. cbn [length]. lia.
Qed.

Lemma ustrlen_reads u v a l : Forall (fun c => c <> 0) l -> reads_as u v a (l ++ [0]) ->
  ustrlen a u = Ok (Z.of_nat (length l)) u.
Proof.
  intros Hl Ha. unfold ustrlen. rewrite (ustrlen_loop_reads u v l Hl) by
    (done || (destruct Ha as (? & H & _); rewrite length_app in H; cbn in H; lia)). done.
Qed.

Section copy.

Context (u : vm) (v pte : Z) (Hv : 0 <= v < 1048576) (Hpte : upt u !! (self u, v) = Some pte).
Context (HU : flag pte PTE_U = true) (HW : flag pte PTE_W = true).
Context (Halone : forall w q, w <> v -> upt u !! (self u, w) = Some q -> frame q <> frame pte).

(** The program's own bytes elsewhere are safe from stores to the page. *)
Lemma reads_as_store u' m a l : upt u' = upt u -> self u' = self u ->
  (forall x, x / 4096 <> frame pte -> m x = umem u' x) -> reads_as u' v a l -> reads_as (set_umem m u') v a l.
Proof using Halone.
  intros Eu Es Hm. apply reads_as_stable; [done|done|]. cbn [umem set_umem]. intros w q x Hw Hq Hx. apply Hm.
  rewrite Hx. apply (Halone w q Hw). by rewrite <- Eu, <- Es.
Qed.

Lemma ustrcpy_loop_copies l : Forall (fun c => c <> 0) l -> forall fuel o a u',
  upt u' = upt u -> self u' = self u -> reads_as u' v a (l ++ [0]) -> (length l < fuel)%nat ->
  0 <= o -> o + Z.of_nat (length l) < 4096 ->
  ustrcpy_loop fuel (v * 4096 + o) a u' = Ok tt (set_umem (wrbytes (umem u') (frame pte * 4096 + o) (l ++ [0])) u').
Proof using Type*.
  induction l as [|c l IH]; intros Hl [|fuel] o a u' Eu Es Ha Hf Ho Hlen; cbn [length] in Hf, Hlen; try lia;
    cbn [app] in Ha; apply reads_as_cons in Ha as (E & Hr & Ha); cbn [ustrcpy_loop]; unfold mbind; rewrite E;
    rewrite (store8_at u v pte Hv Hpte HU HW) by (done || lia).
  - done.
  - apply Forall_cons_1 in Hl as [Hc Hl]. rewrite (proj2 (Z.eqb_neq c 0)) by done. rewrite <- Z.add_assoc.
    rewrite IH; try done; try lia.
    + cbn [umem set_umem app wrbytes]. by rewrite Z.add_assoc.
    + apply reads_as_store; [done|done| |done]. intros x Hx. unfold wr8. apply fn_lookup_insert_ne. zdm.
Qed.

Lemma ustrcpy_copies l o a u' : Forall (fun c => c <> 0) l ->
  upt u' = upt u -> self u' = self u -> reads_as u' v a (l ++ [0]) ->
  0 <= o -> o + Z.of_nat (length l) < 4096 ->
  ustrcpy (v * 4096 + o) a u' = Ok tt (set_umem (wrbytes (umem u') (frame pte * 4096 + o) (l ++ [0])) u').
Proof using Type*.
  intros Hl Eu Es Ha Ho Hlen. unfold ustrcpy. apply ustrcpy_loop_copies; try done.
  destruct Ha as (? & H & _). rewrite length_app in H. cbn in H. lia.
Qed.

End copy.

End Uaccess.
