(* ===== verification/UvmSim.v ===== *)
(** * The kernel implements the machine that user programs see

    [sim] relates a kernel state to a state of the machine of Uvm.v: the same
    entries for every user page, the same page tables, the same bytes in every
    page that is mapped, the same environments to act on.  The theorem is a
    forward simulation of the three page-table system calls of kern/syscall.c. *)

From stdpp Require Import base numbers list functions strings gmap sets.
From Stdlib Require Import ZArith Lia.
From S2P Require Import Prelude Mem Mmu Kernel Printfmt Pmap PageAlloc PageTable AddrSpace Env EnvFree Sched Syscall SyscallFacts Umonad Uvm.

Open Scope Z_scope.

Module UvmSim.

Import Pmap PageAlloc PageTable AddrSpace Env Vm Syscall SyscallFacts Printfmt.

(** Nothing [envid2env] looks at differs. *)
Definition same_envs (s s' : kstate) : Prop :=
  envs s' = envs s /\ cpus s' = cpus s /\ cpunum s' = cpunum s.

Lemma same_envs_mem_only s s' : mem_only s s' -> same_envs s s'.
Proof. intros ->. done. Qed.

Lemma envid2env_same s s' id r :
  same_envs s s' -> envid2env id true s = Ret r s -> envid2env id true s' = Ret r s'.
Proof.
  intros (E1 & E2 & E3). unfold envid2env, bind, gets, curenv, ret. rewrite E2, E3.
  destruct (id =? 0); [congruence|]. rewrite E1.
  destruct (_ || _); [congruence|]. destruct (true && _); [|congruence].
  destruct (cpu_env _); [|done]. rewrite E1. destruct (negb _); congruence.
Qed.

Lemma target_same s s' id k dp D : same_envs s s' -> target s id k dp D -> target s' id k dp D.
Proof.
  intros Hs [H1 H2 H3]. split; [by eapply envid2env_same|by rewrite (proj1 Hs)|done].
Qed.

(** [dir] gives the page directory of an environment; [D] are the directories
    in use and [l] the free pages. *)
Record sim (l D : list Z) (dir : Z -> Z) (s : kstate) (u : Uvm.vm) : Prop := mkSim {
  si_ok : space_ok s l D;
  si_own : forall id e, Uvm.resolve u id = Some e -> dir e ∈ D /\ exists k, target s id k (dir e) D;
  si_other : forall id, Uvm.resolve u id = None -> envid2env id true s = Ret (- E_BAD_ENV, None) s;
  si_inj : forall e e', dir e ∈ D -> dir e = dir e' -> e = e';
  si_pt : forall e v, dir e ∈ D -> 0 <= v < user_vpns ->
    Uvm.upt u !! (e, v) = if flag (pte_of s (dir e) v) PTE_P then Some (pte_of s (dir e) v) else None;
  si_dom : forall e v pte, Uvm.upt u !! (e, v) = Some pte -> dir e ∈ D /\ 0 <= v < user_vpns;
  si_tab : forall e i, dir e ∈ D -> 0 <= i < user_pdes ->
    (e, i) ∈ Uvm.utab u <-> is_Some (table_of s (dir e) i);
  si_mem : forall e v p a, dir e ∈ D -> 0 <= v < user_vpns -> mapped s (dir e) v = Some p ->
    a / 4096 = p -> Uvm.umem u a = phys s a
}.

Section sim.

Context (D : list Z) (dir : Z -> Z).

Lemma sim_offers l s u o : sim l D dir s u -> sim l D dir s (Uvm.set_offers o u).
Proof. by intros []. Qed.

(** The mapping of a page, in both worlds. *)
Lemma sim_lookup l s u e v :
  sim l D dir s u -> dir e ∈ D -> 0 <= v < user_vpns ->
  match Uvm.upt u !! (e, v) with
  | Some pte => pte = pte_of s (dir e) v /\ mapped s (dir e) v = Some (Uvm.frame pte)
  | None => mapped s (dir e) v = None
  end.
Proof.
  intros H He Hv. rewrite (si_pt _ _ _ _ _ H) by done. unfold mapped.
  by destruct (flag _ _).
Qed.

(** A page on the free list is mapped nowhere. *)
Lemma sim_free_fresh l s u p : sim l D dir s u -> p ∈ l -> Uvm.uref u p = 0.
Proof.
  intros H Hp. apply Uvm.uref_unmapped. intros e v pte Hl E.
  destruct (si_dom _ _ _ _ _ H _ _ _ Hl) as [He Hv].
  pose proof (sim_lookup _ _ _ _ _ H He Hv) as Hm. rewrite Hl in Hm. destruct Hm as [_ Hm].
  rewrite E in Hm. by apply (so_mapped_used _ _ _ (si_ok _ _ _ _ _ H) _ _ _ He Hv Hm).
Qed.

(** Console output is invisible. *)
Lemma sim_frame l s s' u :
  sim l D dir s u -> same_envs s s' -> phys s' = phys s -> pages s' = pages s ->
  page_free_list s' = page_free_list s -> npages s' = npages s -> sim l D dir s' u.
Proof.
  intros [Hok Hown Hoth Hinj Hpt Hdom Htab Hmem] He Em Ep Ef En.
  pose proof (same_view_phys D s s' Em) as Hv. split; try done.
  - by eapply space_ok_frame.
  - intros id e Hr. destruct (Hown id e Hr) as [Hd (k & Ht)]. split; [done|]. exists k. by eapply target_same.
  - intros id Hr. eapply envid2env_same; eauto.
  - intros e v Hd Hvr. rewrite (sv_pte _ _ _ Hv) by done. by apply Hpt.
  - intros e i Hd Hi. rewrite (sv_tab _ _ _ Hv) by done. by apply Htab.
  - intros e v p a Hd Hvr. rewrite Em. unfold mapped. rewrite (sv_pte _ _ _ Hv) by done.
    by apply (Hmem e v p a).
Qed.

(** Taking a page off the free list is invisible too, whatever is in it. *)
Lemma sim_allocated l s u p m :
  sim (p :: l) D dir s u -> (forall a, a / 4096 <> p -> m a = Uvm.umem u a) ->
  sim l D dir (allocated 1 p s) (Uvm.set_umem m u).
Proof.
  intros H Hout. pose proof (allocated_view s p l D (si_ok _ _ _ _ _ H)) as Hv.
  pose proof (same_envs_mem_only _ _ (mem_only_allocated 1 p s)) as He.
  pose proof H as [Hok Hown Hoth Hinj Hpt Hdom Htab Hmem]. split; try done.
  - by apply allocated_ok.
  - intros id e Hr. destruct (Hown id e Hr) as [Hd (k & Ht)]. split; [done|]. exists k. by eapply target_same.
  - intros id Hr. eapply envid2env_same; eauto.
  - intros e v Hd Hvr. rewrite (sv_pte _ _ _ Hv) by done. by apply Hpt.
  - intros e i Hd Hi. rewrite (sv_tab _ _ _ Hv) by done. by apply Htab.
  - intros e v q a Hd Hvr Hm Ha. unfold mapped in Hm. rewrite (sv_pte _ _ _ Hv) in Hm by done.
    assert (q <> p) as Hq.
    { intros ->. apply (so_mapped_used _ _ _ Hok _ _ _ Hd Hvr Hm). set_solver. }
    assert (~ (p * 4096 <= a < p * 4096 + 4096)) by zdm.
    unfold allocated. change (flag 1 ALLOC_ZERO) with true. cbn. rewrite mset_out by lia.
    rewrite Hout by congruence. by apply (Hmem e v q a).
Qed.

(** Inserting a page does to both worlds the same. *)
Lemma sim_insert l l' s s' u e pp va perm :
  sim l D dir s u -> dir e ∈ D -> 0 <= va < UTOP -> 0 <= pp < 1048576 -> 0 <= perm < 4096 ->
  (forall a, a / 4096 = pp -> Uvm.umem u a = phys s a) ->
  insert_post s s' l l' D (dir e) pp va perm ->
  sim l' D dir s' (Uvm.map_page e (va / 4096) (Uvm.entry pp perm) u).
Proof.
  intros [Hok Hown Hoth Hinj Hpt Hdom Htab Hmem] He Hva Hpp Hperm Hbytes
    (Hok' & Hpte & _ & Hph & Hmo & Ht).
  destruct (user_va va Hva) as [_ Hv]. pose proof (same_envs_mem_only _ _ Hmo) as Hse.
  assert (forall e' v', (e', v') <> (e, va / 4096) -> (dir e', v') <> (dir e, va / 4096)) as Hne.
  { intros e' v' Hne [= E ->]. apply Hne. f_equal. symmetry. by apply Hinj. }
  split; try done.
  - intros id e' Hr. destruct (Hown id e' Hr) as [Hd (k & Htg)]. split; [done|]. exists k. by eapply target_same.
  - intros id Hr. eapply envid2env_same; eauto.
  - intros e' v' Hd Hv'. cbn. destruct (decide ((e', v') = (e, va / 4096))) as [[= -> ->]|Hn].
    + rewrite lookup_insert_eq, Hpte, decide_True by done.
      change (Z.lor (pp * 4096) (Z.lor perm PTE_P)) with (Uvm.entry pp perm).
      rewrite Uvm.entry_flag by (unfold PTE_P; lia). by rewrite orb_true_r.
    + rewrite lookup_insert_ne by congruence. rewrite Hpte, decide_False by auto. by apply Hpt.
  - intros e' v' pte Hl. cbn in Hl. apply lookup_insert_Some in Hl as [[[= <- <-] _]|[_ Hl]]; [done|].
    by apply (Hdom e' v' pte).
  - intros e' i Hd Hi. cbn. rewrite Ht by done. rewrite elem_of_union, elem_of_singleton, Htab by done.
    split.
    + intros [[= -> ->]|?]; [by right|by left].
    + intros [?|[= E ->]]; [by right|]. left. f_equal. by apply Hinj.
  - intros e' v' q a Hd Hv' Hm Ha.
    pose proof (so_page _ _ _ Hok' _ _ _ Hd Hv' Hm) as Hdp.
    cbn. rewrite Hph by (by rewrite Ha).
    unfold mapped in Hm. rewrite Hpte in Hm by done.
    destruct (decide ((dir e', v') = (dir e, va / 4096))) as [E|Hn].
    + apply Hbytes. rewrite Ha. destruct (flag _ _); [|done]. injection Hm as <-.
      change (Z.lor (pp * 4096) (Z.lor perm PTE_P)) with (Uvm.entry pp perm).
      by apply Uvm.entry_frame.
    + by apply (Hmem e' v' q a).
Qed.

Lemma sim_remove l s u e va :
  sim l D dir s u -> dir e ∈ D -> 0 <= va < UTOP ->
  sim (removed_list s l (dir e) va) D dir (removed s (dir e) va)
    (Uvm.set_upt (delete (e, va / 4096) (Uvm.upt u)) u).
Proof.
  intros H He Hva. pose proof H as [Hok Hown Hoth Hinj Hpt Hdom Htab Hmem].
  destruct (user_va va Hva) as [_ Hv].
  pose proof (same_envs_mem_only _ _ (mem_only_removed s (dir e) va)) as Hse.
  pose proof (sim_lookup _ _ _ _ _ H He Hv) as Hlk.
  assert (forall e' v', dir e' ∈ D -> 0 <= v' < user_vpns ->
    mapped (removed s (dir e) va) (dir e') v'
    = if decide ((e', v') = (e, va / 4096)) then None else mapped s (dir e') v') as Hm'.
  { intros e' v' Hd' Hv'. unfold mapped at 1. rewrite (removed_pte s l D) by done.
    destruct (decide ((e', v') = (e, va / 4096))) as [[= -> ->]|Hne].
    - destruct (decide _) as [_|Hn]; [done|]. destruct (mapped s (dir e) (va / 4096)) eqn:Em.
      + destruct Hn. split; [done|]. by exists z.
      + unfold mapped in Em. by destruct (flag _ _).
    - rewrite decide_False; [done|]. intros [[= E ->] _]. apply Hne. f_equal. symmetry. by apply Hinj. }
  split; try done.
  - by apply removed_ok.
  - intros id e' Hr. destruct (Hown id e' Hr) as [Hd (k & Htg)]. split; [done|]. exists k. by eapply target_same.
  - intros id Hr. eapply envid2env_same; eauto.
  - intros e' v' Hd' Hv'. cbn. specialize (Hm' e' v' Hd' Hv').
    destruct (decide ((e', v') = (e, va / 4096))) as [[= -> ->]|Hne].
    + rewrite lookup_delete_eq. unfold mapped in Hm'. by destruct (flag _ _).
    + rewrite lookup_delete_ne by congruence. rewrite (removed_pte s l D) by done.
      rewrite decide_False; [by apply Hpt|]. intros [[= E ->] _]. apply Hne. f_equal. symmetry. by apply Hinj.
  - intros e' v' pte Hl. cbn in Hl. apply lookup_delete_Some in Hl as [_ Hl]. by apply (Hdom e' v' pte).
  - intros e' i Hd Hi. cbn. rewrite (removed_table s l D) by done. by apply Htab.
  - intros e' v' q a Hd Hv' Hm Ha. rewrite Hm' in Hm by done.
    destruct (decide _); [done|]. cbn. rewrite (Hmem e' v' q a) by done.
    destruct (so_page _ _ _ Hok _ _ _ Hd Hv' Hm) as (_ & _ & Hnt).
    destruct (mapped s (dir e) (va / 4096)) as [p|] eqn:Em; [|unfold removed; by rewrite Em].
    destruct (mapped_table s (dir e) va p Em) as (tp & Etp & _).
    rewrite (removed_phys s (dir e) va p tp) by done. unfold stored. cbn.
    assert (q <> tp) as Hq.
    { intros ->. apply (Hnt (dir e) (va / 4096 / 1024) He); [by apply vpn_pde|done]. }
    pose proof (vpn_split (va / 4096)). rewrite wr32_out by zdm. done.
Qed.

(** Putting a page back on the free list. *)
Lemma sim_freed l s u p :
  sim l D dir s u -> p ∉ l -> data_page s D p -> pp_ref (pages s p) = 0 ->
  sim (p :: l) D dir (freed p s) u.
Proof.
  intros [Hok Hown Hoth Hinj Hpt Hdom Htab Hmem] Hp Hdp H0.
  pose proof (same_view_phys D s (freed p s) eq_refl) as Hv.
  assert (same_envs s (freed p s)) as He by done. split; try done.
  - by apply freed_ok.
  - intros id e Hr. destruct (Hown id e Hr) as [Hd (k & Ht)]. split; [done|]. exists k. by eapply target_same.
  - intros id Hr. eapply envid2env_same; eauto.
Qed.

(** ** The system calls *)

(** What one call of the kernel and of the machine have in common. *)
Definition agrees (o : outcome Z) (m : list Z -> res Uvm.vm Z) : Prop :=
  match o with
  | Ret r s' => exists offers u' l', m offers = Ok r u' /\ sim l' D dir s' u'
  | Panic _ _ => exists offers w u', m offers = Panics w u'
  | _ => False
  end.

Lemma agrees_ret o m r s' offers u' l' :
  o = Ret r s' -> m offers = Ok r u' -> sim l' D dir s' u' -> agrees o m.
Proof. intros -> E H. by exists offers, u', l'. Qed.

(** The machine's [sys_page_alloc] once its arguments are found in order. *)
Lemma machine_alloc u e envid va perm o :
  bad_va va = false -> bad_perm perm = false -> Uvm.resolve u envid = Some e ->
  match o with
  | None => Uvm.sys_page_alloc envid va perm (Uvm.set_offers [] u) = Ok (- E_NO_MEM) (Uvm.set_offers [] u)
  | Some p => 0 <= p < 1048576 -> Uvm.uref u p = 0 ->
    Uvm.sys_page_alloc envid va perm (Uvm.set_offers [p] u)
    = Ok 0 (Uvm.map_page e (va / 4096) (Uvm.entry p perm)
              (Uvm.set_umem (mset (Uvm.umem u) (p * 4096) 0 4096) (Uvm.set_offers [] u)))
  end.
Proof.
  intros Hbv Hbp Hr. unfold Uvm.sys_page_alloc. rewrite Hbv, Hbp. cbn [orb].
  destruct o as [p|].
  - intros Hp H0. change (Uvm.resolve (Uvm.set_offers [p] u) envid) with (Uvm.resolve u envid).
    rewrite Hr. cbn. change (Uvm.uref (Uvm.set_offers [p] u) p) with (Uvm.uref u p). rewrite H0.
    destruct (Z.ltb_spec p 0); [lia|]. by destruct (Z.leb_spec 1048576 p); [lia|].
  - change (Uvm.resolve (Uvm.set_offers [] u) envid) with (Uvm.resolve u envid). by rewrite Hr.
Qed.

(** Arguments that the kernel rejects. *)
Lemma alloc_rejects l s u envid va perm :
  sim l D dir s u -> bad_va va || bad_perm perm = true \/ Uvm.resolve u envid = None ->
  agrees (sys_page_alloc envid va perm s)
    (fun o => Uvm.sys_page_alloc envid va perm (Uvm.set_offers o u)).
Proof.
  intros H Hbad. unfold Uvm.sys_page_alloc, sys_page_alloc.
  destruct (bad_va va) eqn:Hbv; [|destruct (bad_perm perm) eqn:Hbp; [|destruct Hbad as [|Hr]; [done|]]].
  3: rewrite (bind_ret _ _ _ _ _ (si_other _ _ _ _ _ H _ Hr)); change (- E_BAD_ENV <? 0) with true; cbv iota.
  all: erewrite kcprintf_ret by (vm_compute; reflexivity).
  all: eapply (agrees_ret _ _ _ _ []);
         [reflexivity| |eapply sim_frame; [apply (sim_offers _ _ _ [] H)|done..]].
  1,2: by rewrite ?orb_true_r.
  cbn [orb]. change (Uvm.resolve (Uvm.set_offers [] u) envid) with (Uvm.resolve u envid). by rewrite Hr.
Qed.

(** A page is there and the table it needs too. *)
Lemma alloc_succeeds l l' s s' u envid e p va perm :
  sim (p :: l) D dir s u -> Uvm.resolve u envid = Some e -> dir e ∈ D -> 0 <= va < UTOP ->
  bad_va va = false -> bad_perm perm = false -> 0 <= p < 1048576 ->
  insert_post (allocated 1 p s) s' l l' D (dir e) p va perm ->
  agrees (Ret 0 s') (fun o => Uvm.sys_page_alloc envid va perm (Uvm.set_offers o u)).
Proof.
  intros H Hr He Hut Hbv Hbp Hp Hpost. pose proof (bad_perm_range _ Hbp) as Hpm.
  eapply (agrees_ret _ _ _ _ [p]); [done| |].
  - apply (machine_alloc u e envid va perm (Some p)); try done.
    eapply sim_free_fresh; [exact H|set_solver].
  - eapply sim_insert; [|exact He|exact Hut|lia|exact Hpm| |exact Hpost].
    + apply sim_allocated; [by apply sim_offers|]. intros a Ha. cbn. by rewrite mset_out by zdm.
    + intros a Ha. unfold allocated. change (flag 1 ALLOC_ZERO) with true. cbn. by rewrite !mset_in by zdm.
Qed.

Lemma alloc_agrees l s u envid va perm :
  sim l D dir s u -> 0 <= va < 4294967296 ->
  agrees (sys_page_alloc envid va perm s)
    (fun o => Uvm.sys_page_alloc envid va perm (Uvm.set_offers o u)).
Proof.
  intros H Hva. destruct (bad_va va || bad_perm perm) eqn:Hb; [eapply alloc_rejects; eauto|].
  destruct (Uvm.resolve u envid) as [e|] eqn:Hr; [|eapply alloc_rejects; eauto].
  apply orb_false_iff in Hb as [Hbv Hbp].
  destruct (si_own _ _ _ _ _ H _ _ Hr) as [He (k & Ht)]. pose proof (si_ok _ _ _ _ _ H) as Hok.
  destruct l as [|p l].
  { destruct (sys_page_alloc_nomem s D envid k (dir e) va perm Ht Hbv Hbp Hok) as (s' & E & Hc).
    eapply (agrees_ret _ _ _ _ []); [exact E|by apply (machine_alloc u e envid va perm None)|].
    rewrite Hc. eapply sim_frame; [by apply sim_offers|done..]. }
  destruct (bad_va_range va Hva Hbv) as [Hut _]. pose proof (bad_perm_range _ Hbp) as Hp.
  pose proof (page_insert_frees s p l D (dir e) va perm Hok He Hut Hp) as Hi.
  rewrite (sys_page_alloc_unfold s D envid k (dir e) va perm Ht Hbv Hbp p l Hok).
  assert (0 <= p < 1048576) as Hpr.
  { assert (p ∈ p :: l) as Hin by set_solver.
    pose proof (ai_range _ _ (so_alloc _ _ _ Hok) p Hin). pose proof (so_npages _ _ _ Hok). lia. }
  assert (forall s' l', page_insert (kva (dir e)) p va perm (allocated 1 p s) = Ret 0 s' ->
    insert_post (allocated 1 p s) s' l l' D (dir e) p va perm ->
    agrees (bind (page_insert (kva (dir e)) p va perm) (fun r2 =>
      if r2 <? 0 then
        bind (page_free p) (fun _ =>
          bind (kcprintf "sys_page_alloc: page_insert failed" []) (fun _ => ret (- E_NO_MEM)))
      else ret 0) (allocated 1 p s))
      (fun o => Uvm.sys_page_alloc envid va perm (Uvm.set_offers o u))) as Hdone.
  { intros s' l' E Hpost. rewrite (bind_ret _ _ _ _ _ E). by eapply alloc_succeeds. }
  destruct (table_of s (dir e) (va / 4096 / 1024)) as [t|].
  { assert (exists s' l', page_insert (kva (dir e)) p va perm (allocated 1 p s) = Ret 0 s'
      /\ insert_post (allocated 1 p s) s' l l' D (dir e) p va perm) as (s' & l' & E & Hpost)
      by (by destruct l). by eapply Hdone. }
  destruct l as [|t l]; [|destruct Hi as (s' & l' & E & Hpost); by eapply Hdone].
  pose proof (free_data_page s p [] D Hok) as Hdp.
  assert (pp_ref (pages (allocated 1 p s) p) = 0) as H0.
  { rewrite (allocated_refs s p [] D) by done. apply (ai_ref _ _ (so_alloc _ _ _ Hok)). set_solver. }
  rewrite (bind_ret _ _ _ _ _ Hi). change (- E_NO_MEM <? 0) with true. cbv iota.
  destruct (page_free_push (allocated 1 p s) [] p (so_alloc _ _ _ (allocated_ok _ _ _ _ Hok))) as [Ef _];
    [set_solver|apply Hdp|done|].
  rewrite (bind_ret _ _ _ _ _ Ef). erewrite kcprintf_ret by (vm_compute; reflexivity).
  eapply (agrees_ret _ _ _ _ []); [done|by apply (machine_alloc u e envid va perm None)|].
  eapply (sim_frame _ (freed p (allocated 1 p s))); [|done..].
  apply (sim_freed []); [|set_solver|exact Hdp|exact H0].
  apply (sim_allocated [] s (Uvm.set_offers [] u) p (Uvm.umem u)); [by apply sim_offers|done].
Qed.

(** ** sys_page_map and sys_page_unmap *)

Lemma map_agrees l s u srcid srcva dstid dstva perm :
  sim l D dir s u -> 0 <= srcva < 4294967296 -> 0 <= dstva < 4294967296 ->
  (forall p, pp_ref (pages s p) < 65535) ->
  agrees (sys_page_map srcid srcva dstid dstva perm s)
    (fun o => Uvm.sys_page_map srcid srcva dstid dstva perm (Uvm.set_offers o u)).
Proof.
  intros H Hs Hd Hcnt. unfold sys_page_map.
  destruct (bad_va srcva || bad_va dstva) eqn:Hbv.
  { exists []. unfold Uvm.sys_page_map. rewrite Hbv. by eexists _, _. }
  destruct (bad_perm perm) eqn:Hbp.
  { exists []. unfold Uvm.sys_page_map. rewrite Hbv, Hbp. by eexists _, _. }
  pose proof (si_ok _ _ _ _ _ H) as Hok. apply orb_false_iff in Hbv as [Hb1 Hb2].
  destruct (bad_va_range srcva Hs Hb1) as [Hsu _]. destruct (bad_va_range dstva Hd Hb2) as [Hdu _].
  destruct (user_va srcva Hsu) as [_ Hsn]. pose proof (bad_perm_range _ Hbp) as Hp.
  destruct (Uvm.resolve u srcid) as [se|] eqn:Hrs.
  2:{ rewrite (bind_ret _ _ _ _ _ (si_other _ _ _ _ _ H _ Hrs)).
      eapply (agrees_ret _ _ _ _ []); [reflexivity| |apply (sim_offers _ _ _ [] H)].
      unfold Uvm.sys_page_map. rewrite Hb1, Hb2, Hbp. cbn [orb].
      change (Uvm.resolve (Uvm.set_offers [] u) srcid) with (Uvm.resolve u srcid). by rewrite Hrs. }
  destruct (si_own _ _ _ _ _ H _ _ Hrs) as [Hse (ks & [Ts1 Ts2 Ts3])].
  rewrite (bind_ret _ _ _ _ _ Ts1). cbn [Z.ltb Z.compare].
  destruct (Uvm.resolve u dstid) as [de|] eqn:Hrd.
  2:{ rewrite (bind_ret _ _ _ _ _ (si_other _ _ _ _ _ H _ Hrd)).
      eapply (agrees_ret _ _ _ _ []); [reflexivity| |apply (sim_offers _ _ _ [] H)].
      unfold Uvm.sys_page_map. rewrite Hb1, Hb2, Hbp. cbn [orb].
      change (Uvm.resolve (Uvm.set_offers [] u) dstid) with (Uvm.resolve u dstid). rewrite Hrd.
      by destruct (Uvm.resolve _ _). }
  destruct (si_own _ _ _ _ _ H _ _ Hrd) as [Hde (kd & [Td1 Td2 Td3])].
  rewrite (bind_ret _ _ _ _ _ Td1). cbn [Z.ltb Z.compare].
  rewrite (bind_ret _ _ s ks s) by done.
  rewrite (bind_ret _ _ s (kva (dir se)) s) by (unfold env_field, gets; by rewrite Ts2).
  rewrite (bind_ret _ _ _ _ _ (page_lookup_eq s l D Hok (dir se) srcva Ts3 Hsu)).
  assert (forall o, Uvm.resolve (Uvm.set_offers o u) srcid = Some se) as Hrs' by done.
  assert (forall o, Uvm.resolve (Uvm.set_offers o u) dstid = Some de) as Hrd' by done.
  pose proof (sim_lookup _ _ _ _ _ H Hse Hsn) as Hlk.
  destruct (Uvm.upt u !! (se, srcva / 4096)) as [pte|] eqn:Eup.
  2:{ rewrite Hlk. exists []. unfold Uvm.sys_page_map. rewrite Hb1, Hb2, Hbp, Hrs', Hrd'. cbn. unfold PGSIZE. rewrite Eup. by eexists _, _. }
  destruct Hlk as [-> Hm]. rewrite Hm. set (p := Uvm.frame _) in *.
  destruct (mapped_table s (dir se) srcva p Hm) as (tp & -> & Ew).
  rewrite (bind_ret _ _ _ _ _ (kload_word s tp _)), <- Ew.
  destruct (flag perm PTE_W && negb (flag (pte_of s (dir se) (srcva / 4096)) PTE_W)) eqn:Hw.
  { exists []. unfold Uvm.sys_page_map. rewrite Hb1, Hb2, Hbp, Hrs', Hrd'. cbn. unfold PGSIZE. rewrite Eup, Hw. by eexists _, _. }
  rewrite (bind_ret _ _ s kd s) by done.
  rewrite (bind_ret _ _ s (kva (dir de)) s) by (unfold env_field, gets; by rewrite Td2).
  destruct (mapped_data_page s l D (dir se) _ p Hok Ts3 Hsn Hm) as [Hdp Hpl].
  pose proof (page_insert_spec s l D (dir de) p dstva perm Hok Td3 Hdu Hp Hdp Hpl (Hcnt p)) as Hi.
  assert (0 <= p < 1048576) as Hpr by (pose proof (so_npages _ _ _ Hok); destruct Hdp; lia).
  assert (forall s1 l1, page_insert (kva (dir de)) p dstva perm s = Ret 0 s1 ->
    insert_post s s1 l l1 D (dir de) p dstva perm ->
    agrees (bind (page_insert (kva (dir de)) p dstva perm)
              (fun r => if r <? 0 then panic "sys_page_map: page_insert failed" else ret 0) s)
      (fun o => Uvm.sys_page_map srcid srcva dstid dstva perm (Uvm.set_offers o u))) as Hdone.
  { intros s1 l1 E Hpost. rewrite (bind_ret _ _ _ _ _ E). eapply (agrees_ret _ _ _ _ [0]); [reflexivity| |].
    - unfold Uvm.sys_page_map. rewrite Hb1, Hb2, Hbp, Hrs', Hrd'. cbn. unfold PGSIZE.
      rewrite Eup, Hw. reflexivity.
    - eapply sim_insert; [by apply sim_offers|exact Hde|exact Hdu|lia|exact Hp| |exact Hpost].
      intros a Ha. by apply (si_mem _ _ _ _ _ H se (srcva / 4096) p a). }
  destruct (table_of s (dir de) (dstva / 4096 / 1024)) as [t|].
  { assert (exists s1 l1, page_insert (kva (dir de)) p dstva perm s = Ret 0 s1
      /\ insert_post s s1 l l1 D (dir de) p dstva perm) as (s1 & l1 & E & Hpost) by (by destruct l).
    by eapply Hdone. }
  destruct l as [|q l]; [|destruct Hi as (s1 & l1 & E & Hpost); by eapply Hdone].
  rewrite (bind_ret _ _ _ _ _ Hi). exists []. unfold Uvm.sys_page_map. rewrite Hb1, Hb2, Hbp, Hrs', Hrd'. cbn. unfold PGSIZE.
  rewrite Eup, Hw. by eexists _, _.
Qed.

Lemma unmap_agrees l s u envid va :
  sim l D dir s u -> 0 <= va < 4294967296 ->
  agrees (sys_page_unmap envid va s) (fun o => Uvm.sys_page_unmap envid va (Uvm.set_offers o u)).
Proof.
  intros H Hva. unfold Uvm.sys_page_unmap, sys_page_unmap.
  destruct (bad_va va) eqn:Hbv.
  { eapply (agrees_ret _ _ _ _ []); [reflexivity|reflexivity|by apply sim_offers]. }
  destruct (bad_va_range va Hva Hbv) as [Hut _].
  assert (forall o, Uvm.resolve (Uvm.set_offers o u) envid = Uvm.resolve u envid) as Hro by done.
  destruct (Uvm.resolve u envid) as [e|] eqn:Hr.
  - destruct (si_own _ _ _ _ _ H _ _ Hr) as [He (k & [T1 T2 T3])].
    rewrite (bind_ret _ _ _ _ _ T1). cbn [Z.ltb Z.compare].
    rewrite (bind_ret _ _ s k s) by done.
    rewrite (bind_ret _ _ s (kva (dir e)) s) by (unfold env_field, gets; by rewrite T2).
    rewrite (bind_ret _ _ _ _ _ (page_remove_eq s l D (si_ok _ _ _ _ _ H) (dir e) va T3 Hut)).
    eapply (agrees_ret _ _ _ _ []); [reflexivity|by rewrite Hro|].
    eapply sim_remove; [by apply sim_offers|done|done].
  - rewrite (bind_ret _ _ _ _ _ (si_other _ _ _ _ _ H _ Hr)).
    eapply (agrees_ret _ _ _ _ []); [reflexivity|by rewrite Hro|by apply sim_offers].
Qed.

(** The calls that change address spaces. *)
Inductive call :=
| PageAlloc (envid va perm : Z)
| PageMap (srcid srcva dstid dstva perm : Z)
| PageUnmap (envid va : Z).

Definition kernel_call (c : call) : K Z :=
  match c with
  | PageAlloc envid va perm => sys_page_alloc envid va perm
  | PageMap srcid srcva dstid dstva perm => sys_page_map srcid srcva dstid dstva perm
  | PageUnmap envid va => sys_page_unmap envid va
  end.

Definition machine_call (c : call) : M Uvm.vm Z :=
  match c with
  | PageAlloc envid va perm => Uvm.sys_page_alloc envid va perm
  | PageMap srcid srcva dstid dstva perm => Uvm.sys_page_map srcid srcva dstid dstva perm
  | PageUnmap envid va => Uvm.sys_page_unmap envid va
  end.

(** Addresses are 32 bits wide. *)
Definition wide (c : call) : Prop :=
  match c with
  | PageAlloc _ va _ | PageUnmap _ va => 0 <= va < 4294967296
  | PageMap _ srcva _ dstva _ => 0 <= srcva < 4294967296 /\ 0 <= dstva < 4294967296
  end.

(** C4: the kernel implements the address spaces that user programs are
    written against: from related states, with any arguments, a page-table
    system call either returns, with the result the abstract machine gives for
    some answer of the kernel about its memory and in related states again, or
    panics where the machine says so.  It never leaves the kernel in another
    way. *)
Theorem kernel_refines_machine l s u c :
  sim l D dir s u -> wide c -> (forall p, pp_ref (pages s p) < 65535) ->
  match kernel_call c s with
  | Ret r s' => exists offers u' l', machine_call c (Uvm.set_offers offers u) = Ok r u' /\ sim l' D dir s' u'
  | Panic _ _ => exists offers w u', machine_call c (Uvm.set_offers offers u) = Panics w u'
  | _ => False
  end.
Proof.
  intros H Hw Hcnt. destruct c as [envid va perm|srcid srcva dstid dstva perm|envid va]; cbn in *.
  - by eapply alloc_agrees.
  - destruct Hw. by apply (map_agrees l).
  - by eapply unmap_agrees.
Qed.

End sim.

(** Environments 4097 and its child 4102 of [two_envs], with nothing mapped. *)
Definition two_dirs (e : Z) : Z := if e =? 4097 then 2 else if e =? 4102 then 4 else -1.

Definition two_spaces : Uvm.vm :=
  Uvm.mkVm ∅ ∅ (fun _ => 0) [] 4097 {[4097; 4102]} [] ∅ ∅.

Lemma two_spaces_sim : sim [3; 5; 9] [2; 4] two_dirs two_envs two_spaces.
Proof.
  assert (forall d i, table_of two_envs d i = None) as Ht by (intros; by apply zero_table).
  split.
  - exact two_envs_ok.
  - intros id e. unfold Uvm.resolve. destruct (Z.eqb_spec id 0) as [->|Hn].
    { intros [= <-]. split; [exact small_dir|]. exists 1. exact two_envs_self. }
    destruct (decide _) as [Hin|]; [|done]. intros [= <-]. cbn in Hin.
    apply elem_of_union in Hin as [->%elem_of_singleton | ->%elem_of_singleton].
    + split; [exact small_dir|]. exists 1. split; [vm_compute; reflexivity|reflexivity|exact small_dir].
    + split; [apply (ta_in _ _ _ _ _ two_envs_target)|]. exists 6. exact two_envs_target.
  - intros id. unfold Uvm.resolve. destruct (Z.eqb_spec id 0) as [->|Hn]; [done|].
    destruct (decide _) as [|Hin]; [done|]. intros _. cbn in Hin. unfold envid2env, bind, gets.
    destruct (Z.eqb_spec id 0); [done|].
    destruct (_ || _) eqn:Eb; [done|]. exfalso. apply orb_false_iff in Eb as [Es Ei].
    apply negb_false_iff, Z.eqb_eq in Ei. apply Hin. unfold two_envs in Es, Ei. cbn in Es, Ei.
    destruct (decide (ENVX id = 6)) as [E|H6]; [rewrite E in Es, Ei; fsimpl; cbn in *; set_solver|].
    rewrite fn_lookup_insert_ne in Es, Ei by done.
    destruct (decide (ENVX id = 1)) as [E|H1]; [rewrite E in Es, Ei; fsimpl; cbn in *; set_solver|].
    rewrite fn_lookup_insert_ne in Es, Ei by done. cbn in Es. done.
  - intros e e'. unfold two_dirs.
    destruct (Z.eqb_spec e 4097), (Z.eqb_spec e 4102), (Z.eqb_spec e' 4097), (Z.eqb_spec e' 4102);
      intros Hin ?; lia || (exfalso; clear -Hin; set_solver).
  - intros e v _ _. cbn. rewrite lookup_empty. unfold pte_of. by rewrite Ht.
  - intros e v pte H. cbn in H. by rewrite lookup_empty in H.
  - intros e i _ _. cbn. rewrite Ht. split; [set_solver|by intros [? ?]].
  - intros e v p a _ _ _ _. reflexivity.
Qed.

Lemma two_envs_refs p : pp_ref (pages two_envs p) < 65535.
Proof. cbn. unfold insert, fn_insert. repeat (destruct (decide _); [cbn; lia|]). cbn. lia. Qed.

Lemma two_envs_alloc : exists s', kernel_call (PageAlloc 4102 8388608 7) two_envs = Ret 0 s'.
Proof.
  destruct (sys_page_alloc_mapped two_envs [2; 4] 4102 6 4 8388608 7 two_envs_target ltac:(lia)
              eq_refl eq_refl 3 [5; 9] two_envs_ok ltac:(discriminate)) as (s' & l1 & E & _).
  by exists s'.
Qed.

Lemma kernel_refines_machine_witness :
  exists s' offers u' l', kernel_call (PageAlloc 4102 8388608 7) two_envs = Ret 0 s'
    /\ machine_call (PageAlloc 4102 8388608 7) (Uvm.set_offers offers two_spaces) = Ok 0 u'
    /\ sim l' [2; 4] two_dirs s' u'.
Proof.
  destruct two_envs_alloc as [s' E].
  pose proof (kernel_refines_machine [2; 4] two_dirs [3; 5; 9] two_envs two_spaces
                (PageAlloc 4102 8388608 7) two_spaces_sim ltac:(cbn; lia) two_envs_refs) as H.
  rewrite E in H. destruct H as (o & u' & l' & Eu & Hs).
  exists s', o, u', l'. exact (conj E (conj Eu Hs)).
Defined.

End UvmSim.
