(* ===== verification/Fork.v ===== *)
(** * User-level fork with copy-on-write (lib/fork.c, lib/pgfault.c)

    [fork] gives the child the parent's pages, writable ones marked
    copy-on-write in both; [pgfault], called by the page-fault upcall, replaces
    such a page by a private copy when it is written.  The functions run on the
    machine of Uvm.v.  The addresses the linker gives to [pgfault] and
    [_pgfault_upcall] are parameters, and the variable [_pgfault_handler] is
    passed explicitly.  The loop of [fork] is modelled between two instructions
    of the parent: that the parent's own stack becomes copy-on-write under it
    costs it page faults, which [pgfault] makes invisible.

    The theorems: after [fork] the child sees what the parent sees, and from
    then on each of the two sees its own writes and never the other's. *)

From stdpp Require Import base numbers list functions strings gmap sets.
From Stdlib Require Import ZArith Lia.
From S2P Require Import Prelude Mem Mmu Kernel Umonad Syscall Uvm.

Open Scope Z_scope.
Open Scope usr_scope.

Module Fork.

Import Syscall Uvm.

(** The error-code bit of a write access, and the trap number of a page fault,
    which is what the kernel stores in [utf_err]. *)
Definition FEC_WR : Z := 2.

Definition T_PGFLT : Z := 14.

(** [memmove(dst, src, PGSIZE)] between two pages. *)
Definition copy_page (dst src : Z) : M vm unit :=
  let! _ := mfor (R := unit) (Z.to_nat PGSIZE) 0 (fun i =>
              let! b := load8 (src + i) in
              do! store8 (dst + i) b in
              mret None) in
  mret tt.

Definition pgfault (addr err : Z) : M vm unit :=
  if Z.land err FEC_WR =? 0 then mpanic "pgfault: faulting address not a write" else
  let page := ROUNDDOWN addr PGSIZE in
  let! pte := uvpt (page / PGSIZE) in
  if negb (flag pte PTE_COW) then mpanic "pgfault: fault was not on a copy-on-write page" else
  let! r := sys_page_alloc 0 PFTEMP (Z.lor (Z.lor PTE_P PTE_U) PTE_W) in
  if r <? 0 then mpanic "sys_page_alloc" else
  do! copy_page PFTEMP page in
  let! r := sys_page_map 0 PFTEMP 0 page (Z.lor (Z.lor PTE_P PTE_U) PTE_W) in
  if r <? 0 then mpanic "sys_page_map" else mret tt.

(** One of the three mappings of [duppage]; an error is a panic. *)
Definition map_or_panic (srcid srcva dstid dstva perm : Z) : M vm unit :=
  let! r := sys_page_map srcid srcva dstid dstva perm in
  if r <? 0 then mpanic "sys_page_map" else mret tt.

Definition duppage (envid pn : Z) : M vm Z :=
  let! this_envid := mgets self in
  let va := u32 (pn * PGSIZE) in
  let! pte := uvpt pn in
  do! (if flag pte PTE_SHARE then
         map_or_panic this_envid va envid va (Z.land pte PTE_SYSCALL)
       else if flag pte PTE_COW || flag pte PTE_W then
         let perm := Z.lor PTE_P PTE_COW in
         let perm := if flag pte PTE_U then Z.lor perm PTE_U else perm in
         do! map_or_panic this_envid va envid va perm in
         map_or_panic this_envid va this_envid va perm
       else
         map_or_panic this_envid va envid va (Z.land pte PTE_SYSCALL)) in
  mret 0.

Section fork.

(** Addresses of [_pgfault_upcall] and [pgfault]. *)
Context (pgfault_upcall pgfault_addr : Z).

(** [cur_handler] is [_pgfault_handler] before the call; the result is its new
    value. *)
Definition set_pgfault_handler (cur_handler handler : Z) : M vm Z :=
  if cur_handler =? 0 then
    let! e := mgets self in
    let! r := sys_page_alloc e (UXSTACKTOP - PGSIZE) (Z.lor (Z.lor PTE_W PTE_U) PTE_P) in
    if negb (r =? 0) then mpanic "set_pg_fault_handler" else
    let! _ := sys_env_set_pgfault_upcall e pgfault_upcall in
    mret handler
  else mret handler.

(** One iteration of the loop over the pages below the exception stack. *)
Definition fork_page (child page_num : Z) : M vm (option Z) :=
  let! p := mgets (present page_num) in
  if p : bool then let! _ := duppage child page_num in mret None else mret None.

(** The child starts with the registers of the parent and 0 as the result of
    [sys_exofork]; it only resets [thisenv] and returns 0. *)
Definition fork (cur_handler : Z) : M vm Z :=
  let! _ := set_pgfault_handler cur_handler pgfault_addr in
  let! child := sys_exofork in
  if child <? 0 then mpanic "sys_exofork" else
  if child =? 0 then mret 0 else
  let! _ := mfor (Z.to_nat (PGNUM (UTOP - PGSIZE))) 0 (fork_page child) in
  let! r := sys_page_alloc child (UXSTACKTOP - PGSIZE) (Z.lor (Z.lor PTE_P PTE_U) PTE_W) in
  if r <? 0 then mpanic "sys_page_alloc" else
  let! r := sys_env_set_pgfault_upcall child pgfault_upcall in
  if r <? 0 then mpanic "sys_env_set_pgfault_upcall" else
  let! r := sys_env_set_status child ENV_RUNNABLE in
  if r <? 0 then mpanic "sys_env_set_status" else
  mret child.

End fork.

Definition sfork : M vm Z := mpanic "sfork not implemented".

(** A store of the running program: when it faults the kernel calls the handler
    with the trap number in place of the error code, and the instruction is
    tried again. *)
Definition cow_store (a v : Z) : M vm unit := fun u =>
  match paddr u (self u) true a with
  | Some _ => store8 a v u
  | None => (do! pgfault a T_PGFLT in store8 a v) u
  end.

(** ** duppage *)

(** Permissions of a copy-on-write mapping. *)
Definition cow_perm (pte : Z) : Z :=
  if flag pte PTE_U then Z.lor (Z.lor PTE_P PTE_COW) PTE_U else Z.lor PTE_P PTE_COW.

(** The two entries after [duppage], from the parent's entry before it. *)
Definition dup_child (pte : Z) : Z :=
  if negb (flag pte PTE_SHARE) && (flag pte PTE_COW || flag pte PTE_W)
  then entry (frame pte) (cow_perm pte) else entry (frame pte) (Z.land pte PTE_SYSCALL).

Definition dup_parent (pte : Z) : Z :=
  if negb (flag pte PTE_SHARE) && (flag pte PTE_COW || flag pte PTE_W)
  then entry (frame pte) (cow_perm pte) else pte.

Lemma cow_perm_ok pte :
  bad_perm (cow_perm pte) = false /\ 0 <= cow_perm pte < 4096 /\ flag (cow_perm pte) PTE_W = false.
Proof. unfold cow_perm. destruct (flag pte PTE_U); vm_compute; repeat split; congruence. Qed.

(** An environment's entries are 32-bit words for user pages, and there are
    tables for them. *)
Record space_wf (u : vm) (e : Z) : Prop := {
  wf_page : forall v pte, upt u !! (e, v) = Some pte -> 0 <= v < 977920 /\ 0 <= pte < 4294967296;
  wf_tab : forall v pte, upt u !! (e, v) = Some pte -> (e, v / 1024) ∈ utab u
}.

Section dup.

Context (P c : Z) (HPc : P <> c) (HP : P <> 0) (Hc : c <> 0).

(** What the calls of [fork] about its two environments rely on. *)
Record ready (u : vm) : Prop := {
  rd_self : self u = P;
  rd_own : P ∈ own u /\ c ∈ own u;
  rd_mem : no_memory u = false
}.

Lemma ready_resolve u : ready u -> resolve u P = Some P /\ resolve u c = Some c.
Proof.
  intros [Hs [HoP Hoc] _]. unfold resolve.
  destruct (Z.eqb_spec P 0); [done|]. destruct (Z.eqb_spec c 0); [done|]. by rewrite !decide_True.
Qed.

Lemma ready_map_page u e v pte : ready u -> ready (map_page e v pte u).
Proof. by intros []. Qed.

Lemma map_or_panic_ok u dst de v perm pte :
  ready u -> 0 <= v < 977920 -> bad_perm perm = false -> resolve u dst = Some de ->
  upt u !! (P, v) = Some pte -> (flag perm PTE_W = true -> flag pte PTE_W = true) ->
  map_or_panic P (v * 4096) dst (v * 4096) perm u = Ok tt (map_page de v (entry (frame pte) perm) u).
Proof.
  intros Hr Hv Hp Hd Hu Hw. unfold map_or_panic, mbind.
  by rewrite (page_map_ok u P v dst v perm P de pte) by (done || apply (ready_resolve u Hr) || apply Hr).
Qed.

Lemma duppage_ok u v pte :
  ready u -> space_wf u P -> upt u !! (P, v) = Some pte ->
  exists u', duppage c v u = Ok 0 u' /\ ready u'
    /\ u' = set_utab (utab u') (set_upt (upt u') u) /\ {[(c, v / 1024)]} ∪ utab u ⊆ utab u'
    /\ upt u' !! (P, v) = Some (dup_parent pte) /\ upt u' !! (c, v) = Some (dup_child pte)
    /\ forall k, k <> (P, v) -> k <> (c, v) -> upt u' !! k = upt u !! k.
Proof.
  intros Hr Hwf Hu. destruct (wf_page _ _ Hwf v pte Hu) as [Hv Hpte].
  destruct (ready_resolve u Hr) as [HrP Hrc]. pose proof (rd_self _ Hr) as Hs.
  unfold duppage, mbind, mgets, mret. rewrite Hs. unfold PGSIZE. rewrite (u32_id (v * 4096)) by lia.
  rewrite uvpt_ok by (rewrite Hs; by apply (wf_tab _ _ Hwf v pte)). rewrite Hs, Hu. cbn [default id].
  pose proof (cow_perm_ok pte) as (Hcp & _ & Hcw).
  assert ((c, v) <> (P, v)) as Hne by congruence.
  assert (forall perm, bad_perm perm = false -> (flag perm PTE_W = true -> flag pte PTE_W = true) ->
    map_or_panic P (v * 4096) c (v * 4096) perm u = Ok tt (map_page c v (entry (frame pte) perm) u)) as Hm.
  { intros perm Hp Hw. by apply map_or_panic_ok. }
  assert (flag (Z.land pte PTE_SYSCALL) PTE_W = true -> flag pte PTE_W = true) as Hmask
    by (by rewrite flag_masked).
  unfold dup_parent, dup_child.
  destruct (flag pte PTE_SHARE); cbn [negb andb].
  { rewrite Hm by (done || apply bad_perm_masked). eexists. split; [reflexivity|].
    split; [by apply ready_map_page|]. split; [done|]. split; [cbn; set_solver|]. cbn.
    rewrite lookup_insert_ne, lookup_insert_eq by done. split; [done|]. split; [done|].
    intros k Hk1 Hk2. by rewrite lookup_insert_ne. }
  destruct (flag pte PTE_COW || flag pte PTE_W); cbn [negb andb].
  - fold (cow_perm pte). change (if flag pte PTE_U then _ else _) with (cow_perm pte).
    rewrite Hm by (done || (intros; congruence)).
    rewrite (map_or_panic_ok _ P P v (cow_perm pte) pte);
      [|by apply ready_map_page|done|done|done|cbn; by rewrite lookup_insert_ne|by rewrite Hcw].
    eexists. split; [reflexivity|]. split; [by do 2 apply ready_map_page|].
    split; [done|]. split; [cbn; set_solver|]. cbn.
    rewrite lookup_insert_eq, lookup_insert_ne, lookup_insert_eq by done. split; [done|]. split; [done|].
    intros k Hk1 Hk2. by rewrite !lookup_insert_ne.
  - rewrite Hm by (done || apply bad_perm_masked). eexists. split; [reflexivity|].
    split; [by apply ready_map_page|]. split; [done|]. split; [cbn; set_solver|]. cbn.
    rewrite lookup_insert_ne, lookup_insert_eq by done. split; [done|]. split; [done|].
    intros k Hk1 Hk2. by rewrite lookup_insert_ne.
Qed.

(** ** The loop over the pages *)

(** The pages below [j] have been handed over. *)
Record dup_to (u0 : vm) (j : Z) (u : vm) : Prop := {
  dt_ready : ready u;
  dt_frame : u = set_utab (utab u) (set_upt (upt u) u0);
  dt_tab : utab u0 ⊆ utab u;
  dt_ctab : forall v, 0 <= v < j -> is_Some (upt u0 !! (P, v)) -> (c, v / 1024) ∈ utab u;
  dt_parent : forall v, upt u !! (P, v)
    = if decide (0 <= v < j) then dup_parent <$> upt u0 !! (P, v) else upt u0 !! (P, v);
  dt_child : forall v, upt u !! (c, v)
    = if decide (0 <= v < j) then dup_child <$> upt u0 !! (P, v) else None;
  dt_other : forall e v, e <> P -> e <> c -> upt u !! (e, v) = upt u0 !! (e, v)
}.

Lemma dup_to_start u0 : ready u0 -> (forall v, upt u0 !! (c, v) = None) -> dup_to u0 0 u0.
Proof.
  intros Hr Hn. split; try done; [by destruct u0|intros; lia|..]; intros v; by rewrite decide_False by lia.
Qed.

Lemma dup_to_wf u0 j u v pte :
  space_wf u0 P -> dup_to u0 j u -> j <= v -> upt u0 !! (P, v) = Some pte ->
  upt u !! (P, v) = Some pte /\ (P, v / 1024) ∈ utab u /\ 0 <= v < 977920 /\ 0 <= pte < 4294967296.
Proof.
  intros Hwf H Hv Hu. split; [by rewrite (dt_parent _ _ _ H), decide_False by lia|].
  split; [apply (dt_tab _ _ _ H); by apply (wf_tab _ _ Hwf v pte)|by apply (wf_page _ _ Hwf v pte)].
Qed.

(** Entries made by [duppage] are words again. *)
Lemma dup_parent_range pte : 0 <= pte < 4294967296 -> 0 <= dup_parent pte < 4294967296.
Proof.
  intros H. unfold dup_parent. destruct (_ && _); [|done]. pose proof (frame_range pte H).
  pose proof (cow_perm_ok pte) as (_ & Hr & _). unfold entry, PGSIZE, PTE_P.
  pose proof (lor_low_range (cow_perm pte) 1 Hr ltac:(lia)). rewrite lor_page_low by done. lia.
Qed.

Lemma dup_to_space u0 j u : space_wf u0 P -> dup_to u0 j u -> space_wf u P.
Proof.
  intros Hwf H. split; intros v pte; rewrite (dt_parent _ _ _ H); destruct (decide _) as [Hv|Hv].
  - intros (x & Hx & ->)%fmap_Some. destruct (wf_page _ _ Hwf v x Hx). split; [done|].
    by apply dup_parent_range.
  - apply (wf_page _ _ Hwf v pte).
  - intros (x & Hx & ->)%fmap_Some. apply (dt_tab _ _ _ H). by apply (wf_tab _ _ Hwf v x).
  - intros Hx. apply (dt_tab _ _ _ H). by apply (wf_tab _ _ Hwf v pte).
Qed.

Lemma fork_page_step u0 j u :
  space_wf u0 P -> 0 <= j -> dup_to u0 j u -> wp (fork_page c j) (fun r u' => r = None /\ dup_to u0 (j + 1) u') u.
Proof.
  intros Hwf Hj H. unfold fork_page. wstep. wstep. unfold present.
  rewrite (rd_self _ (dt_ready _ _ _ H)), (dt_parent _ _ _ H), decide_False by lia.
  destruct (upt u0 !! (P, j)) as [pte|] eqn:Hu.
  - destruct (dup_to_wf u0 j u j pte Hwf H ltac:(lia) Hu) as (Hu' & _).
    destruct (duppage_ok u j pte (dt_ready _ _ _ H) (dup_to_space _ _ _ Hwf H) Hu')
      as (u' & E & Hr' & Hf & Ht & HuP & Huc & Hut).
    wstep. eapply wp_of; [exact E|]. wstep. split; [done|]. split; [done|..].
    + rewrite Hf. rewrite (dt_frame _ _ _ H). by destruct u0.
    + pose proof (dt_tab _ _ _ H). set_solver.
    + intros v Hv Hi. destruct (decide (v = j)) as [->|Hne]; [set_solver|].
      pose proof (dt_ctab _ _ _ H v ltac:(lia) Hi). set_solver.
    + intros v. destruct (decide (v = j)) as [->|Hv].
      * rewrite HuP, decide_True by lia. by rewrite Hu.
      * rewrite Hut by congruence. rewrite (dt_parent _ _ _ H). by do 2 destruct (decide _); try lia.
    + intros v. destruct (decide (v = j)) as [->|Hv].
      * rewrite Huc, decide_True by lia. by rewrite Hu.
      * rewrite Hut by congruence. rewrite (dt_child _ _ _ H). by do 2 destruct (decide _); try lia.
    + intros e v HeP Hec. rewrite Hut by congruence. by apply (dt_other _ _ _ H).
  - wstep. split; [done|]. pose proof H as [H1 H2 H3 H7 H4 H5 H6]. split; try done.
    + intros v Hv Hi. apply H7; [|done]. destruct (decide (v = j)) as [->|]; [|lia].
      rewrite Hu in Hi. by destruct Hi.
    + intros v. rewrite H4. do 2 destruct (decide _); try lia; try done.
      replace v with j by lia. by rewrite Hu.
    + intros v. rewrite H5. do 2 destruct (decide _); try lia; try done.
      replace v with j by lia. by rewrite Hu.
Qed.

Lemma fork_loop_ok u0 n :
  space_wf u0 P -> ready u0 -> (forall v, upt u0 !! (c, v) = None) ->
  wp (mfor n 0 (fork_page c)) (fun _ u' => dup_to u0 (Z.of_nat n) u') u0.
Proof.
  intros Hwf Hr Hn. apply (wp_mfor n (fork_page c) (dup_to u0)).
  - by apply dup_to_start.
  - intros j u Hj Hd. eapply wp_mono; [apply (fork_page_step u0 j u); [done|lia|done]|].
    intros r u' [-> Hd']. exact Hd'.
  - intros u. by rewrite Z.add_0_l.
Qed.

(** ** fork *)

(** The parent may fork: its address space is well formed, the kernel has an
    environment [c] without pages for the child, and two free pages for
    exception stacks. *)
Record forkable (u : vm) (p1 p2 : Z) : Prop := {
  fk_self : self u = P;
  fk_own : P ∈ own u;
  fk_new : exists rest, newenvs u = c :: rest;
  fk_none : forall v, upt u !! (c, v) = None;
  fk_wf : space_wf u P;
  fk_offers : exists rest, offers u = p1 :: p2 :: rest;
  fk_range : 0 <= p1 < 1048576 /\ 0 <= p2 < 1048576 /\ p1 <> p2;
  fk_free : uref u p1 = 0 /\ uref u p2 = 0
}.

(** What [set_pgfault_handler] leaves behind: [p] is the next free page. *)
Record handled (u u1 : vm) (p1 p2 p : Z) : Prop := {
  hd_self : self u1 = P;
  hd_own : P ∈ own u1;
  hd_new : exists rest, newenvs u1 = c :: rest;
  hd_none : forall v, upt u1 !! (c, v) = None;
  hd_wf : space_wf u1 P;
  hd_offers : exists rest, offers u1 = p :: rest;
  hd_p : p = p1 \/ p = p2;
  hd_free : uref u1 p = 0;
  hd_pt : forall v, v <> 977919 -> upt u1 !! (P, v) = upt u !! (P, v);
  hd_mem : forall a, a / 4096 <> p1 -> umem u1 a = umem u a
}.

Lemma set_pgfault_handler_ok up u p1 p2 cur h :
  forkable u p1 p2 ->
  exists p u1, set_pgfault_handler up cur h u = Ok h u1 /\ handled u u1 p1 p2 p.
Proof.
  intros [Hs Ho (ne & Hn) Hno Hwf (rest & Hof) (Hr1 & Hr2 & Hne) [Hf1 Hf2]].
  unfold set_pgfault_handler. destruct (Z.eqb_spec cur 0) as [_|_].
  2:{ exists p1, u. split; [done|]. split; eauto. }
  assert (resolve u P = Some P) as HrP.
  { unfold resolve. destruct (Z.eqb_spec P 0); [done|]. by rewrite decide_True. }
  exists p2. unfold mbind, mgets. rewrite Hs.
  change (UXSTACKTOP - PGSIZE) with (977919 * 4096).
  rewrite (page_alloc_ok u P P 977919 _ p1 (p2 :: rest)) by (done || lia). cbn [Z.eqb negb].
  unfold sys_env_set_pgfault_upcall.
  match goal with |- context [resolve ?x P] => change (resolve x P) with (resolve u P) end.
  rewrite HrP. eexists. split; [reflexivity|]. split; cbn; eauto.
  - intros v. rewrite lookup_insert_ne by congruence. apply Hno.
  - split; cbn; intros v pte; rewrite lookup_insert_Some.
    + intros [[[= <-] <-]|[_ Hl]]; [|by apply (wf_page _ _ Hwf v)]. split; [lia|].
      unfold entry, PGSIZE. change (Z.lor (Z.lor (Z.lor PTE_W PTE_U) PTE_P) PTE_P) with 7.
      rewrite lor_page_low by lia. lia.
    + intros [[[= <-] <-]|[_ Hl]]; [set_solver|]. apply elem_of_union. right. by apply (wf_tab _ _ Hwf v pte).
  - apply uref_unmapped. cbn. intros e v pte. rewrite lookup_insert_Some.
    intros [[_ <-]|[_ Hl]]; [|by eapply uref_0_fresh]. by rewrite entry_frame by done.
  - intros v Hv. by rewrite lookup_insert_ne by congruence.
  - intros a Ha. by rewrite mset_out by zdm.
Qed.

Lemma dup_frames pte :
  0 <= pte < 4294967296 -> frame (dup_parent pte) = frame pte /\ frame (dup_child pte) = frame pte.
Proof.
  intros H. pose proof (frame_range pte H). pose proof (cow_perm_ok pte) as (_ & Hr & _).
  pose proof (masked_range pte). unfold dup_parent, dup_child.
  destruct (_ && _); rewrite ?entry_frame by done; done.
Qed.

Lemma dup_user pte :
  flag (dup_parent pte) PTE_U = flag pte PTE_U /\ flag (dup_child pte) PTE_U = flag pte PTE_U.
Proof.
  assert (flag (cow_perm pte) PTE_U = flag pte PTE_U) as Hcu.
  { unfold cow_perm. destruct (flag pte PTE_U); vm_compute; reflexivity. }
  assert (flag (Z.land pte PTE_SYSCALL) PTE_U = flag pte PTE_U) as Hmu by (by apply flag_masked).
  assert (flag PTE_P PTE_U = false) as Hpu by done.
  unfold dup_parent, dup_child.
  destruct (_ && _); rewrite ?entry_flag, ?Hpu, ?orb_false_r by (vm_compute; split; congruence); done.
Qed.

(** What [fork] promises to parent and child: [u'] is the state when it
    returns. *)
Record forked (u u' : vm) (p : Z) : Prop := {
  fd_self : self u' = P;
  fd_parent : forall v, 0 <= v < 977919 -> upt u' !! (P, v) = dup_parent <$> upt u !! (P, v);
  fd_child : forall v, 0 <= v < 977919 -> upt u' !! (c, v) = dup_child <$> upt u !! (P, v);
  fd_mem : forall v pte a, upt u !! (P, v) = Some pte -> a / 4096 = frame pte -> umem u' a = umem u a;
  fd_stack : upt u' !! (c, 977919) = Some (entry p (Z.lor (Z.lor PTE_P PTE_U) PTE_W));
  fd_stack_mem : forall a, a / 4096 = p -> umem u' a = 0;
  fd_stack_own : forall e v pte, upt u' !! (e, v) = Some pte -> frame pte = p -> (e, v) = (c, 977919);
  fd_tab : space_wf u' P /\ space_wf u' c;
  fd_status : ustatus u' !! c = Some ENV_RUNNABLE
}.

(** The child's table when the loop is over. *)
Lemma dup_to_child_wf u0 j u : space_wf u0 P -> dup_to u0 j u ->
  forall v pte, upt u !! (c, v) = Some pte -> 0 <= v < 977920 /\ 0 <= pte < 4294967296.
Proof.
  intros Hwf H v pte. rewrite (dt_child _ _ _ H). destruct (decide _) as [Hv|]; [|done].
  intros (x & Hx & ->)%fmap_Some. destruct (wf_page _ _ Hwf v x Hx) as [Hvr Hxr]. split; [done|].
  pose proof (frame_range x Hxr). pose proof (cow_perm_ok x) as (_ & Hr & _). pose proof (masked_range x).
  unfold dup_child, entry, PGSIZE, PTE_P.
  pose proof (lor_low_range (cow_perm x) 1 Hr ltac:(lia)).
  pose proof (lor_low_range (Z.land x PTE_SYSCALL) 1 ltac:(lia) ltac:(lia)).
  destruct (_ && _); rewrite lor_page_low by done; lia.
Qed.

(** No new page is mapped by the loop. *)
Lemma dup_to_fresh u0 j u p : space_wf u0 P -> dup_to u0 j u -> uref u0 p = 0 ->
  forall e v pte, upt u !! (e, v) = Some pte -> frame pte <> p.
Proof.
  intros Hwf H H0 e v pte. destruct (decide (e = P)) as [->|HeP]; [|destruct (decide (e = c)) as [->|Hec]].
  - rewrite (dt_parent _ _ _ H). destruct (decide _); [|by apply uref_0_fresh].
    intros (x & Hx & ->)%fmap_Some. rewrite (proj1 (dup_frames x (proj2 (wf_page _ _ Hwf v x Hx)))).
    by eapply uref_0_fresh.
  - rewrite (dt_child _ _ _ H). destruct (decide _); [|done].
    intros (x & Hx & ->)%fmap_Some. rewrite (proj2 (dup_frames x (proj2 (wf_page _ _ Hwf v x Hx)))).
    by eapply uref_0_fresh.
  - rewrite (dt_other _ _ _ H) by done. by apply uref_0_fresh.
Qed.

Lemma fork_spec up pa u p1 p2 cur :
  0 < c -> forkable u p1 p2 ->
  exists u' p, fork up pa cur u = Ok c u' /\ (p = p1 \/ p = p2) /\ forked u u' p.
Proof.
  intros Hcpos Hfk. destruct (set_pgfault_handler_ok up u p1 p2 cur pa Hfk) as (p & u1 & E1 & Hd).
  destruct Hfk as [_ _ _ _ _ _ (Hr1 & Hr2 & Hpne) [Hf1 Hf2]].
  destruct Hd as [Hs Ho (ne & Hn) Hno Hwf (rest & Hof) Hp Hfree Hpt Hmem].
  assert (0 <= p < 1048576) as Hpr by (destruct Hp as [-> | ->]; done).
  unfold fork, mbind. rewrite E1. unfold sys_exofork. rewrite Hn.
  destruct (Z.ltb_spec c 0); [lia|]. destruct (Z.eqb_spec c 0); [lia|].
  set (u2 := set_ustatus _ _).
  assert (ready u2) as Hr2'.
  { split; [done|cbn; set_solver|]. unfold no_memory. cbn. rewrite Hof. apply Z.ltb_ge. lia. }
  assert (space_wf u2 P) as Hwf2 by (split; apply Hwf).
  assert (PGNUM (UTOP - PGSIZE) = 977919) as Epg by (vm_compute; reflexivity). rewrite Epg.
  destruct (wp_run _ _ _ (fork_loop_ok u2 (Z.to_nat 977919) Hwf2 Hr2' Hno))
    as (r & u3 & E3 & Hd3). rewrite E3. rewrite Z2Nat.id in Hd3 by lia.
  pose proof (dt_ready _ _ _ Hd3) as Hrd3. destruct (ready_resolve u3 Hrd3) as [_ Hrc].
  assert (offers u3 = p :: rest) as Hof3 by (rewrite (dt_frame _ _ _ Hd3); exact Hof).
  assert (forall e v pte, upt u3 !! (e, v) = Some pte -> frame pte <> p) as Hfr3
    by (by apply (dup_to_fresh u2 977919)).
  assert (uref u3 p = 0) as Hf3 by (by apply uref_unmapped).
  change (UXSTACKTOP - PGSIZE) with (977919 * 4096).
  rewrite (page_alloc_ok u3 c c 977919 _ p rest) by (done || lia). cbn [Z.ltb Z.compare].
  unfold sys_env_set_pgfault_upcall.
  match goal with |- context [resolve ?x c] => change (resolve x c) with (resolve u3 c) end.
  rewrite Hrc. cbn [Z.ltb Z.compare]. unfold sys_env_set_status. cbn [Z.eqb negb andb ENV_RUNNABLE].
  match goal with |- context [resolve ?x c] => change (resolve x c) with (resolve u3 c) end.
  rewrite Hrc. cbn [Z.ltb Z.compare Z.eqb Pos.eqb negb andb]. eexists _, p. split; [reflexivity|]. split; [done|].
  split; cbn.
  - apply Hrd3.
  - intros v Hv. rewrite lookup_insert_ne by congruence. rewrite (dt_parent _ _ _ Hd3), decide_True by done.
    cbn. by rewrite Hpt by lia.
  - intros v Hv. rewrite lookup_insert_ne by (intros [= Hx]; lia).
    rewrite (dt_child _ _ _ Hd3), decide_True by done. cbn. by rewrite Hpt by lia.
  - intros v pte a Hl Ha. assert (frame pte <> p1 /\ frame pte <> p2) as [Hn1 Hn2].
    { split; by eapply (uref_0_fresh u). }
    rewrite mset_out by (destruct Hp as [-> | ->]; zdm).
    rewrite (dt_frame _ _ _ Hd3). cbn. apply Hmem. congruence.
  - by rewrite lookup_insert_eq.
  - intros a Ha. by rewrite mset_in by zdm.
  - intros e v pte. rewrite lookup_insert_Some. intros [[<- _]|[_ Hl]]; [done|].
    intros Hx. by apply Hfr3 in Hl.
  - split; split; cbn; intros v pte; rewrite lookup_insert_Some; intros [[Hk <-]|[_ Hl]].
    + congruence.
    + by apply (wf_page _ _ (dup_to_space _ _ _ Hwf2 Hd3) v).
    + congruence.
    + apply elem_of_union. right. by apply (wf_tab _ _ (dup_to_space _ _ _ Hwf2 Hd3) v pte).
    + injection Hk as <-. split; [lia|]. unfold entry, PGSIZE. change (Z.lor (Z.lor (Z.lor PTE_P PTE_U) PTE_W) PTE_P) with 7.
      rewrite lor_page_low by lia. lia.
    + by apply (dup_to_child_wf _ _ _ Hwf2 Hd3 v).
    + injection Hk as <-. apply elem_of_union. left. by apply elem_of_singleton.
    + apply elem_of_union. right. rewrite (dt_child _ _ _ Hd3) in Hl. destruct (decide _) as [Hv|]; [|done].
      apply fmap_Some in Hl as (x & Hx & _). apply (dt_ctab _ _ _ Hd3 v Hv). by exists x.
  - by rewrite lookup_insert_eq.
Qed.

End dup.

(** ** The copy-on-write fault *)

(** The page of [PFTEMP]. *)
Abbreviation temp := 2047.

Lemma paddr_ok u e w a pte :
  upt u !! (e, a / 4096) = Some pte -> flag pte PTE_U = true -> (w = true -> flag pte PTE_W = true) ->
  paddr u e w a = Some (frame pte * 4096 + a mod 4096).
Proof.
  intros H HU HW. unfold paddr, PGSIZE. rewrite H, HU.
  destruct w; cbn; [by rewrite HW|done].
Qed.

(** The bytes of page [src] are copied to page [dst], another physical page. *)
Lemma copy_page_ok u dst src ps pd :
  0 <= dst < 1048576 -> 0 <= src < 1048576 ->
  upt u !! (self u, src) = Some ps -> flag ps PTE_U = true ->
  upt u !! (self u, dst) = Some pd -> flag pd PTE_U = true -> flag pd PTE_W = true ->
  frame ps <> frame pd ->
  wp (copy_page (dst * 4096) (src * 4096)) (fun _ u' => exists m, u' = set_umem m u
      /\ (forall x, x / 4096 <> frame pd -> m x = umem u x)
      /\ (forall k, 0 <= k < 4096 -> m (frame pd * 4096 + k) = u8 (umem u (frame ps * 4096 + k)))) u.
Proof.
  intros Hdr Hsr Hs HsU Hd HdU HdW Hne. unfold copy_page. wstep.
  apply (wp_mfor _ _ (fun j u' => exists m, u' = set_umem m u
      /\ (forall x, x / 4096 <> frame pd -> m x = umem u x)
      /\ (forall k, 0 <= k < j -> m (frame pd * 4096 + k) = u8 (umem u (frame ps * 4096 + k))))).
  - exists (umem u). split; [by destruct u|]. split; [done|]. intros k Hk. lia.
  - intros j u' Hj (m & -> & Hout & Hin). change (0 + Z.of_nat (Z.to_nat PGSIZE)) with 4096 in Hj.
    wstep. unfold wp at 1, load8.
    rewrite (paddr_ok _ _ _ _ ps); [|cbn; by replace ((src * 4096 + j) / 4096) with src by zdm|done|done].
    replace ((src * 4096 + j) mod 4096) with j by zdm. cbn [umem set_umem].
    wstep. unfold wp at 1, store8.
    rewrite (paddr_ok _ _ _ _ pd); [|cbn; by replace ((dst * 4096 + j) / 4096) with dst by zdm|done|done].
    replace ((dst * 4096 + j) mod 4096) with j by zdm. wstep. cbn [umem set_umem].
    eexists. split; [reflexivity|]. unfold wr8. split.
    + intros x Hx. rewrite fn_lookup_insert_ne by (intros <-; apply Hx; zdm). by apply Hout.
    + intros k Hk. destruct (decide (k = j)) as [->|Hkj].
      * rewrite fn_lookup_insert. unfold rd8. rewrite Hout by zdm. unfold u8. by rewrite Z.mod_mod.
      * rewrite fn_lookup_insert_ne by lia. apply Hin. lia.
  - intros u' Hu. wstep. change (0 + Z.of_nat (Z.to_nat PGSIZE)) with 4096 in Hu. exact Hu.
Qed.

(** The state after the fault on page [v] of the running environment, to which
    the kernel gave page [p]. *)
Record split_off (u : vm) (v f p : Z) (u' : vm) : Prop := {
  sp_self : self u' = self u;
  sp_own : own u' = own u;
  sp_pt : upt u' = <[(self u, v) := entry p 7]> (<[(self u, temp) := entry p 7]> (upt u));
  sp_tab : utab u' = {[(self u, v / 1024)]} ∪ ({[(self u, temp / 1024)]} ∪ utab u);
  sp_offers : offers u' = tail (offers u);
  sp_out : forall x, x / 4096 <> p -> umem u' x = umem u x;
  sp_in : forall k, 0 <= k < 4096 -> umem u' (p * 4096 + k) = u8 (umem u (f * 4096 + k))
}.

Lemma pgfault_ok u a pte p q rest :
  0 <= a < 4294967296 -> 0 <= a / 4096 < 977919 -> a / 4096 <> temp ->
  upt u !! (self u, a / 4096) = Some pte -> (self u, a / 4096 / 1024) ∈ utab u ->
  flag pte PTE_COW = true -> flag pte PTE_U = true ->
  offers u = p :: q :: rest -> 0 <= p < 1048576 -> 0 <= q -> uref u p = 0 ->
  exists u', pgfault a T_PGFLT u = Ok tt u' /\ split_off u (a / 4096) (frame pte) p u'.
Proof.
  intros Ha Hv Hvt Hu Ht HC HU Ho Hp Hq H0. pose proof (uref_0_fresh _ _ _ _ _ H0 Hu) as Hfp.
  unfold pgfault. change (Z.land T_PGFLT FEC_WR =? 0) with false. cbv iota.
  change PFTEMP with (temp * 4096). change (Z.lor (Z.lor PTE_P PTE_U) PTE_W) with 7.
  unfold PGSIZE. rewrite ROUNDDOWN_page by done.
  replace (4096 * (a / 4096)) with (a / 4096 * 4096) by lia. rewrite Z_div_mult by lia.
  set (v := a / 4096) in *. unfold mbind at 1. rewrite uvpt_ok by done. rewrite Hu. cbn [default id].
  rewrite HC. cbn [negb]. unfold mbind at 1.
  rewrite (page_alloc_ok u 0 (self u) temp 7 p (q :: rest)) by (done || lia). cbn [Z.ltb Z.compare].
  set (u1 := map_page _ _ _ _).
  assert (frame (entry p 7) = p) as Hfe by (by apply entry_frame).
  assert (upt u1 !! (self u, v) = Some pte) as Hu1 by (cbn; by rewrite lookup_insert_ne by congruence).
  destruct (wp_run _ _ _ (copy_page_ok u1 temp v pte (entry p 7) ltac:(lia) ltac:(lia) Hu1 HU
              (lookup_insert_eq _ _ _) ltac:(rewrite entry_flag by (vm_compute; split; congruence); done)
              ltac:(rewrite entry_flag by (vm_compute; split; congruence); done) ltac:(by rewrite Hfe)))
    as ([] & u2 & E2 & m & -> & Hout & Hin).
  unfold mbind at 1. rewrite E2. unfold mbind.
  rewrite (page_map_ok _ 0 temp 0 v 7 (self u) (self u) (entry p 7));
    [|lia|lia|done|done|done|cbn; by rewrite lookup_insert_eq| |].
  - eexists. split; [reflexivity|]. rewrite Hfe in *. split; try done.
    + cbn. by rewrite Ho.
    + intros x Hx. cbn. rewrite Hout by done. cbn. by rewrite mset_out by zdm.
    + intros k Hk. cbn. rewrite Hin by done. cbn. by rewrite mset_out by zdm.
  - intros _. rewrite entry_flag by (vm_compute; split; congruence). done.
  - unfold no_memory. cbn. apply Z.ltb_ge. lia.
Qed.

(** ** Isolation *)

Section cow.

(** The two environments. *)
Context (P c : Z).

(** The pages [fork] hands over, apart from the one that [pgfault] works with. *)
Definition common (v : Z) : Prop := 0 <= v < 977919 /\ v <> temp.

(** A page that the program may write and that is not meant to be shared. *)
Definition private (u : vm) (e v : Z) : Prop :=
  exists pte, upt u !! (e, v) = Some pte /\ flag pte PTE_U = true /\ flag pte PTE_SHARE = false
    /\ (flag pte PTE_W = true \/ flag pte PTE_COW = true).

Definition party (e : Z) : Prop := e = P \/ e = c.

(** No page that one of the two can write directly is mapped elsewhere by
    either, unless it is meant to be shared. *)
Record iso (u : vm) : Prop := {
  iso_wf : forall e, party e -> space_wf u e;
  iso_excl : forall e v pte e' v' pte', party e -> party e' -> common v -> common v' ->
    upt u !! (e, v) = Some pte -> upt u !! (e', v') = Some pte' ->
    flag pte PTE_W = true -> flag pte PTE_SHARE = false -> frame pte = frame pte' -> (e, v) = (e', v')
}.

(** Only the page tables and the offers matter. *)
Lemma iso_ext u u' : upt u' = upt u -> utab u' = utab u -> iso u -> iso u'.
Proof.
  intros E1 E2 [Hwf Hex]. split; [|rewrite E1; exact Hex].
  intros e He. destruct (Hwf e He) as [H1 H2]. split; rewrite E1, ?E2; done.
Qed.

(** A direct store to a page that nobody else maps. *)
Lemma store_private u a b pte :
  iso u -> party (self u) -> 0 <= a -> common (a / 4096) ->
  upt u !! (self u, a / 4096) = Some pte -> flag pte PTE_U = true -> flag pte PTE_SHARE = false ->
  flag pte PTE_W = true ->
  exists m, store8 a b u = Ok tt (set_umem m u)
    /\ sees (set_umem m u) (self u) a = Some (u8 b)
    /\ forall e' a', party e' -> common (a' / 4096) -> (e', a') <> (self u, a) ->
         sees (set_umem m u) e' a' = sees u e' a'.
Proof.
  intros Hiso Hp Ha Hc Hu HU HS HW. unfold store8. rewrite (paddr_ok u _ true a pte) by done.
  eexists. split; [reflexivity|]. unfold sees. split.
  - rewrite (paddr_ok _ _ false a pte) by done. cbn. unfold rd8, wr8. rewrite fn_lookup_insert.
    f_equal. unfold u8. by rewrite Z.mod_mod.
  - intros e' a' Hp' Hc' Hne. unfold paddr, PGSIZE. cbn [upt set_umem umem].
    destruct (upt u !! (e', a' / 4096)) as [pte'|] eqn:Hu'; [|done].
    destruct (flag pte' PTE_U && _); [|done]. f_equal. unfold rd8, wr8.
    rewrite fn_lookup_insert_ne; [done|]. intros E.
    assert (frame pte = frame pte') as Hf by zdm.
    destruct Hiso as [_ Hex]. specialize (Hex _ _ _ _ _ _ Hp Hp' Hc Hc' Hu Hu' HW HS Hf).
    injection Hex as E1 E2. apply Hne. f_equal; [done|].
    rewrite (Z.div_mod a' 4096), (Z.div_mod a 4096) by lia. zdm.
Qed.

Lemma store8_offers u a b u' : store8 a b u = Ok tt u' -> exists m, u' = set_umem m u.
Proof. unfold store8. destruct (paddr _ _ _ _); [|done]. intros [= <-]. eauto. Qed.

(** A fault keeps the isolation, what everybody sees, and gives the faulting
    environment a page of its own. *)
Lemma split_off_iso u v f p u' pte :
  iso u -> party (self u) -> common v -> upt u !! (self u, v) = Some pte -> f = frame pte ->
  flag pte PTE_U = true -> 0 <= p < 1048576 -> uref u p = 0 -> split_off u v f p u' ->
  iso u' /\ (forall e a, party e -> common (a / 4096) -> sees u' e a = sees u e a).
Proof.
  intros [Hwf Hex] Hp Hc Hu -> HU Hpr H0 [Hs Ho Hpt Htab Hof Hout Hin].
  assert (frame (entry p 7) = p) as Hfe by (by apply entry_frame).
  assert (forall e v', party e -> common v' -> upt u' !! (e, v')
     = if decide ((e, v') = (self u, v)) then Some (entry p 7) else upt u !! (e, v')) as Hlk.
  { intros e v' _ [_ Hvt]. rewrite Hpt. destruct (decide _) as [->|Hne]; [by rewrite lookup_insert_eq|].
    by rewrite !lookup_insert_ne by congruence. }
  split; [split|].
  - intros e He. split; rewrite Hpt; intros v' pte'; rewrite !lookup_insert_Some.
    + intros [[[= <- <-] <-]|[_ [[[= <- <-] <-]|[_ Hl]]]]; [| |by apply (wf_page _ _ (Hwf e He) v')].
      all: split; [destruct Hc; lia|]; unfold entry, PGSIZE; change (Z.lor 7 PTE_P) with 7;
        rewrite lor_page_low by lia; lia.
    + rewrite Htab, !elem_of_union, !elem_of_singleton.
      intros [[[= <- <-] _]|[_ [[[= <- <-] _]|[_ Hl]]]]; [by left|by right; left|].
      right; right. by apply (wf_tab _ _ (Hwf e He) v' pte').
  - intros e1 v1 x1 e2 v2 x2 He1 He2 Hc1 Hc2. rewrite !Hlk by done.
    destruct (decide ((e1, v1) = (self u, v))) as [E1|E1], (decide ((e2, v2) = (self u, v))) as [E2|E2].
    + congruence.
    + intros [= <-] Hl _ _ E. rewrite Hfe in E. by destruct (uref_0_fresh _ _ _ _ _ H0 Hl).
    + intros Hl [= <-] _ _ E. rewrite Hfe in E. by destruct (uref_0_fresh _ _ _ _ _ H0 Hl).
    + intros. by eapply Hex.
  - intros e a He Hca. unfold sees, paddr, PGSIZE. rewrite Hlk by done.
    destruct (decide ((e, a / 4096) = (self u, v))) as [[= -> <-]|Hne].
    + rewrite Hu, HU, entry_flag by (vm_compute; split; congruence).
      change (flag 7 PTE_U || flag PTE_P PTE_U) with true. cbn [andb negb orb]. rewrite Hfe. unfold rd8.
      rewrite Hin by zdm. f_equal. unfold u8. by rewrite Z.mod_mod.
    + destruct (upt u !! (e, a / 4096)) as [x|] eqn:Hx; [|done]. destruct (_ && _); [|done].
      f_equal. unfold rd8. rewrite Hout; [done|]. pose proof (uref_0_fresh _ _ _ _ _ H0 Hx). zdm.
Qed.

Lemma supplied_split n u v f p u' :
  supplied (S n) u -> split_off u v f p u' -> (exists rest, offers u = p :: rest) -> 0 <= p < 1048576 ->
  supplied n u'.
Proof.
  intros [Hl Hnd Hf] [Hs Ho Hpt Htab Hof Hout Hin] (rest & E) Hp. rewrite E in *. cbn in *.
  apply NoDup_cons in Hnd as [Hnin Hnd].
  split; rewrite Hof; [lia|done|]. intros q Hq. destruct (Hf q) as [Hqr Hq0]; [set_solver|]. split; [done|].
  assert (q <> p) as Hqp by (intros ->; done).
  assert (frame (entry p 7) = p) as Hfe by (by apply entry_frame).
  apply uref_unmapped. rewrite Hpt. intros e v' pte. rewrite !lookup_insert_Some.
  intros [[_ <-]|[_ [[_ <-]|[_ Hl']]]]; [congruence|congruence|by eapply uref_0_fresh].
Qed.

Lemma private_split u v f p u' e v' :
  split_off u v f p u' -> common v' -> private u e v' -> private u' e v'.
Proof.
  intros [_ _ Hpt _ _ _ _] [_ Hvt] (pte & Hl & HU & HS & HW). unfold private. rewrite Hpt.
  destruct (decide ((e, v') = (self u, v))) as [->|Hne].
  - exists (entry p 7). rewrite lookup_insert_eq, !entry_flag by (vm_compute; split; congruence).
    split; [done|]. split; [done|]. split; [done|]. by left.
  - exists pte. by rewrite !lookup_insert_ne by congruence.
Qed.

(** One store of one of the two environments. *)
Lemma cow_store_ok n u a b :
  iso u -> party (self u) -> 0 <= a < 4294967296 -> common (a / 4096) ->
  private u (self u) (a / 4096) -> supplied (S n) u ->
  exists u', cow_store a b u = Ok tt u' /\ iso u' /\ supplied n u'
    /\ (forall e v, common v -> private u e v -> private u' e v)
    /\ forall e' a', party e' -> common (a' / 4096) ->
         sees u' e' a' = if decide ((e', a') = (self u, a)) then Some (u8 b) else sees u e' a'.
Proof.
  intros Hiso Hp Ha Hc (pte & Hu & HU & HS & HWC) Hsup. unfold cow_store.
  destruct (flag pte PTE_W) eqn:HW.
  - rewrite (paddr_ok u _ true a pte) by done.
    destruct (store_private u a b pte) as (m & E & Hsa & Hso); try done; [lia|].
    eexists. split; [exact E|]. split; [by apply (iso_ext u)|].
    split; [apply (supplied_ext (S n) n u); done || lia|]. split; [done|].
    intros e' a' He' Hca. destruct (decide _) as [[= -> ->]|Hne]; [done|by apply Hso].
  - destruct HWC as [?|HC]; [done|].
    assert (paddr u (self u) true a = None) as ->.
    { unfold paddr, PGSIZE. rewrite Hu, HW. cbn. by rewrite andb_false_r. }
    pose proof Hsup as [Hlen Hnd Hfresh].
    destruct (offers u) as [|p [|q rest]] eqn:Eo; [cbn in Hlen; lia|cbn in Hlen; lia|].
    destruct (Hfresh p) as [Hpr H0]; [set_solver|]. destruct (Hfresh q) as [Hqr _]; [set_solver|].
    destruct Hc as [Hcr Hct]. pose proof (iso_wf _ Hiso _ Hp) as Hwf.
    destruct (pgfault_ok u a pte p q rest) as (u1 & E1 & Hsp); try done; [|lia|].
    { by apply (wf_tab _ _ Hwf (a / 4096) pte). }
    destruct (split_off_iso u (a / 4096) (frame pte) p u1 pte) as [Hiso1 Hsees1]; try done.
    destruct (store_private u1 a b (entry p 7)) as (m & E & Hsa & Hso); try done.
    + by rewrite (sp_self _ _ _ _ _ Hsp).
    + lia.
    + by rewrite (sp_self _ _ _ _ _ Hsp), (sp_pt _ _ _ _ _ Hsp), lookup_insert_eq.
    + by rewrite entry_flag by (vm_compute; split; congruence).
    + by rewrite entry_flag by (vm_compute; split; congruence).
    + by rewrite entry_flag by (vm_compute; split; congruence).
    + unfold mbind. rewrite E1. eexists. split; [exact E|]. split; [by apply (iso_ext u1)|].
      rewrite (sp_self _ _ _ _ _ Hsp) in Hsa, Hso.
      assert (supplied n u1) as Hs1 by (eapply supplied_split; eauto; by rewrite Eo; eauto).
      split; [by apply (supplied_ext n n u1)|]. split.
      * intros e v Hcv Hpv. change (private u1 e v). by eapply private_split.
      * intros e' a' He' Hca. destruct (decide _) as [[= -> ->]|Hne]; [done|].
        rewrite Hso by done. by apply Hsees1.
Qed.

(** Stores of the two environments in any order. *)
Fixpoint run_writes (ws : list (Z * Z * Z)) : M vm unit :=
  match ws with
  | [] => mret tt
  | (e, a, b) :: ws =>
    do! mmodify (set_self e) in
    do! cow_store a b in
    run_writes ws
  end.

(** The views of two environments with a memory each. *)
Fixpoint views (ws : list (Z * Z * Z)) (f : Z -> Z -> option Z) : Z -> Z -> option Z :=
  match ws with
  | [] => f
  | (e, a, b) :: ws =>
    views ws (fun e' a' => if decide ((e', a') = (e, a)) then Some (u8 b) else f e' a')
  end.

Lemma views_ext ws : forall f g e a,
  (forall e a, party e -> common (a / 4096) -> f e a = g e a) -> party e -> common (a / 4096) ->
  views ws f e a = views ws g e a.
Proof.
  induction ws as [|[[e0 a0] b0] ws IH]; intros f g e a H He Ha; cbn; [by apply H|].
  apply IH; [|done|done]. intros. by rewrite H.
Qed.

(** C6: copy-on-write implements copying.  Let two environments have their
    private pages in common, with every directly writable one mapped once.  Then
    any interleaving of stores of the two to such pages runs without error as
    long as the kernel has pages, and each environment sees the bytes it had
    before with its own stores on top, as if it had a memory of its own. *)
Theorem cow_isolates ws : forall u,
  iso u -> supplied (length ws) u ->
  Forall (fun '(e, a, _) => party e /\ 0 <= a < 4294967296 /\ common (a / 4096)
                            /\ private u e (a / 4096)) ws ->
  exists u', run_writes ws u = Ok tt u'
    /\ forall e a, party e -> common (a / 4096) -> sees u' e a = views ws (sees u) e a.
Proof.
  induction ws as [|[[e a] b] ws IH]; intros u Hiso Hsup Hws.
  - exists u. done.
  - apply Forall_cons in Hws as [(He & Ha & Hc & Hpr) Hws]. cbn [run_writes views].
    destruct (cow_store_ok (length ws) (set_self e u) a b) as (u1 & E & Hiso1 & Hsup1 & Hpr1 & Hs1);
      try done; [by apply (iso_ext u)|exact (supplied_ext _ (S (length ws)) u (set_self e u) eq_refl eq_refl (Nat.le_refl _) Hsup)|].
    destruct (IH u1 Hiso1 Hsup1) as (u' & E' & Hs').
    { eapply Forall_impl; [exact Hws|]. intros [[e1 a1] b1] (H1 & H2 & H3 & H4).
      split; [done|]. split; [done|]. split; [done|]. by apply Hpr1. }
    exists u'. unfold mbind, mmodify. rewrite E. split; [done|].
    intros e' a' He' Ha'. rewrite Hs' by done. apply views_ext; [|done|done].
    intros e2 a2 He2 Ha2. rewrite Hs1 by done. done.
Qed.

(** After [duppage] only shared pages can be written without a fault. *)
Lemma dup_writable pte :
  (flag (dup_parent pte) PTE_W = true -> flag (dup_parent pte) PTE_SHARE = true)
  /\ (flag (dup_child pte) PTE_W = true -> flag (dup_child pte) PTE_SHARE = true).
Proof.
  pose proof (cow_perm_ok pte) as (_ & _ & Hw). unfold dup_parent, dup_child.
  destruct (negb (flag pte PTE_SHARE) && _) eqn:E.
  - rewrite !entry_flag by (vm_compute; split; congruence). rewrite Hw. done.
  - rewrite !entry_flag, !flag_masked by (done || (vm_compute; split; congruence)).
    change (flag PTE_P PTE_W) with false. rewrite orb_false_r.
    split; intros HW; rewrite HW, orb_true_r, andb_true_r in E; by apply negb_false_iff in E as ->.
Qed.

Lemma dup_private pte :
  flag pte PTE_SHARE = false -> flag pte PTE_W = true \/ flag pte PTE_COW = true ->
  dup_parent pte = entry (frame pte) (cow_perm pte) /\ dup_child pte = entry (frame pte) (cow_perm pte)
  /\ flag (entry (frame pte) (cow_perm pte)) PTE_SHARE = false
  /\ flag (entry (frame pte) (cow_perm pte)) PTE_COW = true
  /\ flag (entry (frame pte) (cow_perm pte)) PTE_U = flag pte PTE_U.
Proof.
  intros HS HW. unfold dup_parent, dup_child. rewrite HS. cbn [negb andb].
  assert (flag pte PTE_COW || flag pte PTE_W = true) as ->
    by (destruct HW as [-> | ->]; by rewrite ?orb_true_r).
  rewrite !entry_flag by (vm_compute; split; congruence). unfold cow_perm.
  destruct (flag pte PTE_U); done.
Qed.

(** C5: [fork] returns the child's identifier when the kernel has an
    environment and pages for it.  Below the exception stacks parent and child
    then both see exactly the bytes the parent saw before; every page the parent
    could write and that is not marked to be shared is private to each of the
    two from now on, every page that is marked is the same page in both, and
    nothing else can be written by either without a fault.  The child is
    runnable and has an exception stack of its own. *)
Theorem fork_snapshot up pa cur u p1 p2 :
  P <> c -> P <> 0 -> 0 < c -> forkable P c u p1 p2 ->
  exists u', fork up pa cur u = Ok c u' /\ iso u'
    /\ (forall a, 0 <= a / 4096 < 977919 -> sees u' P a = sees u P a /\ sees u' c a = sees u P a)
    /\ (forall v, common v -> private u P v -> private u' P v /\ private u' c v)
    /\ (forall v pte, 0 <= v < 977919 -> upt u !! (P, v) = Some pte -> flag pte PTE_SHARE = true ->
          exists pte', upt u' !! (P, v) = Some pte /\ upt u' !! (c, v) = Some pte'
            /\ frame pte' = frame pte /\ flag pte' PTE_W = flag pte PTE_W)
    /\ (exists pte, upt u' !! (c, 977919) = Some pte /\ flag pte PTE_W = true
          /\ forall e v x, upt u' !! (e, v) = Some x -> frame x = frame pte -> (e, v) = (c, 977919))
    /\ ustatus u' !! c = Some ENV_RUNNABLE.
Proof.
  intros HPc HP0 Hc Hfk. pose proof (fk_wf _ _ _ _ _ Hfk) as Hwf.
  destruct (fork_spec P c HPc HP0 ltac:(lia) up pa u p1 p2 cur Hc Hfk) as (u' & p & E & Hpp & Hf).
  assert (0 <= p < 1048576) as Hp by (pose proof (fk_range _ _ _ _ _ Hfk); destruct Hpp; subst; tauto).
  destruct Hf as [Hs Hpar Hch Hmem Hst Hstm Hsto [Hw1 Hw2] Hstat].
  exists u'. split; [done|]. split; [split|split; [|split; [|split; [|split; [|done]]]]].
  - intros e [-> | ->]; done.
  - intros e v x e' v' x' He _ [Hv _] _ Hx _ HW HS _. exfalso.
    destruct He as [-> | ->]; [rewrite Hpar in Hx by done|rewrite Hch in Hx by done];
      apply fmap_Some in Hx as (y & _ & ->); destruct (dup_writable y) as [H1 H2].
    + rewrite H1 in HS; done.
    + rewrite H2 in HS; done.
  - intros a Ha. unfold sees, paddr, PGSIZE. rewrite Hpar, Hch by done.
    destruct (upt u !! (P, a / 4096)) as [pte|] eqn:Hu; cbn [fmap option_fmap option_map]; [|done].
    destruct (dup_frames pte (proj2 (wf_page _ _ Hwf _ _ Hu))) as [Ef1 Ef2].
    destruct (dup_user pte) as [Eu1 Eu2]. rewrite Ef1, Ef2, Eu1, Eu2.
    destruct (_ && _); [|done]. unfold rd8. rewrite (Hmem _ _ _ Hu) by zdm. done.
  - intros v [Hv _] (pte & Hu & HU & HS & HW). destruct (dup_private pte HS HW) as (E1 & E2 & F1 & F2 & F3).
    unfold private. rewrite Hpar, Hch, Hu by done. cbn. rewrite E1, E2.
    split; eexists; (split; [done|]; rewrite F3; split; [done|]; split; [done|]; by right).
  - intros v pte Hv Hu HS. rewrite Hpar, Hch, Hu by done.
    destruct (dup_frames pte (proj2 (wf_page _ _ Hwf _ _ Hu))) as [_ Ef2]. exists (dup_child pte).
    split; [cbn; unfold dup_parent; by rewrite HS|]. split; [done|]. split; [done|].
    unfold dup_child. rewrite HS. cbn [negb andb].
    rewrite entry_flag, flag_masked by (done || (vm_compute; split; congruence)). by rewrite orb_false_r.
  - exists (entry p (Z.lor (Z.lor PTE_P PTE_U) PTE_W)). split; [done|].
    split; [by rewrite entry_flag by (vm_compute; split; congruence)|].
    intros e v x Hx. rewrite entry_frame by (done || (vm_compute; split; congruence)). by apply Hsto.
Qed.

End cow.

(** ** A concrete pair of environments *)

(** Environment 4097 has one writable page, physical page 10, and may fork into
    4102. *)
Definition one_page : vm :=
  mkVm {[(4097, 2048) := entry 10 7]} {[(4097, 2)]} (fun _ => 42) [20; 21; 22] 4097 {[4097]} [4102] ∅ ∅.

Lemma one_page_forkable : forkable 4097 4102 one_page 20 21.
Proof.
  assert (forall e v pte, upt one_page !! (e, v) = Some pte -> (e, v) = (4097, 2048) /\ pte = entry 10 7) as Hl.
  { intros e v pte H. cbn in H. apply lookup_singleton_Some in H as [<- <-]. done. }
  split; try done.
  - cbn. set_solver.
  - intros v. destruct (upt one_page !! (4102, v)) eqn:Hx; [|done]. by apply Hl in Hx as [[=] _].
  - split; intros v pte [[= ->] ->]%Hl; [vm_compute; split; [split; congruence|split; congruence]|].
    cbn. by apply elem_of_singleton.
  - by eexists.
Qed.

Lemma fork_snapshot_witness :
  exists u', fork 100 200 0 one_page = Ok 4102 u' /\ sees u' 4102 8388608 = Some 42
    /\ private u' 4097 2048 /\ private u' 4102 2048.
Proof.
  destruct (fork_snapshot 4097 4102 100 200 0 one_page 20 21 ltac:(lia) ltac:(lia) ltac:(lia)
              one_page_forkable) as (u' & E & _ & Hs & Hp & _).
  exists u'. split; [exact E|]. split.
  - destruct (Hs 8388608) as [_ ->]; [vm_compute; split; congruence|]. vm_compute. reflexivity.
  - apply (Hp 2048); [unfold common; lia|]. exists (entry 10 7).
    split; [reflexivity|]. split; [reflexivity|]. split; [reflexivity|]. left. reflexivity.
Defined.

(** Both map physical page 10 copy-on-write. *)
Definition shared_page : vm :=
  mkVm (<[(4097, 2048) := entry 10 2053]> {[(4102, 2048) := entry 10 2053]}) {[(4097, 2); (4102, 2)]}
    (fun _ => 42) [20; 21; 22] 4097 {[4097]} [] ∅ ∅.

Lemma shared_page_lookup e v pte :
  upt shared_page !! (e, v) = Some pte -> (e = 4097 \/ e = 4102) /\ v = 2048 /\ pte = entry 10 2053.
Proof.
  cbn. rewrite lookup_insert_Some, lookup_singleton_Some.
  intros [[[= <- <-] <-]|[_ [[= <- <-] <-]]]; split; auto.
Qed.

Lemma shared_page_iso : iso 4097 4102 shared_page.
Proof.
  split.
  - intros e He. split; intros v pte (He' & -> & ->)%shared_page_lookup.
    + vm_compute. split; split; congruence.
    + cbn. apply elem_of_union. destruct He' as [-> | ->]; [left|right]; by apply elem_of_singleton.
  - intros e v x e' v' x' _ _ _ _ (_ & _ & ->)%shared_page_lookup _ HW. vm_compute in HW. done.
Qed.

Lemma shared_page_supplied : supplied 2 shared_page.
Proof.
  assert (forall p, p <> 10 -> uref shared_page p = 0) as Hr.
  { intros p Hp. apply uref_unmapped. intros e v pte (_ & _ & ->)%shared_page_lookup. by rewrite entry_frame by lia. }
  split; [cbn; lia|cbn; repeat constructor; set_solver|].
  intros p Hp. cbn in Hp. assert (20 <= p <= 22) by set_solver by lia. split; [lia|]. apply Hr. lia.
Qed.

Lemma cow_isolates_witness :
  exists u', run_writes [(4097, 8388608, 5); (4102, 8388608, 6)] shared_page = Ok tt u'
    /\ sees u' 4097 8388608 = Some 5 /\ sees u' 4102 8388608 = Some 6 /\ sees u' 4097 8388609 = Some 42.
Proof.
  destruct (cow_isolates 4097 4102 [(4097, 8388608, 5); (4102, 8388608, 6)] shared_page
              shared_page_iso shared_page_supplied) as (u' & E & Hs).
  - assert (forall e, e = 4097 \/ e = 4102 -> private shared_page e 2048) as Hp.
    { intros e He. exists (entry 10 2053). destruct He as [-> | ->];
        (split; [reflexivity|]; split; [reflexivity|]; split; [reflexivity|]; right; reflexivity). }
    repeat constructor; try lia; try (by left); try (by right); try (apply Hp; auto);
      vm_compute; congruence.
  - assert (forall a, 8388608 <= a <= 8388609 -> common (a / 4096)) as Hc.
    { intros a Ha. assert (a / 4096 = 2048) as -> by zdm. unfold common. lia. }
    exists u'. split; [exact E|]. rewrite !Hs by (try apply Hc; try lia; unfold party; auto).
    split; [|split]; vm_compute; reflexivity.
Defined.

End Fork.
