(* ===== verification/Fd.v ===== *)
(** * File descriptors (lib/fd.c, inc/fd.h)

    A descriptor is a page at a fixed address, open when the page is mapped, and
    an optional data page.  The functions run on the machine of Uvm.v.  The
    devices behind the descriptors are a table of records of operations
    ([struct Dev]), a parameter: each device is a component of its own.  What
    the functions print when they fail is left out. *)

From stdpp Require Import base numbers list functions strings gmap sets.
From Stdlib Require Import ZArith Lia.
From S2P Require Import Prelude Mem Mmu Kernel Umonad Syscall Uvm.

Open Scope Z_scope.
Open Scope usr_scope.

Module Fd.

Import Syscall Uvm.

Definition MAXFD : Z := 32.

Definition FDTABLE : Z := 3489660928.

Definition FILEDATA : Z := FDTABLE + MAXFD * PGSIZE.

Definition INDEX2FD (i : Z) : Z := u32 (FDTABLE + i * PGSIZE).

Definition INDEX2DATA (i : Z) : Z := u32 (FILEDATA + i * PGSIZE).

Definition fd2num (fd : Z) : Z := u32 (fd - FDTABLE) / PGSIZE.

Definition fd2data (fd : Z) : Z := INDEX2DATA (fd2num fd).

(** Offsets in [struct Fd]. *)
Definition off_fd_dev_id : Z := 0.

Definition off_fd_offset : Z := 4.

Definition off_fd_omode : Z := 8.

Definition off_fd_id : Z := 12.

(** [O_*] of inc/lib.h *)
Definition O_RDONLY : Z := 0.

Definition O_WRONLY : Z := 1.

Definition O_ACCMODE : Z := 3.

(** Offsets in [struct Stat]. *)
Definition off_st_name : Z := 0.

Definition off_st_size : Z := 128.

Definition off_st_isdir : Z := 132.

Definition off_st_dev : Z := 136.

(** [struct Dev]; an operation a device does not have is [None]. *)
Record Dev := mkDev {
  dev_id : Z;
  dev_addr : Z;                                  (* of the structure itself *)
  dev_read : option (Z -> Z -> Z -> M vm Z);     (* fd, buf, n *)
  dev_write : option (Z -> Z -> Z -> M vm Z);
  dev_close : option (Z -> M vm Z);
  dev_stat : option (Z -> Z -> M vm Z);
  dev_trunc : option (Z -> Z -> M vm Z)
}.

(** The result and [*fd_store]. *)
Fixpoint fd_alloc_loop (n : nat) (i : Z) : M vm (Z * Z) :=
  match n with
  | O => mret (- E_MAX_OPEN, 0)
  | S n =>
    let fd := INDEX2FD i in
    let! p := mgets (present (fd / PGSIZE)) in
    if negb p then mret (0, fd) else fd_alloc_loop n (i + 1)
  end.

Definition fd_alloc : M vm (Z * Z) := fd_alloc_loop (Z.to_nat MAXFD) 0.

(** The descriptor page, or the error. *)
Definition fd_lookup (fdnum : Z) : M vm (Z + Z) :=
  if (fdnum <? 0) || (fdnum >=? MAXFD) then mret (inr (- E_INVAL)) else
  let fd := INDEX2FD fdnum in
  let! p := mgets (present (fd / PGSIZE)) in
  if negb p then mret (inr (- E_INVAL)) else mret (inl fd).

Section devices.

(** [devtab], without the terminating 0. *)
Context (devtab : list Dev).

Fixpoint dev_find (l : list Dev) (id : Z) : option Dev :=
  match l with
  | [] => None
  | d :: l => if dev_id d =? id then Some d else dev_find l id
  end.

Definition dev_lookup (id : Z) : Dev + Z :=
  match dev_find devtab id with Some d => inl d | None => inr (- E_INVAL) end.

Definition fd_close (fd : Z) (must_exist : bool) : M vm Z :=
  let! l := fd_lookup (i32 (fd2num fd)) in
  match l with
  | inr r => mret (if must_exist then r else 0)
  | inl fd2 =>
    if negb (fd =? fd2) then mret 0 else
    let! id := load32 (fd + off_fd_dev_id) in
    let! r := (match dev_lookup (i32 id) with
               | inr r => mret r
               | inl dev => match dev_close dev with Some f => f fd | None => mret 0 end
               end) in
    let! _ := sys_page_unmap 0 fd in
    mret r
  end.

Definition close (fdnum : Z) : M vm Z :=
  let! l := fd_lookup fdnum in
  match l with inr r => mret r | inl fd => fd_close fd true end.

Definition close_all : M vm unit :=
  let! _ := mfor (R := unit) (Z.to_nat MAXFD) 0 (fun i => let! _ := close i in mret None) in
  mret tt.

(** Map page [src] at [dst] with the same permissions. *)
Definition dup_map (src dst : Z) : M vm Z :=
  let! pte := uvpt (src / PGSIZE) in
  sys_page_map 0 src 0 dst (Z.land pte PTE_SYSCALL).

Definition dup (oldfdnum newfdnum : Z) : M vm Z :=
  let! l := fd_lookup oldfdnum in
  match l with
  | inr r => mret r
  | inl oldfd =>
    let! _ := close newfdnum in
    let newfd := INDEX2FD newfdnum in
    let ova := fd2data oldfd in
    let nva := fd2data newfd in
    let! p := mgets (present (ova / PGSIZE)) in
    let! r := (if p : bool then dup_map ova nva else mret 0) in
    let! r := (if r <? 0 then mret r else dup_map oldfd newfd) in
    if r <? 0 then
      let! _ := sys_page_unmap 0 newfd in
      let! _ := sys_page_unmap 0 nva in
      mret r
    else mret newfdnum
  end.

(** The descriptor and its device, or the error: the start of every operation. *)
Definition fd_dev (fdnum : Z) : M vm (Z * Dev + Z) :=
  let! l := fd_lookup fdnum in
  match l with
  | inr r => mret (inr r)
  | inl fd =>
    let! id := load32 (fd + off_fd_dev_id) in
    match dev_lookup (i32 id) with
    | inr r => mret (inr r)
    | inl dev => mret (inl (fd, dev))
    end
  end.

(** [fd->fd_omode & O_ACCMODE] *)
Definition acc_mode (fd : Z) : M vm Z :=
  let! m := load32 (fd + off_fd_omode) in mret (Z.land m O_ACCMODE).

Definition read (fdnum buf n : Z) : M vm Z :=
  let! l := fd_dev fdnum in
  match l with
  | inr r => mret r
  | inl (fd, dev) =>
    let! m := acc_mode fd in
    if m =? O_WRONLY then mret (- E_INVAL) else
    match dev_read dev with None => mret (- E_NOT_SUPP) | Some f => f fd buf n end
  end.

(** [fuel] bounds the calls of [read]. *)
Fixpoint readn_loop (fuel : nat) (fdnum buf n tot : Z) : M vm Z :=
  if u32 tot <? n then
    match fuel with
    | O => mundef "readn: loop bound"
    | S fuel =>
      let! m := read fdnum (u32 (buf + tot)) (u32 (n - tot)) in
      if m <? 0 then mret m else
      if m =? 0 then mret tot else readn_loop fuel fdnum buf n (i32 (tot + m))
    end
  else mret tot.

Definition readn (fdnum buf n : Z) : M vm Z := readn_loop (Z.to_nat n) fdnum buf n 0.

Definition write (fdnum buf n : Z) : M vm Z :=
  let! l := fd_dev fdnum in
  match l with
  | inr r => mret r
  | inl (fd, dev) =>
    let! m := acc_mode fd in
    if m =? O_RDONLY then mret (- E_INVAL) else
    match dev_write dev with None => mret (- E_NOT_SUPP) | Some f => f fd buf n end
  end.

Definition seek (fdnum offset : Z) : M vm Z :=
  let! l := fd_lookup fdnum in
  match l with
  | inr r => mret r
  | inl fd => do! store32 (fd + off_fd_offset) offset in mret 0
  end.

Definition ftruncate (fdnum newsize : Z) : M vm Z :=
  let! l := fd_dev fdnum in
  match l with
  | inr r => mret r
  | inl (fd, dev) =>
    let! m := acc_mode fd in
    if m =? O_RDONLY then mret (- E_INVAL) else
    match dev_trunc dev with None => mret (- E_NOT_SUPP) | Some f => f fd newsize end
  end.

Definition fstat (fdnum st : Z) : M vm Z :=
  let! l := fd_dev fdnum in
  match l with
  | inr r => mret r
  | inl (fd, dev) =>
    match dev_stat dev with
    | None => mret (- E_NOT_SUPP)
    | Some f =>
      do! store8 (st + off_st_name) 0 in
      do! store32 (st + off_st_size) 0 in
      do! store32 (st + off_st_isdir) 0 in
      do! store32 (st + off_st_dev) (dev_addr dev) in
      f fd st
    end
  end.

(** [open] is the file device's, lib/file.c. *)
Definition stat (open : Z -> Z -> M vm Z) (path st : Z) : M vm Z :=
  let! fd := open path O_RDONLY in
  if fd <? 0 then mret fd else
  let! r := fstat fd st in
  let! _ := close fd in
  mret r.

End devices.

(** ** Theorems *)

(** Virtual page of descriptor [i] and of its data. *)
Lemma INDEX2FD_page i : 0 <= i < 32 -> INDEX2FD i = (851968 + i) * 4096 /\ INDEX2FD i / 4096 = 851968 + i.
Proof.
  intros Hi. unfold INDEX2FD, FDTABLE, PGSIZE. rewrite u32_id by lia. split; [lia|zdm].
Qed.

Lemma fd2num_INDEX2FD i : 0 <= i < 32 -> fd2num (INDEX2FD i) = i.
Proof.
  intros Hi. destruct (INDEX2FD_page i Hi) as [-> _]. unfold fd2num, FDTABLE, PGSIZE.
  rewrite u32_id by lia. zdm.
Qed.

Lemma fd2data_page i : 0 <= i < 32 ->
  fd2data (INDEX2FD i) = (852000 + i) * 4096 /\ fd2data (INDEX2FD i) / 4096 = 852000 + i.
Proof.
  intros Hi. unfold fd2data. rewrite fd2num_INDEX2FD by done.
  unfold INDEX2DATA, FILEDATA, FDTABLE, MAXFD, PGSIZE. rewrite u32_id by lia. split; [lia|zdm].
Qed.

(** Descriptor [i] is open. *)
Definition is_open (u : vm) (i : Z) : bool := present (851968 + i) u.

Lemma fd_alloc_loop_spec u n : forall i, 0 <= i -> i + Z.of_nat n <= 32 ->
  (exists k, i <= k < i + Z.of_nat n /\ is_open u k = false
     /\ (forall j, i <= j < k -> is_open u j = true) /\ fd_alloc_loop n i u = Ok (0, INDEX2FD k) u)
  \/ ((forall j, i <= j < i + Z.of_nat n -> is_open u j = true)
      /\ fd_alloc_loop n i u = Ok (- E_MAX_OPEN, 0) u).
Proof.
  induction n as [|n IH]; intros i Hi Hn.
  - right. split; [intros; lia|done].
  - cbn [fd_alloc_loop]. unfold mbind, mgets. unfold PGSIZE.
    rewrite (proj2 (INDEX2FD_page i ltac:(lia))). fold (is_open u i).
    destruct (is_open u i) eqn:Eo; cbn [negb].
    + destruct (IH (i + 1)) as [(k & Hk & Hc & Hl & E)|[Hl E]]; [lia|lia| |].
      * left. exists k. split; [lia|]. split; [done|]. split; [|done].
        intros j Hj. destruct (decide (j = i)) as [->|]; [done|]. apply Hl. lia.
      * right. split; [|done]. intros j Hj. destruct (decide (j = i)) as [->|]; [done|]. apply Hl. lia.
    + left. exists i. split; [lia|]. split; [done|]. split; [intros; lia|done].
Qed.

(** [fd_alloc] returns the lowest descriptor that is not open, or [-E_MAX_OPEN]
    when all 32 are; it changes nothing. *)
Theorem fd_alloc_lowest u :
  (exists k, 0 <= k < MAXFD /\ is_open u k = false /\ (forall j, 0 <= j < k -> is_open u j = true)
     /\ fd_alloc u = Ok (0, INDEX2FD k) u)
  \/ ((forall j, 0 <= j < MAXFD -> is_open u j = true) /\ fd_alloc u = Ok (- E_MAX_OPEN, 0) u).
Proof. apply (fd_alloc_loop_spec u 32 0); [lia|]. cbn. lia. Qed.

Lemma fd_lookup_open u i :
  0 <= i < 32 ->
  fd_lookup i u = Ok (if is_open u i then inl (INDEX2FD i) else inr (- E_INVAL)) u.
Proof.
  intros Hi. unfold fd_lookup, MAXFD. destruct (Z.ltb_spec i 0); [lia|].
  destruct (Z.geb_spec i 32); [lia|]. cbn [orb]. unfold mbind, mgets, PGSIZE.
  rewrite (proj2 (INDEX2FD_page i Hi)). fold (is_open u i). by destruct (is_open u i).
Qed.

(** Mapping a page that is there. *)
Lemma dup_map_ok u s d pte :
  0 <= s < 977920 -> 0 <= d < 977920 -> upt u !! (self u, s) = Some pte ->
  (self u, s / 1024) ∈ utab u -> no_memory u = false ->
  dup_map (s * 4096) (d * 4096) u
  = Ok 0 (map_page (self u) d (entry (frame pte) (Z.land pte PTE_SYSCALL)) u).
Proof.
  intros Hs Hd Hu Ht Hm. unfold dup_map, mbind, PGSIZE. rewrite Z_div_mult by lia.
  rewrite uvpt_ok by done. rewrite Hu. cbn [default id].
  rewrite (page_map_ok u 0 s 0 d _ (self u) (self u) pte); try done; [apply bad_perm_masked|].
  by rewrite flag_masked.
Qed.

Lemma present_Some u v pte : upt u !! (self u, v) = Some pte -> present v u = true.
Proof. unfold present. by intros ->. Qed.

Section dup.

Context (devtab : list Dev).

(** [dup] makes the new descriptor a second name for the old one: with the
    old one open, the new one closed and memory for page tables it returns the
    new number, and the descriptor page of the new number, and its data page if
    the old one has one, are the very pages of the old one with the same
    permissions; nothing else changes. *)
Theorem dup_shares u i j pte :
  0 <= i < 32 -> 0 <= j < 32 -> i <> j ->
  upt u !! (self u, 851968 + i) = Some pte -> (self u, 832) ∈ utab u ->
  is_open u j = false -> no_memory u = false ->
  exists u', dup devtab i j u = Ok j u'
    /\ upt u' !! (self u, 851968 + j) = Some (entry (frame pte) (Z.land pte PTE_SYSCALL))
    /\ upt u' !! (self u, 852000 + j)
        = (match upt u !! (self u, 852000 + i) with
           | Some d => Some (entry (frame d) (Z.land d PTE_SYSCALL))
           | None => upt u !! (self u, 852000 + j)
           end)
    /\ (forall k, k <> (self u, 851968 + j) -> k <> (self u, 852000 + j) -> upt u' !! k = upt u !! k)
    /\ umem u' = umem u.
Proof.
  intros Hi Hj Hij Hu Ht Hc Hm. unfold dup, mbind at 1. rewrite fd_lookup_open by done.
  unfold is_open at 1. rewrite (present_Some _ _ _ Hu).
  assert (close devtab j u = Ok (- E_INVAL) u) as Ecl.
  { unfold close, mbind. rewrite fd_lookup_open by done. by rewrite Hc. }
  unfold mbind at 1. rewrite Ecl. unfold mbind at 1, mgets at 1. unfold PGSIZE.
  destruct (fd2data_page i Hi) as [Ed1 Ed2]. destruct (fd2data_page j Hj) as [Ed3 _].
  destruct (INDEX2FD_page i Hi) as [Ef1 _]. destruct (INDEX2FD_page j Hj) as [Ef2 _].
  rewrite Ed2, Ed1, Ed3. rewrite Ef1, Ef2. unfold present at 1.
  assert ((852000 + i) / 1024 = 832) as Et1 by zdm. assert ((851968 + i) / 1024 = 832) as Et2 by zdm.
  destruct (upt u !! (self u, 852000 + i)) as [d|] eqn:Hd.
  - unfold mbind at 1. rewrite (dup_map_ok u (852000 + i) (852000 + j) d) by (done || lia || by rewrite Et1).
    cbn [Z.ltb Z.compare]. unfold mbind at 1.
    rewrite (dup_map_ok _ (851968 + i) (851968 + j) pte);
      [|lia|lia|cbn; rewrite lookup_insert_ne; [done|intros [=]; lia]
      |cbn; rewrite Et2; apply elem_of_union; by right|done].
    cbn [Z.ltb Z.compare]. eexists. split; [reflexivity|]. cbn. split_and!; [| | |done].
    + by rewrite lookup_insert_eq.
    + rewrite lookup_insert_ne by (intros [=]; lia). by rewrite lookup_insert_eq.
    + intros k H1 H2. by rewrite !lookup_insert_ne by done.
  - unfold mbind at 1, mret at 1. cbn [Z.ltb Z.compare]. unfold mbind at 1.
    rewrite (dup_map_ok _ (851968 + i) (851968 + j) pte) by (done || lia || by rewrite Et2).
    cbn [Z.ltb Z.compare]. eexists. split; [reflexivity|]. cbn. split_and!; [| | |done].
    + by rewrite lookup_insert_eq.
    + rewrite lookup_insert_ne by (intros [=]; lia). done.
    + intros k H1 H2. by rewrite !lookup_insert_ne by done.
Qed.

(** A descriptor duplicated onto itself is closed first; mapping the page that
    is gone then panics the kernel.  This holds for every device whose [close]
    operation returns and leaves the page tables of the descriptor area alone. *)
Theorem dup_self_panics u i dev f id r u1 :
  0 <= i < 32 -> is_open u i = true ->
  load32 (INDEX2FD i + off_fd_dev_id) u = Ok id u -> dev_lookup devtab (i32 id) = inl dev ->
  dev_close dev = Some f -> f (INDEX2FD i) u = Ok r u1 ->
  self u1 = self u -> (self u, 832) ∈ utab u1 -> no_memory u1 = false ->
  exists w u', dup devtab i i u = Panics w u'.
Proof.
  intros Hi Ho Hid Hdev Hf Hr Hs Ht Hm. unfold dup, mbind at 1. rewrite fd_lookup_open by done. rewrite Ho.
  set (u2 := set_upt (delete (self u1, 851968 + i) (upt u1)) u1).
  destruct (INDEX2FD_page i Hi) as [Ef1 Ef2]. destruct (fd2data_page i Hi) as [Ed1 Ed2].
  assert (sys_page_unmap 0 (INDEX2FD i) u1 = Ok 0 u2) as Eun.
  { unfold sys_page_unmap. rewrite Ef1, bad_va_page by lia. cbn. unfold PGSIZE. by rewrite Z_div_mult by lia. }
  assert (close devtab i u = Ok r u2) as Ecl.
  { unfold close, mbind at 1. rewrite fd_lookup_open by done. rewrite Ho. unfold fd_close, mbind at 1.
    rewrite fd2num_INDEX2FD, i32_id by lia. rewrite fd_lookup_open by done. rewrite Ho.
    rewrite Z.eqb_refl. cbn [negb]. unfold mbind at 1. rewrite Hid, Hdev, Hf. unfold mbind at 1. rewrite Hr.
    unfold mbind. by rewrite Eun. }
  unfold mbind at 1. rewrite Ecl. unfold mbind at 1, mgets at 1.
  assert (forall u3, self u3 = self u -> (self u, 832) ∈ utab u3 -> upt u3 !! (self u, 851968 + i) = None ->
    exists w u', dup_map (INDEX2FD i) (INDEX2FD i) u3 = Panics w u') as Hmap.
  { intros u3 E1 E2 E3. unfold dup_map, mbind, PGSIZE. rewrite Ef1, Z_div_mult by lia.
    rewrite uvpt_ok by (rewrite E1; by replace ((851968 + i) / 1024) with 832 by zdm).
    rewrite E1, E3. unfold sys_page_map. rewrite bad_va_page, bad_perm_masked by lia. cbn [orb].
    change (resolve u3 0) with (Some (self u3)). unfold PGSIZE. rewrite E1, Z_div_mult by lia. rewrite E3.
    by eexists _, _. }
  assert (forall u3, (forall k, k <> (self u, 852000 + i) -> upt u3 !! k = upt u2 !! k) -> self u3 = self u ->
    utab u2 ⊆ utab u3 ->
    exists w u', (let! r := dup_map (INDEX2FD i) (INDEX2FD i) in
      if r <? 0 then let! _ := sys_page_unmap 0 (INDEX2FD i) in
        let! _ := sys_page_unmap 0 (fd2data (INDEX2FD i)) in mret r else mret i) u3 = Panics w u') as Hend.
  { intros u3 E1 E2 E3. destruct (Hmap u3 E2) as (w & u' & E); [apply E3; by cbn| |].
    - rewrite E1 by (intros [=]; lia). cbn. rewrite Hs. by rewrite lookup_delete_eq.
    - exists w, u'. unfold mbind at 1. by rewrite E. }
  unfold PGSIZE. rewrite Ed2. unfold present. cbn [self set_upt u2]. rewrite Hs.
  destruct (upt u2 !! (self u, 852000 + i)) as [d|] eqn:Hd.
  - unfold mbind at 1. rewrite Ed1.
    rewrite (dup_map_ok u2 (852000 + i) (852000 + i) d); [|lia|lia|change (self u2) with (self u1); by rewrite Hs| |done].
    + cbn [Z.ltb Z.compare]. rewrite <- Ed1. apply Hend; [|done|cbn; set_solver].
      intros k Hk. cbn. rewrite Hs. by rewrite lookup_insert_ne.
    + cbn. rewrite Hs. by replace ((852000 + i) / 1024) with 832 by zdm.
  - unfold mbind at 1, mret at 1. cbn [Z.ltb Z.compare]. by apply Hend.
Qed.

End dup.

(** Descriptor 0 open with a data page. *)
Definition one_fd : vm :=
  mkVm (<[(4097, 851968) := entry 10 7]> {[(4097, 852000) := entry 11 7]}) {[(4097, 832)]}
    (fun _ => 0) [20] 4097 {[4097]} [] ∅ ∅.

Lemma dup_shares_witness :
  exists u', dup [] 0 1 one_fd = Ok 1 u'
    /\ upt u' !! (4097, 851969) = Some (entry 10 7) /\ upt u' !! (4097, 852001) = Some (entry 11 7).
Proof.
  destruct (dup_shares [] one_fd 0 1 (entry 10 7)) as (u' & E & H1 & H2 & _);
    [lia|lia|lia|reflexivity|cbn; set_solver|reflexivity|reflexivity|].
  exists u'. split; [exact E|]. split; [exact H1|]. exact H2.
Defined.

End Fd.
