(* ===== verification/Pipe.v ===== *)
(** * Pipes (lib/pipe.c)

    Two parts.  The first is the functions that work on the address space
    ([pipe], [devpipe_close], [devpipe_stat]), on the machine of Uvm.v.  The
    second is the transfer of data: [devpipe_read] of one environment and
    [devpipe_write] of another run concurrently on the shared page, and every
    access to shared memory is a step of its own, so that the theorems hold for
    every interleaving, on one CPU or several.  A schedule is a list of who
    steps next and whether the kernel has counted a new run ([env_runs]) of that
    environment since its last step.

    The theorems: bytes come out in the order they went in, at most 32 behind,
    nothing is lost or repeated while fewer than [2^31] bytes have passed, and
    end of file is reported only once the writer has closed; but it may be
    reported with bytes still in the pipe. *)

From stdpp Require Import base numbers list functions strings gmap sets.
From Stdlib Require Import ZArith Lia.
From S2P Require Import Prelude Mem Mmu Kernel Umonad Syscall Uvm Fd.

Open Scope Z_scope.
Open Scope usr_scope.

Module Pipe.

Import Syscall Uvm Fd.

Definition PIPEBUFSIZ : Z := 32.

(** Offsets in [struct Pipe]. *)
Definition off_p_rpos : Z := 0.

Definition off_p_wpos : Z := 4.

(** ** Making and closing a pipe *)

(** [PTE_P|PTE_W|PTE_U|PTE_SHARE] *)
Definition pipe_perm : Z := Z.lor (Z.lor (Z.lor PTE_P PTE_W) PTE_U) PTE_SHARE.

Definition devpipe_dev_id : Z := 112.

(** [fd_alloc] and a page for the descriptor: the result and the descriptor. *)
Definition fd_page : M vm (Z * Z) :=
  let! a := fd_alloc in
  let '(r, fd) := a in
  if r <? 0 then mret (r, fd) else
  let! r := sys_page_alloc 0 fd pipe_perm in mret (r, fd).

(** The result, [pfd[0]] and [pfd[1]]. *)
Definition pipe : M vm (Z * Z * Z) :=
  let! a := fd_page in
  let '(r, fd0) := a in
  if r <? 0 then mret (r, 0, 0) else
  let! a := fd_page in
  let '(r, fd1) := a in
  if r <? 0 then let! _ := sys_page_unmap 0 fd0 in mret (r, 0, 0) else
  let va := fd2data fd0 in
  let! r := sys_page_alloc 0 va pipe_perm in
  if r <? 0 then
    let! _ := sys_page_unmap 0 fd1 in
    let! _ := sys_page_unmap 0 fd0 in mret (r, 0, 0)
  else
    let! r := sys_page_map 0 va 0 (fd2data fd1) pipe_perm in
    if r <? 0 then
      let! _ := sys_page_unmap 0 va in
      let! _ := sys_page_unmap 0 fd1 in
      let! _ := sys_page_unmap 0 fd0 in mret (r, 0, 0)
    else
      do! store32 (fd0 + off_fd_dev_id) devpipe_dev_id in
      do! store32 (fd0 + off_fd_omode) O_RDONLY in
      do! store32 (fd1 + off_fd_dev_id) devpipe_dev_id in
      do! store32 (fd1 + off_fd_omode) O_WRONLY in
      mret (0, fd2num fd0, fd2num fd1).

Definition devpipe_close (fd : Z) : M vm Z :=
  let! _ := sys_page_unmap 0 fd in
  sys_page_unmap 0 (fd2data fd).

(** lib/pageref.c *)
Definition pageref (v : Z) (u : vm) : Z :=
  match upt u !! (self u, v / PGSIZE) with Some pte => uref u (frame pte) | None => 0 end.

(** [_pipeisclosed] when nobody else runs in between. *)
Definition pipeisclosed (fdnum : Z) : M vm Z :=
  let! l := fd_lookup fdnum in
  match l with
  | inr r => mret r
  | inl fd =>
    let! a := mgets (pageref fd) in
    let! b := mgets (pageref (fd2data fd)) in
    mret (if a =? b then 1 else 0)
  end.

(** [strcpy(st->st_name, "<pipe>")] *)
Fixpoint store_string (a : Z) (l : list Z) : M vm unit :=
  match l with
  | [] => store8 a 0
  | c :: l => do! store8 a c in store_string (a + 1) l
  end.

(** [devpipe] is the address of the device structure. *)
Definition devpipe_stat (devpipe fd st : Z) : M vm Z :=
  let p := fd2data fd in
  do! store_string (st + off_st_name) [60; 112; 105; 112; 101; 62] in
  let! w := load32 (p + off_p_wpos) in
  let! r := load32 (p + off_p_rpos) in
  do! store32 (st + off_st_size) (i32 (w - r)) in
  do! store32 (st + off_st_isdir) 0 in
  do! store32 (st + off_st_dev) devpipe in
  mret 0.

(** ** The shared state *)

(** Where [_pipeisclosed] is: before the first read of [env_runs], and after
    each of the next three reads. *)
Inductive check := C0 | C1 (n : Z) | C2 (n fdref : Z) | C3 (n : Z) (same : bool).

(** A step of [_pipeisclosed] given what it reads: another position, or its
    result. *)
Definition check_step (runs fdref pref : Z) (k : check) : check + bool :=
  match k with
  | C0 => inl (C1 runs)
  | C1 n => inl (C2 n fdref)
  | C2 n a => inl (C3 n (a =? pref))
  | C3 n same => if n =? runs then inr same else inl C0
  end.

(** Where the reader and the writer are. *)
Inductive rpc := R_head | R_test | R_check (k : check) | R_take | R_inc (b : Z) | R_close | R_close2 | R_gone.

Inductive wpc := W_head | W_test | W_check (k : check) | W_store | W_inc | W_close | W_close2 | W_gone.

(** The reader performs the calls [r_todo] (sizes), the first of them now, then
    closes; [r_results] are the calls it has finished: size, return value and
    the bytes stored. *)
Record rproc := mkReader {
  r_pc : rpc;
  r_got : list Z;
  r_todo : list Z;
  r_results : list (Z * Z * list Z)
}.

(** The writer performs the calls [w_todo] (buffers); [w_i] is the loop counter. *)
Record wproc := mkWriter {
  w_pc : wpc;
  w_i : Z;
  w_todo : list (list Z);
  w_results : list (list Z * Z)
}.

Record st := mkSt {
  p_rpos : Z;
  p_wpos : Z;
  p_buf : Z -> Z;
  rfd_ref : Z;        (* references to the pages: read end, write end, data *)
  wfd_ref : Z;
  data_ref : Z;
  r_runs : Z;
  w_runs : Z;
  reader : rproc;
  writer : wproc;
  taken : list Z;     (* the bytes that left the pipe, and all that entered it *)
  put : list Z
}.

Definition set_reader (r : rproc) (s : st) : st :=
  mkSt (p_rpos s) (p_wpos s) (p_buf s) (rfd_ref s) (wfd_ref s) (data_ref s) (r_runs s) (w_runs s) r (writer s) (taken s) (put s).

Definition set_writer (w : wproc) (s : st) : st :=
  mkSt (p_rpos s) (p_wpos s) (p_buf s) (rfd_ref s) (wfd_ref s) (data_ref s) (r_runs s) (w_runs s) (reader s) w (taken s) (put s).

Definition set_refs (a b c : Z) (s : st) : st :=
  mkSt (p_rpos s) (p_wpos s) (p_buf s) a b c (r_runs s) (w_runs s) (reader s) (writer s) (taken s) (put s).

Definition r_goto (pc : rpc) (r : rproc) : rproc := mkReader pc (r_got r) (r_todo r) (r_results r).

Definition w_goto (pc : wpc) (w : wproc) : wproc := mkWriter pc (w_i w) (w_todo w) (w_results w).

(** Return [v] from the call in progress and go on to the next. *)
Definition r_return (n v : Z) (r : rproc) : rproc :=
  mkReader R_head [] (tail (r_todo r)) (r_results r ++ [(n, v, r_got r)]).

Definition w_return (l : list Z) (v : Z) (w : wproc) : wproc :=
  mkWriter W_head 0 (tail (w_todo w)) (w_results w ++ [(l, v)]).

(** One step of [devpipe_read(fd, buf, n)]; the loop counter is the number of
    bytes stored. *)
Definition read_step (n : Z) (s : st) : st :=
  let r := reader s in
  let i := Z.of_nat (length (r_got r)) in
  match r_pc r with
  | R_head => set_reader (if i <? n then r_goto R_test r else r_return n i r) s
  | R_test =>
    if p_rpos s =? p_wpos s then
      set_reader (if i >? 0 then r_return n i r else r_goto (R_check C0) r) s
    else set_reader (r_goto R_take r) s
  | R_check k =>
    match check_step (r_runs s) (rfd_ref s) (data_ref s) k with
    | inl k => set_reader (r_goto (R_check k) r) s
    | inr true => set_reader (r_return n 0 r) s
    | inr false => set_reader (r_goto R_test r) s       (* after sys_yield *)
    end
  | R_take => set_reader (r_goto (R_inc (p_buf s (Z.rem (p_rpos s) PIPEBUFSIZ))) r) s
  | R_inc b =>
    mkSt (i32 (p_rpos s + 1)) (p_wpos s) (p_buf s) (rfd_ref s) (wfd_ref s) (data_ref s) (r_runs s) (w_runs s)
      (mkReader R_head (r_got r ++ [b]) (r_todo r) (r_results r)) (writer s) (taken s ++ [b]) (put s)
  | _ => s
  end.

(** One step of [devpipe_write(fd, l, n)]. *)
Definition write_step (l : list Z) (s : st) : st :=
  let w := writer s in
  let i := w_i w in
  match w_pc w with
  | W_head =>
    set_writer (if i <? Z.of_nat (length l) then w_goto W_test w else w_return l i w) s
  | W_test =>
    set_writer (w_goto (if u32 (p_wpos s) >=? u32 (u32 (p_rpos s) + PIPEBUFSIZ) then W_check C0 else W_store) w) s
  | W_check k =>
    match check_step (w_runs s) (wfd_ref s) (data_ref s) k with
    | inl k => set_writer (w_goto (W_check k) w) s
    | inr true => set_writer (w_return l 0 w) s
    | inr false => set_writer (w_goto W_test w) s
    end
  | W_store =>
    mkSt (p_rpos s) (p_wpos s) (<[Z.rem (p_wpos s) PIPEBUFSIZ := nth (Z.to_nat i) l 0]> (p_buf s))
      (rfd_ref s) (wfd_ref s) (data_ref s) (r_runs s) (w_runs s) (reader s) (w_goto W_inc w) (taken s) (put s)
  | W_inc =>
    mkSt (p_rpos s) (i32 (p_wpos s + 1)) (p_buf s) (rfd_ref s) (wfd_ref s) (data_ref s) (r_runs s) (w_runs s)
      (reader s) (mkWriter W_head (i + 1) (w_todo w) (w_results w)) (taken s) (put s ++ [nth (Z.to_nat i) l 0])
  | _ => s
  end.

(** [devpipe_close]: the descriptor page goes first, then the data page. *)
Definition reader_step (s : st) : st :=
  let r := reader s in
  match r_pc r with
  | R_close => set_refs (rfd_ref s - 1) (wfd_ref s) (data_ref s) (set_reader (r_goto R_close2 r) s)
  | R_close2 => set_refs (rfd_ref s) (wfd_ref s) (data_ref s - 1) (set_reader (r_goto R_gone r) s)
  | R_gone => s
  | _ => match r_todo r with [] => set_reader (r_goto R_close r) s | n :: _ => read_step n s end
  end.

Definition writer_step (s : st) : st :=
  let w := writer s in
  match w_pc w with
  | W_close => set_refs (rfd_ref s) (wfd_ref s - 1) (data_ref s) (set_writer (w_goto W_close2 w) s)
  | W_close2 => set_refs (rfd_ref s) (wfd_ref s) (data_ref s - 1) (set_writer (w_goto W_gone w) s)
  | W_gone => s
  | _ => match w_todo w with [] => set_writer (w_goto W_close w) s | l :: _ => write_step l s end
  end.

Inductive who := Rd | Wr.

(** The environment has been scheduled again before its step. *)
Definition rescheduled (x : who) (s : st) : st :=
  let '(dr, dw) := match x with Rd => (1, 0) | Wr => (0, 1) end in
  mkSt (p_rpos s) (p_wpos s) (p_buf s) (rfd_ref s) (wfd_ref s) (data_ref s) (u32 (r_runs s + dr))
    (u32 (w_runs s + dw)) (reader s) (writer s) (taken s) (put s).

Definition step (x : who * bool) (s : st) : st :=
  let s := if x.2 then rescheduled x.1 s else s in
  match x.1 with Rd => reader_step s | Wr => writer_step s end.

Definition run (sched : list (who * bool)) (s : st) : st := fold_left (fun s x => step x s) sched s.

(** A new pipe, each end in one environment. *)
Definition start (sizes : list Z) (data : list (list Z)) : st :=
  mkSt 0 0 (fun _ => 0) 1 1 2 0 0 (mkReader R_head [] sizes []) (mkWriter W_head 0 data []) [] [].

(** ** The invariant *)

Abbreviation len l := (Z.of_nat (length l)).

Definition writer_gone (s : st) : Prop := w_pc (writer s) = W_gone.

Definition reader_gone (s : st) : Prop := r_pc (reader s) = R_gone.

(** What the reader's position says. *)
Definition reader_ok (s : st) : Prop :=
  match r_pc (reader s) with
  | R_take => len (taken s) < len (put s)
  | R_inc b => len (taken s) < len (put s) /\ b = nth (length (taken s)) (put s) 0
  | R_check k => r_got (reader s) = []
      /\ match k with C2 _ a => a = 1 | C3 _ true => writer_gone s | _ => True end
  | _ => True
  end.

Definition writer_ok (s : st) : Prop :=
  match w_pc (writer s) with
  | W_store => len (put s) < len (taken s) + 32
  | W_inc => len (put s) < len (taken s) + 32
      /\ p_buf s (p_wpos s mod 32) = nth (Z.to_nat (w_i (writer s))) (hd [] (w_todo (writer s))) 0
  | W_check k => match k with C2 _ a => a = 1 | C3 _ true => reader_gone s | _ => True end
  | _ => True
  end.

Definition r_mapped (s : st) : Z := match r_pc (reader s) with R_gone => 0 | _ => 1 end.

Definition w_mapped (s : st) : Z := match w_pc (writer s) with W_gone => 0 | _ => 1 end.

Definition r_open (s : st) : Z := match r_pc (reader s) with R_close2 | R_gone => 0 | _ => 1 end.

Definition w_open (s : st) : Z := match w_pc (writer s) with W_close2 | W_gone => 0 | _ => 1 end.

Record inv (s : st) : Prop := {
  iv_w : p_wpos s = len (put s);
  iv_r : p_rpos s = len (taken s);
  iv_room : len (taken s) <= len (put s) <= len (taken s) + 32;
  iv_fifo : taken s = take (length (taken s)) (put s);
  iv_buf : forall k, (length (taken s) <= k < length (put s))%nat ->
    p_buf s (Z.of_nat k mod 32) = nth k (put s) 0;
  iv_reader : reader_ok s;
  iv_writer : writer_ok s;
  iv_got : concat (map snd (r_results (reader s))) ++ r_got (reader s) = taken s;
  iv_data : data_ref s = r_mapped s + w_mapped s;
  iv_rfd : rfd_ref s = r_open s;
  iv_wfd : wfd_ref s = w_open s;
  iv_res : Forall (fun '(n, v, g) => v = len g /\ (0 < n -> v = 0 -> writer_gone s)) (r_results (reader s));
  iv_wres : Forall (fun '(l, v) => v = len l \/ (v = 0 /\ reader_gone s)) (w_results (writer s))
}.

(** While the reader is there, nothing is said about its having gone. *)
Lemma writer_ok_reader s r : r_pc (reader s) <> R_gone -> writer_ok s -> writer_ok (set_reader r s).
Proof.
  intros Hr. unfold writer_ok. cbn. destruct (w_pc (writer s)) as [| |[| | |? []]| | | | |]; try done.
Qed.

Lemma wres_reader s s' : r_pc (reader s) <> R_gone ->
  Forall (fun '(l, v) => v = len l \/ (v = 0 /\ reader_gone s)) (w_results (writer s)) ->
  Forall (fun '(l, v) => v = len l \/ (v = 0 /\ reader_gone s')) (w_results (writer s)).
Proof. intros Hr H. eapply Forall_impl; [exact H|]. intros [l v] [Hv|[_ Hg]]; [by left|by destruct (Hr Hg)]. Qed.

(** Positions are [int]s: what follows holds before they overflow. *)
Definition small (s : st) : Prop := len (put s) < 2147483648.

Lemma start_inv sizes data : inv (start sizes data).
Proof. split; cbn; try done; try lia; intros; lia. Qed.

Lemma rescheduled_inv x s : inv s -> inv (rescheduled x s).
Proof. intros H. destruct x; destruct H; by split. Qed.

(** Two positions less than 32 apart use different places of the ring. *)
Lemma ring_ne j k : (j < k < j + 32)%nat \/ (k < j < k + 32)%nat -> Z.of_nat j mod 32 <> Z.of_nat k mod 32.
Proof. intros H E. zdm. Qed.

(** The reader changes only its position: nothing but its own state moves. *)
Lemma reader_goto_inv s pc :
  inv s -> r_pc (reader s) <> R_gone -> r_pc (reader s) <> R_close2 ->
  pc <> R_gone -> pc <> R_close2 ->
  reader_ok (set_reader (r_goto pc (reader s)) s) -> inv (set_reader (r_goto pc (reader s)) s).
Proof.
  intros [] H1 H2 H3 H4 Hok. split; try done; cbn; [by apply writer_ok_reader|..].
  - rewrite iv_data0. unfold r_mapped, w_mapped. cbn. by destruct (r_pc (reader s)), pc.
  - rewrite iv_rfd0. unfold r_open. cbn. by destruct (r_pc (reader s)), pc.
  - by eapply wres_reader.
Qed.

Lemma reader_return_inv s n v :
  inv s -> r_pc (reader s) <> R_gone -> r_pc (reader s) <> R_close2 -> v = len (r_got (reader s)) ->
  (0 < n -> v = 0 -> writer_gone s) ->
  inv (set_reader (r_return n v (reader s)) s).
Proof.
  intros [] H1 H2 Hv Hg. split; try done; cbn; [by apply writer_ok_reader|..].
  - rewrite map_app, concat_app. cbn. by rewrite !app_nil_r.
  - rewrite iv_data0. unfold r_mapped, w_mapped. cbn. by destruct (r_pc (reader s)).
  - rewrite iv_rfd0. unfold r_open. cbn. by destruct (r_pc (reader s)).
  - apply Forall_app. split; [done|]. by apply Forall_singleton.
  - by eapply wres_reader.
Qed.

Lemma reader_step_inv s : inv s -> small s -> inv (reader_step s).
Proof.
  intros H Hs. unfold reader_step.
  destruct (r_pc (reader s)) as [| |k| |b| | |] eqn:Epc;
    try match goal with |- context [match r_todo _ with _ => _ end] => destruct (r_todo (reader s)) as [|n todo] end;
    try (apply reader_goto_inv; rewrite ?Epc; done); try done; unfold read_step; rewrite ?Epc.
  - set (i := len (r_got (reader s))). destruct (Z.ltb_spec i n).
    + apply reader_goto_inv; rewrite ?Epc; done.
    + apply reader_return_inv; rewrite ?Epc; try done. lia.
  - pose proof (iv_w _ H) as Ew. pose proof (iv_r _ H) as Er. pose proof (iv_room _ H) as Hr.
    destruct (Z.eqb_spec (p_rpos s) (p_wpos s)).
    + destruct (Z.gtb_spec (len (r_got (reader s))) 0).
      * apply reader_return_inv; rewrite ?Epc; try done. lia.
      * apply reader_goto_inv; rewrite ?Epc; try done. split; [|done].
        cbn. destruct (r_got (reader s)); [done|]. cbn in *. lia.
    + apply reader_goto_inv; rewrite ?Epc; try done. red. cbn. lia.
  - pose proof (iv_reader _ H) as Hok. unfold reader_ok in Hok. rewrite Epc in Hok. destruct Hok as [Hg Hk].
    pose proof (iv_data _ H) as Hd. pose proof (iv_rfd _ H) as Hf. unfold r_mapped in Hd. unfold r_open in Hf.
    rewrite Epc in Hd, Hf.
    destruct k as [|m|m a|m same]; cbn [check_step].
    + apply reader_goto_inv; rewrite ?Epc; done.
    + apply reader_goto_inv; rewrite ?Epc; done.
    + apply reader_goto_inv; rewrite ?Epc; try done. split; [done|]. cbn. subst a.
      destruct (Z.eqb_spec 1 (data_ref s)); [|done]. red. cbn. unfold w_mapped in Hd.
      destruct (w_pc (writer s)); done || lia.
    + destruct (Z.eqb_spec m (r_runs s)); [destruct same|].
      * apply reader_return_inv; rewrite ?Epc; try done. by rewrite Hg.
      * apply reader_goto_inv; rewrite ?Epc; done.
      * apply reader_goto_inv; rewrite ?Epc; done.
  - pose proof (iv_reader _ H) as Hok. unfold reader_ok in Hok. rewrite Epc in Hok.
    apply reader_goto_inv; rewrite ?Epc; try done. red. cbn. split; [done|].
    rewrite (iv_r _ H). unfold PIPEBUFSIZ. rewrite Z.rem_mod_nonneg by lia.
    apply (iv_buf _ H). lia.
  - pose proof (iv_reader _ H) as Hok. unfold reader_ok in Hok. rewrite Epc in Hok. destruct Hok as [Hlt Hb].
    destruct H. split; cbn; try done.
    + rewrite length_app. cbn. rewrite iv_r0. unfold small in Hs. rewrite i32_id; lia.
    + rewrite length_app. cbn. lia.
    + rewrite length_app. cbn [length]. rewrite Nat.add_1_r.
      rewrite (take_S_r _ _ b); [by rewrite <- iv_fifo0|]. subst b.
      destruct (lookup_lt_is_Some_2 (put s) (length (taken s)) ltac:(lia)) as [x Hx].
      by rewrite (nth_lookup_Some _ _ _ _ Hx).
    + intros k. rewrite length_app. cbn. intros Hk. apply iv_buf0. lia.
    + unfold writer_ok in *. cbn. rewrite length_app. cbn. unfold reader_gone in *. rewrite Epc in iv_writer0.
      destruct (w_pc (writer s)) as [| |[| | |? []]| | | | |]; done || lia.
    + by rewrite app_assoc, iv_got0.
    + rewrite iv_data0. unfold r_mapped, w_mapped. cbn. by rewrite Epc.
    + rewrite iv_rfd0. unfold r_open. cbn. by rewrite Epc.
    + eapply wres_reader; [|exact iv_wres0]. by rewrite Epc.
  - destruct H. split; cbn; try done.
    + apply (writer_ok_reader s); [by rewrite Epc|done].
    + rewrite iv_data0. unfold r_mapped, w_mapped. cbn. by rewrite Epc.
    + rewrite iv_rfd0. unfold r_open. cbn. by rewrite Epc.
    + eapply wres_reader; [|exact iv_wres0]. by rewrite Epc.
  - destruct H. split; cbn; try done.
    + apply (writer_ok_reader s); [by rewrite Epc|done].
    + rewrite iv_data0. unfold r_mapped, w_mapped. cbn. rewrite Epc. lia.
    + rewrite iv_rfd0. unfold r_open. cbn. by rewrite Epc.
    + eapply wres_reader; [|exact iv_wres0]. by rewrite Epc.
Qed.

(** The writer moves on; it is not gone yet, so that no promise about a closed
    write end is broken. *)
Lemma writer_goto_inv s pc i todo res :
  inv s -> w_pc (writer s) <> W_gone -> w_pc (writer s) <> W_close2 -> pc <> W_gone -> pc <> W_close2 ->
  writer_ok (set_writer (mkWriter pc i todo res) s) ->
  (res = w_results (writer s) \/ exists l v, res = w_results (writer s) ++ [(l, v)] /\ (v = len l \/ (v = 0 /\ reader_gone s))) ->
  inv (set_writer (mkWriter pc i todo res) s).
Proof.
  intros [] H1 H1' H2 H2' Hok Hres. split; try done; cbn.
  - unfold reader_ok in *. cbn. destruct (r_pc (reader s)) as [| |[| | |? []]| | | | |]; try done.
    unfold writer_gone in *. tauto.
  - rewrite iv_data0. unfold r_mapped, w_mapped. cbn. by destruct (w_pc (writer s)), pc.
  - rewrite iv_wfd0. unfold w_open. cbn. by destruct (w_pc (writer s)), pc.
  - eapply Forall_impl; [exact iv_res0|]. intros [[n v] g] [Hv Hg]. split; [done|].
    intros Hn H0. by destruct (H1 (Hg Hn H0)).
  - destruct Hres as [->|(l & v & -> & Hv)]; [done|]. apply Forall_app. split; [done|]. by apply Forall_singleton.
Qed.

Ltac w_move Epc := apply writer_goto_inv; rewrite ?Epc; try done; try (by left).

Lemma writer_step_inv s : inv s -> 0 <= w_i (writer s) <= len (hd [] (w_todo (writer s))) -> small (writer_step s) ->
  inv (writer_step s).
Proof.
  intros H Hwi Hs. unfold writer_step in *.
  destruct (w_pc (writer s)) as [| |k| | | | |] eqn:Epc;
    try match goal with |- context [match w_todo _ with _ => _ end] => destruct (w_todo (writer s)) as [|l todo] eqn:Et end;
    try (by w_move Epc); try done; unfold write_step in *; rewrite ?Epc in *.
  - cbn [hd] in Hwi. destruct (Z.ltb_spec (w_i (writer s)) (len l)); [by w_move Epc|].
    w_move Epc. right. eexists _, _. split; [reflexivity|]. left. lia.
  - pose proof (iv_w _ H) as Ew. pose proof (iv_r _ H) as Er. pose proof (iv_room _ H) as Hr.
    unfold small in Hs. cbn in Hs.
    w_move Epc; [by destruct (_ >=? _)|by destruct (_ >=? _)|].
    red. cbn. destruct (Z.geb_spec (u32 (p_wpos s)) (u32 (u32 (p_rpos s) + PIPEBUFSIZ))) as [|Hlt]; [done|].
    rewrite Ew, Er in Hlt. unfold PIPEBUFSIZ in Hlt. rewrite !u32_id in Hlt by (rewrite ?u32_id; lia). lia.
  - pose proof (iv_writer _ H) as Hok. unfold writer_ok in Hok. rewrite Epc in Hok.
    pose proof (iv_data _ H) as Hd. pose proof (iv_wfd _ H) as Hf. unfold w_mapped in Hd. unfold w_open in Hf.
    rewrite Epc in Hd, Hf. destruct k as [|m|m a|m same]; cbn [check_step].
    + by w_move Epc.
    + by w_move Epc.
    + w_move Epc. red. cbn. subst a. destruct (Z.eqb_spec 1 (data_ref s)); [|done]. red. cbn. unfold r_mapped in Hd.
      destruct (r_pc (reader s)); done || lia.
    + destruct (Z.eqb_spec m (w_runs s)); [destruct same|]; w_move Epc.
      right. eexists _, _. split; [reflexivity|]. by right.
  - pose proof (iv_writer _ H) as Hok. unfold writer_ok in Hok. rewrite Epc in Hok.
    pose proof (iv_w _ H) as Ew. destruct H. split; cbn; try done.
    + intros k Hk. rewrite fn_lookup_insert_ne; [by apply iv_buf0|].
      rewrite Ew. unfold PIPEBUFSIZ. rewrite Z.rem_mod_nonneg by lia. apply ring_ne. lia.
    + unfold reader_ok in *. cbn. unfold writer_gone in *. cbn. rewrite Epc in iv_reader0.
      destruct (r_pc (reader s)) as [| |[| | |? []]| | | | |]; try done; by destruct iv_reader0.
    + split; [done|]. rewrite Et. cbn. rewrite Ew. unfold PIPEBUFSIZ.
      rewrite Z.rem_mod_nonneg by lia. by rewrite fn_lookup_insert.
    + rewrite iv_data0. unfold r_mapped, w_mapped. cbn. by rewrite Epc.
    + rewrite iv_wfd0. unfold w_open. cbn. by rewrite Epc.
    + eapply Forall_impl; [exact iv_res0|]. intros [[n v] g] [Hv Hg]. split; [done|].
      intros Hn H0. specialize (Hg Hn H0). red in Hg. congruence.
  - pose proof (iv_writer _ H) as Hok. unfold writer_ok in Hok. rewrite Epc in Hok. destruct Hok as [Hlt Hbuf].
    rewrite Et in Hbuf. cbn in Hbuf.
    pose proof (iv_w _ H) as Ew. unfold small in Hs. cbn in Hs. rewrite length_app in Hs. cbn in Hs.
    destruct H. split; cbn; rewrite ?length_app; cbn; try done.
    + rewrite Ew, i32_id; lia.
    + lia.
    + rewrite take_app_le by lia. done.
    + intros k Hk. destruct (decide (k = length (put s))) as [->|Hne].
      * rewrite app_nth2, Nat.sub_diag by lia. cbn. by rewrite <- Ew.
      * rewrite app_nth1 by lia. apply iv_buf0. lia.
    + unfold reader_ok in *. cbn. unfold writer_gone in *. cbn. rewrite Epc in iv_reader0. rewrite ?length_app. cbn.
      destruct (r_pc (reader s)) as [| |[| | |? []]| | | | |]; try done; [by destruct iv_reader0|lia|].
      destruct iv_reader0 as [? ->]. rewrite app_nth1 by lia. split; [lia|done].
    + rewrite iv_data0. unfold r_mapped, w_mapped. cbn. by rewrite Epc.
    + rewrite iv_wfd0. unfold w_open. cbn. by rewrite Epc.
    + eapply Forall_impl; [exact iv_res0|]. intros [[n v] g] [Hv Hg]. split; [done|].
      intros Hn H0. specialize (Hg Hn H0). red in Hg. congruence.
  - destruct H. split; cbn; try done.
    + unfold reader_ok in *. cbn. unfold writer_gone in *. cbn. rewrite Epc in iv_reader0.
      destruct (r_pc (reader s)) as [| |[| | |? []]| | | | |]; try done; by destruct iv_reader0.
    + rewrite iv_data0. unfold r_mapped, w_mapped. cbn. by rewrite Epc.
    + rewrite iv_wfd0. unfold w_open. cbn. by rewrite Epc.
    + eapply Forall_impl; [exact iv_res0|]. intros [[n v] g] [Hv Hg]. split; [done|].
      intros Hn H0. specialize (Hg Hn H0). red in Hg. congruence.
  - destruct H. split; cbn; try done.
    + unfold reader_ok in *. cbn. destruct (r_pc (reader s)) as [| |[| | |? []]| | | | |]; try done; by destruct iv_reader0.
    + rewrite iv_data0. unfold r_mapped, w_mapped. cbn. rewrite Epc. lia.
    + rewrite iv_wfd0. unfold w_open. cbn. by rewrite Epc.
    + eapply Forall_impl; [exact iv_res0|]. intros [[n v] g] [Hv Hg]. split; [done|]. by intros _ _.
Qed.

(** ** What the calls were for

    Where a finished call of [devpipe_write] has put the bytes of its buffer:
    all of them, or, when it returned 0, as many as had room. *)
Definition wrote (res : list Z * Z) (piece : list Z) : Prop :=
  (res.2 = len res.1 /\ piece = res.1) \/ (res.2 = 0 /\ piece `prefix_of` res.1).

(** The writer's buffers are those of its calls, in order; the bytes in the
    pipe are the ones of the finished calls and the first [i] of the current one. *)
Record wlog (data : list (list Z)) (s : st) : Prop := {
  wl_calls : map fst (w_results (writer s)) ++ w_todo (writer s) = data;
  wl_put : exists pieces, Forall2 wrote (w_results (writer s)) pieces
    /\ put s = concat pieces ++ take (Z.to_nat (w_i (writer s))) (hd [] (w_todo (writer s)));
  wl_i : 0 <= w_i (writer s) <= len (hd [] (w_todo (writer s)));
  wl_room : match w_pc (writer s) with
            | W_test | W_check _ | W_store | W_inc => w_i (writer s) < len (hd [] (w_todo (writer s)))
            | _ => True
            end
}.

(** The reader's sizes are those of its calls, and no call got more. *)
Record rlog (sizes : list Z) (s : st) : Prop := {
  rl_calls : map (fun x => x.1.1) (r_results (reader s)) ++ r_todo (reader s) = sizes;
  rl_res : Forall (fun '(n, v, g) => v <= Z.max 0 n) (r_results (reader s));
  rl_room : match r_pc (reader s) with
            | R_head => len (r_got (reader s)) <= Z.max 0 (hd 0 (r_todo (reader s)))
            | R_test | R_check _ | R_take | R_inc _ => len (r_got (reader s)) < hd 0 (r_todo (reader s))
            | _ => True
            end
}.

Lemma wlog_goto data s pc : wlog data s ->
  (match pc with W_test | W_check _ | W_store | W_inc => w_i (writer s) < len (hd [] (w_todo (writer s))) | _ => True end) ->
  wlog data (set_writer (w_goto pc (writer s)) s).
Proof. intros [H1 H2 H3 _] H. by split. Qed.

Lemma wlog_return data s l todo v piece : wlog data s -> w_todo (writer s) = l :: todo ->
  piece = take (Z.to_nat (w_i (writer s))) l -> wrote (l, v) piece ->
  wlog data (set_writer (w_return l v (writer s)) s).
Proof.
  intros [H1 (ps & H2 & E) H3 _] Et Hp Hw. rewrite Et in *. cbn [hd] in E. split; cbn; rewrite ?Et; cbn.
  - rewrite map_app, <- app_assoc. exact H1.
  - exists (ps ++ [piece]). split; [by apply Forall2_app; [|constructor]|].
    rewrite concat_app, E, <- Hp. cbn. by rewrite !app_nil_r.
  - lia.
  - done.
Qed.

Lemma writer_step_wlog data s : wlog data s -> wlog data (writer_step s).
Proof.
  intros H. pose proof H as [H1 (ps & H2 & E) H3 H4]. unfold writer_step.
  destruct (w_pc (writer s)) as [| |k| | | | |] eqn:Epc;
    try match goal with |- context [match w_todo _ with _ => _ end] => destruct (w_todo (writer s)) as [|l todo] eqn:Et end;
    try (by apply wlog_goto); try done; unfold write_step; rewrite ?Epc; cbn [hd] in *.
  - destruct (Z.ltb_spec (w_i (writer s)) (len l)); [apply wlog_goto; [done|by rewrite Et]|].
    eapply wlog_return; [done|exact Et|reflexivity|]. left. cbn. split; [lia|]. apply take_ge. lia.
  - apply wlog_goto; [done|]. rewrite Et. by destruct (_ >=? _).
  - destruct (check_step _ _ _ k) as [k'|[]]; [apply wlog_goto; [done|by rewrite Et]| |apply wlog_goto; [done|by rewrite Et]].
    eapply wlog_return; [done|exact Et|reflexivity|]. right. split; [done|]. cbn. apply prefix_take.
  - split; cbn; rewrite ?Et; [done|by exists ps|done|done].
  - split; cbn; rewrite ?Et; cbn; [done| |lia|lia]. exists ps. split; [done|].
    rewrite E, <- app_assoc. f_equal. replace (Z.to_nat (w_i (writer s) + 1)) with (S (Z.to_nat (w_i (writer s)))) by lia.
    destruct (lookup_lt_is_Some_2 l (Z.to_nat (w_i (writer s))) ltac:(lia)) as [x Hx].
    by rewrite (take_S_r _ _ _ Hx), (nth_lookup_Some _ _ _ _ Hx).
  - by split; cbn; try (exists ps).
  - by split; cbn; try (exists ps).
Qed.

Lemma rlog_goto sizes s pc : rlog sizes s ->
  (match pc with
   | R_head => False
   | R_test | R_check _ | R_take | R_inc _ => len (r_got (reader s)) < hd 0 (r_todo (reader s))
   | _ => True end) ->
  rlog sizes (set_reader (r_goto pc (reader s)) s).
Proof. intros [H1 H2 _] H. split; try done. cbn. by destruct pc. Qed.

Lemma rlog_return sizes s n todo v : rlog sizes s -> r_todo (reader s) = n :: todo -> v <= Z.max 0 n ->
  rlog sizes (set_reader (r_return n v (reader s)) s).
Proof.
  intros [H1 H2 _] Et Hv. split; cbn; rewrite ?Et; cbn; [|apply Forall_app; split; [done|by apply Forall_singleton]|lia].
  rewrite map_app, <- app_assoc. cbn. by rewrite <- Et.
Qed.

Lemma reader_step_rlog sizes s : rlog sizes s -> rlog sizes (reader_step s).
Proof.
  intros H. pose proof H as [H1 H2 H3]. unfold reader_step.
  destruct (r_pc (reader s)) as [| |k| |b| | |] eqn:Epc;
    try match goal with |- context [match r_todo _ with _ => _ end] => destruct (r_todo (reader s)) as [|n todo] eqn:Et end;
    try (by apply rlog_goto); try done; unfold read_step; rewrite ?Epc; cbn [hd] in *.
  - destruct (Z.ltb_spec (len (r_got (reader s))) n); [by apply rlog_goto; [|rewrite Et]|by eapply rlog_return].
  - destruct (_ =? _); [|by apply rlog_goto; [|rewrite Et]].
    destruct (_ >? 0); [eapply rlog_return; [done|exact Et|lia]|by apply rlog_goto; [|rewrite Et]].
  - destruct (check_step _ _ _ k) as [k'|[]]; [by apply rlog_goto; [|rewrite Et]| |by apply rlog_goto; [|rewrite Et]].
    eapply rlog_return; [done|exact Et|lia].
  - by apply rlog_goto; [|rewrite Et].
  - split; cbn; rewrite ?Et; [done|done|]. rewrite length_app. cbn. lia.
Qed.

Lemma reader_step_writer s : writer (reader_step s) = writer s.
Proof.
  unfold reader_step, read_step. destruct (r_pc (reader s)) as [| |k| | | | |] eqn:E; rewrite ?E;
    try (destruct (r_todo (reader s)); try done); try done.
  - by destruct (_ =? _).
  - by destruct (check_step _ _ _ k) as [|[]].
Qed.

Lemma writer_step_reader s : reader (writer_step s) = reader s.
Proof.
  unfold writer_step, write_step. destruct (w_pc (writer s)) as [| |k| | | | |] eqn:E; rewrite ?E;
    try (destruct (w_todo (writer s)); try done); try done.
  by destruct (check_step _ _ _ k) as [|[]].
Qed.

Lemma reader_step_put s : put (reader_step s) = put s.
Proof.
  unfold reader_step, read_step. destruct (r_pc (reader s)) as [| |k| | | | |] eqn:E; rewrite ?E;
    try (destruct (r_todo (reader s)); try done); try done.
  - by destruct (_ =? _).
  - by destruct (check_step _ _ _ k) as [|[]].
Qed.

Lemma rescheduled_same x s : reader (rescheduled x s) = reader s /\ writer (rescheduled x s) = writer s
  /\ put (rescheduled x s) = put s.
Proof. by destruct x. Qed.

Lemma wlog_same data s s' : writer s' = writer s -> put s' = put s -> wlog data s -> wlog data s'.
Proof. intros E1 E2 []. split; by rewrite ?E1, ?E2. Qed.

Lemma rlog_same sizes s s' : reader s' = reader s -> rlog sizes s -> rlog sizes s'.
Proof. intros E []. split; by rewrite ?E. Qed.

Lemma step_logs sizes data x s : rlog sizes s -> wlog data s -> rlog sizes (step x s) /\ wlog data (step x s).
Proof.
  intros Hr Hw. unfold step. set (s1 := if x.2 then _ else s).
  assert (rlog sizes s1 /\ wlog data s1) as [Hr1 Hw1].
  { subst s1. destruct (rescheduled_same x.1 s) as (E1 & E2 & E3).
    destruct x.2; [split; [by eapply rlog_same|by eapply wlog_same]|done]. }
  destruct x.1.
  - split; [by apply reader_step_rlog|]. eapply wlog_same; [apply reader_step_writer|apply reader_step_put|done].
  - split; [|by apply writer_step_wlog]. eapply rlog_same; [apply writer_step_reader|done].
Qed.

Lemma step_inv data x s : inv s -> wlog data s -> small (step x s) -> inv (step x s).
Proof.
  intros H Hw. unfold step. destruct (rescheduled_same x.1 s) as (_ & E2 & _).
  assert (inv (if x.2 then rescheduled x.1 s else s) /\ writer (if x.2 then rescheduled x.1 s else s) = writer s) as [H' E]
    by (destruct x.2; [split; [by apply rescheduled_inv|done]|done]).
  destruct x as [[|] b]; cbn [fst snd] in *.
  - intros Hs. apply reader_step_inv; [done|]. unfold small in *. by rewrite reader_step_put in Hs.
  - apply writer_step_inv; [done|]. rewrite E. apply (wl_i _ _ Hw).
Qed.

Lemma step_put_mono x s : (length (put s) <= length (put (step x s)))%nat.
Proof.
  unfold step. assert (put (if x.2 then rescheduled x.1 s else s) = put s) as E
    by (destruct x as [[|] []]; done).
  rewrite <- E. destruct x as [[|] b]; cbn [fst snd].
  - by rewrite reader_step_put.
  - set (s' := if b then rescheduled Wr s else s). unfold writer_step, write_step.
    destruct (w_pc (writer s')) as [| |k| | | | |] eqn:Ep; rewrite ?Ep; try (destruct (w_todo (writer s'))); cbn; try lia.
    + by destruct (check_step _ _ _ k) as [|[]].
    + rewrite length_app. lia.
Qed.

(** All of it after any schedule. *)
Lemma pipe_run_inv sizes data sched : small (run sched (start sizes data)) ->
  inv (run sched (start sizes data)) /\ rlog sizes (run sched (start sizes data)) /\ wlog data (run sched (start sizes data)).
Proof.
  induction sched as [|x sched IH] using rev_ind; intros Hs.
  - split; [apply start_inv|]. split; [split; cbn; [done|done|lia]|].
    split; cbn; [done|exists []; split; [done|by rewrite take_0]|lia|done].
  - unfold run in *. rewrite fold_left_app in *. cbn [fold_left] in *.
    destruct IH as (Hi & Hr & Hw).
    { unfold small in *. pose proof (step_put_mono x (fold_left (fun s x => step x s) sched (start sizes data))). lia. }
    split; [by eapply step_inv|by apply step_logs].
Qed.

(** C13: pipes are first-in first-out.  Under every interleaving of the accesses
    of a reader and a writer, while fewer than [2^31] bytes have passed (the
    positions are [int]s): the bytes that entered the pipe are those of the
    buffers passed to write, in order, all of them for a call that returned the
    size of its buffer, a prefix for one that returned 0, and the first [i] for
    the call in progress; a call returned another number than the size of its
    buffer only after the reader had closed.  The bytes the calls of read have
    stored, with those of the call in progress, are exactly the first of these
    bytes, in order; at most 32 bytes are in the pipe; every finished call of read
    returned the number of bytes it stored, at most as many as asked for, and 0,
    if some were asked for, only after the writer had closed. *)
Theorem pipe_fifo (sizes : list Z) (data : list (list Z)) (sched : list (who * bool)) :
  let s := run sched (start sizes data) in
  let r := reader s in
  let w := writer s in
  len (put s) < 2147483648 ->
  (exists pieces, Forall2 wrote (w_results w) pieces
     /\ put s = concat pieces ++ take (Z.to_nat (w_i w)) (hd [] (w_todo w)))
  /\ map fst (w_results w) ++ w_todo w = data
  /\ Forall (fun '(l, v) => v = len l \/ (v = 0 /\ reader_gone s)) (w_results w)
  /\ (exists waiting, put s = concat (map snd (r_results r)) ++ r_got r ++ waiting /\ len waiting <= PIPEBUFSIZ)
  /\ map (fun x => x.1.1) (r_results r) ++ r_todo r = sizes
  /\ Forall (fun '(n, v, g) => v = len g /\ v <= Z.max 0 n /\ (0 < n -> v = 0 -> writer_gone s)) (r_results r).
Proof.
  intros s r w Hs. destruct (pipe_run_inv sizes data sched Hs) as (Hi & [R1 R2 _] & [W1 W2 _ _]). fold s in Hi, R1, R2, W1, W2.
  destruct Hi. split; [exact W2|]. split; [exact W1|]. split; [exact iv_wres0|]. split; [|split; [exact R1|]].
  - exists (drop (length (taken s)) (put s)). subst r. rewrite app_assoc, iv_got0. split.
    + rewrite iv_fifo0 at 1. by rewrite take_drop.
    + rewrite length_drop. unfold PIPEBUFSIZ. lia.
  - apply Forall_forall. intros [[n v] g] Hin. rewrite Forall_forall in iv_res0, R2.
    destruct (iv_res0 _ Hin) as [Hv Hg]. split; [exact Hv|]. split; [exact (R2 _ Hin)|exact Hg].
Qed.

(** Two buffers pass in order, with a wake-up in between. *)
Definition two_writes : st :=
  run (repeat (Wr, false) 9 ++ repeat (Rd, true) 6 ++ repeat (Wr, false) 9 ++ repeat (Rd, false) 12) (start [1; 3] [[7; 8]; [9]]).

Lemma pipe_fifo_witness :
  w_results (writer two_writes) = [([7; 8], 2); ([9], 1)]
  /\ exists waiting, [7; 8; 9] = concat (map snd (r_results (reader two_writes))) ++ r_got (reader two_writes) ++ waiting
     /\ concat (map snd (r_results (reader two_writes))) = [7; 8; 9].
Proof.
  destruct (pipe_fifo [1; 3] [[7; 8]; [9]]
    (repeat (Wr, false) 9 ++ repeat (Rd, true) 6 ++ repeat (Wr, false) 9 ++ repeat (Rd, false) 12))
    as ((ps & Hp & _) & _ & _ & (w & E & _) & _); [vm_compute; reflexivity|].
  split; [vm_compute; reflexivity|]. exists w. split; [|vm_compute; reflexivity].
  etransitivity; [|exact E]. vm_compute. reflexivity.
Defined.

(** End of file can be reported too early.  When the writer stores its data
    and closes between the reader's test for an empty pipe and its test for a
    closed one, the reader's call returns 0 although bytes are in the pipe. *)
Theorem pipe_early_eof :
  exists sched, let s := run sched (start [1] [[7]]) in
    r_results (reader s) = [(1, 0, [])] /\ put s = [7] /\ taken s = [] /\ p_wpos s - p_rpos s = 1.
Proof.
  exists ([(Rd, false); (Rd, false)] ++ repeat (Wr, false) 9 ++ [(Rd, true); (Rd, false); (Rd, false); (Rd, false)]).
  vm_compute. done.
Qed.

End Pipe.
