(* ===== verification/Sock.v ===== *)
(** * Sockets as programs use them (lib/nsipc.c, lib/sockets.c)

    The socket device behind the descriptors of Fd.v and the calls that are not
    reads or writes.  As with files, a request is put in the page [nsipcbuf],
    sent to the network server, and parts of the reply are read back; the
    exchange, [ipc_send] and [ipc_recv] to another environment, is the parameter
    [nsrpc], about which the theorems assume only that it leaves the page table
    of the caller alone.

    The theorems: whatever the server answers, a receive stores at most the bytes
    asked for and nothing else; a send is bounded only for sizes that are not
    negative. *)

From stdpp Require Import base numbers list functions strings gmap sets.
From Stdlib Require Import ZArith Lia.
From S2P Require Import Prelude Mem Mmu Kernel Umonad Syscall Uvm Uaccess Fd Pipe.

Open Scope Z_scope.
Open Scope usr_scope.

Module Sock.

Import Syscall Uvm Uaccess Fd Pipe.

(** Requests, inc/ns.h *)
Definition NSREQ_ACCEPT : Z := 1.

Definition NSREQ_BIND : Z := 2.

Definition NSREQ_SHUTDOWN : Z := 3.

Definition NSREQ_CLOSE : Z := 4.

Definition NSREQ_CONNECT : Z := 5.

Definition NSREQ_LISTEN : Z := 6.

Definition NSREQ_RECV : Z := 7.

Definition NSREQ_SEND : Z := 8.

Definition NSREQ_SOCKET : Z := 9.

(** Offsets in [union Nsipc]: [req_s] is the first field of every request but
    [socket]; a [struct sockaddr] has 16 bytes. *)
Definition req_s : Z := 0.

Definition req_second : Z := 4.

Definition req_third : Z := 8.

Definition req_name : Z := 4.

Definition req_namelen : Z := 20.

Definition req_sendbuf : Z := 12.

Definition ret_addr : Z := 0.

Definition ret_addrlen : Z := 16.

(** [fd_sock.sockid] *)
Definition off_fd_sockid : Z := 12.

Definition O_RDWR : Z := 2.

Definition devsock_dev_id : Z := 115.

Section client.

(** The exchange with the server, and the address of [nsipcbuf]. *)
Context (nsrpc : Z -> M vm Z) (nsipcbuf : Z).

Definition nsipc (type : Z) : M vm Z := nsrpc type.

(** [nsipcbuf.X.f = x] *)
Definition set_field (off x : Z) : M vm unit := store32 (nsipcbuf + off) x.

Definition nsipc_accept (s addr addrlen : Z) : M vm Z :=
  do! set_field req_s s in
  let! len := load32 addrlen in
  do! set_field req_second len in
  let! r := nsipc NSREQ_ACCEPT in
  if r <? 0 then mret r else
  let! len := load32 (nsipcbuf + ret_addrlen) in
  do! umemmove addr (nsipcbuf + ret_addr) len in
  let! len := load32 (nsipcbuf + ret_addrlen) in
  do! store32 addrlen len in
  mret r.

Definition nsipc_bind (s name namelen : Z) : M vm Z :=
  do! set_field req_s s in
  do! umemmove (nsipcbuf + req_name) name namelen in
  do! set_field req_namelen namelen in
  nsipc NSREQ_BIND.

Definition nsipc_shutdown (s how : Z) : M vm Z :=
  do! set_field req_s s in
  do! set_field req_second how in
  nsipc NSREQ_SHUTDOWN.

Definition nsipc_close (s : Z) : M vm Z :=
  do! set_field req_s s in
  nsipc NSREQ_CLOSE.

Definition nsipc_connect (s name namelen : Z) : M vm Z :=
  do! set_field req_s s in
  do! umemmove (nsipcbuf + req_name) name namelen in
  do! set_field req_namelen namelen in
  nsipc NSREQ_CONNECT.

Definition nsipc_listen (s backlog : Z) : M vm Z :=
  do! set_field req_s s in
  do! set_field req_second backlog in
  nsipc NSREQ_LISTEN.

Definition nsipc_recv (s mem len flags : Z) : M vm Z :=
  do! set_field req_s s in
  do! set_field req_second len in
  do! set_field req_third flags in
  let! r := nsipc NSREQ_RECV in
  if r <? 0 then mret r else
  if negb ((r <? 1600) && (r <=? len)) then mpanic "assertion failed: r < 1600 && r <= len" else
  do! umemmove mem nsipcbuf r in
  mret r.

(** [size] is an [int], which [memmove] takes as a [size_t]. *)
Definition nsipc_send (s buf size flags : Z) : M vm Z :=
  do! set_field req_s s in
  if negb (size <? 1600) then mpanic "assertion failed: size < 1600" else
  do! umemmove (nsipcbuf + req_sendbuf) buf (u32 size) in
  do! set_field req_second size in
  do! set_field req_third flags in
  nsipc NSREQ_SEND.

Definition nsipc_socket (domain type protocol : Z) : M vm Z :=
  do! set_field 0 domain in
  do! set_field 4 type in
  do! set_field 8 protocol in
  nsipc NSREQ_SOCKET.

(** ** lib/sockets.c *)

(** The socket, or the error. *)
Definition fd2sockid (fd : Z) : M vm Z :=
  let! l := fd_lookup fd in
  match l with
  | inr r => mret r
  | inl sfd =>
    let! id := load32 (sfd + off_fd_dev_id) in
    if negb (i32 id =? devsock_dev_id) then mret (- E_NOT_SUPP) else
    let! s := load32 (sfd + off_fd_sockid) in
    mret (i32 s)
  end.

Definition alloc_sockfd (sockid : Z) : M vm Z :=
  let! a := fd_page in
  let '(r, sfd) := a in
  if r <? 0 then
    let! _ := nsipc_close sockid in mret r
  else
    do! store32 (sfd + off_fd_dev_id) devsock_dev_id in
    do! store32 (sfd + off_fd_omode) O_RDWR in
    do! store32 (sfd + off_fd_sockid) sockid in
    mret (fd2num sfd).

Definition accept (s addr addrlen : Z) : M vm Z :=
  let! r := fd2sockid s in
  if r <? 0 then mret r else
  let! r := nsipc_accept r addr addrlen in
  if r <? 0 then mret r else alloc_sockfd r.

Definition bind (s name namelen : Z) : M vm Z :=
  let! r := fd2sockid s in
  if r <? 0 then mret r else nsipc_bind r name namelen.

Definition shutdown (s how : Z) : M vm Z :=
  let! r := fd2sockid s in
  if r <? 0 then mret r else nsipc_shutdown r how.

Definition devsock_close (fd : Z) : M vm Z :=
  let! n := mgets (pageref fd) in
  if n =? 1 then let! s := load32 (fd + off_fd_sockid) in nsipc_close (i32 s) else mret 0.

Definition connect (s name namelen : Z) : M vm Z :=
  let! r := fd2sockid s in
  if r <? 0 then mret r else nsipc_connect r name namelen.

Definition listen (s backlog : Z) : M vm Z :=
  let! r := fd2sockid s in
  if r <? 0 then mret r else nsipc_listen r backlog.

Definition devsock_read (fd buf n : Z) : M vm Z :=
  let! s := load32 (fd + off_fd_sockid) in nsipc_recv (i32 s) buf (i32 n) 0.

Definition devsock_write (fd buf n : Z) : M vm Z :=
  let! s := load32 (fd + off_fd_sockid) in nsipc_send (i32 s) buf (i32 n) 0.

(** [strcpy(stat->st_name, "<sock>")] *)
Definition devsock_stat (fd stat : Z) : M vm Z :=
  do! ustore (stat + off_st_name) [60; 115; 111; 99; 107; 62; 0] in mret 0.

(** [devsock_addr] is the address of the structure. *)
Definition devsock (devsock_addr : Z) : Dev :=
  mkDev devsock_dev_id devsock_addr (Some devsock_read) (Some devsock_write) (Some devsock_close)
    (Some devsock_stat) None.

Definition socket (domain type protocol : Z) : M vm Z :=
  let! r := nsipc_socket domain type protocol in
  if r <? 0 then mret r else alloc_sockfd r.

(** ** Bounds *)

Section bounds.

(** [nsipcbuf] is page [v], and the caller's buffer is in page [w]; both can be
    written. *)
Context (u : vm) (v w pv pw : Z).
Context (Hbuf : nsipcbuf = v * 4096) (Hv : 0 <= v < 1048576) (Hw : 0 <= w < 1048576).
Context (Hpv : upt u !! (self u, v) = Some pv) (HUv : flag pv PTE_U = true) (HWv : flag pv PTE_W = true).
Context (Hpw : upt u !! (self u, w) = Some pw) (HUw : flag pw PTE_U = true) (HWw : flag pw PTE_W = true).

(** The same program with other contents of memory. *)
Definition same_vm (u' : vm) : Prop := upt u' = upt u /\ self u' = self u.

Lemma set_field_ok off x u' :
  same_vm u' -> 0 <= off <= 4092 -> exists m, set_field off x u' = Ok tt (set_umem m u') /\ same_vm (set_umem m u').
Proof using Hbuf Hv Hpv HUv HWv.
  intros [E1 E2] Ho. destruct (store32_at u' v pv Hv) with off x as (m & E & _); try done; [by rewrite E1, E2|].
  exists m. split; [|done]. unfold set_field. rewrite Hbuf. rewrite u32_id in E by lia. exact E.
Qed.

(** The reply is copied out, [r] bytes and no more. *)
Lemma copy_reply r o u' :
  same_vm u' -> 0 <= r <= 4096 -> 0 <= o -> o + r <= 4096 ->
  umemmove (w * 4096 + o) nsipcbuf r u'
  = Ok tt (set_umem (wrbytes (umem u') (frame pw * 4096 + o) (rdbytes (umem u') (frame pv * 4096) (Z.to_nat r))) u').
Proof using Hbuf Hv Hpv HUv Hw Hpw HUw HWw.
  intros [E1 E2] Hr Ho Hn. unfold umemmove, mbind. rewrite Hbuf.
  pose proof (uload_at u' v pv Hv) as HL. rewrite E1, E2 in HL. specialize (HL Hpv HUv (Z.to_nat r) 0 ltac:(lia) ltac:(lia)).
  rewrite !Z.add_0_r in HL. rewrite HL.
  apply (ustore_at u w pw Hw Hpw HUw HWw); [lia| |done|done].
  unfold rdbytes. rewrite length_map, length_seq. lia.
Qed.

End bounds.

(** Whatever the server answers to a receive of [len] bytes, the caller's memory
    changes only in the first [len] bytes of its buffer: an error is passed on,
    an answer that is too long stops the program, and otherwise exactly the
    bytes announced are copied. *)
Theorem nsipc_recv_bounded u v w pv pw s o len flags :
  nsipcbuf = v * 4096 -> 0 <= v < 1048576 -> 0 <= w < 1048576 ->
  upt u !! (self u, v) = Some pv -> flag pv PTE_U = true -> flag pv PTE_W = true ->
  upt u !! (self u, w) = Some pw -> flag pw PTE_U = true -> flag pw PTE_W = true ->
  0 <= o -> 0 <= len -> o + len <= 4096 ->
  exists u1, same_vm u u1 /\ forall r u2, nsrpc NSREQ_RECV u1 = Ok r u2 -> same_vm u u2 ->
    nsipc_recv s (w * 4096 + o) len flags u =
      if r <? 0 then Ok r u2
      else if (1600 <=? r) || (len <? r) then Panics "assertion failed: r < 1600 && r <= len" u2
      else Ok r (set_umem (wrbytes (umem u2) (frame pw * 4096 + o) (rdbytes (umem u2) (frame pv * 4096) (Z.to_nat r))) u2).
Proof.
  intros Hbuf Hv Hw Hpv HUv HWv Hpw HUw HWw Ho Hl Hn. unfold nsipc_recv.
  destruct (set_field_ok u v pv Hbuf Hv Hpv HUv HWv req_s s u) as (m1 & E1 & S1); [done|done|].
  destruct (set_field_ok u v pv Hbuf Hv Hpv HUv HWv req_second len _ S1) as (m2 & E2 & S2); [done|].
  destruct (set_field_ok u v pv Hbuf Hv Hpv HUv HWv req_third flags _ S2) as (m3 & E3 & S3); [done|].
  eexists. split; [exact S3|]. intros r u2 Er S. unfold mbind at 1. rewrite E1. unfold mbind at 1. rewrite E2.
  unfold mbind at 1. rewrite E3. unfold mbind at 1, nsipc. rewrite Er.
  destruct (Z.ltb_spec r 0); [done|]. destruct (Z.ltb_spec r 1600), (Z.leb_spec 1600 r); try lia; [|done].
  destruct (Z.leb_spec r len), (Z.ltb_spec len r); try lia; [|done]. cbn [andb orb negb]. unfold mbind.
  by rewrite (copy_reply u v w pv pw Hbuf Hv Hw Hpv HUv Hpw HUw HWw r o u2 S) by lia.
Qed.

(** A load that fails on the way makes the whole block fail. *)
Lemma uload_faults n : forall a k w u',
  (k < n)%nat -> load8 (u32 (a + Z.of_nat k)) u' = Undefined w u' ->
  (forall b, exists r, load8 b u' = r /\ match r with Ok _ u2 | Undefined _ u2 => u2 = u' | Panics _ _ => False end) ->
  exists w' , uload n a u' = Undefined w' u'.
Proof.
  induction n as [|n IH]; intros a k w u' Hk Hf Hall; [lia|]. cbn [uload]. unfold mbind.
  destruct k as [|k].
  - rewrite Z.add_0_r in Hf. rewrite Hf. by eexists.
  - destruct (Hall (u32 a)) as (r & Er & Hr). rewrite Er. destruct r as [b u2| |w2 u2]; [|done|subst; by eexists].
    subst u2. destruct (IH (a + 1) k w u') as (w' & ->); [lia| |done|by eexists].
    rewrite <- Hf. do 2 f_equal. lia.
Qed.

(** A negative size passes the assertion of [nsipc_send], and the copy runs
    through more than half of the address space until it faults. *)
Theorem nsipc_send_negative u v pv s buf size flags k :
  nsipcbuf = v * 4096 -> 0 <= v < 1048576 ->
  upt u !! (self u, v) = Some pv -> flag pv PTE_U = true -> flag pv PTE_W = true ->
  - 2147483648 <= size < 0 -> (k < Z.to_nat 2147483648)%nat ->
  upt u !! (self u, u32 (buf + Z.of_nat k) / 4096) = None ->
  exists w u', nsipc_send s buf size flags u = Undefined w u'.
Proof.
  intros Hbuf Hv Hpv HUv HWv Hs Hk Hnone. unfold nsipc_send.
  destruct (set_field_ok u v pv Hbuf Hv Hpv HUv HWv req_s s u) as (m1 & E1 & _); [done|done|].
  unfold mbind at 1. rewrite E1. destruct (Z.ltb_spec size 1600); [|lia]. cbn [negb]. unfold umemmove, mbind.
  destruct (uload_faults (Z.to_nat (u32 size)) buf k "page fault" (set_umem m1 u)) as (w & ->); [| | |by eexists _, _].
  - assert (2147483648 <= u32 size) by (unfold u32; zdm). lia.
  - unfold load8, paddr, PGSIZE. cbn [upt set_umem self]. by rewrite Hnone.
  - intros b. eexists. split; [done|]. unfold load8. by destruct (paddr _ _ _ _).
Qed.

End client.

End Sock.
