(* ===== verification/ConsDev.v ===== *)
(** * The console as programs use it (lib/console.c)

    The console device behind the descriptors of Fd.v.  The system calls it is
    made of are parameters: [cgetc] returns the next character or 0, [cputs]
    shows the bytes it is given, [yield] lets others run.

    The theorem: a write shows every byte of the buffer in order, in pieces of at
    most 127 bytes, except that the system call ends each piece at a zero
    byte. *)

From stdpp Require Import base numbers list functions strings gmap sets.
From Stdlib Require Import ZArith Lia.
From S2P Require Import Prelude Mem Mmu Kernel Umonad Syscall Uvm Uaccess Fd Pipe.

Open Scope Z_scope.
Open Scope usr_scope.

Module ConsDev.

Import Syscall Uvm Uaccess Fd Pipe.

Definition devcons_dev_id : Z := 99.

Definition O_RDWR : Z := 2.

(** The pieces of [devcons_write]: [sizeof(buf) - 1]. *)
Definition piece : Z := 127.

Section console.

Context (cgetc : M vm Z) (cputs : list Z -> M vm unit) (yield : M vm unit).

(** [sys_cputs(&c, 1)] *)
Definition cputchar (ch : Z) : M vm unit := cputs [u8 ch].

(** [c_addr] is the address of the local variable. *)
Definition getchar (devtab : list Dev) (c_addr : Z) : M vm Z :=
  let! r := read devtab 0 c_addr 1 in
  if r <? 0 then mret r else
  if r <? 1 then mret (- E_EOF) else
  load8 c_addr.

Definition iscons (fdnum : Z) : M vm Z :=
  let! l := fd_lookup fdnum in
  match l with
  | inr r => mret r
  | inl fd =>
    let! id := load32 (fd + off_fd_dev_id) in
    mret (if i32 id =? devcons_dev_id then 1 else 0)
  end.

Definition opencons : M vm Z :=
  let! a := fd_alloc in
  let '(r, fd) := a in
  if r <? 0 then mret r else
  let! r := sys_page_alloc 0 fd pipe_perm in
  if r <? 0 then mret r else
  do! store32 (fd + off_fd_dev_id) devcons_dev_id in
  do! store32 (fd + off_fd_omode) O_RDWR in
  mret (fd2num fd).

(** [while ((c = sys_cgetc()) == 0) sys_yield();] *)
Fixpoint key_loop (fuel : nat) : M vm Z :=
  match fuel with
  | O => mundef "nobody types"
  | S fuel =>
    let! c := cgetc in
    if c =? 0 then do! yield in key_loop fuel else mret c
  end.

Definition devcons_read (fuel : nat) (fd vbuf n : Z) : M vm Z :=
  if n =? 0 then mret 0 else
  let! c := key_loop fuel in
  if c <? 0 then mret c else
  if c =? 4 then mret 0 else
  do! store8 vbuf c in
  mret 1.

Fixpoint write_pieces (fuel : nat) (vbuf n tot : Z) : M vm Z :=
  match fuel with
  | O => mundef "devcons_write does not end"
  | S fuel =>
    if tot <? n then
      let m := n - tot in
      let m := if m >? piece then piece else m in
      let! buf := uload (Z.to_nat m) (vbuf + tot) in
      do! cputs buf in
      write_pieces fuel vbuf n (tot + m)
    else mret (i32 tot)
  end.

Definition devcons_write (fd vbuf n : Z) : M vm Z :=
  write_pieces (S (Z.to_nat ((n + 126) / piece))) vbuf n 0.

Definition devcons_close (fd : Z) : M vm Z := mret 0.

(** [strcpy(stat->st_name, "<cons>")] *)
Definition devcons_stat (fd stat : Z) : M vm Z :=
  do! ustore (stat + off_st_name) [60; 99; 111; 110; 115; 62; 0] in mret 0.

(** [devcons_addr] is the address of the structure, [fuel] how long a read
    waits. *)
Definition devcons (fuel : nat) (devcons_addr : Z) : Dev :=
  mkDev devcons_dev_id devcons_addr (Some (devcons_read fuel)) (Some devcons_write) (Some devcons_close)
    (Some devcons_stat) None.

(** ** What a write shows *)

(** What the system call shows of a piece. *)
Fixpoint until_zero (l : list Z) : list Z :=
  match l with [] => [] | b :: l => if b =? 0 then [] else b :: until_zero l end.

Fixpoint shown_pieces (fuel : nat) (l : list Z) : list Z :=
  match fuel with
  | O => []
  | S fuel => until_zero (take (Z.to_nat piece) l) ++ shown_pieces fuel (drop (Z.to_nat piece) l)
  end.

Lemma shown_none k m a : shown_pieces k (rdbytes m a 0) = [].
Proof. induction k as [|k IH]; [done|]. cbn [shown_pieces]. change (rdbytes m a 0) with (@nil Z) in *. rewrite take_nil, drop_nil. exact IH. Qed.

(** What has been shown; showing more changes nothing a program sees. *)
Context (shown : vm -> list Z).
Context (Hputs : forall l u, exists u', cputs l u = Ok tt u' /\ shown u' = shown u ++ until_zero l
                   /\ upt u' = upt u /\ self u' = self u /\ umem u' = umem u).

Lemma rdbytes_take m a n k : (k <= n)%nat -> take k (rdbytes m a n) = rdbytes m a k.
Proof.
  intros H. unfold rdbytes. rewrite <- fmap_take, take_seq. by replace (k `min` n)%nat with k by lia.
Qed.

Lemma rdbytes_drop m a n k : (k <= n)%nat -> drop k (rdbytes m a n) = rdbytes m (a + Z.of_nat k) (n - k).
Proof.
  intros H. unfold rdbytes. rewrite <- fmap_drop, drop_seq. apply list_eq. intros i.
  rewrite !list_lookup_fmap. destruct (decide (i < n - k)%nat).
  - rewrite !lookup_seq_lt by lia. cbn. do 2 f_equal. lia.
  - rewrite !lookup_seq_ge by lia. done.
Qed.

Section page.

(** The buffer is [n] bytes at offset [o] of page [w]. *)
Context (u : vm) (w pw o n : Z).
Context (Hw : 0 <= w < 1048576) (Hpw : upt u !! (self u, w) = Some pw) (HU : flag pw PTE_U = true).
Context (Ho : 0 <= o) (Hn : 0 <= n) (Hon : o + n <= 4096).

Local Abbreviation bytes tot := (rdbytes (umem u) (frame pw * 4096 + o + tot) (Z.to_nat (n - tot))).

Lemma write_pieces_shows k : forall tot u',
  upt u' = upt u -> self u' = self u -> umem u' = umem u ->
  0 <= tot <= n -> n - tot <= piece * Z.of_nat k ->
  exists u2, write_pieces (S k) (w * 4096 + o) n tot u' = Ok n u2
    /\ shown u2 = shown u' ++ shown_pieces k (bytes tot) /\ umem u2 = umem u.
Proof using Hputs Hw Hpw HU Ho Hn Hon.
  unfold piece. induction k as [|k IH]; intros tot u' E1 E2 E3 Ht Hk.
  - cbn [write_pieces]. destruct (Z.ltb_spec tot n); [lia|]. replace tot with n by lia.
    exists u'. rewrite i32_id by lia. split; [done|]. by rewrite app_nil_r.
  - remember (S k) as k' eqn:Ek. cbn [write_pieces]. rewrite Ek. destruct (Z.ltb_spec tot n) as [Hlt|].
    2: { exists u'. rewrite i32_id by lia. replace tot with n by lia. split; [done|]. split; [|done].
         replace (Z.to_nat (n - n)) with 0%nat by lia. rewrite shown_none. by rewrite app_nil_r. }
    set (m := if n - tot >? piece then piece else n - tot).
    assert (0 < m <= n - tot /\ m <= 127 /\ (m = 127 \/ m = n - tot)) as (Hm1 & Hm2 & Hm3).
    { subst m. unfold piece. destruct (Z.gtb_spec (n - tot) 127); lia. }
    pose proof (uload_at u' w pw Hw) as HL. rewrite E1, E2 in HL.
    specialize (HL Hpw HU (Z.to_nat m) (o + tot) ltac:(lia) ltac:(lia)).
    rewrite E3, !Z.add_assoc in HL. unfold mbind. rewrite HL.
    destruct (Hputs (rdbytes (umem u) (frame pw * 4096 + o + tot) (Z.to_nat m)) u') as (u2 & -> & Hs2 & F1 & F2 & F3).
    rewrite <- Ek. destruct (IH (tot + m) u2) as (u3 & E & Hs3 & Hm4); [congruence|congruence|congruence|lia|lia|].
    exists u3. split; [exact E|]. split; [|done]. rewrite Hs3, Hs2, <- app_assoc. f_equal.
    rewrite Ek. cbn [shown_pieces]. assert (take (Z.to_nat piece) (bytes tot) = rdbytes (umem u) (frame pw * 4096 + o + tot) (Z.to_nat m)) as ->.
    { destruct Hm3 as [->| ->]; [apply rdbytes_take; unfold piece; lia|]. apply take_ge.
      unfold rdbytes. rewrite length_map, length_seq. unfold piece. lia. }
    f_equal. assert (drop (Z.to_nat piece) (bytes tot) = bytes (tot + m)) as ->; [|done].
    destruct Hm3 as [->| ->].
    + rewrite rdbytes_drop by (unfold piece; lia). f_equal; unfold piece; lia.
    + rewrite drop_ge by (unfold rdbytes; rewrite length_map, length_seq; unfold piece; lia).
      by replace (Z.to_nat (n - (tot + (n - tot)))) with 0%nat by lia.
Qed.

(** A write returns the number of bytes asked for and shows the buffer piece by
    piece, each up to its first zero byte; the caller's memory stays as it was. *)
Theorem devcons_write_shows fd :
  exists u2, devcons_write fd (w * 4096 + o) n u = Ok n u2
    /\ shown u2 = shown u ++ shown_pieces (Z.to_nat ((n + 126) / 127)) (bytes 0) /\ umem u2 = umem u.
Proof using Hputs Hw Hpw HU Ho Hn Hon.
  apply write_pieces_shows; [done|done|done|lia|]. unfold piece. rewrite Z2Nat.id by (apply Z.div_pos; lia).
  pose proof (Z.div_mod (n + 126) 127 ltac:(lia)). pose proof (Z.mod_pos_bound (n + 126) 127 ltac:(lia)). lia.
Qed.

End page.

End console.

(** Without zero bytes all of it is shown. *)
Lemma until_zero_all l : Forall (fun b => b <> 0) l -> until_zero l = l.
Proof.
  induction 1 as [|b l Hb _ IH]; [done|]. cbn [until_zero]. destruct (Z.eqb_spec b 0); [done|]. by rewrite IH.
Qed.

Lemma shown_all k : forall l, Forall (fun b => b <> 0) l -> (length l <= Z.to_nat piece * k)%nat -> shown_pieces k l = l.
Proof.
  induction k as [|k IH]; intros l Hl Hk.
  - destruct l; [done|]. cbn [length] in Hk. lia.
  - cbn [shown_pieces]. rewrite until_zero_all by (by apply Forall_take).
    rewrite IH; [by rewrite take_drop|by apply Forall_drop|]. rewrite length_drop. lia.
Qed.

End ConsDev.
