(* ===== verification/Malloc.v ===== *)
(** * The user heap (lib/malloc.c)

    [malloc] hands out memory of a fixed range of addresses.  Small blocks share
    a page, with a count of references in its last word; a block of more than a
    page has the bit [PTE_CONTINUED] in the entries of all its pages but the
    last.  [mptr] is where the next block may go.

    The invariant [heap_ok] relates page table, counts and the blocks in use.
    The theorems: [malloc] and [free] keep it, a new block overlaps no other and
    may be written, blocks keep their contents, and [malloc] returns NULL only
    when there is no room; and the case in which [mptr] escapes from the heap. *)

From stdpp Require Import base numbers list functions strings gmap sets.
From Stdlib Require Import ZArith Lia.
From S2P Require Import Prelude Mem Mmu Kernel Umonad Syscall Uvm Uaccess.

Open Scope Z_scope.
Open Scope usr_scope.

Module Malloc.

Import Syscall Uvm Uaccess.

Definition MAXMALLOC : Z := 1024 * 1024.

Definition PTE_CONTINUED : Z := 512.

Definition mbegin : Z := 134217728.

Definition mend : Z := 268435456.

(** The machine and the static variable [mptr]. *)
Record hp := mkHp { hvm : vm; mptr : Z }.

Definition set_hvm (u : vm) (h : hp) : hp := mkHp u (mptr h).

Definition set_mptr (p : Z) (h : hp) : hp := mkHp (hvm h) p.

Definition on_vm {A} (m : M vm A) : M hp A := fun h =>
  match m (hvm h) with
  | Ok a u => Ok a (set_hvm u h)
  | Panics w u => Panics w (set_hvm u h)
  | Undefined w u => Undefined w (set_hvm u h)
  end.

Fixpoint isfree_loop (fuel : nat) (va end_va : Z) (u : vm) : bool :=
  if va <? end_va then
    match fuel with
    | O => false
    | S fuel =>
      if va >=? mend then false
      else if present (va / PGSIZE) u then false
      else isfree_loop fuel (u32 (va + PGSIZE)) end_va u
    end
  else true.

Definition isfree (v n : Z) (u : vm) : bool :=
  isfree_loop (Z.to_nat (n / PGSIZE + 1)) v (u32 (v + n)) u.

(** [mbegin <= c && c < mend] *)
Definition in_heap (c : Z) : bool := (mbegin <=? c) && (c <? mend).

(** Unmap the continued pages from [c] on; the page after them. *)
Fixpoint free_loop (fuel : nat) (c : Z) : M hp Z :=
  let! pte := on_vm (uvpt (c / PGSIZE)) in
  if flag pte PTE_CONTINUED then
    match fuel with
    | O => mundef "free: loop bound"
    | S fuel =>
      let! _ := on_vm (sys_page_unmap 0 c) in
      let c := u32 (c + PGSIZE) in
      if negb (in_heap c) then mpanic "assertion failed: mbegin <= c && c < mend" else free_loop fuel c
    end
  else mret c.

Definition free (v : Z) : M hp unit :=
  if v =? 0 then mret tt else
  if negb (in_heap v) then mpanic "assertion failed: mbegin <= (uint8_t* ) v && (uint8_t* ) v < mend" else
  let! c := free_loop (Z.to_nat ((mend - mbegin) / PGSIZE)) (ROUNDDOWN v PGSIZE) in
  let ref := u32 (c + PGSIZE - 4) in
  let! r := on_vm (load32 ref) in
  do! on_vm (store32 ref (u32 (r - 1))) in
  if u32 (r - 1) =? 0 then let! _ := on_vm (sys_page_unmap 0 c) in mret tt else mret tt.

(** [for (; i >= 0; i -= PGSIZE) sys_page_unmap(0, mptr + i);] *)
Fixpoint unfill (k : nat) (i : Z) : M hp unit :=
  match k with
  | O => mret tt
  | S k =>
    let! p := mgets mptr in
    let! _ := on_vm (sys_page_unmap 0 (u32 (p + i))) in
    unfill k (i - PGSIZE)
  end.

(** [for (i = 0; i < n + 4; i += PGSIZE)]: the pages of the block; the final
    value of [i], or [None] when there is no memory. *)
Fixpoint fill (k : nat) (i n : Z) : M hp (option Z) :=
  if i <? n + 4 then
    match k with
    | O => mundef "malloc: loop bound"
    | S k =>
      let cont := if i + PGSIZE <? n + 4 then PTE_CONTINUED else 0 in
      let! p := mgets mptr in
      let! r := on_vm (sys_page_alloc 0 (u32 (p + i)) (Z.lor (Z.lor (Z.lor PTE_P PTE_U) PTE_W) cont)) in
      if r <? 0 then do! unfill (Z.to_nat (i / PGSIZE) + 1) i in mret None
      else fill k (i + PGSIZE) n
    end
  else mret (Some i).

(** The search for address space; whether it was found. *)
Fixpoint scan (fuel : nat) (n nwrap : Z) : M hp bool :=
  let! p := mgets mptr in
  let! f := mgets (fun h => isfree p (u32 (n + 4)) (hvm h)) in
  if f : bool then mret true else
  match fuel with
  | O => mundef "malloc: loop bound"
  | S fuel =>
    do! mmodify (set_mptr (u32 (p + PGSIZE))) in
    if u32 (p + PGSIZE) =? mend then
      do! mmodify (set_mptr mbegin) in
      if nwrap + 1 =? 2 then mret false else scan fuel n (nwrap + 1)
    else scan fuel n nwrap
  end.

(** More iterations than there are pages. *)
Definition scan_fuel : nat := Z.to_nat 2097152.

(** A block of [n] bytes on pages of its own, from [mptr] on. *)
Definition malloc_fresh (n : Z) : M hp Z :=
  let! found := scan scan_fuel n 0 in
  if negb found then mret 0 else
  let! i := fill (Z.to_nat ((n + 4 + PGSIZE - 1) / PGSIZE)) 0 n in
  match i with
  | None => mret 0
  | Some i =>
    let! v := mgets mptr in
    do! on_vm (store32 (u32 (v + i - 4)) 2) in
    do! mmodify (set_mptr (u32 (v + n))) in
    mret v
  end.

Definition malloc (n : Z) : M hp Z :=
  do! mmodify (fun h => if mptr h =? 0 then set_mptr mbegin h else h) in
  let n := ROUNDUP n 4 in
  if n >=? MAXMALLOC then mret 0 else
  let! p := mgets mptr in
  if negb (p mod PGSIZE =? 0) then
    if p / PGSIZE =? u32 (p + n - 1 + 4) / PGSIZE then
      let ref := u32 (ROUNDUP p PGSIZE - 4) in
      let! r := on_vm (load32 ref) in
      do! on_vm (store32 ref (u32 (r + 1))) in
      do! mmodify (set_mptr (u32 (p + n))) in
      mret p
    else
      do! free p in
      do! mmodify (set_mptr (ROUNDDOWN (u32 (p + PGSIZE)) PGSIZE)) in
      malloc_fresh n
  else malloc_fresh n.

(** ** The invariant *)

(** A block: its address and its size.  Its last page holds its count. *)
Definition last_page (b : Z * Z) : Z := (b.1 + b.2 + 3) / 4096.

Definition heap_page (v : Z) : Prop := 32768 <= v < 65536.

(** The number of blocks whose count is in page [v]. *)
Definition cnt (B : list (Z * Z)) (v : Z) : Z := Z.of_nat (length (filter (fun b => last_page b = v) B)).

(** [malloc]'s own reference to the page it fills. *)
Definition cur (p v : Z) : Z := if (p mod 4096 =? 0) || negb (p / 4096 =? v) then 0 else 1.

Record block_ok (u : vm) (b : Z * Z) : Prop := {
  bo_start : mbegin <= b.1;
  bo_size : 0 <= b.2;
  bo_last : last_page b < 65536;
  bo_page : b.1 mod 4096 = 0 \/ last_page b = b.1 / 4096;
  bo_mapped : forall v, b.1 / 4096 <= v <= last_page b ->
    exists pte, upt u !! (self u, v) = Some pte /\ flag pte PTE_CONTINUED = bool_decide (v < last_page b)
}.

(** The count in the last word of page [v]. *)
Definition count (u : vm) (pte : Z) : Z := rd32 (umem u) (frame pte * 4096 + 4092).

Record heap_ok (h : hp) (B : list (Z * Z)) : Prop := {
  hk_mptr : mbegin <= mptr h < mend;
  hk_pte : forall v pte, heap_page v -> upt (hvm h) !! (self (hvm h), v) = Some pte ->
    flag pte PTE_U = true /\ flag pte PTE_W = true /\ 0 <= frame pte < 1048576
    /\ (self (hvm h), v / 1024) ∈ utab (hvm h);
  hk_priv : forall v pte k pte', heap_page v -> upt (hvm h) !! (self (hvm h), v) = Some pte ->
    upt (hvm h) !! k = Some pte' -> frame pte' = frame pte -> k = (self (hvm h), v);
  hk_block : forall b, b ∈ B -> block_ok (hvm h) b;
  hk_count : forall v pte, heap_page v -> upt (hvm h) !! (self (hvm h), v) = Some pte ->
    flag pte PTE_CONTINUED = false ->
    1 <= count (hvm h) pte /\ cnt B v + cur (mptr h) v <= count (hvm h) pte <= cnt B v + 1;
  hk_cur : mptr h mod 4096 <> 0 -> exists pte, upt (hvm h) !! (self (hvm h), mptr h / 4096) = Some pte
    /\ flag pte PTE_CONTINUED = false
    /\ forall b, b ∈ B -> last_page b = mptr h / 4096 -> b.1 + b.2 <= mptr h;
  hk_disj : forall i j b c, B !! i = Some b -> B !! j = Some c -> i <> j ->
    b.1 + b.2 <= c.1 \/ c.1 + c.2 <= b.1
}.

Lemma heap_page_mptr p : mbegin <= p < mend -> heap_page (p / 4096).
Proof. unfold mbegin, mend, heap_page. intros. zdm. Qed.

Lemma block_pages u b v : block_ok u b -> b.1 / 4096 <= v <= last_page b -> heap_page v.
Proof.
  intros [H1 H2 H3 H4 H5] Hv. unfold heap_page. unfold mbegin in H1. zdm.
Qed.

(** ** free *)

(** The pages from [v] to [l] are a block's: continued up to [l]. *)
Definition chain (u : vm) (v l : Z) : Prop :=
  forall w, v <= w <= l ->
    exists pte, upt u !! (self u, w) = Some pte /\ flag pte PTE_CONTINUED = bool_decide (w < l).

(** What [free] does to a chain whose last page, of entry [pte], has count [r]. *)
Record freed (u u' : vm) (v l pte r : Z) : Prop := {
  fr_gone : forall w, v <= w < l \/ (w = l /\ r = 1) -> upt u' !! (self u, w) = None;
  fr_keep : forall k, (forall w, v <= w < l \/ (w = l /\ r = 1) -> k <> (self u, w)) ->
    upt u' !! k = upt u !! k;
  fr_mem : forall y, umem u' y = wr32 (umem u) (frame pte * 4096 + 4092) (r - 1) y;
  fr_self : self u' = self u;
  fr_utab : utab u' = utab u;
  fr_offers : offers u' = offers u
}.

Lemma page_unmap_ok u v :
  0 <= v < 977920 -> sys_page_unmap 0 (v * 4096) u = Ok 0 (set_upt (delete (self u, v) (upt u)) u).
Proof.
  intros Hv. unfold sys_page_unmap. rewrite bad_va_page by done. unfold resolve, PGSIZE. cbn [Z.eqb].
  by rewrite Z_div_mult by lia.
Qed.

Lemma in_heap_page v : heap_page v -> in_heap (v * 4096) = true.
Proof. unfold heap_page, in_heap, mbegin, mend. intros. repeat bcase. Qed.

(** The loop drops the continued pages. *)
Lemma free_loop_ok fuel : forall h v l,
  heap_page v -> heap_page l -> v <= l -> chain (hvm h) v l ->
  (forall w, v <= w <= l -> (self (hvm h), w / 1024) ∈ utab (hvm h)) -> l - v <= Z.of_nat fuel ->
  exists t, free_loop fuel (v * 4096) h = Ok (l * 4096) (set_hvm (set_upt t (hvm h)) h)
    /\ (forall w, v <= w < l -> t !! (self (hvm h), w) = None)
    /\ (forall k, (forall w, v <= w < l -> k <> (self (hvm h), w)) -> t !! k = upt (hvm h) !! k).
Proof.
  induction fuel as [|fuel IH]; intros h v l Hv Hl Hle Hc Ht Hf; cbn [free_loop];
    destruct (Hc v ltac:(lia)) as (pte & Hpte & Hflag);
    unfold mbind at 1, on_vm at 1, PGSIZE; rewrite Z_div_mult, uvpt_ok by (lia || apply Ht; lia);
    rewrite Hpte; cbn [default id]; rewrite Hflag;
    (destruct (bool_decide_reflect (v < l)) as [Hlt|Hge];
      [|replace l with v by lia; exists (upt (hvm h)); split; [by destruct h as [[] ?]|split; [intros; lia|done]]]).
  { lia. }
  unfold heap_page in *. unfold mbind, on_vm at 1. cbn [set_hvm hvm]. rewrite page_unmap_ok by lia.
  replace (v * 4096 + 4096) with ((v + 1) * 4096) by lia. rewrite u32_id by lia.
  rewrite in_heap_page by (unfold heap_page; lia). cbn [negb].
  destruct (IH (set_hvm (set_upt (delete (self (hvm h), v) (upt (hvm h))) (hvm h)) h) (v + 1) l)
    as (t & E & Hg & Hk); try done; try lia.
  { intros w Hw. cbn. rewrite lookup_delete_ne by (intros [=]; lia). apply Hc. lia. }
  { intros w Hw. apply Ht. lia. }
  cbn in E, Hg, Hk. exists t. split; [exact E|]. split.
  - intros w Hw. destruct (decide (w = v)) as [->|]; [|apply Hg; lia].
    rewrite Hk by (intros; intros [=]; lia). apply lookup_delete_eq.
  - intros k Hn. rewrite Hk by (intros w Hw; apply Hn; lia). apply lookup_delete_ne.
    intros <-. by apply (Hn v); [lia|].
Qed.

Lemma free_run h x l pte :
  mbegin <= x < mend -> heap_page l -> x / 4096 <= l -> chain (hvm h) (x / 4096) l ->
  (forall w, x / 4096 <= w <= l -> (self (hvm h), w / 1024) ∈ utab (hvm h)) ->
  upt (hvm h) !! (self (hvm h), l) = Some pte -> flag pte PTE_U = true -> flag pte PTE_W = true ->
  1 <= count (hvm h) pte ->
  exists u', free x h = Ok tt (set_hvm u' h) /\ freed (hvm h) u' (x / 4096) l pte (count (hvm h) pte).
Proof.
  intros Hx Hl Hle Hc Ht Hpte HU HW Hr. pose proof (heap_page_mptr x Hx) as Hv. set (v := x / 4096) in *.
  pose proof (rd32_range (umem (hvm h)) (frame pte * 4096 + 4092)) as Hrange. fold (count (hvm h) pte) in Hrange.
  assert (heap_page l -> 0 <= l < 977920 /\ 0 <= l < 1048576) as Hlr by (unfold heap_page; lia).
  destruct (Hlr Hl) as [Hl1 Hl2]. unfold free. destruct (Z.eqb_spec x 0); [unfold mbegin in Hx; lia|].
  assert (in_heap x = true) as -> by (unfold in_heap; repeat bcase). cbn [negb].
  unfold PGSIZE. rewrite ROUNDDOWN_page by (unfold mbegin, mend in Hx; lia). fold v. rewrite (Z.mul_comm 4096 v).
  destruct (free_loop_ok (Z.to_nat ((mend - mbegin) / 4096)) h v l Hv Hl Hle Hc Ht) as (t & E & Hg & Hk).
  { unfold heap_page in *. rewrite Z2Nat.id; change ((mend - mbegin) / 4096) with 32768; lia. }
  unfold mbind. rewrite E. set (h1 := set_hvm (set_upt t (hvm h)) h).
  assert (upt (hvm h1) !! (self (hvm h1), l) = Some pte) as Hpte1.
  { cbn. rewrite Hk; [done|]. intros w Hw [=]. lia. }
  replace (l * 4096 + 4096 - 4) with (l * 4096 + 4092) by lia. unfold on_vm at 1.
  rewrite (load32_at (hvm h1) l pte Hl2 Hpte1 HU 4092) by lia.
  change (rd32 (umem (hvm h1)) (frame pte * 4096 + 4092)) with (count (hvm h) pte).
  destruct (store32_at (hvm h1) l pte Hl2 Hpte1 HU HW 4092 (u32 (count (hvm h) pte - 1))) as (m & Em & Hm); [lia|].
  unfold on_vm at 1. cbn [set_hvm hvm]. rewrite Em. rewrite (u32_id (count (hvm h) pte - 1)) in * by lia.
  destruct (Z.eqb_spec (count (hvm h) pte - 1) 0) as [E1|E1].
  - unfold on_vm. cbn [set_hvm hvm]. rewrite page_unmap_ok by done. eexists. split; [reflexivity|].
    split; cbn; try done.
    + intros w [Hw|[-> _]]; [|apply lookup_delete_eq]. rewrite lookup_delete_ne by (intros [=]; lia). by apply Hg.
    + intros k Hn. rewrite lookup_delete_ne by (apply not_eq_sym, Hn; lia). apply Hk. intros w Hw. apply Hn. lia.
  - eexists. split; [reflexivity|]. split; cbn; try done.
    + intros w [Hw|[_ ?]]; [by apply Hg|lia].
    + intros k Hn. apply Hk. intros w Hw. apply Hn. lia.
Qed.

(** ** What programs see *)

(** The addresses a call of [free] or [malloc] leaves alone: those of other
    environments, those outside the heap, and the blocks in use. *)
Definition visible (u : vm) (B : list (Z * Z)) (e a : Z) : Prop :=
  e <> self u \/ ~ heap_page (a / 4096) \/ exists b, b ∈ B /\ b.1 <= a < b.1 + b.2.

Definition kept (u u' : vm) (B : list (Z * Z)) : Prop :=
  forall e a, visible u B e a -> sees u' e a = sees u e a.

(** Bytes of a block: their page is one of the block's, and they are not the
    count. *)
Lemma block_byte u b a :
  block_ok u b -> b.1 <= a < b.1 + b.2 ->
  b.1 / 4096 <= a / 4096 <= last_page b /\ (a / 4096 = last_page b -> a mod 4096 < 4092).
Proof. intros H Ha. unfold last_page. split; [zdm|]. intros E. zdm. Qed.

(** Storing a new count in page [v] changes no other byte of a mapped page. *)
Lemma count_byte h B m x v pte k pte' o :
  heap_ok h B -> heap_page v -> upt (hvm h) !! (self (hvm h), v) = Some pte ->
  (forall y, m y = wr32 (umem (hvm h)) (frame pte * 4096 + 4092) x y) ->
  upt (hvm h) !! k = Some pte' -> 0 <= o < 4096 -> k <> (self (hvm h), v) \/ o < 4092 ->
  m (frame pte' * 4096 + o) = umem (hvm h) (frame pte' * 4096 + o).
Proof.
  intros H Hv Hpte Hm Hk Ho Hne. rewrite Hm. apply wr32_out.
  destruct (decide (frame pte' = frame pte)) as [E|E]; [|lia].
  pose proof (hk_priv _ _ H v pte k pte' Hv Hpte Hk E). destruct Hne; [done|]. rewrite E. lia.
Qed.

Section free.

Context (h : hp) (B : list (Z * Z)) (u' : vm) (v l pte : Z).
Context (H : heap_ok h B) (Hv : heap_page v) (Hl : heap_page l) (Hle : v <= l).
Context (Hc : chain (hvm h) v l) (Hpte : upt (hvm h) !! (self (hvm h), l) = Some pte).
Context (Hnc : flag pte PTE_CONTINUED = false).
Context (F : freed (hvm h) u' v l pte (count (hvm h) pte)).

Let u := hvm h.

(** The count changes and no other byte of a mapped page. *)
Lemma freed_byte k pte' o :
  upt u !! k = Some pte' -> 0 <= o < 4096 -> k <> (self u, l) \/ o < 4092 ->
  umem u' (frame pte' * 4096 + o) = umem u (frame pte' * 4096 + o).
Proof using H F Hl Hpte.
  intros Hk Ho Hne. by apply (count_byte h B _ _ l pte k pte' o H Hl Hpte (fr_mem _ _ _ _ _ _ F)).
Qed.

Lemma freed_count k pte' : upt u !! k = Some pte' -> k <> (self u, l) -> count u' pte' = count u pte'.
Proof using H F Hl Hpte.
  intros Hk Hne. unfold count. apply rd32_ext. intros y Hy.
  replace y with (frame pte' * 4096 + (y - frame pte' * 4096)) by lia. apply (freed_byte k); [done|lia|by left].
Qed.

(** A page that still has an entry has the one it had. *)
Lemma freed_entry k pte' : upt u' !! k = Some pte' -> upt u !! k = Some pte'.
Proof using F.
  intros Hk. destruct k as [e w].
  destruct (decide (e = self u /\ (v <= w < l \/ w = l /\ count u pte = 1))) as [[-> Hw]|E].
  - by rewrite (fr_gone _ _ _ _ _ _ F) in Hk.
  - rewrite <- Hk. symmetry. apply (fr_keep _ _ _ _ _ _ F). intros w' Hw [=-> ->]. by apply E.
Qed.

(** The blocks [B'] that are left, and the new [mptr]. *)
Context (B' : list (Z * Z)) (p' : Z).
Context (Hp' : mbegin <= p' < mend) (Hcur : p' mod 4096 <> 0 -> p' = mptr h).
Context (Hsub : forall b, b ∈ B' -> b ∈ B).
Context (Hdisj : forall i j b c, B' !! i = Some b -> B' !! j = Some c -> i <> j ->
  b.1 + b.2 <= c.1 \/ c.1 + c.2 <= b.1).
Context (Hcnt : forall w, w <> l -> cnt B' w = cnt B w /\ cur p' w <= cur (mptr h) w).
Context (Hcnt_l : cnt B l <= cnt B' l + 1 /\ cnt B' l + cur p' l + 1 <= cnt B l + cur (mptr h) l).
Context (Hchain : forall b w, b ∈ B' -> b.1 / 4096 <= w <= last_page b -> ~ (v <= w < l)).

Lemma cnt_elem b B0 : b ∈ B0 -> 1 <= cnt B0 (last_page b).
Proof using.
  intros Hb. unfold cnt. assert (b ∈ filter (fun c => last_page c = last_page b) B0) as Hf
    by (by apply list_elem_of_filter).
  destruct (filter _ B0); [by apply elem_of_nil in Hf|cbn; lia].
Qed.

(** The pages of the blocks that are left stay. *)
Lemma freed_stays b w : b ∈ B' -> b.1 / 4096 <= w <= last_page b -> upt u' !! (self u, w) = upt u !! (self u, w).
Proof using H F Hl Hpte Hnc Hsub Hchain Hcnt_l.
  intros Hb Hw. apply (fr_keep _ _ _ _ _ _ F). intros w' Hw' [= <-].
  destruct Hw' as [?|[-> Hr]]; [by apply (Hchain b w)|].
  destruct (bo_mapped _ _ (hk_block _ _ H b (Hsub b Hb)) l Hw) as (pte1 & E1 & Hf1). rewrite Hpte in E1.
  injection E1 as <-. rewrite Hnc in Hf1. symmetry in Hf1. apply bool_decide_eq_false in Hf1.
  assert (last_page b = l) as El by lia. pose proof (cnt_elem b B' Hb) as H1. rewrite El in H1.
  destruct (hk_count _ _ H l pte Hl Hpte Hnc) as [_ [Hlo _]].
  assert (0 <= cur p' l) by (unfold cur; destruct (_ || _); lia). unfold u in *. lia.
Qed.

Lemma heap_freed_ok : heap_ok (mkHp u' p') B'.
Proof using H F Hv Hl Hle Hc Hpte Hnc Hp' Hcur Hsub Hdisj Hcnt Hcnt_l Hchain.
  pose proof (fr_self _ _ _ _ _ _ F) as Es. split; cbn [hvm mptr]; rewrite ?Es.
  - done.
  - intros w pte1 Hw E%freed_entry. rewrite (fr_utab _ _ _ _ _ _ F). by apply (hk_pte _ _ H).
  - intros w pte1 k pte2 Hw E%freed_entry E2%freed_entry. by apply (hk_priv _ _ H w pte1 k pte2).
  - intros b Hb. pose proof (hk_block _ _ H b (Hsub b Hb)) as [B1 B2 B3 B4 B5]. split; try done.
    intros w Hw. rewrite Es. fold u. rewrite (freed_stays b w) by done. by apply B5.
  - intros w pte1 Hw E Hf. pose proof (freed_entry _ _ E) as E0.
    pose proof (hk_count _ _ H w pte1 Hw E0 Hf) as [Hn1 Hn2]. destruct (decide (w = l)) as [->|Hne].
    + unfold u in *. rewrite Hpte in E0. injection E0 as <-.
      assert (count (hvm h) pte <> 1) as Hr.
      { intros Hr. rewrite (fr_gone _ _ _ _ _ _ F) in E by (right; done). done. }
      assert (count u' pte = count (hvm h) pte - 1) as ->.
      { unfold count at 1. erewrite rd32_ext by (intros; apply (fr_mem _ _ _ _ _ _ F)).
        rewrite rd32_wr32_eq. pose proof (rd32_range (umem (hvm h)) (frame pte * 4096 + 4092)).
        unfold count in *. rewrite u32_id; lia. }
      lia.
    + rewrite (freed_count (self u, w)) by (done || congruence). destruct (Hcnt w Hne) as [-> ?]. unfold u in *. lia.
  - intros Hm. pose proof (Hcur Hm) as E. rewrite E in Hm. destruct (hk_cur _ _ H Hm) as (pte1 & E1 & Hf & Hb).
    exists pte1. split; [|split; [done|]].
    + rewrite E. rewrite <- E1. apply (fr_keep _ _ _ _ _ _ F). intros w Hw [= Ew].
      destruct Hw as [Hw|[-> Hr]].
      * destruct (Hc w ltac:(lia)) as (pte2 & E2 & Hf2). rewrite <- Ew, E1 in E2. injection E2 as <-.
        rewrite Hf in Hf2. symmetry in Hf2. apply bool_decide_eq_false in Hf2. lia.
      * assert (cur p' l = 1) as Ec.
        { unfold cur. rewrite E, Ew. destruct (Z.eqb_spec (mptr h mod 4096) 0); [done|].
          by rewrite Z.eqb_refl. }
        assert (cur (mptr h) l = 1) as Ec2 by (by rewrite <- E).
        destruct (hk_count _ _ H l pte Hl Hpte Hnc) as [_ Hn2].
        assert (0 <= cnt B' l) by (unfold cnt; lia). lia.
    + intros b Hb'. rewrite E. apply Hb. by apply Hsub.
  - done.
Qed.

Lemma freed_kept : kept u u' B'.
Proof using H F Hv Hl Hle Hc Hpte Hnc Hp' Hcur Hsub Hdisj Hcnt Hcnt_l Hchain.
  intros e a Ha. unfold sees, paddr, PGSIZE.
  assert (upt u' !! (e, a / 4096) = upt u !! (e, a / 4096)
    /\ ((e, a / 4096) = (self u, l) -> a mod 4096 < 4092)) as [-> Hn].
  { destruct Ha as [Ha|[Ha|(b & Hb & Ha)]].
    - split; [|congruence]. apply (fr_keep _ _ _ _ _ _ F). intros w _ [=]. done.
    - split; [|by intros [= _ <-]]. apply (fr_keep _ _ _ _ _ _ F). intros w Hw [= _ <-].
      apply Ha. unfold heap_page in *. lia.
    - pose proof (block_byte _ _ _ (hk_block _ _ H b (Hsub b Hb)) Ha) as [Hp Hq].
      destruct (decide (e = self u)) as [->|Hne].
      + split; [by apply (freed_stays b)|]. intros [= El]. rewrite El in *.
        destruct (bo_mapped _ _ (hk_block _ _ H b (Hsub b Hb)) l Hp) as (pte1 & E1 & Hf1). rewrite Hpte in E1.
        injection E1 as <-. rewrite Hnc in Hf1. symmetry in Hf1. apply bool_decide_eq_false in Hf1. apply Hq. lia.
      + split; [|congruence]. apply (fr_keep _ _ _ _ _ _ F). intros w _ [=]. done. }
  destruct (upt u !! (e, a / 4096)) as [pte1|] eqn:E1; [|done]. destruct (_ && _); [|done]. f_equal.
  unfold rd8. f_equal. apply (freed_byte (e, a / 4096)); [done|zdm|].
  destruct (decide ((e, a / 4096) = (self u, l))) as [Eq|]; [right; by apply Hn|by left].
Qed.

End free.

Lemma cnt_insert B1 b B2 w :
  cnt (B1 ++ b :: B2) w = cnt (B1 ++ B2) w + (if decide (last_page b = w) then 1 else 0).
Proof.
  unfold cnt. rewrite !filter_app, filter_cons, !length_app. case_decide; cbn [length]; lia.
Qed.

(** Taking an element out of a list keeps what holds of all pairs. *)
Lemma pairs_remove (R : Z * Z -> Z * Z -> Prop) (B1 : list (Z * Z)) b B2 :
  (forall i j c d, (B1 ++ b :: B2) !! i = Some c -> (B1 ++ b :: B2) !! j = Some d -> i <> j -> R c d) ->
  (forall i j c d, (B1 ++ B2) !! i = Some c -> (B1 ++ B2) !! j = Some d -> i <> j -> R c d)
  /\ (forall c, c ∈ B1 ++ B2 -> R b c).
Proof.
  intros H. set (up := fun i : nat => if (i <? length B1)%nat then i else S i).
  assert (forall i c, (B1 ++ B2) !! i = Some c -> (B1 ++ b :: B2) !! (up i) = Some c) as Hup.
  { intros i c Hi. unfold up. destruct (Nat.ltb_spec i (length B1)).
    - by rewrite lookup_app_l in * by done.
    - rewrite lookup_app_r in Hi by done. rewrite lookup_app_r by lia.
      replace (S i - length B1)%nat with (S (i - length B1)) by lia. done. }
  split.
  - intros i j c d Hi Hj Hij. apply (H (up i) (up j)); [by apply Hup|by apply Hup|].
    unfold up. destruct (Nat.ltb_spec i (length B1)), (Nat.ltb_spec j (length B1)); lia.
  - intros c (i & Hi)%list_elem_of_lookup. apply (H (length B1) (up i)); [|by apply Hup|].
    + rewrite lookup_app_r, Nat.sub_diag by lia. done.
    + unfold up. destruct (Nat.ltb_spec i (length B1)); lia.
Qed.

(** Another block has no page among the continued pages of [b]. *)
Lemma chains_apart u b c w :
  block_ok u b -> block_ok u c -> b.1 + b.2 <= c.1 \/ c.1 + c.2 <= b.1 ->
  c.1 / 4096 <= w <= last_page c -> ~ (b.1 / 4096 <= w < last_page b).
Proof.
  intros Hb Hc Hd Hw Hw2. destruct (bo_mapped _ _ Hb w ltac:(lia)) as (pte & E & Hf).
  destruct (bo_mapped _ _ Hc w Hw) as (pte2 & E2 & Hf2). rewrite E in E2. injection E2 as <-.
  rewrite Hf, bool_decide_eq_true_2 in Hf2 by lia. symmetry in Hf2. apply bool_decide_eq_true in Hf2.
  destruct (bo_page _ _ Hb) as [Hb1|?]; [|lia]. destruct (bo_page _ _ Hc) as [Hc1|?]; [|lia].
  unfold last_page in *. zdm.
Qed.

(** [free] of a block in use returns, the other blocks stay in use and keep
    their contents, and so does all memory of other environments and outside the
    heap.  The pages that only the block used are unmapped: all its pages but
    the last, and the last one when its count drops to zero. *)
Theorem free_releases (h : hp) (B1 B2 : list (Z * Z)) (b : Z * Z) :
  heap_ok h (B1 ++ b :: B2) ->
  exists u', free b.1 h = Ok tt (set_hvm u' h)
    /\ heap_ok (set_hvm u' h) (B1 ++ B2) /\ kept (hvm h) u' (B1 ++ B2)
    /\ (forall w, b.1 / 4096 <= w < last_page b -> upt u' !! (self (hvm h), w) = None)
    /\ (forall pte, upt (hvm h) !! (self (hvm h), last_page b) = Some pte -> count (hvm h) pte = 1 ->
          upt u' !! (self (hvm h), last_page b) = None).
Proof.
  intros H. assert (b ∈ B1 ++ b :: B2) as Hin by (apply elem_of_app; right; left).
  pose proof (hk_block _ _ H b Hin) as Hb. pose proof Hb as [Hs Hn Hl Hp Hm].
  assert (b.1 / 4096 <= last_page b) as Hle by (unfold last_page; zdm).
  pose proof (block_pages _ _ (last_page b) Hb ltac:(lia)) as HL.
  pose proof (block_pages _ _ (b.1 / 4096) Hb ltac:(lia)) as HV.
  destruct (Hm (last_page b) ltac:(lia)) as (pte & Hpte & Hf). rewrite bool_decide_eq_false_2 in Hf by lia.
  destruct (hk_pte _ _ H _ _ HL Hpte) as (HU & HW & _). destruct (hk_count _ _ H _ _ HL Hpte Hf) as [Hc1 _].
  destruct (pairs_remove _ B1 b B2 (hk_disj _ _ H)) as [Hd Hdb].
  assert (mbegin <= b.1 < mend) as Hr by (unfold heap_page, mbegin, mend in *; split; [lia|zdm]).
  destruct (free_run h b.1 (last_page b) pte) as (u' & E & F); try done.
  { intros w Hw. destruct (Hm w Hw) as (pte2 & E2 & _). by apply (hk_pte _ _ H w pte2 (block_pages _ _ w Hb Hw)). }
  assert (forall c, c ∈ B1 ++ B2 -> c ∈ B1 ++ b :: B2) as Hsub by (intros c; rewrite !elem_of_app, elem_of_cons; tauto).
  assert (forall w, w <> last_page b -> cnt (B1 ++ B2) w = cnt (B1 ++ b :: B2) w
    /\ cur (mptr h) w <= cur (mptr h) w) as Hcnt.
  { intros w Hw. rewrite cnt_insert, decide_False by done. lia. }
  assert (cnt (B1 ++ b :: B2) (last_page b) <= cnt (B1 ++ B2) (last_page b) + 1
    /\ cnt (B1 ++ B2) (last_page b) + cur (mptr h) (last_page b) + 1
       <= cnt (B1 ++ b :: B2) (last_page b) + cur (mptr h) (last_page b)) as Hcl.
  { rewrite cnt_insert, decide_True by done. lia. }
  assert (forall c w, c ∈ B1 ++ B2 -> c.1 / 4096 <= w <= last_page c -> ~ (b.1 / 4096 <= w < last_page b)) as Hch.
  { intros c w Hcin Hw. apply (chains_apart (hvm h) b c); try done; [by apply (hk_block _ _ H), Hsub|by apply Hdb]. }
  exists u'. split; [done|]. split; [|split; [|split]].
  - apply (heap_freed_ok h (B1 ++ b :: B2) u' (b.1 / 4096) (last_page b) pte); try done. apply H.
  - apply (freed_kept h (B1 ++ b :: B2) u' (b.1 / 4096) (last_page b) pte H HV HL Hle Hm Hpte Hf F _ (mptr h)); try done. apply H.
  - intros w Hw. apply (fr_gone _ _ _ _ _ _ F). by left.
  - intros pte2 E2 H1. rewrite Hpte in E2. injection E2 as <-. apply (fr_gone _ _ _ _ _ _ F). by right.
Qed.

(** The reference of [malloc] itself is dropped. *)
Lemma free_mptr h B :
  heap_ok h B -> mptr h mod 4096 <> 0 -> mptr h / 4096 < 65535 ->
  exists u', free (mptr h) h = Ok tt (set_hvm u' h)
    /\ heap_ok (mkHp u' ((mptr h / 4096 + 1) * 4096)) B /\ kept (hvm h) u' B
    /\ (forall k pte, upt u' !! k = Some pte -> upt (hvm h) !! k = Some pte)
    /\ self u' = self (hvm h) /\ offers u' = offers (hvm h).
Proof.
  intros H Hm Hlast. pose proof (hk_mptr _ _ H) as Hr. pose proof (heap_page_mptr _ Hr) as HV.
  destruct (hk_cur _ _ H Hm) as (pte & Hpte & Hf & _).
  destruct (hk_pte _ _ H _ _ HV Hpte) as (HU & HW & _ & Ht). destruct (hk_count _ _ H _ _ HV Hpte Hf) as [Hc1 Hc2].
  assert (chain (hvm h) (mptr h / 4096) (mptr h / 4096)) as Hch.
  { intros w Hw. replace w with (mptr h / 4096) by lia. exists pte. split; [done|].
    by rewrite bool_decide_eq_false_2 by lia. }
  destruct (free_run h (mptr h) (mptr h / 4096) pte) as (u' & E & F); try done.
  { intros w Hw. by replace w with (mptr h / 4096) by lia. }
  set (p' := (mptr h / 4096 + 1) * 4096).
  assert (mbegin <= p' < mend) as Hp' by (unfold heap_page, p', mbegin, mend in *; lia).
  assert (p' mod 4096 = 0) as Ha by (apply Z_mod_mult).
  assert (forall w, cur p' w = 0) as Hcur by (intros w; unfold cur; by rewrite Ha).
  assert (forall w, 0 <= cur (mptr h) w) as Hge by (intros w; unfold cur; destruct (_ || _); lia).
  assert (cur (mptr h) (mptr h / 4096) = 1) as Hc.
  { unfold cur. destruct (Z.eqb_spec (mptr h mod 4096) 0); [done|]. by rewrite Z.eqb_refl. }
  exists u'. split; [done|]. split; [|split; [|split; [|split]]].
  - apply (heap_freed_ok h B u' (mptr h / 4096) (mptr h / 4096) pte); try done; try lia.
    + apply H.
    + intros w _. rewrite Hcur. split; [done|apply Hge].
    + rewrite Hcur, Hc. lia.
  - apply (freed_kept h B u' (mptr h / 4096) (mptr h / 4096) pte H HV HV ltac:(lia) Hch Hpte Hf F B p'); try done; try lia.
    + apply H.
    + intros w _. rewrite Hcur. split; [done|apply Hge].
    + rewrite Hcur, Hc. lia.
  - intros k pte2. apply (freed_entry h u' (mptr h / 4096) (mptr h / 4096) pte F).
  - apply F.
  - apply F.
Qed.

(** ** malloc *)

(** The count of page [v] becomes [x]. *)
Lemma count_store h v pte x :
  heap_page v -> upt (hvm h) !! (self (hvm h), v) = Some pte -> flag pte PTE_U = true ->
  flag pte PTE_W = true ->
  exists m, store32 (u32 (v * 4096 + 4092)) x (hvm h) = Ok tt (set_umem m (hvm h))
    /\ forall y, m y = wr32 (umem (hvm h)) (frame pte * 4096 + 4092) x y.
Proof.
  intros Hv Hpte HU HW. unfold heap_page in Hv. apply (store32_at _ v pte); try done; lia.
Qed.

(** A new block in front of the blocks in use. *)
Lemma disj_cons b B :
  (forall c, c ∈ B -> b.1 + b.2 <= c.1 \/ c.1 + c.2 <= b.1) ->
  (forall i j c d, B !! i = Some c -> B !! j = Some d -> i <> j -> c.1 + c.2 <= d.1 \/ d.1 + d.2 <= c.1) ->
  forall i j c d, (b :: B) !! i = Some c -> (b :: B) !! j = Some d -> i <> j ->
    c.1 + c.2 <= d.1 \/ d.1 + d.2 <= c.1.
Proof.
  intros Hb HB [|i] [|j] c d Hi Hj Hij; cbn in Hi, Hj; try done.
  - injection Hi as <-. by apply Hb, (list_elem_of_lookup_2 _ j).
  - injection Hj as <-. apply or_comm. by apply Hb, (list_elem_of_lookup_2 _ i).
  - apply (HB i j c d Hi Hj). congruence.
Qed.

Lemma cnt_le B w : cnt B w <= Z.of_nat (length B).
Proof. unfold cnt. pose proof (length_filter (fun b => last_page b = w) B). lia. Qed.

(** Room in the page that [malloc] fills. *)
Section bump.

Context (h : hp) (B : list (Z * Z)) (n pte : Z) (m : mem).
Context (H : heap_ok h B) (Hn : 0 <= n) (HB : Z.of_nat (length B) < 4294967290).
Context (Hm : mptr h mod 4096 <> 0) (Hfit : mptr h / 4096 = (mptr h + n + 3) / 4096).
Context (Hpte : upt (hvm h) !! (self (hvm h), mptr h / 4096) = Some pte).
Context (Hnc : flag pte PTE_CONTINUED = false).
Context (Hmem : forall y, m y = wr32 (umem (hvm h)) (frame pte * 4096 + 4092) (count (hvm h) pte + 1) y).

Let p := mptr h.
Let u1 := set_umem m (hvm h).

(** The page holds no byte of a block beyond [mptr]. *)
Lemma bump_apart c : c ∈ B -> p + n <= c.1 \/ c.1 + c.2 <= p.
Proof using H Hn Hm Hfit Hpte Hnc.
  intros Hc. pose proof (hk_block _ _ H c Hc) as Hb. pose proof Hb as [C1 C2 C3 C4 C5].
  destruct (hk_cur _ _ H Hm) as (pte1 & E1 & _ & Hle). fold p in E1, Hle, Hpte, Hfit.
  destruct (decide (last_page c = p / 4096)) as [E|E]; [right; by apply Hle|].
  destruct (decide (c.1 / 4096 <= p / 4096 <= last_page c)) as [Hin|Hout].
  - destruct (C5 _ Hin) as (pte2 & E2 & Hf). rewrite Hpte in E2. injection E2 as <-. rewrite Hnc in Hf.
    symmetry in Hf. apply bool_decide_eq_false in Hf. lia.
  - unfold last_page in *. destruct (decide (p / 4096 < c.1 / 4096)); [left|right]; zdm.
Qed.

Lemma bump_ok : heap_ok (mkHp u1 (p + n)) ((p, n) :: B).
Proof using H Hn HB Hm Hfit Hpte Hnc Hmem.
  pose proof (hk_mptr _ _ H) as Hr. fold p in Hr. pose proof (heap_page_mptr _ Hr) as HV.
  destruct (hk_count _ _ H _ _ HV Hpte Hnc) as [Hc1 Hc2]. fold p in Hc2, Hfit, Hm, Hpte.
  pose proof (cnt_le B (p / 4096)) as Hle.
  assert ((p + n) / 4096 = p / 4096) as Epage by zdm. assert ((p + n) mod 4096 <> 0) as Hun by zdm.
  assert (last_page (p, n) = p / 4096) as El by (unfold last_page; cbn; lia).
  assert (forall w, cnt ((p, n) :: B) w = cnt B w + (if decide (p / 4096 = w) then 1 else 0)) as Hcnt.
  { intros w. rewrite <- El. apply (cnt_insert [] (p, n) B). }
  assert (forall w, cur (p + n) w = cur p w) as Hcur.
  { intros w. unfold cur. rewrite Epage. by destruct (Z.eqb_spec ((p + n) mod 4096) 0), (Z.eqb_spec (p mod 4096) 0). }
  split; cbn [hvm mptr u1 upt self utab set_umem].
  - unfold heap_page, mbegin, mend in *. zdm.
  - apply H.
  - apply H.
  - intros b [->|Hb]%elem_of_cons; [|by destruct (hk_block _ _ H b Hb)]. split; cbn [fst snd].
    + apply Hr.
    + done.
    + rewrite El. apply HV.
    + by right.
    + intros w Hw. replace w with (p / 4096) by lia. exists pte. split; [done|].
      by rewrite bool_decide_eq_false_2 by lia.
  - intros w pte1 Hw E Hf. rewrite Hcnt, Hcur. destruct (decide (p / 4096 = w)) as [<-|Hne].
    + rewrite Hpte in E. injection E as <-.
      assert (count u1 pte = count (hvm h) pte + 1) as Ec; [|fold u1; rewrite Ec; lia].
      unfold count at 1. cbn [u1 umem set_umem]. erewrite rd32_ext by (intros; apply Hmem).
      rewrite rd32_wr32_eq, u32_id by lia. done.
    + assert (count u1 pte1 = count (hvm h) pte1) as Ec; [|fold u1; rewrite Ec; destruct (hk_count _ _ H _ _ Hw E Hf) as [Hd1 Hd2]; fold p in Hd2; lia].
      unfold count. apply rd32_ext. intros y Hy.
      replace y with (frame pte1 * 4096 + (y - frame pte1 * 4096)) by lia.
      apply (count_byte h B m (count (hvm h) pte + 1) (p / 4096) pte (self (hvm h), w)); try done; [lia|left; congruence].
  - intros _. rewrite Epage. exists pte. split; [done|]. split; [done|].
    intros b [->|Hb]%elem_of_cons E; [cbn; lia|]. destruct (hk_cur _ _ H Hm) as (_ & _ & _ & Hlt).
    fold p in Hlt. specialize (Hlt b Hb E). lia.
  - apply disj_cons; [intros c Hc; by apply bump_apart|apply H].
Qed.

Lemma bump_kept : kept (hvm h) u1 B.
Proof using H Hn Hm Hfit Hpte Hnc Hmem.
  pose proof (heap_page_mptr _ (hk_mptr _ _ H)) as HV. fold p in Hpte, HV.
  intros e a Ha. unfold sees, paddr, PGSIZE. cbn [u1 upt umem set_umem].
  destruct (upt (hvm h) !! (e, a / 4096)) as [pte1|] eqn:E1; [|done]. destruct (_ && _); [|done]. f_equal.
  unfold rd8. f_equal.
  apply (count_byte h B m (count (hvm h) pte + 1) (p / 4096) pte (e, a / 4096)); try done; [zdm|].
  destruct (decide ((e, a / 4096) = (self (hvm h), p / 4096))) as [[= -> Ep]|]; [right|by left].
  destruct Ha as [Ha|[Ha|(b & Hb & Ha)]]; [done|rewrite Ep in Ha; done|].
  pose proof (block_byte _ _ _ (hk_block _ _ H b Hb) Ha) as [Hp Hq]. rewrite Ep in *.
  destruct (bo_mapped _ _ (hk_block _ _ H b Hb) _ Hp) as (pte2 & E2 & Hf). rewrite Hpte in E2.
  injection E2 as <-. rewrite Hnc in Hf. symmetry in Hf. apply bool_decide_eq_false in Hf. apply Hq. lia.
Qed.

End bump.

(** *** The search *)

(** The pages of a block of [n] bytes and its count. *)
Definition npg (n : Z) : Z := (n + 4 + 4095) / 4096.

(** [k] pages from [v] on lie in the heap and are not mapped. *)
Definition run_free (u : vm) (v k : Z) : Prop :=
  v + k <= 65536 /\ forall w, v <= w < v + k -> upt u !! (self u, w) = None.

Lemma isfree_loop_iff u fuel : forall v stop,
  0 <= v <= 65536 -> stop < 4294967296 -> stop - v * 4096 <= 4096 * Z.of_nat fuel ->
  isfree_loop fuel (v * 4096) stop u = true
  <-> forall w, v <= w -> w * 4096 < stop -> w < 65536 /\ upt u !! (self u, w) = None.
Proof.
  induction fuel as [|fuel IH]; intros v stop Hv Hs Hf; cbn [isfree_loop];
    (destruct (Z.ltb_spec (v * 4096) stop) as [Hlt|Hge]; [|split; [intros _ w Hw Hw2; lia|done]]).
  { lia. }
  rewrite Z.geb_leb. unfold mend. destruct (Z.leb_spec 268435456 (v * 4096)) as [Hm|Hm].
  { split; [done|]. intros H. destruct (H v ltac:(lia) Hlt). lia. }
  unfold PGSIZE. rewrite Z_div_mult by lia. unfold present.
  destruct (upt u !! (self u, v)) as [pte|] eqn:E.
  { split; [done|]. intros H. destruct (H v ltac:(lia) Hlt). congruence. }
  rewrite u32_id by lia. replace (v * 4096 + 4096) with ((v + 1) * 4096) by lia. rewrite IH by lia. split.
  - intros H w Hw Hw2. destruct (decide (w = v)) as [->|]; [split; [lia|done]|]. apply H; lia.
  - intros H w Hw Hw2. apply H; lia.
Qed.

Lemma isfree_iff u v n :
  0 <= v < 65536 -> 0 <= n < MAXMALLOC ->
  isfree (v * 4096) (u32 (n + 4)) u = true <-> run_free u v (npg n).
Proof.
  change MAXMALLOC with 1048576. intros Hv Hn. unfold isfree, PGSIZE. rewrite (u32_id (n + 4)) by lia.
  rewrite u32_id by lia.
  rewrite isfree_loop_iff; [|lia|lia|rewrite Z2Nat.id by zdm; zdm].
  unfold run_free, npg. split.
  - intros H. split.
    + destruct (H (v + (n + 4 + 4095) / 4096 - 1)); zdm.
    + intros w Hw. apply H; zdm.
  - intros [H1 H2] w Hw Hw2. split; [zdm|]. apply H2. zdm.
Qed.

Lemma scan_ok n fuel : forall v nwrap h,
  0 <= n < MAXMALLOC -> heap_page v -> nwrap = 0 \/ nwrap = 1 ->
  65536 - v + (1 - nwrap) * 32768 <= Z.of_nat fuel -> mptr h = v * 4096 ->
  (exists v', heap_page v' /\ run_free (hvm h) v' (npg n)
     /\ scan fuel n nwrap h = Ok true (set_mptr (v' * 4096) h))
  \/ (scan fuel n nwrap h = Ok false (set_mptr mbegin h)
      /\ forall w, (if nwrap =? 0 then 32768 else v) <= w < 65536 -> ~ run_free (hvm h) w (npg n)).
Proof.
  induction fuel as [|fuel IH]; intros v nwrap h Hn Hv Hw Hf Hp.
  { unfold heap_page in Hv. lia. }
  cbn [scan]. unfold mbind, mgets. rewrite Hp. unfold heap_page in Hv.
  destruct (isfree (v * 4096) (u32 (n + 4)) (hvm h)) eqn:Ef.
  { left. exists v. split; [done|]. split; [by apply isfree_iff in Ef; [|lia|]|]. rewrite <- Hp. by destruct h. }
  assert (~ run_free (hvm h) v (npg n)) as Hno by (intros Hr; apply isfree_iff in Hr; [congruence|lia|done]).
  unfold mmodify, PGSIZE. rewrite (u32_id (v * 4096 + 4096)) by lia.
  replace (v * 4096 + 4096) with ((v + 1) * 4096) by lia. unfold mend.
  destruct (Z.eqb_spec ((v + 1) * 4096) 268435456) as [He|He].
  - destruct Hw as [->| ->]; cbn [Z.eqb Z.add Pos.add Pos.eqb Pos.succ].
    + destruct (IH 32768 1 (set_mptr mbegin (set_mptr ((v + 1) * 4096) h)))
        as [(v' & H1 & H2 & H3)|[H1 H2]]; [done|unfold heap_page; lia|by right|lia|done| |].
      * left. exists v'. done.
      * right. split; [done|]. intros w Hw. apply (H2 w Hw).
    + right. split; [done|]. intros w Hw. by replace w with v by lia.
  - destruct (IH (v + 1) nwrap (set_mptr ((v + 1) * 4096) h)) as [(v' & H1 & H2 & H3)|[H1 H2]];
      [done|unfold heap_page; lia|done|lia|done| |].
    + left. exists v'. done.
    + right. split; [done|]. intros w Hw'. destruct (Z.eqb_spec nwrap 0); [by apply (H2 w)|].
      destruct (decide (w = v)) as [->|]; [done|]. apply (H2 w). lia.
Qed.

(** *** The pages of a new block *)

Definition perm_at (n i : Z) : Z :=
  Z.lor (Z.lor (Z.lor PTE_P PTE_U) PTE_W) (if i + PGSIZE <? n + 4 then PTE_CONTINUED else 0).

Lemma perm_at_ok n i p :
  0 <= p < 1048576 ->
  bad_perm (perm_at n i) = false /\ frame (entry p (perm_at n i)) = p
  /\ flag (entry p (perm_at n i)) PTE_U = true /\ flag (entry p (perm_at n i)) PTE_W = true
  /\ flag (entry p (perm_at n i)) PTE_CONTINUED = (i + 4096 <? n + 4).
Proof.
  intros Hp. unfold perm_at, PGSIZE. rewrite !entry_flag by done.
  destruct (i + 4096 <? n + 4); (split; [done|split; [by apply entry_frame|done]]).
Qed.

(** [u'] is [u] with the first [j] pages of a block of [n] bytes at page [v]. *)
Record grown (u u' : vm) (v j n : Z) : Prop := {
  gw_keep : forall k, (forall w, v <= w < v + j -> k <> (self u, w)) -> upt u' !! k = upt u !! k;
  gw_new : forall w, v <= w < v + j -> exists p,
    upt u' !! (self u, w) = Some (entry p (perm_at n ((w - v) * 4096))) /\ 0 <= p < 1048576 /\ uref u p = 0;
  gw_priv : forall w pte k pte', v <= w < v + j -> upt u' !! (self u, w) = Some pte ->
    upt u' !! k = Some pte' -> frame pte' = frame pte -> k = (self u, w);
  gw_mem : forall y, uref u (y / 4096) <> 0 -> umem u' y = umem u y;
  gw_self : self u' = self u;
  gw_tab : utab u ⊆ utab u' /\ forall w, v <= w < v + j -> (self u, w / 1024) ∈ utab u'
}.

Lemma grown_start u v n : grown u u v 0 n.
Proof. split; try done; intros; try lia. split; [done|]. intros; lia. Qed.

(** The kernel's answers to the next [k] requests are unused pages. *)
Definition offered (u : vm) (k : nat) : Prop :=
  exists ps rest, offers u = ps ++ rest /\ length ps = k /\ NoDup ps
    /\ forall p, p ∈ ps -> 0 <= p < 1048576 /\ uref u p = 0.

Lemma grown_step u u1 v j n :
  grown u u1 v j n -> 0 <= v -> 0 <= j -> v + j < 65536 -> run_free u v (j + 1) ->
  exists r u2, sys_page_alloc 0 ((v + j) * 4096) (perm_at n (j * 4096)) u1 = Ok r u2
    /\ ((r = 0 /\ grown u u2 v (j + 1) n /\ forall k, offered u1 (S k) -> offered u2 k)
        \/ (r < 0 /\ grown u u2 v j n /\ forall k, ~ offered u1 (S k))).
Proof.
  intros G Hv Hj Hvj [_ Hfree]. pose proof G as [G1 G2 G3 G4 G5 G6].
  destruct (perm_at_ok n (j * 4096) 0 ltac:(lia)) as [Hbp _].
  unfold sys_page_alloc. rewrite bad_va_page, Hbp by lia. unfold resolve. cbn [orb Z.eqb].
  destruct (offers u1) as [|p rest] eqn:Eo.
  { exists (- E_NO_MEM), u1. split; [done|]. right. split; [done|]. split; [done|].
    intros k (ps & rest & E & El & _). rewrite Eo in E. by destruct ps. }
  destruct ((p <? 0) || (1048576 <=? p) || negb (uref u1 p =? 0)) eqn:Eb.
  { eexists _, _. split; [reflexivity|]. right. split; [done|]. split; [by split|].
    intros k (ps & rest' & E & El & _ & Hps). rewrite Eo in E. destruct ps as [|q ps]; [done|].
    injection E as <- ->. destruct (Hps p ltac:(left)) as [Hr H0]. rewrite H0 in Eb.
    destruct (Z.ltb_spec p 0), (Z.leb_spec 1048576 p); (lia || done). }
  apply orb_false_iff in Eb as [Eb E0%negb_false_iff%Z.eqb_eq].
  apply orb_false_iff in Eb as [Ep1%Z.ltb_ge Ep2%Z.leb_gt].
  assert (forall k pte, upt u1 !! k = Some pte -> frame pte <> p) as Hfresh.
  { intros [e w] pte Hk. by apply (uref_0_fresh u1 p e w). }
  assert (forall k pte, upt u !! k = Some pte -> upt u1 !! k = Some pte) as Hmono.
  { intros k pte Hk. rewrite G1; [done|]. intros w Hw ->. rewrite Hfree in Hk by lia. done. }
  assert (uref u p = 0) as Hu0 by (apply uref_unmapped; intros e w pte Hk; by apply (Hfresh (e, w)), Hmono).
  pose proof (perm_at_ok n (j * 4096) p ltac:(lia)) as (_ & Hfr & _).
  unfold PGSIZE. rewrite Z_div_mult by lia. rewrite G5. eexists _, _. split; [reflexivity|]. left.
  split; [done|]. split; [split|].
  - intros k Hk. cbn. rewrite lookup_insert_ne by (apply not_eq_sym, Hk; lia). apply G1. intros w Hw. apply Hk. lia.
  - intros w Hw. cbn. destruct (decide (w = v + j)) as [->|].
    + rewrite lookup_insert_eq. exists p. replace (v + j - v) with j by lia. split; [done|]. split; [lia|done].
    + rewrite lookup_insert_ne by (intros [=]; lia). apply G2. lia.
  - intros w pte k pte' Hw. cbn. destruct (decide (w = v + j)) as [->|Hne].
    + rewrite lookup_insert_eq. intros [= <-]. rewrite Hfr.
      destruct (decide (k = (self u, v + j))) as [->|Hk]; [done|]. rewrite lookup_insert_ne by done.
      intros Hk' Ef. by destruct (Hfresh _ _ Hk').
    + rewrite lookup_insert_ne by (intros [=]; lia). intros Hw'.
      destruct (decide (k = (self u, v + j))) as [->|Hk].
      * rewrite lookup_insert_eq. intros [= <-]. rewrite Hfr. intros Ef. by destruct (Hfresh _ _ Hw').
      * rewrite lookup_insert_ne by done. intros Hk'. apply (G3 w pte k pte'); [lia|done|done].
  - intros y Hy. cbn. rewrite mset_out; [by apply G4|].
    destruct (decide (y / 4096 = p)) as [<-|]; [by destruct Hy|]. zdm.
  - exact G5.
  - cbn. split; [set_solver|]. intros w Hw. destruct (decide (w = v + j)) as [->|]; [set_solver|].
    apply elem_of_union. right. apply G6. lia.
  - intros k (ps & rest' & E & El & Hnd & Hps). rewrite Eo in E. destruct ps as [|q ps]; [done|].
    injection E as <- ->. apply NoDup_cons in Hnd as [Hnin Hnd]. exists ps, rest'. split; [done|].
    split; [cbn in El; lia|]. split; [done|]. intros q Hq. destruct (Hps q ltac:(by right)) as [Hr H0].
    split; [done|]. apply uref_unmapped. cbn. intros e w pte. destruct (decide ((self u, v + j) = (e, w))) as [<-|Hk].
    + rewrite lookup_insert_eq. intros [= <-]. rewrite Hfr. by intros ->.
    + rewrite lookup_insert_ne by done. by apply uref_0_fresh.
Qed.

(** The error path: the pages from [v] on are unmapped again. *)
Lemma unfill_ok k : forall h v,
  mptr h = v * 4096 -> 0 <= v -> v + Z.of_nat k <= 65536 ->
  exists t, unfill k ((Z.of_nat k - 1) * 4096) h = Ok tt (set_hvm (set_upt t (hvm h)) h)
    /\ forall key, t !! key = if decide (key.1 = self (hvm h) /\ v <= key.2 < v + Z.of_nat k)
                           then None else upt (hvm h) !! key.
Proof.
  induction k as [|k IH]; intros h v Hp Hv Hk.
  - exists (upt (hvm h)). split; [by destruct h as [[] ?]|]. intros key. rewrite decide_False by lia. done.
  - cbn [unfill]. unfold mbind, mgets, on_vm. rewrite Hp.
    replace (v * 4096 + (Z.of_nat (S k) - 1) * 4096) with ((v + Z.of_nat k) * 4096) by lia.
    rewrite u32_id by lia. rewrite page_unmap_ok by lia. unfold PGSIZE.
    replace ((Z.of_nat (S k) - 1) * 4096 - 4096) with ((Z.of_nat k - 1) * 4096) by lia.
    set (h1 := set_hvm _ h). destruct (IH h1 v Hp Hv ltac:(lia)) as (t & E & Ht). exists t.
    split; [exact E|]. intros [e w]. rewrite Ht. cbn [h1 hvm set_hvm self upt set_upt fst snd].
    destruct (decide ((self (hvm h), v + Z.of_nat k) = (e, w))) as [[= <- <-]|Hne].
    + rewrite lookup_delete_eq. repeat case_decide; (done || lia).
    + rewrite lookup_delete_ne by done. repeat case_decide; try done; [lia|].
      destruct Hne. f_equal; [naive_solver|lia].
Qed.

(** A machine that programs cannot tell from [u]: the same entries, and the same
    bytes in every page that is mapped. *)
Record same_pages (u u' : vm) : Prop := {
  sp_upt : forall k, upt u' !! k = upt u !! k;
  sp_mem : forall y, uref u (y / 4096) <> 0 -> umem u' y = umem u y;
  sp_self : self u' = self u;
  sp_tab : utab u ⊆ utab u'
}.

Lemma fill_ok u n v k : forall j h,
  0 <= n < MAXMALLOC -> 0 <= v -> 0 <= j -> run_free u v (npg n) -> grown u (hvm h) v j n ->
  mptr h = v * 4096 -> j + Z.of_nat k = npg n ->
  exists u', grown u u' v (npg n) n /\ fill k (j * 4096) n h = Ok (Some (npg n * 4096)) (set_hvm u' h)
    \/ same_pages u u' /\ fill k (j * 4096) n h = Ok None (set_hvm u' h)
       /\ ~ offered (hvm h) k.
Proof.
  change MAXMALLOC with 1048576.
  induction k as [|k IH]; intros j h Hn Hv Hj [Hrun Hfree] G Hp Hk; cbn [fill].
  - exists (hvm h). left. replace (npg n) with j by lia. split; [done|].
    destruct (Z.ltb_spec (j * 4096) (n + 4)) as [Hlt|_]; [|by destruct h].
    exfalso. unfold npg in Hk. zdm.
  - assert (j * 4096 < n + 4) as Hlt by (unfold npg in *; zdm).
    destruct (Z.ltb_spec (j * 4096) (n + 4)); [|lia]. unfold mbind, mgets. rewrite Hp.
    replace (v * 4096 + j * 4096) with ((v + j) * 4096) by lia. rewrite u32_id by lia.
    fold (perm_at n (j * 4096)).
    destruct (grown_step u (hvm h) v j n G Hv Hj ltac:(lia)) as (r & u2 & E & Hor).
    { split; [lia|]. intros w Hw. apply Hfree. lia. }
    assert (on_vm (sys_page_alloc 0 ((v + j) * 4096) (perm_at n (j * 4096))) h = Ok r (set_hvm u2 h)) as Eo
      by (unfold on_vm; by rewrite E).
    rewrite Eo. destruct Hor as [(-> & G2 & Ho)|(Hr & G2 & Ho)].
    + cbn [Z.ltb Z.compare]. replace (j * 4096 + PGSIZE) with ((j + 1) * 4096) by (unfold PGSIZE; lia).
      destruct (IH (j + 1) (set_hvm u2 h)) as (u' & [(G' & E')|(S' & E' & No)]); try done; try lia.
      * exists u'. left. split; [exact G'|exact E'].
      * exists u'. right. split; [exact S'|]. split; [exact E'|]. intros Hoff. apply No. by apply Ho.
    + destruct (Z.ltb_spec r 0); [|lia]. unfold PGSIZE. rewrite Z_div_mult by lia.
      destruct (unfill_ok (Z.to_nat j + 1) (set_hvm u2 h) v Hp Hv ltac:(lia)) as (t & Et & Ht).
      replace ((Z.of_nat (Z.to_nat j + 1) - 1) * 4096) with (j * 4096) in Et by lia. rewrite Et.
      exists (set_upt t u2). right. split; [|split; [done|apply Ho]]. split; cbn; try apply G2.
      intros [e w]. rewrite Ht. cbn [hvm set_hvm fst snd]. rewrite (gw_self _ _ _ _ _ G2).
      case_decide as Hin; [destruct Hin as [-> Hw]; rewrite Hfree by lia; done|].
      apply (gw_keep _ _ _ _ _ G2). intros w' Hw' [= -> ->]. apply Hin. split; [done|lia].
Qed.

Lemma same_pages_ok h B u' p' :
  heap_ok h B -> same_pages (hvm h) u' -> mbegin <= p' < mend -> p' mod 4096 = 0 -> mptr h mod 4096 = 0 ->
  heap_ok (mkHp u' p') B.
Proof.
  intros H [S1 S2 S3 S4] Hp Ha Hm. split; cbn [hvm mptr]; rewrite ?S3.
  - done.
  - intros v pte Hv. rewrite S1. intros E. destruct (hk_pte _ _ H v pte Hv E) as (? & ? & ? & ?). auto.
  - intros v pte k pte' Hv. rewrite !S1. by apply (hk_priv _ _ H).
  - intros b Hb. destruct (hk_block _ _ H b Hb) as [B1 B2 B3 B4 B5]. split; try done.
    intros v Hv. rewrite S1, S3. by apply B5.
  - intros v pte Hv. rewrite S1. intros E Hf. assert (count u' pte = count (hvm h) pte) as ->.
    { unfold count. apply rd32_ext. intros y Hy. apply S2. replace (y / 4096) with (frame pte) by zdm.
      pose proof (uref_mapped _ _ _ _ E). lia. }
    assert (forall q, q mod 4096 = 0 -> cur q v = 0) as Hcur by (intros q Hq; unfold cur; by rewrite Hq).
    rewrite (Hcur p') by done. rewrite <- (Hcur (mptr h)) by done. by apply (hk_count _ _ H).
  - intros Hne. lia.
  - apply H.
Qed.

Lemma same_pages_kept u u' B : same_pages u u' -> kept u u' B.
Proof.
  intros [S1 S2 S3 S4] e a _. unfold sees, paddr. rewrite S1.
  destruct (upt u !! (e, a / PGSIZE)) as [pte|] eqn:E; [|done]. destruct (_ && _); [|done].
  unfold rd8, PGSIZE. do 2 f_equal. apply S2. replace ((frame pte * 4096 + a mod 4096) / 4096) with (frame pte) by zdm.
  pose proof (uref_mapped _ _ _ _ E). lia.
Qed.

(** A block on pages of its own. *)
Section fresh.

Context (h : hp) (B : list (Z * Z)) (n v pte : Z) (u' : vm) (m : mem).
Context (H : heap_ok h B) (Hm : mptr h mod 4096 = 0).
Context (Hn : 0 <= n) (Hn4 : n mod 4 = 0) (Hv : heap_page v) (Hrun : run_free (hvm h) v (npg n)).
Context (G : grown (hvm h) u' v (npg n) n).
Context (Hpte : upt u' !! (self (hvm h), v + npg n - 1) = Some pte).
Context (Hmem : forall y, m y = wr32 (umem u') (frame pte * 4096 + 4092) 2 y).

Let u := hvm h.
Let u2 := set_umem m u'.

Lemma npg_last : npg n - 1 = n / 4096 /\ (v * 4096 + n + 3) / 4096 = v + npg n - 1.
Proof using h u' m Hn Hn4. unfold npg. split; zdm. Qed.

Lemma old_entry k pte1 : upt u !! k = Some pte1 -> upt u' !! k = Some pte1.
Proof using G Hrun.
  intros E. rewrite (gw_keep _ _ _ _ _ G); [done|]. intros w Hw ->. destruct Hrun as [_ Hf].
  unfold u in E. by rewrite Hf in E.
Qed.

Lemma entry_cases k pte1 :
  upt u' !! k = Some pte1 -> (exists w, v <= w < v + npg n /\ k = (self u, w)) \/ upt u !! k = Some pte1.
Proof using G.
  intros E. destruct k as [e w]. destruct (decide (e = self u /\ v <= w < v + npg n)) as [[-> Hw]|Hne].
  - left. by exists w.
  - right. unfold u. rewrite <- (gw_keep _ _ _ _ _ G); [done|]. intros w' Hw [= -> ->]. by apply Hne.
Qed.

Lemma old_byte k pte1 o :
  upt u !! k = Some pte1 -> 0 <= o < 4096 -> m (frame pte1 * 4096 + o) = umem u (frame pte1 * 4096 + o).
Proof using G Hpte Hmem Hn Hv.
  intros E Ho. destruct k as [e w]. pose proof (uref_mapped _ _ _ _ E) as H1.
  assert (1 <= npg n) as Hk by (unfold npg; zdm).
  destruct (gw_new _ _ _ _ _ G (v + npg n - 1) ltac:(lia)) as (p & E2 & Hp & H0).
  rewrite Hpte in E2. injection E2 as E2. destruct (perm_at_ok n ((v + npg n - 1 - v) * 4096) p Hp) as (_ & Hf & _).
  rewrite <- E2 in Hf. unfold u in *.
  assert (frame pte1 <> frame pte) by (intros Ef; rewrite Ef, Hf in H1; lia).
  rewrite Hmem, wr32_out by lia. apply (gw_mem _ _ _ _ _ G).
  replace ((frame pte1 * 4096 + o) / 4096) with (frame pte1) by zdm. lia.
Qed.

(** The entries of the new pages. *)
Lemma new_entry w pte1 :
  v <= w < v + npg n -> upt u' !! (self u, w) = Some pte1 ->
  flag pte1 PTE_U = true /\ flag pte1 PTE_W = true /\ 0 <= frame pte1 < 1048576
  /\ flag pte1 PTE_CONTINUED = bool_decide (w < v + npg n - 1).
Proof using G Hn4.
  intros Hw E. destruct (gw_new _ _ _ _ _ G w Hw) as (p & E2 & Hp & _). unfold u in E. rewrite E in E2.
  injection E2 as ->. destruct (perm_at_ok n ((w - v) * 4096) p Hp) as (_ & -> & -> & -> & ->).
  split; [done|]. split; [done|]. split; [done|].
  destruct (Z.ltb_spec ((w - v) * 4096 + 4096) (n + 4)), (bool_decide_reflect (w < v + npg n - 1));
    try done; exfalso; unfold npg in *; zdm.
Qed.

Lemma fresh_ok : heap_ok (mkHp u2 (v * 4096 + n)) ((v * 4096, n) :: B).
Proof using H Hm Hn Hn4 Hv Hrun G Hpte Hmem.
  destruct npg_last as [Hl1 Hl2]. destruct Hrun as [Hend Hfree]. pose proof (gw_self _ _ _ _ _ G) as Es.
  destruct (gw_tab _ _ _ _ _ G) as [Ht1 Ht2]. assert (1 <= npg n) as Hk by (unfold npg; zdm).
  assert (last_page (v * 4096, n) = v + npg n - 1) as El by (unfold last_page; cbn; lia).
  assert ((v * 4096 + n) / 4096 = v + npg n - 1) as Ep by zdm.
  assert (forall w, cnt ((v * 4096, n) :: B) w = cnt B w + (if decide (v + npg n - 1 = w) then 1 else 0)) as Hcnt.
  { intros w. rewrite <- El. apply (cnt_insert [] (v * 4096, n) B). }
  assert (forall b, b ∈ B -> forall w, b.1 / 4096 <= w <= last_page b -> ~ (v <= w < v + npg n)) as Hold.
  { intros b Hb w Hw Hw2. destruct (bo_mapped _ _ (hk_block _ _ H b Hb) w Hw) as (pte1 & E1 & _).
    rewrite Hfree in E1; done. }
  assert (cnt B (v + npg n - 1) = 0) as Hc0.
  { destruct (filter (fun b => last_page b = v + npg n - 1) B) as [|b l] eqn:Ef; [by unfold cnt; rewrite Ef|].
    assert (b ∈ filter (fun b => last_page b = v + npg n - 1) B) as Hb by (rewrite Ef; left).
    apply list_elem_of_filter in Hb as [Hb1 Hb2]. exfalso. apply (Hold b Hb2 (last_page b)); [|lia].
    pose proof (hk_block _ _ H b Hb2) as [_ ? _ _ _]. unfold last_page. zdm. }
  assert (forall w pte1, heap_page w -> upt u !! (self u, w) = Some pte1 -> count u2 pte1 = count u pte1) as Hcold.
  { intros w pte1 Hw E. unfold count. apply rd32_ext. intros y Hy.
    replace y with (frame pte1 * 4096 + (y - frame pte1 * 4096)) by lia.
    by apply (old_byte (self u, w)); [|lia]. }
  split; cbn [hvm mptr u2 upt utab self set_umem]; rewrite ?Es.
  - unfold heap_page, mbegin, mend in *. split; [lia|]. zdm.
  - intros w pte1 Hw E. destruct (entry_cases _ _ E) as [(w' & Hw' & [= <-])|E0].
    + destruct (new_entry w pte1 Hw' E) as (? & ? & ? & _). auto.
    + destruct (hk_pte _ _ H w pte1 Hw E0) as (? & ? & ? & ?). auto.
  - intros w pte1 k pte2 Hw E E2 Ef. destruct (entry_cases _ _ E) as [(w' & Hw' & [= <-])|E0].
    + by apply (gw_priv _ _ _ _ _ G w pte1 k pte2).
    + destruct (entry_cases _ _ E2) as [(w' & Hw' & ->)|E3]; [|by apply (hk_priv _ _ H w pte1 k pte2)].
      pose proof (gw_priv _ _ _ _ _ G w' pte2 _ pte1 Hw' E2 E (eq_sym Ef)) as [= ->]. done.
  - intros b [->|Hb]%elem_of_cons.
    + split; rewrite ?El; cbn [fst snd]; [unfold heap_page, mbegin in *; lia|done|lia|left; apply Z_mod_mult|].
      intros w Hw. rewrite Z_div_mult in Hw by lia. cbn [u2 upt self set_umem]. rewrite Es.
      destruct (gw_new _ _ _ _ _ G w ltac:(lia)) as (p & E & _). eexists. split; [exact E|].
      by apply (new_entry w); [lia|].
    + destruct (hk_block _ _ H b Hb) as [B1 B2 B3 B4 B5]. split; try done. intros w Hw.
      cbn [u2 upt self set_umem]. rewrite Es. destruct (B5 w Hw) as (pte1 & E & Hf). exists pte1.
      split; [by apply old_entry|done].
  - intros w pte1 Hw E Hf. rewrite Hcnt. destruct (entry_cases _ _ E) as [(w' & Hw' & [= <-])|E0].
    + destruct (new_entry w pte1 Hw' E) as (_ & _ & _ & Hf2). rewrite Hf in Hf2. symmetry in Hf2.
      apply bool_decide_eq_false in Hf2. assert (w = v + npg n - 1) as -> by lia.
      unfold u in E. rewrite Hpte in E. injection E as <-. rewrite decide_True, Hc0 by done.
      assert (count u2 pte = 2) as Ec; [|fold u2; rewrite Ec; unfold cur; destruct (_ || _); lia].
      unfold count. cbn [u2 umem set_umem]. erewrite rd32_ext by (intros; apply Hmem). by rewrite rd32_wr32_eq.
    + fold u2. rewrite (Hcold w pte1 Hw E0). destruct (hk_count _ _ H w pte1 Hw E0 Hf) as [Hc1 Hc2].
      assert (v + npg n - 1 <> w) as Hne.
      { intros <-. unfold u in E0. rewrite Hfree in E0 by lia. done. }
      rewrite decide_False by done.
      assert (cur (v * 4096 + n) w = 0) as ->.
      { unfold cur. rewrite Ep. destruct (Z.eqb_spec (v + npg n - 1) w); [done|]. by destruct (_ =? 0). }
      assert (0 <= cur (mptr h) w) by (unfold cur; destruct (_ || _); lia). fold u in Hc1, Hc2. lia.
  - intros _. rewrite Ep. exists pte. split; [done|].
    split; [destruct (new_entry (v + npg n - 1) pte ltac:(lia) Hpte) as (_ & _ & _ & ->); by rewrite bool_decide_eq_false_2 by lia|].
    intros b [->|Hb]%elem_of_cons E; [cbn; lia|].
    destruct (Hold b Hb (last_page b)); [|lia]. pose proof (hk_block _ _ H b Hb) as [_ ? _ _ _]. unfold last_page. zdm.
  - apply disj_cons; [|apply H]. intros c Hc. cbn [fst snd]. pose proof (hk_block _ _ H c Hc) as [C1 C2 C3 C4 C5].
    destruct (decide (v + npg n <= c.1 / 4096)) as [|Hlt]; [left; zdm|].
    destruct (decide (last_page c < v)) as [|Hge]; [right; unfold last_page in *; zdm|].
    exfalso. apply (Hold c Hc (Z.max v (c.1 / 4096))); [|lia].
    split; [lia|]. apply Z.max_lub; [lia|]. unfold last_page. zdm.
Qed.

Lemma fresh_kept : kept u u2 B.
Proof using H G Hpte Hmem Hn Hv Hrun.
  intros e a Ha. unfold sees, paddr, PGSIZE. cbn [u2 upt umem set_umem].
  destruct (upt u !! (e, a / 4096)) as [pte1|] eqn:E.
  - rewrite (old_entry _ _ E). destruct (_ && _); [|done]. unfold rd8. do 2 f_equal.
    apply (old_byte (e, a / 4096)); [done|zdm].
  - destruct (upt u' !! (e, a / 4096)) as [pte1|] eqn:E1; [|done].
    destruct (entry_cases _ _ E1) as [(w & Hw & [= -> Ew])|E0]; [|congruence].
    destruct Hrun as [Hend _]. destruct Ha as [Ha|[Ha|(b & Hb & Ha)]]; [done|..].
    + destruct Ha. unfold heap_page in *. lia.
    + pose proof (block_byte _ _ _ (hk_block _ _ H b Hb) Ha) as [Hp _].
      destruct (bo_mapped _ _ (hk_block _ _ H b Hb) _ Hp) as (pte2 & E2 & _). unfold u in E. congruence.
Qed.

End fresh.

(** Why there is no memory for [n] bytes. *)
Definition no_room (u : vm) (n : Z) : Prop :=
  (forall v, heap_page v -> ~ run_free u v (npg n)) \/ ~ offered u (Z.to_nat (npg n)).

(** The outcome of an allocation of [n] bytes. *)
Definition allocated (u : vm) (B : list (Z * Z)) (n r : Z) (h' : hp) : Prop :=
  kept u (hvm h') B
  /\ ((mbegin <= r /\ heap_ok h' ((r, n) :: B)) \/ (r = 0 /\ heap_ok h' B /\ no_room u n)).

(** Enough pages from [v] on get the block. *)
Lemma fill_store h v n :
  0 <= n < MAXMALLOC -> n mod 4 = 0 -> 0 <= v -> run_free (hvm h) v (npg n) -> mptr h = v * 4096 ->
  exists u', same_pages (hvm h) u' /\ ~ offered (hvm h) (Z.to_nat (npg n))
      /\ fill (Z.to_nat ((n + 4 + PGSIZE - 1) / PGSIZE)) 0 n h = Ok None (set_hvm u' h)
    \/ exists pte m, grown (hvm h) u' v (npg n) n
      /\ upt u' !! (self (hvm h), v + npg n - 1) = Some pte
      /\ (forall y, m y = wr32 (umem u') (frame pte * 4096 + 4092) 2 y)
      /\ fill (Z.to_nat ((n + 4 + PGSIZE - 1) / PGSIZE)) 0 n h = Ok (Some (npg n * 4096)) (set_hvm u' h)
      /\ store32 (u32 (v * 4096 + npg n * 4096 - 4)) 2 u' = Ok tt (set_umem m u').
Proof.
  intros Hn H4 Hv Hrun Hp. assert (1 <= npg n) as Hk by (unfold npg; zdm).
  assert ((n + 4 + PGSIZE - 1) / PGSIZE = npg n) as -> by (unfold npg, PGSIZE; f_equal; lia).
  destruct (fill_ok (hvm h) n v (Z.to_nat (npg n)) 0 h) as (u' & [(G & E)|(S & E & No)]);
    try done; [apply grown_start|lia|exists u'; right|exists u'; left; done].
  destruct (gw_new _ _ _ _ _ G (v + npg n - 1) ltac:(lia)) as (p & Hpte & Hfr & _).
  destruct (perm_at_ok n ((v + npg n - 1 - v) * 4096) p Hfr) as (_ & _ & HU & HW & _).
  pose proof (gw_self _ _ _ _ _ G) as Es. destruct Hrun as [Hend _].
  destruct (store32_at u' (v + npg n - 1) (entry p (perm_at n ((v + npg n - 1 - v) * 4096))) ltac:(lia)
    ltac:(by rewrite Es) HU HW 4092 2 ltac:(lia)) as (m & Em & Hm).
  exists (entry p (perm_at n ((v + npg n - 1 - v) * 4096))), m. split; [done|]. split; [done|]. split; [done|].
  split; [done|]. by replace (v * 4096 + npg n * 4096 - 4) with ((v + npg n - 1) * 4096 + 4092) by lia.
Qed.

Lemma malloc_fresh_ok h B n :
  heap_ok h B -> mptr h mod 4096 = 0 -> 0 <= n < MAXMALLOC -> n mod 4 = 0 ->
  exists r h', malloc_fresh n h = Ok r h' /\ allocated (hvm h) B n r h'.
Proof.
  intros H Ha Hn H4. pose proof (hk_mptr _ _ H) as Hr. pose proof (heap_page_mptr _ Hr) as HV.
  unfold malloc_fresh, mbind.
  assert (65536 - mptr h / 4096 + (1 - 0) * 32768 <= Z.of_nat scan_fuel) as Hfuel
    by (unfold scan_fuel; rewrite Z2Nat.id by lia; unfold heap_page in HV; lia).
  destruct (scan_ok n scan_fuel (mptr h / 4096) 0 h Hn HV (or_introl eq_refl) Hfuel ltac:(zdm))
    as [(v & Hv & Hrun & E)|[E No]].
  - rewrite E. clear E Hfuel. cbn [negb]. unfold heap_page in Hv.
    destruct (fill_store (set_mptr (v * 4096) h) v n) as (u' & [(S & No & Ef)|(pte & m & G & Hpte & Hm & Ef & Es)]);
      try done; [lia|..]; rewrite Ef.
    + eexists _, _. split; [reflexivity|]. split; [by apply same_pages_kept|]. right. split; [done|].
      split; [|by right]. apply (same_pages_ok h); try done; [cbn; unfold mbegin, mend; lia|cbn; apply Z_mod_mult].
    + unfold mgets, on_vm, mmodify, mret. cbn [mptr set_mptr set_hvm hvm]. rewrite Es.
      pose proof (proj1 Hrun) as Hend. change MAXMALLOC with 1048576 in Hn.
      rewrite u32_id by (unfold npg in Hend; zdm).
      eexists _, _. split; [reflexivity|]. split.
      * apply (fresh_kept h B n v pte u' m); try done; lia.
      * left. split; [unfold mbegin; lia|]. apply (fresh_ok h B n v pte u' m); try done; lia.
  - rewrite E. clear E Hfuel. cbn [negb]. eexists _, _. split; [reflexivity|]. split; [done|]. right. split; [done|].
    split; [|left; apply No]. apply (same_pages_ok h); [done|done|by cbn|done|done].
Qed.

Lemma kept_trans u u1 u2 B : self u1 = self u -> kept u u1 B -> kept u1 u2 B -> kept u u2 B.
Proof. intros Es H1 H2 e a Ha. rewrite H2; [by apply H1|]. unfold visible in *. by rewrite Es. Qed.

(** A block of the invariant may be written. *)
Lemma block_writable h B b a :
  heap_ok h B -> b ∈ B -> b.1 <= a < b.1 + b.2 -> is_Some (paddr (hvm h) (self (hvm h)) true a).
Proof.
  intros H Hb Ha. pose proof (hk_block _ _ H b Hb) as Hok. destruct (block_byte _ _ _ Hok Ha) as [Hp _].
  destruct (bo_mapped _ _ Hok _ Hp) as (pte & E & _). unfold paddr, PGSIZE. rewrite E.
  destruct (hk_pte _ _ H _ _ (block_pages _ _ _ Hok Hp) E) as (-> & -> & _). by eexists.
Qed.

(** The heap before and after the first call sets [mptr]. *)
Definition started (h : hp) : hp := if mptr h =? 0 then set_mptr mbegin h else h.

(** Sizes are rounded up to a multiple of 4. *)
Lemma ROUNDUP_4 n : 0 <= n <= 4294967292 -> ROUNDUP n 4 = 4 * ((n + 3) / 4).
Proof. intros Hn. ilia. Qed.

(** Allocating in the page that is being filled. *)
Lemma malloc_bump h B n :
  heap_ok h B -> 0 <= n -> Z.of_nat (length B) < 4294967290 -> mptr h mod 4096 <> 0 ->
  mptr h / 4096 = (mptr h + n + 3) / 4096 ->
  exists u1, (let! r := on_vm (load32 (u32 (ROUNDUP (mptr h) PGSIZE - 4))) in
              do! on_vm (store32 (u32 (ROUNDUP (mptr h) PGSIZE - 4)) (u32 (r + 1))) in
              do! mmodify (set_mptr (u32 (mptr h + n))) in
              mret (mptr h)) h = Ok (mptr h) (mkHp u1 (mptr h + n))
    /\ heap_ok (mkHp u1 (mptr h + n)) ((mptr h, n) :: B) /\ kept (hvm h) u1 B.
Proof.
  intros H Hn HB Ha Hfit. pose proof (hk_mptr _ _ H) as Hr. pose proof (heap_page_mptr _ Hr) as HV.
  destruct (hk_cur _ _ H Ha) as (pte & Hpte & Hf & _). destruct (hk_pte _ _ H _ _ HV Hpte) as (HU & HW & _).
  unfold mbegin, mend in Hr. unfold PGSIZE. rewrite ROUNDUP_page by lia.
  replace (4096 * ((mptr h + 4095) / 4096) - 4) with (mptr h / 4096 * 4096 + 4092) by zdm.
  assert (0 <= mptr h / 4096 < 1048576) as HV2 by (unfold heap_page in HV; lia).
  unfold mbind, on_vm at 1. rewrite (load32_at _ _ pte HV2 Hpte HU 4092) by lia.
  fold (count (hvm h) pte). pose proof (hk_count _ _ H _ _ HV Hpte Hf) as [Hc1 Hc2].
  pose proof (cnt_le B (mptr h / 4096)). rewrite (u32_id (count (hvm h) pte + 1)) by lia.
  destruct (count_store h (mptr h / 4096) pte (count (hvm h) pte + 1) HV Hpte HU HW) as (m & Em & Hm).
  unfold on_vm. cbn [set_hvm hvm]. rewrite Em. unfold heap_page in HV. rewrite (u32_id (mptr h + n)) by zdm.
  exists (set_umem m (hvm h)). split; [done|].
  split; [by apply (bump_ok h B n pte)|by apply (bump_kept h B n pte)].
Qed.

(** C14: [malloc] keeps the heap consistent.  For a size up to the limit it
    returns either a new block of that size, rounded up to a multiple of 4, that
    lies in the heap, overlaps no block in use and may be written, or NULL; NULL
    only when the heap has no free run of pages for the block or the kernel
    refuses pages.  In every case the blocks in use and all memory of other
    environments and outside the heap keep their contents.  One case is left
    out: the page being filled is the last of the heap and has no room. *)
Theorem malloc_allocates (h : hp) (B : list (Z * Z)) (size : Z) :
  let n := 4 * ((size + 3) / 4) in let p := mptr (started h) in
  heap_ok (started h) B -> Z.of_nat (length B) < 4294967290 -> 0 <= size -> n < MAXMALLOC ->
  p mod 4096 = 0 \/ p / 4096 = (p + n + 3) / 4096 \/ p / 4096 < 65535 ->
  exists r h', malloc size h = Ok r h' /\ allocated (hvm h) B n r h'
    /\ (r <> 0 -> forall a, r <= a < r + n -> is_Some (paddr (hvm h') (self (hvm h')) true a)).
Proof.
  intros n p H HB Hs Hmax Hlast. assert (0 <= n /\ n mod 4 = 0) as [Hn H4] by (unfold n; split; zdm).
  enough (exists r h', malloc size h = Ok r h' /\ allocated (hvm h) B n r h') as (r & h' & E & Hk & Hor).
  { exists r, h'. split; [done|]. split; [done|]. intros Hr a Ha.
    destruct Hor as [[_ Hok]|[? _]]; [|done]. by apply (block_writable h' ((r, n) :: B) (r, n) a Hok); [left|]. }
  unfold malloc, mbind, mmodify. fold (started h).
  assert (hvm (started h) = hvm h) as Eu by (unfold started; by destruct (mptr h =? 0)). rewrite <- Eu.
  change MAXMALLOC with 1048576 in *. rewrite ROUNDUP_4 by (unfold n in Hmax; zdm). fold n.
  rewrite Z.geb_leb. destruct (Z.leb_spec 1048576 n); [lia|]. unfold mgets at 1. fold p.
  pose proof (hk_mptr _ _ H) as Hr. fold p in Hr. unfold PGSIZE at 1.
  destruct (Z.eqb_spec (p mod 4096) 0) as [Ha|Ha]; cbn [negb].
  { apply (malloc_fresh_ok (started h)); [done|done|change MAXMALLOC with 1048576; lia|done]. }
  unfold PGSIZE at 1 2. unfold mbegin, mend in Hr. rewrite (u32_id (p + n - 1 + 4)) by lia.
  replace (p + n - 1 + 4) with (p + n + 3) by lia. destruct (Z.eqb_spec (p / 4096) ((p + n + 3) / 4096)) as [Hfit|Hfit].
  - destruct (malloc_bump (started h) B n H Hn HB Ha Hfit) as (u1 & E & Hok & Hk).
    unfold mbind, mmodify in E. fold p in E. rewrite E. eexists _, _. split; [reflexivity|].
    split; [exact Hk|]. left. split; [unfold mbegin; lia|exact Hok].
  - destruct (free_mptr (started h) B H Ha) as (u1 & E & Hok & Hk & Hsub & Es & Eo).
    { fold p. destruct Hlast as [?|[?|?]]; [done|done|lia]. }
    fold p in E, Hok. rewrite E.
    assert (ROUNDDOWN (u32 (p + PGSIZE)) PGSIZE = (p / 4096 + 1) * 4096) as ->
      by (unfold PGSIZE; rewrite u32_id, ROUNDDOWN_page by lia; zdm).
    destruct (malloc_fresh_ok (mkHp u1 ((p / 4096 + 1) * 4096)) B n Hok) as (r & h' & Er & Hk' & Hor);
      [apply Z_mod_mult|change MAXMALLOC with 1048576; lia|done|].
    exists r, h'. split; [exact Er|]. split; [by apply (kept_trans _ u1)|].
    destruct Hor as [?|(-> & Hok' & Hno)]; [by left|]. right. split; [done|]. split; [done|].
    destruct Hno as [Hno|Hno]; [left|right].
    + intros v Hv [Hend Hfree]. apply (Hno v Hv). split; [done|]. intros w Hw. cbn [hvm]. rewrite Es.
      destruct (upt u1 !! (self (hvm (started h)), w)) eqn:E1; [|done]. apply Hsub in E1. rewrite Hfree in E1; done.
    + intros (ps & rest & E1 & E2 & E3 & E4). apply Hno. exists ps, rest. cbn [hvm]. rewrite Eo.
      split; [done|]. split; [done|]. split; [done|]. intros q Hq. destruct (E4 q Hq) as [? Hq0]. split; [done|].
      apply uref_unmapped. intros e w pte Hw%Hsub. by apply (uref_0_fresh (hvm (started h)) q e w).
Qed.

(** ** Past the end of the heap *)

Lemma scan_escape n fuel : forall v h,
  0 <= n < 4092 -> 65536 <= v < 1048576 -> 1048576 - v < Z.of_nat fuel -> mptr h = v * 4096 ->
  upt (hvm h) !! (self (hvm h), 0) = None -> scan fuel n 0 h = Ok true (set_mptr 0 h).
Proof.
  induction fuel as [|fuel IH]; intros v h Hn Hv Hf Hp H0; [lia|].
  cbn [scan]. unfold mbind, mgets. rewrite Hp. unfold isfree, PGSIZE. rewrite (u32_id (n + 4)) by lia.
  replace ((n + 4) / 4096 + 1) with 1 by zdm. change (Z.to_nat 1) with 1%nat. cbn [isfree_loop].
  rewrite (u32_id (v * 4096 + (n + 4))) by lia. destruct (Z.ltb_spec (v * 4096) (v * 4096 + (n + 4))); [|lia].
  rewrite Z.geb_leb. unfold mend at 1. destruct (Z.leb_spec 268435456 (v * 4096)); [|lia].
  unfold mmodify. destruct (decide (v = 1048575)) as [->|Hne].
  - change (u32 (1048575 * 4096 + 4096)) with 0. cbn [Z.eqb mend]. destruct fuel as [|fuel]; [lia|].
    cbn [scan]. unfold mbind, mgets. cbn [mptr set_mptr hvm]. unfold isfree, PGSIZE. rewrite (u32_id (n + 4)) by lia.
    replace ((n + 4) / 4096 + 1) with 1 by zdm. change (Z.to_nat 1) with 1%nat. cbn [isfree_loop].
    rewrite (u32_id (0 + (n + 4))) by lia. destruct (Z.ltb_spec 0 (0 + (n + 4))); [|lia]. cbn [Z.geb Z.compare mend].
    unfold PGSIZE. change (0 / 4096) with 0. unfold present. rewrite H0. change (u32 (0 + 4096)) with 4096.
    by destruct (Z.ltb_spec 4096 (0 + (n + 4))); [lia|].
  - rewrite u32_id by lia. unfold mend. destruct (Z.eqb_spec (v * 4096 + 4096) 268435456); [lia|].
    rewrite (IH (v + 1)); [done|done|lia|lia|cbn; lia|done].
Qed.

(** [malloc] leaves the heap when the page being filled is the last one and
    has no room: [mptr] becomes [mend], the test for wrapping around never sees
    it again, and the search goes on to address 0.  A small request then gets a
    page there, and the call returns 0, which means failure, while [mptr] is
    left below the heap. *)
Theorem malloc_escapes (h : hp) (B : list (Z * Z)) (size : Z) :
  let n := 4 * ((size + 3) / 4) in let p := mptr h in
  heap_ok h B -> 0 <= size -> n < 4092 -> p / 4096 = 65535 -> p mod 4096 <> 0 ->
  (p + n + 3) / 4096 <> 65535 -> upt (hvm h) !! (self (hvm h), 0) = None -> offered (hvm h) 1 ->
  exists h', malloc size h = Ok 0 h' /\ is_Some (upt (hvm h') !! (self (hvm h), 0))
    /\ mptr h' = n /\ mptr h' < mbegin.
Proof.
  intros n p H Hs Hsmall Hpage Ha Hfit H0 Hoff.
  assert (0 <= n /\ n mod 4 = 0) as [Hn H4] by (unfold n; split; zdm).
  pose proof (hk_mptr _ _ H) as Hr. fold p in Hr. pose proof (heap_page_mptr _ Hr) as HV.
  destruct (hk_cur _ _ H Ha) as (pte & Hpte & Hf & _).
  destruct (hk_pte _ _ H _ _ HV Hpte) as (HU & HW & _ & Ht). destruct (hk_count _ _ H _ _ HV Hpte Hf) as [Hc1 _].
  destruct (free_run h p (p / 4096) pte) as (u1 & E & F); try done.
  { intros w Hw. replace w with (p / 4096) by lia. exists pte. split; [done|]. by rewrite bool_decide_eq_false_2 by lia. }
  { intros w Hw. by replace w with (p / 4096) by lia. }
  pose proof (freed_entry h u1 _ _ _ F) as Hsub. pose proof (fr_self _ _ _ _ _ _ F) as Es.
  assert (upt u1 !! (self u1, 0) = None) as H0'.
  { rewrite Es. destruct (upt u1 !! (self (hvm h), 0)) eqn:E1; [|done]. apply Hsub in E1. congruence. }
  unfold malloc, mbind, mmodify. destruct (Z.eqb_spec (mptr h) 0) as [Hz|_]; [fold p in Hz; unfold mbegin in Hr; lia|].
  rewrite ROUNDUP_4 by (unfold n in Hsmall; zdm). fold n.
  change MAXMALLOC with 1048576. rewrite Z.geb_leb. destruct (Z.leb_spec 1048576 n); [lia|]. unfold mgets at 1. fold p.
  unfold PGSIZE at 1. destruct (Z.eqb_spec (p mod 4096) 0); [done|]. cbn [negb].
  unfold PGSIZE at 1 2. unfold mbegin, mend in Hr. rewrite (u32_id (p + n - 1 + 4)) by lia.
  replace (p + n - 1 + 4) with (p + n + 3) by lia. destruct (Z.eqb_spec (p / 4096) ((p + n + 3) / 4096)); [lia|].
  rewrite E. assert (ROUNDDOWN (u32 (p + PGSIZE)) PGSIZE = 65536 * 4096) as ->
    by (unfold PGSIZE; rewrite u32_id, ROUNDDOWN_page by lia; zdm).
  unfold malloc_fresh, mbind. rewrite (scan_escape n scan_fuel 65536);
    [|lia|lia|unfold scan_fuel; rewrite Z2Nat.id; lia|done|done]. cbn [negb].
  set (h1 := set_mptr 0 (set_mptr (65536 * 4096) (set_hvm u1 h))).
  assert (npg n = 1) as Hnpg by (unfold npg; zdm).
  destruct (fill_store h1 0 n) as (u' & [(S & No & Ef)|(pte1 & m & G & Hpte1 & Hm & Ef & Est)]).
  { change MAXMALLOC with 1048576. lia. }
  { done. }
  { done. }
  { rewrite Hnpg. split; [lia|]. intros w Hw. replace w with 0 by lia. exact H0'. }
  { done. }
  - destruct No. rewrite Hnpg. destruct Hoff as (ps & rest & E1 & E2 & E3 & E4). exists ps, rest. cbn [h1 hvm set_mptr set_hvm].
    rewrite (fr_offers _ _ _ _ _ _ F). split; [done|]. split; [done|]. split; [done|]. intros q Hq.
    destruct (E4 q Hq) as [? Hq0]. split; [done|]. apply uref_unmapped. intros e w pte2 Hw%Hsub.
    by apply (uref_0_fresh (hvm h) q e w).
  - rewrite Ef. unfold mgets, on_vm, mret. cbn [h1 mptr set_mptr set_hvm hvm].
    change (u32 (0 + npg n * 4096 - 4)) with (u32 (0 * 4096 + npg n * 4096 - 4)). rewrite Est.
    rewrite Z.add_0_l, u32_id by lia. eexists. split; [reflexivity|]. cbn [hvm set_mptr set_hvm mptr upt set_umem].
    rewrite Hnpg in Hpte1. cbn [h1 hvm set_mptr set_hvm] in Hpte1. rewrite Es in Hpte1. change (0 + 1 - 1) with 0 in Hpte1. rewrite Hpte1.
    split; [by eexists|]. split; [done|]. unfold mbegin. lia.
Qed.

(** A size whose rounding overflows is taken for 0: the caller gets a block that
    is far too small instead of NULL. *)
Theorem malloc_wraps (h : hp) (size : Z) :
  4294967293 <= size < 4294967296 -> malloc size h = malloc 0 h.
Proof. intros Hs. unfold malloc. assert (ROUNDUP size 4 = 0) as -> by ilia. done. Qed.

(** ** Examples *)

(** An environment without pages, and a heap that has not been used. *)
Definition demo_hp : hp := mkHp (mkVm ∅ ∅ (fun _ => 0) [5; 6; 7] 1 {[1]} [] ∅ ∅) 0.

Lemma demo_none k : upt (hvm demo_hp) !! k = None.
Proof. apply lookup_empty. Qed.

Lemma demo_heap : heap_ok (started demo_hp) [].
Proof.
  change (started demo_hp) with (mkHp (hvm demo_hp) mbegin).
  split; cbn [hvm mptr].
  - unfold mbegin, mend. lia.
  - intros v pte _ E. by rewrite demo_none in E.
  - intros v pte k pte' _ E. by rewrite demo_none in E.
  - intros b Hb. by apply elem_of_nil in Hb.
  - intros v pte _ E. by rewrite demo_none in E.
  - intros Hm. by destruct Hm.
  - intros i j b c E. by rewrite lookup_nil in E.
Qed.

(** The kernel has pages for any environment that has none. *)
Lemma demo_offered u p : upt u = ∅ -> offers u = [p; 6; 7] -> 0 <= p < 1048576 -> offered u 1.
Proof.
  intros Eu Eo Hp. exists [p], [6; 7]. split; [done|]. split; [done|]. split; [apply NoDup_singleton|].
  intros q ->%list_elem_of_singleton. split; [done|]. apply uref_unmapped. intros e v pte. rewrite Eu.
  by rewrite lookup_empty.
Qed.

Lemma malloc_allocates_witness :
  exists r h', malloc 10 demo_hp = Ok r h' /\ allocated (hvm demo_hp) [] 12 r h'.
Proof.
  destruct (malloc_allocates demo_hp [] 10) as (r & h' & E & Ha & _).
  - exact demo_heap.
  - cbn. lia.
  - lia.
  - reflexivity.
  - left. reflexivity.
  - exists r, h'. exact (conj E Ha).
Defined.

(** A heap with one block of 12 bytes. *)
Lemma demo_block : exists r h, heap_ok h [(r, 12)].
Proof.
  destruct (malloc_fresh_ok (started demo_hp) [] 12 demo_heap) as (r & h' & _ & _ & [[_ H]|(_ & _ & [Hno|Hno])]);
    [done|by split|done|by exists r, h'|exfalso..].
  - apply (Hno 32768); [unfold heap_page; lia|]. split; [done|]. intros w Hw. apply lookup_empty.
  - apply Hno. by apply (demo_offered _ 5).
Qed.

Lemma free_releases_witness :
  exists b h u', heap_ok h ([] ++ b :: []) /\ free b.1 h = Ok tt (set_hvm u' h) /\ heap_ok (set_hvm u' h) ([] ++ []).
Proof.
  destruct demo_block as (r & h & H).
  destruct (free_releases h [] [] (r, 12) H) as (u' & E & Hok & _).
  exists (r, 12), h, u'. exact (conj H (conj E Hok)).
Defined.

(** A heap whose last page is almost full: it holds no block and [malloc]'s own
    reference. *)
Definition full_hp : hp :=
  mkHp (mkVm {[(1, 65535) := entry 9 7]} {[(1, 63)]} (wr32 (fun _ => 0) (9 * 4096 + 4092) 1)
          [5; 6; 7] 1 {[1]} [] ∅ ∅) (mend - 4).

Lemma full_entry k pte : upt (hvm full_hp) !! k = Some pte -> k = (1, 65535) /\ pte = entry 9 7.
Proof. cbn. intros [<- <-]%lookup_singleton_Some. done. Qed.

Lemma full_heap : heap_ok full_hp [].
Proof.
  split; change (self (hvm full_hp)) with 1; change (mptr full_hp) with 268435452.
  - unfold mbegin, mend. lia.
  - intros v pte _ [[= ->] ->]%full_entry. split; [done|]. split; [done|]. split; [done|].
    change ((1, 63) ∈ ({[(1, 63)]} : gset (Z * Z))). set_solver.
  - intros v pte k pte' _ [[= ->] ->]%full_entry [-> ->]%full_entry. done.
  - intros b Hb. by apply elem_of_nil in Hb.
  - intros v pte _ [[= ->] ->]%full_entry _. vm_compute. repeat split; congruence.
  - intros _. exists (entry 9 7). split; [apply lookup_singleton_eq|]. split; [done|].
    intros b Hb. by apply elem_of_nil in Hb.
  - intros i j b c E. by rewrite lookup_nil in E.
Qed.

Lemma full_offered : offered (hvm full_hp) 1.
Proof.
  exists [5], [6; 7]. split; [done|]. split; [done|]. split; [apply NoDup_singleton|].
  intros q ->%list_elem_of_singleton. split; [done|]. apply uref_unmapped.
  intros e v pte [_ ->]%full_entry. done.
Qed.

Lemma malloc_escapes_witness :
  exists h', malloc 8 full_hp = Ok 0 h' /\ is_Some (upt (hvm h') !! (1, 0)).
Proof.
  destruct (malloc_escapes full_hp [] 8) as (h' & E & Hs & _).
  - exact full_heap.
  - lia.
  - reflexivity.
  - reflexivity.
  - discriminate.
  - discriminate.
  - apply lookup_singleton_ne. discriminate.
  - exact full_offered.
  - exists h'. exact (conj E Hs).
Defined.

End Malloc.
