(* ===== verification/Bc.v ===== *)
(** * The disk and the block cache (fs/ide.c, fs/bc.c, fs/fs.h, inc/fs.h)

    The file server sees the disk as memory: block [n] is the page at
    [DISKMAP + n * BLKSIZE], read in by the page-fault handler [bc_pgfault] on
    the first access and written back by [flush_block].  The state has the
    memory of the server, which blocks are cached and which of these are dirty,
    and the disks behind the IDE controller.  Every load and store of fs/fs.c
    goes through [access], which is the page fault when the block is not
    cached.

    The kernel gives the server pages while [pages_left] lasts; a sector the
    drive reports an error for is in [bad_sector].

    The definitions of fs/fs.c the handler needs ([block_is_free]) are here too:
    the handler and the bitmap code call each other.  A fault on a data block
    reads its bitmap word, which may fault on a bitmap block, which reads the
    bitmap word of that block, in block 2, which may fault once more: [access]
    has fuel 4, and the proofs show that it does not run out. *)

From stdpp Require Import base numbers list functions strings sets.
From Stdlib Require Import ZArith Lia.
From S2P Require Import Prelude Mem Mmu Umonad.

Open Scope Z_scope.
Open Scope usr_scope.

Module Bc.

(** ** inc/fs.h and fs/fs.h *)

Definition BLKSIZE : Z := PGSIZE.

Definition BLKBITSIZE : Z := BLKSIZE * 8.

Definition MAXNAMELEN : Z := 128.

Definition MAXPATHLEN : Z := 1024.

Definition NDIRECT : Z := 10.

Definition NINDIRECT : Z := BLKSIZE / 4.

Definition MAXFILESIZE : Z := (NDIRECT + NINDIRECT) * BLKSIZE.

(** Offsets in [struct File], 256 bytes. *)
Definition off_f_name : Z := 0.

Definition off_f_size : Z := MAXNAMELEN.

Definition off_f_type : Z := MAXNAMELEN + 4.

Definition off_f_direct : Z := MAXNAMELEN + 8.

Definition off_f_indirect : Z := MAXNAMELEN + 8 + 4 * NDIRECT.

Definition sizeof_File : Z := 256.

Definition BLKFILES : Z := BLKSIZE / sizeof_File.

Definition FTYPE_REG : Z := 0.

Definition FTYPE_DIR : Z := 1.

Definition FS_MAGIC : Z := 1241854126.

(** Offsets in [struct Super]. *)
Definition off_s_nblocks : Z := 4.

Definition off_s_root : Z := 8.

Definition SECTSIZE : Z := 512.

Definition BLKSECTS : Z := BLKSIZE / SECTSIZE.

Definition DISKMAP : Z := 268435456.

Definition DISKSIZE : Z := 3221225472.

Record fs_state := mkFs {
  fmem : mem;               (* the memory of the server *)
  cached : Z -> bool;       (* PTE_P of the page of a block *)
  dirty : Z -> bool;        (* PTE_D of the page of a block *)
  disks : Z -> mem;         (* the two drives *)
  diskno : Z;
  bad_sector : Z -> bool;
  pages_left : Z;
  super : Z;
  bitmap : Z;
  log : list string
}.

Definition set_fmem (m : mem) (s : fs_state) : fs_state :=
  mkFs m (cached s) (dirty s) (disks s) (diskno s) (bad_sector s) (pages_left s) (super s) (bitmap s) (log s).

Definition set_cached (b : Z) (v : bool) (s : fs_state) : fs_state :=
  mkFs (fmem s) (<[b := v]> (cached s)) (dirty s) (disks s) (diskno s) (bad_sector s) (pages_left s) (super s) (bitmap s) (log s).

Definition set_dirty (b : Z) (v : bool) (s : fs_state) : fs_state :=
  mkFs (fmem s) (cached s) (<[b := v]> (dirty s)) (disks s) (diskno s) (bad_sector s) (pages_left s) (super s) (bitmap s) (log s).

Definition set_disk (m : mem) (s : fs_state) : fs_state :=
  mkFs (fmem s) (cached s) (dirty s) (<[Z.land (diskno s) 1 := m]> (disks s)) (diskno s) (bad_sector s) (pages_left s) (super s) (bitmap s) (log s).

Definition set_diskno (d : Z) (s : fs_state) : fs_state :=
  mkFs (fmem s) (cached s) (dirty s) (disks s) d (bad_sector s) (pages_left s) (super s) (bitmap s) (log s).

Definition set_pages_left (n : Z) (s : fs_state) : fs_state :=
  mkFs (fmem s) (cached s) (dirty s) (disks s) (diskno s) (bad_sector s) n (super s) (bitmap s) (log s).

Definition set_super (p : Z) (s : fs_state) : fs_state :=
  mkFs (fmem s) (cached s) (dirty s) (disks s) (diskno s) (bad_sector s) (pages_left s) p (bitmap s) (log s).

Definition set_bitmap (p : Z) (s : fs_state) : fs_state :=
  mkFs (fmem s) (cached s) (dirty s) (disks s) (diskno s) (bad_sector s) (pages_left s) (super s) p (log s).

Definition say (w : string) (s : fs_state) : fs_state :=
  mkFs (fmem s) (cached s) (dirty s) (disks s) (diskno s) (bad_sector s) (pages_left s) (super s) (bitmap s) (log s ++ [w]).

(** The drive in use. *)
Definition disk (s : fs_state) : mem := disks s (Z.land (diskno s) 1).

(** [n] bytes from [src] at [a] to [dst] at [d], two different memories. *)
Definition xcpy (dst : mem) (d : Z) (src : mem) (a n : Z) : mem :=
  fun x => if (d <=? x) && (x <? d + n) then src (a + (x - d)) else dst x.

(** ** fs/ide.c *)

Definition ide_set_disk (d : Z) : M fs_state unit :=
  if negb (d =? 0) && negb (d =? 1) then mpanic "bad disk number" else mmodify (set_diskno d).

(** The sector address the drive assembles from its registers. *)
Definition lba (secno : Z) : Z :=
  Z.land secno 255 + 256 * Z.land (Z.shiftr secno 8) 255 + 65536 * Z.land (Z.shiftr secno 16) 255
  + 16777216 * Z.land (Z.shiftr secno 24) 15.

(** The transfer loops, one sector at a time; [i] counts the sectors done. *)
Fixpoint ide_read_loop (n : nat) (i secno dst : Z) (s : fs_state) : res fs_state Z :=
  match n with
  | O => Ok 0 s
  | S n =>
    if bad_sector s (lba secno + i) then Ok (-1) s
    else ide_read_loop n (i + 1) secno (dst + SECTSIZE)
           (set_fmem (xcpy (fmem s) dst (disk s) (SECTSIZE * (lba secno + i)) SECTSIZE) s)
  end.

Definition ide_read (secno dst nsecs : Z) : M fs_state Z :=
  if nsecs >? 256 then mpanic "assertion failed: nsecs <= 256"
  else ide_read_loop (Z.to_nat nsecs) 0 secno dst.

Fixpoint ide_write_loop (n : nat) (i secno src : Z) (s : fs_state) : res fs_state Z :=
  match n with
  | O => Ok 0 s
  | S n =>
    if bad_sector s (lba secno + i) then Ok (-1) s
    else ide_write_loop n (i + 1) secno (src + SECTSIZE)
           (set_disk (xcpy (disk s) (SECTSIZE * (lba secno + i)) (fmem s) src SECTSIZE) s)
  end.

Definition ide_write (secno src nsecs : Z) : M fs_state Z :=
  if nsecs >? 256 then mpanic "assertion failed: nsecs <= 256"
  else ide_write_loop (Z.to_nat nsecs) 0 secno src.

(** ** Accesses to the disk map *)

Definition in_disk (a : Z) : bool := (DISKMAP <=? a) && (a <? DISKMAP + DISKSIZE).

(** [((uint32_t)addr - DISKMAP) / BLKSIZE] *)
Definition blk_of (addr : Z) : Z := u32 (addr - DISKMAP) / BLKSIZE.

Definition va_is_mapped (va : Z) (s : fs_state) : bool := cached s (blk_of va).

Definition va_is_dirty (va : Z) (s : fs_state) : bool := dirty s (blk_of va).

Section fault.

(** How the code of the handler touches memory. *)
Context (touch : Z -> M fs_state unit).

Definition load32 (a : Z) : M fs_state Z :=
  do! touch a in mgets (fun s => rd32 (fmem s) a).

Definition block_is_free_via (blockno : Z) : M fs_state bool :=
  let! sup := mgets super in
  if sup =? 0 then mret false else
  let! n := load32 (sup + off_s_nblocks) in
  if blockno >=? n then mret false else
  let! bm := mgets bitmap in
  let! w := load32 (bm + 4 * (blockno / 32)) in
  mret (flag w (Z.shiftl 1 (blockno mod 32))).

Definition bc_pgfault (fault_va : Z) : M fs_state unit :=
  let blockno := blk_of fault_va in
  if negb (in_disk fault_va) then mpanic "page fault in FS" else
  let! sup := mgets super in
  let! gone := (if sup =? 0 then mret false
                else let! n := load32 (sup + off_s_nblocks) in mret (blockno >=? n)) in
  if gone : bool then mpanic "reading non-existent block" else
  let addr := ROUNDDOWN fault_va PGSIZE in
  let! avail := mgets pages_left in
  if avail <=? 0 then mpanic "bc_pgfault: sys_page_alloc failed" else
  do! mmodify (fun s => set_pages_left (pages_left s - 1) (set_cached blockno true
                          (set_fmem (mset (fmem s) addr 0 PGSIZE) s))) in
  let! r := ide_read (u32 (blockno * BLKSECTS)) addr BLKSECTS in
  if r <? 0 then mpanic "bc_pgfault: ide_write" else
  do! mmodify (set_dirty blockno false) in
  let! bm := mgets bitmap in
  let! free := (if bm =? 0 then mret false else block_is_free_via blockno) in
  if free : bool then mpanic "reading free block" else mret tt.

End fault.

(** Make sure that the page of [a] is there. *)
Fixpoint access (fuel : nat) (a : Z) : M fs_state unit :=
  let! present := mgets (fun s => negb (in_disk a) || cached s (blk_of a)) in
  if present : bool then mret tt
  else match fuel with
       | O => mundef "page fault nested too deeply"
       | S fuel => bc_pgfault (access fuel) a
       end.

Definition touch (a : Z) : M fs_state unit := access 4 a.

Definition ld32 (a : Z) : M fs_state Z := load32 touch a.

Definition ld8 (a : Z) : M fs_state Z := do! touch a in mgets (fun s => rd8 (fmem s) a).

(** The CPU sets the dirty bit of the page it writes to. *)
Definition soil (a : Z) (s : fs_state) : fs_state :=
  if in_disk a then set_dirty (blk_of a) true s else s.

(** A store of [n] bytes, at most a page, at [a]: the range lies in at most two
    pages, those of its first and its last byte. *)
Definition store (a n : Z) (f : mem -> mem) : M fs_state unit :=
  do! touch a in
  do! touch (a + n - 1) in
  mmodify (fun s => soil a (soil (a + n - 1) (set_fmem (f (fmem s)) s))).

Definition st32 (a v : Z) : M fs_state unit := store a 4 (fun m => wr32 m a v).

Definition st8 (a v : Z) : M fs_state unit := store a 1 (fun m => wr8 m a v).

(** [memset] and [memmove] of at most a page. *)
Definition cmemset (a c n : Z) : M fs_state unit :=
  if n =? 0 then mret tt else store a n (fun m => mset m a c n).

Definition cmemmove (d a n : Z) : M fs_state unit :=
  if n =? 0 then mret tt else
  do! touch a in
  do! touch (a + n - 1) in
  store d n (fun m => mcpy m d a n).

(** ** fs/bc.c *)

Definition diskaddr (blockno : Z) : M fs_state Z :=
  let! sup := mgets super in
  if blockno =? 0 then mpanic "bad block number in diskaddr" else
  let! bad := (if sup =? 0 then mret false
               else let! n := ld32 (sup + off_s_nblocks) in mret (blockno >=? n)) in
  if bad : bool then mpanic "bad block number in diskaddr"
  else mret (u32 (DISKMAP + blockno * BLKSIZE)).

Definition flush_block (addr : Z) : M fs_state unit :=
  let blockno := blk_of addr in
  if negb (in_disk addr) then mpanic "flush_block of bad va" else
  let addr := ROUNDDOWN addr PGSIZE in
  let! clean := mgets (fun s => negb (va_is_mapped addr s) || negb (va_is_dirty addr s)) in
  if clean : bool then mret tt else
  let! r := ide_write (u32 (blockno * BLKSECTS)) addr BLKSECTS in
  if r <? 0 then mpanic "flush_block: ide_write" else
  mmodify (set_dirty blockno false).

(** [strcpy] of a literal or a local string into one block. *)
Definition cstrcpy (a : Z) (l : list Z) : M fs_state unit :=
  store a (Z.of_nat (length l) + 1) (fun m => wrbytes m a (l ++ [0])).

(** Does the string at [a] equal [l]?  What [strcmp(a, l) == 0] computes. *)
Fixpoint str_is (m : mem) (a : Z) (l : list Z) : bool :=
  match l with
  | [] => rd8 m a =? 0
  | c :: l => (rd8 m a =? c) && str_is m (a + 1) l
  end.

Definition cstreq (a : Z) (l : list Z) : M fs_state bool :=
  do! touch a in mgets (fun s => str_is (fmem s) a l).

Definition assert_ (b : bool) (what : string) : M fs_state unit :=
  if b then mret tt else mpanic what.

Definition sizeof_Super : Z := off_s_root + sizeof_File.

(** OOPS!\n *)
Definition oops : list Z := [79; 79; 80; 83; 33; 10].

(** [sys_page_unmap(0, va)] gives the page back. *)
Definition unmap_block (b : Z) : M fs_state unit :=
  mmodify (fun s => if cached s b then set_pages_left (pages_left s + 1) (set_cached b false s) else s).

Definition check_bc : M fs_state unit :=
  let! a := diskaddr 1 in
  do! touch a in
  let! backup := mgets (fun s => rdbytes (fmem s) a (Z.to_nat sizeof_Super)) in
  let! a := diskaddr 1 in
  do! cstrcpy a oops in
  let! a := diskaddr 1 in
  do! flush_block a in
  let! a := diskaddr 1 in
  let! m := mgets (va_is_mapped a) in
  do! assert_ m "va_is_mapped(diskaddr(1))" in
  let! d := mgets (va_is_dirty a) in
  do! assert_ (negb d) "!va_is_dirty(diskaddr(1))" in
  do! unmap_block (blk_of a) in
  let! m := mgets (va_is_mapped a) in
  do! assert_ (negb m) "!va_is_mapped(diskaddr(1))" in
  let! e := cstreq a oops in
  do! assert_ e "strcmp" in
  let! a := diskaddr 1 in
  do! store a sizeof_Super (fun m => wrbytes m a backup) in
  let! a := diskaddr 1 in
  do! flush_block a in
  mmodify (say "block cache is good").

(** The handler is [bc_pgfault] throughout; the copy of the super block is a
    local variable that is not used again. *)
Definition bc_init : M fs_state unit :=
  do! check_bc in
  let! a := diskaddr 1 in
  touch a.

(** ** The disk behind the cache

    [view] is the memory the code of fs/fs.c works on: the cached page of a
    block, or the block on the disk. *)

Definition view (s : fs_state) (a : Z) : Z :=
  if in_disk a && negb (cached s (blk_of a)) then disk s (a - DISKMAP) else fmem s a.

(** The bitmap bit of a block: set when the block is free. *)
Definition bit (v : mem) (b : Z) : bool :=
  flag (rd32 v (DISKMAP + 2 * BLKSIZE + 4 * (b / 32))) (Z.shiftl 1 (b mod 32)).

(** The first block that is not metadata: 0, the super block, the bitmap. *)
Definition first_data (N : Z) : Z := 2 + (N + 32767) / 32768.

(** What the cache relies on: a disk of [N] blocks on which the metadata blocks
    are marked in use. *)
Record sane (N : Z) (v : mem) : Prop := {
  sn_nblocks : rd32 v (DISKMAP + BLKSIZE + off_s_nblocks) = N;
  sn_meta : forall b, 0 <= b < first_data N -> bit v b = false
}.

(** The invariant of the cache. *)
Record bc_inv (N : Z) (s : fs_state) : Prop := {
  bi_size : first_data N <= N <= 786432;
  bi_super : super s = DISKMAP + BLKSIZE;
  bi_bitmap : bitmap s = DISKMAP + 2 * BLKSIZE;
  bi_cached1 : cached s 1 = true;
  bi_clean : forall b i, 0 <= b < N -> 0 <= i < 4096 -> cached s b = true -> dirty s b = false ->
    fmem s (DISKMAP + 4096 * b + i) = disk s (4096 * b + i);
  bi_pages : exists l, NoDup l /\ (forall b, 0 <= b < N -> cached s b = false -> b ∈ l)
    /\ Z.of_nat (length l) <= pages_left s;
  bi_sectors : forall k, 0 <= k < 8 * N -> bad_sector s k = false
}.

(** [s'] is [s] with more blocks cached. *)
Record same (s s' : fs_state) : Prop := {
  sm_view : forall x, view s' x = view s x;
  sm_disks : disks s' = disks s;
  sm_diskno : diskno s' = diskno s;
  sm_log : log s' = log s;
  sm_cached : forall b, cached s b = true -> cached s' b = true
}.

#[export] Instance same_preorder : PreOrder same.
Proof.
  split.
  - intros s. by split.
  - intros s1 s2 s3 [V1 D1 N1 L1 C1] [V2 D2 N2 L2 C2].
    split; [intros x; by rewrite V2|congruence..|auto].
Qed.

Ltac fs_cbn :=
  cbn [set_fmem set_cached set_dirty set_disk set_diskno set_pages_left set_super set_bitmap say
       fmem cached dirty disks diskno bad_sector pages_left super bitmap log] in *.

Lemma blk_of_eq a : DISKMAP <= a < DISKMAP + DISKSIZE -> blk_of a = (a - DISKMAP) / 4096.
Proof. unfold blk_of, DISKMAP, DISKSIZE. intros. by rewrite u32_id by lia. Qed.

Lemma in_disk_iff a : in_disk a = true <-> DISKMAP <= a < DISKMAP + DISKSIZE.
Proof. unfold in_disk. rewrite andb_true_iff, Z.leb_le, Z.ltb_lt. done. Qed.

(** The address of byte [i] of block [b]. *)
Lemma blk_addr b i :
  0 <= b < 786432 -> 0 <= i < 4096 ->
  in_disk (DISKMAP + 4096 * b + i) = true /\ blk_of (DISKMAP + 4096 * b + i) = b.
Proof.
  intros. assert (DISKMAP <= DISKMAP + 4096 * b + i < DISKMAP + DISKSIZE)
    by (unfold DISKMAP, DISKSIZE; lia).
  split; [by apply in_disk_iff|]. rewrite blk_of_eq by done. zdm.
Qed.

(** Every address of the disk map is one. *)
Lemma in_disk_split a :
  in_disk a = true ->
  exists i, 0 <= i < 4096 /\ a = DISKMAP + 4096 * blk_of a + i /\ 0 <= blk_of a < 786432.
Proof.
  intros H%in_disk_iff. exists ((a - DISKMAP) mod 4096). rewrite blk_of_eq by done.
  unfold DISKMAP, DISKSIZE in *. split; [zdm|]. split; zdm.
Qed.

Lemma rd32_view_ext v v' a : (forall x, v' x = v x) -> rd32 v' a = rd32 v a.
Proof. intros H. apply rd32_ext. auto. Qed.

Lemma sane_ext N v v' : (forall x, v' x = v x) -> sane N v -> sane N v'.
Proof.
  intros H [Hn Hm]. split.
  - by rewrite (rd32_view_ext v v').
  - intros b Hb. rewrite <- (Hm b Hb). unfold bit. by rewrite (rd32_view_ext v v').
Qed.

(** ** The drive *)

Lemma lba_id secno : 0 <= secno < 268435456 -> lba secno = secno.
Proof.
  intros H. unfold lba. change 255 with (Z.ones 8). change 15 with (Z.ones 4).
  rewrite !Z.land_ones, !Z.shiftr_div_pow2 by lia.
  change (2 ^ 8) with 256. change (2 ^ 16) with 65536. change (2 ^ 24) with 16777216.
  change (2 ^ 4) with 16.
  replace (secno / 65536) with (secno / 256 / 256) by (rewrite Z.div_div by lia; done).
  replace (secno / 16777216) with (secno / 256 / 256 / 256) by (rewrite !Z.div_div by lia; done).
  zdm.
Qed.

Lemma ide_read_loop_ok n : forall i secno dst s,
  0 <= secno < 268435456 ->
  (forall k, secno + i <= k < secno + i + Z.of_nat n -> bad_sector s k = false) ->
  exists m', ide_read_loop n i secno dst s = Ok 0 (set_fmem m' s)
    /\ forall x, m' x = xcpy (fmem s) dst (disk s) (512 * (secno + i)) (512 * Z.of_nat n) x.
Proof.
  induction n as [|n IH]; intros i secno dst s Hs Hb; cbn [ide_read_loop].
  - exists (fmem s). split; [by destruct s|]. intros x. unfold xcpy. by repeat bcase.
  - rewrite lba_id by done. rewrite Hb by lia.
    destruct (IH (i + 1) secno (dst + SECTSIZE)
      (set_fmem (xcpy (fmem s) dst (disk s) (SECTSIZE * (secno + i)) SECTSIZE) s)) as (m' & E & Hm).
    { done. } { intros k Hk. fs_cbn. apply Hb. lia. }
    exists m'. split; [rewrite E; by destruct s|]. intros x. rewrite Hm. unfold disk. fs_cbn.
    unfold xcpy, SECTSIZE. repeat bcase; try done; f_equal; lia.
Qed.

Lemma ide_write_loop_ok n : forall i secno src s,
  0 <= secno < 268435456 ->
  (forall k, secno + i <= k < secno + i + Z.of_nat n -> bad_sector s k = false) ->
  exists s', ide_write_loop n i secno src s = Ok 0 s'
    /\ (forall x, disk s' x = xcpy (disk s) (512 * (secno + i)) (fmem s) src (512 * Z.of_nat n) x)
    /\ fmem s' = fmem s /\ cached s' = cached s /\ dirty s' = dirty s /\ diskno s' = diskno s
    /\ bad_sector s' = bad_sector s /\ pages_left s' = pages_left s /\ super s' = super s
    /\ bitmap s' = bitmap s /\ log s' = log s.
Proof.
  induction n as [|n IH]; intros i secno src s Hs Hb; cbn [ide_write_loop].
  - exists s. repeat split. intros x. unfold xcpy. by repeat bcase.
  - rewrite lba_id by done. rewrite Hb by lia.
    set (s1 := set_disk (xcpy (disk s) (SECTSIZE * (secno + i)) (fmem s) src SECTSIZE) s).
    destruct (IH (i + 1) secno (src + SECTSIZE) s1) as (s' & E & Hd & Hr).
    { done. } { intros k Hk. apply Hb. lia. }
    exists s'. split; [exact E|]. split; [|exact Hr]. intros x. rewrite Hd.
    assert (disk s1 = xcpy (disk s) (SECTSIZE * (secno + i)) (fmem s) src SECTSIZE) as ->
      by (unfold s1, disk at 1; fs_cbn; by rewrite fn_lookup_insert).
    unfold s1. fs_cbn. unfold xcpy, SECTSIZE. repeat bcase; try done; f_equal; lia.
Qed.

(** ** Reading a block in *)

Lemma access_hit f a s :
  negb (in_disk a) || cached s (blk_of a) = true -> access f a s = Ok tt s.
Proof. intros H. destruct f; cbn [access]; unfold mbind, mgets; by rewrite H. Qed.

Lemma view_cached s a : cached s (blk_of a) = true -> view s a = fmem s a.
Proof. intros H. unfold view. by rewrite H, andb_false_r. Qed.

Lemma rd32_cached s b i :
  0 <= b < 786432 -> 0 <= i <= 4092 -> cached s b = true ->
  rd32 (fmem s) (DISKMAP + 4096 * b + i) = rd32 (view s) (DISKMAP + 4096 * b + i).
Proof.
  intros Hb Hi Hc. apply rd32_ext. intros x Hx. symmetry. apply view_cached.
  replace x with (DISKMAP + 4096 * b + (x - DISKMAP - 4096 * b)) by lia.
  destruct (blk_addr b (x - DISKMAP - 4096 * b)) as [_ ->]; [done|lia|done].
Qed.

Lemma load32_hit f s b i :
  0 <= b < 786432 -> 0 <= i <= 4092 -> cached s b = true ->
  load32 (access f) (DISKMAP + 4096 * b + i) s = Ok (rd32 (view s) (DISKMAP + 4096 * b + i)) s.
Proof.
  intros Hb Hi Hc. unfold load32, mbind, mgets.
  rewrite access_hit by (destruct (blk_addr b i) as [_ ->]; [done|lia|]; by rewrite Hc, orb_true_r).
  by rewrite rd32_cached.
Qed.

(** The effect of reading block [b] in: [s1] has it, clean. *)
Record read_in (b : Z) (s s1 : fs_state) : Prop := {
  ri_cached : cached s1 = <[b := true]> (cached s);
  ri_dirty : dirty s1 = <[b := false]> (dirty s);
  ri_fmem : forall x, fmem s1 x =
    if (DISKMAP + 4096 * b <=? x) && (x <? DISKMAP + 4096 * b + 4096)
    then disk s (x - DISKMAP) else fmem s x;
  ri_disks : disks s1 = disks s;
  ri_diskno : diskno s1 = diskno s;
  ri_bad : bad_sector s1 = bad_sector s;
  ri_super : super s1 = super s;
  ri_bitmap : bitmap s1 = bitmap s;
  ri_log : log s1 = log s;
  ri_pages : pages_left s1 = pages_left s - 1
}.

Lemma read_in_same b s s1 :
  0 <= b < 786432 -> cached s b = false -> read_in b s s1 -> same s s1.
Proof.
  intros Hb Hc [Ec Ed Em Edk Edn Ebs Esu Ebm El Ep]. split; try done.
  - intros x. unfold view, disk. rewrite Ec, Em, Edk, Edn.
    destruct (in_disk x) eqn:Hx; cbn [andb].
    + destruct (in_disk_split x Hx) as (i & Hi & Ex & Hbx).
      destruct (Z.eq_dec (blk_of x) b) as [Eb|Nb].
      * rewrite Eb, fn_lookup_insert, Hc. cbn [negb]. rewrite Eb in Ex. by repeat bcase.
      * rewrite fn_lookup_insert_ne by done. repeat bcase; done.
    + assert (~ (DISKMAP <= x < DISKMAP + DISKSIZE)) as Hn by (rewrite <- in_disk_iff; congruence).
      unfold DISKSIZE in Hn. repeat bcase; done.
  - intros c Hc'. rewrite Ec. destruct (decide (c = b)) as [->|]; by fsimpl.
Qed.

Lemma read_in_inv N b s s1 :
  0 <= b < N -> cached s b = false -> bc_inv N s -> read_in b s s1 -> bc_inv N s1.
Proof.
  intros Hb Hc [Hsz Hsu Hbm H1 Hcl (l & Hnd & Hin & Hlen) Hse]
    [Ec Ed Em Edk Edn Ebs Esu Ebm El Ep].
  split; try (by rewrite ?Esu, ?Ebm, ?Ebs); try done.
  - rewrite Ec. destruct (decide (1 = b)) as [<-|]; by fsimpl.
  - intros c i Hc' Hi Hcc Hdd. unfold disk. rewrite Em, Edk, Edn.
    rewrite Ec in Hcc. rewrite Ed in Hdd. destruct (decide (c = b)) as [->|].
    + fold (disk s). repeat bcase. f_equal. lia.
    + rewrite fn_lookup_insert_ne in Hcc, Hdd by done. fold (disk s).
      rewrite <- (Hcl c i) by done. repeat bcase.
  - assert (b ∈ l) as (l1 & l2 & ->)%list_elem_of_split by auto.
    exists (l1 ++ l2). rewrite <- (Permutation_middle l1 l2 b) in Hnd. inversion_clear Hnd as [|?? Hb' Hnd'].
    split; [done|]. split.
    + intros c Hc' Hcc. rewrite Ec in Hcc. destruct (decide (c = b)) as [->|].
      * by rewrite fn_lookup_insert in Hcc.
      * rewrite fn_lookup_insert_ne in Hcc by done. specialize (Hin c Hc' Hcc).
        apply elem_of_app in Hin as [?|[->|?]%elem_of_cons]; [|done|];
          apply elem_of_app; auto.
    + rewrite length_app in *. cbn [length] in Hlen. lia.
Qed.

Lemma pages_some N b s : 0 <= b < N -> cached s b = false -> bc_inv N s -> 0 < pages_left s.
Proof.
  intros Hb Hc Hi. destruct (bi_pages N s Hi) as (l & _ & Hin & Hl).
  specialize (Hin b Hb Hc). destruct l; [by apply not_elem_of_nil in Hin|]. cbn in Hl. lia.
Qed.

(** The nesting of page faults a block can cause. *)
Definition level (b : Z) : nat := if b =? 2 then 1 else if b <? 32768 then 2 else 3.

Lemma ROUNDDOWN_blk b i :
  0 <= b < 786432 -> 0 <= i < 4096 ->
  ROUNDDOWN (DISKMAP + 4096 * b + i) PGSIZE = DISKMAP + 4096 * b.
Proof. intros. unfold PGSIZE. rewrite ROUNDDOWN_page; unfold DISKMAP; zdm. Qed.

Lemma bit_addr b :
  DISKMAP + 2 * BLKSIZE + 4 * (b / 32)
  = DISKMAP + 4096 * (2 + b / 32768) + (4 * (b / 32) - 4096 * (b / 32768)).
Proof. unfold BLKSIZE, PGSIZE. lia. Qed.

Lemma bit_off b : 0 <= b -> 0 <= 4 * (b / 32) - 4096 * (b / 32768) <= 4092.
Proof.
  intros. replace (b / 32768) with (b / 32 / 1024) by (rewrite Z.div_div by lia; done). zdm.
Qed.

(** The check at the start of the handler and of [diskaddr]. *)
Lemma nblocks_read f N s :
  bc_inv N s -> sane N (view s) ->
  super s <> 0 /\ load32 (access f) (super s + off_s_nblocks) s = Ok N s.
Proof.
  intros Hi Hs. rewrite (bi_super N s Hi). split; [done|].
  change (DISKMAP + BLKSIZE + off_s_nblocks) with (DISKMAP + 4096 * 1 + 4).
  rewrite load32_hit; [|done|lia|apply (bi_cached1 N s Hi)].
  f_equal. apply (sn_nblocks N _ Hs).
Qed.

(** The handler reads the block in, and is left with the bitmap check. *)
Lemma pgfault_reads_in f N s b i :
  bc_inv N s -> sane N (view s) -> 0 <= b < N -> 0 <= i < 4096 -> cached s b = false ->
  exists s1, read_in b s s1
    /\ bc_pgfault (access f) (DISKMAP + 4096 * b + i) s
       = (let! free := block_is_free_via (access f) b in
          if free : bool then mpanic "reading free block" else mret tt) s1.
Proof.
  intros Hi Hs Hb Hii Hc. pose proof (bi_size N s Hi) as Hsz.
  destruct (blk_addr b i) as [Hin Hblk]; [lia|done|].
  destruct (nblocks_read f N s Hi Hs) as [Hsup Hload].
  unfold bc_pgfault. rewrite Hin, Hblk, ROUNDDOWN_blk by lia. cbn [negb].
  unfold mbind at 1, mgets at 1. destruct (Z.eqb_spec (super s) 0) as [|_]; [done|].
  unfold mbind at 1. unfold mbind at 1. rewrite Hload. cbn [mret].
  destruct (Z.geb_spec b N) as [|_]; [lia|].
  unfold mbind at 1, mgets at 1. pose proof (pages_some N b s Hb Hc Hi).
  destruct (Z.leb_spec (pages_left s) 0) as [|_]; [lia|].
  unfold mbind at 1, mmodify at 1. unfold mbind at 1.
  set (s0 := set_pages_left _ _).
  assert (u32 (b * BLKSECTS) = 8 * b) as -> by (change BLKSECTS with 8; rewrite u32_id; lia).
  destruct (ide_read_loop_ok 8 0 (8 * b) (DISKMAP + 4096 * b) s0) as (m' & E & Hm).
  { lia. } { intros k Hk. apply (bi_sectors N s Hi). lia. }
  change (ide_read (8 * b) (DISKMAP + 4096 * b) BLKSECTS s0)
    with (ide_read_loop 8 0 (8 * b) (DISKMAP + 4096 * b) s0).
  rewrite E. unfold mbind at 1, mmodify at 1. cbn [Z.ltb Z.compare].
  unfold mbind at 1, mgets at 1. set (s1 := set_dirty b false (set_fmem m' s0)).
  assert (bitmap s1 = DISKMAP + 2 * BLKSIZE) as Eb by apply (bi_bitmap N s Hi).
  exists s1. split.
  - split; try done.
    + intros x. unfold s1. fs_cbn. rewrite Hm. unfold s0, disk. fs_cbn. unfold xcpy, mset.
      change PGSIZE with 4096. repeat bcase; try done. f_equal. lia.
  - rewrite Eb. done.
Qed.

(** An access to a block that is cached or in use succeeds and changes nothing
    the code can see. *)
Lemma access_ok N f : forall s b i,
  bc_inv N s -> sane N (view s) -> 0 <= b < N -> 0 <= i < 4096 ->
  cached s b = true \/ (bit (view s) b = false /\ (level b <= f)%nat) ->
  exists s', access f (DISKMAP + 4096 * b + i) s = Ok tt s'
    /\ same s s' /\ bc_inv N s' /\ cached s' b = true.
Proof.
  induction f as [|f IH]; intros s b i Hi Hs Hb Hii Hor; pose proof (bi_size N s Hi) as Hsz;
    destruct (blk_addr b i) as [Hin Hblk]; [lia|done| |lia|done|];
    (destruct (cached s b) eqn:Hc;
      [exists s; rewrite access_hit by (by rewrite Hblk, Hc, orb_true_r); done|]);
    destruct Hor as [|[Hbit Hlev]]; try done.
  { unfold level in Hlev. destruct (b =? 2), (b <? 32768); lia. }
  destruct (pgfault_reads_in f N s b i Hi Hs Hb Hii Hc) as (s1 & Hri & E).
  cbn [access]. unfold mbind at 1, mgets at 1. rewrite Hin, Hblk, Hc. cbn [negb orb]. rewrite E.
  pose proof (read_in_same b s s1 ltac:(lia) Hc Hri) as Hsame.
  pose proof (read_in_inv N b s s1 Hb Hc Hi Hri) as Hi1.
  assert (sane N (view s1)) as Hs1 by (eapply sane_ext; [apply (sm_view _ _ Hsame)|done]).
  assert (cached s1 b = true) as Hc1 by (rewrite (ri_cached _ _ _ Hri); by fsimpl).
  destruct (nblocks_read f N s1 Hi1 Hs1) as [Hsup Hload].
  set (wb := 2 + b / 32768). set (wi := 4 * (b / 32) - 4096 * (b / 32768)).
  pose proof (bit_off b ltac:(lia)) as Hwi. fold wi in Hwi.
  assert (0 <= wb < first_data N) as Hwb by (unfold wb, first_data; zdm).
  destruct (IH s1 wb wi Hi1 Hs1 ltac:(lia) ltac:(lia)) as (s2 & Ea & Hsame2 & Hi2 & Hc2).
  { destruct (decide (wb = b)) as [->|Hne]; [by left|right]. split; [by apply (sn_meta N _ Hs1)|].
    revert Hlev. unfold level. destruct (Z.eqb_spec b 2) as [->|]; [done|].
    destruct (Z.ltb_spec b 32768), (Z.eqb_spec wb 2), (Z.ltb_spec wb 32768);
      unfold wb in *; try lia; exfalso; zdm. }
  exists s2. split; [|split; [by transitivity s1|split; [done|by apply (sm_cached _ _ Hsame2)]]].
  unfold mbind at 1, block_is_free_via. unfold mbind at 1, mgets at 1.
  destruct (Z.eqb_spec (super s1) 0) as [|_]; [done|].
  unfold mbind at 1. rewrite Hload. destruct (Z.geb_spec b N) as [|_]; [lia|].
  unfold mbind at 1, mgets at 1. rewrite (bi_bitmap N s1 Hi1), bit_addr. fold wb wi.
  unfold mbind at 1, load32, mbind at 1. rewrite Ea. unfold mgets.
  rewrite rd32_cached by (done || lia). unfold wb, wi. rewrite <- bit_addr.
  assert (bit (view s2) b = false) as Hb2.
  { unfold bit. rewrite (rd32_view_ext (view s1)) by apply (sm_view _ _ Hsame2).
    by rewrite (rd32_view_ext (view s)) by apply (sm_view _ _ Hsame). }
  unfold bit in Hb2. unfold mret. by rewrite Hb2.
Qed.

(** ** Loads and stores of the code above the cache *)

Definition ready (N : Z) (s : fs_state) : Prop := bc_inv N s /\ sane N (view s).

(** [s'] is a cache state after [s] in which the code sees the memory [v]; the
    disk has not changed. *)
Record moved (N : Z) (s s' : fs_state) (v : Z -> Z) : Prop := {
  mv_inv : bc_inv N s';
  mv_view : forall x, view s' x = v x;
  mv_disks : disks s' = disks s;
  mv_diskno : diskno s' = diskno s;
  mv_log : log s' = log s;
  mv_cached : forall b, cached s b = true -> cached s' b = true
}.

Lemma moved_same N s s' : bc_inv N s' -> same s s' -> moved N s s' (view s).
Proof. intros Hi [V D Dn L C]. by split. Qed.

Lemma moved_trans N s1 s2 s3 v2 v3 :
  moved N s1 s2 v2 -> moved N s2 s3 v3 -> moved N s1 s3 v3.
Proof. intros [I1 V1 D1 N1 L1 C1] [I2 V2 D2 N2 L2 C2]. split; try done; try congruence. auto. Qed.

Lemma moved_ext N s s' v v' : (forall x, v x = v' x) -> moved N s s' v -> moved N s s' v'.
Proof. intros E [I V D Dn L C]. split; try done. intros x. by rewrite V. Qed.

Lemma moved_ready N s s' v : moved N s s' v -> sane N v -> ready N s'.
Proof. intros Hm Hv. split; [apply Hm|]. eapply sane_ext; [apply (mv_view _ _ _ _ Hm)|done]. Qed.

Lemma ready_moved N s s' : ready N s -> moved N s s' (view s) -> ready N s'.
Proof. intros [_ Hs] Hm. by eapply moved_ready. Qed.

(** The block may be accessed. *)
Definition usable (N : Z) (s : fs_state) (b : Z) : Prop :=
  0 <= b < N /\ (cached s b = true \/ bit (view s) b = false).

Lemma usable_moved N s s' b : usable N s b -> moved N s s' (view s) -> usable N s' b.
Proof.
  intros [Hb Hor] Hm. split; [done|]. destruct Hor as [Hc|Hf].
  - left. by apply (mv_cached _ _ _ _ Hm).
  - right. rewrite <- Hf. unfold bit. by rewrite (rd32_view_ext (view s)) by apply (mv_view _ _ _ _ Hm).
Qed.

Lemma touch_ok N s b i :
  ready N s -> usable N s b -> 0 <= i < 4096 ->
  wp (touch (DISKMAP + 4096 * b + i))
    (fun _ s' => moved N s s' (view s) /\ cached s' b = true) s.
Proof.
  intros [Hi Hs] [Hb Hor] Hii.
  destruct (access_ok N 4 s b i Hi Hs Hb Hii) as (s' & E & Hsame & Hi' & Hc).
  { destruct Hor as [?|?]; [by left|right; split; [done|]].
    unfold level. destruct (b =? 2), (b <? 32768); lia. }
  eapply wp_of; [exact E|]. split; [by apply moved_same|done].
Qed.

Lemma ld32_ok N s b i :
  ready N s -> usable N s b -> 0 <= i <= 4092 ->
  wp (ld32 (DISKMAP + 4096 * b + i))
    (fun v s' => v = rd32 (view s) (DISKMAP + 4096 * b + i) /\ moved N s s' (view s)) s.
Proof.
  intros Hr Hu Hi. unfold ld32, load32. wstep.
  eapply wp_mono; [apply touch_ok; [done|done|lia]|]. intros _ s' [Hm Hc]. wstep.
  split; [|done]. pose proof (bi_size _ _ (mv_inv _ _ _ _ Hm)). destruct Hu as [Hb _].
  rewrite rd32_cached by (done || lia). apply rd32_view_ext. apply (mv_view _ _ _ _ Hm).
Qed.

Lemma ld8_ok N s b i :
  ready N s -> usable N s b -> 0 <= i < 4096 ->
  wp (ld8 (DISKMAP + 4096 * b + i))
    (fun v s' => v = rd8 (view s) (DISKMAP + 4096 * b + i) /\ moved N s s' (view s)) s.
Proof.
  intros Hr Hu Hi. unfold ld8. wstep.
  eapply wp_mono; [apply touch_ok; [done|done|lia]|]. intros _ s' [Hm Hc]. wstep.
  split; [|done]. pose proof (bi_size _ _ (mv_inv _ _ _ _ Hm)). destruct Hu as [Hb _].
  destruct (blk_addr b i) as [_ Eb]; [lia|done|].
  unfold rd8. rewrite <- (mv_view _ _ _ _ Hm), view_cached by (by rewrite Eb). done.
Qed.

(** A write that marks every block it changes as dirty keeps the cache
    coherent. *)
Lemma write_inv N s m' s' :
  bc_inv N s -> fmem s' = m' -> cached s' = cached s -> disks s' = disks s -> diskno s' = diskno s ->
  bad_sector s' = bad_sector s -> pages_left s' = pages_left s -> super s' = super s ->
  bitmap s' = bitmap s ->
  (forall b, dirty s b = true -> dirty s' b = true) ->
  (forall b i, 0 <= b < N -> 0 <= i < 4096 -> cached s b = true ->
     m' (DISKMAP + 4096 * b + i) = fmem s (DISKMAP + 4096 * b + i) \/ dirty s' b = true) ->
  bc_inv N s'.
Proof.
  intros [Hsz Hsu Hbm H1 Hcl Hp Hse] Em Ec Edk Edn Ebs Epl Esu Ebm Hd Hw.
  split; rewrite ?Esu, ?Ebm, ?Ebs, ?Ec, ?Epl; try done.
  intros b i Hb Hi Hc Hdb. unfold disk. rewrite Edk, Edn. fold (disk s). rewrite Em.
  destruct (Hw b i Hb Hi Hc) as [->|E]; [|congruence]. apply Hcl; try done.
  destruct (dirty s b) eqn:E; [|done]. apply Hd in E. congruence.
Qed.

Lemma soil_fields a s :
  fmem (soil a s) = fmem s /\ cached (soil a s) = cached s /\ disks (soil a s) = disks s
  /\ diskno (soil a s) = diskno s /\ bad_sector (soil a s) = bad_sector s
  /\ pages_left (soil a s) = pages_left s /\ super (soil a s) = super s
  /\ bitmap (soil a s) = bitmap s /\ log (soil a s) = log s.
Proof. unfold soil. by destruct (in_disk a). Qed.

Lemma soil_dirty a s b :
  dirty (soil a s) b = (in_disk a && (b =? blk_of a)) || dirty s b.
Proof.
  unfold soil. destruct (in_disk a); [|done]. fs_cbn. destruct (Z.eqb_spec b (blk_of a)) as [->|].
  - by rewrite fn_lookup_insert.
  - by rewrite fn_lookup_insert_ne.
Qed.

(** A byte of a range of at most a page lies in the page of one of its ends. *)
Lemma store_present a n x :
  0 < n <= 4096 -> in_disk x = true -> a <= x < a + n ->
  (in_disk a = true /\ blk_of x = blk_of a)
  \/ (in_disk (a + n - 1) = true /\ blk_of x = blk_of (a + n - 1)).
Proof.
  intros Hn Hx Hr. destruct (in_disk_split x Hx) as (i & Hii & Ex & Hb).
  apply in_disk_iff in Hx. unfold DISKMAP, DISKSIZE in *.
  destruct (Z.le_gt_cases (268435456 + 4096 * blk_of x) a).
  - left. assert (268435456 <= a < 268435456 + 3221225472) as Hda by lia.
    split; [by apply in_disk_iff|]. rewrite (blk_of_eq a) by done. unfold DISKMAP. zdm.
  - right. assert (268435456 <= a + n - 1 < 268435456 + 3221225472) as Hda by lia.
    split; [by apply in_disk_iff|]. rewrite (blk_of_eq (a + n - 1)) by done. unfold DISKMAP. zdm.
Qed.

(** A store of [n] bytes at [a], the pages of both ends present. *)
Lemma store_moved N s a n m' :
  bc_inv N s -> 0 < n <= 4096 ->
  (forall x, x < a \/ a + n <= x -> m' x = fmem s x) ->
  (in_disk a = true -> cached s (blk_of a) = true) ->
  (in_disk (a + n - 1) = true -> cached s (blk_of (a + n - 1)) = true) ->
  moved N s (soil a (soil (a + n - 1) (set_fmem m' s)))
    (fun x => if (a <=? x) && (x <? a + n) then m' x else view s x).
Proof.
  intros Hi Hn Hm Ha He. set (s1 := set_fmem m' s). set (s2 := soil (a + n - 1) s1).
  set (s3 := soil a s2).
  destruct (soil_fields a s2) as (F1 & F2 & F3 & F4 & F5 & F6 & F7 & F8 & F9).
  destruct (soil_fields (a + n - 1) s1) as (G1 & G2 & G3 & G4 & G5 & G6 & G7 & G8 & G9).
  fold s3 in F1, F2, F3, F4, F5, F6, F7, F8, F9. fold s2 in G1, G2, G3, G4, G5, G6, G7, G8, G9.
  rewrite G1 in F1. rewrite G2 in F2. rewrite G3 in F3. rewrite G4 in F4. rewrite G5 in F5.
  rewrite G6 in F6. rewrite G7 in F7. rewrite G8 in F8. rewrite G9 in F9.
  clear G1 G2 G3 G4 G5 G6 G7 G8 G9.
  pose proof (fun x Hx Hr => store_present a n x Hn Hx Hr) as Hends.
  assert (bc_inv N s3) as Hi3.
  { apply (write_inv N s m'); try done.
    - intros b Hb. unfold s3, s2. rewrite !soil_dirty.
      change (dirty s1 b) with (dirty s b). by rewrite Hb, !orb_true_r.
    - intros b i Hb Hii Hc. set (x := DISKMAP + 4096 * b + i).
      destruct (decide (a <= x < a + n)) as [Hr|]; [right|left; apply Hm; lia].
      pose proof (bi_size N s Hi). destruct (blk_addr b i) as [Hx Eb]; [lia|done|].
      fold x in Hx, Eb. unfold s3, s2. rewrite !soil_dirty.
      destruct (Hends x Hx Hr) as [[-> E]|[-> E]]; rewrite <- E, Eb, Z.eqb_refl;
        cbn [andb orb]; by rewrite ?orb_true_r. }
  split; try done.
  - intros x. unfold view, disk. rewrite F1, F2, F3, F4. unfold s1. fs_cbn.
    destruct ((a <=? x) && (x <? a + n)) eqn:E.
    + apply andb_true_iff in E as [E1%Z.leb_le E2%Z.ltb_lt].
      destruct (in_disk x) eqn:Hx; [|done]. cbn [andb].
      destruct (Hends x Hx ltac:(lia)) as [[Hd ->]|[Hd ->]]; [by rewrite Ha|by rewrite He].
    + destruct (in_disk x && negb (cached s (blk_of x))); [done|]. apply Hm.
      apply andb_false_iff in E as [E%Z.leb_gt|E%Z.ltb_ge]; lia.
  - intros b Hb. rewrite F2. exact Hb.
Qed.

(** An address outside the disk map, or in a block that may be accessed. *)
Definition reach (N : Z) (s : fs_state) (a : Z) : Prop :=
  in_disk a = true -> usable N s (blk_of a).

Lemma reach_moved N s s' a : reach N s a -> moved N s s' (view s) -> reach N s' a.
Proof. intros Hr Hm Hd. eapply usable_moved; [by apply Hr|done]. Qed.

Lemma reach_blk N s b i :
  0 <= b < 786432 -> usable N s b -> 0 <= i < 4096 -> reach N s (DISKMAP + 4096 * b + i).
Proof. intros Hb Hu Hi _. by destruct (blk_addr b i) as [_ ->]. Qed.

Lemma touch_reach N s a :
  ready N s -> reach N s a ->
  wp (touch a) (fun _ s' => moved N s s' (view s)
    /\ (in_disk a = true -> cached s' (blk_of a) = true)) s.
Proof.
  intros Hr Ha. destruct (in_disk a) eqn:Hd.
  - destruct (in_disk_split a Hd) as (i & Hi & E & _). rewrite E at 1.
    eapply wp_mono; [apply touch_ok; [done|by apply Ha|done]|]. intros _ s' [Hm Hc].
    split; [done|]. by intros _.
  - eapply wp_of; [apply access_hit; by rewrite Hd|].
    split; [|done]. apply moved_same; [apply Hr|reflexivity].
Qed.

(** [P] are the addresses whose contents [f] depends on. *)
Lemma store_ok N s a n f (P : Z -> Prop) :
  ready N s -> 0 < n <= 4096 -> reach N s a -> reach N s (a + n - 1) ->
  (forall y, P y -> in_disk y = true -> cached s (blk_of y) = true) ->
  (forall m x, x < a \/ a + n <= x -> f m x = m x) ->
  (forall m m' x, (forall y, P y -> m y = m' y) -> a <= x < a + n -> f m x = f m' x) ->
  wp (store a n f) (fun _ s' => moved N s s' (f (view s))) s.
Proof.
  intros Hr Hn Ha He HP Hout Hin. unfold store. wstep.
  eapply wp_mono; [by apply touch_reach|]. intros _ s1 [M1 C1].
  pose proof (ready_moved _ _ _ Hr M1) as Hr1. wstep.
  eapply wp_mono; [apply touch_reach; [done|by eapply reach_moved]|]. intros _ s2 [M2 C2].
  wstep.
  assert (in_disk a = true -> cached s2 (blk_of a) = true) as C1'
    by (intros; apply (mv_cached _ _ _ _ M2); auto).
  pose proof (store_moved N s2 a n (f (fmem s2)) (mv_inv _ _ _ _ M2) Hn
    (fun x Hx => Hout _ x Hx) C1' C2) as M3.
  assert (forall x, view s2 x = view s x) as V.
  { intros x. by rewrite (mv_view _ _ _ _ M2), (mv_view _ _ _ _ M1). }
  pose proof (moved_trans _ _ _ _ _ _ M1 (moved_trans _ _ _ _ _ _ M2 M3)) as M13.
  eapply moved_ext; [|exact M13]. intros x. cbn beta.
  destruct ((a <=? x) && (x <? a + n)) eqn:E.
  - apply andb_true_iff in E as [E1%Z.leb_le E2%Z.ltb_lt]. apply Hin; [|lia].
    intros y Hy. rewrite <- V. unfold view. destruct (in_disk y) eqn:Ey; [|done].
    by rewrite (mv_cached _ _ _ _ M2), andb_false_r by (apply (mv_cached _ _ _ _ M1); auto).
  - rewrite V, Hout; [done|]. apply andb_false_iff in E as [E%Z.leb_gt|E%Z.ltb_ge]; lia.
Qed.

Lemma st32_ok N s b i v :
  ready N s -> usable N s b -> 0 <= i <= 4092 ->
  wp (st32 (DISKMAP + 4096 * b + i) v)
    (fun _ s' => moved N s s' (wr32 (view s) (DISKMAP + 4096 * b + i) v)) s.
Proof.
  intros Hr Hu Hi. pose proof (bi_size N s (proj1 Hr)) as Hsz. pose proof (proj1 Hu) as Hb.
  apply (store_ok N s _ 4 (fun m => wr32 m (DISKMAP + 4096 * b + i) v) (fun _ => False)); try done.
  - apply reach_blk; [lia|done|lia].
  - replace (DISKMAP + 4096 * b + i + 4 - 1) with (DISKMAP + 4096 * b + (i + 3)) by lia.
    apply reach_blk; [lia|done|lia].
  - intros m x Hx. by apply wr32_out.
  - intros m m' x _ Hx. unfold wr32. set (a := DISKMAP + 4096 * b + i) in *.
    assert (x = a \/ x = a + 1 \/ x = a + 2 \/ x = a + 3) as [->|[->|[->| ->]]] by lia;
      by fsimpl.
Qed.

Lemma cmemset_ok N s b c :
  ready N s -> usable N s b ->
  wp (cmemset (DISKMAP + 4096 * b) c 4096)
    (fun _ s' => moved N s s' (mset (view s) (DISKMAP + 4096 * b) c 4096)) s.
Proof.
  intros Hr Hu. pose proof (bi_size N s (proj1 Hr)) as Hsz. pose proof (proj1 Hu) as Hb.
  apply (store_ok N s _ 4096 (fun m => mset m (DISKMAP + 4096 * b) c 4096) (fun _ => False));
    try done.
  - replace (DISKMAP + 4096 * b) with (DISKMAP + 4096 * b + 0) by lia.
    apply reach_blk; [lia|done|lia].
  - replace (DISKMAP + 4096 * b + 4096 - 1) with (DISKMAP + 4096 * b + 4095) by lia.
    apply reach_blk; [lia|done|lia].
  - intros m x Hx. by apply mset_out.
  - intros m m' x _ Hx. by rewrite !mset_in.
Qed.

Lemma cmemmove_ok N s d a n :
  ready N s -> 0 <= n <= 4096 ->
  (0 < n -> reach N s a /\ reach N s (a + n - 1) /\ reach N s d /\ reach N s (d + n - 1)) ->
  wp (cmemmove d a n) (fun _ s' => moved N s s' (mcpy (view s) d a n)) s.
Proof.
  intros Hr Hn Hreach. unfold cmemmove. destruct (Z.eqb_spec n 0) as [->|].
  { wstep. eapply moved_ext; [|apply moved_same; [apply Hr|reflexivity]].
    intros x. unfold mcpy. by repeat bcase. }
  destruct Hreach as (R1 & R2 & R3 & R4); [lia|]. wstep.
  eapply wp_mono; [by apply touch_reach|]. intros _ s1 [M1 C1].
  pose proof (ready_moved _ _ _ Hr M1) as Hr1. wstep.
  eapply wp_mono; [apply touch_reach; [done|by eapply reach_moved]|]. intros _ s2 [M2 C2].
  pose proof (ready_moved _ _ _ Hr1 M2) as Hr2.
  assert (moved N s s2 (view s)) as M12.
  { eapply moved_ext; [|exact (moved_trans _ _ _ _ _ _ M1 M2)]. apply (mv_view _ _ _ _ M1). }
  eapply wp_mono; [apply (store_ok N s2 d n (fun m => mcpy m d a n) (fun y => a <= y < a + n))|].
  - done.
  - lia.
  - by eapply reach_moved.
  - by eapply reach_moved.
  - intros y Hy Hd. destruct (store_present a n y) as [[E3 ->]|[E3 ->]]; [lia|done|done| |by apply C2].
    apply (mv_cached _ _ _ _ M2). by apply C1.
  - intros m x Hx. by apply mcpy_out.
  - intros m m' x Hm Hx. rewrite !mcpy_in by done. apply Hm. lia.
  - intros u s3 M3. cbn beta in M3. eapply moved_ext; [|exact (moved_trans _ _ _ _ _ _ M12 M3)].
    intros x. unfold mcpy. rewrite !(mv_view _ _ _ _ M12). done.
Qed.

(** ** diskaddr and flush_block *)

Lemma diskaddr_ok N s b :
  ready N s -> 0 < b < N -> diskaddr b s = Ok (DISKMAP + 4096 * b) s.
Proof.
  intros [Hi Hs] Hb. pose proof (bi_size N s Hi). destruct (nblocks_read 4 N s Hi Hs) as [Hsup Hl].
  unfold diskaddr. unfold mbind at 1, mgets at 1. destruct (Z.eqb_spec b 0) as [|_]; [lia|].
  destruct (Z.eqb_spec (super s) 0) as [|_]; [done|]. unfold mbind at 1. unfold mbind at 1.
  change (ld32 (super s + off_s_nblocks) s) with (load32 (access 4) (super s + off_s_nblocks) s).
  rewrite Hl. unfold mret at 1. destruct (Z.geb_spec b N) as [|_]; [lia|].
  unfold mret. f_equal. change BLKSIZE with 4096. unfold DISKMAP. rewrite u32_id; lia.
Qed.

Lemma diskaddr_bad N s b :
  ready N s -> b = 0 \/ N <= b -> diskaddr b s = Panics "bad block number in diskaddr" s.
Proof.
  intros [Hi Hs] Hb. pose proof (bi_size N s Hi). destruct (nblocks_read 4 N s Hi Hs) as [Hsup Hl].
  unfold diskaddr. unfold mbind at 1, mgets at 1. destruct (Z.eqb_spec b 0) as [|]; [done|].
  destruct (Z.eqb_spec (super s) 0) as [|_]; [done|]. unfold mbind at 1. unfold mbind at 1.
  change (ld32 (super s + off_s_nblocks) s) with (load32 (access 4) (super s + off_s_nblocks) s).
  rewrite Hl. unfold mret at 1. destruct (Z.geb_spec b N) as [_|]; [done|lia].
Qed.

(** [s'] is [s] with block [b] written back. *)
Record flushed (N b : Z) (s s' : fs_state) : Prop := {
  fl_inv : bc_inv N s';
  fl_view : forall x, view s' x = view s x;
  fl_disk : forall i, 0 <= i < 4096 -> disk s' (4096 * b + i) = view s (DISKMAP + 4096 * b + i);
  fl_other : forall x, x < 4096 * b \/ 4096 * b + 4096 <= x -> disk s' x = disk s x;
  fl_cached : cached s' = cached s;
  fl_log : log s' = log s;
  fl_diskno : diskno s' = diskno s
}.

Lemma flush_block_ok N s b i :
  ready N s -> 0 <= b < N -> 0 <= i < 4096 ->
  wp (flush_block (DISKMAP + 4096 * b + i)) (fun _ s' => flushed N b s s') s.
Proof.
  intros [Hi Hs] Hb Hii. pose proof (bi_size N s Hi) as Hsz.
  destruct (blk_addr b i) as [Hin Hblk]; [lia|done|].
  assert (blk_of (DISKMAP + 4096 * b) = b) as Hblk0.
  { replace (DISKMAP + 4096 * b) with (DISKMAP + 4096 * b + 0) by lia. apply blk_addr; lia. }
  unfold flush_block. rewrite Hin, Hblk, ROUNDDOWN_blk by lia. cbn [negb].
  wstep. wstep. unfold va_is_mapped, va_is_dirty. rewrite Hblk0.
  destruct (negb (cached s b) || negb (dirty s b)) eqn:Hclean.
  - wstep. split; try done. intros j Hj. destruct (blk_addr b j) as [Hd Eb]; [lia|done|].
    unfold view. rewrite Hd, Eb. destruct (cached s b) eqn:Hc; cbn [negb andb orb] in *.
    + symmetry. apply (bi_clean N s Hi); try done. by apply negb_true_iff in Hclean.
    + f_equal. lia.
  - apply orb_false_iff in Hclean as [Hc%negb_false_iff Hd%negb_false_iff].
    wstep.
    assert (u32 (b * BLKSECTS) = 8 * b) as -> by (change BLKSECTS with 8; rewrite u32_id; lia).
    destruct (ide_write_loop_ok 8 0 (8 * b) (DISKMAP + 4096 * b) s)
      as (s1 & E & Hdk & Em & Ec & Ed & En & Ebs & Ep & Es & Ebm & El).
    { lia. } { intros k Hk. apply (bi_sectors N s Hi). lia. }
    eapply wp_of; [exact E|]. cbn [Z.ltb Z.compare]. wstep.
    set (s2 := set_dirty b false s1).
    assert (forall x, disk s2 x = xcpy (disk s) (4096 * b) (fmem s) (DISKMAP + 4096 * b) 4096 x) as Hdk2.
    { intros x. change (disk s2 x) with (disk s1 x). rewrite Hdk. f_equal; lia. }
    assert (forall x, x < 4096 * b \/ 4096 * b + 4096 <= x -> disk s2 x = disk s x) as Hother.
    { intros x Hx. rewrite Hdk2. unfold xcpy. by repeat bcase. }
    assert (forall x, view s2 x = view s x) as Hv.
    { intros x. unfold view. change (cached s2) with (cached s1). change (fmem s2) with (fmem s1).
      rewrite Ec, Em. destruct (in_disk x) eqn:Hx; [|done]. cbn [andb].
      destruct (cached s (blk_of x)) eqn:Hcx; [done|]. cbn [negb]. apply Hother.
      destruct (in_disk_split x Hx) as (j & Hj & Ex & _).
      assert (blk_of x <> b) by congruence. unfold DISKMAP in *. lia. }
    split; try done.
    + destruct Hi as [_ Hsu Hbm H1 Hcl Hp Hse].
      split; unfold s2; fs_cbn; rewrite ?Es, ?Ebm, ?Ec, ?Ep, ?Ebs; try done.
      intros c j Hcb Hj Hcc. change (disk (set_dirty b false s1)) with (disk s2).
      rewrite Hdk2, Em, Ed. unfold xcpy. destruct (decide (c = b)) as [->|].
      * intros _. repeat bcase. f_equal. lia.
      * rewrite fn_lookup_insert_ne by done. intros Hdc. rewrite Hcl by done. repeat bcase; done.
    + intros j Hj. rewrite Hdk2. unfold xcpy. repeat bcase.
      destruct (blk_addr b j) as [_ Eb]; [lia|done|]. rewrite view_cached by (by rewrite Eb).
      f_equal. lia.
Qed.

(** ** The cache refines a flat memory *)

(** What a client does with a block: load or store a word, or write it back. *)
Inductive cop :=
| CLoad (b i : Z)
| CStore (b i v : Z)
| CFlush (b : Z).

(** The specification: one memory, in which writing back does nothing. *)
Definition flat_op (o : cop) (v : mem) : list Z * mem :=
  match o with
  | CLoad b i => ([rd32 v (DISKMAP + 4096 * b + i)], v)
  | CStore b i x => ([], wr32 v (DISKMAP + 4096 * b + i) x)
  | CFlush _ => ([], v)
  end.

Definition cache_op (o : cop) : M fs_state (list Z) :=
  match o with
  | CLoad b i => let! a := diskaddr b in let! x := ld32 (a + i) in mret [x]
  | CStore b i v => let! a := diskaddr b in do! st32 (a + i) v in mret []
  | CFlush b => let! a := diskaddr b in do! flush_block a in mret []
  end.

Fixpoint flat_run (ops : list cop) (v : mem) : list Z * mem :=
  match ops with
  | [] => ([], v)
  | o :: ops => let '(r, v) := flat_op o v in let '(rs, v) := flat_run ops v in (r ++ rs, v)
  end.

Fixpoint cache_run (ops : list cop) : M fs_state (list Z) :=
  match ops with
  | [] => mret []
  | o :: ops => let! r := cache_op o in let! rs := cache_run ops in mret (r ++ rs)
  end.

(** The operation is on a word of a data block in use. *)
Definition valid_op (N : Z) (v : mem) (o : cop) : Prop :=
  match o with
  | CLoad b i | CStore b i _ => first_data N <= b < N /\ bit v b = false /\ 0 <= i <= 4092
  | CFlush b => first_data N <= b < N
  end.

(** The metadata of [v'] is that of [v]. *)
Definition same_meta (N : Z) (v v' : Z -> Z) : Prop :=
  forall x, DISKMAP + 4096 <= x < DISKMAP + 4096 * first_data N -> v' x = v x.

Lemma same_meta_bit N v v' b : 0 <= b < N -> same_meta N v v' -> bit v' b = bit v b.
Proof.
  intros Hb H. unfold bit. rewrite (rd32_ext v' v); [done|]. intros x Hx. apply H.
  rewrite bit_addr in Hx. pose proof (bit_off b ltac:(lia)). unfold first_data.
  assert (b / 32768 < (N + 32767) / 32768) by zdm. assert (0 <= b / 32768) by zdm. lia.
Qed.

Lemma first_data_3 N : 0 < N -> 3 <= first_data N.
Proof. intros. unfold first_data. zdm. Qed.

Lemma same_meta_sane N v v' : first_data N <= N -> same_meta N v v' -> sane N v -> sane N v'.
Proof.
  intros Hsz H [Hn Hm].
  assert (0 < N) as HN by (unfold first_data in *; zdm). pose proof (first_data_3 N HN).
  split.
  - rewrite <- Hn. apply rd32_ext. intros x Hx. apply H.
    unfold off_s_nblocks, BLKSIZE, PGSIZE in Hx. lia.
  - intros b Hb. rewrite (same_meta_bit N v) by (done || lia). by apply Hm.
Qed.

Lemma same_meta_wr32 N v b i x :
  first_data N <= b -> 0 <= i -> same_meta N v (wr32 v (DISKMAP + 4096 * b + i) x).
Proof. intros Hb Hi y Hy. apply wr32_out. lia. Qed.

Lemma cache_op_ok N s o :
  ready N s -> valid_op N (view s) o ->
  wp (cache_op o) (fun r s' => r = (flat_op o (view s)).1 /\ ready N s'
    /\ (forall x, view s' x = (flat_op o (view s)).2 x)
    /\ (forall o', valid_op N (view s) o' -> valid_op N (view s') o')) s.
Proof.
  intros Hr Ho. pose proof (bi_size N s (proj1 Hr)) as Hsz.
  assert (0 < N) as HN by (unfold first_data in *; zdm). pose proof (first_data_3 N HN) as H3.
  assert (forall v', same_meta N (view s) v' -> forall o', valid_op N (view s) o' -> valid_op N v' o')
    as Hval.
  { intros v' Hm [b i|b i v|b]; cbn; [intros (?&?&?)..|done];
      rewrite (same_meta_bit N (view s)) by (done || lia); done. }
  destruct o as [b i|b i v|b]; cbn in Ho; cbn [cache_op flat_op fst snd]; wstep;
    (eapply wp_of; [apply diskaddr_ok with (N := N); [done|lia]|]); wstep.
  - destruct Ho as (Hb & Hbit & Hi).
    eapply wp_mono; [apply (ld32_ok N); [done|split; [lia|by right]|done]|].
    intros w s' [-> Hm]. wstep. split; [done|]. split; [by eapply ready_moved|].
    split; [apply (mv_view _ _ _ _ Hm)|]. apply Hval. intros x _. apply (mv_view _ _ _ _ Hm).
  - destruct Ho as (Hb & Hbit & Hi).
    eapply wp_mono; [apply (st32_ok N); [done|split; [lia|by right]|done]|].
    intros [] s' Hm. cbn beta in Hm. wstep. split; [done|].
    pose proof (same_meta_wr32 N (view s) b i v ltac:(lia) ltac:(lia)) as Hsm.
    split; [eapply moved_ready; [done|eapply same_meta_sane; [lia|done|apply Hr]]|].
    split; [apply (mv_view _ _ _ _ Hm)|]. apply Hval. intros x Hx.
    rewrite (mv_view _ _ _ _ Hm). by apply Hsm.
  - replace (DISKMAP + 4096 * b) with (DISKMAP + 4096 * b + 0) by lia.
    eapply wp_mono; [apply (flush_block_ok N); [done|lia|lia]|]. intros [] s' Hf.
    cbn beta in Hf. wstep. split; [done|].
    split; [split; [apply Hf|eapply sane_ext; [apply (fl_view _ _ _ _ Hf)|apply Hr]]|].
    split; [apply (fl_view _ _ _ _ Hf)|]. apply Hval. intros x _. apply (fl_view _ _ _ _ Hf).
Qed.

Lemma flat_run_ext ops : forall v v',
  (forall x, v x = v' x) ->
  (flat_run ops v).1 = (flat_run ops v').1
  /\ forall x, (flat_run ops v).2 x = (flat_run ops v').2 x.
Proof.
  induction ops as [|o ops IH]; intros v v' E; cbn [flat_run]; [done|].
  assert ((flat_op o v).1 = (flat_op o v').1
    /\ forall x, (flat_op o v).2 x = (flat_op o v').2 x) as [E1 E2].
  { destruct o as [b i|b i y|b]; cbn; [|split; [done|]|done].
    - by rewrite (rd32_view_ext v' v).
    - intros x. unfold wr32. set (a := DISKMAP + 4096 * b + i).
      destruct (decide (x = a)) as [->|]; [by fsimpl|].
      destruct (decide (x = a + 1)) as [->|]; [by fsimpl|].
      destruct (decide (x = a + 2)) as [->|]; [by fsimpl|].
      destruct (decide (x = a + 3)) as [->|]; by fsimpl. }
  destruct (flat_op o v) as [r w], (flat_op o v') as [r' w']. cbn in E1, E2. subst r'.
  destruct (IH w w' E2) as [E3 E4].
  destruct (flat_run ops w) as [rs u], (flat_run ops w') as [rs' u']. cbn in *. by subst.
Qed.

(** C38: the block cache is transparent.  Whatever words of data blocks a client
    loads, stores and writes back, and in whatever order, nothing panics, the
    loads return what they return from one flat memory, and that memory is
    what the cache and the disk together hold in the end. *)
Theorem cache_transparent (N : Z) (ops : list cop) (s : fs_state) :
  ready N s -> Forall (valid_op N (view s)) ops ->
  exists s', cache_run ops s = Ok (flat_run ops (view s)).1 s'
    /\ ready N s' /\ forall x, view s' x = (flat_run ops (view s)).2 x.
Proof.
  revert s. induction ops as [|o ops IH]; intros s Hr Hv; [by exists s|].
  apply Forall_cons in Hv as [Ho Hv].
  destruct (wp_run _ _ _ (cache_op_ok N s o Hr Ho)) as (r & s1 & E1 & -> & Hr1 & V1 & Hval).
  destruct (IH s1 Hr1) as (s2 & E2 & Hr2 & V2); [eapply Forall_impl; [exact Hv|apply Hval]|].
  exists s2. cbn [cache_run flat_run]. unfold mbind. rewrite E1, E2.
  destruct (flat_op o (view s)) as [r v]. cbn [fst snd] in *.
  destruct (flat_run_ext ops (view s1) v V1) as [F1 F2].
  destruct (flat_run ops (view s1)) as [rs u], (flat_run ops v) as [rs' u']. cbn [fst snd] in *.
  subst rs'. split; [done|]. split; [done|]. intros x. by rewrite V2, F2.
Qed.

(** ** A small disk: 8 blocks, of which 3 is in use and 4 to 7 are free *)

Definition demo_disk : Z -> Z :=
  wr32 (wr32 (wr32 (fun _ => 0) 4096 FS_MAGIC) 4100 8) 8192 240.

Definition demo_fs : fs_state :=
  mkFs (fun x => demo_disk (x - DISKMAP)) (fun b => b =? 1) (fun _ => false) (fun _ => demo_disk)
    1 (fun _ => false) 8 (DISKMAP + BLKSIZE) (DISKMAP + 2 * BLKSIZE) [].

Lemma demo_view x : view demo_fs x = demo_disk (x - DISKMAP).
Proof. unfold view. by destruct (in_disk x && _). Qed.

Lemma demo_ready : ready 8 demo_fs.
Proof.
  split; [split|split]; try done.
  - intros b i Hb Hi _ _. unfold demo_fs, disk. fs_cbn. f_equal. lia.
  - exists (seqZ 0 8). split; [apply NoDup_seqZ|]. split; [|done].
    intros b Hb _. by apply elem_of_seqZ.
  - intros b Hb. change (first_data 8) with 3 in Hb.
    assert (b = 0 \/ b = 1 \/ b = 2) as [->|[->| ->]] by lia; reflexivity.
Qed.

Lemma cache_transparent_witness :
  exists s', cache_run [CStore 3 8 7; CFlush 3; CLoad 3 8] demo_fs = Ok [7] s'
    /\ ready 8 s' /\ forall x, view s' x = wr32 (view demo_fs) (DISKMAP + 4096 * 3 + 8) 7 x.
Proof.
  apply (cache_transparent 8 [CStore 3 8 7; CFlush 3; CLoad 3 8] demo_fs); [apply demo_ready|].
  repeat constructor; cbn; try done; lia.
Defined.

End Bc.
