(* ===== verification/Fs.v ===== *)
(** * The file system (fs/fs.c)

    A [struct File *] is its address in the disk map; its fields are loads and
    stores through the block cache.  Out parameters are returned next to the
    result, [None] where the code does not set them.  A path or a name is the
    list of its characters without the terminating NUL.  Sizes and offsets are
    32-bit, signed ([off_t]) or unsigned ([size_t], [uint32_t]) as in the
    source, with the conversions written out.

    Loops that run over blocks take their bound from the disk or from the size
    of the file; [file_read] and [file_write] need at most one iteration per
    block and one more for each end. *)

From stdpp Require Import base numbers list functions strings.
From Stdlib Require Import ZArith Lia Ascii.
From S2P Require Import Prelude Mem Mmu Console Kernel Umonad Bc.

Open Scope Z_scope.
Open Scope usr_scope.

Module Fs.

Import Bc.

Abbreviation F A := (fs_state -> res fs_state A) (only parsing).

(** ** The super block and the bitmap *)

Definition check_super : F unit :=
  let! sup := mgets super in
  let! magic := ld32 sup in
  if negb (magic =? FS_MAGIC) then mpanic "bad file system magic number" else
  let! n := ld32 (sup + off_s_nblocks) in
  if n >? DISKSIZE / BLKSIZE then mpanic "file system is too large" else
  mmodify (say "superblock is good").

Definition block_is_free (blockno : Z) : F bool := block_is_free_via touch blockno.

Definition free_block (blockno : Z) : F unit :=
  if blockno =? 0 then mpanic "attempt to free zero block" else
  let! bm := mgets bitmap in
  let a := bm + 4 * (blockno / 32) in
  let! w := ld32 a in
  st32 a (Z.lor w (Z.shiftl 1 (blockno mod 32))).

(** [i < super->s_nblocks] is evaluated in every iteration. *)
Fixpoint alloc_loop (fuel : nat) (i : Z) : F Z :=
  match fuel with
  | O => mundef "alloc_block: loop bound"
  | S fuel =>
    let! sup := mgets super in
    let! n := ld32 (sup + off_s_nblocks) in
    if i <? n then
      let! free := block_is_free i in
      if free : bool then
        let! bm := mgets bitmap in
        let a := bm + 4 * (i / 32) in
        let! w := ld32 a in
        do! st32 a (Z.land w (Z.lnot (Z.shiftl 1 (i mod 32)))) in
        let! d := diskaddr i in
        do! flush_block d in
        mret i
      else alloc_loop fuel (i + 1)
    else mret (- E_NO_DISK)
  end.

Definition alloc_block : F Z :=
  let! sup := mgets super in
  let! n := ld32 (sup + off_s_nblocks) in
  alloc_loop (S (Z.to_nat n)) 0.

Definition check_bitmap : F unit :=
  let! sup := mgets super in
  let! n := ld32 (sup + off_s_nblocks) in
  let! _ := mfor (R := unit) (Z.to_nat ((n + BLKBITSIZE - 1) / BLKBITSIZE)) 0 (fun i =>
    let! free := block_is_free (2 + i) in
    do! assert_ (negb free) "!block_is_free(2+i)" in mret None) in
  let! free := block_is_free 0 in
  do! assert_ (negb free) "!block_is_free(0)" in
  let! free := block_is_free 1 in
  do! assert_ (negb free) "!block_is_free(1)" in
  mmodify (say "bitmap is good").

(** [disk1] is what [ide_probe_disk1] finds. *)
Definition fs_init (disk1 : bool) : F unit :=
  do! ide_set_disk (if disk1 then 1 else 0) in
  do! bc_init in
  let! a := diskaddr 1 in
  do! mmodify (set_super a) in
  do! check_super in
  let! a := diskaddr 2 in
  do! mmodify (set_bitmap a) in
  check_bitmap.

(** ** The blocks of a file *)

(** The result and [*ppdiskbno].  [alloc_block] returns an [int] into a
    [uint32_t], so that the test for its failure is never true. *)
Definition file_block_walk (f filebno : Z) (alloc : bool) : F (Z * option Z) :=
  if filebno <? NDIRECT then mret (0, Some (f + off_f_direct + 4 * filebno))
  else if filebno <? NDIRECT + NINDIRECT then
    let! ind := ld32 (f + off_f_indirect) in
    if negb (ind =? 0) then
      let! a := diskaddr ind in mret (0, Some (a + 4 * (filebno - NDIRECT)))
    else if alloc then
      let! r := alloc_block in
      let blockno := u32 r in
      if blockno <? 0 then
        do! mmodify (say "file_block_walk: alloc_block failed") in mret (- E_NO_DISK, None)
      else
        let! a := diskaddr blockno in
        do! cmemset a 0 BLKSIZE in
        do! st32 (f + off_f_indirect) blockno in
        let! ind := ld32 (f + off_f_indirect) in
        let! a := diskaddr ind in
        mret (0, Some (a + 4 * (filebno - NDIRECT)))
    else mret (- E_NOT_FOUND, None)
  else mret (- E_INVAL, None).

(** The result and [*blk]. *)
Definition file_get_block (f filebno : Z) : F (Z * option Z) :=
  let! w := file_block_walk f filebno true in
  match w with
  | (r, None) =>
    do! mmodify (say "file_get_block: file_block_walk failed") in mret (r, None)
  | (_, Some slot) =>
    let! bno := ld32 slot in
    let! full :=
      (if bno =? 0 then
         let! r := alloc_block in
         do! st32 slot (u32 r) in
         let! bno := ld32 slot in mret (bno <? 0)
       else mret false) in
    if full : bool then mret (- E_NO_DISK, None) else
    let! bno := ld32 slot in
    let! a := diskaddr bno in
    mret (0, Some a)
  end.

(** ** Directories *)

(** The entries [j] of one block of a directory; [None] when none matches. *)
Fixpoint find_entry (n : nat) (f : Z) (p : Z -> F bool) : F (option Z) :=
  match n with
  | O => mret None
  | S n =>
    let! hit := p f in
    if hit : bool then mret (Some f) else find_entry n (f + sizeof_File) p
  end.

(** One block: a result to return, or [None] to go on. *)
Definition search_block (dir : Z) (p : Z -> F bool) (i : Z) : F (option (Z * option Z)) :=
  let! g := file_get_block dir i in
  match g with
  | (r, None) => mret (Some (r, None))
  | (_, Some blk) =>
    let! e := find_entry (Z.to_nat BLKFILES) blk p in
    mret (match e with Some f => Some (0, Some f) | None => None end)
  end.

Definition dir_blocks (dir : Z) : F Z :=
  let! sz := ld32 (dir + off_f_size) in
  do! assert_ (Z.rem (i32 sz) BLKSIZE =? 0) "(dir->f_size % BLKSIZE) == 0" in
  mret (u32 (Z.quot (i32 sz) BLKSIZE)).

Definition dir_lookup (dir : Z) (name : list Z) : F (Z * option Z) :=
  let! nblock := dir_blocks dir in
  let! r := mfor (Z.to_nat nblock) 0 (search_block dir (fun f => cstreq (f + off_f_name) name)) in
  match r with Some r => mret r | None => mret (- E_NOT_FOUND, None) end.

Definition dir_alloc_file (dir : Z) : F (Z * option Z) :=
  let! nblock := dir_blocks dir in
  let! r := mfor (Z.to_nat nblock) 0 (search_block dir (fun f =>
    let! c := ld8 (f + off_f_name) in mret (c =? 0))) in
  match r with
  | Some r => mret r
  | None =>
    let! sz := ld32 (dir + off_f_size) in
    do! st32 (dir + off_f_size) (u32 (sz + BLKSIZE)) in
    let! g := file_get_block dir nblock in
    match g with
    | (r, None) => mret (r, None)
    | (_, Some blk) => mret (0, Some blk)
    end
  end.

(** ** Paths *)

Definition slash : Z := 47.

Fixpoint skip_slash (p : list Z) : list Z :=
  match p with
  | c :: q => if c =? slash then skip_slash q else p
  | [] => []
  end.

(** The characters up to the next slash, and the rest. *)
Fixpoint path_elem (p : list Z) : list Z * list Z :=
  match p with
  | c :: q => if c =? slash then ([], p) else let '(e, r) := path_elem q in (c :: e, r)
  | [] => ([], [])
  end.

Record walked := mkWalked {
  w_result : Z;
  w_dir : option Z;           (* *pdir *)
  w_file : option Z;          (* *pf *)
  w_last : option (list Z)    (* lastelem, when it is written *)
}.

Fixpoint walk_loop (fuel : nat) (path : list Z) (dir : option Z) (f : Z) : F walked :=
  match path with
  | [] => mret (mkWalked 0 dir (Some f) None)
  | _ :: _ =>
    match fuel with
    | O => mundef "walk_path: loop bound"
    | S fuel =>
      let dir := f in
      let '(name, rest) := path_elem path in
      if Z.of_nat (length name) >=? MAXNAMELEN then mret (mkWalked (- E_BAD_PATH) None None None)
      else
        let path := skip_slash rest in
        let! type := ld32 (dir + off_f_type) in
        if negb (type =? FTYPE_DIR) then mret (mkWalked (- E_NOT_FOUND) None None None) else
        let! l := dir_lookup dir name in
        match l with
        | (r, None) =>
          match path with
          | [] =>
            if r =? - E_NOT_FOUND then mret (mkWalked r (Some dir) None (Some name))
            else mret (mkWalked r None None None)
          | _ => mret (mkWalked r None None None)
          end
        | (_, Some f) => walk_loop fuel path (Some dir) f
        end
    end
  end.

Definition walk_path (path : list Z) : F walked :=
  let path := skip_slash path in
  let! sup := mgets super in
  walk_loop (S (length path)) path None (sup + off_s_root).

(** ** Writing back *)

Definition file_flush (f : Z) : F unit :=
  let! sz := ld32 (f + off_f_size) in
  let! _ := mfor (R := unit) (Z.to_nat (Z.quot (i32 (i32 sz + BLKSIZE - 1)) BLKSIZE)) 0 (fun i =>
    let! w := file_block_walk f i false in
    match w with
    | (_, None) => mret None
    | (_, Some slot) =>
      let! bno := ld32 slot in
      if bno =? 0 then mret None else
      let! a := diskaddr bno in
      do! flush_block a in mret None
    end) in
  do! flush_block f in
  let! ind := ld32 (f + off_f_indirect) in
  if negb (ind =? 0) then let! a := diskaddr ind in flush_block a else mret tt.

Definition fs_sync : F unit :=
  let! sup := mgets super in
  let! n := ld32 (sup + off_s_nblocks) in
  let! _ := mfor (R := unit) (Z.to_nat (n - 1)) 1 (fun i =>
    let! a := diskaddr i in
    do! flush_block a in mret None) in
  mret tt.

(** ** Sizes *)

Definition file_free_block (f filebno : Z) : F Z :=
  let! w := file_block_walk f filebno false in
  match w with
  | (r, None) => mret r
  | (_, Some ptr) =>
    let! bno := ld32 ptr in
    do! (if negb (bno =? 0) then do! free_block bno in st32 ptr 0 else mret tt) in
    mret 0
  end.

Definition file_truncate_blocks (f newsize : Z) : F unit :=
  let! sz := ld32 (f + off_f_size) in
  let old_nblocks := u32 (Z.quot (i32 (i32 sz + BLKSIZE - 1)) BLKSIZE) in
  let new_nblocks := u32 (Z.quot (i32 (newsize + BLKSIZE - 1)) BLKSIZE) in
  let! _ := mfor (R := unit) (Z.to_nat (old_nblocks - new_nblocks)) new_nblocks (fun bno =>
    let! r := file_free_block f bno in
    do! (if r <? 0 then mmodify (say "warning: file_free_block") else mret tt) in
    mret None) in
  let! ind := ld32 (f + off_f_indirect) in
  if (new_nblocks <=? NDIRECT) && negb (ind =? 0) then
    do! free_block ind in st32 (f + off_f_indirect) 0
  else mret tt.

Definition file_set_size (f newsize : Z) : F Z :=
  let! sz := ld32 (f + off_f_size) in
  do! (if i32 sz >? newsize then file_truncate_blocks f newsize else mret tt) in
  do! st32 (f + off_f_size) newsize in
  do! flush_block f in
  mret 0.

(** ** Reading and writing *)

(** The loop of [file_read]: [stop] is [offset + count]. *)
Fixpoint read_loop (fuel : nat) (f buf stop pos : Z) : F (option Z) :=
  if u32 pos <? stop then
    match fuel with
    | O => mundef "file_read: loop bound"
    | S fuel =>
      let! g := file_get_block f (u32 (Z.quot pos BLKSIZE)) in
      match g with
      | (r, None) => mret (Some r)
      | (_, Some blk) =>
        let bn := i32 (MIN (u32 (BLKSIZE - Z.rem pos BLKSIZE)) (u32 (stop - pos))) in
        do! cmemmove buf (blk + Z.rem pos BLKSIZE) (u32 bn) in
        read_loop fuel f (buf + bn) stop (i32 (pos + bn))
      end
    end
  else mret None.

Definition file_read (f buf count offset : Z) : F Z :=
  let! sz := ld32 (f + off_f_size) in
  if offset >=? i32 sz then mret 0 else
  let count := MIN count (u32 (i32 sz - offset)) in
  let! r := read_loop (Z.to_nat (count / BLKSIZE) + 2) f buf (u32 (offset + count)) offset in
  match r with Some r => mret r | None => mret (i32 count) end.

Fixpoint write_loop (fuel : nat) (f buf stop pos : Z) : F (option Z) :=
  if u32 pos <? stop then
    match fuel with
    | O => mundef "file_write: loop bound"
    | S fuel =>
      let! g := file_get_block f (u32 (Z.quot pos BLKSIZE)) in
      match g with
      | (r, None) => mret (Some r)
      | (_, Some blk) =>
        let bn := i32 (MIN (u32 (BLKSIZE - Z.rem pos BLKSIZE)) (u32 (stop - pos))) in
        do! cmemmove (blk + Z.rem pos BLKSIZE) buf (u32 bn) in
        write_loop fuel f (buf + bn) stop (i32 (pos + bn))
      end
    end
  else mret None.

Definition file_write (f buf count offset : Z) : F Z :=
  let! sz := ld32 (f + off_f_size) in
  let stop := u32 (offset + count) in
  let! e := (if stop >? sz then file_set_size f (i32 stop) else mret 0) in
  if e <? 0 then mret e else
  let! r := write_loop (Z.to_nat (count / BLKSIZE) + 2) f buf stop offset in
  match r with Some r => mret r | None => mret (i32 count) end.

(** ** Creating and opening *)

Definition file_create (path : list Z) : F (Z * option Z) :=
  let! w := walk_path path in
  if w_result w =? 0 then mret (- E_FILE_EXISTS, None) else
  match w_dir w, w_last w with
  | Some dir, Some name =>
    if negb (w_result w =? - E_NOT_FOUND) then mret (w_result w, None) else
    let! d := dir_alloc_file dir in
    match d with
    | (r, None) => mret (r, None)
    | (_, Some f) =>
      do! cstrcpy (f + off_f_name) name in
      do! file_flush dir in
      mret (0, Some f)
    end
  | _, _ => mret (w_result w, None)
  end.

Definition file_open (path : list Z) : F (Z * option Z) :=
  let! w := walk_path path in
  mret (w_result w, w_file w).

End Fs.
