(* ===== verification/FsLogic.v ===== *)
(** * Reasoning about the file system

    The code of fs/fs.c runs on the block cache, and what it sees there is one
    flat memory ([view]).  [fwp N m Q v] says that [m], run in any state of a
    cache for a disk of [N] blocks that shows the memory [v], returns, in a
    state that shows a memory [v'] for which [Q] holds.  The rules for the
    operations of the cache are proved here from the theorems about it; the
    proofs about files use only these rules. *)

From stdpp Require Import base numbers list functions strings.
From Stdlib Require Import ZArith Lia.
From S2P Require Import Prelude Mem Mmu Console Kernel Umonad Bc Fs.

Open Scope Z_scope.
Open Scope usr_scope.

Module FsLogic.

Import Bc Fs.

Definition shows (N : Z) (s : fs_state) (v : mem) : Prop :=
  bc_inv N s /\ forall x, view s x = v x.

(** The block may be accessed in [v]. *)
Definition in_use (N : Z) (v : mem) (b : Z) : Prop := 0 <= b < N /\ bit v b = false.

Definition fwp {A} (N : Z) (m : fs_state -> res fs_state A) (Q : A -> mem -> Prop) (v : mem) : Prop :=
  forall s, shows N s v -> wp m (fun a s' => exists v', shows N s' v' /\ Q a v') s.

Lemma shows_ready N s v : shows N s v -> sane N v -> ready N s.
Proof. intros [Hi Hv] Hs. split; [done|]. by eapply sane_ext. Qed.

Lemma bit_ext v v' b : (forall x, v' x = v x) -> bit v' b = bit v b.
Proof. intros H. unfold bit. by rewrite (rd32_view_ext v v'). Qed.

Lemma shows_usable N s v b : shows N s v -> in_use N v b -> usable N s b.
Proof. intros [Hi Hv] [Hb Hf]. split; [done|]. right. by rewrite (bit_ext v). Qed.

Lemma moved_shows N s s' v : moved N s s' v -> shows N s' v.
Proof. intros Hm. split; [apply Hm|apply (mv_view _ _ _ _ Hm)]. Qed.

Lemma shows_ext N s v v' : (forall x, v x = v' x) -> shows N s v -> shows N s v'.
Proof. intros E [Hi Hv]. split; [done|]. intros x. by rewrite Hv. Qed.

Section rules.

Context {N : Z}.

Lemma fwp_ret {A} (a : A) Q v : Q a v -> fwp N (mret a) Q v.
Proof. intros H s Hs. exists v. done. Qed.

Lemma fwp_bind {A B} (m : fs_state -> res fs_state A) (k : A -> fs_state -> res fs_state B) Q v :
  fwp N m (fun a v' => fwp N (k a) Q v') v -> fwp N (mbind m k) Q v.
Proof.
  intros H s Hs. apply wp_bind. eapply wp_mono; [by apply H|].
  intros a s' (v' & Hs' & Hk). by apply Hk.
Qed.

Lemma fwp_mono {A} (m : fs_state -> res fs_state A) (P Q : A -> mem -> Prop) v :
  fwp N m P v -> (forall a v', P a v' -> Q a v') -> fwp N m Q v.
Proof.
  intros H HPQ s Hs. eapply wp_mono; [by apply H|]. intros a s' (v' & Hs' & Hp). eauto.
Qed.

Lemma fwp_super Q v : Q (DISKMAP + 4096) v -> fwp N (mgets super) Q v.
Proof. intros H s Hs. wstep. exists v. split; [done|]. by rewrite (bi_super N s (proj1 Hs)). Qed.

Lemma fwp_bitmap Q v : Q (DISKMAP + 8192) v -> fwp N (mgets bitmap) Q v.
Proof. intros H s Hs. wstep. exists v. split; [done|]. by rewrite (bi_bitmap N s (proj1 Hs)). Qed.

Lemma fwp_say w (Q : unit -> mem -> Prop) v : Q tt v -> fwp N (mmodify (say w)) Q v.
Proof.
  intros H s [Hi Hv]. wstep. exists v. split; [|done]. split; [|exact Hv].
  destruct Hi. by split.
Qed.

Lemma fwp_ld32 b i (Q : Z -> mem -> Prop) v :
  sane N v -> in_use N v b -> 0 <= i <= 4092 ->
  Q (rd32 v (DISKMAP + 4096 * b + i)) v -> fwp N (ld32 (DISKMAP + 4096 * b + i)) Q v.
Proof.
  intros Hv Hu Hi HQ s Hs.
  eapply wp_mono; [apply (ld32_ok N); [by eapply shows_ready|by eapply shows_usable|done]|].
  intros a s' [-> Hm]. exists v. split.
  - eapply shows_ext; [apply (proj2 Hs)|by eapply moved_shows].
  - by rewrite (rd32_view_ext v) by apply (proj2 Hs).
Qed.

Lemma fwp_ld8 b i (Q : Z -> mem -> Prop) v :
  sane N v -> in_use N v b -> 0 <= i < 4096 ->
  Q (rd8 v (DISKMAP + 4096 * b + i)) v -> fwp N (ld8 (DISKMAP + 4096 * b + i)) Q v.
Proof.
  intros Hv Hu Hi HQ s Hs.
  eapply wp_mono; [apply (ld8_ok N); [by eapply shows_ready|by eapply shows_usable|done]|].
  intros a s' [-> Hm]. exists v. split.
  - eapply shows_ext; [apply (proj2 Hs)|by eapply moved_shows].
  - unfold rd8. by rewrite (proj2 Hs).
Qed.

Lemma wr32_ext v v' a x y : (forall z, v z = v' z) -> wr32 v a x y = wr32 v' a x y.
Proof.
  intros E. unfold wr32. destruct (decide (y = a)) as [->|]; [by fsimpl|].
  destruct (decide (y = a + 1)) as [->|]; [by fsimpl|].
  destruct (decide (y = a + 2)) as [->|]; [by fsimpl|].
  destruct (decide (y = a + 3)) as [->|]; by fsimpl.
Qed.

Lemma fwp_st32 b i x (Q : unit -> mem -> Prop) v :
  sane N v -> in_use N v b -> 0 <= i <= 4092 ->
  Q tt (wr32 v (DISKMAP + 4096 * b + i) x) -> fwp N (st32 (DISKMAP + 4096 * b + i) x) Q v.
Proof.
  intros Hv Hu Hi HQ s Hs.
  eapply wp_mono; [apply (st32_ok N); [by eapply shows_ready|by eapply shows_usable|done]|].
  intros [] s' Hm. cbn beta in Hm. exists (wr32 v (DISKMAP + 4096 * b + i) x). split; [|done].
  eapply shows_ext; [|by eapply moved_shows]. intros y. apply wr32_ext, Hs.
Qed.

Lemma fwp_cmemset b c (Q : unit -> mem -> Prop) v :
  sane N v -> in_use N v b ->
  Q tt (mset v (DISKMAP + 4096 * b) c 4096) -> fwp N (cmemset (DISKMAP + 4096 * b) c 4096) Q v.
Proof.
  intros Hv Hu HQ s Hs.
  eapply wp_mono; [apply (cmemset_ok N); [by eapply shows_ready|by eapply shows_usable]|].
  intros [] s' Hm. cbn beta in Hm. exists (mset v (DISKMAP + 4096 * b) c 4096). split; [|done].
  eapply shows_ext; [|by eapply moved_shows]. intros y. unfold mset. by rewrite (proj2 Hs).
Qed.

(** An address outside the disk map or in a block in use. *)
Definition reachable (v : mem) (a : Z) : Prop := in_disk a = true -> in_use N v (blk_of a).

Lemma fwp_cmemmove d a n (Q : unit -> mem -> Prop) v :
  sane N v -> 0 <= n <= 4096 ->
  (0 < n -> reachable v a /\ reachable v (a + n - 1) /\ reachable v d /\ reachable v (d + n - 1)) ->
  Q tt (mcpy v d a n) -> fwp N (cmemmove d a n) Q v.
Proof.
  intros Hv Hn Hr HQ s Hs.
  assert (forall z, reachable v z -> reach N s z) as Hz.
  { intros z H Hd. eapply shows_usable; [done|by apply H]. }
  eapply wp_mono; [apply (cmemmove_ok N); [by eapply shows_ready|done|]|].
  { intros Hp. destruct (Hr Hp) as (R1 & R2 & R3 & R4). auto. }
  intros [] s' Hm. cbn beta in Hm. exists (mcpy v d a n). split; [|done].
  eapply shows_ext; [|by eapply moved_shows]. intros y. unfold mcpy. by rewrite !(proj2 Hs).
Qed.

Lemma fwp_diskaddr b (Q : Z -> mem -> Prop) v :
  sane N v -> 0 < b < N -> Q (DISKMAP + 4096 * b) v -> fwp N (diskaddr b) Q v.
Proof.
  intros Hv Hb HQ s Hs.
  eapply wp_of; [apply diskaddr_ok with (N := N); [by eapply shows_ready|done]|]. by exists v.
Qed.

Lemma fwp_flush b i (Q : unit -> mem -> Prop) v :
  sane N v -> 0 <= b < N -> 0 <= i < 4096 -> Q tt v ->
  fwp N (flush_block (DISKMAP + 4096 * b + i)) Q v.
Proof.
  intros Hv Hb Hi HQ s Hs.
  eapply wp_mono; [apply (flush_block_ok N); [by eapply shows_ready|done|done]|].
  intros [] s' Hf. cbn beta in Hf. exists v. split; [|done]. split; [apply Hf|].
  intros x. rewrite (fl_view _ _ _ _ Hf). apply Hs.
Qed.

Lemma fwp_assert b w (Q : unit -> mem -> Prop) v : b = true -> Q tt v -> fwp N (assert_ b w) Q v.
Proof. intros -> H. by apply fwp_ret. Qed.

(** A loop that runs to its end or returns early. *)
Lemma fwp_mfor {R} n (body : Z -> fs_state -> res fs_state (option R)) (I : Z -> mem -> Prop) Q :
  forall i v,
  I i v ->
  (forall j v, i <= j < i + Z.of_nat n -> I j v ->
     fwp N (body j) (fun r v' => match r with None => I (j + 1) v' | Some _ => Q r v' end) v) ->
  (forall v, I (i + Z.of_nat n) v -> Q None v) ->
  fwp N (mfor n i body) Q v.
Proof.
  intros i v Hi Hb Hq s Hs.
  apply wp_mfor with (I := fun j s => exists v, shows N s v /\ I j v).
  - eauto.
  - intros j s1 Hj (v1 & Hs1 & HI). eapply wp_mono; [by apply (Hb j v1)|].
    intros [r|] s2 (v2 & Hs2 & H); eauto.
  - intros s1 (v1 & Hs1 & HI). eauto.
Qed.

End rules.

Ltac fstep := first [apply fwp_bind | apply fwp_ret | apply fwp_super | apply fwp_bitmap | apply fwp_say].

(** ** Bits *)

Lemma flag_testbit w k : 0 <= k -> flag w (Z.shiftl 1 k) = Z.testbit w k.
Proof.
  intros Hk. unfold flag. rewrite Z.shiftl_1_l. destruct (Z.testbit w k) eqn:E.
  - destruct (Z.eqb_spec (Z.land w (2 ^ k)) 0) as [H|]; [|done].
    apply (f_equal (fun z => Z.testbit z k)) in H.
    by rewrite Z.land_spec, E, Z.pow2_bits_true, Z.bits_0 in H.
  - destruct (Z.eqb_spec (Z.land w (2 ^ k)) 0) as [|H]; [done|]. destruct H.
    apply Z.bits_inj'. intros n Hn. rewrite Z.land_spec, Z.bits_0, Z.pow2_bits_eqb by done.
    destruct (Z.eqb_spec k n) as [<-|]; [by rewrite E|by rewrite andb_false_r].
Qed.

Lemma testbit_u32 x k : 0 <= k < 32 -> Z.testbit (u32 x) k = Z.testbit x k.
Proof. intros. unfold u32. change 4294967296 with (2 ^ 32). apply Z.mod_pow2_bits_low. lia. Qed.

Lemma bit_testbit v b : 0 <= b -> bit v b = Z.testbit (rd32 v (DISKMAP + 8192 + 4 * (b / 32))) (b mod 32).
Proof. intros. unfold bit. change (2 * BLKSIZE) with 8192. apply flag_testbit. zdm. Qed.

(** The memory with the bitmap word of [i] replaced. *)
Definition word_set (v : mem) (i x : Z) : mem := wr32 v (DISKMAP + 8192 + 4 * (i / 32)) x.

(** Only bit [i] differs between the words [x] and [w]. *)
Lemma bit_word_set v i x b (p : bool) :
  0 <= b -> 0 <= i ->
  (forall k, 0 <= k < 32 -> Z.testbit x k
     = if k =? i mod 32 then p else Z.testbit (rd32 v (DISKMAP + 8192 + 4 * (i / 32))) k) ->
  bit (word_set v i x) b = if b =? i then p else bit v b.
Proof.
  intros Hb Hi Hx. rewrite !bit_testbit by done. unfold word_set.
  destruct (decide (b / 32 = i / 32)) as [E|Hne].
  - rewrite E, rd32_wr32_eq, testbit_u32, Hx by zdm.
    destruct (Z.eqb_spec (b mod 32) (i mod 32)), (Z.eqb_spec b i); try done; exfalso; zdm.
  - rewrite rd32_wr32_ne by lia. destruct (Z.eqb_spec b i) as [->|]; done.
Qed.

Definition bit_clear (v : mem) (i : Z) : mem :=
  word_set v i (Z.land (rd32 v (DISKMAP + 8192 + 4 * (i / 32))) (Z.lnot (Z.shiftl 1 (i mod 32)))).

Definition bit_set (v : mem) (i : Z) : mem :=
  word_set v i (Z.lor (rd32 v (DISKMAP + 8192 + 4 * (i / 32))) (Z.shiftl 1 (i mod 32))).

Lemma bit_bit_clear v i b : 0 <= b -> 0 <= i -> bit (bit_clear v i) b = if b =? i then false else bit v b.
Proof.
  intros Hb Hi. apply bit_word_set; [done|done|]. intros k Hk.
  rewrite Z.land_spec, Z.lnot_spec, Z.shiftl_1_l, Z.pow2_bits_eqb by zdm.
  rewrite (Z.eqb_sym k). destruct (Z.eqb_spec (i mod 32) k); cbn [negb];
    by rewrite ?andb_false_r, ?andb_true_r.
Qed.

Lemma bit_bit_set v i b : 0 <= b -> 0 <= i -> bit (bit_set v i) b = if b =? i then true else bit v b.
Proof.
  intros Hb Hi. apply bit_word_set; [done|done|]. intros k Hk.
  rewrite Z.lor_spec, Z.shiftl_1_l, Z.pow2_bits_eqb by zdm.
  rewrite (Z.eqb_sym k). destruct (Z.eqb_spec (i mod 32) k);
    by rewrite ?orb_false_r, ?orb_true_r.
Qed.

End FsLogic.
