(* ===== verification/FsAlloc.v ===== *)
(** * Free blocks (fs/fs.c: the bitmap)

    [alloc_block] returns the first free block and clears its bit;
    [free_block] sets it again.  The one thing it does not do is what its
    comment promises: the bitmap block it changed stays in the cache. *)

From stdpp Require Import base numbers list functions strings sets.
From Stdlib Require Import ZArith Lia.
From S2P Require Import Prelude Mem Mmu Console Kernel Umonad Bc Fs FsLogic.

Open Scope Z_scope.
Open Scope usr_scope.

Module FsAlloc.

Import Bc Fs FsLogic.

Section disk.

Context {N : Z} (Hsz : first_data N <= N <= 786432).

Lemma size_pos : 3 <= first_data N.
Proof using Hsz. apply first_data_3. unfold first_data in *. zdm. Qed.

Lemma meta_in_use v b : sane N v -> 0 <= b < first_data N -> in_use N v b.
Proof using Hsz. intros Hv Hb. split; [lia|]. by apply (sn_meta N v Hv). Qed.

Lemma fwp_nblocks (Q : Z -> mem -> Prop) v :
  sane N v -> Q N v -> fwp N (ld32 (DISKMAP + 4096 + off_s_nblocks)) Q v.
Proof using Hsz.
  intros Hv HQ. pose proof size_pos.
  change (DISKMAP + 4096 + off_s_nblocks) with (DISKMAP + 4096 * 1 + 4).
  apply fwp_ld32; [done|apply meta_in_use; [done|lia]|lia|].
  pose proof (sn_nblocks N v Hv) as E. change (DISKMAP + 4096 * 1 + 4) with (DISKMAP + BLKSIZE + off_s_nblocks).
  by rewrite E.
Qed.

(** The bitmap word of [i] is in a metadata block. *)
Lemma bm_block i : 0 <= i < N -> 0 <= 2 + i / 32768 < first_data N.
Proof using. intros. unfold first_data. zdm. Qed.

Lemma bm_addr i :
  DISKMAP + 8192 + 4 * (i / 32)
  = DISKMAP + 4096 * (2 + i / 32768) + (4 * (i / 32) - 4096 * (i / 32768)).
Proof using. lia. Qed.

Lemma fwp_ld_bm i (Q : Z -> mem -> Prop) v :
  sane N v -> 0 <= i < N -> Q (rd32 v (DISKMAP + 8192 + 4 * (i / 32))) v ->
  fwp N (ld32 (DISKMAP + 8192 + 4 * (i / 32))) Q v.
Proof using Hsz.
  intros Hv Hi. rewrite bm_addr. pose proof (bit_off i ltac:(lia)).
  apply fwp_ld32; [done|apply meta_in_use; [done|by apply bm_block]|done].
Qed.

Lemma fwp_st_bm i x (Q : unit -> mem -> Prop) v :
  sane N v -> 0 <= i < N -> Q tt (word_set v i x) ->
  fwp N (st32 (DISKMAP + 8192 + 4 * (i / 32)) x) Q v.
Proof using Hsz.
  intros Hv Hi. unfold word_set. rewrite bm_addr. pose proof (bit_off i ltac:(lia)).
  apply fwp_st32; [done|apply meta_in_use; [done|by apply bm_block]|done].
Qed.

(** Changing the bitmap changes nothing else. *)
Lemma word_set_out v i x y :
  0 <= i < N -> y < DISKMAP + 8192 \/ DISKMAP + 4096 * first_data N <= y -> word_set v i x y = v y.
Proof using.
  intros Hi Hy. unfold word_set. apply wr32_out. rewrite bm_addr.
  pose proof (bm_block i Hi). pose proof (bit_off i ltac:(lia)). assert (0 <= i / 32768) by zdm. lia.
Qed.

Lemma sane_word_set v i x p :
  sane N v -> first_data N <= i < N ->
  (forall b, 0 <= b -> bit (word_set v i x) b = if b =? i then p else bit v b) ->
  sane N (word_set v i x).
Proof using Hsz.
  intros [Hn Hm] Hi Hb. pose proof size_pos. split.
  - rewrite <- Hn. apply rd32_ext. intros y Hy. apply word_set_out; [lia|].
    unfold off_s_nblocks, BLKSIZE, PGSIZE in Hy. lia.
  - intros b Hb'. rewrite Hb by lia. destruct (Z.eqb_spec b i); [lia|]. by apply Hm.
Qed.

Lemma sane_clear v i : sane N v -> first_data N <= i < N -> sane N (bit_clear v i).
Proof using Hsz.
  intros Hv Hi. pose proof size_pos. apply (sane_word_set _ _ _ false); [done|done|].
  intros b Hb. apply bit_bit_clear; lia.
Qed.

Lemma sane_set v i : sane N v -> first_data N <= i < N -> sane N (bit_set v i).
Proof using Hsz.
  intros Hv Hi. pose proof size_pos. apply (sane_word_set _ _ _ true); [done|done|].
  intros b Hb. apply bit_bit_set; lia.
Qed.

Lemma fwp_block_is_free b (Q : bool -> mem -> Prop) v :
  sane N v -> 0 <= b -> Q ((b <? N) && bit v b) v -> fwp N (block_is_free b) Q v.
Proof using Hsz.
  intros Hv Hb HQ. unfold block_is_free, block_is_free_via. fstep. fstep. cbn [Z.eqb].
  change (load32 touch) with ld32. destruct (Z.eqb_spec (DISKMAP + 4096) 0) as [|_]; [done|].
  fstep. apply fwp_nblocks; [done|].
  destruct (Z.geb_spec b N) as [Hge|Hlt].
  - fstep. destruct (Z.ltb_spec b N); [lia|]. exact HQ.
  - fstep. fstep. fstep. apply fwp_ld_bm; [done|lia|]. fstep.
    destruct (Z.ltb_spec b N); [|lia]. exact HQ.
Qed.

(** What [alloc_block] does. *)
Definition alloc_post (v : mem) (r : Z) (v' : mem) : Prop :=
  (r = - E_NO_DISK /\ v' = v /\ forall b, 0 <= b < N -> bit v b = false)
  \/ (first_data N <= r < N /\ bit v r = true /\ (forall b, 0 <= b < r -> bit v b = false)
      /\ v' = bit_clear v r).

Lemma alloc_loop_ok fuel : forall i v,
  sane N v -> 0 <= i <= N -> (Z.to_nat (N - i) < fuel)%nat ->
  (forall b, 0 <= b < i -> bit v b = false) ->
  fwp N (alloc_loop fuel i) (alloc_post v) v.
Proof using Hsz.
  induction fuel as [|fuel IH]; intros i v Hv Hi Hf Hlow; [lia|]. cbn [alloc_loop].
  fstep. fstep. fstep. apply fwp_nblocks; [done|]. destruct (Z.ltb_spec i N) as [Hlt|Hge].
  - fstep. apply fwp_block_is_free; [done|lia|]. destruct (Z.ltb_spec i N); [|lia]. cbn [andb].
    destruct (bit v i) eqn:Hbit.
    + assert (first_data N <= i) as Hfd.
      { destruct (Z.le_gt_cases (first_data N) i); [done|].
        rewrite (sn_meta N v Hv) in Hbit by lia. done. }
      pose proof size_pos. pose proof (sane_clear v i Hv ltac:(lia)) as Hv'.
      fstep. fstep. fstep. apply fwp_ld_bm; [done|lia|].
      fstep. apply fwp_st_bm; [done|lia|]. fold (bit_clear v i).
      fstep. apply fwp_diskaddr; [done|lia|]. fstep.
      replace (DISKMAP + 4096 * i) with (DISKMAP + 4096 * i + 0) by lia.
      apply fwp_flush; [done|lia|lia|]. fstep. right. done.
    + apply IH; [done|lia|lia|]. intros b Hb. destruct (decide (b = i)) as [->|]; [done|].
      apply Hlow. lia.
  - fstep. left. split; [done|]. split; [done|]. intros b Hb. apply Hlow. lia.
Qed.

Lemma fwp_alloc v : sane N v -> fwp N alloc_block (alloc_post v) v.
Proof using Hsz.
  intros Hv. pose proof size_pos. unfold alloc_block. fstep. fstep. fstep.
  apply fwp_nblocks; [done|]. apply alloc_loop_ok; [done|lia| |intros; lia].
  rewrite Z.sub_0_r. lia.
Qed.

Lemma fwp_free b (Q : unit -> mem -> Prop) v :
  sane N v -> first_data N <= b < N -> Q tt (bit_set v b) -> fwp N (free_block b) Q v.
Proof using Hsz.
  intros Hv Hb HQ. pose proof size_pos. unfold free_block.
  destruct (Z.eqb_spec b 0) as [|_]; [lia|].
  fstep. fstep. fstep. apply fwp_ld_bm; [done|lia|]. apply fwp_st_bm; [done|lia|]. exact HQ.
Qed.

(** At least [k] blocks are free. *)
Definition free_blocks (v : mem) (k : nat) : Prop :=
  exists l, NoDup l /\ (k <= length l)%nat /\ forall b, b ∈ l -> 0 <= b < N /\ bit v b = true.

Lemma alloc_some v k r v' :
  free_blocks v (S k) -> alloc_post v r v' ->
  first_data N <= r < N /\ bit v r = true /\ v' = bit_clear v r /\ free_blocks v' k.
Proof using.
  intros (l & Hnd & Hlen & Hl) [(_ & _ & Hno)|(Hr & Hbit & _ & ->)].
  - destruct l as [|b l]; [cbn in Hlen; lia|]. destruct (Hl b ltac:(by left)) as [Hb Hbt].
    rewrite Hno in Hbt by done. done.
  - split; [done|]. split; [done|]. split; [done|].
    assert (0 <= r) as Hr0 by (unfold first_data in Hr; zdm).
    exists (filter (fun b => b <> r) l). split; [by apply NoDup_filter|]. split.
    + assert (forall l, NoDup l -> (length l <= S (length (filter (fun b => b <> r) l)))%nat) as Hc.
      { clear. induction l as [|b l IH]; intros Hnd; [cbn; lia|].
        inversion_clear Hnd as [|?? Hb Hnd']. rewrite filter_cons. destruct (decide (b <> r)) as [|E].
        - cbn. specialize (IH Hnd'). lia.
        - apply dec_stable in E as ->. assert (filter (fun b => b <> r) l = l) as ->; [|cbn; lia].
          clear IH Hnd'. induction l as [|c l IHl]; [done|]. rewrite filter_cons.
          destruct (decide (c <> r)); [f_equal; apply IHl; set_solver|set_solver]. }
      specialize (Hc l Hnd). lia.
    + intros b [Hne Hb]%list_elem_of_filter. destruct (Hl b Hb) as [H1 H2]. split; [done|].
      rewrite bit_bit_clear by lia. destruct (Z.eqb_spec b r); [done|]. done.
Qed.

End disk.

(** [alloc_block] always returns.  It returns [-E_NO_DISK] and changes
    nothing when no block is free; otherwise it returns the lowest free block,
    never one of the metadata blocks, marks it in use, and changes no other
    byte that the code can see. *)
Theorem alloc_block_first (N : Z) (s : fs_state) :
  ready N s ->
  exists r s', alloc_block s = Ok r s' /\ ready N s'
    /\ ((r = - E_NO_DISK /\ (forall b, 0 <= b < N -> bit (view s) b = false)
         /\ forall x, view s' x = view s x)
        \/ (first_data N <= r < N /\ bit (view s) r = true
            /\ (forall b, 0 <= b < r -> bit (view s) b = false)
            /\ (forall b, 0 <= b -> bit (view s') b = if b =? r then false else bit (view s) b)
            /\ forall x, x < DISKMAP + 8192 \/ DISKMAP + 4096 * first_data N <= x ->
                 view s' x = view s x)).
Proof.
  intros [Hi Hs]. pose proof (bi_size N s Hi) as Hsz.
  destruct (wp_run _ _ _ (fwp_alloc Hsz (view s) Hs s (conj Hi (fun x => eq_refl))))
    as (r & s' & E & v' & [Hi' Hv'] & Hp).
  exists r, s'. split; [done|]. destruct Hp as [(-> & -> & Hno)|(Hr & Hbit & Hlow & ->)].
  - split; [split; [done|by eapply sane_ext]|]. left. done.
  - pose proof (size_pos Hsz). pose proof (sane_clear Hsz (view s) r Hs Hr) as Hs'.
    split; [split; [done|by eapply sane_ext]|]. right. split; [done|]. split; [done|]. split; [done|].
    split.
    + intros b Hb. rewrite (bit_ext (bit_clear (view s) r)) by done. apply bit_bit_clear; lia.
    + intros x Hx. rewrite Hv'. unfold bit_clear. apply (word_set_out (N := N)); [lia|done].
Qed.

Lemma alloc_block_first_witness :
  exists r s', alloc_block demo_fs = Ok r s' /\ ready 8 s'
    /\ ((r = - E_NO_DISK /\ (forall b, 0 <= b < 8 -> bit (view demo_fs) b = false)
         /\ forall x, view s' x = view demo_fs x)
        \/ (first_data 8 <= r < 8 /\ bit (view demo_fs) r = true
            /\ (forall b, 0 <= b < r -> bit (view demo_fs) b = false)
            /\ (forall b, 0 <= b -> bit (view s') b = if b =? r then false else bit (view demo_fs) b)
            /\ forall x, x < DISKMAP + 8192 \/ DISKMAP + 4096 * first_data 8 <= x ->
                 view s' x = view demo_fs x)).
Proof. apply (alloc_block_first 8 demo_fs), demo_ready. Defined.

(** The bitmap on the disk is the old one after [alloc_block]: the call meant to
    write it back names the new block instead of the bitmap block. *)
Lemma alloc_block_not_durable :
  match alloc_block demo_fs with
  | Ok r s' => r = 4 /\ rd32 (view s') (DISKMAP + 8192) = 224 /\ rd32 (disk s') 8192 = 240
  | _ => False
  end.
Proof. vm_compute. done. Qed.

End FsAlloc.
