(* ===== verification/FsFiles.v ===== *)
(** * Files (fs/fs.c: the blocks of a file, reading and writing)

    A file is ten direct block numbers and an indirect block of 1024 more.
    [file_ok] is the invariant of one file: the blocks it refers to are in use,
    distinct, and none of them holds metadata.  The theorem: what [file_write]
    writes, [file_read] reads back, the other bytes of the file and every
    block that belongs to something else stay as they are. *)

From stdpp Require Import base numbers list functions strings sets.
From Stdlib Require Import ZArith Lia.
From S2P Require Import Prelude Mem Mmu Console Kernel Umonad Bc Fs FsLogic FsAlloc.

Open Scope Z_scope.
Open Scope usr_scope.

Module FsFiles.

Import Bc Fs FsLogic FsAlloc.

(** The address of the [struct File] at offset [fo] of block [fb]. *)
Definition file_addr (fb fo : Z) : Z := DISKMAP + 4096 * fb + fo.

Definition f_indirect (v : mem) (fb fo : Z) : Z := rd32 v (file_addr fb fo + off_f_indirect).

(** The slot that holds the number of block [n] of the file. *)
Definition slot_addr (v : mem) (fb fo n : Z) : Z :=
  if n <? NDIRECT then file_addr fb fo + off_f_direct + 4 * n
  else DISKMAP + 4096 * f_indirect v fb fo + 4 * (n - NDIRECT).

(** The disk block that holds block [n] of the file, 0 if there is none. *)
Definition fblk (v : mem) (fb fo n : Z) : Z :=
  if (NDIRECT <=? n) && (f_indirect v fb fo =? 0) then 0 else rd32 v (slot_addr v fb fo n).

Definition NBLK : Z := NDIRECT + NINDIRECT.

Section files.

Context {N : Z} (Hsz : first_data N <= N <= 786432).

(** A block in use that may hold data. *)
Definition data_block (v : mem) (b : Z) : Prop := first_data N <= b < N /\ bit v b = false.

Record file_ok (v : mem) (fb fo : Z) : Prop := {
  fk_off : 0 <= fo /\ fo + 256 <= 4096;
  fk_blk : data_block v fb \/ (fb = 1 /\ 8 <= fo);
  fk_ind : f_indirect v fb fo = 0 \/ (data_block v (f_indirect v fb fo) /\ f_indirect v fb fo <> fb);
  fk_data : forall n, 0 <= n < NBLK -> fblk v fb fo n <> 0 ->
    data_block v (fblk v fb fo n) /\ fblk v fb fo n <> fb /\ fblk v fb fo n <> f_indirect v fb fo;
  fk_inj : forall n m, 0 <= n < NBLK -> 0 <= m < NBLK -> fblk v fb fo n <> 0 ->
    fblk v fb fo n = fblk v fb fo m -> n = m
}.

Lemma file_in_use v fb fo : sane N v -> file_ok v fb fo -> in_use N v fb.
Proof using Hsz.
  intros Hv Hf. pose proof (size_pos Hsz). destruct (fk_blk _ _ _ Hf) as [[Hb Hbit]|[-> _]].
  - split; [lia|done].
  - apply (meta_in_use Hsz); [done|lia].
Qed.

Lemma data_in_use v b : data_block v b -> in_use N v b.
Proof using Hsz. intros [Hb Hbit]. pose proof (size_pos Hsz). split; [lia|done]. Qed.

(** Loads and stores of the fields of a file. *)
Lemma fwp_field off (Q : Z -> mem -> Prop) v fb fo :
  sane N v -> file_ok v fb fo -> 0 <= off <= 252 ->
  Q (rd32 v (file_addr fb fo + off)) v -> fwp N (ld32 (file_addr fb fo + off)) Q v.
Proof using Hsz.
  intros Hv Hf Ho HQ. pose proof (fk_off _ _ _ Hf). unfold file_addr in *.
  rewrite <- Z.add_assoc in *. apply fwp_ld32; [done|by eapply file_in_use|lia|done].
Qed.

Lemma fwp_set_field off x (Q : unit -> mem -> Prop) v fb fo :
  sane N v -> file_ok v fb fo -> 0 <= off <= 252 ->
  Q tt (wr32 v (file_addr fb fo + off) x) -> fwp N (st32 (file_addr fb fo + off) x) Q v.
Proof using Hsz.
  intros Hv Hf Ho HQ. pose proof (fk_off _ _ _ Hf). unfold file_addr in *.
  rewrite <- Z.add_assoc in *. apply fwp_st32; [done|by eapply file_in_use|lia|done].
Qed.

(** The slot of block [n] is a word of the file or of its indirect block. *)
Lemma slot_place v fb fo n :
  file_ok v fb fo -> 0 <= n < NBLK -> n < NDIRECT \/ f_indirect v fb fo <> 0 ->
  exists b i, slot_addr v fb fo n = DISKMAP + 4096 * b + i /\ 0 <= i <= 4092
    /\ ((b = fb /\ i = fo + off_f_direct + 4 * n /\ n < NDIRECT)
        \/ (b = f_indirect v fb fo /\ i = 4 * (n - NDIRECT) /\ NDIRECT <= n /\ data_block v b /\ b <> fb)).
Proof using.
  intros Hf Hn Hor. pose proof (fk_off _ _ _ Hf). unfold slot_addr, file_addr.
  change NBLK with 1034 in Hn. change NDIRECT with 10 in *. change off_f_direct with 136.
  destruct (Z.ltb_spec n 10).
  - exists fb, (fo + 136 + 4 * n). split; [lia|]. split; [lia|]. left. lia.
  - destruct Hor as [|Hind]; [lia|]. destruct (fk_ind _ _ _ Hf) as [|[Hd Hne]]; [done|].
    exists (f_indirect v fb fo), (4 * (n - 10)). split; [lia|]. split; [lia|]. right. done.
Qed.

Lemma slot_in_use v fb fo n b i :
  sane N v -> file_ok v fb fo -> slot_addr v fb fo n = DISKMAP + 4096 * b + i ->
  (b = fb /\ i = fo + off_f_direct + 4 * n /\ n < NDIRECT)
  \/ (b = f_indirect v fb fo /\ i = 4 * (n - NDIRECT) /\ NDIRECT <= n /\ data_block v b /\ b <> fb) ->
  in_use N v b.
Proof using Hsz.
  intros Hv Hf _ [(-> & _)|(_ & _ & _ & Hd & _)]; [by eapply file_in_use|by apply data_in_use].
Qed.

(** ** What a change elsewhere leaves alone *)

(** [v'] has the same file structure as [v]: the [struct File] and the indirect
    block are the same, and no block has become free. *)
Record same_file (v v' : mem) (fb fo : Z) : Prop := {
  sf_bits : forall b, 0 <= b < N -> bit v b = false -> bit v' b = false;
  sf_node : forall x, file_addr fb fo + off_f_direct <= x < file_addr fb fo + 180 -> v' x = v x;
  sf_ind : f_indirect v fb fo <> 0 ->
    forall i, 0 <= i < 4096 -> v' (DISKMAP + 4096 * f_indirect v fb fo + i)
                             = v (DISKMAP + 4096 * f_indirect v fb fo + i)
}.

Lemma same_file_ind v v' fb fo : same_file v v' fb fo -> f_indirect v' fb fo = f_indirect v fb fo.
Proof using.
  intros H. unfold f_indirect. apply rd32_ext. intros x Hx. apply (sf_node _ _ _ _ H).
  change off_f_indirect with 176 in Hx. change off_f_direct with 136. lia.
Qed.

Lemma same_file_fblk v v' fb fo n :
  same_file v v' fb fo -> 0 <= n < NBLK -> fblk v' fb fo n = fblk v fb fo n.
Proof using.
  intros H Hn. unfold fblk, slot_addr. rewrite (same_file_ind v v') by done.
  change NBLK with 1034 in Hn. change NDIRECT with 10.
  destruct (Z.leb_spec 10 n), (Z.eqb_spec (f_indirect v fb fo) 0) as [|Hne]; cbn [andb]; try done;
    (destruct (Z.ltb_spec n 10); [|try lia]).
  - lia.
  - apply rd32_ext. intros x Hx.
    replace x with (DISKMAP + 4096 * f_indirect v fb fo + (x - DISKMAP - 4096 * f_indirect v fb fo)) by lia.
    apply (sf_ind _ _ _ _ H); [done|lia].
  - apply rd32_ext. intros x Hx. apply (sf_node _ _ _ _ H). change off_f_direct with 136 in *. lia.
  - apply rd32_ext. intros x Hx. apply (sf_node _ _ _ _ H). change off_f_direct with 136 in *. lia.
Qed.

Lemma data_block_bits v v' b :
  (forall b, 0 <= b < N -> bit v b = false -> bit v' b = false) -> data_block v b -> data_block v' b.
Proof using Hsz. intros H [Hb Hbit]. pose proof (size_pos Hsz). split; [done|]. apply H; [lia|done]. Qed.

Lemma same_file_ok v v' fb fo : same_file v v' fb fo -> file_ok v fb fo -> file_ok v' fb fo.
Proof using Hsz.
  intros H [Ho Hb Hi Hd Hj]. pose proof (same_file_ind v v' fb fo H) as Ei.
  pose proof (fun n Hn => same_file_fblk v v' fb fo n H Hn) as Eb.
  pose proof (fun b => data_block_bits v v' b (sf_bits _ _ _ _ H)) as Edb.
  split.
  - done.
  - destruct Hb as [Hb|Hb]; [left; auto|by right].
  - rewrite Ei. destruct Hi as [Hi|[Hi Hne]]; [by left|right; auto].
  - intros n Hn. rewrite Eb, Ei by done. intros Hz. destruct (Hd n Hn Hz) as (H1 & H2 & H3). auto.
  - intros n m Hn Hm. rewrite !Eb by done. auto.
Qed.

(** ** Growing a file *)

(** Bytes that growing the file leaves alone: those outside the disk map, and
    those of blocks in use that are not the indirect block, except the block
    numbers in the [struct File] itself. *)
Definition keep (v : mem) (fb fo x : Z) : Prop :=
  in_disk x = false
  \/ exists c i, x = DISKMAP + 4096 * c + i /\ 0 <= i < 4096 /\ (data_block v c \/ c = 1)
       /\ c <> f_indirect v fb fo /\ (c = fb -> i < fo + off_f_direct \/ fo + 180 <= i).

Record grown (v v' : mem) (fb fo : Z) : Prop := {
  gr_sane : sane N v';
  gr_ok : file_ok v' fb fo;
  gr_bits : forall b, 0 <= b < N -> bit v b = false -> bit v' b = false;
  gr_fblk : forall n, 0 <= n < NBLK -> fblk v fb fo n <> 0 -> fblk v' fb fo n = fblk v fb fo n;
  gr_new : forall n, 0 <= n < NBLK -> fblk v' fb fo n <> fblk v fb fo n ->
    bit v (fblk v' fb fo n) = true;
  gr_ind : f_indirect v' fb fo = f_indirect v fb fo
    \/ (f_indirect v fb fo = 0 /\ bit v (f_indirect v' fb fo) = true);
  gr_keep : forall x, keep v fb fo x -> v' x = v x
}.

Lemma grown_refl v fb fo : sane N v -> file_ok v fb fo -> grown v v fb fo.
Proof using. intros Hv Hf. split; try done. by left. Qed.

Lemma keep_grown v v' fb fo x : file_ok v fb fo -> grown v v' fb fo -> keep v fb fo x -> keep v' fb fo x.
Proof using Hsz.
  intros Hf Hg [Hx|(c & i & E & Hi & Hc & Hci & Hcf)]; [by left|]. right. exists c, i.
  split; [done|]. split; [done|].
  assert (data_block v' c \/ c = 1) as Hc'.
  { destruct Hc as [Hc|]; [left|by right]. eapply data_block_bits; [apply (gr_bits _ _ _ _ Hg)|done]. }
  split; [done|]. split; [|done]. destruct (gr_ind _ _ _ _ Hg) as [->|[Hz Hbit]]; [done|].
  intros ->. destruct Hc as [[_ Hb]|E1]; [congruence|].
  destruct (fk_ind _ _ _ (gr_ok _ _ _ _ Hg)) as [E0|[[Hge _] _]].
  - lia.
  - pose proof (size_pos Hsz). lia.
Qed.

Lemma grown_trans v1 v2 v3 fb fo :
  file_ok v1 fb fo -> grown v1 v2 fb fo -> grown v2 v3 fb fo -> grown v1 v3 fb fo.
Proof using Hsz.
  intros Hf1 G1 G2. pose proof (size_pos Hsz).
  assert (forall b, 0 <= b < N -> bit v2 b = true -> bit v1 b = true) as Hback.
  { intros b Hb H2. destruct (bit v1 b) eqn:E; [done|].
    apply (gr_bits _ _ _ _ G1) in E; [congruence|done]. }
  split; try apply G2.
  - intros b Hb H1. apply (gr_bits _ _ _ _ G2); [done|]. by apply (gr_bits _ _ _ _ G1).
  - intros n Hn H1. rewrite (gr_fblk _ _ _ _ G2); [by apply (gr_fblk _ _ _ _ G1)|done|].
    by rewrite (gr_fblk _ _ _ _ G1).
  - intros n Hn Hne. destruct (decide (fblk v3 fb fo n = fblk v2 fb fo n)) as [E|E].
    + rewrite E in *. by apply (gr_new _ _ _ _ G1).
    + destruct (decide (fblk v3 fb fo n = 0)) as [Ez|Hz].
      * exfalso. destruct (decide (fblk v2 fb fo n = 0)) as [|H2]; [congruence|].
        rewrite (gr_fblk _ _ _ _ G2) in Ez by done. done.
      * apply Hback; [|by apply (gr_new _ _ _ _ G2)].
        destruct (fk_data _ _ _ (gr_ok _ _ _ _ G2) n Hn Hz) as ([Hr _] & _). lia.
  - destruct (gr_ind _ _ _ _ G2) as [->|[Hz Hb]]; [apply (gr_ind _ _ _ _ G1)|].
    right. destruct (gr_ind _ _ _ _ G1) as [E1|[E1 Hb1]].
    + split; [congruence|]. apply Hback; [|done].
      destruct (fk_ind _ _ _ (gr_ok _ _ _ _ G2)) as [E0|[[Hr _] _]]; [|lia].
      rewrite E0. lia.
    + split; [done|]. rewrite Hz in Hb1. pose proof (sn_meta N v2 (gr_sane _ _ _ _ G1) 0 ltac:(lia)).
      destruct (fk_ind _ _ _ (gr_ok _ _ _ _ G2)) as [E0|[[Hr _] _]].
      * rewrite E0 in *. congruence.
      * apply Hback; [lia|done].
  - intros x Hx. rewrite (gr_keep _ _ _ _ G2); [by apply (gr_keep _ _ _ _ G1)|].
    by eapply keep_grown.
Qed.

(** A byte of a block that is not a bitmap block is not in the bitmap. *)
Lemma not_bitmap c i r (v : mem) :
  0 <= i < 4096 -> c = 1 \/ first_data N <= c -> 0 <= r < N ->
  bit_clear v r (DISKMAP + 4096 * c + i) = v (DISKMAP + 4096 * c + i).
Proof using Hsz.
  intros Hi Hc Hr. pose proof (size_pos Hsz). unfold bit_clear. apply (word_set_out (N := N)); [done|]. lia.
Qed.

Lemma keep_clear v fb fo r x : keep v fb fo x -> 0 <= r < N -> bit_clear v r x = v x.
Proof using Hsz.
  intros [Hx|(c & i & -> & Hi & Hc & _)] Hr.
  - unfold bit_clear. apply (word_set_out (N := N)); [done|].
    destruct (decide (DISKMAP <= x < DISKMAP + DISKSIZE)) as [Hd%in_disk_iff|Hd]; [congruence|].
    unfold DISKMAP, DISKSIZE in *. lia.
  - apply not_bitmap; [done| |done]. destruct Hc as [[]|]; [right; lia|by left].
Qed.

Lemma clear_same_file v fb fo r :
  sane N v -> file_ok v fb fo -> first_data N <= r < N -> same_file v (bit_clear v r) fb fo.
Proof using Hsz.
  intros Hv Hf Hr. pose proof (size_pos Hsz). pose proof (fk_off _ _ _ Hf). split.
  - intros b Hb Hbt. rewrite bit_bit_clear by lia. by destruct (b =? r).
  - intros x Hx. unfold file_addr in Hx. change off_f_direct with 136 in Hx.
    replace x with (DISKMAP + 4096 * fb + (x - DISKMAP - 4096 * fb)) by lia.
    apply not_bitmap; [lia| |lia]. destruct (fk_blk _ _ _ Hf) as [[]|[]]; lia.
  - intros Hz i Hi. apply not_bitmap; [done| |lia].
    destruct (fk_ind _ _ _ Hf) as [|[[] _]]; [done|]. lia.
Qed.

(** A change outside the bitmap and the size of the disk. *)
Definition off_meta (x : Z) : Prop :=
  x < DISKMAP + 4100 \/ DISKMAP + 4104 <= x < DISKMAP + 8192 \/ DISKMAP + 4096 * first_data N <= x.

Lemma bits_frame v v' b :
  (forall x, ~ off_meta x -> v' x = v x) -> 0 <= b < N -> bit v' b = bit v b.
Proof using Hsz.
  intros H Hb. pose proof (size_pos Hsz). unfold bit. rewrite (rd32_ext v' v); [done|].
  intros x Hx. apply H. unfold off_meta. change (2 * BLKSIZE) with 8192 in Hx. rewrite bm_addr in Hx.
  pose proof (bit_off b ltac:(lia)). pose proof (bm_block (N := N) b Hb).
  assert (0 <= b / 32768) by zdm. lia.
Qed.

Lemma sane_frame v v' : (forall x, ~ off_meta x -> v' x = v x) -> sane N v -> sane N v'.
Proof using Hsz.
  intros H [Hn Hm]. pose proof (size_pos Hsz). split.
  - rewrite <- Hn. apply rd32_ext. intros x Hx. apply H. unfold off_meta.
    change (DISKMAP + BLKSIZE + off_s_nblocks) with (DISKMAP + 4100) in Hx. lia.
  - intros b Hb. rewrite (bits_frame v) by (done || lia). by apply Hm.
Qed.

Lemma off_meta_blk b i :
  0 <= i < 4096 -> first_data N <= b \/ (b = 1 /\ 8 <= i) -> off_meta (DISKMAP + 4096 * b + i).
Proof using Hsz. intros Hi Hb. pose proof (size_pos Hsz). unfold off_meta. lia. Qed.

Lemma wr32_frame v b i x :
  0 <= i <= 4092 -> first_data N <= b \/ (b = 1 /\ 8 <= i) ->
  forall y, ~ off_meta y -> wr32 v (DISKMAP + 4096 * b + i) x y = v y.
Proof using Hsz.
  intros Hi Hb y Hy. apply wr32_out.
  destruct (decide (DISKMAP + 4096 * b + i <= y < DISKMAP + 4096 * b + i + 4)) as [Hr|]; [|lia].
  destruct Hy. replace y with (DISKMAP + 4096 * b + (y - DISKMAP - 4096 * b)) by lia.
  apply off_meta_blk; lia.
Qed.

(** The blocks a file refers to are not free. *)
Lemma fresh_ne v fb fo r :
  sane N v -> file_ok v fb fo -> 0 <= r < N -> bit v r = true ->
  r <> fb /\ r <> f_indirect v fb fo /\ forall n, 0 <= n < NBLK -> fblk v fb fo n <> r.
Proof using Hsz.
  intros Hv Hf Hr Hbit. pose proof (size_pos Hsz).
  assert (r <> 0) as Hr0 by (intros ->; rewrite (sn_meta N v Hv) in Hbit by lia; done).
  split; [|split].
  - intros ->. destruct (file_in_use v fb fo Hv Hf). congruence.
  - intros ->. destruct (fk_ind _ _ _ Hf) as [|[[_ ?] _]]; [done|congruence].
  - intros n Hn <-. destruct (fk_data _ _ _ Hf n Hn) as ([_ ?] & _); [done|congruence].
Qed.

(** Two slots do not overlap, nor does a slot overlap the indirect pointer. *)
Lemma slots_apart v fb fo n m :
  file_ok v fb fo -> 0 <= n < NBLK -> 0 <= m < NBLK -> n <> m ->
  n < NDIRECT \/ f_indirect v fb fo <> 0 -> m < NDIRECT \/ f_indirect v fb fo <> 0 ->
  slot_addr v fb fo n + 4 <= slot_addr v fb fo m \/ slot_addr v fb fo m + 4 <= slot_addr v fb fo n.
Proof using.
  intros Hf Hn Hm Hne Hsn Hsm.
  destruct (slot_place v fb fo n Hf Hn Hsn) as (b & i & -> & Hi & Hb).
  destruct (slot_place v fb fo m Hf Hm Hsm) as (c & j & -> & Hj & Hc).
  destruct Hb as [(-> & -> & ?)|(-> & -> & ? & _ & ?)], Hc as [(-> & -> & ?)|(-> & -> & ? & _ & ?)]; lia.
Qed.

Lemma slot_ind_apart v fb fo n :
  file_ok v fb fo -> 0 <= n < NBLK -> n < NDIRECT \/ f_indirect v fb fo <> 0 ->
  slot_addr v fb fo n + 4 <= file_addr fb fo + off_f_indirect
  \/ file_addr fb fo + off_f_indirect + 4 <= slot_addr v fb fo n.
Proof using.
  intros Hf Hn Hsn. pose proof (fk_off _ _ _ Hf). unfold file_addr.
  change off_f_indirect with 176.
  destruct (slot_place v fb fo n Hf Hn Hsn) as (b & i & -> & Hi & Hb).
  destruct Hb as [(-> & -> & Hd)|(-> & -> & ? & _ & ?)]; [|lia].
  change NDIRECT with 10 in Hd. change off_f_direct with 136. lia.
Qed.

(** Storing a fresh block [r] in the empty slot [n]. *)
Lemma grow_slot v fb fo n r :
  sane N v -> file_ok v fb fo -> 0 <= n < NBLK -> n < NDIRECT \/ f_indirect v fb fo <> 0 ->
  fblk v fb fo n = 0 -> first_data N <= r < N -> bit v r = true ->
  let v' := wr32 (bit_clear v r) (slot_addr v fb fo n) r in
  grown v v' fb fo /\ fblk v' fb fo n = r
  /\ (forall m, 0 <= m < NBLK -> m <> n -> fblk v' fb fo m = fblk v fb fo m)
  /\ f_indirect v' fb fo = f_indirect v fb fo
  /\ (forall b, 0 <= b < N -> bit v' b = bit (bit_clear v r) b).
Proof using Hsz.
  intros Hv Hf Hn Hsn Hz Hr Hbit v'. pose proof (size_pos Hsz) as H3.
  destruct (fresh_ne v fb fo r Hv Hf ltac:(lia) Hbit) as (Hrf & Hri & Hrb).
  pose proof (clear_same_file v fb fo r Hv Hf Hr) as Hsf.
  pose proof (same_file_ok v _ fb fo Hsf Hf) as Hf1. pose proof (sane_clear Hsz v r Hv Hr) as Hv1.
  pose proof (same_file_ind v _ fb fo Hsf) as Ei1.
  pose proof (fun m Hm => same_file_fblk v _ fb fo m Hsf Hm) as Eb1.
  set (v1 := bit_clear v r) in *.
  assert (forall m, slot_addr v1 fb fo m = slot_addr v fb fo m) as Es1
    by (intros m; unfold slot_addr; by rewrite Ei1).
  destruct (slot_place v fb fo n Hf Hn Hsn) as (b & i & Ea & Hi & Hb).
  assert (first_data N <= b \/ (b = 1 /\ 8 <= i)) as Hbm.
  { destruct Hb as [(-> & -> & ?)|(_ & _ & _ & [] & _)]; [|lia].
    change off_f_direct with 136. destruct (fk_blk _ _ _ Hf) as [[]|[-> ?]]; lia. }
  assert (forall y, ~ off_meta y -> v' y = v1 y) as Hfr
    by (intros y Hy; unfold v'; rewrite Ea; by apply wr32_frame).
  assert (f_indirect v' fb fo = f_indirect v fb fo) as Ei.
  { rewrite <- Ei1. unfold f_indirect, v'. apply rd32_wr32_ne.
    destruct (slot_ind_apart v fb fo n Hf Hn Hsn); lia. }
  assert (forall m, slot_addr v' fb fo m = slot_addr v fb fo m) as Es
    by (intros m; unfold slot_addr; by rewrite Ei).
  assert (forall m, 0 <= m < NBLK -> m <> n -> fblk v' fb fo m = fblk v fb fo m) as Eb.
  { intros m Hm Hne. rewrite <- Eb1 by done. unfold fblk. rewrite Ei, Ei1, Es, Es1.
    destruct ((NDIRECT <=? m) && (f_indirect v fb fo =? 0)) eqn:E; [done|]. unfold v'.
    apply rd32_wr32_ne. apply (slots_apart v fb fo m n); try done.
    apply andb_false_iff in E as [E%Z.leb_gt|E%Z.eqb_neq]; auto. }
  assert (fblk v' fb fo n = r) as En.
  { unfold fblk. rewrite Ei, Es. destruct ((NDIRECT <=? n) && (f_indirect v fb fo =? 0)) eqn:E.
    - apply andb_true_iff in E as [E1%Z.leb_le E2%Z.eqb_eq]. destruct Hsn; [lia|done].
    - unfold v'. rewrite rd32_wr32_eq, u32_id; lia. }
  assert (forall c, 0 <= c < N -> bit v' c = bit v1 c) as Ebit by (intros; by apply bits_frame).
  split; [|done].
  assert (forall c, data_block v c -> data_block v' c) as Hdb.
  { intros c [Hc Hcb]. split; [done|]. rewrite Ebit by lia. unfold v1.
    rewrite bit_bit_clear by lia. by destruct (c =? r). }
  assert (data_block v' r) as Hdr.
  { split; [done|]. rewrite Ebit by lia. unfold v1. rewrite bit_bit_clear, Z.eqb_refl by lia. done. }
  split.
  - eapply sane_frame; [exact Hfr|done].
  - split.
    + apply Hf.
    + destruct (fk_blk _ _ _ Hf) as [?|?]; [left; auto|by right].
    + rewrite Ei. destruct (fk_ind _ _ _ Hf) as [?|[? ?]]; [by left|right; auto].
    + intros m Hm Hm0. rewrite Ei. destruct (decide (m = n)) as [->|Hne].
      * rewrite En in *. done.
      * rewrite Eb in * by done. destruct (fk_data _ _ _ Hf m Hm Hm0) as (?&?&?). auto.
    + intros m k Hm Hk Hm0 E. destruct (decide (m = n)) as [->|Hmn], (decide (k = n)) as [->|Hkn]; [done| | |].
      * rewrite En, Eb in E by done. by destruct (Hrb k Hk).
      * rewrite En, Eb in E by done. by destruct (Hrb m Hm).
      * rewrite !Eb in E by done. rewrite Eb in Hm0 by done. by apply (fk_inj _ _ _ Hf).
  - intros c Hc Hcb. rewrite Ebit by done. unfold v1. rewrite bit_bit_clear by lia. by destruct (c =? r).
  - intros m Hm Hm0. destruct (decide (m = n)) as [->|]; [done|]. by apply Eb.
  - intros m Hm Hm0. destruct (decide (m = n)) as [->|Hne]; [by rewrite En|].
    destruct Hm0. by apply Eb.
  - by left.
  - intros x Hx. rewrite <- (keep_clear v fb fo r x Hx) by lia. fold v1. unfold v'.
    apply wr32_out. rewrite Ea. destruct Hx as [Hx|(c & j & -> & Hj & Hc & Hci & Hcf)].
    + destruct (blk_addr b i) as [Hd _]; [|lia|].
      { destruct Hbm as [?|[]]; [|lia]. destruct Hb as [(-> & _)|(_ & _ & _ & [] & _)]; [|lia].
        destruct (fk_blk _ _ _ Hf) as [[]|[]]; lia. }
      destruct (blk_addr b (i + 3)) as [Hd3 _]; [|lia|].
      { destruct Hbm as [?|[]]; [|lia]. destruct Hb as [(-> & _)|(_ & _ & _ & [] & _)]; [|lia].
        destruct (fk_blk _ _ _ Hf) as [[]|[]]; lia. }
      apply in_disk_iff in Hd, Hd3.
      assert (~ (DISKMAP <= x < DISKMAP + DISKSIZE)) by (rewrite <- in_disk_iff; congruence). lia.
    + destruct Hb as [(-> & -> & Hd)|(-> & -> & ? & _ & ?)].
      * change off_f_direct with 136 in *. change NDIRECT with 10 in Hd.
        destruct (decide (c = fb)) as [->|]; [specialize (Hcf eq_refl)|]; lia.
      * lia.
Qed.

(** Giving the file a fresh, cleared indirect block [r]. *)
Definition with_indirect (v : mem) (fb fo r : Z) : mem :=
  wr32 (mset (bit_clear v r) (DISKMAP + 4096 * r) 0 4096) (file_addr fb fo + off_f_indirect) r.

Lemma with_indirect_facts v fb fo r (v' := with_indirect v fb fo r) :
  sane N v -> file_ok v fb fo -> f_indirect v fb fo = 0 -> first_data N <= r < N -> bit v r = true ->
  (forall y, ~ off_meta y -> v' y = bit_clear v r y)
  /\ f_indirect v' fb fo = r
  /\ (forall n, 0 <= n < NBLK -> fblk v' fb fo n = fblk v fb fo n).
Proof using Hsz.
  intros Hv Hf Hz Hr Hbit. pose proof (size_pos Hsz) as H3.
  destruct (fresh_ne v fb fo r Hv Hf ltac:(lia) Hbit) as (Hrf & Hri & Hrb).
  pose proof (fk_off _ _ _ Hf) as Ho.
  pose proof (clear_same_file v fb fo r Hv Hf Hr) as Hsf.
  assert (file_addr fb fo + off_f_indirect = DISKMAP + 4096 * fb + (fo + 176)) as Ea
    by (unfold file_addr; change off_f_indirect with 176; lia).
  assert (first_data N <= fb \/ (fb = 1 /\ 8 <= fo)) as Hfb.
  { destruct (fk_blk _ _ _ Hf) as [[]|]; lia. }
  assert (f_indirect v' fb fo = r) as Ei.
  { unfold v', with_indirect, f_indirect. rewrite rd32_wr32_eq, u32_id; lia. }
  split; [|split; [done|]].
  - intros y Hy. unfold v', with_indirect. rewrite Ea, wr32_frame by (done || lia).
    apply mset_out. unfold off_meta in Hy. lia.
  - intros n Hn. rewrite <- (same_file_fblk v _ fb fo n Hsf Hn).
    pose proof (same_file_ind v _ fb fo Hsf) as Ei1. rewrite Hz in Ei1.
    unfold fblk, slot_addr. rewrite Ei, Ei1. cbn [Z.eqb].
    destruct (Z.eqb_spec r 0); [lia|]. rewrite andb_false_r, andb_true_r.
    change NDIRECT with 10 in *. change NBLK with 1034 in Hn.
    destruct (Z.ltb_spec n 10), (Z.leb_spec 10 n); try lia.
    + change off_f_direct with 136. unfold v', with_indirect. unfold file_addr in *.
      rewrite rd32_wr32_ne by (change off_f_indirect with 176; lia).
      apply rd32_mset_out. lia.
    + unfold v', with_indirect. rewrite rd32_wr32_ne by (rewrite Ea; lia). by apply rd32_mset_0; lia.
Qed.

Lemma grow_indirect v fb fo r :
  sane N v -> file_ok v fb fo -> f_indirect v fb fo = 0 -> first_data N <= r < N -> bit v r = true ->
  grown v (with_indirect v fb fo r) fb fo.
Proof using Hsz.
  intros Hv Hf Hz Hr Hbit. pose proof (size_pos Hsz) as H3. pose proof (fk_off _ _ _ Hf) as Ho.
  destruct (fresh_ne v fb fo r Hv Hf ltac:(lia) Hbit) as (Hrf & Hri & Hrb).
  destruct (with_indirect_facts v fb fo r Hv Hf Hz Hr Hbit) as (Hfr & Ei & Eb).
  set (v' := with_indirect v fb fo r) in *.
  assert (forall c, 0 <= c < N -> bit v' c = bit (bit_clear v r) c) as Ebit
    by (intros; by apply bits_frame).
  assert (forall c, 0 <= c < N -> bit v c = false -> bit v' c = false) as Hbits.
  { intros c Hc Hcb. rewrite Ebit, bit_bit_clear by lia. by destruct (c =? r). }
  assert (data_block v' r) as Hdr.
  { split; [done|]. rewrite Ebit, bit_bit_clear, Z.eqb_refl by lia. done. }
  pose proof (fun c => data_block_bits v v' c Hbits) as Hdb.
  split; try done.
  - eapply sane_frame; [exact Hfr|by apply (sane_clear Hsz)].
  - split.
    + done.
    + destruct (fk_blk _ _ _ Hf) as [?|?]; [left; auto|by right].
    + rewrite Ei. by right.
    + intros n Hn. rewrite Eb, Ei by done. intros Hn0.
      destruct (fk_data _ _ _ Hf n Hn Hn0) as (?&?&?). split; [auto|]. split; [done|by apply Hrb].
    + intros n m Hn Hm. rewrite !Eb by done. by apply (fk_inj _ _ _ Hf).
  - intros n Hn _. by apply Eb.
  - intros n Hn Hne. destruct Hne. by apply Eb.
  - right. by rewrite Ei.
  - intros x Hx. rewrite <- (keep_clear v fb fo r x Hx) by lia. unfold v', with_indirect.
    assert (0 <= fb < 786432) as Hfb by (destruct (fk_blk _ _ _ Hf) as [[]|[]]; lia).
    unfold file_addr. change off_f_indirect with 176.
    destruct Hx as [Hx|(c & j & -> & Hj & Hc & Hci & Hcf)].
    + assert (~ (DISKMAP <= x < DISKMAP + DISKSIZE)) as Hnd by (rewrite <- in_disk_iff; congruence).
      unfold DISKSIZE in Hnd. rewrite wr32_out, mset_out by lia. done.
    + change off_f_direct with 136 in Hcf.
      assert (c <> r) by (intros ->; destruct Hc as [[_ ?]|]; [congruence|lia]).
      rewrite wr32_out, mset_out; [done|lia|].
      destruct (decide (c = fb)) as [->|]; [specialize (Hcf eq_refl)|]; lia.
Qed.

(** ** file_block_walk and file_get_block *)

Lemma free_blocks_frame v v' k :
  (forall b, 0 <= b < N -> bit v' b = bit v b) -> free_blocks (N := N) v k -> free_blocks (N := N) v' k.
Proof using.
  intros H (l & Hnd & Hlen & Hl). exists l. split; [done|]. split; [done|].
  intros b Hb. destruct (Hl b Hb). split; [done|]. by rewrite H.
Qed.

Lemma free_blocks_le v k k' : (k' <= k)%nat -> free_blocks (N := N) v k -> free_blocks (N := N) v k'.
Proof using. intros Hle (l & Hnd & Hlen & Hl). exists l. split; [done|]. split; [lia|done]. Qed.

(** How many blocks the walk to block [n] allocates. *)
Definition walk_need (v : mem) (fb fo n : Z) : nat :=
  if (NDIRECT <=? n) && (f_indirect v fb fo =? 0) then 1 else 0.

Lemma fwp_walk v fb fo n k :
  sane N v -> file_ok v fb fo -> 0 <= n < NBLK -> free_blocks (N := N) v (walk_need v fb fo n + k) ->
  fwp N (file_block_walk (file_addr fb fo) n true)
    (fun r v' => r = (0, Some (slot_addr v' fb fo n)) /\ grown v v' fb fo
       /\ (forall m, 0 <= m < NBLK -> fblk v' fb fo m = fblk v fb fo m)
       /\ (n < NDIRECT \/ f_indirect v' fb fo <> 0) /\ free_blocks (N := N) v' k) v.
Proof using Hsz.
  intros Hv Hf Hn Hfree. unfold walk_need in Hfree. unfold file_block_walk. change NBLK with 1034 in Hn.
  change (NDIRECT + NINDIRECT) with 1034. change NDIRECT with 10 in *.
  destruct (Z.ltb_spec n 10) as [Hlt|Hge].
  { destruct (Z.leb_spec 10 n); [lia|]. fstep. split; [|split; [by apply grown_refl|]].
    - unfold slot_addr. change NDIRECT with 10. by destruct (Z.ltb_spec n 10); [|lia].
    - split; [done|]. split; [by left|done]. }
  destruct (Z.ltb_spec n 1034); [|lia]. destruct (Z.leb_spec 10 n); [|lia]. cbn [andb] in Hfree.
  fstep. apply fwp_field; [done|done|done|]. fold (f_indirect v fb fo).
  assert (forall w, slot_addr w fb fo n = DISKMAP + 4096 * f_indirect w fb fo + 4 * (n - 10)) as Es.
  { intros w. unfold slot_addr. change NDIRECT with 10. by destruct (Z.ltb_spec n 10); [lia|]. }
  destruct (Z.eqb_spec (f_indirect v fb fo) 0) as [Hz|Hnz]; cbn [negb] in *.
  - fstep. eapply fwp_mono; [by apply (fwp_alloc Hsz)|]. intros r v1 Hp.
    destruct (alloc_some v k r v1 Hfree Hp) as (Hr & Hbit & -> & Hfree1).
    pose proof (size_pos Hsz). rewrite (u32_id r) by lia. destruct (Z.ltb_spec r 0); [lia|].
    pose proof (sane_clear Hsz v r Hv Hr) as Hv1.
    pose proof (clear_same_file v fb fo r Hv Hf Hr) as Hsf.
    pose proof (same_file_ok v _ fb fo Hsf Hf) as Hf1.
    pose proof (grow_indirect v fb fo r Hv Hf Hz Hr Hbit) as Hg.
    destruct (with_indirect_facts v fb fo r Hv Hf Hz Hr Hbit) as (Hfr & Ei & Eb).
    assert (in_use N (bit_clear v r) r) as Hur.
    { split; [lia|]. rewrite bit_bit_clear, Z.eqb_refl by lia. done. }
    set (v1 := bit_clear v r) in *. set (v2 := mset v1 (DISKMAP + 4096 * r) 0 4096).
    assert (forall y, ~ off_meta y -> v2 y = v1 y) as Hfr2.
    { intros y Hy. apply mset_out. unfold off_meta in Hy. lia. }
    assert (same_file v1 v2 fb fo) as Hsf2.
    { destruct (fresh_ne v fb fo r Hv Hf ltac:(lia) Hbit) as (Hrf & _ & _). pose proof (fk_off _ _ _ Hf).
      split.
      - intros b Hb Hb1. by rewrite (bits_frame v1).
      - intros x Hx. unfold file_addr in Hx. change off_f_direct with 136 in Hx. apply mset_out. lia.
      - intros Hi1. rewrite (same_file_ind v) in Hi1 by done. done. }
    fstep. apply fwp_diskaddr; [done|lia|]. fstep. apply fwp_cmemset; [done|done|]. fold v2.
    pose proof (sane_frame v1 v2 Hfr2 Hv1) as Hv2. pose proof (same_file_ok v1 v2 fb fo Hsf2 Hf1) as Hf2.
    fstep. apply fwp_set_field; [done|done|done|]. fold v1 v2. fold (with_indirect v fb fo r).
    fold v1 in Hg. set (v3 := wr32 v2 (file_addr fb fo + off_f_indirect) r).
    change (with_indirect v fb fo r) with v3 in *.
    fstep. apply fwp_field; [apply Hg|apply Hg|done|]. fold (f_indirect v3 fb fo). rewrite Ei.
    fstep. apply fwp_diskaddr; [apply Hg|lia|]. fstep. rewrite Es, Ei.
    split; [done|]. split; [done|]. split; [done|]. split; [right; lia|].
    eapply free_blocks_frame; [|exact Hfree1]. intros b Hb. by apply bits_frame.
  - destruct (fk_ind _ _ _ Hf) as [|[[Hr _] _]]; [done|]. pose proof (size_pos Hsz).
    fstep. apply fwp_diskaddr; [done|lia|]. fstep. rewrite Es. split; [done|].
    split; [by apply grown_refl|]. split; [done|]. split; [by right|done].
Qed.

Definition block_need (v : mem) (fb fo n : Z) : nat :=
  walk_need v fb fo n + (if fblk v fb fo n =? 0 then 1 else 0).

Lemma slot_value v fb fo n :
  n < NDIRECT \/ f_indirect v fb fo <> 0 -> rd32 v (slot_addr v fb fo n) = fblk v fb fo n.
Proof using.
  intros H. unfold fblk. destruct ((NDIRECT <=? n) && (f_indirect v fb fo =? 0)) eqn:E; [|done].
  apply andb_true_iff in E as [E1%Z.leb_le E2%Z.eqb_eq]. destruct H; [lia|done].
Qed.

Lemma fwp_slot v fb fo n (Q : Z -> mem -> Prop) :
  sane N v -> file_ok v fb fo -> 0 <= n < NBLK -> n < NDIRECT \/ f_indirect v fb fo <> 0 ->
  Q (fblk v fb fo n) v -> fwp N (ld32 (slot_addr v fb fo n)) Q v.
Proof using Hsz.
  intros Hv Hf Hn Hs HQ. rewrite <- slot_value in HQ by done.
  destruct (slot_place v fb fo n Hf Hn Hs) as (b & i & E & Hi & Hb).
  pose proof (slot_in_use v fb fo n b i Hv Hf E Hb). rewrite E in *. by apply fwp_ld32.
Qed.

Lemma fwp_set_slot v w fb fo n x (Q : unit -> mem -> Prop) :
  sane N v -> file_ok v fb fo -> 0 <= n < NBLK -> n < NDIRECT \/ f_indirect v fb fo <> 0 ->
  slot_addr w fb fo n = slot_addr v fb fo n ->
  Q tt (wr32 v (slot_addr w fb fo n) x) -> fwp N (st32 (slot_addr w fb fo n) x) Q v.
Proof using Hsz.
  intros Hv Hf Hn Hs Ew HQ. rewrite Ew in *.
  destruct (slot_place v fb fo n Hf Hn Hs) as (b & i & E & Hi & Hb).
  pose proof (slot_in_use v fb fo n b i Hv Hf E Hb). rewrite E in *. by apply fwp_st32.
Qed.

Definition got_block (v : mem) (fb fo n : Z) (k : nat) (r : Z * option Z) (v' : mem) : Prop :=
  r = (0, Some (DISKMAP + 4096 * fblk v' fb fo n)) /\ grown v v' fb fo
  /\ fblk v' fb fo n <> 0
  /\ (forall m, 0 <= m < NBLK -> m <> n -> fblk v' fb fo m = fblk v fb fo m)
  /\ free_blocks (N := N) v' k.

Lemma fwp_get_block v fb fo n k :
  sane N v -> file_ok v fb fo -> 0 <= n < NBLK ->
  free_blocks (N := N) v (block_need v fb fo n + k) ->
  fwp N (file_get_block (file_addr fb fo) n) (got_block v fb fo n k) v.
Proof using Hsz.
  intros Hv Hf Hn Hfree. pose proof (size_pos Hsz) as H3. unfold file_get_block. fstep.
  eapply fwp_mono.
  { apply (fwp_walk v fb fo n ((if (fblk v fb fo n =? 0)%Z then 1 else 0) + k)%nat); try done.
    unfold block_need in Hfree. by rewrite Nat.add_assoc. }
  intros r v1 (-> & Hg & Eb & Hs & Hfree1). fstep.
  apply fwp_slot; [apply Hg|apply Hg|done|done|]. rewrite Eb by done.
  destruct (Z.eqb_spec (fblk v fb fo n) 0) as [Hz|Hnz].
  - cbn [Nat.add] in Hfree1. fstep. fstep. eapply fwp_mono; [by apply (fwp_alloc Hsz), Hg|].
    intros r v2 Hp. destruct (alloc_some v1 k r v2 Hfree1 Hp) as (Hr & Hbit & -> & Hfree2).
    pose proof (clear_same_file v1 fb fo r (gr_sane _ _ _ _ Hg) (gr_ok _ _ _ _ Hg) Hr) as Hsf.
    pose proof (same_file_ok v1 _ fb fo Hsf (gr_ok _ _ _ _ Hg)) as Hf2.
    pose proof (sane_clear Hsz v1 r (gr_sane _ _ _ _ Hg) Hr) as Hv2.
    pose proof (same_file_ind v1 _ fb fo Hsf) as Ei2.
    assert (fblk v1 fb fo n = 0) as Hz1 by (by rewrite Eb).
    destruct (grow_slot v1 fb fo n r (gr_sane _ _ _ _ Hg) (gr_ok _ _ _ _ Hg) Hn Hs Hz1 Hr Hbit)
      as (Hg3 & En & Em & Ei3 & Ebit).
    rewrite (u32_id r) by lia. fstep.
    apply (fwp_set_slot _ v1); [done|done|done|by rewrite Ei2|unfold slot_addr; by rewrite Ei2|].
    set (v3 := wr32 (bit_clear v1 r) (slot_addr v1 fb fo n) r) in *.
    assert (slot_addr v1 fb fo n = slot_addr v3 fb fo n) as Es by (unfold slot_addr; by rewrite Ei3).
    rewrite Es. assert (n < NDIRECT \/ f_indirect v3 fb fo <> 0) as Hs3 by (by rewrite Ei3).
    fstep. apply fwp_slot; [apply Hg3|apply Hg3|done|done|]. rewrite En. fstep.
    destruct (Z.ltb_spec r 0); [lia|]. fstep. apply fwp_slot; [apply Hg3|apply Hg3|done|done|].
    rewrite En. fstep. apply fwp_diskaddr; [apply Hg3|lia|]. fstep.
    split; [by rewrite En|]. split; [by eapply grown_trans|]. split; [rewrite En; lia|].
    split; [intros m Hm Hne; by rewrite Em, Eb|].
    eapply free_blocks_frame; [|exact Hfree2]. exact Ebit.
  - fstep. fstep. fstep. apply fwp_slot; [apply Hg|apply Hg|done|done|]. rewrite Eb by done.
    destruct (fk_data _ _ _ Hf n Hn Hnz) as ([Hr _] & _).
    fstep. apply fwp_diskaddr; [apply Hg|lia|]. fstep.
    split; [by rewrite Eb|]. split; [done|]. split; [by rewrite Eb|]. split; [by intros; apply Eb|].
    by eapply free_blocks_le; [|exact Hfree1].
Qed.

End files.

End FsFiles.
