(* ===== verification/FsRw.v ===== *)
(** * Reading and writing files (fs/fs.c: file_read, file_write, file_set_size)

    The loops of [file_read] and [file_write] against the bytes of the file:
    byte [p] of a file is byte [p mod 4096] of its block [p / 4096].  The
    theorem: what [file_write] writes, [file_read] reads back; the bytes of the
    file outside the written range and every block that belongs to something
    else stay as they are. *)

From stdpp Require Import base numbers list functions strings sets.
From Stdlib Require Import ZArith Lia.
From S2P Require Import Prelude Mem Mmu Console Kernel Umonad Bc Fs FsLogic FsAlloc FsFiles.

Open Scope Z_scope.
Open Scope usr_scope.

Module FsRw.

Import Bc Fs FsLogic FsAlloc FsFiles.

(** Where byte [p] of the file is. *)
Definition byte_addr (v : mem) (fb fo p : Z) : Z :=
  DISKMAP + 4096 * fblk v fb fo (p / 4096) + p mod 4096.

(** The first byte of block [p / 4096] has been allocated. *)
Definition allocated (v : mem) (fb fo p : Z) : Prop := fblk v fb fo (p / 4096) <> 0.

Section rw.

Context {N : Z} (Hsz : first_data N <= N <= 786432).

(** ** Copying into a block of the file *)

Lemma in_disk_out x : in_disk x = false -> x < DISKMAP \/ DISKMAP + DISKSIZE <= x.
Proof using.
  intros H. assert (~ (DISKMAP <= x < DISKMAP + DISKSIZE)) by (rewrite <- in_disk_iff; congruence). lia.
Qed.

Lemma page_index p : 0 <= p < MAXFILESIZE -> 0 <= p / 4096 < NBLK.
Proof using. change MAXFILESIZE with 4235264. change NBLK with 1034. intros. zdm. Qed.

(** The memory after [n] bytes from [a] were copied to byte [p] of the file. *)
Definition file_put (v : mem) (fb fo p a n : Z) : mem := mcpy v (byte_addr v fb fo p) a n.

Lemma file_put_out v fb fo p a n x :
  0 <= p -> p mod 4096 + n <= 4096 ->
  x < DISKMAP + 4096 * fblk v fb fo (p / 4096) \/ DISKMAP + 4096 * fblk v fb fo (p / 4096) + 4096 <= x ->
  file_put v fb fo p a n x = v x.
Proof using. intros Hp Hn Hx. unfold file_put. apply mcpy_out. unfold byte_addr. zdm. Qed.

Lemma file_put_ok v fb fo p a n :
  sane N v -> file_ok (N := N) v fb fo -> 0 <= p < MAXFILESIZE -> allocated v fb fo p -> 0 <= n ->
  p mod 4096 + n <= 4096 ->
  let v' := file_put v fb fo p a n in
  sane N v' /\ same_file (N := N) v v' fb fo /\ (forall b, 0 <= b < N -> bit v' b = bit v b).
Proof using Hsz.
  intros Hv Hf Hp Ha Hn Hpn v'. pose proof (size_pos Hsz). pose proof (fk_off _ _ _ Hf) as Ho.
  destruct (fk_data _ _ _ Hf (p / 4096) (page_index p Hp) Ha) as ([Hb Hbit] & Hbf & Hbi).
  assert (forall x, ~ off_meta (N := N) x -> v' x = v x) as Hfr.
  { intros x Hx. apply file_put_out; [lia|done|]. unfold off_meta in Hx. lia. }
  assert (forall b, 0 <= b < N -> bit v' b = bit v b) as Hbits by (intros; by apply (bits_frame Hsz)).
  split; [by eapply (sane_frame Hsz)|]. split; [|done]. split.
  - intros b Hb' E. by rewrite Hbits.
  - intros x Hx. unfold file_addr in Hx. change off_f_direct with 136 in Hx.
    apply file_put_out; [lia|done|]. lia.
  - intros Hi i Hii. apply file_put_out; [lia|done|]. lia.
Qed.

(** ** The invariant of the loop of [file_write] *)

(** [v] is [v0] after the bytes from [offset] to [pos] were written from [buf]. *)
Record written (v0 v : mem) (fb fo buf offset pos : Z) : Prop := {
  wn_sane : sane N v;
  wn_ok : file_ok (N := N) v fb fo;
  wn_bits : forall b, 0 <= b < N -> bit v0 b = false -> bit v b = false;
  wn_fblk : forall n, 0 <= n < NBLK -> fblk v0 fb fo n <> 0 -> fblk v fb fo n = fblk v0 fb fo n;
  wn_new : forall n, 0 <= n < NBLK -> fblk v fb fo n <> fblk v0 fb fo n -> bit v0 (fblk v fb fo n) = true;
  wn_ind : f_indirect v fb fo = f_indirect v0 fb fo
    \/ (f_indirect v0 fb fo = 0 /\ bit v0 (f_indirect v fb fo) = true);
  wn_bytes : forall p, offset <= p < pos ->
    allocated v fb fo p /\ v (byte_addr v fb fo p) = v0 (buf + (p - offset));
  wn_keep : forall x, keep (N := N) v0 fb fo x ->
    (forall p, offset <= p < pos -> x <> byte_addr v fb fo p) -> v x = v0 x
}.

Lemma keep_written v0 v fb fo buf offset pos x :
  written v0 v fb fo buf offset pos -> keep (N := N) v0 fb fo x -> keep (N := N) v fb fo x.
Proof using Hsz.
  intros W [Hx|(c & i & E & Hi & Hc & Hci & Hcf)]; [by left|]. right. exists c, i.
  split; [done|]. split; [done|]. pose proof (size_pos Hsz).
  split; [|split; [|done]].
  - destruct Hc as [Hc|]; [left|by right].
    by apply (data_block_bits Hsz v0 v c (wn_bits _ _ _ _ _ _ _ W)).
  - destruct (wn_ind _ _ _ _ _ _ _ W) as [->|[Hz Hbit]]; [done|]. intros ->.
    destruct Hc as [[_ Hb]|E1]; [congruence|].
    destruct (fk_ind _ _ _ (wn_ok _ _ _ _ _ _ _ W)) as [E0|[[Hge _] _]]; lia.
Qed.

(** A byte of an allocated block is kept by growing the file. *)
Lemma keep_byte v fb fo p :
  file_ok (N := N) v fb fo -> 0 <= p < MAXFILESIZE -> allocated v fb fo p ->
  keep (N := N) v fb fo (byte_addr v fb fo p).
Proof using.
  intros Hf Hp Ha. destruct (fk_data _ _ _ Hf (p / 4096) (page_index p Hp) Ha) as (Hd & Hbf & Hbi).
  right. exists (fblk v fb fo (p / 4096)), (p mod 4096).
  split; [done|]. split; [zdm|]. split; [by left|]. split; [done|]. by intros.
Qed.

Lemma byte_addr_inj v fb fo p q :
  file_ok (N := N) v fb fo -> 0 <= p < MAXFILESIZE -> 0 <= q < MAXFILESIZE -> allocated v fb fo p ->
  byte_addr v fb fo p = byte_addr v fb fo q -> p = q.
Proof using.
  intros Hf Hp Hq Ha E. unfold byte_addr in E.
  assert (fblk v fb fo (p / 4096) = fblk v fb fo (q / 4096)) as Eb by zdm.
  pose proof (fk_inj _ _ _ Hf _ _ (page_index p Hp) (page_index q Hq) Ha Eb). zdm.
Qed.

Lemma written_start v fb fo buf offset :
  sane N v -> file_ok (N := N) v fb fo -> written v v fb fo buf offset offset.
Proof using. intros Hv Hf. split; try done; [by left|intros; lia]. Qed.

(** The bytes put at [p] are bytes [p .. p + n - 1] of the file. *)
Lemma file_put_in v fb fo p a n q :
  0 <= p -> p mod 4096 + n <= 4096 -> p <= q < p + n ->
  q / 4096 = p / 4096
  /\ byte_addr v fb fo q = byte_addr v fb fo p + (q - p)
  /\ file_put v fb fo p a n (byte_addr v fb fo q) = v (a + (q - p)).
Proof using.
  intros Hp Hn Hq. assert (q / 4096 = p / 4096) as E by zdm.
  assert (byte_addr v fb fo q = byte_addr v fb fo p + (q - p)) as Ea.
  { unfold byte_addr. rewrite E. zdm. }
  split; [done|]. split; [done|]. unfold file_put. rewrite mcpy_in by lia. f_equal. lia.
Qed.

(** Growing the file for block [pos / 4096] and filling it up to [pos + n]. *)
Lemma written_step v0 v v1 fb fo buf offset pos n k :
  written v0 v fb fo buf offset pos -> 0 <= offset <= pos -> 0 < n -> pos + n <= MAXFILESIZE ->
  pos mod 4096 + n <= 4096 ->
  (forall i, 0 <= i < pos + n - offset -> in_disk (buf + i) = false) ->
  got_block (N := N) v fb fo (pos / 4096) k (0, Some (DISKMAP + 4096 * fblk v1 fb fo (pos / 4096))) v1 ->
  written v0 (file_put v1 fb fo pos (buf + (pos - offset)) n) fb fo buf offset (pos + n).
Proof using Hsz.
  intros W Hoff Hn Hmax Hpn Hbuf (_ & Hg & Hnz & Hoth & _). pose proof (size_pos Hsz) as H3.
  assert (0 <= pos < MAXFILESIZE) as Hpos by lia. pose proof (page_index pos Hpos) as Hpi.
  destruct (file_put_ok v1 fb fo pos (buf + (pos - offset)) n) as (Hv2 & Hsf & Hb2);
    [apply Hg|apply Hg|done|done|lia|done|].
  set (v2 := file_put v1 fb fo pos (buf + (pos - offset)) n) in *.
  pose proof (fun m Hm => same_file_fblk v1 v2 fb fo m Hsf Hm) as Eb2.
  pose proof (same_file_ind v1 v2 fb fo Hsf) as Ei2.
  assert (forall p, 0 <= p < MAXFILESIZE -> byte_addr v2 fb fo p = byte_addr v1 fb fo p) as Ea2
    by (intros p Hp; unfold byte_addr; by rewrite Eb2 by (by apply page_index)).
  assert (forall p, 0 <= p < MAXFILESIZE -> allocated v fb fo p ->
    byte_addr v1 fb fo p = byte_addr v fb fo p /\ allocated v1 fb fo p) as Ea1.
  { intros p Hp Ha. unfold byte_addr, allocated in *.
    by rewrite (gr_fblk _ _ _ _ Hg) by (done || by apply page_index). }
  assert (forall x, (forall p, pos <= p < pos + n -> x <> byte_addr v1 fb fo p) -> v2 x = v1 x) as Hout.
  { intros x Hx. unfold v2, file_put. apply mcpy_out.
    destruct (decide (byte_addr v1 fb fo pos <= x < byte_addr v1 fb fo pos + n)) as [Hr|]; [|lia].
    destruct (Hx (pos + (x - byte_addr v1 fb fo pos)) ltac:(lia)).
    destruct (file_put_in v1 fb fo pos 0 n (pos + (x - byte_addr v1 fb fo pos))) as (_ & E & _);
      [lia|done|lia|]. lia. }
  assert (forall b, 0 <= b < N -> bit v b = true -> bit v0 b = true) as Hback.
  { intros b Hb H2. destruct (bit v0 b) eqn:E; [done|].
    apply (wn_bits _ _ _ _ _ _ _ W) in E; [congruence|done]. }
  split.
  - done.
  - by eapply (same_file_ok Hsz); [|apply Hg].
  - intros b Hb E. rewrite Hb2 by done. apply (gr_bits _ _ _ _ Hg); [done|].
    by apply (wn_bits _ _ _ _ _ _ _ W).
  - intros m Hm E. rewrite Eb2 by done. pose proof (wn_fblk _ _ _ _ _ _ _ W m Hm E) as E1.
    rewrite (gr_fblk _ _ _ _ Hg); [done|done|congruence].
  - intros m Hm E. rewrite Eb2 in * by done.
    destruct (decide (fblk v1 fb fo m = fblk v fb fo m)) as [E1|E1].
    + rewrite E1 in *. by apply (wn_new _ _ _ _ _ _ _ W).
    + pose proof (gr_new _ _ _ _ Hg m Hm E1) as Hbit.
      apply Hback; [|done]. destruct (decide (fblk v1 fb fo m = 0)) as [->|Hz]; [lia|].
      destruct (fk_data _ _ _ (gr_ok _ _ _ _ Hg) m Hm Hz) as ([Hr _] & _). lia.
  - rewrite Ei2. destruct (gr_ind _ _ _ _ Hg) as [->|[Hz Hb]]; [apply (wn_ind _ _ _ _ _ _ _ W)|].
    right. assert (0 <= f_indirect v1 fb fo < N).
    { destruct (fk_ind _ _ _ (gr_ok _ _ _ _ Hg)) as [->|[[Hr _] _]]; lia. }
    split; [|by apply Hback]. destruct (wn_ind _ _ _ _ _ _ _ W) as [E|[E _]]; congruence.
  - intros p Hp. destruct (decide (p < pos)) as [Hlt|Hge].
    + destruct (wn_bytes _ _ _ _ _ _ _ W p ltac:(lia)) as [Ha E]. destruct (Ea1 p ltac:(lia) Ha) as [Eq Ha1].
      split; [unfold allocated; by rewrite Eb2 by (apply page_index; lia)|].
      rewrite Ea2 by lia. rewrite Hout.
      * rewrite Eq, (gr_keep _ _ _ _ Hg); [done|]. apply keep_byte; [apply W|lia|done].
      * intros q Hq E2. pose proof (byte_addr_inj v1 fb fo p q (gr_ok _ _ _ _ Hg) ltac:(lia) ltac:(lia) Ha1 E2). lia.
    + destruct (file_put_in v1 fb fo pos (buf + (pos - offset)) n p) as (Ep & _ & Ev); [lia|done|lia|].
      split; [unfold allocated; rewrite Eb2 by (apply page_index; lia); by rewrite Ep|].
      rewrite Ea2 by lia. unfold v2. rewrite Ev.
      replace (buf + (pos - offset) + (p - pos)) with (buf + (p - offset)) by lia.
      assert (keep (N := N) v0 fb fo (buf + (p - offset))) as Hk by (left; apply Hbuf; lia).
      rewrite (gr_keep _ _ _ _ Hg) by (by eapply keep_written). apply (wn_keep _ _ _ _ _ _ _ W); [done|].
      intros q Hq E2. pose proof (Hbuf (p - offset) ltac:(lia)) as Hd%in_disk_out.
      destruct (wn_bytes _ _ _ _ _ _ _ W q Hq) as [Ha _].
      destruct (fk_data _ _ _ (wn_ok _ _ _ _ _ _ _ W) (q / 4096) (page_index q ltac:(lia)) Ha) as ([Hr _] & _).
      unfold byte_addr in E2. unfold DISKSIZE in Hd. zdm.
  - intros x Hx Hnot. rewrite Hout by (intros p Hp; rewrite <- Ea2 by lia; apply Hnot; lia).
    rewrite (gr_keep _ _ _ _ Hg) by (by eapply keep_written).
    apply (wn_keep _ _ _ _ _ _ _ W); [done|]. intros p Hp.
    destruct (wn_bytes _ _ _ _ _ _ _ W p Hp) as [Ha _]. destruct (Ea1 p ltac:(lia) Ha) as [<- _].
    rewrite <- Ea2 by lia. apply Hnot. lia.
Qed.

(** ** The loops *)

(** Signed and unsigned 32-bit arithmetic on positions below the size limit. *)
Lemma pos_arith pos stop :
  0 <= pos < stop -> stop <= MAXFILESIZE ->
  u32 pos = pos /\ u32 (Z.quot pos BLKSIZE) = pos / 4096 /\ Z.rem pos BLKSIZE = pos mod 4096
  /\ exists bn, i32 (MIN (u32 (BLKSIZE - Z.rem pos BLKSIZE)) (u32 (stop - pos))) = bn
       /\ u32 bn = bn /\ i32 (pos + bn) = pos + bn
       /\ 0 < bn /\ pos + bn <= stop /\ pos mod 4096 + bn <= 4096
       /\ (bn = stop - pos \/ pos mod 4096 + bn = 4096).
Proof using.
  change MAXFILESIZE with 4235264. change BLKSIZE with 4096. intros Hp Hs.
  assert (Z.rem pos 4096 = pos mod 4096) as -> by (apply Z.rem_mod_nonneg; lia).
  assert (Z.quot pos 4096 = pos / 4096) as -> by (apply Z.quot_div_nonneg; lia).
  assert (0 <= pos mod 4096 < 4096) by zdm. assert (0 <= pos / 4096 <= pos) by zdm.
  rewrite !u32_id by lia. repeat split.
  exists (MIN (4096 - pos mod 4096) (stop - pos)).
  assert (0 < MIN (4096 - pos mod 4096) (stop - pos) <= 4096
    /\ MIN (4096 - pos mod 4096) (stop - pos) <= stop - pos
    /\ MIN (4096 - pos mod 4096) (stop - pos) <= 4096 - pos mod 4096
    /\ (MIN (4096 - pos mod 4096) (stop - pos) = stop - pos
        \/ MIN (4096 - pos mod 4096) (stop - pos) = 4096 - pos mod 4096)) as (H1 & H2 & H3 & H4).
  { unfold MIN. destruct (Z.leb_spec (4096 - pos mod 4096) (stop - pos)); lia. }
  rewrite !i32_id, u32_id by lia. repeat split; lia.
Qed.

(** The blocks from [pos] to [stop], and one more if there is no indirect block. *)
Definition blocks_left (pos stop : Z) : nat := Z.to_nat ((stop + 4095) / 4096 - pos / 4096).

Definition no_indirect (v : mem) (fb fo : Z) : nat := if f_indirect v fb fo =? 0 then 1 else 0.

Lemma blocks_left_step pos stop bn :
  0 <= pos < stop -> 0 < bn -> pos + bn <= stop -> pos mod 4096 + bn <= 4096 ->
  bn = stop - pos \/ pos mod 4096 + bn = 4096 ->
  (0 < blocks_left pos stop)%nat
  /\ (pos + bn < stop -> blocks_left pos stop = S (blocks_left (pos + bn) stop)).
Proof using. intros Hp Hb Hs Hm Hor. unfold blocks_left. split; [zdm|]. intros Hlt. zdm. Qed.

Lemma need_step v v1 fb fo n k r :
  (0 < r)%nat -> 0 <= n < NBLK ->
  got_block (N := N) v fb fo n k (0, Some (DISKMAP + 4096 * fblk v1 fb fo n)) v1 ->
  (block_need v fb fo n + k = r + no_indirect v fb fo)%nat ->
  (r - 1 + no_indirect v1 fb fo <= k)%nat.
Proof using.
  intros Hr Hn (_ & Hg & Hnz & _ & _) E. unfold block_need, walk_need, no_indirect in *.
  assert (f_indirect v fb fo <> 0 -> f_indirect v1 fb fo <> 0) as Hmono.
  { intros Hi. destruct (gr_ind _ _ _ _ Hg) as [->|[? _]]; done. }
  destruct (Z.eqb_spec (f_indirect v fb fo) 0) as [Hz|Hi].
  - destruct (Z.leb_spec NDIRECT n) as [Hge|Hlt]; cbn [andb] in E.
    + assert (fblk v fb fo n = 0) as E0.
      { unfold fblk. rewrite Hz. destruct (Z.leb_spec NDIRECT n); [done|lia]. }
      assert (f_indirect v1 fb fo <> 0) as Hi1.
      { intros Hz1. destruct Hnz. unfold fblk. rewrite Hz1. destruct (Z.leb_spec NDIRECT n); [done|lia]. }
      rewrite E0 in E. cbn in E. destruct (Z.eqb_spec (f_indirect v1 fb fo) 0); [done|lia].
    + destruct (fblk v fb fo n =? 0), (f_indirect v1 fb fo =? 0); lia.
  - rewrite andb_false_r in E. destruct (Z.eqb_spec (f_indirect v1 fb fo) 0) as [Hz1|]; [by destruct Hmono|].
    destruct (fblk v fb fo n =? 0); lia.
Qed.

Lemma block_need_le v fb fo n : (block_need v fb fo n <= 1 + no_indirect v fb fo)%nat.
Proof using.
  unfold block_need, walk_need, no_indirect.
  destruct (NDIRECT <=? n), (f_indirect v fb fo =? 0), (fblk v fb fo n =? 0); cbn; lia.
Qed.

Lemma write_loop_ok fuel : forall v0 v fb fo buf offset pos stop,
  written v0 v fb fo buf offset pos -> 0 <= offset <= pos -> pos <= stop -> stop <= MAXFILESIZE ->
  (pos < stop -> (blocks_left pos stop <= fuel)%nat) ->
  free_blocks (N := N) v (if pos <? stop then blocks_left pos stop + no_indirect v fb fo else 0) ->
  (forall i, 0 <= i < stop - offset -> in_disk (buf + i) = false) ->
  fwp N (write_loop fuel (file_addr fb fo) (buf + (pos - offset)) stop pos)
    (fun r v' => r = None /\ written v0 v' fb fo buf offset stop) v.
Proof using Hsz.
  induction fuel as [|fuel IH]; intros v0 v fb fo buf offset pos stop W Hoff Hle Hmax Hfuel Hfree Hbuf.
  { destruct (Z.ltb_spec pos stop) as [Hlt|].
    - specialize (Hfuel Hlt). unfold blocks_left in Hfuel. exfalso. zdm.
    - cbn [write_loop]. change MAXFILESIZE with 4235264 in Hmax.
      rewrite u32_id by lia. destruct (Z.ltb_spec pos stop); [lia|]. fstep.
      split; [done|]. by replace stop with pos by lia. }
  cbn [write_loop]. destruct (Z.ltb_spec pos stop) as [Hlt|Hge].
  2: { change MAXFILESIZE with 4235264 in Hmax. rewrite u32_id by lia.
       destruct (Z.ltb_spec pos stop); [lia|]. fstep. split; [done|]. by replace stop with pos by lia. }
  destruct (pos_arith pos stop ltac:(lia) Hmax) as (Eu & Eq & Er & bn & Ebn & Eub & Ei & Hbn & Hbs & Hbm & Hor).
  rewrite Eu, Eq, Er in *. destruct (Z.ltb_spec pos stop); [|lia].
  destruct (blocks_left_step pos stop bn ltac:(lia) Hbn Hbs Hbm Hor) as [Hbl Hbl'].
  assert (0 <= pos / 4096 < NBLK) as Hpi by (apply page_index; lia).
  pose proof (block_need_le v fb fo (pos / 4096)) as Hnl.
  set (k := (blocks_left pos stop + no_indirect v fb fo - block_need v fb fo (pos / 4096))%nat).
  fstep. eapply fwp_mono.
  { apply (fwp_get_block Hsz v fb fo (pos / 4096) k); [apply W|apply W|done|].
    by replace (block_need v fb fo (pos / 4096) + k)%nat with (blocks_left pos stop + no_indirect v fb fo)%nat by lia. }
  intros r v1 Hgot. destruct Hgot as (-> & Hgot). cbn beta iota. rewrite Ebn, Eub, Ei.
  assert (got_block (N := N) v fb fo (pos / 4096) k (0, Some (DISKMAP + 4096 * fblk v1 fb fo (pos / 4096))) v1)
    as Hgot' by (split; [done|exact Hgot]).
  pose proof (written_step v0 v v1 fb fo buf offset pos bn k W Hoff Hbn ltac:(lia) Hbm
    ltac:(intros; apply Hbuf; lia) Hgot') as W2.
  destruct Hgot as (Hg & Hnz & _ & Hfree1).
  destruct (fk_data _ _ _ (gr_ok _ _ _ _ Hg) _ Hpi Hnz) as (Hd & _ & _).
  pose proof (data_in_use Hsz v1 _ Hd) as Hu. pose proof (size_pos Hsz) as H3. destruct Hu as [Hub Hubit].
  fstep. apply fwp_cmemmove; [apply Hg|split; [lia|]|..].
  { zdm. }
  { intros _. split; [|split; [|split]].
    - intros Hd1. rewrite Hbuf in Hd1 by lia. done.
    - intros Hd1. replace (buf + (pos - offset) + bn - 1) with (buf + (pos - offset + bn - 1)) in Hd1 by lia.
      rewrite Hbuf in Hd1 by lia. done.
    - intros _. destruct (blk_addr (fblk v1 fb fo (pos / 4096)) (pos mod 4096)) as [_ ->]; [lia|zdm|done].
    - intros _. replace (DISKMAP + 4096 * fblk v1 fb fo (pos / 4096) + pos mod 4096 + bn - 1)
        with (DISKMAP + 4096 * fblk v1 fb fo (pos / 4096) + (pos mod 4096 + bn - 1)) by lia.
      destruct (blk_addr (fblk v1 fb fo (pos / 4096)) (pos mod 4096 + bn - 1)) as [_ ->]; [lia|zdm|done]. }
  change (mcpy v1 (DISKMAP + 4096 * fblk v1 fb fo (pos / 4096) + pos mod 4096) (buf + (pos - offset)) bn)
    with (file_put v1 fb fo pos (buf + (pos - offset)) bn).
  replace (buf + (pos - offset) + bn) with (buf + (pos + bn - offset)) by lia.
  apply IH; [exact W2|lia|lia|done| | |done].
  - intros Hlt2. specialize (Hfuel Hlt). rewrite Hbl' in Hfuel by done. lia.
  - destruct (file_put_ok v1 fb fo pos (buf + (pos - offset)) bn) as (_ & Hsf & Hb2);
      [apply Hg|apply Hg|lia|done|lia|done|].
    eapply free_blocks_frame; [exact Hb2|]. eapply free_blocks_le; [|exact Hfree1].
    destruct (Z.ltb_spec (pos + bn) stop) as [Hlt2|]; [|lia].
    pose proof (need_step v v1 fb fo (pos / 4096) k (blocks_left pos stop) Hbl Hpi Hgot' ltac:(lia)) as Hk.
    rewrite Hbl' in Hk by done. unfold no_indirect in *. rewrite (same_file_ind v1 _ fb fo Hsf). lia.
Qed.

(** ** file_set_size (growing) and file_write *)

Definition f_size (v : mem) (fb fo : Z) : Z := rd32 v (file_addr fb fo + off_f_size).

Definition sized (v : mem) (fb fo n : Z) : mem := wr32 v (file_addr fb fo + off_f_size) n.

Lemma sized_ok v fb fo n :
  sane N v -> file_ok (N := N) v fb fo ->
  sane N (sized v fb fo n) /\ same_file (N := N) v (sized v fb fo n) fb fo
  /\ (forall b, 0 <= b < N -> bit (sized v fb fo n) b = bit v b).
Proof using Hsz.
  intros Hv Hf. pose proof (size_pos Hsz). pose proof (fk_off _ _ _ Hf) as Ho.
  assert (forall x, ~ off_meta (N := N) x -> sized v fb fo n x = v x) as Hfr.
  { unfold sized, file_addr. rewrite <- Z.add_assoc. apply (wr32_frame Hsz); change off_f_size with 128.
    - lia.
    - destruct (fk_blk _ _ _ Hf) as [[]|[]]; lia. }
  assert (forall b, 0 <= b < N -> bit (sized v fb fo n) b = bit v b) as Hb by (intros; by apply (bits_frame Hsz)).
  split; [by eapply (sane_frame Hsz)|]. split; [|done]. split.
  - intros b Hb' E. by rewrite Hb.
  - intros x Hx. apply wr32_out. change off_f_size with 128. change off_f_direct with 136 in Hx. lia.
  - intros Hi i Hii. apply wr32_out. unfold file_addr. change off_f_size with 128.
    destruct (fk_ind _ _ _ Hf) as [|[_ Hne]]; [done|]. lia.
Qed.

Lemma fwp_flush_file (Q : unit -> mem -> Prop) v fb fo :
  sane N v -> file_ok (N := N) v fb fo -> Q tt v -> fwp N (flush_block (file_addr fb fo)) Q v.
Proof using Hsz.
  intros Hv Hf HQ. pose proof (fk_off _ _ _ Hf). destruct (file_in_use Hsz v fb fo Hv Hf).
  apply fwp_flush; [done|done|lia|done].
Qed.

Lemma fwp_extend v fb fo n (Q : Z -> mem -> Prop) :
  sane N v -> file_ok (N := N) v fb fo -> f_size v fb fo <= n -> n < 2147483648 ->
  Q 0 (sized v fb fo n) -> fwp N (file_set_size (file_addr fb fo) n) Q v.
Proof using Hsz.
  intros Hv Hf Hn Hmax HQ. unfold file_set_size. fstep. apply (fwp_field Hsz); [done|done|done|].
  fold (f_size v fb fo). pose proof (rd32_range v (file_addr fb fo + off_f_size)) as Hr.
  fold (f_size v fb fo) in Hr. rewrite i32_id by lia. destruct (Z.gtb_spec (f_size v fb fo) n); [lia|].
  fstep. fstep. fstep. apply (fwp_set_field Hsz); [done|done|done|]. fold (sized v fb fo n).
  destruct (sized_ok v fb fo n Hv Hf) as (Hv' & Hsf & _).
  fstep. apply fwp_flush_file; [done|by eapply (same_file_ok Hsz)|]. fstep. exact HQ.
Qed.

(** The memory [file_write] starts to write in: the size is already the new one. *)
Definition resized (v : mem) (fb fo stop : Z) : mem :=
  if stop >? f_size v fb fo then sized v fb fo stop else v.

Lemma resized_ok v fb fo stop :
  sane N v -> file_ok (N := N) v fb fo ->
  sane N (resized v fb fo stop) /\ same_file (N := N) v (resized v fb fo stop) fb fo
  /\ (forall b, 0 <= b < N -> bit (resized v fb fo stop) b = bit v b).
Proof using Hsz.
  intros Hv Hf. unfold resized. destruct (stop >? f_size v fb fo); [by apply sized_ok|].
  split; [done|]. split; [|done]. by split.
Qed.

Lemma fuel_enough offset count :
  0 <= offset -> 0 <= count -> (blocks_left offset (offset + count) <= Z.to_nat (count / BLKSIZE) + 2)%nat.
Proof using. intros Ho Hc. unfold blocks_left. change BLKSIZE with 4096. zdm. Qed.

Lemma fwp_file_write v fb fo buf count offset :
  sane N v -> file_ok (N := N) v fb fo -> 0 <= offset -> 0 <= count -> offset + count <= MAXFILESIZE ->
  (forall i, 0 <= i < count -> in_disk (buf + i) = false) ->
  free_blocks (N := N) v (blocks_left offset (offset + count) + 1) ->
  fwp N (file_write (file_addr fb fo) buf count offset)
    (fun r v' => r = count
       /\ written (resized v fb fo (offset + count)) v' fb fo buf offset (offset + count)) v.
Proof using Hsz.
  intros Hv Hf Ho Hc Hmax Hbuf Hfree. pose proof Hmax as Hmax'. change MAXFILESIZE with 4235264 in Hmax'.
  unfold file_write. fstep. apply (fwp_field Hsz); [done|done|done|]. fold (f_size v fb fo).
  rewrite (u32_id (offset + count)) by lia. rewrite (i32_id (offset + count)) by lia.
  fstep. set (v1 := resized v fb fo (offset + count)).
  apply (fwp_mono _ (fun r v' => r = 0 /\ v' = v1)).
  { unfold v1, resized. destruct (Z.gtb_spec (offset + count) (f_size v fb fo)); [|by fstep].
    apply fwp_extend; [done|done|lia|lia|done]. }
  intros e v' [-> ->]. cbn [Z.ltb Z.compare].
  destruct (resized_ok v fb fo (offset + count) Hv Hf) as (Hv1 & Hsf & Hb1). fold v1 in Hv1, Hsf, Hb1.
  fstep. pose proof (write_loop_ok (Z.to_nat (count / BLKSIZE) + 2) v1 v1 fb fo buf offset offset
    (offset + count)) as Hloop. replace (buf + (offset - offset)) with buf in Hloop by lia.
  eapply fwp_mono.
  { apply Hloop;
      [apply written_start; [done|by eapply (same_file_ok Hsz)]|lia|lia|done| | |].
    - intros _. by apply fuel_enough.
    - eapply free_blocks_frame; [exact Hb1|]. eapply free_blocks_le; [|exact Hfree].
      unfold no_indirect. destruct (offset <? offset + count), (f_indirect v1 fb fo =? 0); lia.
    - intros i Hi. apply Hbuf. lia. }
  intros r v2 [-> W]. fstep. rewrite i32_id by lia. done.
Qed.

(** ** file_read *)

Lemma fwp_get_block_hit v fb fo n (Q : Z * option Z -> mem -> Prop) :
  sane N v -> file_ok (N := N) v fb fo -> 0 <= n < NBLK -> fblk v fb fo n <> 0 ->
  Q (0, Some (DISKMAP + 4096 * fblk v fb fo n)) v -> fwp N (file_get_block (file_addr fb fo) n) Q v.
Proof using Hsz.
  intros Hv Hf Hn Hnz HQ. pose proof (size_pos Hsz).
  assert (n < NDIRECT \/ f_indirect v fb fo <> 0) as Hs.
  { unfold fblk in Hnz. destruct (Z.leb_spec NDIRECT n); [right|by left].
    intros Hz. by rewrite Hz in Hnz. }
  destruct (fk_data _ _ _ Hf n Hn Hnz) as ([Hr _] & _).
  unfold file_get_block. fstep.
  apply (fwp_mono _ (fun r v' => r = (0, Some (slot_addr v fb fo n)) /\ v' = v)).
  { unfold file_block_walk, slot_addr. change (NDIRECT + NINDIRECT) with 1034. change NBLK with 1034 in Hn.
    destruct (Z.ltb_spec n NDIRECT); [by fstep|]. destruct (Z.ltb_spec n 1034); [|lia].
    destruct Hs as [|Hi]; [lia|]. fstep. apply (fwp_field Hsz); [done|done|done|]. fold (f_indirect v fb fo).
    destruct (Z.eqb_spec (f_indirect v fb fo) 0); [done|]. cbn [negb].
    destruct (fk_ind _ _ _ Hf) as [|[[Hr' _] _]]; [done|].
    fstep. apply fwp_diskaddr; [done|lia|]. by fstep. }
  intros r v' [-> ->]. fstep. apply (fwp_slot Hsz); [done|done|done|done|].
  destruct (Z.eqb_spec (fblk v fb fo n) 0); [done|]. fstep. fstep. fstep.
  apply (fwp_slot Hsz); [done|done|done|done|]. fstep. apply fwp_diskaddr; [done|lia|]. by fstep.
Qed.

(** [v] is [v0] with the bytes from [offset] to [pos] copied to [buf]. *)
Definition was_read (v0 v : mem) (fb fo buf offset pos : Z) : Prop :=
  forall x, v x = if (buf <=? x) && (x <? buf + (pos - offset))
                  then v0 (byte_addr v0 fb fo (offset + (x - buf))) else v0 x.

(** Nothing changes inside the disk map. *)
Lemma outside_same v v' fb fo :
  (forall x, in_disk x = true -> v' x = v x) -> file_ok (N := N) v fb fo -> sane N v ->
  sane N v' /\ same_file (N := N) v v' fb fo.
Proof using Hsz.
  intros H Hf Hv. pose proof (size_pos Hsz). pose proof (fk_off _ _ _ Hf).
  assert (forall c i, 0 <= c < N -> 0 <= i < 4096 -> v' (DISKMAP + 4096 * c + i) = v (DISKMAP + 4096 * c + i))
    as Hc by (intros c i Hc Hi; apply H, blk_addr; lia).
  assert (forall x, DISKMAP <= x < DISKMAP + 4096 * N -> v' x = v x) as Hx.
  { intros x Hx. replace x with (DISKMAP + 4096 * ((x - DISKMAP) / 4096) + (x - DISKMAP) mod 4096) by zdm.
    apply Hc; zdm. }
  assert (forall x, ~ off_meta (N := N) x -> v' x = v x) as Hfr.
  { intros x Hm. unfold off_meta in Hm. apply Hx. lia. }
  split; [by eapply (sane_frame Hsz)|]. split.
  - intros b Hb E. by rewrite (bits_frame Hsz v).
  - intros x Hm. destruct (file_in_use Hsz v fb fo Hv Hf) as [Hfb _]. unfold file_addr in Hm.
    change off_f_direct with 136 in Hm. apply Hx. lia.
  - intros Hi i Hii. destruct (fk_ind _ _ _ Hf) as [|[[Hr _] _]]; [done|]. apply Hc; lia.
Qed.

Lemma was_read_step v0 v fb fo buf offset pos n :
  was_read v0 v fb fo buf offset pos -> sane N v0 -> file_ok (N := N) v0 fb fo -> 0 <= offset <= pos ->
  0 < n -> pos + n <= MAXFILESIZE -> pos mod 4096 + n <= 4096 -> allocated v0 fb fo pos ->
  (forall i, 0 <= i < pos + n - offset -> in_disk (buf + i) = false) ->
  was_read v0 (mcpy v (buf + (pos - offset)) (byte_addr v0 fb fo pos) n) fb fo buf offset (pos + n).
Proof using Hsz.
  intros R Hv Hf Ho Hn Hmax Hpn Ha Hbuf x. pose proof (size_pos Hsz).
  destruct (fk_data _ _ _ Hf _ (page_index pos ltac:(lia)) Ha) as ([Hb _] & _ & _).
  destruct (decide (buf + (pos - offset) <= x < buf + (pos - offset) + n)) as [Hin|Hout].
  - rewrite mcpy_in by done. destruct (file_put_in v0 fb fo pos 0 n (offset + (x - buf))) as (_ & E & _);
      [lia|done|lia|].
    assert (v (byte_addr v0 fb fo pos + (x - (buf + (pos - offset))))
            = v0 (byte_addr v0 fb fo pos + (x - (buf + (pos - offset))))) as ->.
    { rewrite R. destruct ((buf <=? _) && _) eqn:E1; [|done]. exfalso.
      apply andb_true_iff in E1 as [E2%Z.leb_le E3%Z.ltb_lt].
      set (y := byte_addr v0 fb fo pos + (x - (buf + (pos - offset)))) in *.
      pose proof (Hbuf (y - buf) ltac:(lia)) as Hd. replace (buf + (y - buf)) with y in Hd by lia.
      destruct (blk_addr (fblk v0 fb fo (pos / 4096)) (pos mod 4096 + (x - (buf + (pos - offset)))))
        as [Hy _]; [lia|zdm|]. unfold y, byte_addr in Hd. rewrite Z.add_assoc in Hy. congruence. }
    rewrite E. destruct (Z.leb_spec buf x), (Z.ltb_spec x (buf + (pos + n - offset))); try lia.
    cbn [andb]. f_equal. lia.
  - rewrite mcpy_out by lia. rewrite R. repeat bcase; done.
Qed.

Lemma read_loop_ok fuel : forall v0 v fb fo buf offset pos stop,
  was_read v0 v fb fo buf offset pos -> sane N v0 -> file_ok (N := N) v0 fb fo -> 0 <= offset <= pos ->
  pos <= stop -> stop <= MAXFILESIZE -> (pos < stop -> (blocks_left pos stop <= fuel)%nat) ->
  (forall p, offset <= p < stop -> allocated v0 fb fo p) ->
  (forall i, 0 <= i < stop - offset -> in_disk (buf + i) = false) ->
  fwp N (read_loop fuel (file_addr fb fo) (buf + (pos - offset)) stop pos)
    (fun r v' => r = None /\ was_read v0 v' fb fo buf offset stop) v.
Proof using Hsz.
  induction fuel as [|fuel IH]; intros v0 v fb fo buf offset pos stop R Hv Hf Hoff Hle Hmax Hfuel Hall Hbuf;
    cbn [read_loop];
    (destruct (Z.ltb_spec pos stop) as [Hlt|Hge];
      [|change MAXFILESIZE with 4235264 in Hmax; rewrite u32_id by lia;
        destruct (Z.ltb_spec pos stop); [lia|]; fstep; split; [done|]; by replace stop with pos by lia]).
  { specialize (Hfuel Hlt). unfold blocks_left in Hfuel. exfalso. zdm. }
  destruct (pos_arith pos stop ltac:(lia) Hmax) as (Eu & Eq & Er & bn & Ebn & Eub & Ei & Hbn & Hbs & Hbm & Hor).
  rewrite Eu, Eq, Er in *. destruct (Z.ltb_spec pos stop); [|lia].
  destruct (blocks_left_step pos stop bn ltac:(lia) Hbn Hbs Hbm Hor) as [Hbl Hbl'].
  assert (0 <= pos / 4096 < NBLK) as Hpi by (apply page_index; lia).
  assert (forall x, in_disk x = true -> v x = v0 x) as Hsame.
  { intros x Hx. rewrite R. destruct ((buf <=? x) && _) eqn:E; [|done].
    apply andb_true_iff in E as [E1%Z.leb_le E2%Z.ltb_lt].
    pose proof (Hbuf (x - buf) ltac:(lia)) as Hd. replace (buf + (x - buf)) with x in Hd by lia. congruence. }
  destruct (outside_same v0 v fb fo Hsame Hf Hv) as [Hv1 Hsf].
  pose proof (same_file_ok Hsz v0 v fb fo Hsf Hf) as Hf1.
  pose proof (same_file_fblk v0 v fb fo _ Hsf Hpi) as Eb. pose proof (Hall pos ltac:(lia)) as Ha.
  destruct (fk_data _ _ _ Hf _ Hpi Ha) as ([Hb Hbit] & _ & _). pose proof (size_pos Hsz).
  assert (in_use N v (fblk v0 fb fo (pos / 4096))) as Hu.
  { split; [lia|]. apply (sf_bits _ _ _ _ Hsf); [lia|done]. }
  fstep. apply fwp_get_block_hit; [done|done|done|by rewrite Eb|]. rewrite Eb. cbn beta iota.
  rewrite Ebn, Eub, Ei. fstep. apply fwp_cmemmove; [done|split; [lia|zdm]|..].
  { intros _. split; [|split; [|split]].
    - intros _. destruct (blk_addr (fblk v0 fb fo (pos / 4096)) (pos mod 4096)) as [_ ->]; [lia|zdm|done].
    - intros _. replace (DISKMAP + 4096 * fblk v0 fb fo (pos / 4096) + pos mod 4096 + bn - 1)
        with (DISKMAP + 4096 * fblk v0 fb fo (pos / 4096) + (pos mod 4096 + bn - 1)) by lia.
      destruct (blk_addr (fblk v0 fb fo (pos / 4096)) (pos mod 4096 + bn - 1)) as [_ ->]; [lia|zdm|done].
    - intros Hd1. rewrite Hbuf in Hd1 by lia. done.
    - intros Hd1. replace (buf + (pos - offset) + bn - 1) with (buf + (pos - offset + bn - 1)) in Hd1 by lia.
      rewrite Hbuf in Hd1 by lia. done. }
  replace (buf + (pos - offset) + bn) with (buf + (pos + bn - offset)) by lia.
  apply IH; [|done|done|lia|lia|done| |done|done].
  - apply was_read_step; try done; try lia. intros i Hi. apply Hbuf. lia.
  - intros Hlt2. specialize (Hfuel Hlt). rewrite Hbl' in Hfuel by done. lia.
Qed.

Lemma fwp_file_read v fb fo buf n offset :
  let count := MIN n (f_size v fb fo - offset) in
  sane N v -> file_ok (N := N) v fb fo -> 0 <= n -> 0 <= offset <= f_size v fb fo ->
  f_size v fb fo <= MAXFILESIZE ->
  (forall p, offset <= p < offset + count -> allocated v fb fo p) ->
  (forall i, 0 <= i < count -> in_disk (buf + i) = false) ->
  fwp N (file_read (file_addr fb fo) buf n offset)
    (fun r v' => r = count /\ was_read v v' fb fo buf offset (offset + count)) v.
Proof using Hsz.
  intros count Hv Hf Hn Ho Hmax Hall Hbuf. pose proof Hmax as Hmax'. change MAXFILESIZE with 4235264 in Hmax'.
  unfold file_read. fstep. apply (fwp_field Hsz); [done|done|done|]. fold (f_size v fb fo).
  rewrite i32_id by lia. destruct (Z.geb_spec offset (f_size v fb fo)) as [Hge|Hlt].
  { assert (count = 0) as -> by (unfold count, MIN; bcase; lia). fstep. split; [done|].
    intros x. by repeat bcase. }
  rewrite (u32_id (f_size v fb fo - offset)) by lia. fold count.
  assert (0 <= count <= f_size v fb fo - offset) by (unfold count, MIN; bcase; lia).
  rewrite (u32_id (offset + count)) by lia. fstep.
  pose proof (read_loop_ok (Z.to_nat (count / BLKSIZE) + 2) v v fb fo buf offset offset
    (offset + count)) as Hloop. replace (buf + (offset - offset)) with buf in Hloop by lia.
  eapply fwp_mono.
  { apply Hloop; try done; try lia.
    - intros x. by repeat bcase.
    - intros _. apply fuel_enough; lia.
    - intros i Hi. apply Hbuf. lia. }
  intros r v1 [-> R]. fstep. rewrite i32_id by lia. done.
Qed.

End rw.

(** ** The round trip *)

(** A byte that [file_write] does not write. *)
Lemma written_other {N : Z} (Hsz : first_data N <= N <= 786432) v0 v fb fo buf offset pos c i :
  written (N := N) v0 v fb fo buf offset pos -> 0 <= offset -> pos <= MAXFILESIZE ->
  0 <= i < 4096 -> in_use N v0 c -> c = 1 \/ first_data N <= c ->
  c <> f_indirect v0 fb fo -> (c = fb -> i < fo + off_f_direct \/ fo + 180 <= i) ->
  (forall n, 0 <= n < NBLK -> c <> fblk v0 fb fo n) ->
  v (DISKMAP + 4096 * c + i) = v0 (DISKMAP + 4096 * c + i).
Proof.
  intros W Ho Hp Hi [Hc Hbit] Hc1 Hci Hcf Hcn. apply (wn_keep _ _ _ _ _ _ _ W).
  - right. exists c, i. split; [done|]. split; [done|]. split; [|done].
    destruct Hc1 as [->|]; [by right|left; split; [lia|done]].
  - intros p Hpp E. unfold byte_addr in E.
    assert (fblk v fb fo (p / 4096) = c) as Ec by zdm.
    pose proof (page_index p ltac:(lia)) as Hpi.
    destruct (decide (fblk v fb fo (p / 4096) = fblk v0 fb fo (p / 4096))) as [E0|E0].
    + destruct (Hcn _ Hpi). congruence.
    + pose proof (wn_new _ _ _ _ _ _ _ W _ Hpi E0). congruence.
Qed.

(** The bytes of the file outside a range, and the blocks of other files. *)
Definition rest_kept (N : Z) (v v1 : mem) (fb fo offset stop : Z) : Prop :=
  (forall p, 0 <= p < MAXFILESIZE -> p < offset \/ stop <= p -> allocated v fb fo p ->
     allocated v1 fb fo p /\ v1 (byte_addr v1 fb fo p) = v (byte_addr v fb fo p))
  /\ (forall c i, data_block (N := N) v c -> 0 <= i < 4096 -> c <> fb ->
     c <> f_indirect v fb fo -> (forall n, 0 <= n < NBLK -> c <> fblk v fb fo n) ->
     v1 (DISKMAP + 4096 * c + i) = v (DISKMAP + 4096 * c + i)).

(** What [file_write] does to the disk. *)
Record wrote (N : Z) (v v1 : mem) (fb fo buf offset stop : Z) : Prop := {
  wt_sane : sane N v1;
  wt_ok : file_ok (N := N) v1 fb fo;
  wt_size : f_size v1 fb fo = Z.max (f_size v fb fo) stop;
  wt_bytes : forall p, offset <= p < stop ->
    allocated v1 fb fo p /\ v1 (byte_addr v1 fb fo p) = v (buf + (p - offset));
  wt_rest : rest_kept N v v1 fb fo offset stop;
  wt_out : forall x, in_disk x = false -> v1 x = v x
}.

Section wrote.

Context {N : Z} (Hsz : first_data N <= N <= 786432).
Context (v v1 : mem) (fb fo buf offset stop : Z).
Context (Hs : sane N v) (Hf : file_ok (N := N) v fb fo).
Context (Ho : 0 <= offset) (Hst : offset < stop <= MAXFILESIZE) (Hsize : f_size v fb fo <= MAXFILESIZE).
Context (Hbuf : forall i, 0 <= i < stop - offset -> in_disk (buf + i) = false).
Context (W : written (N := N) (resized v fb fo stop) v1 fb fo buf offset stop).

Lemma resized_out x : x < file_addr fb fo + 128 \/ file_addr fb fo + 132 <= x -> resized v fb fo stop x = v x.
Proof using.
  intros Hx. unfold resized. destruct (stop >? f_size v fb fo); [|done]. apply wr32_out.
  change off_f_size with 128. lia.
Qed.

Lemma written_size : f_size v1 fb fo = Z.max (f_size v fb fo) stop.
Proof using Hsz Hs Hf Ho Hst Hsize W.
  destruct (resized_ok Hsz v fb fo stop Hs Hf) as (_ & Hsf0 & Hb0). pose proof (size_pos Hsz) as H3.
  destruct (file_in_use Hsz v fb fo Hs Hf) as [Hfb Hfbit]. pose proof (fk_off _ _ _ Hf) as Hof.
  assert (fb = 1 \/ first_data N <= fb) as Hfb1 by (destruct (fk_blk _ _ _ Hf) as [[]|[]]; lia).
  transitivity (f_size (resized v fb fo stop) fb fo).
  - unfold f_size. apply rd32_ext. intros x Hx. unfold file_addr in Hx. change off_f_size with 128 in Hx.
    replace x with (DISKMAP + 4096 * fb + (x - DISKMAP - 4096 * fb)) by lia.
    apply (written_other Hsz _ v1 fb fo buf offset stop); try done; try lia.
    + split; [done|]. by rewrite Hb0.
    + rewrite (same_file_ind _ _ _ _ Hsf0). destruct (fk_ind _ _ _ Hf) as [->|[_ Hne]]; lia.
    + change off_f_direct with 136. lia.
    + intros n Hn. rewrite (same_file_fblk _ _ _ _ _ Hsf0 Hn). intros E.
      destruct (decide (fblk v fb fo n = 0)) as [E0|E0]; [lia|].
      destruct (fk_data _ _ _ Hf n Hn E0) as (_ & Hne & _). done.
  - unfold resized. pose proof (rd32_range v (file_addr fb fo + off_f_size)).
    change MAXFILESIZE with 4235264 in *.
    destruct (Z.gtb_spec stop (f_size v fb fo)); [|lia].
    unfold f_size, sized. rewrite rd32_wr32_eq, u32_id; fold (f_size v fb fo); lia.
Qed.

Lemma written_rest : rest_kept N v v1 fb fo offset stop.
Proof using Hsz Hs Hf Ho Hst W.
  destruct (resized_ok Hsz v fb fo stop Hs Hf) as (Hv0 & Hsf0 & Hb0). set (v0 := resized v fb fo stop) in *.
  pose proof (size_pos Hsz) as H3. pose proof (fk_off _ _ _ Hf) as Hof.
  pose proof (fun n Hn => same_file_fblk v v0 fb fo n Hsf0 Hn) as Eb0.
  destruct (file_in_use Hsz v fb fo Hs Hf) as [Hfb Hfbit].
  assert (fb = 1 \/ first_data N <= fb) as Hfb1 by (destruct (fk_blk _ _ _ Hf) as [[]|[]]; lia).
  split.
  - intros p Hp Hout Ha. pose proof (page_index p Hp) as Hpi.
    assert (fblk v1 fb fo (p / 4096) = fblk v fb fo (p / 4096)) as Eb
      by (rewrite (wn_fblk _ _ _ _ _ _ _ W _ Hpi); rewrite Eb0 by done; done).
    assert (allocated v1 fb fo p) as Ha1 by (unfold allocated; by rewrite Eb). split; [done|].
    destruct (fk_data _ _ _ Hf _ Hpi Ha) as ([Hr Hbit] & Hne & Hni).
    assert (file_ok (N := N) v0 fb fo) as Hf0 by (by eapply (same_file_ok Hsz)).
    assert (allocated v0 fb fo p) as Ha0 by (unfold allocated; by rewrite Eb0).
    pose proof (keep_byte v0 fb fo p Hf0 Hp Ha0) as Hk. unfold byte_addr in Hk. rewrite Eb0 in Hk by done.
    unfold byte_addr. rewrite Eb. rewrite (wn_keep _ _ _ _ _ _ _ W _ Hk).
    + apply resized_out. unfold file_addr. zdm.
    + intros q Hq E.
      assert (byte_addr v1 fb fo p = byte_addr v1 fb fo q) as Epq by (rewrite <- E; unfold byte_addr; by rewrite Eb).
      pose proof (byte_addr_inj v1 fb fo p q (wn_ok _ _ _ _ _ _ _ W) Hp ltac:(lia) Ha1 Epq). lia.
  - intros c i [Hcr Hcb] Hi Hcf Hci Hcn.
    rewrite (written_other Hsz v0 v1 fb fo buf offset stop c i W); try done; try lia.
    + apply resized_out. unfold file_addr. lia.
    + split; [lia|]. by rewrite Hb0 by lia.
    + rewrite (same_file_ind _ _ _ _ Hsf0). done.
    + intros n Hn. rewrite Eb0 by done. by apply Hcn.
Qed.

Lemma written_wrote : wrote N v v1 fb fo buf offset stop.
Proof using Hsz Hs Hf Ho Hst Hsize Hbuf W.
  pose proof (fk_off _ _ _ Hf) as Hof. pose proof (size_pos Hsz) as H3.
  destruct (file_in_use Hsz v fb fo Hs Hf) as [Hfb _].
  assert (forall x, in_disk x = false -> resized v fb fo stop x = v x) as Hout.
  { intros x Hd%in_disk_out. apply resized_out. unfold file_addr. unfold DISKSIZE in Hd. lia. }
  split; [apply W|apply W|apply written_size| |apply written_rest|].
  - intros p Hp. destruct (wn_bytes _ _ _ _ _ _ _ W p Hp) as [Ha ->]. split; [done|].
    apply Hout, Hbuf. lia.
  - intros x Hd. rewrite <- (Hout x Hd). apply (wn_keep _ _ _ _ _ _ _ W).
    + by left.
    + intros p Hp E. destruct (wn_bytes _ _ _ _ _ _ _ W p Hp) as [Ha _].
      destruct (fk_data _ _ _ (wn_ok _ _ _ _ _ _ _ W) _ (page_index p ltac:(lia)) Ha) as ([Hr _] & _).
      rewrite E in Hd. unfold byte_addr in Hd.
      destruct (blk_addr (fblk v1 fb fo (p / 4096)) (p mod 4096)) as [Hd' _]; [lia|zdm|]. congruence.
Qed.

End wrote.

(** The size of a file lies on the disk. *)
Lemma f_size_disk {N : Z} (Hsz : first_data N <= N <= 786432) v v' fb fo :
  sane N v -> file_ok (N := N) v fb fo -> (forall x, in_disk x = true -> v' x = v x) ->
  f_size v' fb fo = f_size v fb fo.
Proof.
  intros Hs Hf H. destruct (file_in_use Hsz v fb fo Hs Hf) as [Hfb _]. pose proof (fk_off _ _ _ Hf).
  pose proof (size_pos Hsz). unfold f_size. apply rd32_ext. intros x Hx. unfold file_addr in Hx.
  change off_f_size with 128 in Hx. apply H.
  replace x with (DISKMAP + 4096 * fb + (x - DISKMAP - 4096 * fb)) by lia. apply blk_addr; lia.
Qed.

Lemma wrote_ext {N : Z} (Hsz : first_data N <= N <= 786432) v v1 fb fo buf offset stop v' :
  0 <= offset -> stop <= MAXFILESIZE -> (forall x, v' x = v1 x) ->
  wrote N v v1 fb fo buf offset stop -> wrote N v v' fb fo buf offset stop.
Proof.
  intros Ho Hst E [W1 W2 W3 W4 [W5 W6] W7].
  destruct (outside_same Hsz v1 v' fb fo (fun x _ => E x) W2 W1) as [Hs Hsf].
  assert (forall p, 0 <= p < MAXFILESIZE -> fblk v' fb fo (p / 4096) = fblk v1 fb fo (p / 4096)) as Eb
    by (intros p Hp; exact (same_file_fblk _ _ _ _ _ Hsf (page_index p Hp))).
  split; [done|by eapply (same_file_ok Hsz)| | |split|].
  - rewrite <- W3. by apply (f_size_disk Hsz).
  - intros p Hp. destruct (W4 p Hp) as [Ha Hb]. unfold allocated, byte_addr in *.
    rewrite Eb, E by lia. done.
  - intros p Hp Hout Hal. destruct (W5 p Hp Hout Hal) as [Ha Hb]. unfold allocated, byte_addr in *.
    rewrite Eb, E by lia. done.
  - intros. rewrite E. by apply W6.
  - intros. rewrite E. by apply W7.
Qed.

(** [file_write] on the server's state. *)
Lemma file_write_spec (N : Z) (s : fs_state) (fb fo buf count offset : Z) :
  ready N s -> file_ok (N := N) (view s) fb fo ->
  0 <= offset -> 0 < count -> offset + count <= MAXFILESIZE -> f_size (view s) fb fo <= MAXFILESIZE ->
  (forall i, 0 <= i < count -> in_disk (buf + i) = false) ->
  free_blocks (N := N) (view s) (blocks_left offset (offset + count) + 1) ->
  exists s1, file_write (file_addr fb fo) buf count offset s = Ok count s1 /\ ready N s1
    /\ wrote N (view s) (view s1) fb fo buf offset (offset + count).
Proof.
  intros [Hinv Hs] Hf Ho Hc Hmax Hsize Hbuf Hfree. pose proof (bi_size N s Hinv) as Hsz.
  destruct (wp_run _ _ _ (fwp_file_write Hsz (view s) fb fo buf count offset Hs Hf Ho ltac:(lia) Hmax
    Hbuf Hfree s (conj Hinv (fun x => eq_refl)))) as (r1 & s1 & E1 & v1 & [Hi1 Hv1] & -> & W).
  assert (wrote N (view s) v1 fb fo buf offset (offset + count)) as Hw.
  { apply (written_wrote Hsz); try done; try lia. intros i Hi. apply Hbuf. lia. }
  exists s1. split; [done|]. split.
  - split; [done|]. eapply sane_ext; [exact Hv1|apply Hw].
  - by apply (wrote_ext Hsz _ v1).
Qed.

(** [file_read] returns the bytes that are there. *)
Lemma file_read_returns (N : Z) (s : fs_state) (fb fo buf n offset : Z) :
  let count := MIN n (f_size (view s) fb fo - offset) in
  ready N s -> file_ok (N := N) (view s) fb fo ->
  0 <= n -> 0 <= offset <= f_size (view s) fb fo -> f_size (view s) fb fo <= MAXFILESIZE ->
  (forall p, offset <= p < offset + count -> allocated (view s) fb fo p) ->
  (forall i, 0 <= i < count -> in_disk (buf + i) = false) ->
  exists s1, file_read (file_addr fb fo) buf n offset s = Ok count s1 /\ ready N s1
    /\ (forall i, 0 <= i < count -> view s1 (buf + i) = view s (byte_addr (view s) fb fo (offset + i)))
    /\ (forall x, x < buf \/ buf + count <= x -> view s1 x = view s x).
Proof.
  intros count [Hinv Hs] Hf Hn Ho Hmax Hall Hbuf. pose proof (bi_size N s Hinv) as Hsz.
  destruct (wp_run _ _ _ (fwp_file_read Hsz (view s) fb fo buf n offset Hs Hf Hn Ho Hmax Hall Hbuf
    s (conj Hinv (fun x => eq_refl)))) as (r & s1 & E & v1 & [Hi1 Hv1] & -> & R). fold count in E, R.
  exists s1. split; [done|].
  assert (forall i, 0 <= i < count -> view s1 (buf + i) = view s (byte_addr (view s) fb fo (offset + i))) as Hb.
  { intros i Hi. rewrite Hv1, R.
    destruct (Z.leb_spec buf (buf + i)), (Z.ltb_spec (buf + i) (buf + (offset + count - offset))); try lia.
    cbn [andb]. by replace (offset + (buf + i - buf)) with (offset + i) by lia. }
  assert (forall x, x < buf \/ buf + count <= x -> view s1 x = view s x) as Hx.
  { intros x Hx. rewrite Hv1, R.
    destruct (Z.leb_spec buf x), (Z.ltb_spec x (buf + (offset + count - offset))); try lia; done. }
  split; [|done]. split; [done|].
  destruct (outside_same Hsz (view s) (view s1) fb fo) as [Hsv _]; [|done|done|done].
  intros x Hd. apply Hx. destruct (decide (buf <= x < buf + count)) as [Hr|]; [|lia].
  pose proof (Hbuf (x - buf) ltac:(lia)) as Hd'. replace (buf + (x - buf)) with x in Hd' by lia. congruence.
Qed.

(** [file_read] of bytes that are all there. *)
Lemma file_read_spec (N : Z) (s : fs_state) (fb fo buf count offset : Z) :
  ready N s -> file_ok (N := N) (view s) fb fo ->
  0 <= offset -> 0 < count -> offset + count <= f_size (view s) fb fo -> f_size (view s) fb fo <= MAXFILESIZE ->
  (forall p, offset <= p < offset + count -> allocated (view s) fb fo p) ->
  (forall i, 0 <= i < count -> in_disk (buf + i) = false) ->
  exists s1, file_read (file_addr fb fo) buf count offset s = Ok count s1 /\ ready N s1
    /\ (forall i, 0 <= i < count -> view s1 (buf + i) = view s (byte_addr (view s) fb fo (offset + i)))
    /\ (forall x, x < buf \/ buf + count <= x -> view s1 x = view s x).
Proof.
  intros Hr Hf Ho Hc Hin Hmax Hall Hbuf.
  pose proof (file_read_returns N s fb fo buf count offset) as H. cbv zeta in H.
  replace (MIN count (f_size (view s) fb fo - offset)) with count in H by (unfold MIN; bcase; lia).
  apply H; try done; lia.
Qed.

(** C1: what [file_write] writes, [file_read] reads back.  With room for the
    data on the disk, writing [count] bytes at [offset] returns [count], and
    reading them returns [count] and the same bytes, whether or not the write
    extends the file, crosses blocks or needs the indirect block.  The file
    stays well-formed and its size is as it should be; the bytes of the file
    outside the range, and the data of every block in use that does not belong
    to the file, are as before. *)
Theorem file_write_read (N : Z) (s : fs_state) (fb fo buf buf2 count offset : Z) :
  ready N s -> file_ok (N := N) (view s) fb fo ->
  0 <= offset -> 0 < count -> offset + count <= MAXFILESIZE -> f_size (view s) fb fo <= MAXFILESIZE ->
  (forall i, 0 <= i < count -> in_disk (buf + i) = false /\ in_disk (buf2 + i) = false) ->
  free_blocks (N := N) (view s) (blocks_left offset (offset + count) + 1) ->
  exists s1 s2,
    file_write (file_addr fb fo) buf count offset s = Ok count s1
    /\ file_read (file_addr fb fo) buf2 count offset s1 = Ok count s2
    /\ ready N s2 /\ file_ok (N := N) (view s2) fb fo
    /\ f_size (view s2) fb fo = Z.max (f_size (view s) fb fo) (offset + count)
    /\ (forall i, 0 <= i < count -> view s2 (buf2 + i) = view s (buf + i))
    /\ (forall p, 0 <= p < MAXFILESIZE -> p < offset \/ offset + count <= p ->
          allocated (view s) fb fo p ->
          view s2 (byte_addr (view s2) fb fo p) = view s (byte_addr (view s) fb fo p))
    /\ (forall c i, data_block (N := N) (view s) c -> 0 <= i < 4096 -> c <> fb ->
          c <> f_indirect (view s) fb fo -> (forall n, 0 <= n < NBLK -> c <> fblk (view s) fb fo n) ->
          view s2 (DISKMAP + 4096 * c + i) = view s (DISKMAP + 4096 * c + i)).
Proof.
  intros Hr Hf Ho Hc Hmax Hsize Hbufs Hfree. pose proof (bi_size N s (proj1 Hr)) as Hsz.
  pose proof (size_pos Hsz) as Hpos.
  destruct (file_write_spec N s fb fo buf count offset) as (s1 & E1 & Hr1 & W); try done.
  { intros i Hi. by apply Hbufs. }
  destruct (file_read_spec N s1 fb fo buf2 count offset) as (s2 & E2 & Hr2 & Hb & Hx); try done.
  { apply W. }
  { rewrite (wt_size _ _ _ _ _ _ _ _ W). lia. }
  { rewrite (wt_size _ _ _ _ _ _ _ _ W). lia. }
  { intros p Hp. by apply (wt_bytes _ _ _ _ _ _ _ _ W). }
  { intros i Hi. by apply Hbufs. }
  assert (forall x, in_disk x = true -> view s2 x = view s1 x) as Hd.
  { intros x Hd. apply Hx. destruct (decide (buf2 <= x < buf2 + count)) as [Hxr|]; [|lia].
    destruct (Hbufs (x - buf2) ltac:(lia)) as [_ Hd']. replace (buf2 + (x - buf2)) with x in Hd' by lia. congruence. }
  destruct (outside_same Hsz (view s1) (view s2) fb fo Hd) as [Hsv2 Hsf2]; [apply W|apply W|].
  assert (forall c i, 0 <= c < 786432 -> 0 <= i < 4096 ->
    view s2 (DISKMAP + 4096 * c + i) = view s1 (DISKMAP + 4096 * c + i)) as Hblk.
  { intros c i Hcc Hi. apply Hd, blk_addr; lia. }
  exists s1, s2. split; [done|]. split; [done|]. split; [done|].
  split; [eapply (same_file_ok Hsz); [exact Hsf2|apply W]|]. split; [|split; [|split]].
  - rewrite <- (wt_size _ _ _ _ _ _ _ _ W). by apply (f_size_disk Hsz); [apply W|apply W|].
  - intros i Hi. rewrite Hb by done. destruct (wt_bytes _ _ _ _ _ _ _ _ W (offset + i) ltac:(lia)) as [_ ->].
    f_equal. lia.
  - intros p Hp Hout Ha. destruct (proj1 (wt_rest _ _ _ _ _ _ _ _ W) p Hp Hout Ha) as [Ha1 <-].
    pose proof (page_index p Hp) as Hpi.
    destruct (fk_data _ _ _ (wt_ok _ _ _ _ _ _ _ _ W) _ Hpi Ha1) as ([Hpr _] & _).
    unfold byte_addr. rewrite (same_file_fblk _ _ _ _ _ Hsf2 Hpi). apply Hblk; [lia|zdm].
  - intros c i Hc1 Hi H1 H2 H3. rewrite Hblk by (destruct Hc1; lia).
    by apply (proj2 (wt_rest _ _ _ _ _ _ _ _ W)).
Qed.

(** The root directory of the small disk, as an empty file. *)
Lemma demo_file : file_ok (N := 8) (view demo_fs) 1 8.
Proof.
  assert (forall n, 0 <= n < NBLK -> fblk (view demo_fs) 1 8 n = 0) as Hz.
  { intros n Hn. unfold fblk. change (f_indirect (view demo_fs) 1 8) with 0. rewrite andb_true_r.
    change NDIRECT with 10. destruct (Z.leb_spec 10 n); [done|].
    assert (Forall (fun n => rd32 (view demo_fs) (slot_addr (view demo_fs) 1 8 n) = 0) (seqZ 0 10)) as Hall
      by (by apply (bool_decide_unpack _)).
    rewrite Forall_forall in Hall. apply Hall, elem_of_seqZ. lia. }
  split.
  - lia.
  - by right.
  - by left.
  - intros n Hn H0. by rewrite Hz in H0.
  - intros n m Hn Hm H0. by rewrite Hz in H0.
Qed.

Lemma file_write_read_witness :
  exists s1 s2,
    file_write (file_addr 1 8) 4096 5000 3000 demo_fs = Ok 5000 s1
    /\ file_read (file_addr 1 8) 16384 5000 3000 s1 = Ok 5000 s2
    /\ forall i, 0 <= i < 5000 -> view s2 (16384 + i) = view demo_fs (4096 + i).
Proof.
  destruct (file_write_read 8 demo_fs 1 8 4096 16384 5000 3000) as (s1 & s2 & E1 & E2 & _ & _ & _ & E3 & _).
  - apply demo_ready.
  - apply demo_file.
  - done.
  - done.
  - done.
  - done.
  - intros i Hi. unfold in_disk, DISKMAP. split; apply andb_false_iff; left; apply Z.leb_gt; lia.
  - exists [4; 5; 6; 7]. split; [by apply (bool_decide_unpack _)|]. split; [vm_compute; lia|].
    intros b Hb. assert (b = 4 \/ b = 5 \/ b = 6 \/ b = 7) as [->|[->|[->| ->]]] by set_solver; done.
  - exists s1, s2. exact (conj E1 (conj E2 E3)).
Defined.

End FsRw.
