(* ===== verification/Fsformat.v ===== *)
(** * The disk image builder (fs/fsformat.c)

    [fsformat] runs on the host and writes the file system's first disk: boot
    block, super block, bitmap, the files one after the other, and the root
    directory.  Its memory is a byte memory with the mapped disk at [DISKMAP],
    where the file server will have it, and the directory under construction at
    the address malloc returned.  The host's files are the program's input; the
    number of bytes one call of read delivers is a parameter.

    The theorem: when there is a file at all the image has the invariants that
    the file system's theorems start from, and every file is in the root directory with its name, its size
    and its contents. *)

From stdpp Require Import base numbers list functions strings.
From Stdlib Require Import ZArith Lia.
From S2P Require Import Prelude Mem Mmu Kernel Printfmt Str Umonad Bc Fs FsLogic FsAlloc FsFiles FsRw.

Open Scope Z_scope.
Open Scope usr_scope.

Module Fsformat.

Import Printfmt Str Bc FsLogic FsFiles FsRw.

(** ** The program *)

Record host := mkHost {
  hmem : mem;
  nblocks : Z;
  diskpos : Z;
  dir_n : Z
}.

Definition set_hmem (x : mem) (h : host) : host := mkHost x (nblocks h) (diskpos h) (dir_n h).

Definition set_diskpos (x : Z) (h : host) : host := mkHost (hmem h) (nblocks h) x (dir_n h).

Definition set_dir_n (x : Z) (h : host) : host := mkHost (hmem h) (nblocks h) (diskpos h) x.

(** A file of the host: its path, whether it is a regular file, its bytes. *)
Record hfile := mkHfile {
  path : list Z;
  regular : bool;
  content : list Z
}.

Definition MAX_DIR_ENTS : Z := 128.

(** [ROUNDUP(n, BLKSIZE)] on a [uint32_t], in [alloc] and [finishfile]. *)
Definition roundup (n : Z) : Z := u32 (u32 (n - 1) + BLKSIZE - u32 (n - 1) mod BLKSIZE).

(** The same macro on an [int], in [finishdir]: the remainder has the sign of
    [n - 1], and 0 is rounded up to a whole block. *)
Definition roundup_int (n : Z) : Z := i32 (i32 (n - 1) + BLKSIZE - Z.rem (i32 (n - 1)) BLKSIZE).

Definition hstore32 (a x : Z) : M host unit := mmodify (fun h => set_hmem (wr32 (hmem h) a x) h).

Definition hwrite (a : Z) (l : list Z) : M host unit := mmodify (fun h => set_hmem (wrbytes (hmem h) a l) h).

Section program.

(** Where malloc put [ents], and how much of what is left [read] delivers. *)
Context (ents : Z) (chunk : Z -> Z).

Definition blockof (pos : Z) : Z := (pos - DISKMAP) / BLKSIZE.

Definition alloc (bytes : Z) : M host Z :=
  let! start := mgets diskpos in
  do! mmodify (set_diskpos (start + roundup bytes)) in
  let! pos := mgets diskpos in
  let! n := mgets nblocks in
  if blockof pos >=? n then mpanic "out of disk blocks" else mret start.

Fixpoint readn_loop (fuel : nat) (out : Z) (rest : list Z) (left_ : Z) : M host unit :=
  match fuel with
  | O => mundef "read does not deliver"
  | S fuel =>
    if left_ <=? 0 then mret tt
    else
      let got := take (Z.to_nat (chunk left_)) rest in
      if Z.of_nat (length got) =? 0 then mpanic "read: Unexpected EOF"
      else
        do! hwrite out got in
        readn_loop fuel (out + Z.of_nat (length got)) (drop (length got) rest) (left_ - Z.of_nat (length got))
  end.

Definition readn (out : Z) (f : list Z) (n : Z) : M host unit := readn_loop (S (Z.to_nat n)) out f n.

(** The blocks of a new disk are zeros. *)
Definition opendisk : M host unit :=
  do! mmodify (fun h => set_hmem (mset (hmem h) DISKMAP 0 (nblocks h * BLKSIZE)) h) in
  do! mmodify (set_diskpos DISKMAP) in
  let! _ := alloc BLKSIZE in
  let! super := alloc BLKSIZE in
  do! hstore32 super FS_MAGIC in
  let! n := mgets nblocks in
  do! hstore32 (super + off_s_nblocks) n in
  do! hstore32 (super + off_s_root + off_f_type) FTYPE_DIR in
  do! hwrite (super + off_s_root + off_f_name) (chars "/" ++ [0]) in
  let nbitblocks := (n + BLKBITSIZE - 1) / BLKBITSIZE in
  let! bitmap := alloc (nbitblocks * BLKSIZE) in
  mmodify (fun h => set_hmem (mset (hmem h) bitmap 255 (nbitblocks * BLKSIZE)) h).

(** [bitmap] and [super] are where [opendisk] puts them. *)
Fixpoint clear_bits (n : nat) (i : Z) : M host unit :=
  match n with
  | O => mret tt
  | S n =>
    let a := DISKMAP + 2 * BLKSIZE + 4 * (i / 32) in
    let! w := mgets (fun h => rd32 (hmem h) a) in
    do! hstore32 a (Z.land w (Z.lnot (Z.shiftl 1 (i mod 32)))) in
    clear_bits n (i + 1)
  end.

Definition finishdisk : M host unit :=
  let! pos := mgets diskpos in clear_bits (Z.to_nat (blockof pos)) 0.

(** The two loops of [finishfile], from block [i] on. *)
Fixpoint set_direct (n : nat) (f start i : Z) : M host unit :=
  match n with
  | O => mret tt
  | S n => do! hstore32 (f + off_f_direct + 4 * i) (start + i) in set_direct n f start (i + 1)
  end.

Fixpoint set_indirect (n : nat) (ind start i : Z) : M host unit :=
  match n with
  | O => mret tt
  | S n => do! hstore32 (ind + 4 * (i - NDIRECT)) (start + i) in set_indirect n ind start (i + 1)
  end.

Definition finishfile (f start len : Z) : M host unit :=
  do! hstore32 (f + off_f_size) len in
  let n := roundup len / BLKSIZE in
  do! set_direct (Z.to_nat (Z.min n NDIRECT)) f start 0 in
  if n >=? NDIRECT then
    let! ind := alloc BLKSIZE in
    do! hstore32 (f + off_f_indirect) (blockof ind) in
    set_indirect (Z.to_nat (n - NDIRECT)) ind start NDIRECT
  else mret tt.

Definition startdir : M host unit := mmodify (set_dir_n 0).

Definition diradd (type : Z) (name : list Z) : M host Z :=
  let! n := mgets dir_n in
  let out := ents + sizeof_File * n in
  do! mmodify (set_dir_n (n + 1)) in
  if n + 1 >? MAX_DIR_ENTS then mpanic "too many directory entries"
  else
    do! hwrite (out + off_f_name) (name ++ [0]) in
    do! hstore32 (out + off_f_type) type in
    mret out.

Definition finishdir (f : Z) : M host unit :=
  let! n := mgets dir_n in
  let size := n * sizeof_File in
  let! start := alloc size in
  do! mmodify (fun h => set_hmem (mcpy (hmem h) start ents size) h) in
  finishfile f (blockof start) (u32 (roundup_int size)).

(** The characters after the last slash. *)
Fixpoint basename (acc l : list Z) : list Z :=
  match l with
  | [] => acc
  | c :: l => if c =? 47 then basename [] l else basename (acc ++ [c]) l
  end.

Definition writefile (fl : option hfile) : M host unit :=
  match fl with
  | None => mpanic "open %s: %s"
  | Some fl =>
    let size := Z.of_nat (length (content fl)) in
    if negb (regular fl) then mpanic "%s is not a regular file"
    else if size >=? MAXFILESIZE then mpanic "%s too large"
    else
      let! f := diradd FTYPE_REG (basename [] (path fl)) in
      let! start := alloc size in
      do! readn start (content fl) size in
      finishfile f (blockof start) size
  end.

Fixpoint writefiles (fls : list (option hfile)) : M host unit :=
  match fls with
  | [] => mret tt
  | fl :: fls => do! writefile fl in writefiles fls
  end.

(** [None] is the message about usage; [num] is the second argument, [None]
    when it is not a number. *)
Definition main (num : option Z) (fls : list (option hfile)) (m : mem) : option (res host unit) :=
  match num with
  | Some n =>
    if (n <? 2) || (n >? 1024) then None
    else Some ((do! opendisk in
                do! startdir in
                do! writefiles fls in
                do! finishdir (DISKMAP + BLKSIZE + off_s_root) in
                finishdisk) (mkHost m n 0 0))
  | None => None
  end.

End program.

(** ** Steps *)

Definition blk (b : Z) : Z := DISKMAP + 4096 * b.

(** The blocks of [size] bytes, and with the indirect block. *)
Definition nb (size : Z) : Z := (size + 4095) / 4096.

Definition need (size : Z) : Z := nb size + if 10 <=? nb size then 1 else 0.

Lemma roundup_nb n : 0 <= n < 2147483648 -> roundup n = 4096 * nb n.
Proof.
  intros Hn. unfold roundup, nb, BLKSIZE, PGSIZE. destruct (decide (n = 0)) as [->|]; [done|].
  rewrite (u32_id (n - 1)) by lia. rewrite u32_id by zdm. zdm.
Qed.

Lemma roundup_int_nb n : 0 <= n < 65536 -> roundup_int n = 4096 * Z.max 1 (nb n).
Proof.
  intros Hn. unfold roundup_int, nb, BLKSIZE, PGSIZE. destruct (decide (n = 0)) as [->|]; [done|].
  rewrite (i32_id (n - 1)), Z.rem_mod_nonneg by lia. rewrite i32_id by zdm. zdm.
Qed.

Lemma blockof_blk b : blockof (blk b) = b.
Proof. unfold blockof, blk, BLKSIZE, PGSIZE. zdm. Qed.

Lemma alloc_ok bytes h p : diskpos h = blk p -> 0 <= bytes < 2147483648 -> p + nb bytes < nblocks h ->
  alloc bytes h = Ok (blk p) (set_diskpos (blk (p + nb bytes)) h).
Proof.
  intros Hp Hb Hf. unfold alloc, mbind, mgets, mmodify. rewrite Hp, roundup_nb by done. cbn [diskpos set_diskpos nblocks].
  replace (blk p + 4096 * nb bytes) with (blk (p + nb bytes)) by (unfold blk; lia).
  by rewrite blockof_blk, Z.geb_leb, (proj2 (Z.leb_gt _ _)) by lia.
Qed.

Lemma wrbytes_app m a l k : wrbytes m a (l ++ k) = wrbytes (wrbytes m a l) (a + Z.of_nat (length l)) k.
Proof.
  revert m a. induction l as [|b l IH]; intros m a; cbn [app wrbytes length]; [by rewrite Z.add_0_r|].
  rewrite IH. f_equal. lia.
Qed.

(** Consecutive words. *)
Lemma set_direct_words n f start : forall i h, exists m, set_direct n f start i h = Ok tt (set_hmem m h)
  /\ (forall x, x < f + 136 + 4 * i \/ f + 136 + 4 * (i + Z.of_nat n) <= x -> m x = hmem h x)
  /\ forall j, i <= j < i + Z.of_nat n -> rd32 m (f + 136 + 4 * j) = u32 (start + j).
Proof.
  induction n as [|n IH]; intros i h; cbn [set_direct]; [exists (hmem h); split; [by destruct h|split; [done|lia]]|].
  unfold mbind, hstore32, mmodify. set (h1 := set_hmem _ h). change off_f_direct with 136 in *.
  destruct (IH (i + 1) h1) as (m & E & Ho & Hj). exists m. split; [rewrite E; done|]. split.
  - intros x Hx. rewrite Ho by lia. cbn [hmem set_hmem h1]. apply wr32_out. lia.
  - intros j Hj'. destruct (decide (j = i)) as [->|]; [|apply Hj; lia].
    rewrite (rd32_ext m (hmem h1)) by (intros x Hx; apply Ho; lia). cbn [hmem set_hmem h1]. apply rd32_wr32_eq.
Qed.

Lemma set_indirect_direct n ind start : forall i h,
  set_indirect n ind start i h = set_direct n (ind - 176) start i h.
Proof.
  induction n as [|n IH]; intros i h; cbn [set_direct set_indirect]; [done|].
  unfold mbind. change off_f_direct with 136. change NDIRECT with 10.
  replace (ind - 176 + 136 + 4 * i) with (ind + 4 * (i - 10)) by lia. unfold hstore32, mmodify. apply IH.
Qed.

(** [finishfile] has filled in the file at [f], whose blocks start at [start];
    [p] is the next free block. *)
Record placed (m0 m : mem) (f start len p : Z) : Prop := {
  pl_out : forall x, x < f + 128 \/ f + 132 <= x < f + 136 \/ f + 180 <= x ->
    x < blk p \/ blk p + (if 10 <=? nb len then 4096 else 0) <= x -> m x = m0 x;
  pl_size : rd32 m (f + 128) = len;
  pl_direct : forall j, 0 <= j < 10 ->
    rd32 m (f + 136 + 4 * j) = if j <? nb len then start + j else rd32 m0 (f + 136 + 4 * j);
  pl_ind : rd32 m (f + 176) = if 10 <=? nb len then p else rd32 m0 (f + 176);
  pl_words : 10 <= nb len -> forall j, 10 <= j < 1034 ->
    rd32 m (blk p + 4 * (j - 10)) = if j <? nb len then start + j else rd32 m0 (blk p + 4 * (j - 10))
}.

Lemma nb_range len : 0 <= len < MAXFILESIZE -> 0 <= nb len <= 1034.
Proof. change MAXFILESIZE with 4235264. unfold nb. intros. zdm. Qed.

(** A word that a range of addresses does not meet. *)
Lemma rd32_same m m' a : (forall x, a <= x < a + 4 -> m' x = m x) -> rd32 m' a = rd32 m a.
Proof. apply rd32_ext. Qed.

Lemma finishfile_ok f start len h p : diskpos h = blk p -> 0 <= len < MAXFILESIZE -> 0 <= start < 786432 -> 0 <= p < 786432 ->
  (10 <= nb len -> p + 1 < nblocks h) -> f + 180 <= blk p \/ blk (p + 1) <= f ->
  exists m, finishfile f start len h = Ok tt (set_hmem m (set_diskpos (blk (p + if 10 <=? nb len then 1 else 0)) h))
    /\ placed (hmem h) m f start len p.
Proof.
  intros Hp Hlen Hst Hpr Hfit Hdis. pose proof (nb_range _ Hlen) as Hn. change MAXFILESIZE with 4235264 in Hlen.
  unfold finishfile. rewrite roundup_nb by lia. change BLKSIZE with 4096. rewrite (Z.mul_comm 4096), Z.div_mul by done.
  change NDIRECT with 10. change off_f_size with 128. change off_f_indirect with 176.
  unfold mbind at 1. unfold hstore32 at 1. unfold mmodify at 1. set (h1 := set_hmem _ h).
  destruct (set_direct_words (Z.to_nat (Z.min (nb len) 10)) f start 0 h1) as (m1 & E1 & Ho1 & Hd1).
  rewrite Z2Nat.id in Ho1, Hd1 by lia. unfold mbind at 1. rewrite E1.
  assert (forall x, x < f + 128 \/ f + 132 <= x -> hmem h1 x = hmem h x) as Hh1 by (intros x Hx; apply wr32_out; lia).
  assert (rd32 m1 (f + 128) = len) as Hsz1.
  { rewrite (rd32_same (hmem h1)) by (intros x Hx; apply Ho1; lia). cbn. rewrite rd32_wr32_eq. apply u32_id. lia. }
  assert (forall j, 0 <= j < 10 -> rd32 m1 (f + 136 + 4 * j) = if j <? nb len then start + j else rd32 (hmem h) (f + 136 + 4 * j)) as Hdir1.
  { intros j Hj. destruct (Z.ltb_spec j (nb len)); [rewrite Hd1 by lia; apply u32_id; lia|].
    apply rd32_same. intros x Hx. rewrite Ho1 by lia. apply Hh1. lia. }
  rewrite Z.geb_leb. unfold blk in Hdis. destruct (Z.leb_spec 10 (nb len)) as [Hge|Hlt].
  - unfold mbind at 1. rewrite (alloc_ok 4096 _ p); [|exact Hp|lia|exact (Hfit Hge)].
    change (nb 4096) with 1. rewrite blockof_blk. unfold mbind at 1. unfold hstore32 at 1. unfold mmodify at 1.
    cbn [hmem set_hmem set_diskpos]. set (h2 := set_hmem _ _). rewrite set_indirect_direct.
    destruct (set_direct_words (Z.to_nat (nb len - 10)) (blk p - 176) start 10 h2) as (m2 & E2 & Ho2 & Hd2).
    rewrite Z2Nat.id in Ho2, Hd2 by lia. rewrite E2. exists m2. split; [done|].
    assert (forall x, x < f + 176 \/ f + 180 <= x -> hmem h2 x = m1 x) as Hh2 by (intros x Hx; apply wr32_out; lia).
    unfold blk in *. split.
    + intros x Hx1 Hx2. rewrite (proj2 (Z.leb_le 10 _)) in Hx2 by lia. cbv iota in Hx2. unfold blk in Hx2. rewrite Ho2, Hh2, Ho1, Hh1 by lia. done.
    + rewrite <- Hsz1. apply rd32_same. intros x Hx. rewrite Ho2, Hh2 by lia. done.
    + intros j Hj. rewrite <- Hdir1 by done. apply rd32_same. intros x Hx. rewrite Ho2, Hh2 by lia. done.
    + rewrite (proj2 (Z.leb_le 10 _)) by lia. rewrite (rd32_same (hmem h2)) by (intros x Hx; apply Ho2; lia).
      cbn [hmem set_hmem h2]. rewrite rd32_wr32_eq. apply u32_id. lia.
    + intros _ j Hj. unfold blk. destruct (Z.ltb_spec j (nb len)).
      * replace (DISKMAP + 4096 * p + 4 * (j - 10)) with (DISKMAP + 4096 * p - 176 + 136 + 4 * j) by lia.
        rewrite Hd2 by lia. apply u32_id. lia.
      * apply rd32_same. intros x Hx. rewrite Ho2, Hh2, Ho1, Hh1 by lia. done.
  - exists m1. rewrite Z.add_0_r, <- Hp. split; [by destruct h|]. unfold blk. split; try done.
    + intros x Hx1 _. rewrite Ho1, Hh1 by lia. done.
    + rewrite (proj2 (Z.leb_gt 10 _)) by lia. apply rd32_same. intros x Hx. rewrite Ho1, Hh1 by lia. done.
    + lia.
Qed.

(** ** Files of the image *)

(** The [struct File] at [a]: a file of [size] bytes in consecutive blocks. *)
Record entry (m : mem) (a : Z) (name : list Z) (type size start : Z) : Prop := {
  en_name : cstr m a name;
  en_len : Z.of_nat (length name) < 128;
  en_size : rd32 m (a + 128) = size;
  en_type : rd32 m (a + 132) = type;
  en_direct : forall j, 0 <= j < 10 -> rd32 m (a + 136 + 4 * j) = if j <? nb size then start + j else 0;
  en_ind : rd32 m (a + 176) = if 10 <=? nb size then start + nb size else 0
}.

(** Its blocks. *)
Record body (m : mem) (data : list Z) (start : Z) : Prop := {
  bo_bytes : forall i b, data !! i = Some b -> m (blk start + Z.of_nat i) = b;
  bo_ind : let n := nb (Z.of_nat (length data)) in 10 <= n -> forall j, 10 <= j < 1034 ->
    rd32 m (blk (start + n) + 4 * (j - 10)) = if j <? n then start + j else 0
}.

Lemma rd32_shift m m' a a' : (forall o, 0 <= o < 4 -> m' (a' + o) = m (a + o)) -> rd32 m' a' = rd32 m a.
Proof.
  intros H. pose proof (H 0 ltac:(lia)) as H0. rewrite !Z.add_0_r in H0. unfold rd32, rd8. by rewrite H0, !H by lia.
Qed.

Lemma entry_move m m' a a' name type size start : (forall o, 0 <= o < 180 -> m' (a' + o) = m (a + o)) ->
  entry m a name type size start -> entry m' a' name type size start.
Proof.
  intros H [E1 E2 E3 E4 E5 E6].
  assert (forall o, 0 <= o <= 176 -> rd32 m' (a' + o) = rd32 m (a + o)) as Hw.
  { intros o Ho. apply rd32_shift. intros k Hk. rewrite <- !Z.add_assoc. apply H. lia. }
  split; [|done|by rewrite Hw by lia|by rewrite Hw by lia| |by rewrite Hw by lia].
  - eapply cstr_move; [|exact E1]. intros k Hk. unfold rd8. by rewrite H by lia.
  - intros j Hj. rewrite <- E5 by done. rewrite <- !Z.add_assoc. apply Hw. lia.
Qed.

Lemma nb_cover size p : 0 <= p < size -> p / 4096 < nb size.
Proof. unfold nb. intros. zdm. Qed.

Lemma body_ext m m' data start : (forall x, blk start <= x < blk (start + need (Z.of_nat (length data))) -> m' x = m x) ->
  body m data start -> body m' data start.
Proof.
  intros H [B1 B2]. unfold need, blk in *. set (n := nb (Z.of_nat (length data))) in *.
  assert (Z.of_nat (length data) <= 4096 * n) as Hn by (unfold n, nb; zdm). split.
  - intros i b Hi. rewrite <- (B1 i b Hi). apply H. apply lookup_lt_Some in Hi. destruct (10 <=? n); lia.
  - intros n' Hge j Hj. fold n in n'. subst n'. rewrite <- B2 by done. apply rd32_same. intros x Hx. apply H.
    rewrite (proj2 (Z.leb_le 10 n)) by done. unfold blk in Hx. lia.
Qed.

(** Such a file satisfies the invariant of files. *)
Lemma laid_out N v fb fo name type data start : first_data N <= start -> 0 <= fb < 786432 -> 3 <= first_data N ->
  0 <= fo /\ fo + 256 <= 4096 -> first_data N <= fb < N /\ bit v fb = false \/ (fb = 1 /\ 8 <= fo) ->
  let size := Z.of_nat (length data) in size < MAXFILESIZE ->
  start + need size <= N -> (forall b, start <= b < start + need size -> bit v b = false /\ b <> fb) ->
  entry v (file_addr fb fo) name type size start -> body v data start ->
  file_ok (N := N) v fb fo /\ (forall n, 0 <= n < NBLK -> fblk v fb fo n = if n <? nb size then start + n else 0)
  /\ forall i b, data !! i = Some b -> v (byte_addr v fb fo (Z.of_nat i)) = b.
Proof.
  intros Hfd Hfb H3 Hfo Hblk size Hsz HN Hbits En Bo. pose proof (nb_range size ltac:(lia)) as Hn.
  assert (f_indirect v fb fo = if 10 <=? nb size then start + nb size else 0) as Hind by apply (en_ind _ _ _ _ _ _ En).
  assert (forall n, 0 <= n < NBLK -> fblk v fb fo n = if n <? nb size then start + n else 0) as Hb.
  { intros n Hr. change NBLK with 1034 in Hr. unfold fblk. rewrite Hind. unfold slot_addr. rewrite Hind. change NDIRECT with 10.
    destruct (Z.leb_spec 10 n), (Z.ltb_spec n 10); try lia; cbn [andb].
    - destruct (Z.leb_spec 10 (nb size)).
      + rewrite (proj2 (Z.eqb_neq _ 0)) by lia. exact (bo_ind _ _ _ Bo ltac:(assumption) n ltac:(lia)).
      + cbn. by rewrite (proj2 (Z.ltb_ge n _)) by lia.
    - exact (en_direct _ _ _ _ _ _ En n ltac:(lia)). }
  assert (forall n, 0 <= n < NBLK -> fblk v fb fo n <> 0 -> fblk v fb fo n = start + n /\ n < nb size) as Hnz.
  { intros n Hr. rewrite Hb by done. destruct (Z.ltb_spec n (nb size)); [|done]. by split. }
  unfold need in *. split; [split|split; [exact Hb|]].
  - lia.
  - exact Hblk.
  - rewrite Hind. destruct (Z.leb_spec 10 (nb size)); [right|by left].
    destruct (Hbits (start + nb size) ltac:(lia)) as [H1 H2]. split; [|done]. split; [lia|done].
  - intros n Hr H0. destruct (Hnz n Hr H0) as [-> Hlt]. destruct (Hbits (start + n)) as [H1 H2]; [destruct (10 <=? nb size); lia|].
    split; [split; [destruct (10 <=? nb size); lia|done]|]. split; [done|]. rewrite Hind. destruct (10 <=? nb size); lia.
  - intros n n' Hr Hr' H0 E. destruct (Hnz n Hr H0) as [E1 _]. rewrite E in H0. destruct (Hnz n' Hr' H0) as [E2 _]. lia.
  - intros i b Hi. pose proof (lookup_lt_Some _ _ _ Hi) as Hlt. rewrite <- (bo_bytes _ _ _ Bo i b Hi). f_equal.
    assert (Z.of_nat i / 4096 < nb size) as Hq by (apply nb_cover; lia). unfold byte_addr, blk.
    change MAXFILESIZE with 4235264 in Hsz. rewrite Hb by (change NBLK with 1034; zdm). rewrite (proj2 (Z.ltb_lt _ _)) by done. zdm.
Qed.

(** ** The image while files are added *)

Definition name (fl : hfile) : list Z := basename [] (path fl).

Definition size (fl : hfile) : Z := Z.of_nat (length (content fl)).

Record good_file (fl : hfile) : Prop := {
  gf_regular : regular fl = true;
  gf_size : size fl < MAXFILESIZE;
  gf_name : Forall (fun c => 0 < c < 256) (name fl);
  gf_len : Z.of_nat (length (name fl)) < 128;
  gf_bytes : Forall (fun b => 0 <= b < 256) (content fl)
}.

(** The blocks in use when the files [fls] are on the disk. *)
Definition used (fls : list hfile) : Z := foldr (fun fl n => need (size fl) + n) 3 fls.

Lemma need_nonneg n : 0 <= n -> 0 <= nb n <= need n /\ n <= 4096 * nb n.
Proof. intros. unfold need. assert (0 <= nb n) by (unfold nb; zdm). split; [destruct (10 <=? nb n); lia|unfold nb; zdm]. Qed.

Lemma used_app fls fls' : used (fls ++ fls') = used fls + used fls' - 3.
Proof. unfold used. induction fls as [|fl fls IH]; cbn in *; lia. Qed.

Lemma used_ge fls : 3 <= used fls.
Proof.
  induction fls as [|fl fls IH]; [done|]. change (used (fl :: fls)) with (need (size fl) + used fls).
  pose proof (need_nonneg (size fl) ltac:(unfold size; lia)). lia.
Qed.

Lemma used_take fls k fl : fls !! k = Some fl -> used (take k fls) + need (size fl) <= used fls.
Proof.
  intros Hk. rewrite <- (take_drop_middle fls k fl Hk) at 2. rewrite used_app.
  change (used (fl :: drop (S k) fls)) with (need (size fl) + used (drop (S k) fls)). pose proof (used_ge (drop (S k) fls)). lia.
Qed.

Lemma rd32_zero m a : (forall x, a <= x < a + 4 -> m x = 0) -> rd32 m a = 0.
Proof. intros H. unfold rd32, rd8. by rewrite !H by lia. Qed.

Lemma readn_ok chunk f out h : (forall r, 0 < r -> 0 < chunk r <= r) ->
  readn chunk out f (Z.of_nat (length f)) h = Ok tt (set_hmem (wrbytes (hmem h) out f) h).
Proof.
  intros Hch. unfold readn. rewrite Nat2Z.id. assert (length f < S (length f))%nat as Hf by lia. revert Hf.
  generalize (S (length f)) as fuel. intros fuel. revert f out h. induction fuel as [|fuel IH]; intros f out h Hf; [lia|].
  cbn [readn_loop]. destruct f as [|b f]; [by destruct h|]. set (g := b :: f) in *.
  assert (0 < Z.of_nat (length g)) as Hg by (cbn; lia). rewrite (proj2 (Z.leb_gt _ 0)) by done.
  specialize (Hch _ Hg). set (c := Z.to_nat (chunk (Z.of_nat (length g)))).
  assert (0 < c <= length g)%nat as Hc by (unfold c; lia).
  assert (length (take c g) = c) as El by (rewrite length_take; lia). rewrite El, (proj2 (Z.eqb_neq _ 0)) by lia.
  unfold mbind, hwrite, mmodify. replace (Z.of_nat (length g) - Z.of_nat c) with (Z.of_nat (length (drop c g)))
    by (rewrite length_drop; lia).
  rewrite IH by (rewrite length_drop; lia). cbn [hmem set_hmem].
  assert (wrbytes (hmem h) out g = wrbytes (wrbytes (hmem h) out (take c g)) (out + Z.of_nat c) (drop c g)) as ->; [|done].
  rewrite <- (take_drop c g) at 1. by rewrite wrbytes_app, El.
Qed.

Section image.

Context (ents : Z) (chunk : Z -> Z) (N : Z) (HN : 3 <= N <= 1024) (Hents : ents + 32768 <= DISKMAP \/ blk N <= ents).
Context (Hch : forall r, 0 < r -> 0 < chunk r <= r).

Record built (m0 : mem) (h : host) (fls : list hfile) : Prop := {
  bu_n : nblocks h = N;
  bu_dir : dir_n h = Z.of_nat (length fls);
  bu_pos : diskpos h = blk (used fls);
  bu_file : forall k fl, fls !! k = Some fl ->
    entry (hmem h) (ents + 256 * Z.of_nat k) (name fl) FTYPE_REG (size fl) (used (take k fls))
    /\ body (hmem h) (content fl) (used (take k fls));
  bu_ents : forall x, ents + 256 * Z.of_nat (length fls) <= x < ents + 32768 -> hmem h x = 0;
  bu_disk : forall x, blk (used fls) <= x < blk N -> hmem h x = 0;
  bu_meta : forall x, blk 0 <= x < blk 3 -> hmem h x = m0 x
}.

(** The memory after one more file. *)
Lemma added m m3 a u fl : good_file fl -> 3 <= u -> u + need (size fl) <= N -> a + 256 <= DISKMAP \/ blk N <= a ->
  (forall x, a <= x < a + 256 -> m x = 0) -> (forall x, blk u <= x < blk N -> m x = 0) ->
  placed (wrbytes (wr32 (wrbytes m a (name fl ++ [0])) (a + 132) 0) (blk u) (content fl)) m3 a u (size fl) (u + nb (size fl)) ->
  (forall x, x < a \/ a + 256 <= x -> x < blk u \/ blk (u + need (size fl)) <= x -> m3 x = m x)
  /\ entry m3 a (name fl) FTYPE_REG (size fl) u /\ body m3 (content fl) u.
Proof.
  intros G Hu Hfit Ha Hza Hzd P. destruct (need_nonneg (size fl) ltac:(unfold size; lia)) as [Hnn Hcov].
  pose proof (gf_len _ G) as Hlen. unfold blk in Ha.
  set (m1 := wr32 _ (a + 132) 0) in P. set (m2 := wrbytes m1 _ _) in P.
  assert (forall x, x < blk u \/ blk u + size fl <= x -> m2 x = m1 x) as H2 by (intros x Hx; by apply wrbytes_out).
  assert (forall x, x < a \/ a + 128 < x < a + 132 \/ a + 136 <= x -> m1 x = m x) as H1.
  { intros x Hx. unfold m1. rewrite wr32_out by lia. apply wrbytes_out. rewrite length_app. cbn. lia. }
  assert (forall x, a + 136 <= x < a + 180 -> m2 x = 0) as Hz2.
  { intros x Hx. rewrite H2 by (unfold blk; lia). rewrite H1 by lia. apply Hza. lia. }
  assert (blk (u + nb (size fl)) + (if 10 <=? nb (size fl) then 4096 else 0) = blk (u + need (size fl))) as Hend
    by (unfold blk, need; destruct (10 <=? nb (size fl)); lia).
  split; [|split; split].
  - intros x Hxa Hxu. unfold blk in *. rewrite (pl_out _ _ _ _ _ _ P) by (unfold blk; lia). rewrite H2, H1 by lia. done.
  - apply (cstr_ext (wrbytes m a (name fl ++ [0]))); [|by apply cstr_wrbytes, G]. intros x Hx. unfold blk in *.
    rewrite (pl_out _ _ _ _ _ _ P) by (unfold blk; lia). rewrite H2 by lia. unfold m1. apply wr32_out. lia.
  - done.
  - apply P.
  - rewrite (rd32_same m1); [apply rd32_wr32_eq|]. intros x Hx. unfold blk in *.
    rewrite (pl_out _ _ _ _ _ _ P) by (unfold blk; lia). apply H2. lia.
  - intros j Hj. rewrite (pl_direct _ _ _ _ _ _ P) by done. destruct (j <? _); [done|]. apply rd32_zero. intros x Hx. apply Hz2. lia.
  - rewrite (pl_ind _ _ _ _ _ _ P). destruct (10 <=? _); [done|]. apply rd32_zero. intros x Hx. apply Hz2. lia.
  - intros i b Hi. assert (Z.of_nat i < size fl) as Hlt by (apply lookup_lt_Some in Hi; unfold size; lia).
    rewrite (pl_out _ _ _ _ _ _ P) by (unfold blk; lia). unfold m2. rewrite (wrbytes_in _ _ _ i b Hi). apply u8_id.
    pose proof (gf_bytes _ G) as Hb. rewrite Forall_lookup in Hb. by eapply Hb.
  - intros n Hge j Hj. change n with (nb (size fl)) in *. clear n. rewrite (pl_words _ _ _ _ _ _ P Hge j Hj). destruct (j <? _); [done|].
    apply rd32_zero. intros x Hx. unfold need in *. rewrite (proj2 (Z.leb_le 10 _)) in * by done. unfold blk in *.
    rewrite H2, H1 by lia. apply Hzd. lia.
Qed.

(** A file is added: where memory changes, and what is there afterwards. *)
Lemma writefile_adds m0 h fls fl : built m0 h fls -> good_file fl -> (length fls < 128)%nat -> used fls + need (size fl) < N ->
  exists m, let u := used fls in let a := ents + 256 * Z.of_nat (length fls) in
    writefile ents chunk (Some fl) h = Ok tt (mkHost m N (blk (u + need (size fl))) (Z.of_nat (length fls) + 1))
    /\ (forall x, x < a \/ a + 256 <= x -> x < blk u \/ blk (u + need (size fl)) <= x -> m x = hmem h x)
    /\ entry m a (name fl) FTYPE_REG (size fl) u /\ body m (content fl) u.
Proof.
  intros B G Hl Hfit. destruct h as [m n pos dn]. pose proof (bu_n _ _ _ B) as En. pose proof (bu_dir _ _ _ B) as Ed.
  pose proof (bu_pos _ _ _ B) as Ep. cbn in En, Ed, Ep. subst n dn pos.
  set (u := used fls) in *. set (a := ents + 256 * Z.of_nat (length fls)). assert (3 <= u) as Hu by apply used_ge.
  assert (0 <= size fl < MAXFILESIZE) as Hs by (split; [unfold size; lia|apply G]). pose proof (nb_range _ Hs) as Hnb.
  destruct (need_nonneg (size fl) ltac:(lia)) as [Hnn Hcov]. change MAXFILESIZE with 4235264 in Hs.
  unfold blk in Hents. unfold writefile. rewrite (gf_regular _ G). cbn [negb]. fold (size fl).
  rewrite Z.geb_leb, (proj2 (Z.leb_gt MAXFILESIZE _)) by (change MAXFILESIZE with 4235264; lia).
  unfold mbind at 1. unfold diradd. unfold mbind, mgets, mmodify, hwrite, hstore32. cbn [dir_n set_dir_n].
  rewrite Z.gtb_ltb. unfold MAX_DIR_ENTS. rewrite (proj2 (Z.ltb_ge 128 _)) by lia. unfold mmodify, mret.
  change sizeof_File with 256. change off_f_name with 0. change off_f_type with 132. change FTYPE_REG with 0. fold a. rewrite Z.add_0_r.
  cbn [hmem set_hmem]. set (m1 := wr32 _ (a + 132) 0).
  rewrite (alloc_ok (size fl) _ u); [|done|lia|cbn; lia]. unfold size at 1. rewrite readn_ok by done. cbn [hmem set_hmem set_diskpos].
  fold (size fl). set (m2 := wrbytes m1 (blk u) (content fl)). rewrite blockof_blk.
  destruct (finishfile_ok a u (size fl) (set_hmem m2 (set_diskpos (blk (u + nb (size fl)))
    (set_hmem m1 (mkHost m N (blk u) (Z.of_nat (length fls) + 1))))) (u + nb (size fl))) as (m3 & E3 & P);
    [done|change MAXFILESIZE with 4235264; lia|lia|lia| |unfold blk, a; lia|].
  { intros H10. cbn. unfold need in Hfit. rewrite (proj2 (Z.leb_le 10 _)) in Hfit by done. lia. }
  exists m3. cbv zeta. split; [unfold set_hmem, set_diskpos in *; cbn in *; unfold need; rewrite Z.add_assoc; exact E3|].
  apply (added m); try done; try lia; [unfold a, blk; lia| |intros x Hx; by apply (bu_disk _ _ _ B)].
  intros x Hx. apply (bu_ents _ _ _ B). fold a. lia.
Qed.

Lemma writefile_built m0 h fls fl : built m0 h fls -> good_file fl -> (length fls < 128)%nat -> used fls + need (size fl) < N ->
  exists h', writefile ents chunk (Some fl) h = Ok tt h' /\ built m0 h' (fls ++ [fl]).
Proof.
  intros B G Hl Hfit. destruct (writefile_adds m0 h fls fl B G Hl Hfit) as (m & E & Hk & En & Bo). eexists. split; [exact E|].
  pose proof (used_ge fls) as Hu. destruct (need_nonneg (size fl) ltac:(unfold size; lia)) as [Hnn _].
  assert (used (fls ++ [fl]) = used fls + need (size fl)) as Eu by (rewrite used_app; cbn; lia).
  unfold blk in Hents, Hk. split; cbn [nblocks dir_n diskpos hmem].
  - done.
  - rewrite length_app. cbn. lia.
  - by rewrite Eu.
  - intros k fl' Hk'. destruct (decide (k = length fls)) as [->|Hne].
    { rewrite list_lookup_middle in Hk' by done. injection Hk' as <-. by rewrite take_app_length. }
    assert (fls !! k = Some fl') as Hold.
    { rewrite lookup_app_l in Hk'; [done|]. apply lookup_lt_Some in Hk'. rewrite length_app in Hk'. cbn in Hk'. lia. }
    pose proof (lookup_lt_Some _ _ _ Hold) as Hlt. rewrite take_app_le by lia.
    destruct (bu_file _ _ _ B k fl' Hold) as [En' Bo']. pose proof (used_take _ _ _ Hold) as Hut.
    pose proof (used_ge (take k fls)) as Hug. split.
    + eapply entry_move; [|exact En']. intros o Ho. apply Hk; lia.
    + eapply body_ext; [|exact Bo']. intros x Hx. fold (size fl') in Hx. unfold blk in Hx. apply Hk; lia.
  - intros x Hx. rewrite length_app in Hx. cbn in Hx. rewrite Hk by lia. apply (bu_ents _ _ _ B). lia.
  - intros x Hx. rewrite Eu in Hx. unfold blk in Hx. rewrite Hk by lia. apply (bu_disk _ _ _ B). unfold blk. lia.
  - intros x Hx. unfold blk in Hx. rewrite Hk by lia. apply (bu_meta _ _ _ B). unfold blk. lia.
Qed.

Lemma writefiles_built m0 fls : forall h done_, built m0 h done_ -> Forall good_file fls ->
  (length done_ + length fls <= 128)%nat -> used (done_ ++ fls) < N ->
  exists h', writefiles ents chunk (map Some fls) h = Ok tt h' /\ built m0 h' (done_ ++ fls).
Proof.
  induction fls as [|fl fls IH]; intros h dn B G Hl Hu; cbn [map writefiles].
  - exists h. rewrite app_nil_r. by split.
  - apply Forall_cons_1 in G as [G0 G]. cbn [length] in Hl.
    assert (used (dn ++ [fl]) + used fls - 3 < N) as Hu'.
    { rewrite <- used_app, <- app_assoc. exact Hu. }
    pose proof (used_ge fls). rewrite used_app in Hu'. cbn [used foldr] in Hu'.
    destruct (writefile_built m0 h dn fl B G0 ltac:(lia) ltac:(unfold used in *; cbn in *; lia)) as (h1 & E1 & B1).
    unfold mbind. rewrite E1. destruct (IH h1 (dn ++ [fl]) B1 G) as (h2 & E2 & B2).
    + rewrite length_app. cbn. lia.
    + by rewrite <- app_assoc.
    + exists h2. split; [done|]. by rewrite <- app_assoc in B2.
Qed.

(** ** The metadata *)

(** The blocks in front, as [opendisk] leaves them. *)
Record fresh_disk (m : mem) : Prop := {
  fd_magic : rd32 m (blk 1) = FS_MAGIC;
  fd_nblocks : rd32 m (blk 1 + 4) = N;
  fd_name : cstr m (blk 1 + 8) (chars "/");
  fd_type : rd32 m (blk 1 + 140) = FTYPE_DIR;
  fd_zero : forall x, blk 1 + 144 <= x < blk 2 -> m x = 0;
  fd_bits : forall x, blk 2 <= x < blk 3 -> m x = 255
}.

Lemma opendisk_ok m : 3 < N -> (forall x, ents <= x < ents + 32768 -> m x = 0) ->
  exists m0, opendisk (mkHost m N 0 0) = Ok tt (mkHost m0 N (blk 3) 0)
    /\ fresh_disk m0 /\ built m0 (mkHost m0 N (blk 3) 0) [].
Proof.
  intros H3 Hz. unfold opendisk. unfold mbind, mmodify, mgets, hstore32, hwrite. cbn [set_hmem set_diskpos hmem nblocks diskpos dir_n].
  change BLKSIZE with 4096. rewrite (alloc_ok 4096 _ 0); [|done|lia|change (nb 4096) with 1; cbn [nblocks set_hmem set_diskpos]; lia]. change (nb 4096) with 1.
  rewrite (alloc_ok 4096 _ (0 + 1)); [|done|lia|change (nb 4096) with 1; cbn [nblocks set_hmem set_diskpos]; lia]. change (nb 4096) with 1.
  unfold mmodify. cbn [set_hmem set_diskpos hmem nblocks diskpos dir_n]. change BLKBITSIZE with 32768.
  replace ((N + 32768 - 1) / 32768) with 1 by zdm. rewrite (alloc_ok (1 * 4096) _ (0 + 1 + 1)); [|done|lia|change (nb (1 * 4096)) with 1; cbn [nblocks set_hmem set_diskpos]; lia].
  change (nb (1 * 4096)) with 1. change (0 + 1 + 1 + 1) with 3. change (0 + 1 + 1) with 2. change (0 + 1) with 1. change (1 * 4096) with 4096.
  unfold mmodify. cbn [set_hmem set_diskpos hmem nblocks diskpos dir_n].
  change off_s_nblocks with 4. change off_s_root with 8. change off_f_type with 132. change off_f_name with 0.
  rewrite Z.add_0_r. rewrite <- !(Z.add_assoc (blk 1) 8). change (8 + 132) with 140.
  set (z := mset m DISKMAP 0 (N * 4096)). set (m1 := wrbytes _ (blk 1 + 8) _). set (m0 := mset m1 (blk 2) 255 4096).
  exists m0. split; [done|]. unfold blk in Hents.
  assert (forall x, x < blk 2 \/ blk 3 <= x -> m0 x = m1 x) as H0 by (intros x Hx; apply mset_out; unfold blk in *; lia).
  assert (forall x, x < blk 1 \/ blk 1 + 144 <= x -> m1 x = z x) as H1.
  { intros x Hx. unfold m1. rewrite wrbytes_out by (cbn; lia). rewrite !wr32_out by lia. done. }
  assert (forall x, DISKMAP <= x < blk N -> z x = 0) as Hd by (intros x Hx; unfold z; rewrite mset_in by (unfold blk in Hx; lia); done).
  assert (forall x, x < DISKMAP \/ blk N <= x -> z x = m x) as Ho by (intros x Hx; apply mset_out; unfold blk in Hx; lia).
  set (m2 := wr32 (wr32 (wr32 z (blk 1) FS_MAGIC) (blk 1 + 4) N) (blk 1 + 140) FTYPE_DIR) in m1.
  assert (forall o, 0 <= o <= 4 \/ 10 <= o <= 4092 -> rd32 m0 (blk 1 + o) = rd32 m2 (blk 1 + o)) as Hw.
  { intros o Hr. apply rd32_same. intros x Hx. unfold blk in *. rewrite H0 by lia. apply wrbytes_out. cbn. lia. }
  split; split; cbn [nblocks dir_n diskpos hmem length].
  7, 8, 9, 10, 13: done.
  - pose proof (Hw 0 ltac:(lia)) as Hw0. rewrite !Z.add_0_r in Hw0. rewrite Hw0. unfold m2. rewrite !rd32_wr32_ne by lia. apply rd32_wr32_eq.
  - rewrite Hw by lia. unfold m2. rewrite rd32_wr32_ne, rd32_wr32_eq by lia. apply u32_id. lia.
  - apply (cstr_ext m1); [intros x Hx; apply H0; unfold blk in *; cbn in Hx; lia|]. apply cstr_wrbytes. by repeat constructor.
  - rewrite Hw by lia. unfold m2. apply rd32_wr32_eq.
  - intros x Hx. unfold blk in *. rewrite H0, H1, Hd by lia. done.
  - intros x Hx. unfold m0. rewrite mset_in by (unfold blk in *; lia). done.
  - intros x Hx. unfold blk in *. rewrite H0, H1, Ho by lia. apply Hz. lia.
  - intros x Hx. change (used []) with 3 in Hx. unfold blk in *. rewrite H0, H1, Hd by lia. done.
Qed.

Lemma clear_bits_ok n : forall i h, 0 <= i -> i + Z.of_nat n <= 32768 -> exists m, clear_bits n i h = Ok tt (set_hmem m h)
  /\ (forall x, x < blk 2 \/ blk 3 <= x -> m x = hmem h x)
  /\ forall b, 0 <= b -> bit m b = if (i <=? b) && (b <? i + Z.of_nat n) then false else bit (hmem h) b.
Proof.
  induction n as [|n IH]; intros i h Hi Hn; cbn [clear_bits].
  - exists (hmem h). split; [by destruct h|]. split; [done|]. intros b Hb.
    destruct (Z.leb_spec i b), (Z.ltb_spec b (i + Z.of_nat 0)); try lia; done.
  - unfold mbind, mgets, hstore32, mmodify. change (2 * BLKSIZE) with 8192.
    change (wr32 (hmem h) _ _) with (bit_clear (hmem h) i).
    destruct (IH (i + 1) (set_hmem (bit_clear (hmem h) i) h)) as (m & E & Ho & Hb); [lia|lia|].
    exists m. rewrite E. split; [done|]. cbn [hmem set_hmem] in *. split.
    + intros x Hx. rewrite Ho by done. unfold bit_clear, word_set. apply wr32_out. unfold blk in Hx. zdm.
    + intros b Hb'. rewrite Hb, bit_bit_clear by lia.
      destruct (Z.leb_spec (i + 1) b), (Z.leb_spec i b), (Z.ltb_spec b (i + 1 + Z.of_nat n)),
        (Z.ltb_spec b (i + Z.of_nat (S n))), (Z.eqb_spec b i); try lia; done.
Qed.

(** The directory is copied to the disk. *)
Lemma finishdir_ok m0 h fls d : built m0 h fls -> fresh_disk m0 -> d = nb (256 * Z.of_nat (length fls)) ->
  (length fls <= 128)%nat -> used fls + d < N ->
  exists m, finishdir ents (blk 1 + 8) h = Ok tt (mkHost m N (blk (used fls + d)) (Z.of_nat (length fls)))
    /\ (forall x, x < blk 1 + 136 \/ blk 1 + 188 <= x -> x < blk (used fls) \/ blk (used fls + d) <= x -> m x = hmem h x)
    /\ (forall o, 0 <= o < 256 * Z.of_nat (length fls) -> m (blk (used fls) + o) = hmem h (ents + o))
    /\ entry m (blk 1 + 8) (chars "/") FTYPE_DIR (4096 * Z.max 1 d) (used fls).
Proof.
  intros B F -> Hl Hfit. destruct h as [m n pos dn]. pose proof (bu_n _ _ _ B) as En. pose proof (bu_dir _ _ _ B) as Ed.
  pose proof (bu_pos _ _ _ B) as Ep. cbn in En, Ed, Ep. subst n dn pos. pose proof (used_ge fls) as Hu.
  set (u := used fls) in *. set (sz := 256 * Z.of_nat (length fls)) in *. set (d := nb sz) in *.
  assert (0 <= d <= 8 /\ sz <= 4096 * d /\ 0 <= sz <= 32768) as (Hd & Hcov & Hsz) by (unfold d, nb, sz; zdm).
  set (r := Z.max 1 d) in *. assert (1 <= r <= 8) as Hr by lia.
  assert (nb (4096 * r) = r) as Hnb by (unfold nb at 1; zdm).
  unfold finishdir. unfold mbind, mgets, mmodify. cbn [dir_n]. change sizeof_File with 256. rewrite (Z.mul_comm _ 256). fold sz.
  rewrite (alloc_ok sz _ u); [|done|lia|done]. rewrite blockof_blk, roundup_int_nb by lia. fold d. fold r. rewrite u32_id by lia. cbn [hmem set_diskpos set_hmem].
  set (m1 := mcpy m (blk u) ents sz).
  destruct (finishfile_ok (blk 1 + 8) u (4096 * r) (set_hmem m1 (set_diskpos (blk (u + d)) (mkHost m N (blk u) (Z.of_nat (length fls))))) (u + d))
    as (m2 & E & P); [done|change MAXFILESIZE with 4235264; lia|lia|lia|rewrite Hnb; lia|unfold blk; lia|].
  rewrite Hnb, (proj2 (Z.leb_gt 10 r)), Z.add_0_r in E by lia. exists m2. split; [exact E|].
  cbn [hmem set_hmem] in P. unfold blk in Hents.
  assert (forall x, x < blk 1 + 136 \/ blk 1 + 140 <= x < blk 1 + 144 \/ blk 1 + 188 <= x -> m2 x = m1 x) as H2.
  { intros x Hx. unfold blk in *. apply (pl_out _ _ _ _ _ _ P); [unfold blk; lia|]. rewrite Hnb, (proj2 (Z.leb_gt 10 r)) by lia. lia. }
  assert (forall x, x < blk u \/ blk u + sz <= x -> m1 x = m x) as H1 by (intros x Hx; by apply mcpy_out).
  assert (forall x, blk 1 <= x < blk 2 -> m1 x = m0 x) as Hm0.
  { intros x Hx. unfold blk in *. rewrite H1 by lia. apply (bu_meta _ _ _ B). unfold blk. lia. }
  split; [|split; [|split]].
  - intros x Hx Hxu. unfold blk in *. rewrite H2, H1 by lia. done.
  - intros o Ho. unfold blk in *. rewrite H2 by lia. unfold m1. rewrite mcpy_in by (unfold blk; lia). f_equal. unfold blk. lia.
  - apply (cstr_ext m0); [|apply F]. intros x Hx. cbn in Hx. rewrite H2 by lia. apply Hm0. unfold blk in *. lia.
  - done.
  - apply P.
  - rewrite <- (fd_type _ F). rewrite <- Z.add_assoc. apply rd32_same. intros x Hx. rewrite H2 by lia. apply Hm0. unfold blk in *. lia.
  - intros j Hj. rewrite (pl_direct _ _ _ _ _ _ P) by done. destruct (j <? _); [done|]. apply rd32_zero.
    intros x Hx. rewrite Hm0 by (unfold blk in *; lia). apply (fd_zero _ F). unfold blk in *. lia.
  - rewrite (pl_ind _ _ _ _ _ _ P), Hnb, (proj2 (Z.leb_gt 10 r)) by lia. apply rd32_zero.
    intros x Hx. rewrite Hm0 by (unfold blk in *; lia). apply (fd_zero _ F). unfold blk in *. lia.
Qed.

(** The whole run. *)
Lemma main_builds m fls : (forall x, ents <= x < ents + 32768 -> m x = 0) -> Forall good_file fls -> (length fls <= 128)%nat ->
  let d := nb (256 * Z.of_nat (length fls)) in used fls + d < N ->
  exists h, main ents chunk (Some N) (map Some fls) m = Some (Ok tt h)
    /\ rd32 (hmem h) (blk 1 + 4) = N /\ rd32 (hmem h) (blk 1) = FS_MAGIC
    /\ (forall b, 0 <= b < N -> bit (hmem h) b = (used fls + d <=? b))
    /\ entry (hmem h) (blk 1 + 8) (chars "/") FTYPE_DIR (4096 * Z.max 1 d) (used fls)
    /\ forall k fl, fls !! k = Some fl ->
         entry (hmem h) (blk (used fls) + 256 * Z.of_nat k) (name fl) FTYPE_REG (size fl) (used (take k fls))
         /\ body (hmem h) (content fl) (used (take k fls)).
Proof.
  intros Hz G Hl d Hfit. pose proof (used_ge fls) as Hu. assert (0 <= d <= 8 /\ 256 * Z.of_nat (length fls) <= 4096 * d) as [Hd Hdc]
    by (unfold d, nb; zdm). unfold main.
  rewrite (proj2 (Z.ltb_ge N 2)), Z.gtb_ltb, (proj2 (Z.ltb_ge 1024 N)) by lia. cbn [orb].
  destruct (opendisk_ok m ltac:(lia) Hz) as (m0 & E0 & F & B0). unfold mbind at 1. rewrite E0.
  unfold mbind at 1. unfold startdir, mmodify. change (set_dir_n 0 _) with (mkHost m0 N (blk 3) 0).
  destruct (writefiles_built m0 fls _ [] B0 G Hl) as (h1 & E1 & B1); [cbn [app]; lia|]. cbn [app] in B1.
  unfold mbind at 1. rewrite E1. destruct (finishdir_ok m0 h1 fls d B1 F eq_refl Hl Hfit) as (m2 & E2 & Ho2 & Hdir & Er).
  change (DISKMAP + BLKSIZE + off_s_root) with (blk 1 + 8). unfold mbind at 1. rewrite E2.
  unfold finishdisk, mbind, mgets. cbn [diskpos]. rewrite blockof_blk.
  destruct (clear_bits_ok (Z.to_nat (used fls + d)) 0 (mkHost m2 N (blk (used fls + d)) (Z.of_nat (length fls))))
    as (m3 & E3 & Ho3 & Hb3); [lia|lia|]. rewrite E3. cbn [hmem set_hmem] in *. rewrite Z2Nat.id in Hb3 by lia.
  assert (forall x, blk 1 <= x < blk 1 + 136 -> m3 x = m0 x) as Hm.
  { intros x Hx. unfold blk in *. rewrite Ho3, Ho2 by (unfold blk; lia). apply (bu_meta _ _ _ B1). unfold blk. lia. }
  assert (forall x, blk 2 <= x < blk 3 -> m2 x = 255) as H255.
  { intros x Hx. unfold blk in *. rewrite Ho2 by (unfold blk; lia). rewrite (bu_meta _ _ _ B1) by (unfold blk; lia).
    apply (fd_bits _ F). unfold blk. lia. }
  eexists. split; [reflexivity|]. cbn [hmem set_hmem]. split; [|split; [|split; [|split]]].
  - rewrite <- (fd_nblocks _ F). apply rd32_same. intros x Hx. apply Hm. lia.
  - rewrite <- (fd_magic _ F). apply rd32_same. intros x Hx. apply Hm. lia.
  - intros b Hb. rewrite Hb3 by lia. rewrite (proj2 (Z.leb_le 0 b)) by lia. cbn [andb].
    destruct (Z.ltb_spec b (0 + (used fls + d))), (Z.leb_spec (used fls + d) b); try lia.
    rewrite bit_testbit by lia. assert (rd32 m2 (DISKMAP + 8192 + 4 * (b / 32)) = Z.ones 32) as ->.
    { unfold rd32, rd8. unfold blk in H255. rewrite !H255 by zdm. done. }
    apply Z.ones_spec_low. zdm.
  - eapply entry_move; [|exact Er]. intros o Ho. apply Ho3. unfold blk. lia.
  - intros k fl Hk. pose proof (lookup_lt_Some _ _ _ Hk) as Hlt. destruct (bu_file _ _ _ B1 k fl Hk) as [En Bo].
    pose proof (used_take _ _ _ Hk). pose proof (used_ge (take k fls)). split.
    + eapply entry_move; [|exact En]. intros o Hoo. unfold blk in *. rewrite Ho3 by (unfold blk; lia).
      rewrite <- !Z.add_assoc. rewrite Z.add_assoc. apply Hdir. lia.
    + eapply body_ext; [|exact Bo]. intros x Hx. fold (size fl) in Hx. unfold blk in *. rewrite Ho3 by (unfold blk; lia).
      apply Ho2; unfold blk; lia.
Qed.

End image.

Lemma body_root v u d : 0 <= d < 10 ->
  body v (map (fun i => v (blk u + Z.of_nat i)) (seq 0 (Z.to_nat (4096 * d)))) u.
Proof.
  intros Hd. split.
  - intros i b Hi. rewrite list_lookup_fmap in Hi. destruct (seq 0 _ !! i) as [j|] eqn:Ej; [|done].
    apply lookup_seq in Ej as [-> _]. by injection Hi as <-.
  - rewrite length_map, length_seq, Z2Nat.id by lia. unfold nb. intros. exfalso. zdm.
Qed.

(** The root directory and the files in it, on a memory that shows the image. *)
Section shown.

Context (N : Z) (HN : 3 <= N <= 1024) (v : mem) (u d : Z) (Hu : 3 <= u) (Hd : 0 <= d <= 8) (Hfit : u + d < N).
Context (Hb : forall b, 0 <= b < N -> bit v b = (u + d <=? b)).

Lemma first_data_N : first_data N = 3.
Proof using HN. unfold first_data. zdm. Qed.

Lemma root_file : entry v (file_addr 1 8) (chars "/") FTYPE_DIR (4096 * d) u ->
  file_ok (N := N) v 1 8 /\ forall n, 0 <= n < d -> fblk v 1 8 n = u + n.
Proof using HN Hu Hd Hfit Hb.
  intros Er. pose proof (body_root v u d ltac:(lia)) as Bo. set (root := map _ _) in Bo.
  assert (Z.of_nat (length root) = 4096 * d) as Hroot by (unfold root; rewrite length_map, length_seq; lia).
  assert (nb (4096 * d) = d) as Hnb by (unfold nb at 1; zdm). rewrite <- Hroot in Er.
  assert (need (Z.of_nat (length root)) = d) as Hneed by (unfold need; rewrite Hroot, Hnb, (proj2 (Z.leb_gt 10 d)); lia).
  pose proof first_data_N as Hfd.
  destruct (laid_out N v 1 8 (chars "/") FTYPE_DIR root u) as (Rok & Rblk & _); try done; try lia.
  - rewrite Hroot. change MAXFILESIZE with 4235264. lia.
  - intros b Hr. rewrite Hneed in Hr. rewrite Hb by lia. split; [apply Z.leb_gt; lia|lia].
  - split; [done|]. intros n Hn. rewrite Rblk by (change NBLK with 1034; lia). by rewrite Hroot, Hnb, (proj2 (Z.ltb_lt n d)) by lia.
Qed.

Lemma entry_file k fl start : good_file fl -> Z.of_nat k / 16 < d -> 3 <= start -> start + need (size fl) <= u ->
  let fb := u + Z.of_nat k / 16 in let fo := 256 * (Z.of_nat k mod 16) in
  entry v (file_addr fb fo) (name fl) FTYPE_REG (size fl) start -> body v (content fl) start ->
  file_ok (N := N) v fb fo /\ forall i b, content fl !! i = Some b -> v (byte_addr v fb fo (Z.of_nat i)) = b.
Proof using HN Hu Hd Hfit Hb.
  intros G Hk Hs Hsu fb fo En Bo. pose proof first_data_N as Hfd. assert (u <= fb < u + d) as Hfb by (unfold fb; zdm).
  destruct (need_nonneg (size fl) ltac:(unfold size; lia)) as [Hn _].
  destruct (laid_out N v fb fo (name fl) FTYPE_REG (content fl) start) as (Fok & _ & Fb); try done; try lia.
  - unfold fo. zdm.
  - left. rewrite Hb by lia. split; [lia|apply Z.leb_gt; lia].
  - apply G.
  - fold (size fl). lia.
  - fold (size fl). intros b Hr. rewrite Hb by lia. split; [apply Z.leb_gt; lia|lia].
Qed.

End shown.

(** Without files the root directory owns a block that is marked free. *)
Lemma root_empty N v : 3 < N -> bit v 3 = true -> entry v (file_addr 1 8) (chars "/") FTYPE_DIR 4096 3 ->
  f_size v 1 8 = 4096 /\ fblk v 1 8 0 = 3 /\ bit v 3 = true /\ ~ file_ok (N := N) v 1 8.
Proof.
  intros HN Hb En. assert (fblk v 1 8 0 = 3) as E3.
  { unfold fblk, slot_addr. change NDIRECT with 10. cbn [Z.leb Z.ltb Z.compare andb]. apply (en_direct _ _ _ _ _ _ En 0). lia. }
  split; [apply (en_size _ _ _ _ _ _ En)|]. split; [exact E3|]. split; [exact Hb|].
  intros F. destruct (fk_data _ _ _ F 0) as [[_ H] _]; [by change NBLK with 1034|by rewrite E3|]. by rewrite E3, Hb in H.
Qed.

(** C3: [fsformat] builds a disk that the file system can work on.  When the
    files fit, the image has the invariants that the theorems about the file
    server start from: the super block has the magic number and gives the size,
    exactly the blocks in use are marked so, and, when there is a file at all,
    the root directory is a well-formed file.  The directory holds one entry per
    file, in order, with its name; every entry is a well-formed file of the right
    size whose blocks hold the bytes of the host's file.  With no file the image
    is wrong: [finishdir] rounds the [int] 0 up to 4096, and the root directory
    then claims block 3, which was not allocated and is marked free.  The memory
    malloc returns for the directory must hold zeros: the code relies on it
    without clearing it. *)
Theorem fsformat_image (ents N : Z) (chunk : Z -> Z) (m : mem) (fls : list hfile) :
  3 <= N <= 1024 -> ents + 32768 <= DISKMAP \/ blk N <= ents -> (forall r, 0 < r -> 0 < chunk r <= r) ->
  (forall x, ents <= x < ents + 32768 -> m x = 0) -> Forall good_file fls -> (length fls <= 128)%nat ->
  let u := used fls in
  let d := nb (256 * Z.of_nat (length fls)) in
  u + d < N ->
  exists h, main ents chunk (Some N) (map Some fls) m = Some (Ok tt h)
    /\ forall v, (forall x, DISKMAP <= x < blk N -> v x = hmem h x) ->
    sane N v /\ rd32 v (blk 1) = FS_MAGIC /\ (forall b, 0 <= b < N -> bit v b = (u + d <=? b))
    /\ (fls <> [] -> file_ok (N := N) v 1 8 /\ f_size v 1 8 = 4096 * d)
    /\ (fls = [] -> f_size v 1 8 = 4096 /\ fblk v 1 8 0 = 3 /\ bit v 3 = true /\ ~ file_ok (N := N) v 1 8)
    /\ forall k fl, fls !! k = Some fl ->
      let fb := u + Z.of_nat k / 16 in let fo := 256 * (Z.of_nat k mod 16) in
      fblk v 1 8 (Z.of_nat k / 16) = fb /\ cstr v (file_addr fb fo) (name fl)
      /\ file_ok (N := N) v fb fo /\ f_size v fb fo = size fl
      /\ forall i b, content fl !! i = Some b -> v (byte_addr v fb fo (Z.of_nat i)) = b.
Proof.
  intros HN Hents Hch Hz G Hl u d Hfit. pose proof (used_ge fls) as Hu. fold u in Hu.
  assert (0 <= d <= 8 /\ 256 * Z.of_nat (length fls) <= 4096 * d) as [Hd Hdc] by (unfold d, nb; zdm).
  destruct (main_builds ents chunk N HN Hents Hch m fls Hz G Hl Hfit) as (h & E & Hn & Hmag & Hbit & Er & Hf).
  fold d in Hbit, Er. fold u in Hbit, Er, Hf. exists h. split; [exact E|]. intros v Hv.
  assert (forall b, 0 <= b < N -> bit v b = (u + d <=? b)) as Hb.
  { intros b Hb. rewrite <- Hbit by done. rewrite !bit_testbit by lia. f_equal. apply rd32_same. intros x Hx. apply Hv. unfold blk. zdm. }
  assert (entry v (file_addr 1 8) (chars "/") FTYPE_DIR (4096 * Z.max 1 d) u) as Er'.
  { eapply entry_move; [|exact Er]. intros o Ho. apply Hv. unfold file_addr, blk. lia. }
  assert (fls <> [] -> Z.max 1 d = d) as Hmax.
  { intros Hne. assert (0 < Z.of_nat (length fls)) by (destruct fls; [done|cbn; lia]). unfold d, nb. zdm. }
  split; [split|split; [|split; [exact Hb|split; [|split]]]].
  - rewrite <- Hn. change (DISKMAP + BLKSIZE + off_s_nblocks) with (blk 1 + 4). apply rd32_same. intros x Hx. apply Hv. unfold blk in *. lia.
  - intros b Hbr. rewrite (first_data_N N HN) in Hbr. rewrite Hb by lia. apply Z.leb_gt. lia.
  - rewrite <- Hmag. apply rd32_same. intros x Hx. apply Hv. unfold blk in *. lia.
  - intros Hne. rewrite (Hmax Hne) in Er'. split; [apply (root_file N HN v u d Hu Hd Hfit Hb Er')|apply (en_size _ _ _ _ _ _ Er')].
  - intros ->. change u with 3 in *. change d with 0 in *. by apply (root_empty N v ltac:(lia)); [apply Hb; lia|].
  - intros k fl Hk fb fo. pose proof (lookup_lt_Some _ _ _ Hk) as Hlt. destruct (Hf k fl Hk) as [En Bo].
    rewrite Hmax in Er' by (by intros ->). destruct (root_file N HN v u d Hu Hd Hfit Hb Er') as [_ Rblk].
    pose proof (used_take _ _ _ Hk) as Hut. fold u in Hut. pose proof (used_ge (take k fls)) as Hug.
    assert (0 <= Z.of_nat k / 16 < d) as Hkd by zdm.
    assert (entry v (file_addr fb fo) (name fl) FTYPE_REG (size fl) (used (take k fls))) as En'.
    { eapply entry_move; [|exact En]. intros o Ho.
      replace (file_addr fb fo) with (blk u + 256 * Z.of_nat k) by (unfold file_addr, fb, fo, blk; zdm). apply Hv. unfold blk. lia. }
    assert (body v (content fl) (used (take k fls))) as Bo'.
    { eapply body_ext; [|exact Bo]. intros x Hx. fold (size fl) in Hx. apply Hv. unfold blk in *. lia. }
    destruct (entry_file N HN v u d Hu Hd Hfit Hb k fl (used (take k fls))) as [Fok Fb]; try done; try lia.
    { rewrite Forall_lookup in G. by eapply G. }
    split; [by apply Rblk|]. split; [apply En'|]. split; [exact Fok|]. split; [apply (en_size _ _ _ _ _ _ En')|exact Fb].
Qed.

Definition ex_files : list hfile := [mkHfile (chars "fs/motd") true (chars "hello"); mkHfile (chars "lorem") true []].

Lemma ex_good : Forall good_file ex_files.
Proof. repeat (apply Forall_cons; split; [by split; try done; apply (bool_decide_unpack _)|]). done. Qed.

Lemma fsformat_image_witness : exists h,
  main 4096 (Z.min 512) (Some 16) (map Some ex_files) (fun _ => 0) = Some (Ok tt h)
  /\ sane 16 (hmem h) /\ file_ok (N := 16) (hmem h) 4 0 /\ cstr (hmem h) (file_addr 4 0) (chars "motd")
  /\ hmem h (byte_addr (hmem h) 4 0 4) = 111.
Proof.
  destruct (fsformat_image 4096 16 (Z.min 512) (fun _ => 0) ex_files) as (h & E & H).
  - lia.
  - left. discriminate.
  - intros r Hr. lia.
  - intros x _. reflexivity.
  - exact ex_good.
  - apply Nat.leb_le. reflexivity.
  - vm_compute. reflexivity.
  - destruct (H (hmem h) (fun x _ => eq_refl)) as (Hs & _ & _ & _ & _ & Hf).
    destruct (Hf 0%nat _ eq_refl) as (_ & Hn & Hok & _ & Hb).
    exists h. split; [exact E|]. split; [exact Hs|]. split; [exact Hok|]. split; [exact Hn|].
    exact (Hb 4%nat 111 eq_refl).
Defined.

End Fsformat.
