(* ===== verification/Serv.v ===== *)
(** * The file server (fs/serv.c)

    The server keeps a table of open files.  Each entry has a descriptor page
    that the server shares with the clients that have the file open; the number
    of references to that page tells whether the entry is in use.  [fdref] is
    that number for each entry: it is 0 before the page exists and 1 while only
    the server maps it, and clients change it by mapping and unmapping the page.
    [kpages] is the number of pages the kernel still gives the server for
    descriptor pages.  A request arrives in the page at [fsreq].

    The theorems: identifiers of open files stay valid while a client has the
    file open and are never mistaken for others; data written through the server
    is read back through it. *)

From stdpp Require Import base numbers list functions strings sets.
From Stdlib Require Import ZArith Lia.
From S2P Require Import Prelude Mem Mmu Kernel Umonad Bc Fs FsLogic FsAlloc FsFiles FsRw.

Open Scope Z_scope.
Open Scope usr_scope.

Module Serv.

Import Bc Fs FsLogic FsAlloc FsFiles FsRw.

Record OpenFile := mkOpen {
  o_fileid : Z;
  o_file : Z;
  o_mode : Z;
  o_fd : Z
}.

Record sv := mkSv {
  sfs : fs_state;
  opentab : Z -> OpenFile;
  fdref : Z -> Z;
  kpages : Z
}.

Definition set_sfs (f : fs_state) (s : sv) : sv := mkSv f (opentab s) (fdref s) (kpages s).

Definition set_opentab (t : Z -> OpenFile) (s : sv) : sv := mkSv (sfs s) t (fdref s) (kpages s).

Definition set_fdref (t : Z -> Z) (s : sv) : sv := mkSv (sfs s) (opentab s) t (kpages s).

Definition set_kpages (n : Z) (s : sv) : sv := mkSv (sfs s) (opentab s) (fdref s) n.

(** The file system, inside the server. *)
Definition lift {A} (m : M fs_state A) : M sv A := fun s =>
  match m (sfs s) with
  | Ok a f => Ok a (set_sfs f s)
  | Panics w f => Panics w (set_sfs f s)
  | Undefined w f => Undefined w (set_sfs f s)
  end.

Definition upd_open (i : Z) (g : OpenFile -> OpenFile) (s : sv) : sv :=
  set_opentab (<[i := g (opentab s i)]> (opentab s)) s.

Definition MAXOPEN : Z := 1024.

Definition FILEVA : Z := 3489660928.

Definition fsreq : Z := 268431360.

(** Open modes of inc/lib.h. *)
Definition O_ACCMODE : Z := 3.

Definition O_CREAT : Z := 256.

Definition O_TRUNC : Z := 512.

Definition O_EXCL : Z := 1024.

Definition PTE_SHARE : Z := 1024.

(** [devfile.dev_id] *)
Definition devfile_id : Z := 102.

(** Offsets in [struct Fd]. *)
Definition fd_dev_id : Z := 0.

Definition fd_offset : Z := 4.

Definition fd_omode : Z := 8.

Definition fd_file_id : Z := 12.

(** Offsets in the request page: [req_fileid], [req_n] and [req_size], [req_buf]
    of a write; [req_omode] of an open; [ret_size] and [ret_isdir] of a stat. *)
Definition req_fileid : Z := 0.

Definition req_n : Z := 4.

Definition req_buf : Z := 8.

Definition req_omode : Z := MAXPATHLEN.

Definition ret_size : Z := MAXNAMELEN.

Definition ret_isdir : Z := MAXNAMELEN + 4.

Definition serve_init : M sv unit :=
  let! _ := mfor (R := unit) (Z.to_nat MAXOPEN) 0 (fun i =>
    do! mmodify (upd_open i (fun o => mkOpen i (o_file o) (o_mode o) (FILEVA + i * PGSIZE))) in
    mret None) in
  mret tt.

(** Take entry [i]: a new identifier and a clean descriptor page. *)
Definition openfile_take (i : Z) : M sv (Z * option Z) :=
  do! mmodify (upd_open i (fun o => mkOpen (u32 (o_fileid o + MAXOPEN)) (o_file o) (o_mode o) (o_fd o))) in
  let! fd := mgets (fun s => o_fd (opentab s i)) in
  do! lift (cmemset fd 0 PGSIZE) in
  let! id := mgets (fun s => o_fileid (opentab s i)) in
  mret (i32 id, Some i).

(** [sys_page_alloc(0, opentab[i].o_fd, PTE_P|PTE_U|PTE_W)] *)
Definition alloc_fd_page (i : Z) : M sv Z := fun s =>
  if kpages s <=? 0 then Ok (- E_NO_MEM) s
  else Ok 0 (set_fdref (<[i := 1]> (fdref s)) (set_kpages (kpages s - 1) s)).

(** The result and the entry. *)
Fixpoint openfile_alloc_loop (n : nat) (i : Z) : M sv (Z * option Z) :=
  match n with
  | O => mret (- E_MAX_OPEN, None)
  | S n =>
    let! k := mgets (fun s => fdref s i) in
    if k =? 0 then
      let! r := alloc_fd_page i in
      if r <? 0 then mret (r, None) else openfile_take i
    else if k =? 1 then openfile_take i
    else openfile_alloc_loop n (i + 1)
  end.

Definition openfile_alloc : M sv (Z * option Z) := openfile_alloc_loop (Z.to_nat MAXOPEN) 0.

(** The entry of [fileid], a [uint32_t]. *)
Definition openfile_lookup (envid fileid : Z) : M sv (Z * option Z) := fun s =>
  let i := u32 fileid mod MAXOPEN in
  if (fdref s i <=? 1) || negb (o_fileid (opentab s i) =? u32 fileid)
  then Ok (- E_INVAL, None) s else Ok (0, Some i) s.

(** The string at [a], at most [n] bytes of it. *)
Fixpoint cstr_at (n : nat) (m : mem) (a : Z) : list Z :=
  match n with
  | O => []
  | S n => let c := rd8 m a in if c =? 0 then [] else c :: cstr_at n m (a + 1)
  end.

(** Words of the request and of descriptor pages: memory outside the disk map. *)
Definition word (a : Z) : M sv Z := mgets (fun s => rd32 (fmem (sfs s)) a).

Definition set_word (a x : Z) : M sv unit := lift (st32 a x).

Definition i_word (a : Z) : M sv Z := let! x := word a in mret (i32 x).

(** [file_create] or [file_open], as [req_omode] says. *)
Definition open_or_create (path : list Z) (omode : Z) : M sv (Z * option Z) :=
  if flag omode O_CREAT then
    let! c := lift (file_create path) in
    if c.1 <? 0 then
      if negb (flag omode O_EXCL) && (c.1 =? - E_FILE_EXISTS) then lift (file_open path) else mret c
    else mret c
  else lift (file_open path).

(** The file that [file_create] or [file_open] stored. *)
Definition stored (f : option Z) : M sv Z :=
  match f with Some f => mret f | None => mundef "file pointer is not set" end.

(** The result, [*pg_store] and [*perm_store]. *)
Definition serve_open (envid : Z) : M sv (Z * option (Z * Z)) :=
  let! path := mgets (fun s => cstr_at (Z.to_nat (MAXPATHLEN - 1)) (fmem (sfs s)) fsreq) in
  let! a := openfile_alloc in
  match a with
  | (r, None) => mret (r, None)
  | (r, Some o) =>
    if r <? 0 then mret (r, None) else
    let! omode := i_word (fsreq + req_omode) in
    let! f := open_or_create path omode in
    if f.1 <? 0 then mret (f.1, None) else
    let! r := (if flag omode O_TRUNC then let! p := stored f.2 in lift (file_set_size p 0) else mret 0) in
    if r <? 0 then mret (r, None) else
    let! f := lift (file_open path) in
    if f.1 <? 0 then mret (f.1, None) else
    let! p := stored f.2 in
    do! mmodify (upd_open o (fun x => mkOpen (o_fileid x) p (o_mode x) (o_fd x))) in
    let! e := mgets (fun s => opentab s o) in
    do! set_word (o_fd e + fd_file_id) (o_fileid e) in
    do! set_word (o_fd e + fd_omode) (Z.land omode O_ACCMODE) in
    do! set_word (o_fd e + fd_dev_id) devfile_id in
    do! mmodify (upd_open o (fun x => mkOpen (o_fileid x) (o_file x) omode (o_fd x))) in
    mret (0, Some (o_fd e, Z.lor (Z.lor (Z.lor PTE_P PTE_U) PTE_W) PTE_SHARE))
  end.

(** The start of every other request. *)
Definition with_file (envid : Z) (k : OpenFile -> M sv Z) : M sv Z :=
  let! id := word (fsreq + req_fileid) in
  let! l := openfile_lookup envid id in
  match l with
  | (r, None) => mret r
  | (_, Some i) => let! o := mgets (fun s => opentab s i) in k o
  end.

Definition serve_set_size (envid : Z) : M sv Z :=
  with_file envid (fun o => let! n := i_word (fsreq + req_n) in lift (file_set_size (o_file o) n)).

(** [if (r > 0) o->o_fd->fd_offset += r; return r;] *)
Definition advance (o : OpenFile) (r : Z) : M sv Z :=
  if r >? 0 then
    let! off := i_word (o_fd o + fd_offset) in
    do! set_word (o_fd o + fd_offset) (i32 (off + r)) in mret r
  else mret r.

(** The reply overlays the request: [ret_buf] is at its start. *)
Definition serve_read (envid : Z) : M sv Z :=
  with_file envid (fun o =>
    let! n := word (fsreq + req_n) in
    let! off := i_word (o_fd o + fd_offset) in
    let! r := lift (file_read (o_file o) fsreq n off) in
    advance o r).

Definition serve_write (envid : Z) : M sv Z :=
  with_file envid (fun o =>
    let! n := word (fsreq + req_n) in
    let! off := i_word (o_fd o + fd_offset) in
    let! r := lift (file_write (o_file o) (fsreq + req_buf) n off) in
    advance o r).

(** [strcpy(ret->ret_name, o->o_file->f_name)]: the name ends within its field. *)
Definition copy_name (f : Z) : M sv unit :=
  do! lift (touch f) in
  let! name := mgets (fun s => cstr_at (Z.to_nat MAXNAMELEN) (fmem (sfs s)) (f + off_f_name)) in
  lift (cstrcpy fsreq name).

Definition serve_stat (envid : Z) : M sv Z :=
  with_file envid (fun o =>
    do! copy_name (o_file o) in
    let! sz := lift (ld32 (o_file o + off_f_size)) in
    do! set_word (fsreq + ret_size) sz in
    let! ty := lift (ld32 (o_file o + off_f_type)) in
    do! set_word (fsreq + ret_isdir) (if ty =? FTYPE_DIR then 1 else 0) in
    mret 0).

Definition serve_flush (envid : Z) : M sv Z :=
  with_file envid (fun o => do! lift (file_flush (o_file o)) in mret 0).

Definition serve_sync (envid : Z) : M sv Z := do! lift fs_sync in mret 0.

(** Request codes. *)
Definition FSREQ_OPEN : Z := 1.

Definition FSREQ_SET_SIZE : Z := 2.

Definition FSREQ_READ : Z := 3.

Definition FSREQ_WRITE : Z := 4.

Definition FSREQ_STAT : Z := 5.

Definition FSREQ_FLUSH : Z := 6.

Definition FSREQ_SYNC : Z := 8.

(** [handlers[req]]; [FSREQ_REMOVE] has none. *)
Definition handlers (req : Z) : option (Z -> M sv Z) :=
  if req =? FSREQ_READ then Some serve_read
  else if req =? FSREQ_STAT then Some serve_stat
  else if req =? FSREQ_FLUSH then Some serve_flush
  else if req =? FSREQ_WRITE then Some serve_write
  else if req =? FSREQ_SET_SIZE then Some serve_set_size
  else if req =? FSREQ_SYNC then Some serve_sync
  else None.

(** What [ipc_send] sends back: the value, and a page with permissions. *)
Record reply := mkReply { re_to : Z; re_value : Z; re_page : option Z; re_perm : Z }.

(** One round of the loop of [serve], from the message received to the reply;
    [None] when a request without a page is left hanging. *)
Definition serve_one (req whom perm : Z) : M sv (option reply) :=
  if negb (flag perm PTE_P) then mret None else
  if req =? FSREQ_OPEN then
    let! r := serve_open whom in
    match r with
    | (r, Some (pg, perm)) => mret (Some (mkReply whom r (Some pg) perm))
    | (r, None) => mret (Some (mkReply whom r None perm))
    end
  else match handlers req with
       | Some h => let! r := h whom in mret (Some (mkReply whom r None perm))
       | None => mret (Some (mkReply whom (- E_INVAL) None perm))
       end.

(** ** Memory outside the disk map *)

Lemma touch_out a f : in_disk a = false -> touch a f = Ok tt f.
Proof. intros H. unfold touch. cbn [access]. unfold mbind, mgets. rewrite H. done. Qed.

Lemma store_out a n g f :
  in_disk a = false -> in_disk (a + n - 1) = false -> store a n g f = Ok tt (set_fmem (g (fmem f)) f).
Proof.
  intros H1 H2. unfold store, mbind. rewrite (touch_out a f), (touch_out (a + n - 1) f) by done.
  unfold mmodify, soil. by rewrite H1, H2.
Qed.

(** A change outside the disk map. *)
Definition outside (m m' : mem) : Prop := forall x, in_disk x = true -> m' x = m x.

Lemma view_set_fmem f m : outside (fmem f) m -> forall x, view (set_fmem m f) x = if in_disk x then view f x else m x.
Proof.
  intros H x. unfold view. fs_cbn. unfold disk. fs_cbn. destruct (in_disk x) eqn:E; cbn [andb]; [|done].
  destruct (negb _); [done|]. by apply H.
Qed.

Lemma ready_set_fmem N f m : ready N f -> outside (fmem f) m -> ready N (set_fmem m f).
Proof.
  intros [[H1 H2 H3 H4 H5 H6 H7] Hs] Hm. pose proof (size_pos H1) as Hp. split.
  - split; try done. intros b i Hb Hi Hc Hd. fs_cbn. unfold disk in *. fs_cbn.
    rewrite Hm by (apply blk_addr; lia). by apply H5.
  - assert (forall x, DISKMAP <= x < DISKMAP + 4096 * N -> view (set_fmem m f) x = view f x) as Hv.
    { intros x Hx. rewrite view_set_fmem by done.
      replace x with (DISKMAP + 4096 * ((x - DISKMAP) / 4096) + (x - DISKMAP) mod 4096) by zdm.
      by rewrite (proj1 (blk_addr ((x - DISKMAP) / 4096) ((x - DISKMAP) mod 4096) ltac:(zdm) ltac:(zdm))). }
    eapply (sane_frame H1); [|exact Hs]. intros x Hx. apply Hv. unfold off_meta in Hx. lia.
Qed.

(** ** The table of open files *)

Record table_ok (s : sv) : Prop := {
  tb_id : forall i, 0 <= i < 1024 ->
    0 <= o_fileid (opentab s i) < 4294967296 /\ o_fileid (opentab s i) mod 1024 = i;
  tb_fd : forall i, 0 <= i < 1024 -> o_fd (opentab s i) = FILEVA + i * 4096;
  tb_ref : forall i, 0 <= fdref s i
}.

Lemma fd_outside i k : 0 <= i < 1024 -> 0 <= k < 4096 -> in_disk (FILEVA + i * 4096 + k) = false.
Proof.
  intros Hi Hk. unfold in_disk, FILEVA, DISKMAP, DISKSIZE. apply andb_false_iff. right. apply Z.ltb_ge. lia.
Qed.

(** Taking entry [i] of [s]: it has the next identifier of its slot and a clean
    descriptor page that only the server maps. *)
Record took (i : Z) (s s' : sv) : Prop := {
  tk_id : o_fileid (opentab s' i) = u32 (o_fileid (opentab s i) + 1024);
  tk_fd : o_fd (opentab s' i) = o_fd (opentab s i);
  tk_other : forall j, j <> i -> opentab s' j = opentab s j;
  tk_fs : sfs s' = set_fmem (mset (fmem (sfs s)) (o_fd (opentab s i)) 0 4096) (sfs s);
  tk_ref : forall j, fdref s' j = if decide (j = i) then 1 else fdref s j
}.

Lemma openfile_take_ok s i :
  table_ok s -> 0 <= i < 1024 -> fdref s i = 1 ->
  exists s', openfile_take i s = Ok (i32 (o_fileid (opentab s' i)), Some i) s' /\ took i s s'
    /\ kpages s' = kpages s.
Proof.
  intros [Hid Hfd Href] Hi H1. unfold openfile_take, mbind, mmodify, mgets. cbn [upd_open set_opentab opentab].
  rewrite fn_lookup_insert. cbn [o_fd]. unfold lift, cmemset. change (PGSIZE =? 0) with false.
  cbn [sfs set_opentab]. rewrite store_out.
  - cbn [opentab set_sfs]. eexists (set_sfs _ _).
    split; [reflexivity|]. split; [|done].
    split; cbn; rewrite ?fn_lookup_insert; try done.
    + intros j Hj. by rewrite fn_lookup_insert_ne.
    + intros j. by case_decide as E; [rewrite E|].
  - rewrite Hfd by done. replace (FILEVA + i * 4096) with (FILEVA + i * 4096 + 0) by lia. apply fd_outside; lia.
  - rewrite Hfd by done. change PGSIZE with 4096.
    replace (FILEVA + i * 4096 + 4096 - 1) with (FILEVA + i * 4096 + 4095) by lia. apply fd_outside; lia.
Qed.

(** [s] with a descriptor page for entry [i], if it had none. *)
Definition paged (i : Z) (s : sv) : sv :=
  if fdref s i =? 0 then set_fdref (<[i := 1]> (fdref s)) (set_kpages (kpages s - 1) s) else s.

(** The outcome of [openfile_alloc]: the first entry that no client has open. *)
Definition first_free (s : sv) (i : Z) : Prop :=
  0 <= i < 1024 /\ fdref s i <= 1 /\ forall j, 0 <= j < i -> 1 < fdref s j.

Lemma took_paged i s s' : took i (paged i s) s' -> took i s s'.
Proof.
  unfold paged. destruct (fdref s i =? 0); [|done]. intros [H1 H2 H3 H4 H5]. split; try done.
  intros j. rewrite H5. case_decide as E; [done|]. cbn. by rewrite fn_lookup_insert_ne.
Qed.

Lemma took_table i s s' : table_ok s -> 0 <= i < 1024 -> took i s s' -> table_ok s'.
Proof.
  intros [Hid Hfd Href] Hi [H1 H2 H3 H4 H5]. split.
  - intros j Hj. destruct (decide (j = i)) as [->|E]; [|rewrite H3 by done; by apply Hid].
    rewrite H1. destruct (Hid i Hi) as [Hr Hm]. unfold u32. split; zdm.
  - intros j Hj. destruct (decide (j = i)) as [->|E]; [rewrite H2|rewrite H3 by done]; by apply Hfd.
  - intros j. rewrite H5. case_decide; [lia|done].
Qed.

Lemma openfile_alloc_run s i :
  table_ok s -> first_free s i -> (fdref s i = 0 -> 0 < kpages s) ->
  exists s', openfile_alloc s = Ok (i32 (o_fileid (opentab s' i)), Some i) s' /\ took i s s'.
Proof.
  intros Ht (Hi & Hf & Hlt) Hk. pose proof (tb_ref s Ht i) as Hge.
  assert (forall n k, 0 <= k <= i -> i < k + Z.of_nat n ->
    exists s', openfile_alloc_loop n k s = Ok (i32 (o_fileid (opentab s' i)), Some i) s' /\ took i s s') as H.
  { induction n as [|n IH]; intros k Hk1 Hk2; [lia|]. cbn [openfile_alloc_loop]. unfold mbind, mgets.
    destruct (decide (k = i)) as [->|E].
    - assert (table_ok (paged i s) /\ fdref (paged i s) i = 1) as [Hp1 Hp2].
      { unfold paged. destruct (Z.eqb_spec (fdref s i) 0); [|split; [done|lia]].
        split; [|cbn; by rewrite fn_lookup_insert]. destruct Ht as [T1 T2 T3]. split; [done|done|].
        intros j. cbn. destruct (decide (j = i)) as [->|]; [by rewrite fn_lookup_insert|].
        by rewrite fn_lookup_insert_ne. }
      destruct (openfile_take_ok (paged i s) i Hp1 Hi Hp2) as (s' & E & Ht' & _).
      exists s'. split; [|by apply took_paged]. revert E. unfold paged.
      destruct (Z.eqb_spec (fdref s i) 0) as [E0|E0].
      + unfold alloc_fd_page. specialize (Hk E0). by destruct (Z.leb_spec (kpages s) 0); [lia|].
      + by destruct (Z.eqb_spec (fdref s i) 1); [|lia].
    - specialize (Hlt k ltac:(lia)). destruct (Z.eqb_spec (fdref s k) 0); [lia|].
      destruct (Z.eqb_spec (fdref s k) 1); [lia|]. apply IH; lia. }
  apply (H (Z.to_nat MAXOPEN) 0); change MAXOPEN with 1024; lia.
Qed.

(** Every entry is open, or the first free one gets no page. *)
Lemma openfile_alloc_none s :
  (forall i, 0 <= i < 1024 -> 1 < fdref s i) -> openfile_alloc s = Ok (- E_MAX_OPEN, None) s.
Proof.
  intros H. unfold openfile_alloc. change MAXOPEN with 1024.
  assert (forall n k, 0 <= k -> k + Z.of_nat n <= 1024 -> openfile_alloc_loop n k s = Ok (- E_MAX_OPEN, None) s) as Hl.
  { induction n as [|n IH]; intros k Hk Hn; [done|]. cbn [openfile_alloc_loop]. unfold mbind, mgets.
    specialize (H k ltac:(lia)). destruct (Z.eqb_spec (fdref s k) 0); [lia|].
    destruct (Z.eqb_spec (fdref s k) 1); [lia|]. apply IH; lia. }
  apply Hl; lia.
Qed.

(** An identifier resolves to entry [i] when the entry carries it and a client
    maps its page. *)
Lemma lookup_iff s envid id i :
  0 <= id < 4294967296 ->
  openfile_lookup envid id s = Ok (0, Some i) s
  <-> i = id mod 1024 /\ 1 < fdref s i /\ o_fileid (opentab s i) = id.
Proof.
  intros Hid. unfold openfile_lookup. rewrite u32_id by done. change MAXOPEN with 1024.
  destruct (Z.leb_spec (fdref s (id mod 1024)) 1); cbn [orb].
  { split; [done|]. intros (-> & ? & ?). lia. }
  destruct (Z.eqb_spec (o_fileid (opentab s (id mod 1024))) id); cbn [negb].
  - split; [by intros [= <-]|]. by intros (-> & ? & ?).
  - split; [done|]. by intros (-> & ? & ?).
Qed.

Lemma lookup_fails s envid id :
  0 <= id < 4294967296 -> o_fileid (opentab s (id mod 1024)) <> id ->
  openfile_lookup envid id s = Ok (- E_INVAL, None) s.
Proof.
  intros Hid H. unfold openfile_lookup. rewrite u32_id by done. change MAXOPEN with 1024.
  destruct (Z.eqb_spec (o_fileid (opentab s (id mod 1024))) id); [done|]. by rewrite orb_true_r.
Qed.

(** [openfile_alloc] takes the first entry that no client has open, gives
    it the next identifier of its slot, clears its descriptor page and keeps the
    table well-formed.  Identifiers of files that are open still resolve to the
    same entries, unchanged.  Once a client maps the page, the new identifier
    resolves to the entry, and every other identifier of the slot, the previous
    one included, is refused. *)
Theorem openfile_alloc_fresh (s : sv) (i : Z) :
  table_ok s -> first_free s i -> (fdref s i = 0 -> 0 < kpages s) ->
  exists s' id, openfile_alloc s = Ok (i32 id, Some i) s'
    /\ table_ok s'
    /\ (forall k, 0 <= k < 4096 -> fmem (sfs s') (o_fd (opentab s' i) + k) = 0)
    /\ (forall envid id0 j, 0 <= id0 < 4294967296 ->
          openfile_lookup envid id0 s = Ok (0, Some j) s ->
          openfile_lookup envid id0 s' = Ok (0, Some j) s' /\ opentab s' j = opentab s j)
    /\ (forall s2 envid, opentab s2 = opentab s' -> 1 < fdref s2 i ->
          openfile_lookup envid id s2 = Ok (0, Some i) s2
          /\ forall id0, 0 <= id0 < 4294967296 -> id0 mod 1024 = i -> id0 <> id ->
                openfile_lookup envid id0 s2 = Ok (- E_INVAL, None) s2).
Proof.
  intros Ht Hf Hk. destruct (openfile_alloc_run s i Ht Hf Hk) as (s' & E & Htk).
  destruct Hf as (Hi & Hle & _). pose proof (took_table i s s' Ht Hi Htk) as Ht'.
  pose proof Htk as [_ Hfd Ho Hs Hr]. destruct (tb_id s' Ht' i Hi) as [Hid Hmod].
  exists s', (o_fileid (opentab s' i)). split; [done|]. split; [done|]. split; [|split].
  - intros k Hkk. rewrite Hs, Hfd. cbn. apply mset_in. lia.
  - intros envid id0 j Hid0. rewrite !lookup_iff by done. intros (Ej & Hj1 & Hj2).
    assert (j <> i) by (intros ->; lia). rewrite Ho, Hr by done. by destruct (decide (j = i)).
  - intros s2 envid E2 Hr2. split; [by rewrite lookup_iff, E2 by done|].
    intros id0 Hid0 Hm0 Hne. apply lookup_fails; [done|]. by rewrite E2, Hm0.
Qed.

(** The table after [serve_init], with two files open in the first entries. *)
Definition demo_sv : sv :=
  mkSv demo_fs (fun i => mkOpen i 0 0 (FILEVA + i * 4096)) (fun i => if i <? 2 then 2 else 0) 10.

Lemma demo_table : table_ok demo_sv.
Proof.
  split; cbn; intros i; [intros Hi|done|bcase; lia]. split; [lia|]. by apply Z.mod_small.
Qed.

Lemma openfile_alloc_fresh_witness :
  exists s' id, openfile_alloc demo_sv = Ok (i32 id, Some 2) s'
    /\ openfile_lookup 0 1 s' = Ok (0, Some 1) s'.
Proof.
  destruct (openfile_alloc_fresh demo_sv 2) as (s' & id & E & _ & _ & H & _).
  - exact demo_table.
  - unfold first_free. cbn. split; [lia|]. split; [lia|]. intros j Hj. bcase; lia.
  - done.
  - exists s', id. split; [exact E|]. apply (H 0 1 1); [lia|reflexivity].
Defined.

(** ** Reading and writing through the server *)

(** The request page asks for [n] bytes at the current position [off] of the
    open file [id], which is entry [i] and file [(fb, fo)] of the disk. *)
Record request (s : sv) (i fb fo id n off : Z) : Prop := {
  rq_id : rd32 (fmem (sfs s)) (fsreq + req_fileid) = id;
  rq_n : rd32 (fmem (sfs s)) (fsreq + req_n) = n;
  rq_off : rd32 (fmem (sfs s)) (o_fd (opentab s i) + fd_offset) = off;
  rq_entry : i = id mod 1024;
  rq_open : 1 < fdref s i;
  rq_fileid : o_fileid (opentab s i) = id;
  rq_file : o_file (opentab s i) = file_addr fb fo
}.

Lemma request_entry s i fb fo id n off : request s i fb fo id n off -> 0 <= i < 1024.
Proof. intros [_ _ _ -> _ _ _]. zdm. Qed.

(** The requests start by looking the file up. *)
Lemma with_file_run s i fb fo id n off envid k :
  request s i fb fo id n off -> with_file envid k s = k (opentab s i) s.
Proof.
  intros R. unfold with_file, mbind, word, mgets. rewrite (rq_id _ _ _ _ _ _ _ R).
  pose proof (rd32_range (fmem (sfs s)) (fsreq + req_fileid)) as Hr. rewrite (rq_id _ _ _ _ _ _ _ R) in Hr.
  rewrite (proj2 (lookup_iff s envid id i Hr)); [done|]. by destruct R.
Qed.

Lemma advance_run s o r off i :
  0 <= i < 1024 -> o_fd o = FILEVA + i * 4096 -> rd32 (fmem (sfs s)) (o_fd o + fd_offset) = off ->
  0 < r -> off + r < 2147483648 ->
  advance o r s
  = Ok r (set_sfs (set_fmem (wr32 (fmem (sfs s)) (o_fd o + fd_offset) (off + r)) (sfs s)) s).
Proof.
  intros Hi Hfd Ho Hr Hlt. unfold advance. destruct (Z.gtb_spec r 0); [|lia].
  pose proof (rd32_range (fmem (sfs s)) (o_fd o + fd_offset)) as Hrg. rewrite Ho in Hrg.
  unfold i_word, word, set_word, st32, mbind, mgets, mret. rewrite Ho, !i32_id by (rewrite ?i32_id; lia).
  unfold lift. rewrite store_out; [done|..]; rewrite Hfd; change fd_offset with 4.
  - apply fd_outside; lia.
  - replace (FILEVA + i * 4096 + 4 + 4 - 1) with (FILEVA + i * 4096 + 7) by lia. apply fd_outside; lia.
Qed.

Lemma view_out f x : in_disk x = false -> view f x = fmem f x.
Proof. intros H. unfold view. by rewrite H. Qed.

Lemma req_outside k : 0 <= k < 4096 -> in_disk (fsreq + k) = false.
Proof. intros Hk. unfold in_disk, fsreq, DISKMAP. apply andb_false_iff. left. apply Z.leb_gt. lia. Qed.

(** The descriptor's offset after an operation that leaves its page alone. *)
Lemma offset_kept s i f1 :
  table_ok s -> 0 <= i < 1024 ->
  (forall k, 0 <= k < 4096 -> view f1 (FILEVA + i * 4096 + k) = view (sfs s) (FILEVA + i * 4096 + k)) ->
  rd32 (fmem f1) (o_fd (opentab s i) + fd_offset) = rd32 (fmem (sfs s)) (o_fd (opentab s i) + fd_offset).
Proof.
  intros Ht Hi H. rewrite (tb_fd s Ht i Hi). change fd_offset with 4. apply rd32_ext. intros x Hx.
  specialize (H (x - (FILEVA + i * 4096)) ltac:(lia)).
  pose proof (fd_outside i (x - (FILEVA + i * 4096)) Hi ltac:(lia)) as Hd.
  replace (FILEVA + i * 4096 + (x - (FILEVA + i * 4096))) with x in * by lia.
  by rewrite !view_out in H.
Qed.

(** The state of the server after an operation of the file system that returned
    [n] bytes: the position has moved past them. *)
Definition moved_on (s : sv) (i off n : Z) (f1 : fs_state) : sv :=
  set_sfs (set_fmem (wr32 (fmem f1) (o_fd (opentab s i) + fd_offset) (off + n)) f1) s.

Lemma moved_on_disk s i off n f1 x :
  table_ok s -> 0 <= i < 1024 -> in_disk x = true ->
  wr32 (fmem f1) (o_fd (opentab s i) + fd_offset) (off + n) x = fmem f1 x.
Proof.
  intros Ht Hi Hx. apply wr32_out. rewrite (tb_fd s Ht i Hi). change fd_offset with 4.
  apply in_disk_iff in Hx. unfold DISKMAP, DISKSIZE, FILEVA in *. lia.
Qed.

(** A request to read or write, up to the operation of the file system. *)
Lemma serve_rw_start s i fb fo id n off r f1 envid (op : Z -> Z -> Z -> M fs_state Z) :
  request s i fb fo id n off -> off < 2147483648 -> op (file_addr fb fo) n off (sfs s) = Ok r f1 ->
  with_file envid (fun o =>
    let! n := word (fsreq + req_n) in
    let! off := i_word (o_fd o + fd_offset) in
    let! r := lift (op (o_file o) n off) in
    advance o r) s = advance (opentab s i) r (set_sfs f1 s).
Proof.
  intros R Hlt E. rewrite (with_file_run s i fb fo id n off) by done.
  unfold i_word, word, mbind, mgets, mret. rewrite (rq_n _ _ _ _ _ _ _ R), (rq_off _ _ _ _ _ _ _ R).
  pose proof (rd32_range (fmem (sfs s)) (o_fd (opentab s i) + fd_offset)) as Hr.
  rewrite (rq_off _ _ _ _ _ _ _ R) in Hr. rewrite i32_id by lia.
  unfold lift. by rewrite (rq_file _ _ _ _ _ _ _ R), E.
Qed.

Lemma advance_moves s i fb fo id n off r f1 :
  table_ok s -> request s i fb fo id n off -> 0 < r -> off + r < 2147483648 ->
  (forall k, 0 <= k < 4096 -> view f1 (FILEVA + i * 4096 + k) = view (sfs s) (FILEVA + i * 4096 + k)) ->
  advance (opentab s i) r (set_sfs f1 s) = Ok r (moved_on s i off r f1).
Proof.
  intros Ht R Hr Hlt Hfd. pose proof (request_entry _ _ _ _ _ _ _ R) as Hi.
  rewrite (advance_run _ _ _ off i); [done|done|by apply Ht| |done|done].
  cbn. rewrite (offset_kept s i f1) by done. apply R.
Qed.

Lemma serve_rw_run s i fb fo id n off f1 envid (op : Z -> Z -> Z -> M fs_state Z) :
  table_ok s -> request s i fb fo id n off -> 0 < n -> off + n < 2147483648 ->
  op (file_addr fb fo) n off (sfs s) = Ok n f1 ->
  (forall k, 0 <= k < 4096 -> view f1 (FILEVA + i * 4096 + k) = view (sfs s) (FILEVA + i * 4096 + k)) ->
  with_file envid (fun o =>
    let! n := word (fsreq + req_n) in
    let! off := i_word (o_fd o + fd_offset) in
    let! r := lift (op (o_file o) n off) in
    advance o r) s = Ok n (moved_on s i off n f1).
Proof.
  intros Ht R Hn Hlt E Hfd. rewrite (serve_rw_start s i fb fo id n off n f1) by (done || lia).
  by apply (advance_moves s i fb fo id n off).
Qed.

Lemma table_set_fs s f : table_ok s -> table_ok (set_sfs f s).
Proof. intros [H1 H2 H3]. by split. Qed.

(** [serve_write] of bytes that fit in the request page. *)
Lemma serve_write_run (N : Z) (s : sv) (i fb fo id n off envid : Z) :
  table_ok s -> ready N (sfs s) -> request s i fb fo id n off ->
  file_ok (N := N) (view (sfs s)) fb fo -> 0 < n <= 4088 -> off + n <= MAXFILESIZE ->
  f_size (view (sfs s)) fb fo <= MAXFILESIZE ->
  free_blocks (N := N) (view (sfs s)) (blocks_left off (off + n) + 1) ->
  exists f1, serve_write envid s = Ok n (moved_on s i off n f1) /\ ready N f1
    /\ wrote N (view (sfs s)) (view f1) fb fo (fsreq + req_buf) off (off + n).
Proof.
  intros Ht Hrd R Hf Hn Hmax Hsize Hfree. pose proof (request_entry _ _ _ _ _ _ _ R) as Hi.
  pose proof (rd32_range (fmem (sfs s)) (o_fd (opentab s i) + fd_offset)) as Hoff.
  rewrite (rq_off _ _ _ _ _ _ _ R) in Hoff.
  destruct (file_write_spec N (sfs s) fb fo (fsreq + req_buf) n off) as (f1 & E1 & Hr1 & W); try done; try lia.
  { intros k Hk. rewrite <- Z.add_assoc. apply req_outside. change req_buf with 8. lia. }
  exists f1. split; [|done]. unfold serve_write.
  apply (serve_rw_run s i fb fo id n off f1 envid (fun f n off => file_write f (fsreq + req_buf) n off));
    [done|done|lia| |done|].
  - change MAXFILESIZE with 4235264 in Hmax. lia.
  - intros k Hk. apply (wt_out _ _ _ _ _ _ _ _ W). by apply fd_outside.
Qed.

(** [serve_read] of bytes that are there. *)
Lemma serve_read_run (N : Z) (s : sv) (i fb fo id n off envid : Z) :
  table_ok s -> ready N (sfs s) -> request s i fb fo id n off ->
  file_ok (N := N) (view (sfs s)) fb fo -> 0 < n <= 4096 -> off + n <= f_size (view (sfs s)) fb fo ->
  f_size (view (sfs s)) fb fo <= MAXFILESIZE ->
  (forall p, off <= p < off + n -> allocated (view (sfs s)) fb fo p) ->
  exists f1, serve_read envid s = Ok n (moved_on s i off n f1) /\ ready N f1
    /\ forall k, 0 <= k < n -> view f1 (fsreq + k) = view (sfs s) (byte_addr (view (sfs s)) fb fo (off + k)).
Proof.
  intros Ht Hrd R Hf Hn Hin Hsize Hall. pose proof (request_entry _ _ _ _ _ _ _ R) as Hi.
  pose proof (rd32_range (fmem (sfs s)) (o_fd (opentab s i) + fd_offset)) as Hoff.
  rewrite (rq_off _ _ _ _ _ _ _ R) in Hoff.
  destruct (file_read_spec N (sfs s) fb fo fsreq n off) as (f1 & E1 & Hr1 & Hb & Hx); try done; try lia.
  { intros k Hk. apply req_outside. lia. }
  exists f1. split; [|done]. unfold serve_read.
  apply (serve_rw_run s i fb fo id n off f1 envid (fun f n off => file_read f fsreq n off));
    [done|done|lia| |done|].
  - change MAXFILESIZE with 4235264 in Hsize. lia.
  - intros k Hk. apply Hx. right. unfold fsreq, FILEVA. lia.
Qed.

(** The outcome of a request to read [n] bytes at [off]: [r] bytes of the file
    are in the request page and the position has moved past them; the rest of
    the memory, the disk and the table are as before. *)
Record read_reply (N : Z) (s : sv) (i fb fo off r : Z) (s' : sv) : Prop := {
  rr_ready : ready N (sfs s');
  rr_table : opentab s' = opentab s;
  rr_refs : fdref s' = fdref s;
  rr_disk : forall x, in_disk x = true -> view (sfs s') x = view (sfs s) x;
  rr_off : rd32 (fmem (sfs s')) (FILEVA + i * 4096 + 4) = off + r;
  rr_data : forall k, 0 <= k < r -> fmem (sfs s') (fsreq + k) = view (sfs s) (byte_addr (view (sfs s)) fb fo (off + k));
  rr_rest : forall x, in_disk x = false -> ~ (fsreq <= x < fsreq + r) ->
    ~ (FILEVA + i * 4096 + 4 <= x < FILEVA + i * 4096 + 8) -> fmem (sfs s') x = fmem (sfs s) x
}.

(** [serve_read] answers with the bytes that are there. *)
Lemma serve_read_returns (N : Z) (s : sv) (i fb fo id n off envid : Z) :
  let r := MIN n (f_size (view (sfs s)) fb fo - off) in
  table_ok s -> ready N (sfs s) -> request s i fb fo id n off ->
  file_ok (N := N) (view (sfs s)) fb fo -> n <= 4096 -> off <= f_size (view (sfs s)) fb fo ->
  f_size (view (sfs s)) fb fo <= MAXFILESIZE ->
  (forall p, 0 <= p < f_size (view (sfs s)) fb fo -> allocated (view (sfs s)) fb fo p) ->
  exists s', serve_read envid s = Ok r s' /\ read_reply N s i fb fo off r s'.
Proof.
  intros r Ht Hrd R Hf Hn Hoff Hmax Hall. pose proof (request_entry _ _ _ _ _ _ _ R) as Hi.
  pose proof (rd32_range (fmem (sfs s)) (o_fd (opentab s i) + fd_offset)) as Ho0.
  pose proof (rd32_range (fmem (sfs s)) (fsreq + req_n)) as Hn0.
  rewrite (rq_off _ _ _ _ _ _ _ R) in Ho0. rewrite (rq_n _ _ _ _ _ _ _ R) in Hn0.
  pose proof Hmax as Hmax'. change MAXFILESIZE with 4235264 in Hmax'.
  assert (0 <= r <= n /\ r <= f_size (view (sfs s)) fb fo - off) as [Hr Hr2] by (unfold r, MIN; bcase; lia).
  destruct (file_read_returns N (sfs s) fb fo fsreq n off) as (f1 & E1 & Hr1 & Hb & Hx); try done; try lia.
  { fold r. intros p Hp. apply Hall. lia. }
  { fold r. intros k Hk. apply req_outside. lia. }
  fold r in E1, Hb, Hx.
  pose proof (serve_rw_start s i fb fo id n off r f1 envid (fun f n off => file_read f fsreq n off) R ltac:(lia) E1) as E.
  assert (forall x, in_disk x = true -> view f1 x = view (sfs s) x) as Hd.
  { intros x Hx'%in_disk_iff. apply Hx. unfold fsreq, DISKMAP in *. lia. }
  assert (forall x, in_disk x = false -> ~ (fsreq <= x < fsreq + r) -> fmem f1 x = fmem (sfs s) x) as Hm.
  { intros x H1 H2. rewrite <- !view_out by done. apply Hx. lia. }
  assert (forall k, 0 <= k < r -> fmem f1 (fsreq + k) = view (sfs s) (byte_addr (view (sfs s)) fb fo (off + k))) as Hk.
  { intros k Hk. rewrite <- Hb by done. symmetry. apply view_out, req_outside. lia. }
  pose proof (rq_off _ _ _ _ _ _ _ R) as Hro. rewrite (tb_fd s Ht i Hi) in Hro. change fd_offset with 4 in Hro.
  destruct (decide (r = 0)) as [E0|E0].
  - exists (set_sfs f1 s). split; [unfold serve_read; rewrite E, E0; done|]. split; cbn [sfs set_sfs opentab fdref]; try done.
    + rewrite E0, Z.add_0_r, <- Hro. apply rd32_ext. intros x Hx'. apply Hm; [|unfold fsreq, FILEVA in *; lia].
      replace x with (FILEVA + i * 4096 + (x - (FILEVA + i * 4096))) by lia. apply fd_outside; lia.
    + intros x H1 H2 _. by apply Hm.
  - exists (moved_on s i off r f1). split.
    { unfold serve_read. rewrite E. apply (advance_moves s i fb fo id n off); [done|done|lia|lia|].
      intros k Hk'. apply Hx. unfold fsreq, FILEVA. lia. }
    assert (forall x, in_disk x = true -> wr32 (fmem f1) (o_fd (opentab s i) + fd_offset) (off + r) x = fmem f1 x) as Hw
      by (intros x; by apply moved_on_disk).
    split; cbn [sfs set_sfs moved_on opentab fdref]; try done.
    + by apply ready_set_fmem.
    + intros x Hx'. rewrite view_set_fmem by done. rewrite Hx'. by apply Hd.
    + fs_cbn. rewrite (tb_fd s Ht i Hi). change fd_offset with 4. rewrite rd32_wr32_eq, u32_id; lia.
    + intros k Hk'. fs_cbn. rewrite wr32_out; [by apply Hk|]. rewrite (tb_fd s Ht i Hi). change fd_offset with 4.
      unfold fsreq, FILEVA. lia.
    + intros x H1 H2 H3. fs_cbn. rewrite wr32_out; [by apply Hm|]. rewrite (tb_fd s Ht i Hi). change fd_offset with 4. lia.
Qed.

(** C2: data written through the file server is read back through it.  A write
    request for an open file, with its data in the request page, returns the
    number of bytes and moves the position of the descriptor past them.  When
    clients then change the memory they share with the server in any way that
    puts the position back and asks to read as many bytes of the same file, the
    read request returns that number and the request page holds the data. *)
Theorem serve_write_read (N : Z) (s : sv) (i fb fo id n off : Z) (envid envid2 : Z) :
  table_ok s -> ready N (sfs s) -> request s i fb fo id n off ->
  file_ok (N := N) (view (sfs s)) fb fo -> 0 < n <= 4088 -> off + n <= MAXFILESIZE ->
  f_size (view (sfs s)) fb fo <= MAXFILESIZE ->
  free_blocks (N := N) (view (sfs s)) (blocks_left off (off + n) + 1) ->
  exists s1, serve_write envid s = Ok n s1
    /\ opentab s1 = opentab s /\ fdref s1 = fdref s
    /\ rd32 (fmem (sfs s1)) (o_fd (opentab s i) + fd_offset) = off + n
    /\ forall m, outside (fmem (sfs s1)) m ->
         request (set_sfs (set_fmem m (sfs s1)) s1) i fb fo id n off ->
         exists s2, serve_read envid2 (set_sfs (set_fmem m (sfs s1)) s1) = Ok n s2
           /\ rd32 (fmem (sfs s2)) (o_fd (opentab s i) + fd_offset) = off + n
           /\ forall k, 0 <= k < n -> fmem (sfs s2) (fsreq + k) = fmem (sfs s) (fsreq + req_buf + k).
Proof.
  intros Ht Hrd R Hf Hn Hmax Hsize Hfree. pose proof (request_entry _ _ _ _ _ _ _ R) as Hi.
  destruct (serve_write_run N s i fb fo id n off envid) as (f1 & E1 & Hr1 & W); try done.
  pose proof (rd32_range (fmem (sfs s)) (o_fd (opentab s i) + fd_offset)) as Hoff.
  rewrite (rq_off _ _ _ _ _ _ _ R) in Hoff. pose proof Hmax as Hmax'. change MAXFILESIZE with 4235264 in Hmax'.
  exists (moved_on s i off n f1). split; [done|]. split; [done|]. split; [done|].
  split; [cbn; rewrite rd32_wr32_eq, u32_id; lia|].
  intros m Hm R2. pose proof (bi_size N (sfs s) (proj1 Hrd)) as Hsz.
  set (s1 := set_sfs (set_fmem m (sfs (moved_on s i off n f1))) (moved_on s i off n f1)) in *.
  assert (outside (fmem f1) m) as Hm1.
  { intros x Hx. rewrite (Hm x Hx). cbn. by apply moved_on_disk. }
  assert (ready N (sfs s1)) as Hr2 by (by apply (ready_set_fmem N f1)).
  assert (forall x, in_disk x = true -> view (sfs s1) x = view f1 x) as Hv.
  { intros x Hx. change (sfs s1) with (set_fmem m f1). rewrite view_set_fmem by done. by rewrite Hx. }
  destruct (outside_same Hsz (view f1) (view (sfs s1)) fb fo Hv) as [_ Hsf]; [apply W|apply W|].
  assert (f_size (view (sfs s1)) fb fo = Z.max (f_size (view (sfs s)) fb fo) (off + n)) as Hfs.
  { rewrite <- (wt_size _ _ _ _ _ _ _ _ W). apply (f_size_disk Hsz); [apply W|apply W|done]. }
  assert (forall p, off <= p < off + n -> fblk (view (sfs s1)) fb fo (p / 4096) = fblk (view f1) fb fo (p / 4096)) as Eb.
  { intros p Hp. apply (same_file_fblk _ _ _ _ _ Hsf), page_index. change MAXFILESIZE with 4235264. lia. }
  destruct (serve_read_run N s1 i fb fo id n off envid2) as (f2 & E2 & _ & Hb); try done; try lia.
  - by apply table_set_fs, table_set_fs.
  - eapply (same_file_ok Hsz); [exact Hsf|apply W].
  - intros p Hp. unfold allocated. rewrite Eb by done. by apply (wt_bytes _ _ _ _ _ _ _ _ W).
  - exists (moved_on s1 i off n f2). split; [done|].
    split; [change (opentab s i) with (opentab s1 i); cbn; rewrite rd32_wr32_eq, u32_id; lia|].
    intros k Hk. assert (in_disk (fsreq + k) = false) as Hd by (apply req_outside; lia).
    cbn. rewrite wr32_out.
    + rewrite <- (view_out f2) by done. rewrite Hb by done.
      destruct (wt_bytes _ _ _ _ _ _ _ _ W (off + k) ltac:(lia)) as [Ha Hby].
      assert (byte_addr (view (sfs s1)) fb fo (off + k) = byte_addr (view f1) fb fo (off + k)) as ->
        by (unfold byte_addr; by rewrite Eb by lia).
      rewrite Hv, Hby.
      * rewrite view_out; [f_equal; lia|]. rewrite <- Z.add_assoc. apply req_outside. change req_buf with 8. lia.
      * destruct (fk_data _ _ _ (wt_ok _ _ _ _ _ _ _ _ W) _ (page_index (off + k) ltac:(change MAXFILESIZE with 4235264; lia)) Ha)
          as ([Hr _] & _). pose proof (size_pos Hsz). apply blk_addr; zdm.
    + rewrite (tb_fd s Ht i Hi). unfold FILEVA, fsreq. change fd_offset with 4. lia.
Qed.

(** ** A file that clients have open *)

(** The identifier [id] is that of the file [(fb, fo)], which a client has open
    and which holds the bytes [f]. *)
Record holds (N id fb fo : Z) (f : list Z) (s : sv) : Prop := {
  ho_table : table_ok s;
  ho_ready : ready N (sfs s);
  ho_open : 1 < fdref s (id mod 1024);
  ho_id : o_fileid (opentab s (id mod 1024)) = id;
  ho_file : o_file (opentab s (id mod 1024)) = file_addr fb fo;
  ho_ok : file_ok (N := N) (view (sfs s)) fb fo;
  ho_size : f_size (view (sfs s)) fb fo = Z.of_nat (length f);
  ho_max : Z.of_nat (length f) <= MAXFILESIZE;
  ho_bytes : forall p, 0 <= p < Z.of_nat (length f) ->
    allocated (view (sfs s)) fb fo p /\ f !! Z.to_nat p = Some (view (sfs s) (byte_addr (view (sfs s)) fb fo p))
}.

(** The file stays the same while the disk and the table do. *)
Lemma holds_kept N id fb fo f s s' :
  holds N id fb fo f s -> ready N (sfs s') -> opentab s' = opentab s -> fdref s' = fdref s ->
  (forall x, in_disk x = true -> view (sfs s') x = view (sfs s) x) -> holds N id fb fo f s'.
Proof.
  intros [[T1 T2 T3] H2 H3 H4 H5 H6 H7 H8 H9] Hr Ho Hf Hd. pose proof (bi_size N (sfs s) (proj1 H2)) as Hsz.
  destruct (outside_same Hsz (view (sfs s)) (view (sfs s')) fb fo Hd H6 (proj2 H2)) as [_ Hsf].
  split; rewrite ?Ho, ?Hf; try done.
  - by split; rewrite ?Ho, ?Hf.
  - by apply (same_file_ok Hsz _ _ _ _ Hsf).
  - rewrite <- H7. apply (f_size_disk Hsz); [apply H2|done|done].
  - intros p Hp. destruct (H9 p Hp) as [Ha Hb]. pose proof (page_index p ltac:(lia)) as Hpi.
    pose proof (same_file_fblk _ _ _ _ _ Hsf Hpi) as Eb. split; [unfold allocated; by rewrite Eb|].
    assert (byte_addr (view (sfs s')) fb fo p = byte_addr (view (sfs s)) fb fo p) as -> by (unfold byte_addr; by rewrite Eb).
    rewrite Hd; [done|]. destruct (fk_data _ _ _ H6 _ Hpi Ha) as ([Hr' _] & _). pose proof (size_pos Hsz).
    apply blk_addr; zdm.
Qed.

(** A request to read it is answered with its bytes, and leaves it the same. *)
Lemma held_file_read N id fb fo f s n off envid :
  let i := id mod 1024 in
  let r := MIN n (Z.of_nat (length f) - off) in
  holds N id fb fo f s -> request s i fb fo id n off -> n <= 4096 -> off <= Z.of_nat (length f) ->
  exists s', serve_read envid s = Ok r s' /\ holds N id fb fo f s'
    /\ rd32 (fmem (sfs s')) (FILEVA + i * 4096 + 4) = off + r
    /\ (forall k, 0 <= k < r -> f !! Z.to_nat (off + k) = Some (fmem (sfs s') (fsreq + k)))
    /\ (forall x, in_disk x = false -> ~ (fsreq <= x < fsreq + r) ->
          ~ (FILEVA + i * 4096 + 4 <= x < FILEVA + i * 4096 + 8) -> fmem (sfs s') x = fmem (sfs s) x).
Proof.
  intros i r Hh R Hn Hoff. pose proof Hh as [H1 H2 H3 H4 H5 H6 H7 H8 H9].
  pose proof (rd32_range (fmem (sfs s)) (o_fd (opentab s i) + fd_offset)) as Ho0.
  rewrite (rq_off _ _ _ _ _ _ _ R) in Ho0.
  destruct (serve_read_returns N s i fb fo id n off envid) as (s' & E & RR); try done; try (rewrite H7; done).
  { rewrite H7. intros p Hp. by apply H9. }
  rewrite H7 in E, RR. fold r in E, RR. destruct RR as [R1 R2 R3 R4 R5 R6 R7].
  exists s'. split; [done|]. split; [by apply (holds_kept N id fb fo f s)|]. split; [done|]. split; [|done].
  intros k Hk. rewrite R6 by done. apply H9. unfold r, MIN in Hk. destruct (Z.leb_spec n (Z.of_nat (length f) - off)); lia.
Qed.

(** A file whose bytes have been written from its start is held. *)
Lemma holds_written N s i fb fo id n f :
  table_ok s -> ready N (sfs s) -> request s i fb fo id n 0 ->
  file_ok (N := N) (view (sfs s)) fb fo -> n = Z.of_nat (length f) -> 0 < n <= 4088 ->
  f_size (view (sfs s)) fb fo <= n -> free_blocks (N := N) (view (sfs s)) (blocks_left 0 n + 1) ->
  (forall p, 0 <= p < n -> f !! Z.to_nat p = Some (fmem (sfs s) (fsreq + req_buf + p))) ->
  exists s', serve_write 0 s = Ok n s' /\ holds N id fb fo f s'.
Proof.
  intros Ht Hrd R Hf Hlen Hn Hsz Hfree Hb. pose proof (request_entry _ _ _ _ _ _ _ R) as Hi.
  destruct (serve_write_run N s i fb fo id n 0 0) as (f1 & E & Hr1 & W);
    [done|done|done|done|done|change MAXFILESIZE with 4235264; lia|change MAXFILESIZE with 4235264; lia|done|].
  rewrite Z.add_0_l in W. exists (moved_on s i 0 n f1). split; [done|].
  assert (holds N id fb fo f (set_sfs f1 s)) as Hh.
  { destruct R as [_ _ _ Ei R5 R6 R7]. rewrite Ei in *.
    split; cbn [sfs set_sfs opentab fdref]; try done; [by apply table_set_fs|apply W| | |].
    - rewrite (wt_size _ _ _ _ _ _ _ _ W). lia.
    - change MAXFILESIZE with 4235264. lia.
    - intros p Hp. destruct (wt_bytes _ _ _ _ _ _ _ _ W p ltac:(lia)) as [Ha ->]. split; [done|].
      rewrite Hb, Z.sub_0_r by lia. f_equal. symmetry. apply view_out. rewrite <- Z.add_assoc. apply req_outside.
      change req_buf with 8. lia. }
  assert (outside (fmem f1) (fmem (sfs (moved_on s i 0 n f1)))) as Ho by (intros x Hx; by apply moved_on_disk).
  apply (holds_kept N id fb fo f (set_sfs f1 s)); [done|by apply ready_set_fmem|done|done|].
  intros x Hx. cbn [sfs set_sfs moved_on]. rewrite view_set_fmem by done. by rewrite Hx.
Qed.

(** Entry 1 is the root directory of the small disk, as a file, and the request
    asks for 100 bytes of it. *)
Definition ask (m : mem) (id n off : Z) : mem :=
  wr32 (wr32 (wr32 m (fsreq + req_fileid) id) (fsreq + req_n) n) (FILEVA + id mod 1024 * 4096 + fd_offset) off.

Definition demo_rw : sv :=
  mkSv (set_fmem (ask (fmem demo_fs) 1 100 3000) demo_fs)
    (fun i => mkOpen i (file_addr 1 8) 0 (FILEVA + i * 4096)) (fun i => if i <? 2 then 2 else 0) 10.

Lemma ask_outside m id n off : outside m (ask m id n off).
Proof.
  intros x Hx%in_disk_iff. unfold DISKMAP, DISKSIZE in Hx. unfold ask.
  rewrite !wr32_out; [done|..]; unfold fsreq, FILEVA; change req_fileid with 0; change req_n with 4;
    change fd_offset with 4; zdm.
Qed.

Lemma ask_request s m n off :
  opentab s = opentab demo_rw -> fdref s = fdref demo_rw -> fmem (sfs s) = ask m 1 n off ->
  0 <= n < 4294967296 -> 0 <= off < 4294967296 -> request s 1 1 8 1 n off.
Proof.
  intros E1 E2 E3 Hn Ho. split; rewrite ?E1, ?E2, ?E3; try done; unfold ask;
    unfold fsreq, FILEVA, req_fileid, req_n, fd_offset; change (1 mod 1024) with 1.
  - rewrite rd32_wr32_ne, rd32_wr32_eq, u32_id by lia. done.
  - change (o_fd (opentab demo_rw 1)) with 3489665024. cbn [Z.add]. rewrite rd32_wr32_eq, u32_id; done.
Qed.

Lemma demo_rw_view x : in_disk x = true -> view (sfs demo_rw) x = view demo_fs x.
Proof. intros Hx. unfold demo_rw. cbn [sfs]. rewrite view_set_fmem by apply ask_outside. by rewrite Hx. Qed.

Lemma demo_rw_file : file_ok (N := 8) (view (sfs demo_rw)) 1 8.
Proof.
  assert (first_data 8 <= 8 <= 786432) as Hsz by (vm_compute; by split).
  destruct (outside_same Hsz (view demo_fs) (view (sfs demo_rw)) 1 8 demo_rw_view demo_file) as [_ H];
    [apply demo_ready|]. exact (same_file_ok Hsz _ _ _ _ H demo_file).
Qed.

Lemma demo_rw_ready : ready 8 (sfs demo_rw).
Proof. apply ready_set_fmem; [apply demo_ready|apply ask_outside]. Qed.

Lemma demo_rw_table : table_ok demo_rw.
Proof. split; cbn; intros i; [intros Hi|done|bcase; lia]. split; [lia|]. by apply Z.mod_small. Qed.

Lemma demo_rw_room : free_blocks (N := 8) (view (sfs demo_rw)) (blocks_left 3000 (3000 + 100) + 1).
Proof.
  exists [4; 5]. split; [by apply (bool_decide_unpack _)|]. split; [vm_compute; lia|].
  intros b Hb. assert (b = 4 \/ b = 5) as [->| ->] by set_solver; done.
Qed.

Lemma serve_write_read_witness :
  exists s1 s2, serve_write 0 demo_rw = Ok 100 s1
    /\ serve_read 0 (set_sfs (set_fmem (ask (fmem (sfs s1)) 1 100 3000) (sfs s1)) s1) = Ok 100 s2
    /\ forall k, 0 <= k < 100 -> fmem (sfs s2) (fsreq + k) = fmem (sfs demo_rw) (fsreq + req_buf + k).
Proof.
  destruct (serve_write_read 8 demo_rw 1 1 8 1 100 3000 0 0) as (s1 & E1 & Eo & Er & _ & H).
  - exact demo_rw_table.
  - exact demo_rw_ready.
  - apply (ask_request demo_rw (fmem demo_fs)); [reflexivity|reflexivity|reflexivity|lia|lia].
  - exact demo_rw_file.
  - lia.
  - vm_compute. discriminate.
  - vm_compute. discriminate.
  - exact demo_rw_room.
  - destruct (H (ask (fmem (sfs s1)) 1 100 3000) (ask_outside _ _ _ _)) as (s2 & E2 & _ & Hb).
    + apply (ask_request _ (fmem (sfs s1))); [exact Eo|exact Er|reflexivity|lia|lia].
    + exists s1, s2. exact (conj E1 (conj E2 Hb)).
Defined.

Definition six : list Z := [11; 12; 13; 14; 15; 16].

(** The server, with the small disk, is asked to write six bytes to the
    file of its entry 1, and has done so. *)
Definition six_request : sv :=
  set_sfs (set_fmem (ask (wrbytes (fmem demo_fs) (fsreq + req_buf) six) 1 6 0) demo_fs)
    demo_rw.

Definition six_server : sv :=
  match serve_write 0 six_request with Ok _ s => s | Panics _ s => s | Undefined _ s => s end.

Lemma six_outside :
  outside (fmem demo_fs) (ask (wrbytes (fmem demo_fs) (fsreq + req_buf) six) 1 6 0).
Proof.
  intros x Hx. rewrite ask_outside by done. apply wrbytes_out. apply in_disk_iff in Hx.
  unfold fsreq, req_buf, DISKMAP in *. cbn [length six]. lia.
Qed.

Lemma six_view x : in_disk x = true -> view (sfs six_request) x = view demo_fs x.
Proof. intros Hx. unfold six_request. cbn [sfs set_sfs]. rewrite view_set_fmem by apply six_outside. by rewrite Hx. Qed.

Lemma six_file_ok : file_ok (N := 8) (view (sfs six_request)) 1 8.
Proof.
  assert (first_data 8 <= 8 <= 786432) as Hsz by (vm_compute; by split).
  destruct (outside_same Hsz (view demo_fs) (view (sfs six_request)) 1 8 six_view demo_file) as [_ H];
    [apply demo_ready|]. exact (same_file_ok Hsz _ _ _ _ H demo_file).
Qed.

Lemma six_held : holds 8 1 1 8 six six_server.
Proof.
  destruct (holds_written 8 six_request 1 1 8 1 6 six) as (s' & E & H).
  - apply table_set_fs, demo_rw_table.
  - apply ready_set_fmem; [apply demo_ready|apply six_outside].
  - apply (ask_request six_request (wrbytes (fmem demo_fs) (fsreq + req_buf) six));
      [reflexivity|reflexivity|reflexivity|lia|lia].
  - exact six_file_ok.
  - reflexivity.
  - lia.
  - vm_compute. discriminate.
  - exists [4; 5]. split; [by apply (bool_decide_unpack _)|]. split; [vm_compute; lia|].
    intros b Hb. assert (b = 4 \/ b = 5) as [->| ->] by set_solver; done.
  - intros p Hp. assert (p = 0 \/ p = 1 \/ p = 2 \/ p = 3 \/ p = 4 \/ p = 5) as Hp' by lia.
    repeat destruct Hp' as [->|Hp']; [..|rewrite Hp']; vm_compute; reflexivity.
  - unfold six_server. by rewrite E.
Qed.

(** A server whose disk starts with the bytes [boot] and that is asked to write
    4096 bytes, all [x], at the start of entry 1. *)
Definition demo_big (boot : Z -> Z) (x : Z) : sv :=
  let d := fun a => if (0 <=? a) && (a <? 512) then boot a else demo_disk a in
  mkSv (mkFs (ask (fun a => if in_disk a then d (a - DISKMAP) else x) 1 4096 0)
          (fun b => b =? 1) (fun _ => false) (fun _ => d)
          1 (fun _ => false) 8 (DISKMAP + BLKSIZE) (DISKMAP + 2 * BLKSIZE) [])
    (opentab demo_rw) (fdref demo_rw) 10.

(** The bytes from [p] to [q] of file (1, 8). *)
Definition file_bytes (f : fs_state) (p q : Z) : list Z :=
  map (fun k => view f (byte_addr (view f) 1 8 k)) (seqZ p (q - p)).

(** [serve_write] trusts [req_n].  The data of a write starts 8 bytes into
    the request page, and the page ends where the disk map begins, so a request
    for 4096 bytes, which is what the library sends for a large write, is carried
    out with its last 8 bytes taken from the start of the disk: whatever the boot
    block holds ends up in the file. *)
Theorem serve_write_overreads (boot : Z -> Z) (x : Z) :
  match serve_write 0 (demo_big boot x) with
  | Ok r s1 => r = 4096 /\ file_bytes (sfs s1) 4080 4088 = replicate 8 x
               /\ file_bytes (sfs s1) 4088 4096 = map boot (seqZ 0 8)
  | _ => False
  end.
Proof. vm_compute. done. Qed.

End Serv.
