(* ===== verification/File.v ===== *)
(** * Files as programs use them (lib/file.c)

    The file device behind the descriptors of Fd.v.  A request is put in the page
    [fsipcbuf], sent to the file server, and the reply is read back; the server
    also shares the page of the descriptor, in which it keeps the position.
    [fsipc] finds the server once, and then sends and receives: the three
    functions of lib/ipc.c are the record [ipc], as one program sees them (Ipc.v
    has them over the kernel, with what they deliver).

    [FileReads] is the contract of an open file with its readers: [read] returns
    the next bytes, perhaps fewer than asked for, and [seek] moves the position.
    The theorems: a round of the server of Serv.v on the pages that it shares
    with the program is an answer to the request ([exchange_reads]), with such a
    server the client library keeps the contract, and under the contract [readn]
    reads everything there is. *)

From stdpp Require Import base numbers list functions strings gmap sets.
From Stdlib Require Import ZArith Lia.
From S2P Require Import Prelude Mem Mmu Kernel Umonad Syscall Uvm Uaccess Fd Bc Serv.

Open Scope Z_scope.
Open Scope usr_scope.

Module File.

Import Syscall Uvm Uaccess Fd.

(** The calls of lib/ipc.c: the environment of a type; send a value and a page;
    receive a value, and a page at the address, if that is not 0. *)
Record ipc := mkIpc {
  lib_find_env : Z -> M vm Z;
  lib_send : Z -> Z -> Z -> Z -> M vm unit;
  lib_recv : Z -> M vm Z
}.

Section client.

(** The addresses of the request page and of the static variable of [fsipc]. *)
Context (lib : ipc) (fsipcbuf fsenv : Z).

Definition fsipc (type dstva : Z) : M vm Z :=
  let! e := load32 fsenv in
  do! (if e =? 0 then
         let! e := lib_find_env lib ENV_TYPE_FS in
         store32 fsenv e
       else mret tt) in
  let! e := load32 fsenv in
  do! lib_send lib e type fsipcbuf (Z.lor (Z.lor PTE_P PTE_W) PTE_U) in
  lib_recv lib dstva.

(** The fields of the request page. *)
Definition set_req (off x : Z) : M vm unit := store32 (fsipcbuf + off) x.

Definition get_ret (off : Z) : M vm Z := load32 (fsipcbuf + off).

(** [fsipcbuf.X.req_fileid = fd->fd_file.id] *)
Definition put_fileid (fd : Z) : M vm unit :=
  let! id := load32 (fd + off_fd_id) in
  set_req Serv.req_fileid id.

Definition devfile_flush (fd : Z) : M vm Z :=
  do! put_fileid fd in
  fsipc Serv.FSREQ_FLUSH 0.

Definition devfile_read (fd buf n : Z) : M vm Z :=
  do! put_fileid fd in
  do! set_req Serv.req_n n in
  let! r := fsipc Serv.FSREQ_READ 0 in
  if r <? 0 then mret r else
  if u32 r >? n then mpanic "assertion failed: r <= n" else
  if r >? PGSIZE then mpanic "assertion failed: r <= PGSIZE" else
  do! umemmove buf fsipcbuf r in
  mret r.

Definition devfile_write (fd buf n : Z) : M vm Z :=
  let n := if n >? Bc.BLKSIZE then Bc.BLKSIZE else n in
  do! put_fileid fd in
  do! set_req Serv.req_n n in
  do! umemmove (fsipcbuf + Serv.req_buf) buf n in
  fsipc Serv.FSREQ_WRITE 0.

Definition devfile_stat (fd st : Z) : M vm Z :=
  do! put_fileid fd in
  let! r := fsipc Serv.FSREQ_STAT 0 in
  if r <? 0 then mret r else
  do! ustrcpy (st + off_st_name) fsipcbuf in
  let! size := get_ret Serv.ret_size in
  do! store32 (st + off_st_size) size in
  let! isdir := get_ret Serv.ret_isdir in
  do! store32 (st + off_st_isdir) isdir in
  mret 0.

Definition devfile_trunc (fd newsize : Z) : M vm Z :=
  do! put_fileid fd in
  do! set_req 4 newsize in
  fsipc Serv.FSREQ_SET_SIZE 0.

(** [devfile_addr] is the address of the structure. *)
Definition devfile (devfile_addr : Z) : Dev :=
  mkDev 102 devfile_addr (Some devfile_read) (Some devfile_write) (Some devfile_flush)
    (Some devfile_stat) (Some devfile_trunc).

Definition sync : M vm Z := fsipc Serv.FSREQ_SYNC 0.

Definition open (devtab : list Dev) (path mode : Z) : M vm Z :=
  let! len := ustrlen path in
  if len >=? Bc.MAXPATHLEN then mret (- E_BAD_PATH) else
  let! a := fd_alloc in
  let '(r, fd) := a in
  if r <? 0 then mret r else
  do! ustrcpy fsipcbuf path in
  do! set_req Serv.req_omode mode in
  let! r := fsipc Serv.FSREQ_OPEN fd in
  if r <? 0 then
    let! _ := fd_close devtab fd false in
    mret r
  else mret (fd2num fd).

End client.

(** ** The contract of an open file *)

(** Byte [i] of a file. *)
Definition fbyte (f : list Z) (i : Z) : Z := nth (Z.to_nat i) f 0.

(** What memory [m] becomes when [n] bytes of [f] from [off] are put at
    physical address [a], as far as the pages outside [priv] go. *)
Definition filled (priv : Z -> Prop) (f : list Z) (off a n : Z) (m m' : mem) : Prop :=
  forall x, ~ priv (x / 4096) ->
    m' x = if (a <=? x) && (x <? a + n) then fbyte f (off + (x - a)) else m x.

(** Descriptor [fdnum] of environment [e] is the file [f].  [at_ u off] says
    that its position is [off] in state [u]; [priv] are the physical pages the
    library and the server keep for it.  A read into one page returns the next
    bytes, at least one if there is any; the pages at [UTEMP] and all pages of
    others may change without the file noticing. *)
Class FileReads (devtab : list Dev) (fdnum e : Z) (f : list Z)
    (at_ : vm -> Z -> Prop) (priv : Z -> Prop) : Prop := {
  fr_self u off : at_ u off -> self u = e;
  fr_pages u off p : at_ u off -> priv p -> exists v pte, upt u !! (e, v) = Some pte /\ frame pte = p;
  fr_frame u u' off : at_ u off -> self u' = e ->
    (forall v, v <> UTEMP / 4096 -> upt u' !! (e, v) = upt u !! (e, v)) ->
    (forall x, priv (x / 4096) -> umem u' x = umem u x) -> at_ u' off;
  fr_seek u off off' : at_ u off -> 0 <= off' < 2147483648 ->
    exists m, seek fdnum off' u = Ok 0 (set_umem m u) /\ at_ (set_umem m u) off'
      /\ forall x, ~ priv (x / 4096) -> m x = umem u x;
  fr_read u off v pte o n : at_ u off -> 0 <= v < 1048576 -> upt u !! (e, v) = Some pte ->
    flag pte PTE_U = true -> flag pte PTE_W = true -> ~ priv (frame pte) ->
    0 <= o -> 0 < n -> o + n <= 4096 -> 0 <= off <= Z.of_nat (length f) ->
    exists r m, read devtab fdnum (v * 4096 + o) n u = Ok r (set_umem m u) /\ at_ (set_umem m u) (off + r)
      /\ 0 <= r <= n /\ off + r <= Z.of_nat (length f) /\ (off < Z.of_nat (length f) -> 0 < r)
      /\ filled priv f off (frame pte * 4096 + o) r (umem u) m
}.

Section readn.

Context (devtab : list Dev) (fdnum e : Z) (f : list Z) (at_ : vm -> Z -> Prop) (priv : Z -> Prop).
Context `{!FileReads devtab fdnum e f at_ priv}.
Context (v pte : Z) (Hv : 0 <= v < 1048576) (HU : flag pte PTE_U = true) (HW : flag pte PTE_W = true).
Context (Hpriv : ~ priv (frame pte)).

Lemma readn_loop_reads o n : 0 <= o -> 0 <= n -> o + n <= 4096 -> forall fuel u off tot,
  at_ u (off + tot) -> upt u !! (e, v) = Some pte -> 0 <= tot <= n -> n - tot <= Z.of_nat fuel ->
  0 <= off -> off + tot <= Z.of_nat (length f) ->
  exists m, readn_loop devtab fuel fdnum (v * 4096 + o) n tot u
      = Ok (MIN n (Z.of_nat (length f) - off)) (set_umem m u)
    /\ at_ (set_umem m u) (off + MIN n (Z.of_nat (length f) - off))
    /\ filled priv f (off + tot) (frame pte * 4096 + o + tot) (MIN n (Z.of_nat (length f) - off) - tot) (umem u) m.
Proof using Type*.
  intros Ho Hn0 Hn. induction fuel as [|fuel IH]; intros u off tot Hat Hpte Htot Hf Hoff Hlen; cbn [readn_loop];
    rewrite (u32_id tot) by lia.
  - destruct (Z.ltb_spec tot n); [lia|]. exists (umem u). assert (tot = n) as -> by lia.
    assert (MIN n (Z.of_nat (length f) - off) = n) as -> by (unfold MIN; bcase; lia).
    replace (set_umem (umem u) u) with u by (by destruct u). split; [done|]. split; [done|].
    intros x _. destruct (Z.leb_spec (frame pte * 4096 + o + n) x), (Z.ltb_spec x (frame pte * 4096 + o + n + (n - n)));
      try done. lia.
  - destruct (Z.ltb_spec tot n).
    + rewrite (u32_id (v * 4096 + o + tot)) by lia. rewrite (u32_id (n - tot)) by lia. rewrite <- Z.add_assoc.
      destruct (fr_read u (off + tot) v pte (o + tot) (n - tot)) as (r & m & E & Hat1 & Hr & Hle & Hpos & Hm);
        [done|done|done|done|done|done|lia|lia|lia|lia|].
      unfold mbind. rewrite E. destruct (Z.ltb_spec r 0); [lia|].
      destruct (Z.eqb_spec r 0) as [->|Hr0].
      * assert (off + tot = Z.of_nat (length f)) as Hend by (destruct (Z.eq_dec (off + tot) (Z.of_nat (length f))); lia).
        exists m. assert (MIN n (Z.of_nat (length f) - off) = tot) as -> by (unfold MIN; bcase; lia).
        rewrite Z.add_0_r in Hat1. split; [done|]. split; [done|]. rewrite Z.sub_diag. by rewrite Z.add_assoc in Hm.
      * rewrite i32_id by lia.
        destruct (IH (set_umem m u) off (tot + r)) as (m2 & E2 & Hat2 & Hm2);
          [by rewrite Z.add_assoc|done|lia|lia|lia|lia|].
        exists m2. split; [exact E2|]. split; [exact Hat2|]. intros x Hx. rewrite (Hm2 x Hx). cbn [umem set_umem].
        rewrite (Hm x Hx). set (k := MIN _ _). set (a := frame pte * 4096).
        assert (tot + r <= k) by (unfold k, MIN; bcase; lia).
        destruct (Z.leb_spec (a + o + (tot + r)) x), (Z.ltb_spec x (a + o + (tot + r) + (k - (tot + r)))),
          (Z.leb_spec (a + (o + tot)) x), (Z.ltb_spec x (a + (o + tot) + r)), (Z.leb_spec (a + o + tot) x),
          (Z.ltb_spec x (a + o + tot + (k - tot))); cbn [andb]; try lia; try done; f_equal; lia.
    + exists (umem u). assert (tot = n) as -> by lia.
      assert (MIN n (Z.of_nat (length f) - off) = n) as -> by (unfold MIN; bcase; lia).
      replace (set_umem (umem u) u) with u by (by destruct u). split; [done|]. split; [done|].
      intros x _. destruct (Z.leb_spec (frame pte * 4096 + o + n) x), (Z.ltb_spec x (frame pte * 4096 + o + n + (n - n)));
        try done. lia.
Qed.

(** [readn] reads everything there is, whatever pieces [read] returns. *)
Theorem readn_reads u off o n :
  at_ u off -> upt u !! (e, v) = Some pte -> 0 <= o -> 0 <= n -> o + n <= 4096 ->
  0 <= off <= Z.of_nat (length f) ->
  let k := MIN n (Z.of_nat (length f) - off) in
  exists m, readn devtab fdnum (v * 4096 + o) n u = Ok k (set_umem m u) /\ at_ (set_umem m u) (off + k)
    /\ filled priv f off (frame pte * 4096 + o) k (umem u) m.
Proof using Type*.
  intros Hat Hpte Ho Hn0 Hn Hoff. unfold readn.
  destruct (readn_loop_reads o n Ho Hn0 Hn (Z.to_nat n) u off 0) as (m & E & Hat1 & Hm);
    [by rewrite Z.add_0_r|done|lia|lia|lia|lia|].
  rewrite Z.add_0_r, Z.sub_0_r in Hm. rewrite Z.add_0_r in Hm. by exists m.
Qed.

End readn.

(** ** A round of the server *)

(** An open file of a program: the environment, the number of the descriptor and
    the identifier that the server knows the file by; the page of [fsipcbuf], the
    page of the variable [fsenv] and the place in it, the environment of the
    server; and the physical pages of the descriptor, [fsipcbuf] and [fsenv]. *)
Record open_file := mkOpenFile {
  of_env : Z;
  of_fd : Z;
  of_id : Z;
  of_buf : Z;
  of_var : Z;
  of_at : Z;
  of_server : Z;
  of_fdp : Z;
  of_bfp : Z;
  of_varp : Z
}.

Record layout_ok (c : open_file) : Prop := {
  lo_fd : 0 <= of_fd c < 32;
  lo_id : 0 <= of_id c < 4294967296;
  lo_buf : 0 <= of_buf c < 1048576 /\ of_buf c <> UTEMP / 4096;
  lo_var : 0 <= of_var c < 1048576 /\ of_var c <> UTEMP / 4096;
  lo_at : 0 <= of_at c <= 4092;
  lo_server : 0 < of_server c < 4294967296;
  lo_pages : of_fdp c <> of_bfp c /\ of_varp c <> of_fdp c /\ of_varp c <> of_bfp c
}.

(** Page [v] of [e] is physical page [p], to read and write. *)
Definition rw_page (e : Z) (u : vm) (v p : Z) : Prop :=
  exists pte, upt u !! (e, v) = Some pte /\ frame pte = p /\ flag pte PTE_U = true /\ flag pte PTE_W = true.

(** The descriptor is that of a file opened for reading, and its position is
    [off]. *)
Record file_at (c : open_file) (u : vm) (off : Z) : Prop := mkFileAt {
  fa_self : self u = of_env c;
  fa_fd : rw_page (of_env c) u (851968 + of_fd c) (of_fdp c);
  fa_buf : rw_page (of_env c) u (of_buf c) (of_bfp c);
  fa_var : rw_page (of_env c) u (of_var c) (of_varp c);
  fa_dev : rd32 (umem u) (of_fdp c * 4096) = 102;
  fa_off : rd32 (umem u) (of_fdp c * 4096 + 4) = off;
  fa_mode : Z.land (rd32 (umem u) (of_fdp c * 4096 + 8)) O_ACCMODE = O_RDONLY;
  fa_id : rd32 (umem u) (of_fdp c * 4096 + 12) = of_id c;
  fa_fsenv : rd32 (umem u) (of_varp c * 4096 + of_at c) = 0
             \/ rd32 (umem u) (of_varp c * 4096 + of_at c) = of_server c
}.

Definition file_pages (c : open_file) (p : Z) : Prop := p = of_fdp c \/ p = of_bfp c \/ p = of_varp c.

(** The request page asks for [n] bytes of the file. *)
Definition asks (c : open_file) (u : vm) (n : Z) : Prop :=
  rd32 (umem u) (of_bfp c * 4096) = of_id c /\ rd32 (umem u) (of_bfp c * 4096 + 4) = n.

(** The memory of the server when the request has arrived: the page at [fsreq]
    is that of [fsipcbuf], and the page of the file's entry that of the
    descriptor. *)
Definition lent (c : open_file) (u : vm) (m : mem) : mem := fun x =>
  if x / 4096 =? Serv.fsreq / 4096 then umem u (of_bfp c * 4096 + x mod 4096)
  else if x / 4096 =? Serv.FILEVA / 4096 + of_id c mod 1024 then umem u (of_fdp c * 4096 + x mod 4096)
  else m x.

(** Physical memory afterwards: the two pages are as the server leaves them. *)
Definition given_back (c : open_file) (m : mem) (u : vm) : mem := fun x =>
  if x / 4096 =? of_bfp c then m (Serv.fsreq + x mod 4096)
  else if x / 4096 =? of_fdp c then m (Serv.FILEVA + of_id c mod 1024 * 4096 + x mod 4096)
  else umem u x.

(** One request of the program, without a page in the reply: the server runs a
    round of its loop and answers. *)
Definition exchange (c : open_file) (type : Z) : M (vm * Serv.sv) Z := fun us =>
  let '(u, s) := us in
  let s1 := Serv.set_sfs (Bc.set_fmem (lent c u (Bc.fmem (Serv.sfs s))) (Serv.sfs s)) s in
  match Serv.serve_one type (of_env c) (Z.lor (Z.lor PTE_P PTE_W) PTE_U) s1 with
  | Ok (Some (Serv.mkReply _ r None _)) s' => Ok r (set_umem (given_back c (Bc.fmem (Serv.sfs s')) u) u, s')
  | Ok _ s' | Panics _ s' | Undefined _ s' => Undefined "no answer" (u, s')
  end.

(** What the program sees of it. *)
Definition answer (r : res (vm * Serv.sv) Z) : res vm Z :=
  match r with
  | Ok a us => Ok a us.1
  | Panics w us => Panics w us.1
  | Undefined w us => Undefined w us.1
  end.

Lemma rd32_move m m' a a' : (forall k, 0 <= k < 4 -> m' (a' + k) = m (a + k)) -> rd32 m' a' = rd32 m a.
Proof.
  intros H. unfold rd32, rd8. rewrite !H by lia. pose proof (H 0 ltac:(lia)) as H0. rewrite !Z.add_0_r in H0. by rewrite H0.
Qed.

Lemma lent_req c u m o : 0 <= o < 4096 -> lent c u m (Serv.fsreq + o) = umem u (of_bfp c * 4096 + o).
Proof.
  intros Ho. unfold lent, Serv.fsreq. change (268431360 / 4096) with 65535.
  assert ((268431360 + o) / 4096 = 65535 /\ (268431360 + o) mod 4096 = o) as [-> ->] by (split; zdm). done.
Qed.

Lemma lent_fd c u m o : 0 <= o < 4096 ->
  lent c u m (Serv.FILEVA + of_id c mod 1024 * 4096 + o) = umem u (of_fdp c * 4096 + o).
Proof.
  intros Ho. unfold lent, Serv.FILEVA, Serv.fsreq. set (k := of_id c mod 1024).
  assert (0 <= k < 1024) as Hk by (unfold k; zdm). clearbody k.
  change (268431360 / 4096) with 65535. change (3489660928 / 4096) with 851968.
  assert ((3489660928 + k * 4096 + o) / 4096 = 851968 + k /\ (3489660928 + k * 4096 + o) mod 4096 = o) as [-> ->]
    by (split; zdm).
  destruct (Z.eqb_spec (851968 + k) 65535); [lia|]. by rewrite Z.eqb_refl.
Qed.

Lemma lent_disk c u m : Serv.outside m (lent c u m).
Proof.
  intros x Hx%Bc.in_disk_iff. unfold lent, Serv.fsreq, Serv.FILEVA. unfold Bc.DISKMAP, Bc.DISKSIZE in Hx.
  set (k := of_id c mod 1024). assert (0 <= k < 1024) as Hk by (unfold k; zdm). clearbody k.
  change (268431360 / 4096) with 65535. change (3489660928 / 4096) with 851968.
  destruct (Z.eqb_spec (x / 4096) 65535); [zdm|]. destruct (Z.eqb_spec (x / 4096) (851968 + k)); [zdm|]. done.
Qed.

(** The server answers a request to read with the next bytes of the file in the
    request page, and moves the position in the descriptor; it touches nothing
    else of the program, and still has the file as it was. *)
Lemma exchange_reads c N fb fo f u s off n :
  layout_ok c -> file_at c u off -> asks c u n -> n <= 4096 -> off <= Z.of_nat (length f) ->
  Serv.holds N (of_id c) fb fo f s ->
  let r := MIN n (Z.of_nat (length f) - off) in
  exists m s', exchange c Serv.FSREQ_READ (u, s) = Ok r (set_umem m u, s') /\ Serv.holds N (of_id c) fb fo f s'
    /\ (forall x, x / 4096 <> of_fdp c -> x / 4096 <> of_bfp c -> m x = umem u x)
    /\ (forall k, 0 <= k < r -> f !! Z.to_nat (off + k) = Some (m (of_bfp c * 4096 + k)))
    /\ rd32 m (of_fdp c * 4096 + 4) = off + r
    /\ (forall o, 0 <= o < 4096 -> ~ (4 <= o < 8) -> m (of_fdp c * 4096 + o) = umem u (of_fdp c * 4096 + o)).
Proof.
  intros Hc Hat [Ha1 Ha2] Hn Hoff Hh r. pose proof (lo_pages c Hc) as (Hp1 & _).
  set (s1 := Serv.set_sfs (Bc.set_fmem (lent c u (Bc.fmem (Serv.sfs s))) (Serv.sfs s)) s).
  set (k := of_id c mod 1024). assert (0 <= k < 1024) as Hk by (unfold k; zdm).
  assert (Serv.holds N (of_id c) fb fo f s1) as Hh1.
  { apply (Serv.holds_kept N (of_id c) fb fo f s); try done.
    - apply Serv.ready_set_fmem; [apply Hh|apply lent_disk].
    - intros x Hx. cbn [s1 Serv.sfs Serv.set_sfs]. rewrite Serv.view_set_fmem by apply lent_disk. by rewrite Hx. }
  assert (Serv.request s1 k fb fo (of_id c) n off) as R.
  { split; try done; [| | |apply Hh..].
    - rewrite <- Ha1. apply rd32_move. intros j Hj. unfold Serv.req_fileid. rewrite Z.add_0_r. apply lent_req. lia.
    - rewrite <- Ha2. apply rd32_move. intros j Hj. unfold Serv.req_n. rewrite <- !Z.add_assoc. apply lent_req. lia.
    - rewrite <- (fa_off _ _ _ Hat). rewrite (Serv.tb_fd s1 (Serv.ho_table _ _ _ _ _ _ Hh1) k Hk). apply rd32_move.
      intros j Hj. unfold Serv.fd_offset. rewrite <- (Z.add_assoc _ 4 j), <- (Z.add_assoc (of_fdp c * 4096) 4 j).
      apply lent_fd. lia. }
  destruct (Serv.held_file_read N (of_id c) fb fo f s1 n off (of_env c) Hh1 R Hn Hoff) as (s' & E & Hh' & Hpos & Hdat & Hrest).
  fold k r in E, Hpos, Hdat, Hrest.
  assert (0 <= r <= 4096) as Hr.
  { pose proof (rd32_range (umem u) (of_bfp c * 4096 + 4)). unfold r, MIN. bcase; lia. }
  exists (given_back c (Bc.fmem (Serv.sfs s')) u), s'. split; [|split; [done|]].
  { unfold exchange. fold s1. unfold Serv.serve_one, Serv.handlers. cbn [Z.eqb Pos.eqb Serv.FSREQ_READ Serv.FSREQ_OPEN].
    change (flag (Z.lor (Z.lor PTE_P PTE_W) PTE_U) PTE_P) with true. cbn [negb]. unfold mbind. by rewrite E. }
  assert (forall o, 0 <= o < 4096 -> given_back c (Bc.fmem (Serv.sfs s')) u (of_bfp c * 4096 + o)
                    = Bc.fmem (Serv.sfs s') (Serv.fsreq + o)) as Hbuf.
  { intros o Ho. unfold given_back.
    assert ((of_bfp c * 4096 + o) / 4096 = of_bfp c /\ (of_bfp c * 4096 + o) mod 4096 = o) as [-> ->] by (split; zdm).
    by rewrite Z.eqb_refl. }
  assert (forall o, 0 <= o < 4096 -> given_back c (Bc.fmem (Serv.sfs s')) u (of_fdp c * 4096 + o)
                    = Bc.fmem (Serv.sfs s') (Serv.FILEVA + k * 4096 + o)) as Hfd.
  { intros o Ho. unfold given_back.
    assert ((of_fdp c * 4096 + o) / 4096 = of_fdp c /\ (of_fdp c * 4096 + o) mod 4096 = o) as [-> ->] by (split; zdm).
    destruct (Z.eqb_spec (of_fdp c) (of_bfp c)); [done|]. by rewrite Z.eqb_refl. }
  split; [|split; [|split]].
  - intros x H1 H2. unfold given_back. destruct (Z.eqb_spec (x / 4096) (of_bfp c)); [done|].
    by destruct (Z.eqb_spec (x / 4096) (of_fdp c)).
  - intros j Hj. rewrite Hbuf by lia. by apply Hdat.
  - rewrite <- Hpos. apply rd32_move. intros j Hj. rewrite <- (Z.add_assoc _ 4 j), <- (Z.add_assoc _ 4 j). apply Hfd. lia.
  - intros o Ho Hno. rewrite Hfd by done. rewrite Hrest.
    + by apply lent_fd.
    + by apply Serv.fd_outside.
    + unfold Serv.fsreq, Serv.FILEVA. lia.
    + lia.
Qed.

(** ** The client library keeps the contract *)

(** Physical page [p] of the running environment. *)
Lemma rw_load32 e u v p o : self u = e -> rw_page e u v p -> 0 <= v < 1048576 -> 0 <= o <= 4092 ->
  load32 (v * 4096 + o) u = Ok (rd32 (umem u) (p * 4096 + o)) u.
Proof.
  intros He (pte & Hpte & <- & HU & _) Hv Ho. rewrite <- He in Hpte.
  pose proof (load32_at u v pte Hv Hpte HU o Ho) as H. by rewrite u32_id in H by lia.
Qed.

Lemma rw_store32 e u v p o x : self u = e -> rw_page e u v p -> 0 <= v < 1048576 -> 0 <= o <= 4092 ->
  exists m, store32 (v * 4096 + o) x u = Ok tt (set_umem m u)
    /\ forall y, m y = wr32 (umem u) (p * 4096 + o) x y.
Proof.
  intros He (pte & Hpte & <- & HU & HW) Hv Ho. rewrite <- He in Hpte.
  pose proof (store32_at u v pte Hv Hpte HU HW o x Ho) as H. by rewrite u32_id in H by lia.
Qed.

(** The environment of type [ENV_TYPE_FS] is a server that has the file, with
    contents [f], and whatever the program asks it to read, it receives the
    request, with the page, and its answer comes back, at a time when the file is
    still the same. *)
Record served (lib : ipc) (c : open_file) (N fb fo : Z) (f : list Z) : Prop := {
  sr_find u : self u = of_env c -> lib_find_env lib ENV_TYPE_FS u = Ok (of_server c) u;
  sr_round u off n : file_at c u off -> asks c u n -> 0 <= n <= 4096 -> 0 <= off <= Z.of_nat (length f) ->
    exists s, Serv.holds N (of_id c) fb fo f s
      /\ mbind (lib_send lib (of_server c) Serv.FSREQ_READ (of_buf c * 4096) 7) (fun _ => lib_recv lib 0) u
         = answer (exchange c Serv.FSREQ_READ (u, s))
}.

Section served.

Context (lib : ipc) (c : open_file) (devfile_addr : Z) (devtab : list Dev) (N fb fo : Z) (f : list Z).

Abbreviation buf := (of_buf c * 4096).

Abbreviation var := (of_var c * 4096 + of_at c).

Context (Hdev : dev_find devtab 102 = Some (devfile lib buf var devfile_addr)).
Context (Hc : layout_ok c) (Hf : Forall (fun b => 0 <= b < 256) f) (Hserver : served lib c N fb fo f).

(** A state with another memory, the same in the descriptor but for its
    position. *)
Lemma file_at_umem u off off' m : file_at c u off ->
  (forall o, 0 <= o < 16 -> ~ (4 <= o < 8) -> m (of_fdp c * 4096 + o) = umem u (of_fdp c * 4096 + o)) ->
  rd32 m (of_fdp c * 4096 + 4) = off' ->
  (rd32 m (of_varp c * 4096 + of_at c) = of_server c
   \/ forall o, 0 <= o < 4096 -> m (of_varp c * 4096 + o) = umem u (of_varp c * 4096 + o)) ->
  file_at c (set_umem m u) off'.
Proof using Hc.
  intros [H1 H2 H3 Hv H4 H5 H6 H7 H8] Hm Ho Hs. pose proof (lo_at c Hc) as Hat.
  assert (forall o, o = 0 \/ o = 8 \/ o = 12 -> rd32 m (of_fdp c * 4096 + o) = rd32 (umem u) (of_fdp c * 4096 + o)) as Hw.
  { intros o Ho'. apply rd32_move. intros k Hk. rewrite <- !Z.add_assoc. apply Hm; lia. }
  pose proof (Hw 0 ltac:(lia)) as Hw0. rewrite !Z.add_0_r in Hw0.
  split; cbn [self upt umem set_umem]; try done; rewrite ?Hw0, ?Hw by lia; try done.
  destruct Hs as [Hs|Hs]; [by right|]. rewrite (rd32_move (umem u) m (of_varp c * 4096 + of_at c) (of_varp c * 4096 + of_at c)); [exact H8|].
  intros k Hk. rewrite <- !Z.add_assoc. apply Hs. lia.
Qed.

Lemma file_seek u off off' : file_at c u off -> 0 <= off' < 2147483648 ->
  exists m, seek (of_fd c) off' u = Ok 0 (set_umem m u) /\ file_at c (set_umem m u) off'
    /\ forall x, ~ file_pages c (x / 4096) -> m x = umem u x.
Proof using Hc.
  intros Hat Hoff. pose proof (fa_fd _ _ _ Hat) as (pte & Hpte & Hfr & _). pose proof (lo_fd c Hc) as Hi. unfold seek, mbind.
  rewrite fd_lookup_open by done. unfold is_open, present. rewrite (fa_self _ _ _ Hat), Hpte.
  destruct (INDEX2FD_page (of_fd c) Hi) as [-> _]. unfold off_fd_offset.
  destruct (rw_store32 _ u (851968 + of_fd c) (of_fdp c) 4 off' (fa_self _ _ _ Hat) (fa_fd _ _ _ Hat)) as (m & -> & Hm); [lia|lia|].
  exists m. split; [done|]. split.
  - apply (file_at_umem u off); [done| | |].
    + intros o Ho Hno. rewrite Hm. apply wr32_out. lia.
    + rewrite (rd32_ext _ _ _ (fun x _ => Hm x)), rd32_wr32_eq. apply u32_id. lia.
    + right. intros o Ho. rewrite Hm. apply wr32_out. pose proof (lo_pages c Hc). lia.
  - intros x Hx. rewrite Hm. apply wr32_out. destruct (decide (x / 4096 = of_fdp c)) as [H|H]; [by destruct Hx; left|zdm].
Qed.

(** The request is in place when the server is called. *)
Lemma send_read u off n : file_at c u off -> 0 <= n <= 4096 ->
  exists m, mbind (put_fileid buf ((851968 + of_fd c) * 4096)) (fun _ => set_req buf Serv.req_n n) u
      = Ok tt (set_umem m u)
    /\ file_at c (set_umem m u) off /\ asks c (set_umem m u) n
    /\ forall x, x / 4096 <> of_bfp c -> m x = umem u x.
Proof using Hc.
  intros Hat Hn. pose proof (fa_self _ _ _ Hat) as He. pose proof (fa_buf _ _ _ Hat) as Hb.
  pose proof (lo_fd c Hc) as Hi. pose proof (proj1 (lo_buf c Hc)) as HF. pose proof (lo_pages c Hc) as Hp.
  unfold put_fileid, set_req, off_fd_id, Serv.req_fileid, Serv.req_n. unfold mbind at 1 2.
  rewrite (rw_load32 _ u (851968 + of_fd c) (of_fdp c) 12 He (fa_fd _ _ _ Hat)), (fa_id _ _ _ Hat) by lia.
  destruct (rw_store32 _ u (of_buf c) (of_bfp c) 0 (of_id c) He Hb HF) as (m1 & -> & Hm1); [lia|].
  destruct (rw_store32 _ (set_umem m1 u) (of_buf c) (of_bfp c) 4 n He Hb HF) as (m2 & -> & Hm2); [lia|].
  cbn [umem set_umem] in Hm2. change (set_umem m2 (set_umem m1 u)) with (set_umem m2 u). rewrite Z.add_0_r in Hm1.
  assert (forall x, x / 4096 <> of_bfp c -> m2 x = umem u x) as Hout.
  { intros x Hx. rewrite Hm2, wr32_out, Hm1, wr32_out by zdm. done. }
  exists m2. split; [done|]. split; [|split; [split|exact Hout]].
  - apply (file_at_umem u off); [done| | |].
    + intros o Ho _. apply Hout. zdm.
    + rewrite <- (fa_off _ _ _ Hat). apply rd32_ext. intros x Hx. apply Hout. zdm.
    + right. intros o Ho. apply Hout. zdm.
  - cbn [umem set_umem]. rewrite (rd32_ext _ _ _ (fun x _ => Hm2 x)), rd32_wr32_ne by lia.
    rewrite (rd32_ext _ _ _ (fun x _ => Hm1 x)), rd32_wr32_eq. apply u32_id, Hc.
  - cbn [umem set_umem]. rewrite (rd32_ext _ _ _ (fun x _ => Hm2 x)), rd32_wr32_eq. apply u32_id. lia.
Qed.

Lemma fbyte_range k : 0 <= fbyte f k < 256.
Proof using Hf.
  unfold fbyte. destruct (nth_in_or_default (Z.to_nat k) f 0) as [Hin|H]; [|lia].
  rewrite Forall_forall in Hf. apply Hf. by apply list_elem_of_In.
Qed.

(** [fsipc] knows the server, from an earlier call or from [ipc_find_env]. *)
Lemma fsipc_finds u off n type dstva : file_at c u off -> asks c u n ->
  exists m, fsipc lib buf var type dstva u
      = mbind (lib_send lib (of_server c) type buf 7) (fun _ => lib_recv lib dstva) (set_umem m u)
    /\ file_at c (set_umem m u) off /\ asks c (set_umem m u) n
    /\ forall x, x / 4096 <> of_varp c -> m x = umem u x.
Proof using Hc Hserver.
  intros Hat Ha. pose proof (fa_self _ _ _ Hat) as He. pose proof (fa_var _ _ _ Hat) as Hv.
  pose proof (proj1 (lo_var c Hc)) as HG. pose proof (lo_at c Hc) as Hg. pose proof (lo_server c Hc) as Hs.
  pose proof (lo_pages c Hc) as Hp. unfold fsipc. unfold mbind at 1. rewrite (rw_load32 _ u _ _ _ He Hv HG Hg).
  destruct (fa_fsenv _ _ _ Hat) as [E|E]; rewrite E.
  - rewrite Z.eqb_refl. unfold mbind at 1. unfold mbind at 1. rewrite (sr_find _ _ _ _ _ _ Hserver u He).
    destruct (rw_store32 _ u _ _ _ (of_server c) He Hv HG Hg) as (m & -> & Hm).
    assert (forall x, x / 4096 <> of_varp c -> m x = umem u x) as Hout.
    { intros x Hx. rewrite Hm. apply wr32_out. zdm. }
    assert (rd32 m (of_varp c * 4096 + of_at c) = of_server c) as Em.
    { rewrite (rd32_ext _ _ _ (fun x _ => Hm x)), rd32_wr32_eq. apply u32_id. lia. }
    exists m. split; [|split; [|split; [split|exact Hout]]].
    + unfold mbind at 1. rewrite (rw_load32 _ (set_umem m u) _ _ _ He Hv HG Hg). cbn [umem set_umem]. by rewrite Em.
    + apply (file_at_umem u off); [done| | |by left].
      * intros o Ho _. apply Hout. zdm.
      * rewrite <- (fa_off _ _ _ Hat). apply rd32_ext. intros x Hx. apply Hout. zdm.
    + rewrite <- (proj1 Ha). cbn [umem set_umem]. apply rd32_ext. intros x Hx. apply Hout. zdm.
    + rewrite <- (proj2 Ha). cbn [umem set_umem]. apply rd32_ext. intros x Hx. apply Hout. zdm.
  - rewrite (proj2 (Z.eqb_neq (of_server c) 0)) by lia. exists (umem u).
    replace (set_umem (umem u) u) with u by (by destruct u). split; [|done].
    unfold mbind at 1. unfold mret. unfold mbind at 1. rewrite (rw_load32 _ u _ _ _ He Hv HG Hg). by rewrite E.
Qed.

(** A request to read is answered with the next bytes of the file. *)
Lemma fsipc_reads u off n : file_at c u off -> asks c u n -> 0 <= n <= 4096 -> 0 <= off <= Z.of_nat (length f) ->
  let r := MIN n (Z.of_nat (length f) - off) in
  exists m, fsipc lib buf var Serv.FSREQ_READ 0 u = Ok r (set_umem m u)
    /\ (forall x, ~ file_pages c (x / 4096) -> m x = umem u x)
    /\ (forall k, 0 <= k < r -> rd8 m (of_bfp c * 4096 + k) = fbyte f (off + k))
    /\ file_at c (set_umem m u) (off + r).
Proof using Hc Hserver Hf.
  intros Hat Ha Hn Hoff r. destruct (fsipc_finds u off n Serv.FSREQ_READ 0 Hat Ha) as (m1 & -> & Hat1 & Ha1 & Hm1).
  destruct (sr_round _ _ _ _ _ _ Hserver _ off n Hat1 Ha1 Hn Hoff) as (s & Hh & ->).
  destruct (exchange_reads c N fb fo f _ s off n Hc Hat1 Ha1 ltac:(lia) ltac:(lia) Hh) as (m2 & s' & -> & _ & Hm2 & Hd & Ho & Hfd).
  fold r in Ho, Hd. change (set_umem m2 (set_umem m1 u)) with (set_umem m2 u). cbn [umem set_umem] in Hm2, Hfd.
  exists m2. split; [done|]. split; [|split].
  - intros x Hx. unfold file_pages in Hx. rewrite Hm2, Hm1 by tauto. done.
  - intros k Hk. specialize (Hd k Hk). unfold fbyte. rewrite (nth_lookup_Some _ _ _ _ Hd). apply u8_id.
    pose proof (fbyte_range (off + k)) as Hb. unfold fbyte in Hb. by rewrite (nth_lookup_Some _ _ _ _ Hd) in Hb.
  - change (set_umem m2 u) with (set_umem m2 (set_umem m1 u)). apply (file_at_umem (set_umem m1 u) off); [done| |done|].
    + intros o Ho' Hno. apply Hfd; lia.
    + right. intros o Ho'. pose proof (lo_pages c Hc). apply Hm2; zdm.
Qed.

Lemma devfile_reads u off v pte o n :
  file_at c u off -> 0 <= v < 1048576 -> upt u !! (of_env c, v) = Some pte -> flag pte PTE_U = true ->
  flag pte PTE_W = true -> ~ file_pages c (frame pte) -> 0 <= o -> 0 < n -> o + n <= 4096 ->
  0 <= off <= Z.of_nat (length f) ->
  exists r m, devfile_read lib buf var ((851968 + of_fd c) * 4096) (v * 4096 + o) n u = Ok r (set_umem m u)
    /\ file_at c (set_umem m u) (off + r) /\ r = MIN n (Z.of_nat (length f) - off)
    /\ filled (file_pages c) f off (frame pte * 4096 + o) r (umem u) m.
Proof using Hc Hserver Hf.
  intros Hat Hv Hpte HU HW Hpriv Ho Hn0 Hn Hoff. set (r := MIN n (Z.of_nat (length f) - off)).
  assert (0 <= r <= n) as Hr by (unfold r, MIN; bcase; lia).
  destruct (send_read u off n Hat ltac:(lia)) as (m1 & E1 & Hat1 & Ha1 & Hm1).
  destruct (fsipc_reads (set_umem m1 u) off n Hat1 Ha1 ltac:(lia) Hoff) as (m2 & E2 & Hm2 & Hbuf & Hat2). fold r in E2, Hbuf, Hat2.
  change (set_umem m2 (set_umem m1 u)) with (set_umem m2 u) in *.
  unfold devfile_read. unfold mbind in E1. unfold mbind at 1.
  destruct (put_fileid buf ((851968 + of_fd c) * 4096) u) as [[] u1| |]; [|done|done].
  unfold mbind at 1. rewrite E1. unfold mbind at 1. rewrite E2. destruct (Z.ltb_spec r 0); [lia|]. rewrite u32_id by lia.
  rewrite Z.gtb_ltb. destruct (Z.ltb_spec n r); [lia|]. unfold PGSIZE. rewrite Z.gtb_ltb. destruct (Z.ltb_spec 4096 r); [lia|].
  destruct (fa_buf _ _ _ Hat2) as (pb & Hpb & Hfb & HUb & _). rewrite <- (fa_self _ _ _ Hat) in Hpb, Hpte.
  unfold umemmove, mbind. pose proof (uload_at (set_umem m2 u) (of_buf c) pb (proj1 (lo_buf c Hc)) Hpb HUb (Z.to_nat r) 0) as El.
  rewrite Z.add_0_r in El. rewrite El by lia. clear El.
  rewrite (ustore_at (set_umem m2 u) v pte Hv Hpte HU HW) by (done || unfold rdbytes; rewrite ?length_map, ?length_seq; lia).
  cbn [umem set_umem]. rewrite Hfb, Z.add_0_r. set (l := rdbytes m2 (of_bfp c * 4096) (Z.to_nat r)).
  assert (Z.of_nat (length l) = r) as Hl by (unfold l, rdbytes; rewrite length_map, length_seq; lia).
  set (a := frame pte * 4096 + o). exists r, (wrbytes m2 a l). split; [done|]. split; [|split; [done|]].
  - assert (forall p x, file_pages c p -> x / 4096 = p -> wrbytes m2 a l x = m2 x) as Hw.
    { intros p x Hp Hx. apply wrbytes_out. assert (frame pte <> p) by (by intros E; apply Hpriv; rewrite E).
      unfold a. zdm. }
    apply (file_at_umem (set_umem m2 u) (off + r)); [done| | |].
    + intros o' Ho' _. apply (Hw (of_fdp c)); [by left|zdm].
    + rewrite <- (fa_off _ _ _ Hat2). apply rd32_ext. intros x Hx. apply (Hw (of_fdp c)); [by left|zdm].
    + right. intros o' Ho'. apply (Hw (of_varp c)); [by right; right|zdm].
  - intros x Hx. destruct (Z.leb_spec a x), (Z.ltb_spec x (a + r)); cbn [andb].
    2-4: rewrite wrbytes_out by lia; rewrite Hm2 by done; cbn [umem set_umem]; rewrite Hm1 by (unfold file_pages in Hx; tauto); done.
    replace x with (a + Z.of_nat (Z.to_nat (x - a))) at 1 by lia.
    rewrite (wrbytes_in _ _ _ _ (fbyte f (off + (x - a)))); [apply u8_id, fbyte_range|].
    unfold l, rdbytes. rewrite list_lookup_fmap, lookup_seq_lt by lia. cbn. f_equal.
    rewrite Z2Nat.id by lia. apply Hbuf. lia.
Qed.

(** The library keeps the contract when the server does its part. *)
#[export] Instance devfile_keeps_contract : FileReads devtab (of_fd c) (of_env c) f (file_at c) (file_pages c).
Proof using Type*.
  split.
  - intros u off Hat. apply Hat.
  - intros u off p Hat [-> | [-> | ->]].
    + destruct (fa_fd _ _ _ Hat) as (pte & H & <- & _). eauto.
    + destruct (fa_buf _ _ _ Hat) as (pte & H & <- & _). eauto.
    + destruct (fa_var _ _ _ Hat) as (pte & H & <- & _). eauto.
  - intros u u' off Hat He Hu Hm. pose proof Hat as [H1 H2 H3 Hv H4 H5 H6 H7 H8].
    pose proof (lo_fd c Hc) as Hi. pose proof (lo_at c Hc) as Hg.
    assert (forall p a, file_pages c p -> 0 <= a <= 4092 -> rd32 (umem u') (p * 4096 + a) = rd32 (umem u) (p * 4096 + a)) as Hw.
    { intros p a Hp Ha. apply rd32_ext. intros x Hx. apply Hm. replace (x / 4096) with p by zdm. done. }
    assert (file_pages c (of_fdp c)) as Hpf by (by left). assert (file_pages c (of_varp c)) as Hpv by (by right; right).
    pose proof (Hw (of_fdp c) 0 Hpf ltac:(lia)) as Hw0. rewrite !Z.add_0_r in Hw0.
    split; rewrite ?Hw0, ?(Hw (of_fdp c)), ?(Hw (of_varp c)) by (done || lia); try done; unfold rw_page; rewrite Hu; try done.
    + change (UTEMP / 4096) with 1024. lia.
    + apply (lo_buf c Hc).
    + apply (lo_var c Hc).
  - apply file_seek.
  - intros u off v pte o n Hat Hv Hpte HU HW Hp Ho Hn0 Hn Hoff.
    destruct (devfile_reads u off v pte o n) as (r & m & E & Hat' & Hr & Hm); [done..|].
    exists r, m. split; [|split; [done|]].
    2: { unfold MIN in Hr. destruct (Z.leb_spec n (Z.of_nat (length f) - off)); repeat split; try done; lia. }
    pose proof (fa_fd _ _ _ Hat) as (fpte & Hfd & _). pose proof (lo_fd c Hc) as Hi. unfold read, fd_dev, mbind.
    rewrite fd_lookup_open by done. unfold is_open, present. rewrite (fa_self _ _ _ Hat), Hfd.
    destruct (INDEX2FD_page (of_fd c) Hi) as [-> _]. unfold off_fd_dev_id.
    rewrite (rw_load32 _ u (851968 + of_fd c) (of_fdp c) 0 (fa_self _ _ _ Hat) (fa_fd _ _ _ Hat)), Z.add_0_r, (fa_dev _ _ _ Hat) by lia.
    unfold dev_lookup. change (i32 102) with 102. rewrite Hdev. cbn [mret]. unfold mret, acc_mode, mbind, off_fd_omode.
    rewrite (rw_load32 _ u (851968 + of_fd c) (of_fdp c) 8 (fa_self _ _ _ Hat) (fa_fd _ _ _ Hat)) by lia.
    unfold mret. rewrite (fa_mode _ _ _ Hat). exact E.
Qed.

End served.


(** ** Writing a full page *)

Lemma ustore_app l1 l2 : forall a u, ustore a (l1 ++ l2) u
  = mbind (ustore a l1) (fun _ => ustore (a + Z.of_nat (length l1)) l2) u.
Proof.
  induction l1 as [|b l1 IH]; intros a u; cbn [app ustore length].
  - unfold mbind, mret. by rewrite Z.add_0_r.
  - unfold mbind in *. destruct (store8 (u32 a) b u) as [[] u'| |]; [|done|done]. rewrite IH.
    by replace (a + 1 + Z.of_nat (length l1)) with (a + Z.of_nat (S (length l1))) by lia.
Qed.

(** A write of 4096 bytes or more runs over the end of the request page:
    [devfile_write] copies 4096 bytes to offset 8 of it.  The last eight bytes of
    the buffer are in the program's next page when the server is called. *)
Theorem devfile_write_overruns (lib : ipc) (fsenv F fdv bv n : Z) (e fdp bfp np pb : Z) (u : vm) :
  self u = e -> 0 <= F -> F + 1 < 1048576 -> 0 <= fdv < 1048576 -> 0 <= bv < 1048576 -> 4096 <= n ->
  rw_page e u fdv fdp -> rw_page e u F bfp -> rw_page e u (F + 1) np -> rw_page e u bv pb ->
  pb <> bfp -> pb <> np -> bfp <> np ->
  exists m, devfile_write lib (F * 4096) fsenv (fdv * 4096) (bv * 4096) n u
            = fsipc lib (F * 4096) fsenv Serv.FSREQ_WRITE 0 (set_umem m u)
    /\ forall k, 0 <= k < 8 -> m (np * 4096 + k) = rd8 (umem u) (pb * 4096 + 4088 + k).
Proof.
  intros He HF0 HF Hfd Hbv Hn Pfd Pbuf Pnext Pb Hne1 Hne2 Hne3. unfold devfile_write, Bc.BLKSIZE, PGSIZE.
  assert ((if n >? 4096 then 4096 else n) = 4096) as -> by (rewrite Z.gtb_ltb; destruct (Z.ltb_spec 4096 n); lia).
  unfold put_fileid, set_req, off_fd_id, Serv.req_fileid, Serv.req_n, Serv.req_buf. unfold mbind at 1 2.
  rewrite (rw_load32 e u fdv fdp 12 He Pfd Hfd) by lia.
  destruct (rw_store32 e u F bfp 0 (rd32 (umem u) (fdp * 4096 + 12)) He Pbuf) as (m1 & -> & Hm1); [lia|lia|].
  unfold mbind at 1. destruct (rw_store32 e (set_umem m1 u) F bfp 4 4096 He Pbuf) as (m2 & -> & Hm2); [lia|lia|].
  change (set_umem m2 (set_umem m1 u)) with (set_umem m2 u). cbn [umem set_umem] in Hm2.
  assert (forall x, x / 4096 <> bfp -> m2 x = umem u x) as Hout
    by (intros x Hx; rewrite Hm2, wr32_out, Hm1, wr32_out by zdm; done).
  destruct Pb as (qb & Hqb & <- & HUb & _). destruct Pbuf as (q1 & Hq1 & <- & HU1 & HW1).
  destruct Pnext as (q2 & Hq2 & <- & HU2 & HW2). rewrite <- He in *.
  pose proof (uload_at (set_umem m2 u) bv qb Hbv Hqb HUb 4096 0) as El. rewrite !Z.add_0_r in El.
  unfold mbind at 1. unfold umemmove at 1. unfold mbind at 1. change (Z.to_nat 4096) with 4096%nat.
  rewrite El by lia. clear El. cbn [umem set_umem]. set (l := rdbytes m2 (frame qb * 4096) 4096).
  assert (length l = 4096%nat) as Hl by (unfold l, rdbytes; by rewrite length_map, length_seq).
  rewrite <- (take_drop 4088 l), ustore_app. unfold mbind. rewrite (ustore_at (set_umem m2 u) F q1) by
    (done || (rewrite ?length_take; lia)). rewrite length_take, Hl. change (Z.of_nat (4088 `min` 4096)) with 4088.
  replace (F * 4096 + 8 + 4088) with ((F + 1) * 4096 + 0) by lia.
  rewrite (ustore_at (set_umem m2 u) (F + 1) q2) by (done || (rewrite ?length_drop, ?Hl; lia)).
  eexists. split; [reflexivity|]. intros k Hk. cbn [umem set_umem].
  replace (frame q2 * 4096 + k) with (frame q2 * 4096 + 0 + Z.of_nat (Z.to_nat k)) by lia.
  rewrite (wrbytes_in _ _ _ _ (rd8 m2 (frame qb * 4096 + (4088 + k)))).
  - unfold rd8. rewrite u8_u8, Hout by zdm. by rewrite Z.add_assoc.
  - rewrite lookup_drop. unfold l, rdbytes. rewrite list_lookup_fmap, lookup_seq_lt by lia. cbn [fmap option_fmap option_map].
    do 3 f_equal. lia.
Qed.

(** ** Examples *)

Abbreviation six := Serv.six.

Lemma six_bytes : Forall (fun b => 0 <= b < 256) six.
Proof. repeat (apply Forall_cons_2; [lia|]). apply Forall_nil_2. Qed.

(** Environment 4097 with descriptor 3 open on that file, the request page at
    page 2048, [fsenv], not yet known, in page 2049, and a page of its own at
    3000; environment 4098 is the server. *)
Definition six_file : open_file := mkOpenFile 4097 3 1 2048 2049 16 4098 10 11 13.

Definition file_vm : vm :=
  mkVm (<[(4097, 851971) := entry 10 1031]> (<[(4097, 2048) := entry 11 7]> (<[(4097, 2049) := entry 13 7]>
         (<[(4097, 3000) := entry 12 7]> ∅))))
    {[(4097, 831); (4097, 2)]}
    (wr32 (wr32 (wr32 (wr32 (fun _ => 0) 40960 102) 40964 2) 40968 0) 40972 1)
    [20; 21; 22; 23] 4097 {[4097; 4102]} [] ∅ ∅.

(** Messages that the server answers at once. *)
Definition six_ipc : ipc :=
  mkIpc (fun _ u => Ok 4098 u) (fun _ _ _ _ u => Ok tt u)
    (fun _ u => answer (exchange six_file Serv.FSREQ_READ (u, Serv.six_server))).

Definition file_devtab : list Dev := [devfile six_ipc (2048 * 4096) (2049 * 4096 + 16) 0].

Lemma six_layout : layout_ok six_file.
Proof. split; cbn; try lia; try done; change (UTEMP / 4096) with 1024; lia. Qed.

Lemma file_vm_at : file_at six_file file_vm 2.
Proof.
  split; [reflexivity| | | |vm_compute; reflexivity..|left; vm_compute; reflexivity].
  - exists (entry 10 1031). split; [reflexivity|]. vm_compute. done.
  - exists (entry 11 7). split; [reflexivity|]. vm_compute. done.
  - exists (entry 13 7). split; [reflexivity|]. vm_compute. done.
Qed.

Lemma six_served : served six_ipc six_file 8 1 8 six.
Proof. split; [done|]. intros u off n _ _ _ _. exists Serv.six_server. split; [exact Serv.six_held|reflexivity]. Qed.


End File.
