(* ===== verification/Spawn.v ===== *)
(** * Running a program (lib/spawn.c)

    [spawn] creates an environment from a program in the file system: it reads
    the headers of the file, puts the arguments on the stack of the child, loads
    the segments, hands on the pages marked to be shared, and starts the child.
    It runs on the machine of Uvm.v with the descriptors of Fd.v and the files of
    File.v; the saved frames of environments, which the library reads in [envs]
    and sets with a system call, are added to the machine.

    The theorems: the child finds its arguments on its stack; a segment in the
    child holds the bytes of the file and zeros after them, page by page,
    whatever the alignment; exactly the shared pages are handed on. *)

From stdpp Require Import base numbers list functions strings gmap sets.
From Stdlib Require Import ZArith Lia.
From S2P Require Import Prelude Mem Mmu Kernel Umonad Str Env Syscall Uvm Uaccess Fd File.

Open Scope Z_scope.
Open Scope usr_scope.

Module Spawn.

Import Str Syscall Uvm Uaccess Fd File.

(** The addresses of the child's stack page that correspond to [UTEMP]. *)
Definition UTEMP2USTACK (addr : Z) : Z := u32 (addr + (USTACKTOP - PGSIZE) - UTEMP).

Definition RW : Z := Z.lor (Z.lor PTE_P PTE_U) PTE_W.

(** ** The stack *)

(** [argc] and [string_size]; an array of pointers ends before the address
    space does. *)
Fixpoint count_args (fuel : nat) (argv argc string_size : Z) : M vm (Z * Z) :=
  match fuel with
  | O => mundef "init_stack: unterminated argv"
  | S fuel =>
    let! p := load32 (argv + 4 * argc) in
    if p =? 0 then mret (argc, string_size) else
    let! n := ustrlen p in
    count_args fuel argv (argc + 1) (u32 (string_size + n + 1))
  end.

(** Store the strings and the pointers to them; the result is where the next
    string would go. *)
Fixpoint store_args (n : nat) (i argv argv_store string_store : Z) : M vm Z :=
  match n with
  | O => mret string_store
  | S n =>
    do! store32 (argv_store + 4 * i) (UTEMP2USTACK string_store) in
    let! p := load32 (argv + 4 * i) in
    do! ustrcpy string_store p in
    let! len := ustrlen p in
    store_args n (i + 1) argv argv_store (string_store + len + 1)
  end.

(** The result and [*init_esp]. *)
Definition init_stack (child argv : Z) : M vm (Z * Z) :=
  let! c := count_args (Z.to_nat (4294967296 - argv)) argv 0 0 in
  let '(argc, string_size) := c in
  let string_store := u32 (UTEMP + PGSIZE - string_size) in
  let argv_store := u32 (ROUNDDOWN string_store 4 - 4 * (argc + 1)) in
  if u32 (argv_store - 8) <? UTEMP then mret (- E_NO_MEM, 0) else
  let! r := sys_page_alloc 0 UTEMP RW in
  if r <? 0 then mret (r, 0) else
  let! string_store := store_args (Z.to_nat argc) 0 argv argv_store string_store in
  do! store32 (argv_store + 4 * argc) 0 in
  if negb (string_store =? UTEMP + PGSIZE) then mpanic "assertion failed: string_store" else
  do! store32 (argv_store - 4) (UTEMP2USTACK argv_store) in
  do! store32 (argv_store - 8) argc in
  let init_esp := UTEMP2USTACK (argv_store - 8) in
  let! r := sys_page_map 0 UTEMP child (USTACKTOP - PGSIZE) RW in
  let! r := (if r <? 0 then mret r else sys_page_unmap 0 UTEMP) in
  if r <? 0 then
    let! _ := sys_page_unmap 0 UTEMP in
    mret (r, init_esp)
  else mret (0, init_esp).

(** ** Segments *)

Section files.

Context (devtab : list Dev).

(** One page, at offset [i] of the segment; [Some r] is an early return. *)
Definition map_segment_page (child va fd filesz fileoffset perm i : Z) : M vm (option Z) :=
  if i >=? filesz then
    let! r := sys_page_alloc child (u32 (va + i)) perm in
    mret (if r <? 0 then Some r else None)
  else
    let! r := sys_page_alloc 0 UTEMP RW in
    if r <? 0 then mret (Some r) else
    let! r := seek fd (i32 (fileoffset + i)) in
    if r <? 0 then mret (Some r) else
    let! r := readn devtab fd UTEMP (MIN PGSIZE (filesz - i)) in
    if r <? 0 then mret (Some r) else
    let! r := sys_page_map 0 UTEMP child (u32 (va + i)) perm in
    if r <? 0 then mpanic "spawn: sys_page_map data" else
    let! _ := sys_page_unmap 0 UTEMP in
    mret None.

Definition map_segment (child va memsz fd filesz fileoffset perm : Z) : M vm Z :=
  let i := PGOFF va in
  let va := va - i in
  let memsz := u32 (memsz + i) in
  let filesz := u32 (filesz + i) in
  let fileoffset := i32 (fileoffset - i) in
  let! r := mfor (Z.to_nat ((memsz + PGSIZE - 1) / PGSIZE)) 0
              (fun j => map_segment_page child va fd filesz fileoffset perm (j * PGSIZE)) in
  mret (match r with Some r => r | None => 0 end).

End files.

(** ** Shared pages *)

Definition copy_shared_page (child page_num : Z) : M vm (option Z) :=
  let! p := mgets (present page_num) in
  if negb p then mret None else
  let! pte := uvpt page_num in
  if flag pte PTE_SHARE then
    let! id := mgets self in
    let! r := sys_page_map id (page_num * PGSIZE) child (page_num * PGSIZE) (Z.land pte PTE_SYSCALL) in
    mret (if r <? 0 then Some r else None)
  else mret None.

Definition copy_shared_pages (child : Z) : M vm Z :=
  let! r := mfor (Z.to_nat (PGNUM UTOP)) 0 (copy_shared_page child) in
  mret (match r with Some r => r | None => 0 end).

(** ** Programs *)

(** The machine with the saved frames of the environments. *)
Record pst := mkPst {
  pvm : vm;
  ptf : Z -> Trapframe
}.

Definition on_vm {A} (m : M vm A) : M pst A := fun s =>
  match m (pvm s) with
  | Ok a u => Ok a (mkPst u (ptf s))
  | Panics w u => Panics w (mkPst u (ptf s))
  | Undefined w u => Undefined w (mkPst u (ptf s))
  end.

Definition set_frame (e : Z) (tf : Trapframe) (s : pst) : pst := mkPst (pvm s) (<[e := tf]> (ptf s)).

(** The child starts with the frame of its parent. *)
Definition exofork : M pst Z :=
  let! r := on_vm sys_exofork in
  if r <? 0 then mret r else
  do! mmodify (fun s => set_frame r (set_eax 0 (ptf s (self (pvm s)))) s) in
  mret r.

Definition sys_env_set_trapframe (envid : Z) (tf : Trapframe) : M pst Z := fun s =>
  match resolve (pvm s) envid with
  | None => Ok (- E_BAD_ENV) s
  | Some e => Ok 0 (set_frame e (set_tf_eflags (Z.lor (tf_eflags tf) FL_IF) tf) s)
  end.

(** Another environment goes away with its mappings. *)
Definition sys_env_destroy (envid : Z) : M vm Z := fun u =>
  match resolve u envid with
  | None => Ok (- E_BAD_ENV) u
  | Some e =>
    Ok 0 (set_ustatus (delete e (ustatus u)) (set_own (own u ∖ {[e]})
           (set_upt (filter (fun kv : Z * Z * Z => kv.1.1 <> e) (upt u)) u)))
  end.

Section spawn.

(** [open] of lib/file.c, and where [elf_buf] is. *)
Context (devtab : list Dev) (open : Z -> Z -> M vm Z) (elf_buf : Z).

Definition ELF_PROG_FLAG_WRITE : Z := 2.

Definition off_p_flags : Z := 24.

Definition sizeof_Proghdr : Z := 32.

(** One program header; [Some r] is the error. *)
Definition spawn_segment (child fd ph : Z) : M vm (option Z) :=
  let! p_type := load32 ph in
  if negb (p_type =? Env.ELF_PROG_LOAD) then mret None else
  let! p_flags := load32 (ph + off_p_flags) in
  let perm := Z.lor PTE_P PTE_U in
  let perm := if flag p_flags ELF_PROG_FLAG_WRITE then Z.lor perm PTE_W else perm in
  let! p_va := load32 (ph + Env.off_p_va) in
  let! p_memsz := load32 (ph + Env.off_p_memsz) in
  let! p_filesz := load32 (ph + Env.off_p_filesz) in
  let! p_offset := load32 (ph + Env.off_p_offset) in
  let! r := map_segment devtab child p_va p_memsz fd p_filesz (i32 p_offset) perm in
  mret (if r <? 0 then Some r else None).

(** [uint16_t] at [a]. *)
Definition load16 (a : Z) : M vm Z :=
  let! b0 := load8 (u32 a) in
  let! b1 := load8 (u32 (a + 1)) in
  mret (b0 + 256 * b1).

Definition spawn_segments (child fd : Z) : M vm (option Z) :=
  let! e_phoff := load32 (elf_buf + Env.off_e_phoff) in
  let! e_phnum := load16 (elf_buf + Env.off_e_phnum) in
  mfor (Z.to_nat e_phnum) 0 (fun i => spawn_segment child fd (elf_buf + e_phoff + i * sizeof_Proghdr)).

(** What follows the segments. *)
Definition spawn_start (child : Z) (child_tf : Trapframe) : M pst Z :=
  let! r := on_vm (copy_shared_pages child) in
  if r <? 0 then mpanic "copy_shared_pages" else
  let! r := sys_env_set_trapframe child child_tf in
  if r <? 0 then mpanic "sys_env_set_trapframe" else
  let! r := on_vm (sys_env_set_status child ENV_RUNNABLE) in
  if r <? 0 then mpanic "sys_env_set_status" else
  mret child.

Definition spawn (prog argv : Z) : M pst Z :=
  let! fd := on_vm (open prog O_RDONLY) in
  if fd <? 0 then mret fd else
  let! n := on_vm (readn devtab fd elf_buf 512) in
  let! magic := (if negb (n =? 512) then mret 0 else on_vm (load32 elf_buf)) in
  if negb (n =? 512) || negb (magic =? Env.ELF_MAGIC) then
    let! _ := on_vm (close devtab fd) in
    mret (- E_NOT_EXEC)
  else
    let! child := exofork in
    if child <? 0 then mret child else
    let! tf := mgets (fun s => ptf s child) in
    let! entry := on_vm (load32 (elf_buf + Env.off_e_entry)) in
    let! s := on_vm (init_stack child argv) in
    let '(r, init_esp) := s in
    if r <? 0 then mret r else
    let child_tf := set_tf_esp init_esp (set_tf_eip entry tf) in
    let! r := on_vm (spawn_segments child fd) in
    match r with
    | Some r =>
      let! _ := on_vm (sys_env_destroy child) in
      let! _ := on_vm (close devtab fd) in
      mret r
    | None =>
      let! _ := on_vm (close devtab fd) in
      spawn_start child child_tf
    end.

(** How many arguments come before the null pointer that ends them. *)
Fixpoint count_va (vl : list Z) : option nat :=
  match vl with
  | [] => None
  | p :: vl => if p =? 0 then Some O else option_map S (count_va vl)
  end.

(** [for (i = 0; i < argc; i++) argv[i+1] = va_arg(vl, const char * )] *)
Fixpoint store_va (l : list Z) (a : Z) : M vm unit :=
  match l with
  | [] => mret tt
  | p :: l => do! store32 a p in store_va l (a + 4)
  end.

(** [vl] is the variable part of the argument list, [argv] the address of the
    array. *)
Definition spawnl (prog arg0 : Z) (vl : list Z) (argv : Z) : M pst Z :=
  match count_va vl with
  | None => mundef "spawnl: no null pointer"
  | Some argc =>
    do! on_vm (store32 argv arg0) in
    do! on_vm (store32 (argv + 4 * (Z.of_nat argc + 1)) 0) in
    do! on_vm (store_va (take argc vl) (argv + 4)) in
    spawn prog argv
  end.

End spawn.

(** ** Loading a segment *)

(** The page of [UTEMP]. *)
Abbreviation tmp := 1024.

Section load.

Context (devtab : list Dev) (fd P c : Z) (f : list Z) (at_ : vm -> Z -> Prop) (priv : Z -> Prop).
Context `{HFR : !FileReads devtab fd P f at_ priv}.
Context (HPc : P <> c) (Hc : c <> 0) (perm : Z) (Hperm : perm = 5 \/ perm = 7).

Lemma perm_ok : 0 <= perm < 4096 /\ bad_perm perm = false.
Proof using Hperm. by destruct Hperm as [-> | ->]. Qed.

(** What the loop relies on. *)
Record loadable (u : vm) : Prop := {
  ld_at : exists off, at_ u off;
  ld_own : c ∈ own u;
  ld_tmp : upt u !! (P, tmp) = None
}.

(** Physical page [p], taken from the kernel, is now page [w] of the child and
    holds [bytes]. *)
Record page_loaded (u : vm) (w p : Z) (bytes : Z -> Z) (u' : vm) : Prop := {
  pl_offers : offers u = p :: offers u';
  pl_upt : upt u' = <[(c, w) := entry p perm]> (upt u);
  pl_rest : exists tab m, u' = set_utab tab (set_upt (upt u') (set_umem m (set_offers (offers u') u)));
  pl_tab : utab u ⊆ utab u';
  pl_mem : forall x, ~ priv (x / 4096) -> x / 4096 <> p -> umem u' x = umem u x;
  pl_bytes : forall o, 0 <= o < 4096 -> umem u' (p * 4096 + o) = bytes o;
  pl_at : exists off, at_ u' off
}.

Lemma load_self u : loadable u -> self u = P /\ resolve u c = Some c.
Proof using HFR Hc.
  intros [[off Hat] Ho _]. split; [by eapply fr_self|]. unfold resolve.
  destruct (Z.eqb_spec c 0); [done|]. by rewrite decide_True.
Qed.

(** A page the kernel gives is none of those the file needs. *)
Lemma fresh_not_priv u off p : at_ u off -> uref u p = 0 -> ~ priv p.
Proof using HFR.
  intros Hat H0 Hp. destruct (fr_pages u off p Hat Hp) as (v & pte & Hu & Hf).
  by apply (uref_0_fresh u p P v pte).
Qed.

Lemma blank_page n u w : loadable u -> supplied (S n) u -> 0 <= w < 977920 ->
  exists p u', sys_page_alloc c (w * 4096) perm u = Ok 0 u' /\ page_loaded u w p (fun _ => 0) u'.
Proof using HFR HPc Hc Hperm.
  intros Hl Hs Hw. destruct (load_self u Hl) as [Hself Hres]. destruct (ld_at _ Hl) as [off Hat].
  destruct Hs as [H1 _ H3]. destruct (offers u) as [|p rest] eqn:Eo; [cbn in H1; lia|].
  destruct (H3 p) as [Hp H0]; [by left|]. pose proof (fresh_not_priv u off p Hat H0) as Hnp.
  exists p. eexists. split; [by apply (page_alloc_ok u c c w perm p rest); [|apply perm_ok|..]|].
  split; cbn [offers upt utab umem map_page set_utab set_upt set_umem set_offers].
  - done.
  - done.
  - by eexists _, _.
  - set_solver.
  - intros x _ Hx. apply mset_out. zdm.
  - intros o Ho. by rewrite mset_in by lia.
  - exists off. apply (fr_frame u); [done|done| |].
    + intros v _. cbn. by rewrite lookup_insert_ne by congruence.
    + intros x Hx. cbn. apply mset_out. assert (x / 4096 <> p) by congruence. zdm.
Qed.

(** The page is filled from the file at [UTEMP] and moved to the child. *)
Definition move_page (off n w : Z) : M vm (option Z) :=
  let! r := sys_page_alloc 0 UTEMP RW in
  if r <? 0 then mret (Some r) else
  let! r := seek fd off in
  if r <? 0 then mret (Some r) else
  let! r := readn devtab fd UTEMP n in
  if r <? 0 then mret (Some r) else
  let! r := sys_page_map 0 UTEMP c (w * 4096) perm in
  if r <? 0 then mpanic "spawn: sys_page_map data" else
  let! _ := sys_page_unmap 0 UTEMP in
  mret None.

Lemma move_page_ok k u off n w : loadable u -> supplied (S k) u -> 0 <= w < 977920 ->
  0 <= n <= 4096 -> 0 <= off < 2147483648 -> off + n <= Z.of_nat (length f) ->
  exists p u', move_page off n w u = Ok None u'
    /\ page_loaded u w p (fun o => if o <? n then fbyte f (off + o) else 0) u'.
Proof using HFR HPc Hc Hperm.
  intros Hl Hs Hw Hn Hoff Hlen. destruct (load_self u Hl) as [Hself Hres]. destruct (ld_at _ Hl) as [off0 Hat].
  pose proof perm_ok as [Hp1 Hp2]. destruct Hs as [H1 Hnd H3].
  destruct (offers u) as [|p [|q rest]] eqn:Eo; [cbn in H1; lia|cbn in H1; lia|].
  destruct (H3 p) as [Hp H0]; [by left|]. destruct (H3 q) as [Hq _]; [by right; left|].
  pose proof (fresh_not_priv u off0 p Hat H0) as Hnp.
  set (u1 := map_page P tmp (entry p 7) (set_umem (mset (umem u) (p * 4096) 0 4096) (set_offers (q :: rest) u))).
  assert (sys_page_alloc 0 UTEMP RW u = Ok 0 u1) as E1
    by (apply (page_alloc_ok u 0 P tmp 7 p (q :: rest)); try done; unfold resolve; cbn; by rewrite Hself).
  assert (at_ u1 off0) as Hat1.
  { apply (fr_frame u); [done|done| |].
    - intros v Hv. cbn. rewrite lookup_insert_ne; [done|]. change (UTEMP / 4096) with tmp in Hv. congruence.
    - intros x Hx. cbn. apply mset_out. assert (x / 4096 <> p) by congruence. zdm. }
  destruct (fr_seek u1 off0 off Hat1 Hoff) as (m2 & E2 & Hat2 & Hm2). set (u2 := set_umem m2 u1) in *.
  assert (upt u1 !! (P, tmp) = Some (entry p 7)) as Hpte by (cbn; by rewrite lookup_insert_eq).
  assert (flag (entry p 7) PTE_U = true /\ flag (entry p 7) PTE_W = true /\ frame (entry p 7) = p) as (HU & HW & Hfr)
    by (rewrite !entry_flag, entry_frame by done; done).
  destruct (readn_reads devtab fd P f at_ priv tmp (entry p 7) ltac:(done) HU HW ltac:(by rewrite Hfr) u2 off 0 n)
    as (m3 & E3 & Hat3 & Hm3); [done|done|lia|lia|lia|lia|]. rewrite Hfr in Hm3.
  assert (MIN n (Z.of_nat (length f) - off) = n) as Hmin by (unfold MIN; bcase; lia). rewrite Hmin in *.
  set (u3 := set_umem m3 u2) in *.
  assert (sys_page_map 0 UTEMP c (w * 4096) perm u3 = Ok 0 (map_page c w (entry p perm) u3)) as E4.
  { rewrite <- Hfr at 1. apply (page_map_ok u3 0 tmp c w perm P c (entry p 7)); try done.
    - unfold resolve. cbn. by rewrite Hself.
    - cbn. destruct (Z.ltb_spec q 0); [lia|done]. }
  set (u4 := map_page c w (entry p perm) u3) in *. set (u5 := set_upt (delete (P, tmp) (upt u4)) u4).
  assert (sys_page_unmap 0 UTEMP u4 = Ok 0 u5) as E5.
  { unfold u5. rewrite <- Hself. done. }
  exists p, u5. split.
  { unfold move_page, mbind. rewrite E1. change (0 <? 0) with false. cbv beta iota. rewrite E2. change (0 <? 0) with false. cbv beta iota.
    change (1024 * 4096 + 0) with UTEMP in E3. rewrite E3.
    destruct (Z.ltb_spec n 0); [lia|]. fold u3. rewrite E4. change (0 <? 0) with false. cbv beta iota. by rewrite E5. }
  assert (upt u5 = <[(c, w) := entry p perm]> (upt u)) as Eupt.
  { cbn. rewrite delete_insert_ne by congruence. f_equal. apply delete_insert_id, Hl. }
  split.
  - done.
  - exact Eupt.
  - eexists _, _. cbn. reflexivity.
  - cbn. etrans; [|apply union_subseteq_r]. apply union_subseteq_r.
  - intros x Hx Hxp. rewrite Hm3 by done. cbn [umem set_umem u2]. rewrite Hm2 by done.
    cbn [umem set_umem map_page set_utab set_upt u1]. rewrite mset_out by zdm.
    destruct (Z.leb_spec (p * 4096 + 0) x), (Z.ltb_spec x (p * 4096 + 0 + n)); try done. zdm.
  - intros o Ho. assert ((p * 4096 + o) / 4096 = p) as Hdiv by zdm.
    rewrite Hm3 by (by rewrite Hdiv). cbn [umem set_umem u2]. rewrite Hm2 by (by rewrite Hdiv).
    cbn [umem set_umem map_page set_utab set_upt u1]. rewrite mset_in by lia.
    destruct (Z.leb_spec (p * 4096 + 0) (p * 4096 + o)), (Z.ltb_spec (p * 4096 + o) (p * 4096 + 0 + n)),
      (Z.ltb_spec o n); try lia; try done. cbn [andb]. f_equal. lia.
  - exists (off + n). apply (fr_frame u3); [done|done| |done].
    intros v Hv. rewrite Eupt. change (UTEMP / 4096) with tmp in Hv. cbn. rewrite lookup_insert_ne by congruence.
    by rewrite lookup_insert_ne by congruence.
Qed.

(** Byte [i] of the segment. *)
Definition seg_byte (filesz off i : Z) : Z := if i <? filesz then fbyte f (off + i) else 0.

Lemma map_segment_page_ok k u w0 filesz off j : loadable u -> supplied (S k) u -> 0 <= j -> 0 <= w0 ->
  w0 + j < 977920 -> 0 <= filesz -> 0 <= off -> off + filesz <= Z.of_nat (length f) ->
  off + filesz < 2147483648 ->
  exists p u', map_segment_page devtab c (w0 * 4096) fd filesz off perm (j * PGSIZE) u = Ok None u'
    /\ page_loaded u (w0 + j) p (fun o => seg_byte filesz off (j * 4096 + o)) u'.
Proof using HFR HPc Hc Hperm.
  intros Hl Hs Hj Hw0 Hw Hfs Hoff Hlen Hmax. unfold map_segment_page, PGSIZE.
  rewrite (u32_id (w0 * 4096 + j * 4096)) by lia. replace (w0 * 4096 + j * 4096) with ((w0 + j) * 4096) by lia.
  rewrite Z.geb_leb. destruct (Z.leb_spec filesz (j * 4096)).
  - destruct (blank_page k u (w0 + j) Hl Hs) as (p & u' & E & Hpl); [lia|]. exists p, u'. unfold mbind. rewrite E.
    split; [done|]. destruct Hpl as [A B C D F G H']. split; try done. intros o Ho. rewrite G by done.
    unfold seg_byte. by rewrite (proj2 (Z.ltb_ge (j * 4096 + o) filesz)) by lia.
  - rewrite i32_id by lia. set (n := MIN 4096 (filesz - j * 4096)).
    assert (0 <= n <= 4096 /\ n <= filesz - j * 4096 /\ (n < 4096 -> n = filesz - j * 4096)) as (Hn1 & Hn2 & Hn3)
      by (unfold n, MIN; bcase; lia).
    destruct (move_page_ok k u (off + j * 4096) n (w0 + j) Hl Hs) as (p & u' & E & Hpl); [lia|lia|lia|lia|].
    exists p, u'. split; [exact E|]. destruct Hpl as [A B C D F G H']. split; try done. intros o Ho. rewrite G by done.
    unfold seg_byte. destruct (Z.ltb_spec o n), (Z.ltb_spec (j * 4096 + o) filesz); try lia; try done. f_equal. lia.
Qed.

(** The first [j] pages of the segment are in place. *)
Record seg_to (u0 : vm) (w0 filesz off j : Z) (u : vm) : Prop := {
  st_load : loadable u;
  st_rest : self u = self u0 /\ own u = own u0 /\ ustatus u = ustatus u0 /\ newenvs u = newenvs u0 /\ utab u0 ⊆ utab u;
  st_new : forall k, 0 <= k < j -> exists p, upt u !! (c, w0 + k) = Some (entry p perm) /\ 0 <= p < 1048576
    /\ ~ priv p /\ (forall o, 0 <= o < 4096 -> umem u (p * 4096 + o) = seg_byte filesz off (k * 4096 + o))
    /\ (forall e w q, upt u !! (e, w) = Some q -> frame q = p -> (e, w) = (c, w0 + k));
  st_old : forall e w, ~ (e = c /\ w0 <= w < w0 + j) -> upt u !! (e, w) = upt u0 !! (e, w);
  st_mem : forall e w q x, upt u0 !! (e, w) = Some q -> x / 4096 = frame q -> ~ priv (frame q) -> umem u x = umem u0 x
}.

Lemma seg_to_start u0 w0 filesz off : loadable u0 -> seg_to u0 w0 filesz off 0 u0.
Proof using. intros H. split; try done. intros k Hk. lia. Qed.

Lemma seg_to_step u0 w0 filesz off j u p u' n : seg_to u0 w0 filesz off j u -> supplied (S n) u -> 0 <= j ->
  (forall x, x ∈ offers u -> uref u0 x = 0) ->
  page_loaded u (w0 + j) p (fun o => seg_byte filesz off (j * 4096 + o)) u' ->
  seg_to u0 w0 filesz off (j + 1) u' /\ supplied n u' /\ (forall x, x ∈ offers u' -> uref u0 x = 0).
Proof using HFR HPc Hc Hperm.
  intros [Hl Hr Hnew Hold Hmem] Hs Hj Hfree [Po Pu (tab & m & Pr) Pt Pm Pb [off' Pat]].
  destruct (ld_at _ Hl) as [off0 Hat]. pose proof perm_ok as [Hp1 _].
  destruct (su_fresh _ _ Hs p) as [Hp H0]; [rewrite Po; by left|].
  pose proof (fresh_not_priv u off0 p Hat H0) as Hnp.
  assert (supplied n u') as Hs'.
  { apply (supplied_next n u u' p (offers u')); [done|done|done|]. intros e w q. rewrite Pu.
    rewrite lookup_insert_Some. intros [[_ <-]|[_ Hq]]; [left; by apply entry_frame|right; eauto]. }
  split; [|split; [done|intros x Hx; apply Hfree; rewrite Po; by right]].
  assert (forall e w q, upt u' !! (e, w) = Some q -> frame q = p -> (e, w) = (c, w0 + j)) as Hex.
  { intros e w q. rewrite Pu, lookup_insert_Some. intros [[E _]|[_ Hq]] Hf; [by rewrite <- E|].
    by destruct (uref_0_fresh u p e w q H0 Hq). }
  split.
  - split; [by exists off'|rewrite Pr; apply Hl|]. rewrite Pu. rewrite lookup_insert_ne by congruence. apply Hl.
  - destruct Hr as (R1 & R2 & R3 & R4 & R5). split_and!; try (rewrite Pr; done). by trans (utab u).
  - intros k Hk. destruct (decide (k = j)) as [->|Hne].
    + exists p. split; [by rewrite Pu, lookup_insert_eq|]. split; [done|]. split; [done|]. split; [exact Pb|exact Hex].
    + destruct (Hnew k ltac:(lia)) as (pk & Hu & Hr' & Hpk & Hb & He). exists pk.
      assert (frame (entry pk perm) = pk) as Hfk by (by apply entry_frame).
      assert (pk <> p) as Hkp by (rewrite <- Hfk; by apply (uref_0_fresh u p c (w0 + k))).
      split; [rewrite Pu, lookup_insert_ne by (intros [=]; lia); done|]. split; [done|]. split; [done|]. split.
      * intros o Ho. assert ((pk * 4096 + o) / 4096 = pk) as Ed by zdm. rewrite Pm by (by rewrite Ed). by apply Hb.
      * intros e w q. rewrite Pu, lookup_insert_Some. intros [[_ <-]|[_ Hq]] Hf; [|by eapply He].
        rewrite entry_frame in Hf by done. congruence.
  - intros e w Hne. rewrite Pu, lookup_insert_ne by (intros [= <- <-]; apply Hne; lia). apply Hold. lia.
  - intros e w q x Hq Hx Hnq. rewrite Pm; [by eapply Hmem|by rewrite Hx|]. rewrite Hx.
    apply (uref_0_fresh u0 p e w q); [|done]. apply Hfree. rewrite Po. by left.
Qed.

Lemma seg_loop_ok u0 w0 filesz off n : loadable u0 -> supplied n u0 -> 0 <= w0 ->
  w0 + Z.of_nat n <= 977920 -> 0 <= filesz -> 0 <= off -> off + filesz <= Z.of_nat (length f) ->
  off + filesz < 2147483648 ->
  wp (mfor n 0 (fun j => map_segment_page devtab c (w0 * 4096) fd filesz off perm (j * PGSIZE)))
    (fun r u => r = None /\ seg_to u0 w0 filesz off (Z.of_nat n) u /\ supplied 0 u) u0.
Proof using HFR HPc Hc Hperm.
  intros Hl Hs Hw0 Hw Hfs Hoff Hlen Hmax.
  apply (wp_mfor n _ (fun j u => seg_to u0 w0 filesz off j u /\ supplied (Z.to_nat (Z.of_nat n - j)) u
                                 /\ forall x, x ∈ offers u -> uref u0 x = 0)).
  - split; [by apply seg_to_start|]. rewrite Z.sub_0_r, Nat2Z.id. split; [done|]. intros x Hx. by apply (su_fresh _ _ Hs).
  - intros j u Hj (Hseg & Hsj & Hfree). replace (Z.to_nat (Z.of_nat n - j)) with (S (Z.to_nat (Z.of_nat n - (j + 1)))) in Hsj by lia.
    destruct (map_segment_page_ok (Z.to_nat (Z.of_nat n - (j + 1))) u w0 filesz off j (st_load _ _ _ _ _ _ Hseg) Hsj)
      as (p & u' & E & Hpl); [lia..|].
    eapply wp_of; [exact E|]. cbn. by eapply seg_to_step; [..|exact Hpl]; [done|exact Hsj|lia|].
  - intros u (Hseg & Hsn & _). rewrite Z.add_0_l in *. split; [done|]. split; [done|].
    by replace (Z.to_nat (Z.of_nat n - Z.of_nat n)) with 0%nat in Hsn by lia.
Qed.

Context (Hf : Forall (fun b => 0 <= b < 256) f).

Lemma seg_byte_range filesz off i : 0 <= seg_byte filesz off i < 256.
Proof using Hf. unfold seg_byte. destruct (i <? filesz); [by apply fbyte_range|lia]. Qed.

(** What an environment sees in a page whose entry and memory did not change. *)
Lemma sees_kept u u' e a : upt u' !! (e, a / 4096) = upt u !! (e, a / 4096) ->
  (forall q x, upt u !! (e, a / 4096) = Some q -> x / 4096 = frame q -> umem u' x = umem u x) ->
  sees u' e a = sees u e a.
Proof using.
  intros Hu Hm. unfold sees, paddr, PGSIZE. rewrite Hu. destruct (upt u !! _) as [q|] eqn:E; [|done].
  destruct (_ && _); [|done]. f_equal. unfold rd8. rewrite (Hm q) by (done || zdm). done.
Qed.

(** The number of pages the segment touches. *)
Definition seg_pages (va memsz : Z) : Z := (va mod 4096 + memsz + 4095) / 4096.

(** C7: [map_segment] loads a segment of a program.  With memory for its pages
    it returns 0, and the child then reads, at every address of the segment,
    the byte of the file or, past [filesz], zero, whatever the alignment of the
    address and of the offset.  The pages are the child's alone and writable
    exactly when asked for; no other page of any environment changes, and no
    byte that others see outside the pages the file library keeps. *)
Theorem map_segment_loads u va memsz filesz off :
  loadable u -> supplied (Z.to_nat (seg_pages va memsz)) u -> 0 <= va -> 0 <= filesz <= memsz ->
  va + memsz <= UTOP -> va mod 4096 <= off -> off + filesz <= Z.of_nat (length f) ->
  Z.of_nat (length f) < 2147483648 ->
  exists u', map_segment devtab c va memsz fd filesz off perm u = Ok 0 u' /\ loadable u'
    /\ (forall i, 0 <= i < memsz ->
          sees u' c (va + i) = Some (if i <? filesz then fbyte f (off + i) else 0))
    /\ (forall w, va / 4096 <= w < va / 4096 + seg_pages va memsz -> exists q, upt u' !! (c, w) = Some q
          /\ flag q PTE_W = flag perm PTE_W
          /\ forall e' w' q', upt u' !! (e', w') = Some q' -> frame q' = frame q -> (e', w') = (c, w))
    /\ (forall e w, ~ (e = c /\ va / 4096 <= w < va / 4096 + seg_pages va memsz) -> upt u' !! (e, w) = upt u !! (e, w))
    /\ (forall e a, ~ (e = c /\ va / 4096 <= a / 4096 < va / 4096 + seg_pages va memsz) ->
          (forall q, upt u !! (e, a / 4096) = Some q -> ~ priv (frame q)) -> sees u' e a = sees u e a).
Proof using HFR HPc Hc Hperm Hf.
  intros Hl Hs Hva Hfs Hend Hal Hlen Hmax. unfold map_segment. change UTOP with 4005560320 in Hend.
  set (o := va mod 4096) in *. set (w0 := va / 4096). set (N := seg_pages va memsz) in *.
  assert (PGOFF va = o) as -> by (apply PGOFF_eq; lia).
  assert (0 <= o < 4096 /\ va = w0 * 4096 + o) as [Ho Eva] by (unfold o, w0; zdm).
  rewrite (u32_id (memsz + o)), (u32_id (filesz + o)), (i32_id (off - o)) by lia.
  replace (va - o) with (w0 * 4096) by lia.
  assert ((memsz + o + PGSIZE - 1) / PGSIZE = N) as -> by (unfold N, seg_pages, PGSIZE; fold o; f_equal; lia).
  assert (0 <= N /\ w0 + N <= 977920 /\ memsz + o <= N * 4096) as (HN & HwN & HmN) by (unfold N, seg_pages; fold o; zdm).
  destruct (wp_run _ _ _ (seg_loop_ok u w0 (filesz + o) (off - o) (Z.to_nat N) Hl Hs ltac:(unfold w0; zdm)
    ltac:(lia) ltac:(lia) ltac:(lia) ltac:(lia) ltac:(lia))) as (r & u' & E & -> & Hseg & _).
  exists u'. unfold mbind. rewrite E. destruct Hseg as [A B C D F]. rewrite Z2Nat.id in * by lia.
  pose proof perm_ok as [Hp1 _]. split; [done|]. split; [done|]. split; [|split; [|split; [exact D|]]].
  - intros i Hi. destruct (C ((o + i) / 4096)) as (p & Hu & Hp & _ & Hb & _); [zdm|].
    unfold sees, paddr, PGSIZE. replace ((va + i) / 4096) with (w0 + (o + i) / 4096) by zdm. rewrite Hu.
    rewrite entry_flag by done. rewrite entry_frame by done.
    assert (flag perm PTE_U = true) as -> by (by destruct Hperm as [-> | ->]). cbn [orb andb negb]. unfold rd8.
    replace ((va + i) mod 4096) with ((o + i) mod 4096) by zdm. rewrite Hb by zdm.
    rewrite u8_id by apply seg_byte_range. unfold seg_byte.
    replace ((o + i) / 4096 * 4096 + (o + i) mod 4096) with (o + i) by zdm. f_equal.
    destruct (Z.ltb_spec (o + i) (filesz + o)), (Z.ltb_spec i filesz); try lia; try done. f_equal. lia.
  - intros w Hw. destruct (C (w - w0)) as (p & Hu & Hp & _ & _ & Hex); [lia|].
    replace (w0 + (w - w0)) with w in * by lia. exists (entry p perm). rewrite entry_flag, entry_frame by done.
    split; [done|]. split; [by rewrite orb_false_r|]. exact Hex.
  - intros e a Hne Hnp. apply sees_kept; [by apply D|]. intros q x Hq Hx. by apply (F e (a / 4096) q); [|..|apply Hnp].
Qed.

End load.

(** ** Arguments *)

(** The bytes the strings take. *)
Fixpoint strings_size (args : list (list Z)) : Z :=
  match args with [] => 0 | l :: args => Z.of_nat (length l) + 1 + strings_size args end.

Lemma strings_size_app a b : strings_size (a ++ b) = strings_size a + strings_size b.
Proof. induction a as [|l a IH]; cbn; [done|]. rewrite IH. lia. Qed.

Lemma strings_size_nonneg args : 0 <= strings_size args.
Proof. induction args; cbn; lia. Qed.

(** The strings and the array that [argv] points to, outside the page of
    [UTEMP]. *)
Record args_ok (u : vm) (argv : Z) (args : list (list Z)) (ptrs : list Z) : Prop := {
  ao_len : length ptrs = length args;
  ao_ptr : forall i p, ptrs !! i = Some p ->
    0 < p < 4294967296 /\ reads_as u tmp (argv + 4 * Z.of_nat i) (word_bytes p);
  ao_end : reads_as u tmp (argv + 4 * Z.of_nat (length args)) (word_bytes 0);
  ao_str : forall i p l, ptrs !! i = Some p -> args !! i = Some l ->
    Forall (fun b => b <> 0) l /\ reads_as u tmp p (l ++ [0])
}.

Section args.

Context (argv : Z) (args : list (list Z)) (ptrs : list Z).

Lemma arg_at u i l : args_ok u argv args ptrs -> args !! i = Some l ->
  exists p, ptrs !! i = Some p /\ 0 < p < 4294967296 /\ load32 (argv + 4 * Z.of_nat i) u = Ok p u
    /\ Forall (fun b => b <> 0) l /\ reads_as u tmp p (l ++ [0]) /\ ustrlen p u = Ok (Z.of_nat (length l)) u.
Proof using.
  intros H Hl. destruct (lookup_lt_is_Some_2 ptrs i) as [p Hp].
  { rewrite (ao_len _ _ _ _ H). by eapply lookup_lt_Some. }
  destruct (ao_ptr _ _ _ _ H i p Hp) as [Hr Hw]. destruct (ao_str _ _ _ _ H i p l Hp Hl) as [Hn Hs].
  exists p. split; [done|]. split; [done|]. split; [by eapply reads_word; [exact Hw|lia]|].
  split; [done|]. split; [done|]. by eapply ustrlen_reads.
Qed.

Lemma count_args_ok u : args_ok u argv args ptrs -> strings_size args < 4294967296 ->
  forall post pre fuel, args = pre ++ post -> (length post < fuel)%nat ->
  count_args fuel argv (Z.of_nat (length pre)) (strings_size pre) u = Ok (Z.of_nat (length args), strings_size args) u.
Proof using.
  intros H Hsz. induction post as [|l post IH]; intros pre [|fuel] Ea Hf; cbn [length] in Hf; try lia;
    cbn [count_args]; unfold mbind.
  - rewrite app_nil_r in Ea. subst pre. by rewrite (reads_word u tmp _ 0 (ao_end _ _ _ _ H)) by lia.
  - destruct (arg_at u (length pre) l H) as (p & _ & Hp & -> & _ & _ & Es);
      [by rewrite Ea, lookup_app_r, Nat.sub_diag by lia|].
    rewrite (proj2 (Z.eqb_neq p 0)) by lia. rewrite Es.
    assert (args = (pre ++ [l]) ++ post) as Ea' by (by rewrite <- app_assoc).
    rewrite <- (IH (pre ++ [l]) fuel Ea') by lia. rewrite length_app, strings_size_app. cbn [length strings_size].
    rewrite Ea, strings_size_app in Hsz. cbn [strings_size] in Hsz.
    pose proof (strings_size_nonneg pre). pose proof (strings_size_nonneg post).
    rewrite u32_id by lia. f_equal; lia.
Qed.

(** The page at [UTEMP] is physical page [p], the program's only name for it. *)
Record stack_page (u : vm) (p : Z) : Prop := {
  sk_pte : upt u !! (self u, tmp) = Some (entry p 7);
  sk_range : 0 <= p < 1048576;
  sk_alone : forall w q, w <> tmp -> upt u !! (self u, w) = Some q -> frame q <> p
}.

Lemma stack_entry p : 0 <= p < 1048576 ->
  flag (entry p 7) PTE_U = true /\ flag (entry p 7) PTE_W = true /\ frame (entry p 7) = p.
Proof using. intros Hp. by rewrite !entry_flag, entry_frame by done. Qed.

Lemma args_ok_store u p m : stack_page u p -> (forall x, x / 4096 <> p -> m x = umem u x) ->
  args_ok u argv args ptrs -> args_ok (set_umem m u) argv args ptrs.
Proof using.
  intros [Hk Hp Ha] Hm H. destruct (stack_entry p Hp) as (_ & _ & Hfr).
  assert (forall a l, reads_as u tmp a l -> reads_as (set_umem m u) tmp a l) as Hr.
  { intros a l. apply (reads_as_store u tmp (entry p 7)); rewrite ?Hfr; done. }
  split; [apply H| | |].
  - intros i q Hq. destruct (ao_ptr _ _ _ _ H i q Hq). split; auto.
  - apply Hr, (ao_end _ _ _ _ H).
  - intros i q l Hq Hl. destruct (ao_str _ _ _ _ H i q l Hq Hl). split; auto.
Qed.

Lemma stack_store32 u p o x : stack_page u p -> 0 <= o <= 4092 ->
  exists m, store32 (tmp * 4096 + o) x u = Ok tt (set_umem m u) /\ forall y, m y = wr32 (umem u) (p * 4096 + o) x y.
Proof using.
  intros [Hk Hp _] Ho. destruct (stack_entry p Hp) as (HU & HW & Hfr).
  pose proof (store32_at u tmp (entry p 7) ltac:(done) Hk HU HW o x Ho) as H. rewrite u32_id, Hfr in H by lia. exact H.
Qed.

Lemma reads_as_bytes u v a l : reads_as u v a l -> Forall (fun b => 0 <= b < 256) l.
Proof using.
  intros (_ & _ & H). apply Forall_lookup. intros i b Hb. destruct (H i b Hb) as [Hs _]. unfold sees in Hs.
  destruct (paddr _ _ _ _); [|done]. injection Hs as <-. apply rd8_range.
Qed.

(** Where string [i] goes, as an offset in the page. *)
Definition str_off (i : nat) : Z := 4096 - strings_size (drop i args).

Lemma str_off_next i l : args !! i = Some l -> str_off (S i) = str_off i + Z.of_nat (length l) + 1.
Proof using. intros Hl. unfold str_off. rewrite (drop_S _ _ _ Hl). cbn. lia. Qed.

(** Pointer and string of argument [j] are in place in physical page [p], with
    the array at offset [ao]. *)
Definition stored (m : mem) (p ao : Z) (j : nat) (l : list Z) : Prop :=
  rd32 m (p * 4096 + ao + 4 * Z.of_nat j) = UTEMP2USTACK (tmp * 4096 + str_off j)
  /\ cstr m (p * 4096 + str_off j) l.

(** The two places are safe from what happens elsewhere. *)
Lemma stored_keep m m' p ao j l : stored m p ao j l ->
  (forall x, p * 4096 + ao + 4 * Z.of_nat j <= x < p * 4096 + ao + 4 * Z.of_nat j + 4 -> m' x = m x) ->
  (forall x, p * 4096 + str_off j <= x <= p * 4096 + str_off j + Z.of_nat (length l) -> m' x = m x) ->
  stored m' p ao j l.
Proof using.
  intros [H1 H2] Hw Hs. split; [rewrite <- H1; by apply rd32_ext|]. by eapply cstr_ext.
Qed.

Lemma store_args_ok p ao : 0 <= ao -> ao + 4 * Z.of_nat (length args) + 4 <= str_off 0 ->
  forall n i u, (i + n)%nat = length args -> stack_page u p -> args_ok u argv args ptrs ->
  exists m, store_args n (Z.of_nat i) argv (tmp * 4096 + ao) (tmp * 4096 + str_off i) u
      = Ok (tmp * 4096 + 4096) (set_umem m u)
    /\ (forall x, x < p * 4096 + ao + 4 * Z.of_nat i
          \/ p * 4096 + ao + 4 * Z.of_nat (length args) <= x < p * 4096 + str_off i
          \/ p * 4096 + 4096 <= x -> m x = umem u x)
    /\ (forall j l, (i <= j)%nat -> args !! j = Some l -> stored m p ao j l).
Proof using.
  intros Hao Hfit. induction n as [|n IH]; intros i u Hi Hsk Hargs; cbn [store_args].
  - exists (umem u). assert (i = length args) as -> by lia. unfold str_off at 1. rewrite drop_all. cbn [strings_size].
    rewrite Z.sub_0_r. split; [by destruct u|]. split; [done|]. intros j l Hj Hl.
    apply lookup_lt_Some in Hl. lia.
  - destruct (lookup_lt_is_Some_2 args i) as [l Hl]; [lia|].
    destruct (arg_at u i l Hargs Hl) as (q & Hq & Hqr & _ & Hnz & _).
    pose proof (str_off_next i l Hl) as Hnext. destruct (stack_entry p (sk_range _ _ Hsk)) as (HU & HW & Hfr).
    assert (str_off 0 <= str_off i /\ str_off (S i) <= 4096) as [Hso Hso'].
    { unfold str_off. rewrite drop_0. pose proof (strings_size_app (take i args) (drop i args)) as E.
      rewrite take_drop in E. pose proof (strings_size_nonneg (take i args)).
      pose proof (strings_size_nonneg (drop (S i) args)). lia. }
    unfold mbind at 1. replace (tmp * 4096 + ao + 4 * Z.of_nat i) with (tmp * 4096 + (ao + 4 * Z.of_nat i)) by lia.
    destruct (stack_store32 u p (ao + 4 * Z.of_nat i) (UTEMP2USTACK (tmp * 4096 + str_off i)) Hsk) as (m1 & -> & Hm1); [lia|].
    assert (forall x, x / 4096 <> p -> m1 x = umem u x) as Hout1 by (intros x Hx; rewrite Hm1; apply wr32_out; zdm).
    pose proof (args_ok_store u p m1 Hsk Hout1 Hargs) as Hargs1.
    destruct (arg_at (set_umem m1 u) i l Hargs1 Hl) as (q' & Hq' & _ & Eload & _ & Hr1 & _).
    assert (q' = q) as -> by congruence. unfold mbind at 1. rewrite Eload. unfold mbind at 1.
    rewrite (ustrcpy_copies u tmp (entry p 7) ltac:(done) (sk_pte _ _ Hsk) HU HW
      ltac:(rewrite Hfr; apply Hsk) l (str_off i) q (set_umem m1 u)) by (done || lia).
    rewrite Hfr. cbn [umem set_umem]. set (m2 := wrbytes m1 (p * 4096 + str_off i) (l ++ [0])).
    assert (forall x, x < p * 4096 + str_off i \/ p * 4096 + str_off i + Z.of_nat (length l) + 1 <= x -> m2 x = m1 x) as Hout2.
    { intros x Hx. apply wrbytes_out. rewrite length_app. cbn. lia. }
    change (set_umem m2 (set_umem m1 u)) with (set_umem m2 u).
    assert (args_ok (set_umem m2 u) argv args ptrs) as Hargs2.
    { apply (args_ok_store u p); [done| |done]. intros x Hx. rewrite Hout2 by zdm. by apply Hout1. }
    destruct (arg_at (set_umem m2 u) i l Hargs2 Hl) as (q' & Hq2 & _ & _ & _ & _ & Elen).
    assert (q' = q) as -> by congruence. unfold mbind at 1. rewrite Elen.
    replace (tmp * 4096 + str_off i + Z.of_nat (length l) + 1) with (tmp * 4096 + str_off (S i)) by lia.
    replace (Z.of_nat i + 1) with (Z.of_nat (S i)) by lia.
    destruct (IH (S i) (set_umem m2 u) ltac:(lia)) as (m & E & Hm & Hst); [by destruct Hsk|done|].
    exists m. split; [exact E|]. cbn [umem set_umem] in Hm. split.
    + intros x Hx. rewrite Hm by lia. rewrite Hout2 by lia. rewrite Hm1. apply wr32_out. lia.
    + intros j k Hj Hk. destruct (decide (j = i)) as [->|Hne]; [|apply Hst; [lia|done]].
      assert (k = l) as -> by congruence.
      apply (stored_keep m2); [split|intros x Hx; apply Hm; lia|intros x Hx; apply Hm; lia].
      * replace (p * 4096 + ao + 4 * Z.of_nat i) with (p * 4096 + (ao + 4 * Z.of_nat i)) by lia.
        rewrite (rd32_ext _ (wr32 (umem u) (p * 4096 + (ao + 4 * Z.of_nat i)) (UTEMP2USTACK (tmp * 4096 + str_off i)))).
        -- rewrite rd32_wr32_eq. unfold UTEMP2USTACK. apply u32_id, u32_range.
        -- intros x Hx. rewrite Hout2 by lia. apply Hm1.
      * apply cstr_wrbytes. pose proof (reads_as_bytes _ _ _ _ Hr1) as Hb. apply Forall_app in Hb as [Hb _].
        rewrite Forall_forall in *. intros b Hin. specialize (Hb b Hin). specialize (Hnz b Hin). lia.
Qed.

Lemma args_ok_stable u u' : self u' = self u ->
  (forall w, w <> tmp -> upt u' !! (self u, w) = upt u !! (self u, w)) ->
  (forall w q x, w <> tmp -> upt u !! (self u, w) = Some q -> x / 4096 = frame q -> umem u' x = umem u x) ->
  args_ok u argv args ptrs -> args_ok u' argv args ptrs.
Proof using.
  intros He Hu Hm H. assert (forall a l, reads_as u tmp a l -> reads_as u' tmp a l) as Hr
    by (intros a l; by apply reads_as_stable).
  split; [apply H| |apply Hr, (ao_end _ _ _ _ H)|].
  - intros i q Hq. destruct (ao_ptr _ _ _ _ H i q Hq). split; auto.
  - intros i q l Hq Hl. destruct (ao_str _ _ _ _ H i q l Hq Hl). split; auto.
Qed.

(** Where the array goes, as an offset in the page. *)
Definition argv_off : Z := str_off 0 - str_off 0 mod 4 - 4 * (Z.of_nat (length args) + 1).

(** The page is built: the arguments, the null pointer, and the two words that
    the child's entry point finds on its stack. *)
Record stack_built (m : mem) (p : Z) : Prop := {
  sb_args : forall j l, args !! j = Some l -> stored m p argv_off j l;
  sb_null : rd32 m (p * 4096 + argv_off + 4 * Z.of_nat (length args)) = 0;
  sb_argv : rd32 m (p * 4096 + argv_off - 4) = UTEMP2USTACK (tmp * 4096 + argv_off);
  sb_argc : rd32 m (p * 4096 + argv_off - 8) = Z.of_nat (length args)
}.

(** The three stores after the loop. *)
Lemma stack_words u p m0 : stack_page u p -> 8 <= argv_off -> Z.of_nat (length args) < 1048576 ->
  (forall j l, args !! j = Some l -> stored m0 p argv_off j l) ->
  exists m, (do! store32 (tmp * 4096 + argv_off + 4 * Z.of_nat (length args)) 0 in
             do! store32 (tmp * 4096 + argv_off - 4) (UTEMP2USTACK (tmp * 4096 + argv_off)) in
             store32 (tmp * 4096 + argv_off - 8) (Z.of_nat (length args))) (set_umem m0 u) = Ok tt (set_umem m u)
    /\ (forall x, x / 4096 <> p -> m x = m0 x) /\ stack_built m p.
Proof using.
  intros Hsk Ha Hn Hst. set (n := Z.of_nat (length args)) in *. set (ao := argv_off) in *.
  assert (ao + 4 * n + 4 <= str_off 0 /\ str_off 0 <= 4096) as [Hfit Hmax].
  { unfold ao, argv_off. fold n. unfold str_off. rewrite drop_0. pose proof (strings_size_nonneg args). zdm. }
  assert (forall m', stack_page (set_umem m' u) p) as Hsk' by (intros; by destruct Hsk).
  replace (tmp * 4096 + ao + 4 * n) with (tmp * 4096 + (ao + 4 * n)) by lia.
  replace (tmp * 4096 + ao - 4) with (tmp * 4096 + (ao - 4)) by lia.
  replace (tmp * 4096 + ao - 8) with (tmp * 4096 + (ao - 8)) by lia. unfold mbind.
  destruct (stack_store32 (set_umem m0 u) p (ao + 4 * n) 0 (Hsk' m0)) as (m1 & -> & Hm1); [lia|].
  destruct (stack_store32 (set_umem m1 (set_umem m0 u)) p (ao - 4) (UTEMP2USTACK (tmp * 4096 + ao)) (Hsk' m1)) as (m2 & -> & Hm2); [lia|].
  destruct (stack_store32 (set_umem m2 (set_umem m1 (set_umem m0 u))) p (ao - 8) n (Hsk' m2)) as (m3 & -> & Hm3); [lia|].
  cbn [umem set_umem] in Hm1, Hm2, Hm3. exists m3. split; [done|].
  assert (forall x, x < p * 4096 + ao - 8 \/ p * 4096 + ao <= x < p * 4096 + ao + 4 * n \/ p * 4096 + ao + 4 * n + 4 <= x ->
    m3 x = m0 x) as Hkeep by (intros x Hx; rewrite Hm3, wr32_out, Hm2, wr32_out, Hm1, wr32_out by lia; done).
  assert (forall x, p * 4096 + ao <= x -> m3 x = m1 x) as H31
    by (intros x Hx; rewrite Hm3, wr32_out, Hm2, wr32_out by lia; done).
  split; [intros x Hx; apply Hkeep; zdm|]. split.
  - intros j l Hl. apply (stored_keep m0); [by apply Hst|intros x Hx; apply Hkeep|intros x Hx; apply Hkeep].
    + apply lookup_lt_Some in Hl. unfold n. fold ao in Hx. lia.
    + right; right. assert (str_off 0 <= str_off j); [|lia]. unfold str_off. rewrite drop_0.
      pose proof (strings_size_app (take j args) (drop j args)) as E. rewrite take_drop in E.
      pose proof (strings_size_nonneg (take j args)). lia.
  - fold ao n. rewrite (rd32_ext _ (wr32 m0 (p * 4096 + ao + 4 * n) 0)), rd32_wr32_eq; [done|].
    intros x Hx. rewrite H31, Hm1 by lia. by rewrite Z.add_assoc.
  - fold ao. rewrite (rd32_ext _ (wr32 m1 (p * 4096 + ao - 4) (UTEMP2USTACK (tmp * 4096 + ao)))), rd32_wr32_eq.
    + unfold UTEMP2USTACK. apply u32_id, u32_range.
    + intros x Hx. rewrite Hm3, wr32_out, Hm2 by lia. by rewrite Z.add_sub_assoc.
  - fold ao n. rewrite (rd32_ext _ (wr32 m2 (p * 4096 + ao - 8) n)), rd32_wr32_eq; [apply u32_id; lia|].
    intros x Hx. rewrite Hm3. by rewrite Z.add_sub_assoc.
Qed.

End args.

(** Memory as an environment sees it. *)
Definition view (u : vm) (e : Z) : mem := fun a => default 0 (sees u e a).

Lemma view_page u e v p o : upt u !! (e, v) = Some (entry p 7) -> 0 <= p < 1048576 -> 0 <= o < 4096 ->
  rd8 (view u e) (v * 4096 + o) = rd8 (umem u) (p * 4096 + o).
Proof.
  intros Hu Hp Ho. unfold view, sees, rd8 at 1. unfold paddr, PGSIZE.
  replace ((v * 4096 + o) / 4096) with v by zdm. replace ((v * 4096 + o) mod 4096) with o by zdm.
  rewrite Hu. destruct (stack_entry p Hp) as (-> & _ & ->). cbn. unfold rd8. by rewrite u8_u8.
Qed.

Lemma view_word u e v p o : upt u !! (e, v) = Some (entry p 7) -> 0 <= p < 1048576 -> 0 <= o <= 4092 ->
  rd32 (view u e) (v * 4096 + o) = rd32 (umem u) (p * 4096 + o).
Proof.
  intros Hu Hp Ho. unfold rd32. rewrite <- !Z.add_assoc.
  rewrite !(view_page u e v p) by (done || lia). done.
Qed.

Lemma three_stores {A} (s1 s2 s3 : M vm unit) (k : M vm A) u u' :
  mbind s1 (fun _ => mbind s2 (fun _ => s3)) u = Ok tt u' ->
  mbind s1 (fun _ => mbind s2 (fun _ => mbind s3 (fun _ => k))) u = k u'.
Proof.
  unfold mbind. destruct (s1 u) as [[] u1| |]; [|done|done]. destruct (s2 u1) as [[] u2| |]; [|done|done].
  by intros ->.
Qed.

(** The page of the child's stack. *)
Definition stack_vpn : Z := (USTACKTOP - PGSIZE) / PGSIZE.

Lemma UTEMP2USTACK_page o : 0 <= o < 4096 -> UTEMP2USTACK (tmp * 4096 + o) = stack_vpn * 4096 + o.
Proof.
  intros Ho. unfold UTEMP2USTACK. change (USTACKTOP - PGSIZE) with 4005548032. change UTEMP with 4194304.
  change stack_vpn with 977917. rewrite u32_id by lia. lia.
Qed.

(** Where the strings and the array go. *)
Lemma stack_layout args :
  strings_size args + 4 * Z.of_nat (length args) <= UTEMP ->
  u32 (UTEMP + PGSIZE - strings_size args) = tmp * 4096 + str_off args 0
  /\ u32 (ROUNDDOWN (tmp * 4096 + str_off args 0) 4 - 4 * (Z.of_nat (length args) + 1)) = tmp * 4096 + argv_off args
  /\ argv_off args + 4 * Z.of_nat (length args) + 4 <= str_off args 0 <= 4096.
Proof.
  change UTEMP with 4194304. intros Hsize. pose proof (strings_size_nonneg args) as Hnn.
  assert (str_off args 0 = 4096 - strings_size args) as Eso by (unfold str_off; by rewrite drop_0).
  unfold argv_off. set (n := Z.of_nat (length args)) in *. assert (0 <= n) as Hn by lia. set (so := str_off args 0) in *.
  pose proof (Z.mod_pos_bound so 4 ltac:(lia)) as Hmod. split; [|split; [|lia]].
  - unfold PGSIZE. rewrite u32_id by lia. lia.
  - unfold ROUNDDOWN. rewrite (u32_id (tmp * 4096 + so)) by lia. clearbody n so.
    assert ((tmp * 4096 + so) mod 4 = so mod 4) as -> by zdm. rewrite u32_id by lia. lia.
Qed.

(** Every string lies between the array and the end of the page. *)
Lemma str_off_inside args j l :
  args !! j = Some l -> str_off args 0 <= str_off args j /\ str_off args j + Z.of_nat (length l) < 4096.
Proof.
  intros Hl. pose proof (str_off_next args j l Hl) as Hnext. unfold str_off in *. rewrite drop_0.
  pose proof (strings_size_app (take j args) (drop j args)) as E. rewrite take_drop in E.
  pose proof (strings_size_nonneg (take j args)). pose proof (strings_size_nonneg (drop (S j) args)). lia.
Qed.

(** The child sees the page that was built. *)
Lemma stack_seen u c args p :
  upt u !! (c, stack_vpn) = Some (entry p 7) -> 0 <= p < 1048576 -> 8 <= argv_off args ->
  strings_size args + 4 * Z.of_nat (length args) <= UTEMP -> stack_built args (umem u) p ->
  let esp := stack_vpn * 4096 + argv_off args - 8 in
  rd32 (view u c) esp = Z.of_nat (length args) /\ rd32 (view u c) (esp + 4) = esp + 8
  /\ (forall j l, args !! j = Some l -> cstr (view u c) (rd32 (view u c) (esp + 8 + 4 * Z.of_nat j)) l)
  /\ rd32 (view u c) (esp + 8 + 4 * Z.of_nat (length args)) = 0.
Proof.
  intros Hlk Hp Hao Hsize [B1 B2 B3 B4] esp. destruct (stack_layout args Hsize) as (_ & _ & Hfit).
  set (ao := argv_off args) in *. set (n := Z.of_nat (length args)) in *.
  assert (forall o, 0 <= o <= 4092 -> rd32 (view u c) (stack_vpn * 4096 + o) = rd32 (umem u) (p * 4096 + o)) as Hw
    by (intros o Ho; by apply (view_word u c stack_vpn p)).
  unfold esp. split; [|split; [|split]].
  - replace (stack_vpn * 4096 + ao - 8) with (stack_vpn * 4096 + (ao - 8)) by lia. rewrite Hw by lia.
    by rewrite Z.add_sub_assoc.
  - replace (stack_vpn * 4096 + ao - 8 + 4) with (stack_vpn * 4096 + (ao - 4)) by lia. rewrite Hw by lia.
    rewrite Z.add_sub_assoc, B3, UTEMP2USTACK_page by lia. lia.
  - intros j l Hl. destruct (B1 j l Hl) as [Hptr Hstr]. pose proof (lookup_lt_Some _ _ _ Hl) as Hj.
    replace (stack_vpn * 4096 + ao - 8 + 8 + 4 * Z.of_nat j) with (stack_vpn * 4096 + (ao + 4 * Z.of_nat j)) by lia.
    rewrite Hw by lia. rewrite Z.add_assoc, Hptr. destruct (str_off_inside args j l Hl).
    rewrite UTEMP2USTACK_page by lia. apply (cstr_move (umem u) _ _ (p * 4096 + str_off args j)); [|done].
    intros k Hk. rewrite <- !Z.add_assoc. apply (view_page u c stack_vpn p); [done|done|lia].
  - replace (stack_vpn * 4096 + ao - 8 + 8 + 4 * n) with (stack_vpn * 4096 + (ao + 4 * n)) by lia.
    rewrite Hw by lia. by rewrite Z.add_assoc.
Qed.

(** C8: [init_stack] hands the arguments over.  When they fit in a page, with
    their pointers and two words more, and there is a page to be had, it
    returns 0 and the child's stack begins with [argc], then [argv], which is
    the address of the words after it, the pointers and a null pointer; each
    pointer is the address, in the child, of the string that was given.  The
    child gets that page and no environment's mappings change otherwise.  When
    they do not fit the result is -E_NO_MEM and nothing changes. *)
Theorem init_stack_args u c argv args ptrs :
  args_ok u argv args ptrs -> c ∈ own u -> c <> 0 -> c <> self u -> upt u !! (self u, tmp) = None ->
  0 <= argv -> strings_size args + 4 * Z.of_nat (length args) <= UTEMP -> supplied 1 u ->
  let ao := argv_off args in
  let esp := stack_vpn * 4096 + ao - 8 in
  (ao < 8 -> init_stack c argv u = Ok (- E_NO_MEM, 0) u)
  /\ (8 <= ao -> exists u' p, init_stack c argv u = Ok (0, esp) u'
       /\ upt u' = <[(c, stack_vpn) := entry p 7]> (upt u) /\ uref u p = 0
       /\ rd32 (view u' c) esp = Z.of_nat (length args)
       /\ rd32 (view u' c) (esp + 4) = esp + 8
       /\ (forall j l, args !! j = Some l -> cstr (view u' c) (rd32 (view u' c) (esp + 8 + 4 * Z.of_nat j)) l)
       /\ rd32 (view u' c) (esp + 8 + 4 * Z.of_nat (length args)) = 0).
Proof.
  intros Hargs Hown Hc0 Hcs Htmp Hargv Hsize Hs ao esp. set (n := Z.of_nat (length args)) in *.
  destruct (stack_layout args Hsize) as (Ess & Eas & Hfit). fold ao n in Eas, Hfit.
  assert (count_args (Z.to_nat (4294967296 - argv)) argv 0 0 u = Ok (n, strings_size args) u) as Ecount.
  { pose proof (strings_size_nonneg args). change UTEMP with 4194304 in Hsize.
    apply (count_args_ok argv args ptrs u Hargs ltac:(lia) args []); [done|].
    destruct (ao_end _ _ _ _ Hargs) as (_ & H' & _). cbn in H'. lia. }
  set (so := str_off args 0) in *. assert (-4190300 <= ao) as Hlow.
  { unfold ao, argv_off. fold n. fold so. change UTEMP with 4194304 in Hsize.
    assert (so = 4096 - strings_size args) by (unfold so, str_off; by rewrite drop_0). pose proof (Z.mod_pos_bound so 4 ltac:(lia)). lia. }
  split; intros Hao; unfold init_stack; unfold mbind at 1; rewrite Ecount; cbv beta iota zeta; rewrite Ess, Eas;
    rewrite (u32_id (tmp * 4096 + ao - 8)) by lia; change UTEMP with (tmp * 4096).
  { by rewrite (proj2 (Z.ltb_lt (tmp * 4096 + ao - 8) (tmp * 4096))) by lia. }
  rewrite (proj2 (Z.ltb_ge (tmp * 4096 + ao - 8) (tmp * 4096))) by lia.
  destruct Hs as [H1 Hnd H3]. destruct (offers u) as [|p [|q rest]] eqn:Eo; [cbn in H1; lia|cbn in H1; lia|].
  destruct (H3 p) as [Hp H0]; [by left|]. destruct (H3 q) as [Hq _]; [by right; left|].
  set (u1 := map_page (self u) tmp (entry p 7) (set_umem (mset (umem u) (p * 4096) 0 4096) (set_offers (q :: rest) u))).
  assert (sys_page_alloc 0 (tmp * 4096) RW u = Ok 0 u1) as E1 by (by apply (page_alloc_ok u 0 (self u) tmp 7 p (q :: rest))).
  unfold mbind at 1.
  rewrite E1. change (0 <? 0) with false. cbv beta iota.
  assert (stack_page u1 p) as Hsk.
  { split; [cbn; by rewrite lookup_insert_eq|done|]. intros w x Hw. cbn. rewrite lookup_insert_ne by congruence.
    intros Hx. by apply (uref_0_fresh u p (self u) w x). }
  assert (args_ok u1 argv args ptrs) as Hargs1.
  { apply (args_ok_stable argv args ptrs u); [done| | |done].
    - intros w Hw. cbn. by rewrite lookup_insert_ne by congruence.
    - intros w x a Hw Hx Ha. cbn. apply mset_out. pose proof (uref_0_fresh u p _ _ _ H0 Hx). zdm. }
  destruct (store_args_ok argv args ptrs p ao ltac:(lia) ltac:(exact (proj1 Hfit)) (length args) 0 u1 ltac:(lia) Hsk Hargs1)
    as (m0 & E2 & Hm0 & Hst). unfold mbind at 1. unfold n at 1. rewrite Nat2Z.id. fold so in E2.
  change (Z.of_nat 0) with 0 in E2. rewrite E2.
  change (negb (tmp * 4096 + 4096 =? tmp * 4096 + PGSIZE)) with false. cbv iota.
  destruct (stack_words args u1 p m0 Hsk Hao ltac:(fold n; lia) ltac:(intros j l; apply Hst; lia))
    as (m & E3 & Hm & Hb). fold ao n in E3. rewrite (three_stores _ _ _ _ _ _ E3).
  set (u2 := set_umem m u1). destruct (stack_entry p Hp) as (HU & HW & Hfr).
  assert (sys_page_map 0 (tmp * 4096) c (USTACKTOP - PGSIZE) RW u2
    = Ok 0 (map_page c stack_vpn (entry p 7) u2)) as E4.
  { rewrite <- Hfr at 1. apply (page_map_ok u2 0 tmp c stack_vpn 7 (self u) c (entry p 7)); try done.
    - unfold resolve. destruct (Z.eqb_spec c 0); [done|]. by rewrite decide_True.
    - cbn. by rewrite lookup_insert_eq.
    - cbn. destruct (Z.ltb_spec q 0); [lia|done]. }
  set (u3 := map_page c stack_vpn (entry p 7) u2) in *.
  unfold mbind at 1. rewrite E4. change (0 <? 0) with false. cbv beta iota.
  set (u4 := set_upt (delete (self u, tmp) (upt u3)) u3).
  unfold mbind. change (sys_page_unmap 0 (tmp * 4096) u3) with (Ok 0 u4 : res vm Z). cbv beta iota.
  change (0 <? 0) with false. cbv iota. exists u4, p.
  assert (upt u4 = <[(c, stack_vpn) := entry p 7]> (upt u)) as Eupt.
  { cbn. rewrite delete_insert_ne by congruence. f_equal. by apply delete_insert_id. }
  assert (upt u4 !! (c, stack_vpn) = Some (entry p 7)) as Hlk by (by rewrite Eupt, lookup_insert_eq).
  replace (tmp * 4096 + ao - 8) with (tmp * 4096 + (ao - 8)) by lia. rewrite UTEMP2USTACK_page by lia.
  split; [unfold esp; do 2 f_equal; lia|]. split; [done|]. split; [done|].
  exact (stack_seen u4 c args p Hlk Hp Hao Hsize Hb).
Qed.

(** ** Shared pages *)

(** The entry the child gets for a shared page of the parent. *)
Definition share_entry (old : option Z) (pte : option Z) : option Z :=
  match pte with
  | Some x => if flag x PTE_SHARE then Some (entry (frame x) (Z.land x PTE_SYSCALL)) else old
  | None => old
  end.

(** The pages below [j] have been looked at. *)
Record shared_to (u0 : vm) (c j : Z) (u : vm) : Prop := {
  sh_rest : self u = self u0 /\ own u = own u0 /\ offers u = offers u0 /\ umem u = umem u0 /\ ustatus u = ustatus u0;
  sh_tab : utab u0 ⊆ utab u;
  sh_child : forall v, upt u !! (c, v)
    = if decide (0 <= v < j) then share_entry (upt u0 !! (c, v)) (upt u0 !! (self u0, v)) else upt u0 !! (c, v);
  sh_other : forall e v, e <> c -> upt u !! (e, v) = upt u0 !! (e, v)
}.

Lemma copy_shared_page_step u0 c j u : c <> self u0 -> c <> 0 -> self u0 <> 0 -> c ∈ own u0 -> self u0 ∈ own u0 ->
  no_memory u0 = false ->
  (forall v pte, upt u0 !! (self u0, v) = Some pte -> (self u0, v / 1024) ∈ utab u0) ->
  0 <= j < 977920 -> shared_to u0 c j u ->
  wp (copy_shared_page c j) (fun r u' => r = None /\ shared_to u0 c (j + 1) u') u.
Proof.
  intros Hcs Hc0 Hs0 Hco Hso Hmem Htab Hj H. destruct H as [(R1 & R2 & R3 & R4 & R5) T C O].
  unfold copy_shared_page. wstep. wstep. unfold present. rewrite R1, (O (self u0)) by congruence.
  assert (share_entry (upt u0 !! (c, j)) (upt u0 !! (self u0, j)) = upt u !! (c, j) ->
    shared_to u0 c (j + 1) u) as Hskip.
  { intros E. split; [done|done| |done]. intros v. rewrite C. do 2 destruct (decide _); try lia; try done.
    replace v with j by lia. rewrite C, decide_False in E by lia. done. }
  rewrite C, decide_False in Hskip by lia.
  destruct (upt u0 !! (self u0, j)) as [pte|] eqn:Hu; cbn [negb]; [|wstep; split; [done|by apply Hskip]].
  wstep. eapply wp_of; [apply uvpt_ok; rewrite R1; apply T; by eapply Htab|].
  rewrite R1, (O (self u0)), Hu by congruence. cbn [default id].
  destruct (flag pte PTE_SHARE) eqn:Esh; [|wstep; split; [done|apply Hskip; cbn; by rewrite Esh]].
  wstep. wstep. rewrite R1. wstep.
  assert (forall e, e <> 0 -> e ∈ own u0 -> resolve u e = Some e) as Hres
    by (intros e He Hin; unfold resolve; rewrite R2; destruct (Z.eqb_spec e 0); [done|]; by rewrite decide_True).
  eapply wp_of.
  { apply (page_map_ok u (self u0) j c j _ (self u0) c pte); try done; try (by apply Hres).
    - apply bad_perm_masked.
    - rewrite O by congruence. exact Hu.
    - by rewrite flag_masked.
    - unfold no_memory in *. by rewrite R3. }
  wstep. split; [done|]. split; [done|cbn; set_solver| |].
  - intros v. cbn. destruct (decide (v = j)) as [->|Hne].
    + rewrite lookup_insert_eq, decide_True by lia. rewrite Hu. cbn. by rewrite Esh.
    + rewrite lookup_insert_ne by congruence. rewrite C. by do 2 destruct (decide _); try lia.
  - intros e v He. cbn. rewrite lookup_insert_ne by congruence. by apply O.
Qed.

Lemma copy_shared_loop u c n : c <> self u -> c <> 0 -> self u <> 0 -> c ∈ own u -> self u ∈ own u ->
  no_memory u = false -> (forall v pte, upt u !! (self u, v) = Some pte -> (self u, v / 1024) ∈ utab u) ->
  Z.of_nat n <= 977920 ->
  wp (mfor n 0 (copy_shared_page c)) (fun r u' => r = None /\ shared_to u c (Z.of_nat n) u') u.
Proof.
  intros Hcs Hc0 Hs0 Hco Hso Hmem Htab Hn. apply (wp_mfor _ _ (shared_to u c)).
  - split; [done|done| |done]. intros v. by rewrite decide_False by lia.
  - intros j u1 Hj H1. eapply wp_mono; [apply (copy_shared_page_step u c j u1); done || lia|by intros r u' [-> H']].
  - intros u1 H1. by rewrite Z.add_0_l in H1.
Qed.

(** [copy_shared_pages] returns 0 and gives the child exactly the pages the
    parent marked to be shared, the same physical pages with the same rights,
    and changes nothing else. *)
Theorem copy_shared_pages_shares u c : c <> self u -> c <> 0 -> self u <> 0 -> c ∈ own u -> self u ∈ own u ->
  no_memory u = false ->
  (forall v pte, upt u !! (self u, v) = Some pte -> 0 <= v < 977920 /\ (self u, v / 1024) ∈ utab u) ->
  exists u', copy_shared_pages c u = Ok 0 u' /\ umem u' = umem u
    /\ (forall v, upt u' !! (c, v) = share_entry (upt u !! (c, v)) (upt u !! (self u, v)))
    /\ (forall e v, e <> c -> upt u' !! (e, v) = upt u !! (e, v)).
Proof.
  intros Hcs Hc0 Hs0 Hco Hso Hmem Hwf.
  pose proof (copy_shared_loop u c (Z.to_nat (PGNUM UTOP)) Hcs Hc0 Hs0 Hco Hso Hmem
    (fun v pte Hv => proj2 (Hwf v pte Hv))) as H.
  rewrite Z2Nat.id in H by (vm_compute; discriminate). specialize (H ltac:(vm_compute; discriminate)).
  change (PGNUM UTOP) with 977920 in H.
  apply wp_run in H as (r & u' & E & -> & [(_ & _ & _ & Hm & _) _ C O]). exists u'.
  unfold copy_shared_pages, mbind. change (PGNUM UTOP) with 977920. rewrite E. split; [done|]. split; [done|]. split; [|done].
  intros v. rewrite C. destruct (decide _) as [|Hv]; [done|].
  destruct (upt u !! (self u, v)) as [pte|] eqn:Hu; [|done]. by destruct (Hwf v pte Hu).
Qed.

(** ** What a failed [spawn] leaves behind *)

Lemma load32_same u u' a x : upt u' = upt u -> self u' = self u -> umem u' = umem u ->
  load32 a u = Ok x u -> load32 a u' = Ok x u'.
Proof.
  intros E1 E2 E3. assert (forall b, paddr u' (self u') false b = paddr u (self u) false b) as Hp
    by (intros b; unfold paddr; by rewrite E1, E2).
  unfold load32, mbind, load8. do 4 (rewrite ?Hp, ?E3; destruct (paddr u _ _ _); [|done]).
  unfold mret. intros [= H]. by rewrite H.
Qed.

(** The environment is created before the arguments are looked at.  When they do
    not fit, [spawn] returns -E_NO_MEM and leaves both the child, which never
    runs, and the descriptor of the program file. *)
Theorem spawn_leaks devtab open elf_buf prog argv fd c rest args ptrs entry_ (s : pst) (u2 : vm) :
  (let! fd := open prog O_RDONLY in
   let! n := readn devtab fd elf_buf 512 in
   let! magic := load32 elf_buf in
   let! e := load32 (elf_buf + Env.off_e_entry) in
   mret (fd, n, magic, e)) (pvm s) = Ok (fd, 512, Env.ELF_MAGIC, entry_) u2 ->
  0 <= fd -> newenvs u2 = c :: rest -> 0 < c -> c <> self u2 ->
  args_ok u2 argv args ptrs -> upt u2 !! (self u2, tmp) = None -> 0 <= argv ->
  strings_size args + 4 * Z.of_nat (length args) <= UTEMP -> supplied 1 u2 -> argv_off args < 8 ->
  exists s', spawn devtab open elf_buf prog argv s = Ok (- E_NO_MEM) s'
    /\ upt (pvm s') = upt u2 /\ c ∈ own (pvm s') /\ ustatus (pvm s') !! c = Some ENV_NOT_RUNNABLE.
Proof.
  intros Hpre Hfd Hnew Hc Hcs Hargs Htmp Hargv Hsize Hsup Hao.
  set (u3 := set_ustatus (<[c := ENV_NOT_RUNNABLE]> (ustatus u2)) (set_own ({[c]} ∪ own u2) (set_newenvs rest u2))).
  assert (init_stack c argv u3 = Ok (- E_NO_MEM, 0) u3) as Estack.
  { apply (init_stack_args u3 c argv args ptrs); try done; [..|lia|].
    - by apply (args_ok_stable argv args ptrs u2).
    - cbn. set_solver.
    - by apply (supplied_ext 1 1 u2). }
  assert (forall (A : Type) (m : M vm A) (x : A) u u' g, m u = Ok x u' -> on_vm m (mkPst u g) = Ok x (mkPst u' g)) as Hon
    by (intros A m x u u' g E; unfold on_vm; cbn; by rewrite E).
  destruct s as [u g]. cbn [pvm] in Hpre. unfold mbind in Hpre.
  destruct (open prog O_RDONLY u) as [fd' u1| |] eqn:E1; [|done|done].
  destruct (readn devtab fd' elf_buf 512 u1) as [n u1'| |] eqn:E2; [|done|done].
  destruct (load32 elf_buf u1') as [mg u1''| |] eqn:E3; [|done|done].
  destruct (load32 (elf_buf + Env.off_e_entry) u1'') as [en u2'| |] eqn:E4; [|done|done].
  injection Hpre as -> -> -> -> ->.
  assert (u1'' = u2) as ->.
  { revert E4. unfold load32, mbind, load8. repeat (destruct (paddr _ _ _ _); [|done]). by intros [= _ ->]. }
  assert (u1' = u2) as ->.
  { revert E3. unfold load32, mbind, load8. repeat (destruct (paddr _ _ _ _); [|done]). by intros [= _ ->]. }
  exists (mkPst u3 (<[c := set_eax 0 (g (self u2))]> g)). split; [|split; [done|split; [cbn; set_solver|by cbn; rewrite lookup_insert_eq]]].
  unfold spawn. unfold mbind at 1. rewrite (Hon _ _ _ _ _ g E1). destruct (Z.ltb_spec fd 0); [lia|].
  unfold mbind at 1. rewrite (Hon _ _ _ _ _ g E2). unfold mbind at 1. change (negb (512 =? 512)) with false. cbv iota.
  rewrite (Hon _ _ _ _ _ g E3). change (negb (Env.ELF_MAGIC =? Env.ELF_MAGIC)) with false. cbn [orb].
  assert (exofork (mkPst u2 g) = Ok c (mkPst u3 (<[c := set_eax 0 (g (self u2))]> g))) as Ex.
  { unfold exofork. unfold mbind at 1. rewrite (Hon _ _ c u2 u3 g); [|unfold sys_exofork; by rewrite Hnew].
    destruct (Z.ltb_spec c 0); [lia|done]. }
  unfold mbind at 1. rewrite Ex. destruct (Z.ltb_spec c 0); [lia|]. unfold mbind at 1. unfold mgets at 1.
  unfold mbind at 1. rewrite (Hon _ _ entry_ u3 u3) by (by apply (load32_same u2)).
  unfold mbind at 1. rewrite (Hon _ _ _ _ _ _ Estack). done.
Qed.

(** ** Examples *)

Lemma file_vm_supplied n : (n < 4)%nat -> supplied n file_vm.
Proof.
  intros Hn. split; [cbn; lia|apply (bool_decide_unpack _); vm_compute; exact I|].
  apply Forall_forall. repeat apply Forall_cons_2; [..|apply Forall_nil_2]; (split; [lia|vm_compute; reflexivity]).
Qed.

Lemma file_vm_reads : FileReads file_devtab 3 4097 six (file_at six_file) (file_pages six_file).
Proof.
  exact (devfile_keeps_contract six_ipc six_file 0 file_devtab 8 1 8 six eq_refl six_layout six_bytes six_served).
Qed.

Lemma file_vm_loadable : loadable 4097 4102 (file_at six_file) file_vm.
Proof. split; [exists 2; exact file_vm_at|vm_compute; reflexivity|reflexivity]. Qed.

(** Four bytes of the file from its second one, six more of zeros, at an address
    that is not aligned. *)
Lemma map_segment_loads_witness :
  exists u', map_segment file_devtab 4102 8388609 10 3 4 1 7 file_vm = Ok 0 u'
    /\ sees u' 4102 8388609 = Some 12 /\ sees u' 4102 8388612 = Some 15 /\ sees u' 4102 8388613 = Some 0.
Proof.
  destruct (map_segment_loads file_devtab 3 4097 4102 six (file_at six_file) (file_pages six_file)
    (HFR := file_vm_reads) ltac:(discriminate) ltac:(discriminate) 7 (or_intror eq_refl) six_bytes
    file_vm 8388609 10 4 1 file_vm_loadable) as (u' & E & _ & Hs & _).
  - apply file_vm_supplied. vm_compute. lia.
  - lia.
  - lia.
  - vm_compute. discriminate.
  - vm_compute. discriminate.
  - cbn. lia.
  - reflexivity.
  - exists u'. split; [exact E|].
    split; [exact (Hs 0 ltac:(lia))|]. split; [exact (Hs 3 ltac:(lia))|exact (Hs 4 ltac:(lia))].
Defined.

(** One argument, ["hi"], in the program's own page. *)
Definition args_vm : vm :=
  set_umem (wrbytes (wr32 (wr32 (umem file_vm) 49152 12288032) 49156 0) 49184 [104; 105; 0]) file_vm.

Lemma args_vm_ok : args_ok args_vm 12288000 [[104; 105]] [12288032].
Proof.
  assert (forall a l, bool_decide (0 <= a /\ a + Z.of_nat (length l) <= 4294967296
    /\ Forall (fun kb : nat * Z => sees args_vm 4097 (a + Z.of_nat kb.1) = Some kb.2
         /\ (a + Z.of_nat kb.1) / 4096 <> tmp) (zip (seq 0 (length l)) l)) = true -> reads_as args_vm tmp a l) as Hr.
  { intros a l (H0 & H1 & H)%bool_decide_eq_true. split; [done|]. split; [done|]. intros k b Hk.
    rewrite Forall_lookup in H. apply (H k (k, b)). rewrite lookup_zip_with_Some. exists k, b.
    rewrite lookup_seq. split; [done|]. split; [|done]. split; [done|]. by eapply lookup_lt_Some. }
  split; [done| |apply Hr; vm_compute; reflexivity|].
  - intros [|i] p; [|done]. intros [= <-]. split; [lia|]. apply Hr. vm_compute. reflexivity.
  - intros [|i] p l; [|done]. intros [= <-] [= <-]. split; [|apply Hr; vm_compute; reflexivity].
    apply (bool_decide_unpack _). vm_compute. exact I.
Qed.

Lemma args_vm_supplied : supplied 1 args_vm.
Proof. apply (supplied_ext 1 1 file_vm); [done|done|lia|]. apply file_vm_supplied. lia. Qed.

Lemma init_stack_args_witness :
  exists u' p, init_stack 4102 12288000 args_vm = Ok (0, 4005552108) u'
    /\ upt u' = <[(4102, 977917) := entry p 7]> (upt args_vm)
    /\ rd32 (view u' 4102) 4005552108 = 1
    /\ cstr (view u' 4102) (rd32 (view u' 4102) 4005552116) [104; 105].
Proof.
  destruct (init_stack_args args_vm 4102 12288000 [[104; 105]] [12288032] args_vm_ok) as [_ H].
  - vm_compute. reflexivity.
  - discriminate.
  - vm_compute. discriminate.
  - reflexivity.
  - lia.
  - vm_compute. discriminate.
  - exact args_vm_supplied.
  - destruct H as (u' & p & E & Hu & _ & H1 & _ & H2 & _); [vm_compute; discriminate|].
    exists u', p. split; [exact E|]. split; [exact Hu|]. split; [exact H1|]. exact (H2 0%nat [104; 105] eq_refl).
Defined.

(** ** spawnl *)

Lemma count_va_take vl argc : count_va vl = Some argc -> vl !! argc = Some 0 /\ length (take argc vl) = argc.
Proof.
  revert argc. induction vl as [|p vl IH]; intros argc; [done|]. cbn [count_va].
  destruct (Z.eqb_spec p 0) as [->|]; [by intros [= <-]|].
  destruct (count_va vl) as [k|]; [|done]. intros [= <-]. destruct (IH k eq_refl) as [H1 H2].
  split; [done|]. cbn. by rewrite H2.
Qed.

Section spawnl.

Context (v pte : Z) (Hv : 0 <= v < 1048576) (HU : flag pte PTE_U = true) (HW : flag pte PTE_W = true).

(** Words from offset [o] of the page on. *)
Definition words_at (u : vm) (o : Z) (l : list Z) : Prop :=
  forall k x, l !! k = Some x -> rd32 (umem u) (frame pte * 4096 + o + 4 * Z.of_nat k) = u32 x.

Lemma store_word u o x :
  upt u !! (self u, v) = Some pte -> 0 <= o <= 4092 ->
  exists m, store32 (v * 4096 + o) x u = Ok tt (set_umem m u)
    /\ rd32 m (frame pte * 4096 + o) = u32 x
    /\ forall a, a + 4 <= frame pte * 4096 + o \/ frame pte * 4096 + o + 4 <= a -> rd32 m a = rd32 (umem u) a.
Proof using Hv HU HW.
  intros Hp Ho. destruct (store32_at u v pte Hv Hp HU HW o x Ho) as (m & E & Hm).
  rewrite u32_id in E by lia. exists m. split; [exact E|]. split.
  - rewrite (rd32_ext m (wr32 (umem u) (frame pte * 4096 + o) x)) by (intros; apply Hm). apply rd32_wr32_eq.
  - intros a Ha. rewrite (rd32_ext m (wr32 (umem u) (frame pte * 4096 + o) x)) by (intros; apply Hm). by apply rd32_wr32_ne; lia.
Qed.

Lemma store_va_words l : forall o u,
  upt u !! (self u, v) = Some pte -> 0 <= o -> o + 4 * Z.of_nat (length l) <= 4096 ->
  exists m, store_va l (v * 4096 + o) u = Ok tt (set_umem m u) /\ words_at (set_umem m u) o l
    /\ forall a, a + 4 <= frame pte * 4096 + o \/ frame pte * 4096 + o + 4 * Z.of_nat (length l) <= a ->
         rd32 m a = rd32 (umem u) a.
Proof using Hv HU HW.
  induction l as [|p l IH]; intros o u Hp Ho Hl; cbn [store_va length] in *.
  - exists (umem u). split; [by destruct u|]. split; [by intros k x Hk|done].
  - destruct (store_word u o p Hp) as (m1 & E1 & Hr1 & Ho1); [lia|].
    destruct (IH (o + 4) (set_umem m1 u) Hp) as (m2 & E2 & Hw2 & Ho2); [lia|lia|].
    exists m2. split; [unfold mbind; rewrite E1, <- Z.add_assoc; exact E2|]. split.
    + intros [|k] x Hk; cbn in Hk.
      * injection Hk as <-. cbn [umem set_umem] in *. rewrite Z.add_0_r, Ho2 by lia. exact Hr1.
      * rewrite <- (Hw2 k x Hk). f_equal. lia.
    + intros a Ha. cbn [umem set_umem] in Ho2. rewrite Ho2, Ho1 by lia. done.
Qed.

End spawnl.

(** [spawnl] is [spawn] with the array of its arguments: the first one, those
    up to the null pointer, and a null pointer. *)
Theorem spawnl_spawns devtab open elf_buf prog arg0 vl argc v pte o s :
  count_va vl = Some argc -> 0 <= v < 1048576 -> upt (pvm s) !! (self (pvm s), v) = Some pte ->
  flag pte PTE_U = true -> flag pte PTE_W = true -> 0 <= o -> o + 4 * (Z.of_nat argc + 2) <= 4096 ->
  exists s', spawnl devtab open elf_buf prog arg0 vl (v * 4096 + o) s = spawn devtab open elf_buf prog (v * 4096 + o) s'
    /\ upt (pvm s') = upt (pvm s) /\ self (pvm s') = self (pvm s)
    /\ words_at pte (pvm s') o (arg0 :: take argc vl ++ [0]).
Proof.
  intros Hc Hv Hp HU HW Ho Hl. destruct (count_va_take vl argc Hc) as [_ Hlen].
  destruct (store_word v pte Hv HU HW (pvm s) o arg0 Hp) as (m1 & E1 & Hr1 & Ho1); [lia|].
  destruct (store_word v pte Hv HU HW (set_umem m1 (pvm s)) (o + 4 * (Z.of_nat argc + 1)) 0 Hp) as (m2 & E2 & Hr2 & Ho2); [lia|].
  destruct (store_va_words v pte Hv HU HW (take argc vl) (o + 4) (set_umem m2 (pvm s)) Hp) as (m3 & E3 & Hw3 & Ho3);
    [lia|rewrite Hlen; lia|].
  rewrite Hlen in Ho3. cbn [umem set_umem] in *.
  exists (mkPst (set_umem m3 (pvm s)) (ptf s)). split; [|split; [done|split; [done|]]].
  - unfold spawnl. rewrite Hc. unfold mbind, on_vm. rewrite E1. cbn [pvm ptf]. rewrite <- !Z.add_assoc, E2. cbn [pvm ptf].
    change (set_umem m2 (set_umem m1 (pvm s))) with (set_umem m2 (pvm s)). by rewrite E3.
  - intros [|k] x Hk; cbn [pvm umem set_umem] in *.
    + injection Hk as <-. rewrite Z.add_0_r, Ho3, Ho2 by lia. exact Hr1.
    + cbn in Hk. apply lookup_app_Some in Hk as [Hk|[Hge Hk]].
      * rewrite <- (Hw3 k x Hk). f_equal. lia.
      * apply list_lookup_singleton_Some in Hk as [Hk <-]. rewrite Hlen in *.
        replace (frame pte * 4096 + o + 4 * Z.of_nat (S k)) with (frame pte * 4096 + (o + 4 * (Z.of_nat argc + 1))) by lia.
        rewrite Ho3 by lia. exact Hr2.
Qed.

End Spawn.
