(* ===== verification/Args.v ===== *)
(** * Command-line arguments (lib/args.c)

    The argument count, the vector of pointers and the strings are bytes of a
    memory; [argnext] and [argnextvalue] shift the vector in place, as the C
    does.  0 is the null pointer, and the literal "" of the source is a pointer
    to a NUL byte, an argument of the definitions that use it.

    [spec] is the same interface over lists of strings.  Every operation refines
    it, and the loop that inc/args.h shows returns what [parse] reads off the
    arguments. *)

From stdpp Require Import base numbers list functions strings.
From Stdlib Require Import ZArith Lia.
From S2P Require Import Prelude Mem Kernel Printfmt Str.

Open Scope Z_scope.

Module Args.

Import Printfmt Str.

(** ** Operations *)

Record Argstate := mkArgstate {
  argc : Z;
  argv : Z;
  curarg : Z;
  argvalue_ : Z
}.

Definition set_cur (cur val : Z) (a : Argstate) : Argstate := mkArgstate (argc a) (argv a) cur val.

Definition argstart (empty : Z) (m : mem) (argc argv : Z) : Argstate :=
  mkArgstate argc argv (if (i32 (rd32 m argc) >? 1) && negb (argv =? 0) then empty else 0) 0.

(** [memmove(argv + 1, argv + 2, ...)] and [( *argc)--] *)
Definition shift_args (m : mem) (a : Argstate) : mem :=
  let n := i32 (rd32 m (argc a)) in
  let m := mcpy m (argv a + 4) (argv a + 8) (u32 (4 * (n - 1))) in
  wr32 m (argc a) (i32 (rd32 m (argc a)) - 1).

Definition endofargs (m : mem) (a : Argstate) : Z * mem * Argstate := (-1, m, set_cur 0 0 a).

(** The character at [curarg] is returned. *)
Definition argchar (m : mem) (cur : Z) (a : Argstate) : Z * mem * Argstate :=
  (rd8 m cur, m, set_cur (u32 (cur + 1)) 0 a).

Definition argnext (m : mem) (a : Argstate) : Z * mem * Argstate :=
  let a := set_cur (curarg a) 0 a in
  if curarg a =? 0 then (-1, m, a)
  else if rd8 m (curarg a) =? 0 then
    let p := rd32 m (argv a + 4) in
    if (i32 (rd32 m (argc a)) =? 1) || negb (rd8 m p =? 45) || (rd8 m (u32 (p + 1)) =? 0) then endofargs m a
    else
      let cur := u32 (p + 1) in
      let m := shift_args m a in
      if (rd8 m cur =? 45) && (rd8 m (u32 (cur + 1)) =? 0) then endofargs m a
      else argchar m cur a
  else argchar m (curarg a) a.

Definition argnextvalue (empty : Z) (m : mem) (a : Argstate) : Z * mem * Argstate :=
  if curarg a =? 0 then (0, m, a)
  else if negb (rd8 m (curarg a) =? 0) then (curarg a, m, set_cur empty (curarg a) a)
  else if i32 (rd32 m (argc a)) >? 1 then
    let v := rd32 m (argv a + 4) in
    (v, shift_args m a, set_cur (curarg a) v a)
  else (0, m, set_cur 0 0 a).

Definition argvalue (empty : Z) (m : mem) (a : Argstate) : Z * mem * Argstate :=
  if negb (argvalue_ a =? 0) then (argvalue_ a, m, a) else argnextvalue empty m a.

(** The loop of the example in inc/args.h, for a program whose flags [takes]
    have values: the flags in order, with the value's pointer. *)
Fixpoint flags_loop (fuel : nat) (takes : Z -> bool) (empty : Z) (m : mem) (a : Argstate)
    : option (list (Z * Z) * mem * Argstate) :=
  match fuel with
  | O => None
  | S fuel =>
    let '(i, m, a) := argnext m a in
    if i <? 0 then Some ([], m, a)
    else
      let '(v, m, a) := if takes i then argvalue empty m a else (0, m, a) in
      match flags_loop fuel takes empty m a with
      | Some (l, m, a) => Some ((i, v) :: l, m, a)
      | None => None
      end
  end.

(** ** The interface over lists *)

(** What is left of the current argument, the value of the current flag and the
    arguments that follow. *)
Record spec := mkSpec {
  cur : option (list Z);
  val : option (list Z);
  rest : list (list Z)
}.

Definition next (x : spec) : option Z * spec :=
  match cur x with
  | None => (None, mkSpec None None (rest x))
  | Some (c :: l) => (Some c, mkSpec (Some l) None (rest x))
  | Some [] =>
    match rest x with
    | (d :: c :: l) :: r =>
      if negb (d =? 45) then (None, mkSpec None None (rest x))
      else if (c =? 45) && (match l with [] => true | _ => false end) then (None, mkSpec None None r)
      else (Some c, mkSpec (Some l) None r)
    | r => (None, mkSpec None None r)
    end
  end.

Definition nextvalue (x : spec) : option (list Z) * spec :=
  match cur x with
  | None => (None, x)
  | Some (c :: l) => (Some (c :: l), mkSpec (Some []) (Some (c :: l)) (rest x))
  | Some [] =>
    match rest x with
    | v :: r => (Some v, mkSpec (Some []) (Some v) r)
    | [] => (None, mkSpec None None [])
    end
  end.

Definition value (x : spec) : option (list Z) * spec :=
  match val x with Some v => (Some v, x) | None => nextvalue x end.

(** ** Refinement *)

Section refine.

(** The vector at [av] was made for [n0] arguments after the program's name,
    and [ac] is the address of the count. *)
Context (ac av empty n0 : Z).
Context (Hac : 0 < ac /\ ac + 4 <= 4294967296) (Hav : 0 < av /\ av + 4 * (n0 + 2) <= 4294967296).
Context (Hn0 : 0 <= n0) (Hap : ac + 4 <= av \/ av + 4 * (n0 + 2) <= ac).

(** Where the operations never write. *)
Definition kept (x : Z) : Prop := (x < ac \/ ac + 4 <= x) /\ (x < av + 4 \/ av + 4 * (n0 + 2) <= x).

(** The string [l] is at [p], and stays there. *)
Definition str (m : mem) (p : Z) (l : list Z) : Prop :=
  0 < p /\ p + Z.of_nat (length l) < 4294967296 /\ cstr m p l
  /\ forall x, p <= x <= p + Z.of_nat (length l) -> kept x.

(** A pointer that may be null. *)
Definition ostr (m : mem) (p : Z) (o : option (list Z)) : Prop :=
  match o with None => p = 0 | Some l => str m p l end.

Definition vector (m : mem) (ps : list Z) (ls : list (list Z)) : Prop :=
  Forall2 (str m) ps ls /\ i32 (rd32 m ac) = 1 + Z.of_nat (length ps) /\ Z.of_nat (length ps) <= n0
  /\ forall k p, (ps ++ [0]) !! k = Some p -> rd32 m (av + 4 + 4 * Z.of_nat k) = p.

Definition refines (m : mem) (a : Argstate) (x : spec) : Prop :=
  argc a = ac /\ argv a = av /\ str m empty [] /\ ostr m (curarg a) (cur x) /\ ostr m (argvalue_ a) (val x)
  /\ exists ps, vector m ps (rest x).

Lemma str_tail m p c l : str m p (c :: l) -> rd8 m p = c /\ c <> 0 /\ u32 (p + 1) = p + 1 /\ str m (p + 1) l.
Proof using .
  intros (Hp & Hl & (H1 & H2 & H3) & Hk). cbn [length] in *. split; [done|]. split; [done|]. split; [apply u32_id; lia|].
  split; [lia|]. split; [lia|]. split; [done|]. intros x Hx. apply Hk. lia.
Qed.

Lemma str_nil m p : str m p [] -> rd8 m p = 0.
Proof using . by intros (_ & _ & ? & _). Qed.

Lemma str_kept m m' p l : (forall x, kept x -> m' x = m x) -> str m p l -> str m' p l.
Proof using .
  intros H (Hp & Hl & Hc & Hk). split; [done|]. split; [done|]. split; [|done].
  eapply cstr_ext; [|exact Hc]. intros x Hx. by apply H, Hk.
Qed.

Lemma ostr_kept m m' p o : (forall x, kept x -> m' x = m x) -> ostr m p o -> ostr m' p o.
Proof using . destruct o; [by apply str_kept|done]. Qed.

(** One argument is taken off the vector. *)
Lemma shift_args_vector m a p ps l ls : argc a = ac -> argv a = av -> vector m (p :: ps) (l :: ls) ->
  (forall x, kept x -> shift_args m a x = m x) /\ vector (shift_args m a) ps ls
  /\ rd32 m (av + 4) = p /\ str m p l.
Proof using Hac Hav Hn0 Hap.
  intros Ea Ev (Hs & Hc & Hn & Hv). cbn [length] in *. apply Forall2_cons in Hs as [Hp Hs].
  unfold shift_args. rewrite Ea, Ev, Hc. set (len := u32 (4 * (1 + Z.of_nat (S (length ps)) - 1))).
  assert (len = 4 * Z.of_nat (S (length ps))) as Hlen by (unfold len; rewrite u32_id; lia).
  set (m1 := mcpy m (av + 4) (av + 8) len).
  assert (rd32 m1 ac = rd32 m ac) as Hc1 by (unfold m1; rewrite rd32_mcpy_out; [done|lia]).
  rewrite Hc1, Hc. set (m2 := wr32 m1 ac _).
  assert (forall x, kept x -> m2 x = m x) as Hk.
  { intros x [H1 H2]. unfold m2, m1. rewrite wr32_out by lia. apply mcpy_out. lia. }
  split; [done|]. split.
  - split; [eapply Forall2_impl; [exact Hs|]; intros ? ?; by apply str_kept|].
    split; [unfold m2; rewrite rd32_wr32_eq; rewrite u32_id, i32_id by lia; lia|]. split; [lia|].
    intros k q Hq. assert (Z.of_nat k <= Z.of_nat (length ps)) as Hkl.
    { apply lookup_lt_Some in Hq. rewrite length_app in Hq. cbn in Hq. lia. }
    unfold m2. rewrite rd32_wr32_ne by lia. unfold m1. rewrite rd32_mcpy_in by lia.
    pose proof (Hv (S k) q Hq) as E. rewrite <- E. f_equal. lia.
  - split; [|done]. pose proof (Hv 0%nat p eq_refl) as E. by rewrite Z.add_0_r in E.
Qed.

(** The state after a step, with the strings still in place. *)
Definition step (m m' : mem) (a : Argstate) (x : spec) : Prop := refines m' a x /\ forall x, kept x -> m' x = m x.

Lemma refines_cur m a x cu cp va vp ps : refines m a x -> ostr m cp cu -> ostr m vp va -> vector m ps (rest x) ->
  step m m (set_cur cp vp a) (mkSpec cu va (rest x)).
Proof using . intros (Ea & Ev & He & _) ? ? ?. split; [|done]. repeat (split; [done|]). by exists ps. Qed.

Lemma refines_shift m a x cu cp va vp p l ps ls : refines m a x -> vector m (p :: ps) (l :: ls) ->
  ostr m cp cu -> ostr m vp va -> step m (shift_args m a) (set_cur cp vp a) (mkSpec cu va ls).
Proof using Hac Hav Hn0 Hap.
  intros (Ea & Ev & He & _) Hv Hcu Hva. destruct (shift_args_vector m a p ps l ls Ea Ev Hv) as (Hk & Hv' & _).
  split; [|done]. repeat (split; [done|]). split; [by eapply str_kept|]. split; [by eapply ostr_kept|]. split; [by eapply ostr_kept|].
  by exists ps.
Qed.

Lemma str_head m p l : str m p l -> rd8 m p = match l with [] => 0 | c :: _ => c end
  /\ (0 < p) /\ forall c r, l = c :: r -> 0 < c < 256.
Proof using .
  intros H. destruct l as [|c l]; [split; [by apply str_nil|split; [apply H|done]]|].
  destruct (str_tail _ _ _ _ H) as (E & Hc & _). split; [done|]. split; [apply H|]. intros ? ? [= <- <-].
  pose proof (rd8_range m p). lia.
Qed.

Lemma argnext_refines m a x : refines m a x ->
  let '(i, m', a') := argnext m a in let '(o, x') := next x in
  step m m' a' x' /\ match o with None => i = -1 | Some c => i = c /\ 0 <= c end.
Proof using Hac Hav Hn0 Hap.
  intros R. pose proof R as (Ea & Ev & He & Hcu & Hva & ps & Hv). unfold argnext, next. cbn [curarg set_cur].
  destruct (cur x) as [[|c l]|] eqn:Ec; cbn [ostr] in Hcu.
  - destruct (str_head _ _ _ Hcu) as (E0 & Hp & _). rewrite (proj2 (Z.eqb_neq _ _)) by lia.
    rewrite E0. cbn [Z.eqb argc argv set_cur]. rewrite Ea, Ev. pose proof Hv as (Hs & Hc & Hn & Hvk). rewrite Hc.
    destruct (rest x) as [|l ls] eqn:El.
    { apply Forall2_nil_inv_r in Hs as ->. cbn [length Z.of_nat Z.add Z.eqb Pos.eqb orb]. split; [|done]. rewrite <- El.
      eapply (refines_cur m a x None 0 None 0); [exact R|done|done|by rewrite El]. }
    destruct ps as [|p ps]; [by apply Forall2_nil_inv_l in Hs|].
    destruct (shift_args_vector m a p ps l ls Ea Ev Hv) as (Hk & Hv' & -> & Hl).
    cbn [length]. rewrite (proj2 (Z.eqb_neq _ 1)) by lia. cbn [orb].
    assert (step m m (set_cur 0 0 (set_cur (curarg a) 0 a)) (mkSpec None None (l :: ls))) as Rend.
    { rewrite <- El. eapply (refines_cur m a x None 0 None 0); [exact R|done|done|by rewrite El]. }
    destruct (str_head _ _ _ Hl) as (Eh & Hp' & _). rewrite Eh.
    destruct l as [|d l]; [by split|]. destruct (str_tail _ _ _ _ Hl) as (_ & _ & Eu & Hl1). rewrite Eu.
    destruct (Z.eqb_spec d 45) as [->|Hd]; cbn [negb orb].
    2: { by destruct l. }
    destruct (str_head _ _ _ Hl1) as (Eh1 & Hp1 & Hr1). rewrite Eh1.
    destruct l as [|c l]; [by split|]. specialize (Hr1 c l eq_refl). rewrite (proj2 (Z.eqb_neq c 0)) by lia.
    change (shift_args m (set_cur (curarg a) 0 a)) with (shift_args m a).
    destruct (str_tail _ _ _ _ Hl1) as (_ & _ & Eu1 & Hl2). rewrite Eu1.
    pose proof (proj1 (str_head _ _ _ (str_kept _ _ _ _ Hk Hl1))) as ->.
    pose proof (str_kept _ _ _ _ Hk Hl2) as Hl2'. rewrite (proj1 (str_head _ _ _ Hl2')).
    assert (((c =? 45) && ((match l with [] => 0 | d :: _ => d end) =? 0)) =
      ((c =? 45) && match l with [] => true | _ => false end)) as ->.
    { f_equal. destruct l as [|d l]; [done|]. destruct (str_head _ _ _ Hl2) as (_ & _ & H). specialize (H d l eq_refl).
      apply Z.eqb_neq. lia. }
    destruct (_ && _).
    + split; [|done]. by eapply (refines_shift m a x None 0 None 0); try exact Hv.
    + unfold argchar. rewrite (proj1 (str_head _ _ _ (str_kept _ _ _ _ Hk Hl1))), Eu1. split; [|lia].
      by eapply (refines_shift m a x (Some l) (p + 1 + 1) None 0); try exact Hv.
  - destruct (str_tail _ _ _ _ Hcu) as (E0 & Hc0 & Eu & Hl). destruct (str_head _ _ _ Hcu) as (_ & Hp & Hr).
    specialize (Hr c l eq_refl). rewrite (proj2 (Z.eqb_neq _ _)) by lia. rewrite E0, (proj2 (Z.eqb_neq c 0)) by lia.
    unfold argchar. rewrite E0, Eu. split; [|lia]. by eapply (refines_cur m a x (Some l) _ None 0 ps).
  - rewrite Hcu. cbn [Z.eqb]. split; [|done]. by eapply (refines_cur m a x None 0 None 0 ps).
Qed.

Lemma argnextvalue_refines m a x : refines m a x ->
  let '(p, m', a') := argnextvalue empty m a in let '(o, x') := nextvalue x in
  step m m' a' x' /\ ostr m' p o.
Proof using Hac Hav Hn0 Hap.
  intros R. pose proof R as (Ea & Ev & He & Hcu & Hva & ps & Hv). unfold argnextvalue, nextvalue.
  destruct (cur x) as [[|c l]|] eqn:Ec; cbn [ostr] in Hcu.
  - destruct (str_head _ _ _ Hcu) as (E0 & Hp & _). rewrite (proj2 (Z.eqb_neq _ _)) by lia.
    rewrite E0. cbn [Z.eqb negb]. rewrite Ea, Ev. pose proof Hv as (Hs & Hc & Hn & Hvk). rewrite Hc.
    destruct (rest x) as [|l ls] eqn:El.
    { apply Forall2_nil_inv_r in Hs as ->. split; [|done]. rewrite <- El.
      eapply refines_cur; [exact R|done|done|by rewrite El]. }
    destruct ps as [|p ps]; [by apply Forall2_nil_inv_l in Hs|].
    destruct (shift_args_vector m a p ps l ls Ea Ev Hv) as (Hk & Hv' & -> & Hl).
    cbn [length]. rewrite Z.gtb_ltb, (proj2 (Z.ltb_lt 1 _)) by lia.
    split; [by eapply refines_shift|by eapply (str_kept m)].
  - destruct (str_head _ _ _ Hcu) as (E0 & Hp & Hr). specialize (Hr c l eq_refl).
    rewrite (proj2 (Z.eqb_neq _ _)) by lia. rewrite E0, (proj2 (Z.eqb_neq c 0)) by lia. cbn [negb].
    split; [by eapply (refines_cur m a x (Some []) empty (Some (c :: l)))|done].
  - rewrite Hcu. cbn [Z.eqb]. by split.
Qed.

Lemma argvalue_refines m a x : refines m a x ->
  let '(p, m', a') := argvalue empty m a in let '(o, x') := value x in
  step m m' a' x' /\ ostr m' p o.
Proof using Hac Hav Hn0 Hap.
  intros R. pose proof R as (_ & _ & _ & _ & Hva & _). unfold argvalue, value.
  destruct (val x) as [v|] eqn:Ev; cbn [ostr] in Hva.
  - rewrite (proj2 (Z.eqb_neq _ _)) by (destruct Hva; lia). by split.
  - rewrite Hva. by apply argnextvalue_refines.
Qed.

(** ** The flags of a command line *)

Context (takes : Z -> bool).

Definition flags : Type := list (Z * option (list Z)) * list (list Z).

Definition flag_cons (c : Z) (v : option (list Z)) (o : flags) : flags := ((c, v) :: o.1, o.2).

(** The characters of one argument: [here] is what the arguments after it give,
    [after] the next argument with what those behind it give. *)
Fixpoint scan (here : flags) (after : option (list Z * flags)) (cs : list Z) : flags :=
  match cs with
  | [] => here
  | c :: l =>
    if takes c then
      match l, after with
      | _ :: _, _ => flag_cons c (Some l) here
      | [], Some (v, o) => flag_cons c (Some v) o
      | [], None => ([(c, None)], [])
      end
    else flag_cons c None (scan here after l)
  end.

(** Flags up to the first argument that is none, "-" included, or to "--", which
    is dropped; the arguments that remain. *)
Fixpoint parse (args : list (list Z)) : flags :=
  match args with
  | (d :: c :: l) :: r =>
    if negb (d =? 45) then ([], args)
    else if (c =? 45) && (match l with [] => true | _ => false end) then ([], r)
    else scan (parse r) (match r with v :: r' => Some (v, parse r') | [] => None end) (c :: l)
  | _ => ([], args)
  end.

Definition after (args : list (list Z)) : option (list Z * flags) :=
  match args with v :: r => Some (v, parse r) | [] => None end.

Fixpoint size (args : list (list Z)) : nat :=
  match args with [] => 0 | a :: r => length a + 1 + size r end.

(** The results of the loop, as strings. *)
Definition same_flags (m : mem) (l : list (Z * Z)) (l' : list (Z * option (list Z))) : Prop :=
  Forall2 (fun x y => x.1 = y.1 /\ ostr m x.2 y.2) l l'.

Definition loop_ok (m : mem) (fuel : nat) (a : Argstate) (o : flags) : Prop :=
  exists l m' a', flags_loop fuel takes empty m a = Some (l, m', a')
    /\ same_flags m' l o.1 /\ step m m' a' (mkSpec None None o.2).

Lemma loop_end m fuel a x r : refines m a x -> next x = (None, mkSpec None None r) -> loop_ok m (S fuel) a ([], r).
Proof using Hac Hav Hn0 Hap.
  intros R E. unfold loop_ok. cbn [flags_loop].
  pose proof (argnext_refines _ _ _ R) as H. rewrite E in H. destruct (argnext m a) as [[i m'] a'].
  destruct H as [H ->]. exists [], m', a'. split; [done|]. split; [by apply Forall2_nil|done].
Qed.

(** One flag, then the rest of the loop. *)
Lemma loop_flag m fuel a x c x1 v x2 o : refines m a x -> next x = (Some c, x1) ->
  (if takes c then value x1 else (None, x1)) = (v, x2) ->
  (forall m2 a2, refines m2 a2 x2 -> loop_ok m2 fuel a2 o) -> loop_ok m (S fuel) a (flag_cons c v o).
Proof using Hac Hav Hn0 Hap.
  intros R E1 E2 IH. unfold loop_ok. cbn [flags_loop].
  pose proof (argnext_refines _ _ _ R) as H. rewrite E1 in H. destruct (argnext m a) as [[i m1] a1].
  destruct H as ([R1 K1] & -> & Hc). rewrite (proj2 (Z.ltb_ge c 0)) by done.
  assert (let '(p, m2, a2) := (if takes c then argvalue empty m1 a1 else (0, m1, a1)) in
    step m1 m2 a2 x2 /\ ostr m2 p v) as H2.
  { destruct (takes c); [|by injection E2 as <- <-].
    pose proof (argvalue_refines _ _ _ R1) as H. by rewrite E2 in H. }
  destruct (if takes c then argvalue empty m1 a1 else (0, m1, a1)) as [[p m2] a2]. destruct H2 as ([R2 K2] & Hp).
  destruct (IH m2 a2 R2) as (l & m3 & a3 & -> & Hl & [R3 K3]). eexists _, m3, a3. split; [reflexivity|].
  split; [apply Forall2_cons; split; [split; [done|by eapply ostr_kept]|done]|]. split; [done|].
  intros y Hy. by rewrite K3, K2, K1.
Qed.

Lemma loop_scan fuel : forall cs args, (length cs + size args < fuel)%nat ->
  forall m a va, refines m a (mkSpec (Some cs) va args) -> loop_ok m fuel a (scan (parse args) (after args) cs).
Proof using Hac Hav Hn0 Hap.
  induction fuel as [|fuel IH]; intros cs args Hf m a va R; [lia|].
  assert (forall c l r x, (length l + size r < fuel)%nat -> refines m a x ->
    next x = (Some c, mkSpec (Some l) None r) -> loop_ok m (S fuel) a (scan (parse r) (after r) (c :: l))) as Hstep.
  { clear R. intros c l r x Hl R E. cbn [scan].
    destruct (takes c) eqn:Et; [|by eapply loop_flag; [exact R|exact E|by rewrite Et|]; intros m2 a2; by apply IH].
    destruct l as [|d l]; [destruct r as [|v r]|].
    - eapply (loop_flag m fuel a x c _ None _ ([], [])); [exact R|exact E|by rewrite Et|].
      intros m2 a2 R2. destruct fuel as [|fuel]; [cbn in Hl; lia|]. by eapply loop_end.
    - eapply loop_flag; [exact R|exact E|by rewrite Et|]. intros m2 a2 R2. eapply (IH [] r); [cbn in *; lia|exact R2].
    - eapply loop_flag; [exact R|exact E|by rewrite Et|]. intros m2 a2 R2. eapply (IH [] r); [cbn in *; lia|exact R2]. }
  destruct cs as [|c l].
  - cbn [scan].
    assert (next (mkSpec (Some []) va args) = (None, mkSpec None None args) -> loop_ok m (S fuel) a ([], args)) as Hend.
    { intros E. by eapply loop_end. }
    destruct args as [|[|d [|c l]] r]; cbn [parse]; try by apply Hend.
    destruct (Z.eqb_spec d 45) as [->|]; cbn [negb]; [|apply Hend; unfold next; cbn [cur rest]; by rewrite (proj2 (Z.eqb_neq _ _))].
    destruct (_ && _) eqn:Ed.
    + eapply loop_end; [exact R|]. unfold next. cbn [cur rest negb]. by rewrite Z.eqb_refl, Ed.
    + eapply (Hstep c l r); [cbn in *; lia|exact R|]. unfold next. cbn [cur rest negb]. by rewrite Z.eqb_refl, Ed.
  - eapply Hstep; [|exact R|done]. cbn in *. lia.
Qed.

End refine.

(** C12: Command lines are read as inc/args.h documents.  On a vector of
    arguments the loop over [argnext], with [argvalue] for the flags that take a
    value, returns the flags in order with their values, each the rest of its
    argument or the argument after it, and leaves in the vector exactly the
    arguments after the flags, "--" removed and "-" kept; the strings stay where
    they are. *)
Theorem flags_parsed (takes : Z -> bool) (m : mem) (ac av empty : Z) (ps : list Z) (args : list (list Z)) :
  let n := Z.of_nat (length args) in
  0 < ac /\ ac + 4 <= 4294967296 -> 0 < av /\ av + 4 * (n + 2) <= 4294967296 ->
  ac + 4 <= av \/ av + 4 * (n + 2) <= ac -> str ac av n m empty [] -> vector ac av n m ps args ->
  exists l m' a', flags_loop (2 + size args) takes empty m (argstart empty m ac av) = Some (l, m', a')
    /\ same_flags ac av n m' l (parse takes args).1
    /\ exists ps', vector ac av n m' ps' (parse takes args).2.
Proof.
  intros n Hac Hav Hap He Hv. assert (Z.of_nat (length ps) = n) as Hlen by (destruct Hv as [H _]; unfold n; by rewrite (Forall2_length _ _ _ H)).
  pose proof Hv as (_ & Hc & _).
  set (x := mkSpec (if decide (args = []) then None else Some []) None args).
  assert (refines ac av empty n m (argstart empty m ac av) x) as R.
  { split; [done|]. split; [done|]. split; [done|]. split; [|split; [done|by exists ps]].
    cbn [curarg argstart cur x]. rewrite Hc, Hlen, (proj2 (Z.eqb_neq av 0)), Z.gtb_ltb by lia. unfold n.
    destruct args as [|b args]; [done|]. rewrite decide_False by done. cbn [length]. by rewrite (proj2 (Z.ltb_lt 1 _)) by lia. }
  assert (loop_ok ac av empty n takes m (2 + size args) (argstart empty m ac av) (parse takes args))
    as (l & m' & a' & E & Hl & [(_ & _ & _ & _ & _ & Hv') _]); [|by exists l, m', a'].
  unfold x in R. destruct (decide (args = [])) as [->|].
  - cbn [parse]. eapply loop_end; try done; lia.
  - change (parse takes args) with (scan takes (parse takes args) (after takes args) []).
    eapply loop_scan; try done; cbn; lia.
Qed.

(** The command line of the example in inc/args.h. *)
Definition ex_args : list (list Z) := map chars ["-rx"; "-f"; "foo"; "--"; "-r"; "duh"]%string.

Definition ex_ptrs : list Z := [3000; 3010; 3020; 3030; 3040; 3050].

Fixpoint store_strings (m : mem) (ps : list Z) (ls : list (list Z)) : mem :=
  match ps, ls with
  | p :: ps, l :: ls => wrbytes (store_strings m ps ls) p (l ++ [0])
  | _, _ => m
  end.

Fixpoint store_words (m : mem) (a : Z) (ws : list Z) : mem :=
  match ws with [] => m | w :: ws => wr32 (store_words m (a + 4) ws) a w end.

Definition ex_mem : mem :=
  store_words (store_words (store_strings (fun _ => 0) ex_ptrs ex_args) 2000 (3060 :: ex_ptrs ++ [0])) 1000 [7].

Lemma ex_str p l : 3000 <= p -> cstr ex_mem p l -> (length l <= 10)%nat -> p < 4000 -> str 1000 2000 6 ex_mem p l.
Proof. intros Hp Hc Hl Hp'. split; [lia|]. split; [lia|]. split; [done|]. intros x Hx. unfold kept. lia. Qed.

Lemma ex_vector : vector 1000 2000 6 ex_mem ex_ptrs ex_args.
Proof.
  split; [|split; [done|split; [done|]]].
  - repeat (apply Forall2_cons; split; [apply ex_str; [done|vm_compute; repeat split; done|cbn; lia|done]|]). by apply Forall2_nil.
  - intros k p Hk. do 7 (destruct k as [|k]; [injection Hk as <-; by vm_compute|]). done.
Qed.

Lemma flags_parsed_witness : exists p m' a',
  flags_loop (2 + size ex_args) (Z.eqb 102) 3060 ex_mem (argstart 3060 ex_mem 1000 2000)
    = Some ([(114, 0); (120, 0); (102, p)], m', a')
  /\ cstr m' p (chars "foo") /\ i32 (rd32 m' 1000) = 3.
Proof.
  destruct (flags_parsed (Z.eqb 102) ex_mem 1000 2000 3060 ex_ptrs ex_args) as (l & m' & a' & E & Hl & ps' & Hv).
  - split; reflexivity || discriminate.
  - split; [reflexivity|discriminate].
  - left. discriminate.
  - apply ex_str; [discriminate|reflexivity|apply Nat.le_0_l|reflexivity].
  - exact ex_vector.
  - change (parse (Z.eqb 102) ex_args) with
      ([(114, None); (120, None); (102, Some (chars "foo"))], [chars "-r"; chars "duh"]) in Hl, Hv. cbn [fst snd] in Hl, Hv.
    apply Forall2_cons_inv_r in Hl as ([i p] & l1 & [Hi Hp] & Hl & ->). cbn in Hi, Hp. subst i p.
    apply Forall2_cons_inv_r in Hl as ([i p] & l2 & [Hi Hp] & Hl & ->). cbn in Hi, Hp. subst i p.
    apply Forall2_cons_inv_r in Hl as ([i p] & l3 & [Hi Hp] & Hl & ->). cbn [fst snd ostr] in Hi, Hp. subst i.
    apply Forall2_nil_inv_r in Hl as ->. exists p, m', a'. split; [exact E|]. split; [apply Hp|].
    destruct Hv as (Hf & Hc & _). rewrite Hc, (Forall2_length _ _ _ Hf). reflexivity.
Defined.

End Args.
