(* ===== verification/Shell.v ===== *)
(** * The shell (user/sh.c)

    The command line is a string in memory.  [_gettoken] splits it in place: it
    writes NULs over white space and symbols, one token ahead of the one
    [gettoken] hands out, so that a word is terminated when its successor is
    read.  The calls [runcmd] makes to the rest of the system are recorded, with
    the strings they are passed, and their results are taken from a list of
    answers; the newline at the end of a format is not written.  The array [argv] is a list of pointers, and storing past its 16
    entries or past the 1024 bytes of [argv0buf] is undefined; loops over strings
    take fuel.  The messages of [_gettoken] for [debug] above 1 are left out.

    The theorems: [gettoken] hands out exactly the tokens of [lex], which works on
    lists, and every word it has handed out stays terminated and intact; [runcmd]
    makes exactly the calls of a command of words and redirections, and runs past
    [argv] when there are sixteen words. *)

From stdpp Require Import base numbers list functions strings.
From Stdlib Require Import ZArith Lia.
From S2P Require Import Prelude Mem Kernel Printfmt Str Umonad Syscall Fd Serv Args.

Open Scope Z_scope.
Open Scope usr_scope.

Module Shell.

Import Printfmt Str.

(** ** Tokens *)

Definition WHITESPACE : list Z := [32; 9; 13; 10].

Definition SYMBOLS : list Z := chars "<|>&;()".

(** [strchr(l, c) != 0]; the NUL at the end of [l] is not found. *)
Definition in_set (l : list Z) (c : Z) : bool := existsb (Z.eqb c) l.

(** [while (strchr(WHITESPACE, *s)) *s++ = 0] *)
Fixpoint skip_space (fuel : nat) (m : mem) (s : Z) : option (mem * Z) :=
  match fuel with
  | O => None
  | S fuel => if in_set WHITESPACE (rd8 m s) then skip_space fuel (wr8 m s 0) (s + 1) else Some (m, s)
  end.

(** [while ( *s && !strchr(WHITESPACE SYMBOLS, *s)) s++] *)
Fixpoint skip_word (fuel : nat) (m : mem) (s : Z) : option Z :=
  match fuel with
  | O => None
  | S fuel =>
    if negb (rd8 m s =? 0) && negb (in_set (WHITESPACE ++ SYMBOLS) (rd8 m s)) then skip_word fuel m (s + 1)
    else Some s
  end.

(** The token, with the memory, [*p1] and [*p2] after the call. *)
Definition _gettoken (fuel : nat) (m : mem) (s p1 p2 : Z) : option (Z * mem * Z * Z) :=
  if s =? 0 then Some (0, m, p1, p2)
  else
    match skip_space fuel m s with
    | None => None
    | Some (m, s) =>
      if rd8 m s =? 0 then Some (0, m, 0, 0)
      else if in_set SYMBOLS (rd8 m s) then Some (rd8 m s, wr8 m s 0, s, s + 1)
      else
        match skip_word fuel m s with
        | None => None
        | Some e => Some (119, m, s, e)
        end
    end.

(** ** The state of the shell *)

Inductive call :=
| Open (path : list Z) (mode : Z)
| Dup (old new : Z)
| Close (fd : Z)
| Pipe
| Fork
| Spawn (prog : list Z) (argv : list (list Z))
| CloseAll
| Wait (env : Z)
| Exit
| Iscons (fd : Z)
| Cprintf (fmt : string) (args : list Z).

(** Memory, the static variables of [gettoken], the results of the calls to come
    and the calls made. *)
Record shell := mkShell {
  smem : mem;
  nc : Z;
  np1 : Z;
  np2 : Z;
  answers : list Z;
  calls : list call
}.

Definition set_smem (m : mem) (s : shell) : shell := mkShell m (nc s) (np1 s) (np2 s) (answers s) (calls s).

Definition set_token (m : mem) (c p1 p2 : Z) (s : shell) : shell := mkShell m c p1 p2 (answers s) (calls s).

Definition add_call (c : call) (s : shell) : shell :=
  mkShell (smem s) (nc s) (np1 s) (np2 s) (answers s) (calls s ++ [c]).

(** A call whose result is not used. *)
Definition emit (c : call) : M shell unit := mmodify (add_call c).

(** A result of a call. *)
Definition answer : M shell Z := fun s =>
  match answers s with
  | [] => Undefined "no answer" s
  | x :: l => Ok x (mkShell (smem s) (nc s) (np1 s) (np2 s) l (calls s))
  end.

Definition ask (c : call) : M shell Z := do! emit c in answer.

Inductive ending :=
| Returned
| Exited.

Section shell.

(** Fuel for strings; [debug], [argv0buf] and [thisenv->env_id]. *)
Context (fuel : nat) (debug argv0buf env_id : Z).

Definition of_option {A} (why : string) (o : option A) : M shell A :=
  match o with Some x => mret x | None => mundef why end.

(** [gettoken(s, 0)] and [gettoken(0, &t)] *)
Definition gettoken_start (s : Z) : M shell Z := fun u =>
  match _gettoken fuel (smem u) s (np1 u) (np2 u) with
  | Some (c, m, p1, p2) => Ok 0 (set_token m c p1 p2 u)
  | None => Undefined "string without end" u
  end.

Definition gettoken : M shell (Z * Z) := fun u =>
  match _gettoken fuel (smem u) (np2 u) (np1 u) (np2 u) with
  | Some (c, m, p1, p2) => Ok (nc u, np1 u) (set_token m c p1 p2 u)
  | None => Undefined "string without end" u
  end.

(** The string at [p]. *)
Fixpoint take_str (fuel : nat) (m : mem) (p : Z) : option (list Z) :=
  match fuel with
  | O => None
  | S fuel => if rd8 m p =? 0 then Some [] else
      match take_str fuel m (p + 1) with Some l => Some (rd8 m p :: l) | None => None end
  end.

Definition string_at (p : Z) : M shell (list Z) := fun u =>
  of_option "string without end" (take_str fuel (smem u) p) u.

Fixpoint strings_at (ps : list Z) : M shell (list (list Z)) :=
  match ps with
  | [] => mret []
  | p :: ps => let! l := string_at p in let! ls := strings_at ps in mret (l :: ls)
  end.

Definition dprint (fmt : string) (args : list Z) : M shell unit :=
  if negb (debug =? 0) then emit (Cprintf fmt args) else mret tt.

(** [cprintf(...); exit()] *)
Definition fail_with {A} (fmt : string) (args : list Z) : M shell (option A) :=
  do! emit (Cprintf fmt args) in do! emit Exit in mret None.

(** [if (fd != n) { dup(fd, n); close(fd); }] *)
Definition move_fd (fd n : Z) : M shell unit :=
  if negb (fd =? n) then do! emit (Dup fd n) in emit (Close fd) else mret tt.

Definition MAXARGS : Z := 16.

Definition BUFSIZ : Z := 1024.

(** A redirection: the file named by the next token becomes descriptor [n].
    [None] is that the shell has left. *)
Definition redirect (mode n : Z) (syntax failed : string) : M shell (option unit) :=
  let! ct := gettoken in
  let '(c, t) := ct in
  if negb (c =? 119) then fail_with syntax []
  else
    let! path := string_at t in
    let! fd := ask (Open path mode) in
    if fd <? 0 then fail_with failed [t; fd]
    else do! move_fd fd n in mret (Some tt).

(** The loop over the tokens, from [again]: [argv] up to [argc], and
    [pipe_child]; [None] is that the shell has left. *)
Fixpoint parse_loop (n : nat) (argv : list Z) (pipe_child : Z) : M shell (option (list Z * Z)) :=
  match n with
  | O => mundef "more tokens than characters"
  | S n =>
    let! ct := gettoken in
    let '(c, t) := ct in
    if c =? 119 then
      if Z.of_nat (length argv) =? MAXARGS then fail_with "too many arguments" []
      else parse_loop n (argv ++ [t]) pipe_child
    else if c =? 60 then
      let! o := redirect Fd.Fd.O_RDONLY 0 "syntax error: < not followed by word" "open %s for read: %e" in
      match o with None => mret None | Some _ => parse_loop n argv pipe_child end
    else if c =? 62 then
      let! o := redirect (Z.lor (Z.lor Fd.Fd.O_WRONLY Serv.Serv.O_CREAT) Serv.Serv.O_TRUNC) 1
                  "syntax error: > not followed by word" "open %s for write: %e" in
      match o with None => mret None | Some _ => parse_loop n argv pipe_child end
    else if c =? 124 then
      let! r := ask Pipe in
      if r <? 0 then fail_with "pipe: %e" [r]
      else
        let! p0 := answer in
        let! p1 := answer in
        do! dprint "PIPE: %d %d" [p0; p1] in
        let! r := ask Fork in
        if r <? 0 then fail_with "fork: %e" [r]
        else if r =? 0 then
          do! move_fd p0 0 in
          do! emit (Close p1) in
          parse_loop n [] pipe_child
        else
          do! move_fd p1 1 in
          do! emit (Close p0) in
          mret (Some (argv, r))
    else if c =? 0 then mret (Some (argv, pipe_child))
    else mpanic "bad return %d from gettoken"
  end.

(** [argv0buf[0] = '/'; strcpy(argv0buf + 1, argv[0]); argv[0] = argv0buf] *)
Definition add_slash (a0 : Z) : M shell Z := fun u =>
  if rd8 (smem u) a0 =? 47 then Ok a0 u
  else
    match strlen fuel (smem u) a0 with
    | None => Undefined "string without end" u
    | Some len =>
      if len + 2 >? BUFSIZ then Undefined "argv0buf: overrun" u
      else
        match strcpy fuel (wr8 (smem u) argv0buf 47) (argv0buf + 1) a0 with
        | None => Undefined "string without end" u
        | Some m => Ok argv0buf (set_smem m u)
        end
    end.

Fixpoint print_args (argv : list Z) : M shell unit :=
  match argv with
  | [] => mret tt
  | a :: argv => do! emit (Cprintf " %s" [a]) in print_args argv
  end.

Definition print_command (argv : list Z) : M shell unit :=
  if negb (debug =? 0) then
    do! emit (Cprintf "[%08x] SPAWN:" [env_id]) in
    do! print_args argv in
    emit (Cprintf "" [])
  else mret tt.

Definition runit (argv : list Z) (pipe_child : Z) : M shell ending :=
  match argv with
  | [] => do! dprint "EMPTY COMMAND" [] in mret Returned
  | a0 :: args =>
    let! a0 := add_slash a0 in
    let argv := a0 :: args in
    if Z.of_nat (length argv) >=? MAXARGS then mundef "argv: index out of bounds"
    else
      do! print_command argv in
      let! strs := strings_at argv in
      let! prog := string_at a0 in
      let! r := ask (Spawn prog strs) in
      do! (if r <? 0 then emit (Cprintf "spawn %s: %e" [a0; r]) else mret tt) in
      do! emit CloseAll in
      do! (if r >=? 0 then
             do! dprint "[%08x] WAIT %s %08x" [env_id; a0; r] in
             do! emit (Wait r) in
             dprint "[%08x] wait finished" [env_id]
           else mret tt) in
      do! (if negb (pipe_child =? 0) then
             do! dprint "[%08x] WAIT pipe_child %08x" [env_id; pipe_child] in
             do! emit (Wait pipe_child) in
             dprint "[%08x] wait finished" [env_id]
           else mret tt) in
      do! emit Exit in
      mret Exited
  end.

Definition runcmd (s : Z) : M shell ending :=
  let! _ := gettoken_start s in
  let! o := parse_loop (S fuel) [] 0 in
  match o with
  | None => mret Exited
  | Some (argv, pipe_child) => runit argv pipe_child
  end.

(** [usage()]; [None] is that the shell has left. *)
Definition usage {A} : M shell (option A) := fail_with "usage: sh [-dix] [command-file]" [].

(** The options of [umain]: [debug], [interactive] and [echocmds]. *)
Fixpoint umain_options (n : nat) (a : Args.Args.Argstate) (dbg interactive echocmds : Z)
    : M shell (option (Z * Z * Z * Args.Args.Argstate)) := fun u =>
  match n with
  | O => Undefined "more flags than characters" u
  | S n =>
    let '(i, m, a) := Args.Args.argnext (smem u) a in
    let u := set_smem m u in
    if i <? 0 then Ok (Some (dbg, interactive, echocmds, a)) u
    else if i =? 100 then umain_options n a (dbg + 1) interactive echocmds u
    else if i =? 105 then umain_options n a dbg 1 echocmds u
    else if i =? 120 then umain_options n a dbg interactive 1 u
    else usage u
  end.

(** [umain] up to its loop; [debug] is 1 at first and [argc] is an address. *)
Definition umain_start (empty argc argv : Z) : M shell (option (Z * Z * Z)) :=
  let! m := mgets smem in
  let! o := umain_options (S fuel) (Args.Args.argstart empty m argc argv) 1 63 0 in
  match o with
  | None => mret None
  | Some (dbg, interactive, echocmds, _) =>
    let! m := mgets smem in
    let n := i32 (rd32 m argc) in
    if n >? 2 then usage
    else
      let! ok := (if n =? 2 then
          do! emit (Close 0) in
          let! path := string_at (rd32 m (argv + 4)) in
          let! r := ask (Open path Fd.Fd.O_RDONLY) in
          if r <? 0 then mpanic "open %s: %e" else mret (r =? 0)
        else mret true) in
      if negb ok then mpanic "assertion failed: r == 0"
      else
        let! interactive := (if interactive =? 63 then ask (Iscons 0) else mret interactive) in
        mret (Some (dbg, interactive, echocmds))
  end.

(** What [umain] does with a line, in the parent and in the child of its fork. *)
Definition umain_line (echocmds : Z) (buf : Z) : M shell (option ending) :=
  do! dprint "LINE: %s" [buf] in
  let! m := mgets smem in
  if rd8 m buf =? 35 then mret None
  else
    do! (if negb (echocmds =? 0) then emit (Cprintf "# %s" [buf]) else mret tt) in
    do! dprint "BEFORE FORK" [] in
    let! r := ask Fork in
    if r <? 0 then mpanic "fork: %e"
    else
      do! dprint "FORK: %d" [r] in
      if r =? 0 then
        let! e := runcmd buf in
        match e with
        | Exited => mret (Some Exited)
        | Returned => do! emit Exit in mret (Some Exited)
        end
      else do! emit (Wait r) in mret None.

(** ** Tokens of a list *)

Inductive token :=
| Sym (c : Z)
| Word (w : list Z).

Definition is_space : Z -> bool := in_set WHITESPACE.

Definition is_sym : Z -> bool := in_set SYMBOLS.

Definition flush (w : list Z) : list token := match w with [] => [] | _ => [Word w] end.

(** [w] is the word read so far. *)
Fixpoint lex (w l : list Z) : list token :=
  match l with
  | [] => flush w
  | c :: l =>
    if is_space c then flush w ++ lex [] l
    else if is_sym c then flush w ++ Sym c :: lex [] l
    else lex (w ++ [c]) l
  end.

Definition plain (c : Z) : bool := negb (is_space c) && negb (is_sym c).

(** The character after a word. *)
Definition ends_word (l : list Z) : Prop := match l with [] => True | c :: _ => plain c = false end.

Lemma lex_spaces k l : Forall (fun c => is_space c = true) k -> lex [] (k ++ l) = lex [] l.
Proof. induction 1 as [|c k Hc _ IH]; cbn [app lex]; [done|]. by rewrite Hc. Qed.

Lemma lex_word w : forall w0 l, Forall (fun c => plain c = true) w -> ends_word l -> w0 ++ w <> [] ->
  lex w0 (w ++ l) = Word (w0 ++ w) :: lex [] l.
Proof.
  induction w as [|c w IH]; intros w0 l Hw He Hn; cbn [app lex].
  - rewrite app_nil_r in *. destruct w0 as [|d w0]; [done|]. destruct l as [|c l]; cbn [lex]; [done|].
    cbn in He. unfold plain in He. destruct (is_space c); [done|]. by destruct (is_sym c).
  - apply Forall_cons_1 in Hw as [Hc Hw]. unfold plain in Hc. destruct (is_space c); [done|]. destruct (is_sym c); [done|].
    rewrite (IH (w0 ++ [c]) l) by (done || by destruct w0). by rewrite <- app_assoc.
Qed.

Lemma split_run (f : Z -> bool) l : exists k r, l = k ++ r /\ Forall (fun c => f c = true) k
  /\ match r with [] => True | c :: _ => f c = false end.
Proof.
  induction l as [|c l (k & r & -> & Hk & Hr)]; [by exists [], []|].
  destruct (f c) eqn:Ec; [exists (c :: k), r; by repeat constructor|by exists [], (c :: k ++ r)].
Qed.

(** ** The tokens in memory *)

Lemma cstr_app m k r : forall s, cstr m s (k ++ r) -> cstr m (s + Z.of_nat (length k)) r.
Proof.
  induction k as [|c k IH]; intros s H; cbn [app length cstr] in *; [by rewrite Z.add_0_r|].
  destruct H as (_ & _ & H). apply IH in H. by replace (s + Z.of_nat (S (length k))) with (s + 1 + Z.of_nat (length k)) by lia.
Qed.

Lemma cstr_byte m l c r s : cstr m s (l ++ c :: r) -> rd8 m (s + Z.of_nat (length l)) = c /\ c <> 0.
Proof. intros H. apply cstr_app in H. cbn in H. tauto. Qed.

Lemma rd8_wr8_ne m a v x : x <> a -> rd8 (wr8 m a v) x = rd8 m x.
Proof. intros. rewrite rd8_wr8. by rewrite (proj2 (Z.eqb_neq x a)). Qed.

(** Spaces become NULs, from [s] on. *)
Lemma skip_space_zeros k r : Forall (fun c => is_space c = true) k -> match r with [] => True | c :: _ => is_space c = false end ->
  forall n m s, (length k < n)%nat -> cstr m s (k ++ r) ->
  exists m', skip_space n m s = Some (m', s + Z.of_nat (length k))
    /\ (forall x, x < s \/ s + Z.of_nat (length k) <= x -> m' x = m x) /\ (k <> [] -> rd8 m' s = 0).
Proof.
  intros Hk Hr. induction Hk as [|c k Hc Hk IH]; intros [|n] m s Hn Hs; cbn [length] in *; try lia; cbn [skip_space app].
  - exists m. rewrite Z.add_0_r. split; [|done]. destruct r as [|c r]; cbn in Hs; [by rewrite Hs|].
    destruct Hs as (-> & _). unfold is_space in Hr. by rewrite Hr.
  - cbn in Hs. destruct Hs as (-> & H0 & Hs). unfold is_space in Hc. rewrite Hc.
    destruct (IH n (wr8 m s 0) (s + 1)) as (m' & -> & Ho & _); [lia| |].
    { eapply cstr_ext; [|exact Hs]. intros x Hx. unfold wr8. by rewrite fn_lookup_insert_ne by lia. }
    exists m'. split; [do 2 f_equal; lia|]. split.
    + intros x Hx. rewrite Ho by lia. unfold wr8. by rewrite fn_lookup_insert_ne by lia.
    + intros _. unfold rd8. rewrite Ho by lia. unfold wr8. by rewrite fn_lookup_insert.
Qed.

Lemma in_set_app l1 l2 c : in_set (l1 ++ l2) c = in_set l1 c || in_set l2 c.
Proof. apply existsb_app. Qed.

Lemma skip_word_end w r : Forall (fun c => plain c = true) w -> ends_word r ->
  forall n m s, (length w < n)%nat -> cstr m s (w ++ r) -> skip_word n m s = Some (s + Z.of_nat (length w)).
Proof.
  intros Hw Hr. induction Hw as [|c w Hc Hw IH]; intros [|n] m s Hn Hs; cbn [length] in *; try lia; cbn [skip_word app].
  - rewrite Z.add_0_r, in_set_app. fold (is_space (rd8 m s)) (is_sym (rd8 m s)).
    destruct r as [|c r]; cbn in Hs; [by rewrite Hs|]. destruct Hs as (-> & _). cbn in Hr. unfold plain in Hr.
    by destruct (is_space c), (is_sym c), (c =? 0).
  - cbn in Hs. destruct Hs as (-> & H0 & Hs). rewrite in_set_app. fold (is_space c) (is_sym c).
    unfold plain in Hc. rewrite (proj2 (Z.eqb_neq c 0)) by done. destruct (is_space c), (is_sym c); try done. cbn [negb andb orb].
    rewrite IH by (done || lia). f_equal. lia.
Qed.

Definition kind (t : token) : Z := match t with Sym c => c | Word _ => 119 end.

(** The bytes of [w] are at [p]. *)
Definition word_at (m : mem) (p : Z) (w : list Z) : Prop :=
  forall k c, w !! k = Some c -> rd8 m (p + Z.of_nat k) = c /\ c <> 0.

(** The line is from [lo] to [hi]. *)
Context (lo hi : Z) (Hlo : 0 < lo).

(** The lookahead is the first of the tokens [ts], the others are the text from
    [p2] on. *)
Definition lookahead (m : mem) (c p1 p2 : Z) (ts : list token) : Prop :=
  match ts with
  | [] => c = 0 /\ p2 = 0
  | t :: ts => c = kind t /\ lo <= p2 /\ exists l, cstr m p2 l /\ p2 + Z.of_nat (length l) = hi /\ lex [] l = ts /\ (length l < fuel)%nat
      /\ match t with
         | Sym _ => is_sym c = true
         | Word w => w <> [] /\ word_at m p1 w /\ p2 = p1 + Z.of_nat (length w) /\ lo <= p1 /\ ends_word l
         end
  end.

Lemma word_at_cstr m m' p w : word_at m p w -> (forall x, p <= x < p + Z.of_nat (length w) -> m' x = m x) ->
  rd8 m' (p + Z.of_nat (length w)) = 0 -> cstr m' p w.
Proof.
  revert p. induction w as [|c w IH]; intros p Hw Hm H0; cbn [cstr length] in *; [by rewrite Z.add_0_r in H0|].
  destruct (Hw 0%nat c eq_refl) as [E Hc]. rewrite Z.add_0_r in E.
  split; [unfold rd8 in *; by rewrite Hm by lia|]. split; [done|]. apply IH.
  - intros k d Hd. destruct (Hw (S k) d Hd) as [E' Hd']. split; [|done]. rewrite <- E'. f_equal. lia.
  - intros x Hx. apply Hm. lia.
  - rewrite <- H0. f_equal. lia.
Qed.

Lemma cstr_word_at m w r : forall s, cstr m s (w ++ r) -> word_at m s w.
Proof.
  intros s H k c Hk. apply take_drop_middle in Hk as Hw. rewrite <- Hw in H.
  assert (Z.of_nat (length (take k w)) = Z.of_nat k) as El by (apply lookup_lt_Some in Hk; rewrite length_take; lia).
  rewrite <- El. rewrite <- app_assoc in H. cbn [app] in H. by apply cstr_byte in H.
Qed.

(** One token is read from the text at [s]. *)
Lemma gettoken_reads m s l p1 p2 : lo <= s -> s + Z.of_nat (length l) = hi -> cstr m s l -> (length l < fuel)%nat ->
  exists c m' p1' p2', _gettoken fuel m s p1 p2 = Some (c, m', p1', p2') /\ lookahead m' c p1' p2' (lex [] l)
    /\ (forall x, x < s -> m' x = m x) /\ (ends_word l -> rd8 m' s = 0) /\ (p2' = 0 \/ s < p2').
Proof.
  intros Hs Hh Hc Hf. unfold _gettoken. rewrite (proj2 (Z.eqb_neq s 0)) by lia.
  destruct (split_run is_space l) as (k & r & -> & Hk & Hr). rewrite length_app in Hf, Hh.
  destruct (skip_space_zeros k r Hk Hr fuel m s) as (m1 & -> & Ho & Hz); [lia|done|].
  set (s1 := s + Z.of_nat (length k)) in *. rewrite lex_spaces by done.
  assert (cstr m1 s1 r) as Hc1 by (eapply cstr_ext; [|by apply cstr_app]; intros x Hx; apply Ho; unfold s1 in *; lia).
  assert (forall x, x < s -> m1 x = m x) as Hb by (intros x Hx; apply Ho; lia).
  destruct r as [|c r]; [|pose proof Hc1 as (E1 & Hc0 & Hc2)].
  { cbn in Hc1. rewrite Hc1. eexists _, m1, 0, 0. split; [reflexivity|]. split; [done|]. split; [done|]. split; [|by left].
    intros _. destruct k as [|a k]; [|by apply Hz]. rewrite <- Hc1. unfold s1. by rewrite Z.add_0_r. }
  rewrite E1, (proj2 (Z.eqb_neq c 0)) by done. cbn [lex]. rewrite Hr. fold (is_sym c).
  cbn [length] in Hf. destruct (is_sym c) eqn:Es.
  - eexists _, (wr8 m1 s1 0), s1, (s1 + 1). split; [reflexivity|]. split; [|split; [|split; [|unfold s1; lia]]].
    + split; [done|]. split; [unfold s1; lia|]. exists r. cbn [length] in Hh.
      split; [|split; [unfold s1; lia|]; split; [done|]; split; [lia|done]].
      eapply cstr_ext; [|exact Hc2]. intros x Hx. unfold wr8. by rewrite fn_lookup_insert_ne by lia.
    + intros x Hx. unfold wr8. rewrite fn_lookup_insert_ne by (unfold s1; lia). auto.
    + intros _. destruct k as [|a k]; [unfold s1; rewrite Z.add_0_r, rd8_wr8; by rewrite Z.eqb_refl|].
      rewrite rd8_wr8_ne by (unfold s1; cbn [length]; lia). by apply Hz.
  - destruct (split_run plain r) as (w & e & -> & Hw & He). cbn [length] in Hh. rewrite length_app in Hf, Hh.
    assert (plain c = true) as Hp by (unfold plain; by rewrite Hr, Es).
    rewrite (skip_word_end (c :: w) e) with (m := m1); [|by constructor|by destruct e|cbn; lia|done].
    eexists _, m1, s1, _. split; [reflexivity|].
    split; [|split; [done|split; [|right; unfold s1; cbn [length]; lia]]].
    + change ([] ++ [c]) with [c]. rewrite (lex_word w [c] e) by (done || by destruct e). split; [done|]. split; [unfold s1; lia|]. exists e.
      split; [by apply (cstr_app m1 (c :: w))|]. split; [unfold s1; cbn [length]; lia|]. split; [done|]. split; [lia|]. split; [done|].
      split; [by apply (cstr_word_at m1 (c :: w) e)|]. split; [done|]. split; [unfold s1; lia|by destruct e].
    + intros Hend. destruct k as [|a k]; [cbn in Hend; by rewrite Hp in Hend|by apply Hz].
Qed.

(** What [gettoken] has to hand out. *)
Definition ahead (u : shell) (ts : list token) : Prop := lookahead (smem u) (nc u) (np1 u) (np2 u) ts.

(** [t] has been handed out with pointer [p], and no later call changes it. *)
Definition given (u : shell) (p : Z) (t : token) : Prop :=
  match t with
  | Sym _ => True
  | Word w => cstr (smem u) p w /\ lo <= p /\ p + Z.of_nat (length w) <= hi /\ (np2 u = 0 \/ p + Z.of_nat (length w) < np2 u)
  end.

Lemma gettoken_start_ahead l u : lo + Z.of_nat (length l) = hi -> cstr (smem u) lo l -> (length l < fuel)%nat ->
  exists m c p1 p2, gettoken_start lo u = Ok 0 (set_token m c p1 p2 u) /\ ahead (set_token m c p1 p2 u) (lex [] l)
    /\ forall x, x < lo -> m x = smem u x.
Proof.
  intros Hh Hc Hf. unfold gettoken_start.
  destruct (gettoken_reads (smem u) lo l (np1 u) (np2 u) ltac:(lia) Hh Hc Hf) as (c & m & p1 & p2 & -> & Ha & Hx & _).
  by exists m, c, p1, p2.
Qed.

Lemma gettoken_next u ts : ahead u ts ->
  exists m c p1 p2, let u' := set_token m c p1 p2 u in
    gettoken u = Ok (match ts with [] => 0 | t :: _ => kind t end, np1 u) u'
    /\ ahead u' (tail ts) /\ (forall t, head ts = Some t -> given u' (np1 u) t)
    /\ forall p t, given u p t -> given u' p t.
Proof.
  intros Ha. destruct ts as [|t ts].
  - destruct Ha as [E0 E2]. exists (smem u), 0, (np1 u), 0. unfold gettoken, _gettoken. rewrite E2, E0. cbn.
    split; [done|]. split; [done|]. split; [done|]. intros p [c|w]; [done|]. cbn. tauto.
  - destruct Ha as (Ec & H2 & l & Hc & Hh & Hl & Hf & Ht). unfold gettoken.
    destruct (gettoken_reads (smem u) (np2 u) l (np1 u) (np2 u) H2 Hh Hc Hf) as (c & m & p1 & p2 & -> & Ha & Hx & H0 & Hp).
    exists m, c, p1, p2. cbv zeta. split; [by rewrite Ec|]. split; [by rewrite <- Hl|]. split.
    + intros t' [= <-]. destruct t as [c'|w]; [done|]. destruct Ht as (Hw & Hwa & Ep & Hp1 & He).
      split; [|split; [done|split; [lia|cbn; lia]]]. eapply word_at_cstr; [exact Hwa|intros x Hx'; apply Hx; lia|]. rewrite <- Ep. by apply H0.
    + intros p [c'|w]; [done|]. intros (Hw & Hp0 & Hph & Hlt). split; [|split; [done|split; [done|cbn; lia]]].
      eapply cstr_ext; [|exact Hw]. intros x Hx'. apply Hx. lia.
Qed.

(** [n] calls. *)
Fixpoint get_tokens (n : nat) : M shell (list (Z * Z)) :=
  match n with
  | O => mret []
  | S n => let! x := gettoken in let! l := get_tokens n in mret (x :: l)
  end.

Lemma get_tokens_ahead ts : forall u k, ahead u ts ->
  exists l u', get_tokens (length ts + k) u = Ok l u' /\ (forall p t, given u p t -> given u' p t)
    /\ Forall2 (fun x t => x.1 = kind t /\ given u' x.2 t) (take (length ts) l) ts
    /\ Forall (fun x => x.1 = 0) (drop (length ts) l) /\ length l = (length ts + k)%nat.
Proof.
  induction ts as [|t ts IH]; intros u k Ha.
  - revert u Ha. induction k as [|k IHk]; intros u Ha.
    + exists [], u. repeat split; done || by constructor.
    + destruct (gettoken_next u [] Ha) as (m & c & p1 & p2 & E & Ha' & _ & Hg).
      cbn [length Nat.add get_tokens]. unfold mbind at 1. rewrite E.
      destruct (IHk _ Ha') as (l & u' & E' & Hg' & _ & Hd & Hl). cbn [length Nat.add] in E'. unfold mbind. rewrite E'.
      eexists _, u'. split; [reflexivity|]. split; [auto|]. split; [done|]. cbn in *. split; [by constructor|lia].
  - destruct (gettoken_next u (t :: ts) Ha) as (m & c & p1 & p2 & E & Ha' & Ht & Hg).
    cbn [length Nat.add get_tokens]. unfold mbind at 1. rewrite E.
    destruct (IH _ k Ha') as (l & u' & E' & Hg' & Hf & Hd & Hl). unfold mbind. rewrite E'.
    eexists _, u'. split; [reflexivity|]. split; [auto|]. cbn [take drop]. split; [|split; [done|cbn; lia]].
    constructor; [|done]. split; [done|]. cbn [snd]. apply Hg'. by apply Ht.
Qed.

(** ** Commands *)

Context (Hfu : hi - lo + 1 < Z.of_nat fuel).

(** A word of the command or a redirection, with the descriptor the file server
    gives it. *)
Inductive item :=
| Arg (w : list Z)
| In (f : list Z) (fd : Z)
| Out (f : list Z) (fd : Z).

Definition item_tokens (i : item) : list token :=
  match i with Arg w => [Word w] | In f _ => [Sym 60; Word f] | Out f _ => [Sym 62; Word f] end.

Definition item_args (i : item) : list (list Z) := match i with Arg w => [w] | _ => [] end.

Definition item_fds (i : item) : list Z := match i with Arg _ => [] | In _ fd => [fd] | Out _ fd => [fd] end.

Definition move_calls (fd n : Z) : list call := if fd =? n then [] else [Dup fd n; Close fd].

(** [O_RDONLY] is 0 and [O_WRONLY|O_CREAT|O_TRUNC] is 769. *)
Definition item_calls (i : item) : list call :=
  match i with
  | Arg _ => []
  | In f fd => Open f 0 :: move_calls fd 0
  | Out f fd => Open f 769 :: move_calls fd 1
  end.

Definition argv_at (u : shell) (ps : list Z) (ws : list (list Z)) : Prop := Forall2 (fun p w => given u p (Word w)) ps ws.

Lemma take_str_cstr m w : forall n p, (length w < n)%nat -> cstr m p w -> take_str n m p = Some w.
Proof.
  induction w as [|c w IH]; intros [|n] p Hn; cbn [length cstr] in *; try lia; cbn [take_str].
  - by intros ->.
  - intros (-> & Hc & Hw). rewrite (proj2 (Z.eqb_neq c 0)) by done. by rewrite IH by (done || lia).
Qed.

Lemma string_at_given u p w : given u p (Word w) -> string_at p u = Ok w u.
Proof. intros (Hc & Hl & Hh & _). unfold string_at. by rewrite (take_str_cstr _ w) by (done || lia). Qed.

Lemma move_fd_calls fd n u : move_fd fd n u
  = Ok tt (mkShell (smem u) (nc u) (np1 u) (np2 u) (answers u) (calls u ++ move_calls fd n)).
Proof.
  unfold move_fd, move_calls. destruct (fd =? n); cbn [negb]; [rewrite app_nil_r; by destruct u|].
  unfold mbind, emit, mmodify, add_call. cbn. by rewrite <- app_assoc.
Qed.

Lemma redirect_opens mode n e1 e2 u f ts fd rest : ahead u (Word f :: ts) -> answers u = fd :: rest -> 0 <= fd ->
  exists u', redirect mode n e1 e2 u = Ok (Some tt) u' /\ ahead u' ts /\ (forall p t, given u p t -> given u' p t)
    /\ answers u' = rest /\ calls u' = calls u ++ Open f mode :: move_calls fd n.
Proof.
  intros Ha Hans Hfd. destruct (gettoken_next u _ Ha) as (m & c & p1 & p2 & E & Ha' & Ht & Hg).
  unfold redirect. unfold mbind at 1. rewrite E. cbn [kind Z.eqb Pos.eqb negb].
  unfold mbind at 1. rewrite (string_at_given _ _ f) by (by apply Ht). unfold mbind at 1, ask. unfold mbind at 1.
  cbn [emit mmodify]. unfold answer. cbn [answers add_call set_token]. rewrite Hans.
  rewrite (proj2 (Z.ltb_ge fd 0)) by done. unfold mbind. rewrite move_fd_calls.
  eexists. split; [reflexivity|]. cbn. split; [exact Ha'|]. split; [exact Hg|]. split; [done|]. by rewrite <- app_assoc.
Qed.

Lemma argv_at_mono u u' ps ws : (forall p t, given u p t -> given u' p t) -> argv_at u ps ws -> argv_at u' ps ws.
Proof. intros H Hf. eapply Forall2_impl; [exact Hf|]. intros; by apply H. Qed.

Lemma parse_loop_items its : forall n u ps ws pc rest, ahead u (concat (map item_tokens its)) ->
  answers u = concat (map item_fds its) ++ rest -> Forall (fun fd => 0 <= fd) (concat (map item_fds its)) ->
  argv_at u ps ws -> (length its < n)%nat -> (length ws + length (concat (map item_args its)) <= 16)%nat ->
  exists ps' u', parse_loop n ps pc u = Ok (Some (ps', pc)) u' /\ argv_at u' ps' (ws ++ concat (map item_args its))
    /\ answers u' = rest /\ calls u' = calls u ++ concat (map item_calls its).
Proof.
  induction its as [|i its IH]; intros [|n] u ps ws pc rest Ha Hans Hfd Hargs Hn Hlen; cbn [length] in Hn; try lia.
  - cbn in Ha, Hans. destruct (gettoken_next u [] Ha) as (m & c & p1 & p2 & E & Ha' & _ & Hg).
    cbn [parse_loop]. unfold mbind at 1. rewrite E. cbn. eexists ps, _. split; [reflexivity|].
    rewrite !app_nil_r. split; [by eapply argv_at_mono|done].
  - cbn [map concat] in *. destruct i as [w|f fd|f fd]; cbn [item_tokens item_args item_fds item_calls app] in *;
      (destruct (gettoken_next u _ Ha) as (m & c & p1 & p2 & E & Ha' & Ht & Hg));
      cbn [parse_loop]; unfold mbind at 1; rewrite E; cbn [kind Z.eqb Pos.eqb tail] in *.
    2, 3: apply Forall_cons_1 in Hfd as [Hfd0 Hfd];
      match goal with |- context [redirect ?mode ?k ?e1 ?e2] =>
        destruct (redirect_opens mode k e1 e2 _ f _ fd _ Ha' Hans Hfd0) as (u1 & E1 & Ha1 & Hg1 & Hans1 & Hc1) end;
      unfold mbind at 1; rewrite E1;
      destruct (IH n u1 ps ws pc rest Ha1 Hans1 Hfd) as (ps' & u' & E' & Hargs' & Hr' & Hc');
      [by eapply argv_at_mono; [exact Hg1|eapply argv_at_mono]|lia|done|];
      exists ps', u'; rewrite Hc', Hc1, <- app_assoc; done.
    unfold MAXARGS. rewrite (Forall2_length _ _ _ Hargs). cbn [length] in Hlen. rewrite (proj2 (Z.eqb_neq _ 16)) by lia.
    destruct (IH n _ (ps ++ [np1 u]) (ws ++ [w]) pc rest Ha' Hans Hfd) as (ps' & u' & E' & Hargs' & Hr); [|lia| |].
    + apply Forall2_app; [by eapply argv_at_mono|]. constructor; [by apply Ht|done].
    + rewrite length_app. cbn. lia.
    + exists ps', u'. rewrite <- app_assoc in Hargs'. done.
Qed.

(** The calls that are not messages. *)
Definition is_message (c : call) : bool := match c with Cprintf _ _ => true | _ => false end.

Definition syscalls (l : list call) : list call := List.filter (fun c => negb (is_message c)) l.

Definition logged (u : shell) (cs : list call) (ans : list Z) : shell :=
  mkShell (smem u) (nc u) (np1 u) (np2 u) ans (calls u ++ cs).

(** [f] returns [x], makes the calls [cs] besides messages, and leaves the
    answers [ans]. *)
Definition runs {A} (f : M shell A) (u : shell) (cs : list call) (ans : list Z) (x : A) : Prop :=
  exists cs', f u = Ok x (logged u cs' ans) /\ syscalls cs' = cs.

Lemma syscalls_app l k : syscalls (l ++ k) = syscalls l ++ syscalls k.
Proof. apply List.filter_app. Qed.

Lemma runs_bind {A B} (f : M shell A) (k : A -> M shell B) u cs1 cs2 cs a1 a2 x y :
  runs f u cs1 a1 x -> cs = cs1 ++ cs2 ->
  (forall u', smem u' = smem u -> answers u' = a1 -> runs (k x) u' cs2 a2 y) -> runs (mbind f k) u cs a2 y.
Proof.
  intros (c1 & E1 & <-) -> H. destruct (H (logged u c1 a1) eq_refl eq_refl) as (c2 & E2 & <-).
  exists (c1 ++ c2). unfold mbind. rewrite E1, E2.
  split; [|by rewrite syscalls_app]. unfold logged. cbn. by rewrite app_assoc.
Qed.

Lemma runs_ok {A} (f : M shell A) u ans (x : A) : f u = Ok x u -> answers u = ans -> runs f u [] ans x.
Proof. intros E <-. exists []. split; [|done]. rewrite E. unfold logged. rewrite app_nil_r. by destruct u. Qed.

Lemma runs_emit c u ans : answers u = ans -> runs (emit c) u (syscalls [c]) ans tt.
Proof. intros <-. by exists [c]. Qed.

Lemma runs_dprint f a u ans : answers u = ans -> runs (dprint f a) u [] ans tt.
Proof. unfold dprint. destruct (negb _); [apply (runs_emit (Cprintf f a))|by apply runs_ok]. Qed.

Lemma runs_ask c u r ans : answers u = r :: ans -> is_message c = false -> runs (ask c) u [c] ans r.
Proof.
  intros E Hc. exists [c]. split; [|cbn; by rewrite Hc]. unfold ask, mbind, emit, mmodify, answer, add_call. cbn. by rewrite E.
Qed.

Lemma runs_print_args ps ans : forall u, answers u = ans -> runs (print_args ps) u [] ans tt.
Proof.
  induction ps as [|p ps IH]; intros u Hu; cbn [print_args]; [by apply runs_ok|].
  eapply runs_bind; [by apply (runs_emit (Cprintf " %s" [p]))|done|]. intros u' _. apply IH.
Qed.

Lemma runs_print_command ps u ans : answers u = ans -> runs (print_command ps) u [] ans tt.
Proof.
  intros Hu. unfold print_command. destruct (negb _); [|by apply runs_ok].
  eapply runs_bind; [by apply (runs_emit (Cprintf "[%08x] SPAWN:" [env_id]))|done|]. intros u1 _ Hu1.
  eapply runs_bind; [by apply runs_print_args|done|]. intros u2 _ Hu2. by apply (runs_emit (Cprintf "" [])).
Qed.

(** A wait, between two messages. *)
Lemma runs_wait f a e g b u ans : answers u = ans ->
  runs (do! dprint f a in do! emit (Wait e) in dprint g b) u [Wait e] ans tt.
Proof.
  intros Hu. eapply runs_bind; [by apply runs_dprint|done|]. intros u1 _ Hu1.
  eapply runs_bind; [by apply (runs_emit (Wait e))|done|]. intros u2 _ Hu2. by apply runs_dprint.
Qed.

Definition slashed (w : list Z) : list Z := match w with c :: _ => if c =? 47 then w else 47 :: w | [] => [47] end.

Definition wait_calls (b : bool) (r : Z) : list call := if b then [Wait r] else [].

Definition strs (u : shell) (ps : list Z) (ws : list (list Z)) : Prop :=
  Forall2 (fun p w => cstr (smem u) p w /\ (length w < fuel)%nat) ps ws.

Lemma strings_at_runs ps ws u : strs u ps ws -> strings_at ps u = Ok ws u.
Proof.
  induction 1 as [|p w ps ws [Hc Hl] _ IH]; cbn [strings_at]; [done|].
  unfold mbind, string_at. rewrite (take_str_cstr _ w) by done. cbn. by rewrite IH.
Qed.

(** The command is spawned and waited for. *)
Definition spawn_calls (w0 : list Z) (ws : list (list Z)) (r pc : Z) : list call :=
  Spawn w0 (w0 :: ws) :: CloseAll :: wait_calls (0 <=? r) r ++ wait_calls (negb (pc =? 0)) pc ++ [Exit].

Lemma runit_spawns a0 ps w0 ws pc u u1 r ans p0 : add_slash p0 u = Ok a0 u1 ->
  strs u1 (a0 :: ps) (w0 :: ws) -> (length ps < 15)%nat -> answers u1 = r :: ans ->
  exists cs, runit (p0 :: ps) pc u = Ok Exited (logged u1 cs ans) /\ syscalls cs = spawn_calls w0 ws r pc.
Proof.
  intros Ea Hs Hl Hu1. cbn [runit]. unfold mbind at 1. rewrite Ea. cbv beta zeta.
  match goal with |- exists cs, ?f u1 = _ /\ _ => change (runs f u1 (spawn_calls w0 ws r pc) ans Exited) end.
  rewrite Z.geb_leb, (proj2 (Z.leb_gt 16 _)) by (cbn [length]; lia).
  eapply runs_bind; [by apply runs_print_command|done|]. intros u2 Hm2 Hu2.
  assert (strs u2 (a0 :: ps) (w0 :: ws)) as Hs2 by (unfold strs; by rewrite Hm2).
  eapply runs_bind; [by apply runs_ok; [apply strings_at_runs|]|done|]. intros u3 Hm3 Hu3.
  eapply runs_bind; [apply runs_ok; [|exact Hu3]; unfold string_at; rewrite Hm3;
    apply Forall2_cons in Hs2 as [[Hc Hw] _]; by rewrite (take_str_cstr _ w0)|done|]. intros u4 _ Hu4.
  eapply (runs_bind _ _ _ [_]); [by apply runs_ask|done|]. intros u5 _ Hu5.
  eapply (runs_bind _ _ _ []); [|done|].
  { destruct (r <? 0); [by apply (runs_emit (Cprintf "spawn %s: %e" _))|by apply runs_ok]. }
  intros u6 _ Hu6. eapply (runs_bind _ _ _ [_]); [by apply (runs_emit CloseAll)|done|]. intros u7 _ Hu7.
  eapply runs_bind; [|done|].
  { unfold wait_calls. rewrite Z.geb_leb. destruct (0 <=? r); [by apply runs_wait|by apply runs_ok]. }
  intros u8 _ Hu8. eapply runs_bind; [|done|].
  { unfold wait_calls. destruct (negb (pc =? 0)); [by apply runs_wait|by apply runs_ok]. }
  intros u9 _ Hu9. eapply (runs_bind _ _ _ [_] []); [by apply (runs_emit Exit)|done|]. intros u10 _ Hu10. by apply runs_ok.
Qed.

Lemma strcpy_copies l : forall n m d s, (length l < n)%nat -> cstr m s l ->
  d + Z.of_nat (length l) < s \/ s + Z.of_nat (length l) < d ->
  exists m', strcpy n m d s = Some m' /\ cstr m' d l
    /\ forall x, x < d \/ d + Z.of_nat (length l) < x -> m' x = m x.
Proof.
  induction l as [|c l IH]; intros [|n] m d s Hn Hc Hd; cbn [length cstr] in *; try lia; cbn [strcpy].
  - rewrite Hc. cbn. eexists. split; [reflexivity|]. split; [by rewrite rd8_wr8, Z.eqb_refl|].
    intros x Hx. unfold wr8. by rewrite fn_lookup_insert_ne by lia.
  - destruct Hc as (E & Hc0 & Hc). rewrite E, (proj2 (Z.eqb_neq c 0)) by done.
    destruct (IH n (wr8 m d c) (d + 1) (s + 1)) as (m' & -> & Hc' & Ho); [lia| |lia|].
    { eapply cstr_ext; [|exact Hc]. intros x Hx. unfold wr8. by rewrite fn_lookup_insert_ne by lia. }
    exists m'. split; [done|]. split; [|intros x Hx; rewrite Ho by lia; unfold wr8; by rewrite fn_lookup_insert_ne by lia].
    split; [|done]. unfold rd8 at 1. rewrite Ho by lia. change (rd8 (wr8 m d c) d = c). rewrite rd8_wr8, Z.eqb_refl, <- E.
    unfold rd8. apply u8_u8.
Qed.

(** The buffer is apart from the line. *)
Context (Hbuf : argv0buf + BUFSIZ <= lo \/ hi < argv0buf).

Lemma add_slash_adds u p w : given u p (Word w) -> (length w <= 1022)%nat ->
  exists a0 m, add_slash p u = Ok a0 (set_smem m u) /\ cstr m a0 (slashed w)
    /\ forall x, lo <= x <= hi -> m x = smem u x.
Proof.
  intros (Hc & Hl & Hh & _) Hw. unfold add_slash. unfold BUFSIZ in *.
  assert ((rd8 (smem u) p =? 47) = match w with c :: _ => c =? 47 | [] => false end) as ->.
  { destruct w as [|c w]; cbn in Hc; [by rewrite Hc|]. by destruct Hc as (-> & _). }
  destruct (match w with c :: _ => c =? 47 | [] => false end) eqn:Es.
  { exists p, (smem u). split; [by destruct u|]. split; [|done]. destruct w as [|c w]; [done|]. unfold slashed. by rewrite Es. }
  rewrite (strlen_cstr _ w) by (done || lia). rewrite Z.gtb_ltb, (proj2 (Z.ltb_ge 1024 _)) by lia.
  destruct (strcpy_copies w fuel (wr8 (smem u) argv0buf 47) (argv0buf + 1) p) as (m & -> & Hc' & Ho); [lia| |lia|].
  { eapply cstr_ext; [|exact Hc]. intros x Hx. unfold wr8. by rewrite fn_lookup_insert_ne by lia. }
  exists argv0buf, m. split; [done|]. split.
  - replace (slashed w) with (47 :: w) by (destruct w; cbn [slashed]; by rewrite ?Es). split; [|split; [done|done]].
    unfold rd8. rewrite Ho by lia. unfold wr8. by rewrite fn_lookup_insert.
  - intros x Hx. rewrite Ho by lia. unfold wr8. by rewrite fn_lookup_insert_ne by lia.
Qed.

Lemma slashed_length w : (length (slashed w) <= S (length w))%nat.
Proof. destruct w as [|c w]; cbn; [lia|]. destruct (c =? 47); cbn; lia. Qed.

Lemma lex_length l : forall w, (length (lex w l) <= length l + length (flush w))%nat.
Proof.
  induction l as [|c l IH]; intros w; cbn [lex length]; [lia|].
  destruct (is_space c); [rewrite length_app; specialize (IH []); cbn in *; lia|].
  destruct (is_sym c); [rewrite length_app; cbn [length]; specialize (IH []); cbn in *; lia|].
  specialize (IH (w ++ [c])). destruct w; cbn in *; lia.
Qed.

Lemma items_length its : (length its <= length (concat (map item_tokens its)))%nat.
Proof. induction its as [|[] its IH]; cbn; lia. Qed.

(** A line of words and redirections. *)
Lemma runcmd_parsed l u its w0 ws ans : lo + Z.of_nat (length l) = hi -> cstr (smem u) lo l ->
  lex [] l = concat (map item_tokens its) -> concat (map item_args its) = w0 :: ws ->
  answers u = concat (map item_fds its) ++ ans -> Forall (fun fd => 0 <= fd) (concat (map item_fds its)) ->
  (length ws <= 15)%nat ->
  exists p0 ps u1, runcmd lo u = runit (p0 :: ps) 0 u1 /\ argv_at u1 (p0 :: ps) (w0 :: ws)
    /\ answers u1 = ans /\ calls u1 = calls u ++ concat (map item_calls its).
Proof.
  intros Hh Hc Hlex Hargs Hans Hfds Hws.
  destruct (gettoken_start_ahead l u Hh Hc ltac:(lia)) as (m & c & p1 & p2 & Es & Ha & _). rewrite Hlex in Ha.
  unfold runcmd. unfold mbind at 1. rewrite Es.
  destruct (parse_loop_items its (S fuel) _ [] [] 0 ans Ha Hans Hfds) as (ps & u1 & E & Hps & Ha1 & Hc1).
  { constructor. }
  { pose proof (items_length its) as H. rewrite <- Hlex in H. pose proof (lex_length l []). cbn in *. lia. }
  { rewrite Hargs. cbn. lia. }
  rewrite Hargs in Hps. cbn [app] in Hps. unfold mbind at 1. rewrite E.
  destruct ps as [|p0 ps]; [by apply Forall2_nil_inv_l in Hps|]. by exists p0, ps, u1.
Qed.

Lemma runit_runs p0 ps u w0 ws r ans : argv_at u (p0 :: ps) (w0 :: ws) -> answers u = r :: ans ->
  (length w0 <= 1022)%nat -> (length ws < 15)%nat ->
  exists u', runit (p0 :: ps) 0 u = Ok Exited u' /\ answers u' = ans
     /\ syscalls (calls u') = syscalls (calls u) ++ spawn_calls (slashed w0) ws r 0.
Proof.
  intros Hps Hans Hw0 Hn. pose proof (Forall2_length _ _ _ Hps) as El. cbn in El. apply Forall2_cons in Hps as [Hp0 Hps].
  destruct (add_slash_adds u p0 w0 Hp0 Hw0) as (a0 & m2 & Ea & Hca & Hk).
  destruct (runit_spawns a0 ps (slashed w0) ws 0 u (set_smem m2 u) r ans p0 Ea) as (cs & Er & Hcs); [|lia|done|].
  { constructor; [split; [done|pose proof (slashed_length w0); destruct Hp0 as (_ & ? & ? & _); lia]|].
    eapply Forall2_impl; [exact Hps|]. intros p w (Hcw & Hlp & Hhp & _). split; [|lia].
    eapply cstr_ext; [|exact Hcw]. intros x Hx. apply Hk. lia. }
  rewrite Er. eexists. split; [reflexivity|]. split; [done|]. cbn [calls logged set_smem]. by rewrite syscalls_app, Hcs.
Qed.

(** With sixteen words the terminating null pointer does not fit. *)
Lemma runit_too_many p0 ps u w0 ws : argv_at u (p0 :: ps) (w0 :: ws) -> (length w0 <= 1022)%nat -> length ws = 15%nat ->
  exists u', runit (p0 :: ps) 0 u = Undefined "argv: index out of bounds" u'.
Proof.
  intros Hps Hw0 Hn. pose proof (Forall2_length _ _ _ Hps) as El. cbn in El. apply Forall2_cons in Hps as [Hp0 Hps].
  destruct (add_slash_adds u p0 w0 Hp0 Hw0) as (a0 & m2 & Ea & _). cbn [runit]. unfold mbind at 1. rewrite Ea.
  cbv beta zeta. unfold MAXARGS. cbn [length]. rewrite Z.geb_leb, (proj2 (Z.leb_le 16 _)) by lia. eexists. reflexivity.
Qed.

(** A name of 1023 characters does not fit with its slash and its NUL. *)
Lemma runit_long_name p0 ps u w0 ws : argv_at u (p0 :: ps) (w0 :: ws) -> (1022 < length w0)%nat -> head w0 <> Some 47 ->
  exists u', runit (p0 :: ps) 0 u = Undefined "argv0buf: overrun" u'.
Proof.
  intros Hps Hw0 Hh. apply Forall2_cons in Hps as [(Hc & Hlp & Hhp & _) _].
  cbn [runit]. unfold mbind at 1, add_slash. destruct w0 as [|c w0]; [cbn in Hw0; lia|].
  rewrite (proj1 Hc). rewrite (proj2 (Z.eqb_neq c 47)) by (intros ->; by apply Hh).
  rewrite (strlen_cstr _ (c :: w0)) by (done || lia). unfold BUFSIZ. rewrite Z.gtb_ltb, (proj2 (Z.ltb_lt 1024 _)) by lia.
  eexists. reflexivity.
Qed.

End shell.

(** C10: [gettoken] splits a line into the tokens of [lex].  After
    [gettoken(s, 0)] the calls return the tokens of the string at [s] in order and
    then 0 for ever, and each word that has been returned is, then and after all
    later calls, a terminated string at its pointer, although the line is cut up
    in place and one token ahead. *)
Theorem gettoken_lex (fuel : nat) (s : Z) (l : list Z) (k : nat) (u : shell) :
  0 < s -> cstr (smem u) s l -> (length l < fuel)%nat ->
  let ts := lex [] l in
  exists out u', (let! _ := gettoken_start fuel s in get_tokens fuel (length ts + k)) u = Ok out u'
    /\ length out = (length ts + k)%nat
    /\ Forall2 (fun x t => x.1 = kind t /\ match t with Sym _ => True | Word w => cstr (smem u') x.2 w end)
         (take (length ts) out) ts
    /\ Forall (fun x => x.1 = 0) (drop (length ts) out).
Proof.
  intros Hs Hc Hf ts.
  destruct (gettoken_start_ahead fuel s (s + Z.of_nat (length l)) Hs l u eq_refl Hc Hf) as (m & c & p1 & p2 & E & Ha & _).
  destruct (get_tokens_ahead fuel s (s + Z.of_nat (length l)) Hs ts _ k Ha) as (out & u' & E' & _ & Hg & Hd & Hl).
  exists out, u'. unfold mbind. rewrite E. split; [done|]. split; [done|]. split; [|done].
  eapply Forall2_impl; [exact Hg|]. intros x [d|w] [H1 H2]; split; try done. apply H2.
Qed.

(** C11: [runcmd] runs the command of a line of words and redirections.  When
    the files open, it makes exactly these calls besides messages: each file is
    opened and becomes standard input or output, in the order of the line; then
    the first word, with "/" in front unless it has one, is spawned with all
    words as its arguments, the descriptors are closed, the child is waited for
    if there is one, and the shell exits.  The two arrays of [runcmd] have an end
    each: with sixteen words the code stores [argv[16]], and a first word of more
    than 1022 characters runs past [argv0buf]. *)
Theorem runcmd_runs (fuel : nat) (debug argv0buf env_id s r : Z) (l w0 : list Z) (ws : list (list Z))
    (its : list item) (ans : list Z) (u : shell) :
  0 < s -> cstr (smem u) s l -> Z.of_nat (length l) + 1 < Z.of_nat fuel ->
  argv0buf + BUFSIZ <= s \/ s + Z.of_nat (length l) < argv0buf ->
  lex [] l = concat (map item_tokens its) -> concat (map item_args its) = w0 :: ws ->
  answers u = concat (map item_fds its) ++ r :: ans -> Forall (fun fd => 0 <= fd) (concat (map item_fds its)) ->
  (length ws <= 15)%nat ->
  ((length w0 <= 1022)%nat -> (length ws < 15)%nat ->
     exists u', runcmd fuel debug argv0buf env_id s u = Ok Exited u' /\ answers u' = ans
       /\ syscalls (calls u') = syscalls (calls u) ++ syscalls (concat (map item_calls its))
            ++ spawn_calls (slashed w0) ws r 0)
  /\ ((length w0 <= 1022)%nat -> length ws = 15%nat ->
     exists u', runcmd fuel debug argv0buf env_id s u = Undefined "argv: index out of bounds" u')
  /\ ((1022 < length w0)%nat -> head w0 <> Some 47 ->
     exists u', runcmd fuel debug argv0buf env_id s u = Undefined "argv0buf: overrun" u').
Proof.
  intros Hs Hc Hf Hb Hlex Hargs Hans Hfds Hws. set (hi := s + Z.of_nat (length l)).
  assert (hi - s + 1 < Z.of_nat fuel) as Hfu by (unfold hi; lia).
  destruct (runcmd_parsed fuel debug argv0buf env_id s hi Hs Hfu l u its w0 ws (r :: ans))
    as (p0 & ps & u1 & -> & Hps & Ha & Hcs); try done.
  split; [|split]; intros Hw Hn.
  - destruct (runit_runs fuel debug argv0buf env_id s hi Hfu Hb p0 ps u1 w0 ws r ans) as (u' & E & Ha' & Hc'); try done.
    exists u'. split; [done|]. split; [done|]. by rewrite Hc', Hcs, syscalls_app, <- app_assoc.
  - by eapply runit_too_many.
  - by eapply runit_long_name.
Qed.

Definition ex_line : list Z := chars "sort -r <in>out".

Definition ex_shell : shell := mkShell (wrbytes (fun _ => 0) 5000 (ex_line ++ [0])) 0 0 0 [3; 1; 4105] [].

Lemma ex_cstr : cstr (smem ex_shell) 5000 ex_line.
Proof. apply cstr_wrbytes. by apply (bool_decide_unpack _). Qed.

Lemma gettoken_lex_witness : exists p u', (let! _ := gettoken_start 100 5000 in get_tokens 100 7) ex_shell = Ok p u'
  /\ map fst p = [119; 119; 60; 119; 62; 119; 0].
Proof.
  destruct (gettoken_lex 100 5000 ex_line 1 ex_shell) as (out & u' & E & _ & _ & _).
  - reflexivity.
  - exact ex_cstr.
  - apply Nat.ltb_lt. reflexivity.
  - exists out, u'. split; [exact E|]. change (length (lex [] ex_line) + 1)%nat with 7%nat in E.
    vm_compute in E. injection E as <- <-. reflexivity.
Defined.

Lemma runcmd_runs_witness : exists u', runcmd 100 1 1000 4096 5000 ex_shell = Ok Exited u'
  /\ syscalls (calls u') = [Open (chars "in") 0; Dup 3 0; Close 3; Open (chars "out") 769;
       Spawn (chars "/sort") [chars "/sort"; chars "-r"]; CloseAll; Wait 4105; Exit].
Proof.
  destruct (runcmd_runs 100 1 1000 4096 5000 4105 ex_line (chars "sort") [chars "-r"]
    [Arg (chars "sort"); Arg (chars "-r"); In (chars "in") 3; Out (chars "out") 1] [] ex_shell) as [H _].
  - reflexivity.
  - exact ex_cstr.
  - reflexivity.
  - left. discriminate.
  - vm_compute. reflexivity.
  - reflexivity.
  - reflexivity.
  - apply Forall_cons_2; [discriminate|]. apply Forall_cons_2; [discriminate|]. apply Forall_nil_2.
  - apply Nat.leb_le. reflexivity.
  - destruct H as (u' & E & _ & Hc).
    + apply Nat.leb_le. reflexivity.
    + apply Nat.ltb_lt. reflexivity.
    + exists u'. split; [exact E|]. rewrite Hc. reflexivity.
Defined.

End Shell.
